(* ===== verification/_CoqProject ===== *)
-Q . S2P
Prelude.v
GoStrings.v
Sql.v
Utf8.v
Unicode.v
Crypto.v
Json.v
GoTime.v
Model.v
Control.v
Normalize.v
LiveEvent.v
NotifierFormat.v
MinimalTables.v
CoreTables.v
Store.v
StoreNotifier.v
Daemon.v
NotifierObserver.v
Delivery.v
Queue.v
QueueSafety.v
NotifierPipeline.v
LinkedThread.v
NotifierIngress.v
MinimalSplit.v
PendingCommands.v
Continuations.v
Voice.v
Observations.v
Threads.v
Approvals.v
ApprovalSafety.v
Writers.v
DeliveryWorker.v
Panels.v
TerminalGate.v
Projects.v
ApprovalHandlers.v
ApprovalDelivery.v
LinkWorkers.v
Routing.v
Starts.v
Router.v
RouterSafety.v
Drain.v
TgFormat.v
Terminal.v
TerminalReport.v
TerminalRelease.v
LiveTools.v
Polling.v
PollingSafety.v
Catalog.v
CatalogSafety.v
PickerSafety.v
Submit.v
SubmitSafety.v
LiveEvents.v
MinimalIngress.v
Commands.v
TelegramBot.v
TelegramText.v
IngressSafety.v
BotSafety.v
ClientCalls.v
Client.v
ClientSafety.v
