(* ===== verification/Prelude.v ===== *)
(** * Verification of the Codex-to-Telegram bridge: root of the library

    ** The program

    The bridge (Go, under src/) lets its owner follow Codex from Telegram.  Codex App
    Server is a child process that speaks JSON-RPC; the bridge polls it for threads
    and listens to its notifications, turns both into regular values, decides which
    turns have newly finished, and queues one message per finished turn in a SQLite
    database.  A delivery worker sends what is queued, with retries.  Commands come
    back from Telegram.  In the notifier profile, which this library follows from end
    to end, the path is
<<
      App Server --thread/list, thread/read--> notifier_observer.go
          --EnqueueTerminalEvent--> store.go --ClaimDeliveryBatch-->
          processDeliveryBatch --> Telegram
      Telegram --commands--> notifier_ingress.go --> store.go (state)
>>
    In the minimal profile the same store also keeps threads the user may reply to.  A
    text becomes a turn of the thread, of a conversation forked from it when Codex on the
    PC owns it, or a command that waits until the running turn ends; a voice message is
    transcribed and becomes a text when its button is pressed.
<<
      Telegram --getUpdates--> bot.go --text, voice, button-->
          minimal_ingress.go, minimal_voice.go
          --> minimal_thread_picker.go (project and thread of the chat)
          --> minimal_router.go, minimal_link_routing.go
              --> minimal_continuation.go --> worker session (minimal_link_worker.go)
                  --> App Server: thread/resume, thread/fork, turn/start
              --> pending_commands --drainNextLocked--> the same starts
      pollLoop (service.go) --thread/list, thread/read--> terminal_gate.go
          --handleTerminalSnapshot--> minimal_observer.go --> queue, drain
      App Server --approval request--> minimal_approval.go --> Telegram --button--> answer
>>
    ** The files

    Foundations: what the Go standard library does, as functions that compute.
    - Prelude: results [res] (Go's (T, error)), their bind, lists, sorting.
    - GoStrings: package strings, strconv and path on byte strings.
    - Sql: tables as lists of rows, UPDATE and INSERT, transactions [Tx] that an error
      undoes, with the lemmas that lift a property of the statements to a transaction.
    - Utf8: []rune(s), string(runes), UTF-16 widths.
    - Unicode: strings.ToLower, by the simple lower-case mapping of Unicode 15.0.
    - Crypto: SHA-1, SHA-256 and hex, 32-bit words with wrap-around.
    - GoTime: instants in nanoseconds, their RFC 3339 text, time.Parse.
    - Json: decoded JSON as [any]; the readers of daemon/payload.go and of
      appserver/client.go.

    The data and its reading.
    - Model: internal/model (types.go, minimal.go, notifier.go).
    - Control: internal/control (events, capabilities, notification severities).
    - Normalize: internal/appserver/normalize.go.  SnapshotFromThreadRead,
      CompactSnapshot, DiffSnapshot, NormalizeLiveNotification, pending approvals.
    - LiveEvent: internal/appserver/live_event.go.
    - NotifierFormat: internal/daemon/notifier_format.go.
    - Projects: internal/projectregistry/registry.go.

    The store.  [Store] is the tables of one SQLite file.
    - Store: the delivery queue as its rows in id order with the next id, terminal
      events, attempts, message routes, daemon state (internal/storage/store.go).
    - MinimalTables, CoreTables: the other tables, as records inside [Store].
    - StoreNotifier: internal/storage/store_notifier.go.
    - Threads: threads, snapshots, bindings, buttons and routes of store.go, and their
      migration to protected payloads.
    - Approvals: pending and minimal approvals (store.go).
    - LinkedThread, PendingCommands, Continuations, Voice, Observations: the parts of
      internal/storage/store_minimal.go.
    - Panels: internal/storage/store_panels.go.

    The daemon.
    - Daemon: the monad of its handlers, which stop at the first error and keep what
      was written before it.
    - NotifierObserver: internal/daemon/notifier_observer.go.
    - NotifierIngress: internal/daemon/notifier_ingress.go with the notifier's branch of
      minimal_ingress.go.
    - Delivery: processDeliveryBatch and its helpers in internal/daemon/service.go.
    - MinimalSplit: splitMinimalRendered in internal/daemon/minimal_observer.go.
    - TerminalGate: internal/daemon/terminal_gate.go.
    - ApprovalHandlers, ApprovalDelivery: internal/daemon/minimal_approval.go, from the
      request of App Server to its message, a press, its answer and its end.
    - LinkWorkers: internal/daemon/minimal_link_worker.go.  The manager of the worker
      sessions is a heap of workers and the maps over it; an operation is its critical
      sections, for a caller alone and, as the step relation [worker_step], for callers
      that interleave.
    - Routing: which turn a reply continues and whether it goes to the linked
      conversation (minimal_link_routing.go, parts of minimal_router.go).
    - Starts: every way the router starts a turn (minimal_continuation.go), on a
      [RouterWorld]: the store, the manager, and the logs of calls and messages.
    - Router: the drain of the commands that wait (minimal_router.go).
    - TgFormat: internal/tgformat/markdown.go.
    - Terminal: internal/daemon/minimal_observer.go, handleTerminalSnapshot, and the part
      of /repair that finishes a release.
    - LiveTools: what service.go merges a read of a thread with.
    - Polling: a cycle of pollLoop and refreshThreadForOperation (service.go), under the
      minimal profile.
    - Catalog: minimal_thread_catalog.go, minimal_thread_picker.go and the project picker
      of minimal_ingress.go, with the monad [W] of functions on a [RouterWorld] that may
      fail and may not return.
    - Submit: Submit and SubmitResolved of minimal_router.go, down to Starts and Router.
    - LiveEvents: what the live session (handleLiveEvent, service.go) and the session of a
      worker (handleMinimalLinkedWorkerEvent) notify, under the minimal profile.
    - MinimalIngress: minimal_voice.go, the minimal profile of HandleInboundText
      (minimal_ingress.go) and HandleCallback, and RegisterDirectDelivery (service.go).
    - Commands: /status, /repair and the answers to questions of that profile
      (service.go), which make its two entry points whole.

    Telegram, internal/telegram.
    - TelegramBot: the requests of api.go with what is read of their answers, and bot.go:
      the pieces of a text, what is sent, what is done with an update, and Run.  It acts on
      a [BotWorld]: the world of the service, the requests made, the updates handed on.
      The service is a [BotService], of which the two profiles are instances.
    - TelegramText: what the pieces of a text keep of it.

    The client of App Server, internal/appserver/client.go.
    - ClientCalls: the methods of the client, what each sends and what is read of its
      answer; turn/start with its options.
    - Client: the session: pending calls, requests of App Server, subscribers,
      generations.  Its functions are the critical sections under the client's mutex, and
      [client_step] interleaves them with the callers that wait, the channels they wait on
      and what is left to do outside the mutex.

    Specifications and refinements.
    - Queue: the delivery queue as a state machine.  [queue_step] is one operation of the
      queue as the daemon may call it, [Inv] the invariant, with one preservation lemma
      per operation.
    - QueueSafety: what follows from the invariant.
    - NotifierPipeline: the observer refines the state machine and is complete.
    - ApprovalSafety: the invariant of the approval tables and what follows from it.
    - Writers: the queue and the linked threads with all of their writers.  [step] is a
      step of the queue or one of the transactions of store.go on approvals and links that
      write delivery_queue, [reachable] its closure from the empty tables, [linked_step]
      one operation on minimal_linked_threads: of the worker (LinkedThread's
      [link_worker_step]), the release with its ready notice, the adoption, the activation.
    - DeliveryWorker: one attempt on a row refines the machine too; ApprovalDelivery has
      the whole batch, with the rows of approvals.
    - RouterSafety: what a start may do to the store, the workers and App Server,
      lemma by lemma along the functions of Starts.
    - Drain: the drain, on top of it.
    - TerminalReport: the report of a turn's end refines the queue's machine.
    - TerminalRelease: when the worker of a linked conversation counts as released.
    - PollingSafety: what a poll may do to the store, and a cycle as a run of the workers.
    - CatalogSafety, PickerSafety: pages, buttons and bindings.
    - SubmitSafety: a submission as a run of the workers.
    - IngressSafety: the whole minimal profile.  [bridge_step] is one text, voice message,
      command, press, message that was sent or not, poll, notification or batch of
      deliveries, and the theorems hold after any sequence of them.
    - BotSafety: what the bot does with updates is a run of [bridge_step], and what
      Telegram is sent.
    - ClientSafety: what holds in every state that [client_step] reaches.

    A definition has the name of the Go function it translates; a helper without a
    counterpart stands for a statement of SQL, a loop body or a condition, and sits
    next to its user.  Record fields have the Go names behind a short prefix.

    ** What the theorems show

    - Exactly once, in order, never lost: a terminal event is recorded once
      (terminal_event_once), a delivered or dead row stays so and no row goes away
      (queue_rows_final), the messages of an event start in order and an event counts
      as delivered with its last message (terminal_event_order), a claim takes the first
      rows that may be sent and no other (ClaimDeliveryBatch_spec), a group dies as one
      (FailDelivery_dead).  All but queue_rows_final hold whatever the approvals and the
      releases write between.  ended_row_blocks shows what becomes of a row that is ended
      while it is sent.
    - At rest: payloads of live rows are protected and readable, those of finished rows
      are erased (payloads_protected), opening the store recovers the rows that a
      crash left in processing (reopen_recovers), and the migration protects buttons
      and approvals without changing what they read as (migrate_protects).
    - Refinement: a notifier cycle and a delivery batch, wherever they fail, are
      sequences of steps of the queue (notifier_cycle_refines, processDeliveryBatch_spec),
      the batch of those of the approvals too, and every row it claims is settled but for
      the message of an approval that is no longer open; the
      pending commands are a fair backlog (pending_commands_refine,
      ClaimPendingCommand_fifo); a drain, the end of a turn, a submission and a cycle of
      the polling are runs of the workers' machine (drain_runs_workers,
      terminal_runs_workers, submit_runs_workers, cycle_runs_workers).
    - The whole minimal profile: after any sequence of texts, voice messages, presses,
      sent messages, polls, notifications and deliveries, every turn of the bridge is
      sandboxed in a registered project and the workers are in a reachable state
      (bridge_safe); and the request that App Server is sent for such a turn carries that
      sandbox (turn_request_sandboxed).  What the bot does with the updates of Telegram is
      such a sequence (bot_updates_bridge).
    - The bot: every update is handed on once and in order (updates_handled_once), nothing
      is done for strangers (strangers_ignored), a text is sent in messages of at most 4096
      runes that, when all were sent, carry the whole of a text that is valid UTF-8
      (SendMessage_spec), and the buttons of a voice message work only on the message that
      shows them (voice_buttons_follow_message).  blank_chunk shows a piece that is empty,
      which Telegram refuses.
    - The client of App Server: no response reaches another call, no channel is used twice
      (client_calls_safe), what is left to do when a session is over comes to an end and
      leaves none of its calls waiting (close_answers_all),
      and a request of App Server is answered at most once (server_requests_answered_once).
      failed_write_leaks shows an entry that stays behind.
    - The observer: a poll queues every newly finished turn and nothing else
      (pollNotifierThread_complete), queues none twice after a crash
      (pollNotifierThread_replay), drops none while it cannot deliver
      (pollNotifierThread_waits), and goes on past threads it cannot read
      (pollDue_isolates).  The new turns are characterised
      (notifierTerminalSnapshotsSince_spec), and so is what the store schedules
      (RecordNotifierRead_settles, DeferNotifierRead_spec, the lists, the baseline,
      the activation and the migration).  The terminal gate defers as its reference
      says (gate_run_reference).
    - Approvals: buttons, claims and requests stay consistent, and only
      RestoreMinimalApprovalClaim gives a claim up (approvals_safe), one press
      claims (ClaimMinimalApproval_spec), a request is answered at most once however
      presses interleave (answered_once), a press does what its button says
      (handleMinimalApprovalCallback_spec), and every delivery of a request settles
      (processApprovalDelivery_settles).
    - Linked threads: a worker generation excludes the others and stale calls do
      nothing (linked_worker_exclusive, stale_worker_fenced); queueing the answer and
      releasing the worker are one transaction (terminal_release_atomic); a continuation
      moves only forward and its fork is for ever its own (continuation_history).
    - Workers: an active worker shares nothing with another (workers_exclusive), no
      session is lost track of (sessions_never_leak), a confirmed release has a closed
      session (confirmed_release_closed), and shutting down is final (CloseAll_final).
    - The router: the source of a reply (resolveSourceAnchor_spec), the order of the
      turns that decides about a link (linked_route_in_order) and that nothing happens to
      a reply it refuses (reply_joins_in_order), and the drain: sandboxed, one turn at
      most, no claim left behind (drainNextLocked_safe), and it returns
      (drainNextLocked_returns, when nothing continues a thread under its own id).  Two of its failures are shown on a concrete world
      (lost_turns_started_twice, unreadable_command_blocks).
    - The polling: the late end of an older turn is ignored by a refresh and by a poll, but
      for what a poll does with any read (stale_read_ignored), the
      discovery skips no page that it could not store (discovery_skips_nothing), and which
      threads are read (trackedThreads_spec).
    - The picker: a listing returns (minimalAllProjectThreads_returns), its pages show
      every thread once (pages_partition), a button selects the thread it stands beside
      (page_row_selects), and a chat is bound only to a thread that was read in its
      project (press_binds_read_thread).
    - The end of a turn: its report is steps of the queue's machine
      (projectMinimalTerminal_refines), a failed one can be tried again
      (projection_error_retried), a report without error has reported
      (projection_recorded), and its messages fit Telegram (terminal_messages_fit).  A link
      becomes ready only behind a closed worker (ready_only_after_close) and does so when
      the worker closes or has been closed (releaseMinimalTerminalWorker_spec); the whole is a run of the
      workers' machine (terminal_runs_workers).  unmarked_turn_lost shows an end that is
      lost.
    - Voice, pickers and panels: a voice command runs at most once (voice_consumed_once,
      voice_command_once), a picker button is pressed once (picker_pressed_once), a chat
      has one current panel (panels_one_current).
    - Reading App Server: reading a thread is total (SnapshotFromThreadRead_total),
      finished turns show as such, unchanged threads are silent
      (DiffSnapshot_CompactSnapshot), live events are well formed.
    - Telegram: unauthorised messages change nothing, /start sets the target, /repair
      pauses the polling; messages are split within the limit with every entity kept
      (splitMinimalRendered_spec); rendering puts segments side by side
      (RenderSegments_spec) and the hash of a message determines it (HashRendered_inj);
      the notification has at most six lines.
    - The registry: what it accepts (New_spec) and what it finds (MatchCWD_spec).
    - Round trips and bounds: parseTime_format, callback_roundtrip, thread_roundtrip,
      retryBackoff_bounds, minimalApprovalPresentation_bounded, stripLoop_done.

    ** Bounds and fuel

    Integers are Z; those the code keeps in an int64 and can overflow are wrapped
    ([wrap64] in retryBackoff, the generation of a worker modulo 2^64) or checked as
    the code checks them.  stripLoop has the length of its line as fuel, which each
    round shortens (stripLoop_done).  splitMinimalRendered has the number of runes,
    which is enough for any limit of two or more; below that the Go loop may not end
    (split_from_diverges).  The block splitting of Crypto and the trimming of zeros in
    Json have the length of their data.  drainNextLocked has one round more than the
    commands that wait for its thread; drainNextLocked_returns says when that is
    enough.  minimalAllProjectThreads follows [ps_Pages] pages, and one more than App
    Server has cursors is enough (minimalAllProjectThreads_returns): the code refuses a
    cursor that comes back.  None is the result of what does not return, and theorems
    about [W] that have an answer as a hypothesis say nothing of it.  A delivery backoff is at most sixteen times its base, a cycle reads at
    most [notifierThreadReadBatchLimit] threads, a summary has at most 300 runes.

    ** What is assumed

    - securestore's DPAPI is the [Protector] of Store with the laws [ProtectorLaws]:
      what it protects it reads back, in its envelope.  plainProtector is an instance.
    - App Server's answers, Telegram's sends, the JSON encoding of a payload, the
      cancellation of the context, random tokens and the redaction of diagnostics are
      arguments; theorems hold for any of them.  The functions of path/filepath and os
      are a [Platform], and the texts %q makes of a path stay data.
    - SQLite does each transaction as a whole and reports no I/O error; TEXT compares
      byte by byte, lower() folds ASCII.  The tables have their final schema, and a
      row refers to rows that exist where a foreign key says so.  An operation reads
      the clock once.  Where the code has a hook for a store function (the Router's
      persistThread and the three next to it), the hook may fail.
    - The JSON of a snapshot or of the gate's state reads back as what it was made from;
      object keys are distinct, and a number is the decimal it was written as.
    - A request id is not used again for another turn while its approval is open; the
      request ids of minimal_approvals are distinct, as its primary key has it.
    - A row of the queue in hand is completed, or put back for another attempt, while it is
      still claimed ([queue_step], [step]); a row that another writer ended meanwhile may
      only die.  The code does not check it: ended_row_blocks.  A batch of deliveries is one
      operation, with no other writer in between.
    - App Server never gives a fork the id of its source (drainNextLocked_returns).
    - The Markdown library is a [Tgmd] with the laws [TgmdLaws]; plainTgmd is an instance.
    - Fewer than 2^64 workers are made, and fewer than 2^64 sessions and requests of a
      client.  The interleaving of the worker's callers is at
      their critical sections; the router's operations run one at a time per thread,
      as their locks have it, and a text, a press or a poll is one step: what the locks of
      a chat and of a thread keep apart does not interleave.  A client of App Server, its
      readers and callers interleave at the mutex of the client and at each action outside
      it; a write to the child process succeeds or fails as a whole.
    - Rows of one updated_at come in the order of the map they are in; ListThreads is
      called without a search text.
    - Downloading and transcribing a voice message, editing a message of Telegram and the
      callback payload's JSON are arguments of MinimalIngress, Catalog and Commands.
    - Telegram answers the n-th request by a [TelegramAPI], in HTTP and JSON as decoded.
      For the order of updates only, getUpdates answers updates that come next after the
      offset, in the order of their ids ([serves]).  The offset is kept while Run runs:
      after a restart Telegram answers again what no request has confirmed.
    - The service and the clock do not change while one update is handled.
    - Of two errors joined by errors.Join, the first stands for both.

    ** What is not modelled

    Processes, pipes, HTTP, the registry and files: the start and the exit of App Server
    (buildCommand, waitForCommandExit of appserver/client.go), transcription/, controlapi/, config/, secrets/, compatprobe/, cmd/,
    diagnostics and logs, the creation and upgrade of the tables: what they do lies mostly
    in calls of the system, which have no definition to translate.
    Of telegram/: documents, the download of files, the list of commands, Start, time
    limits and the redaction of logs.
    Of service.go: reconnection and repair of the sessions, the loops that call what is
    modelled, and the handlers of commands and buttons of the panel profile; the panel that
    an answer or a notification asks to synchronise is recorded, not drawn.
    The cards of the panel profile (panels.go, details.go, projects.go,
    visual_identity.go): texts and buttons for a profile that the notifier and minimal
    profiles do not use. *)
From stdpp Require Import base list numbers strings gmap sorting.
From Stdlib Require Import Lia.

(** ** Results

    A Go function that returns [(T, error)] returns a [res T] here: [Ok v] for a
    nil error, [Err e] for a non-nil one.  The message of the error is kept. *)
Inductive res (A : Type) : Type :=
| Ok (a : A)
| Err (e : string).
Arguments Ok {A} a.
Arguments Err {A} e.

Definition res_bind {A B : Type} (m : res A) (k : A -> res B) : res B :=
  match m with
  | Ok a => k a
  | Err e => Err e
  end.

Declare Scope bridge_scope.
Delimit Scope bridge_scope with bridge.
Open Scope bridge_scope.

Notation "'let!' x ':=' m 'in' k" := (res_bind m (fun x => k))
  (at level 10, x pattern, m at level 100, k at level 200)
  : bridge_scope.

Definition is_ok {A : Type} (m : res A) : bool :=
  match m with Ok _ => true | Err _ => false end.

(** ** Machine integers

    Go's [int64] is a [Z] in range, [wrap64] its two's-complement wrap-around. *)
Definition int64_min : Z := (- 2 ^ 63)%Z.
Definition int64_max : Z := (2 ^ 63 - 1)%Z.

Definition in_int64 (z : Z) : bool := ((int64_min <=? z) && (z <=? int64_max))%Z.

Definition wrap64 (z : Z) : Z := ((z + 2 ^ 63) mod 2 ^ 64 - 2 ^ 63)%Z.

(** ** Lists *)

(** The elements after the longest prefix on which [p] holds. *)
Fixpoint drop_while {A : Type} (p : A -> bool) (l : list A) : list A :=
  match l with
  | [] => []
  | x :: r => if p x then drop_while p r else l
  end.

(** The first element on which [f] answers, the shape of a Go [for range] loop
    that returns from its body. *)
Fixpoint first_some {A B : Type} (f : A -> option B) (l : list A) : option B :=
  match l with
  | [] => None
  | x :: r => match f x with Some b => Some b | None => first_some f r end
  end.

(** Insertion sort by a boolean order, stable: the ORDER BY of a query. *)
Fixpoint insert_by {A : Type} (le : A -> A -> bool) (x : A) (l : list A) : list A :=
  match l with
  | [] => [x]
  | y :: r => if le x y then x :: l else y :: insert_by le x r
  end.

Fixpoint sort_by {A : Type} (le : A -> A -> bool) (l : list A) : list A :=
  match l with
  | [] => []
  | x :: r => insert_by le x (sort_by le r)
  end.

(** [last x] of a Go slice, [None] when it is empty. *)
Definition last_of {A : Type} (l : list A) : option A := last l.

(** ** Automation *)
Create HintDb bridge.
Create Rewrite HintDb bridge.

(** Splits every boolean connective and comparison of the hypotheses. *)
Ltac bsimp :=
  repeat match goal with
  | H : (_ && _)%bool = true |- _ => apply andb_prop in H; destruct H
  | H : (_ || _)%bool = false |- _ => apply orb_false_elim in H; destruct H
  | H : negb _ = true |- _ => apply negb_true_iff in H
  | H : negb _ = false |- _ => apply negb_false_iff in H
  | H : (_ <=? _)%Z = true |- _ => apply Z.leb_le in H
  | H : (_ <=? _)%Z = false |- _ => apply Z.leb_gt in H
  | H : (_ <? _)%Z = true |- _ => apply Z.ltb_lt in H
  | H : (_ <? _)%Z = false |- _ => apply Z.ltb_ge in H
  | H : (_ =? _)%Z = true |- _ => apply Z.eqb_eq in H
  | H : (_ =? _)%Z = false |- _ => apply Z.eqb_neq in H
  | H : String.eqb _ _ = true |- _ => apply String.eqb_eq in H
  | H : String.eqb _ _ = false |- _ => apply String.eqb_neq in H
  end.

(** Case analysis on the scrutinee of a match or an if of the goal. *)
Ltac break_match :=
  match goal with
  | |- context [match ?x with _ => _ end] =>
      lazymatch x with
      | context [match _ with _ => _ end] => fail
      | _ => destruct x eqn:?
      end
  end.

Ltac break_match_hyp :=
  match goal with
  | H : context [match ?x with _ => _ end] |- _ =>
      lazymatch x with
      | context [match _ with _ => _ end] => fail
      | _ => destruct x eqn:?
      end
  end.

Ltac crush := repeat (simplify_eq/=; try break_match; try done).

(** ** Lemmas on the generic definitions *)

Lemma drop_while_idemp {A} (p : A -> bool) (l : list A) :
  drop_while p (drop_while p l) = drop_while p l.
Proof.
  induction l as [|x r IH]; simpl; [done|].
  destruct (p x) eqn:E; [done|]. simpl. by rewrite E.
Qed.

Lemma drop_while_suffix {A} (p : A -> bool) (l : list A) :
  exists k, l = k ++ drop_while p l /\ Forall (fun x => p x = true) k.
Proof.
  induction l as [|x r IH]; simpl.
  - exists []. by split.
  - destruct (p x) eqn:E.
    + destruct IH as (k & Hk & Hf). exists (x :: k). simpl. rewrite <- Hk. split; [done|].
      by constructor.
    + exists []. by split.
Qed.

Lemma drop_while_head {A} (p : A -> bool) (l : list A) x r :
  drop_while p l = x :: r -> p x = false.
Proof.
  induction l as [|y l IH]; simpl; [done|].
  destruct (p y) eqn:E; [done|]. intros H. by injection H as <- <-.
Qed.

Lemma drop_while_id {A} (p : A -> bool) (l : list A) :
  match l with [] => True | x :: _ => p x = false end -> drop_while p l = l.
Proof. destruct l as [|x r]; simpl; [done|]. intros E. by rewrite E. Qed.

Lemma first_some_spec {A B} (f : A -> option B) (l : list A) (b : B) :
  first_some f l = Some b -> exists x, x ∈ l /\ f x = Some b.
Proof.
  induction l as [|x r IH]; simpl; [done|].
  destruct (f x) eqn:E.
  - intros [= ->]. exists x. split; [left|done].
  - intros H. destruct (IH H) as (y & Hy & Hf). exists y. split; [by right|done].
Qed.

Lemma first_some_none {A B} (f : A -> option B) (l : list A) :
  first_some f l = None <-> Forall (fun x => f x = None) l.
Proof.
  induction l as [|x r IH]; simpl.
  - split; [constructor|done].
  - rewrite Forall_cons. destruct (f x) eqn:E; [|rewrite IH]; intuition congruence.
Qed.

Lemma insert_by_perm {A} (le : A -> A -> bool) x (l : list A) :
  insert_by le x l ≡ₚ x :: l.
Proof.
  induction l as [|y r IH]; simpl; [done|].
  destruct (le x y); [done|]. rewrite IH. apply Permutation_swap.
Qed.

Lemma sort_by_perm {A} (le : A -> A -> bool) (l : list A) : sort_by le l ≡ₚ l.
Proof.
  induction l as [|x r IH]; simpl; [done|]. by rewrite insert_by_perm, IH.
Qed.

Lemma elem_of_sort_by {A} (le : A -> A -> bool) (l : list A) x : x ∈ sort_by le l <-> x ∈ l.
Proof. by rewrite sort_by_perm. Qed.

Lemma length_sort_by {A} (le : A -> A -> bool) (l : list A) :
  length (sort_by le l) = length l.
Proof. apply Permutation_length, sort_by_perm. Qed.

(** The sorted list is ordered, for a total and transitive order. *)
Lemma insert_by_sorted {A} (le : A -> A -> bool) x (l : list A) :
  (forall a b, le a b = false -> le b a = true) ->
  Sorted (fun a b => le a b = true) l ->
  Sorted (fun a b => le a b = true) (insert_by le x l).
Proof.
  intros Htot Hs. induction Hs as [|y r Hs IH Hhd]; simpl.
  - by repeat constructor.
  - destruct (le x y) eqn:E; [by repeat constructor|].
    constructor; [done|].
    destruct r as [|z r]; simpl; [constructor; by apply Htot|].
    inversion Hhd; subst. destruct (le x z); constructor; [by apply Htot|done].
Qed.

Lemma sort_by_sorted {A} (le : A -> A -> bool) (l : list A) :
  (forall a b, le a b = false -> le b a = true) ->
  Sorted (fun a b => le a b = true) (sort_by le l).
Proof.
  intros Htot. induction l as [|x r IH]; simpl; [constructor|].
  by apply insert_by_sorted.
Qed.

Lemma in_int64_spec z : in_int64 z = true <-> (int64_min <= z <= int64_max)%Z.
Proof. unfold in_int64. rewrite andb_true_iff, !Z.leb_le. lia. Qed.

Lemma wrap64_id z : in_int64 z = true -> wrap64 z = z.
Proof.
  rewrite in_int64_spec. unfold wrap64, int64_min, int64_max. intros H.
  rewrite Z.mod_small; lia.
Qed.

#[export] Hint Resolve drop_while_idemp sort_by_perm : bridge.
#[export] Hint Rewrite @drop_while_idemp @length_sort_by : bridge.
