(* ===== verification/GoStrings.v ===== *)
(** * Go's [strings], [strconv] and [path] packages, as the bridge uses them

    A Go string is its bytes, a [string] of [ascii].  Unicode white space is
    recognised from its UTF-8 bytes; case mapping is exact on ASCII and on the
    non-ASCII runes whose image is ASCII, which decides every comparison with
    an ASCII literal; other runes are left as they are. *)
From stdpp Require Import base list numbers strings.
From Stdlib Require Import Lia Ascii DecimalString DecimalZ DecimalPos DecimalFacts.
From S2P Require Import Prelude.

Definition code (c : ascii) : N := N_of_ascii c.

Definition code_is (c : ascii) (n : N) : bool := (code c =? n)%N.

Definition code_in (c : ascii) (lo hi : N) : bool := ((lo <=? code c) && (code c <=? hi))%N.

(** *** White space: unicode.IsSpace on the one, two and three byte runes *)
Definition space1 (a : ascii) : bool := code_in a 9 13 || code_is a 32.

Definition space2 (a b : ascii) : bool :=
  code_is a 194 && (code_is b 133 || code_is b 160).

Definition space3 (a b c : ascii) : bool :=
  (code_is a 225 && code_is b 154 && code_is c 128)
  || (code_is a 226 && code_is b 128
      && (code_in c 128 138 || code_is c 168 || code_is c 169 || code_is c 175))
  || (code_is a 226 && code_is b 129 && code_is c 159)
  || (code_is a 227 && code_is b 128 && code_is c 128).

(** A string cut into white-space runes and other bytes. *)
Inductive chunk : Type :=
| Space (bytes : string)
| Byte (b : ascii).

Definition is_space (u : chunk) : bool :=
  match u with Space _ => true | Byte _ => false end.

Definition chunk_bytes (u : chunk) : string :=
  match u with Space b => b | Byte b => String b EmptyString end.

Definition str1 (a : ascii) : string := String a EmptyString.
Definition str2 (a b : ascii) : string := String a (str1 b).
Definition str3 (a b c : ascii) : string := String a (str2 b c).

Fixpoint chunks (s : string) : list chunk :=
  match s with
  | EmptyString => []
  | String a r =>
      if space1 a then Space (str1 a) :: chunks r
      else match r with
           | EmptyString => [Byte a]
           | String b r2 =>
               if space2 a b then Space (str2 a b) :: chunks r2
               else match r2 with
                    | EmptyString => Byte a :: chunks r
                    | String c r3 =>
                        if space3 a b c then Space (str3 a b c) :: chunks r3
                        else Byte a :: chunks r
                    end
           end
  end.

Fixpoint flatten (l : list chunk) : string :=
  match l with
  | [] => EmptyString
  | u :: r => chunk_bytes u +:+ flatten r
  end.

(** strings.TrimSpace *)
Definition trim_chunks (l : list chunk) : list chunk :=
  rev (drop_while is_space (rev (drop_while is_space l))).

Definition trim_space (s : string) : string := flatten (trim_chunks (chunks s)).

(** strings.Fields *)
Definition emit_field (cur : string) : list string :=
  if String.eqb cur "" then [] else [cur].

Fixpoint fields_of (l : list chunk) (cur : string) : list string :=
  match l with
  | [] => emit_field cur
  | Space _ :: r => emit_field cur ++ fields_of r ""
  | Byte b :: r => fields_of r (cur +:+ str1 b)
  end.

Definition fields (s : string) : list string := fields_of (chunks s) "".

(** *** Case *)
Definition lower_ascii (a : ascii) : ascii :=
  if code_in a 65 90 then ascii_of_N (code a + 32) else a.

(** strings.ToLower; U+0130 and U+212A lower to ASCII letters. *)
Fixpoint to_lower (s : string) : string :=
  match s with
  | EmptyString => EmptyString
  | String a r =>
      match r with
      | String b r2 =>
          if code_is a 196 && code_is b 176 then String "i" (to_lower r2)
          else match r2 with
               | String c r3 =>
                   if code_is a 226 && code_is b 132 && code_is c 170
                   then String "k" (to_lower r3)
                   else String (lower_ascii a) (to_lower r)
               | EmptyString => String (lower_ascii a) (to_lower r)
               end
      | EmptyString => String (lower_ascii a) EmptyString
      end
  end.

(** The folding of strings.EqualFold; U+212A folds with k, U+017F with s. *)
Fixpoint fold_case (s : string) : string :=
  match s with
  | EmptyString => EmptyString
  | String a r =>
      match r with
      | String b r2 =>
          if code_is a 197 && code_is b 191 then String "s" (fold_case r2)
          else match r2 with
               | String c r3 =>
                   if code_is a 226 && code_is b 132 && code_is c 170
                   then String "k" (fold_case r3)
                   else String (lower_ascii a) (fold_case r)
               | EmptyString => String (lower_ascii a) (fold_case r)
               end
      | EmptyString => String (lower_ascii a) EmptyString
      end
  end.

Definition equal_fold (s t : string) : bool := String.eqb (fold_case s) (fold_case t).

(** *** Search *)
Definition has_prefix (s p : string) : bool := String.prefix p s.

Fixpoint contains (s sub : string) : bool :=
  String.prefix sub s
  || match s with
     | EmptyString => false
     | String _ r => contains r sub
     end.

(** Is the byte [c] in the string? *)
Fixpoint has_byte (c : ascii) (s : string) : bool :=
  match s with
  | EmptyString => false
  | String a r => Ascii.eqb a c || has_byte c r
  end.

(** The bytes before the first [c], the whole string when there is none. *)
Fixpoint before_byte (c : ascii) (s : string) : string :=
  match s with
  | EmptyString => EmptyString
  | String a r => if Ascii.eqb a c then EmptyString else String a (before_byte c r)
  end.

(** strings.Split with a one byte separator. *)
Fixpoint split_byte (c : ascii) (s : string) : list string :=
  match s with
  | EmptyString => [""]
  | String a r =>
      if Ascii.eqb a c then "" :: split_byte c r
      else match split_byte c r with
           | [] => [str1 a]
           | w :: ws => String a w :: ws
           end
  end.

(** strings.Join *)
Fixpoint join (sep : string) (l : list string) : string :=
  match l with
  | [] => EmptyString
  | [w] => w
  | w :: r => w +:+ sep +:+ join sep r
  end.

(** strings.NewReplacer(pairs...).Replace: at each position the first pair whose
    old string is a prefix of the rest is replaced; [skip] counts the bytes of
    the old string still to pass over.  The old strings are not empty. *)
Fixpoint replacer (pairs : list (string * string)) (s : string) (skip : nat) : string :=
  match s with
  | EmptyString => EmptyString
  | String a r =>
      match skip with
      | S k => replacer pairs r k
      | O =>
          match first_some (fun p => if String.prefix p.1 s then Some p else None) pairs with
          | Some (old, new) => new +:+ replacer pairs r (String.length old - 1)
          | None => String a (replacer pairs r 0)
          end
      end
  end.

Definition replace_all (s old new : string) : string := replacer [(old, new)] s 0.

(** strings.TrimLeft(s, ">") and the like: a one byte cutset. *)
Fixpoint trim_left_byte (c : ascii) (s : string) : string :=
  match s with
  | String a r => if Ascii.eqb a c then trim_left_byte c r else s
  | EmptyString => s
  end.

(** A byte slice s[:n] and s[n:], for n within the length. *)
Definition str_take (n : nat) (s : string) : string := String.substring 0 n s.
Fixpoint str_drop (n : nat) (s : string) : string :=
  match n, s with
  | O, _ => s
  | S k, String _ r => str_drop k r
  | S _, EmptyString => EmptyString
  end.

Fixpoint str_rev_app (s acc : string) : string :=
  match s with
  | EmptyString => acc
  | String a r => str_rev_app r (String a acc)
  end.

(** *** Numbers: strconv.FormatInt and strconv.ParseInt in base 10 *)
Definition format_int (z : Z) : string := NilZero.string_of_int (Z.to_int z).

Definition parse_int (s : string) : option Z :=
  let body := match s with
              | String "+" r => if has_prefix r "-" then None else Some r
              | _ => Some s
              end in
  match body with
  | Some b =>
      match NilZero.int_of_string b with
      | Some i => Some (Z.of_int i)
      | None => None
      end
  | None => None
  end.

Definition parse_int64 (s : string) : res Z :=
  match parse_int s with
  | Some z => if in_int64 z then Ok z else Err "strconv.ParseInt: value out of range"
  | None => Err "strconv.ParseInt: invalid syntax"
  end.

Definition format_bool (b : bool) : string := if b then "true" else "false".

(** *** path.Clean and path.Base *)

(** The segments of a path, pushed on a stack: "." and "" vanish, ".." pops a
    real segment; at the root it vanishes, elsewhere it stays when the stack
    holds no real segment. *)
Definition push_segment (rooted : bool) (stack : list string) (seg : string) : list string :=
  if String.eqb seg "" || String.eqb seg "." then stack
  else if String.eqb seg ".." then
    match stack with
    | top :: below => if String.eqb top ".." then ".." :: stack else below
    | [] => if rooted then [] else [".."]
    end
  else seg :: stack.

Definition path_clean (p : string) : string :=
  if String.eqb p "" then "."
  else
    let rooted := has_prefix p "/" in
    let body := join "/" (rev (fold_left (push_segment rooted) (split_byte "/" p) [])) in
    if rooted then "/" +:+ body
    else if String.eqb body "" then "." else body.

(** path.Base: the last segment, trailing slashes removed first. *)
Definition strip_trailing_slashes (p : string) : string :=
  str_rev_app (trim_left_byte "/" (str_rev_app p "")) "".

Fixpoint after_last_slash (p acc : string) : string :=
  match p with
  | EmptyString => str_rev_app acc ""
  | String a r => if Ascii.eqb a "/" then after_last_slash r "" else after_last_slash r (String a acc)
  end.

Definition path_base (p : string) : string :=
  if String.eqb p "" then "."
  else
    let q := strip_trailing_slashes p in
    let b := after_last_slash q "" in
    if String.eqb b "" then "/" else b.

(** Strings of visible ASCII bytes have no white space to trim. *)
Fixpoint visible (s : string) : bool :=
  match s with
  | EmptyString => true
  | String a r => code_in a 33 127 && visible r
  end.

(** ** Lemmas *)

Lemma str_app_nil_r s : s +:+ "" = s.
Proof. induction s as [|a s IH]; [done|]. change (String a (s +:+ "") = String a s). by rewrite IH. Qed.

Lemma str_app_assoc s t u : (s +:+ t) +:+ u = s +:+ (t +:+ u).
Proof.
  induction s as [|a s IH]; [done|].
  change (String a ((s +:+ t) +:+ u) = String a (s +:+ (t +:+ u))). by rewrite IH.
Qed.

Lemma str_ind_len (P : string -> Prop) :
  (forall s, (forall t, (String.length t < String.length s)%nat -> P t) -> P s) -> forall s, P s.
Proof.
  intros H s. remember (String.length s) as n eqn:E. revert s E.
  induction n as [n IH] using lt_wf_ind. intros s ->. apply H. intros t Ht. by eapply IH.
Qed.

Lemma str_length_app s t : String.length (s +:+ t) = (String.length s + String.length t)%nat.
Proof. induction s as [|a s IH]; [done|]. change (S (String.length (s +:+ t)) = S (String.length s) + String.length t)%nat. lia. Qed.

(** *** Chunks *)

(** Case analysis on the first chunk of a non-empty string. *)
Lemma chunks_step a r :
  (exists b t, chunks (String a r) = Space b :: chunks t /\ String a r = b +:+ t
               /\ (forall x, chunks (b +:+ x) = Space b :: chunks x))
  \/ (chunks (String a r) = Byte a :: chunks r /\ space1 a = false).
Proof.
  simpl. destruct (space1 a) eqn:E1.
  { left. exists (str1 a), r. split_and!; [done..|]. intros x. simpl. by rewrite E1. }
  destruct r as [|b r2]; [by right|].
  destruct (space2 a b) eqn:E2.
  { left. exists (str2 a b), r2. split_and!; [done..|]. intros x. simpl. by rewrite E1, E2. }
  destruct r2 as [|c r3]; [by right|].
  destruct (space3 a b c) eqn:E3; [|by right].
  left. exists (str3 a b c), r3. split_and!; [done..|]. intros x. simpl. by rewrite E1, E2, E3.
Qed.

Lemma flatten_chunks s : flatten (chunks s) = s.
Proof.
  induction s as [s IH] using str_ind_len. destruct s as [|a r]; [done|].
  destruct (chunks_step a r) as [(b & t & -> & Hs & Hx)|[-> _]]; simpl.
  - rewrite IH; [done|]. rewrite Hs, str_length_app.
    destruct b as [|x b]; [by specialize (Hx "")|]. simpl. lia.
  - by rewrite IH by (simpl; lia).
Qed.

Lemma chunks_cons_inv s u l :
  chunks s = u :: l -> s = chunk_bytes u +:+ flatten l /\ chunks (flatten l) = l.
Proof.
  destruct s as [|a r]; [done|].
  destruct (chunks_step a r) as [(b & t & -> & -> & _)|[-> _]]; intros [= <- <-]; simpl;
    by rewrite !flatten_chunks.
Qed.

Lemma chunks_byte_nospace s a : Byte a ∈ chunks s -> space1 a = false.
Proof.
  induction s as [s IH] using str_ind_len. destruct s as [|x r]; [by rewrite elem_of_nil|].
  destruct (chunks_step x r) as [(b & t & -> & Hs & Hx)|[-> Hsp]]; rewrite elem_of_cons.
  - intros [?|H]; [done|]. eapply IH; [|done]. rewrite Hs, str_length_app.
    destruct b as [|y b]; [by specialize (Hx "")|]. simpl. lia.
  - intros [[= ->]|H]; [done|]. eapply IH; [|done]. simpl. lia.
Qed.

(** A byte that does not begin white space before a long rest does not begin it
    before a shorter one. *)
Lemma chunks_byte_prefix a x y :
  chunks (String a (x +:+ y)) = Byte a :: chunks (x +:+ y) ->
  chunks (String a x) = Byte a :: chunks x.
Proof.
  intros H. destruct (chunks_step a x) as [(b & t & E & Hs & Hx)|[E _]]; [|done].
  assert (chunks (String a (x +:+ y)) = Space b :: chunks (t +:+ y)) as H'.
  { change (String a (x +:+ y)) with (String a x +:+ y). by rewrite Hs, str_app_assoc, Hx. }
  by rewrite H' in H.
Qed.

Lemma chunks_prefix l1 l2 s : chunks s = l1 ++ l2 -> chunks (flatten l1) = l1.
Proof.
  revert s. induction l1 as [|u l1 IH]; intros s H; [done|].
  simpl in H. pose proof H as H0. apply chunks_cons_inv in H as [Hs Hl].
  pose proof (IH _ Hl) as IH'.
  assert (flatten (l1 ++ l2) = flatten l1 +:+ flatten l2) as Hf.
  { clear. induction l1 as [|v l1 IH]; [done|]. simpl. by rewrite IH, str_app_assoc. }
  destruct s as [|a r]; [done|].
  destruct (chunks_step a r) as [(b & t & E & Hb & Hx)|[E Hsp]]; rewrite E in H0; injection H0 as <- Ht.
  - simpl. by rewrite Hx, IH'.
  - change (chunk_bytes (Byte a)) with (str1 a) in Hs.
    change (String a r = String a (flatten (l1 ++ l2))) in Hs. injection Hs as ->.
    assert (chunks (String a (flatten l1)) = Byte a :: chunks (flatten l1)) as E'.
    { apply (chunks_byte_prefix _ _ (flatten l2)). by rewrite <- Hf, E. }
    change (flatten (Byte a :: l1)) with (String a (flatten l1)). by rewrite E', IH'.
Qed.

Lemma chunks_suffix l1 l2 s : chunks s = l1 ++ l2 -> chunks (flatten l2) = l2.
Proof.
  revert s. induction l1 as [|u l1 IH]; intros s H; simpl in H.
  - by rewrite <- H, flatten_chunks, H.
  - apply chunks_cons_inv in H as [_ H]. by eapply IH.
Qed.

Lemma trim_chunks_infix l : exists p q, l = p ++ trim_chunks l ++ q.
Proof.
  destruct (drop_while_suffix is_space l) as (p & Hp & _).
  destruct (drop_while_suffix is_space (rev (drop_while is_space l))) as (q & Hq & _).
  exists p, (rev q). rewrite Hp at 1. f_equal.
  unfold trim_chunks. rewrite <- rev_app_distr, <- Hq. by rewrite rev_involutive.
Qed.

Lemma chunks_trim s : chunks (trim_space s) = trim_chunks (chunks s).
Proof.
  destruct (trim_chunks_infix (chunks s)) as (p & q & H). unfold trim_space.
  pose proof (chunks_suffix _ _ _ H) as H2. by apply chunks_prefix in H2.
Qed.

Lemma trim_chunks_idemp l : trim_chunks (trim_chunks l) = trim_chunks l.
Proof.
  unfold trim_chunks at 1.
  assert (drop_while is_space (trim_chunks l) = trim_chunks l) as ->.
  { apply drop_while_id. destruct (trim_chunks l) as [|u r] eqn:E; [done|].
    destruct (drop_while_suffix is_space (rev (drop_while is_space l))) as (q & Hq & _).
    assert (drop_while is_space l = trim_chunks l ++ rev q) as H.
    { unfold trim_chunks. by rewrite <- rev_app_distr, <- Hq, rev_involutive. }
    rewrite E in H. by eapply drop_while_head. }
  unfold trim_chunks. by rewrite rev_involutive, drop_while_idemp.
Qed.

Lemma trim_space_idemp s : trim_space (trim_space s) = trim_space s.
Proof. unfold trim_space at 1. by rewrite chunks_trim, trim_chunks_idemp. Qed.

Lemma visible_space a b c :
  code_in a 33 127 = true -> space1 a = false /\ space2 a b = false /\ space3 a b c = false.
Proof.
  unfold space1, space2, space3, code_in, code_is. intros H. apply andb_prop in H as [H1 H2].
  apply N.leb_le in H1, H2.
  assert (forall n, (127 < n)%N -> (code a =? n)%N = false) as E by (intros n Hn; apply N.eqb_neq; lia).
  rewrite (E 194%N), (E 225%N), (E 226%N), (E 227%N) by lia. simpl. split; [|done].
  destruct (N.leb_spec (code a) 13); [lia|]. rewrite andb_false_r. apply N.eqb_neq. lia.
Qed.

Lemma chunks_visible s : visible s = true -> Forall (fun u => is_space u = false) (chunks s).
Proof.
  induction s as [|a r IH]; intros H; [constructor|].
  change (code_in a 33 127 && visible r = true) in H. apply andb_prop in H as [Ha Hr].
  assert (chunks (String a r) = Byte a :: chunks r) as ->.
  { cbn [chunks]. destruct (visible_space a a a Ha) as [-> _].
    destruct r as [|b r2]; [done|]. destruct (visible_space a b a Ha) as (_ & -> & _).
    destruct r2 as [|c r3]; [done|]. by destruct (visible_space a b c Ha) as (_ & _ & ->). }
  constructor; [done|by apply IH].
Qed.

Lemma trim_space_visible s : visible s = true -> trim_space s = s.
Proof.
  intros H. apply chunks_visible in H. unfold trim_space, trim_chunks.
  assert (forall l, Forall (fun u => is_space u = false) l -> drop_while is_space l = l) as E.
  { intros l Hl. apply drop_while_id. destruct Hl; done. }
  rewrite (E _ H), E; [by rewrite rev_involutive, flatten_chunks|]. by apply Forall_rev.
Qed.

#[export] Hint Rewrite trim_space_idemp str_app_nil_r flatten_chunks chunks_trim : bridge.

(** *** Bytes of a string *)

Lemma has_byte_app c s t : has_byte c (s +:+ t) = has_byte c s || has_byte c t.
Proof.
  induction s as [|a s IH]; [done|].
  change (Ascii.eqb a c || has_byte c (s +:+ t) = Ascii.eqb a c || has_byte c s || has_byte c t).
  by rewrite IH, orb_assoc.
Qed.

Lemma has_byte_rev_app c s t : has_byte c (str_rev_app s t) = has_byte c s || has_byte c t.
Proof.
  revert t. induction s as [|a s IH]; intros t; simpl; [done|].
  rewrite IH. simpl. destruct (Ascii.eqb a c), (has_byte c s), (has_byte c t); done.
Qed.

Lemma has_byte_join c sep l :
  has_byte c sep = false -> Forall (fun w => has_byte c w = false) l ->
  has_byte c (join sep l) = false.
Proof.
  intros Hsep Hl. induction Hl as [|w l Hw Hl IH]; [done|]. simpl.
  destruct l as [|v l]; [done|]. by rewrite !has_byte_app, Hw, Hsep, IH.
Qed.

Lemma has_byte_split c d s :
  has_byte c s = false -> Forall (fun w => has_byte c w = false) (split_byte d s).
Proof.
  induction s as [|a s IH]; simpl; intros H; [by repeat constructor|].
  bsimp. specialize (IH ltac:(done)). destruct (Ascii.eqb a d); [by constructor|].
  destruct (split_byte d s) as [|w ws].
  - repeat constructor. simpl. by rewrite H.
  - inversion IH; subst. constructor; [|done]. simpl. by rewrite H.
Qed.

Lemma split_byte_nosep d s : Forall (fun w => has_byte d w = false) (split_byte d s).
Proof.
  induction s as [|a s IH]; simpl; [by repeat constructor|].
  destruct (Ascii.eqb a d) eqn:E; [by constructor|].
  destruct (split_byte d s) as [|w ws].
  - repeat constructor. simpl. by rewrite E.
  - inversion IH; subst. constructor; [|done]. simpl. by rewrite E.
Qed.

Lemma has_byte_trim_left c d s : has_byte c s = false -> has_byte c (trim_left_byte d s) = false.
Proof.
  induction s as [|a s IH]; simpl; [done|]. intros H. bsimp.
  destruct (Ascii.eqb a d); [by apply IH|]. simpl. by rewrite H, H0.
Qed.

Lemma has_byte_flatten c l :
  has_byte c (flatten l) = existsb (fun u => has_byte c (chunk_bytes u)) l.
Proof. induction l as [|u l IH]; simpl; [done|]. by rewrite has_byte_app, IH. Qed.

Lemma has_byte_trim_space c s : has_byte c s = false -> has_byte c (trim_space s) = false.
Proof.
  intros H. unfold trim_space. destruct (trim_chunks_infix (chunks s)) as (p & q & E).
  rewrite <- (flatten_chunks s), E, has_byte_flatten, !existsb_app in H. bsimp.
  by rewrite has_byte_flatten.
Qed.

Lemma emit_field_byte c cur :
  has_byte c cur = false -> Forall (fun w => has_byte c w = false /\ w <> "") (emit_field cur).
Proof.
  unfold emit_field. destruct (String.eqb cur "") eqn:E; [constructor|].
  bsimp. by repeat constructor.
Qed.

Lemma fields_of_byte c l cur :
  (forall b, Byte b ∈ l -> Ascii.eqb b c = false) -> has_byte c cur = false ->
  Forall (fun w => has_byte c w = false /\ w <> "") (fields_of l cur).
Proof.
  revert cur. induction l as [|u l IH]; intros cur Hl Hc; simpl.
  - by apply emit_field_byte.
  - destruct u as [sp|b].
    + apply Forall_app. split; [by apply emit_field_byte|].
      apply IH; [|done]. intros b Hb. apply Hl. by right.
    + apply IH; [intros b' Hb'; apply Hl; by right|].
      rewrite has_byte_app, Hc. simpl. rewrite (Hl b) by left. done.
Qed.

(** A field holds no white-space byte. *)
Lemma fields_no_space c s :
  space1 c = true -> Forall (fun w => has_byte c w = false /\ w <> "") (fields s).
Proof.
  intros Hc. apply fields_of_byte; [|done]. intros b Hb.
  apply chunks_byte_nospace in Hb. destruct (Ascii.eqb_spec b c); [congruence|done].
Qed.

Lemma join_fields_no_byte c s :
  space1 c = true -> Ascii.eqb " " c = false -> has_byte c (join " " (fields s)) = false.
Proof.
  intros Hc Hsp. apply has_byte_join; [cbn [has_byte]; by rewrite Hsp|].
  eapply Forall_impl; [by apply fields_no_space|]. by intros w [? _].
Qed.

Lemma prefix_empty s : String.prefix "" s = true.
Proof. by destruct s. Qed.

(** strings.ReplaceAll of one byte leaves none of it. *)
Lemma replace_byte_gone a new s :
  has_byte a new = false -> has_byte a (replace_all s (str1 a) new) = false.
Proof.
  intros Hn. unfold replace_all. induction s as [|b s IH]; [done|]. simpl.
  destruct (ascii_dec a b) as [->|Hne].
  - rewrite prefix_empty. simpl. by rewrite has_byte_app, Hn, IH.
  - simpl. rewrite IH. destruct (Ascii.eqb_spec b a) as [Heq|Hn2]; [congruence|done].
Qed.

Lemma replace_byte_other a b new s :
  has_byte b s = false -> has_byte b new = false ->
  has_byte b (replace_all s (str1 a) new) = false.
Proof.
  intros Hs Hn. unfold replace_all. induction s as [|x s IH]; [done|]. simpl in Hs. bsimp. simpl.
  destruct (ascii_dec a x) as [->|Hne].
  - rewrite prefix_empty. simpl. by rewrite has_byte_app, Hn, IH.
  - simpl. by rewrite IH, H.
Qed.

(** *** Paths *)

Lemma push_segment_bytes c rooted stack seg :
  Ascii.eqb "." c = false ->
  Forall (fun w => has_byte c w = false) stack -> has_byte c seg = false ->
  Forall (fun w => has_byte c w = false) (push_segment rooted stack seg).
Proof.
  intros Hdot Hst Hseg. unfold push_segment.
  assert (has_byte c ".." = false) as Hdd by (cbn [has_byte]; by rewrite Hdot).
  destruct (String.eqb seg "" || String.eqb seg "."); [done|].
  destruct (String.eqb seg ".."); [|by constructor].
  destruct stack as [|top below]; [destruct rooted; by repeat constructor|].
  inversion Hst; subst. destruct (String.eqb top ".."); [by constructor|done].
Qed.

Lemma path_clean_no_byte c p :
  Ascii.eqb "." c = false -> Ascii.eqb "/" c = false ->
  has_byte c p = false -> has_byte c (path_clean p) = false.
Proof.
  intros Hdot Hsl Hp. unfold path_clean. destruct (String.eqb p ""); [cbn [has_byte]; by rewrite Hdot|].
  set (st := fold_left _ _ _).
  assert (Forall (fun w => has_byte c w = false) st) as Hst.
  { unfold st. pose proof (has_byte_split c "/" p Hp) as Hs.
    assert (Forall (fun w => has_byte c w = false) (@nil string)) as Hn by constructor.
    revert Hn. generalize (@nil string). induction Hs as [|w ws Hw Hws IH]; intros acc Ha; simpl; [done|].
    apply IH. by apply push_segment_bytes. }
  assert (has_byte c (join "/" (rev st)) = false) as Hj.
  { apply has_byte_join; [cbn [has_byte]; by rewrite Hsl|]. by apply Forall_rev. }
  destruct (has_prefix p "/"); [by rewrite has_byte_app, Hj; cbn [has_byte]; rewrite Hsl|].
  destruct (String.eqb _ ""); [cbn [has_byte]; by rewrite Hdot|done].
Qed.

Lemma after_last_slash_nosep p acc :
  has_byte "/" acc = false -> has_byte "/" (after_last_slash p acc) = false.
Proof.
  revert acc. induction p as [|a p IH]; intros acc H; simpl.
  - by rewrite has_byte_rev_app, H.
  - destruct (Ascii.eqb a "/") eqn:E; apply IH; [done|]. simpl. by rewrite E.
Qed.

Lemma after_last_slash_other c p acc :
  has_byte c p = false -> has_byte c acc = false ->
  has_byte c (after_last_slash p acc) = false.
Proof.
  revert acc. induction p as [|a p IH]; intros acc Hp H; simpl.
  - by rewrite has_byte_rev_app, H.
  - simpl in Hp. bsimp. destruct (Ascii.eqb a "/"); apply IH; try done. simpl. by rewrite H0, H.
Qed.

(** path.Base answers "/" or a name without a slash. *)
Lemma path_base_no_slash p : path_base p = "/" \/ has_byte "/" (path_base p) = false.
Proof.
  unfold path_base. destruct (String.eqb p ""); [by right|].
  destruct (String.eqb _ "") eqn:E; [by left|right]. by apply after_last_slash_nosep.
Qed.

Lemma path_base_no_byte c p :
  Ascii.eqb "." c = false -> Ascii.eqb "/" c = false ->
  has_byte c p = false -> has_byte c (path_base p) = false.
Proof.
  intros Hd Hs Hp. unfold path_base. destruct (String.eqb p ""); [cbn [has_byte]; by rewrite Hd|].
  destruct (String.eqb _ ""); [cbn [has_byte]; by rewrite Hs|].
  apply after_last_slash_other; [|done]. unfold strip_trailing_slashes.
  rewrite has_byte_rev_app, orb_false_r. apply has_byte_trim_left.
  by rewrite has_byte_rev_app, Hp.
Qed.

(** *** Decimal numbers *)

Lemma uint_byte c d :
  code_in c 48 57 = false -> has_byte c (NilEmpty.string_of_uint d) = false.
Proof.
  intros Hc.
  assert (forall a, code_in a 48 57 = true -> Ascii.eqb a c = false) as Hd.
  { intros a Ha. destruct (Ascii.eqb_spec a c); [subst; congruence|done]. }
  induction d; cbn [NilEmpty.string_of_uint has_byte]; rewrite ?Hd, ?IHd by done; done.
Qed.

(** A decimal number holds only digits and "-". *)
Lemma format_int_byte c z :
  code_in c 48 57 = false -> Ascii.eqb "-" c = false -> has_byte c (format_int z) = false.
Proof.
  intros Hc Hm. unfold format_int, NilZero.string_of_int.
  assert (forall d, has_byte c (NilZero.string_of_uint d) = false) as Hu.
  { intros d. destruct d; [|by apply uint_byte..].
    cbn [NilZero.string_of_uint has_byte]. destruct (Ascii.eqb_spec "0" c); [subst; done|done]. }
  destruct (Z.to_int z); [by apply Hu|]. cbn [has_byte]. by rewrite Hm, Hu.
Qed.

(** so there is nothing to trim. *)
Lemma visible_uint d : visible (NilEmpty.string_of_uint d) = true.
Proof. by induction d; cbn [NilEmpty.string_of_uint visible]. Qed.

Lemma visible_format_int z : visible (format_int z) = true.
Proof.
  unfold format_int, NilZero.string_of_int.
  assert (forall d, visible (NilZero.string_of_uint d) = true) as Hu.
  { intros d. destruct d; [done|by apply visible_uint..]. }
  destruct (Z.to_int z); [apply Hu|]. cbn [visible]. by rewrite Hu.
Qed.

Lemma trim_format_int z : trim_space (format_int z) = format_int z.
Proof. apply trim_space_visible, visible_format_int. Qed.

Lemma to_int_nonnil z : Z.to_int z <> Decimal.Pos Decimal.Nil /\ Z.to_int z <> Decimal.Neg Decimal.Nil.
Proof.
  destruct z as [|p|p]; simpl; [done|..]; split; try done; intros [= H];
    by apply (DecimalPos.Unsigned.to_uint_nonnil p).
Qed.

Lemma int_of_format z : NilZero.int_of_string (format_int z) = Some (Z.to_int z).
Proof. apply NilZero.isi; apply to_int_nonnil. Qed.

(** strconv.ParseInt reads back what strconv.FormatInt wrote. *)
Lemma parse_format_int z : parse_int (format_int z) = Some z.
Proof.
  pose proof (int_of_format z) as H. pose proof (format_int_byte "+" z eq_refl eq_refl) as Hp.
  unfold parse_int. destruct (format_int z) as [|a r] eqn:E.
  - by rewrite H, DecimalZ.of_to.
  - simpl in Hp. bsimp. apply Ascii.eqb_neq in H0.
    assert (match String a r with
            | String "+" r => if has_prefix r "-" then None else Some r
            | _ => Some (String a r) end = Some (String a r)) as ->.
    { destruct a as [[] [] [] [] [] [] [] []]; try done. }
    by rewrite H, DecimalZ.of_to.
Qed.

Lemma format_int_inj z1 z2 : format_int z1 = format_int z2 -> z1 = z2.
Proof.
  intros H. pose proof (parse_format_int z1) as H1. rewrite H, parse_format_int in H1. by injection H1.
Qed.

Lemma parse_format_int64 z : in_int64 z = true -> parse_int64 (format_int z) = Ok z.
Proof. intros H. unfold parse_int64. by rewrite parse_format_int, H. Qed.

(** Two strings cut at their first [c] agree on both sides of the cut. *)
Lemma cut_byte_inj c a1 a2 b1 b2 :
  has_byte c a1 = false -> has_byte c a2 = false ->
  a1 +:+ String c b1 = a2 +:+ String c b2 -> a1 = a2 /\ b1 = b2.
Proof.
  revert a2. induction a1 as [|x a1 IH]; intros [|y a2] H1 H2 H.
  - by injection H as ->.
  - simpl in H2. bsimp. injection H as <- _. by rewrite Ascii.eqb_refl in *.
  - simpl in H1. bsimp. injection H as -> _. by rewrite Ascii.eqb_refl in *.
  - simpl in H1, H2. bsimp. injection H as -> H. destruct (IH a2) as [-> ->]; done.
Qed.

(** A visible byte is never trimmed. *)
Lemma chunks_keep_byte c s : code_in c 33 127 = true -> has_byte c s = true -> Byte c ∈ chunks s.
Proof.
  intros Hc. assert (Hsp : forall a b d, c = a -> space1 a = false /\ space2 a b = false /\ space3 a b d = false)
    by (intros a b d <-; by apply visible_space).
  assert (Hns : forall a, code_in c 33 127 = true -> (127 < code a)%N -> Ascii.eqb a c = false).
  { intros a H1 H2. apply Ascii.eqb_neq. intros ->. unfold code_in in H1. bsimp. apply N.leb_le in H0. lia. }
  induction s as [s IH] using str_ind_len. destruct s as [|a r]; [done|]. intros H.
  assert (Hstep : forall t, (String.length t < String.length (String a r))%nat -> has_byte c t = true -> Byte c ∈ chunks t)
    by (intros t Ht Hb; by apply IH). clear IH.
  change (Ascii.eqb a c || has_byte c r = true) in H. destruct (Ascii.eqb_spec a c) as [->|Hne].
  { cbn [chunks]. destruct (Hsp c c c eq_refl) as (-> & _ & _). destruct r as [|b r2]; [left|].
    destruct (Hsp c b b eq_refl) as (_ & -> & _). destruct r2 as [|d r3]; [left|].
    destruct (Hsp c b d eq_refl) as (_ & _ & ->). left. }
  cbn [orb] in H. cbn [chunks]. destruct (space1 a); [right; apply Hstep; [cbn; lia|done]|].
  destruct r as [|b r2]; [done|]. change (Ascii.eqb b c || has_byte c r2 = true) in H.
  destruct (space2 a b) eqn:E2.
  { right. assert (Ascii.eqb b c = false) as Hb.
    { apply Hns; [done|]. unfold space2, code_is in E2. apply andb_prop in E2 as [_ E2].
      apply orb_prop in E2 as [E2|E2]; apply N.eqb_eq in E2; lia. }
    rewrite Hb in H. apply Hstep; [cbn; lia|done]. }
  destruct r2 as [|d r3]; [right; apply Hstep; [cbn; lia|done]|].
  destruct (space3 a b d) eqn:E3; [|right; apply Hstep; [cbn; lia|done]].
  right. change (Ascii.eqb d c || has_byte c r3 = true) with (has_byte c (String d r3) = true) in *.
  assert ((127 < code b)%N /\ (127 < code d)%N) as [Hb Hd].
  { unfold space3, code_is, code_in in E3. rewrite !orb_true_iff, !andb_true_iff, !N.eqb_eq, !orb_true_iff,
      !andb_true_iff, !N.eqb_eq, !N.leb_le in E3. lia. }
  rewrite (Hns b Hc Hb) in H. change (Ascii.eqb d c || has_byte c r3 = true) in H. rewrite (Hns d Hc Hd) in H.
  apply Hstep; [cbn; lia|done].
Qed.

Lemma trim_space_nonempty c s : code_in c 33 127 = true -> has_byte c s = true -> trim_space s <> "".
Proof.
  intros Hc Hb He. pose proof (chunks_keep_byte c s Hc Hb) as Hin.
  pose proof (chunks_trim s) as Ht. rewrite He in Ht. change (chunks "") with (@nil chunk) in Ht.
  unfold trim_chunks in Ht. destruct (drop_while_suffix is_space (chunks s)) as (p & Hp & Hsp).
  destruct (drop_while_suffix is_space (rev (drop_while is_space (chunks s)))) as (q & Hq & Hsq).
  symmetry in Ht. apply (f_equal (@rev chunk)) in Ht. rewrite rev_involutive in Ht. cbn [rev] in Ht.
  rewrite Ht, List.app_nil_r in Hq. rewrite Forall_forall in Hsp, Hsq.
  rewrite Hp, elem_of_app in Hin. destruct Hin as [Hin|Hin]; [by specialize (Hsp _ Hin)|].
  apply list_elem_of_In, in_rev, list_elem_of_In in Hin. rewrite Hq in Hin. by specialize (Hsq _ Hin).
Qed.

(** Proofs about the bridge treat these functions as opaque names. *)
#[global] Arguments trim_space : simpl never.
#[global] Arguments to_lower : simpl never.
#[global] Arguments equal_fold : simpl never.
#[global] Arguments contains : simpl never.
#[global] Arguments has_prefix : simpl never.
#[global] Arguments format_int : simpl never.
