(* ===== verification/Sql.v ===== *)
(** * Transactions on tables

    An operation of the store runs statements in a transaction: a statement reads or
    changes tables, and an error undoes them all.  [Tx S A] is that, on tables [S].
    A [Table] of [S] is a list of rows in the order of their row ids. *)
From stdpp Require Import base list numbers strings.
From Stdlib Require Import Lia Sorting.Sorted.
From S2P Require Import Prelude.

Definition Tx (S A : Type) : Type := S -> res (A * S).

Definition tx_ret {S A : Type} (a : A) : Tx S A := fun s => Ok (a, s).
Definition tx_fail {S A : Type} (e : string) : Tx S A := fun _ => Err e.
Definition tx_bind {S A B : Type} (m : Tx S A) (k : A -> Tx S B) : Tx S B :=
  fun s => match m s with
           | Ok (a, s') => k a s'
           | Err e => Err e
           end.
Definition tx_lift {S A : Type} (m : res A) : Tx S A :=
  fun s => match m with Ok a => Ok (a, s) | Err e => Err e end.
Definition tx_gets {S A : Type} (f : S -> A) : Tx S A := fun s => Ok (f s, s).
Definition tx_modify {S : Type} (f : S -> S) : Tx S unit := fun s => Ok (tt, f s).
Definition tx_when {S : Type} (b : bool) (m : Tx S unit) : Tx S unit :=
  if b then m else tx_ret tt.

Notation "'tx!' x ':=' m 'in' k" := (tx_bind m (fun x => k))
  (at level 10, x pattern, m at level 100, k at level 200) : bridge_scope.

(** One statement per element, the first error stops. *)
Fixpoint tx_each {S A : Type} (l : list A) (f : A -> Tx S unit) : Tx S unit :=
  match l with
  | [] => tx_ret tt
  | x :: r => tx! _ := f x in tx_each r f
  end.

(** UPDATE t SET f WHERE p, and RowsAffected. *)
Definition update_where {R : Type} (p : R -> bool) (f : R -> R) (rows : list R) : list R :=
  map (fun r => if p r then f r else r) rows.

Definition affected {R : Type} (p : R -> bool) (rows : list R) : Z :=
  Z.of_nat (length (filter p rows)).

(** The first row a query finds. *)
Definition find_first {R : Type} (p : R -> bool) (rows : list R) : option R :=
  first_some (fun r => if p r then Some r else None) rows.

Record Table (S R : Type) : Type := mkTable {
  rows_of : S -> list R;
  with_rows : list R -> S -> S }.
Arguments mkTable {S R} _ _.
Arguments rows_of {S R} _ _.
Arguments with_rows {S R} _ _ _.

Class TableLaws {S R : Type} (t : Table S R) : Prop := {
  rows_with : forall l s, rows_of t (with_rows t l s) = l;
  with_with : forall l k s, with_rows t l (with_rows t k s) = with_rows t l s;
  with_same : forall s, with_rows t (rows_of t s) s = s }.

Definition sql_update {S R : Type} (t : Table S R) (p : R -> bool) (f : R -> R) : Tx S Z :=
  fun s => Ok (affected p (rows_of t s), with_rows t (update_where p f (rows_of t s)) s).

Definition sql_insert {S R : Type} (t : Table S R) (r : R) : Tx S unit :=
  tx_modify (fun s => with_rows t (rows_of t s ++ [r]) s).

Definition sql_delete {S R : Type} (t : Table S R) (p : R -> bool) : Tx S unit :=
  tx_modify (fun s => with_rows t (filter (fun r => negb (p r)) (rows_of t s)) s).

Definition sql_select {S R : Type} (t : Table S R) (p : R -> bool) : Tx S (list R) :=
  tx_gets (fun s => filter p (rows_of t s)).

Definition sql_first {S R : Type} (t : Table S R) (p : R -> bool) : Tx S (option R) :=
  tx_gets (fun s => find_first p (rows_of t s)).

(** An update that must change exactly [n] rows; [e] is the error of another count. *)
Definition sql_update_exactly {S R : Type} (n : Z) (t : Table S R) (p : R -> bool) (f : R -> R)
    (e : Z -> string) : Tx S unit :=
  tx! changed := sql_update t p f in
  if (changed =? n)%Z then tx_ret tt else tx_fail (e changed).

(** What a transaction may do to the tables, whenever it commits. *)
Definition tx_keeps {S A : Type} (R : S -> S -> Prop) (m : Tx S A) : Prop :=
  forall s a s', m s = Ok (a, s') -> R s s'.

(** ** Lemmas *)

Lemma tx_bind_ok {S A B} (m : Tx S A) (k : A -> Tx S B) s r :
  tx_bind m k s = Ok r <-> exists a s', m s = Ok (a, s') /\ k a s' = Ok r.
Proof.
  unfold tx_bind. destruct (m s) as [[a s']|e]; [|naive_solver].
  split; [by exists a, s'|]. intros (a' & s'' & [= <- <-] & H). exact H.
Qed.

Lemma tx_bind_run {S A B} (m : Tx S A) (k : A -> Tx S B) s a s' :
  m s = Ok (a, s') -> tx_bind m k s = k a s'.
Proof. unfold tx_bind. by intros ->. Qed.

Lemma tx_lift_ok {S A} (m : res A) (s : S) a s' :
  tx_lift m s = Ok (a, s') <-> m = Ok a /\ s' = s.
Proof. unfold tx_lift. destruct m; naive_solver. Qed.

Lemma tx_ret_ok {S A} (a : A) (s : S) b s' : tx_ret a s = Ok (b, s') <-> b = a /\ s' = s.
Proof. unfold tx_ret. naive_solver. Qed.

Lemma tx_gets_ok {S A} (f : S -> A) s a s' : tx_gets f s = Ok (a, s') <-> a = f s /\ s' = s.
Proof. unfold tx_gets. naive_solver. Qed.

(** Inversion of a committed transaction, statement by statement. *)
Ltac tx_inv H :=
  repeat lazymatch type of H with
  | tx_bind _ _ _ = Ok _ =>
      let a := fresh "a" in let s := fresh "s" in let H1 := fresh "Htx" in
      apply tx_bind_ok in H as (a & s & H1 & H)
  | tx_fail _ _ = Ok _ => discriminate H
  end.

Section keeps.
Context {S : Type} (R : S -> S -> Prop) `{!PreOrder R}.

Lemma keeps_ret {A} (a : A) : tx_keeps R (tx_ret a).
Proof. intros s b s' [_ ->]%tx_ret_ok. reflexivity. Qed.

Lemma keeps_fail {A} e : tx_keeps R (tx_fail (A := A) e).
Proof. intros s b s' H. discriminate H. Qed.

Lemma keeps_lift {A} (m : res A) : tx_keeps R (tx_lift m).
Proof. intros s b s' [_ ->]%tx_lift_ok. reflexivity. Qed.

Lemma keeps_gets {A} (f : S -> A) : tx_keeps R (tx_gets f).
Proof. intros s b s' [_ ->]%tx_gets_ok. reflexivity. Qed.

Lemma keeps_bind {A B} (m : Tx S A) (k : A -> Tx S B) :
  tx_keeps R m -> (forall a, tx_keeps R (k a)) -> tx_keeps R (tx_bind m k).
Proof.
  intros Hm Hk s b s' (a & s1 & H1 & H2)%tx_bind_ok.
  transitivity s1; [exact (Hm _ _ _ H1)|exact (Hk _ _ _ _ H2)].
Qed.

Lemma keeps_each {A} (l : list A) (f : A -> Tx S unit) :
  (forall a, a ∈ l -> tx_keeps R (f a)) -> tx_keeps R (tx_each l f).
Proof.
  induction l as [|x l IH]; intros H; [apply keeps_ret|].
  apply keeps_bind; [apply H; left|]. intros _. apply IH. intros a Ha. apply H. by right.
Qed.

Lemma keeps_modify (f : S -> S) : (forall s, R s (f s)) -> tx_keeps R (tx_modify f).
Proof. intros H s b s' [= _ <-]. apply H. Qed.

Lemma keeps_update {X} (t : Table S X) p f :
  (forall s, R s (with_rows t (update_where p f (rows_of t s)) s)) -> tx_keeps R (sql_update t p f).
Proof. intros H s b s' [= _ <-]. apply H. Qed.

Lemma keeps_update_exactly {X} n (t : Table S X) p f e :
  (forall s, R s (with_rows t (update_where p f (rows_of t s)) s)) ->
  tx_keeps R (sql_update_exactly n t p f e).
Proof.
  intros H. apply keeps_bind; [by apply keeps_update|]. intros changed.
  destruct (changed =? n)%Z; [apply keeps_ret|apply keeps_fail].
Qed.

Lemma keeps_insert {X} (t : Table S X) r :
  (forall s, R s (with_rows t (rows_of t s ++ [r]) s)) -> tx_keeps R (sql_insert t r).
Proof. intros H s b s' [= _ <-]. apply H. Qed.

Lemma keeps_delete {X} (t : Table S X) p :
  (forall s, R s (with_rows t (filter (fun r => negb (p r)) (rows_of t s)) s)) -> tx_keeps R (sql_delete t p).
Proof. intros H s b s' [= _ <-]. apply H. Qed.

Lemma keeps_when b (m : Tx S unit) : tx_keeps R m -> tx_keeps R (tx_when b m).
Proof. intros H. destruct b; [exact H|apply keeps_ret]. Qed.

End keeps.

(** *** Rows *)
Lemma filter_cons_bool {R} (p : R -> bool) x (l : list R) :
  filter p (x :: l) = if p x then x :: filter p l else filter p l.
Proof.
  destruct (p x) eqn:E; [rewrite filter_cons_True|rewrite filter_cons_False]; rewrite ?E; try done.
  intros [].
Qed.

Lemma elem_of_update {R} (q : R -> bool) (f : R -> R) rows x :
  x ∈ update_where q f rows <-> exists r, r ∈ rows /\ x = (if q r then f r else r).
Proof. unfold update_where. rewrite list_elem_of_fmap. naive_solver. Qed.

Lemma map_update {R B} (h : R -> B) (q : R -> bool) (f : R -> R) rows :
  (forall r, h (f r) = h r) -> map h (update_where q f rows) = map h rows.
Proof.
  intros H. unfold update_where. rewrite map_map. apply map_ext. intros r. by destruct (q r).
Qed.

Lemma update_none {R} (q : R -> bool) (f : R -> R) rows :
  (forall r, r ∈ rows -> q r = false) -> update_where q f rows = rows.
Proof.
  intros H. unfold update_where. rewrite <- (map_id rows) at 2. apply map_ext_in.
  intros r Hr%list_elem_of_In. by rewrite (H r Hr).
Qed.

Lemma affected_zero {R} (q : R -> bool) (rows : list R) :
  affected q rows = 0%Z <-> forall r, r ∈ rows -> q r = false.
Proof.
  unfold affected. split.
  - intros H r Hr. destruct (q r) eqn:E; [|done]. exfalso.
    assert (r ∈ filter q rows) as Hin by (apply list_elem_of_filter; split; [by rewrite E|done]).
    destruct (filter q rows) as [|y l]; [by apply elem_of_nil in Hin|]. simpl in H. lia.
  - intros H. replace (filter q rows) with (@nil R); [done|]. symmetry.
    induction rows as [|r l IH]; [done|]. rewrite filter_cons_False.
    + apply IH. intros x Hx. apply H. by right.
    + rewrite (H r ltac:(left)). by intros [].
Qed.

Lemma find_first_some {R} (p : R -> bool) rows r :
  find_first p rows = Some r -> r ∈ rows /\ p r = true.
Proof.
  unfold find_first. induction rows as [|x l IH]; [done|]. cbn [first_some].
  destruct (p x) eqn:E.
  - intros [= <-]. split; [left|done].
  - intros H. destruct (IH H). split; [by right|done].
Qed.

Lemma find_first_none {R} (p : R -> bool) rows :
  find_first p rows = None <-> forall r, r ∈ rows -> p r = false.
Proof.
  unfold find_first. induction rows as [|x l IH]; cbn [first_some].
  - split; [|done]. intros _ r Hr. by apply elem_of_nil in Hr.
  - destruct (p x) eqn:E.
    + split; [done|]. intros H. rewrite (H x ltac:(left)) in E. done.
    + rewrite IH. split.
      * intros H r Hr. apply elem_of_cons in Hr as [->|Hr]; [done|by apply H].
      * intros H r Hr. apply H. by right.
Qed.

Lemma affected_some {R} (q : R -> bool) (rows : list R) :
  affected q rows <> 0%Z -> exists r, r ∈ rows /\ q r = true.
Proof.
  unfold affected. induction rows as [|r l IH]; [done|]. rewrite filter_cons_bool.
  destruct (q r) eqn:E; [intros _; exists r; split; [left|done]|].
  intros H. destruct (IH H) as (x & Hx & Hq). exists x. split; [by right|done].
Qed.

(** Two rows with one key are one. *)
Lemma keyed_inj {R K} (key : R -> K) rows x y :
  NoDup (map key rows) -> x ∈ rows -> y ∈ rows -> key x = key y -> x = y.
Proof.
  intros Hnd Hx Hy E. apply list_elem_of_lookup in Hx as [i Hi], Hy as [j Hj].
  assert (i = j) as ->; [|congruence].
  eapply NoDup_lookup; [exact Hnd|by rewrite list_lookup_fmap, Hi|rewrite list_lookup_fmap, Hj; cbn; congruence].
Qed.

(** The first match splits the table. *)
Lemma find_first_split {R} (p : R -> bool) rows r :
  find_first p rows = Some r ->
  exists l k, rows = l ++ r :: k /\ p r = true /\ forall x, x ∈ l -> p x = false.
Proof.
  unfold find_first. induction rows as [|x rest IH]; [done|]. cbn [first_some].
  destruct (p x) eqn:E.
  - intros [= <-]. exists [], rest. split_and!; [done|done|]. intros y Hy. by apply elem_of_nil in Hy.
  - intros H. destruct (IH H) as (l & k & -> & Hp & Hl). exists (x :: l), k. split_and!; [done|done|].
    intros y [->|Hy]%elem_of_cons; [done|by apply Hl].
Qed.

(** An update that changes one row. *)
Lemma affected_one {R} (q : R -> bool) (f : R -> R) rows :
  affected q rows = 1%Z ->
  exists l r k, rows = l ++ r :: k /\ q r = true /\ update_where q f rows = l ++ f r :: k.
Proof.
  unfold affected, update_where. induction rows as [|x rest IH]; [done|].
  destruct (q x) eqn:E.
  - rewrite filter_cons_True by (rewrite E; exact I). intros H. exists [], x, rest.
    split_and!; [done|done|]. cbn. rewrite E. f_equal. apply update_none.
    apply affected_zero. unfold affected. simpl in H. lia.
  - rewrite filter_cons_False by (rewrite E; intros []). intros H. destruct (IH H) as (l & r & k & -> & Hr & Hu).
    exists (x :: l), r, k. split_and!; [done|done|]. cbn. rewrite E. f_equal. exact Hu.
Qed.

(** An update by key. *)
Lemma update_keyed {R K} (key : R -> K) (q : R -> bool) (f : R -> R) l r k :
  NoDup (map key (l ++ r :: k)) -> (forall x, q x = true -> key x = key r) ->
  update_where q f (l ++ r :: k) = l ++ (if q r then f r else r) :: k
  /\ affected q (l ++ r :: k) = (if q r then 1 else 0)%Z.
Proof.
  rewrite map_app, map_cons, NoDup_app, NoDup_cons. intros (_ & Hl & Hk & _) Hq.
  assert (forall x, x ∈ l -> q x = false) as Hql.
  { intros x Hx. destruct (q x) eqn:E; [|done]. exfalso.
    apply (Hl (key x)); [by apply list_elem_of_fmap_2|]. rewrite (Hq x E). left. }
  assert (forall x, x ∈ k -> q x = false) as Hqk.
  { intros x Hx. destruct (q x) eqn:E; [|done]. exfalso.
    apply Hk. rewrite <- (Hq x E). by apply list_elem_of_fmap_2. }
  split.
  - unfold update_where. rewrite map_app, map_cons. f_equal; [by apply (update_none q f)|].
    f_equal. by apply (update_none q f).
  - apply affected_zero in Hql, Hqk. unfold affected in *. rewrite filter_app, filter_cons, length_app.
    destruct (q r); simpl; lia.
Qed.

Lemma update_exactly_one {S R} `{!TableLaws (S := S) (R := R) t} p f e s a s' :
  sql_update_exactly 1 t p f e s = Ok (a, s') ->
  exists l r k, rows_of t s = l ++ r :: k /\ p r = true /\ s' = with_rows t (l ++ f r :: k) s.
Proof.
  unfold sql_update_exactly. intros H. tx_inv H. injection Htx as <- <-.
  destruct (Z.eqb_spec (affected p (rows_of t s)) 1) as [E|]; [|discriminate H].
  injection H as <- <-. destruct (affected_one p f _ E) as (l & r & k & Hr & Hp & Hu).
  exists l, r, k. by rewrite Hu.
Qed.

(** The error of an update that must change one row leaves nothing changed. *)
Lemma update_exactly_none {S R} n (t : Table S R) p f e s :
  n ≠ 0%Z -> (forall r, r ∈ rows_of t s -> p r = false) ->
  sql_update_exactly n t p f e s = Err (e 0%Z).
Proof.
  intros Hn H. apply affected_zero in H. unfold sql_update_exactly, tx_bind, sql_update. rewrite H.
  destruct (Z.eqb_spec 0 n); [by subst|done].
Qed.

(** *** Lists *)
Lemma SSorted_lt_NoDup l : StronglySorted Z.lt l -> NoDup l.
Proof.
  induction 1 as [|x l Hs IH Hx]; constructor; [|done].
  intros Hin. rewrite Forall_forall in Hx. specialize (Hx x Hin). lia.
Qed.

Lemma SSorted_snoc l (x : Z) :
  StronglySorted Z.lt l -> (forall y, y ∈ l -> (y < x)%Z) -> StronglySorted Z.lt (l ++ [x]).
Proof.
  induction 1 as [|y l Hs IH Hy]; intros H; [by repeat constructor|].
  simpl. constructor.
  - apply IH. intros z Hz. apply H. by right.
  - apply Forall_app. split; [done|]. repeat constructor. apply H. left.
Qed.

Lemma existsb_false {A} (f : A -> bool) l : (forall x, x ∈ l -> f x = false) -> existsb f l = false.
Proof.
  intros H. apply not_true_iff_false. intros (x & Hx & Hf)%existsb_exists.
  rewrite (H x) in Hf; [discriminate Hf|by apply list_elem_of_In].
Qed.

Lemma filter_none {A} (P : A -> Prop) `{!forall x, Decision (P x)} l :
  (forall x, x ∈ l -> ~ P x) -> filter P l = [].
Proof.
  induction l as [|x l IH]; intros Hno; [done|]. rewrite filter_cons_False by (apply Hno; left).
  apply IH. intros y Hy. apply Hno. by right.
Qed.

Lemma elem_of_filter_bool {A} (p : A -> bool) (l : list A) x : x ∈ filter p l <-> x ∈ l /\ p x = true.
Proof. rewrite list_elem_of_filter. split; intros [H1 H2]; split; try done; by apply Is_true_true. Qed.

#[export] Hint Resolve keeps_ret keeps_fail keeps_lift keeps_gets keeps_bind : bridge.

Lemma filter_update {R} (P q : R -> bool) (f : R -> R) (l : list R) :
  (forall r, P (f r) = P r) -> filter P (update_where q f l) = update_where q f (filter P l).
Proof.
  intros H. unfold update_where. induction l as [|r l IH]; [done|]. cbn [map]. rewrite !filter_cons_bool.
  replace (P (if q r then f r else r)) with (P r) by (by destruct (q r)).
  destruct (P r); [cbn [map]; by rewrite IH|exact IH].
Qed.

Lemma filter_update_drop {R} (P q : R -> bool) (f : R -> R) (l : list R) :
  (forall r, q r = true -> P (f r) = false) -> (forall r, P r = true -> q r = true) ->
  filter P (update_where q f l) = [].
Proof.
  intros Hf Hq. apply filter_none. intros x (r & Hr & ->)%elem_of_update HP%Is_true_true.
  destruct (q r) eqn:E; [by rewrite Hf in HP|]. by rewrite Hq in E.
Qed.

Lemma Forall_update {R} (P Q : R -> Prop) (q : R -> bool) (f : R -> R) (rows : list R) :
  Forall P rows -> (forall r, r ∈ rows -> P r -> Q (if q r then f r else r)) -> Forall Q (update_where q f rows).
Proof.
  intros HP H. apply Forall_forall. intros x (r & Hr & ->)%elem_of_update. apply H; [done|].
  rewrite Forall_forall in HP. by apply HP.
Qed.

Lemma Forall2_update {R} (P : R -> R -> Prop) (q : R -> bool) (f : R -> R) (rows : list R) :
  (forall r, P r (if q r then f r else r)) -> Forall2 P rows (update_where q f rows).
Proof. intros H. unfold update_where. induction rows; cbn [map]; constructor; [apply H|done]. Qed.
