(* ===== verification/Utf8.v ===== *)
(** * Runes: Go's [[]rune(s)], [string(runes)] and [utf16.Encode] widths

    [runes] decodes as Go's range loop does: an invalid byte gives U+FFFD and
    consumes one byte; overlong forms and surrogates are invalid. *)
From stdpp Require Import base list numbers strings.
From Stdlib Require Import Lia ZifyN Ascii.
From S2P Require Import Prelude GoStrings.

Definition rune_error : N := 65533.

Definition valid_rune (r : N) : bool :=
  ((r <? 55296) || ((57344 <=? r) && (r <=? 1114111)))%N.

Definition cont_byte (c : ascii) : bool := code_in c 128 191.

(** The second byte allowed after the lead bytes E0..EF and F0..F4. *)
Definition second3 (a b : ascii) : bool :=
  if code_is a 224 then code_in b 160 191
  else if code_is a 237 then code_in b 128 159
  else cont_byte b.

Definition second4 (a b : ascii) : bool :=
  if code_is a 240 then code_in b 144 191
  else if code_is a 244 then code_in b 128 143
  else cont_byte b.

Fixpoint runes (s : string) : list N :=
  match s with
  | EmptyString => []
  | String a r =>
      if code_in a 0 127 then code a :: runes r
      else match r with
      | EmptyString => [rune_error]
      | String b r2 =>
          if code_in a 194 223 && cont_byte b
          then ((code a - 192) * 64 + (code b - 128))%N :: runes r2
          else match r2 with
          | EmptyString => rune_error :: runes r
          | String c r3 =>
              if code_in a 224 239 && second3 a b && cont_byte c
              then ((code a - 224) * 4096 + (code b - 128) * 64 + (code c - 128))%N :: runes r3
              else match r3 with
              | EmptyString => rune_error :: runes r
              | String d r4 =>
                  if code_in a 240 244 && second4 a b && cont_byte c && cont_byte d
                  then ((code a - 240) * 262144 + (code b - 128) * 4096
                        + (code c - 128) * 64 + (code d - 128))%N :: runes r4
                  else rune_error :: runes r
              end
          end
      end
  end.

Definition byte_of (n : N) : ascii := ascii_of_N n.

Definition encode_valid (r : N) : string :=
  if (r <? 128)%N then str1 (byte_of r)
  else if (r <? 2048)%N then
    str2 (byte_of (192 + r / 64)) (byte_of (128 + r mod 64))
  else if (r <? 65536)%N then
    str3 (byte_of (224 + r / 4096)) (byte_of (128 + (r / 64) mod 64)) (byte_of (128 + r mod 64))
  else
    String (byte_of (240 + r / 262144))
      (str3 (byte_of (128 + (r / 4096) mod 64)) (byte_of (128 + (r / 64) mod 64)) (byte_of (128 + r mod 64))).

Definition encode_rune (r : N) : string :=
  encode_valid (if valid_rune r then r else rune_error).

Fixpoint string_of_runes (l : list N) : string :=
  match l with
  | [] => EmptyString
  | r :: rest => encode_rune r +:+ string_of_runes rest
  end.

Definition rune_count (s : string) : nat := length (runes s).

(** len(utf16.Encode([]rune{r})) *)
Definition utf16_width (r : N) : Z := if ((65536 <=? r) && (r <=? 1114111))%N then 2 else 1.

(** ** Lemmas *)

Lemma code_byte n : (n < 256)%N -> code (byte_of n) = n.
Proof. intros H. by apply N_ascii_embedding. Qed.

Lemma code_lt a : (code a < 256)%N.
Proof. apply N_ascii_bounded. Qed.

Ltac rune_bools :=
  repeat match goal with
  | H : context [code_in _ _ _] |- _ => unfold code_in in H
  | H : context [code_is _ _] |- _ => unfold code_is in H
  | H : context [cont_byte _] |- _ => unfold cont_byte in H
  | |- context [code_in _ _ _] => unfold code_in
  | |- context [code_is _ _] => unfold code_is
  | |- context [cont_byte _] => unfold cont_byte
  end.

Ltac rune_hyps :=
  rune_bools;
  repeat match goal with
  | H : (_ && _)%bool = true |- _ => apply andb_prop in H; destruct H
  | H : (_ <=? _)%N = true |- _ => apply N.leb_le in H
  end.

Lemma in_range_true x lo hi : (lo <= x <= hi)%N -> ((lo <=? x) && (x <=? hi))%N = true.
Proof. intros H. apply andb_true_iff. rewrite !N.leb_le. lia. Qed.

Lemma in_range_false x lo hi : (x < lo \/ hi < x)%N -> ((lo <=? x) && (x <=? hi))%N = false.
Proof. intros H. apply andb_false_iff. rewrite !N.leb_gt. lia. Qed.

Lemma in_range_inv x lo hi : ((lo <=? x) && (x <=? hi))%N = true -> (lo <= x <= hi)%N.
Proof. rewrite andb_true_iff, !N.leb_le. done. Qed.

Lemma valid_rune_spec r : valid_rune r = true <-> (r < 55296 \/ 57344 <= r <= 1114111)%N.
Proof.
  unfold valid_rune. rewrite orb_true_iff, andb_true_iff, N.ltb_lt, !N.leb_le. done.
Qed.

Ltac rune_lia := zify; Z.to_euclidean_division_equations; lia.

(** One decoding step for each length of the encoding. *)
Lemma runes_one a s : code_in a 0 127 = true -> runes (String a s) = code a :: runes s.
Proof. intros E. simpl. by rewrite E. Qed.

Lemma runes_two a b s :
  code_in a 194 223 = true -> cont_byte b = true ->
  runes (String a (String b s)) = ((code a - 192) * 64 + (code b - 128))%N :: runes s.
Proof.
  intros E1 E2. assert (code_in a 0 127 = false) as E.
  { unfold code_in in *. apply in_range_inv in E1. apply in_range_false. lia. }
  simpl. by rewrite E, E1, E2.
Qed.

Lemma runes_three a b c s :
  code_in a 224 239 = true -> second3 a b = true -> cont_byte c = true ->
  runes (String a (String b (String c s))) =
  ((code a - 224) * 4096 + (code b - 128) * 64 + (code c - 128))%N :: runes s.
Proof.
  intros E1 E2 E3. pose proof E1 as E0. unfold code_in in E0. apply in_range_inv in E0.
  assert (code_in a 0 127 = false) as E by (apply in_range_false; lia).
  assert (code_in a 194 223 = false) as E' by (apply in_range_false; lia).
  cbn [runes]. by rewrite E, E', E1, E2, E3.
Qed.

Lemma runes_four a b c d s :
  code_in a 240 244 = true -> second4 a b = true -> cont_byte c = true -> cont_byte d = true ->
  runes (String a (String b (String c (String d s)))) =
  ((code a - 240) * 262144 + (code b - 128) * 4096 + (code c - 128) * 64 + (code d - 128))%N :: runes s.
Proof.
  intros E1 E2 E3 E4. pose proof E1 as E0. unfold code_in in E0. apply in_range_inv in E0.
  assert (code_in a 0 127 = false) as E by (apply in_range_false; lia).
  assert (code_in a 194 223 = false) as E' by (apply in_range_false; lia).
  assert (code_in a 224 239 = false) as E'' by (apply in_range_false; lia).
  cbn [runes]. by rewrite E, E', E'', E1, E2, E3, E4.
Qed.

Lemma cont_byte_low n : cont_byte (byte_of (128 + n mod 64)) = true.
Proof. unfold cont_byte, code_in. rewrite code_byte by rune_lia. apply in_range_true. rune_lia. Qed.

Lemma runes_encode_valid r s :
  valid_rune r = true -> runes (encode_valid r +:+ s) = r :: runes s.
Proof.
  rewrite valid_rune_spec. intros Hv. unfold encode_valid.
  destruct (N.ltb_spec r 128) as [H1|H1].
  { change (str1 ?a +:+ s) with (String a s). rewrite runes_one; [by rewrite code_byte by lia|].
    unfold code_in. rewrite code_byte by lia. apply in_range_true. lia. }
  destruct (N.ltb_spec r 2048) as [H2|H2].
  { change (str2 ?a ?b +:+ s) with (String a (String b s)).
    rewrite runes_two; [|unfold code_in; rewrite code_byte by rune_lia; apply in_range_true; rune_lia
                        |apply cont_byte_low].
    f_equal. rewrite !code_byte by rune_lia. rune_lia. }
  destruct (N.ltb_spec r 65536) as [H3|H3].
  { change (str3 ?a ?b ?c +:+ s) with (String a (String b (String c s))).
    rewrite runes_three; [|unfold code_in; rewrite code_byte by rune_lia; apply in_range_true; rune_lia
                          | |apply cont_byte_low].
    { f_equal. rewrite !code_byte by rune_lia. rune_lia. }
    unfold second3, code_is, code_in. rewrite !code_byte by rune_lia.
    destruct (N.eqb_spec (224 + r / 4096) 224); [apply in_range_true; rune_lia|].
    destruct (N.eqb_spec (224 + r / 4096) 237); [apply in_range_true; rune_lia|apply cont_byte_low]. }
  change (String ?a (str3 ?b ?c ?d) +:+ s) with (String a (String b (String c (String d s)))).
  rewrite runes_four; [|unfold code_in; rewrite code_byte by rune_lia; apply in_range_true; rune_lia
                       | |apply cont_byte_low..].
  { f_equal. rewrite !code_byte by rune_lia. rune_lia. }
  unfold second4, code_is, code_in. rewrite !code_byte by rune_lia.
  destruct (N.eqb_spec (240 + r / 262144) 240); [apply in_range_true; rune_lia|].
  destruct (N.eqb_spec (240 + r / 262144) 244); [apply in_range_true; rune_lia|apply cont_byte_low].
Qed.

Lemma valid_error : valid_rune rune_error = true.
Proof. done. Qed.

Lemma runes_valid s : Forall (fun r => valid_rune r = true) (runes s).
Proof.
  induction s as [s IH] using str_ind_len. destruct s as [|a r]; [constructor|].
  assert (forall t, (String.length t < S (String.length r))%nat -> Forall (fun r => valid_rune r = true) (runes t))
    as IH' by (intros t Ht; by apply IH).
  clear IH. cbn [runes]. pose proof (code_lt a).
  destruct (code_in a 0 127) eqn:E1.
  { unfold code_in in E1. apply in_range_inv in E1. constructor; [apply valid_rune_spec; lia|apply IH'; lia]. }
  destruct r as [|b r2]; [by repeat constructor|].
  destruct (code_in a 194 223 && cont_byte b) eqn:E2.
  { rune_hyps. constructor; [apply valid_rune_spec; lia|apply IH'; simpl; lia]. }
  destruct r2 as [|c r3]; [constructor; [done|apply IH'; simpl; lia]|].
  destruct (code_in a 224 239 && second3 a b && cont_byte c) eqn:E3.
  { unfold second3 in *. rune_hyps.
    constructor; [apply valid_rune_spec|apply IH'; simpl; lia].
    destruct (N.eqb_spec (code a) 224); [|destruct (N.eqb_spec (code a) 237)]; rune_hyps; lia. }
  destruct r3 as [|d r4]; [constructor; [done|apply IH'; simpl; lia]|].
  destruct (code_in a 240 244 && second4 a b && cont_byte c && cont_byte d) eqn:E4.
  { unfold second4 in *. rune_hyps.
    constructor; [apply valid_rune_spec|apply IH'; simpl; lia].
    destruct (N.eqb_spec (code a) 240); [|destruct (N.eqb_spec (code a) 244)]; rune_hyps; lia. }
  constructor; [done|apply IH'; simpl; lia].
Qed.

(** [[]rune(string(l))] is [l] when every rune of [l] is valid. *)
Lemma runes_of_runes l s :
  Forall (fun r => valid_rune r = true) l -> runes (string_of_runes l +:+ s) = l ++ runes s.
Proof.
  induction 1 as [|r l Hr Hl IH]; [done|]. cbn [string_of_runes app].
  unfold encode_rune. by rewrite Hr, str_app_assoc, runes_encode_valid, IH.
Qed.

Lemma runes_string_of_runes l :
  Forall (fun r => valid_rune r = true) l -> runes (string_of_runes l) = l.
Proof. intros H. rewrite <- (str_app_nil_r (string_of_runes l)), runes_of_runes by done. apply app_nil_r. Qed.

Lemma string_of_runes_app l k : string_of_runes (l ++ k) = string_of_runes l +:+ string_of_runes k.
Proof. induction l as [|r l IH]; [done|]. cbn [string_of_runes app]. by rewrite IH, str_app_assoc. Qed.

Lemma utf16_width_pos r : (1 <= utf16_width r <= 2)%Z.
Proof. unfold utf16_width. destruct (_ && _)%N; lia. Qed.

#[export] Hint Resolve valid_error runes_valid : bridge.

(** *** ASCII bytes and ASCII runes are the same *)
Lemma eqb_byte_high c n :
  (code c < 128)%N -> (128 <= n < 256)%N -> Ascii.eqb (byte_of n) c = false.
Proof.
  intros Hc Hn. destruct (Ascii.eqb_spec (byte_of n) c) as [<-|]; [|done].
  rewrite code_byte in Hc by lia. lia.
Qed.

Lemma has_byte_encode c r :
  (code c < 128)%N -> valid_rune r = true -> has_byte c (encode_rune r) = (r =? code c)%N.
Proof.
  intros Hc Hv. unfold encode_rune. rewrite Hv. rewrite valid_rune_spec in Hv. unfold encode_valid.
  destruct (N.ltb_spec r 128) as [H1|H1].
  { cbn [has_byte str1]. rewrite orb_false_r. destruct (N.eqb_spec r (code c)) as [->|Hne].
    - apply Ascii.eqb_eq. unfold byte_of, code. apply ascii_N_embedding.
    - destruct (Ascii.eqb_spec (byte_of r) c) as [<-|]; [|done]. by rewrite code_byte in Hne by lia. }
  destruct (N.eqb_spec r (code c)); [lia|].
  destruct (N.ltb_spec r 2048); [|destruct (N.ltb_spec r 65536)];
    cbn [has_byte str1 str2 str3]; rewrite !eqb_byte_high by (try done; rune_lia); done.
Qed.

Lemma has_byte_runes c l :
  (code c < 128)%N -> Forall (fun r => valid_rune r = true) l ->
  has_byte c (string_of_runes l) = existsb (fun r => (r =? code c)%N) l.
Proof.
  intros Hc. induction 1 as [|r l Hr Hl IH]; [done|].
  cbn [string_of_runes existsb]. by rewrite has_byte_app, has_byte_encode, IH.
Qed.

(** A rune below 128 is a byte of the string. *)
Lemma runes_ascii c s :
  (code c < 128)%N -> has_byte c s = false -> Forall (fun r => r <> code c) (runes s).
Proof.
  intros Hc. induction s as [s IH] using str_ind_len. intros Hs.
  destruct s as [|a r]; [constructor|].
  assert (IH' : forall t, (String.length t < S (String.length r))%nat -> has_byte c t = false ->
                Forall (fun r => r <> code c) (runes t)) by (intros t Ht; by apply IH).
  clear IH. cbn [has_byte] in Hs. apply orb_false_elim in Hs as [Ha Hr].
  assert (Hne : code a <> code c).
  { intros E. assert (a = c) as -> by (rewrite <- (ascii_N_embedding a), <- (ascii_N_embedding c); by f_equal).
    by rewrite Ascii.eqb_refl in Ha. }
  assert (He : rune_error <> code c) by (unfold rune_error; lia).
  cbn [runes]. destruct (code_in a 0 127) eqn:E1; [constructor; [done|apply IH'; [lia|done]]|].
  destruct r as [|b r2]; [by repeat constructor|]. cbn [has_byte] in Hr.
  apply orb_false_elim in Hr as [Hb Hr2].
  destruct (code_in a 194 223 && cont_byte b) eqn:E2.
  { rune_hyps. constructor; [lia|apply IH'; [simpl; lia|done]]. }
  assert (Hrest : has_byte c (String b r2) = false) by (cbn [has_byte]; by rewrite Hb).
  destruct r2 as [|d r3]; [constructor; [done|apply IH'; [simpl; lia|done]]|].
  pose proof Hr2 as Hr2'. cbn [has_byte] in Hr2'. apply orb_false_elim in Hr2' as [Hd Hr3].
  destruct (code_in a 224 239 && second3 a b && cont_byte d) eqn:E3.
  { unfold second3 in *. rune_hyps. constructor; [|apply IH'; [simpl; lia|done]].
    destruct (N.eqb_spec (code a) 224); [|destruct (N.eqb_spec (code a) 237)]; rune_hyps; lia. }
  destruct r3 as [|e r4]; [constructor; [done|apply IH'; [simpl; lia|done]]|].
  cbn [has_byte] in Hr3. apply orb_false_elim in Hr3 as [_ Hr4].
  destruct (code_in a 240 244 && second4 a b && cont_byte d && cont_byte e) eqn:E4.
  { unfold second4 in *. rune_hyps. constructor; [|apply IH'; [simpl; lia|done]].
    destruct (N.eqb_spec (code a) 240); [|destruct (N.eqb_spec (code a) 244)]; rune_hyps; lia. }
  constructor; [done|apply IH'; [simpl; lia|done]].
Qed.
