(* ===== verification/Unicode.v ===== *)
(** * Lower case

    unicode.ToLower and strings.ToLower of the Go library, with the simple lower-case mapping of
    Unicode 15.0 as ranges.  It is what keys are compared by; a comparison with a constant
    of ASCII letters only needs [GoStrings.to_lower]. *)
From stdpp Require Import base list numbers strings.
From Stdlib Require Import Lia Ascii.
From S2P Require Import Prelude GoStrings Utf8.

(** Every range: its first and last rune, the distance between its runes, and how far each
    is from its lower case. *)
Definition lower_ranges : list (N * N * N * Z) :=
  [(65, 90, 1, 32%Z); (192, 214, 1, 32%Z); (216, 222, 1, 32%Z); (256, 302, 2, 1%Z); (304, 304, 1, (-199)%Z);
   (306, 310, 2, 1%Z); (313, 327, 2, 1%Z); (330, 374, 2, 1%Z); (376, 376, 1, (-121)%Z); (377, 381, 2, 1%Z);
   (385, 385, 1, 210%Z); (386, 388, 2, 1%Z); (390, 390, 1, 206%Z); (391, 391, 1, 1%Z); (393, 394, 1, 205%Z);
   (395, 395, 1, 1%Z); (398, 398, 1, 79%Z); (399, 399, 1, 202%Z); (400, 400, 1, 203%Z); (401, 401, 1, 1%Z);
   (403, 403, 1, 205%Z); (404, 404, 1, 207%Z); (406, 406, 1, 211%Z); (407, 407, 1, 209%Z); (408, 408, 1, 1%Z);
   (412, 412, 1, 211%Z); (413, 413, 1, 213%Z); (415, 415, 1, 214%Z); (416, 420, 2, 1%Z); (422, 422, 1, 218%Z);
   (423, 423, 1, 1%Z); (425, 425, 1, 218%Z); (428, 428, 1, 1%Z); (430, 430, 1, 218%Z); (431, 431, 1, 1%Z);
   (433, 434, 1, 217%Z); (435, 437, 2, 1%Z); (439, 439, 1, 219%Z); (440, 440, 1, 1%Z); (444, 444, 1, 1%Z);
   (452, 452, 1, 2%Z); (453, 453, 1, 1%Z); (455, 455, 1, 2%Z); (456, 456, 1, 1%Z); (458, 458, 1, 2%Z);
   (459, 475, 2, 1%Z); (478, 494, 2, 1%Z); (497, 497, 1, 2%Z); (498, 500, 2, 1%Z); (502, 502, 1, (-97)%Z);
   (503, 503, 1, (-56)%Z); (504, 542, 2, 1%Z); (544, 544, 1, (-130)%Z); (546, 562, 2, 1%Z); (570, 570, 1, 10795%Z);
   (571, 571, 1, 1%Z); (573, 573, 1, (-163)%Z); (574, 574, 1, 10792%Z); (577, 577, 1, 1%Z); (579, 579, 1, (-195)%Z);
   (580, 580, 1, 69%Z); (581, 581, 1, 71%Z); (582, 590, 2, 1%Z); (880, 882, 2, 1%Z); (886, 886, 1, 1%Z);
   (895, 895, 1, 116%Z); (902, 902, 1, 38%Z); (904, 906, 1, 37%Z); (908, 908, 1, 64%Z); (910, 911, 1, 63%Z);
   (913, 929, 1, 32%Z); (931, 939, 1, 32%Z); (975, 975, 1, 8%Z); (984, 1006, 2, 1%Z); (1012, 1012, 1, (-60)%Z);
   (1015, 1015, 1, 1%Z); (1017, 1017, 1, (-7)%Z); (1018, 1018, 1, 1%Z); (1021, 1023, 1, (-130)%Z);
   (1024, 1039, 1, 80%Z); (1040, 1071, 1, 32%Z); (1120, 1152, 2, 1%Z); (1162, 1214, 2, 1%Z); (1216, 1216, 1, 15%Z);
   (1217, 1229, 2, 1%Z); (1232, 1326, 2, 1%Z); (1329, 1366, 1, 48%Z); (4256, 4293, 1, 7264%Z);
   (4295, 4295, 1, 7264%Z); (4301, 4301, 1, 7264%Z); (5024, 5103, 1, 38864%Z); (5104, 5109, 1, 8%Z);
   (7312, 7354, 1, (-3008)%Z); (7357, 7359, 1, (-3008)%Z); (7680, 7828, 2, 1%Z); (7838, 7838, 1, (-7615)%Z);
   (7840, 7934, 2, 1%Z); (7944, 7951, 1, (-8)%Z); (7960, 7965, 1, (-8)%Z); (7976, 7983, 1, (-8)%Z);
   (7992, 7999, 1, (-8)%Z); (8008, 8013, 1, (-8)%Z); (8025, 8031, 2, (-8)%Z); (8040, 8047, 1, (-8)%Z);
   (8072, 8079, 1, (-8)%Z); (8088, 8095, 1, (-8)%Z); (8104, 8111, 1, (-8)%Z); (8120, 8121, 1, (-8)%Z);
   (8122, 8123, 1, (-74)%Z); (8124, 8124, 1, (-9)%Z); (8136, 8139, 1, (-86)%Z); (8140, 8140, 1, (-9)%Z);
   (8152, 8153, 1, (-8)%Z); (8154, 8155, 1, (-100)%Z); (8168, 8169, 1, (-8)%Z); (8170, 8171, 1, (-112)%Z);
   (8172, 8172, 1, (-7)%Z); (8184, 8185, 1, (-128)%Z); (8186, 8187, 1, (-126)%Z); (8188, 8188, 1, (-9)%Z);
   (8486, 8486, 1, (-7517)%Z); (8490, 8490, 1, (-8383)%Z); (8491, 8491, 1, (-8262)%Z); (8498, 8498, 1, 28%Z);
   (8544, 8559, 1, 16%Z); (8579, 8579, 1, 1%Z); (9398, 9423, 1, 26%Z); (11264, 11311, 1, 48%Z);
   (11360, 11360, 1, 1%Z); (11362, 11362, 1, (-10743)%Z); (11363, 11363, 1, (-3814)%Z);
   (11364, 11364, 1, (-10727)%Z); (11367, 11371, 2, 1%Z); (11373, 11373, 1, (-10780)%Z);
   (11374, 11374, 1, (-10749)%Z); (11375, 11375, 1, (-10783)%Z); (11376, 11376, 1, (-10782)%Z);
   (11378, 11378, 1, 1%Z); (11381, 11381, 1, 1%Z); (11390, 11391, 1, (-10815)%Z); (11392, 11490, 2, 1%Z);
   (11499, 11501, 2, 1%Z); (11506, 11506, 1, 1%Z); (42560, 42604, 2, 1%Z); (42624, 42650, 2, 1%Z);
   (42786, 42798, 2, 1%Z); (42802, 42862, 2, 1%Z); (42873, 42875, 2, 1%Z); (42877, 42877, 1, (-35332)%Z);
   (42878, 42886, 2, 1%Z); (42891, 42891, 1, 1%Z); (42893, 42893, 1, (-42280)%Z); (42896, 42898, 2, 1%Z);
   (42902, 42920, 2, 1%Z); (42922, 42922, 1, (-42308)%Z); (42923, 42923, 1, (-42319)%Z);
   (42924, 42924, 1, (-42315)%Z); (42925, 42925, 1, (-42305)%Z); (42926, 42926, 1, (-42308)%Z);
   (42928, 42928, 1, (-42258)%Z); (42929, 42929, 1, (-42282)%Z); (42930, 42930, 1, (-42261)%Z);
   (42931, 42931, 1, 928%Z); (42932, 42946, 2, 1%Z); (42948, 42948, 1, (-48)%Z); (42949, 42949, 1, (-42307)%Z);
   (42950, 42950, 1, (-35384)%Z); (42951, 42953, 2, 1%Z); (42960, 42960, 1, 1%Z); (42966, 42968, 2, 1%Z);
   (42997, 42997, 1, 1%Z); (65313, 65338, 1, 32%Z); (66560, 66599, 1, 40%Z); (66736, 66771, 1, 40%Z);
   (66928, 66938, 1, 39%Z); (66940, 66954, 1, 39%Z); (66956, 66962, 1, 39%Z); (66964, 66965, 1, 39%Z);
   (68736, 68786, 1, 64%Z); (71840, 71871, 1, 32%Z); (93760, 93791, 1, 32%Z); (125184, 125217, 1, 34%Z)]%N.

Definition in_case_range (r lo hi stride : N) : bool :=
  ((lo <=? r) && (r <=? hi) && ((r - lo) mod stride =? 0))%N.

Fixpoint lower_in (r : N) (ranges : list (N * N * N * Z)) : N :=
  match ranges with
  | [] => r
  | (lo, hi, stride, delta) :: rest =>
      if in_case_range r lo hi stride then Z.to_N (Z.of_N r + delta) else lower_in r rest
  end.

(** unicode.ToLower *)
Definition lower_rune (r : N) : N := lower_in r lower_ranges.

(** strings.ToLower: an invalid byte becomes U+FFFD. *)
Definition ToLower (s : string) : string := string_of_runes (map lower_rune (runes s)).

(** The runes of a range. *)
Definition range_runes (range : N * N * N * Z) : list N :=
  let '(lo, hi, stride, _) := range in
  map (fun k => lo + N.of_nat k * stride)%N (seq 0 (S (N.to_nat ((hi - lo) / stride)))).

(** The lower case of a rune is a rune, and its own lower case. *)
Definition settled (r : N) : bool := valid_rune (lower_rune r) && (lower_rune (lower_rune r) =? lower_rune r)%N.

Example lower_letters :
  map lower_rune [65; 122; 196; 304; 453; 937; 1025; 8490; 44032; 66560]%N
  = [97; 122; 228; 105; 454; 969; 1105; 107; 44032; 66600]%N.
Proof. vm_compute. reflexivity. Qed.

(** ** Lemmas *)

Lemma in_range_runes r lo hi stride delta :
  in_case_range r lo hi stride = true -> r ∈ range_runes (lo, hi, stride, delta).
Proof.
  unfold in_case_range. intros [[H1%N.leb_le H2%N.leb_le]%andb_prop H3%N.eqb_eq]%andb_prop.
  cbn [range_runes]. apply list_elem_of_fmap. exists (N.to_nat ((r - lo) / stride)). split.
  - rewrite N2Nat.id. pose proof (N.div_mod' (r - lo) stride). nia.
  - apply elem_of_seq. split; [lia|]. destruct (N.eq_dec stride 0%N) as [->|Hs].
    + replace (r - lo)%N with 0%N by (destruct (r - lo)%N; [done|discriminate]). cbn. lia.
    + assert ((r - lo) / stride <= (hi - lo) / stride)%N by (apply N.Div0.div_le_mono; lia). lia.
Qed.

Lemma lower_in_cases r ranges :
  lower_in r ranges = r \/ exists range, range ∈ ranges /\ r ∈ range_runes range.
Proof.
  induction ranges as [|[[[lo hi] stride] delta] rest IH]; [by left|]. cbn [lower_in].
  destruct (in_case_range r lo hi stride) eqn:E.
  - right. exists (lo, hi, stride, delta). split; [left|by apply in_range_runes].
  - destruct IH as [->|(range & Hin & H)]; [by left|]. right. exists range. split; [by right|done].
Qed.

Lemma ranges_settled : forallb (fun range => forallb settled (range_runes range)) lower_ranges = true.
Proof. vm_compute. reflexivity. Qed.

Lemma lower_settled r : valid_rune r = true -> settled r = true.
Proof.
  intros Hr. destruct (lower_in_cases r lower_ranges) as [E|(range & Hin & H)].
  - unfold settled. change (lower_rune r = r) in E. by rewrite !E, Hr, N.eqb_refl.
  - pose proof ranges_settled as Hs. rewrite forallb_forall in Hs.
    specialize (Hs range (proj1 (list_elem_of_In _ _) Hin)). rewrite forallb_forall in Hs. by apply Hs, list_elem_of_In.
Qed.

(** Keys are in their final form: lowering one again changes nothing. *)
Lemma ToLower_idemp s : ToLower (ToLower s) = ToLower s.
Proof.
  assert (H : Forall (fun r => settled r = true) (runes s))
    by (eapply Forall_impl; [apply runes_valid|apply lower_settled]).
  unfold ToLower. rewrite runes_string_of_runes.
  - f_equal. rewrite map_map. induction H as [|r l H _ IH]; [done|]. cbn [map]. rewrite IH. f_equal.
    apply andb_prop in H as [_ H]. by apply N.eqb_eq.
  - induction H as [|r l H _ IH]; constructor; [by apply andb_prop in H as [H _]|done].
Qed.
