(* ===== verification/Crypto.v ===== *)
(** * crypto/sha1, crypto/sha256 and encoding/hex on byte lists

    Words are 32-bit unsigned integers, an [N] below 2^32 with the wrap-around of
    every addition written out.  The functions compute, so a witness evaluates
    real fingerprints. *)
From stdpp Require Import base list numbers strings.
From Stdlib Require Import Lia Ascii.
From S2P Require Import Prelude GoStrings.

Definition word_mod : N := 4294967296.
Definition wadd (a b : N) : N := ((a + b) mod word_mod)%N.
Definition wnot (a : N) : N := (word_mod - 1 - a)%N.
Definition rotl (k a : N) : N :=
  N.lor ((N.shiftl a k) mod word_mod) (N.shiftr a (32 - k)).
Definition rotr (k a : N) : N := rotl (32 - k) a.

Fixpoint bytes_of (s : string) : list N :=
  match s with
  | EmptyString => []
  | String a r => code a :: bytes_of r
  end.

Definition word_bytes (w : N) : list N :=
  [ N.shiftr w 24 mod 256; N.shiftr w 16 mod 256; N.shiftr w 8 mod 256; w mod 256 ]%N.

Fixpoint words_of (l : list N) : list N :=
  match l with
  | a :: b :: c :: d :: r => (a * 16777216 + b * 65536 + c * 256 + d)%N :: words_of r
  | _ => []
  end.

(** The padded message: 0x80, zeros up to 56 modulo 64, the length in bits. *)
Definition padded (l : list N) : list N :=
  let n := N.of_nat (length l) in
  let zeros := Z.to_nat ((55 - Z.of_N n) mod 64) in
  let bits := (8 * n)%N in
  l ++ 128%N :: replicate zeros 0%N
    ++ word_bytes (N.shiftr bits 32) ++ word_bytes (bits mod word_mod).

Fixpoint blocks (fuel : nat) (l : list N) : list (list N) :=
  match fuel with
  | O => []
  | S k => match l with
           | [] => []
           | _ => take 64 l :: blocks k (drop 64 l)
           end
  end.

Definition message_blocks (l : list N) : list (list N) :=
  let p := padded l in map words_of (blocks (length p) p).

(** *** SHA-1 *)
Record sha1_state : Type := Sha1 { s1a : N; s1b : N; s1c : N; s1d : N; s1e : N }.

(** The message schedule, newest word first. *)
Fixpoint sha1_extend (n : nat) (w : list N) : list N :=
  match n with
  | O => w
  | S k =>
      let x := N.lxor (N.lxor (nth 2 w 0%N) (nth 7 w 0%N)) (N.lxor (nth 13 w 0%N) (nth 15 w 0%N)) in
      sha1_extend k (rotl 1 x :: w)
  end.

Definition sha1_f (t : nat) (b c d : N) : N :=
  if (t <? 20)%nat then N.lor (N.land b c) (N.land (wnot b) d)
  else if (t <? 40)%nat then N.lxor (N.lxor b c) d
  else if (t <? 60)%nat then N.lor (N.lor (N.land b c) (N.land b d)) (N.land c d)
  else N.lxor (N.lxor b c) d.

Definition sha1_k (t : nat) : N :=
  if (t <? 20)%nat then 1518500249
  else if (t <? 40)%nat then 1859775393
  else if (t <? 60)%nat then 2400959708
  else 3395469782.

Definition sha1_round (st : nat * sha1_state) (w : N) : nat * sha1_state :=
  let '(t, Sha1 a b c d e) := st in
  let temp := wadd (wadd (wadd (rotl 5 a) (sha1_f t b c d)) (wadd e (sha1_k t))) w in
  (S t, Sha1 temp a (rotl 30 b) c d).

Definition sha1_block (h : sha1_state) (ws : list N) : sha1_state :=
  let schedule := rev (sha1_extend 64 (rev ws)) in
  let '(_, Sha1 a b c d e) := fold_left sha1_round schedule (O, h) in
  Sha1 (wadd (s1a h) a) (wadd (s1b h) b) (wadd (s1c h) c) (wadd (s1d h) d) (wadd (s1e h) e).

Definition sha1_init : sha1_state :=
  Sha1 1732584193 4023233417 2562383102 271733878 3285377520.

Definition sha1_sum (l : list N) : list N :=
  let h := fold_left sha1_block (message_blocks l) sha1_init in
  word_bytes (s1a h) ++ word_bytes (s1b h) ++ word_bytes (s1c h) ++ word_bytes (s1d h)
  ++ word_bytes (s1e h).

(** *** SHA-256 *)
Record sha2_state : Type :=
  Sha2 { s2a : N; s2b : N; s2c : N; s2d : N; s2e : N; s2f : N; s2g : N; s2h : N }.

Definition sha2_k : list N :=
  [1116352408; 1899447441; 3049323471; 3921009573; 961987163; 1508970993; 2453635748; 2870763221;
   3624381080; 310598401; 607225278; 1426881987; 1925078388; 2162078206; 2614888103; 3248222580;
   3835390401; 4022224774; 264347078; 604807628; 770255983; 1249150122; 1555081692; 1996064986;
   2554220882; 2821834349; 2952996808; 3210313671; 3336571891; 3584528711; 113926993; 338241895;
   666307205; 773529912; 1294757372; 1396182291; 1695183700; 1986661051; 2177026350; 2456956037;
   2730485921; 2820302411; 3259730800; 3345764771; 3516065817; 3600352804; 4094571909; 275423344;
   430227734; 506948616; 659060556; 883997877; 958139571; 1322822218; 1537002063; 1747873779;
   1955562222; 2024104815; 2227730452; 2361852424; 2428436474; 2756734187; 3204031479; 3329325298]%N.

Fixpoint sha2_extend (n : nat) (w : list N) : list N :=
  match n with
  | O => w
  | S k =>
      let w15 := nth 14 w 0%N in
      let w2 := nth 1 w 0%N in
      let g0 := N.lxor (N.lxor (rotr 7 w15) (rotr 18 w15)) (N.shiftr w15 3) in
      let g1 := N.lxor (N.lxor (rotr 17 w2) (rotr 19 w2)) (N.shiftr w2 10) in
      sha2_extend k (wadd (wadd (nth 15 w 0%N) g0) (wadd (nth 6 w 0%N) g1) :: w)
  end.

Definition sha2_round (st : sha2_state) (kw : N * N) : sha2_state :=
  let '(Sha2 a b c d e f g h) := st in
  let '(k, w) := kw in
  let g1 := N.lxor (N.lxor (rotr 6 e) (rotr 11 e)) (rotr 25 e) in
  let ch := N.lxor (N.land e f) (N.land (wnot e) g) in
  let t1 := wadd (wadd (wadd h g1) (wadd ch k)) w in
  let g0 := N.lxor (N.lxor (rotr 2 a) (rotr 13 a)) (rotr 22 a) in
  let maj := N.lxor (N.lxor (N.land a b) (N.land a c)) (N.land b c) in
  Sha2 (wadd t1 (wadd g0 maj)) a b c (wadd d t1) e f g.

Definition sha2_block (h : sha2_state) (ws : list N) : sha2_state :=
  let schedule := rev (sha2_extend 48 (rev ws)) in
  let '(Sha2 a b c d e f g k) := fold_left sha2_round (zip sha2_k schedule) h in
  Sha2 (wadd (s2a h) a) (wadd (s2b h) b) (wadd (s2c h) c) (wadd (s2d h) d)
       (wadd (s2e h) e) (wadd (s2f h) f) (wadd (s2g h) g) (wadd (s2h h) k).

Definition sha2_init : sha2_state :=
  Sha2 1779033703 3144134277 1013904242 2773480762 1359893119 2600822924 528734635 1541459225.

Definition sha256_sum (l : list N) : list N :=
  let h := fold_left sha2_block (message_blocks l) sha2_init in
  word_bytes (s2a h) ++ word_bytes (s2b h) ++ word_bytes (s2c h) ++ word_bytes (s2d h)
  ++ word_bytes (s2e h) ++ word_bytes (s2f h) ++ word_bytes (s2g h) ++ word_bytes (s2h h).

(** *** hex.EncodeToString *)
Definition hex_digit (n : N) : ascii :=
  if (n <? 10)%N then ascii_of_N (48 + n) else ascii_of_N (87 + n).

Fixpoint hex (l : list N) : string :=
  match l with
  | [] => EmptyString
  | b :: r => String (hex_digit (b / 16)) (String (hex_digit (b mod 16)) (hex r))
  end.

(** ** Lemmas *)

Lemma length_hex l : String.length (hex l) = (2 * length l)%nat.
Proof. induction l as [|b l IH]; [done|]. simpl. rewrite IH. lia. Qed.

Lemma length_sha1 l : length (sha1_sum l) = 20%nat.
Proof. reflexivity. Qed.

Lemma length_sha256 l : length (sha256_sum l) = 32%nat.
Proof. reflexivity. Qed.

Lemma word_bytes_small w : Forall (fun b => (b < 256)%N) (word_bytes w).
Proof. unfold word_bytes. repeat constructor; by apply N.mod_lt. Qed.

Lemma sha1_sum_small l : Forall (fun b => (b < 256)%N) (sha1_sum l).
Proof. unfold sha1_sum. cbv zeta. rewrite !Forall_app. repeat split; apply word_bytes_small. Qed.

Lemma sha256_sum_small l : Forall (fun b => (b < 256)%N) (sha256_sum l).
Proof. unfold sha256_sum. repeat apply Forall_app_2; apply word_bytes_small. Qed.

Lemma hex_digit_visible n : (n < 16)%N -> code_in (hex_digit n) 33 127 = true.
Proof.
  intros H. unfold hex_digit, code_in, code. destruct (N.ltb_spec n 10);
    rewrite N_ascii_embedding by lia; apply andb_true_intro; split; apply N.leb_le; lia.
Qed.

Lemma hex_visible l : Forall (fun b => (b < 256)%N) l -> visible (hex l) = true.
Proof.
  induction 1 as [|b l Hb Hl IH]; [done|]. cbn [hex visible].
  rewrite !hex_digit_visible, IH; [done|..].
  - apply N.mod_lt. done.
  - apply N.Div0.div_lt_upper_bound. lia.
Qed.

Lemma sha1_abc : hex (sha1_sum (bytes_of "abc")) = "a9993e364706816aba3e25717850c26c9cd0d89d".
Proof. vm_compute. reflexivity. Qed.

Lemma sha256_abc :
  hex (sha256_sum (bytes_of "abc")) = "ba7816bf8f01cfea414140de5dae2223b00361a396177a9cb410ff61f20015ad".
Proof. vm_compute. reflexivity. Qed.
