(* ===== verification/Json.v ===== *)
(** * Decoded JSON: Go's [any] and [map[string]any]

    What App Server sends is decoded by encoding/json into [any]; the bridge then
    reads it with type assertions.  [any] is that value; a [map[string]any] is an
    association list, read by its first binding.  A JSON number is a float64,
    held as the shortest decimal that denotes it, mantissa times a power of ten,
    which is what strconv prints; conversions to int64 are exact below 2^53. *)
From stdpp Require Import base list numbers strings.
From Stdlib Require Import Lia Ascii.
From S2P Require Import Prelude GoStrings.

Set Warnings "-register-all".

Inductive any : Type :=
| JNil
| JBool (b : bool)
| JNum (mantissa exponent : Z)
| JInt (z : Z)
| JStr (s : string)
| JArr (l : list any)
| JObj (m : list (string * any)).

Abbreviation obj := (list (string * any)).

(** m[key], and whether the key is bound. *)
Fixpoint get (m : obj) (key : string) : any :=
  match m with
  | [] => JNil
  | (k, v) :: r => if String.eqb k key then v else get r key
  end.

Fixpoint has_key (m : obj) (key : string) : bool :=
  match m with
  | [] => false
  | (k, _) :: r => String.eqb k key || has_key r key
  end.

(** Type assertions [v.(T)]; None is a failed one. *)
Definition as_map (v : any) : option obj := match v with JObj m => Some m | _ => None end.
Definition as_slice (v : any) : option (list any) := match v with JArr l => Some l | _ => None end.
Definition as_string (v : any) : option string := match v with JStr s => Some s | _ => None end.

(** [m, _ := v.(map[string]any)]: a nil map reads as an empty one. *)
Definition map_or_nil (v : any) : obj := default [] (as_map v).
Definition slice_or_nil (v : any) : list any := default [] (as_slice v).

(** m[key] = v: the old binding of the key goes. *)
Definition put (m : obj) (key : string) (v : any) : obj :=
  (key, v) :: filter (fun kv => negb (String.eqb kv.1 key)) m.

(** *** Numbers *)

(** int64(f): truncation; out of range gives the most negative value, as on amd64. *)
Definition num_to_int64 (m e : Z) : Z :=
  let t := if (0 <=? e)%Z then (m * 10 ^ e)%Z else Z.quot m (10 ^ (- e)) in
  if in_int64 t then t else int64_min.

(** Trailing zeros of the mantissa move to the exponent; the fuel is the number
    of digits. *)
Fixpoint strip_zeros (fuel : nat) (m e : Z) : Z * Z :=
  match fuel with
  | O => (m, e)
  | S k => if (negb (m =? 0) && (m mod 10 =? 0))%Z then strip_zeros k (m / 10) (e + 1) else (m, e)
  end.

Fixpoint zeros (n : nat) : string :=
  match n with O => EmptyString | S k => String "0" (zeros k) end.

Definition pad2 (z : Z) : string := if (z <? 10)%Z then "0" +:+ format_int z else format_int z.

(** strconv.FormatFloat(f, 'g', -1, 64): the shortest digits, with an exponent
    when it is below -4 or at least 6. *)
Definition format_float (m0 e0 : Z) : string :=
  let '(m, e) := strip_zeros (String.length (format_int (Z.abs m0))) (Z.abs m0) e0 in
  let sign := if (m0 <? 0)%Z then "-" else "" in
  if (m =? 0)%Z then sign +:+ "0"
  else
    let ds := format_int m in
    let nd := Z.of_nat (String.length ds) in
    let dp := (nd + e)%Z in
    let x := (dp - 1)%Z in
    if ((x <? -4) || (6 <=? x))%Z then
      sign +:+ str_take 1 ds
      +:+ (if (1 <? nd)%Z then "." +:+ str_drop 1 ds else "")
      +:+ "e" +:+ (if (x <? 0)%Z then "-" else "+") +:+ pad2 (Z.abs x)
    else if (dp <=? 0)%Z then sign +:+ "0." +:+ zeros (Z.to_nat (- dp)) +:+ ds
    else if (nd <=? dp)%Z then sign +:+ ds +:+ zeros (Z.to_nat (dp - nd))
    else sign +:+ str_take (Z.to_nat dp) ds +:+ "." +:+ str_drop (Z.to_nat dp) ds.

(** fmt.Sprintf("%v", v); the keys of a map print in order. *)
Fixpoint sprint (v : any) : string :=
  match v with
  | JNil => "<nil>"
  | JBool b => format_bool b
  | JNum m e => format_float m e
  | JInt z => format_int z
  | JStr s => s
  | JArr l => "[" +:+ join " " (map sprint l) +:+ "]"
  | JObj m =>
      let entries := map (fun kv => (kv.1, kv.1 +:+ ":" +:+ sprint kv.2)) m in
      "map[" +:+ join " " (map snd (sort_by (fun a b => String.leb a.1 b.1) entries)) +:+ "]"
  end.

(** *** The helpers of internal/appserver that read an [any] *)

(** appserver.stringValue: the literal "<nil>" counts as absent. *)
Definition stringValue (value : any) (fallback : string) : string :=
  match value with
  | JStr typed => if String.eqb (trim_space typed) "<nil>" then fallback else typed
  | _ => fallback
  end.

Definition int64Value (value : any) : Z :=
  match value with
  | JNum m e => num_to_int64 m e
  | JInt z => z
  | _ => 0
  end.

(** appserver.rpcString *)
Definition rpcString (value : any) : string :=
  match value with
  | JNil => ""
  | _ =>
      let out := trim_space (sprint value) in
      if String.eqb out "" || String.eqb out "<nil>" then "" else out
  end.

(** appserver.asMap *)
Definition asMap (value : any) : obj := match value with JObj m => m | _ => [] end.

Definition stringSliceValue (value : any) : list string :=
  match value with
  | JArr items => filter (fun t => negb (String.eqb t "")) (map rpcString items)
  | _ => []
  end.

Definition firstString (values : list string) : string :=
  default "" (first_some (fun v => let t := trim_space v in
                                   if String.eqb t "" then None else Some t) values).

(** daemon.cleanPayloadString, payloadString and their callers (payload.go). *)
Definition cleanPayloadString (value : string) : string :=
  let v := trim_space value in
  if String.eqb v "" || String.eqb v "<nil>" then "" else v.

Definition payloadString (value : any) : string :=
  match value with
  | JNil => ""
  | JStr typed => cleanPayloadString typed
  | _ => cleanPayloadString (sprint value)
  end.

Definition payloadAny (value : any) : any :=
  if String.eqb (payloadString value) "" then JNil else value.

Definition cleanTelegramNilLiteral (value : string) : string := replace_all value "<nil>" "".

Definition payloadMapString (values : obj) (key : string) : string := payloadString (get values key).

Definition firstPayloadString (values : obj) (keys : list string) : string :=
  default "" (first_some (fun k => let v := payloadMapString values k in
                                   if String.eqb v "" then None else Some v) keys).

(** ** Lemmas *)

Example sprint_ids :
  sprint (JNum 1 0) = "1" /\ sprint (JNum 15 (-1)) = "1.5" /\ sprint (JNum 12 5) = "1.2e+06"
  /\ sprint (JArr [JStr "a"; JNil]) = "[a <nil>]"
  /\ sprint (JObj [("b", JBool true); ("a", JInt 3)]) = "map[a:3 b:true]".
Proof. vm_compute. done. Qed.

Lemma get_put m k v : get (put m k v) k = v.
Proof. unfold put. simpl. by rewrite String.eqb_refl. Qed.

Lemma get_put_ne m k k' v : k <> k' -> get (put m k v) k' = get m k'.
Proof.
  intros H. unfold put. simpl. destruct (String.eqb_spec k k') as [->|_]; [done|].
  induction m as [|[x y] m IH]; [done|]. rewrite filter_cons. simpl.
  destruct (String.eqb_spec x k) as [->|Hx]; simpl.
  - destruct (String.eqb_spec k k'); [done|]. apply IH.
  - destruct (String.eqb x k'); [done|]. apply IH.
Qed.

(** stringValue never answers a nil literal of its own. *)
Lemma stringValue_nil_safe v fb :
  trim_space (stringValue v fb) = "<nil>" -> stringValue v fb = fb.
Proof.
  unfold stringValue. destruct v; try done.
  destruct (String.eqb_spec (trim_space s) "<nil>"); [done|]. congruence.
Qed.

Lemma firstString_trimmed l : trim_space (firstString l) = firstString l.
Proof.
  unfold firstString. destruct (first_some _ l) as [x|] eqn:E; [|done]. simpl.
  apply first_some_spec in E as (y & _ & H). destruct (String.eqb _ ""); [done|].
  injection H as <-. apply trim_space_idemp.
Qed.

Lemma cleanPayloadString_idemp v : cleanPayloadString (cleanPayloadString v) = cleanPayloadString v.
Proof.
  unfold cleanPayloadString.
  destruct (String.eqb (trim_space v) "" || String.eqb (trim_space v) "<nil>") eqn:E; [done|].
  by rewrite trim_space_idemp, E.
Qed.

#[export] Hint Rewrite get_put firstString_trimmed : bridge.
