(* ===== verification/GoTime.v ===== *)
(** * Instants and their RFC 3339 text

    A [time.Time] in UTC is its number of nanoseconds since the Unix epoch.  The
    texts are those of Format(time.RFC3339Nano) and time.Parse, for years 0 to
    9999.  The few forms that time.Parse takes beyond RFC 3339 (a comma before the
    fraction, an hour of one digit) are refused here; the bridge writes none. *)
From stdpp Require Import base list numbers strings.
From Stdlib Require Import Lia Ascii.
From S2P Require Import Prelude GoStrings.

Definition instant : Type := Z.

Definition second : Z := 1000000000.

(** The zero time.Time, January 1 of year 1. *)
Definition zero_time : instant := (-62135596800 * second)%Z.

Definition is_zero (t : instant) : bool := (t =? zero_time)%Z.

(** t.Unix() *)
Definition unix (t : instant) : Z := (t / second)%Z.

(** *** The civil calendar *)
Definition civil_of_days (days : Z) : Z * Z * Z :=
  let z := (days + 719468)%Z in
  let era := (z / 146097)%Z in
  let doe := (z mod 146097)%Z in
  let yoe := ((doe - doe / 1460 + doe / 36524 - doe / 146096) / 365)%Z in
  let doy := (doe - (365 * yoe + yoe / 4 - yoe / 100))%Z in
  let mp := ((5 * doy + 2) / 153)%Z in
  let d := (doy - (153 * mp + 2) / 5 + 1)%Z in
  let m := (if mp <? 10 then mp + 3 else mp - 9)%Z in
  let y := (yoe + era * 400 + if m <=? 2 then 1 else 0)%Z in
  (y, m, d).

Definition days_of_civil (y0 m d : Z) : Z :=
  let y := (if m <=? 2 then y0 - 1 else y0)%Z in
  let era := (y / 400)%Z in
  let yoe := (y mod 400)%Z in
  let mp := (if m <=? 2 then m + 9 else m - 3)%Z in
  let doy := ((153 * mp + 2) / 5 + d - 1)%Z in
  let doe := (yoe * 365 + yoe / 4 - yoe / 100 + doy)%Z in
  (era * 146097 + doe - 719468)%Z.

(** *** Fixed-width decimal fields *)
Definition digit (n : Z) : ascii := ascii_of_N (Z.to_N (48 + n)).

Definition digit_value (c : ascii) : option Z :=
  if code_in c 48 57 then Some (Z.of_N (code c) - 48)%Z else None.

Fixpoint pad (n : nat) (z : Z) : string :=
  match n with
  | O => EmptyString
  | S k => String (digit (z / 10 ^ Z.of_nat k mod 10)) (pad k z)
  end.

(** The fraction of a second without trailing zeros. *)
Fixpoint frac (n : nat) (z : Z) : string :=
  match n with
  | O => EmptyString
  | S k =>
      if (z mod 10 ^ Z.of_nat (S k) =? 0)%Z then EmptyString
      else String (digit (z / 10 ^ Z.of_nat k mod 10)) (frac k z)
  end.

(** Exactly [n] digits. *)
Fixpoint read_digits (n : nat) (acc : Z) (s : string) : option (Z * string) :=
  match n with
  | O => Some (acc, s)
  | S k =>
      match s with
      | String c r => match digit_value c with
                      | Some d => read_digits k (acc * 10 + d)%Z r
                      | None => None
                      end
      | EmptyString => None
      end
  end.

(** Any digits, the first [k] of them as a fraction of 10^k. *)
Fixpoint read_frac (k : nat) (s : string) : Z * string :=
  match s with
  | String c r =>
      match digit_value c with
      | Some d =>
          match k with
          | S j => let '(v, rest) := read_frac j r in ((d * 10 ^ Z.of_nat j + v)%Z, rest)
          | O => read_frac O r
          end
      | None => (0%Z, s)
      end
  | EmptyString => (0%Z, s)
  end.

Definition expect (c : ascii) (s : string) : option string :=
  match s with
  | String a r => if Ascii.eqb a c then Some r else None
  | EmptyString => None
  end.

(** *** t.UTC().Format(time.RFC3339Nano) *)
Definition format_fields (y m d sod ns : Z) : string :=
  pad 4 y +:+ String "-" (pad 2 m +:+ String "-" (pad 2 d +:+ String "T"
  (pad 2 (sod / 3600) +:+ String ":" (pad 2 (sod / 60 mod 60) +:+ String ":"
  (pad 2 (sod mod 60) +:+ (if (ns =? 0)%Z then "Z" else String "." (frac 9 ns +:+ "Z"))))))).

Definition format_time (t : instant) : string :=
  let secs := (t / second)%Z in
  let '(y, m, d) := civil_of_days (secs / 86400) in
  format_fields y m d (secs mod 86400) (t mod second).

Definition is_leap (y : Z) : bool :=
  ((y mod 4 =? 0) && (negb (y mod 100 =? 0) || (y mod 400 =? 0)))%Z.

Definition days_in (y m : Z) : Z :=
  if (m =? 2)%Z then (if is_leap y then 29 else 28)
  else if ((m =? 4) || (m =? 6) || (m =? 9) || (m =? 11))%Z then 30 else 31.

(** The zone of a parsed time, in seconds east of UTC. *)
Definition read_zone (s : string) : option Z :=
  match s with
  | String c r =>
      if Ascii.eqb c "Z" then (if String.eqb r "" then Some 0%Z else None)
      else if Ascii.eqb c "+" || Ascii.eqb c "-" then
        '(hh, r1) ← read_digits 2 0 r;
        r2 ← expect ":" r1;
        '(mm, r3) ← read_digits 2 0 r2;
        if String.eqb r3 "" && (hh <? 24)%Z && (mm <? 60)%Z
        then let off := ((hh * 60 + mm) * 60)%Z in
             Some (if Ascii.eqb c "-" then (- off)%Z else off)
        else None
      else None
  | EmptyString => None
  end.

(** time.Parse(time.RFC3339Nano, s) *)
Definition parse_rfc3339 (s : string) : option instant :=
  '(y, r1) ← read_digits 4 0 s; r2 ← expect "-" r1;
  '(m, r3) ← read_digits 2 0 r2; r4 ← expect "-" r3;
  '(d, r5) ← read_digits 2 0 r4; r6 ← expect "T" r5;
  '(hh, r7) ← read_digits 2 0 r6; r8 ← expect ":" r7;
  '(mm, r9) ← read_digits 2 0 r8; r10 ← expect ":" r9;
  '(ss, r11) ← read_digits 2 0 r10;
  let '(ns, r12) := match r11 with
                    | String c r => if Ascii.eqb c "." then read_frac 9 r else (0%Z, r11)
                    | EmptyString => (0%Z, r11)
                    end in
  zone ← read_zone r12;
  if ((1 <=? m) && (m <=? 12) && (1 <=? d) && (d <=? days_in y m)
      && (hh <? 24) && (mm <? 60) && (ss <? 60))%Z
  then Some (((days_of_civil y m d * 86400 + hh * 3600 + mm * 60 + ss - zone) * second + ns)%Z)
  else None.

(** daemon.parseTime: the zero time when the text does not parse. *)
Definition parseTime (value : string) : instant := default zero_time (parse_rfc3339 value).

(** The first and last instants of the years the texts cover. *)
Definition year_min : instant := (-62167219200 * second)%Z.
Definition year_max : instant := (253402300800 * second - 1)%Z.

Definition in_years (t : instant) : bool := ((year_min <=? t) && (t <=? year_max))%Z.

(** What the calendar has to satisfy on each day of a 400-year era. *)
Definition era_day_ok (doe : Z) : bool :=
  let yoe := ((doe - doe / 1460 + doe / 36524 - doe / 146096) / 365)%Z in
  let doy := (doe - (365 * yoe + yoe / 4 - yoe / 100))%Z in
  let mp := ((5 * doy + 2) / 153)%Z in
  let d := (doy - (153 * mp + 2) / 5 + 1)%Z in
  let m := (if mp <? 10 then mp + 3 else mp - 9)%Z in
  let y := (yoe + if m <=? 2 then 1 else 0)%Z in
  ((0 <=? yoe) && (yoe <? 400) && (0 <=? mp) && (mp <? 12) && (1 <=? d) && (d <=? days_in y m)
   && (if doe <? 146037 then (0 <=? y) && (y <? 400) else y =? 400))%Z.

Fixpoint all_below (n : nat) (p : Z -> bool) (z : Z) : bool :=
  match n with
  | O => true
  | S k => if p z then all_below k p (z + 1)%Z else false
  end.

(** ** Lemmas *)

Lemma all_below_spec n p z x :
  all_below n p z = true -> (z <= x < z + Z.of_nat n)%Z -> p x = true.
Proof.
  revert z. induction n as [|n IH]; intros z H Hx; [lia|]. simpl in H.
  destruct (p z) eqn:E; [|done]. destruct (decide (x = z)) as [->|]; [done|].
  apply (IH (z + 1)%Z H). lia.
Qed.

Lemma era_days : all_below (Z.to_nat 146097) era_day_ok 0 = true.
Proof. vm_compute. reflexivity. Qed.

Lemma era_day doe : (0 <= doe < 146097)%Z -> era_day_ok doe = true.
Proof. intros H. apply (all_below_spec _ _ _ _ era_days). lia. Qed.

Lemma days_in_era y era m : days_in (y + era * 400) m = days_in y m.
Proof.
  unfold days_in, is_leap.
  assert ((y + era * 400) mod 4 = y mod 4)%Z as -> by (replace (era * 400)%Z with (era * 100 * 4)%Z by lia; apply Z.mod_add; lia).
  assert ((y + era * 400) mod 100 = y mod 100)%Z as -> by (replace (era * 400)%Z with (era * 4 * 100)%Z by lia; apply Z.mod_add; lia).
  assert ((y + era * 400) mod 400 = y mod 400)%Z as -> by (apply Z.mod_add; lia).
  done.
Qed.

(** The calendar of a day and back; month and day are in range. *)
Lemma civil_roundtrip days y m d :
  civil_of_days days = (y, m, d) ->
  days_of_civil y m d = days /\ (1 <= m <= 12)%Z /\ (1 <= d <= days_in y m)%Z.
Proof.
  unfold civil_of_days. set (z := (days + 719468)%Z). set (doe := (z mod 146097)%Z).
  set (era := (z / 146097)%Z).
  pose proof (Z.mod_pos_bound z 146097 ltac:(lia)) as Hdoe. fold doe in Hdoe.
  pose proof (era_day doe Hdoe) as Hok. unfold era_day_ok in Hok.
  set (yoe := ((doe - doe / 1460 + doe / 36524 - doe / 146096) / 365)%Z) in *.
  set (doy := (doe - (365 * yoe + yoe / 4 - yoe / 100))%Z) in *.
  set (mp := ((5 * doy + 2) / 153)%Z) in *.
  set (day := (doy - (153 * mp + 2) / 5 + 1)%Z) in *.
  set (mon := (if (mp <? 10)%Z then mp + 3 else mp - 9)%Z) in *.
  intros [= <- <- <-].
  assert (Hz : z = (era * 146097 + doe)%Z).
  { unfold era, doe. pose proof (Z.div_mod z 146097 ltac:(lia)). lia. }
  bsimp. assert (Hmon : (1 <= mon <= 12)%Z /\ (if (mon <=? 2)%Z then mon + 9 else mon - 3)%Z = mp).
  { unfold mon. destruct (Z.ltb_spec mp 10); destruct (Z.leb_spec (mp + 3) 2);
      destruct (Z.leb_spec (mp - 9) 2); lia. }
  destruct Hmon as [Hm Hmp]. split_and!; [|lia..|].
  - unfold days_of_civil. rewrite Hmp.
    assert ((if (mon <=? 2)%Z then (yoe + era * 400 + (if (mon <=? 2)%Z then 1 else 0)) - 1
             else yoe + era * 400 + (if (mon <=? 2)%Z then 1 else 0))%Z = (yoe + era * 400)%Z) as ->
      by (destruct (mon <=? 2)%Z; lia).
    rewrite Z.div_add, Z.mod_add, (Z.div_small yoe), (Z.mod_small yoe) by lia.
    subst z. lia.
  - replace (yoe + era * 400 + (if (mon <=? 2)%Z then 1 else 0))%Z
      with (yoe + (if (mon <=? 2)%Z then 1 else 0) + era * 400)%Z by lia.
    by rewrite days_in_era.
Qed.

Lemma digit_value_digit n : (0 <= n < 10)%Z -> digit_value (digit n) = Some n.
Proof.
  intros H. unfold digit_value, code_in, digit, code.
  rewrite N_ascii_embedding by lia.
  destruct (N.leb_spec 48 (Z.to_N (48 + n))); [|lia].
  destruct (N.leb_spec (Z.to_N (48 + n)) 57); [|lia]. simpl. f_equal. lia.
Qed.

Lemma pow10_succ k : (10 ^ Z.of_nat (S k) = 10 ^ Z.of_nat k * 10)%Z.
Proof. rewrite Nat2Z.inj_succ, Z.pow_succ_r by lia. lia. Qed.

Lemma pow10_pos k : (0 < 10 ^ Z.of_nat k)%Z.
Proof. apply Z.pow_pos_nonneg; lia. Qed.

(** The leading digit and the rest of a number of [S k] digits. *)
Lemma mod_pow10 z k :
  (z mod 10 ^ Z.of_nat (S k) = (z / 10 ^ Z.of_nat k mod 10) * 10 ^ Z.of_nat k + z mod 10 ^ Z.of_nat k)%Z.
Proof.
  pose proof (pow10_pos k). rewrite pow10_succ, Z.rem_mul_r by lia. lia.
Qed.

Lemma read_digits_pad n z acc s :
  read_digits n acc (pad n z +:+ s) = Some ((acc * 10 ^ Z.of_nat n + z mod 10 ^ Z.of_nat n)%Z, s).
Proof.
  revert acc. induction n as [|n IH]; intros acc.
  - change (pad 0 z +:+ s) with s. simpl. rewrite Z.mod_1_r. do 2 f_equal. lia.
  - change (pad (S n) z +:+ s) with (String (digit (z / 10 ^ Z.of_nat n mod 10)) (pad n z +:+ s)).
    cbn [read_digits]. rewrite digit_value_digit by (apply Z.mod_pos_bound; lia).
    rewrite IH, mod_pow10, pow10_succ. do 2 f_equal. ring.
Qed.

Lemma read_digits_pad_small n z s :
  (0 <= z < 10 ^ Z.of_nat n)%Z -> read_digits n 0 (pad n z +:+ s) = Some (z, s).
Proof. intros H. rewrite read_digits_pad, Z.mod_small by done. do 2 f_equal. Qed.

Lemma read_frac_frac n z s :
  (forall c r, s = String c r -> digit_value c = None) ->
  read_frac n (frac n z +:+ s) = ((z mod 10 ^ Z.of_nat n)%Z, s).
Proof.
  intros Hs. induction n as [|n IH].
  - change (frac 0 z +:+ s) with s. rewrite Z.mod_1_r. destruct s as [|c r]; simpl; [done|].
    by rewrite (Hs c r eq_refl).
  - cbn [frac]. destruct (Z.eqb_spec (z mod 10 ^ Z.of_nat (S n)) 0) as [E|E].
    + change ("" +:+ s) with s. rewrite E. destruct s as [|c r]; simpl; [done|].
      by rewrite (Hs c r eq_refl).
    + change (String ?a (frac n z) +:+ s) with (String a (frac n z +:+ s)).
      cbn [read_frac]. rewrite digit_value_digit by (apply Z.mod_pos_bound; lia).
      rewrite IH. f_equal. by rewrite mod_pow10.
Qed.

(** Years stay within four digits. *)
Lemma civil_year days y m d :
  civil_of_days days = (y, m, d) -> (-719528 <= days < 2932897)%Z -> (0 <= y < 10000)%Z.
Proof.
  unfold civil_of_days. set (z := (days + 719468)%Z). set (doe := (z mod 146097)%Z).
  set (era := (z / 146097)%Z).
  pose proof (Z.mod_pos_bound z 146097 ltac:(lia)) as Hdoe. fold doe in Hdoe.
  pose proof (era_day doe Hdoe) as Hok. unfold era_day_ok in Hok.
  set (yoe := ((doe - doe / 1460 + doe / 36524 - doe / 146096) / 365)%Z) in *.
  set (doy := (doe - (365 * yoe + yoe / 4 - yoe / 100))%Z) in *.
  set (mp := ((5 * doy + 2) / 153)%Z) in *.
  set (mon := (if (mp <? 10)%Z then mp + 3 else mp - 9)%Z) in *.
  intros [= <- <- <-] Hdays.
  assert (Hz : z = (era * 146097 + doe)%Z).
  { unfold era, doe. pose proof (Z.div_mod z 146097 ltac:(lia)). lia. }
  assert (Hera : (-1 <= era <= 24)%Z) by (subst z; lia). bsimp.
  destruct (Z.ltb_spec doe 146037); bsimp; subst z; lia.
Qed.

Lemma read_digits_field n z c s :
  (0 <= z < 10 ^ Z.of_nat n)%Z ->
  read_digits n 0 (pad n z +:+ String c s) = Some (z, String c s).
Proof. intros. by apply read_digits_pad_small. Qed.

Lemma days_in_bound y m : (28 <= days_in y m <= 31)%Z.
Proof. unfold days_in. destruct (m =? 2)%Z; [destruct (is_leap y); lia|]. destruct (_ || _); lia. Qed.

(** The seconds, their fraction and the zone. *)
Lemma read_tail sec ns :
  (0 <= sec < 60)%Z -> (0 <= ns < second)%Z ->
  (exists c r, pad 2 sec +:+ (if (ns =? 0)%Z then "Z" else String "." (frac 9 ns +:+ "Z"))
    = pad 2 sec +:+ String c r /\
    (if Ascii.eqb c "." then read_frac 9 r else (0%Z, String c r)) = (ns, "Z")).
Proof.
  unfold second. intros Hs Hn. destruct (Z.eqb_spec ns 0) as [->|Hne].
  - by exists "Z"%char, "".
  - exists "."%char, (frac 9 ns +:+ "Z"). split; [done|]. simpl (Ascii.eqb "." ".").
    rewrite read_frac_frac.
    + f_equal. apply Z.mod_small. simpl. lia.
    + by intros c r [= <- <-].
Qed.

Lemma parse_format_fields y m d sod ns :
  (0 <= y < 10000)%Z -> (1 <= m <= 12)%Z -> (1 <= d <= days_in y m)%Z ->
  (0 <= sod < 86400)%Z -> (0 <= ns < second)%Z ->
  parse_rfc3339 (format_fields y m d sod ns) =
  Some ((days_of_civil y m d * 86400 + sod) * second + ns)%Z.
Proof.
  intros Hy Hm Hd Hsod Hns. pose proof (days_in_bound y m) as Hdi.
  assert (Hh : (0 <= sod / 3600 < 24)%Z) by (Z.to_euclidean_division_equations; lia).
  assert (Hmi : (0 <= sod / 60 mod 60 < 60)%Z) by (apply Z.mod_pos_bound; lia).
  assert (Hss : (0 <= sod mod 60 < 60)%Z) by (apply Z.mod_pos_bound; lia).
  assert (Hparts : (sod / 3600 * 3600 + sod / 60 mod 60 * 60 + sod mod 60 = sod)%Z)
    by (Z.to_euclidean_division_equations; lia).
  unfold format_fields, parse_rfc3339.
  destruct (read_tail (sod mod 60) ns Hss Hns) as (c & r & -> & Hfrac).
  rewrite (read_digits_field 4) by (simpl; lia). cbn -[read_digits pad read_frac read_zone].
  rewrite (read_digits_field 2) by (simpl; lia). cbn -[read_digits pad read_frac read_zone].
  rewrite (read_digits_field 2) by (simpl; lia). cbn -[read_digits pad read_frac read_zone].
  rewrite (read_digits_field 2) by (simpl; lia). cbn -[read_digits pad read_frac read_zone].
  rewrite (read_digits_field 2) by (simpl; lia). cbn -[read_digits pad read_frac read_zone].
  rewrite (read_digits_field 2) by (simpl; lia). cbn -[read_digits pad read_frac read_zone Ascii.eqb].
  rewrite Hfrac. cbn -[days_of_civil days_in].
  destruct (Z.leb_spec 1 m); [|lia]. destruct (Z.leb_spec m 12); [|lia].
  destruct (Z.leb_spec 1 d); [|lia]. destruct (Z.leb_spec d (days_in y m)); [|lia].
  destruct (Z.ltb_spec (sod / 3600) 24); [|lia]. destruct (Z.ltb_spec (sod / 60 mod 60) 60); [|lia].
  destruct (Z.ltb_spec (sod mod 60) 60); [|lia]. simpl. f_equal. lia.
Qed.

(** time.Parse reads back what Format wrote. *)
Lemma parse_format_time t : in_years t = true -> parse_rfc3339 (format_time t) = Some t.
Proof.
  unfold in_years, year_min, year_max, second. intros Hy. bsimp.
  unfold format_time, second. set (secs := (t / 1000000000)%Z).
  destruct (civil_of_days (secs / 86400)) as [[y m] d] eqn:Hc.
  destruct (civil_roundtrip _ _ _ _ Hc) as (Hd & Hm & Hday).
  assert (Hsec : (-62167219200 <= secs < 253402300800)%Z) by (unfold secs; Z.to_euclidean_division_equations; lia).
  pose proof (civil_year _ _ _ _ Hc ltac:(Z.to_euclidean_division_equations; lia)) as Hyear.
  rewrite parse_format_fields; [|done..|apply Z.mod_pos_bound; lia|apply Z.mod_pos_bound; unfold second; lia].
  f_equal. rewrite Hd. unfold second, secs. Z.to_euclidean_division_equations; lia.
Qed.

(** A time of the years 0 to 9999 survives the text the store keeps of it, to the
    nanosecond: parseTime reads back what the bridge wrote. *)
Theorem parseTime_format t : in_years t = true -> parseTime (format_time t) = t.
Proof. intros H. unfold parseTime. by rewrite parse_format_time. Qed.

Theorem parseTime_format_witness :
  format_time (1709210096 * second + 120000000)%Z = "2024-02-29T12:34:56.12Z"
  /\ parseTime (format_time (1709210096 * second + 120000000)%Z) = (1709210096 * second + 120000000)%Z.
Proof. split; [vm_compute; reflexivity|]. apply parseTime_format. reflexivity. Defined.

