(* ===== verification/Model.v ===== *)
(** * internal/model: the data of the bridge and its pure helpers

    Record fields carry a short prefix of their record and then the name of the
    source.  A [json.RawMessage] is the document it holds. *)
From stdpp Require Import base list numbers strings.
From Stdlib Require Import Lia Ascii.
From S2P Require Import Prelude GoStrings Json Crypto GoTime.

(** *** Constants of model/types.go *)
Definition BindingModeBound : string := "bound".

Definition PromptSourceSyntheticPoll : string := "synthetic_poll".

Definition DetailItemUser : string := "user".
Definition DetailItemCommentary : string := "commentary".
Definition DetailItemPlan : string := "plan".
Definition DetailItemTool : string := "tool".
Definition DetailItemOutput : string := "output".
Definition DetailItemFinal : string := "final".

Definition DeliveryStatusPending : string := "pending".
Definition DeliveryStatusProcessing : string := "processing".
Definition DeliveryStatusDelivered : string := "delivered".
Definition DeliveryStatusRetry : string := "retry".
Definition DeliveryStatusDead : string := "dead".

(** A [model.TimeString], the RFC 3339 text of an instant. *)
Definition TimeString : Type := string.

(** *** Records *)
Record Thread : Type := mkThread {
  th_ID : string;
  th_Title : string;
  th_CWD : string;
  th_ProjectName : string;
  th_DirectoryName : string;
  th_UpdatedAt : Z;
  th_Status : string;
  th_LastPreview : string;
  th_ActiveTurnID : string;
  th_PreferredModel : string;
  th_PermissionsMode : string;
  th_Archived : bool;
  th_Raw : option any }.

Definition zeroThread : Thread :=
  mkThread "" "" "" "" "" 0 "" "" "" "" "" false None.

Definition set_th_ID (v : string) (t : Thread) : Thread :=
  mkThread v (th_Title t) (th_CWD t) (th_ProjectName t) (th_DirectoryName t) (th_UpdatedAt t)
    (th_Status t) (th_LastPreview t) (th_ActiveTurnID t) (th_PreferredModel t)
    (th_PermissionsMode t) (th_Archived t) (th_Raw t).
Definition set_th_Status (v : string) (t : Thread) : Thread :=
  mkThread (th_ID t) (th_Title t) (th_CWD t) (th_ProjectName t) (th_DirectoryName t) (th_UpdatedAt t)
    v (th_LastPreview t) (th_ActiveTurnID t) (th_PreferredModel t)
    (th_PermissionsMode t) (th_Archived t) (th_Raw t).
Definition set_th_ActiveTurnID (v : string) (t : Thread) : Thread :=
  mkThread (th_ID t) (th_Title t) (th_CWD t) (th_ProjectName t) (th_DirectoryName t) (th_UpdatedAt t)
    (th_Status t) (th_LastPreview t) v (th_PreferredModel t)
    (th_PermissionsMode t) (th_Archived t) (th_Raw t).

Record DetailItem : Type := mkDetailItem {
  di_ID : string;
  di_Kind : string;
  di_Phase : string;
  di_Text : string;
  di_Label : string;
  di_Status : string;
  di_Output : string;
  di_FP : string;
  di_CommentaryIndex : Z }.

Record PlanPrompt : Type := mkPlanPrompt {
  pp_PromptID : string;
  pp_Source : string;
  pp_ThreadID : string;
  pp_TurnID : string;
  pp_ItemID : string;
  pp_RequestID : string;
  pp_Question : string;
  pp_Options : list string;
  pp_Fingerprint : string;
  pp_Status : string }.

Record ObserverEvent : Type := mkObserverEvent {
  oe_EventID : string;
  oe_Kind : string;
  oe_ThreadID : string;
  oe_ProjectName : string;
  oe_ThreadTitle : string;
  oe_Text : string;
  oe_Status : string;
  oe_TurnID : string;
  oe_ItemID : string;
  oe_RequestID : string;
  oe_NeedsReply : bool;
  oe_NeedsApproval : bool }.

(** [pa_Payload] is the object whose text PayloadJSON holds. *)
Record PendingApproval : Type := mkPendingApproval {
  pa_RequestID : string;
  pa_WireRequestID : string;
  pa_ThreadID : string;
  pa_TurnID : string;
  pa_ItemID : string;
  pa_PromptKind : string;
  pa_RequestKind : string;
  pa_Question : string;
  pa_SessionIdentity : string;
  pa_Status : string;
  pa_TelegramMessageID : Z;
  pa_Payload : obj;
  pa_UpdatedAt : TimeString }.

Record NotifierObservation : Type := mkNotifierObservation {
  no_ThreadID : string;
  no_LastUpdatedAt : Z;
  no_LastTurnID : string;
  no_LastTurnStatus : string;
  no_BaselineReady : bool;
  no_ReadRequired : bool;
  no_DeferUntil : Z;
  no_DiscoverySeq : Z }.

Record MessageEntity : Type := mkMessageEntity {
  me_Type : string;
  me_Offset : Z;
  me_Length : Z;
  me_URL : string;
  me_Language : string }.

Record RenderedMessage : Type := mkRendered {
  rm_Text : string;
  rm_Entities : list MessageEntity }.

Record ButtonSpec : Type := mkButtonSpec {
  bs_Text : string;
  bs_CallbackData : string }.

Record DeliveryPayload : Type := mkDeliveryPayload {
  dp_Mode : string;
  dp_Text : string;
  dp_ThreadID : string;
  dp_TurnID : string;
  dp_ItemID : string;
  dp_EventID : string;
  dp_MessageID : Z;
  dp_FileName : string;
  dp_FilePath : string;
  dp_Caption : string;
  dp_PanelID : Z;
  dp_PanelRole : string;
  dp_Buttons : list (list ButtonSpec);
  dp_Rendered : option RenderedMessage }.

Record DeliveryQueueItem : Type := mkQueueItem {
  qi_ID : Z;
  qi_EventID : string;
  qi_ChatKey : string;
  qi_ChatID : Z;
  qi_TopicID : Z;
  qi_ThreadID : string;
  qi_Kind : string;
  qi_Status : string;
  qi_RetryCount : Z;
  qi_AvailableAt : TimeString;
  qi_LastError : string;
  qi_PayloadJSON : string;
  qi_CreatedAt : TimeString;
  qi_UpdatedAt : TimeString;
  qi_GroupID : string;
  qi_SequenceNo : Z;
  qi_SequenceCount : Z }.

Record TerminalEvent : Type := mkTerminalEvent {
  te_TerminalKey : string;
  te_ThreadID : string;
  te_TurnID : string;
  te_Status : string;
  te_DeliveryStatus : string;
  te_UpdatedAt : TimeString }.

Record DeliveryAttempt : Type := mkDeliveryAttempt {
  da_ID : Z;
  da_QueueID : Z;
  da_AttemptNo : Z;
  da_Status : string;
  da_ErrorText : string;
  da_CreatedAt : TimeString }.

Record MessageRoute : Type := mkMessageRoute {
  mr_ChatID : Z;
  mr_TopicID : Z;
  mr_MessageID : Z;
  mr_ThreadID : string;
  mr_TurnID : string;
  mr_ItemID : string;
  mr_EventID : string;
  mr_CreatedAt : TimeString }.

Record ObserverTarget : Type := mkObserverTarget {
  ot_ChatKey : string;
  ot_ChatID : Z;
  ot_TopicID : Z;
  ot_Enabled : bool;
  ot_CreatedAt : TimeString;
  ot_UpdatedAt : TimeString }.

Record InboundText : Type := mkInboundText {
  in_ChatID : Z;
  in_TopicID : Z;
  in_UserID : Z;
  in_MessageID : Z;
  in_ReplyToMessageID : Z;
  in_Text : string;
  in_ReceivedAt : instant }.

(** *** Thread.IsInternal and its helpers *)
Definition truthy (value : any) : bool :=
  match value with
  | JBool b => b
  | JStr s =>
      let normalized := trim_space (to_lower s) in
      String.eqb normalized "true" || String.eqb normalized "1" || String.eqb normalized "yes"
  | JNum m _ => negb (m =? 0)%Z
  | JInt z => negb (z =? 0)%Z
  | _ => false
  end.

Definition stringFromAny (value : any) : string :=
  match value with JStr s => trim_space s | _ => "" end.

Definition payloadLooksInternal (payload : obj) : bool :=
  match payload with
  | [] => false
  | _ =>
      if truthy (get payload "ephemeral") then true
      else negb (String.eqb (stringFromAny (get (map_or_nil (get payload "source")) "subAgent")) "")
  end.

Definition rawThreadLooksInternal (raw : option any) : bool :=
  match raw with
  | Some (JObj payload) =>
      payloadLooksInternal payload || payloadLooksInternal (map_or_nil (get payload "thread"))
  | _ => false
  end.

Definition IsInternal (t : Thread) : bool := rawThreadLooksInternal (th_Raw t).

Definition ShortID (t : Thread) : string :=
  if (String.length (th_ID t) <=? 8)%nat then th_ID t else str_take 8 (th_ID t).

Definition Label (t : Thread) : string :=
  let title0 := trim_space (th_Title t) in
  let title := if String.eqb title0 "" then ShortID t else title0 in
  let project := trim_space (th_ProjectName t) in
  if String.eqb project "" then title else "[" +:+ project +:+ "] " +:+ title.

(** *** Request identities *)

(** The bytes ScopedRequestID hashes: session identity, NUL, wire id. *)
Definition scoped_preimage (sessionIdentity wireRequestID : string) : string :=
  sessionIdentity +:+ str1 "000" +:+ wireRequestID.

Definition ScopedRequestID (sessionIdentity0 wireRequestID0 : string) : string :=
  let sessionIdentity := trim_space sessionIdentity0 in
  let wireRequestID := trim_space wireRequestID0 in
  if String.eqb sessionIdentity "" || String.eqb wireRequestID "" then wireRequestID
  else "scoped-request:"
         +:+ hex (sha256_sum (bytes_of (scoped_preimage sessionIdentity wireRequestID))).

Definition NormalizeRequestIdentity (sessionIdentity0 requestID0 wireRequestID0 : string)
  : string * string :=
  let sessionIdentity := trim_space sessionIdentity0 in
  let requestID := trim_space requestID0 in
  let wire0 := trim_space wireRequestID0 in
  let hasExplicitWireRequestID := negb (String.eqb wire0 "") in
  let wireRequestID := if String.eqb wire0 "" then requestID else wire0 in
  if String.eqb sessionIdentity "" then
    (if String.eqb requestID "" then wireRequestID else requestID, wireRequestID)
  else if negb hasExplicitWireRequestID then (requestID, wireRequestID)
  else if String.eqb wireRequestID "" then ("", "")
  else (ScopedRequestID sessionIdentity wireRequestID, wireRequestID).

(** *** Chat keys and paths *)
Definition ChatKey (chatID topicID : Z) : string :=
  format_int chatID +:+ ":" +:+ format_int topicID.

Definition NormalizePath (value : string) : string :=
  let trimmed := trim_space value in
  if String.eqb trimmed "" then ""
  else
    let normalized := replace_all trimmed "\" "/" in
    let cleaned := path_clean normalized in
    if String.eqb cleaned "." then "" else cleaned.

Definition ProjectNameFromCWD (cwd : string) : string * string :=
  let normalized := NormalizePath cwd in
  if String.eqb normalized "" then ("Shared/General", "")
  else
    let slashed := to_lower normalized in
    if String.eqb slashed "c:/users/you/documents/codex" then ("Shared/General", "General")
    else
      let dir := path_base normalized in
      if String.eqb dir "." || String.eqb dir "/" || String.eqb dir "" then ("Shared/General", "")
      else (dir, dir).

(** ** Theorems *)

Lemma prefix_same_cancel p a b : p +:+ a = p +:+ b -> a = b.
Proof. induction p as [|c p IH]; [done|]. intros H. injection H as H. by apply IH. Qed.

(** A chat key determines the chat and the topic. *)
Lemma ChatKey_inj c1 t1 c2 t2 : ChatKey c1 t1 = ChatKey c2 t2 -> c1 = c2 /\ t1 = t2.
Proof.
  unfold ChatKey. intros H. apply cut_byte_inj in H as [H1 H2].
  - split; by apply format_int_inj.
  - by apply format_int_byte.
  - by apply format_int_byte.
Qed.

(** The preimage of a scoped request id determines the session and the wire id. *)
Lemma scoped_preimage_inj s1 w1 s2 w2 :
  has_byte "000" s1 = false -> has_byte "000" s2 = false ->
  scoped_preimage s1 w1 = scoped_preimage s2 w2 -> s1 = s2 /\ w1 = w2.
Proof.
  intros H1 H2 H. by apply cut_byte_inj in H.
Qed.

(** The folder name taken from a working directory is a bare name. *)
Lemma directory_name_bare cwd :
  has_byte "/" (snd (ProjectNameFromCWD cwd)) = false
  /\ has_byte "\" (snd (ProjectNameFromCWD cwd)) = false.
Proof.
  unfold ProjectNameFromCWD.
  destruct (String.eqb (NormalizePath cwd) "") eqn:En; [done|].
  destruct (String.eqb (to_lower (NormalizePath cwd)) _); [done|].
  destruct (_ || _ || _) eqn:Ed; [done|]. simpl. bsimp. split.
  - destruct (path_base_no_slash (NormalizePath cwd)); [done|done].
  - apply path_base_no_byte; [done..|]. unfold NormalizePath in *.
    destruct (String.eqb (trim_space cwd) ""); [done|].
    destruct (String.eqb (path_clean _) "."); [done|].
    apply path_clean_no_byte; [done..|]. by apply (replace_byte_gone "\" "/").
Qed.
