(* ===== verification/Control.v ===== *)
(** * internal/control: events, capabilities and notification severities

    The vocabulary between App Server and the bridge.  A [CapabilityMap] is the
    set of methods App Server declares, [None] for the zero value. *)
From stdpp Require Import base list numbers strings gmap.
From Stdlib Require Import Lia Ascii.
From S2P Require Import Prelude GoStrings Json.

(** *** capabilities.go *)
Definition Capability : Type := string.

Definition CapabilityThreadFork : Capability := "thread_fork".
Definition CapabilitySkillsList : Capability := "skills_list".
Definition CapabilityHooksList : Capability := "hooks_list".
Definition CapabilityMCPServerStatusList : Capability := "mcp_server_status_list".
Definition CapabilityAppList : Capability := "app_list".
Definition CapabilityReviewStart : Capability := "review_start".
Definition CapabilityCommandExec : Capability := "command_exec".
Definition CapabilityThreadGoalSet : Capability := "thread_goal_set".
Definition CapabilityThreadGoalClear : Capability := "thread_goal_clear".

Definition capabilityMethods : gmap string string := list_to_map
  [ (CapabilityThreadFork, "thread/fork");
    (CapabilitySkillsList, "skills/list");
    (CapabilityHooksList, "hooks/list");
    (CapabilityMCPServerStatusList, "mcpServerStatus/list");
    (CapabilityAppList, "app/list");
    (CapabilityReviewStart, "review/start");
    (CapabilityCommandExec, "command/exec");
    (CapabilityThreadGoalSet, "thread/goal/set");
    (CapabilityThreadGoalClear, "thread/goal/clear") ].

Definition CapabilityMap : Type := option (gset string).

Definition CapabilitiesFromMethods (methods : list string) : CapabilityMap :=
  Some (fold_left (fun out method => if String.eqb method "" then out else {[method]} ∪ out)
          methods ∅).

Definition SupportsMethod (m : CapabilityMap) (method : string) : bool :=
  match m with
  | None => false
  | Some methods => if String.eqb method "" then false else bool_decide (method ∈ methods)
  end.

Definition Supports (m : CapabilityMap) (capability : Capability) : bool :=
  SupportsMethod m (default "" (capabilityMethods !! capability)).

Definition Methods (m : CapabilityMap) : list string :=
  match m with
  | None => []
  | Some methods => sort_by String.leb (elements methods)
  end.

(** *** events.go and notifications.go *)
Record Event : Type := mkEvent {
  ev_Channel : string;
  ev_Method : string;
  ev_Params : obj;
  ev_ID : any }.

(** [NoEvent] is the empty kind of a zero NormalizedEvent. *)
Inductive EventKind : Type :=
| NoEvent
| EventTurnStarted
| EventTurnCompleted
| EventThreadStatus
| EventToolStarted
| EventToolUpdated
| EventToolCompleted
| EventAgentMessage
| EventApprovalRequest
| EventInputRequest
| EventLegacyTaskStarted
| EventLegacyTaskComplete.

#[export] Instance EventKind_eq_dec : EqDecision EventKind.
Proof. solve_decision. Defined.

Inductive NotificationSeverity : Type :=
| NotificationUrgent
| NotificationNormal
| NotificationSilent
| NotificationDigest.

Record NormalizedEvent : Type := mkNormalizedEvent {
  ne_Kind : EventKind;
  ne_Method : string;
  ne_ThreadID : string;
  ne_ThreadTitle : string;
  ne_ProjectName : string;
  ne_TurnID : string;
  ne_TurnStatus : string;
  ne_ItemID : string;
  ne_ItemKind : string;
  ne_Label : string;
  ne_Status : string;
  ne_Output : string;
  ne_Text : string;
  ne_Phase : string;
  ne_RequestID : string;
  ne_Raw : option Event }.

Definition DefaultNotificationSeverity (event : NormalizedEvent) : NotificationSeverity :=
  match ne_Kind event with
  | EventApprovalRequest | EventInputRequest => NotificationUrgent
  | EventTurnCompleted | EventLegacyTaskComplete => NotificationNormal
  | EventAgentMessage =>
      if String.eqb (ne_Phase event) "final_answer" then NotificationNormal
      else NotificationSilent
  | EventTurnStarted | EventThreadStatus | EventToolStarted | EventToolUpdated
  | EventToolCompleted | EventLegacyTaskStarted => NotificationSilent
  | NoEvent => NotificationSilent
  end.

(** ** Lemmas *)

Lemma fold_methods_spec methods acc method :
  method ∈ fold_left (fun (out : gset string) x => if String.eqb x "" then out else {[x]} ∪ out)
             methods acc
  <-> method ∈ acc \/ (method ∈ methods /\ method <> "").
Proof.
  revert acc. induction methods as [|x r IH]; intros acc; simpl.
  - set_solver.
  - rewrite IH, elem_of_cons. destruct (String.eqb_spec x "") as [->|Hx].
    + split; [naive_solver|]. intros [?|[[->|?] ?]]; naive_solver.
    + rewrite elem_of_union, elem_of_singleton.
      split; [naive_solver congruence|naive_solver].
Qed.

(** A method is supported exactly when App Server listed it, the empty name never. *)
Lemma SupportsMethod_spec methods method :
  SupportsMethod (CapabilitiesFromMethods methods) method = true
  <-> method ∈ methods /\ method <> "".
Proof.
  unfold SupportsMethod, CapabilitiesFromMethods.
  destruct (String.eqb_spec method "") as [->|Hne]; [naive_solver|].
  rewrite bool_decide_eq_true, fold_methods_spec. set_solver.
Qed.

(** Every listed capability is served by a method of its own. *)
Lemma capabilityMethods_inj c1 c2 m :
  capabilityMethods !! c1 = Some m -> capabilityMethods !! c2 = Some m -> c1 = c2.
Proof.
  intros H1 H2. unfold capabilityMethods in *.
  apply elem_of_list_to_map_2, list_elem_of_In in H1, H2. simpl in H1, H2.
  repeat destruct H1 as [H1|H1]; repeat destruct H2 as [H2|H2]; simplify_eq/=; done.
Qed.
