(* ===== verification/Normalize.v ===== *)
(** * internal/appserver/normalize.go: what App Server answers, made regular

    A thread/read answer becomes a [ThreadReadSnapshot]; two snapshots a poll
    apart become observer events; a notification becomes at most one event; a
    server request becomes a pending approval.  All of it reads untyped JSON, so
    the definitions are total: a value of the wrong type reads as an absent one. *)
From stdpp Require Import base list numbers strings.
From Stdlib Require Import Lia Ascii.
From S2P Require Import Prelude GoStrings Json Crypto GoTime Model Control.

(** *** Data *)
Record AgentMessageEntry : Type := mkAgentMessageEntry {
  am_ID : string;
  am_Phase : string;
  am_Text : string;
  am_FP : string }.

Record ThreadReadSnapshot : Type := mkThreadReadSnapshot {
  sn_Thread : Thread;
  sn_LatestTurnID : string;
  sn_LatestTurnStatus : string;
  sn_LatestTurnStartedAt : string;
  sn_LatestTurnUpdatedAt : string;
  sn_WaitingOnApproval : bool;
  sn_WaitingOnReply : bool;
  sn_LatestAgentMessages : list string;
  sn_LatestAgentMessageEntries : list AgentMessageEntry;
  sn_LatestProgressFP : string;
  sn_LatestProgressText : string;
  sn_LatestUserMessageID : string;
  sn_LatestUserMessageText : string;
  sn_LatestUserMessageFP : string;
  sn_LatestFinalFP : string;
  sn_LatestFinalText : string;
  sn_LatestToolID : string;
  sn_LatestToolKind : string;
  sn_LatestToolLabel : string;
  sn_LatestToolStatus : string;
  sn_LatestToolOutput : string;
  sn_LatestToolFP : string;
  sn_LatestToolLiveCurrent : bool;
  sn_LatestToolStartedAt : string;
  sn_LatestToolUpdatedAt : string;
  sn_PlanPrompt : option PlanPrompt;
  sn_DetailItems : list DetailItem }.

Definition zeroSnapshot : ThreadReadSnapshot :=
  mkThreadReadSnapshot zeroThread "" "" "" "" false false [] [] "" "" "" "" "" "" ""
    "" "" "" "" "" "" false "" "" None [].

(** Assignments to fields of a snapshot. *)
Definition set_sn_Thread (v : Thread) (s : ThreadReadSnapshot) : ThreadReadSnapshot :=
  mkThreadReadSnapshot v (sn_LatestTurnID s) (sn_LatestTurnStatus s) (sn_LatestTurnStartedAt s)
    (sn_LatestTurnUpdatedAt s) (sn_WaitingOnApproval s) (sn_WaitingOnReply s)
    (sn_LatestAgentMessages s) (sn_LatestAgentMessageEntries s) (sn_LatestProgressFP s)
    (sn_LatestProgressText s) (sn_LatestUserMessageID s) (sn_LatestUserMessageText s)
    (sn_LatestUserMessageFP s) (sn_LatestFinalFP s) (sn_LatestFinalText s) (sn_LatestToolID s)
    (sn_LatestToolKind s) (sn_LatestToolLabel s) (sn_LatestToolStatus s) (sn_LatestToolOutput s)
    (sn_LatestToolFP s) (sn_LatestToolLiveCurrent s) (sn_LatestToolStartedAt s)
    (sn_LatestToolUpdatedAt s) (sn_PlanPrompt s) (sn_DetailItems s).
Definition set_sn_LatestTurnStatus (v : string) (s : ThreadReadSnapshot) : ThreadReadSnapshot :=
  mkThreadReadSnapshot (sn_Thread s) (sn_LatestTurnID s) v (sn_LatestTurnStartedAt s)
    (sn_LatestTurnUpdatedAt s) (sn_WaitingOnApproval s) (sn_WaitingOnReply s)
    (sn_LatestAgentMessages s) (sn_LatestAgentMessageEntries s) (sn_LatestProgressFP s)
    (sn_LatestProgressText s) (sn_LatestUserMessageID s) (sn_LatestUserMessageText s)
    (sn_LatestUserMessageFP s) (sn_LatestFinalFP s) (sn_LatestFinalText s) (sn_LatestToolID s)
    (sn_LatestToolKind s) (sn_LatestToolLabel s) (sn_LatestToolStatus s) (sn_LatestToolOutput s)
    (sn_LatestToolFP s) (sn_LatestToolLiveCurrent s) (sn_LatestToolStartedAt s)
    (sn_LatestToolUpdatedAt s) (sn_PlanPrompt s) (sn_DetailItems s).
Definition set_sn_TurnTimes (started updated : string) (s : ThreadReadSnapshot) : ThreadReadSnapshot :=
  mkThreadReadSnapshot (sn_Thread s) (sn_LatestTurnID s) (sn_LatestTurnStatus s) started
    updated (sn_WaitingOnApproval s) (sn_WaitingOnReply s)
    (sn_LatestAgentMessages s) (sn_LatestAgentMessageEntries s) (sn_LatestProgressFP s)
    (sn_LatestProgressText s) (sn_LatestUserMessageID s) (sn_LatestUserMessageText s)
    (sn_LatestUserMessageFP s) (sn_LatestFinalFP s) (sn_LatestFinalText s) (sn_LatestToolID s)
    (sn_LatestToolKind s) (sn_LatestToolLabel s) (sn_LatestToolStatus s) (sn_LatestToolOutput s)
    (sn_LatestToolFP s) (sn_LatestToolLiveCurrent s) (sn_LatestToolStartedAt s)
    (sn_LatestToolUpdatedAt s) (sn_PlanPrompt s) (sn_DetailItems s).
Definition set_sn_ToolTimes (started updated : string) (s : ThreadReadSnapshot) : ThreadReadSnapshot :=
  mkThreadReadSnapshot (sn_Thread s) (sn_LatestTurnID s) (sn_LatestTurnStatus s)
    (sn_LatestTurnStartedAt s) (sn_LatestTurnUpdatedAt s) (sn_WaitingOnApproval s)
    (sn_WaitingOnReply s) (sn_LatestAgentMessages s) (sn_LatestAgentMessageEntries s)
    (sn_LatestProgressFP s) (sn_LatestProgressText s) (sn_LatestUserMessageID s)
    (sn_LatestUserMessageText s) (sn_LatestUserMessageFP s) (sn_LatestFinalFP s)
    (sn_LatestFinalText s) (sn_LatestToolID s) (sn_LatestToolKind s) (sn_LatestToolLabel s)
    (sn_LatestToolStatus s) (sn_LatestToolOutput s) (sn_LatestToolFP s)
    (sn_LatestToolLiveCurrent s) started updated (sn_PlanPrompt s) (sn_DetailItems s).
Definition set_sn_Progress (fp text : string) (s : ThreadReadSnapshot) : ThreadReadSnapshot :=
  mkThreadReadSnapshot (sn_Thread s) (sn_LatestTurnID s) (sn_LatestTurnStatus s)
    (sn_LatestTurnStartedAt s) (sn_LatestTurnUpdatedAt s) (sn_WaitingOnApproval s)
    (sn_WaitingOnReply s) (sn_LatestAgentMessages s) (sn_LatestAgentMessageEntries s)
    fp text (sn_LatestUserMessageID s)
    (sn_LatestUserMessageText s) (sn_LatestUserMessageFP s) (sn_LatestFinalFP s)
    (sn_LatestFinalText s) (sn_LatestToolID s) (sn_LatestToolKind s) (sn_LatestToolLabel s)
    (sn_LatestToolStatus s) (sn_LatestToolOutput s) (sn_LatestToolFP s)
    (sn_LatestToolLiveCurrent s) (sn_LatestToolStartedAt s) (sn_LatestToolUpdatedAt s)
    (sn_PlanPrompt s) (sn_DetailItems s).
Definition set_sn_Tool (id kind label status output fp : string) (s : ThreadReadSnapshot)
  : ThreadReadSnapshot :=
  mkThreadReadSnapshot (sn_Thread s) (sn_LatestTurnID s) (sn_LatestTurnStatus s)
    (sn_LatestTurnStartedAt s) (sn_LatestTurnUpdatedAt s) (sn_WaitingOnApproval s)
    (sn_WaitingOnReply s) (sn_LatestAgentMessages s) (sn_LatestAgentMessageEntries s)
    (sn_LatestProgressFP s) (sn_LatestProgressText s) (sn_LatestUserMessageID s)
    (sn_LatestUserMessageText s) (sn_LatestUserMessageFP s) (sn_LatestFinalFP s)
    (sn_LatestFinalText s) id kind label status output fp
    (sn_LatestToolLiveCurrent s) (sn_LatestToolStartedAt s) (sn_LatestToolUpdatedAt s)
    (sn_PlanPrompt s) (sn_DetailItems s).

(** model.ThreadSnapshotState; CompactJSON is the snapshot it encodes, None when empty. *)
Record ThreadSnapshotState : Type := mkThreadSnapshotState {
  ss_ThreadUpdatedAt : Z;
  ss_LastSeenThreadStatus : string;
  ss_LastSeenTurnID : string;
  ss_LastSeenTurnStatus : string;
  ss_LastProgressFP : string;
  ss_LastProgressSentAt : TimeString;
  ss_LastFinalFP : string;
  ss_LastCompletionFP : string;
  ss_LastApprovalFP : string;
  ss_LastReplyFP : string;
  ss_LastFinalNoticeFP : string;
  ss_LastToolDocumentFP : string;
  ss_LastRichLiveEventAt : TimeString;
  ss_LastPollAt : TimeString;
  ss_NextPollAfter : TimeString;
  ss_CompactJSON : option ThreadReadSnapshot }.

(** The tool item kinds of the switches. *)
Definition is_tool_type (itemType : string) : bool :=
  existsb (String.eqb itemType)
    ["commandExecution"; "fileChange"; "dynamicToolCall"; "mcpToolCall"; "webSearch"].

Definition newline : string := str1 "010".

(** v == "" and v != "". *)
Definition empty (s : string) : bool := String.eqb s "".

Definition nonempty (s : string) : bool := negb (String.eqb s "").

(** *** fingerprint *)

(** The bytes fingerprint hashes: each part, then NUL. *)
Fixpoint fp_preimage (parts : list string) : string :=
  match parts with
  | [] => ""
  | part :: r => part +:+ String "000" (fp_preimage r)
  end.

Definition fingerprint (parts : list string) : string :=
  hex (sha1_sum (bytes_of (fp_preimage parts))).

(** *** Status texts *)
Definition statusText (value : any) : string :=
  match value with
  | JStr typed => typed
  | JObj typed =>
      let statusType := stringValue (get typed "type") "" in
      let flags := stringSliceValue (get typed "activeFlags") in
      if String.eqb statusType "active" && (0 <? length flags)%nat
      then "active[" +:+ join "," flags +:+ "]"
      else statusType
  | _ => ""
  end.

Definition statusHasFlag (status0 flag0 : string) : bool :=
  let status := to_lower (trim_space status0) in
  let flag := to_lower (trim_space flag0) in
  if empty status || empty flag then false
  else String.eqb status flag || contains status flag.

Definition terminalTurnStatus (status : string) : bool :=
  existsb (String.eqb (trim_space (to_lower status)))
    ["completed"; "interrupted"; "failed"; "cancelled"; "canceled"].

Definition statusLooksLive (status0 : string) : bool :=
  let status := trim_space (to_lower status0) in
  String.eqb status "active" || has_prefix status "active["
  || contains status "inprogress" || contains status "running".

Definition terminalLatestToolStatus (status : string) : bool :=
  existsb (String.eqb (to_lower (trim_space status)))
    ["completed"; "succeeded"; "failed"; "interrupted"; "cancelled"; "canceled"].

(** *** Reading items *)
Definition anyMaps (items : list any) : list obj := omap as_map items.

Definition iterThreadItems (payload : obj) : list obj :=
  match as_slice (get payload "data") with
  | Some items => anyMaps items
  | None =>
  match as_slice (get payload "items") with
  | Some items => anyMaps items
  | None =>
  match as_slice (get (map_or_nil (get payload "thread")) "items") with
  | Some items => anyMaps items
  | None =>
  match as_slice (get payload "threads") with
  | Some threads => anyMaps threads
  | None =>
  match as_slice (get payload "results") with
  | Some results => anyMaps results
  | None => []
  end end end end end.

Definition nestedThreadID (params : obj) : string :=
  let value := stringValue (get params "threadId") "" in
  if nonempty value then value
  else match as_map (get params "thread") with
       | Some thread =>
           let value := stringValue (get thread "id") "" in
           if nonempty value then value else stringValue (get thread "threadId") ""
       | None => ""
       end.

Definition userMessageText (item : obj) : string :=
  let text := trim_space (stringValue (get item "text") "") in
  if nonempty text then text
  else
    let content := slice_or_nil (get item "content") in
    let parts := filter (fun t => nonempty t)
      (map (fun part => trim_space (stringValue (get part "text") "")) (anyMaps content)) in
    trim_space (join newline parts).

Definition planText (item : obj) : string :=
  let text := trim_space (stringValue (get item "text") "") in
  if nonempty text then text
  else
    let text := trim_space (stringValue (get item "plan") "") in
    if nonempty text then text else trim_space (userMessageText item).

Definition cleanToolText (value0 : string) : string :=
  let value := trim_space value0 in
  if existsb (String.eqb value) [""; "<nil>"; "{}"; "[]"; "map[]"] then "" else value.

Definition renderItemText (item : obj) : string :=
  let itemType := stringValue (get item "type") "" in
  let fallback := trim_space (stringValue (get item "text") "") in
  if String.eqb itemType "agentMessage" then fallback
  else if String.eqb itemType "userMessage" then trim_space (userMessageText item)
  else if String.eqb itemType "plan" then trim_space (planText item)
  else if String.eqb itemType "commandExecution" then
    let command := cleanToolText (stringValue (get item "command") "") in
    let status := trim_space (stringValue (get item "status") "") in
    let output := trim_space (stringValue (get item "aggregatedOutput") "") in
    if nonempty output then
      let line := before_byte "010" output in
      if nonempty status && nonempty command
      then status +:+ ": " +:+ command +:+ newline +:+ "Output: " +:+ trim_space line
      else trim_space line
    else if nonempty status && nonempty command then status +:+ ": " +:+ command
    else command
  else if String.eqb itemType "fileChange" then
    let path := cleanToolText (stringValue (get item "path") "") in
    if nonempty path then "File changed: " +:+ path else fallback
  else fallback.

Definition firstToolText (item : obj) (keys : list string) : string :=
  default "" (first_some (fun key => let text := cleanToolText (stringValue (get item key) "") in
                                     if nonempty text then Some text else None) keys).

Definition toolLabel (item : obj) : string :=
  let itemType := trim_space (stringValue (get item "type") "") in
  let own :=
    if String.eqb itemType "commandExecution" then cleanToolText (stringValue (get item "command") "")
    else if String.eqb itemType "fileChange" then
      let path := cleanToolText (stringValue (get item "path") "") in
      if nonempty path then "File changed: " +:+ path else ""
    else if String.eqb itemType "dynamicToolCall" || String.eqb itemType "mcpToolCall" then
      firstToolText item ["tool"; "name"; "namespace"]
    else if String.eqb itemType "webSearch" then firstToolText item ["query"; "text"]
    else "" in
  if nonempty own then own else cleanToolText (renderItemText item).

Definition toolStatus (item : obj) (turnStatus : string) : string :=
  let status := trim_space (stringValue (get item "status") "") in
  if nonempty status then status else trim_space turnStatus.

Definition toolOutput (item : obj) : string :=
  let output := stringValue (get item "aggregatedOutput") "" in
  if nonempty (trim_space output) then output
  else if String.eqb (trim_space (stringValue (get item "type") "")) "commandExecution" then
    default "" (first_some (fun key => let output := stringValue (get item key) "" in
                                       if nonempty (trim_space output) then Some output else None)
                  ["output"; "stdout"; "stderr"])
  else
    let text := renderItemText item in
    if nonempty (trim_space text) then text else "".

Definition normalizeAgentMessagePhase (item : obj) : string :=
  trim_space (stringValue (get item "phase") "").

Definition previewFromTurn (turn : obj) : string :=
  default "" (first_some (fun raw => let text := renderItemText (map_or_nil raw) in
                                     if nonempty text then Some text else None)
                (rev (slice_or_nil (get turn "items")))).

(** *** Agent messages, user messages and details of a turn *)

(** One item of collectAgentMessageEntriesFromItems. *)
Definition agentMessageEntry (raw : any) : option AgentMessageEntry :=
  let item := map_or_nil raw in
  let itemType := trim_space (stringValue (get item "type") "") in
  if negb (String.eqb itemType "agentMessage") && negb (String.eqb itemType "plan") then None
  else
    let text := if String.eqb itemType "plan" then trim_space (planText item)
                else trim_space (userMessageText item) in
    if empty text then None
    else
      let phase0 := normalizeAgentMessagePhase item in
      let phase := if String.eqb itemType "plan" && empty phase0 then "plan" else phase0 in
      let id := stringValue (get item "id") "" in
      Some (mkAgentMessageEntry id phase text (fingerprint ["agentMessage"; id; phase; text])).

Definition collectAgentMessageEntriesFromItems (raw : any) (limit : nat) : list AgentMessageEntry :=
  take limit (omap agentMessageEntry (rev (slice_or_nil raw))).

(** collectAgentMessageEntries: the turns from the last one back. *)
Fixpoint collectFromTurns (turns : list any) (limit : nat) : list AgentMessageEntry :=
  match turns with
  | [] => []
  | turn :: r =>
      let out := collectAgentMessageEntriesFromItems (get (map_or_nil turn) "items") limit in
      if (limit <=? length out)%nat then out
      else out ++ collectFromTurns r (limit - length out)
  end.

Definition collectAgentMessageEntries (turns : list any) (limit : nat) : list AgentMessageEntry :=
  match limit with O => [] | S _ => collectFromTurns (rev turns) limit end.

Definition entryTexts (entries : list AgentMessageEntry) : list string :=
  filter (fun t => nonempty t) (map am_Text entries).

Definition collectAgentMessages (turns : list any) (limit : nat) : list string :=
  entryTexts (collectAgentMessageEntries turns limit).

Definition collectAgentMessagesFromItems (items : list any) (limit : nat) : list string :=
  entryTexts (collectAgentMessageEntriesFromItems (JArr items) limit).

Definition is_final_phase (phase : string) : bool :=
  String.eqb (to_lower (trim_space phase)) "final_answer".

(** Text and fingerprint of the turn's final answer. *)
Definition latestFinalAgentMessage (items : list any) : string * string :=
  let entries := collectAgentMessageEntriesFromItems (JArr items) (length items) in
  match first_some (fun e => if is_final_phase (am_Phase e) then Some e else None) entries with
  | Some entry => (am_Text entry, am_FP entry)
  | None =>
      if existsb (fun e => nonempty (to_lower (trim_space (am_Phase e)))) entries then ("", "")
      else
        match first_some (fun e => if nonempty (am_Text e) then Some e else None) entries with
        | Some entry =>
            (am_Text entry, fingerprint ["agentMessage"; am_ID entry; am_Text entry])
        | None => ("", "")
        end
  end.

Definition latestUserMessage (items : list any) : string * string * string :=
  default ("", "", "")
    (first_some (fun raw =>
       let item := map_or_nil raw in
       if negb (String.eqb (trim_space (stringValue (get item "type") "")) "userMessage") then None
       else
         let text := trim_space (userMessageText item) in
         if empty text then None
         else
           let id := stringValue (get item "id") "" in
           Some (id, text, fingerprint ["userMessage"; id; text])) (rev items)).

(** The body of the loop of collectDetailItemsFromItems: the commentary index
    after the item, and the details the item gives. *)
Definition detailItemsOf (turnStatus : string) (commentaryIndex : Z) (raw : any)
  : Z * list DetailItem :=
  match as_map raw with
  | None => (commentaryIndex, [])
  | Some item =>
      let itemType := trim_space (stringValue (get item "type") "") in
      let itemID := stringValue (get item "id") "" in
      if String.eqb itemType "userMessage" then
        let text := trim_space (userMessageText item) in
        if empty text then (commentaryIndex, [])
        else (commentaryIndex,
              [mkDetailItem itemID DetailItemUser "" text "" "" ""
                 (fingerprint ["detail"; itemType; itemID; text]) 0])
      else if String.eqb itemType "agentMessage" then
        let text := trim_space (stringValue (get item "text") "") in
        if empty text then (commentaryIndex, [])
        else
          let phase := normalizeAgentMessagePhase item in
          let final := equal_fold phase "final_answer" in
          let kind := if final then DetailItemFinal else DetailItemCommentary in
          let index := if final then commentaryIndex else (commentaryIndex + 1)%Z in
          (index, [mkDetailItem itemID kind phase text "" "" ""
                     (fingerprint ["detail"; itemType; itemID; phase; text]) index])
      else if String.eqb itemType "plan" then
        let text := trim_space (planText item) in
        if empty text then (commentaryIndex, [])
        else
          let index := (commentaryIndex + 1)%Z in
          (index, [mkDetailItem itemID DetailItemPlan "plan" text "" "" ""
                     (fingerprint ["detail"; itemType; itemID; text]) index])
      else if is_tool_type itemType then
        let label := trim_space (toolLabel item) in
        let status := trim_space (toolStatus item turnStatus) in
        let output := toolOutput item in
        if empty label && empty (trim_space output) then (commentaryIndex, [])
        else
          let tool := mkDetailItem itemID DetailItemTool "" "" label status ""
                        (fingerprint ["detail"; itemType; itemID; label; status]) commentaryIndex in
          (commentaryIndex,
           tool :: if empty (trim_space output) then []
                   else [mkDetailItem (itemID +:+ ":output") DetailItemOutput "" "" "" "" output
                           (fingerprint ["detail-output"; itemType; itemID; output])
                           commentaryIndex])
      else (commentaryIndex, [])
  end.

Fixpoint collectDetails (turnStatus : string) (commentaryIndex : Z) (items : list any)
  : list DetailItem :=
  match items with
  | [] => []
  | raw :: r =>
      let '(index, out) := detailItemsOf turnStatus commentaryIndex raw in
      out ++ collectDetails turnStatus index r
  end.

Definition collectDetailItemsFromItems (items : list any) (turnStatus : string) : list DetailItem :=
  collectDetails turnStatus 0 items.

Definition liveToolDetailItems (snapshot : ThreadReadSnapshot) : list DetailItem :=
  if empty (trim_space (sn_LatestToolFP snapshot)) then []
  else
    let output := trim_space (sn_LatestToolOutput snapshot) in
    mkDetailItem (sn_LatestToolID snapshot) DetailItemTool "" "" (sn_LatestToolLabel snapshot)
      (sn_LatestToolStatus snapshot) "" (sn_LatestToolFP snapshot) 0
    :: if empty output then []
       else [mkDetailItem (sn_LatestToolID snapshot +:+ ":output") DetailItemOutput "" "" "" ""
               output (fingerprint ["live-tool-output"; sn_LatestToolID snapshot; output]) 0].

(** *** Questions the turn asks *)

(** The choices one field of an item gives. *)
Definition choiceText (item : any) : option string :=
  match item with
  | JStr typed => let text := trim_space typed in if nonempty text then Some text else None
  | JObj typed =>
      first_some (fun field => let text := rpcString (get typed field) in
                               if nonempty text then Some text else None)
        ["label"; "text"; "value"]
  | _ => None
  end.

Definition extractChoiceOptions (payload : obj) : list string :=
  default [] (first_some (fun key =>
    match as_slice (get payload key) with
    | None => None
    | Some items => match omap choiceText items with [] => None | out => Some out end
    end) ["choices"; "options"; "suggestions"; "responses"]).

Definition latestChoiceOptions (items : list any) : list string :=
  default [] (first_some (fun raw =>
    match as_map raw with
    | None => None
    | Some item => match extractChoiceOptions item with [] => None | options => Some options end
    end) (rev items)).

Definition latestPlanQuestion (items : list any) : string * string :=
  match first_some (fun raw =>
    match as_map raw with
    | None => None
    | Some item =>
        let itemType := trim_space (stringValue (get item "type") "") in
        if String.eqb itemType "agentMessage" then
          if is_final_phase (normalizeAgentMessagePhase item) then None
          else
            let text := trim_space (userMessageText item) in
            if nonempty text then Some (stringValue (get item "id") "", text) else None
        else if String.eqb itemType "plan" then
          let text := trim_space (planText item) in
          if nonempty text then Some (stringValue (get item "id") "", text) else None
        else None
    end) (rev items) with
  | Some found => found
  | None =>
      default ("", "") (first_some (fun raw =>
        match as_map raw with
        | None => None
        | Some item =>
            if negb (String.eqb (trim_space (stringValue (get item "type") "")) "userMessage")
            then None
            else
              let text := trim_space (userMessageText item) in
              if contains text "?" then Some (stringValue (get item "id") "", text) else None
        end) (rev items))
  end.

Definition requestUserInputQuestion (params : obj) : string :=
  let text := trim_space (stringValue (get params "question") "") in
  if nonempty text then text
  else
    match as_slice (get params "questions") with
    | None => "Input required."
    | Some questions =>
        let parts := omap (fun question =>
          let header := trim_space (stringValue (get question "header") "") in
          let text := trim_space (stringValue (get question "question") "") in
          if nonempty header && nonempty text then Some (header +:+ ": " +:+ text)
          else if nonempty text then Some text
          else if nonempty header then Some header
          else None) (anyMaps questions) in
        match parts with [] => "Input required." | _ => join newline parts end
    end.

(** s[:n]; None where Go panics. *)
Definition slice_to (n : nat) (s : string) : option string :=
  if (n <=? String.length s)%nat then Some (str_take n s) else None.

(** The inner option is the pointer; the outer one is None on a panic of fp[:12]. *)
Definition syntheticPlanPrompt (thread : Thread) (turnID : string) (items : list any)
    (waiting : bool) : option (option PlanPrompt) :=
  if negb waiting then Some None
  else
    let '(itemID, question0) := latestPlanQuestion items in
    let question := if empty question0 then "Input required." else question0 in
    let options := latestChoiceOptions items in
    let fp := fingerprint ["planPrompt"; PromptSourceSyntheticPoll; th_ID thread; turnID; itemID;
                           question; join (str1 "031") options] in
    short ← slice_to 12 fp;
    Some (Some (mkPlanPrompt ("synthetic:" +:+ th_ID thread +:+ ":" +:+ turnID +:+ ":" +:+ short)
                  PromptSourceSyntheticPoll (th_ID thread) turnID itemID "" question options fp
                  "waiting for input")).

Definition waitingText (prompt : option PlanPrompt) : string :=
  match prompt with
  | Some p => if nonempty (trim_space (pp_Question p)) then pp_Question p
              else "Thread is waiting for input."
  | None => "Thread is waiting for input."
  end.

(** *** ThreadFromPayload and SnapshotFromThreadRead *)
Definition threadObject (payload : obj) : obj :=
  match as_map (get payload "thread") with Some nested => nested | None => payload end.

Definition ThreadFromPayload (payload : obj) : Thread :=
  let threadPayload := threadObject payload in
  let id := stringValue (get threadPayload "id") (stringValue (get threadPayload "threadId") "") in
  let cwd := stringValue (get threadPayload "cwd") "" in
  let '(project, directory) := ProjectNameFromCWD cwd in
  let title := stringValue (get threadPayload "name") (stringValue (get threadPayload "title") id) in
  let preview0 := stringValue (get threadPayload "preview") "" in
  let status := statusText (get threadPayload "status") in
  let preferredModel := stringValue (get threadPayload "model") (stringValue (get payload "model") "") in
  let updatedAt := int64Value (get threadPayload "updatedAt") in
  let activeTurnID0 := stringValue (get threadPayload "activeTurnId") "" in
  let '(activeTurnID, preview) :=
    if nonempty activeTurnID0 then (activeTurnID0, preview0)
    else
      match last_of (slice_or_nil (get threadPayload "turns")) with
      | Some (JObj lastTurn) =>
          let turnStatus := statusText (get lastTurn "status") in
          (if equal_fold turnStatus "inProgress" || statusHasFlag turnStatus "active"
           then stringValue (get lastTurn "id") "" else activeTurnID0,
           if empty preview0 then previewFromTurn lastTurn else preview0)
      | _ => (activeTurnID0, preview0)
      end in
  mkThread id title cwd project directory updatedAt status preview activeTurnID preferredModel
    "" false (Some (JObj threadPayload)).

Definition ThreadsFromList (result : obj) : list Thread :=
  filter (fun t => negb (IsInternal t)) (map ThreadFromPayload (iterThreadItems result)).

Definition normalizeFinalizedTurn (snapshot : ThreadReadSnapshot) : ThreadReadSnapshot :=
  if empty (trim_space (sn_LatestFinalFP snapshot)) then snapshot
  else if sn_WaitingOnApproval snapshot || sn_WaitingOnReply snapshot then snapshot
  else
    let s1 := if negb (terminalTurnStatus (sn_LatestTurnStatus snapshot))
              then set_sn_LatestTurnStatus "completed" snapshot else snapshot in
    let s2 := if String.eqb (trim_space (th_ActiveTurnID (sn_Thread s1)))
                   (trim_space (sn_LatestTurnID s1))
              then set_sn_Thread (set_th_ActiveTurnID "" (sn_Thread s1)) s1 else s1 in
    if statusLooksLive (th_Status (sn_Thread s2)) || empty (trim_space (th_Status (sn_Thread s2)))
    then set_sn_Thread (set_th_Status "completed" (sn_Thread s2)) s2 else s2.

(** The body of the loop over the items, from the last one back. *)
Definition scanItem (snapshot : ThreadReadSnapshot) (raw : any) : ThreadReadSnapshot :=
  let item := map_or_nil raw in
  let itemType := trim_space (stringValue (get item "type") "") in
  let text := trim_space (renderItemText item) in
  let progress s :=
    if nonempty text && empty (sn_LatestProgressFP s)
    then set_sn_Progress (fingerprint [itemType; stringValue (get item "id") ""; text]) text s
    else s in
  if String.eqb itemType "plan" then progress snapshot
  else if is_tool_type itemType then
    let s := progress snapshot in
    if empty (sn_LatestToolFP s) then
      let id := stringValue (get item "id") "" in
      let label := toolLabel item in
      let status := toolStatus item (sn_LatestTurnStatus s) in
      let output := toolOutput item in
      set_sn_Tool id itemType label status output
        (fingerprint [itemType; id; label; status; output]) s
    else s
  else snapshot.

(** None stands for a panic; see [SnapshotFromThreadRead_total]. *)
Definition SnapshotFromThreadRead (result : obj) : option ThreadReadSnapshot :=
  let thread := ThreadFromPayload result in
  let payload := threadObject result in
  let waitingOnApproval := statusHasFlag (th_Status thread) "waitingOnApproval" in
  let waitingOnReply := statusHasFlag (th_Status thread) "waitingOnUserInput"
                        || statusHasFlag (th_Status thread) "waitingOnInput" in
  match last_of (slice_or_nil (get payload "turns")) with
  | None =>
      Some (mkThreadReadSnapshot thread "" "" "" "" waitingOnApproval waitingOnReply
              [] [] "" "" "" "" "" "" "" "" "" "" "" "" "" false "" "" None [])
  | Some last =>
      let lastTurn := map_or_nil last in
      let turnID := stringValue (get lastTurn "id") "" in
      let turnStatus := statusText (get lastTurn "status") in
      let waitingOnApproval := waitingOnApproval || statusHasFlag turnStatus "waitingOnApproval" in
      let waitingOnReply := waitingOnReply || statusHasFlag turnStatus "waitingOnUserInput"
                            || statusHasFlag turnStatus "waitingOnInput" in
      let items := slice_or_nil (get lastTurn "items") in
      planPrompt ← syntheticPlanPrompt thread turnID items waitingOnReply;
      let '(userID, userText, userFP) := latestUserMessage items in
      let '(finalText, finalFP) := latestFinalAgentMessage items in
      let snapshot :=
        mkThreadReadSnapshot thread turnID turnStatus "" "" waitingOnApproval waitingOnReply
          (collectAgentMessagesFromItems items 3)
          (collectAgentMessageEntriesFromItems (JArr items) 3)
          "" "" userID userText userFP finalFP finalText "" "" "" "" "" "" false "" ""
          planPrompt (collectDetailItemsFromItems items turnStatus) in
      Some (fold_left scanItem (rev items) (normalizeFinalizedTurn snapshot))
  end.

(** *** DiffSnapshot and CompactSnapshot *)

(** A polled event about the current turn of the snapshot. *)
Definition pollEvent (current : ThreadReadSnapshot) (suffix kind text status : string)
    (needsReply needsApproval : bool) : ObserverEvent :=
  let thread := sn_Thread current in
  mkObserverEvent
    ("poll:" +:+ th_ID thread +:+ ":" +:+ sn_LatestTurnID current +:+ ":" +:+ suffix)
    kind (th_ID thread) (th_ProjectName thread) (th_Title thread) text status
    (sn_LatestTurnID current) "" "" needsReply needsApproval.

Definition completionStatus (status : string) : bool :=
  existsb (String.eqb status) ["completed"; "interrupted"; "failed"].

Definition DiffSnapshot (previous : option ThreadSnapshotState) (current : ThreadReadSnapshot)
  : list ObserverEvent :=
  match previous with
  | None => []
  | Some previous =>
      let turnID := sn_LatestTurnID current in
      let thread := sn_Thread current in
      let turnStatus := sn_LatestTurnStatus current in
      (if nonempty turnID && negb (String.eqb (ss_LastSeenTurnID previous) turnID)
       then [pollEvent current "started" "turn_started" "Turn started" turnStatus false false]
       else [])
      ++ (if nonempty (sn_LatestProgressFP current)
             && negb (String.eqb (sn_LatestProgressFP current) (ss_LastProgressFP previous))
          then [pollEvent current ("progress:" +:+ sn_LatestProgressFP current) "tool_activity"
                  (sn_LatestProgressText current) turnStatus false false]
          else [])
      ++ (if sn_WaitingOnApproval current && negb (String.eqb (ss_LastApprovalFP previous) turnID)
          then [pollEvent current "approval" "thread_updated" "Thread is waiting for approval."
                  (th_Status thread) false true]
          else [])
      ++ (if sn_WaitingOnReply current
             && negb (String.eqb (ss_LastSeenThreadStatus previous) (th_Status thread))
          then
            let replyFP := match sn_PlanPrompt current with
                           | Some p => if nonempty (pp_Fingerprint p) then pp_Fingerprint p else turnID
                           | None => turnID
                           end in
            [pollEvent current ("reply:" +:+ replyFP) "thread_updated"
               (waitingText (sn_PlanPrompt current)) (th_Status thread) true false]
          else [])
      ++ (if nonempty (sn_LatestFinalFP current)
             && negb (String.eqb (sn_LatestFinalFP current) (ss_LastFinalFP previous))
          then [pollEvent current ("final:" +:+ sn_LatestFinalFP current) "final_answer"
                  (sn_LatestFinalText current) turnStatus false false]
          else [])
      ++ (if nonempty turnID && nonempty turnStatus then
            let completionFP := fingerprint [turnID; turnStatus] in
            let fresh := negb (String.eqb completionFP (ss_LastCompletionFP previous)) in
            if String.eqb turnStatus "completed" || String.eqb turnStatus "interrupted" then
              if fresh then [pollEvent current turnStatus "turn_completed" ("Turn " +:+ turnStatus)
                               turnStatus false false]
              else []
            else if String.eqb turnStatus "failed" then
              if fresh then [pollEvent current "failed" "turn_failed" "Turn failed"
                               turnStatus false false]
              else []
            else []
          else [])
  end.

Definition latestToolTimingKey (snapshot : ThreadReadSnapshot) : string :=
  let id := trim_space (sn_LatestToolID snapshot) in
  if nonempty id then "id:" +:+ id
  else
    let kind := trim_space (sn_LatestToolKind snapshot) in
    let label := trim_space (sn_LatestToolLabel snapshot) in
    if empty kind && empty label then "" else "fallback:" +:+ kind +:+ ":" +:+ label.

Definition sameLatestTool (left right : ThreadReadSnapshot) : bool :=
  let leftKey := latestToolTimingKey left in
  let rightKey := latestToolTimingKey right in
  if empty leftKey || empty rightKey || negb (String.eqb leftKey rightKey) then false
  else
    let leftTurnID := trim_space (sn_LatestTurnID left) in
    let rightTurnID := trim_space (sn_LatestTurnID right) in
    empty leftTurnID || empty rightTurnID || String.eqb leftTurnID rightTurnID.

(** The snapshot the previous state carries, the zero one when it carries none. *)
Definition previousSnapshot (previous : option ThreadSnapshotState) : ThreadReadSnapshot :=
  match previous with
  | Some p => default zeroSnapshot (ss_CompactJSON p)
  | None => zeroSnapshot
  end.

(** [now] is the clock, read only when the observation time is zero. *)
Definition observedText (now observedAt : instant) : string :=
  format_time (if is_zero observedAt then now else observedAt).

Definition applyLatestTurnTiming (now : instant) (previous : option ThreadSnapshotState)
    (current : ThreadReadSnapshot) (observedAt : instant) : ThreadReadSnapshot :=
  if empty (trim_space (sn_LatestTurnID current)) then current
  else
    let observed := observedText now observedAt in
    let prev := previousSnapshot previous in
    let sameTurn := String.eqb (trim_space (sn_LatestTurnID prev))
                      (trim_space (sn_LatestTurnID current)) in
    let started :=
      if empty (trim_space (sn_LatestTurnStartedAt current)) then
        if sameTurn && nonempty (trim_space (sn_LatestTurnStartedAt prev))
        then sn_LatestTurnStartedAt prev else observed
      else sn_LatestTurnStartedAt current in
    let updated :=
      if empty (trim_space (sn_LatestTurnUpdatedAt current)) then observed
      else sn_LatestTurnUpdatedAt current in
    set_sn_TurnTimes started updated current.

Definition applyLatestToolTiming (now : instant) (previous : option ThreadSnapshotState)
    (current : ThreadReadSnapshot) (observedAt : instant) : ThreadReadSnapshot :=
  if empty (latestToolTimingKey current) then current
  else
    let observed := observedText now observedAt in
    let prev := previousSnapshot previous in
    let sameTool := sameLatestTool prev current in
    let started :=
      if empty (trim_space (sn_LatestToolStartedAt current)) then
        if sameTool && nonempty (trim_space (sn_LatestToolStartedAt prev))
        then sn_LatestToolStartedAt prev else observed
      else sn_LatestToolStartedAt current in
    let updated :=
      if empty (trim_space (sn_LatestToolUpdatedAt current)) then
        if sameTool && nonempty (trim_space (sn_LatestToolUpdatedAt prev))
           && String.eqb (trim_space (sn_LatestToolFP prev)) (trim_space (sn_LatestToolFP current))
        then sn_LatestToolUpdatedAt prev else observed
      else sn_LatestToolUpdatedAt current in
    set_sn_ToolTimes started updated current.

Definition CompactSnapshot (now : instant) (previous : option ThreadSnapshotState)
    (current0 : ThreadReadSnapshot) (polledAt : instant) : ThreadSnapshotState :=
  let current := applyLatestToolTiming now previous
                   (applyLatestTurnTiming now previous current0 polledAt) polledAt in
  let prev (f : ThreadSnapshotState -> string) := match previous with Some p => f p | None => "" end in
  mkThreadSnapshotState
    (th_UpdatedAt (sn_Thread current))
    (th_Status (sn_Thread current))
    (sn_LatestTurnID current)
    (sn_LatestTurnStatus current)
    (sn_LatestProgressFP current)
    (prev ss_LastProgressSentAt)
    (sn_LatestFinalFP current)
    (if nonempty (sn_LatestTurnID current) && nonempty (sn_LatestTurnStatus current)
        && completionStatus (sn_LatestTurnStatus current)
     then fingerprint [sn_LatestTurnID current; sn_LatestTurnStatus current]
     else prev ss_LastCompletionFP)
    (if sn_WaitingOnApproval current then sn_LatestTurnID current else "")
    (if sn_WaitingOnReply current
     then match sn_PlanPrompt current with Some p => pp_Fingerprint p | None => "" end else "")
    (prev ss_LastFinalNoticeFP)
    (prev ss_LastToolDocumentFP)
    (prev ss_LastRichLiveEventAt)
    (format_time polledAt)
    ""
    (Some current).

(** *** Notifications and server requests *)
Definition NormalizeLiveNotification (event : Event) (thread : Thread) : list ObserverEvent :=
  let method := trim_space (to_lower (ev_Method event)) in
  let params := ev_Params event in
  let nested := nestedThreadID params in
  let threadID := if empty nested then th_ID thread else nested in
  if empty threadID then []
  else
    let projectName := if empty (th_ProjectName thread)
                       then stringValue (get params "projectName") "" else th_ProjectName thread in
    let threadTitle := if empty (th_Title thread)
                       then stringValue (get params "threadTitle") threadID else th_Title thread in
    let live suffix kind text status turnID itemID needsReply needsApproval :=
      [mkObserverEvent ("live:" +:+ threadID +:+ ":" +:+ suffix) kind threadID projectName
         threadTitle text status turnID itemID "" needsReply needsApproval] in
    if String.eqb method "turn/started" then
      let turn := asMap (get params "turn") in
      let turnID := stringValue (get turn "id") (stringValue (get params "turnId") "") in
      live (turnID +:+ ":started") "turn_started" "Turn started"
        (stringValue (get turn "status") "") turnID "" false false
    else if String.eqb method "turn/completed" then
      let turn := asMap (get params "turn") in
      let turnID := stringValue (get turn "id") (stringValue (get params "turnId") "") in
      let status := stringValue (get turn "status") (stringValue (get params "status") "completed") in
      let failed := String.eqb status "failed" in
      live (turnID +:+ ":" +:+ status) (if failed then "turn_failed" else "turn_completed")
        (if failed then "Turn failed" else "Turn " +:+ status) status turnID "" false false
    else if String.eqb method "turn/plan/updated" then
      let turnID := stringValue (get params "turnId") "" in
      let text := trim_space (stringValue (get params "text")
                                (stringValue (get params "plan") "Plan updated")) in
      live (turnID +:+ ":plan:" +:+ fingerprint [text]) "thread_updated" text "" turnID "" false false
    else if String.eqb method "item/completed" then
      let item := asMap (get params "item") in
      let itemType := trim_space (stringValue (get item "type") "") in
      let turnID := stringValue (get params "turnId") "" in
      let text := trim_space (renderItemText item) in
      let itemID := stringValue (get item "id") "" in
      if String.eqb itemType "agentMessage" && nonempty text then
        let phase := to_lower (normalizeAgentMessagePhase item) in
        if nonempty phase && negb (String.eqb phase "final_answer") then []
        else live (turnID +:+ ":" +:+ stringValue (get item "id") "agent") "final_answer" text ""
               turnID itemID false false
      else if String.eqb itemType "plan" && nonempty text then
        live (turnID +:+ ":" +:+ stringValue (get item "id") "plan") "thread_updated" text ""
          turnID itemID false false
      else if nonempty text then
        live (turnID +:+ ":" +:+ stringValue (get item "id") itemType) "tool_activity" text ""
          turnID itemID false false
      else []
    else if String.eqb method "thread/status/changed" then
      let status := statusText (get params "status") in
      if statusHasFlag status "waitingOnApproval" then
        live ("status:" +:+ status) "thread_updated" "Thread is waiting for approval." status
          "" "" false true
      else if statusHasFlag status "waitingOnUserInput" || statusHasFlag status "waitingOnInput" then
        live ("status:" +:+ status) "thread_updated" "Thread is waiting for input." status
          "" "" true false
      else []
    else [].

(** [now] is model.NowString(). *)
Definition PendingApprovalFromServerRequest (now : TimeString) (event : Event)
  : option PendingApproval :=
  if negb (String.eqb (ev_Channel event) "server_request") then None
  else
    let method := to_lower (trim_space (ev_Method event)) in
    let requestID := rpcString (ev_ID event) in
    if empty requestID then None
    else
      let threadID := nestedThreadID (ev_Params event) in
      let turnID := stringValue (get (ev_Params event) "turnId") "" in
      let itemID := stringValue (get (ev_Params event) "itemId") "" in
      let pending kind question :=
        Some (mkPendingApproval requestID "" threadID turnID itemID kind "" question "" "pending" 0
                (ev_Params event) now) in
      if contains method "requestapproval" then
        pending "approval" (stringValue (get (ev_Params event) "question") "Approval required.")
      else if contains method "requestuserinput" then
        pending "user_input" (requestUserInputQuestion (ev_Params event))
      else None.

(** *** Predicates of the theorems *)

(** What a turn with a final answer looks like: nothing left running. *)
Definition finalized (s : ThreadReadSnapshot) : Prop :=
  terminalTurnStatus (sn_LatestTurnStatus s) = true
  /\ statusLooksLive (th_Status (sn_Thread s)) = false
  /\ trim_space (th_Status (sn_Thread s)) <> ""
  /\ (th_ActiveTurnID (sn_Thread s) = ""
      \/ trim_space (th_ActiveTurnID (sn_Thread s)) <> trim_space (sn_LatestTurnID s)).

Definition nil_literal (s : string) : bool :=
  existsb (String.eqb s) ["<nil>"; "{}"; "[]"; "map[]"].

(** A final answer comes from an agent message in the final phase or without one. *)
Definition final_from_message (event : Event) (e : ObserverEvent) : Prop :=
  oe_Kind e = "final_answer" ->
  let item := asMap (get (ev_Params event) "item") in
  let phase := to_lower (normalizeAgentMessagePhase item) in
  trim_space (stringValue (get item "type") "") = "agentMessage"
  /\ (phase = "" \/ phase = "final_answer")
  /\ oe_Text e = trim_space (renderItemText item).

(** A thread whose only turn ended with a final answer, for the examples. *)
Definition ex_read : obj :=
  [("thread", JObj [("id", JStr "thread-a"); ("status", JStr "running"); ("activeTurnId", JStr "turn-1");
     ("turns", JArr [JObj [("id", JStr "turn-1"); ("status", JStr "inProgress");
        ("items", JArr [JObj [("type", JStr "agentMessage"); ("id", JStr "i1"); ("text", JStr "done");
                              ("phase", JStr "final_answer")]])]])])].

(** ** Theorems *)
#[global] Arguments fingerprint : simpl never.
#[global] Arguments terminalTurnStatus : simpl never.
#[global] Arguments statusLooksLive : simpl never.
#[global] Arguments statusHasFlag : simpl never.
#[global] Arguments terminalLatestToolStatus : simpl never.
#[global] Arguments renderItemText : simpl never.
#[global] Arguments toolLabel : simpl never.
#[global] Arguments toolOutput : simpl never.
#[global] Arguments toolStatus : simpl never.
#[global] Arguments stringValue : simpl never.
#[global] Arguments empty : simpl never.
#[global] Arguments nonempty : simpl never.
#[global] Arguments is_tool_type : simpl never.

Lemma nonempty_false s : nonempty s = false <-> s = "".
Proof. unfold nonempty. destruct (String.eqb_spec s ""); naive_solver. Qed.

Lemma nonempty_true s : nonempty s = true <-> s <> "".
Proof. unfold nonempty. destruct (String.eqb_spec s ""); naive_solver. Qed.

Lemma empty_true s : empty s = true <-> s = "".
Proof. unfold empty. destruct (String.eqb_spec s ""); naive_solver. Qed.

Lemma empty_false s : empty s = false <-> s <> "".
Proof. unfold empty. destruct (String.eqb_spec s ""); naive_solver. Qed.

Lemma filter_nonempty_spec (l : list string) x : x ∈ filter (fun t => nonempty t) l -> x <> "".
Proof. rewrite list_elem_of_filter. intros [H _]. by apply Is_true_true, nonempty_true in H. Qed.

(** A fingerprint is forty hexadecimal digits. *)
Lemma fingerprint_length parts : String.length (fingerprint parts) = 40%nat.
Proof. unfold fingerprint. by rewrite length_hex, length_sha1. Qed.

Lemma fingerprint_nonempty parts : fingerprint parts <> "".
Proof. intros H. pose proof (fingerprint_length parts) as L. by rewrite H in L. Qed.

Lemma prefix_of_drop (s : string) : has_byte "000" s = false -> s +:+ String "000" "" <> "".
Proof. by destruct s. Qed.

(** Two lists of NUL-free parts that hash the same bytes are the same list. *)
Theorem fp_preimage_inj p q :
  Forall (fun s => has_byte "000" s = false) p -> Forall (fun s => has_byte "000" s = false) q ->
  fp_preimage p = fp_preimage q -> p = q.
Proof.
  intros Hp. revert q. induction Hp as [|x p Hx Hp IH]; intros q Hq E.
  - destruct Hq as [|y q Hy Hq]; [done|]. simpl in E. by destruct y.
  - destruct Hq as [|y q Hy Hq]; simpl in E; [by destruct x|].
    apply cut_byte_inj in E as [-> E]; [|done..]. f_equal. by apply IH.
Qed.

Theorem fp_preimage_inj_witness : fp_preimage ["a"; ""] = fp_preimage ["a"; ""] /\ ["a"; ""] = ["a"; ""].
Proof. split; [done|]. by apply fp_preimage_inj; repeat constructor. Defined.

Lemma slice_to_fingerprint n parts : (n <= 40)%nat -> is_Some (slice_to n (fingerprint parts)).
Proof.
  intros H. unfold slice_to. rewrite fingerprint_length.
  destruct (Nat.leb_spec n 40); [by eexists|lia].
Qed.

(** fp[:12] is within bounds: reading a thread never panics. *)
Theorem SnapshotFromThreadRead_total result : is_Some (SnapshotFromThreadRead result).
Proof.
  unfold SnapshotFromThreadRead. destruct (last_of _) as [last|]; [|by eexists].
  assert (Hp : forall th t items w, is_Some (syntheticPlanPrompt th t items w)).
  { intros th t items w. unfold syntheticPlanPrompt. destruct w; cbn [negb]; [|by eexists].
    destruct (latestPlanQuestion items) as [i q].
    match goal with |- context [slice_to 12 (fingerprint ?p)] =>
      destruct (slice_to_fingerprint 12 p ltac:(lia)) as [x ->] end. by eexists. }
  edestruct Hp as [pp ->]. cbn [mbind option_bind].
  destruct (latestUserMessage _) as [[? ?] ?]. destruct (latestFinalAgentMessage _). by eexists.
Qed.

(** *** The scan over the items touches progress and tool fields only *)
Lemma scanItem_frame s raw :
  sn_Thread (scanItem s raw) = sn_Thread s
  /\ sn_LatestTurnID (scanItem s raw) = sn_LatestTurnID s
  /\ sn_LatestTurnStatus (scanItem s raw) = sn_LatestTurnStatus s
  /\ sn_LatestFinalFP (scanItem s raw) = sn_LatestFinalFP s
  /\ sn_LatestFinalText (scanItem s raw) = sn_LatestFinalText s
  /\ sn_WaitingOnApproval (scanItem s raw) = sn_WaitingOnApproval s
  /\ sn_WaitingOnReply (scanItem s raw) = sn_WaitingOnReply s
  /\ sn_LatestAgentMessageEntries (scanItem s raw) = sn_LatestAgentMessageEntries s.
Proof.
  unfold scanItem. cbv zeta.
  repeat match goal with |- context [if ?b then _ else _] => destruct b end; repeat split.
Qed.

Lemma fold_scanItem_frame items s :
  let r := fold_left scanItem items s in
  sn_Thread r = sn_Thread s
  /\ sn_LatestTurnID r = sn_LatestTurnID s
  /\ sn_LatestTurnStatus r = sn_LatestTurnStatus s
  /\ sn_LatestFinalFP r = sn_LatestFinalFP s
  /\ sn_LatestFinalText r = sn_LatestFinalText s
  /\ sn_WaitingOnApproval r = sn_WaitingOnApproval s
  /\ sn_WaitingOnReply r = sn_WaitingOnReply s
  /\ sn_LatestAgentMessageEntries r = sn_LatestAgentMessageEntries s.
Proof.
  revert s. induction items as [|raw items IH]; intros s; simpl; [by repeat split|].
  pose proof (IH (scanItem s raw)) as H. simpl in H. pose proof (scanItem_frame s raw).
  intuition congruence.
Qed.

Lemma normalizeFinalizedTurn_frame s :
  let r := normalizeFinalizedTurn s in
  sn_LatestTurnID r = sn_LatestTurnID s /\ sn_LatestFinalFP r = sn_LatestFinalFP s
  /\ sn_LatestFinalText r = sn_LatestFinalText s
  /\ sn_WaitingOnApproval r = sn_WaitingOnApproval s
  /\ sn_WaitingOnReply r = sn_WaitingOnReply s.
Proof.
  unfold normalizeFinalizedTurn. destruct (empty _); [done|]. destruct (_ || _); [done|].
  destruct s. cbn -[statusLooksLive terminalTurnStatus empty String.eqb trim_space].
  destruct (terminalTurnStatus _); cbn -[statusLooksLive empty String.eqb trim_space];
    destruct (String.eqb _ _); cbn -[statusLooksLive empty trim_space];
    destruct (_ || _); repeat split.
Qed.

Lemma normalizeFinalizedTurn_finalized s :
  trim_space (sn_LatestFinalFP s) <> "" ->
  sn_WaitingOnApproval s = false -> sn_WaitingOnReply s = false ->
  finalized (normalizeFinalizedTurn s).
Proof.
  intros Hfp Ha Hr. unfold normalizeFinalizedTurn. apply empty_false in Hfp. rewrite Hfp, Ha, Hr.
  cbn [orb]. set (s1 := if negb (terminalTurnStatus (sn_LatestTurnStatus s)) then _ else s).
  assert (H1 : terminalTurnStatus (sn_LatestTurnStatus s1) = true).
  { unfold s1. destruct (terminalTurnStatus (sn_LatestTurnStatus s)) eqn:E; [exact E|reflexivity]. }
  clearbody s1. clear Hfp Ha Hr. cbv zeta.
  set (s2 := if String.eqb (trim_space (th_ActiveTurnID (sn_Thread s1))) _ then _ else s1).
  assert (H2 : terminalTurnStatus (sn_LatestTurnStatus s2) = true
               /\ (th_ActiveTurnID (sn_Thread s2) = ""
                   \/ trim_space (th_ActiveTurnID (sn_Thread s2)) <> trim_space (sn_LatestTurnID s2))).
  { unfold s2. destruct (String.eqb_spec (trim_space (th_ActiveTurnID (sn_Thread s1)))
      (trim_space (sn_LatestTurnID s1))) as [_|E]; [split; [exact H1|left; reflexivity]|auto]. }
  clearbody s2. destruct H2 as [H2 H3]. unfold finalized.
  destruct (statusLooksLive (th_Status (sn_Thread s2))) eqn:E1;
    [|destruct (empty (trim_space (th_Status (sn_Thread s2)))) eqn:E2]; cbn [orb].
  1,2: (split; [exact H2|split; [reflexivity|split; [discriminate|exact H3]]]).
  apply empty_false in E2. auto.
Qed.

(** *** Final answers *)

(** What an entry carries: a text, and the fingerprint of its fields. *)
Lemma agentMessageEntry_spec raw e :
  agentMessageEntry raw = Some e ->
  am_Text e <> ""
  /\ am_FP e = fingerprint ["agentMessage"; am_ID e; am_Phase e; am_Text e].
Proof.
  unfold agentMessageEntry. cbv zeta. intros H.
  destruct (negb _ && negb _); [done|]. destruct (empty _) eqn:E; [done|].
  apply empty_false in E. by injection H as <-.
Qed.

Lemma collectFromItems_elem raw limit e :
  e ∈ collectAgentMessageEntriesFromItems raw limit ->
  exists item, item ∈ slice_or_nil raw /\ agentMessageEntry item = Some e.
Proof.
  unfold collectAgentMessageEntriesFromItems. intros H.
  apply elem_of_take in H as (i & H & _). apply list_elem_of_lookup_2, list_elem_of_omap in H
    as (item & Hi & He). exists item. split; [|done].
  by apply list_elem_of_In, in_rev, list_elem_of_In in Hi.
Qed.

Theorem collectAgentMessageEntries_bounded turns limit :
  (length (collectAgentMessageEntries turns limit) <= limit)%nat.
Proof.
  unfold collectAgentMessageEntries. destruct limit as [|k]; [simpl; lia|].
  generalize (rev turns) (S k). clear. induction l as [|turn l IH]; intros n; simpl; [lia|].
  set (out := collectAgentMessageEntriesFromItems _ n).
  assert (length out <= n)%nat.
  { unfold out, collectAgentMessageEntriesFromItems. rewrite length_take. lia. }
  destruct (n <=? length out)%nat; [done|]. rewrite length_app. specialize (IH (n - length out)%nat). lia.
Qed.

(** The final answer is a message of the turn: the newest one in the final
    phase, or the newest one at all when no message of the turn has a phase. *)
Lemma latestFinalAgentMessage_spec items text fp :
  latestFinalAgentMessage items = (text, fp) ->
  (text = "" /\ fp = "")
  \/ (exists item e, item ∈ items /\ agentMessageEntry item = Some e /\ am_Text e = text
        /\ text <> "" /\ (exists parts, fp = fingerprint parts)
        /\ (is_final_phase (am_Phase e) = true
            \/ Forall (fun o => to_lower (trim_space (am_Phase o)) = "")
                 (collectAgentMessageEntriesFromItems (JArr items) (length items)))).
Proof.
  unfold latestFinalAgentMessage.
  set (entries := collectAgentMessageEntriesFromItems (JArr items) (length items)).
  assert (Hin : forall e, e ∈ entries -> exists item, item ∈ items /\ agentMessageEntry item = Some e).
  { intros e He. by apply collectFromItems_elem in He. }
  destruct (first_some _ entries) as [e|] eqn:E1.
  { apply first_some_spec in E1 as (e' & He & Hf). destruct (is_final_phase (am_Phase e')) eqn:Hp; simplify_eq.
    intros ?; simplify_eq. right. destruct (Hin _ He) as (item & Hi & Ha).
    exists item, e. destruct (agentMessageEntry_spec _ _ Ha) as [Ht Hfp]. split_and!; eauto. }
  clear E1. destruct (existsb _ entries) eqn:E2; [intros [= <- <-]; by left|].
  destruct (first_some _ entries) as [e|] eqn:E3; [|intros ?; simplify_eq; by left].
  apply first_some_spec in E3 as (e' & He & Hf). destruct (nonempty (am_Text e')); simplify_eq.
  intros ?; simplify_eq. right. destruct (Hin _ He) as (item & Hi & Ha).
  exists item, e. destruct (agentMessageEntry_spec _ _ Ha) as [Ht Hfp].
  split_and!; [done|done|done|done|eexists; reflexivity|]. right. apply Forall_forall. intros o Ho.
  apply nonempty_false. destruct (nonempty _) eqn:En; [|done]. exfalso.
  assert (existsb (fun e => nonempty (to_lower (trim_space (am_Phase e)))) entries = true); [|congruence].
  apply existsb_exists. exists o. split; [by apply list_elem_of_In|done].
Qed.

(** A fingerprint has nothing to trim. *)
Lemma trim_fingerprint parts : trim_space (fingerprint parts) = fingerprint parts.
Proof. apply trim_space_visible, hex_visible, sha1_sum_small. Qed.

(** The shape of a successful read. *)
Lemma SnapshotFromThreadRead_inv result s :
  SnapshotFromThreadRead result = Some s ->
  sn_LatestFinalFP s = ""
  \/ exists s0 items text fp,
       latestFinalAgentMessage items = (text, fp) /\ sn_LatestFinalFP s0 = fp
       /\ sn_LatestFinalText s0 = text
       /\ s = fold_left scanItem (rev items) (normalizeFinalizedTurn s0).
Proof.
  unfold SnapshotFromThreadRead. cbv zeta.
  match goal with |- context [last_of ?l] => destruct (last_of l) as [last|] end;
    [|intros H; apply (inj Some) in H as <-; by left].
  destruct (syntheticPlanPrompt _ _ _ _) as [pp|]; [|done]. cbn [mbind option_bind].
  destruct (latestUserMessage _) as [[uid ut] ufp]. destruct (latestFinalAgentMessage _) as [t f] eqn:E.
  intros H. apply (inj Some) in H as <-. right. do 4 eexists. split; [exact E|].
  refine (conj _ (conj _ eq_refl)); reflexivity.
Qed.

(** A read turn with a final answer that waits for nobody is finalized, and its
    final text is not empty. *)
Theorem SnapshotFromThreadRead_finalized result s :
  SnapshotFromThreadRead result = Some s ->
  sn_LatestFinalFP s <> "" -> sn_WaitingOnApproval s = false -> sn_WaitingOnReply s = false ->
  finalized s /\ sn_LatestFinalText s <> "".
Proof.
  intros H Hfp Ha Hr. destruct (SnapshotFromThreadRead_inv _ _ H) as [|(s0 & items & t & f & E & Hf & Ht & ->)];
    [done|].
  destruct (fold_scanItem_frame (rev items) (normalizeFinalizedTurn s0)) as (F1 & F2 & F3 & F4 & F5 & F6 & F7 & _).
  destruct (normalizeFinalizedTurn_frame s0) as (G1 & G2 & G3 & G4 & G5).
  rewrite F4, G2 in Hfp. rewrite F6, G4 in Ha. rewrite F7, G5 in Hr.
  destruct (latestFinalAgentMessage_spec _ _ _ E) as [[_ ->]|(_ & e & _ & _ & _ & Hne & [parts Hp] & _)]; [done|].
  split; [|by rewrite F5, G3, Ht].
  assert (finalized (normalizeFinalizedTurn s0)) as Hn.
  { apply normalizeFinalizedTurn_finalized; [|done..]. by rewrite Hf, Hp, trim_fingerprint, <- Hp, <- Hf. }
  unfold finalized in *. by rewrite F1, F2, F3.
Qed.

(** *** Snapshots a poll apart *)
Lemma timing_frame now prev s at_ :
  let r := applyLatestToolTiming now prev (applyLatestTurnTiming now prev s at_) at_ in
  sn_Thread r = sn_Thread s /\ sn_LatestTurnID r = sn_LatestTurnID s
  /\ sn_LatestTurnStatus r = sn_LatestTurnStatus s /\ sn_LatestProgressFP r = sn_LatestProgressFP s
  /\ sn_LatestFinalFP r = sn_LatestFinalFP s /\ sn_WaitingOnApproval r = sn_WaitingOnApproval s
  /\ sn_WaitingOnReply r = sn_WaitingOnReply s /\ sn_PlanPrompt r = sn_PlanPrompt s.
Proof.
  unfold applyLatestToolTiming, applyLatestTurnTiming. cbv zeta.
  destruct (empty (trim_space (sn_LatestTurnID s)));
    destruct (empty (latestToolTimingKey _)); by repeat split.
Qed.

(** A snapshot compared with its own compacted state has nothing to report: an
    unchanged thread is silent at the next poll. *)
Theorem DiffSnapshot_CompactSnapshot now prev s polledAt :
  DiffSnapshot (Some (CompactSnapshot now prev s polledAt)) s = [].
Proof.
  destruct (timing_frame now prev s polledAt) as (E1 & E2 & E3 & E4 & E5 & E6 & E7 & E8).
  unfold DiffSnapshot, CompactSnapshot. cbv zeta.
  cbn [ss_LastSeenTurnID ss_LastProgressFP ss_LastApprovalFP ss_LastSeenThreadStatus
       ss_LastFinalFP ss_LastCompletionFP].
  rewrite E1, E2, E3, E4, E5, E6, !String.eqb_refl. cbn [negb]. rewrite !andb_false_r.
  destruct (sn_WaitingOnApproval s); cbn [andb]; rewrite ?String.eqb_refl; cbn [negb app];
    (destruct (nonempty (sn_LatestTurnID s) && nonempty (sn_LatestTurnStatus s)); [|done];
     unfold completionStatus; cbn [existsb andb];
     destruct (String.eqb (sn_LatestTurnStatus s) "completed"),
       (String.eqb (sn_LatestTurnStatus s) "interrupted"),
       (String.eqb (sn_LatestTurnStatus s) "failed"); cbn [orb];
     rewrite ?String.eqb_refl; done).
Qed.

Theorem SnapshotFromThreadRead_finalized_witness :
  exists s, SnapshotFromThreadRead ex_read = Some s /\ finalized s.
Proof.
  destruct (SnapshotFromThreadRead ex_read) as [s|] eqn:E; [|vm_compute in E; discriminate].
  exists s. split; [reflexivity|].
  refine (proj1 (SnapshotFromThreadRead_finalized ex_read s E _ _ _));
    vm_compute in E; injection E as <-; [discriminate|reflexivity|reflexivity].
Defined.

(** While the turn stays the same, the time it started at does not move. *)
Theorem CompactSnapshot_started_stable now now' prev s s' t t' c :
  ss_CompactJSON (CompactSnapshot now prev s t) = Some c ->
  trim_space (sn_LatestTurnID s) <> "" ->
  trim_space (sn_LatestTurnID s') = trim_space (sn_LatestTurnID s) ->
  trim_space (sn_LatestTurnStartedAt s') = "" ->
  trim_space (sn_LatestTurnStartedAt c) <> "" ->
  exists c', ss_CompactJSON (CompactSnapshot now' (Some (CompactSnapshot now prev s t)) s' t') = Some c'
    /\ sn_LatestTurnStartedAt c' = sn_LatestTurnStartedAt c.
Proof.
  intros Hc Hid Hsame Hs Hstart. eexists. split; [reflexivity|].
  assert (Hidc : sn_LatestTurnID c = sn_LatestTurnID s).
  { injection Hc as <-. by destruct (timing_frame now prev s t) as (_ & -> & _). }
  set (st := CompactSnapshot now prev s t) in *.
  transitivity (sn_LatestTurnStartedAt (applyLatestTurnTiming now' (Some st) s' t')).
  { unfold applyLatestToolTiming. by destruct (empty (latestToolTimingKey _)). }
  unfold applyLatestTurnTiming, previousSnapshot. rewrite Hc. cbn [default from_option id].
  apply empty_false in Hid as Hid'. rewrite Hsame, Hid', Hs, Hidc, String.eqb_refl. cbv zeta.
  apply nonempty_true in Hstart. rewrite Hstart. done.
Qed.

Theorem CompactSnapshot_started_stable_witness :
  exists c c', ss_CompactJSON (CompactSnapshot 5%Z None (default zeroSnapshot (SnapshotFromThreadRead ex_read)) 5%Z) = Some c
    /\ ss_CompactJSON (CompactSnapshot 9%Z
         (Some (CompactSnapshot 5%Z None (default zeroSnapshot (SnapshotFromThreadRead ex_read)) 5%Z))
         (default zeroSnapshot (SnapshotFromThreadRead ex_read)) 9%Z) = Some c'
    /\ sn_LatestTurnStartedAt c' = sn_LatestTurnStartedAt c.
Proof.
  destruct (ss_CompactJSON (CompactSnapshot 5%Z None (default zeroSnapshot (SnapshotFromThreadRead ex_read)) 5%Z))
    as [c|] eqn:E; [|discriminate E].
  destruct (CompactSnapshot_started_stable 5%Z 9%Z None (default zeroSnapshot (SnapshotFromThreadRead ex_read))
    (default zeroSnapshot (SnapshotFromThreadRead ex_read)) 5%Z 9%Z c E) as (c' & H1 & H2).
  - vm_compute. discriminate.
  - reflexivity.
  - vm_compute. reflexivity.
  - vm_compute in E. injection E as <-. vm_compute. discriminate.
  - exists c, c'. split; [reflexivity|]. split; [exact H1|exact H2].
Defined.

(** *** Lists, labels and notifications *)

(** Internal threads (ephemeral ones and sub-agents) are never listed. *)
Theorem ThreadsFromList_no_internal result t :
  t ∈ ThreadsFromList result -> IsInternal t = false.
Proof.
  unfold ThreadsFromList. rewrite list_elem_of_filter. intros [H _].
  by apply Is_true_true, negb_true_iff in H.
Qed.

Lemma cleanToolText_clean v : nil_literal (cleanToolText v) = false.
Proof.
  unfold cleanToolText, nil_literal. cbv zeta. cbn [existsb].
  destruct (String.eqb (trim_space v) ""); [done|].
  destruct (String.eqb (trim_space v) "<nil>") eqn:E1; [done|].
  destruct (String.eqb (trim_space v) "{}") eqn:E2; [done|].
  destruct (String.eqb (trim_space v) "[]") eqn:E3; [done|].
  destruct (String.eqb (trim_space v) "map[]") eqn:E4; [done|].
  cbn [orb]. by rewrite E1, E2, E3, E4.
Qed.

Lemma firstToolText_clean item keys : nil_literal (firstToolText item keys) = false.
Proof.
  unfold firstToolText. destruct (first_some _ keys) as [x|] eqn:E; [|done].
  apply first_some_spec in E as (k & _ & H). cbv zeta in H.
  pose proof (cleanToolText_clean (stringValue (get item k) "")) as Hc.
  destruct (nonempty _); [|done]. by injection H as <-.
Qed.

Lemma nil_literal_if (b : bool) x y :
  nil_literal x = false -> nil_literal y = false -> nil_literal (if b then x else y) = false.
Proof. by destruct b. Qed.

(** The label of a tool call is never the print of an absent value. *)
Theorem toolLabel_clean item : nil_literal (toolLabel item) = false.
Proof.
  unfold toolLabel. cbv zeta.
  repeat first [apply cleanToolText_clean | apply firstToolText_clean | apply nil_literal_if
               | reflexivity].
Qed.

Lemma other_kind event (id kind t p ti te st tu it : string) (r a : bool) :
  kind <> "final_answer" -> t <> "" -> r && a = false ->
  exists e, [mkObserverEvent id kind t p ti te st tu it "" r a] = [e] /\ oe_ThreadID e <> ""
    /\ oe_NeedsReply e && oe_NeedsApproval e = false /\ final_from_message event e.
Proof. intros. eexists. split_and!; [reflexivity|done|done|]. by intros ?. Qed.

(** A notification gives at most one event; it is about an identified thread, it
    asks for one thing at most, and it announces a final answer only for a
    message of the final phase or of no phase, with the text of that message. *)
Theorem NormalizeLiveNotification_spec event thread :
  NormalizeLiveNotification event thread = []
  \/ exists e, NormalizeLiveNotification event thread = [e] /\ oe_ThreadID e <> ""
       /\ oe_NeedsReply e && oe_NeedsApproval e = false /\ final_from_message event e.
Proof.
  unfold NormalizeLiveNotification. cbv zeta.
  match goal with |- (if ?b then _ else _) = _ \/ _ => destruct b eqn:Hid end; [by left|].
  apply empty_false in Hid.
  destruct (String.eqb _ "turn/started"); [right; by apply other_kind|].
  destruct (String.eqb _ "turn/completed").
  { right. apply other_kind; [by destruct (String.eqb _ "failed")|done..]. }
  destruct (String.eqb _ "turn/plan/updated"); [right; by apply other_kind|].
  destruct (String.eqb _ "item/completed").
  - destruct (String.eqb _ "agentMessage" && _) eqn:Ha; [|destruct (String.eqb _ "plan" && _);
      [right; by apply other_kind|destruct (nonempty _); [right; by apply other_kind|by left]]].
    destruct (nonempty (to_lower _) && _) eqn:Hp; [by left|right]. bsimp.
    eexists. split_and!; [reflexivity|done|done|]. intros _. cbv zeta. split_and!; [done| |done].
    apply andb_false_iff in Hp as [Hp|Hp]; [left; by apply nonempty_false|right; by bsimp].
  - destruct (String.eqb _ "thread/status/changed"); [|by left].
    destruct (statusHasFlag _ "waitingOnApproval"); [right; by apply other_kind|].
    destruct (_ || _); [right; by apply other_kind|by left].
Qed.
