(* ===== verification/LiveEvent.v ===== *)
(** * internal/appserver/live_event.go: live notifications as typed events

    A notification, a server request or a legacy codex/event message becomes a
    [NormalizedEvent], or nothing; a tool event becomes a snapshot that shows the
    tool while it runs. *)
From stdpp Require Import base list numbers strings.
From Stdlib Require Import Lia Ascii.
From S2P Require Import Prelude GoStrings Json Model Control Normalize.

(** *** Payload access *)
Definition nestedTurnID (payload : obj) : string :=
  let turn := asMap (get payload "turn") in
  stringValue (get turn "id") "".

Fixpoint walk (current : any) (parts : list string) : any :=
  match parts with
  | [] => current
  | part :: r =>
      match as_map current with
      | Some currentMap => walk (get currentMap part) r
      | None => JNil
      end
  end.

Definition nestedPayloadValue (payload : obj) (key : string) : any :=
  walk (JObj payload) (split_byte "." key).

Definition firstPayload (payload : obj) (keys : list string) : any :=
  default JNil (first_some (fun key =>
    match nestedPayloadValue payload key with JNil => None | value => Some value end) keys).

Definition legacyCommandLabel (value : any) : string :=
  match value with
  | JArr typed =>
      let parts := filter (fun text => nonempty text && negb (String.eqb text "<nil>"))
                     (map (fun part => trim_space (sprint part)) typed) in
      join " " parts
  | _ => trim_space (stringValue value "")
  end.

(** *** Classification *)
Definition toolLiveEventKind (method : string) : EventKind :=
  if String.eqb method "item/completed" then EventToolCompleted
  else if String.eqb method "item/updated" then EventToolUpdated
  else EventToolStarted.

(** The fields an event already has when its item is looked at. *)
Record eventBase : Type := mkEventBase {
  eb_Method : string;
  eb_Raw : Event;
  eb_ThreadID : string;
  eb_ThreadTitle : string;
  eb_ProjectName : string;
  eb_TurnID : string;
  eb_TurnStatus : string }.

(** An event with the fields of its base and those its kind adds. *)
Definition event_of (b : eventBase) (kind : EventKind) (turnStatus itemID itemKind label status
    output text phase requestID : string) : NormalizedEvent :=
  mkNormalizedEvent kind (eb_Method b) (eb_ThreadID b) (eb_ThreadTitle b) (eb_ProjectName b)
    (eb_TurnID b) turnStatus itemID itemKind label status output text phase requestID
    (Some (eb_Raw b)).

(** [normalized, ok]: None when ok is false. *)
Definition keep (ok : bool) (e : NormalizedEvent) : option NormalizedEvent :=
  if ok then Some e else None.

Definition normalizeItemEvent (method : string) (params : obj) (b : eventBase)
  : option NormalizedEvent :=
  let item := asMap (get params "item") in
  let itemType := trim_space (stringValue (get item "type") "") in
  let itemID := stringValue (get item "id") itemType in
  if is_tool_type itemType then
    let kind := toolLiveEventKind method in
    let label := trim_space (toolLabel item) in
    let output := toolOutput item in
    let status1 := trim_space (toolStatus item "") in
    let status2 := if empty status1 then trim_space (stringValue (get params "status") "") else status1 in
    let status := if empty status2
                  then (if decide (kind = EventToolCompleted) then "completed" else "running")
                  else status2 in
    keep (nonempty (eb_ThreadID b) && (nonempty label || nonempty (trim_space output)))
      (event_of b kind (eb_TurnStatus b) itemID itemType label status output "" "" "")
  else if String.eqb itemType "agentMessage" then
    let text := trim_space (stringValue (get item "text") "") in
    keep (nonempty (eb_ThreadID b) && nonempty text)
      (event_of b EventAgentMessage (eb_TurnStatus b) itemID itemType "" "" "" text
         (normalizeAgentMessagePhase item) "")
  else None.

Definition normalizeLegacyCodexEvent (event : Event) (thread : Thread) : option NormalizedEvent :=
  let msg0 := asMap (get (ev_Params event) "msg") in
  let msg := match msg0 with [] => ev_Params event | _ => msg0 end in
  let msgType := trim_space (stringValue (get msg "type") "") in
  let b := mkEventBase (trim_space (ev_Method event)) event
             (firstString [nestedThreadID msg; nestedThreadID (ev_Params event); th_ID thread])
             (th_Title thread) (th_ProjectName thread)
             (firstString [stringValue (get msg "turn_id") ""; stringValue (get msg "turnId") "";
                           th_ActiveTurnID thread]) "" in
  let callID := firstString [stringValue (get msg "call_id") ""; stringValue (get msg "callId") "";
                             "commandExecution"] in
  let label := legacyCommandLabel (get msg "command") in
  let finish e := keep (nonempty (ne_ThreadID e) || nonempty (ne_TurnID e) || nonempty (ne_Label e)
                        || nonempty (ne_Text e)) e in
  if String.eqb msgType "task_started" then
    finish (event_of b EventLegacyTaskStarted "inProgress" "" "" "" "" "" "" "" "")
  else if String.eqb msgType "task_complete" then
    finish (event_of b EventLegacyTaskComplete "completed" "" "" "" "" "" "" "" "")
  else if String.eqb msgType "turn_aborted" then
    finish (event_of b EventTurnCompleted "interrupted" "" "" "" "" "" "" "" "")
  else if String.eqb msgType "exec_command_begin" then
    finish (event_of b EventToolStarted "" callID "commandExecution" label
              (firstString [stringValue (get msg "status") ""; "running"]) "" "" "" "")
  else if String.eqb msgType "exec_command_end" then
    finish (event_of b EventToolCompleted "" callID "commandExecution" label
              (firstString [stringValue (get msg "status") ""; "completed"])
              (firstString [stringValue (get msg "output") ""; stringValue (get msg "error") ""])
              "" "" "")
  else if String.eqb msgType "agent_message" then
    finish (event_of b EventAgentMessage "" "" "" "" "" ""
              (trim_space (stringValue (get msg "message") "")) "" "")
  else None.

Definition normalizeNotificationEvent (event : Event) (thread : Thread) : option NormalizedEvent :=
  let method := trim_space (to_lower (ev_Method event)) in
  let params := ev_Params event in
  if has_prefix method "codex/event" then normalizeLegacyCodexEvent event thread
  else
    let threadID := firstString [nestedThreadID params; th_ID thread] in
    let turnID := firstString [stringValue (get params "turnId") ""; nestedTurnID params;
                               th_ActiveTurnID thread] in
    let turnStatus := statusText (firstPayload params ["status"; "turn.status"]) in
    let b := mkEventBase (trim_space (ev_Method event)) event threadID
               (firstString [stringValue (get params "threadTitle") ""; th_Title thread])
               (firstString [stringValue (get params "projectName") ""; th_ProjectName thread])
               turnID turnStatus in
    let bare kind status := event_of b kind status "" "" "" "" "" "" "" "" in
    if String.eqb method "turn/started" then
      keep (nonempty threadID || nonempty turnID)
        (bare EventTurnStarted (firstString [turnStatus; "inProgress"]))
    else if String.eqb method "turn/completed" then
      keep (nonempty threadID || nonempty turnID)
        (bare EventTurnCompleted
           (firstString [turnStatus; statusText (firstPayload params ["turn.status"]); "completed"]))
    else if String.eqb method "thread/status/changed" then
      let status := firstString [turnStatus;
                      statusText (firstPayload params ["thread.status"; "status.type"]); "inProgress"] in
      keep (nonempty threadID || nonempty status) (bare EventThreadStatus status)
    else if existsb (String.eqb method) ["item/started"; "item/updated"; "item/completed"] then
      normalizeItemEvent method params b
    else None.

Definition normalizeServerRequestEvent (event : Event) (thread : Thread) : option NormalizedEvent :=
  let method := trim_space (to_lower (ev_Method event)) in
  let params := ev_Params event in
  let b := mkEventBase (trim_space (ev_Method event)) event
             (firstString [nestedThreadID params; th_ID thread])
             (th_Title thread) (th_ProjectName thread)
             (firstString [stringValue (get params "turnId") ""; nestedTurnID params;
                           th_ActiveTurnID thread]) "" in
  let requestID := rpcString (ev_ID event) in
  let finish kind :=
    keep (nonempty (eb_ThreadID b) || nonempty requestID)
      (event_of b kind "" (stringValue (get params "itemId") "") "" "" "" "" "" "" requestID) in
  if contains method "requestapproval" then finish EventApprovalRequest
  else if contains method "input" || contains method "elicitation" then finish EventInputRequest
  else None.

Definition NormalizeAppServerLiveEvent (event : Event) (thread : Thread) : option NormalizedEvent :=
  if String.eqb (ev_Channel event) "notification" then normalizeNotificationEvent event thread
  else if String.eqb (ev_Channel event) "server_request" then normalizeServerRequestEvent event thread
  else None.

(** *** Tool snapshots *)
Definition is_tool_event (k : EventKind) : bool :=
  match k with EventToolStarted | EventToolUpdated | EventToolCompleted => true | _ => false end.

Definition ToolSnapshotFromLiveEvent (e : NormalizedEvent) (thread : Thread)
  : option ThreadReadSnapshot :=
  if negb (is_tool_event (ne_Kind e)) then None
  else
    let threadID := firstString [ne_ThreadID e; th_ID thread] in
    if empty threadID then None
    else
      let label := trim_space (ne_Label e) in
      let output := ne_Output e in
      if empty label && empty (trim_space output) then None
      else
        let completed := bool_decide (ne_Kind e = EventToolCompleted) in
        let status0 := trim_space (ne_Status e) in
        let status := if empty status0 then (if completed then "completed" else "running")
                      else status0 in
        let turnID := trim_space (ne_TurnID e) in
        let turnStatus := if terminalLatestToolStatus status
                          then firstString [trim_space (ne_TurnStatus e); "inProgress"]
                          else "inProgress" in
        let progressText := if empty label then trim_space output else label in
        let itemKind := firstString [ne_ItemKind e; "tool"] in
        let toolID := firstString [ne_ItemID e; itemKind] in
        let t := mkThread threadID (firstString [th_Title thread; ne_ThreadTitle e; threadID]) ""
                   (firstString [th_ProjectName thread; ne_ProjectName e]) "" 0 "inProgress" ""
                   turnID "" "" false None in
        let snapshot details :=
          mkThreadReadSnapshot t turnID turnStatus "" "" false false [] []
            (fingerprint ["live-progress"; itemKind; toolID; progressText; status; output])
            progressText "" "" "" "" "" toolID itemKind label status output
            (fingerprint ["live-tool"; itemKind; toolID; label; status; output])
            (negb completed && nonempty turnID && negb (terminalLatestToolStatus status))
            "" "" None details in
        Some (snapshot (liveToolDetailItems (snapshot []))).

Definition ToolSnapshotFromLiveNotification (event : Event) (thread : Thread)
  : option ThreadReadSnapshot :=
  match NormalizeAppServerLiveEvent event thread with
  | Some liveEvent => ToolSnapshotFromLiveEvent liveEvent thread
  | None => None
  end.

(** What every classified event satisfies. *)
Definition well_classified (event : Event) (e : NormalizedEvent) : Prop :=
  ne_Kind e <> NoEvent
  /\ ne_Raw e = Some event
  /\ ne_Method e = trim_space (ev_Method event)
  /\ (is_tool_event (ne_Kind e) = true -> ne_Status e <> "").

(** A request of App Server and a running command, for the examples. *)
Definition ex_request : Event :=
  mkEvent "server_request" "item/commandExecution/requestApproval" [("threadId", JStr "thread-a")] (JInt 7).

Definition ex_command : Event :=
  mkEvent "notification" "item/started"
    [("threadId", JStr "thread-a"); ("turnId", JStr "turn-1");
     ("item", JObj [("type", JStr "commandExecution"); ("id", JStr "i1"); ("command", JStr "ls")])] (JInt 0).

(** ** Theorems *)

Lemma keep_some ok e e' : keep ok e = Some e' -> e' = e /\ ok = true.
Proof. unfold keep. destruct ok; naive_solver. Qed.

(** Settles one branch of a classifier. *)
Ltac classified :=
  match goal with
  | H : keep _ _ = Some _ |- _ => apply keep_some in H as [-> _]
  end;
  split_and!; [done|done|done|]; cbn [ne_Kind is_tool_event event_of]; try done.

Lemma firstString_default l d : nonempty (trim_space d) = true -> firstString (l ++ [d]) <> "".
Proof.
  intros Hd. unfold firstString. apply nonempty_true in Hd.
  destruct (first_some _ (l ++ [d])) as [x|] eqn:E; simpl.
  - apply first_some_spec in E as (y & _ & H). destruct (String.eqb_spec (trim_space y) ""); [done|].
    by injection H as <-.
  - apply first_some_none in E. apply Forall_app in E as [_ E]. inversion E as [|? ? H _]; subst.
    destruct (String.eqb_spec (trim_space d) ""); done.
Qed.

Lemma toolLiveEventKind_tool method :
  toolLiveEventKind method <> NoEvent /\ is_tool_event (toolLiveEventKind method) = true.
Proof. unfold toolLiveEventKind. repeat case_match; done. Qed.

Lemma normalizeItemEvent_classified method params event b e :
  eb_Raw b = event -> eb_Method b = trim_space (ev_Method event) ->
  normalizeItemEvent method params b = Some e -> well_classified event e.
Proof.
  intros Hr Hm. unfold normalizeItemEvent. cbv zeta. destruct (is_tool_type _).
  - intros H. apply keep_some in H as [-> _]. destruct (toolLiveEventKind_tool method) as [Hk _].
    split_and!; [done|by subst|done|]. intros _. cbn [ne_Status event_of].
    destruct (empty _) eqn:E; [by destruct (decide _)|]. by apply empty_false in E.
  - destruct (String.eqb _ "agentMessage"); [|done]. intros H. apply keep_some in H as [-> _].
    by split_and!; [|by subst|..].
Qed.

Lemma normalizeLegacyCodexEvent_classified event thread e :
  normalizeLegacyCodexEvent event thread = Some e -> well_classified event e.
Proof.
  unfold normalizeLegacyCodexEvent. cbv zeta. intros H.
  repeat match goal with
  | H : (if ?b then _ else _) = Some _ |- _ => destruct b
  end; try done; classified; intros _; cbn [ne_Status event_of].
  - by apply (firstString_default [_]).
  - by apply (firstString_default [_]).
Qed.

(** Every classified event has a kind, keeps the message it came from, and a tool
    event always says in which state the tool is. *)
Theorem NormalizeAppServerLiveEvent_classified event thread e :
  NormalizeAppServerLiveEvent event thread = Some e -> well_classified event e.
Proof.
  unfold NormalizeAppServerLiveEvent. destruct (String.eqb (ev_Channel event) "notification").
  - unfold normalizeNotificationEvent. cbv zeta. intros H.
    destruct (has_prefix _ _); [by apply normalizeLegacyCodexEvent_classified in H|].
    destruct (String.eqb _ "turn/started"); [by classified|].
    destruct (String.eqb _ "turn/completed"); [by classified|].
    destruct (String.eqb _ "thread/status/changed"); [by classified|].
    destruct (existsb _ _); [|done]. by eapply normalizeItemEvent_classified in H.
  - destruct (String.eqb _ "server_request"); [|done].
    unfold normalizeServerRequestEvent. cbv zeta. intros H.
    repeat match goal with
    | H : (if ?b then _ else _) = Some _ |- _ => destruct b
    end; try done; by classified.
Qed.

Theorem NormalizeAppServerLiveEvent_classified_witness :
  exists e, NormalizeAppServerLiveEvent ex_command zeroThread = Some e /\ ne_Kind e = EventToolStarted
    /\ ne_Status e <> "".
Proof.
  destruct (NormalizeAppServerLiveEvent ex_command zeroThread) as [e|] eqn:E; [|vm_compute in E; discriminate].
  destruct (NormalizeAppServerLiveEvent_classified ex_command zeroThread e E) as (_ & _ & _ & H).
  assert (ne_Kind e = EventToolStarted) as Hk by (vm_compute in E; injection E as <-; reflexivity).
  exists e. split; [reflexivity|]. split; [exact Hk|]. apply H. rewrite Hk. reflexivity.
Defined.

(** Whatever App Server asks for reaches the user at once: a server request that
    is classified is urgent. *)
Theorem server_request_urgent event thread e :
  ev_Channel event = "server_request" ->
  NormalizeAppServerLiveEvent event thread = Some e ->
  DefaultNotificationSeverity e = NotificationUrgent
  /\ (ne_ThreadID e <> "" \/ ne_RequestID e <> "").
Proof.
  unfold NormalizeAppServerLiveEvent. intros ->.
  change (String.eqb "server_request" "notification") with false.
  change (String.eqb "server_request" "server_request") with true.
  unfold normalizeServerRequestEvent. cbv zeta. intros H.
  repeat match goal with
  | H : (if ?b then _ else _) = Some _ |- _ => destruct b
  end; try done; apply keep_some in H as [-> Hk]; (split; [done|]);
    apply orb_true_iff in Hk as [Hk|Hk]; apply nonempty_true in Hk; auto.
Qed.

Theorem server_request_urgent_witness :
  exists e, NormalizeAppServerLiveEvent ex_request zeroThread = Some e
    /\ DefaultNotificationSeverity e = NotificationUrgent.
Proof.
  destruct (NormalizeAppServerLiveEvent ex_request zeroThread) as [e|] eqn:E; [|vm_compute in E; discriminate].
  exists e. split; [reflexivity|]. exact (proj1 (server_request_urgent ex_request zeroThread e eq_refl E)).
Defined.

(** A tool shown as running belongs to an active turn and has not ended; the
    snapshot always names its thread and shows the tool. *)
Theorem ToolSnapshotFromLiveEvent_spec e thread s :
  ToolSnapshotFromLiveEvent e thread = Some s ->
  th_ID (sn_Thread s) <> "" /\ sn_DetailItems s <> []
  /\ th_ActiveTurnID (sn_Thread s) = sn_LatestTurnID s
  /\ sn_LatestToolStatus s <> ""
  /\ (sn_LatestToolLiveCurrent s = true <->
      ne_Kind e <> EventToolCompleted /\ sn_LatestTurnID s <> ""
      /\ terminalLatestToolStatus (sn_LatestToolStatus s) = false)
  /\ (sn_LatestToolLiveCurrent s = true -> sn_LatestTurnStatus s = "inProgress").
Proof.
  unfold ToolSnapshotFromLiveEvent. cbv zeta. destruct (is_tool_event (ne_Kind e)); [|done].
  cbn [negb]. destruct (empty (firstString _)) eqn:Hid; [done|]. apply empty_false in Hid.
  destruct (empty _ && empty _); [done|].
  set (status := if empty (trim_space (ne_Status e)) then _ else _).
  assert (Hst : status <> "").
  { unfold status. destruct (empty _) eqn:E; [by case_match|by apply empty_false in E]. }
  clearbody status. intros H. apply (inj Some) in H as <-.
  cbn [sn_Thread th_ID sn_DetailItems th_ActiveTurnID sn_LatestTurnID sn_LatestToolStatus
       sn_LatestToolLiveCurrent sn_LatestTurnStatus].
  split_and!; [done| |done|done| |].
  - unfold liveToolDetailItems. cbn [sn_LatestToolFP]. rewrite trim_fingerprint.
    destruct (empty (fingerprint _)) eqn:E; [|done].
    apply empty_true in E. by apply fingerprint_nonempty in E.
  - rewrite !andb_true_iff, !negb_true_iff, bool_decide_eq_false, nonempty_true. naive_solver.
  - rewrite !andb_true_iff, negb_true_iff. by intros [_ Ht%negb_true_iff]; rewrite Ht.
Qed.

Theorem ToolSnapshotFromLiveEvent_spec_witness :
  exists e s, NormalizeAppServerLiveEvent ex_command zeroThread = Some e
    /\ ToolSnapshotFromLiveEvent e zeroThread = Some s /\ sn_LatestToolLiveCurrent s = true
    /\ sn_LatestTurnStatus s = "inProgress".
Proof.
  destruct (NormalizeAppServerLiveEvent ex_command zeroThread) as [e|] eqn:E; [|vm_compute in E; discriminate].
  destruct (ToolSnapshotFromLiveEvent e zeroThread) as [s|] eqn:S;
    [|vm_compute in E; injection E as <-; vm_compute in S; discriminate].
  destruct (ToolSnapshotFromLiveEvent_spec e zeroThread s S) as (_ & _ & _ & _ & _ & H).
  assert (sn_LatestToolLiveCurrent s = true) as Hl
    by (vm_compute in E; injection E as <-; vm_compute in S; injection S as <-; reflexivity).
  exists e, s. split; [reflexivity|]. split; [exact S|]. split; [exact Hl|exact (H Hl)].
Defined.
