(* ===== verification/NotifierFormat.v ===== *)
(** * internal/daemon/notifier_format.go: the completion message

    The message names the folder and the title of the thread and shows the first
    paragraph of the final answer, without Markdown, in at most 300 runes. *)
From stdpp Require Import base list numbers strings.
From Stdlib Require Import Lia Ascii.
From S2P Require Import Prelude GoStrings Utf8 Json Model Control Normalize.

(** *** minimal_observer.go and terminal_gate.go: the status of a turn *)
Definition canonicalMinimalTerminalStatus (status : string) : string :=
  let normalized := to_lower (trim_space status) in
  if String.eqb normalized "canceled" || String.eqb normalized "cancelled" then "interrupted"
  else normalized.

Definition snapshotHasFinalSignal (snapshot : ThreadReadSnapshot) : bool :=
  nonempty (trim_space (sn_LatestFinalText snapshot))
  || nonempty (trim_space (sn_LatestFinalFP snapshot))
  || existsb (fun entry =>
       equal_fold (trim_space (am_Phase entry)) "final_answer"
       && (nonempty (trim_space (am_Text entry)) || nonempty (trim_space (am_FP entry))))
       (sn_LatestAgentMessageEntries snapshot)
  || existsb (fun item =>
       String.eqb (trim_space (di_Kind item)) DetailItemFinal
       && (nonempty (trim_space (di_Text item)) || nonempty (trim_space (di_Label item))
           || nonempty (trim_space (di_Output item)) || nonempty (trim_space (di_FP item))))
       (sn_DetailItems snapshot).

(** *** Cleaning text *)
Definition notifierSummaryRuneLimit : nat := 300.

Definition cleanNotifierField (field : string) : string := join " " (fields (trim_space field)).

(** unicode.IsSpace(rune(b)) for a byte b, which is a Latin-1 rune. *)
Definition byte_space (b : ascii) : bool := space1 b || code_is b 133 || code_is b 160.

(** The number of leading bytes on which [p] holds. *)
Fixpoint count_while (p : ascii -> bool) (s : string) : nat :=
  match s with
  | String a r => if p a then S (count_while p r) else O
  | EmptyString => O
  end.

Definition trimNotifierHeadingMarker (line : string) : string :=
  let i := count_while (fun b => Ascii.eqb b "#") line in
  if (i =? 0)%nat then line
  else match str_drop i line with
       | String b rest => if byte_space b then trim_space rest else line
       | EmptyString => line
       end.

(** The digits, dot and white space of a numbered list item. *)
Definition trimNotifierNumber (line : string) : string :=
  let i := count_while (fun b => code_in b 48 57) line in
  if (i =? 0)%nat then line
  else match str_drop i line with
       | String dot (String b rest) =>
           if Ascii.eqb dot "." && byte_space b then trim_space rest else line
       | _ => line
       end.

Definition trimNotifierListMarker (line : string) : string :=
  match line with
  | String a (String b rest) =>
      if (Ascii.eqb a "-" || Ascii.eqb a "+" || Ascii.eqb a "*") && byte_space b
      then trim_space rest else trimNotifierNumber line
  | _ => trimNotifierNumber line
  end.

(** One turn of the loop of cleanNotifierMarkdownLine. *)
Definition stripMarkers (line : string) : string :=
  trimNotifierListMarker (trimNotifierHeadingMarker (trim_space (trim_left_byte ">" line))).

(** The loop.  Every turn but the last shortens the line, so its length is
    enough fuel; see [stripLoop_done]. *)
Fixpoint stripLoop (fuel : nat) (line : string) : string :=
  match fuel with
  | O => line
  | S k =>
      if String.eqb line "" then line
      else
        let next := stripMarkers line in
        if String.eqb next line then next else stripLoop k next
  end.

Definition cleanNotifierMarkdownLine (line0 : string) : string :=
  let line := trim_space line0 in
  let stripped := stripLoop (String.length line) line in
  cleanNotifierField
    (replacer [("**", ""); ("__", ""); ("`", ""); ("*", ""); ("_", "")] stripped 0).

Definition is_fence (trimmed : string) : bool :=
  has_prefix trimmed "```" || has_prefix trimmed "~~~".

(** The loop of firstNotifierParagraph over the lines. *)
Fixpoint paragraphLoop (lines : list string) (inFence : bool) (paragraph : list string)
  : list string :=
  match lines with
  | [] => paragraph
  | line :: rest =>
      let trimmed := trim_space line in
      if is_fence trimmed then paragraphLoop rest (negb inFence) paragraph
      else if inFence then paragraphLoop rest inFence paragraph
      else
        let cleaned := cleanNotifierMarkdownLine trimmed in
        if empty cleaned then
          match paragraph with
          | [] => paragraphLoop rest inFence paragraph
          | _ => paragraph
          end
        else paragraphLoop rest inFence (paragraph ++ [cleaned])
  end.

Definition firstNotifierParagraph (text : string) : string :=
  let lines := split_byte "010" (replace_all text (str2 "013" "010") newline) in
  cleanNotifierField (join " " (paragraphLoop lines false [])).

(** '.', '!', '?', and the CJK full stop, exclamation, question marks, ellipsis *)
Definition isNotifierSentenceEndingRune (r : N) : bool :=
  existsb (N.eqb r) [46; 33; 63; 12290; 65281; 65311; 8230]%N.

(** The end of the last sentence among the runes i, i+1, ..., no earlier than 120. *)
Fixpoint sentenceEndFrom (i : nat) (l : list N) (found : option nat) : option nat :=
  match l with
  | [] => found
  | r :: rest =>
      sentenceEndFrom (S i) rest
        (if (120 <=? i)%nat && isNotifierSentenceEndingRune r then Some (S i) else found)
  end.

Definition ellipsis : N := 8230.

Definition truncateNotifierRunes (text : string) (limit : nat) : string :=
  let rs := runes text in
  if (limit =? 0)%nat || (length rs <=? limit)%nat then text
  else
    let cutoff := (limit - 1)%nat in
    match sentenceEndFrom 0 (take cutoff rs) None with
    | Some sentenceEnd => string_of_runes (take sentenceEnd rs) +:+ encode_rune ellipsis
    | None => string_of_runes (take cutoff rs) +:+ encode_rune ellipsis
    end.

Definition notifierSummary (text : string) : string :=
  let paragraph := firstNotifierParagraph text in
  if empty paragraph then "" else truncateNotifierRunes paragraph notifierSummaryRuneLimit.

(** *** The message *)
Definition notifierTerminalLines (snapshot : ThreadReadSnapshot) : list string :=
  let status := canonicalMinimalTerminalStatus (sn_LatestTurnStatus snapshot) in
  let bad := String.eqb status "failed" || String.eqb status "interrupted" in
  let header := if bad then "❌ 작업 실패" else "✅ 작업 완료" in
  let folder := cleanNotifierField (snd (ProjectNameFromCWD (th_CWD (sn_Thread snapshot)))) in
  let title := cleanNotifierField (th_Title (sn_Thread snapshot)) in
  let about :=
    (if nonempty folder then ["폴더: " +:+ folder] else [])
    ++ (if nonempty title && negb (String.eqb title (th_ID (sn_Thread snapshot)))
        then ["대화: " +:+ title] else []) in
  let body :=
    if bad then "내용: 작업이 실패하거나 중단되었습니다."
    else
      let summary := notifierSummary (sn_LatestFinalText snapshot) in
      if nonempty summary then "요약: " +:+ summary else "작업이 완료되었습니다." in
  [header; ""] ++ about ++ (match about with [] => [] | _ => [""] end) ++ [body].

Definition renderNotifierTerminal (snapshot : ThreadReadSnapshot) : RenderedMessage :=
  mkRendered (join newline (notifierTerminalLines snapshot)) [].

(** A step that shortens a line or leaves it alone. *)
Definition shrinks (f : string -> string) : Prop :=
  forall s, f s = s \/ (String.length (f s) < String.length s)%nat.

(** ** Theorems *)

(** *** The marker loop *)
Lemma trim_left_byte_length c s : (String.length (trim_left_byte c s) <= String.length s)%nat.
Proof. induction s as [|a s IH]; [done|]. cbn [trim_left_byte]. destruct (Ascii.eqb a c); cbn [String.length]; lia. Qed.

Lemma flatten_length_suffix p l q :
  (String.length (flatten l) <= String.length (flatten (p ++ l ++ q)))%nat.
Proof.
  assert (forall x y, flatten (x ++ y) = flatten x +:+ flatten y) as E.
  { intros x y. induction x as [|u x IH]; [done|]. cbn [flatten app]. by rewrite IH, str_app_assoc. }
  rewrite !E, !str_length_app. lia.
Qed.

Lemma trim_space_length s : (String.length (trim_space s) <= String.length s)%nat.
Proof.
  destruct (trim_chunks_infix (chunks s)) as (p & q & E). unfold trim_space.
  rewrite <- (flatten_chunks s) at 2. rewrite E at 2. apply flatten_length_suffix.
Qed.

Lemma length_zero s : String.length s = O -> s = "".
Proof. by destruct s. Qed.

Lemma shrinks_trim_space : shrinks trim_space.
Proof.
  intros s. destruct (trim_chunks_infix (chunks s)) as (p & q & E).
  assert (Happ : forall x y, flatten (x ++ y) = flatten x +:+ flatten y).
  { intros x y. induction x as [|u x IH]; [done|]. cbn [flatten app]. by rewrite IH, str_app_assoc. }
  assert (Hs : s = flatten p +:+ trim_space s +:+ flatten q).
  { rewrite <- (flatten_chunks s) at 1. unfold trim_space. by rewrite E at 1; rewrite !Happ. }
  destruct (decide (String.length (flatten p) = O /\ String.length (flatten q) = O)) as [[Hp Hq]|Hn].
  - left. apply length_zero in Hp, Hq. rewrite Hp, Hq, str_app_nil_r in Hs. by symmetry.
  - right. apply (f_equal String.length) in Hs. rewrite !str_length_app in Hs. lia.
Qed.

Lemma shrinks_trim_left c : shrinks (trim_left_byte c).
Proof.
  intros s. destruct s as [|a s]; [by left|]. cbn [trim_left_byte].
  destruct (Ascii.eqb a c); [|by left]. right. pose proof (trim_left_byte_length c s). simpl. lia.
Qed.

Lemma shrinks_compose f g : shrinks f -> shrinks g -> shrinks (fun s => f (g s)).
Proof.
  intros Hf Hg s. destruct (Hg s) as [E|L]; [rewrite E; apply Hf|].
  right. destruct (Hf (g s)) as [E|L2]; [by rewrite E|lia].
Qed.

Lemma str_drop_length n s : (String.length (str_drop n s) <= String.length s)%nat.
Proof. revert s. induction n as [|n IH]; intros [|a s]; cbn [str_drop String.length]; try lia. specialize (IH s). lia. Qed.

Lemma trim_rest_shorter s rest n :
  (S (String.length rest) <= String.length (str_drop n s))%nat ->
  (String.length (trim_space rest) < String.length s)%nat.
Proof. intros H. pose proof (str_drop_length n s). pose proof (trim_space_length rest). lia. Qed.

Lemma shrinks_heading : shrinks trimNotifierHeadingMarker.
Proof.
  intros s. unfold trimNotifierHeadingMarker. destruct (_ =? 0)%nat; [by left|].
  destruct (str_drop _ s) as [|b rest] eqn:E; [by left|]. destruct (byte_space b); [|by left].
  right. eapply trim_rest_shorter. by rewrite E.
Qed.

Lemma shrinks_list : shrinks trimNotifierListMarker.
Proof.
  assert (Hn : shrinks trimNotifierNumber).
  { intros s. unfold trimNotifierNumber. destruct (_ =? 0)%nat; [by left|].
    destruct (str_drop _ s) as [|dot [|b rest]] eqn:E; try by left.
    destruct (_ && _); [|by left]. right. eapply trim_rest_shorter. rewrite E. simpl. lia. }
  intros s. unfold trimNotifierListMarker. destruct s as [|a [|b rest]]; [apply Hn|apply Hn|].
  destruct (_ && _); [|apply Hn]. right. pose proof (trim_space_length rest). simpl. lia.
Qed.

Lemma shrinks_markers : shrinks stripMarkers.
Proof.
  exact (shrinks_compose _ _ shrinks_list (shrinks_compose _ _ shrinks_heading
           (shrinks_compose _ _ shrinks_trim_space (shrinks_trim_left ">")))).
Qed.

(** The loop of cleanNotifierMarkdownLine ends, on a line without markers. *)
Theorem stripLoop_done line :
  let r := stripLoop (String.length line) line in r = "" \/ stripMarkers r = r.
Proof.
  enough (H : forall fuel line, (String.length line <= fuel)%nat ->
            stripLoop fuel line = "" \/ stripMarkers (stripLoop fuel line) = stripLoop fuel line)
    by (apply H; lia).
  clear line. induction fuel as [|k IH]; intros line Hk; cbn [stripLoop].
  - left. apply length_zero. lia.
  - destruct (String.eqb_spec line ""); [by left|]. cbv zeta.
    destruct (String.eqb_spec (stripMarkers line) line) as [E|E]; [right; by rewrite !E|].
    apply IH. destruct (shrinks_markers line); [done|lia].
Qed.

(** *** The summary *)
Lemma sentenceEndFrom_bound i l found n :
  sentenceEndFrom i l found = Some n ->
  found = Some n \/ ((120 < n)%nat /\ (n <= i + length l)%nat).
Proof.
  revert i found. induction l as [|r l IH]; intros i found; cbn [sentenceEndFrom]; [by left|].
  intros H. apply IH in H as [H|H]; [|right; simpl; lia].
  destruct (120 <=? i)%nat eqn:E; cbn [andb] in H; [|by left].
  apply Nat.leb_le in E. destruct (isNotifierSentenceEndingRune r); [|by left].
  injection H as <-. right. simpl. lia.
Qed.

(** The runes of a truncated text: a cut of the text and, when it was cut, an ellipsis. *)
Lemma truncate_runes text limit :
  (0 < limit)%nat ->
  exists k, truncateNotifierRunes text limit = text /\ (length (runes text) <= limit)%nat
  \/ (truncateNotifierRunes text limit = string_of_runes (take k (runes text) ++ [ellipsis])
      /\ (k < limit)%nat /\ (limit < length (runes text))%nat).
Proof.
  intros Hl. unfold truncateNotifierRunes. destruct (Nat.eqb_spec limit 0); [lia|]. cbn [orb].
  destruct (Nat.leb_spec (length (runes text)) limit) as [H|H]; [by exists O; left|].
  assert (Hs : forall k, string_of_runes (take k (runes text)) +:+ encode_rune ellipsis
                         = string_of_runes (take k (runes text) ++ [ellipsis])).
  { intros k. by rewrite string_of_runes_app. }
  destruct (sentenceEndFrom _ _ _) as [k|] eqn:E; eexists; right; (split; [apply Hs|]); [|lia].
  apply sentenceEndFrom_bound in E as [E|E]; [done|]. rewrite length_take in E. lia.
Qed.

Lemma truncate_valid text k : Forall (fun r => valid_rune r = true) (take k (runes text) ++ [ellipsis]).
Proof. apply Forall_app. split; [apply Forall_take, runes_valid|by repeat constructor]. Qed.

(** A summary has at most 300 runes. *)
Theorem notifierSummary_bounded text :
  (rune_count (notifierSummary text) <= notifierSummaryRuneLimit)%nat.
Proof.
  unfold notifierSummary, rune_count. destruct (empty _); [cbn; lia|].
  destruct (truncate_runes (firstNotifierParagraph text) notifierSummaryRuneLimit) as [k [[-> H]|(-> & Hk & _)]];
    [unfold notifierSummaryRuneLimit; lia|done|].
  rewrite runes_string_of_runes by apply truncate_valid. rewrite length_app, length_take. simpl. lia.
Qed.

Lemma cleanNotifierField_no_newline f : has_byte "010" (cleanNotifierField f) = false.
Proof. by apply join_fields_no_byte. Qed.

(** Cutting a text brings in no ASCII byte it did not have. *)
Lemma truncate_no_byte c text limit :
  (code c < 128)%N -> (0 < limit)%nat -> has_byte c text = false ->
  has_byte c (truncateNotifierRunes text limit) = false.
Proof.
  intros Hc Hl H. destruct (truncate_runes text limit Hl) as [k [[-> _]|(-> & _)]]; [done|].
  rewrite has_byte_runes by (done || apply truncate_valid). apply not_true_iff_false.
  rewrite existsb_exists. intros (r & Hr & E). apply N.eqb_eq in E.
  apply list_elem_of_In, elem_of_app in Hr as [Hr|Hr].
  - pose proof (runes_ascii c text Hc H) as Hf. rewrite Forall_forall in Hf.
    apply elem_of_take in Hr as (i & Hr & _). apply list_elem_of_lookup_2 in Hr. by apply Hf in Hr.
  - apply list_elem_of_singleton in Hr. subst r. unfold ellipsis in E. lia.
Qed.

(** A summary is one line. *)
Theorem notifierSummary_one_line text : has_byte "010" (notifierSummary text) = false.
Proof.
  unfold notifierSummary. destruct (empty _); [done|].
  apply truncate_no_byte; [done|unfold notifierSummaryRuneLimit; lia|apply cleanNotifierField_no_newline].
Qed.

(** *** The message *)

(** Cleaning a field brings in no byte but the space. *)
Lemma cleanNotifierField_byte c f :
  Ascii.eqb " " c = false -> has_byte c f = false -> has_byte c (cleanNotifierField f) = false.
Proof.
  intros Hc H. unfold cleanNotifierField. apply has_byte_join; [cbn [has_byte]; by rewrite Hc|].
  eapply Forall_impl; [apply (fields_of_byte c)|by intros w [? _]]; [|done].
  intros b Hb. apply has_byte_trim_space in H. rewrite <- (flatten_chunks (trim_space f)), has_byte_flatten in H.
  apply not_true_iff_false in H. apply not_true_iff_false. intros E. apply H.
  apply existsb_exists. exists (Byte b). split; [by apply list_elem_of_In|].
  cbn [chunk_bytes has_byte]. by rewrite E.
Qed.

(** The message has at most six lines, none of them broken, and the line that
    names the folder shows no path. *)
Theorem notifierTerminalLines_spec s :
  (length (notifierTerminalLines s) <= 6)%nat
  /\ Forall (fun line => has_byte "010" line = false) (notifierTerminalLines s)
  /\ (forall line, line ∈ notifierTerminalLines s -> has_prefix line "폴더: " = true ->
        has_byte "/" line = false /\ has_byte "\" line = false).
Proof.
  unfold notifierTerminalLines. cbv zeta.
  set (bad := _ || _). clearbody bad.
  set (folder := cleanNotifierField (snd _)).
  assert (Hf : has_byte "/" folder = false /\ has_byte "\" folder = false /\ has_byte "010" folder = false).
  { destruct (directory_name_bare (th_CWD (sn_Thread s))) as [H1 H2].
    split_and!; [by apply cleanNotifierField_byte..|apply cleanNotifierField_no_newline]. }
  clearbody folder. destruct Hf as (Hf1 & Hf2 & Hf3).
  pose proof (cleanNotifierField_no_newline (th_Title (sn_Thread s))) as Ht.
  set (title := cleanNotifierField _) in *. clearbody title.
  pose proof (notifierSummary_one_line (sn_LatestFinalText s)) as Hs.
  set (summary := notifierSummary _) in *. clearbody summary.
  set (showTitle := nonempty title && _). clearbody showTitle.
  assert (Hbody : forall (line : string),
    line = (if bad then "내용: 작업이 실패하거나 중단되었습니다."
            else if nonempty summary then "요약: " +:+ summary else "작업이 완료되었습니다.") ->
    has_byte "010" line = false /\ has_prefix line "폴더: " = false).
  { intros line ->. destruct bad; [done|]. destruct (nonempty summary); [|done].
    split; [by rewrite has_byte_app, Hs|done]. }
  set (body := if bad then _ else _) in *. clearbody body.
  destruct (Hbody body eq_refl) as [Hb1 Hb2]. clear Hbody.
  assert (Hh : forall (line : string), line = (if bad then "❌ 작업 실패" else "✅ 작업 완료") ->
    has_byte "010" line = false /\ has_prefix line "폴더: " = false) by (intros line ->; by destruct bad).
  set (header := if bad then _ else _) in *. clearbody header.
  destruct (Hh header eq_refl) as [Hh1 Hh2]. clear Hh.
  assert (Hfl : has_byte "010" ("폴더: " +:+ folder) = false) by (by rewrite has_byte_app, Hf3).
  assert (Htl : has_byte "010" ("대화: " +:+ title) = false) by (by rewrite has_byte_app, Ht).
  split_and!.
  - destruct (nonempty folder), showTitle; simpl; lia.
  - destruct (nonempty folder), showTitle; repeat constructor; assumption.
  - intros line Hin Hp.
    assert (line = "폴더: " +:+ folder) as ->; [|by rewrite !has_byte_app, Hf1, Hf2].
    assert (Htp : has_prefix ("대화: " +:+ title) "폴더: " = false) by reflexivity.
    assert (Hep : has_prefix "" "폴더: " = false) by reflexivity.
    destruct (nonempty folder), showTitle; cbn [app] in Hin;
      repeat (apply elem_of_cons in Hin as [->|Hin]; [congruence || done|]);
      by apply elem_of_nil in Hin.
Qed.

(** A turn that failed or was interrupted shows nothing of what it wrote. *)
Theorem notifierTerminalLines_failed s s' :
  canonicalMinimalTerminalStatus (sn_LatestTurnStatus s) = "failed"
  \/ canonicalMinimalTerminalStatus (sn_LatestTurnStatus s) = "interrupted" ->
  sn_Thread s = sn_Thread s' -> sn_LatestTurnStatus s = sn_LatestTurnStatus s' ->
  renderNotifierTerminal s = renderNotifierTerminal s'.
Proof.
  intros H Ht Hs. unfold renderNotifierTerminal, notifierTerminalLines. cbv zeta.
  rewrite <- Ht, <- Hs. destruct H as [->| ->]; reflexivity.
Qed.

(** A status reads the same however often it is read. *)
Lemma canonical_terminal_cases status :
  canonicalMinimalTerminalStatus status = "interrupted"
  \/ canonicalMinimalTerminalStatus status = to_lower (trim_space status).
Proof. unfold canonicalMinimalTerminalStatus. destruct (_ || _); auto. Qed.
