(* ===== verification/MinimalTables.v ===== *)
(** * The tables of internal/storage/store_minimal.go, but for the linked threads

    Rows of the minimal profile: continuations, pending commands, voice
    confirmations, picker routes, observations, selected projects.  A column that may
    be NULL is an [option]. *)
From stdpp Require Import base list numbers strings gmap.
From S2P Require Import Prelude Model.

(** pending_commands *)
Record PendingRow : Type := mkPendingRow {
  pc_ID : Z;
  pc_ThreadID : string;
  pc_SourceThreadID : string;
  pc_SourceTurnID : string;
  pc_ProjectID : string;
  pc_ChatID : Z;
  pc_TopicID : Z;
  pc_Payload : option string;
  pc_Status : string;
  pc_CreatedAt : TimeString }.

(** minimal_thread_continuations *)
Record ContinuationRow : Type := mkContinuationRow {
  ct_ChatKey : string;
  ct_ChatID : Z;
  ct_TopicID : Z;
  ct_ProjectID : string;
  ct_SourceThreadID : string;
  ct_SourceTurnID : string;
  ct_ForkThreadID : option string;
  ct_Status : string;
  ct_FailureKind : option string;
  ct_CreatedAt : TimeString;
  ct_UpdatedAt : TimeString }.

(** voice_confirmations *)
Record VoiceRow : Type := mkVoiceRow {
  vc_ID : Z;
  vc_ProjectID : string;
  vc_TargetKind : string;
  vc_ThreadID : option string;
  vc_SourceTurnID : string;
  vc_Transcript : option string;
  vc_SessionIdentity : string;
  vc_Status : string;
  vc_ExpiresAt : TimeString;
  vc_ChatID : Z;
  vc_TopicID : Z;
  vc_MessageID : Z;
  vc_CreatedAt : TimeString }.

(** voice_callback_routes *)
Record VoiceCallbackRoute : Type := mkVoiceRoute {
  vr_Token : string;
  vr_VoiceID : Z;
  vr_Action : string;
  vr_Status : string;
  vr_ChatID : Z;
  vr_TopicID : Z;
  vr_MessageID : Z;
  vr_CreatedAt : TimeString }.

(** minimal_picker_routes *)
Record PickerRow : Type := mkPickerRow {
  pk_Token : string;
  pk_Action : string;
  pk_ProjectID : string;
  pk_ThreadID : option string;
  pk_Page : Z;
  pk_ChatID : Z;
  pk_TopicID : Z;
  pk_Status : string;
  pk_ExpiresAt : TimeString;
  pk_CreatedAt : TimeString }.

(** minimal_thread_observations; the thread id is the key of the table. *)
Record MinimalObservation : Type := mkMinimalObservation {
  mo_ProjectID : string;
  mo_LastUpdatedAt : Z;
  mo_LastTurnID : option string;
  mo_LastTurnStatus : option string;
  mo_BaselineReady : bool;
  mo_ReadRequired : bool;
  mo_Retired : bool;
  mo_DiscoverySeq : Z;
  mo_UpdatedAt : TimeString }.

(** The sequences are those of AUTOINCREMENT. *)
Record MinimalTables : Type := mkMinimalTables {
  mt_pending : list PendingRow;
  mt_pendingSeq : Z;
  mt_continuations : list ContinuationRow;
  mt_voice : list VoiceRow;
  mt_voiceSeq : Z;
  mt_voiceRoutes : list VoiceCallbackRoute;
  mt_picker : list PickerRow;
  mt_observations : gmap string MinimalObservation;
  mt_selected : gmap string (string * TimeString) }.

Definition emptyMinimal : MinimalTables := mkMinimalTables [] 0 [] [] 0 [] [] ∅ ∅.

Definition set_mt_pending (v : list PendingRow) (m : MinimalTables) : MinimalTables :=
  mkMinimalTables v (mt_pendingSeq m) (mt_continuations m) (mt_voice m) (mt_voiceSeq m)
    (mt_voiceRoutes m) (mt_picker m) (mt_observations m) (mt_selected m).
Definition set_mt_pendingSeq (v : Z) (m : MinimalTables) : MinimalTables :=
  mkMinimalTables (mt_pending m) v (mt_continuations m) (mt_voice m) (mt_voiceSeq m)
    (mt_voiceRoutes m) (mt_picker m) (mt_observations m) (mt_selected m).
Definition set_mt_continuations (v : list ContinuationRow) (m : MinimalTables) : MinimalTables :=
  mkMinimalTables (mt_pending m) (mt_pendingSeq m) v (mt_voice m) (mt_voiceSeq m)
    (mt_voiceRoutes m) (mt_picker m) (mt_observations m) (mt_selected m).
Definition set_mt_voice (v : list VoiceRow) (m : MinimalTables) : MinimalTables :=
  mkMinimalTables (mt_pending m) (mt_pendingSeq m) (mt_continuations m) v (mt_voiceSeq m)
    (mt_voiceRoutes m) (mt_picker m) (mt_observations m) (mt_selected m).
Definition set_mt_voiceSeq (v : Z) (m : MinimalTables) : MinimalTables :=
  mkMinimalTables (mt_pending m) (mt_pendingSeq m) (mt_continuations m) (mt_voice m) v
    (mt_voiceRoutes m) (mt_picker m) (mt_observations m) (mt_selected m).
Definition set_mt_voiceRoutes (v : list VoiceCallbackRoute) (m : MinimalTables) : MinimalTables :=
  mkMinimalTables (mt_pending m) (mt_pendingSeq m) (mt_continuations m) (mt_voice m) (mt_voiceSeq m)
    v (mt_picker m) (mt_observations m) (mt_selected m).
Definition set_mt_picker (v : list PickerRow) (m : MinimalTables) : MinimalTables :=
  mkMinimalTables (mt_pending m) (mt_pendingSeq m) (mt_continuations m) (mt_voice m) (mt_voiceSeq m)
    (mt_voiceRoutes m) v (mt_observations m) (mt_selected m).
Definition set_mt_observations (v : gmap string MinimalObservation) (m : MinimalTables) : MinimalTables :=
  mkMinimalTables (mt_pending m) (mt_pendingSeq m) (mt_continuations m) (mt_voice m) (mt_voiceSeq m)
    (mt_voiceRoutes m) (mt_picker m) v (mt_selected m).
Definition set_mt_selected (v : gmap string (string * TimeString)) (m : MinimalTables) : MinimalTables :=
  mkMinimalTables (mt_pending m) (mt_pendingSeq m) (mt_continuations m) (mt_voice m) (mt_voiceSeq m)
    (mt_voiceRoutes m) (mt_picker m) (mt_observations m) v.
