(* ===== verification/CoreTables.v ===== *)
(** * The other tables of internal/storage: threads, bindings, panels, approvals

    Rows of the tables of store.go and store_panels.go that the delivery queue does
    not use.  A column that may be NULL and is read with coalesce is an [option]. *)
From stdpp Require Import base list numbers strings gmap.
From S2P Require Import Prelude Json Model Normalize.

(** thread_bindings *)
Record ThreadBinding : Type := mkThreadBinding {
  tb_ChatKey : string;
  tb_ChatID : Z;
  tb_TopicID : Z;
  tb_ThreadID : string;
  tb_Mode : string;
  tb_CreatedAt : TimeString;
  tb_UpdatedAt : TimeString }.

(** threads: the row of a [Thread]; [None] is NULL. *)
Record ThreadRow : Type := mkThreadRow {
  tr_Title : string;
  tr_CWD : option string;
  tr_ProjectName : string;
  tr_DirectoryName : option string;
  tr_UpdatedAt : Z;
  tr_Status : option string;
  tr_LastPreview : option string;
  tr_ActiveTurnID : option string;
  tr_PreferredModel : option string;
  tr_PermissionsMode : option string;
  tr_Archived : bool;
  tr_Raw : any }.

(** callback_routes *)
Record CallbackRow : Type := mkCallbackRow {
  cb_Action : string;
  cb_ThreadID : string;
  cb_TurnID : option string;
  cb_RequestID : option string;
  cb_SessionIdentity : string;
  cb_TelegramMessageID : Z;
  cb_Status : string;
  cb_ExpiresAt : option string;
  cb_Payload : string;
  cb_CreatedAt : TimeString }.

(** pending_approvals *)
Record PendingApprovalRow : Type := mkPendingApprovalRow {
  pr_RequestID : string;
  pr_WireRequestID : string;
  pr_ThreadID : string;
  pr_TurnID : option string;
  pr_ItemID : option string;
  pr_PromptKind : string;
  pr_RequestKind : string;
  pr_Question : option string;
  pr_SessionIdentity : string;
  pr_Status : string;
  pr_TelegramMessageID : Z;
  pr_Payload : string;
  pr_UpdatedAt : TimeString }.

(** minimal_approvals *)
Record MinimalApprovalRow : Type := mkMinimalApprovalRow {
  ma_RequestID : string;
  ma_WireRequestID : string;
  ma_ThreadID : string;
  ma_TurnID : string;
  ma_RequestKind : string;
  ma_ProjectName : string;
  ma_SessionIdentity : string;
  ma_SupersedeEventID : string;
  ma_Status : string;
  ma_ClaimState : string;
  ma_ClaimAction : option string;
  ma_ChatID : Z;
  ma_TopicID : Z;
  ma_TelegramMessageID : Z;
  ma_DeliveryQueueID : Z;
  ma_UpdatedAt : TimeString }.

(** minimal_approval_routes *)
Record ApprovalRouteRow : Type := mkApprovalRouteRow {
  ar_Token : string;
  ar_Action : string;
  ar_RequestID : string;
  ar_ThreadID : string;
  ar_TurnID : string;
  ar_RequestKind : string;
  ar_Status : string;
  ar_ChatID : Z;
  ar_TopicID : Z;
  ar_TelegramMessageID : Z;
  ar_CreatedAt : TimeString }.

(** thread_panels *)
Record PanelRow : Type := mkPanelRow {
  pn_ID : Z;
  pn_ChatID : Z;
  pn_TopicID : Z;
  pn_ProjectName : string;
  pn_ThreadID : string;
  pn_SourceMode : string;
  pn_SummaryMessageID : Z;
  pn_ToolMessageID : Z;
  pn_OutputMessageID : Z;
  pn_CurrentTurnID : option string;
  pn_Status : option string;
  pn_ArchiveEnabled : bool;
  pn_LastSummaryHash : option string;
  pn_LastToolHash : option string;
  pn_LastOutputHash : option string;
  pn_LastFinalNoticeFP : option string;
  pn_RunNoticeMessageID : Z;
  pn_LastRunNoticeFP : option string;
  pn_UserMessageID : Z;
  pn_LastUserNoticeFP : option string;
  pn_PlanPromptMessageID : Z;
  pn_LastPlanPromptFP : option string;
  pn_DetailsViewJSON : option string;
  pn_LastFinalCardHash : option string;
  pn_IsCurrent : bool;
  pn_CreatedAt : TimeString;
  pn_UpdatedAt : TimeString }.

(** chat_steer_state; a NULL turn reads as the empty text. *)
Record SteerState : Type := mkSteerState {
  st_ChatKey : string;
  st_ChatID : Z;
  st_TopicID : Z;
  st_ThreadID : string;
  st_TurnID : string;
  st_PanelID : Z;
  st_ExpiresAt : TimeString;
  st_CreatedAt : TimeString;
  st_UpdatedAt : TimeString }.

Record CoreTables : Type := mkCoreTables {
  cr_threads : gmap string ThreadRow;
  cr_snapshots : gmap string ThreadSnapshotState;
  cr_bindings : gmap string ThreadBinding;
  cr_targets : gmap string ObserverTarget;
  cr_callbacks : gmap string CallbackRow;
  cr_pendingApprovals : list PendingApprovalRow;
  cr_approvals : list MinimalApprovalRow;
  cr_approvalRoutes : list ApprovalRouteRow;
  cr_panels : list PanelRow;
  cr_panelSeq : Z;
  cr_steer : gmap string SteerState }.

Definition emptyCore : CoreTables := mkCoreTables ∅ ∅ ∅ ∅ ∅ [] [] [] [] 0 ∅.

Definition set_cr_threads (v : gmap string ThreadRow) (c : CoreTables) : CoreTables :=
  mkCoreTables v (cr_snapshots c) (cr_bindings c) (cr_targets c) (cr_callbacks c)
    (cr_pendingApprovals c) (cr_approvals c) (cr_approvalRoutes c) (cr_panels c) (cr_panelSeq c) (cr_steer c).
Definition set_cr_snapshots (v : gmap string ThreadSnapshotState) (c : CoreTables) : CoreTables :=
  mkCoreTables (cr_threads c) v (cr_bindings c) (cr_targets c) (cr_callbacks c)
    (cr_pendingApprovals c) (cr_approvals c) (cr_approvalRoutes c) (cr_panels c) (cr_panelSeq c) (cr_steer c).
Definition set_cr_bindings (v : gmap string ThreadBinding) (c : CoreTables) : CoreTables :=
  mkCoreTables (cr_threads c) (cr_snapshots c) v (cr_targets c) (cr_callbacks c)
    (cr_pendingApprovals c) (cr_approvals c) (cr_approvalRoutes c) (cr_panels c) (cr_panelSeq c) (cr_steer c).
Definition set_cr_targets (v : gmap string ObserverTarget) (c : CoreTables) : CoreTables :=
  mkCoreTables (cr_threads c) (cr_snapshots c) (cr_bindings c) v (cr_callbacks c)
    (cr_pendingApprovals c) (cr_approvals c) (cr_approvalRoutes c) (cr_panels c) (cr_panelSeq c) (cr_steer c).
Definition set_cr_callbacks (v : gmap string CallbackRow) (c : CoreTables) : CoreTables :=
  mkCoreTables (cr_threads c) (cr_snapshots c) (cr_bindings c) (cr_targets c) v
    (cr_pendingApprovals c) (cr_approvals c) (cr_approvalRoutes c) (cr_panels c) (cr_panelSeq c) (cr_steer c).
Definition set_cr_pendingApprovals (v : list PendingApprovalRow) (c : CoreTables) : CoreTables :=
  mkCoreTables (cr_threads c) (cr_snapshots c) (cr_bindings c) (cr_targets c) (cr_callbacks c)
    v (cr_approvals c) (cr_approvalRoutes c) (cr_panels c) (cr_panelSeq c) (cr_steer c).
Definition set_cr_approvals (v : list MinimalApprovalRow) (c : CoreTables) : CoreTables :=
  mkCoreTables (cr_threads c) (cr_snapshots c) (cr_bindings c) (cr_targets c) (cr_callbacks c)
    (cr_pendingApprovals c) v (cr_approvalRoutes c) (cr_panels c) (cr_panelSeq c) (cr_steer c).
Definition set_cr_approvalRoutes (v : list ApprovalRouteRow) (c : CoreTables) : CoreTables :=
  mkCoreTables (cr_threads c) (cr_snapshots c) (cr_bindings c) (cr_targets c) (cr_callbacks c)
    (cr_pendingApprovals c) (cr_approvals c) v (cr_panels c) (cr_panelSeq c) (cr_steer c).
Definition set_cr_panels (v : list PanelRow) (c : CoreTables) : CoreTables :=
  mkCoreTables (cr_threads c) (cr_snapshots c) (cr_bindings c) (cr_targets c) (cr_callbacks c)
    (cr_pendingApprovals c) (cr_approvals c) (cr_approvalRoutes c) v (cr_panelSeq c) (cr_steer c).
Definition set_cr_panelSeq (v : Z) (c : CoreTables) : CoreTables :=
  mkCoreTables (cr_threads c) (cr_snapshots c) (cr_bindings c) (cr_targets c) (cr_callbacks c)
    (cr_pendingApprovals c) (cr_approvals c) (cr_approvalRoutes c) (cr_panels c) v (cr_steer c).
Definition set_cr_steer (v : gmap string SteerState) (c : CoreTables) : CoreTables :=
  mkCoreTables (cr_threads c) (cr_snapshots c) (cr_bindings c) (cr_targets c) (cr_callbacks c)
    (cr_pendingApprovals c) (cr_approvals c) (cr_approvalRoutes c) (cr_panels c) (cr_panelSeq c) v.
