(* ===== verification/Store.v ===== *)
(** * internal/storage/store.go: the durable delivery queue

    The SQLite tables the bridge keeps, and the operations on the delivery queue,
    the terminal events and the daemon state.  A table with a key is a finite map;
    the queue is the list of its rows in the order of their ids.  An operation is
    a transaction: it gives its answer and the new tables, or an error and no
    change.  [now] is the text of the clock, read once by each operation; texts
    compare as SQLite compares TEXT, byte by byte. *)
From stdpp Require Import base list numbers strings gmap.
From Stdlib Require Import Lia Ascii.
From S2P Require Import Prelude GoStrings GoTime Sql Model MinimalTables CoreTables.

(** *** Tables *)
Record QueueRow : Type := mkQueueRow {
  q_ID : Z;
  q_EventID : string;
  q_ChatKey : string;
  q_ChatID : Z;
  q_TopicID : Z;
  q_ThreadID : string;
  q_Kind : string;
  q_Status : string;
  q_RetryCount : Z;
  q_AvailableAt : TimeString;
  q_LastError : option string;
  q_Payload : option string;
  q_CreatedAt : TimeString;
  q_UpdatedAt : TimeString;
  q_GroupID : option string;
  q_SequenceNo : Z;
  q_SequenceCount : Z }.

(** A row of minimal_linked_threads. *)
Record LinkedRow : Type := mkLinkedRow {
  l_ChatKey : string;
  l_ChatID : Z;
  l_TopicID : Z;
  l_ProjectID : string;
  l_SourceThreadID : string;
  l_LinkedThreadID : option string;
  l_SourceAnchorTurnID : string;
  l_SourceTitle : option string;
  l_DesiredTitle : option string;
  l_TitleState : string;
  l_State : string;
  l_ActiveTurnID : option string;
  l_WorkerGeneration : Z;
  l_LastBlockedAt : option string;
  l_LastBlockedCode : option string;
  l_FailureKind : option string;
  l_CreatedAt : TimeString;
  l_UpdatedAt : TimeString;
  l_ReleasedAt : option string }.

(** A row of notifier_observations; the thread id is the key of the table. *)
Record ObservationRow : Type := mkObservationRow {
  ob_LastUpdatedAt : Z;
  ob_LastTurnID : option string;
  ob_LastTurnStatus : option string;
  ob_BaselineReady : bool;
  ob_ReadRequired : bool;
  ob_DeferUntil : Z;
  ob_Retired : bool;
  ob_DiscoverySeq : Z;
  ob_UpdatedAt : TimeString }.

Record Store : Type := mkStore {
  db_queue : list QueueRow;
  db_queueSeq : Z;
  db_terminal : gmap string TerminalEvent;
  db_attempts : list DeliveryAttempt;
  db_routes : gmap (Z * Z * Z) MessageRoute;
  db_state : gmap string (string * TimeString);
  db_observations : gmap string ObservationRow;
  db_linked : list LinkedRow;
  db_minimal : MinimalTables;
  db_core : CoreTables }.

Definition emptyStore : Store := mkStore [] 0 ∅ [] ∅ ∅ ∅ [] emptyMinimal emptyCore.

Definition set_queue (v : list QueueRow) (s : Store) : Store :=
  mkStore v (db_queueSeq s) (db_terminal s) (db_attempts s) (db_routes s)
    (db_state s) (db_observations s) (db_linked s) (db_minimal s) (db_core s).
Definition set_queueSeq (v : Z) (s : Store) : Store :=
  mkStore (db_queue s) v (db_terminal s) (db_attempts s) (db_routes s)
    (db_state s) (db_observations s) (db_linked s) (db_minimal s) (db_core s).
Definition set_terminal (v : gmap string TerminalEvent) (s : Store) : Store :=
  mkStore (db_queue s) (db_queueSeq s) v (db_attempts s) (db_routes s)
    (db_state s) (db_observations s) (db_linked s) (db_minimal s) (db_core s).
Definition set_attempts (v : list DeliveryAttempt) (s : Store) : Store :=
  mkStore (db_queue s) (db_queueSeq s) (db_terminal s) v (db_routes s)
    (db_state s) (db_observations s) (db_linked s) (db_minimal s) (db_core s).
Definition set_routes (v : gmap (Z * Z * Z) MessageRoute) (s : Store) : Store :=
  mkStore (db_queue s) (db_queueSeq s) (db_terminal s) (db_attempts s) v
    (db_state s) (db_observations s) (db_linked s) (db_minimal s) (db_core s).
Definition set_state (v : gmap string (string * TimeString)) (s : Store) : Store :=
  mkStore (db_queue s) (db_queueSeq s) (db_terminal s) (db_attempts s) (db_routes s)
    v (db_observations s) (db_linked s) (db_minimal s) (db_core s).
Definition set_observations (v : gmap string ObservationRow) (s : Store) : Store :=
  mkStore (db_queue s) (db_queueSeq s) (db_terminal s) (db_attempts s) (db_routes s)
    (db_state s) v (db_linked s) (db_minimal s) (db_core s).
Definition set_linked (v : list LinkedRow) (s : Store) : Store :=
  mkStore (db_queue s) (db_queueSeq s) (db_terminal s) (db_attempts s) (db_routes s)
    (db_state s) (db_observations s) v (db_minimal s) (db_core s).
Definition set_minimal (v : MinimalTables) (s : Store) : Store :=
  mkStore (db_queue s) (db_queueSeq s) (db_terminal s) (db_attempts s) (db_routes s)
    (db_state s) (db_observations s) (db_linked s) v (db_core s).
Definition set_core (v : CoreTables) (s : Store) : Store :=
  mkStore (db_queue s) (db_queueSeq s) (db_terminal s) (db_attempts s) (db_routes s)
    (db_state s) (db_observations s) (db_linked s) (db_minimal s) v.

(** The tables that are lists of rows. *)
Definition queue_table : Table Store QueueRow := mkTable db_queue set_queue.
Definition linked_table : Table Store LinkedRow := mkTable db_linked set_linked.

(** Columns an UPDATE of delivery_queue sets. *)
Definition upd_status (v : string) (now : TimeString) (r : QueueRow) : QueueRow :=
  mkQueueRow (q_ID r) (q_EventID r) (q_ChatKey r) (q_ChatID r) (q_TopicID r) (q_ThreadID r)
    (q_Kind r) v (q_RetryCount r) (q_AvailableAt r) (q_LastError r) (q_Payload r) (q_CreatedAt r)
    now (q_GroupID r) (q_SequenceNo r) (q_SequenceCount r).
Definition upd_payload (v : option string) (r : QueueRow) : QueueRow :=
  mkQueueRow (q_ID r) (q_EventID r) (q_ChatKey r) (q_ChatID r) (q_TopicID r) (q_ThreadID r)
    (q_Kind r) (q_Status r) (q_RetryCount r) (q_AvailableAt r) (q_LastError r) v (q_CreatedAt r)
    (q_UpdatedAt r) (q_GroupID r) (q_SequenceNo r) (q_SequenceCount r).
Definition upd_retry (count : Z) (availableAt : TimeString) (lastError : option string)
    (r : QueueRow) : QueueRow :=
  mkQueueRow (q_ID r) (q_EventID r) (q_ChatKey r) (q_ChatID r) (q_TopicID r) (q_ThreadID r)
    (q_Kind r) (q_Status r) count availableAt lastError (q_Payload r) (q_CreatedAt r)
    (q_UpdatedAt r) (q_GroupID r) (q_SequenceNo r) (q_SequenceCount r).

(** storage.nullable: a blank text is stored as NULL. *)
Definition nullable (value : string) : option string :=
  if String.eqb (trim_space value) "" then None else Some value.

Definition boolToInt (value : bool) : Z := if value then 1 else 0.

(** q.status IN (...) *)
Definition is_status (r : QueueRow) (statuses : list string) : bool :=
  existsb (String.eqb (q_Status r)) statuses.

Definition waiting (r : QueueRow) : bool := is_status r [DeliveryStatusPending; DeliveryStatusRetry].

Definition live (r : QueueRow) : bool :=
  is_status r [DeliveryStatusPending; DeliveryStatusRetry; DeliveryStatusProcessing].

(** A <= B and A < B on TEXT. *)
Definition text_le (a b : string) : bool := String.leb a b.

(** *** internal/securestore: the payload protector

    DPAPI behind the interface of the package; [protector] of a store may be nil. *)
Record Protector : Type := mkProtector {
  Protect : string -> res string;
  Unprotect : string -> res string }.

Definition protectedPayloadEnvelopePrefix : string := "dpapi:v1:".

Class ProtectorLaws (p : Protector) : Prop := {
  unprotect_protect : forall text envelope, Protect p text = Ok envelope -> Unprotect p envelope = Ok text;
  protect_envelope : forall text envelope, Protect p text = Ok envelope ->
    has_prefix envelope protectedPayloadEnvelopePrefix = true }.

Definition protect_with (protector : option Protector) (text : string) : res string :=
  match protector with Some p => Protect p text | None => Ok text end.

Definition unprotect_with (protector : option Protector) (text : string) : res string :=
  match protector with Some p => Unprotect p text | None => Ok text end.

Fixpoint map_res {A B : Type} (f : A -> res B) (l : list A) : res (list B) :=
  match l with
  | [] => Ok []
  | x :: r => let! y := f x in let! ys := map_res f r in Ok (y :: ys)
  end.

(** *** The delivery queue *)

(** Does a row with this event and chat exist (unique index on both)? *)
Definition event_target_exists (eventID chatKey : string) (rows : list QueueRow) : bool :=
  existsb (fun r => String.eqb (q_EventID r) eventID && String.eqb (q_ChatKey r) chatKey) rows.

(** INSERT of a row that takes the next id. *)
Definition insert_row (mk : Z -> QueueRow) (s : Store) : Store :=
  let id := (db_queueSeq s + 1)%Z in
  set_queueSeq id (set_queue (db_queue s ++ [mk id]) s).

Definition or_now (t now : TimeString) : TimeString := if String.eqb t "" then now else t.

(** INSERT ... ON CONFLICT(event_id, chat_key) DO NOTHING, without a group. *)
Definition insert_ungrouped (now : TimeString) (item : DeliveryQueueItem) (status : string)
    (retryCount : Z) (lastError : option string) (payload : string) (s : Store) : Store :=
  if event_target_exists (qi_EventID item) (qi_ChatKey item) (db_queue s) then s
  else insert_row (fun id =>
         mkQueueRow id (qi_EventID item) (qi_ChatKey item) (qi_ChatID item) (qi_TopicID item)
           (qi_ThreadID item) (qi_Kind item) status retryCount (or_now (qi_AvailableAt item) now)
           lastError (Some payload) (or_now (qi_CreatedAt item) now)
           (or_now (qi_UpdatedAt item) now) None 1 1) s.

Definition EnqueueDelivery (protector : option Protector) (now : TimeString)
    (item : DeliveryQueueItem) (s : Store) : res Store :=
  let! payload := protect_with protector (qi_PayloadJSON item) in
  Ok (insert_ungrouped now item (qi_Status item) (qi_RetryCount item)
        (nullable (qi_LastError item)) payload s).

(** The INSERTs of EnqueueTerminalEvent: plain ones, so a row whose event and
    chat are already queued aborts the transaction. *)
Fixpoint insert_items (now : TimeString) (items : list (DeliveryQueueItem * string)) (s : Store)
  : res Store :=
  match items with
  | [] => Ok s
  | (item, protected) :: rest =>
      if event_target_exists (qi_EventID item) (qi_ChatKey item) (db_queue s)
      then Err "UNIQUE constraint failed: delivery_queue.event_id, delivery_queue.chat_key"
      else insert_items now rest (insert_row (fun id =>
             mkQueueRow id (qi_EventID item) (qi_ChatKey item) (qi_ChatID item) (qi_TopicID item)
               (qi_ThreadID item) (qi_Kind item) DeliveryStatusPending 0
               (or_now (qi_AvailableAt item) now) None (Some protected) now now
               (Some (qi_GroupID item)) (qi_SequenceNo item) (qi_SequenceCount item)) s)
  end.

(** *** The release of a linked thread, part of the terminal transaction *)
Definition MinimalLinkedReady : string := "ready".
Definition MinimalLinkedTelegramRunning : string := "telegram_running".
Definition MinimalLinkedReleasePending : string := "release_pending".
Definition MinimalLinkedFailed : string := "failed".
Definition MinimalLinkedTitlePending : string := "pending".
Definition MinimalLinkedTitleSet : string := "set".

(** The generation is a uint64. *)
Record MinimalLinkedRelease : Type := mkRelease {
  rel_LinkedThreadID : string;
  rel_TurnID : string;
  rel_WorkerGeneration : Z }.

Definition minimalLinkedGenerationInt64 (generation : Z) : res Z :=
  if (int64_max <? generation)%Z then Err "minimal linked generation exceeds sqlite integer range"
  else Ok generation.

Definition minimalLinkedReleaseGeneration (release : MinimalLinkedRelease) : res Z :=
  if (rel_WorkerGeneration release =? 0)%Z then Err "minimal linked release generation is required"
  else Ok (rel_WorkerGeneration release).

Definition upd_linked_state (v : string) (now : TimeString) (r : LinkedRow) : LinkedRow :=
  mkLinkedRow (l_ChatKey r) (l_ChatID r) (l_TopicID r) (l_ProjectID r) (l_SourceThreadID r)
    (l_LinkedThreadID r) (l_SourceAnchorTurnID r) (l_SourceTitle r) (l_DesiredTitle r)
    (l_TitleState r) v (l_ActiveTurnID r) (l_WorkerGeneration r) (l_LastBlockedAt r)
    (l_LastBlockedCode r) (l_FailureKind r) (l_CreatedAt r) now (l_ReleasedAt r).

(** column = ? on a column that may be NULL. *)
Definition is_text (column : option string) (v : string) : bool :=
  match column with Some x => String.eqb x v | None => false end.

(** linked_thread_id = ? AND worker_generation = ? AND state = ? *)
Definition linked_is (linkedID : string) (generation : Z) (state : string) (r : LinkedRow) : bool :=
  is_text (l_LinkedThreadID r) linkedID && (l_WorkerGeneration r =? generation)%Z
  && String.eqb (l_State r) state.

(** The row a release applies to, None when there is no release to make. *)
Definition release_target (release : MinimalLinkedRelease)
  : res (option (string * string * Z)) :=
  let linkedID := trim_space (rel_LinkedThreadID release) in
  let turnID := trim_space (rel_TurnID release) in
  let! generation := minimalLinkedReleaseGeneration release in
  let! generationValue := minimalLinkedGenerationInt64 generation in
  if String.eqb linkedID "" || String.eqb turnID "" then Ok None
  else Ok (Some (linkedID, turnID, generationValue)).

Definition release_where (t : string * string * Z) (r : LinkedRow) : bool :=
  linked_is t.1.1 t.2 MinimalLinkedTelegramRunning r && is_text (l_ActiveTurnID r) t.1.2.

(** The transaction of EnqueueTerminalEventWithLinkedRelease. *)
Definition terminal_transaction (now : TimeString) (event : TerminalEvent)
    (items : list (DeliveryQueueItem * string)) (target : option (string * string * Z)) (s : Store)
  : res (bool * Store) :=
  match db_terminal s !! te_TerminalKey event with
  | Some _ => Ok (false, s)
  | None =>
      let row := mkTerminalEvent (te_TerminalKey event) (te_ThreadID event) (te_TurnID event)
                   (te_Status event) DeliveryStatusPending now in
      let s1 := set_terminal (<[te_TerminalKey event := row]> (db_terminal s)) s in
      let! s2 := insert_items now items s1 in
      match target with
      | None => Ok (true, s2)
      | Some t =>
          if (affected (release_where t) (db_linked s2) =? 1)%Z
          then Ok (true, set_linked (update_where (release_where t)
                                       (upd_linked_state MinimalLinkedReleasePending now)
                                       (db_linked s2)) s2)
          else Ok (false, s)
      end
  end.

Definition EnqueueTerminalEventWithLinkedRelease (protector : option Protector) (now : TimeString)
    (event : TerminalEvent) (items : list DeliveryQueueItem) (release : option MinimalLinkedRelease)
    (s : Store) : res (bool * Store) :=
  match protector with
  | None => Err "securestore protector is required for terminal delivery"
  | Some p =>
      let run target :=
        let! protected := map_res (fun item => Protect p (qi_PayloadJSON item)) items in
        terminal_transaction now event (zip items protected) target s in
      match release with
      | None => run None
      | Some rel =>
          let! target := release_target rel in
          match target with
          | None => Ok (false, s)
          | Some t => run (Some t)
          end
      end
  end.

Definition EnqueueTerminalEvent (protector : option Protector) (now : TimeString)
    (event : TerminalEvent) (items : list DeliveryQueueItem) (s : Store) : res (bool * Store) :=
  EnqueueTerminalEventWithLinkedRelease protector now event items None s.

(** *** Claiming *)

(** NOT EXISTS (... earlier.sequence_no < q.sequence_no AND earlier.status != 'delivered') *)
Definition predecessors_delivered (rows : list QueueRow) (q : QueueRow) : bool :=
  match q_GroupID q with
  | None => true
  | Some g =>
      forallb (fun earlier =>
        negb (is_text (q_GroupID earlier) g && (q_SequenceNo earlier <? q_SequenceNo q)%Z
              && negb (String.eqb (q_Status earlier) DeliveryStatusDelivered))) rows
  end.

Definition claimable (rows : list QueueRow) (now : TimeString) (q : QueueRow) : bool :=
  waiting q && text_le (q_AvailableAt q) now && predecessors_delivered rows q.

(** The rows of the SELECT. *)
Definition claim_rows (limit : Z) (now : TimeString) (s : Store) : list QueueRow :=
  let n := if (limit <=? 0)%Z then 10%Z else limit in
  take (Z.to_nat n) (filter (claimable (db_queue s) now) (db_queue s)).

(** Scanning a row: a NULL payload does not scan into a string. *)
Definition scan_row (protector : option Protector) (r : QueueRow) : res DeliveryQueueItem :=
  match q_Payload r with
  | None => Err "sql: converting NULL to string is unsupported"
  | Some stored =>
      let! payload := unprotect_with protector stored in
      Ok (mkQueueItem (q_ID r) (q_EventID r) (q_ChatKey r) (q_ChatID r) (q_TopicID r)
            (q_ThreadID r) (q_Kind r) (q_Status r) (q_RetryCount r) (q_AvailableAt r)
            (default "" (q_LastError r)) payload (q_CreatedAt r) (q_UpdatedAt r)
            (default "" (q_GroupID r)) (q_SequenceNo r) (q_SequenceCount r))
  end.

Definition has_id (ids : list Z) (r : QueueRow) : bool := existsb (Z.eqb (q_ID r)) ids.

Definition ClaimDeliveryBatch (protector : option Protector) (now : TimeString) (limit : Z)
    (s : Store) : res (list DeliveryQueueItem * Store) :=
  let! out := map_res (scan_row protector) (claim_rows limit now s) in
  Ok (out, set_queue (update_where (has_id (map qi_ID out))
                        (upd_status DeliveryStatusProcessing now) (db_queue s)) s).

(** *** Completing and failing *)
Definition id_is (id : Z) (r : QueueRow) : bool := (q_ID r =? id)%Z.

Definition find_row (id : Z) (rows : list QueueRow) : option QueueRow :=
  first_some (fun r => if id_is id r then Some r else None) rows.

(** UPDATE terminal_events SET delivery_status = ?, updated_at = ? WHERE terminal_key = ? *)
Definition set_delivery_status (key : option string) (v : string) (now : TimeString)
    (t : gmap string TerminalEvent) : gmap string TerminalEvent :=
  match key with
  | None => t
  | Some k => alter (fun e => mkTerminalEvent (te_TerminalKey e) (te_ThreadID e) (te_TurnID e)
                                (te_Status e) v now) k t
  end.

Definition route_upsert (now : TimeString) (route : MessageRoute) (s : Store) : Store :=
  let row := mkMessageRoute (mr_ChatID route) (mr_TopicID route) (mr_MessageID route)
               (mr_ThreadID route) (default "" (nullable (mr_TurnID route)))
               (default "" (nullable (mr_ItemID route))) (default "" (nullable (mr_EventID route)))
               (or_now (mr_CreatedAt route) now) in
  set_routes (<[(mr_ChatID route, mr_TopicID route, mr_MessageID route) := row]> (db_routes s)) s.

Definition completeDelivery (protector : option Protector) (now : TimeString) (queueID : Z)
    (route : option MessageRoute) (s : Store) : Store :=
  let s1 := match route with Some r => route_upsert now r s | None => s end in
  let set r := let r' := upd_status DeliveryStatusDelivered now r in
               match protector with Some _ => upd_payload None r' | None => r' end in
  let rows := update_where (id_is queueID) set (db_queue s1) in
  let key := match find_row queueID rows with
             | Some r => if (q_SequenceNo r =? q_SequenceCount r)%Z then q_GroupID r else None
             | None => None
             end in
  set_terminal (set_delivery_status key DeliveryStatusDelivered now (db_terminal s1))
    (set_queue rows s1).

Definition CompleteDelivery (protector : option Protector) (now : TimeString) (queueID : Z)
    (s : Store) : Store := completeDelivery protector now queueID None s.

Definition CompleteDeliveryWithRoute (protector : option Protector) (now : TimeString)
    (queueID : Z) (route : MessageRoute) (s : Store) : Store :=
  completeDelivery protector now queueID (Some route) s.

(** status = dead, payload_json = NULL on the undelivered rows of a group. *)
Definition kill_group (g : string) (now : TimeString) (rows : list QueueRow) : list QueueRow :=
  update_where (fun r => is_text (q_GroupID r) g
                         && negb (String.eqb (q_Status r) DeliveryStatusDelivered))
    (fun r => upd_payload None (upd_status DeliveryStatusDead now r)) rows.

(** A dead delivery kills its group; on a row that is not there the SELECT of the
    group fails and nothing changes. *)
Definition FailDelivery (protector : option Protector) (now : TimeString) (queueID retryCount : Z)
    (availableAt : instant) (errText : string) (dead : bool) (s : Store) : res Store :=
  let retry := upd_retry retryCount (format_time availableAt) (nullable errText) in
  if dead then
    let set r := let r' := retry (upd_status DeliveryStatusDead now r) in
                 match protector with Some _ => upd_payload None r' | None => r' end in
    let rows := update_where (id_is queueID) set (db_queue s) in
    match find_row queueID rows with
    | None => Err "sql: no rows in result set"
    | Some r =>
        match q_GroupID r with
        | Some g =>
            if String.eqb (trim_space g) "" then Ok (set_queue rows s)
            else Ok (set_terminal (set_delivery_status (Some g) DeliveryStatusDead now (db_terminal s))
                       (set_queue (kill_group g now rows) s))
        | None => Ok (set_queue rows s)
        end
    end
  else
    Ok (set_queue (update_where (id_is queueID)
                     (fun r => retry (upd_status DeliveryStatusRetry now r)) (db_queue s)) s).

Definition RecordDeliveryAttempt (now : TimeString) (queueID attemptNo : Z)
    (status errText : string) (s : Store) : Store :=
  let id := (Z.of_nat (length (db_attempts s)) + 1)%Z in
  set_attempts (db_attempts s ++ [mkDeliveryAttempt id queueID attemptNo status
                                    (default "" (nullable errText)) now]) s.

Definition DeliveryQueueBacklog (s : Store) : Z := Z.of_nat (length (filter live (db_queue s))).

(** *** daemon_state and the observer target *)
Definition SetState (now : TimeString) (key value : string) (s : Store) : Store :=
  set_state (<[key := (value, now)]> (db_state s)) s.

Definition GetState (key : string) (s : Store) : string :=
  match db_state s !! key with Some (value, _) => value | None => "" end.

Definition DeleteState (key : string) (s : Store) : Store :=
  set_state (delete key (db_state s)) s.

Definition ListState (s : Store) : gmap string string := fst <$> db_state s.

(** [now] is time.Now().UTC(). *)
Definition SetGlobalObserverTarget (now : instant) (chatID topicID : Z) (enabled : bool) (s : Store)
  : Store :=
  let at_ := format_time now in
  let s1 := SetState at_ "observer.global_enabled" (format_bool enabled) s in
  if enabled then
    SetState at_ "observer.global_since_unix" (format_int (unix now))
      (SetState at_ "observer.global_topic_id" (format_int topicID)
         (SetState at_ "observer.global_chat_id" (format_int chatID) s1))
  else s1.

(** chatID, _ := strconv.ParseInt(...): out of range gives the nearest int64. *)
Definition parse_int64_or (s : string) : Z :=
  match parse_int s with
  | Some z => if (z <? int64_min)%Z then int64_min else if (int64_max <? z)%Z then int64_max else z
  | None => 0
  end.

Definition GetGlobalObserverTarget (now : TimeString) (s : Store) : option ObserverTarget * bool :=
  let enabledRaw := GetState "observer.global_enabled" s in
  if String.eqb (trim_space enabledRaw) "" then (None, false)
  else if negb (equal_fold (trim_space enabledRaw) "true") then (None, true)
  else
    let chatID := parse_int64_or (trim_space (GetState "observer.global_chat_id" s)) in
    let topicID := parse_int64_or (trim_space (GetState "observer.global_topic_id" s)) in
    if (chatID =? 0)%Z then (None, true)
    else (Some (mkObserverTarget (ChatKey chatID topicID) chatID topicID true now now), true).

(** *** Opening a store with a protector: recovery of the payloads *)

(** protectedDeliveryPayloadNeedsMigration, on a live row with a payload. *)
Definition protectedDeliveryPayloadNeedsMigration (p : Protector) (r : QueueRow) (payload : string)
  : res bool :=
  if String.eqb (q_Kind r) "minimal_approval" && String.eqb (q_Status r) DeliveryStatusProcessing
  then Ok true
  else if has_prefix payload protectedPayloadEnvelopePrefix then
    let! _ := Unprotect p payload in
    Ok (String.eqb (q_Status r) DeliveryStatusProcessing)
  else Ok true.

(** Rows WHERE status IN ('delivered', 'dead') AND payload_json IS NOT NULL *)
Definition stale_payload (r : QueueRow) : bool :=
  is_status r [DeliveryStatusDelivered; DeliveryStatusDead]
  && match q_Payload r with Some _ => true | None => false end.

Definition protectedDeliveryPayloadMigrationNeeded (p : Protector) (rows : list QueueRow)
  : res bool :=
  let! needed := map_res (fun r => match q_Payload r with
                                   | Some payload => if live r
                                       then protectedDeliveryPayloadNeedsMigration p r payload
                                       else Ok false
                                   | None => Ok false
                                   end) rows in
  Ok (existsb id needed || existsb stale_payload rows).

(** One row of the loop: an interrupted approval dies, a payload becomes
    protected, a row caught in processing goes back to retry. *)
Definition migrate_row (p : Protector) (now : TimeString) (r : QueueRow) : res QueueRow :=
  match q_Payload r with
  | None => Ok r
  | Some payload =>
      if negb (live r) then Ok r
      else if String.eqb (q_Kind r) "minimal_approval"
              && String.eqb (q_Status r) DeliveryStatusProcessing
      then Ok (upd_payload None (upd_status DeliveryStatusDead now r))
      else
        let alreadyProtected := has_prefix payload protectedPayloadEnvelopePrefix in
        let! _ := if alreadyProtected then Unprotect p payload else Ok "" in
        if alreadyProtected && negb (String.eqb (q_Status r) DeliveryStatusProcessing) then Ok r
        else
          let! protected := if alreadyProtected then Ok payload else Protect p payload in
          let status := if String.eqb (q_Status r) DeliveryStatusProcessing
                        then DeliveryStatusRetry else q_Status r in
          Ok (upd_payload (Some protected) (upd_status status (q_UpdatedAt r) r))
  end.

Definition migrateProtectedDeliveryPayloads (p : Protector) (now : TimeString) (s : Store)
  : res Store :=
  let! needed := protectedDeliveryPayloadMigrationNeeded p (db_queue s) in
  if negb needed then Ok s
  else
    let! rows := map_res (migrate_row p now) (db_queue s) in
    Ok (set_queue (update_where stale_payload (upd_payload None) rows) s).

(** ** Lemmas *)

#[export] Instance queue_table_laws : TableLaws queue_table.
Proof. by constructor; try done; intros []. Qed.
#[export] Instance linked_table_laws : TableLaws linked_table.
Proof. by constructor; try done; intros []. Qed.
