(* ===== verification/StoreNotifier.v ===== *)
(** * internal/storage/store_notifier.go: what the notifier has seen

    One row per thread: the list watermark, the last turn read, whether a read is
    due.  [now] is the instant of the call.  The daemon passes its clock, which
    never shows the zero time, so the defaults for a zero instant do not appear. *)
From stdpp Require Import base list numbers strings gmap sorting.
From Stdlib Require Import Lia Ascii Sorting.Sorted.
From S2P Require Import Prelude GoStrings GoTime Sql Model Store.

Definition notifierActivationStateKey : string := "notifier.activation_unix".
Definition notifierMigrationStateKey : string := "notifier.migration.v1".

Definition EnsureNotifierActivation (now : instant) (s : Store) : res (Z * Store) :=
  let updatedAt := format_time now in
  let state := match db_state s !! notifierActivationStateKey with
               | Some _ => db_state s
               | None => <[notifierActivationStateKey := (format_int (unix now), updatedAt)]> (db_state s)
               end in
  match state !! notifierActivationStateKey with
  | None => Err "sql: no rows in result set"
  | Some (raw, _) =>
      let! stored := parse_int64 raw in
      Ok (stored, set_state state s)
  end.

(** A queued row of another kind than the notifier's, still to be sent. *)
Definition foreign_waiting (r : QueueRow) : bool :=
  waiting r && negb (String.eqb (q_Kind r) "notifier_terminal").

(** The terminal events the migration retires. *)
Definition migration_retires (rows : list QueueRow) (key : string) : bool :=
  existsb (fun r => foreign_waiting r && is_text (q_GroupID r) key && negb (String.eqb key "")) rows
  && negb (existsb (fun r => is_text (q_GroupID r) key && String.eqb (q_Kind r) "notifier_terminal"
                             && waiting r) rows).

Definition MigrateNotifierProfile (now : instant) (s : Store) : Z * Store :=
  let updatedAt := format_time now in
  if String.eqb (GetState notifierMigrationStateKey s) "done" then (0%Z, s)
  else
    let terminal := map_imap (fun key e =>
      Some (if migration_retires (db_queue s) key
            then mkTerminalEvent (te_TerminalKey e) (te_ThreadID e) (te_TurnID e) (te_Status e)
                   DeliveryStatusDead updatedAt
            else e)) (db_terminal s) in
    let retired := affected foreign_waiting (db_queue s) in
    let rows := update_where foreign_waiting
                  (fun r => upd_payload None (upd_status DeliveryStatusDead updatedAt r))
                  (db_queue s) in
    (retired, SetState updatedAt notifierMigrationStateKey "done"
                (set_queue rows (set_terminal terminal s))).

(** *** Observations *)

(** coalesce(max(discovery_seq), 0) + 1 *)
Definition next_discovery_seq (o : gmap string ObservationRow) : Z :=
  (default 0 (map_fold (fun _ r m => Some (match m with
                                           | Some x => Z.max (ob_DiscoverySeq r) x
                                           | None => ob_DiscoverySeq r
                                           end)) None o) + 1)%Z.

Definition ObserveNotifierThread (now : instant) (threadID0 : string) (lastUpdatedAt : Z)
    (s : Store) : res Store :=
  let threadID := trim_space threadID0 in
  if String.eqb threadID "" then Err "notifier observation thread id is required"
  else
    let o := db_observations s in
    let updatedAt := format_time now in
    match o !! threadID with
    | None =>
        Ok (set_observations (<[threadID := mkObservationRow lastUpdatedAt None None false true 0
                                 false (next_discovery_seq o) updatedAt]> o) s)
    | Some r =>
        if (lastUpdatedAt =? ob_LastUpdatedAt r)%Z then Ok s
        else Ok (set_observations (<[threadID := mkObservationRow lastUpdatedAt (ob_LastTurnID r)
                   (ob_LastTurnStatus r) (ob_BaselineReady r) true 0 (ob_Retired r)
                   (ob_DiscoverySeq r) updatedAt]> o) s)
    end.

Definition BaselineNotifierObservationsAtOrBefore (now : instant) (activationUnix : Z) (s : Store)
  : Store :=
  let updatedAt := format_time now in
  set_observations ((fun r =>
    if negb (ob_Retired r) && (ob_LastUpdatedAt r <=? activationUnix)%Z
    then mkObservationRow (ob_LastUpdatedAt r) (ob_LastTurnID r) (ob_LastTurnStatus r) true false
           (ob_DeferUntil r) (ob_Retired r) (ob_DiscoverySeq r) updatedAt
    else r) <$> db_observations s) s.

Definition observation_of_row (threadID : string) (r : ObservationRow) : NotifierObservation :=
  mkNotifierObservation threadID (ob_LastUpdatedAt r) (default "" (ob_LastTurnID r))
    (default "" (ob_LastTurnStatus r)) (ob_BaselineReady r) (ob_ReadRequired r)
    (ob_DeferUntil r) (ob_DiscoverySeq r).

Definition observation_due (nowUnix : Z) (kr : string * ObservationRow) : bool :=
  ob_ReadRequired kr.2 && negb (ob_Retired kr.2) && (ob_DeferUntil kr.2 <=? nowUnix)%Z.

(** ORDER BY last_updated_at DESC, thread_id ASC *)
Definition due_order (a b : string * ObservationRow) : bool :=
  (ob_LastUpdatedAt b.2 <? ob_LastUpdatedAt a.2)%Z
  || ((ob_LastUpdatedAt b.2 =? ob_LastUpdatedAt a.2)%Z && text_le a.1 b.1).

Definition ListNotifierObservationsDueAt (limit : Z) (now : instant) (s : Store)
  : list NotifierObservation :=
  let n := if (limit <=? 0)%Z then 50%Z else limit in
  map (fun kr => observation_of_row kr.1 kr.2)
    (take (Z.to_nat n)
       (sort_by due_order (filter (observation_due (unix now)) (map_to_list (db_observations s))))).

Definition DeferNotifierRead (now retryAt : instant) (threadID0 : string) (s : Store) : res Store :=
  let threadID := trim_space threadID0 in
  if String.eqb threadID "" then Err "notifier observation thread id is required"
  else
    Ok (set_observations (alter (fun r =>
          if ob_Retired r then r
          else mkObservationRow (ob_LastUpdatedAt r) (ob_LastTurnID r) (ob_LastTurnStatus r)
                 (ob_BaselineReady r) true (unix retryAt) (ob_Retired r) (ob_DiscoverySeq r)
                 (format_time now)) threadID (db_observations s)) s).

Definition RecordNotifierRead (now : instant) (threadID0 turnID0 status0 : string)
    (lastUpdatedAt : Z) (keepPolling : bool) (s : Store) : res Store :=
  let threadID := trim_space threadID0 in
  let turnID := trim_space turnID0 in
  let status := trim_space status0 in
  if String.eqb threadID "" then Err "notifier observation thread id is required"
  else
    let o := db_observations s in
    let updatedAt := format_time now in
    let row := match o !! threadID with
               | None => mkObservationRow lastUpdatedAt (nullable turnID) (nullable status) true
                           keepPolling 0 false (next_discovery_seq o) updatedAt
               | Some r => mkObservationRow (ob_LastUpdatedAt r) (nullable turnID) (nullable status)
                             true keepPolling 0 (ob_Retired r) (ob_DiscoverySeq r) updatedAt
               end in
    Ok (set_observations (<[threadID := row]> o) s).

(** Store.NotifierObservation *)
Definition NotifierObservationOf (threadID0 : string) (s : Store) : option NotifierObservation :=
  let threadID := trim_space threadID0 in
  if String.eqb threadID "" then None
  else observation_of_row threadID <$> db_observations s !! threadID.

Definition CountNotifierObservations (s : Store) : Z * Z :=
  let rows := filter (fun kr => negb (ob_Retired kr.2)) (map_to_list (db_observations s)) in
  (Z.of_nat (length rows), Z.of_nat (length (filter (fun kr => ob_ReadRequired kr.2) rows))).

(** Whether a read of [threadID] is due at [nowUnix]: what the due list selects. *)
Definition read_due (threadID : string) (nowUnix : Z) (s : Store) : bool :=
  match db_observations s !! threadID with
  | Some r => observation_due nowUnix (threadID, r)
  | None => false
  end.

(** A store that has seen one thread, for the examples. *)
Definition ex_seen : Store :=
  match ObserveNotifierThread 0%Z "thread-a" 100%Z emptyStore with Ok s => s | Err _ => emptyStore end.

(** ** Lemmas *)

Lemma text_le_total a b : text_le a b = false -> text_le b a = true.
Proof. unfold text_le, String.leb. rewrite String.compare_antisym. by destruct (String.compare b a). Qed.

Lemma due_order_total a b : due_order a b = false -> due_order b a = true.
Proof.
  unfold due_order. intros H. bsimp. apply orb_true_iff. rewrite Z.ltb_lt, andb_true_iff, Z.eqb_eq.
  match goal with H : _ && _ = false |- _ => apply andb_false_iff in H as [H|H] end; bsimp.
  - left. lia.
  - destruct (Z.eq_dec (ob_LastUpdatedAt a.2) (ob_LastUpdatedAt b.2)); [|left; lia].
    right. split; [done|]. by apply text_le_total.
Qed.

(** The head of a sorted list precedes what follows, and so what [take] keeps
    precedes what it drops. *)
Lemma due_order_trans : Transitive (fun a b : string * ObservationRow => (ob_LastUpdatedAt b.2 <= ob_LastUpdatedAt a.2)%Z).
Proof. intros a b c ??. lia. Qed.

Lemma due_order_le a b : due_order a b = true -> (ob_LastUpdatedAt b.2 <= ob_LastUpdatedAt a.2)%Z.
Proof. unfold due_order. rewrite orb_true_iff, Z.ltb_lt, andb_true_iff, Z.eqb_eq. lia. Qed.

Lemma due_sorted l :
  StronglySorted (fun a b : string * ObservationRow => (ob_LastUpdatedAt b.2 <= ob_LastUpdatedAt a.2)%Z)
    (sort_by due_order l).
Proof.
  apply Sorted_StronglySorted; [apply due_order_trans|].
  assert (Sorted (fun a b => due_order a b = true) (sort_by due_order l)) as H
    by (apply sort_by_sorted, due_order_total).
  induction H as [|x k H IH Hd]; constructor; [done|]. destruct Hd; constructor. by apply due_order_le.
Qed.

Lemma due_map_sorted l :
  StronglySorted (fun a b : string * ObservationRow => (ob_LastUpdatedAt b.2 <= ob_LastUpdatedAt a.2)%Z) l ->
  StronglySorted (fun a b => (no_LastUpdatedAt b <= no_LastUpdatedAt a)%Z)
    (map (fun kr => observation_of_row kr.1 kr.2) l).
Proof.
  induction 1 as [|x l H IH Hx]; cbn [map]; constructor; [done|].
  rewrite Forall_forall in Hx. apply Forall_forall. intros o (y & -> & Hy)%list_elem_of_fmap. by apply Hx.
Qed.

Lemma StronglySorted_take_drop {A} (R : A -> A -> Prop) (l : list A) n x y :
  StronglySorted R l -> x ∈ take n l -> y ∈ drop n l -> R x y.
Proof.
  rewrite <- (take_drop n l) at 1. intros H Hx Hy. by eapply StronglySorted_app_1_elem_of.
Qed.

Lemma take_or_full {A} (l : list A) n x : x ∈ l -> x ∈ take n l \/ (x ∈ drop n l /\ length (take n l) = n).
Proof.
  intros Hx. rewrite <- (take_drop n l), elem_of_app in Hx. destruct Hx as [|Hx]; [by left|right].
  split; [done|]. rewrite length_take. apply list_elem_of_lookup in Hx as [i Hi].
  apply lookup_lt_Some in Hi. rewrite length_drop in Hi. lia.
Qed.

Lemma elem_of_due limit now s o :
  o ∈ ListNotifierObservationsDueAt limit now s ->
  exists r, db_observations s !! no_ThreadID o = Some r
    /\ o = observation_of_row (no_ThreadID o) r /\ observation_due (unix now) (no_ThreadID o, r) = true.
Proof.
  unfold ListNotifierObservationsDueAt. cbv zeta. intros ([k r] & -> & Hin)%list_elem_of_fmap.
  apply list_elem_of_lookup in Hin as [i Hi]. apply lookup_take_Some in Hi as [Hi _].
  apply list_elem_of_lookup_2 in Hi. rewrite elem_of_sort_by, list_elem_of_filter, elem_of_map_to_list in Hi.
  destruct Hi as [Hd%Is_true_true Hl]. by exists r.
Qed.

Lemma parse_unix now :
  in_int64 now = true -> parse_int64 (format_int (unix now)) = Ok (unix now).
Proof.
  intros H%in_int64_spec. apply parse_format_int64, in_int64_spec. unfold unix, second, int64_min, int64_max in *.
  split; [apply Z.div_le_lower_bound; lia|apply Z.div_le_upper_bound; lia].
Qed.

(** ** Theorems *)

(** The activation instant is fixed by the first start: a first call stores its own
    clock, every later one, at any clock, reads that value back and changes
    nothing. *)
Theorem EnsureNotifierActivation_once now now' s :
  in_int64 now = true -> db_state s !! notifierActivationStateKey = None ->
  exists s1, EnsureNotifierActivation now s = Ok (unix now, s1)
    /\ EnsureNotifierActivation now' s1 = Ok (unix now, s1)
    /\ (forall key, key <> notifierActivationStateKey -> GetState key s1 = GetState key s)
    /\ db_queue s1 = db_queue s /\ db_observations s1 = db_observations s.
Proof.
  intros Hn Hk. unfold EnsureNotifierActivation. rewrite Hk, lookup_insert_eq. cbv beta iota.
  rewrite parse_unix by done. cbn [res_bind]. eexists. split; [done|]. cbn [db_state set_state].
  rewrite lookup_insert_eq. cbv beta iota. rewrite lookup_insert_eq, parse_unix by done. cbn [res_bind].
  split_and!; [by destruct s| |done|done].
  intros key Hne. unfold GetState. cbn [db_state set_state]. by rewrite lookup_insert_ne.
Qed.

Theorem EnsureNotifierActivation_once_witness :
  exists s1, EnsureNotifierActivation (7 * second)%Z emptyStore = Ok (7%Z, s1)
    /\ EnsureNotifierActivation (9 * second)%Z s1 = Ok (7%Z, s1).
Proof.
  destruct (EnsureNotifierActivation_once (7 * second)%Z (9 * second)%Z emptyStore) as (s1 & H1 & H2 & _);
    [reflexivity|reflexivity|].
  exists s1. split; [exact H1|exact H2].
Defined.

(** The threads read in one cycle: at most [limit] (50 when it is not positive), all
    of them due, the most recently updated first; a due thread that is left out was
    left out because the batch is full of threads at least as recent. *)
Theorem ListNotifierObservationsDueAt_spec limit now s :
  let due := ListNotifierObservationsDueAt limit now s in
  let n := if (limit <=? 0)%Z then 50%Z else limit in
  (Z.of_nat (length due) <= n)%Z
  /\ Forall (fun o => read_due (no_ThreadID o) (unix now) s = true) due
  /\ StronglySorted (fun a b => (no_LastUpdatedAt b <= no_LastUpdatedAt a)%Z) due
  /\ (forall threadID r, db_observations s !! threadID = Some r -> read_due threadID (unix now) s = true ->
        observation_of_row threadID r ∈ due
        \/ (Z.of_nat (length due) = n
            /\ Forall (fun o => (ob_LastUpdatedAt r <= no_LastUpdatedAt o)%Z) due)).
Proof.
  cbv zeta. split_and!.
  - unfold ListNotifierObservationsDueAt. rewrite length_map, length_take.
    destruct (Z.leb_spec limit 0); lia.
  - apply Forall_forall. intros o Ho. apply elem_of_due in Ho as (r & Hr & _ & Hd).
    unfold read_due. by rewrite Hr.
  - unfold ListNotifierObservationsDueAt. cbv zeta.
    pose proof (due_sorted (filter (observation_due (unix now)) (map_to_list (db_observations s)))) as Hs.
    rewrite <- (take_drop (Z.to_nat (if (limit <=? 0)%Z then 50%Z else limit)) (sort_by _ _)) in Hs.
    apply StronglySorted_app_1_l in Hs. by apply due_map_sorted.
  - intros k r Hr Hd. unfold read_due in Hd. rewrite Hr in Hd.
    unfold ListNotifierObservationsDueAt. cbv zeta.
    set (n := if (limit <=? 0)%Z then 50%Z else limit).
    set (l := sort_by _ _).
    assert ((k, r) ∈ l) as Hin.
    { unfold l. rewrite elem_of_sort_by, list_elem_of_filter, elem_of_map_to_list. split; [by rewrite Hd|done]. }
    destruct (take_or_full l (Z.to_nat n) _ Hin) as [H|[H Hlen]].
    + left. by apply (list_elem_of_fmap_2 (fun kr => observation_of_row kr.1 kr.2)) in H.
    + right. rewrite length_map, Hlen. split; [unfold n in *; destruct (Z.leb_spec limit 0); lia|].
      apply Forall_forall. intros o (x & -> & Hx)%list_elem_of_fmap.
      exact (StronglySorted_take_drop _ _ _ _ _ (due_sorted _) Hx H).
Qed.

(** History does not notify: once the observations are baselined, a thread whose
    watermark is not after the activation is not due at any time, whatever state it
    was in; threads with newer activity are untouched. *)
Theorem BaselineNotifierObservations_spec now activationUnix s threadID :
  let s1 := BaselineNotifierObservationsAtOrBefore now activationUnix s in
  match db_observations s !! threadID with
  | None => db_observations s1 !! threadID = None
  | Some r =>
      if (ob_LastUpdatedAt r <=? activationUnix)%Z
      then forall at_, read_due threadID at_ s1 = false
      else db_observations s1 !! threadID = Some r
  end.
Proof.
  cbv zeta. unfold BaselineNotifierObservationsAtOrBefore, read_due. cbn [db_observations set_observations].
  rewrite lookup_fmap. destruct (db_observations s !! threadID) as [r|]; [|done]. cbn [fmap option_fmap option_map].
  destruct (ob_LastUpdatedAt r <=? activationUnix)%Z eqn:E.
  - intros at_. unfold observation_due. destruct (ob_Retired r) eqn:R; cbn.
    + rewrite R. cbn. by rewrite andb_false_r.
    + done.
  - by rewrite andb_false_r.
Qed.

(** A read settles a thread until it changes: after RecordNotifierRead, seeing the
    thread again with the watermark it had when it was queued leaves it settled, and
    seeing it with any other watermark makes a read due at once, with the turn and the
    status of the last read kept to compare against. *)
Theorem RecordNotifierRead_settles now now' threadID turnID status lastUpdatedAt w s r :
  trim_space threadID = threadID -> threadID <> "" ->
  db_observations s !! threadID = Some r ->
  exists s1 s2,
    RecordNotifierRead now threadID turnID status lastUpdatedAt false s = Ok s1
    /\ ObserveNotifierThread now' threadID w s1 = Ok s2
    /\ (forall at_, read_due threadID at_ s1 = false)
    /\ (w = ob_LastUpdatedAt r -> s2 = s1)
    /\ (w <> ob_LastUpdatedAt r -> ob_Retired r = false -> forall at_, (0 <= at_)%Z ->
          read_due threadID at_ s2 = true)
    /\ (exists r2, db_observations s2 !! threadID = Some r2 /\ ob_LastUpdatedAt r2 = w
          /\ ob_LastTurnID r2 = nullable (trim_space turnID)
          /\ ob_LastTurnStatus r2 = nullable (trim_space status) /\ ob_BaselineReady r2 = true).
Proof.
  intros Ht Hne Hr. unfold RecordNotifierRead, ObserveNotifierThread. rewrite Ht.
  apply String.eqb_neq in Hne. rewrite Hne. cbv zeta. rewrite Hr.
  set (s1 := set_observations _ s). exists s1.
  set (r1 := mkObservationRow (ob_LastUpdatedAt r) (nullable (trim_space turnID))
               (nullable (trim_space status)) true false 0 (ob_Retired r) (ob_DiscoverySeq r)
               (format_time now)).
  assert (db_observations s1 !! threadID = Some r1) as H1 by apply lookup_insert_eq.
  assert (forall at_, read_due threadID at_ s1 = false) as Hq by (intros; unfold read_due; by rewrite H1).
  rewrite H1. change (ob_LastUpdatedAt r1) with (ob_LastUpdatedAt r).
  destruct (Z.eqb_spec w (ob_LastUpdatedAt r)) as [->|Hw]; eexists; (split; [reflexivity|]);
    (split; [reflexivity|]).
  - split_and!; [done|done|done|]. by exists r1.
  - unfold read_due at 2. cbn [db_observations set_observations]. rewrite lookup_insert_eq.
    split_and!; [done|done| |by eexists].
    intros _ Hret at_ Ha. unfold observation_due. cbn. rewrite Hret. by apply Z.leb_le.
Qed.

Theorem RecordNotifierRead_settles_witness :
  exists s1 s2, RecordNotifierRead 5%Z "thread-a" "turn-1" "completed" 100%Z false ex_seen = Ok s1
    /\ ObserveNotifierThread 6%Z "thread-a" 200%Z s1 = Ok s2
    /\ read_due "thread-a" 9%Z s1 = false /\ read_due "thread-a" 9%Z s2 = true.
Proof.
  destruct (db_observations ex_seen !! "thread-a") as [r|] eqn:E; [|vm_compute in E; discriminate].
  destruct (RecordNotifierRead_settles 5%Z 6%Z "thread-a" "turn-1" "completed" 100%Z 200%Z ex_seen r)
    as (s1 & s2 & H1 & H2 & H3 & _ & H5 & _); [reflexivity|discriminate|exact E|].
  exists s1, s2. split; [exact H1|]. split; [exact H2|]. split; [apply H3|].
  apply H5; vm_compute in E; injection E as <-; [discriminate|reflexivity|lia].
Defined.

(** A read that timed out is retried, not lost: the thread is due again exactly from
    the retry instant on, and nothing of what is known about it changes. *)
Theorem DeferNotifierRead_spec now retryAt threadID s r :
  trim_space threadID = threadID -> threadID <> "" ->
  db_observations s !! threadID = Some r -> ob_Retired r = false ->
  exists s1, DeferNotifierRead now retryAt threadID s = Ok s1
    /\ (forall at_, read_due threadID at_ s1 = (unix retryAt <=? at_)%Z)
    /\ (forall other, other <> threadID -> db_observations s1 !! other = db_observations s !! other)
    /\ NotifierObservationOf threadID s1
       = Some (mkNotifierObservation threadID (ob_LastUpdatedAt r) (default "" (ob_LastTurnID r))
                 (default "" (ob_LastTurnStatus r)) (ob_BaselineReady r) true (unix retryAt)
                 (ob_DiscoverySeq r)).
Proof.
  intros Ht Hne Hr Hret. unfold DeferNotifierRead, NotifierObservationOf, read_due. rewrite Ht.
  apply String.eqb_neq in Hne. rewrite Hne. eexists. split; [done|].
  cbn [db_observations set_observations]. rewrite lookup_alter_eq, Hr. cbn [fmap option_fmap option_map].
  rewrite Hret. split_and!; [intros at_| |done].
  - reflexivity.
  - intros other Ho. by rewrite lookup_alter_ne.
Qed.

Theorem DeferNotifierRead_spec_witness :
  exists s1, DeferNotifierRead 5%Z (30 * second)%Z "thread-a" ex_seen = Ok s1
    /\ read_due "thread-a" 29%Z s1 = false /\ read_due "thread-a" 30%Z s1 = true.
Proof.
  destruct (db_observations ex_seen !! "thread-a") as [r|] eqn:E; [|vm_compute in E; discriminate].
  destruct (DeferNotifierRead_spec 5%Z (30 * second)%Z "thread-a" ex_seen r) as (s1 & H1 & H2 & _);
    [reflexivity|discriminate|exact E|vm_compute in E; injection E as <-; reflexivity|].
  exists s1. split; [exact H1|]. split; rewrite H2; reflexivity.
Defined.
