(* ===== verification/Daemon.v ===== *)
(** * internal/daemon: calls that fail, and the store they act on

    The daemon's handlers run against the store and stop at the first error, with
    what they already wrote kept.  [M A] is that: a state monad over the store
    whose answer may be a fault. *)
From stdpp Require Import base list numbers strings gmap.
From Stdlib Require Import Lia Ascii.
From S2P Require Import Prelude GoStrings Json Control Store.

(** The errors the daemon tells apart. *)
Inductive fault : Type :=
| RPCError (code : Z) (message : string)
| DeadlineExceeded
| Canceled
| OtherError (message : string).

Inductive outcome (A : Type) : Type :=
| Done (a : A)
| Fault (e : fault).
Arguments Done {A} a.
Arguments Fault {A} e.

Definition M (A : Type) : Type := Store -> outcome A * Store.

Definition ret {A : Type} (a : A) : M A := fun s => (Done a, s).
Definition raise {A : Type} (e : fault) : M A := fun s => (Fault e, s).
Definition bind {A B : Type} (m : M A) (k : A -> M B) : M B :=
  fun s => match m s with
           | (Done a, s') => k a s'
           | (Fault e, s') => (Fault e, s')
           end.

Notation "'do!' x ':=' m 'in' k" := (bind m (fun x => k))
  (at level 10, x pattern, m at level 100, k at level 200) : bridge_scope.

(** Operations of the store, and calls to App Server. *)
Definition gets {A : Type} (f : Store -> A) : M A := fun s => (Done (f s), s).
Definition modify (f : Store -> Store) : M unit := fun s => (Done tt, f s).
Definition exec (f : Store -> res Store) : M unit :=
  fun s => match f s with Ok s' => (Done tt, s') | Err e => (Fault (OtherError e), s) end.
Definition query {A : Type} (f : Store -> res (A * Store)) : M A :=
  fun s => match f s with Ok (a, s') => (Done a, s') | Err e => (Fault (OtherError e), s) end.
Definition call {A : Type} (o : outcome A) : M A := fun s => (o, s).

(** for _, x := range l { if err := f(x); err != nil { return err } } *)
Fixpoint each {A : Type} (l : list A) (f : A -> M unit) : M unit :=
  match l with
  | [] => ret tt
  | x :: r => do! _ := f x in each r f
  end.

(** control.ThreadListOptions; Archived is a pointer. *)
Record ThreadListOptions : Type := mkThreadListOptions {
  tl_Limit : Z;
  tl_Cursor : string;
  tl_SortKey : string;
  tl_SortDirection : string;
  tl_SourceKinds : list string;
  tl_Archived : option bool }.

(** The poll session: what App Server answers.  [ThreadListWithOptions] is None on
    a session that cannot filter. *)
Record Session : Type := mkSession {
  ThreadRead : string -> outcome obj;
  ThreadListWithOptions : option (ThreadListOptions -> outcome obj) }.

(** ** Lemmas *)

Lemma each_app {A} (l k : list A) f s :
  each (l ++ k) f s = bind (each l f) (fun _ => each k f) s.
Proof.
  revert s. induction l as [|x l IH]; intros s; [done|]. cbn [each app]. unfold bind in *.
  destruct (f x s) as [[a|e] s']; [apply IH|done].
Qed.

(** An invariant of every turn is an invariant of the loop, fault or not. *)
Lemma each_invariant {A} (P : Store -> Prop) (l : list A) (f : A -> M unit) s :
  (forall x s, x ∈ l -> P s -> P (snd (f x s))) -> P s -> P (snd (each l f s)).
Proof.
  intros Hf. revert s. induction l as [|x l IH]; intros s Hs; [done|]. cbn [each]. unfold bind.
  pose proof (Hf x s ltac:(left) Hs) as H. destruct (f x s) as [[a|e] s'] eqn:E; [|done].
  apply IH; [|done]. intros y t Hy. apply Hf. by right.
Qed.
