(* ===== verification/NotifierObserver.v ===== *)
(** * internal/daemon/notifier_observer.go: from finished turns to queued messages

    A cycle lists the threads, arms the observations that changed, reads a few of
    them, and queues one terminal event per finished turn not seen before. *)
From stdpp Require Import base list numbers strings gmap.
From Stdlib Require Import Lia Ascii.
From S2P Require Import Prelude GoStrings Json GoTime Sql Model Control.
From S2P Require Import Normalize NotifierFormat Store StoreNotifier Daemon.

Definition notifierCatalogLimit : Z := 100.
Definition notifierSweepCursorKey : string := "notifier.sweep_cursor".
Definition notifierThreadReadBatchLimit : Z := 4.
Definition notifierThreadReadRetryDelay : Z := (30 * second)%Z.

Definition maxDuration (left right : Z) : Z := if (right <? left)%Z then left else right.

Definition notifierThreadReadTimeout (observerPollInterval requestTimeout : Z) : Z :=
  maxDuration (maxDuration (10 * second) (observerPollInterval * 2)) requestTimeout.

(** *** Discovery *)
Definition notifierListOptions (cursor : string) : ThreadListOptions :=
  mkThreadListOptions notifierCatalogLimit (trim_space cursor) "updated_at" "desc"
    ["cli"; "vscode"] (Some false).

Definition minimalListNextCursor (result : obj) : string :=
  default "" (first_some (fun key => match as_string (get result key) with
                                     | Some value => Some (trim_space value)
                                     | None => None
                                     end) ["nextCursor"; "next_cursor"; "cursor"]).

Definition observeNotifierListPage (now : instant) (result : obj) : M unit :=
  each (ThreadsFromList result) (fun thread =>
    exec (ObserveNotifierThread now (th_ID thread) (th_UpdatedAt thread))).

Definition discoverNotifierThreads (now : instant) (pollConnected : bool) (poll : option Session)
  : M unit :=
  match pollConnected, poll with
  | true, Some session =>
      match ThreadListWithOptions session with
      | None => ret tt
      | Some list_ =>
          do! head := call (list_ (notifierListOptions "")) in
          do! _ := observeNotifierListPage now head in
          do! stored := gets (GetState notifierSweepCursorKey) in
          let sweepCursor0 := trim_space stored in
          let sweepCursor := if String.eqb sweepCursor0 "" then minimalListNextCursor head
                             else sweepCursor0 in
          if String.eqb sweepCursor "" then
            modify (SetState (format_time now) notifierSweepCursorKey "")
          else
            do! sweep := call (list_ (notifierListOptions sweepCursor)) in
            do! _ := observeNotifierListPage now sweep in
            modify (SetState (format_time now) notifierSweepCursorKey (minimalListNextCursor sweep))
      end
  | _, _ => ret tt
  end.

(** *** Terminal turns *)
Definition isNotifierTerminalStatus (status : string) : bool :=
  existsb (String.eqb (canonicalMinimalTerminalStatus status)) ["completed"; "failed"; "interrupted"].

Definition notifierTerminalStatus (snapshot : ThreadReadSnapshot) : option string :=
  let status := canonicalMinimalTerminalStatus (sn_LatestTurnStatus snapshot) in
  if negb (isNotifierTerminalStatus status) then None
  else if String.eqb status "interrupted" && negb (snapshotHasFinalSignal snapshot) then None
  else Some status.

Definition notifierTerminalTransition (previous : NotifierObservation)
    (current : ThreadReadSnapshot) (activationUnix : Z) : bool :=
  match notifierTerminalStatus current with
  | None => false
  | Some status =>
      if String.eqb (sn_LatestTurnID current) "" then false
      else if negb (no_BaselineReady previous) then (activationUnix <? th_UpdatedAt (sn_Thread current))%Z
      else negb (String.eqb (no_LastTurnID previous) (sn_LatestTurnID current))
           || negb (String.eqb (canonicalMinimalTerminalStatus (no_LastTurnStatus previous)) status)
  end.

(** The first index whose turn is the previous one, the last index otherwise. *)
Fixpoint turn_index (previousTurnID : string) (snapshots : list ThreadReadSnapshot) (i : nat)
  : option nat :=
  match snapshots with
  | [] => None
  | s :: rest => if String.eqb (trim_space (sn_LatestTurnID s)) previousTurnID then Some i
                 else turn_index previousTurnID rest (S i)
  end.

Definition notifierStartIndex (previousTurnID0 : string) (snapshots : list ThreadReadSnapshot)
  : nat :=
  let previousTurnID := trim_space previousTurnID0 in
  let last_ := (length snapshots - 1)%nat in
  if String.eqb previousTurnID "" then last_
  else default last_ (turn_index previousTurnID snapshots 0).

(** The body of the loop of notifierTerminalSnapshotsSince. *)
Definition newTerminal (previous : NotifierObservation) (activationUnix : Z)
    (current : ThreadReadSnapshot) : bool :=
  match notifierTerminalStatus current with
  | None => false
  | Some _ => notifierTerminalTransition previous current activationUnix
  end.

Definition notifierTerminalSnapshotsSince (previous : NotifierObservation)
    (snapshots : list ThreadReadSnapshot) (activationUnix : Z) : list ThreadReadSnapshot :=
  match last_of snapshots with
  | None => []
  | Some latest =>
      if negb (no_BaselineReady previous) then
        if (th_UpdatedAt (sn_Thread latest) <=? activationUnix)%Z then []
        else match notifierTerminalStatus latest with None => [] | Some _ => [latest] end
      else
        filter (newTerminal previous activationUnix)
          (drop (notifierStartIndex (no_LastTurnID previous) snapshots) snapshots)
  end.

(** appserver.SnapshotFromThreadRead, which never panics. *)
Definition readSnapshot (payload : obj) : ThreadReadSnapshot :=
  default zeroSnapshot (SnapshotFromThreadRead payload).

Definition withThreadID (fallback : string) (s : ThreadReadSnapshot) : ThreadReadSnapshot :=
  if String.eqb (trim_space (th_ID (sn_Thread s))) ""
  then set_sn_Thread (set_th_ID fallback (sn_Thread s)) s else s.

Definition notifierTurnSnapshotsFromRead (payload : obj) (fallbackThreadID : string)
  : list ThreadReadSnapshot :=
  let threadPayload := threadObject payload in
  map (fun turn =>
         withThreadID (trim_space fallbackThreadID)
           (readSnapshot [("thread", JObj (put threadPayload "turns" (JArr [JObj turn])))]))
    (anyMaps (slice_or_nil (get threadPayload "turns"))).

(** *** Reading one thread and queueing its finished turns *)
Section Poll.
(** storage.MustJSON on a payload, the protector of the store and the clock. *)
Context (MustJSON : DeliveryPayload -> string) (protector : option Protector) (now : instant).

Definition notifierDeliveryItems (target : ObserverTarget) (event : TerminalEvent)
    (message : RenderedMessage) : list DeliveryQueueItem :=
  let payload := mkDeliveryPayload "" "" (te_ThreadID event) (te_TurnID event) ""
                   (te_TerminalKey event) 0 "" "" "" 0 "" [] (Some message) in
  [mkQueueItem 0 (te_TerminalKey event) (ChatKey (ot_ChatID target) (ot_TopicID target))
     (ot_ChatID target) (ot_TopicID target) (te_ThreadID event) "notifier_terminal"
     DeliveryStatusPending 0 (format_time now) "" (MustJSON payload) (format_time now)
     (format_time now) (te_TerminalKey event) 1 1].

Definition notifierTerminalEvent (threadID : string) (terminalSnapshot : ThreadReadSnapshot)
    (terminalStatus : string) : TerminalEvent :=
  mkTerminalEvent
    (threadID +:+ ":" +:+ sn_LatestTurnID terminalSnapshot +:+ ":" +:+ terminalStatus)
    threadID (sn_LatestTurnID terminalSnapshot) terminalStatus DeliveryStatusPending
    (format_time now).

Definition enqueueTerminalSnapshot (threadID : string) (target : ObserverTarget)
    (terminalSnapshot : ThreadReadSnapshot) : M unit :=
  match notifierTerminalStatus terminalSnapshot with
  | None => ret tt
  | Some terminalStatus =>
      let message := renderNotifierTerminal terminalSnapshot in
      let event := notifierTerminalEvent threadID terminalSnapshot terminalStatus in
      do! _ := query (EnqueueTerminalEvent protector (format_time now) event
                        (notifierDeliveryItems target event message)) in
      ret tt
  end.

Definition pollNotifierThread (session : Session) (previous : NotifierObservation)
    (activationUnix : Z) : M unit :=
  let threadID := trim_space (no_ThreadID previous) in
  if String.eqb threadID "" then ret tt
  else
    do! payload := call (ThreadRead session threadID) in
    let snapshot := withThreadID threadID (readSnapshot payload) in
    let turnSnapshots := match notifierTurnSnapshotsFromRead payload threadID with
                         | [] => [snapshot]
                         | l => l
                         end in
    let status := canonicalMinimalTerminalStatus (sn_LatestTurnStatus snapshot) in
    let terminalSnapshots := notifierTerminalSnapshotsSince previous turnSnapshots activationUnix in
    let record := exec (RecordNotifierRead now threadID (sn_LatestTurnID snapshot) status
                          (th_UpdatedAt (sn_Thread snapshot)) false) in
    match terminalSnapshots with
    | [] => record
    | _ =>
        do! found := gets (GetGlobalObserverTarget (format_time now)) in
        match found with
        | (Some target, true) =>
            if negb (ot_Enabled target) || (ot_ChatID target =? 0)%Z then ret tt
            else
              do! _ := each terminalSnapshots (enqueueTerminalSnapshot threadID target) in
              record
        | _ => ret tt
        end
    end.

Definition isUnreadableSubagentThreadReadError (err : fault) : bool :=
  match err with
  | RPCError code message =>
      (code =? -32603)%Z
      && contains (to_lower message) "failed to deserialize stored thread item"
      && contains (to_lower message) "subagent-completed-"
  | _ => false
  end.

(** [ctxErr] is ctx.Err(): at the start, and after the read of a thread. *)
Context (ctxErr : option string -> option fault).

(** The loop over the due observations; [firstErr] is the error to return.  Where the
    code joins two errors with errors.Join, the first of them stands for the pair. *)
Fixpoint pollDue (session : Session) (activationUnix : Z) (due : list NotifierObservation)
    (firstErr : option fault) : M unit :=
  match due with
  | [] => match firstErr with Some e => raise e | None => ret tt end
  | previous :: rest => fun s =>
      match pollNotifierThread session previous activationUnix s with
      | (Done _, s1) => pollDue session activationUnix rest firstErr s1
      | (Fault err, s1) =>
          match ctxErr (Some (no_ThreadID previous)) with
          | Some e => (Fault e, s1)
          | None =>
              if isUnreadableSubagentThreadReadError err then
                match exec (RecordNotifierRead now (no_ThreadID previous) (no_LastTurnID previous)
                              (no_LastTurnStatus previous) (no_LastUpdatedAt previous) false) s1 with
                | (Done _, s2) => pollDue session activationUnix rest firstErr s2
                | (Fault _, s2) => (Fault err, s2)
                end
              else
                let firstErr' := match firstErr with Some e => Some e | None => Some err end in
                match err with
                | DeadlineExceeded =>
                    match exec (DeferNotifierRead now (now + notifierThreadReadRetryDelay)%Z
                                  (no_ThreadID previous)) s1 with
                    | (Done _, s2) => pollDue session activationUnix rest firstErr' s2
                    | (Fault _, s2) => (Fault err, s2)
                    end
                | _ => pollDue session activationUnix rest firstErr' s1
                end
          end
      end
  end.

Definition pollNotifierThreads (pollConnected : bool) (poll : option Session) : M unit :=
  match ctxErr None with
  | Some e => raise e
  | None =>
      do! repairPending := gets (GetState "control.repair_request") in
      if negb (String.eqb (trim_space repairPending) "") then ret tt
      else
        match pollConnected, poll with
        | true, Some session =>
            do! activationUnix := query (EnsureNotifierActivation now) in
            do! _ := modify (BaselineNotifierObservationsAtOrBefore now activationUnix) in
            do! due := gets (ListNotifierObservationsDueAt notifierThreadReadBatchLimit now) in
            pollDue session activationUnix due None
        | _, _ => ret tt
        end
  end.

End Poll.
