(* ===== verification/Delivery.v ===== *)
(** * internal/daemon/service.go: the delivery worker

    processDeliveryBatch claims the rows that are due and sends each of them: a
    sent row becomes delivered, a failed one goes back to the queue with an
    exponential delay, or dies after the configured number of attempts.  Telegram,
    the JSON decoder and the commit of the completion are given by functions. *)
From stdpp Require Import base list numbers strings gmap.
From Stdlib Require Import Lia Ascii.
From S2P Require Import Prelude GoStrings Json Crypto GoTime Sql Model Store.

(** What the worker needs from outside. *)
Record Worker : Type := mkWorker {
  w_Protector : option Protector;
  w_RetryBase : Z;                      (* cfg.DeliveryRetryBase, nanoseconds *)
  w_MaxAttempts : Z;                    (* cfg.DeliveryMaxAttempts *)
  w_Decode : string -> res DeliveryPayload;      (* json.Unmarshal *)
  w_SendRendered : Z -> Z -> list RenderedMessage -> list (list ButtonSpec) -> list Z * option string;
  w_SendMessage : Z -> Z -> string -> list (list ButtonSpec) -> Z * option string;
  w_CommitError : Z -> option string;   (* the commit of the completion of a row *)
  w_Sanitize : string -> string;        (* sanitizeDiagnosticString *)
  w_Approval : DeliveryQueueItem -> Store -> Store  (* the three approval kinds *) }.

Definition deliveryErrorSummary (status0 : string) (message : string) : string :=
  let status := if existsb (String.eqb status0) ["decode_error"; "send_error"; "persist_error"]
                then status0 else "delivery_error" in
  "class=telegram_delivery status=" +:+ status
  +:+ " length=" +:+ format_int (Z.of_nat (String.length message))
  +:+ " sha256=" +:+ hex (take 6 (sha256_sum (bytes_of message))).

(** cfg.DeliveryRetryBase * time.Duration(1<<min(attempt-1, 4)) *)
Definition retryBackoff (base attempt : Z) : Z := wrap64 (base * 2 ^ Z.min (attempt - 1) 4).

Definition isApprovalKind (kind : string) : bool :=
  existsb (String.eqb kind)
    ["minimal_approval"; "minimal_approval_pc_cleanup"; "minimal_approval_inactive_edit"].

Definition setError (now : TimeString) (w : Worker) (message : string) (s : Store) : Store :=
  SetState now "daemon.last_error" (w_Sanitize w message) s.

(** _ = s.store.FailDelivery(...): an error of the store is dropped. *)
Definition ignore_error (f : Store -> res Store) (s : Store) : Store :=
  match f s with Ok s' => s' | Err _ => s end.

(** An attempt that failed, by the summary of its error. *)
Definition failSummary (now : instant) (w : Worker) (item : DeliveryQueueItem)
    (status summary : string) (s : Store) : Store :=
  let attempt := (qi_RetryCount item + 1)%Z in
  let at_ := format_time now in
  let s1 := RecordDeliveryAttempt at_ (qi_ID item) attempt status summary s in
  let dead := (w_MaxAttempts w <=? attempt)%Z in
  let backoff := retryBackoff (w_RetryBase w) attempt in
  ignore_error (FailDelivery (w_Protector w) at_ (qi_ID item) attempt (now + backoff)%Z summary dead) s1.

(** An attempt that failed with [message]. *)
Definition failAttempt (now : instant) (w : Worker) (item : DeliveryQueueItem)
    (status message : string) (s : Store) : Store :=
  let summary := deliveryErrorSummary status message in
  setError (format_time now) w summary (failSummary now w item status summary s).

(** The send: the message id, or the error. *)
Definition sendPayload (w : Worker) (item : DeliveryQueueItem) (payload : DeliveryPayload)
  : Z + string :=
  let '(messageID, err) :=
    match dp_Rendered payload with
    | Some rendered =>
        let '(ids, sendErr) := w_SendRendered w (qi_ChatID item) (qi_TopicID item) [rendered]
                                 (dp_Buttons payload) in
        (match ids with [id] => id | _ => 0%Z end, sendErr)
    | None => w_SendMessage w (qi_ChatID item) (qi_TopicID item) (dp_Text payload) (dp_Buttons payload)
    end in
  match err with
  | Some e => inr e
  | None => if (messageID <=? 0)%Z then inr "telegram delivery returned no message id"
            else inl messageID
  end.

(** The body of the loop of processDeliveryBatch. *)
Definition processDelivery (now : instant) (w : Worker) (item : DeliveryQueueItem) (s : Store)
  : Store :=
  let at_ := format_time now in
  if isApprovalKind (qi_Kind item) then w_Approval w item s
  else
    match w_Decode w (qi_PayloadJSON item) with
    | Err message =>
        let attempt := (qi_RetryCount item + 1)%Z in
        let summary := deliveryErrorSummary "decode_error" message in
        let s1 := RecordDeliveryAttempt at_ (qi_ID item) attempt "decode_error" summary s in
        let s2 := ignore_error (FailDelivery (w_Protector w) at_ (qi_ID item) attempt
                                  (now + w_RetryBase w)%Z summary true) s1 in
        setError at_ w summary s2
    | Ok payload =>
        match sendPayload w item payload with
        | inr message => failAttempt now w item "send_error" message s
        | inl messageID =>
            match w_CommitError w (qi_ID item) with
            | Some message => failAttempt now w item "persist_error" message s
            | None =>
                let route :=
                  if String.eqb (dp_ThreadID payload) "" then None
                  else Some (mkMessageRoute (qi_ChatID item) (qi_TopicID item) messageID
                               (dp_ThreadID payload) (dp_TurnID payload) (dp_ItemID payload)
                               (dp_EventID payload) at_) in
                let s1 := completeDelivery (w_Protector w) at_ (qi_ID item) route s in
                RecordDeliveryAttempt at_ (qi_ID item) (qi_RetryCount item + 1) "delivered" "" s1
            end
        end
    end.

(** [sender] is None before the bot is attached. *)
Definition processDeliveryBatch (now : instant) (sender : option Worker) (s : Store) : Store :=
  match sender with
  | None => s
  | Some w =>
  match ClaimDeliveryBatch (w_Protector w) (format_time now) 10 s with
  | Err _ => s
  | Ok (items, s1) => fold_left (fun st item => processDelivery now w item st) items s1
  end end.
