(* ===== verification/Queue.v ===== *)
(** * The delivery queue as a state machine, and what always holds of it

    A step is one operation on the queue, in the order the daemon may call them: the
    worker completes or fails only rows that are still claimed.  Operations on the other
    tables are one kind of step.  The transactions of the approvals that write the queue
    too are the steps that Writers.v adds.  The invariant is what the SQL relies on
    and nowhere states: readable payloads on live rows and none on the others,
    one row per event and chat, groups that start in their order. *)
From stdpp Require Import base list numbers strings gmap relations.
From Stdlib Require Import Lia Ascii Sorting.Sorted.
From S2P Require Import Prelude GoStrings GoTime Sql Model Store StoreNotifier.

Definition delivered (r : QueueRow) : bool := String.eqb (q_Status r) DeliveryStatusDelivered.

Definition processing (r : QueueRow) : bool := String.eqb (q_Status r) DeliveryStatusProcessing.

Definition dead (r : QueueRow) : bool := String.eqb (q_Status r) DeliveryStatusDead.

(** Claimed at least once and not returned to the queue. *)
Definition started (r : QueueRow) : bool := processing r || delivered r.

(** What no UPDATE changes. *)
Definition identity (r : QueueRow) : Z * (string * string) * option string * Z * Z :=
  (q_ID r, (q_EventID r, q_ChatKey r), q_GroupID r, q_SequenceNo r, q_SequenceCount r).

(** An envelope of the protector, which it reads back. *)
Definition readable (p : Protector) (envelope : string) : Prop :=
  has_prefix envelope protectedPayloadEnvelopePrefix = true /\ exists text, Unprotect p envelope = Ok text.

(** A live row has a readable payload; a finished one has none. *)
Definition payload_ok (p : Protector) (r : QueueRow) : Prop :=
  if live r then exists envelope, q_Payload r = Some envelope /\ readable p envelope
  else q_Payload r = None.

Definition known_status (r : QueueRow) : bool :=
  is_status r [DeliveryStatusPending; DeliveryStatusRetry; DeliveryStatusProcessing;
               DeliveryStatusDelivered; DeliveryStatusDead].

(** The rows of a group are numbered within it. *)
Definition numbered (rows : list QueueRow) : Prop :=
  forall r r' g, r ∈ rows -> r' ∈ rows -> q_GroupID r = Some g -> q_GroupID r' = Some g ->
    (q_SequenceNo r <= q_SequenceCount r)%Z /\ q_SequenceCount r' = q_SequenceCount r
    /\ (q_SequenceNo r' = q_SequenceNo r -> r' = r).

(** A row starts only when the earlier rows of its group are delivered. *)
Definition in_order (rows : list QueueRow) : Prop :=
  forall r r' g, r ∈ rows -> r' ∈ rows -> q_GroupID r = Some g -> q_GroupID r' = Some g ->
    (q_SequenceNo r' < q_SequenceNo r)%Z -> started r = true -> delivered r' = true.

(** A terminal event that counts as delivered has all its messages delivered. *)
Definition settled (rows : list QueueRow) (t : gmap string TerminalEvent) : Prop :=
  forall g e r, t !! g = Some e -> te_DeliveryStatus e = DeliveryStatusDelivered ->
    r ∈ rows -> q_GroupID r = Some g -> delivered r = true.

Record Inv (p : Protector) (s : Store) : Prop := mkInv {
  inv_ids : StronglySorted Z.lt (map q_ID (db_queue s));
  inv_seq : forall r, r ∈ db_queue s -> (q_ID r <= db_queueSeq s)%Z;
  inv_targets : NoDup (map (fun r => (q_EventID r, q_ChatKey r)) (db_queue s));
  inv_rows : forall r, r ∈ db_queue s -> known_status r = true /\ payload_ok p r;
  inv_keys : forall r g, r ∈ db_queue s -> q_GroupID r = Some g -> is_Some (db_terminal s !! g);
  inv_numbered : numbered (db_queue s);
  inv_order : in_order (db_queue s);
  inv_settled : settled (db_queue s) (db_terminal s) }.

(** The items of one terminal event: its group, numbered from 1 to their count. *)
Definition numbered_items (key : string) (items : list DeliveryQueueItem) : Prop :=
  Forall (fun item => qi_GroupID item = key
                      /\ (qi_SequenceNo item <= Z.of_nat (length items))%Z
                      /\ qi_SequenceCount item = Z.of_nat (length items)) items
  /\ NoDup (map qi_SequenceNo items).

Definition claimed (id : Z) (s : Store) : Prop :=
  exists r, find_row id (db_queue s) = Some r /\ processing r = true.

(** The operations whose purpose is the queue.  The approvals and the ready notice write it
    in transactions of their own: Writers.v adds them. *)
Inductive queue_step (p : Protector) : Store -> Store -> Prop :=
| step_enqueue now item s s' :
    existsb (String.eqb (qi_Status item)) [DeliveryStatusPending; DeliveryStatusRetry] = true ->
    EnqueueDelivery (Some p) now item s = Ok s' ->
    queue_step p s s'
| step_terminal now event items release s b s' :
    numbered_items (te_TerminalKey event) items ->
    EnqueueTerminalEventWithLinkedRelease (Some p) now event items release s = Ok (b, s') ->
    queue_step p s s'
| step_claim now limit s out s' :
    ClaimDeliveryBatch (Some p) now limit s = Ok (out, s') ->
    queue_step p s s'
| step_complete now id route s :
    claimed id s ->
    queue_step p s (completeDelivery (Some p) now id route s)
| step_fail now id retry availableAt err is_dead s s' :
    claimed id s ->
    FailDelivery (Some p) now id retry availableAt err is_dead s = Ok s' ->
    queue_step p s s'
| step_migrate now s :
    queue_step p s (snd (MigrateNotifierProfile now s))
| step_reopen now s s' :
    migrateProtectedDeliveryPayloads p now s = Ok s' ->
    queue_step p s s'
| step_other s s' :
    db_queue s' = db_queue s -> db_queueSeq s' = db_queueSeq s -> db_terminal s' = db_terminal s ->
    queue_step p s s'.

(** What opening the store makes of a row: it keeps its place, it is not in processing,
    and if it was it waits again, or died if it was an approval. *)
Definition reopened (p : Protector) (r r' : QueueRow) : Prop :=
  identity r' = identity r /\ known_status r' = true /\ payload_ok p r' /\ processing r' = false
  /\ delivered r' = delivered r /\ (dead r = true -> dead r' = true)
  /\ (processing r = true -> q_Status r' = DeliveryStatusRetry
        \/ (q_Kind r = "minimal_approval" /\ q_Status r' = DeliveryStatusDead))
  /\ stale_payload r' = false.

(** The rows of a group as its transaction inserts them. *)
Definition group_so_far (key : string) (n : Z) (seen : list Z) (s : Store) : Prop :=
  forall r, r ∈ db_queue s -> q_GroupID r = Some key ->
    waiting r = true /\ q_SequenceCount r = n /\ q_SequenceNo r ∈ seen.

(** ** Lemmas on updates *)

Lemma find_row_some id rows r : find_row id rows = Some r -> r ∈ rows /\ q_ID r = id.
Proof.
  intros H. apply first_some_spec in H as (x & Hx & H). unfold id_is in H.
  destruct (Z.eqb_spec (q_ID x) id); naive_solver.
Qed.

Lemma find_row_update id q f rows :
  (forall r, q_ID (f r) = q_ID r) ->
  find_row id (update_where q f rows) = (fun r => if q r then f r else r) <$> find_row id rows.
Proof.
  intros H. unfold find_row, update_where. induction rows as [|r rows IH]; [done|].
  cbn [map first_some]. unfold id_is in *.
  assert (q_ID (if q r then f r else r) = q_ID r) as -> by (destruct (q r); by rewrite ?H).
  destruct (Z.eqb_spec (q_ID r) id); [done|]. apply IH.
Qed.

Lemma ids_inj rows r r' :
  StronglySorted Z.lt (map q_ID rows) -> r ∈ rows -> r' ∈ rows -> q_ID r = q_ID r' -> r = r'.
Proof.
  induction rows as [|x rows IH]; cbn [map]; intros Hs Hr Hr' E; [by apply elem_of_nil in Hr|].
  apply StronglySorted_inv in Hs as [Hs Hx]. rewrite Forall_forall in Hx.
  apply elem_of_cons in Hr as [->|Hr]; apply elem_of_cons in Hr' as [->|Hr']; [done|..|by apply IH].
  - specialize (Hx (q_ID r') ltac:(by apply list_elem_of_fmap_2)). lia.
  - specialize (Hx (q_ID r) ltac:(by apply list_elem_of_fmap_2)). lia.
Qed.

(** Statuses exclude one another. *)
Lemma live_cases r : live r = true <->
  q_Status r = DeliveryStatusPending \/ q_Status r = DeliveryStatusRetry
  \/ q_Status r = DeliveryStatusProcessing.
Proof.
  unfold live, is_status. cbn [existsb]. rewrite !orb_true_iff, !String.eqb_eq. naive_solver.
Qed.

Lemma waiting_cases r : waiting r = true <->
  q_Status r = DeliveryStatusPending \/ q_Status r = DeliveryStatusRetry.
Proof.
  unfold waiting, is_status. cbn [existsb]. rewrite !orb_true_iff, !String.eqb_eq. naive_solver.
Qed.

Lemma started_cases r : started r = true <->
  q_Status r = DeliveryStatusProcessing \/ q_Status r = DeliveryStatusDelivered.
Proof. unfold started, processing, delivered. by rewrite orb_true_iff, !String.eqb_eq. Qed.

Lemma status_excl :
  DeliveryStatusPending <> DeliveryStatusDelivered /\ DeliveryStatusRetry <> DeliveryStatusDelivered
  /\ DeliveryStatusProcessing <> DeliveryStatusDelivered /\ DeliveryStatusDead <> DeliveryStatusDelivered
  /\ DeliveryStatusPending <> DeliveryStatusProcessing /\ DeliveryStatusRetry <> DeliveryStatusProcessing
  /\ DeliveryStatusDead <> DeliveryStatusProcessing.
Proof. by repeat split. Qed.

Lemma identity_inv x y :
  identity x = identity y ->
  q_ID x = q_ID y /\ q_EventID x = q_EventID y /\ q_ChatKey x = q_ChatKey y
  /\ q_GroupID x = q_GroupID y /\ q_SequenceNo x = q_SequenceNo y
  /\ q_SequenceCount x = q_SequenceCount y.
Proof. unfold identity. intros E. injection E. intros. by split_and!. Qed.

(** A row rewritten in place, keeping its identity. *)
Lemma Inv_map p s (f : QueueRow -> QueueRow) t' :
  Inv p s ->
  (forall r, identity (f r) = identity r) ->
  (forall r, r ∈ db_queue s -> known_status (f r) = true /\ payload_ok p (f r)) ->
  in_order (map f (db_queue s)) ->
  settled (map f (db_queue s)) t' ->
  (forall g, is_Some (db_terminal s !! g) -> is_Some (t' !! g)) ->
  Inv p (set_terminal t' (set_queue (map f (db_queue s)) s)).
Proof.
  intros [Hids Hseq Htg Hrows Hkeys Hnum Hord Hset] Hf Hok Hord' Hset' Hdom.
  pose proof (fun r => identity_inv _ _ (Hf r)) as Hproj.
  constructor; cbn [db_queue db_queueSeq db_terminal set_terminal set_queue].
  - rewrite map_map. rewrite (map_ext _ q_ID); [done|]. intros r. apply Hproj.
  - intros x (r & -> & Hr)%list_elem_of_fmap. destruct (Hproj r) as [-> _]. by apply Hseq.
  - rewrite map_map. erewrite map_ext; [exact Htg|]. intros r. by destruct (Hproj r) as (_ & -> & -> & _).
  - intros x (r & -> & Hr)%list_elem_of_fmap. by apply Hok.
  - intros x g (r & -> & Hr)%list_elem_of_fmap Hg. apply Hdom.
    destruct (Hproj r) as (_ & _ & _ & E & _). rewrite E in Hg. by eapply Hkeys.
  - intros x x' g (r & -> & Hr)%list_elem_of_fmap (r' & -> & Hr')%list_elem_of_fmap Hg Hg'.
    destruct (Hproj r) as (_ & _ & _ & E1 & E2 & E3), (Hproj r') as (_ & _ & _ & F1 & F2 & F3).
    rewrite E1 in Hg. rewrite F1 in Hg'. rewrite E2, E3, F2, F3.
    destruct (Hnum r r' g Hr Hr' Hg Hg') as (? & ? & Hu). split_and!; [done|done|]. intros E. by rewrite Hu.
  - done.
  - done.
Qed.

(** An update that starts nothing and keeps what is delivered keeps the order. *)
Lemma in_order_map rows f :
  in_order rows -> (forall r, identity (f r) = identity r) ->
  (forall r, r ∈ rows -> started (f r) = true -> started r = true) ->
  (forall r, r ∈ rows -> delivered r = true -> delivered (f r) = true) ->
  in_order (map f rows).
Proof.
  intros Ho Hf Hs Hd x x' g (r & -> & Hr)%list_elem_of_fmap (r' & -> & Hr')%list_elem_of_fmap Hg Hg' Hlt Hst.
  destruct (identity_inv _ _ (Hf r)) as (_ & _ & _ & E1 & E2 & _).
  destruct (identity_inv _ _ (Hf r')) as (_ & _ & _ & F1 & F2 & _).
  apply Hd; [done|]. apply (Ho r r' g); [done|done|congruence|congruence|lia|by apply Hs].
Qed.

Lemma settled_map rows f t :
  settled rows t -> (forall r, identity (f r) = identity r) ->
  (forall r, r ∈ rows -> delivered r = true -> delivered (f r) = true) ->
  settled (map f rows) t.
Proof.
  intros Hs Hf Hd g e x Ht He (r & -> & Hr)%list_elem_of_fmap Hg.
  apply Hd; [done|]. eapply Hs; [done|done|done|]. by destruct (identity_inv _ _ (Hf r)) as (_ & _ & _ & <- & _).
Qed.

(** Both together, on unchanged or relabelled terminal events. *)
Lemma Inv_map_quiet p s (f : QueueRow -> QueueRow) :
  Inv p s ->
  (forall r, identity (f r) = identity r) ->
  (forall r, r ∈ db_queue s -> known_status (f r) = true /\ payload_ok p (f r)) ->
  (forall r, r ∈ db_queue s -> started (f r) = true -> started r = true) ->
  (forall r, r ∈ db_queue s -> delivered r = true -> delivered (f r) = true) ->
  Inv p (set_terminal (db_terminal s) (set_queue (map f (db_queue s)) s)).
Proof.
  intros HI Hf Hok Hs Hd. apply Inv_map; [done..| | |done].
  - apply in_order_map; [apply HI|done..].
  - apply settled_map; [apply HI|done..].
Qed.

Lemma Inv_ext p s s' :
  db_queue s' = db_queue s -> db_queueSeq s' = db_queueSeq s -> db_terminal s' = db_terminal s ->
  Inv p s -> Inv p s'.
Proof. intros E1 E2 E3 []. constructor; rewrite ?E1, ?E2, ?E3; done. Qed.

(** ** Claiming *)

Lemma map_res_ok {A B} (f : A -> res B) l out :
  map_res f l = Ok out <-> Forall2 (fun x y => f x = Ok y) l out.
Proof.
  revert out. induction l as [|x l IH]; intros out; cbn [map_res].
  - split; [intros [= <-]; constructor|]. intros H. by inversion H.
  - unfold res_bind. destruct (f x) as [y|e] eqn:E.
    + destruct (map_res f l) as [ys|e] eqn:E2.
      * split; [intros [= <-]; constructor; [done|by apply IH]|].
        intros H. inversion H; subst. f_equal. assert (Ok ys = Ok l') as [= ->] by (by apply IH). congruence.
      * split; [done|]. intros H. inversion H; subst. assert (Err e = Ok l') by (by apply IH). done.
    + split; [done|]. intros H. inversion H; congruence.
Qed.

Lemma scan_row_id protector r item : scan_row protector r = Ok item -> qi_ID item = q_ID r.
Proof.
  unfold scan_row. destruct (q_Payload r); [|done]. unfold res_bind.
  destruct (unprotect_with _ _); [|done]. by intros [= <-].
Qed.

Lemma claimed_ids protector rows out :
  map_res (scan_row protector) rows = Ok out -> map qi_ID out = map q_ID rows.
Proof.
  intros H. apply map_res_ok in H. induction H as [|r item rows out Hr _ IH]; [done|].
  cbn [map]. by rewrite IH, (scan_row_id _ _ _ Hr).
Qed.

Lemma elem_of_claim_rows limit now s r :
  r ∈ claim_rows limit now s -> r ∈ db_queue s /\ claimable (db_queue s) now r = true.
Proof.
  unfold claim_rows. intros H. apply elem_of_take in H as (i & H & _).
  apply list_elem_of_lookup_2, list_elem_of_filter in H as [H1 H2]. split; [done|by apply Is_true_true].
Qed.

Lemma claim_selects p limit now s out r :
  Inv p s -> map_res (scan_row (Some p)) (claim_rows limit now s) = Ok out -> r ∈ db_queue s ->
  has_id (map qi_ID out) r = true -> r ∈ claim_rows limit now s.
Proof.
  intros HI Hout Hr Hid. rewrite (claimed_ids _ _ _ Hout) in Hid.
  unfold has_id in Hid. apply existsb_exists in Hid as (i & Hi & E).
  apply Z.eqb_eq in E. apply list_elem_of_In, list_elem_of_fmap in Hi as (x & -> & Hx).
  assert (r = x) as ->; [|done]. apply elem_of_claim_rows in Hx as Hx'.
  eapply ids_inj; [apply HI|done|apply Hx'|done].
Qed.

Lemma predecessors_delivered_spec rows q r g :
  predecessors_delivered rows q = true -> q_GroupID q = Some g -> r ∈ rows -> q_GroupID r = Some g ->
  (q_SequenceNo r < q_SequenceNo q)%Z -> delivered r = true.
Proof.
  unfold predecessors_delivered. intros H Hq Hr Hg Hlt. rewrite Hq, forallb_forall in H.
  specialize (H r ltac:(by apply list_elem_of_In)). unfold is_text in H. rewrite Hg, String.eqb_refl in H.
  apply Z.ltb_lt in Hlt. rewrite Hlt in H. cbn [andb] in H. by apply negb_true_iff, negb_false_iff in H.
Qed.

Lemma waiting_not_started r : waiting r = true -> started r = false /\ delivered r = false.
Proof.
  rewrite waiting_cases. unfold started, processing, delivered. intros [->| ->]; done.
Qed.

Lemma claimable_spec rows now r :
  claimable rows now r = true ->
  waiting r = true /\ text_le (q_AvailableAt r) now = true /\ predecessors_delivered rows r = true.
Proof. unfold claimable. intros H. bsimp. auto. Qed.

Lemma claimable_not_delivered rows now r : claimable rows now r = true -> delivered r = true -> False.
Proof. intros (Hw & _)%claimable_spec Hd. destruct (waiting_not_started r Hw). congruence. Qed.

Lemma Inv_claim p now limit s out s' :
  Inv p s -> ClaimDeliveryBatch (Some p) now limit s = Ok (out, s') -> Inv p s'.
Proof.
  intros HI. unfold ClaimDeliveryBatch. destruct (map_res _ _) as [items|] eqn:E; [|done].
  intros [= <- <-].
  assert (Hcl : forall r, r ∈ db_queue s -> has_id (map qi_ID items) r = true ->
            claimable (db_queue s) now r = true).
  { intros r Hr Hid. eapply elem_of_claim_rows. by eapply claim_selects. }
  apply (Inv_map p s _ (db_terminal s)); [done|..].
  - intros r. by destruct (has_id _ r).
  - intros r Hr. destruct (inv_rows _ _ HI r Hr) as [Hk Hp]. destruct (has_id _ r) eqn:Hid; [|done].
    destruct (claimable_spec _ _ _ (Hcl r Hr Hid)) as [Hw _].
    split; [done|].
    assert (live r = true) as Hl by (apply live_cases; rewrite waiting_cases in Hw; tauto).
    unfold payload_ok in *. by rewrite Hl in Hp.
  - intros x x' g (r & -> & Hr)%list_elem_of_fmap (r' & -> & Hr')%list_elem_of_fmap Hg Hg' Hlt Hst.
    assert (Hd : delivered r' = true).
    { destruct (has_id _ r) eqn:Hid.
      - destruct (claimable_spec _ _ _ (Hcl r Hr Hid)) as (_ & _ & Hpre).
        eapply (predecessors_delivered_spec _ r); [done|exact Hg|exact Hr'|by destruct (has_id _ r')|].
        by destruct (has_id _ r').
      - eapply (inv_order _ _ HI r r' g); [done|done|done|by destruct (has_id _ r')|by destruct (has_id _ r')|done]. }
    destruct (has_id _ r') eqn:Hid'; [|done]. by destruct (claimable_not_delivered _ _ _ (Hcl r' Hr' Hid') Hd).
  - apply settled_map; [apply HI|intros r; by destruct (has_id _ r)|].
    intros r Hr Hd. destruct (has_id _ r) eqn:Hid; [|done].
    by destruct (claimable_not_delivered _ _ _ (Hcl r Hr Hid) Hd).
  - done.
Qed.

(** ** Completing *)

Lemma claimed_row p s id : Inv p s -> claimed id s ->
  exists r, r ∈ db_queue s /\ q_ID r = id /\ processing r = true /\ find_row id (db_queue s) = Some r
    /\ (forall r', r' ∈ db_queue s -> id_is id r' = true -> r' = r).
Proof.
  intros HI (r & Hf & Hp). destruct (find_row_some _ _ _ Hf) as [Hr Hid]. exists r. split_and!; [done..|].
  intros r' Hr' Hid'. apply Z.eqb_eq in Hid'. eapply ids_inj; [apply HI|done|done|congruence].
Qed.

Lemma processing_cases r : processing r = true <-> q_Status r = DeliveryStatusProcessing.
Proof. unfold processing. apply String.eqb_eq. Qed.

Lemma set_delivery_status_some key v now t g :
  is_Some (t !! g) -> is_Some (set_delivery_status key v now t !! g).
Proof.
  destruct key as [k|]; [|done]. unfold set_delivery_status. intros [e He].
  destruct (decide (g = k)) as [->|Hne].
  - rewrite lookup_alter_eq, He. by eexists.
  - rewrite lookup_alter_ne by done. by eexists.
Qed.

Lemma set_delivery_status_lookup key v now t g e :
  set_delivery_status key v now t !! g = Some e ->
  (key = Some g /\ te_DeliveryStatus e = v) \/ t !! g = Some e.
Proof.
  destruct key as [k|]; [|auto]. unfold set_delivery_status.
  destruct (decide (g = k)) as [->|Hne].
  - rewrite lookup_alter_eq. destruct (t !! k); [|done]. intros [= <-]. by left.
  - rewrite lookup_alter_ne by done. auto.
Qed.

Lemma Inv_complete p now id route s :
  Inv p s -> claimed id s -> Inv p (completeDelivery (Some p) now id route s).
Proof.
  intros HI Hc. destruct (claimed_row _ _ _ HI Hc) as (r0 & Hr0 & Hid & Hp & Hf & Hu).
  apply processing_cases in Hp as Hst.
  unfold completeDelivery. cbv zeta.
  set (s1 := match route with Some r => route_upsert now r s | None => s end).
  assert (Hs1 : db_queue s1 = db_queue s /\ db_queueSeq s1 = db_queueSeq s /\ db_terminal s1 = db_terminal s)
    by (unfold s1; by destruct route).
  assert (HI1 : Inv p s1) by (apply (Inv_ext p s); [apply Hs1..|done]).
  destruct Hs1 as (E1 & _ & E3). clearbody s1. rewrite <- E1 in Hr0, Hu, Hf. clear E1 HI Hc.
  rewrite find_row_update, Hf by done. cbn [fmap option_fmap option_map].
  assert (id_is id r0 = true) as Hidr by (by apply Z.eqb_eq). rewrite Hidr.
  set (f := fun r => if id_is id r then upd_payload None (upd_status DeliveryStatusDelivered now r) else r).
  change (update_where _ _ _) with (map f (db_queue s1)).
  assert (Hfid : forall r, identity (f r) = identity r) by (intros r; unfold f; by destruct (id_is id r)).
  assert (Hfst : forall r, r ∈ db_queue s1 -> started (f r) = true -> started r = true).
  { intros r Hr. unfold f. destruct (id_is id r) eqn:E; [|done]. rewrite (Hu r Hr E).
    intros _. apply started_cases. auto. }
  assert (Hfd : forall r, r ∈ db_queue s1 -> delivered r = true -> delivered (f r) = true).
  { intros r Hr. unfold f. by destruct (id_is id r). }
  assert (Hord : in_order (map f (db_queue s1))) by (apply in_order_map; [apply HI1|done..]).
  apply Inv_map; [done|done| |done| |].
  - intros r Hr. unfold f. destruct (id_is id r); [done|by apply (inv_rows _ _ HI1)].
  - intros g e x Ht He (r & -> & Hr)%list_elem_of_fmap Hg.
    apply set_delivery_status_lookup in Ht as [[Hk _]|Ht].
    + cbn [q_SequenceNo q_SequenceCount q_GroupID upd_status upd_payload] in Hk.
      destruct (Z.eqb_spec (q_SequenceNo r0) (q_SequenceCount r0)) as [Es|]; [|done].
      destruct (identity_inv _ _ (Hfid r)) as (_ & _ & _ & G1 & S1 & _).
      destruct (identity_inv _ _ (Hfid r0)) as (_ & _ & _ & G2 & S2 & _).
      assert (Hgr : q_GroupID r = Some g) by congruence.
      destruct (inv_numbered _ _ HI1 r r0 g Hr Hr0 Hgr Hk) as (Hle & Hc & Heq).
      destruct (decide (q_SequenceNo r = q_SequenceNo r0)) as [E|Hne].
      * rewrite (Heq (eq_sym E)) in Hidr. unfold f. by rewrite Hidr.
      * apply (Hord (f r0) (f r) g); [by apply list_elem_of_fmap_2..| |done| |].
        -- congruence.
        -- lia.
        -- unfold f. by rewrite Hidr.
    + apply Hfd; [done|]. eapply (inv_settled _ _ HI1); [done|done|done|].
      by destruct (identity_inv _ _ (Hfid r)) as (_ & _ & _ & <- & _).
  - intros g. apply set_delivery_status_some.
Qed.

(** ** Failing *)

(** A row that is not delivered may die at any time: nothing in its group counts as
    delivered because of it. *)
Lemma Inv_fail_dead p now id retry availableAt err s s' r0 :
  Inv p s -> find_row id (db_queue s) = Some r0 -> delivered r0 = false ->
  FailDelivery (Some p) now id retry availableAt err true s = Ok s' -> Inv p s'.
Proof.
  intros HI Hf Hnd0. destruct (find_row_some _ _ _ Hf) as [Hr0 Hid].
  assert (Hnd : forall r, r ∈ db_queue s -> id_is id r = true -> delivered r = true -> False).
  { intros r Hr Hi%Z.eqb_eq. assert (r = r0) as -> by (eapply ids_inj; [apply HI|done|done|congruence]). congruence. }
  unfold FailDelivery. cbv zeta.
  rewrite find_row_update, Hf by done. cbn [fmap option_fmap option_map].
  assert (id_is id r0 = true) as Hidr by (by apply Z.eqb_eq). rewrite Hidr.
  set (f := fun r => if id_is id r
    then upd_payload None (upd_retry retry (format_time availableAt) (nullable err)
           (upd_status DeliveryStatusDead now r)) else r).
  change (update_where _ _ _) with (map f (db_queue s)).
  assert (H1 : Inv p (set_terminal (db_terminal s) (set_queue (map f (db_queue s)) s))).
  { apply Inv_map_quiet; [done|intros r; unfold f; by destruct (id_is id r)|..];
      intros r Hr; unfold f; destruct (id_is id r) eqn:E; try done; [by apply HI|].
    intros Hd. by destruct (Hnd r Hr E). }
  cbn [q_GroupID upd_payload upd_retry upd_status].
  destruct (q_GroupID r0) as [g|] eqn:Hg;
    [|intros [= <-]; by apply (Inv_ext p _ _ eq_refl eq_refl eq_refl) in H1].
  destruct (String.eqb (trim_space g) "");
    [intros [= <-]; by apply (Inv_ext p _ _ eq_refl eq_refl eq_refl) in H1|].
  intros [= <-]. set (s1 := set_terminal _ _) in H1.
  change (map f (db_queue s)) with (db_queue s1).
  apply (Inv_ext p (set_terminal (set_delivery_status (Some g) DeliveryStatusDead now (db_terminal s1))
           (set_queue (kill_group g now (db_queue s1)) s1))); [done..|].
  unfold kill_group, update_where. apply Inv_map; [done| | | | |].
  + intros r. by case_match.
  + intros r Hr. case_match; [done|by apply H1].
  + apply in_order_map; [apply H1|intros r; by case_match|..]; intros r Hr; case_match; try done.
    bsimp. unfold delivered. intros ?%String.eqb_eq. congruence.
  + intros k e x Ht He (r & -> & Hr)%list_elem_of_fmap Hgx.
    apply set_delivery_status_lookup in Ht as [[_ Hdead]|Ht]; [by rewrite He in Hdead|].
    assert (Hd : delivered r = true).
    { eapply (inv_settled _ _ H1); [done..|]. by destruct (_ && _). }
    unfold delivered in *. rewrite Hd. cbn [negb]. by rewrite andb_false_r.
  + intros k. apply set_delivery_status_some.
Qed.

(** The row in hand. *)
Lemma Inv_fail p now id retry availableAt err is_dead s s' :
  Inv p s -> claimed id s ->
  FailDelivery (Some p) now id retry availableAt err is_dead s = Ok s' -> Inv p s'.
Proof.
  intros HI Hc. destruct (claimed_row _ _ _ HI Hc) as (r0 & Hr0 & Hid & Hp & Hf & Hu).
  apply processing_cases in Hp as Hst.
  destruct is_dead; [apply (Inv_fail_dead p now id retry availableAt err s s' r0 HI Hf); unfold delivered; by rewrite Hst|].
  assert (Hnd : forall r, r ∈ db_queue s -> id_is id r = true -> delivered r = true -> False).
  { intros r Hr Hi. rewrite (Hu r Hr Hi). unfold delivered. by rewrite Hst. }
  unfold FailDelivery. cbv zeta.
  intros [= <-].
  eapply (Inv_ext p _ _ eq_refl eq_refl eq_refl). unfold update_where.
  apply Inv_map_quiet; [done|intros r; by destruct (id_is id r)|..];
    intros r Hr; destruct (id_is id r) eqn:E; try done; [|by apply HI|].
  + split; [done|]. rewrite (Hu r Hr E). destruct (inv_rows _ _ HI r0 Hr0) as [_ Hpay].
    unfold payload_ok in *. assert (live r0 = true) as Hl
      by (apply live_cases; apply processing_cases in Hp; auto). by rewrite Hl in Hpay.
  + intros Hd. by destruct (Hnd r Hr E).
Qed.

(** ** Switching to the notifier profile *)
Lemma Inv_migrate p now s : Inv p s -> Inv p (snd (MigrateNotifierProfile now s)).
Proof.
  intros HI. unfold MigrateNotifierProfile. destruct (String.eqb _ "done"); [done|]. cbv zeta. cbn [snd].
  assert (Hw : forall r, foreign_waiting r = true -> waiting r = true)
    by (intros r; unfold foreign_waiting; by intros [? _]%andb_prop).
  set (t' := map_imap _ _).
  set (f := fun r => if foreign_waiting r
    then upd_payload None (upd_status DeliveryStatusDead (format_time now) r) else r).
  apply (Inv_ext p (set_terminal t' (set_queue (map f (db_queue s)) s))); [done..|].
  unfold f, t'. apply Inv_map; [done| | | | |].
  - intros r. by destruct (foreign_waiting r).
  - intros r Hr. destruct (foreign_waiting r); [done|by apply HI].
  - apply in_order_map; [apply HI|intros r; by destruct (foreign_waiting r)|..];
      intros r Hr; destruct (foreign_waiting r) eqn:E; try done.
    apply Hw, waiting_not_started in E. destruct E. congruence.
  - intros g e x Ht He (r & -> & Hr)%list_elem_of_fmap Hg. rewrite map_lookup_imap in Ht.
    destruct (db_terminal s !! g) as [e0|] eqn:E0; [|done]. cbn [mbind option_bind] in Ht.
    destruct (migration_retires _ _); injection Ht as <-; [done|].
    assert (Hd : delivered r = true).
    { eapply (inv_settled _ _ HI); [done..|]. by destruct (foreign_waiting r). }
    destruct (foreign_waiting r) eqn:E; [|done]. apply Hw, waiting_not_started in E. destruct E. congruence.
  - intros g [e He]. rewrite map_lookup_imap, He. by eexists.
Qed.

(** ** Reopening *)
Lemma readable_protect p `{!ProtectorLaws p} text envelope : Protect p text = Ok envelope -> readable p envelope.
Proof.
  intros H. split; [by eapply protect_envelope|]. exists text. by apply unprotect_protect.
Qed.

Lemma live_payload p r : payload_ok p r -> live r = true -> exists e, q_Payload r = Some e /\ readable p e.
Proof. unfold payload_ok. intros H Hl. by rewrite Hl in H. Qed.

Lemma reopened_same p r :
  known_status r = true -> payload_ok p r -> processing r = false -> reopened p r r.
Proof.
  intros Hk Hp Hpr. split_and!; try done; [by rewrite Hpr|]. unfold stale_payload, payload_ok, live in *.
  destruct (is_status r [DeliveryStatusDelivered; _]) eqn:E; [|done].
  unfold is_status in *. cbn [existsb] in *.
  destruct (String.eqb_spec (q_Status r) DeliveryStatusDelivered) as [Hs|_];
    [|destruct (String.eqb_spec (q_Status r) DeliveryStatusDead) as [Hs|_]; [|done]];
    rewrite Hs in Hp; cbn in Hp; by rewrite Hp.
Qed.

(** Reopening never fails on a row the daemon wrote. *)
Lemma migrate_row_spec p now r :
  known_status r = true -> payload_ok p r ->
  exists r', migrate_row p now r = Ok r' /\ reopened p r r'.
Proof.
  intros Hk Hp. unfold migrate_row.
  destruct (live r) eqn:El.
  2:{ exists r. split; [by destruct (q_Payload r)|]. apply reopened_same; [done..|].
      destruct (processing r) eqn:E; [|done]. apply processing_cases in E.
      assert (live r = true) by (apply live_cases; auto). congruence. }
  destruct (live_payload p r Hp El) as (e & -> & Hpre & t & Ht). cbn [negb].
  rewrite Hpre, Ht. cbn [res_bind andb].
  destruct (String.eqb (q_Status r) DeliveryStatusProcessing) eqn:Epr; cbn [negb]; rewrite ?andb_true_r, ?andb_false_r.
  - apply String.eqb_eq in Epr.
    destruct (String.eqb_spec (q_Kind r) "minimal_approval") as [Ek|Ek]; eexists; (split; [reflexivity|]);
      unfold reopened, processing, delivered, dead, stale_payload, known_status, payload_ok, live, is_status;
      cbn [q_Status upd_payload upd_status q_Payload identity q_Kind]; rewrite Epr; cbn; split_and!; auto;
      try done. eexists. repeat split; [done|by eexists].
  - exists r. split; [done|]. by apply reopened_same.
Qed.

Lemma Forall2_fn {A} (P : A -> A -> Prop) (l k : list A) :
  Forall2 P l k -> forall y, y ∈ k -> exists x, x ∈ l /\ P x y.
Proof.
  induction 1 as [|x y l k Hxy _ IH]; intros z Hz; [by apply elem_of_nil in Hz|].
  apply elem_of_cons in Hz as [->|Hz]; [exists x; split; [left|done]|].
  destruct (IH z Hz) as (w & Hw & HP). exists w. split; [by right|done].
Qed.

Lemma Forall2_elem {A B} (P Q : A -> B -> Prop) l k :
  Forall2 P l k -> (forall x y, x ∈ l -> P x y -> Q x y) -> Forall2 Q l k.
Proof.
  induction 1 as [|x y l k Hxy _ IH]; intros H; constructor; [apply H; [left|done]|].
  apply IH. intros a b Ha. apply H. by right.
Qed.

(** Rows rewritten one by one, keeping identities. *)
Lemma Inv_rewrite p s rows :
  Inv p s ->
  Forall2 (fun r r' => identity r' = identity r /\ known_status r' = true /\ payload_ok p r'
                       /\ (started r' = true -> started r = true)
                       /\ (delivered r = true -> delivered r' = true)) (db_queue s) rows ->
  Inv p (set_queue rows s).
Proof.
  intros [Hids Hseq Htg Hrows Hkeys Hnum Hord Hset] H2.
  assert (Hmap : forall B (h : QueueRow -> B), (forall x y, identity x = identity y -> h x = h y) ->
            map h rows = map h (db_queue s)).
  { intros B h Hh. clear -H2 Hh. induction H2 as [|x y l k (Hxy & _) _ IH]; [done|]. cbn [map].
    by rewrite IH, (Hh y x Hxy). }
  pose proof (Forall2_fn _ _ _ H2) as Hfn. cbn beta in Hfn.
  assert (Hids' : StronglySorted Z.lt (map q_ID rows)).
  { rewrite Hmap; [done|]. intros x y E. by destruct (identity_inv _ _ E). }
  constructor; cbn [db_queue db_queueSeq db_terminal set_queue].
  - done.
  - intros y (x & Hx & E & _)%Hfn. destruct (identity_inv _ _ E) as [-> _]. by apply Hseq.
  - rewrite Hmap; [done|]. intros x y E. by destruct (identity_inv _ _ E) as (_ & -> & -> & _).
  - intros y (x & Hx & _ & Hk & Hp & _)%Hfn. done.
  - intros y g (x & Hx & E & _)%Hfn Hg. apply (Hkeys x); [done|]. by destruct (identity_inv _ _ E) as (_ & _ & _ & <- & _).
  - intros y y' g Hy Hy' Hg Hg'. destruct (Hfn y Hy) as (x & Hx & E & _), (Hfn y' Hy') as (x' & Hx' & E' & _).
    destruct (identity_inv _ _ E) as (I1 & _ & _ & G1 & S1 & C1), (identity_inv _ _ E') as (I2 & _ & _ & G2 & S2 & C2).
    rewrite G1 in Hg. rewrite G2 in Hg'. destruct (Hnum x x' g Hx Hx' Hg Hg') as (? & ? & Hu).
    rewrite S1, C1, C2, S2. split_and!; [done|done|]. intros Eq. specialize (Hu Eq). subst x'.
    eapply ids_inj; [done|done|done|congruence].
  - intros y y' g Hy Hy' Hg Hg' Hlt Hs. destruct (Hfn y Hy) as (x & Hx & E & _ & _ & Hst & _).
    destruct (Hfn y' Hy') as (x' & Hx' & E' & _ & _ & _ & Hd).
    destruct (identity_inv _ _ E) as (I1 & _ & _ & G1 & S1 & C1), (identity_inv _ _ E') as (I2 & _ & _ & G2 & S2 & C2).
    apply Hd, (Hord x x' g); [done|done|congruence|congruence|lia|by apply Hst].
  - intros g e y Ht He (x & Hx & E & _ & _ & _ & Hd)%Hfn Hg.
    apply Hd. eapply Hset; [done..|]. by destruct (identity_inv _ _ E) as (_ & _ & _ & <- & _).
Qed.

(** The rows the reopening transaction leaves, when it runs. *)
Lemma map_res_total {A B} (f : A -> res B) (R : A -> B -> Prop) l :
  (forall x, x ∈ l -> exists y, f x = Ok y /\ R x y) -> exists k, map_res f l = Ok k /\ Forall2 R l k.
Proof.
  induction l as [|x l IH]; intros H; [by exists []; repeat constructor|].
  destruct (H x ltac:(left)) as (y & Hy & HR). destruct IH as (k & Hk & H2); [intros z Hz; apply H; by right|].
  exists (y :: k). cbn [map_res]. rewrite Hy. cbn [res_bind]. rewrite Hk. by repeat constructor.
Qed.

(** A row in processing always asks for the migration. *)
Lemma migration_needed p s :
  Inv p s -> exists needed, protectedDeliveryPayloadMigrationNeeded p (db_queue s) = Ok needed
    /\ (needed = false -> forall r, r ∈ db_queue s -> processing r = false).
Proof.
  intros HI. unfold protectedDeliveryPayloadMigrationNeeded.
  edestruct (map_res_total (fun r => match q_Payload r with
      | Some payload => if live r then protectedDeliveryPayloadNeedsMigration p r payload else Ok false
      | None => Ok false end) (fun r b => b = false -> processing r = false) (db_queue s)) as (k & -> & H2).
  - intros r Hr. destruct (inv_rows _ _ HI r Hr) as [_ Hp]. destruct (live r) eqn:El.
    + destruct (live_payload p r Hp El) as (e & -> & Hpre & t & Ht).
      unfold protectedDeliveryPayloadNeedsMigration. rewrite Hpre, Ht. cbn [res_bind].
      destruct (_ && _); eexists; (split; [reflexivity|]); done.
    + exists false. split; [by destruct (q_Payload r)|]. intros _.
      destruct (processing r) eqn:E; [|done]. apply processing_cases in E.
      assert (live r = true) by (apply live_cases; auto). congruence.
  - eexists. split; [reflexivity|]. intros [Hk _]%orb_false_elim r Hr.
    apply list_elem_of_lookup_1 in Hr as [i Hi]. destruct (Forall2_lookup_l _ _ _ _ _ H2 Hi) as (b & Hb & HR).
    apply HR. destruct b; [|done]. apply not_true_iff_false in Hk. destruct Hk. apply existsb_exists.
    exists true. split; [|done]. apply list_elem_of_In. by eapply list_elem_of_lookup_2.
Qed.

(** Opening always succeeds on such a store, and reopens each of its rows. *)
Lemma reopen_spec p now s :
  Inv p s -> exists rows, migrateProtectedDeliveryPayloads p now s = Ok (set_queue rows s)
    /\ Forall2 (reopened p) (db_queue s) rows.
Proof.
  intros HI. unfold migrateProtectedDeliveryPayloads.
  destruct (migration_needed p s HI) as ([] & -> & Hno); cbn [res_bind negb].
  - destruct (map_res_total (migrate_row p now) (reopened p) (db_queue s)) as (rows & -> & H2).
    { intros r Hr. destruct (inv_rows _ _ HI r Hr). by apply migrate_row_spec. }
    exists rows. split; [|done]. cbn [res_bind]. rewrite update_none; [done|].
    intros r Hr. destruct (Forall2_fn _ _ _ H2 r Hr) as (x & _ & Hx). apply Hx.
  - exists (db_queue s). split; [by destruct s|]. apply Forall_Forall2_diag, Forall_forall.
    intros r Hr. destruct (inv_rows _ _ HI r Hr). apply reopened_same; [done..|by apply Hno].
Qed.

Lemma Inv_reopen p now s s' :
  Inv p s -> migrateProtectedDeliveryPayloads p now s = Ok s' -> Inv p s'.
Proof.
  intros HI H. destruct (reopen_spec p now s HI) as (rows & E & H2). rewrite E in H. injection H as <-.
  apply Inv_rewrite; [done|]. eapply Forall2_impl; [exact H2|].
  intros r r' (? & ? & ? & Hp & Hd & _). split_and!; [done..| |congruence].
  unfold started. rewrite Hp, Hd. cbn [orb]. intros ->. apply orb_true_r.
Qed.

(** ** Enqueueing *)

Lemma event_target_exists_false e c rows :
  event_target_exists e c rows = false -> (e, c) ∉ map (fun r => (q_EventID r, q_ChatKey r)) rows.
Proof.
  intros H (r & E & Hr)%list_elem_of_fmap. apply not_true_iff_false in H. apply H.
  apply existsb_exists. exists r. split; [by apply list_elem_of_In|].
  injection E as -> ->. by rewrite !String.eqb_refl.
Qed.

Lemma SSorted_app_one l (x : Z) :
  StronglySorted Z.lt l -> (forall y, y ∈ l -> (y < x)%Z) -> StronglySorted Z.lt (l ++ [x]).
Proof.
  induction 1 as [|y l Hs IH Hf]; intros Hx; cbn [app]; [by repeat constructor|].
  constructor; [apply IH; intros z Hz; apply Hx; by right|].
  apply Forall_app. split; [done|]. constructor; [apply Hx; left|constructor].
Qed.

Lemma waiting_known p r :
  waiting r = true -> (exists e, q_Payload r = Some e /\ readable p e) ->
  known_status r = true /\ payload_ok p r.
Proof.
  intros Hw Hp. split.
  - unfold known_status, is_status. apply waiting_cases in Hw as [->| ->]; done.
  - unfold payload_ok. assert (live r = true) as -> by (apply live_cases; rewrite waiting_cases in Hw; tauto). done.
Qed.

(** A row that waits, in a group where nothing has started. *)
Lemma Inv_insert p s mk :
  let new := mk (db_queueSeq s + 1)%Z in
  Inv p s -> q_ID new = (db_queueSeq s + 1)%Z -> waiting new = true ->
  (exists e, q_Payload new = Some e /\ readable p e) ->
  event_target_exists (q_EventID new) (q_ChatKey new) (db_queue s) = false ->
  (forall g, q_GroupID new = Some g ->
     (exists e, db_terminal s !! g = Some e /\ te_DeliveryStatus e <> DeliveryStatusDelivered)
     /\ (q_SequenceNo new <= q_SequenceCount new)%Z
     /\ (forall r, r ∈ db_queue s -> q_GroupID r = Some g ->
           started r = false /\ q_SequenceCount r = q_SequenceCount new
           /\ q_SequenceNo r <> q_SequenceNo new)) ->
  Inv p (insert_row mk s).
Proof.
  intros new HI Hid Hw Hpay Hfresh Hgrp. destruct (waiting_not_started _ Hw) as [Hns Hnd].
  assert (Hin : forall r, r ∈ db_queue s ++ [new] <-> r ∈ db_queue s \/ r = new)
    by (intros r; by rewrite elem_of_app, list_elem_of_singleton).
  unfold insert_row. cbv zeta. fold new. constructor;
    cbn [db_queue db_queueSeq db_terminal set_queueSeq set_queue].
  - rewrite map_app. apply SSorted_app_one; [apply HI|]. rewrite Hid.
    intros y (r & -> & Hr)%list_elem_of_fmap. pose proof (inv_seq _ _ HI r Hr). lia.
  - intros r [Hr| ->]%Hin; [pose proof (inv_seq _ _ HI r Hr)|]; lia.
  - rewrite map_app. apply NoDup_app. split_and!; [apply HI| |apply NoDup_singleton].
    intros x Hx Hx'. apply list_elem_of_singleton in Hx' as ->.
    by apply (event_target_exists_false _ _ _ Hfresh).
  - intros r [Hr| ->]%Hin; [by apply HI|by apply waiting_known].
  - intros r g [Hr| ->]%Hin Hg; [by eapply HI|]. destruct (Hgrp g Hg) as [(e & He & _) _]. by eexists.
  - intros r r' g [Hr| ->]%Hin [Hr'| ->]%Hin Hg Hg'.
    + by apply (inv_numbered _ _ HI r r' g).
    + destruct (Hgrp g Hg') as (_ & Hle & Hall). destruct (Hall r Hr Hg) as (_ & Hc & Hne).
      destruct (inv_numbered _ _ HI r r g Hr Hr Hg Hg) as [Hle' _]. split_and!; [done|congruence|congruence].
    + destruct (Hgrp g Hg) as (_ & Hle & Hall). destruct (Hall r' Hr' Hg') as (_ & Hc & Hne).
      split_and!; [done|congruence|congruence].
    + destruct (Hgrp g Hg) as (_ & Hle & _). by split_and!.
  - intros r r' g [Hr| ->]%Hin [Hr'| ->]%Hin Hg Hg' Hlt Hst; [by eapply (inv_order _ _ HI r r')|..|congruence].
    + destruct (Hgrp g Hg') as (_ & _ & Hall). destruct (Hall r Hr Hg). congruence.
    + congruence.
  - intros g e r Ht He [Hr| ->]%Hin Hg; [by eapply (inv_settled _ _ HI)|].
    destruct (Hgrp g Hg) as [(e' & He' & Hne) _]. congruence.
Qed.

Lemma Inv_enqueue p `{!ProtectorLaws p} now item s s' :
  Inv p s ->
  existsb (String.eqb (qi_Status item)) [DeliveryStatusPending; DeliveryStatusRetry] = true ->
  EnqueueDelivery (Some p) now item s = Ok s' -> Inv p s'.
Proof.
  intros HI Hst. unfold EnqueueDelivery, res_bind. cbn [protect_with].
  destruct (Protect p _) as [payload|] eqn:E; [|done]. intros [= <-]. unfold insert_ungrouped.
  destruct (event_target_exists _ _ _) eqn:Ee; [done|].
  apply Inv_insert; [done|done|exact Hst| |exact Ee|done].
  exists payload. split; [done|]. by eapply readable_protect.
Qed.

Lemma Inv_insert_items p now key n items seen s s' :
  Inv p s -> group_so_far key n seen s ->
  (exists e, db_terminal s !! key = Some e /\ te_DeliveryStatus e <> DeliveryStatusDelivered) ->
  Forall (fun ip => qi_GroupID ip.1 = key /\ (qi_SequenceNo ip.1 <= n)%Z /\ qi_SequenceCount ip.1 = n
                    /\ readable p ip.2) items ->
  NoDup (seen ++ map (fun ip => qi_SequenceNo ip.1) items) ->
  insert_items now items s = Ok s' -> Inv p s' /\ db_terminal s' = db_terminal s.
Proof.
  revert seen s. induction items as [|[item pl] items IH]; intros seen s HI Hg Ht Hall Hnd;
    cbn [insert_items]; [by intros [= <-]|].
  apply Forall_cons in Hall as [(Hk & Hle & Hc & Hpl) Hall]. cbn [fst snd] in *.
  destruct (event_target_exists _ _ _) eqn:Ee; [done|]. set (mk := fun id => mkQueueRow id _ _ _ _ _ _ _ _ _ _ _ _ _ _ _ _).
  intros H. cbn [map] in Hnd.
  assert (Hfresh : qi_SequenceNo item ∉ seen).
  { apply NoDup_app in Hnd as (_ & Hd & _). intros Hin. apply (Hd _ Hin). left. }
  assert (HI' : Inv p (insert_row mk s)).
  { apply Inv_insert; [done|done|done| |done|].
    - by exists pl.
    - intros g [= <-]. rewrite Hk. split_and!; [done|cbn; lia|]. intros r Hr Hgr.
      destruct (Hg r Hr Hgr) as (Hw & Hn & Hs). destruct (waiting_not_started _ Hw).
      split_and!; [done|cbn; lia|cbn; congruence]. }
  specialize (IH (seen ++ [qi_SequenceNo item]) (insert_row mk s) HI').
  rewrite <- app_assoc in IH. destruct IH as [? ?]; [|exact Ht|done|exact Hnd|exact H|by split].
  intros r Hr Hgr. cbn [db_queue insert_row set_queueSeq set_queue] in Hr.
  apply elem_of_app in Hr as [Hr|Hr].
  - destruct (Hg r Hr Hgr) as (? & ? & ?). split_and!; [done|done|]. apply elem_of_app. by left.
  - apply list_elem_of_singleton in Hr as ->. split_and!; [done|done|]. apply elem_of_app. right. left.
Qed.

Lemma zip_protected p `{!ProtectorLaws p} key n items protected :
  Forall2 (fun item v => Protect p (qi_PayloadJSON item) = Ok v) items protected ->
  Forall (fun item => qi_GroupID item = key /\ (qi_SequenceNo item <= n)%Z /\ qi_SequenceCount item = n) items ->
  Forall (fun ip => qi_GroupID ip.1 = key /\ (qi_SequenceNo ip.1 <= n)%Z /\ qi_SequenceCount ip.1 = n
                    /\ readable p ip.2) (zip items protected)
  /\ map (fun ip => qi_SequenceNo ip.1) (zip items protected) = map qi_SequenceNo items.
Proof.
  induction 1 as [|item v items protected Hv _ IH]; intros H; [by split; [constructor|]|].
  apply Forall_cons in H as [(H1 & H2 & H3) Hall]. destruct (IH Hall) as [IH1 IH2]. split.
  - constructor; [|done]. split_and!; [done..|]. by eapply readable_protect.
  - change (zip (item :: items) (v :: protected)) with ((item, v) :: zip items protected).
    cbn [map fst]. by rewrite IH2.
Qed.

Lemma Inv_terminal_transaction p now event items target s b s' :
  Inv p s ->
  Forall (fun ip => qi_GroupID ip.1 = te_TerminalKey event
            /\ (qi_SequenceNo ip.1 <= Z.of_nat (length items))%Z
            /\ qi_SequenceCount ip.1 = Z.of_nat (length items)
            /\ readable p ip.2) items ->
  NoDup (map (fun ip => qi_SequenceNo ip.1) items) ->
  terminal_transaction now event items target s = Ok (b, s') -> Inv p s'.
Proof.
  intros HI Hall Hnd. unfold terminal_transaction.
  destruct (db_terminal s !! te_TerminalKey event) eqn:Et; [by intros [= _ <-]|]. cbv zeta.
  set (row := mkTerminalEvent _ _ _ _ _ _). set (s1 := set_terminal _ s).
  assert (Hno : forall r, r ∈ db_queue s -> q_GroupID r <> Some (te_TerminalKey event)).
  { intros r Hr Hg. destruct (inv_keys _ _ HI r _ Hr Hg). congruence. }
  assert (HI1 : Inv p s1).
  { destruct HI. constructor; [done..| |done|done|]; cbn [db_queue db_terminal s1 set_terminal].
    - intros r g Hr Hg. destruct (decide (g = te_TerminalKey event)) as [->|Hne]; [by destruct (Hno r Hr)|].
      rewrite lookup_insert_ne by done. by eapply inv_keys0.
    - intros g e r Ht He Hr Hg. destruct (decide (g = te_TerminalKey event)) as [->|Hne]; [by destruct (Hno r Hr)|].
      rewrite lookup_insert_ne in Ht by done. by eapply inv_settled0. }
  unfold res_bind. destruct (insert_items now items s1) as [s2|] eqn:Ei; [|done].
  eapply (Inv_insert_items p now (te_TerminalKey event) _ _ []) in Ei as [HI2 _];
    [|done| | |exact Hall|exact Hnd].
  - destruct target as [t|]; [|by intros [= _ <-]]. destruct (_ =? 1)%Z; intros [= _ <-]; [|done].
    by apply (Inv_ext p s2).
  - intros r Hr Hg. by destruct (Hno r Hr).
  - exists row. cbn [db_terminal s1 set_terminal]. by rewrite lookup_insert_eq.
Qed.

Lemma Inv_terminal p `{!ProtectorLaws p} now event items release s b s' :
  Inv p s -> numbered_items (te_TerminalKey event) items ->
  EnqueueTerminalEventWithLinkedRelease (Some p) now event items release s = Ok (b, s') -> Inv p s'.
Proof.
  intros HI [Hall Hnd]. unfold EnqueueTerminalEventWithLinkedRelease. cbv zeta.
  assert (Hrun : forall target, (let! protected := map_res (fun item => Protect p (qi_PayloadJSON item)) items in
            terminal_transaction now event (zip items protected) target s) = Ok (b, s') -> Inv p s').
  { intros target. unfold res_bind. destruct (map_res _ items) as [protected|] eqn:E; [|done].
    apply map_res_ok in E as E'. destruct (zip_protected p _ _ _ _ E' Hall) as [H1 H2].
    assert (length (zip items protected) = length items) as Hl.
    { rewrite <- (length_map (fun ip : DeliveryQueueItem * string => qi_SequenceNo ip.1)), H2. apply length_map. }
    apply Inv_terminal_transaction; [done|by rewrite Hl|by rewrite H2]. }
  destruct release as [rel|]; [|apply Hrun]. unfold res_bind at 1.
  destruct (release_target rel) as [[t|]|]; [apply Hrun|by intros [= _ <-]|done].
Qed.

(** Every operation keeps the invariant. *)
Lemma Inv_step p `{!ProtectorLaws p} s s' : Inv p s -> queue_step p s s' -> Inv p s'.
Proof.
  intros HI Hstep. destruct Hstep.
  - by eapply Inv_enqueue.
  - by eapply Inv_terminal.
  - by eapply Inv_claim.
  - by apply Inv_complete.
  - by eapply Inv_fail.
  - by apply Inv_migrate.
  - by eapply Inv_reopen.
  - by eapply (Inv_ext p s).
Qed.
