(* ===== verification/QueueSafety.v ===== *)
(** * What the delivery queue guarantees

    Consequences of the invariant of Queue.v for the operations of the queue: what they
    keep, what becomes of a message that dies, the switch of the profile, the order of
    the texts of instants.  Writers.v has what holds whoever writes the queue. *)
From stdpp Require Import base list numbers strings gmap relations.
From Stdlib Require Import Lia Ascii.
From S2P Require Import Prelude GoStrings GoTime Sql Model Store StoreNotifier Queue.

(** A row stays, with its identity; delivered and dead rows stay what they are. *)
Definition survives (s s' : Store) : Prop :=
  forall r, r ∈ db_queue s -> exists r', r' ∈ db_queue s' /\ identity r' = identity r
    /\ (delivered r = true -> delivered r' = true) /\ (dead r = true -> dead r' = true).

(** A terminal event stays known. *)
Definition remembers (s s' : Store) : Prop :=
  forall key, is_Some (db_terminal s !! key) -> is_Some (db_terminal s' !! key).

(** A concrete protector for the examples: the envelope is the prefix and the text. *)
Definition plainProtector : Protector :=
  mkProtector (fun text => Ok (protectedPayloadEnvelopePrefix +:+ text))
    (fun envelope => if has_prefix envelope protectedPayloadEnvelopePrefix
                     then Ok (str_drop (String.length protectedPayloadEnvelopePrefix) envelope)
                     else Err "invalid envelope").

(** A terminal event of two messages, used by the examples. *)
Definition ex_now : TimeString := "2026-01-01T00:00:00Z".

Definition ex_item (seq : Z) : DeliveryQueueItem :=
  mkQueueItem 0 ("t:1:completed#" +:+ format_int seq) "42:0" 42 0 "t" "notifier_terminal"
    DeliveryStatusPending 0 ex_now "" "{}" ex_now ex_now "t:1:completed" seq 2.

Definition ex_event : TerminalEvent :=
  mkTerminalEvent "t:1:completed" "t" "1" "completed" DeliveryStatusPending ex_now.

Definition run {A : Type} (d : A) (m : res (bool * A)) : A :=
  match m with Ok (_, s) => s | Err _ => d end.

Definition ex_store : Store :=
  run emptyStore (EnqueueTerminalEvent (Some plainProtector) ex_now ex_event [ex_item 1; ex_item 2] emptyStore).

(** The store after a claim of everything that is due. *)
Definition ex_claimed : Store :=
  match ClaimDeliveryBatch (Some plainProtector) ex_now 10 ex_store with
  | Ok (_, s) => s
  | Err _ => ex_store
  end.

(** ** Lemmas *)

#[export] Instance plainProtector_laws : ProtectorLaws plainProtector.
Proof. split; intros text envelope [= <-]; destruct text; reflexivity. Qed.

Lemma Inv_empty p : Inv p emptyStore.
Proof.
  constructor; cbn; try (intros; by match goal with H : _ ∈ [] |- _ => apply elem_of_nil in H end).
  - constructor.
  - constructor.
  - intros r r' g H. by apply elem_of_nil in H.
  - intros r r' g H. by apply elem_of_nil in H.
  - intros g e r _ _ H. by apply elem_of_nil in H.
Qed.

Lemma Inv_rtc p `{!ProtectorLaws p} s s' : Inv p s -> rtc (queue_step p) s s' -> Inv p s'.
Proof. intros HI H. induction H; [done|]. apply IHrtc. by eapply Inv_step. Qed.

(** Every row a claim selects can be read. *)
Lemma claim_scans p limit now s :
  Inv p s -> exists out, map_res (scan_row (Some p)) (claim_rows limit now s) = Ok out.
Proof.
  intros HI.
  assert (Hall : forall r, r ∈ claim_rows limit now s -> exists item, scan_row (Some p) r = Ok item).
  { intros r [Hin (Hw & _)%claimable_spec]%elem_of_claim_rows.
    destruct (inv_rows _ _ HI r Hin) as [_ Hp]. apply live_payload in Hp as (e & He & _ & t & Ht);
      [|by apply live_cases; rewrite waiting_cases in Hw; tauto].
    unfold scan_row. rewrite He. cbn [unprotect_with res_bind]. rewrite Ht. by eexists. }
  revert Hall. generalize (claim_rows limit now s). induction l as [|r l IH]; intros Hall; [by eexists|].
  destruct (Hall r ltac:(left)) as [item Hi]. destruct IH as [out Ho]; [intros x Hx; apply Hall; by right|].
  exists (item :: out). cbn [map_res]. by rewrite Hi; cbn [res_bind]; rewrite Ho.
Qed.

Lemma claim_succeeds p limit now s :
  Inv p s -> exists out s', ClaimDeliveryBatch (Some p) now limit s = Ok (out, s').
Proof.
  intros HI. destruct (claim_scans p limit now s HI) as [out E]. unfold ClaimDeliveryBatch.
  rewrite E. by do 2 eexists.
Qed.

(** *** Survival *)
Lemma survives_refl s : survives s s.
Proof. intros r Hr. by exists r. Qed.

Lemma survives_trans s1 s2 s3 : survives s1 s2 -> survives s2 s3 -> survives s1 s3.
Proof.
  intros H1 H2 r Hr. destruct (H1 r Hr) as (r2 & Hr2 & E2 & D2 & K2).
  destruct (H2 r2 Hr2) as (r3 & Hr3 & E3 & D3 & K3). exists r3. split_and!; [done|congruence|auto..].
Qed.

Lemma survives_map s s' f :
  db_queue s' = map f (db_queue s) ->
  (forall r, r ∈ db_queue s -> identity (f r) = identity r
     /\ (delivered r = true -> delivered (f r) = true) /\ (dead r = true -> dead (f r) = true)) ->
  survives s s'.
Proof.
  intros E Hf r Hr. exists (f r). rewrite E. destruct (Hf r Hr) as (? & ? & ?).
  split_and!; [by apply list_elem_of_fmap_2|done..].
Qed.

Lemma survives_app s s' k : db_queue s' = db_queue s ++ k -> survives s s'.
Proof. intros E r Hr. exists r. rewrite E. split_and!; [apply elem_of_app; by left|done..]. Qed.

Lemma survives_same s s' : db_queue s' = db_queue s -> survives s s'.
Proof. intros E. apply (survives_app _ _ []). by rewrite E, app_nil_r. Qed.

(** A row whose status says it waits or is worked on is neither delivered nor dead. *)
Lemma live_not_final r : live r = true -> delivered r = false /\ dead r = false.
Proof. intros H%live_cases. unfold delivered, dead. by destruct H as [->|[->| ->]]. Qed.

Lemma waiting_live r : waiting r = true -> live r = true.
Proof. rewrite waiting_cases, live_cases. tauto. Qed.

Lemma insert_items_app now items s s' :
  insert_items now items s = Ok s' ->
  exists k, db_queue s' = db_queue s ++ k /\ db_terminal s' = db_terminal s.
Proof.
  revert s. induction items as [|[item pl] items IH]; intros s; cbn [insert_items].
  - intros [= <-]. exists []. by rewrite app_nil_r.
  - destruct (event_target_exists _ _ _); [done|]. intros (k & Hk & Ht)%IH. rewrite Hk, Ht.
    cbn [db_queue insert_row set_queueSeq set_queue]. rewrite <- app_assoc. by eexists.
Qed.

Lemma terminal_transaction_keeps now event items target s b s' :
  terminal_transaction now event items target s = Ok (b, s') ->
  survives s s' /\ remembers s s'.
Proof.
  unfold terminal_transaction. destruct (db_terminal s !! te_TerminalKey event) eqn:E.
  { intros [= _ <-]. split; [apply survives_refl|by intros k]. }
  cbv zeta. unfold res_bind. destruct (insert_items _ _ _) as [s2|] eqn:Ei; [|done].
  apply insert_items_app in Ei as (k & Hq & Ht). cbn [db_queue db_terminal set_terminal] in Hq, Ht.
  assert (survives s s2 /\ remembers s s2) as [H1 H2].
  { split; [by apply (survives_app _ _ k)|]. intros key [e He]. rewrite Ht.
    destruct (decide (key = te_TerminalKey event)) as [->|Hne]; [congruence|].
    rewrite lookup_insert_ne by done. by eexists. }
  destruct target as [t|]; [|by intros [= _ <-]]. destruct (_ =? 1)%Z; intros [= _ <-]; [done|].
  split; [apply survives_refl|by intros x].
Qed.

Lemma enqueue_terminal_keeps p now event items release s b s' :
  EnqueueTerminalEventWithLinkedRelease (Some p) now event items release s = Ok (b, s') ->
  survives s s' /\ remembers s s'.
Proof.
  unfold EnqueueTerminalEventWithLinkedRelease, res_bind. cbv zeta.
  assert (Hrun : forall target, match map_res (fun item => Protect p (qi_PayloadJSON item)) items with
            | Ok a => terminal_transaction now event (zip items a) target s | Err e => Err e end = Ok (b, s') ->
            survives s s' /\ remembers s s').
  { intros target. destruct (map_res _ _); [|done]. apply terminal_transaction_keeps. }
  destruct release as [rel|]; [|apply Hrun]. destruct (release_target rel) as [[t|]|]; [apply Hrun| |done].
  intros [= _ <-]. split; [apply survives_refl|by intros x].
Qed.

(** Only the row in hand and the rows of its group that are not delivered change. *)
Lemma fail_keeps p now id retry at_ err is_dead s s' :
  Inv p s -> claimed id s -> FailDelivery (Some p) now id retry at_ err is_dead s = Ok s' ->
  survives s s' /\ remembers s s'.
Proof.
  intros HI Hc H.
  destruct (claimed_row _ _ _ HI Hc) as (r0 & Hr0 & Hid & Hp & Hf & Hu).
  apply processing_cases in Hp.
  assert (Hfinal : forall r, r ∈ db_queue s -> id_is id r = true -> delivered r = false /\ dead r = false)
    by (intros r Hr E; rewrite (Hu r Hr E); unfold delivered, dead; by rewrite Hp).
  unfold FailDelivery in H. cbv zeta in H. destruct is_dead.
  - set (f := fun r => _) in H. 
    assert (Hs1 : forall t, survives s (set_terminal t (set_queue (update_where (id_is id) f (db_queue s)) s))).
    { intros t. eapply survives_map; [reflexivity|]. cbn beta. intros r Hr. destruct (id_is id r) eqn:E; [|done].
      destruct (Hfinal r Hr E) as [-> ->]. done. }
    rewrite find_row_update, Hf in H by done. cbn [fmap option_fmap option_map] in H.
    destruct (q_GroupID _) as [g|]; [|injection H as <-; by split; [apply (Hs1 (db_terminal s))|intros k]].
    destruct (String.eqb (trim_space g) ""); injection H as <-;
      [by split; [apply (Hs1 (db_terminal s))|intros k]|].
    split; [|intros k; apply (set_delivery_status_some (Some g))].
    eapply survives_trans; [apply (Hs1 (db_terminal s))|]. eapply survives_map; [reflexivity|].
    cbn beta. intros r Hr. destruct (_ && _) eqn:E; [|done]. split_and!; [done| |done].
    apply andb_prop in E as [_ E%negb_true_iff]. unfold delivered. congruence.
  - injection H as <-. split; [|by intros k]. eapply survives_map; [reflexivity|]. cbn beta. intros r Hr.
    destruct (id_is id r) eqn:E; [|done]. destruct (Hfinal r Hr E) as [-> ->]. done.
Qed.

(** Reopening a store loses no row and revives none. *)
Lemma reopen_keeps p now s s' :
  Inv p s -> migrateProtectedDeliveryPayloads p now s = Ok s' -> survives s s' /\ remembers s s'.
Proof.
  intros HI H. destruct (reopen_spec p now s HI) as (rows & E & H2). rewrite E in H. injection H as <-.
  split; [|by intros k]. intros r [i Hi]%list_elem_of_lookup_1.
  destruct (Forall2_lookup_l _ _ _ _ _ H2 Hi) as (r' & Hi' & Hid & _ & _ & _ & Hd & Hdead & _).
  exists r'. split_and!; [by eapply list_elem_of_lookup_2|done|congruence|done].
Qed.

Lemma step_keeps p `{!ProtectorLaws p} s s' :
  Inv p s -> queue_step p s s' -> survives s s' /\ remembers s s'.
Proof.
  intros HI Hstep. destruct Hstep as [now item s s' _ H|now event items release s b s' _ H|now limit s out s' H
    |now id route s Hc|now id retry at_ err d s s' Hc H|now s|now s s' H|s s' E1 _ E3].
  - unfold EnqueueDelivery, res_bind in H. destruct (protect_with _ _); [|done]. injection H as <-.
    unfold insert_ungrouped. destruct (event_target_exists _ _ _); [by split; [apply survives_refl|intros k]|].
    split; [by eapply survives_app|by intros k].
  - by eapply enqueue_terminal_keeps.
  - unfold ClaimDeliveryBatch, res_bind in H. destruct (map_res _ _) as [items|] eqn:E; [|done].
    injection H as <- <-. split; [|by intros k]. eapply survives_map; [reflexivity|]. cbn beta. intros r Hr.
    destruct (has_id _ r) eqn:Hid; [|done]. eapply claim_selects in Hid; [|done..].
    apply elem_of_claim_rows in Hid as [_ (Hw & _)%claimable_spec].
    destruct (live_not_final r (waiting_live r Hw)) as [-> ->]. done.
  - destruct (claimed_row _ _ _ HI Hc) as (r0 & Hr0 & _ & Hp & _ & Hu). split.
    + eapply survives_map; [by destruct route|]. cbn beta. destruct route; intros r Hr;
        (destruct (id_is id r) eqn:E; [|done]); split_and!; try done; rewrite (Hu r Hr E);
        apply processing_cases in Hp; unfold dead; by rewrite Hp.
    + intros k Hk. cbn [db_terminal completeDelivery set_terminal].
      apply set_delivery_status_some. by destruct route.
  - by eapply fail_keeps.
  - unfold MigrateNotifierProfile. destruct (String.eqb _ "done"); cbn [snd];
      [by split; [apply survives_refl|intros k]|]. cbv zeta. split.
    + eapply survives_map; [reflexivity|]. cbn beta. intros r Hr. destruct (foreign_waiting r) eqn:E; [|done].
      unfold foreign_waiting in E. apply andb_prop in E as [E _].
      destruct (live_not_final r (waiting_live r E)) as [-> ->]. done.
    + intros k [e He]. cbn [db_terminal SetState set_state set_queue set_terminal].
      rewrite map_lookup_imap, He. by eexists.
  - by eapply reopen_keeps.
  - split; [by apply survives_same|]. intros k. by rewrite E3.
Qed.

Lemma steps_keep p `{!ProtectorLaws p} s s' :
  Inv p s -> rtc (queue_step p) s s' -> survives s s' /\ remembers s s'.
Proof.
  intros HI H. induction H as [s|s1 s2 s3 H12 H23 IH]; [by split; [apply survives_refl|intros k]|].
  destruct (step_keeps p s1 s2 HI H12) as [Ha Hb]. destruct IH as [Hc Hd]; [by eapply Inv_step|].
  split; [by eapply survives_trans|]. intros k Hk. by apply Hd, Hb.
Qed.

(** *** The example *)
Lemma ex_numbered : numbered_items (te_TerminalKey ex_event) [ex_item 1; ex_item 2].
Proof.
  split; [repeat constructor; cbn; lia|]. cbn. apply NoDup_cons. split; [|apply NoDup_singleton].
  intros H%list_elem_of_singleton. done.
Qed.

Lemma ex_steps : rtc (queue_step plainProtector) emptyStore ex_store.
Proof.
  apply rtc_once, (step_terminal _ ex_now ex_event [ex_item 1; ex_item 2] None _ true ex_store ex_numbered).
  vm_compute. reflexivity.
Qed.

Lemma ex_claimed_queue_steps : rtc (queue_step plainProtector) emptyStore ex_claimed.
Proof.
  eapply rtc_r; [apply ex_steps|].
  destruct (ClaimDeliveryBatch (Some plainProtector) ex_now 10 ex_store) as [[out s]|] eqn:E.
  - unfold ex_claimed. rewrite E. by eapply step_claim.
  - vm_compute in E. discriminate.
Qed.

(** ** Properties *)

(** No queued message is lost: whatever the operations of the queue do, crashes and
    restarts included, every row stays with its identity, and a delivered row stays
    delivered, a dead one dead.  Only the replay of an approval revives a dead row. *)
Theorem queue_rows_final p `{!ProtectorLaws p} s s' r :
  Inv p s -> rtc (queue_step p) s s' -> r ∈ db_queue s ->
  exists r', r' ∈ db_queue s' /\ identity r' = identity r
    /\ (delivered r = true -> delivered r' = true) /\ (dead r = true -> dead r' = true).
Proof. intros HI Hs. by apply (steps_keep p s s' HI Hs). Qed.

Theorem queue_rows_final_witness :
  exists r r', r ∈ db_queue ex_store /\ r' ∈ db_queue ex_claimed /\ identity r' = identity r.
Proof.
  destruct (db_queue ex_store) as [|r l] eqn:E; [vm_compute in E; discriminate|].
  assert (Hr : r ∈ db_queue ex_store) by (rewrite E; left).
  destruct (queue_rows_final plainProtector ex_store ex_claimed r (Inv_rtc plainProtector _ _ (Inv_empty _) ex_steps)) as (r' & Hr' & Hid & _).
  - apply rtc_once. destruct (ClaimDeliveryBatch (Some plainProtector) ex_now 10 ex_store) as [[out s]|] eqn:E2.
    + unfold ex_claimed. rewrite E2. by eapply step_claim.
    + vm_compute in E2. discriminate.
  - exact Hr.
  - exists r, r'. split; [left|by split].
Defined.

(** *** A dead message *)

(** When a message dies, the whole of its group dies with it, its payloads go and
    its event counts as dead: no later message of the event is ever sent. *)
Theorem FailDelivery_dead p now id retry availableAt err s s' r g :
  FailDelivery (Some p) now id retry availableAt err true s = Ok s' ->
  find_row id (db_queue s) = Some r -> q_GroupID r = Some g -> trim_space g <> "" ->
  (forall x, x ∈ db_queue s' -> q_GroupID x = Some g -> delivered x = true \/ (dead x = true /\ q_Payload x = None))
  /\ (forall e, db_terminal s' !! g = Some e -> te_DeliveryStatus e = DeliveryStatusDead).
Proof.
  intros H Hf Hg Hne. unfold FailDelivery in H. cbv zeta in H.
  rewrite find_row_update, Hf in H by done. cbn [fmap option_fmap option_map] in H.
  destruct (find_row_some _ _ _ Hf) as [_ Hid]. assert (id_is id r = true) as Hi by (by apply Z.eqb_eq).
  rewrite Hi in H. cbn [q_GroupID upd_payload upd_retry upd_status] in H. rewrite Hg in H.
  apply String.eqb_neq in Hne. rewrite Hne in H. injection H as <-.
  cbn [db_queue db_terminal set_terminal set_queue]. split.
  - intros x (y & Hy & ->)%elem_of_update Hgx. destruct (is_text (q_GroupID y) g && _) eqn:E; [by right|].
    left. assert (is_text (q_GroupID y) g = true) as Ht by (unfold is_text; rewrite Hgx; apply String.eqb_refl).
    rewrite Ht in E. cbn [andb] in E. by apply negb_false_iff in E.
  - intros e He. cbn [set_delivery_status] in He. rewrite lookup_alter_eq in He.
    destruct (db_terminal s !! g); [|done]. by injection He as <-.
Qed.

Theorem FailDelivery_dead_witness :
  exists s', FailDelivery (Some plainProtector) ex_now 1%Z 5%Z 0%Z "gone" true ex_claimed = Ok s'
    /\ forall x, x ∈ db_queue s' -> q_GroupID x = Some "t:1:completed" ->
         delivered x = true \/ (dead x = true /\ q_Payload x = None).
Proof.
  destruct (FailDelivery (Some plainProtector) ex_now 1%Z 5%Z 0%Z "gone" true ex_claimed) as [s'|] eqn:E;
    [|vm_compute in E; discriminate].
  destruct (find_row 1%Z (db_queue ex_claimed)) as [r|] eqn:F; [|vm_compute in F; discriminate].
  exists s'. split; [reflexivity|].
  refine (proj1 (FailDelivery_dead plainProtector ex_now 1%Z 5%Z 0%Z "gone" ex_claimed s' r "t:1:completed" E F _ _)).
  - vm_compute in F. injection F as <-. reflexivity.
  - vm_compute. discriminate.
Defined.

(** *** Switching to the notifier profile *)

(** The switch runs once, retires the waiting messages of the other profiles and
    leaves those of the notifier alone. *)
Theorem MigrateNotifierProfile_spec now now' s n s1 :
  MigrateNotifierProfile now s = (n, s1) ->
  MigrateNotifierProfile now' s1 = (0%Z, s1)
  /\ (forall r, r ∈ db_queue s -> q_Kind r = "notifier_terminal" -> r ∈ db_queue s1)
  /\ (GetState notifierMigrationStateKey s <> "done" ->
        n = affected foreign_waiting (db_queue s)
        /\ forall r, r ∈ db_queue s1 -> foreign_waiting r = false).
Proof.
  unfold MigrateNotifierProfile at 1.
  destruct (String.eqb_spec (GetState notifierMigrationStateKey s) "done") as [E|E].
  { intros [= <- <-]. split_and!; [|done|done]. unfold MigrateNotifierProfile. by rewrite E. }
  cbv zeta. intros H. apply pair_equal_spec in H as [<- <-]. split_and!.
  - unfold MigrateNotifierProfile, GetState, SetState. cbn [db_state set_state].
    rewrite lookup_insert_eq. reflexivity.
  - intros r Hr Hk. cbn [db_queue SetState set_state set_queue].
    apply elem_of_update. exists r. split; [done|].
    assert (foreign_waiting r = false) as ->; [|done]. unfold foreign_waiting. rewrite Hk. apply andb_false_r.
  - intros _. split; [done|]. intros x Hx. cbn [db_queue SetState set_state set_queue] in Hx.
    apply elem_of_update in Hx as (r & Hr & ->). by destruct (foreign_waiting r) eqn:F.
Qed.

Theorem MigrateNotifierProfile_spec_witness :
  exists n s1, MigrateNotifierProfile 0%Z ex_store = (n, s1) /\ MigrateNotifierProfile 5%Z s1 = (0%Z, s1).
Proof.
  destruct (MigrateNotifierProfile 0%Z ex_store) as [n s1] eqn:E. exists n, s1. split; [reflexivity|].
  exact (proj1 (MigrateNotifierProfile_spec 0%Z 5%Z ex_store n s1 E)).
Defined.

(** *** Where texts and instants part *)

(** Two texts with a common beginning compare as their ends do. *)
Lemma text_le_app a b c : text_le (a +:+ b) (a +:+ c) = text_le b c.
Proof.
  unfold text_le, String.leb. induction a as [|x a IH]; [done|].
  assert ((String x a +:+ b ?= String x a +:+ c)%string = (a +:+ b ?= a +:+ c)%string) as ->; [|exact IH].
  simpl. destruct (Ascii.compare x x) eqn:E; [done|..]; unfold Ascii.compare in E;
    by rewrite N.compare_refl in E.
Qed.

(** Instants of one second have texts that differ from the fraction on. *)
Lemma format_time_second t : exists p, forall d, (0 <= d < second)%Z ->
  format_time (t * second + d)%Z = p +:+ (if (d =? 0)%Z then "Z" else String "." (frac 9 d +:+ "Z")).
Proof.
  unfold format_time. destruct (civil_of_days (t / 86400)) as [[y m] d0] eqn:Ec.
  exists (pad 4 y +:+ String "-" (pad 2 m +:+ String "-" (pad 2 d0 +:+ String "T"
    (pad 2 ((t mod 86400) / 3600) +:+ String ":" (pad 2 ((t mod 86400) / 60 mod 60) +:+ String ":"
    (pad 2 ((t mod 86400) mod 60))))))).
  intros d Hd. assert (second <> 0)%Z as Hs by discriminate.
  rewrite Z.div_add_l, (Z.div_small d), Z.add_0_r by done.
  rewrite (Z.add_comm (t * second) d), Z.mod_add, (Z.mod_small d) by done. cbv zeta. rewrite Ec.
  unfold format_fields. repeat (rewrite <- ?str_app_assoc; cbn [String.append]). reflexivity.
Qed.

(** The texts of two instants of one second do not compare as the instants do, since
    the fraction is dropped when it is zero: a message available from the start of a
    second is not claimed at any later instant of that second. *)
Theorem available_text_misordered (t d : Z) rows r :
  (0 < d < second)%Z ->
  q_AvailableAt r = format_time (t * second)%Z ->
  text_le (format_time (t * second)%Z) (format_time (t * second + d)%Z) = false
  /\ claimable rows (format_time (t * second + d)%Z) r = false.
Proof.
  intros Hd Hr.
  assert (text_le (format_time (t * second)%Z) (format_time (t * second + d)%Z) = false) as E.
  { destruct (format_time_second t) as (p & Hp). rewrite <- (Z.add_0_r (t * second)%Z) at 1.
    rewrite !Hp by lia. destruct (Z.eqb_spec d 0); [lia|]. rewrite text_le_app. reflexivity. }
  split; [done|]. unfold claimable. by rewrite Hr, E, andb_false_r.
Qed.

Theorem available_text_misordered_witness :
  text_le "2026-01-01T00:00:00Z" "2026-01-01T00:00:00.5Z" = false
  /\ claimable [] "2026-01-01T00:00:00.5Z"
       (mkQueueRow 1 "e" "42:0" 42 0 "t" "notifier_terminal" DeliveryStatusRetry 1 "2026-01-01T00:00:00Z"
          None (Some "dpapi:v1:{}") "" "" None 1 1) = false.
Proof.
  refine (available_text_misordered 1767225600 500000000 [] _ _ _); [vm_compute; split; reflexivity|].
  vm_compute. reflexivity.
Defined.
