(* ===== verification/NotifierPipeline.v ===== *)
(** * What the notifier cycle guarantees

    A cycle (discoverNotifierThreads, then pollNotifierThreads) against the queue
    of Queue.v: it only makes the queue's own steps, it queues every newly finished
    turn and nothing else, and a read that is repeated queues nothing twice. *)
From stdpp Require Import base list numbers strings gmap relations.
From Stdlib Require Import Lia Ascii.
From S2P Require Import Prelude GoStrings Json GoTime Sql Model Control Normalize NotifierFormat.
From S2P Require Import Store StoreNotifier Daemon NotifierObserver Queue QueueSafety.

(** A computation that moves the queue by the queue's own steps. *)
Definition quiet {A : Type} (p : Protector) (m : M A) : Prop :=
  forall s, rtc (queue_step p) s (snd (m s)).

(** An operation on the observations alone. *)
Definition queue_kept (s s' : Store) : Prop :=
  db_queue s' = db_queue s /\ db_queueSeq s' = db_queueSeq s /\ db_terminal s' = db_terminal s
  /\ db_linked s' = db_linked s /\ db_state s' = db_state s.

(** The key under which a finished turn is recorded. *)
Definition terminal_key (threadID : string) (snapshot : ThreadReadSnapshot) : option string :=
  (fun status => threadID +:+ ":" +:+ sn_LatestTurnID snapshot +:+ ":" +:+ status)
    <$> notifierTerminalStatus snapshot.

(** The turn snapshots pollNotifierThread works on, after a read. *)
Definition turns_read (payload : obj) (threadID : string) : list ThreadReadSnapshot :=
  match notifierTurnSnapshotsFromRead payload threadID with
  | [] => [withThreadID threadID (readSnapshot payload)]
  | l => l
  end.

(** A turn whose end is to be notified. *)
Definition finished (t : ThreadReadSnapshot) : bool :=
  match notifierTerminalStatus t with Some _ => true | None => false end.

(** What pollDue does for one thread when nothing is cancelled. *)
Definition poll_one (MustJSON : DeliveryPayload -> string) (protector : option Protector)
    (now : instant) (session : Session) (activationUnix : Z) (s : Store) (o : NotifierObservation)
  : Store :=
  match pollNotifierThread MustJSON protector now session o activationUnix s with
  | (Done _, s1) => s1
  | (Fault err, s1) =>
      if isUnreadableSubagentThreadReadError err then
        snd (exec (RecordNotifierRead now (no_ThreadID o) (no_LastTurnID o) (no_LastTurnStatus o)
                     (no_LastUpdatedAt o) false) s1)
      else match err with
           | DeadlineExceeded =>
               snd (exec (DeferNotifierRead now (now + notifierThreadReadRetryDelay)%Z (no_ThreadID o)) s1)
           | _ => s1
           end
  end.

(** The failures of a cycle, in order, the unreadable threads left out. *)
Fixpoint poll_faults (MustJSON : DeliveryPayload -> string) (protector : option Protector)
    (now : instant) (session : Session) (activationUnix : Z) (due : list NotifierObservation)
    (s : Store) : list fault :=
  match due with
  | [] => []
  | o :: rest =>
      match fst (pollNotifierThread MustJSON protector now session o activationUnix s) with
      | Fault e => if isUnreadableSubagentThreadReadError e then [] else [e]
      | Done _ => []
      end
      ++ poll_faults MustJSON protector now session activationUnix rest
           (poll_one MustJSON protector now session activationUnix s o)
  end.

(** A session whose only thread finished a turn, and a store that watches it. *)
Definition ex_turn : obj :=
  [("id", JStr "turn-1"); ("status", JStr "completed");
   ("items", JArr [JObj [("type", JStr "agentMessage"); ("id", JStr "i1"); ("text", JStr "done");
                         ("phase", JStr "final_answer")]])].

Definition ex_payload : obj :=
  [("thread", JObj [("id", JStr "thread-a"); ("updatedAt", JNum 500 0); ("turns", JArr [JObj ex_turn])])].

Definition ex_session : Session := mkSession (fun _ => Done ex_payload) None.

Definition ex_watching : Store := SetGlobalObserverTarget 0%Z 42 0 true ex_seen.

Definition ex_previous : NotifierObservation :=
  mkNotifierObservation "thread-a" 100 "turn-0" "completed" true true 0 1.

Definition ex_snapshot (id status : string) : ThreadReadSnapshot :=
  mkThreadReadSnapshot zeroThread id status "" "" false false [] [] "" "" "" "" "" "" ""
    "" "" "" "" "" "" false "" "" None [].

(** ** Lemmas *)

(** *** Computations that only make the queue's steps *)
Lemma quiet_ret {A} p (a : A) : quiet p (ret a).
Proof. intros s. apply rtc_refl. Qed.

Lemma quiet_raise {A} p e : quiet p (raise (A:=A) e).
Proof. intros s. apply rtc_refl. Qed.

Lemma quiet_call {A} p (o : outcome A) : quiet p (call o).
Proof. intros s. apply rtc_refl. Qed.

Lemma quiet_gets {A} p (f : Store -> A) : quiet p (gets f).
Proof. intros s. apply rtc_refl. Qed.

Lemma quiet_bind {A B} p (m : M A) (k : A -> M B) :
  quiet p m -> (forall a, quiet p (k a)) -> quiet p (bind m k).
Proof.
  intros Hm Hk s. unfold bind. specialize (Hm s). destruct (m s) as [[a|e] s'] eqn:E; [|done].
  cbn [snd] in Hm. etrans; [exact Hm|apply Hk].
Qed.

Lemma quiet_each {A} p (l : list A) f : (forall x, x ∈ l -> quiet p (f x)) -> quiet p (each l f).
Proof.
  induction l as [|x l IH]; cbn [each]; intros H; [apply quiet_ret|].
  apply quiet_bind; [apply H; left|]. intros _. apply IH. intros y Hy. apply H. by right.
Qed.

Lemma rtc_other p s s' :
  db_queue s' = db_queue s -> db_queueSeq s' = db_queueSeq s -> db_terminal s' = db_terminal s ->
  rtc (queue_step p) s s'.
Proof. intros. by apply rtc_once, step_other. Qed.

(** Operations on the observations and on the daemon's state. *)
Lemma quiet_modify p f :
  (forall s, db_queue (f s) = db_queue s /\ db_queueSeq (f s) = db_queueSeq s
             /\ db_terminal (f s) = db_terminal s) -> quiet p (modify f).
Proof. intros H s. destruct (H s) as (? & ? & ?). by apply rtc_other. Qed.

Lemma quiet_exec p f : (forall s s', f s = Ok s' -> queue_kept s s') -> quiet p (exec f).
Proof.
  intros H s. unfold exec. destruct (f s) as [s'|] eqn:E; cbn [snd]; [|apply rtc_refl].
  destruct (H s s' E) as (? & ? & ? & _). by apply rtc_other.
Qed.

Lemma ObserveNotifierThread_kept now t w s s' :
  ObserveNotifierThread now t w s = Ok s' -> queue_kept s s'.
Proof.
  unfold ObserveNotifierThread. cbv zeta. destruct (String.eqb _ _); [done|].
  destruct (_ !! _) as [r|]; [destruct (_ =? _)%Z|]; intros [= <-]; done.
Qed.

Lemma RecordNotifierRead_kept now t u st w k s s' :
  RecordNotifierRead now t u st w k s = Ok s' -> queue_kept s s'.
Proof. unfold RecordNotifierRead. cbv zeta. destruct (String.eqb _ _); [done|]. by intros [= <-]. Qed.

Lemma DeferNotifierRead_kept now r t s s' :
  DeferNotifierRead now r t s = Ok s' -> queue_kept s s'.
Proof. unfold DeferNotifierRead. cbv zeta. destruct (String.eqb _ _); [done|]. by intros [= <-]. Qed.

Lemma EnsureNotifierActivation_queue now s t s' :
  EnsureNotifierActivation now s = Ok (t, s') ->
  db_queue s' = db_queue s /\ db_queueSeq s' = db_queueSeq s /\ db_terminal s' = db_terminal s.
Proof.
  unfold EnsureNotifierActivation. cbv zeta. destruct (_ !! _) as [[raw x]|]; [|done].
  unfold res_bind. destruct (parse_int64 raw); [|done]. intros E. by injection E as <- <-.
Qed.

Lemma filter_agree {A} (f g : A -> bool) (l : list A) :
  (forall x, x ∈ l -> f x = g x) -> filter f l = filter g l.
Proof.
  induction l as [|x l IH]; intros H; [done|]. rewrite !filter_cons, (H x ltac:(left)).
  rewrite IH; [done|]. intros y Hy. apply H. by right.
Qed.

(** *** Queueing one finished turn *)
Section Enqueue.
Context (MustJSON : DeliveryPayload -> string) (p : Protector) (now : instant).

Abbreviation enqueue := (enqueueTerminalSnapshot MustJSON (Some p) now).
Abbreviation poll := (pollNotifierThread MustJSON (Some p) now).

Lemma notifierDeliveryItems_numbered target event message :
  numbered_items (te_TerminalKey event) (notifierDeliveryItems MustJSON now target event message).
Proof.
  split; cbn.
  - constructor; [by split_and!|constructor].
  - constructor; [apply not_elem_of_nil|constructor].
Qed.

Lemma quiet_enqueue threadID target t : quiet p (enqueue threadID target t).
Proof.
  unfold enqueueTerminalSnapshot. destruct (notifierTerminalStatus t) as [status|]; [|apply quiet_ret].
  apply quiet_bind; [|intros []; apply quiet_ret]. intros s. unfold query.
  destruct (EnqueueTerminalEvent _ _ _ _ s) as [[b s']|] eqn:E; cbn [snd]; [|apply rtc_refl].
  eapply rtc_once, step_terminal; [|exact E]. apply notifierDeliveryItems_numbered.
Qed.

Lemma quiet_poll session o activation : quiet p (poll session o activation).
Proof.
  unfold pollNotifierThread. cbv zeta. destruct (String.eqb _ _); [apply quiet_ret|].
  apply quiet_bind; [apply quiet_call|]. intros payload.
  assert (forall t u st w k, quiet p (exec (RecordNotifierRead now t u st w k))) as Hrec
    by (intros; apply quiet_exec; intros; by eapply RecordNotifierRead_kept).
  destruct (notifierTerminalSnapshotsSince _ _ _) as [|x l]; [apply Hrec|].
  apply quiet_bind; [apply quiet_gets|]. intros [[target|] []]; try apply quiet_ret.
  destruct (_ || _); [apply quiet_ret|]. apply quiet_bind; [|intros _; apply Hrec].
  apply quiet_each. intros. apply quiet_enqueue.
Qed.

(** An event already recorded is left alone; the answer may be a fault. *)
Lemma enqueue_known threadID target t s key :
  terminal_key threadID t = Some key -> is_Some (db_terminal s !! key) ->
  snd (enqueue threadID target t s) = s.
Proof.
  unfold terminal_key, enqueueTerminalSnapshot. destruct (notifierTerminalStatus t) as [status|]; [|done].
  intros E [e He]. apply (inj Some) in E. subst key.
  unfold bind, query, EnqueueTerminalEvent, EnqueueTerminalEventWithLinkedRelease, res_bind.
  destruct (map_res _ _) as [pr|]; [|done]. unfold terminal_transaction.
  cbn [notifierTerminalEvent te_TerminalKey]. by rewrite He.
Qed.

(** A turn queued without a fault is recorded, and only it is new. *)
Lemma enqueue_new threadID target t s u s' :
  enqueue threadID target t s = (Done u, s') ->
  (forall key, terminal_key threadID t = Some key -> is_Some (db_terminal s' !! key))
  /\ remembers s s'
  /\ (forall key, is_Some (db_terminal s' !! key) ->
        is_Some (db_terminal s !! key) \/ terminal_key threadID t = Some key).
Proof.
  unfold enqueueTerminalSnapshot, terminal_key. destruct (notifierTerminalStatus t) as [status|]; cbn [fmap option_fmap option_map].
  2:{ intros [= _ <-]. split_and!; [done|by intros k|]. intros k. by left. }
  unfold bind, query, EnqueueTerminalEvent, EnqueueTerminalEventWithLinkedRelease, res_bind.
  destruct (map_res _ _) as [pr|]; [|done]. unfold terminal_transaction.
  change (te_TerminalKey (notifierTerminalEvent now threadID t status))
    with (threadID +:+ ":" +:+ sn_LatestTurnID t +:+ ":" +:+ status).
  set (key0 := threadID +:+ _). destruct (db_terminal s !! key0) eqn:E0; cbn [fst snd].
  - intros E. injection E as _ <-. split_and!; [|by intros k|by intros k; left].
    intros k Hk. apply (inj Some) in Hk. subst k. by rewrite E0.
  - cbv zeta. unfold res_bind. destruct (insert_items _ _ _) as [s2|] eqn:Ei; [|done].
    apply insert_items_app in Ei as (k2 & _ & Ht). cbn [db_terminal set_terminal] in Ht.
    intros E. injection E as _ <-. unfold remembers. rewrite Ht. split_and!.
    + intros k Hk. apply (inj Some) in Hk. subst k. rewrite lookup_insert_eq. by eexists.
    + intros k Hk. destruct (decide (k = key0)) as [->|Hne].
      * rewrite lookup_insert_eq. by eexists.
      * by rewrite lookup_insert_ne.
    + intros k Hk. destruct (decide (k = key0)) as [->|Hne]; [by right|left].
      by rewrite lookup_insert_ne in Hk.
Qed.

Lemma each_enqueue_new threadID target l s u s' :
  each l (enqueue threadID target) s = (Done u, s') ->
  (forall t key, t ∈ l -> terminal_key threadID t = Some key -> is_Some (db_terminal s' !! key))
  /\ remembers s s'
  /\ (forall key, is_Some (db_terminal s' !! key) ->
        is_Some (db_terminal s !! key) \/ exists t, t ∈ l /\ terminal_key threadID t = Some key).
Proof.
  revert s. induction l as [|t l IH]; intros s; cbn [each].
  { intros [= _ <-]. split_and!; [|by intros k|by intros k; left]. intros t key Ht. by apply elem_of_nil in Ht. }
  unfold bind. destruct (enqueue threadID target t s) as [[v|e] s1] eqn:E; [|done]. intros H.
  apply enqueue_new in E as (E1 & E2 & E3). destruct (IH s1 H) as (H1 & H2 & H3). split_and!.
  - intros t' key Ht' Hk. apply elem_of_cons in Ht' as [->|Ht']; [apply H2, E1, Hk|by eapply H1].
  - intros k Hk. apply H2, E2, Hk.
  - intros k Hk. destruct (H3 k Hk) as [Hk'|(t' & Ht' & Hk')].
    + destruct (E3 k Hk') as [|]; [by left|]. right. exists t. split; [left|done].
    + right. exists t'. split; [by right|done].
Qed.

Lemma each_enqueue_known threadID target l s :
  (forall t key, t ∈ l -> terminal_key threadID t = Some key -> is_Some (db_terminal s !! key)) ->
  snd (each l (enqueue threadID target) s) = s.
Proof.
  intros H. revert H. induction l as [|t l IH]; intros H; [done|]. cbn [each]. unfold bind.
  assert (snd (enqueue threadID target t s) = s) as Ht.
  { destruct (terminal_key threadID t) as [key|] eqn:E; [eapply enqueue_known, H; [exact E|left|exact E]|].
    unfold terminal_key, enqueueTerminalSnapshot in *. by destruct (notifierTerminalStatus t). }
  destruct (enqueue threadID target t s) as [[a|e] s1]; cbn [snd] in Ht; subst s1; [|done].
  apply IH. intros t' key Ht'. apply H. by right.
Qed.

(** pollNotifierThread after a read that answered. *)
Lemma poll_read session o activation payload s :
  let threadID := trim_space (no_ThreadID o) in
  threadID <> "" -> ThreadRead session threadID = Done payload ->
  let snapshot := withThreadID threadID (readSnapshot payload) in
  let record := exec (RecordNotifierRead now threadID (sn_LatestTurnID snapshot)
                        (canonicalMinimalTerminalStatus (sn_LatestTurnStatus snapshot))
                        (th_UpdatedAt (sn_Thread snapshot)) false) in
  poll session o activation s
  = match notifierTerminalSnapshotsSince o (turns_read payload threadID) activation with
    | [] => record s
    | l => match GetGlobalObserverTarget (format_time now) s with
           | (Some target, true) =>
               if negb (ot_Enabled target) || (ot_ChatID target =? 0)%Z then (Done tt, s)
               else bind (each l (enqueue threadID target)) (fun _ => record) s
           | _ => (Done tt, s)
           end
    end.
Proof.
  cbv zeta. intros Hne Hr. apply String.eqb_neq in Hne. unfold pollNotifierThread. cbv zeta.
  rewrite Hne. unfold bind at 1, call. rewrite Hr. fold (turns_read payload (trim_space (no_ThreadID o))).
  destruct (notifierTerminalSnapshotsSince _ _ _) as [|x l]; [done|].
  unfold bind at 1, gets. destruct (GetGlobalObserverTarget (format_time now) s) as [[target|] []]; try done.
  by destruct (_ || _).
Qed.

Lemma record_done t u st w k s :
  trim_space t <> "" ->
  exists s', exec (RecordNotifierRead now t u st w k) s = (Done tt, s') /\ queue_kept s s'.
Proof.
  intros Hne. apply String.eqb_neq in Hne. unfold exec, RecordNotifierRead. cbv zeta. rewrite Hne.
  eexists. split; [reflexivity|done].
Qed.

Lemma quiet_pollDue ctxErr session activation due firstErr :
  quiet p (pollDue MustJSON (Some p) now ctxErr session activation due firstErr).
Proof.
  revert firstErr. induction due as [|o due IH]; intros firstErr; cbn [pollDue].
  { destruct firstErr; [apply quiet_raise|apply quiet_ret]. }
  assert (forall f (k1 k2 : M unit), (forall s s', f s = Ok s' -> queue_kept s s') -> quiet p k1 -> quiet p k2 ->
    quiet p (fun s => match exec f s with (Done _, s2) => k1 s2 | (Fault _, s2) => k2 s2 end)) as Hx.
  { intros f k1 k2 Hf H1 H2 s. pose proof (quiet_exec p f Hf s) as H.
    destruct (exec f s) as [[a|e] s2]; cbn [snd] in H; (etrans; [exact H|]); [apply H1|apply H2]. }
  intros s. pose proof (quiet_poll session o activation s) as H.
  destruct (poll session o activation s) as [[a|err] s1]; cbn [snd] in H; (etrans; [exact H|]); [apply IH|].
  destruct (ctxErr _) as [e|]; [apply rtc_refl|]. destruct (isUnreadableSubagentThreadReadError err).
  - refine (Hx _ (pollDue _ _ _ _ _ _ _ _) (raise err) _ (IH firstErr) (quiet_raise _ _) s1).
    intros ? ?. apply RecordNotifierRead_kept.
  - destruct err; try apply IH.
    refine (Hx _ (pollDue _ _ _ _ _ _ _ _) (raise DeadlineExceeded) _ (IH _) (quiet_raise _ _) s1).
    intros ? ?. apply DeferNotifierRead_kept.
Qed.

End Enqueue.

(** The loop over the due threads, with the failure met so far. *)
Lemma pollDue_run MustJSON protector now session activation due firstErr s :
  Forall (fun o => trim_space (no_ThreadID o) <> "") due ->
  pollDue MustJSON protector now (fun _ => None) session activation due firstErr s
  = (match option_list firstErr ++ poll_faults MustJSON protector now session activation due s with
     | e :: _ => Fault e
     | [] => Done tt
     end, fold_left (poll_one MustJSON protector now session activation) due s).
Proof.
  intros Hd. revert firstErr s. induction Hd as [|o due Ho Hd IH]; intros firstErr s.
  { by destruct firstErr. }
  cbn [pollDue fold_left poll_faults].
  pose proof (eq_refl (poll_one MustJSON protector now session activation s o)) as Ht.
  unfold poll_one at 2 in Ht. revert Ht.
  destruct (pollNotifierThread MustJSON protector now session o activation s) as [[[]|err] s1];
    cbn [fst app]; intros Ht; rewrite ?Ht.
  { apply IH. }
  destruct (isUnreadableSubagentThreadReadError err) eqn:Eu; cbn [app].
  { destruct (record_done now (no_ThreadID o) (no_LastTurnID o) (no_LastTurnStatus o) (no_LastUpdatedAt o) false s1 Ho)
      as (s2 & E & _). rewrite E in *. cbn [snd] in Ht. rewrite ?Ht. apply IH. }
  assert (forall s2, pollDue MustJSON protector now (fun _ => None) session activation due
      (match firstErr with Some e => Some e | None => Some err end) s2
    = (match option_list firstErr ++ err :: poll_faults MustJSON protector now session activation due s2 with
       | e :: _ => Fault e | [] => Done tt end,
       fold_left (poll_one MustJSON protector now session activation) due s2)) as Hk.
  { intros s2. rewrite IH. by destruct firstErr. }
  destruct err; rewrite ?Ht; try apply Hk. unfold exec, DeferNotifierRead. cbv zeta.
  apply String.eqb_neq in Ho. rewrite Ho. cbn [snd]. apply Hk.
Qed.

(** ** Theorems *)

(** C4: Refinement: whatever App Server answers, however it fails and whenever the context
    is cancelled, a notifier cycle moves the store only by steps of the delivery queue.
    Every guarantee of the queue therefore holds while the notifier runs. *)
Theorem notifier_cycle_refines MustJSON p now ctxErr connected poll s :
  rtc (queue_step p) s
    (snd (bind (discoverNotifierThreads now connected poll)
            (fun _ => pollNotifierThreads MustJSON (Some p) now ctxErr connected poll) s)).
Proof.
  revert s. apply (quiet_bind p).
  - unfold discoverNotifierThreads. destruct connected, poll as [session|]; try apply quiet_ret.
    destruct (ThreadListWithOptions session) as [list_|]; [|apply quiet_ret].
    assert (forall result, quiet p (observeNotifierListPage now result)) as Hpage.
    { intros result. apply quiet_each. intros t _. apply quiet_exec. intros. by eapply ObserveNotifierThread_kept. }
    assert (forall v, quiet p (modify (SetState (format_time now) notifierSweepCursorKey v))) as Hset
      by (intros; by apply quiet_modify).
    repeat first [apply quiet_call | apply quiet_gets | apply Hpage | apply Hset
                 | apply quiet_bind; [|intros ?] | progress cbv zeta | destruct (String.eqb _ _)].
  - intros _. unfold pollNotifierThreads. destruct (ctxErr None); [apply quiet_raise|].
    apply quiet_bind; [apply quiet_gets|intros pending]. destruct (negb _); [apply quiet_ret|].
    destruct connected, poll as [session|]; try apply quiet_ret.
    apply quiet_bind.
    { intros s. unfold query. destruct (EnsureNotifierActivation now s) as [[t s']|] eqn:E; [|apply rtc_refl].
      apply EnsureNotifierActivation_queue in E as (? & ? & ?). by apply rtc_other. }
    intros t. apply quiet_bind; [by apply quiet_modify|intros _].
    apply quiet_bind; [apply quiet_gets|intros due]. apply quiet_pollDue.
Qed.

(** C11: Completeness and soundness of a poll.  When the read answers, a chat is set and
    the poll ends without a fault, every newly finished turn is recorded under its
    key, nothing recorded before is lost, and nothing else is recorded; the thread is
    then settled at the turn the read ended with. *)
Theorem pollNotifierThread_complete MustJSON p now session o activation payload target s s' :
  let threadID := trim_space (no_ThreadID o) in
  let fresh := notifierTerminalSnapshotsSince o (turns_read payload threadID) activation in
  threadID <> "" -> ThreadRead session threadID = Done payload ->
  GetGlobalObserverTarget (format_time now) s = (Some target, true) ->
  ot_Enabled target = true -> ot_ChatID target <> 0%Z ->
  pollNotifierThread MustJSON (Some p) now session o activation s = (Done tt, s') ->
  (forall t key, t ∈ fresh -> terminal_key threadID t = Some key -> is_Some (db_terminal s' !! key))
  /\ remembers s s'
  /\ (forall key, is_Some (db_terminal s' !! key) ->
        is_Some (db_terminal s !! key) \/ exists t, t ∈ fresh /\ terminal_key threadID t = Some key)
  /\ forall at_, read_due threadID at_ s' = false.
Proof.
  cbv zeta. intros Hne Hr Ht He Hc. set (tid := trim_space (no_ThreadID o)) in *.
  rewrite (poll_read MustJSON p now session o activation payload s Hne Hr). fold tid.
  set (snapshot := withThreadID tid (readSnapshot payload)).
  assert (Hrec : forall s s', exec (RecordNotifierRead now tid (sn_LatestTurnID snapshot)
      (canonicalMinimalTerminalStatus (sn_LatestTurnStatus snapshot)) (th_UpdatedAt (sn_Thread snapshot)) false) s
      = (Done tt, s') -> queue_kept s s' /\ forall at_, read_due tid at_ s' = false).
  { intros x x' H. assert (trim_space tid = tid) as Hid by apply trim_space_idemp.
    apply String.eqb_neq in Hne. unfold exec, RecordNotifierRead in H. cbv zeta in H. rewrite Hid, Hne in H.
    apply (f_equal snd) in H. cbn [snd] in H. subst x'. split; [done|]. intros at_. unfold read_due.
    cbn [db_observations set_observations]. rewrite lookup_insert_eq.
    by destruct (db_observations x !! tid). }
  destruct (notifierTerminalSnapshotsSince _ _ _) as [|t0 l] eqn:El; intros H.
  - apply Hrec in H as [(_ & _ & Hdb & _) Hd]. unfold remembers. rewrite Hdb.
    split_and!; [|by intros k|by intros k; left|done]. intros t k H. by apply elem_of_nil in H.
  - rewrite Ht, He in H. apply Z.eqb_neq in Hc. rewrite Hc in H. cbn [negb orb] in H.
    unfold bind in H. destruct (each _ _ s) as [[u|e] s1] eqn:E; [|done].
    apply Hrec in H as [(_ & _ & Hdb & _) Hd]. apply each_enqueue_new in E as (E1 & E2 & E3).
    unfold remembers. rewrite Hdb. by split_and!.
Qed.

Theorem pollNotifierThread_complete_witness :
  exists s', pollNotifierThread (fun _ => "{}") (Some plainProtector) 5%Z ex_session ex_previous 5 ex_watching
             = (Done tt, s')
    /\ is_Some (db_terminal s' !! "thread-a:turn-1:completed") /\ read_due "thread-a" 100%Z s' = false.
Proof.
  destruct (pollNotifierThread (fun _ => "{}") (Some plainProtector) 5%Z ex_session ex_previous 5 ex_watching)
    as [[[]|e] s'] eqn:E; [|vm_compute in E; discriminate].
  destruct (pollNotifierThread_complete (fun _ => "{}") plainProtector 5%Z ex_session ex_previous 5 ex_payload
              (mkObserverTarget "42:0" 42 0 true (format_time 5%Z) (format_time 5%Z)) ex_watching s')
    as (H & _ & _ & Hd); [vm_compute; discriminate|vm_compute; reflexivity|vm_compute; reflexivity
                         |reflexivity|discriminate|exact E|].
  exists s'. split; [reflexivity|]. split; [|exact (Hd 100%Z)].
  destruct (notifierTerminalSnapshotsSince ex_previous
    (turns_read ex_payload (trim_space (no_ThreadID ex_previous))) 5) as [|t l] eqn:El;
    [vm_compute in El; discriminate|].
  refine (H t _ (list_elem_of_here t l) _).
  vm_compute in El. injection El as <- _. vm_compute. reflexivity.
Defined.

(** Without a chat to notify nothing is dropped: when a read finds newly finished
    turns and the observer has no target, the store stays as it is, so the thread is
    read again.  A read that fails changes nothing either. *)
Theorem pollNotifierThread_waits MustJSON p now session o activation s :
  let threadID := trim_space (no_ThreadID o) in
  threadID <> "" ->
  match ThreadRead session threadID with
  | Fault e => pollNotifierThread MustJSON (Some p) now session o activation s = (Fault e, s)
  | Done payload =>
      notifierTerminalSnapshotsSince o (turns_read payload threadID) activation <> [] ->
      fst (GetGlobalObserverTarget (format_time now) s) = None ->
      pollNotifierThread MustJSON (Some p) now session o activation s = (Done tt, s)
  end.
Proof.
  cbv zeta. intros Hne. destruct (ThreadRead session _) as [payload|e] eqn:Hr.
  - intros Hl Ht. rewrite (poll_read MustJSON p now session o activation payload s Hne Hr).
    destruct (notifierTerminalSnapshotsSince _ _ _); [done|].
    destruct (GetGlobalObserverTarget _ _) as [[?|] ?]; [done|]. done.
  - apply String.eqb_neq in Hne. unfold pollNotifierThread. cbv zeta. rewrite Hne. unfold bind, call. by rewrite Hr.
Qed.

Theorem pollNotifierThread_waits_witness :
  pollNotifierThread (fun _ => "{}") (Some plainProtector) 5%Z ex_session ex_previous 5 ex_seen
  = (Done tt, ex_seen).
Proof.
  refine (pollNotifierThread_waits (fun _ => "{}") plainProtector 5%Z ex_session ex_previous 5 ex_seen _ _ _).
  - vm_compute. discriminate.
  - vm_compute. discriminate.
  - reflexivity.
Defined.

(** A read repeated after a crash queues nothing twice: polling again with the same
    observation, at any later clock, with any encoder and however the second poll ends,
    leaves the queue and the terminal events as the first poll left them. *)
Theorem pollNotifierThread_replay MustJSON MustJSON' p now now' session o activation s s1 s2 r target :
  GetGlobalObserverTarget (format_time now) s = (Some target, true) ->
  ot_Enabled target = true -> ot_ChatID target <> 0%Z ->
  pollNotifierThread MustJSON (Some p) now session o activation s = (Done tt, s1) ->
  pollNotifierThread MustJSON' (Some p) now' session o activation s1 = (r, s2) ->
  db_queue s2 = db_queue s1 /\ db_terminal s2 = db_terminal s1.
Proof.
  intros Ht He Hc H1 H2. destruct (decide (trim_space (no_ThreadID o) = "")) as [E|Hne].
  { apply String.eqb_eq in E. unfold pollNotifierThread in H2. cbv zeta in H2. rewrite E in H2. by injection H2 as _ <-. }
  destruct (ThreadRead session (trim_space (no_ThreadID o))) as [payload|e] eqn:Hr.
  2:{ apply String.eqb_neq in Hne. unfold pollNotifierThread in H2. cbv zeta in H2. rewrite Hne in H2.
      unfold bind, call in H2. rewrite Hr in H2. by injection H2 as _ <-. }
  assert (forall t key, t ∈ notifierTerminalSnapshotsSince o (turns_read payload (trim_space (no_ThreadID o))) activation ->
            terminal_key (trim_space (no_ThreadID o)) t = Some key -> is_Some (db_terminal s1 !! key)) as Hk.
  { rewrite (poll_read _ _ _ _ _ _ payload s Hne Hr) in H1.
    destruct (notifierTerminalSnapshotsSince _ _ _) as [|x l]; [intros t key H; by apply elem_of_nil in H|].
    rewrite Ht, He in H1. apply Z.eqb_neq in Hc. rewrite Hc in H1. cbn [negb orb] in H1. unfold bind in H1.
    destruct (each _ _ s) as [[u|e] s0] eqn:E; [|done]. apply each_enqueue_new in E as (E1 & _ & _).
    destruct (record_done now _ (sn_LatestTurnID (withThreadID (trim_space (no_ThreadID o)) (readSnapshot payload)))
      (canonicalMinimalTerminalStatus (sn_LatestTurnStatus (withThreadID (trim_space (no_ThreadID o)) (readSnapshot payload))))
      (th_UpdatedAt (sn_Thread (withThreadID (trim_space (no_ThreadID o)) (readSnapshot payload)))) false s0
      ltac:(by rewrite trim_space_idemp)) as (s' & Hs' & _ & _ & Hdb & _).
    rewrite Hs' in H1. injection H1 as <-. rewrite Hdb. exact E1. }
  rewrite (poll_read _ _ _ _ _ _ payload s1 Hne Hr) in H2.
  assert (forall t u st w k s s' x, exec (RecordNotifierRead now' t u st w k) s = (x, s') ->
            db_queue s' = db_queue s /\ db_terminal s' = db_terminal s) as Hrec.
  { intros t u st w k z z' x. unfold exec. destruct (RecordNotifierRead _ _ _ _ _ _ z) eqn:E; intros [= _ <-]; [|done].
    by apply RecordNotifierRead_kept in E as (? & _ & ? & _). }
  pose proof (fun t => each_enqueue_known MustJSON' p now' (trim_space (no_ThreadID o)) t _ s1 Hk) as Hsame.
  destruct (notifierTerminalSnapshotsSince _ _ _) as [|x l]; [by eapply Hrec|].
  destruct (GetGlobalObserverTarget _ s1) as [[t1|] []]; try by injection H2 as _ <-.
  destruct (_ || _); [by injection H2 as _ <-|]. specialize (Hsame t1). unfold bind in H2.
  destruct (each _ _ s1) as [[u|e] s3]; cbn [snd] in Hsame; subst s3; [by eapply Hrec|by injection H2 as _ <-].
Qed.

Theorem pollNotifierThread_replay_witness :
  exists s1 r s2, pollNotifierThread (fun _ => "{}") (Some plainProtector) 5%Z ex_session ex_previous 5 ex_watching
             = (Done tt, s1)
    /\ pollNotifierThread (fun _ => "{}") (Some plainProtector) 9%Z ex_session ex_previous 5 s1 = (r, s2)
    /\ length (db_queue s1) = 1%nat /\ db_queue s2 = db_queue s1.
Proof.
  destruct (pollNotifierThread (fun _ => "{}") (Some plainProtector) 5%Z ex_session ex_previous 5 ex_watching)
    as [[[]|e] s1] eqn:E; [|vm_compute in E; discriminate].
  destruct (pollNotifierThread (fun _ => "{}") (Some plainProtector) 9%Z ex_session ex_previous 5 s1)
    as [r s2] eqn:E2.
  exists s1, r, s2. split; [reflexivity|]. split; [exact E2|].
  split; [vm_compute in E; injection E as <-; reflexivity|].
  refine (proj1 (pollNotifierThread_replay (fun _ => "{}") (fun _ => "{}") plainProtector 5%Z 9%Z ex_session
            ex_previous 5 ex_watching s1 s2 r
            (mkObserverTarget "42:0" 42 0 true (format_time 5%Z) (format_time 5%Z)) _ _ _ E E2));
    [vm_compute; reflexivity|reflexivity|discriminate].
Defined.

(** Reading restarts at the turn of the last read. *)
Lemma notifierStartIndex_history id0 old prev newer :
  trim_space id0 <> "" -> sn_LatestTurnID prev = trim_space id0 ->
  Forall (fun t => trim_space (sn_LatestTurnID t) <> trim_space id0) old ->
  notifierStartIndex id0 (old ++ prev :: newer) = length old.
Proof.
  intros Hne Hp Hold. unfold notifierStartIndex. cbv zeta. apply String.eqb_neq in Hne. rewrite Hne.
  assert (forall i, turn_index (trim_space id0) (old ++ prev :: newer) i = Some (i + length old)%nat) as H;
    [|by rewrite H].
  induction Hold as [|t old Ht Hold IH]; intros i; cbn [app turn_index length].
  - rewrite Hp, trim_space_idemp, String.eqb_refl. f_equal. lia.
  - apply String.eqb_neq in Ht. rewrite Ht, IH. f_equal. lia.
Qed.

(** Which turns are new.  Of a thread whose history is [old ++ prev :: newer], where
    [prev] is the turn of the last read, the new ones are exactly the finished turns
    after [prev], in their order, and before them [prev] itself if it has finished with
    a status other than the recorded one; no older turn is looked at. *)
Theorem notifierTerminalSnapshotsSince_spec o old prev newer activation :
  no_BaselineReady o = true ->
  let id := trim_space (no_LastTurnID o) in
  id <> "" -> trim_space (no_LastTurnID o) = no_LastTurnID o ->
  sn_LatestTurnID prev = id ->
  Forall (fun t => trim_space (sn_LatestTurnID t) <> id) old ->
  Forall (fun t => sn_LatestTurnID t <> "" /\ sn_LatestTurnID t <> id) newer ->
  notifierTerminalSnapshotsSince o (old ++ prev :: newer) activation
  = (match notifierTerminalStatus prev with
     | Some status => if String.eqb (canonicalMinimalTerminalStatus (no_LastTurnStatus o)) status
                      then [] else [prev]
     | None => []
     end) ++ filter finished newer.
Proof.
  cbv zeta. intros Hb Hne Htrim Hp Hold Hnew. unfold notifierTerminalSnapshotsSince.
  destruct (last_of (old ++ prev :: newer)) as [latest|] eqn:El.
  2:{ unfold last_of in El. apply last_None in El. by destruct old. }
  rewrite Hb. cbn [negb].
  rewrite notifierStartIndex_history, drop_app_length by done.
  assert (filter (newTerminal o activation) newer = filter finished newer) as Hf.
  { apply filter_agree. intros t Ht. rewrite Forall_forall in Hnew. destruct (Hnew t Ht) as [Hn Hid].
    unfold newTerminal, finished, notifierTerminalTransition. rewrite Hb. cbn [negb].
    destruct (notifierTerminalStatus t) as [status|]; [|done]. apply String.eqb_neq in Hn. rewrite Hn.
    rewrite Htrim in Hid. assert (no_LastTurnID o <> sn_LatestTurnID t) as Hid' by congruence.
    apply String.eqb_neq in Hid'. by rewrite Hid'. }
  assert (newTerminal o activation prev
          = match notifierTerminalStatus prev with
            | Some status => negb (String.eqb (canonicalMinimalTerminalStatus (no_LastTurnStatus o)) status)
            | None => false
            end) as Hnp.
  { unfold newTerminal, notifierTerminalTransition. destruct (notifierTerminalStatus prev) as [status|]; [|done].
    assert (String.eqb (sn_LatestTurnID prev) "" = false) as -> by (apply String.eqb_neq; congruence).
    assert (String.eqb (no_LastTurnID o) (sn_LatestTurnID prev) = true) as -> by (apply String.eqb_eq; congruence).
    by rewrite Hb. }
  rewrite filter_cons, Hf, Hnp. destruct (notifierTerminalStatus prev) as [status|]; [|done].
  by destruct (String.eqb _ status).
Qed.

Theorem notifierTerminalSnapshotsSince_spec_witness :
  notifierTerminalSnapshotsSince ex_previous
    ([ex_snapshot "a" "completed"] ++ ex_snapshot "turn-0" "failed"
       :: [ex_snapshot "b" "completed"; ex_snapshot "c" "inProgress"; ex_snapshot "d" "failed"]) 5
  = [ex_snapshot "turn-0" "failed"; ex_snapshot "b" "completed"; ex_snapshot "d" "failed"].
Proof.
  rewrite notifierTerminalSnapshotsSince_spec; [vm_compute; reflexivity|reflexivity|vm_compute; discriminate|..].
  - vm_compute. reflexivity.
  - vm_compute. reflexivity.
  - repeat constructor. vm_compute. discriminate.
  - repeat constructor; vm_compute; discriminate.
Defined.

(** One unreadable thread does not stop the others.  When the cycle is not cancelled,
    every due thread is polled, in order, each from the store the previous one left: a
    thread App Server can never read is marked as read, one that timed out is deferred,
    any other failure leaves it due.  The cycle reports the first failure that is not of
    the unreadable kind, and succeeds when there is none. *)
Theorem pollDue_isolates MustJSON protector now session activation due s :
  Forall (fun o => trim_space (no_ThreadID o) <> "") due ->
  pollDue MustJSON protector now (fun _ => None) session activation due None s
  = (match poll_faults MustJSON protector now session activation due s with
     | e :: _ => Fault e
     | [] => Done tt
     end, fold_left (poll_one MustJSON protector now session activation) due s).
Proof.
  intros Hd. rewrite pollDue_run by done. reflexivity.
Qed.

Theorem pollDue_isolates_witness :
  let session := mkSession (fun id => if String.eqb id "thread-a" then Done ex_payload
                                      else Fault (OtherError "gone")) None in
  let lost := mkNotifierObservation "thread-b" 1 "" "" true true 0 2 in
  fst (pollDue (fun _ => "{}") (Some plainProtector) 5%Z (fun _ => None) session 5 [lost; ex_previous] None ex_watching)
  = Fault (OtherError "gone")
  /\ length (db_queue (snd (pollDue (fun _ => "{}") (Some plainProtector) 5%Z (fun _ => None) session 5
       [lost; ex_previous] None ex_watching))) = 1%nat.
Proof.
  cbv zeta. rewrite pollDue_isolates; [split; vm_compute; reflexivity|].
  repeat constructor; vm_compute; discriminate.
Defined.

(** *** Where the code and its decision record part *)

(** An interrupted turn without a final answer is not notified, though ADR-022 says
    every newly interrupted turn is. *)
Theorem interrupted_without_answer_silent :
  notifierTerminalSnapshotsSince ex_previous [ex_snapshot "turn-1" "interrupted"] 5 = [].
Proof. vm_compute. reflexivity. Qed.

(** The answer of an interrupted turn is lost when it comes late.  Once a read has
    recorded the latest turn as interrupted (it had no answer then, so nothing was
    notified), the same turn read later with its final answer, a turn that would have
    been notified, is not new: whatever the history before it, nothing is queued. *)
Theorem interrupted_answer_lost o old answered activation :
  no_BaselineReady o = true ->
  trim_space (no_LastTurnID o) <> "" -> trim_space (no_LastTurnID o) = no_LastTurnID o ->
  canonicalMinimalTerminalStatus (no_LastTurnStatus o) = "interrupted" ->
  Forall (fun t => trim_space (sn_LatestTurnID t) <> trim_space (no_LastTurnID o)) old ->
  sn_LatestTurnID answered = trim_space (no_LastTurnID o) ->
  notifierTerminalStatus answered = Some "interrupted" ->
  notifierTerminalSnapshotsSince o (old ++ [answered]) activation = [].
Proof.
  intros Hb Hne Htrim Ho Hold Ha Hs. unfold notifierTerminalSnapshotsSince.
  destruct (last_of _) as [latest|]; [|done]. rewrite Hb. cbn [negb].
  rewrite notifierStartIndex_history, drop_app_length by done.
  assert (newTerminal o activation answered = false) as E.
  { unfold newTerminal, notifierTerminalTransition. rewrite Hs, Hb, Ho, Ha, Htrim, !String.eqb_refl.
    rewrite Htrim in Hne. apply String.eqb_neq in Hne. by rewrite Hne. }
  by rewrite filter_cons, E.
Qed.

(** The first read says interrupted without an answer, the second one with it. *)
Theorem interrupted_answer_lost_witness :
  let seen := ex_snapshot "turn-1" "interrupted" in
  let answered := normalizeFinalizedTurn
    (mkThreadReadSnapshot zeroThread "turn-1" "interrupted" "" "" false false [] [] "" "" "" "" "" ""
       "the answer" "" "" "" "" "" "" false "" "" None []) in
  let recorded := mkNotifierObservation "thread-a" 200 (sn_LatestTurnID seen)
    (canonicalMinimalTerminalStatus (sn_LatestTurnStatus seen)) true true 0 1 in
  notifierTerminalSnapshotsSince ex_previous [seen] 5 = []
  /\ notifierTerminalSnapshotsSince ex_previous [answered] 5 = [answered]
  /\ notifierTerminalSnapshotsSince recorded ([] ++ [answered]) 5 = [].
Proof.
  cbv zeta. split; [vm_compute; reflexivity|]. split; [vm_compute; reflexivity|].
  apply interrupted_answer_lost; try (vm_compute; (reflexivity || discriminate)). constructor.
Defined.
