(* ===== verification/LinkedThread.v ===== *)
(** * internal/storage/store_minimal.go: linked threads and their workers

    A linked thread is a fork of a desktop thread that Telegram drives.  Its row is
    ready, held by a worker (telegram_running), waiting to be released
    (release_pending) or failed; a worker shows its generation with every call.
    Each operation is one UPDATE of minimal_linked_threads; [now] is the text of
    the clock. *)
From stdpp Require Import base list numbers strings gmap relations.
From Stdlib Require Import Lia Ascii.
From S2P Require Import Prelude GoStrings GoTime Sql Model Store Queue QueueSafety.

Record MinimalLinkedThread : Type := mkLinkedThread {
  lt_ChatKey : string;
  lt_ChatID : Z;
  lt_TopicID : Z;
  lt_ProjectID : string;
  lt_SourceThreadID : string;
  lt_LinkedThreadID : string;
  lt_SourceAnchorTurnID : string;
  lt_SourceTitle : string;
  lt_DesiredTitle : string;
  lt_TitleState : string;
  lt_State : string;
  lt_ActiveTurnID : string;
  lt_WorkerGeneration : Z;
  lt_LastBlockedAt : TimeString;
  lt_LastBlockedCode : string;
  lt_FailureKind : string;
  lt_CreatedAt : TimeString;
  lt_UpdatedAt : TimeString;
  lt_ReleasedAt : TimeString }.

(** *** Assignments of the UPDATEs *)
Definition upd_linked_worker (state : string) (turn : option string) (generation : Z)
    (now : TimeString) (r : LinkedRow) : LinkedRow :=
  mkLinkedRow (l_ChatKey r) (l_ChatID r) (l_TopicID r) (l_ProjectID r) (l_SourceThreadID r)
    (l_LinkedThreadID r) (l_SourceAnchorTurnID r) (l_SourceTitle r) (l_DesiredTitle r)
    (l_TitleState r) state turn generation (l_LastBlockedAt r) (l_LastBlockedCode r)
    (l_FailureKind r) (l_CreatedAt r) now (l_ReleasedAt r).

Definition upd_linked_blocked (at_ code : option string) (r : LinkedRow) : LinkedRow :=
  mkLinkedRow (l_ChatKey r) (l_ChatID r) (l_TopicID r) (l_ProjectID r) (l_SourceThreadID r)
    (l_LinkedThreadID r) (l_SourceAnchorTurnID r) (l_SourceTitle r) (l_DesiredTitle r)
    (l_TitleState r) (l_State r) (l_ActiveTurnID r) (l_WorkerGeneration r) at_ code
    (l_FailureKind r) (l_CreatedAt r) (l_UpdatedAt r) (l_ReleasedAt r).

Definition upd_linked_failure (kind : option string) (r : LinkedRow) : LinkedRow :=
  mkLinkedRow (l_ChatKey r) (l_ChatID r) (l_TopicID r) (l_ProjectID r) (l_SourceThreadID r)
    (l_LinkedThreadID r) (l_SourceAnchorTurnID r) (l_SourceTitle r) (l_DesiredTitle r)
    (l_TitleState r) (l_State r) (l_ActiveTurnID r) (l_WorkerGeneration r) (l_LastBlockedAt r)
    (l_LastBlockedCode r) kind (l_CreatedAt r) (l_UpdatedAt r) (l_ReleasedAt r).

Definition upd_linked_released (at_ : TimeString) (r : LinkedRow) : LinkedRow :=
  mkLinkedRow (l_ChatKey r) (l_ChatID r) (l_TopicID r) (l_ProjectID r) (l_SourceThreadID r)
    (l_LinkedThreadID r) (l_SourceAnchorTurnID r) (l_SourceTitle r) (l_DesiredTitle r)
    (l_TitleState r) (l_State r) (l_ActiveTurnID r) (l_WorkerGeneration r) (l_LastBlockedAt r)
    (l_LastBlockedCode r) (l_FailureKind r) (l_CreatedAt r) (l_UpdatedAt r) (Some at_).

Definition upd_linked_titles (source desired : option string) (titleState : string)
    (now : TimeString) (r : LinkedRow) : LinkedRow :=
  mkLinkedRow (l_ChatKey r) (l_ChatID r) (l_TopicID r) (l_ProjectID r) (l_SourceThreadID r)
    (l_LinkedThreadID r) (l_SourceAnchorTurnID r) source desired titleState (l_State r)
    (l_ActiveTurnID r) (l_WorkerGeneration r) (l_LastBlockedAt r) (l_LastBlockedCode r)
    (l_FailureKind r) (l_CreatedAt r) now (l_ReleasedAt r).

(** UPDATE minimal_linked_threads SET f WHERE p: RowsAffected, and the new table. *)
Definition update_linked (p : LinkedRow -> bool) (f : LinkedRow -> LinkedRow) (s : Store)
  : Z * Store :=
  (affected p (db_linked s), set_linked (update_where p f (db_linked s)) s).

(** return changed == 1, nil *)
Definition changed_one (r : Z * Store) : res (bool * Store) := Ok ((r.1 =? 1)%Z, r.2).

(** *** Titles, protected at rest *)
Definition minimalLinkedTitleStateValid (state : string) : bool :=
  existsb (String.eqb state) [MinimalLinkedTitlePending; MinimalLinkedTitleSet].

Definition protectMinimalLinkedTitle (protector : option Protector) (title0 : string)
  : res (option string) :=
  let title := trim_space title0 in
  if String.eqb title "" then Ok None
  else match protector with
       | None => Err "securestore protector is required for minimal linked titles"
       | Some p => let! protected := Protect p title in Ok (Some protected)
       end.

Definition unprotectMinimalLinkedTitle (protector : option Protector) (payload : option string)
  : res string :=
  match payload with
  | None => Ok ""
  | Some text =>
      if String.eqb (trim_space text) "" then Ok ""
      else match protector with
           | None => Err "securestore protector is required for minimal linked titles"
           | Some p => Unprotect p text
           end
  end.

Definition scanMinimalLinkedThread (protector : option Protector) (row : option LinkedRow)
  : res (option MinimalLinkedThread) :=
  match row with
  | None => Ok None
  | Some r =>
      if (l_WorkerGeneration r <? 0)%Z then Err "minimal linked generation is negative"
      else
        let! sourceTitle := unprotectMinimalLinkedTitle protector (l_SourceTitle r) in
        let! desiredTitle := unprotectMinimalLinkedTitle protector (l_DesiredTitle r) in
        Ok (Some (mkLinkedThread (l_ChatKey r) (l_ChatID r) (l_TopicID r) (l_ProjectID r)
              (l_SourceThreadID r) (default "" (l_LinkedThreadID r)) (l_SourceAnchorTurnID r)
              sourceTitle desiredTitle (l_TitleState r) (l_State r) (default "" (l_ActiveTurnID r))
              (l_WorkerGeneration r) (default "" (l_LastBlockedAt r))
              (default "" (l_LastBlockedCode r)) (default "" (l_FailureKind r)) (l_CreatedAt r)
              (l_UpdatedAt r) (default "" (l_ReleasedAt r))))
  end.

Definition find_linked (p : LinkedRow -> bool) (s : Store) : option LinkedRow :=
  first_some (fun r => if p r then Some r else None) (db_linked s).

Definition GetMinimalLinkedThread (protector : option Protector) (chatID topicID : Z)
    (sourceID0 : string) (s : Store) : res (option MinimalLinkedThread) :=
  let sourceID := trim_space sourceID0 in
  if (chatID =? 0)%Z || String.eqb sourceID "" then Ok None
  else scanMinimalLinkedThread protector
         (find_linked (fun r => String.eqb (l_ChatKey r) (ChatKey chatID topicID)
                                && String.eqb (l_SourceThreadID r) sourceID) s).

Definition GetMinimalLinkedThreadByLinkedID (protector : option Protector) (linkedID0 : string)
    (s : Store) : res (option MinimalLinkedThread) :=
  let linkedID := trim_space linkedID0 in
  if String.eqb linkedID "" then Ok None
  else scanMinimalLinkedThread protector (find_linked (fun r => is_text (l_LinkedThreadID r) linkedID) s).

(** coalesce(column, '') = '' *)
Definition is_blank (column : option string) : bool := String.eqb (default "" column) "".

Definition HydrateMinimalLinkedTitles (protector : option Protector) (now : TimeString)
    (linkedID0 sourceTitle0 desiredTitle0 : string) (s : Store) : res (bool * Store) :=
  let linkedID := trim_space linkedID0 in
  let sourceTitle := trim_space sourceTitle0 in
  let desiredTitle := trim_space desiredTitle0 in
  if String.eqb linkedID "" || String.eqb sourceTitle "" || String.eqb desiredTitle "" then Ok (false, s)
  else
    let! protectedSource := protectMinimalLinkedTitle protector sourceTitle in
    let! protectedDesired := protectMinimalLinkedTitle protector desiredTitle in
    changed_one (update_linked
      (fun r => is_text (l_LinkedThreadID r) linkedID
                && (is_blank (l_SourceTitle r) || is_blank (l_DesiredTitle r)))
      (fun r => upd_linked_titles
                  (if is_blank (l_SourceTitle r) then protectedSource else l_SourceTitle r)
                  (if is_blank (l_DesiredTitle r) then protectedDesired else l_DesiredTitle r)
                  (l_TitleState r) now r) s).

(** *** The life of a worker *)
Definition ClaimMinimalLinkedWorker (now : TimeString) (linkedID0 : string) (generation : Z)
    (s : Store) : res (bool * Store) :=
  let linkedID := trim_space linkedID0 in
  if String.eqb linkedID "" then Ok (false, s)
  else if (generation =? 0)%Z then Err "minimal linked worker generation is required"
  else
    let! generationValue := minimalLinkedGenerationInt64 generation in
    changed_one (update_linked
      (fun r => is_text (l_LinkedThreadID r) linkedID && String.eqb (l_State r) MinimalLinkedReady
                && (l_WorkerGeneration r <? generationValue)%Z)
      (fun r => upd_linked_failure None (upd_linked_blocked None None
                  (upd_linked_worker MinimalLinkedTelegramRunning None generationValue now r))) s).

Definition MarkMinimalLinkedTurnStarted (now : TimeString) (linkedID0 : string) (generation : Z)
    (turnID0 : string) (s : Store) : res (bool * Store) :=
  let linkedID := trim_space linkedID0 in
  let turnID := trim_space turnID0 in
  if String.eqb linkedID "" || String.eqb turnID "" then Ok (false, s)
  else
    let! generationValue := minimalLinkedGenerationInt64 generation in
    changed_one (update_linked
      (fun r => linked_is linkedID generationValue MinimalLinkedTelegramRunning r
                && is_blank (l_ActiveTurnID r))
      (fun r => upd_linked_worker (l_State r) (Some turnID) (l_WorkerGeneration r) now r) s).

Definition MarkMinimalLinkedTitleSet (now : TimeString) (linkedID0 : string) (generation : Z)
    (s : Store) : res (bool * Store) :=
  let linkedID := trim_space linkedID0 in
  if String.eqb linkedID "" then Ok (false, s)
  else
    let! generationValue := minimalLinkedGenerationInt64 generation in
    changed_one (update_linked (linked_is linkedID generationValue MinimalLinkedTelegramRunning)
      (fun r => upd_linked_titles (l_SourceTitle r) (l_DesiredTitle r) MinimalLinkedTitleSet now r) s).

Definition BeginMinimalLinkedRelease (now : TimeString) (release : MinimalLinkedRelease) (s : Store)
  : res (bool * Store) :=
  let linkedID := trim_space (rel_LinkedThreadID release) in
  let turnID := trim_space (rel_TurnID release) in
  let! generation := minimalLinkedReleaseGeneration release in
  if String.eqb linkedID "" || String.eqb turnID "" then Ok (false, s)
  else
    let! generationValue := minimalLinkedGenerationInt64 generation in
    changed_one (update_linked (release_where (linkedID, turnID, generationValue))
                   (upd_linked_state MinimalLinkedReleasePending now) s).

(** A zero [releasedAt] is the clock. *)
Definition release_time (now releasedAt : instant) : TimeString :=
  format_time (if is_zero releasedAt then now else releasedAt).

Definition finish_release (keepGeneration : bool) (now releasedAt : instant) (linkedID0 : string)
    (generation : Z) (s : Store) : res (bool * Store) :=
  let linkedID := trim_space linkedID0 in
  if String.eqb linkedID "" then Ok (false, s)
  else
    let at_ := release_time now releasedAt in
    let! generationValue := minimalLinkedGenerationInt64 generation in
    changed_one (update_linked (linked_is linkedID generationValue MinimalLinkedReleasePending)
      (fun r => upd_linked_released at_
                  (upd_linked_worker MinimalLinkedReady None
                     (if keepGeneration then l_WorkerGeneration r else 0%Z) at_ r)) s).

Definition FinishMinimalLinkedRelease (now releasedAt : instant) (linkedID : string)
    (generation : Z) (s : Store) : res (bool * Store) :=
  finish_release true now releasedAt linkedID generation s.

Definition FinishMinimalLinkedReleaseAndClearWorker (now releasedAt : instant) (linkedID : string)
    (generation : Z) (s : Store) : res (bool * Store) :=
  finish_release false now releasedAt linkedID generation s.

Definition sanitizeMinimalLinkedCode (value0 : string) : string :=
  let value := trim_space value0 in
  if (128 <? String.length value)%nat then str_take 128 value else value.

(** The two operations below report an error when their UPDATE touches no row; an id
    is in at most one row, so it never touches several. *)
Definition RecordMinimalLinkedBlocked (now : instant) (linkedID0 code0 : string) (at_ : instant)
    (s : Store) : res Store :=
  let linkedID := trim_space linkedID0 in
  if String.eqb linkedID "" then Err "linked thread id is required"
  else
    let code := sanitizeMinimalLinkedCode code0 in
    if String.eqb code "" then Err "minimal linked block code is required"
    else
      let '(changed, s1) := update_linked
        (fun r => is_text (l_LinkedThreadID r) linkedID && String.eqb (l_State r) MinimalLinkedReady)
        (fun r => upd_linked_worker (l_State r) (l_ActiveTurnID r) (l_WorkerGeneration r) (format_time now)
                    (upd_linked_blocked (Some (release_time now at_)) (Some code) r)) s in
      if (changed =? 1)%Z then Ok s1
      else Err ("record minimal linked blocked changed " +:+ format_int changed +:+ " rows, want 1").

Definition FailMinimalLinkedThread (now : TimeString) (linkedID0 : string) (generation : Z)
    (kind0 : string) (s : Store) : res Store :=
  let linkedID := trim_space linkedID0 in
  let kind := sanitizeMinimalLinkedCode kind0 in
  if String.eqb linkedID "" || String.eqb kind "" then
    Err "minimal linked failure requires linked id and kind"
  else
    let! generationValue := minimalLinkedGenerationInt64 generation in
    let '(changed, s1) := update_linked
      (fun r => is_text (l_LinkedThreadID r) linkedID && (l_WorkerGeneration r =? generationValue)%Z
                && existsb (String.eqb (l_State r)) [MinimalLinkedTelegramRunning; MinimalLinkedReleasePending])
      (fun r => upd_linked_failure (Some kind)
                  (upd_linked_worker MinimalLinkedFailed None (l_WorkerGeneration r) now r)) s in
    if (changed =? 1)%Z then Ok s1
    else Err ("fail minimal linked thread changed " +:+ format_int changed +:+ " rows, want 1").

(** At start: no worker survives the daemon. *)
Definition RecoverMinimalLinkedWorkers (now : TimeString) (s : Store) : Z * Store :=
  update_linked (fun r => String.eqb (l_State r) MinimalLinkedTelegramRunning)
    (upd_linked_state MinimalLinkedReleasePending now) s.

(** normalizeMinimalLinkedActivation: what a new linked thread must say. *)
Definition normalizeMinimalLinkedActivation (link : MinimalLinkedThread) (linkedThreadID0 : string)
  : res MinimalLinkedThread :=
  let linkedThreadID := trim_space linkedThreadID0 in
  let projectID := trim_space (lt_ProjectID link) in
  let sourceThreadID := trim_space (lt_SourceThreadID link) in
  let ownLinkedID := trim_space (lt_LinkedThreadID link) in
  let anchor := trim_space (lt_SourceAnchorTurnID link) in
  let titleState0 := trim_space (lt_TitleState link) in
  let state0 := trim_space (lt_State link) in
  if (lt_ChatID link =? 0)%Z || String.eqb projectID "" || String.eqb sourceThreadID ""
     || String.eqb anchor "" || String.eqb linkedThreadID "" then
    Err "minimal linked chat, project, source, anchor, and child thread are required"
  else if negb (String.eqb ownLinkedID "") && negb (String.eqb ownLinkedID linkedThreadID) then
    Err "minimal linked child id does not match link"
  else
    let titleState := if String.eqb titleState0 "" then MinimalLinkedTitlePending else titleState0 in
    let state := if String.eqb state0 "" then MinimalLinkedTelegramRunning else state0 in
    if negb (minimalLinkedTitleStateValid titleState) then Err "invalid minimal linked title state"
    else if negb (String.eqb state MinimalLinkedTelegramRunning) then
      Err "minimal linked activation requires telegram_running state"
    else
      Ok (mkLinkedThread (ChatKey (lt_ChatID link) (lt_TopicID link)) (lt_ChatID link)
            (lt_TopicID link) projectID sourceThreadID linkedThreadID anchor (lt_SourceTitle link)
            (lt_DesiredTitle link) titleState state (lt_ActiveTurnID link)
            (lt_WorkerGeneration link) (lt_LastBlockedAt link) (lt_LastBlockedCode link)
            (lt_FailureKind link) (lt_CreatedAt link) (lt_UpdatedAt link) (lt_ReleasedAt link)).

(** *** Specification: the automaton of a linked thread *)

(** What the worker operations may change of a row. *)
Definition worker_of (r : LinkedRow) : string * option string * Z :=
  (l_State r, l_ActiveTurnID r, l_WorkerGeneration r).

Definition link_identity (r : LinkedRow) : string * string * option string :=
  (l_ChatKey r, l_SourceThreadID r, l_LinkedThreadID r).

(** A worker holds the thread. *)
Definition held (r : LinkedRow) : bool :=
  existsb (String.eqb (l_State r)) [MinimalLinkedTelegramRunning; MinimalLinkedReleasePending].

Inductive worker_move : string * option string * Z -> string * option string * Z -> Prop :=
| move_none w : worker_move w w
| move_claim turn g g' : (g < g')%Z ->
    worker_move (MinimalLinkedReady, turn, g) (MinimalLinkedTelegramRunning, None, g')
| move_turn turn t g : is_blank turn = true -> t <> "" ->
    worker_move (MinimalLinkedTelegramRunning, turn, g) (MinimalLinkedTelegramRunning, Some t, g)
| move_release turn g :
    worker_move (MinimalLinkedTelegramRunning, turn, g) (MinimalLinkedReleasePending, turn, g)
| move_finish turn g g' : g' = g \/ g' = 0%Z ->
    worker_move (MinimalLinkedReleasePending, turn, g) (MinimalLinkedReady, None, g')
| move_fail state turn g :
    existsb (String.eqb state) [MinimalLinkedTelegramRunning; MinimalLinkedReleasePending] = true ->
    worker_move (state, turn, g) (MinimalLinkedFailed, None, g).

Definition row_move (r r' : LinkedRow) : Prop :=
  link_identity r' = link_identity r /\ worker_move (worker_of r) (worker_of r').

(** The operations on the rows of the table, in any order.  The release with its ready
    notice and the operations that add rows are in Writers.v, which has them all. *)
Inductive link_worker_step : Store -> Store -> Prop :=
| linked_claim now id g s b s' : ClaimMinimalLinkedWorker now id g s = Ok (b, s') -> link_worker_step s s'
| linked_turn now id g t s b s' : MarkMinimalLinkedTurnStarted now id g t s = Ok (b, s') -> link_worker_step s s'
| linked_title now id g s b s' : MarkMinimalLinkedTitleSet now id g s = Ok (b, s') -> link_worker_step s s'
| linked_hydrate p now id a d s b s' : HydrateMinimalLinkedTitles p now id a d s = Ok (b, s') -> link_worker_step s s'
| linked_begin now rel s b s' : BeginMinimalLinkedRelease now rel s = Ok (b, s') -> link_worker_step s s'
| linked_terminal p now event items rel s b s' :
    EnqueueTerminalEventWithLinkedRelease p now event items rel s = Ok (b, s') -> link_worker_step s s'
| linked_finish keep now at_ id g s b s' : finish_release keep now at_ id g s = Ok (b, s') -> link_worker_step s s'
| linked_blocked now id code at_ s s' : RecordMinimalLinkedBlocked now id code at_ s = Ok s' -> link_worker_step s s'
| linked_fail now id g kind s s' : FailMinimalLinkedThread now id g kind s = Ok s' -> link_worker_step s s'
| linked_recover now s : link_worker_step s (RecoverMinimalLinkedWorkers now s).2
| linked_other s s' : db_linked s' = db_linked s -> link_worker_step s s'.

(** A table of one linked thread, for the examples. *)
Definition ex_linked : Store :=
  set_linked [mkLinkedRow "42:0" 42 0 "p" "source" (Some "fork") "anchor" None None
                MinimalLinkedTitlePending MinimalLinkedReady None 0 None None None "" "" None] emptyStore.

(** ** Lemmas *)

Lemma row_move_refl r : row_move r r.
Proof. split; [done|constructor]. Qed.

Lemma update_linked_move p f s :
  (forall r, p r = true -> row_move r (f r)) ->
  Forall2 row_move (db_linked s) (db_linked (update_linked p f s).2).
Proof.
  intros H. cbn [snd update_linked db_linked set_linked]. unfold update_where.
  induction (db_linked s) as [|r l IH]; cbn [map]; constructor; [|done].
  destruct (p r) eqn:E; [by apply H|apply row_move_refl].
Qed.

Lemma Forall2_row_move_same s s' : db_linked s' = db_linked s -> Forall2 row_move (db_linked s) (db_linked s').
Proof. intros ->. induction (db_linked s); constructor; [apply row_move_refl|done]. Qed.

Lemma linked_is_worker id g state r :
  linked_is id g state r = true -> worker_of r = (state, l_ActiveTurnID r, g).
Proof. unfold linked_is, worker_of. intros H. bsimp. congruence. Qed.

Lemma insert_items_linked now items s s' : insert_items now items s = Ok s' -> db_linked s' = db_linked s.
Proof.
  revert s. induction items as [|[item pl] items IH]; intros s; cbn [insert_items]; [by intros [= <-]|].
  destruct (event_target_exists _ _ _); [done|]. intros H%IH. by rewrite H.
Qed.

(** The terminal transaction on the table: nothing, or the release of one row. *)
Lemma terminal_linked p now event items rel s b s' :
  EnqueueTerminalEventWithLinkedRelease p now event items rel s = Ok (b, s') ->
  db_linked s' = db_linked s
  \/ exists t, db_linked s' = update_where (release_where t) (upd_linked_state MinimalLinkedReleasePending now) (db_linked s).
Proof.
  assert (Htx : forall its target, terminal_transaction now event its target s = Ok (b, s') ->
    db_linked s' = db_linked s
    \/ exists t, db_linked s' = update_where (release_where t) (upd_linked_state MinimalLinkedReleasePending now) (db_linked s)).
  { intros its target. unfold terminal_transaction. destruct (_ !! _); [intros [= _ <-]; by left|]. cbv zeta.
    unfold res_bind. destruct (insert_items _ _ _) as [s2|] eqn:E; [|done]. apply insert_items_linked in E.
    cbn [db_linked set_terminal] in E. destruct target as [t|]; [|intros [= _ <-]; by left].
    destruct (_ =? 1)%Z; intros [= _ <-]; [right|by left]. exists t. cbn [db_linked set_linked]. by rewrite E. }
  unfold EnqueueTerminalEventWithLinkedRelease. destruct p as [p|]; [|done]. destruct rel as [rel|]; unfold res_bind.
  - destruct (release_target rel) as [[t|]|]; [|intros [= _ <-]; by left|done].
    destruct (map_res _ _); [apply Htx|done].
  - destruct (map_res _ _); [apply Htx|done].
Qed.

Lemma release_where_move t now r :
  release_where t r = true -> row_move r (upd_linked_state MinimalLinkedReleasePending now r).
Proof.
  unfold release_where. intros [H _]%andb_prop. split; [done|].
  pose proof (linked_is_worker _ _ _ _ H) as E. rewrite E. unfold worker_of in E |- *. cbn [upd_linked_state l_State l_ActiveTurnID l_WorkerGeneration].
  injection E as _ Eg. rewrite Eg. constructor.
Qed.

(** The shape the operations share: a guard answers without a change, otherwise one
    UPDATE. *)
Lemma guarded_moves (c : bool) g (k : Z -> res (bool * Store)) s b s' :
  (if c then Ok (false, s) else let! v := minimalLinkedGenerationInt64 g in k v) = Ok (b, s') ->
  (forall v, k v = Ok (b, s') -> Forall2 row_move (db_linked s) (db_linked s')) ->
  Forall2 row_move (db_linked s) (db_linked s').
Proof.
  intros H Hk. destruct c; [injection H as _ <-; by apply Forall2_row_move_same|].
  unfold res_bind in H. destruct (minimalLinkedGenerationInt64 g); [by eapply Hk|done].
Qed.

Lemma changed_one_moves p f s b s' :
  changed_one (update_linked p f s) = Ok (b, s') -> (forall r, p r = true -> row_move r (f r)) ->
  Forall2 row_move (db_linked s) (db_linked s').
Proof. unfold changed_one. intros E H. injection E as _ <-. by apply update_linked_move. Qed.

Lemma checked_moves p f e s n s1 s' :
  update_linked p f s = (n, s1) -> (if (n =? 1)%Z then Ok s1 else Err e) = Ok s' ->
  (forall r, p r = true -> row_move r (f r)) -> Forall2 row_move (db_linked s) (db_linked s').
Proof.
  intros E. destruct (n =? 1)%Z; intros [= <-] H.
  replace s1 with (update_linked p f s).2 by (by rewrite E). by apply update_linked_move.
Qed.

(** Moves by the state a row is in. *)
Lemma move_by_state r state turn g w' :
  l_State r = state -> l_ActiveTurnID r = turn -> l_WorkerGeneration r = g ->
  worker_move (state, turn, g) w' -> worker_move (worker_of r) w'.
Proof. unfold worker_of. by intros -> -> ->. Qed.

(** Every operation moves every row as the automaton does. *)
Lemma link_worker_moves s s' : link_worker_step s s' -> Forall2 row_move (db_linked s) (db_linked s').
Proof.
  destruct 1 as [now id g s b s' H|now id g s0 t b s' H|now id g s b s' H|p now id a d s b s' H|now rel s b s' H
    |p now event items rel s b s' H|keep now at_ id g s b s' H|now id code at_ s s' H|now id g kind s s' H|now s|s s' H].
  - unfold ClaimMinimalLinkedWorker in H. cbv zeta in H. destruct (String.eqb _ _); [injection H as _ <-; by apply Forall2_row_move_same|].
    destruct (g =? 0)%Z; [done|]. apply (guarded_moves false _ _ _ _ _ H). intros v Hv.
    apply (changed_one_moves _ _ _ _ _ Hv). cbv beta. intros r Hr. bsimp. split; [done|].
    eapply move_by_state; [eassumption|reflexivity|reflexivity|]. by constructor.
  - unfold MarkMinimalLinkedTurnStarted in H. cbv zeta in H.
    destruct (_ || _) eqn:Eb; [injection H as _ <-; by apply Forall2_row_move_same|]. bsimp.
    apply (guarded_moves false _ _ _ _ _ H). intros v Hv.
    apply (changed_one_moves _ _ _ _ _ Hv). cbv beta. intros r [Hr Hb]%andb_prop. split; [done|].
    rewrite (linked_is_worker _ _ _ _ Hr). apply linked_is_worker in Hr. unfold worker_of in *. cbn.
    injection Hr as -> ->. by constructor.
  - unfold MarkMinimalLinkedTitleSet in H. cbv zeta in H. apply (guarded_moves _ _ _ _ _ _ H). intros v Hv.
    apply (changed_one_moves _ _ _ _ _ Hv). intros r Hr. split; [done|]. constructor.
  - unfold HydrateMinimalLinkedTitles in H. cbv zeta in H.
    destruct (_ || _); [injection H as _ <-; by apply Forall2_row_move_same|]. unfold res_bind in H.
    destruct (protectMinimalLinkedTitle p _); [|done]. destruct (protectMinimalLinkedTitle p _); [|done].
    apply (changed_one_moves _ _ _ _ _ H). intros r Hr. split; [done|]. constructor.
  - unfold BeginMinimalLinkedRelease in H. cbv zeta in H. unfold res_bind at 1 in H.
    destruct (minimalLinkedReleaseGeneration rel); [|done]. apply (guarded_moves _ _ _ _ _ _ H). intros v Hv.
    apply (changed_one_moves _ _ _ _ _ Hv). intros r. apply release_where_move.
  - apply terminal_linked in H as [H|[t H]]; [by apply Forall2_row_move_same|].
    pose proof (update_linked_move (release_where t) (upd_linked_state MinimalLinkedReleasePending now) s) as Hm.
    cbn [snd update_linked db_linked set_linked] in Hm. rewrite <- H in Hm. apply Hm.
    intros r. apply release_where_move.
  - unfold finish_release in H. cbv zeta in H. apply (guarded_moves _ _ _ _ _ _ H). intros v Hv.
    apply (changed_one_moves _ _ _ _ _ Hv). intros r Hr. split; [done|].
    rewrite (linked_is_worker _ _ _ _ Hr). apply linked_is_worker in Hr. unfold worker_of in *. cbn.
    injection Hr as _ Hg. constructor. destruct keep; auto.
  - unfold RecordMinimalLinkedBlocked in H. cbv zeta in H. destruct (String.eqb _ _); [done|].
    destruct (String.eqb _ _); [done|].
    destruct (update_linked _ _ s) as [n s1] eqn:E. apply (checked_moves _ _ _ _ _ _ _ E H). intros r Hr. split; [done|]. constructor.
  - unfold FailMinimalLinkedThread in H. cbv zeta in H. destruct (_ || _); [done|]. unfold res_bind in H.
    destruct (minimalLinkedGenerationInt64 g); [|done].
    destruct (update_linked _ _ s) as [n s1] eqn:E. apply (checked_moves _ _ _ _ _ _ _ E H). cbv beta. intros r Hr.
    bsimp. split; [done|]. by constructor.
  - apply update_linked_move. cbv beta. intros r Hr. bsimp. split; [done|].
    eapply move_by_state; [eassumption|reflexivity|reflexivity|]. constructor.
  - by apply Forall2_row_move_same.
Qed.

Lemma Forall2_lookup_move s s' k r :
  Forall2 row_move (db_linked s) (db_linked s') -> db_linked s !! k = Some r ->
  exists r', db_linked s' !! k = Some r' /\ row_move r r'.
Proof. intros H Hr. by eapply Forall2_lookup_l in H. Qed.

(** An UPDATE whose condition holds of no row changes nothing. *)
Lemma update_linked_none p f s :
  (forall r, r ∈ db_linked s -> p r = false) -> update_linked p f s = (0%Z, s).
Proof.
  intros H. unfold update_linked. assert (update_where p f (db_linked s) = db_linked s) as ->.
  { apply update_none. done. }
  assert (filter p (db_linked s) = []) as E.
  { induction (db_linked s) as [|r l IH]; [done|]. rewrite filter_cons, (H r ltac:(left)).
    apply IH. intros x Hx. apply H. by right. }
  unfold affected. rewrite E. by destruct s.
Qed.

(** An UPDATE whose condition holds of one row. *)
Lemma update_where_one {R} (p : R -> bool) f a r b :
  p r = true -> Forall (fun x => p x = false) a -> Forall (fun x => p x = false) b ->
  update_where p f (a ++ r :: b) = a ++ f r :: b /\ affected p (a ++ r :: b) = 1%Z.
Proof.
  intros Hr Ha Hb.
  assert (forall l, Forall (fun x => p x = false) l -> update_where p f l = l /\ filter p l = []) as Hn.
  { induction 1 as [|x l Hx _ [IH1 IH2]]; [done|]. rewrite filter_cons, Hx, IH2. unfold update_where in *.
    cbn [map]. by rewrite Hx, IH1. }
  destruct (Hn a Ha) as [Ha1 Ha2], (Hn b Hb) as [Hb1 Hb2]. unfold affected, update_where in *.
  rewrite map_app, filter_app, filter_cons, Ha1, Ha2, Hb2. cbn [map]. by rewrite Hr, Hb1.
Qed.

(** A call that has no effect. *)
Lemma refused_update p f s :
  (forall r, r ∈ db_linked s -> p r = false) -> changed_one (update_linked p f s) = Ok (false, s).
Proof. intros H. unfold changed_one. by rewrite update_linked_none. Qed.

Lemma linked_is_false id g state r :
  (is_text (l_LinkedThreadID r) id = true -> held r = true -> l_WorkerGeneration r <> g) ->
  existsb (String.eqb state) [MinimalLinkedTelegramRunning; MinimalLinkedReleasePending] = true ->
  linked_is id g state r = false.
Proof.
  intros H Hs. unfold linked_is. destruct (is_text _ _) eqn:Ei; [|done]. cbn [andb].
  destruct (Z.eqb_spec (l_WorkerGeneration r) g) as [Eg|]; [|done]. cbn [andb].
  destruct (String.eqb_spec (l_State r) state) as [Es|]; [|done].
  exfalso. apply H; [done| |done]. unfold held. by rewrite Es.
Qed.

(** An UPDATE by linked id, in a table where one row has it. *)
Lemma changed_hit (p : LinkedRow -> bool) f s a r b id :
  db_linked s = a ++ r :: b -> p r = true ->
  Forall (fun x => is_text (l_LinkedThreadID x) id = false) (a ++ b) ->
  (forall x, is_text (l_LinkedThreadID x) id = false -> p x = false) ->
  changed_one (update_linked p f s) = Ok (true, set_linked (a ++ f r :: b) s).
Proof.
  intros E Hr Hab Hp. apply Forall_app in Hab as [Ha Hb].
  destruct (update_where_one p f a r b Hr) as [Hu Hn]; [by eapply Forall_impl|by eapply Forall_impl|].
  unfold changed_one, update_linked. cbn [fst snd]. by rewrite E, Hu, Hn.
Qed.

Lemma linked_is_hit id g st r :
  l_LinkedThreadID r = Some id -> l_WorkerGeneration r = g -> l_State r = st -> linked_is id g st r = true.
Proof.
  unfold linked_is. intros -> -> ->. cbn [is_text]. by rewrite String.eqb_refl, Z.eqb_refl, String.eqb_refl.
Qed.

Lemma linked_is_other id g st x : is_text (l_LinkedThreadID x) id = false -> linked_is id g st x = false.
Proof. unfold linked_is. by intros ->. Qed.

(** What the terminal operation does with a release: nothing, or its transaction. *)
Lemma release_run p now event items id t g s b s' :
  EnqueueTerminalEventWithLinkedRelease (Some p) now event items (Some (mkRelease id t g)) s = Ok (b, s') ->
  (b = false /\ s' = s)
  \/ exists pr, length pr = length items
     /\ terminal_transaction now event (zip items pr) (Some (trim_space id, trim_space t, g)) s = Ok (b, s').
Proof.
  unfold EnqueueTerminalEventWithLinkedRelease, release_target, minimalLinkedReleaseGeneration,
    minimalLinkedGenerationInt64. cbn [rel_LinkedThreadID rel_TurnID rel_WorkerGeneration].
  destruct (g =? 0)%Z; [done|]. cbn [res_bind]. destruct (_ <? g)%Z; [done|]. cbn [res_bind].
  destruct (_ || _); cbn [res_bind].
  { intros E. injection E as <- <-. by left. }
  unfold res_bind. destruct (map_res _ _) as [pr|] eqn:Em; [|done]. intros E. right. exists pr. split; [|done].
  apply map_res_ok in Em. symmetry. by apply Forall2_length in Em.
Qed.

Lemma terminal_release_refused p now event items id t g s b s' :
  EnqueueTerminalEventWithLinkedRelease p now event items (Some (mkRelease id t g)) s = Ok (b, s') ->
  (forall r, r ∈ db_linked s -> linked_is (trim_space id) g MinimalLinkedTelegramRunning r = false) ->
  b = false /\ s' = s.
Proof.
  intros E Hn. destruct p as [p|]; [|done].
  apply release_run in E as [?|(pr & _ & E)]; [done|]. unfold terminal_transaction in E.
  destruct (_ !! _); [by injection E as <- <-|]. cbv zeta in E. unfold res_bind in E.
  destruct (insert_items _ _ _) as [s2|] eqn:Ei; [|done]. apply insert_items_linked in Ei.
  cbn [db_linked set_terminal] in Ei. rewrite Ei in E.
  assert (update_linked (release_where (trim_space id, trim_space t, g)) (fun r => r) s = (0%Z, s)) as Hz.
  { apply update_linked_none. intros r Hr. unfold release_where. cbn [fst snd]. by rewrite Hn. }
  apply (f_equal fst) in Hz. cbn [fst update_linked] in Hz. rewrite Hz in E. by injection E as <- <-.
Qed.

Lemma insert_items_length now items s s' :
  insert_items now items s = Ok s' -> length (db_queue s') = (length (db_queue s) + length items)%nat.
Proof.
  revert s. induction items as [|[item pl] items IH]; intros s; cbn [insert_items].
  { intros [= <-]. cbn. lia. }
  destruct (event_target_exists _ _ _); [done|]. intros H%IH.
  cbn [insert_row db_queue set_queue set_queueSeq] in H. rewrite length_app in H. cbn [length] in *. lia.
Qed.

(** ** Theorems *)

(** Fencing.  A worker whose generation no longer holds the thread can do nothing to it:
    every call it makes with that generation answers no or an error, so none of them
    returns a changed store, and the terminal event it would have queued is not. *)
Theorem stale_worker_fenced s id g :
  (forall r, r ∈ db_linked s -> is_text (l_LinkedThreadID r) (trim_space id) = true ->
     held r = true -> l_WorkerGeneration r <> g) ->
  (forall now t b s', MarkMinimalLinkedTurnStarted now id g t s = Ok (b, s') -> b = false /\ s' = s)
  /\ (forall now b s', MarkMinimalLinkedTitleSet now id g s = Ok (b, s') -> b = false /\ s' = s)
  /\ (forall now t b s', BeginMinimalLinkedRelease now (mkRelease id t g) s = Ok (b, s') -> b = false /\ s' = s)
  /\ (forall keep now at_ b s', finish_release keep now at_ id g s = Ok (b, s') -> b = false /\ s' = s)
  /\ (forall now kind s', FailMinimalLinkedThread now id g kind s = Ok s' -> False)
  /\ (forall p now event items t b s',
        EnqueueTerminalEventWithLinkedRelease p now event items (Some (mkRelease id t g)) s = Ok (b, s') ->
        b = false /\ s' = s).
Proof.
  intros H.
  assert (forall st r, r ∈ db_linked s -> existsb (String.eqb st) [MinimalLinkedTelegramRunning; MinimalLinkedReleasePending] = true ->
            linked_is (trim_space id) g st r = false) as Hn.
  { intros st r Hr Hst. apply linked_is_false; [|done]. intros. by apply H. }
  assert (Hsame : forall b s', Ok (false, s) = Ok (b, s') -> b = false /\ s' = s) by (intros b s' E; by injection E as <- <-).
  assert (Hgen : forall v, minimalLinkedGenerationInt64 g = Ok v -> v = g)
    by (unfold minimalLinkedGenerationInt64; intros v; destruct (_ <? _)%Z; [done|congruence]).
  assert (Hrel : forall t v, minimalLinkedReleaseGeneration (mkRelease id t g) = Ok v -> v = g)
    by (unfold minimalLinkedReleaseGeneration; cbn; intros t v; destruct (_ =? _)%Z; [done|congruence]).
  assert (Hguard : forall (c : bool) k b s',
    (if c then Ok (false, s) else let! v := minimalLinkedGenerationInt64 g in k v) = Ok (b, s') ->
    k g = Ok (false, s) -> b = false /\ s' = s).
  { intros c k b s' E Hk. destruct c; [by apply Hsame|]. unfold res_bind in E.
    destruct (minimalLinkedGenerationInt64 g) as [v|] eqn:Ev; [|done]. rewrite (Hgen v eq_refl), Hk in E. by apply Hsame. }
  split_and!.
  - intros now t b s' E. apply (Hguard _ _ _ _ E). apply refused_update. intros r Hr. by rewrite Hn.
  - intros now b s' E. apply (Hguard _ _ _ _ E). apply refused_update. intros r Hr. by rewrite Hn.
  - intros now t b s' E. unfold BeginMinimalLinkedRelease in E. cbv zeta in E. unfold res_bind at 1 in E.
    destruct (minimalLinkedReleaseGeneration _) as [v|] eqn:Ev; [|done]. apply Hrel in Ev. subst v.
    cbn [rel_LinkedThreadID rel_TurnID] in E. apply (Hguard _ _ _ _ E). apply refused_update. intros r Hr.
    unfold release_where. cbn [fst snd]. by rewrite Hn.
  - intros keep now at_ b s' E. apply (Hguard _ _ _ _ E). apply refused_update. intros r Hr. by rewrite Hn.
  - intros now kind s' E. unfold FailMinimalLinkedThread in E. cbv zeta in E. destruct (_ || _); [done|].
    unfold res_bind in E. destruct (minimalLinkedGenerationInt64 g) as [v|]; [|done]. rewrite (Hgen v eq_refl) in E.
    rewrite update_linked_none in E; [done|]. intros r Hr.
    destruct (is_text _ _) eqn:Ei; [|done]. destruct (Z.eqb_spec (l_WorkerGeneration r) g) as [Eg|]; [|done].
    cbn [andb]. destruct (existsb _ _) eqn:Eh; [|done]. exfalso. by apply (H r).
  - intros p now event items t b s' E. apply (terminal_release_refused _ _ _ _ _ _ _ _ _ _ E).
    intros r Hr. by apply Hn.
Qed.

Theorem stale_worker_fenced_witness :
  FinishMinimalLinkedRelease 0%Z 0%Z "fork" 7 ex_linked = Ok (false, ex_linked).
Proof.
  destruct (stale_worker_fenced ex_linked "fork" 7) as (_ & _ & _ & H & _).
  - intros r Hr _ Hh. apply list_elem_of_singleton in Hr as ->. vm_compute in Hh. discriminate.
  - destruct (FinishMinimalLinkedRelease 0%Z 0%Z "fork" 7 ex_linked) as [[b s']|e] eqn:E;
      [|vm_compute in E; discriminate].
    destruct (H true 0%Z 0%Z b s' E) as [-> ->]. reflexivity.
Defined.

(** The terminal event of a linked thread and the release of its worker are one
    transaction: either both happen, the event being new, all its messages queued and
    exactly one row moved to release_pending, or nothing changes. *)
Theorem terminal_release_atomic p now event items id turn g s b s' :
  EnqueueTerminalEventWithLinkedRelease (Some p) now event items (Some (mkRelease id turn g)) s = Ok (b, s') ->
  if b then
    db_terminal s !! te_TerminalKey event = None
    /\ is_Some (db_terminal s' !! te_TerminalKey event)
    /\ length (db_queue s') = (length (db_queue s) + length items)%nat
    /\ affected (release_where (trim_space id, trim_space turn, g)) (db_linked s) = 1%Z
    /\ db_linked s' = update_where (release_where (trim_space id, trim_space turn, g))
                        (upd_linked_state MinimalLinkedReleasePending now) (db_linked s)
  else s' = s.
Proof.
  intros E. apply release_run in E as [[-> ->]|(pr & Hl & E)]; [done|]. unfold terminal_transaction in E.
  destruct (db_terminal s !! _) eqn:Et; [by injection E as <- <-|]. cbv zeta in E. unfold res_bind in E.
  destruct (insert_items _ _ _) as [s2|] eqn:Ei; [|done]. pose proof (insert_items_linked _ _ _ _ Ei) as Hk.
  pose proof (insert_items_length _ _ _ _ Ei) as Hlen. apply insert_items_app in Ei as (k & _ & Ht).
  cbn [db_linked db_terminal db_queue set_terminal] in Hk, Ht, Hlen. rewrite Hk in E.
  destruct (Z.eqb_spec (affected (release_where (trim_space id, trim_space turn, g)) (db_linked s)) 1) as [H1|];
    injection E as <- <-; [|done].
  cbn [db_terminal db_queue db_linked set_linked]. rewrite Ht, lookup_insert_eq, Hlen, length_zip_with, Hl, Nat.min_id.
  by split_and!.
Qed.

Theorem terminal_release_atomic_witness :
  exists s1 s2 s3, ClaimMinimalLinkedWorker "" "fork" 3 ex_linked = Ok (true, s1)
    /\ MarkMinimalLinkedTurnStarted "" "fork" 3 "turn-9" s1 = Ok (true, s2)
    /\ EnqueueTerminalEventWithLinkedRelease (Some plainProtector) "" ex_event [ex_item 1; ex_item 2]
         (Some (mkRelease "fork" "turn-9" 3)) s2 = Ok (true, s3)
    /\ length (db_queue s3) = 2%nat.
Proof.
  destruct (ClaimMinimalLinkedWorker "" "fork" 3 ex_linked) as [[b1 s1]|e] eqn:E1; [|vm_compute in E1; discriminate].
  destruct (MarkMinimalLinkedTurnStarted "" "fork" 3 "turn-9" s1) as [[b2 s2]|e] eqn:E2;
    [|vm_compute in E1; injection E1 as <- <-; vm_compute in E2; discriminate].
  destruct (EnqueueTerminalEventWithLinkedRelease (Some plainProtector) "" ex_event [ex_item 1; ex_item 2]
         (Some (mkRelease "fork" "turn-9" 3)) s2) as [[b3 s3]|e] eqn:E3.
  2:{ vm_compute in E1. injection E1 as <- <-. vm_compute in E2. injection E2 as <- <-. vm_compute in E3. discriminate. }
  assert (b1 = true /\ b2 = true /\ b3 = true /\ db_queue s2 = []) as (-> & -> & -> & Hq).
  { vm_compute in E1. injection E1 as <- <-. vm_compute in E2. injection E2 as <- <-.
    vm_compute in E3. injection E3 as <- _. split; [|split; [|split]]; reflexivity. }
  exists s1, s2, s3. split; [reflexivity|]. split; [exact E2|]. split; [exact E3|].
  destruct (terminal_release_atomic plainProtector "" ex_event [ex_item 1; ex_item 2] "fork" "turn-9" 3 s2 true s3 E3)
    as (_ & _ & Hl & _).
  rewrite Hl, Hq. reflexivity.
Defined.

(** A worker that follows the protocol gets through: from a ready row a claim with a
    greater generation, the start of a turn, the release of that turn and its end all
    answer yes, and leave the row ready for the next worker, with the generation of
    this one and the other rows and tables untouched. *)
Theorem linked_lifecycle now t1 t2 s a r b id g turn :
  db_linked s = a ++ r :: b -> l_LinkedThreadID r = Some id ->
  Forall (fun x => is_text (l_LinkedThreadID x) id = false) (a ++ b) ->
  trim_space id = id -> id <> "" -> trim_space turn = turn -> turn <> "" ->
  l_State r = MinimalLinkedReady -> (l_WorkerGeneration r < g)%Z -> (0 < g <= int64_max)%Z ->
  exists s1 s2 s3 s4 r',
    ClaimMinimalLinkedWorker now id g s = Ok (true, s1)
    /\ MarkMinimalLinkedTurnStarted now id g turn s1 = Ok (true, s2)
    /\ BeginMinimalLinkedRelease now (mkRelease id turn g) s2 = Ok (true, s3)
    /\ FinishMinimalLinkedRelease t1 t2 id g s3 = Ok (true, s4)
    /\ s4 = set_linked (a ++ r' :: b) s
    /\ link_identity r' = link_identity r /\ worker_of r' = (MinimalLinkedReady, None, g)
    /\ l_ReleasedAt r' = Some (release_time t1 t2).
Proof.
  intros E Hid Hoth Ti Ni Tt Nt Hs Hg Hg2.
  assert (Hv : minimalLinkedGenerationInt64 g = Ok g).
  { unfold minimalLinkedGenerationInt64. destruct (Z.ltb_spec int64_max g); [lia|done]. }
  assert (Hz : (g =? 0)%Z = false) by (apply Z.eqb_neq; lia).
  assert (Hi : is_text (Some id) id = true) by apply String.eqb_refl.
  assert (Ht : is_text (Some turn) turn = true) by apply String.eqb_refl.
  apply String.eqb_neq in Ni as Ni', Nt as Nt'.
  unfold ClaimMinimalLinkedWorker, MarkMinimalLinkedTurnStarted, BeginMinimalLinkedRelease,
    FinishMinimalLinkedRelease, finish_release, minimalLinkedReleaseGeneration.
  cbn [rel_LinkedThreadID rel_TurnID rel_WorkerGeneration]. rewrite Ti, Tt, Ni', Nt', Hz. cbn [res_bind orb].
  rewrite Hv. cbn [res_bind].
  do 5 eexists. split_and!.
  - apply (changed_hit _ _ s a r b id E); [|done|].
    + rewrite Hid, Hi, Hs. apply Z.ltb_lt in Hg. by rewrite Hg.
    + intros x Hx. by rewrite Hx.
  - eapply (changed_hit _ _ _ a _ b id); [reflexivity| |exact Hoth|].
    + apply andb_true_intro. split; [by apply linked_is_hit|reflexivity].
    + intros x Hx. by rewrite linked_is_other.
  - eapply (changed_hit _ _ _ a _ b id); [reflexivity| |exact Hoth|].
    + apply andb_true_intro. split; [by apply linked_is_hit|exact Ht].
    + intros x Hx. unfold release_where. cbn [fst snd]. by rewrite linked_is_other.
  - eapply (changed_hit _ _ _ a _ b id); [reflexivity| |exact Hoth|].
    + by apply linked_is_hit.
    + intros x Hx. by rewrite linked_is_other.
  - reflexivity.
  - reflexivity.
  - reflexivity.
  - reflexivity.
Qed.

Theorem linked_lifecycle_witness :
  exists s1 s4, ClaimMinimalLinkedWorker "" "fork" 3 ex_linked = Ok (true, s1)
    /\ db_linked s4 <> [] /\ forall r, r ∈ db_linked s4 -> worker_of r = (MinimalLinkedReady, None, 3%Z).
Proof.
  destruct (linked_lifecycle "" 5%Z 6%Z ex_linked [] _ [] "fork" 3 "turn-9" eq_refl eq_refl)
    as (s1 & s2 & s3 & s4 & r' & H1 & _ & _ & _ & H5 & _ & H7 & _);
    [constructor|reflexivity|discriminate|reflexivity|discriminate|reflexivity|reflexivity|split; reflexivity || (vm_compute; discriminate)|].
  exists s1, s4. split; [exact H1|]. rewrite H5. split; [discriminate|].
  intros r Hr. apply list_elem_of_singleton in Hr as ->. exact H7.
Defined.

(** After a restart no worker is running: every thread one was running waits for its
    release with the turn and the generation it had, and the other rows are as they
    were. *)
Theorem RecoverMinimalLinkedWorkers_spec now s :
  let '(n, s') := RecoverMinimalLinkedWorkers now s in
  n = Z.of_nat (length (filter (fun r => String.eqb (l_State r) MinimalLinkedTelegramRunning) (db_linked s)))
  /\ Forall2 (fun r r' => link_identity r' = link_identity r
                /\ worker_of r' = (if String.eqb (l_State r) MinimalLinkedTelegramRunning
                                   then MinimalLinkedReleasePending else l_State r,
                                   l_ActiveTurnID r, l_WorkerGeneration r)) (db_linked s) (db_linked s')
  /\ Forall (fun r => l_State r <> MinimalLinkedTelegramRunning) (db_linked s').
Proof.
  unfold RecoverMinimalLinkedWorkers, update_linked. cbn [db_linked set_linked]. unfold update_where.
  split; [done|]. induction (db_linked s) as [|r l [IH1 IH2]]; cbn [map]; [by repeat constructor|].
  split; constructor; try done.
  - by destruct (String.eqb_spec (l_State r) MinimalLinkedTelegramRunning).
  - destruct (String.eqb_spec (l_State r) MinimalLinkedTelegramRunning); done.
Qed.
