(* ===== verification/NotifierIngress.v ===== *)
(** * internal/daemon/notifier_ingress.go: what Telegram can ask of the notifier

    The notifier answers four commands; everything else, buttons included, gets a
    fixed text.  [Runtime] holds what the handlers read of the service: the
    configuration, the session state, and the two functions of the service that are
    not modelled, sanitizeDiagnosticString and the other commands of handleCommand. *)
From stdpp Require Import base list numbers strings gmap relations.
From Stdlib Require Import Lia Ascii.
From S2P Require Import Prelude GoStrings Json GoTime Sql Model Control Normalize.
From S2P Require Import Store StoreNotifier Daemon NotifierObserver Queue.

(** daemon.DirectResponse *)
Record DirectResponse : Type := mkDirectResponse {
  dr_Text : string;
  dr_CallbackText : string;
  dr_Buttons : list (list ButtonSpec);
  dr_ThreadID : string;
  dr_TurnID : string;
  dr_ItemID : string;
  dr_EventID : string;
  dr_VoiceConfirmationID : Z }.

Definition textResponse (text : string) : DirectResponse :=
  mkDirectResponse text "" [] "" "" "" "" 0.

Record Runtime : Type := mkRuntime {
  rt_AllowedUserIDs : list Z;
  rt_AllowedChatIDs : list Z;
  rt_ready : bool;
  rt_phase : string;
  rt_pollConnected : bool;
  rt_startedAt : instant;
  rt_lastError : string;
  rt_sanitize : string -> string;
  rt_otherCommand : string -> M DirectResponse }.

Definition unauthorized : fault := OtherError "unauthorized telegram user".

Definition containsInt64 (haystack : list Z) (needle : Z) : bool := existsb (Z.eqb needle) haystack.

Definition IsAllowed (rt : Runtime) (userID chatID : Z) : bool :=
  if (0 <? length (rt_AllowedUserIDs rt))%nat && negb (containsInt64 (rt_AllowedUserIDs rt) userID)
  then false
  else if (0 <? length (rt_AllowedChatIDs rt))%nat && negb (containsInt64 (rt_AllowedChatIDs rt) chatID)
  then false
  else true.

Definition minimalCommandName (text : string) : string :=
  match fields (trim_space text) with
  | [] => ""
  | head :: _ =>
      if has_prefix head "/" then to_lower (before_byte "@" (str_drop 1 head)) else ""
  end.

Definition notifierOnlyText : string := "현재 봇은 Codex 완료 알림 전용입니다.".

Definition notifierSweepLabel (cursor0 : string) : string :=
  let cursor := trim_space cursor0 in
  if String.eqb cursor "" then "(head)" else cursor.

(** The text of /status.  time.RFC3339 prints whole seconds. *)
Definition notifierStatusSnapshot (rt : Runtime) (now : TimeString) (s : Store) : string :=
  let '(tracked, active) := CountNotifierObservations s in
  let backlog := DeliveryQueueBacklog s in
  let '(target, configured) := GetGlobalObserverTarget now s in
  let sweepCursor := GetState notifierSweepCursorKey s in
  let lastError := rt_sanitize rt (rt_lastError rt) in
  let lines :=
    ["Notifier status";
     "Ready: " +:+ format_bool (rt_ready rt);
     "Phase: " +:+ rt_phase rt;
     "Poll app-server: " +:+ format_bool (rt_pollConnected rt);
     "Tracked observations: " +:+ format_int tracked;
     "Active observations: " +:+ format_int active;
     "Delivery backlog: " +:+ format_int backlog;
     "Sweep cursor: " +:+ notifierSweepLabel sweepCursor]
    ++ [match target with
        | Some t =>
            if configured && ot_Enabled t then
              "Global target: on -> " +:+ ChatKey (ot_ChatID t) (ot_TopicID t)
            else if configured then
              "Global target: off -> " +:+ ChatKey (ot_ChatID t) (ot_TopicID t)
            else "Global target: unset"
        | None => "Global target: unset"
        end]
    ++ (if is_zero (rt_startedAt rt) then []
        else ["Started: " +:+ format_time (rt_startedAt rt / second * second)%Z])
    ++ (if String.eqb (trim_space lastError) "" then [] else ["Last error: " +:+ lastError]) in
  join newline lines.

Definition RequestRepair (now : instant) (reason0 : string) (s : Store) : Store :=
  let reason := if String.eqb (trim_space reason0) "" then "manual" else reason0 in
  let at_ := format_time now in
  SetState at_ "control.repair_request" (at_ +:+ "|" +:+ reason)
    (SetState at_ "repair.last_at" at_ (SetState at_ "repair.last_reason" reason s)).

(** The /repair case of handleCommand, outside the minimal profile. *)
Definition repairCommand (now : instant) : M DirectResponse :=
  do! _ := modify (RequestRepair now "telegram") in
  ret (textResponse "Repair requested. App-server sessions will be recreated in the background.").

(** handleCommand (strings.SplitN(s, c, 2)[0] is what precedes [c]) under the notifier profile: /status and /repair; the other
    commands of the switch are [rt_otherCommand]. *)
Definition handleCommand (rt : Runtime) (now : instant) (raw : string) : M DirectResponse :=
  let command := to_lower (before_byte "@" (before_byte " " (trim_space raw))) in
  if String.eqb command "/status" then
    do! text := gets (notifierStatusSnapshot rt (format_time now)) in
    ret (textResponse text)
  else if String.eqb command "/repair" then repairCommand now
  else rt_otherCommand rt raw.

Definition handleNotifierInboundText (rt : Runtime) (now : instant) (inbound : InboundText)
  : M DirectResponse :=
  let text := trim_space (in_Text inbound) in
  let name := minimalCommandName text in
  if String.eqb name "start" then
    do! _ := (if (in_ChatID inbound =? in_UserID inbound)%Z && (in_TopicID inbound =? 0)%Z
              then modify (SetGlobalObserverTarget now (in_ChatID inbound) 0 true)
              else ret tt) in
    ret (textResponse ("Codex 완료 알림을 감시합니다." +:+ newline +:+ "관리 명령: /status /repair /help"))
  else if String.eqb name "help" then
    ret (textResponse ("관리 명령:" +:+ newline +:+ "/start" +:+ newline +:+ "/help" +:+ newline
                       +:+ "/status" +:+ newline +:+ "/repair"))
  else if String.eqb name "status" || String.eqb name "repair" then handleCommand rt now text
  else ret (textResponse notifierOnlyText).

(** HandleInboundText and HandleCallback under the notifier profile. *)
Definition HandleInboundText (rt : Runtime) (now : instant) (inbound : InboundText)
  : M DirectResponse :=
  if negb (IsAllowed rt (in_UserID inbound) (in_ChatID inbound)) then raise unauthorized
  else handleNotifierInboundText rt now inbound.

Definition handleNotifierCallback (rt : Runtime) (userID chatID : Z) : M DirectResponse :=
  if negb (IsAllowed rt userID chatID) then raise unauthorized
  else ret (mkDirectResponse "" notifierOnlyText [] "" "" "" "" 0).

(** What pollNotifierThreads would do with any session, protector and clock. *)
Definition polls_nothing (s : Store) : Prop :=
  forall MustJSON protector now connected poll,
    pollNotifierThreads MustJSON protector now (fun _ => None) connected poll s = (Done tt, s).

(** A runtime that lets one user in, for the examples. *)
Definition ex_runtime : Runtime :=
  mkRuntime [42%Z] [42%Z] true "ready" true zero_time "" (fun x => x)
    (fun _ => ret (textResponse "Unknown command. Use /help.")).

Definition ex_inbound (text : string) : InboundText := mkInboundText 42 0 42 1 0 text zero_time.

(** ** Lemmas *)

Lemma GetState_SetState now k v s : GetState k (SetState now k v s) = v.
Proof. unfold GetState, SetState. cbn [db_state set_state]. by rewrite lookup_insert_eq. Qed.

Lemma GetState_SetState_ne now k k' v s : k' <> k -> GetState k' (SetState now k v s) = GetState k' s.
Proof. intros H. unfold GetState, SetState. cbn [db_state set_state]. by rewrite lookup_insert_ne. Qed.

Lemma parse_int64_or_format z : in_int64 z = true -> parse_int64_or (format_int z) = z.
Proof.
  intros H%in_int64_spec. unfold parse_int64_or. rewrite parse_format_int.
  destruct (Z.ltb_spec z int64_min); [lia|]. destruct (Z.ltb_spec int64_max z); [lia|done].
Qed.

(** What is stored about the target is read back, at any clock. *)
Lemma observer_target_roundtrip now now' chatID topicID s :
  chatID <> 0%Z -> in_int64 chatID = true -> in_int64 topicID = true ->
  GetGlobalObserverTarget now' (SetGlobalObserverTarget now chatID topicID true s)
  = (Some (mkObserverTarget (ChatKey chatID topicID) chatID topicID true now' now'), true).
Proof.
  intros Hc Hi Ht. unfold SetGlobalObserverTarget, GetGlobalObserverTarget. cbv zeta.
  rewrite !(GetState_SetState_ne _ "observer.global_since_unix") by done.
  rewrite (GetState_SetState_ne _ "observer.global_topic_id" "observer.global_enabled") by done.
  rewrite (GetState_SetState_ne _ "observer.global_chat_id" "observer.global_enabled") by done.
  rewrite (GetState_SetState_ne _ "observer.global_topic_id" "observer.global_chat_id") by done.
  rewrite !GetState_SetState, !trim_format_int, !parse_int64_or_format by done.
  apply Z.eqb_neq in Hc. rewrite Hc. reflexivity.
Qed.

Lemma in_int64_0 : in_int64 0 = true.
Proof. reflexivity. Qed.

(** ** Theorems *)

(** Nobody outside the configured users and chats reaches the notifier: a message or a
    button of theirs is answered with the authorization error and changes nothing. *)
Theorem ingress_unauthorized rt now inbound userID chatID s :
  (rt_AllowedUserIDs rt <> [] /\ ~ userID ∈ rt_AllowedUserIDs rt)
  \/ (rt_AllowedChatIDs rt <> [] /\ ~ chatID ∈ rt_AllowedChatIDs rt) ->
  in_UserID inbound = userID -> in_ChatID inbound = chatID ->
  HandleInboundText rt now inbound s = (Fault unauthorized, s)
  /\ handleNotifierCallback rt userID chatID s = (Fault unauthorized, s).
Proof.
  intros H Hu Hc.
  assert (Hmem : forall l n, ~ n ∈ l -> containsInt64 l n = false).
  { intros l n Hn. unfold containsInt64. apply not_true_iff_false. intros (x & Hx & E)%existsb_exists.
    apply Z.eqb_eq in E. subst. by apply Hn, list_elem_of_In. }
  assert (IsAllowed rt userID chatID = false) as Ha.
  { unfold IsAllowed. destruct H as [[Hne Hn]|[Hne Hn]].
    - rewrite (Hmem _ _ Hn). by destruct (rt_AllowedUserIDs rt).
    - rewrite (Hmem _ _ Hn). destruct (_ && _); [done|]. by destruct (rt_AllowedChatIDs rt). }
  unfold HandleInboundText, handleNotifierCallback. by rewrite Hu, Hc, Ha.
Qed.

Theorem ingress_unauthorized_witness :
  HandleInboundText ex_runtime 5%Z (mkInboundText 7 0 7 1 0 "/start" zero_time) emptyStore
  = (Fault unauthorized, emptyStore).
Proof.
  refine (proj1 (ingress_unauthorized ex_runtime 5%Z (mkInboundText 7 0 7 1 0 "/start" zero_time) 7 7 emptyStore
            _ eq_refl eq_refl)).
  left. split; [discriminate|]. intros H. apply list_elem_of_singleton in H. discriminate.
Defined.

(** /start in a private chat makes that chat, without a topic, the one that is notified;
    in a group or a topic it answers the same text and changes nothing. *)
Theorem start_targets_private_chat rt now now' inbound s :
  IsAllowed rt (in_UserID inbound) (in_ChatID inbound) = true ->
  minimalCommandName (trim_space (in_Text inbound)) = "start" ->
  in_ChatID inbound <> 0%Z -> in_int64 (in_ChatID inbound) = true ->
  exists answer, let '(r, s') := HandleInboundText rt now inbound s in
  r = Done (textResponse answer)
  /\ if (in_ChatID inbound =? in_UserID inbound)%Z && (in_TopicID inbound =? 0)%Z
     then GetGlobalObserverTarget now' s'
          = (Some (mkObserverTarget (ChatKey (in_ChatID inbound) 0) (in_ChatID inbound) 0 true now' now'), true)
          /\ db_queue s' = db_queue s /\ db_terminal s' = db_terminal s /\ db_observations s' = db_observations s
     else s' = s.
Proof.
  intros Ha Hn Hc Hi. eexists. unfold HandleInboundText. rewrite Ha. cbn [negb].
  unfold handleNotifierInboundText. cbv zeta. rewrite Hn. change (String.eqb "start" "start") with true.
  cbv iota. destruct (_ && _); unfold bind, modify, ret.
  - split; [reflexivity|]. split; [by apply observer_target_roundtrip|done].
  - split; [reflexivity|done].
Qed.

Theorem start_targets_private_chat_witness :
  fst (GetGlobalObserverTarget "" (snd (HandleInboundText ex_runtime 5%Z (ex_inbound " /START@bot now ") emptyStore)))
  = Some (mkObserverTarget "42:0" 42 0 true "" "").
Proof.
  destruct (start_targets_private_chat ex_runtime 5%Z "" (ex_inbound " /START@bot now ") emptyStore) as [answer H];
    [reflexivity|vm_compute; reflexivity|discriminate|reflexivity|].
  destruct (HandleInboundText ex_runtime 5%Z (ex_inbound " /START@bot now ") emptyStore) as [r s'] eqn:E.
  cbn [snd]. destruct H as [_ H]. change (_ && _) with true in H. destruct H as [-> _]. reflexivity.
Defined.

(** /repair stops the polling until the request is taken: after it, and as long as the
    request is pending, a cycle reads no thread and changes nothing, so a broken session
    cannot mark threads as read. *)
Theorem repair_pauses_polling rt now s :
  let '(r, s') := handleCommand rt now "/repair" s in
  (exists text, r = Done (textResponse text)) /\ polls_nothing s' /\ db_queue s' = db_queue s
  /\ db_observations s' = db_observations s.
Proof.
  assert (Hc : to_lower (before_byte "@" (before_byte " " (trim_space "/repair"))) = "/repair")
    by (vm_compute; reflexivity).
  unfold handleCommand. rewrite Hc. change (String.eqb "/repair" "/status") with false.
  change (String.eqb "/repair" "/repair") with true. cbv zeta iota.
  unfold repairCommand, bind, modify, ret. split; [by eexists|]. split; [|done]. intros MustJSON protector now' connected poll.
  unfold pollNotifierThreads, bind, gets, RequestRepair. cbv zeta. rewrite GetState_SetState.
  change (String.eqb (trim_space "telegram") "") with false. cbv iota.
  assert (trim_space (format_time now +:+ "|" +:+ "telegram") <> "") as Hne.
  { apply (trim_space_nonempty "|"); [reflexivity|]. rewrite has_byte_app. by destruct (has_byte "|" (format_time now)). }
  apply String.eqb_neq in Hne. rewrite Hne. reflexivity.
Qed.
