(* ===== verification/MinimalSplit.v ===== *)
(** * internal/daemon/minimal_observer.go: splitting a long message

    splitMinimalRendered cuts a rendered message into messages of at most [limit]
    UTF-16 code units, Telegram's unit, without cutting a rune, and cuts the
    formatting entities with it.  The outer loop does not advance when the next rune
    is wider than the limit, so the model takes fuel, one unit per message; the rune
    count is enough for any limit of two or more (no rune is wider).  Offsets are
    those of a text in memory and their sums stay far below the range of an int. *)
From stdpp Require Import base list numbers strings.
From Stdlib Require Import Lia Ascii.
From S2P Require Import Prelude GoStrings Utf8 Model.

Definition utf16_len (l : list N) : Z := fold_right (fun r n => (utf16_width r + n)%Z) 0%Z l.

(** The inner loop: the runes that still fit, and the others. *)
Fixpoint take_runes (limit used : Z) (l : list N) : list N * list N :=
  match l with
  | [] => ([], [])
  | r :: rest =>
      if (limit <? used + utf16_width r)%Z then ([], l)
      else let '(chunk, rest') := take_runes limit (used + utf16_width r) rest in (r :: chunk, rest')
  end.

(** The part of an entity between two offsets, moved to the first. *)
Definition clip (startUTF16 endUTF16 : Z) (entity : MessageEntity) : option MessageEntity :=
  let from := Z.max (me_Offset entity) startUTF16 in
  let to_ := Z.min (me_Offset entity + me_Length entity) endUTF16 in
  if (from <? to_)%Z
  then Some (mkMessageEntity (me_Type entity) (from - startUTF16) (to_ - from) (me_URL entity)
               (me_Language entity))
  else None.

Fixpoint split_from (fuel : nat) (limit : Z) (entities : list MessageEntity) (l : list N)
    (startUTF16 : Z) : option (list RenderedMessage) :=
  match l with
  | [] => Some []
  | _ =>
      match fuel with
      | O => None
      | S fuel' =>
          let '(chunk, rest) := take_runes limit 0 l in
          let endUTF16 := (startUTF16 + utf16_len chunk)%Z in
          (fun out => mkRendered (string_of_runes chunk) (omap (clip startUTF16 endUTF16) entities) :: out)
            <$> split_from fuel' limit entities rest endUTF16
      end
  end.

Definition splitMinimalRendered (message : RenderedMessage) (limit : Z) : option (list RenderedMessage) :=
  split_from (rune_count (rm_Text message)) limit (rm_Entities message) (runes (rm_Text message)) 0.

(** The messages with the offset each starts at. *)
Fixpoint placed (start : Z) (out : list RenderedMessage) : list (Z * RenderedMessage) :=
  match out with
  | [] => []
  | m :: rest => (start, m) :: placed (start + utf16_len (runes (rm_Text m)))%Z rest
  end.

(** The formatting at a code unit: what the entities over it say. *)
Definition entity_kind (e : MessageEntity) : string * string * string :=
  (me_Type e, me_URL e, me_Language e).

Definition formatted (entities : list MessageEntity) (i : Z) (kind : string * string * string) : Prop :=
  exists e, e ∈ entities /\ entity_kind e = kind /\ (me_Offset e <= i < me_Offset e + me_Length e)%Z.

(** ** Lemmas *)

Lemma utf16_len_cons r l : utf16_len (r :: l) = (utf16_width r + utf16_len l)%Z.
Proof. done. Qed.

Lemma utf16_len_app l k : utf16_len (l ++ k) = (utf16_len l + utf16_len k)%Z.
Proof. induction l as [|r l IH]; [done|]. cbn [app]. rewrite !utf16_len_cons. lia. Qed.

Lemma utf16_len_nonneg l : (0 <= utf16_len l)%Z.
Proof. induction l as [|r l IH]; [done|]. rewrite utf16_len_cons. pose proof (utf16_width_pos r). lia. Qed.

Lemma take_runes_spec limit used l chunk rest :
  take_runes limit used l = (chunk, rest) -> (used <= limit)%Z ->
  l = chunk ++ rest /\ (used + utf16_len chunk <= limit)%Z.
Proof.
  revert used chunk rest. induction l as [|r l IH]; intros used chunk rest; cbn [take_runes].
  { intros [= <- <-] Hu. cbn. split; [done|lia]. }
  destruct (Z.ltb_spec limit (used + utf16_width r)) as [|Hle]; [intros [= <- <-] Hu; cbn; split; [done|lia]|].
  destruct (take_runes _ _ l) as [c k] eqn:E. intros [= <- <-] _.
  destruct (IH _ _ _ E Hle) as [-> Hc]. split; [done|]. rewrite utf16_len_cons. lia.
Qed.

(** With room for any rune at least one is taken. *)
Lemma take_runes_progress limit r l chunk rest :
  (2 <= limit)%Z -> take_runes limit 0 (r :: l) = (chunk, rest) -> (length rest <= length l)%nat /\ chunk <> [].
Proof.
  intros Hl. pose proof (utf16_width_pos r). cbn [take_runes].
  destruct (Z.ltb_spec limit (0 + utf16_width r)) as [|Hle]; [lia|].
  destruct (take_runes _ _ l) as [c k] eqn:E. intros [= <- <-]. split; [|done].
  destruct (take_runes_spec _ _ _ _ _ E Hle) as [-> _]. rewrite length_app. lia.
Qed.

Lemma split_from_total fuel limit entities l start :
  (2 <= limit)%Z -> (length l <= fuel)%nat -> is_Some (split_from fuel limit entities l start).
Proof.
  intros Hl. revert l start. induction fuel as [|fuel IH]; intros l start Hf.
  - destruct l; [by eexists|]. cbn in Hf. lia.
  - destruct l as [|r l]; [by eexists|]. cbn [split_from].
    destruct (take_runes limit 0 (r :: l)) as [c k] eqn:E.
    destruct (take_runes_progress _ _ _ _ _ Hl E) as [Hk _]. cbn in Hf.
    destruct (IH k (start + utf16_len c)%Z ltac:(lia)) as [out ->]. by eexists.
Qed.

Lemma clip_spec s t e e' :
  clip s t e = Some e' ->
  entity_kind e' = entity_kind e /\ (0 <= me_Offset e')%Z /\ (0 < me_Length e')%Z
  /\ (me_Offset e' + me_Length e' <= t - s)%Z
  /\ forall i, (s <= i < t)%Z ->
       (me_Offset e' <= i - s < me_Offset e' + me_Length e')%Z <-> (me_Offset e <= i < me_Offset e + me_Length e)%Z.
Proof.
  unfold clip. cbv zeta. destruct (Z.ltb_spec (Z.max (me_Offset e) s) (Z.min (me_Offset e + me_Length e) t)); [|done].
  intros [= <-]. cbn. split_and!; [done|lia..|]. intros i Hi. lia.
Qed.

Lemma clip_none s t e i :
  clip s t e = None -> (s <= i < t)%Z -> ~ (me_Offset e <= i < me_Offset e + me_Length e)%Z.
Proof.
  unfold clip. cbv zeta. destruct (Z.ltb_spec (Z.max (me_Offset e) s) (Z.min (me_Offset e + me_Length e) t)); [done|].
  intros _ Hi. lia.
Qed.

Lemma formatted_clip s t entities i kind :
  (s <= i < t)%Z -> formatted (omap (clip s t) entities) (i - s) kind <-> formatted entities i kind.
Proof.
  intros Hi. unfold formatted. split.
  - intros (e' & He' & Hk & Hr). apply list_elem_of_omap in He' as (e & He & Hc).
    destruct (clip_spec _ _ _ _ Hc) as (Hk' & _ & _ & _ & Hiff). exists e. split_and!; [done|congruence|..]; by apply Hiff.
  - intros (e & He & Hk & Hr). destruct (clip s t e) as [e'|] eqn:Hc.
    + destruct (clip_spec _ _ _ _ Hc) as (Hk' & _ & _ & _ & Hiff). exists e'. split_and!; [|congruence|..].
      * apply list_elem_of_omap. by exists e.
      * by apply Hiff.
      * by apply Hiff.
    + by destruct (clip_none _ _ _ _ Hc Hi).
Qed.

(** What holds of the messages made from [l], the first starting at [start]. *)
Lemma split_from_spec fuel limit entities l start out :
  (2 <= limit)%Z -> Forall (fun r => valid_rune r = true) l ->
  split_from fuel limit entities l start = Some out ->
  fold_right (fun m text => rm_Text m +:+ text) "" out = string_of_runes l
  /\ Forall (fun sm => let '(s, m) := sm in
       let n := utf16_len (runes (rm_Text m)) in
       (0 < n <= limit)%Z
       /\ Forall (fun e => 0 <= me_Offset e /\ 0 < me_Length e /\ me_Offset e + me_Length e <= n)%Z (rm_Entities m)
       /\ forall i kind, (s <= i < s + n)%Z ->
            formatted (rm_Entities m) (i - s) kind <-> formatted entities i kind) (placed start out).
Proof.
  intros Hl. revert l start out. induction fuel as [|fuel IH]; intros l start out Hv; cbn [split_from].
  { destruct l; [|done]. intros [= <-]. by repeat constructor. }
  destruct l as [|r l]; [intros [= <-]; by repeat constructor|].
  destruct (take_runes limit 0 (r :: l)) as [chunk rest] eqn:E.
  destruct (take_runes_progress _ _ _ _ _ Hl E) as [_ Hne].
  destruct (take_runes_spec _ _ _ _ _ E ltac:(lia)) as [Hlr Hc]. rewrite Hlr in Hv. apply Forall_app in Hv as [Hvc Hvr].
  destruct (split_from fuel _ _ rest _) as [out'|] eqn:Eo; [|done]. intros [= <-].
  destruct (IH _ _ _ Hvr Eo) as [Ht Hp]. split.
  - cbn [fold_right rm_Text]. by rewrite Ht, Hlr, string_of_runes_app.
  - cbn [placed rm_Text]. rewrite runes_string_of_runes by done. constructor; [|exact Hp].
    cbn [rm_Text rm_Entities]. rewrite runes_string_of_runes by done. cbv zeta. split_and!.
    + destruct chunk as [|x c]; [done|]. rewrite utf16_len_cons in *. pose proof (utf16_width_pos x).
      pose proof (utf16_len_nonneg c). lia.
    + lia.
    + apply Forall_forall. intros e' (e & _ & He)%list_elem_of_omap. apply clip_spec in He as (_ & ? & ? & ? & _). lia.
    + intros i kind Hi. by apply formatted_clip.
Qed.

(** ** Theorems *)

(** For a limit of two or more the split ends, and what it gives is the message: the
    texts put together are the text, none is empty or longer than the limit, no entity
    leaves its message, and every code unit keeps its formatting, no more and no less. *)
Theorem splitMinimalRendered_spec message limit :
  (2 <= limit)%Z ->
  exists out, splitMinimalRendered message limit = Some out
    /\ fold_right (fun m text => rm_Text m +:+ text) "" out = string_of_runes (runes (rm_Text message))
    /\ Forall (fun sm => let '(s, m) := sm in
         let n := utf16_len (runes (rm_Text m)) in
         (0 < n <= limit)%Z
         /\ Forall (fun e => 0 <= me_Offset e /\ 0 < me_Length e /\ me_Offset e + me_Length e <= n)%Z (rm_Entities m)
         /\ forall i kind, (s <= i < s + n)%Z ->
              formatted (rm_Entities m) (i - s) kind <-> formatted (rm_Entities message) i kind) (placed 0 out).
Proof.
  intros Hl. unfold splitMinimalRendered.
  destruct (split_from_total (rune_count (rm_Text message)) limit (rm_Entities message) (runes (rm_Text message)) 0 Hl)
    as [out E]; [done|].
  exists out. split; [done|]. apply (split_from_spec _ _ _ _ _ _ Hl (runes_valid _) E).
Qed.

Theorem splitMinimalRendered_spec_witness :
  let bold := mkMessageEntity "bold" 1 3 "" "" in
  exists out, splitMinimalRendered (mkRendered "abcde" [bold]) 2 = Some out
    /\ map rm_Text out = ["ab"; "cd"; "e"]
    /\ fold_right (fun m text => rm_Text m +:+ text) "" out = "abcde".
Proof.
  cbv zeta. destruct (splitMinimalRendered_spec (mkRendered "abcde" [mkMessageEntity "bold" 1 3 "" ""]) 2)
    as (out & H1 & H2 & _); [lia|].
  exists out. split; [exact H1|]. split; [vm_compute in H1; injection H1 as <-; reflexivity|exact H2].
Defined.

(** Without room for a single code unit the loop makes no progress: no number of
    iterations ends the split of a text that is not empty. *)
Theorem split_from_diverges fuel limit entities r l start :
  (limit <= 0)%Z -> split_from fuel limit entities (r :: l) start = None.
Proof.
  intros Hl. revert start. induction fuel as [|fuel IH]; intros start; [done|].
  assert (take_runes limit 0 (r :: l) = ([], r :: l)) as E.
  { cbn [take_runes]. pose proof (utf16_width_pos r). by destruct (Z.ltb_spec limit (0 + utf16_width r)); [|lia]. }
  cbn [split_from]. rewrite E. by rewrite IH.
Qed.

Theorem split_from_diverges_witness :
  split_from 1000 0 [] [97%N] 0 = None.
Proof. apply (split_from_diverges 1000 0 [] 97%N [] 0). lia. Defined.
