(* ===== verification/PendingCommands.v ===== *)
(** * internal/storage/store_minimal.go: commands that wait for a thread

    A text that arrives while its thread is busy becomes a pending command, protected
    at rest.  A command is pending, claimed by the router, and then completed, failed,
    or released to wait again.  The table is in the order of its ids. *)
From stdpp Require Import base list numbers strings gmap relations.
From Stdlib Require Import Lia Ascii Sorting.Sorted.
From S2P Require Import Prelude GoStrings GoTime Sql Model MinimalTables Store Queue QueueSafety.

Definition PendingCommandStatusPending : string := "pending".
Definition PendingCommandStatusClaimed : string := "claimed".
Definition PendingCommandStatusCompleted : string := "completed".
Definition PendingCommandStatusFailed : string := "failed".

Record PendingCommand : Type := mkPendingCommand {
  cmd_ID : Z;
  cmd_ThreadID : string;
  cmd_SourceThreadID : string;
  cmd_SourceTurnID : string;
  cmd_ProjectID : string;
  cmd_ChatID : Z;
  cmd_TopicID : Z;
  cmd_Prompt : string;
  cmd_Status : string;
  cmd_CreatedAt : TimeString }.

Definition pending_table : Table Store PendingRow :=
  mkTable (fun s => mt_pending (db_minimal s)) (fun l s => set_minimal (set_mt_pending l (db_minimal s)) s).

(** *** Conditions and assignments *)
Definition pc_is (status : string) (r : PendingRow) : bool := String.eqb (pc_Status r) status.

(** status IN ('pending', 'claimed') *)
Definition pc_open (r : PendingRow) : bool :=
  pc_is PendingCommandStatusPending r || pc_is PendingCommandStatusClaimed r.

Definition pc_id_is (id : Z) (r : PendingRow) : bool := (pc_ID r =? id)%Z.

(** chat_id = ? AND topic_id = ? AND source_thread_id = ? AND source_turn_id = ? *)
Definition pc_from (chatID topicID : Z) (sourceThreadID sourceTurnID : string) (r : PendingRow) : bool :=
  (pc_ChatID r =? chatID)%Z && (pc_TopicID r =? topicID)%Z
  && String.eqb (pc_SourceThreadID r) sourceThreadID && String.eqb (pc_SourceTurnID r) sourceTurnID.

Definition upd_pc_status (v : string) (r : PendingRow) : PendingRow :=
  mkPendingRow (pc_ID r) (pc_ThreadID r) (pc_SourceThreadID r) (pc_SourceTurnID r) (pc_ProjectID r)
    (pc_ChatID r) (pc_TopicID r) (pc_Payload r) v (pc_CreatedAt r).
Definition upd_pc_payload (v : option string) (r : PendingRow) : PendingRow :=
  mkPendingRow (pc_ID r) (pc_ThreadID r) (pc_SourceThreadID r) (pc_SourceTurnID r) (pc_ProjectID r)
    (pc_ChatID r) (pc_TopicID r) v (pc_Status r) (pc_CreatedAt r).
Definition upd_pc_thread (v : string) (r : PendingRow) : PendingRow :=
  mkPendingRow (pc_ID r) v (pc_SourceThreadID r) (pc_SourceTurnID r) (pc_ProjectID r)
    (pc_ChatID r) (pc_TopicID r) (pc_Payload r) (pc_Status r) (pc_CreatedAt r).

(** *** Operations *)
Definition EnqueuePendingCommand (protector : option Protector) (now : TimeString)
    (command : PendingCommand) : Tx Store unit :=
  let threadID := trim_space (cmd_ThreadID command) in
  let sourceThreadID := trim_space (cmd_SourceThreadID command) in
  let sourceTurnID := trim_space (cmd_SourceTurnID command) in
  let projectID := trim_space (cmd_ProjectID command) in
  let prompt := trim_space (cmd_Prompt command) in
  if String.eqb threadID "" || String.eqb projectID "" || String.eqb prompt "" then
    tx_fail "thread id, project id, and prompt are required"
  else match protector with
  | None => tx_fail "securestore protector is required for pending commands"
  | Some p =>
      match Protect p prompt with
      | Err e => tx_fail ("protect pending command: " +:+ e)
      | Ok protected => tx_modify (fun s =>
          let id := (mt_pendingSeq (db_minimal s) + 1)%Z in
          set_minimal (set_mt_pendingSeq id (set_mt_pending
            (mt_pending (db_minimal s) ++
               [mkPendingRow id threadID sourceThreadID sourceTurnID projectID (cmd_ChatID command)
                  (cmd_TopicID command) (Some protected) PendingCommandStatusPending now])
            (db_minimal s))) s)
      end
  end.

(** The command of a row, with its prompt. *)
Definition command_of (r : PendingRow) (prompt : string) : PendingCommand :=
  mkPendingCommand (pc_ID r) (pc_ThreadID r) (pc_SourceThreadID r) (pc_SourceTurnID r) (pc_ProjectID r)
    (pc_ChatID r) (pc_TopicID r) prompt PendingCommandStatusClaimed (pc_CreatedAt r).

(** The row of the SELECT: the oldest pending one of [here] among whose [peers] none is
    claimed. *)
Definition claimable_command (here : PendingRow -> bool) (peers : PendingRow -> PendingRow -> bool)
    (rows : list PendingRow) (r : PendingRow) : bool :=
  here r && pc_is PendingCommandStatusPending r
  && negb (existsb (fun claimed => peers r claimed && pc_is PendingCommandStatusClaimed claimed) rows).

(** The claim both queries share.  The row is claimed, and stays so, even if its prompt
    cannot be read: then the command and the error are both returned. *)
Definition claim_command (p : Protector) (here : PendingRow -> bool)
    (peers : PendingRow -> PendingRow -> bool) : Tx Store (option PendingCommand * option string) :=
  tx! row := tx_gets (fun s => find_first (claimable_command here peers (rows_of pending_table s))
                                 (rows_of pending_table s)) in
  match row with
  | None => tx_ret (None, None)
  | Some r =>
      match pc_Payload r with
      | None => tx_fail "sql: converting NULL to string is unsupported"
      | Some protected => fun s =>
          match sql_update pending_table (fun x => pc_id_is (pc_ID r) x && pc_is PendingCommandStatusPending x)
                  (upd_pc_status PendingCommandStatusClaimed) s with
          | Ok (changed, s') =>
              if negb (changed =? 1)%Z then Ok ((None, None), s)
              else match Unprotect p protected with
                   | Ok prompt => Ok ((Some (command_of r prompt), None), s')
                   | Err e => Ok ((Some (command_of r ""), Some ("unprotect pending command: " +:+ e)), s')
                   end
          | Err e => Err e
          end
      end
  end.

Definition same_thread (r c : PendingRow) : bool := String.eqb (pc_ThreadID c) (pc_ThreadID r).

Definition same_source (r c : PendingRow) : bool :=
  pc_from (pc_ChatID r) (pc_TopicID r) (pc_SourceThreadID r) (pc_SourceTurnID r) c.

Definition ClaimPendingCommand (protector : option Protector) (threadID0 : string)
  : Tx Store (option PendingCommand * option string) :=
  let threadID := trim_space threadID0 in
  if String.eqb threadID "" then tx_fail "thread id is required"
  else match protector with
  | None => tx_fail "securestore protector is required for pending commands"
  | Some p => claim_command p (fun r => String.eqb (pc_ThreadID r) threadID) same_thread
  end.

Definition ClaimPendingCommandForSource (protector : option Protector) (chatID topicID : Z)
    (sourceThreadID0 sourceTurnID0 : string) : Tx Store (option PendingCommand * option string) :=
  let sourceThreadID := trim_space sourceThreadID0 in
  let sourceTurnID := trim_space sourceTurnID0 in
  if (chatID =? 0)%Z || String.eqb sourceThreadID "" || String.eqb sourceTurnID "" then
    tx_fail "pending command source is required"
  else match protector with
  | None => tx_fail "securestore protector is required for pending commands"
  | Some p => claim_command p (pc_from chatID topicID sourceThreadID sourceTurnID) same_source
  end.

Definition ReleaseClaimedPendingCommand (id : Z) : Tx Store unit :=
  sql_update_exactly 1 pending_table (fun r => pc_id_is id r && pc_is PendingCommandStatusClaimed r)
    (upd_pc_status PendingCommandStatusPending)
    (fun changed => "release pending command changed " +:+ format_int changed +:+ " rows, want 1").

Definition HasPendingCommandBacklogForSource (chatID topicID : Z) (sourceThreadID0 sourceTurnID0 : string)
    (s : Store) : bool :=
  let sourceThreadID := trim_space sourceThreadID0 in
  let sourceTurnID := trim_space sourceTurnID0 in
  if (chatID =? 0)%Z || String.eqb sourceThreadID "" || String.eqb sourceTurnID "" then false
  else existsb (fun r => pc_from chatID topicID sourceThreadID sourceTurnID r && pc_open r)
         (rows_of pending_table s).

Definition rehome (chatID topicID : Z) (sourceThreadID sourceTurnID target : string) : Tx Store Z :=
  sql_update pending_table (fun r => pc_from chatID topicID sourceThreadID sourceTurnID r && pc_open r)
    (upd_pc_thread target).

Definition RehomePendingCommandsForSource (chatID topicID : Z)
    (sourceThreadID0 sourceTurnID0 targetThreadID0 : string) : Tx Store unit :=
  let sourceThreadID := trim_space sourceThreadID0 in
  let sourceTurnID := trim_space sourceTurnID0 in
  let targetThreadID := trim_space targetThreadID0 in
  if (chatID =? 0)%Z || String.eqb sourceThreadID "" || String.eqb sourceTurnID ""
     || String.eqb targetThreadID "" then
    tx_fail "pending command rehome source and target are required"
  else tx! _ := rehome chatID topicID sourceThreadID sourceTurnID targetThreadID in tx_ret tt.

(** SET status = ?, prompt_payload = NULL *)
Definition finish_command (status : string) (r : PendingRow) : PendingRow :=
  upd_pc_payload None (upd_pc_status status r).

(** requireOnePendingCommandFinalized *)
Definition finalize (status : string) (id : Z) : Tx Store unit :=
  sql_update_exactly 1 pending_table (fun r => pc_id_is id r && pc_is PendingCommandStatusClaimed r)
    (finish_command status)
    (fun changed => "pending command finalization changed " +:+ format_int changed +:+ " rows, want 1").

Definition CompletePendingCommand (id : Z) : Tx Store unit := finalize PendingCommandStatusCompleted id.
Definition FailPendingCommand (id : Z) : Tx Store unit := finalize PendingCommandStatusFailed id.

Definition RecoverClaimedPendingCommands : Tx Store Z :=
  sql_update pending_table (pc_is PendingCommandStatusClaimed) (finish_command PendingCommandStatusFailed).


(** ** The state machine and its specification *)

(** One committed operation. *)
Inductive pending_step (p : Protector) : Store -> Store -> Prop :=
| ps_enqueue now command s a s' :
    EnqueuePendingCommand (Some p) now command s = Ok (a, s') -> pending_step p s s'
| ps_claim threadID s a s' :
    ClaimPendingCommand (Some p) threadID s = Ok (a, s') -> pending_step p s s'
| ps_claim_source chatID topicID sourceThreadID sourceTurnID s a s' :
    ClaimPendingCommandForSource (Some p) chatID topicID sourceThreadID sourceTurnID s = Ok (a, s') ->
    pending_step p s s'
| ps_release id s a s' : ReleaseClaimedPendingCommand id s = Ok (a, s') -> pending_step p s s'
| ps_rehome chatID topicID sourceThreadID sourceTurnID target s a s' :
    RehomePendingCommandsForSource chatID topicID sourceThreadID sourceTurnID target s = Ok (a, s') ->
    pending_step p s s'
| ps_complete id s a s' : CompletePendingCommand id s = Ok (a, s') -> pending_step p s s'
| ps_fail id s a s' : FailPendingCommand id s = Ok (a, s') -> pending_step p s s'
| ps_recover s a s' : RecoverClaimedPendingCommands s = Ok (a, s') -> pending_step p s s'.

(** What the table promises: ids grow and are below the sequence; open commands have a
    readable prompt, finished ones none. *)
Definition pending_row_ok (p : Protector) (r : PendingRow) : Prop :=
  (pc_open r = true /\ exists e text, pc_Payload r = Some e /\ Unprotect p e = Ok text)
  \/ ((pc_is PendingCommandStatusCompleted r = true \/ pc_is PendingCommandStatusFailed r = true)
      /\ pc_Payload r = None).

Record PendingInv (p : Protector) (s : Store) : Prop := {
  pi_sorted : StronglySorted Z.lt (map pc_ID (mt_pending (db_minimal s)));
  pi_below : Forall (fun r => (pc_ID r <= mt_pendingSeq (db_minimal s))%Z) (mt_pending (db_minimal s));
  pi_rows : Forall (pending_row_ok p) (mt_pending (db_minimal s)) }.

(** The abstract backlog: the open commands in the order they came, each waiting or
    running.  A lane is what a claim serves: a thread, or the source of a handoff. *)
Record entry : Type := mkEntry {
  en_id : Z;
  en_thread : string;
  en_source : Z * Z * string * string;
  en_running : bool }.

Inductive lane : Type :=
| ThreadLane (threadID : string)
| SourceLane (source : Z * Z * string * string).

Definition in_lane (w : lane) (e : entry) : Prop :=
  match w with
  | ThreadLane t => en_thread e = t
  | SourceLane src => en_source e = src
  end.

Definition with_running (b : bool) (e : entry) : entry := mkEntry (en_id e) (en_thread e) (en_source e) b.

(** What may happen to a backlog.  A command is taken only when it is the first that
    waits in its lane and none of the lane runs. *)
Inductive backlog_step : list entry -> list entry -> Prop :=
| bk_same b : backlog_step b b
| bk_push b e :
    en_running e = false -> (forall x, x ∈ b -> (en_id x < en_id e)%Z) -> backlog_step b (b ++ [e])
| bk_take w l e k :
    in_lane w e -> en_running e = false ->
    (forall x, x ∈ l -> ~ in_lane w x) -> (forall x, x ∈ k -> in_lane w x -> en_running x = false) ->
    backlog_step (l ++ e :: k) (l ++ with_running true e :: k)
| bk_release l e k :
    en_running e = true -> backlog_step (l ++ e :: k) (l ++ with_running false e :: k)
| bk_done l e k : en_running e = true -> backlog_step (l ++ e :: k) (l ++ k)
| bk_rehome src t b :
    backlog_step b (map (fun e => if decide (en_source e = src)
                                  then mkEntry (en_id e) t (en_source e) (en_running e) else e) b)
| bk_recover b : backlog_step b (filter (fun e => en_running e = false) b).

Definition entry_of (r : PendingRow) : entry :=
  mkEntry (pc_ID r) (pc_ThreadID r) (pc_ChatID r, pc_TopicID r, pc_SourceThreadID r, pc_SourceTurnID r)
    (pc_is PendingCommandStatusClaimed r).

Definition backlog (s : Store) : list entry :=
  map entry_of (filter pc_open (mt_pending (db_minimal s))).

(** The lane of a thread, in order. *)
Definition thread_lane (t : string) (s : Store) : list entry := filter (fun e => en_thread e = t) (backlog s).

(** A sample: two texts wait for thread t, one for another. *)
Definition ex_command (t text : string) : PendingCommand :=
  mkPendingCommand 0 t "src" "turn" "p" 7 0 text "" "".

Definition ex_pending : Store :=
  match (tx! _ := EnqueuePendingCommand (Some plainProtector) "T1" (ex_command "t" "one") in
         tx! _ := EnqueuePendingCommand (Some plainProtector) "T2" (ex_command "u" "other") in
         EnqueuePendingCommand (Some plainProtector) "T3" (ex_command "t" "two")) emptyStore with
  | Ok (_, s) => s
  | Err _ => emptyStore
  end.

Definition ex_claimed_pending : Store :=
  match ClaimPendingCommand (Some plainProtector) "t" ex_pending with
  | Ok (_, s) => s
  | Err _ => emptyStore
  end.

Definition ex_done_pending : Store :=
  match CompletePendingCommand 1 ex_claimed_pending with Ok (_, s) => s | Err _ => emptyStore end.

#[export] Instance pending_table_laws : TableLaws pending_table.
Proof. split; intros; [done|done|]. by destruct s as [? ? ? ? ? ? ? ? [] ?]. Qed.

(** ** Lemmas *)
#[local] Arguments update_where : simpl never.
#[local] Arguments affected : simpl never.
#[local] Arguments find_first : simpl never.

Lemma pc_is_eq v r : pc_is v r = true <-> pc_Status r = v.
Proof. apply String.eqb_eq. Qed.

Lemma pc_open_cases r : pc_open r = true <->
  pc_Status r = PendingCommandStatusPending \/ pc_Status r = PendingCommandStatusClaimed.
Proof. unfold pc_open. by rewrite orb_true_iff, !pc_is_eq. Qed.

Lemma pc_from_eq c t i j r :
  pc_from c t i j r = true <-> (pc_ChatID r, pc_TopicID r, pc_SourceThreadID r, pc_SourceTurnID r) = (c, t, i, j).
Proof.
  unfold pc_from. rewrite !andb_true_iff, !Z.eqb_eq, !String.eqb_eq. split.
  - intros [[[-> ->] ->] ->]. done.
  - by intros [= -> -> -> ->].
Qed.

Lemma pending_waits r : pc_is PendingCommandStatusPending r = true ->
  pc_open r = true /\ pc_is PendingCommandStatusClaimed r = false.
Proof. unfold pc_open, pc_is. intros ->%String.eqb_eq. done. Qed.

Lemma claimed_open r : pc_is PendingCommandStatusClaimed r = true -> pc_open r = true.
Proof. unfold pc_open. intros ->. by rewrite orb_true_r. Qed.

Lemma backlog_split l r k : map entry_of (filter pc_open (l ++ r :: k)) =
  map entry_of (filter pc_open l) ++
  (if pc_open r then [entry_of r] else []) ++ map entry_of (filter pc_open k).
Proof.
  rewrite filter_app, filter_cons_bool, map_app. f_equal. by destruct (pc_open r).
Qed.

Lemma elem_of_backlog x rows : x ∈ map entry_of (filter pc_open rows) <->
  exists r, x = entry_of r /\ r ∈ rows /\ pc_open r = true.
Proof.
  rewrite list_elem_of_fmap. split.
  - intros (r & -> & [Hr Hin]%list_elem_of_filter). exists r. split_and!; [done|done|].
    by apply Is_true_true_1.
  - intros (r & -> & Hin & Hr). exists r. split; [done|]. apply list_elem_of_filter. by rewrite Hr.
Qed.

(** A statement that changes one row keeps the invariant if it keeps the row's. *)
Lemma PendingInv_one p s l r r' k :
  PendingInv p s -> mt_pending (db_minimal s) = l ++ r :: k ->
  pc_ID r' = pc_ID r -> pending_row_ok p r' ->
  PendingInv p (with_rows pending_table (l ++ r' :: k) s).
Proof.
  intros [H1 H2 H3] E Hid Hok. rewrite E in *. split; cbn.
  - by rewrite map_app, map_cons, Hid, <- map_cons, <- map_app.
  - apply Forall_app in H2 as [? [? ?]%Forall_cons]. apply Forall_app. split; [done|].
    constructor; [by rewrite Hid|done].
  - apply Forall_app in H3 as [? [? ?]%Forall_cons]. apply Forall_app. by split; [|constructor].
Qed.

Lemma PendingInv_map p s f :
  PendingInv p s -> (forall r, pc_ID (f r) = pc_ID r) ->
  (forall r, pending_row_ok p r -> pending_row_ok p (f r)) ->
  PendingInv p (with_rows pending_table (map f (mt_pending (db_minimal s))) s).
Proof.
  intros [H1 H2 H3] Hid Hok. split; cbn.
  - rewrite map_map. by rewrite (map_ext _ _ Hid).
  - apply Forall_fmap. eapply Forall_impl; [exact H2|]. intros r. cbn. by rewrite Hid.
  - apply Forall_fmap. eapply Forall_impl; [exact H3|]. intros r. apply Hok.
Qed.

Lemma open_row_ok p v r : pc_open r = true -> pending_row_ok p r ->
  v = PendingCommandStatusPending \/ v = PendingCommandStatusClaimed ->
  pending_row_ok p (upd_pc_status v r).
Proof.
  intros Ho [[_ He]|[Hs _]] Hv.
  - left. split; [|exact He]. apply pc_open_cases. exact Hv.
  - exfalso. apply pc_open_cases in Ho. rewrite !pc_is_eq in Hs.
    destruct Ho as [Ho|Ho], Hs as [Hs|Hs]; rewrite Ho in Hs; discriminate Hs.
Qed.

Lemma finished_row_ok p v r : v = PendingCommandStatusCompleted \/ v = PendingCommandStatusFailed ->
  pending_row_ok p (finish_command v r).
Proof. intros Hv. right. split; [|done]. rewrite !pc_is_eq. exact Hv. Qed.

(** The row a claim takes, and what it leaves. *)
Lemma claim_command_inv p here peers s out s' :
  StronglySorted Z.lt (map pc_ID (mt_pending (db_minimal s))) ->
  claim_command p here peers s = Ok (out, s') ->
  (out = (None, None) /\ s' = s
   /\ forall r, r ∈ mt_pending (db_minimal s) ->
        claimable_command here peers (mt_pending (db_minimal s)) r = false)
  \/ exists l r k protected prompt err,
       mt_pending (db_minimal s) = l ++ r :: k
       /\ claimable_command here peers (mt_pending (db_minimal s)) r = true
       /\ (forall x, x ∈ l -> claimable_command here peers (mt_pending (db_minimal s)) x = false)
       /\ pc_Payload r = Some protected
       /\ match Unprotect p protected with
          | Ok text => prompt = text /\ err = None
          | Err e => prompt = "" /\ err = Some ("unprotect pending command: " +:+ e)
          end
       /\ out = (Some (command_of r prompt), err)
       /\ s' = with_rows pending_table (l ++ upd_pc_status PendingCommandStatusClaimed r :: k) s.
Proof.
  intros Hs H. unfold claim_command in H. tx_inv H. apply tx_gets_ok in Htx as [-> ->]. cbn in H.
  destruct (find_first (R := PendingRow) _ _) as [r|] eqn:Ef.
  2: { apply tx_ret_ok in H as [-> ->]. left. split_and!; [done|done|]. by apply find_first_none. }
  right. destruct (find_first_split _ _ _ Ef) as (l & k & Hr & Hc & Hl).
  destruct (pc_Payload r) as [protected|] eqn:Ep; [|discriminate H].
  cbn in H. rewrite Hr in Hs.
  destruct (update_keyed pc_ID (fun x => pc_id_is (pc_ID r) x && pc_is PendingCommandStatusPending x)
              (upd_pc_status PendingCommandStatusClaimed) l r k) as [Hu Ha].
  { by apply SSorted_lt_NoDup. }
  { intros x Hx. unfold pc_id_is in Hx. by bsimp. }
  assert (pc_id_is (pc_ID r) r && pc_is PendingCommandStatusPending r = true) as Hp.
  { unfold claimable_command in Hc. unfold pc_id_is. rewrite Z.eqb_refl. by bsimp. }
  rewrite Hp in Hu, Ha. rewrite Hr, Hu, Ha in H. cbn in H.
  destruct (Unprotect p protected) as [text|e] eqn:Eu; injection H as <- <-;
    exists l, r, k, protected; eexists _, _; rewrite Eu; (split_and!; [exact Hr|exact Hc|exact Hl|done|done|done|done|done]).
Qed.

Lemma claimable_first w here peers rows l r k :
  rows = l ++ r :: k ->
  (forall x, here x = true <-> in_lane w (entry_of x)) ->
  (forall x c, here x = true -> (peers x c = true <-> here c = true)) ->
  claimable_command here peers rows r = true ->
  (forall x, x ∈ l -> claimable_command here peers rows x = false) ->
  here r = true /\ pc_is PendingCommandStatusPending r = true
  /\ (forall x, x ∈ map entry_of (filter pc_open l) -> ~ in_lane w x)
  /\ (forall x, x ∈ map entry_of (filter pc_open k) -> in_lane w x -> en_running x = false).
Proof.
  intros -> Hw Hpeers Hc Hl. unfold claimable_command in Hc. apply andb_prop in Hc as [Hc Hnone].
  apply andb_prop in Hc as [Hh Hp]. apply negb_true_iff in Hnone.
  assert (forall c, c ∈ l ++ r :: k -> here c = true -> pc_is PendingCommandStatusClaimed c = false) as Hfree.
  { intros c Hin Hhc. destruct (pc_is PendingCommandStatusClaimed c) eqn:E; [|done]. exfalso.
    rewrite <- not_true_iff_false in Hnone. apply Hnone. apply existsb_exists. exists c.
    split; [by apply list_elem_of_In|]. rewrite E, andb_true_r. by apply Hpeers. }
  split_and!; [done|done| |].
  - intros x (y & -> & Hy & Ho)%elem_of_backlog Hin. apply Hw in Hin. specialize (Hl y Hy).
    assert (y ∈ l ++ r :: k) as Hy' by (apply elem_of_app; by left).
    specialize (Hfree y Hy' Hin) as Hf. unfold pc_open in Ho. rewrite Hf, orb_false_r in Ho.
    unfold claimable_command in Hl. rewrite Hin, Ho in Hl. cbn in Hl. apply negb_false_iff in Hl.
    apply existsb_exists in Hl as (c & Hc & [H1 H2]%andb_prop). apply list_elem_of_In in Hc.
    rewrite (Hfree c Hc) in H2; [discriminate H2|]. by apply (Hpeers y c Hin).
  - intros x (y & -> & Hy & Ho)%elem_of_backlog Hin. apply Hw in Hin. cbn.
    apply (Hfree y); [|done]. apply elem_of_app. right. by right.
Qed.

(** Claiming is a take. *)
Lemma claim_command_step p w here peers s out s' :
  (forall x, here x = true <-> in_lane w (entry_of x)) ->
  (forall x c, here x = true -> (peers x c = true <-> here c = true)) ->
  PendingInv p s -> claim_command p here peers s = Ok (out, s') ->
  PendingInv p s' /\ backlog_step (backlog s) (backlog s').
Proof.
  intros Hw Hpeers HI H. destruct (claim_command_inv _ _ _ _ _ _ (pi_sorted _ _ HI) H)
    as [(_ & -> & _)|(l & r & k & protected & prompt & err & Hr & Hc & Hl & Hpay & _ & _ & ->)].
  { split; [done|constructor]. }
  destruct (claimable_first w here peers _ l r k Hr Hw Hpeers Hc Hl) as (Hh & Hp & H1 & H2).
  destruct (pending_waits r Hp) as [Ho Hn]. split.
  - eapply PendingInv_one; [done|exact Hr|done|]. apply open_row_ok; [done| |by right].
    destruct HI as [_ _ Hrows]. rewrite Hr in Hrows. rewrite Forall_forall in Hrows. apply Hrows.
    apply elem_of_app. right. left.
  - unfold backlog. cbn. rewrite Hr, !backlog_split, Ho.
    replace (pc_open (upd_pc_status PendingCommandStatusClaimed r)) with true by done.
    apply (bk_take w); [by apply Hw|exact Hn|done|done].
Qed.

Lemma enqueue_step p `{!ProtectorLaws p} now command s a s' :
  PendingInv p s -> EnqueuePendingCommand (Some p) now command s = Ok (a, s') ->
  PendingInv p s' /\ backlog_step (backlog s) (backlog s').
Proof.
  intros [H1 H2 H3] H. unfold EnqueuePendingCommand in H.
  destruct (_ || _); [discriminate H|].
  destruct (Protect p (trim_space (cmd_Prompt command))) as [protected|e] eqn:Ep; [|discriminate H].
  injection H as _ <-. rewrite Forall_forall in H2. split.
  - split; cbn.
    + rewrite map_app. apply SSorted_snoc; [done|].
      intros y (r & -> & Hr)%list_elem_of_fmap. specialize (H2 r Hr). cbn in *. lia.
    + apply Forall_app. split; [|apply Forall_singleton, Z.le_refl].
      apply Forall_forall. intros r Hr. specialize (H2 r Hr). lia.
    + apply Forall_app. split; [done|]. apply Forall_singleton. left. split; [done|].
      exists protected, (trim_space (cmd_Prompt command)). split; [done|]. by apply unprotect_protect.
  - unfold backlog. cbn. rewrite filter_app, map_app. apply bk_push; [done|].
    intros x (r & -> & Hr & _)%elem_of_backlog. specialize (H2 r Hr). cbn. lia.
Qed.

Lemma release_step p id s a s' :
  PendingInv p s -> ReleaseClaimedPendingCommand id s = Ok (a, s') ->
  PendingInv p s' /\ backlog_step (backlog s) (backlog s').
Proof.
  intros HI (l & r & k & Hr & [_ Hc]%andb_prop & ->)%update_exactly_one.
  pose proof (claimed_open r Hc) as Ho. split.
  - eapply PendingInv_one; [done|exact Hr|done|]. apply open_row_ok; [done| |by left].
    destruct HI as [_ _ Hrows]. cbn in Hr. rewrite Hr in Hrows. rewrite Forall_forall in Hrows.
    apply Hrows. apply elem_of_app. right. left.
  - unfold backlog. cbn in Hr |- *. rewrite Hr, !backlog_split, Ho.
    replace (pc_open (upd_pc_status PendingCommandStatusPending r)) with true by done.
    by apply bk_release.
Qed.

Lemma finalize_step p v id s a s' :
  v = PendingCommandStatusCompleted \/ v = PendingCommandStatusFailed ->
  PendingInv p s -> finalize v id s = Ok (a, s') ->
  PendingInv p s' /\ backlog_step (backlog s) (backlog s').
Proof.
  intros Hv HI (l & r & k & Hr & [_ Hc]%andb_prop & ->)%update_exactly_one.
  pose proof (claimed_open r Hc) as Ho. split.
  - eapply PendingInv_one; [done|exact Hr|done|]. by apply finished_row_ok.
  - unfold backlog. cbn in Hr |- *. rewrite Hr, !backlog_split, Ho.
    replace (pc_open (finish_command v r)) with false by (by destruct Hv as [-> | ->]).
    by apply bk_done.
Qed.

Lemma backlog_map f g rows :
  (forall r, pc_open (f r) = pc_open r) -> (forall r, pc_open r = true -> entry_of (f r) = g (entry_of r)) ->
  map entry_of (filter pc_open (map f rows)) = map g (map entry_of (filter pc_open rows)).
Proof.
  intros Ho He. induction rows as [|r rows IH]; [done|].
  cbn [map]. rewrite !filter_cons_bool, Ho. destruct (pc_open r) eqn:E; [|exact IH].
  cbn [map]. by rewrite IH, He.
Qed.

Lemma rehome_step p c t i j target s a s' :
  PendingInv p s -> rehome c t i j target s = Ok (a, s') ->
  PendingInv p s' /\ backlog_step (backlog s) (backlog s').
Proof.
  intros HI H. injection H as _ <-. split.
  - apply PendingInv_map; [done| |]; intros r; destruct (_ && _) eqn:E; try done.
  - unfold backlog. cbn. unfold update_where.
    rewrite (backlog_map _ (fun e => if decide (en_source e = (c, t, i, j))
               then mkEntry (en_id e) target (en_source e) (en_running e) else e)).
    + apply bk_rehome.
    + intros r. by destruct (_ && _).
    + intros r Ho. rewrite Ho, andb_true_r. destruct (pc_from c t i j r) eqn:E.
      * rewrite decide_True by (by apply pc_from_eq in E). done.
      * rewrite decide_False; [done|]. intros Hs%pc_from_eq. by rewrite Hs in E.
Qed.

Lemma backlog_recover rows :
  map entry_of (filter pc_open (update_where (pc_is PendingCommandStatusClaimed)
    (finish_command PendingCommandStatusFailed) rows)) =
  filter (fun e => en_running e = false) (map entry_of (filter pc_open rows)).
Proof.
  induction rows as [|r rows IH]; [done|]. unfold update_where in *. cbn [map].
  rewrite !filter_cons_bool. destruct (pc_is PendingCommandStatusClaimed r) eqn:E.
  - rewrite (claimed_open r E). cbn [map]. rewrite filter_cons_False by (cbn; by rewrite E). exact IH.
  - destruct (pc_open r); [|exact IH]. cbn [map].
    rewrite filter_cons_True by (cbn; by rewrite E). by rewrite IH.
Qed.

Lemma recover_step p s a s' :
  PendingInv p s -> RecoverClaimedPendingCommands s = Ok (a, s') ->
  PendingInv p s' /\ backlog_step (backlog s) (backlog s').
Proof.
  intros HI H. injection H as _ <-. split.
  - apply PendingInv_map; [done| |]; intros r; destruct (pc_is _ r) eqn:E; try done.
    intros _. apply finished_row_ok. by right.
  - unfold backlog. cbn. rewrite backlog_recover. apply bk_recover.
Qed.

Lemma claim_source_step p c t i j s out s' :
  PendingInv p s -> claim_command p (pc_from c t i j) same_source s = Ok (out, s') ->
  PendingInv p s' /\ backlog_step (backlog s) (backlog s').
Proof.
  apply (claim_command_step p (SourceLane (c, t, i, j))).
  - intros x. apply pc_from_eq.
  - intros x y Hx. apply pc_from_eq in Hx as [= H1 H2 H3 H4]. unfold same_source.
    by rewrite H1, H2, H3, H4.
Qed.

Lemma claim_thread_step p t s out s' :
  PendingInv p s -> claim_command p (fun r => String.eqb (pc_ThreadID r) t) same_thread s = Ok (out, s') ->
  PendingInv p s' /\ backlog_step (backlog s) (backlog s').
Proof.
  apply (claim_command_step p (ThreadLane t)).
  - intros x. cbn. apply String.eqb_eq.
  - intros x y Hx%String.eqb_eq. unfold same_thread. by rewrite Hx.
Qed.

Lemma pending_step_refines p `{!ProtectorLaws p} s s' :
  PendingInv p s -> pending_step p s s' -> PendingInv p s' /\ backlog_step (backlog s) (backlog s').
Proof.
  intros HI H. destruct H as [? ? ? ? ? H|? ? ? ? H|? ? ? ? ? ? ? H|? ? ? ? H|? ? ? ? ? ? ? ? H|? ? ? ? H|? ? ? ? H|? ? ? H].
  - by eapply enqueue_step.
  - unfold ClaimPendingCommand in H. destruct (String.eqb _ _); [discriminate H|].
    by eapply claim_thread_step.
  - unfold ClaimPendingCommandForSource in H. destruct (_ || _); [discriminate H|].
    by eapply claim_source_step.
  - by eapply release_step.
  - unfold RehomePendingCommandsForSource in H. destruct (_ || _); [discriminate H|]. tx_inv H.
    injection H as _ <-. by eapply rehome_step.
  - eapply finalize_step; [by left|done|exact H].
  - eapply finalize_step; [by right|done|exact H].
  - by eapply recover_step.
Qed.

Lemma PendingInv_empty p : PendingInv p emptyStore.
Proof. split; constructor. Qed.

Lemma pending_steps_refine p `{!ProtectorLaws p} s s' :
  PendingInv p s -> rtc (pending_step p) s s' -> PendingInv p s' /\ rtc backlog_step (backlog s) (backlog s').
Proof.
  intros HI H. induction H as [s|s s1 s2 H _ IH]; [by split|].
  destruct (pending_step_refines p s s1 HI H) as [HI1 Hb]. destruct (IH HI1) as [HI2 Hb2].
  split; [done|]. by eapply rtc_l.
Qed.

Lemma ex_enqueued : rtc (pending_step plainProtector) emptyStore ex_pending.
Proof.
  eapply rtc_l; [eapply (ps_enqueue _ "T1" (ex_command "t" "one")); vm_compute; reflexivity|].
  eapply rtc_l; [eapply (ps_enqueue _ "T2" (ex_command "u" "other")); vm_compute; reflexivity|].
  eapply rtc_l; [eapply (ps_enqueue _ "T3" (ex_command "t" "two")); vm_compute; reflexivity|].
  apply rtc_refl.
Qed.

Lemma ex_pending_inv : PendingInv plainProtector ex_pending.
Proof. exact (proj1 (pending_steps_refine _ _ _ (PendingInv_empty _) ex_enqueued)). Qed.

Lemma ex_pending_steps : rtc (pending_step plainProtector) ex_pending ex_done_pending.
Proof.
  eapply rtc_l; [eapply (ps_claim _ "t"); vm_compute; reflexivity|].
  eapply rtc_l; [eapply (ps_complete _ 1); vm_compute; reflexivity|].
  apply rtc_refl.
Qed.

(** A claim succeeds on a sound table, and its result is determined. *)
Lemma claim_command_ok p here peers s :
  PendingInv p s -> exists out s', claim_command p here peers s = Ok (out, s').
Proof.
  intros [_ _ Hrows]. unfold claim_command, tx_bind, tx_gets. cbn.
  destruct (find_first (R := PendingRow) _ _) as [r|] eqn:Ef; [|by eexists _, _].
  destruct (find_first_some _ _ _ Ef) as [Hin Hc].
  rewrite Forall_forall in Hrows. destruct (Hrows r Hin) as [[_ (e & text & -> & Hu)]|[Hs _]].
  - destruct (negb _); [by eexists _, _|]. rewrite Hu. by eexists _, _.
  - exfalso. unfold claimable_command in Hc. bsimp. rewrite !pc_is_eq in Hs.
    match goal with H : pc_is _ r = true |- _ => apply pc_is_eq in H; rewrite H in Hs end.
    destruct Hs as [Hs|Hs]; discriminate Hs.
Qed.

Lemma thread_lane_in t s r : r ∈ mt_pending (db_minimal s) -> pc_open r = true ->
  String.eqb (pc_ThreadID r) t = true -> entry_of r ∈ thread_lane t s.
Proof.
  intros Hin Ho Ht%String.eqb_eq. unfold thread_lane. apply list_elem_of_filter. split; [exact Ht|].
  apply elem_of_backlog. by exists r.
Qed.

Lemma in_lane_backlog t s e : e ∈ thread_lane t s -> exists r, e = entry_of r
  /\ r ∈ mt_pending (db_minimal s) /\ pc_open r = true /\ pc_ThreadID r = t.
Proof.
  intros [Ht (r & -> & Hr & Ho)%elem_of_backlog]%list_elem_of_filter. by exists r.
Qed.

(** If a lane has commands and none runs, its first waiting one is claimable. *)
Lemma lane_claimable t s e rest :
  thread_lane t s = e :: rest -> existsb en_running (e :: rest) = false ->
  ~ forall r, r ∈ mt_pending (db_minimal s) ->
      claimable_command (fun x => String.eqb (pc_ThreadID x) t) same_thread (mt_pending (db_minimal s)) r = false.
Proof.
  intros El Ex Hnone.
  destruct (in_lane_backlog t s e) as (r & He & Hin & Ho & Ht); [rewrite El; left|].
  specialize (Hnone r Hin). rewrite <- not_true_iff_false in Hnone. apply Hnone.
  assert (forall c, c ∈ mt_pending (db_minimal s) -> pc_ThreadID c = t -> pc_is PendingCommandStatusClaimed c = false) as Hfree.
  { intros c Hcin Hct. destruct (pc_is PendingCommandStatusClaimed c) eqn:E; [|done].
    rewrite <- not_true_iff_false in Ex. destruct Ex. apply existsb_exists. exists (entry_of c).
    split; [|exact E]. rewrite <- El. apply list_elem_of_In, thread_lane_in; [done|by apply claimed_open|].
    by apply String.eqb_eq. }
  unfold claimable_command. rewrite Ht, String.eqb_refl. unfold pc_open in Ho.
  rewrite (Hfree r Hin Ht), orb_false_r in Ho. rewrite Ho. cbn. apply negb_true_iff, not_true_iff_false.
  intros (c & Hcin%list_elem_of_In & [Hs1%String.eqb_eq Hs2]%andb_prop)%existsb_exists.
  rewrite (Hfree c Hcin) in Hs2; [discriminate Hs2|congruence].
Qed.

Lemma open_readable p s : PendingInv p s -> forall r, r ∈ mt_pending (db_minimal s) -> pc_open r = true ->
  exists envelope text, pc_Payload r = Some envelope /\ Unprotect p envelope = Ok text.
Proof.
  intros [_ _ Hrows] r Hin Ho. rewrite Forall_forall in Hrows.
  destruct (Hrows r Hin) as [[_ He]|[Hs _]]; [exact He|]. exfalso.
  apply pc_open_cases in Ho. rewrite !pc_is_eq in Hs.
  destruct Ho as [Ho|Ho], Hs as [Hs|Hs]; rewrite Ho in Hs; discriminate Hs.
Qed.

(** The rows an operation leaves: its own are changed in place, others are as before. *)
Lemma update_keeps q f rows r :
  (forall x, q x = true -> pc_open x = true) -> (forall x, pc_ID (f x) = pc_ID x) -> r ∈ rows ->
  (pc_open r = false -> r ∈ update_where q f rows)
  /\ exists r', r' ∈ update_where q f rows /\ pc_ID r' = pc_ID r.
Proof.
  intros Hq Hf Hr. split.
  - intros Ho. apply elem_of_update. exists r. split; [done|]. destruct (q r) eqn:E; [|done].
    rewrite (Hq r E) in Ho. discriminate Ho.
  - exists (if q r then f r else r). split; [apply elem_of_update; by exists r|]. by destruct (q r).
Qed.

Lemma update_exactly_keeps q f e s a s' r :
  (forall x, q x = true -> pc_open x = true) -> (forall x, pc_ID (f x) = pc_ID x) ->
  sql_update_exactly 1 pending_table q f e s = Ok (a, s') -> r ∈ mt_pending (db_minimal s) ->
  (pc_open r = false -> r ∈ mt_pending (db_minimal s'))
  /\ exists r', r' ∈ mt_pending (db_minimal s') /\ pc_ID r' = pc_ID r.
Proof.
  intros Hq Hf H. unfold sql_update_exactly in H. tx_inv H. injection Htx as _ <-.
  destruct (_ =? _)%Z; [|discriminate H]. injection H as _ <-. by apply update_keeps.
Qed.

Lemma claim_keeps p here peers s out s' r :
  PendingInv p s -> claim_command p here peers s = Ok (out, s') -> r ∈ mt_pending (db_minimal s) ->
  (pc_open r = false -> r ∈ mt_pending (db_minimal s'))
  /\ exists r', r' ∈ mt_pending (db_minimal s') /\ pc_ID r' = pc_ID r.
Proof.
  intros HI H Hin. destruct (claim_command_inv _ _ _ _ _ _ (pi_sorted _ _ HI) H)
    as [(_ & -> & _)|(l & x & k & protected & prompt & err & Hr & Hc & _ & _ & _ & _ & ->)].
  { split; [done|]. by exists r. }
  assert (pc_open x = true) as Ho.
  { unfold claimable_command in Hc. apply andb_prop in Hc as [[_ Hp]%andb_prop _]. by apply pending_waits. }
  cbn. rewrite Hr in Hin. apply elem_of_app in Hin as [Hin|[->|Hin]%elem_of_cons].
  - split; [intros _|exists r; split; [|done]]; apply elem_of_app; by left.
  - split; [congruence|]. exists (upd_pc_status PendingCommandStatusClaimed x).
    split; [apply elem_of_app; right; left|done].
  - split; [intros _|exists r; split; [|done]]; apply elem_of_app; right; by right.
Qed.

Lemma pending_step_kept p s s' r :
  PendingInv p s -> pending_step p s s' -> r ∈ mt_pending (db_minimal s) ->
  (pc_open r = false -> r ∈ mt_pending (db_minimal s'))
  /\ exists r', r' ∈ mt_pending (db_minimal s') /\ pc_ID r' = pc_ID r.
Proof.
  intros HI H Hin. destruct H as [? ? ? ? ? H|? ? ? ? H|? ? ? ? ? ? ? H|? ? ? ? H|? ? ? ? ? ? ? ? H|? ? ? ? H|? ? ? ? H|? ? ? H].
  - unfold EnqueuePendingCommand in H. destruct (_ || _); [discriminate H|].
    destruct (Protect p _); [|discriminate H]. injection H as _ <-. cbn.
    split; [intros _|exists r; split; [|done]]; apply elem_of_app; by left.
  - unfold ClaimPendingCommand in H. destruct (String.eqb _ _); [discriminate H|]. by eapply claim_keeps.
  - unfold ClaimPendingCommandForSource in H. destruct (_ || _); [discriminate H|]. by eapply claim_keeps.
  - eapply update_exactly_keeps; [| |exact H|done]; [|done]. intros x [_ Hx]%andb_prop. by apply claimed_open.
  - unfold RehomePendingCommandsForSource in H. destruct (_ || _); [discriminate H|]. tx_inv H.
    injection H as _ <-. injection Htx as _ <-. apply update_keeps; [|done|done]. by intros x [_ Hx]%andb_prop.
  - eapply update_exactly_keeps; [| |exact H|done]; [|done]. intros x [_ Hx]%andb_prop. by apply claimed_open.
  - eapply update_exactly_keeps; [| |exact H|done]; [|done]. intros x [_ Hx]%andb_prop. by apply claimed_open.
  - injection H as _ <-. apply update_keeps; [|done|done]. intros x. apply claimed_open.
Qed.

(** ** Theorems *)

(** C14: From any sound state, whatever the router does, the table stays sound and its open
    commands evolve as the abstract backlog: commands are added at the end, a claim takes
    the first command of its lane, and only while no other of the lane runs. *)
Theorem pending_commands_refine p `{!ProtectorLaws p} s s' :
  PendingInv p s -> rtc (pending_step p) s s' ->
  PendingInv p s' /\ rtc backlog_step (backlog s) (backlog s').
Proof. apply pending_steps_refine; assumption. Qed.

Theorem pending_commands_refine_witness :
  rtc backlog_step (backlog ex_pending) (backlog ex_done_pending)
  /\ map (fun e => (en_id e, en_running e)) (backlog ex_pending) = [(1, false); (2, false); (3, false)]%Z
  /\ map (fun e => (en_id e, en_running e)) (backlog ex_done_pending) = [(2, false); (3, false)]%Z.
Proof.
  destruct (pending_commands_refine plainProtector ex_pending ex_done_pending
              ex_pending_inv ex_pending_steps) as [_ H].
  split_and!; [exact H|vm_compute; reflexivity|vm_compute; reflexivity].
Defined.

(** A claim on a sound table never fails.  It serves the commands of its thread in
    order: while one of them runs, or when none waits, it changes nothing; otherwise it
    marks the first and returns it with the prompt that was stored. *)
Theorem ClaimPendingCommand_fifo p t s :
  PendingInv p s -> trim_space t = t -> t ≠ "" ->
  match thread_lane t s with
  | [] => ClaimPendingCommand (Some p) t s = Ok ((None, None), s)
  | e :: rest =>
      if existsb en_running (e :: rest) then ClaimPendingCommand (Some p) t s = Ok ((None, None), s)
      else exists command s' envelope,
        ClaimPendingCommand (Some p) t s = Ok ((Some command, None), s')
        /\ cmd_ID command = en_id e /\ cmd_ThreadID command = t
        /\ (exists r, r ∈ mt_pending (db_minimal s) /\ pc_ID r = en_id e /\ pc_Payload r = Some envelope)
        /\ Unprotect p envelope = Ok (cmd_Prompt command)
        /\ thread_lane t s' = with_running true e :: rest
        /\ forall u, u ≠ t -> thread_lane u s' = thread_lane u s
  end.
Proof.
  intros HI Htrim Hne. unfold ClaimPendingCommand. rewrite Htrim.
  rewrite (proj2 (String.eqb_neq t "") Hne).
  set (here := fun r => String.eqb (pc_ThreadID r) t).
  destruct (claim_command_ok p here same_thread s HI) as (out & s' & Hok).
  destruct (claim_command_inv _ _ _ _ _ _ (pi_sorted _ _ HI) Hok)
    as [(-> & -> & Hnone)|(l & r & k & protected & prompt & err & Hr & Hc & Hl & Hpay & Hun & -> & Hs')].
  - destruct (thread_lane t s) as [|e rest] eqn:El; [exact Hok|].
    destruct (existsb en_running (e :: rest)) eqn:Ex; [exact Hok|]. exfalso.
    by apply (lane_claimable t s e rest El Ex).
  - destruct (claimable_first (ThreadLane t) here same_thread _ l r k Hr) as (Hh & Hp & H1 & H2); [| |done|done|].
    { intros x. apply String.eqb_eq. }
    { intros x c Hx%String.eqb_eq. unfold same_thread, here. by rewrite Hx. }
    destruct (pending_waits r Hp) as [Ho Hn]. apply String.eqb_eq in Hh.
    assert (thread_lane t s = entry_of r :: filter (fun e => en_thread e = t) (map entry_of (filter pc_open k))) as El.
    { unfold thread_lane, backlog. rewrite Hr, backlog_split, Ho, filter_app, (filter_none _ _ H1).
      cbn. by rewrite decide_True. }
    assert (forall x, x ∈ filter (fun e => en_thread e = t) (map entry_of (filter pc_open k)) -> en_running x = false) as Hrest.
    { intros x [Hx Hin]%list_elem_of_filter. by apply H2. }
    rewrite El, (existsb_false _ (entry_of r :: _)).
    2: { intros x [->|Hx]%elem_of_cons; [exact Hn|by apply Hrest]. }
    assert (r ∈ mt_pending (db_minimal s)) as Hin by (rewrite Hr; apply elem_of_app; right; left).
    destruct (open_readable p s HI r Hin Ho) as (envelope & text & Henv & Htext).
    assert (envelope = protected) as -> by congruence. rewrite Htext in Hun. destruct Hun as [-> ->].
    exists (command_of r text), s', protected. split_and!; [exact Hok|done|exact Hh| |exact Htext| |].
    + exists r. split_and!; [exact Hin|done|exact Hpay].
    + rewrite Hs'. unfold thread_lane, backlog. cbn. rewrite backlog_split, filter_app, (filter_none _ _ H1).
      cbn. by rewrite decide_True.
    + intros u Hu. rewrite Hs'. unfold thread_lane, backlog. cbn. rewrite Hr, !backlog_split, Ho, !filter_app.
      cbn. rewrite !decide_False by congruence. done.
Qed.

Theorem ClaimPendingCommand_fifo_witness :
  exists command s' envelope,
    ClaimPendingCommand (Some plainProtector) "t" ex_pending = Ok ((Some command, None), s')
    /\ cmd_ID command = 1%Z /\ Unprotect plainProtector envelope = Ok (cmd_Prompt command)
    /\ map en_id (thread_lane "t" s') = [1; 3]%Z.
Proof.
  pose proof (ClaimPendingCommand_fifo plainProtector "t" ex_pending ex_pending_inv eq_refl ltac:(done)) as H.
  destruct (thread_lane "t" ex_pending) as [|e rest] eqn:El; [vm_compute in El; discriminate El|].
  assert (e = mkEntry 1 "t" (7, 0, "src", "turn")%Z false /\ map en_id rest = [3%Z]) as [-> Hrest].
  { vm_compute in El. injection El as <- <-. split; reflexivity. }
  replace (existsb en_running _) with false in H by (vm_compute in El; injection El as <-; reflexivity).
  destruct H as (command & s' & envelope & H1 & H2 & _ & _ & H5 & H6 & _).
  exists command, s', envelope. split_and!; [exact H1|exact H2|exact H5|]. rewrite H6. cbn. by rewrite Hrest.
Defined.

(** A command once completed or failed stays so, and its prompt stays erased, whatever
    follows; and no command is ever removed. *)
Theorem pending_commands_final p `{!ProtectorLaws p} s s' r :
  PendingInv p s -> rtc (pending_step p) s s' -> r ∈ mt_pending (db_minimal s) ->
  (pc_open r = false -> pc_Payload r = None /\ r ∈ mt_pending (db_minimal s'))
  /\ exists r', r' ∈ mt_pending (db_minimal s') /\ pc_ID r' = pc_ID r.
Proof.
  intros HI H Hr. split.
  - intros Ho. split.
    + destruct HI as [_ _ Hrows]. rewrite Forall_forall in Hrows.
      destruct (Hrows r Hr) as [[Hx _]|[_ Hx]]; [congruence|exact Hx].
    + revert Hr. induction H as [|s s1 s2 Hs _ IH]; [done|]. intros Hr. apply IH.
      * by destruct (pending_step_refines p s s1 HI Hs).
      * by destruct (pending_step_kept p s s1 r HI Hs Hr) as [Hk _]; apply Hk.
  - revert r Hr. induction H as [|s s1 s2 Hs _ IH]; intros r Hr; [by exists r|].
    destruct (pending_step_kept p s s1 r HI Hs Hr) as [_ (r1 & Hr1 & <-)].
    apply IH; [|exact Hr1]. by destruct (pending_step_refines p s s1 HI Hs).
Qed.

Theorem pending_commands_final_witness :
  exists r, r ∈ mt_pending (db_minimal ex_done_pending) /\ pc_ID r = 1%Z.
Proof.
  destruct (pending_commands_final plainProtector ex_pending ex_done_pending
    (mkPendingRow 1 "t" "src" "turn" "p" 7 0
       (match Protect plainProtector "one" with Ok e => Some e | Err _ => None end)
       PendingCommandStatusPending "T1") ex_pending_inv ex_pending_steps) as (_ & r & Hr & Hid).
  - vm_compute. left.
  - exists r. split; [exact Hr|exact Hid].
Defined.
