(* ===== verification/Continuations.v ===== *)
(** * internal/storage/store_minimal.go: continuations and the adoption of their forks

    A continuation is the right to fork a desktop thread at one of its turns.  It is
    created once per chat, thread and turn, becomes active with the fork, or fails; a
    definite failure may be tried again, an ambiguous one only once the user rearms it.
    An active fork is then driven as a linked thread. *)
From stdpp Require Import base list numbers strings gmap relations.
From Stdlib Require Import Lia Ascii.
From S2P Require Import Prelude GoStrings GoTime Sql Json Model MinimalTables CoreTables Store.
From S2P Require Import LinkedThread QueueSafety PendingCommands.

Definition MinimalContinuationCreating : string := "creating".
Definition MinimalContinuationActive : string := "active".
Definition MinimalContinuationFailed : string := "failed".
Definition MinimalContinuationFailureDefinite : string := "definite".
Definition MinimalContinuationFailureAmbiguous : string := "ambiguous".

Record MinimalContinuationKey : Type := mkContinuationKey {
  ck_ChatID : Z;
  ck_TopicID : Z;
  ck_SourceThreadID : string;
  ck_SourceTurnID : string }.

Record MinimalContinuation : Type := mkContinuation {
  mc_Key : MinimalContinuationKey;
  mc_ProjectID : string;
  mc_ForkThreadID : string;
  mc_Status : string;
  mc_FailureKind : string;
  mc_CreatedAt : TimeString;
  mc_UpdatedAt : TimeString }.

Definition continuation_table : Table Store ContinuationRow :=
  mkTable (fun s => mt_continuations (db_minimal s))
    (fun l s => set_minimal (set_mt_continuations l (db_minimal s)) s).

(** *** Conditions and assignments *)
Definition row_key : Type := string * string * string.

(** The primary key: chat_key, source_thread_id, source_turn_id. *)
Definition ct_key (r : ContinuationRow) : row_key := (ct_ChatKey r, ct_SourceThreadID r, ct_SourceTurnID r).

Definition key_of (k : MinimalContinuationKey) : row_key :=
  (ChatKey (ck_ChatID k) (ck_TopicID k), ck_SourceThreadID k, ck_SourceTurnID k).

Definition ct_key_is (k : row_key) (r : ContinuationRow) : bool := bool_decide (ct_key r = k).
Definition ct_is (status : string) (r : ContinuationRow) : bool := String.eqb (ct_Status r) status.

Definition upd_continuation (fork : option string) (status : string) (failureKind : option string)
    (now : TimeString) (r : ContinuationRow) : ContinuationRow :=
  mkContinuationRow (ct_ChatKey r) (ct_ChatID r) (ct_TopicID r) (ct_ProjectID r) (ct_SourceThreadID r)
    (ct_SourceTurnID r) fork status failureKind (ct_CreatedAt r) now.

Definition continuation_of (r : ContinuationRow) : MinimalContinuation :=
  mkContinuation (mkContinuationKey (ct_ChatID r) (ct_TopicID r) (ct_SourceThreadID r) (ct_SourceTurnID r))
    (ct_ProjectID r) (default "" (ct_ForkThreadID r)) (ct_Status r) (default "" (ct_FailureKind r))
    (ct_CreatedAt r) (ct_UpdatedAt r).

(** idx_minimal_continuation_fork: another row has the fork. *)
Definition fork_taken (k : row_key) (fork : string) (rows : list ContinuationRow) : bool :=
  existsb (fun r => negb (ct_key_is k r) && is_text (ct_ForkThreadID r) fork) rows.

(** *** Arguments *)
Definition normalizeMinimalContinuationKey (key : MinimalContinuationKey) : res MinimalContinuationKey :=
  let sourceThreadID := trim_space (ck_SourceThreadID key) in
  let sourceTurnID := trim_space (ck_SourceTurnID key) in
  if (ck_ChatID key =? 0)%Z || String.eqb sourceThreadID "" || String.eqb sourceTurnID "" then
    Err "minimal continuation chat id, source thread id, and source turn id are required"
  else Ok (mkContinuationKey (ck_ChatID key) (ck_TopicID key) sourceThreadID sourceTurnID).

Definition normalizeMinimalContinuation (continuation : MinimalContinuation) : res MinimalContinuation :=
  let! key := normalizeMinimalContinuationKey (mc_Key continuation) in
  let projectID := trim_space (mc_ProjectID continuation) in
  if String.eqb projectID "" then Err "minimal continuation project id is required"
  else Ok (mkContinuation key projectID (mc_ForkThreadID continuation) (mc_Status continuation)
             (mc_FailureKind continuation) (mc_CreatedAt continuation) (mc_UpdatedAt continuation)).

(** *** Reading *)
Definition getMinimalContinuationTx (key : MinimalContinuationKey) (s : Store) : option MinimalContinuation :=
  continuation_of <$> find_first (ct_key_is (key_of key)) (rows_of continuation_table s).

Definition GetMinimalContinuation (key : MinimalContinuationKey) (s : Store)
  : res (option MinimalContinuation) :=
  let! normalized := normalizeMinimalContinuationKey key in
  Ok (getMinimalContinuationTx normalized s).

(** ORDER BY updated_at DESC LIMIT 1; the times are not read. *)
Definition latest_active (p : ContinuationRow -> bool) (s : Store) : option MinimalContinuation :=
  (fun r => let c := continuation_of r in
            mkContinuation (mc_Key c) (mc_ProjectID c) (mc_ForkThreadID c) (mc_Status c) (mc_FailureKind c) "" "")
  <$> head (sort_by (fun a b => text_le (ct_UpdatedAt b) (ct_UpdatedAt a))
              (filter p (rows_of continuation_table s))).

Definition ActiveMinimalContinuationForFork (chatID topicID : Z) (forkThreadID0 : string) (s : Store)
  : option MinimalContinuation :=
  let forkThreadID := trim_space forkThreadID0 in
  if (chatID =? 0)%Z || String.eqb forkThreadID "" then None
  else latest_active (fun r => String.eqb (ct_ChatKey r) (ChatKey chatID topicID)
                               && is_text (ct_ForkThreadID r) forkThreadID
                               && ct_is MinimalContinuationActive r) s.

Definition ActiveMinimalContinuationByFork (forkThreadID0 : string) (s : Store) : option MinimalContinuation :=
  let forkThreadID := trim_space forkThreadID0 in
  if String.eqb forkThreadID "" then None
  else latest_active (fun r => is_text (ct_ForkThreadID r) forkThreadID && ct_is MinimalContinuationActive r) s.

(** *** Creating *)
Definition new_continuation (seed : MinimalContinuation) (fork : option string) (status : string)
    (now : TimeString) : ContinuationRow :=
  let key := mc_Key seed in
  mkContinuationRow (ChatKey (ck_ChatID key) (ck_TopicID key)) (ck_ChatID key) (ck_TopicID key)
    (mc_ProjectID seed) (ck_SourceThreadID key) (ck_SourceTurnID key) fork status None now now.

(** status = failed AND failure_kind = definite AND coalesce(fork_thread_id, '') = '' *)
Definition retryable (r : ContinuationRow) : bool :=
  ct_is MinimalContinuationFailed r && is_text (ct_FailureKind r) MinimalContinuationFailureDefinite
  && is_blank (ct_ForkThreadID r).

(** The INSERT ... ON CONFLICT DO NOTHING: whether it inserted. *)
Definition insert_continuation (row : ContinuationRow) : Tx Store bool :=
  tx! existing := sql_first continuation_table (ct_key_is (ct_key row)) in
  match existing with
  | Some _ => tx_ret false
  | None => tx! _ := sql_insert continuation_table row in tx_ret true
  end.

Definition ClaimMinimalContinuation (now : TimeString) (continuation : MinimalContinuation)
  : Tx Store (option MinimalContinuation * bool) :=
  tx! seed := tx_lift (normalizeMinimalContinuation continuation) in
  tx! changed := sql_update continuation_table
    (fun r => ct_key_is (key_of (mc_Key seed)) r && retryable r)
    (fun r => upd_continuation (ct_ForkThreadID r) MinimalContinuationCreating None now r) in
  tx! created := (if (changed =? 1)%Z then tx_ret true
                  else insert_continuation (new_continuation seed None MinimalContinuationCreating now)) in
  tx! row := tx_gets (getMinimalContinuationTx (mc_Key seed)) in
  tx_ret (row, created).

(** *** Activating *)
Definition upsertThreadTx (thread : Thread) : Tx Store unit :=
  let raw := default (JObj []) (th_Raw thread) in
  tx_modify (fun s => set_core (set_cr_threads
    (<[th_ID thread := mkThreadRow (th_Title thread) (nullable (th_CWD thread)) (th_ProjectName thread)
         (nullable (th_DirectoryName thread)) (th_UpdatedAt thread) (nullable (th_Status thread))
         (nullable (th_LastPreview thread)) (nullable (th_ActiveTurnID thread))
         (nullable (th_PreferredModel thread)) (nullable (th_PermissionsMode thread))
         (th_Archived thread) raw]> (cr_threads (db_core s))) (db_core s)) s).

(** INSERT INTO thread_bindings ... ON CONFLICT(chat_key) DO UPDATE SET thread_id, mode, updated_at *)
Definition bind_thread (chatKey : string) (chatID topicID : Z) (threadID mode : string) (now : TimeString)
  : Tx Store unit :=
  tx_modify (fun s =>
    let row := match cr_bindings (db_core s) !! chatKey with
               | Some b => mkThreadBinding chatKey (tb_ChatID b) (tb_TopicID b) threadID mode (tb_CreatedAt b) now
               | None => mkThreadBinding chatKey chatID topicID threadID mode now now
               end in
    set_core (set_cr_bindings (<[chatKey := row]> (cr_bindings (db_core s))) (db_core s)) s).

Definition unique_fork_error : string :=
  "UNIQUE constraint failed: minimal_thread_continuations.fork_thread_id".

Definition ActivateMinimalContinuation (now : TimeString) (continuation : MinimalContinuation)
    (child0 : Thread) : Tx Store unit :=
  tx! seed := tx_lift (normalizeMinimalContinuation continuation) in
  let child := set_th_ID (trim_space (th_ID child0)) child0 in
  if String.eqb (th_ID child) "" then tx_fail "child thread id is required"
  else
    let key := mc_Key seed in
    tx! _ := upsertThreadTx child in
    tx! taken := tx_gets (fun s => fork_taken (key_of key) (th_ID child) (rows_of continuation_table s)) in
    tx! _ := sql_update_exactly 1 continuation_table
      (fun r => ct_key_is (key_of key) r && ct_is MinimalContinuationCreating r)
      (fun r => upd_continuation (Some (th_ID child)) MinimalContinuationActive None now r)
      (fun changed => "activate minimal continuation changed " +:+ format_int changed +:+ " rows, want 1") in
    if taken then tx_fail unique_fork_error
    else
      tx! _ := rehome (ck_ChatID key) (ck_TopicID key) (ck_SourceThreadID key) (ck_SourceTurnID key) (th_ID child) in
      bind_thread (ChatKey (ck_ChatID key) (ck_TopicID key)) (ck_ChatID key) (ck_TopicID key) (th_ID child)
        BindingModeBound now.

(** *** Failing and trying again *)
Definition FailMinimalContinuation (now : TimeString) (continuation : MinimalContinuation)
    (failureKind0 : string) : Tx Store unit :=
  tx! seed := tx_lift (normalizeMinimalContinuation continuation) in
  let failureKind := trim_space failureKind0 in
  if negb (String.eqb failureKind MinimalContinuationFailureDefinite)
     && negb (String.eqb failureKind MinimalContinuationFailureAmbiguous) then
    tx_fail "minimal continuation failure kind must be definite or ambiguous"
  else
    sql_update_exactly 1 continuation_table
      (fun r => ct_key_is (key_of (mc_Key seed)) r && ct_is MinimalContinuationCreating r)
      (fun r => upd_continuation (ct_ForkThreadID r) MinimalContinuationFailed (Some failureKind) now r)
      (fun changed => "fail minimal continuation changed " +:+ format_int changed +:+ " rows, want 1").

(** c.status = creating AND the source of c is that of the command *)
Definition creating_for (c : ContinuationRow) (r : PendingRow) : bool :=
  ct_is MinimalContinuationCreating c
  && pc_from (ct_ChatID c) (ct_TopicID c) (ct_SourceThreadID c) (ct_SourceTurnID c) r.

Definition RecoverCreatingMinimalContinuations (now : TimeString) : Tx Store Z :=
  tx! creating := tx_gets (rows_of continuation_table) in
  tx! _ := sql_update pending_table
    (fun r => pc_is PendingCommandStatusClaimed r && existsb (fun c => creating_for c r) creating)
    (upd_pc_status PendingCommandStatusPending) in
  sql_update continuation_table (ct_is MinimalContinuationCreating)
    (fun r => upd_continuation (ct_ForkThreadID r) MinimalContinuationFailed
                (Some MinimalContinuationFailureAmbiguous) now r).

Definition RearmAmbiguousMinimalContinuations (now : TimeString) (chatID topicID : Z) : Tx Store Z :=
  if (chatID =? 0)%Z then tx_fail "chat id is required"
  else sql_update continuation_table
         (fun r => String.eqb (ct_ChatKey r) (ChatKey chatID topicID) && ct_is MinimalContinuationFailed r
                   && is_text (ct_FailureKind r) MinimalContinuationFailureAmbiguous)
         (fun r => upd_continuation (ct_ForkThreadID r) (ct_Status r)
                     (Some MinimalContinuationFailureDefinite) now r).

(** *** Linked threads *)
Definition same_link (chatKey sourceThreadID : string) (l : LinkedRow) : bool :=
  String.eqb (l_ChatKey l) chatKey && String.eqb (l_SourceThreadID l) sourceThreadID.

(** INSERT INTO minimal_linked_threads; [None] when the primary key exists, an error
    when another row has the linked id. *)
Definition insert_linked (row : LinkedRow) : Tx Store bool :=
  tx! rows := tx_gets (rows_of linked_table) in
  if existsb (same_link (l_ChatKey row) (l_SourceThreadID row)) rows then tx_ret false
  else if negb (is_blank (l_LinkedThreadID row))
          && existsb (fun l => is_text (l_LinkedThreadID l) (default "" (l_LinkedThreadID row))) rows then
    tx_fail "UNIQUE constraint failed: minimal_linked_threads.linked_thread_id"
  else tx! _ := sql_insert linked_table row in tx_ret true.

(** The ORDER BY of the adoption: by chat and source; of one source the bound fork first,
    then the latest. *)
Definition bound_first (s : Store) (r : ContinuationRow) : Z :=
  match cr_bindings (db_core s) !! ct_ChatKey r with
  | Some b => if is_text (ct_ForkThreadID r) (tb_ThreadID b) then 0 else 1
  | None => 1
  end%Z.

Definition text_lt (a b : string) : bool := negb (text_le b a).

Definition adoption_order (s : Store) (a b : ContinuationRow) : bool :=
  text_lt (ct_ChatKey a) (ct_ChatKey b) || (String.eqb (ct_ChatKey a) (ct_ChatKey b)
  && (text_lt (ct_SourceThreadID a) (ct_SourceThreadID b) || (String.eqb (ct_SourceThreadID a) (ct_SourceThreadID b)
  && ((bound_first s a <? bound_first s b)%Z || ((bound_first s a =? bound_first s b)%Z
  && (text_lt (ct_UpdatedAt b) (ct_UpdatedAt a) || (String.eqb (ct_UpdatedAt a) (ct_UpdatedAt b)
  && text_le (default "" (ct_ForkThreadID b)) (default "" (ct_ForkThreadID a))))))))).

(** An active fork without a linked thread for its source. *)
Definition adoptable (s : Store) (r : ContinuationRow) : bool :=
  ct_is MinimalContinuationActive r && negb (is_blank (ct_ForkThreadID r))
  && negb (existsb (same_link (ct_ChatKey r) (ct_SourceThreadID r)) (rows_of linked_table s)).

Definition adoption_key (r : ContinuationRow) : string :=
  ct_ChatKey r +:+ String (ascii_of_nat 0) (ct_SourceThreadID r).

(** The loop over the rows: the first of each key. *)
Fixpoint first_of_each (seen : list string) (rows : list ContinuationRow) : list ContinuationRow :=
  match rows with
  | [] => []
  | r :: rest =>
      if existsb (String.eqb (adoption_key r)) seen then first_of_each seen rest
      else r :: first_of_each (adoption_key r :: seen) rest
  end.

Definition adoption_candidates (s : Store) : list ContinuationRow :=
  first_of_each [] (sort_by (adoption_order s) (filter (adoptable s) (rows_of continuation_table s))).

Definition adopted_link (now : TimeString) (r : ContinuationRow) : LinkedRow :=
  mkLinkedRow (ct_ChatKey r) (ct_ChatID r) (ct_TopicID r) (ct_ProjectID r) (ct_SourceThreadID r)
    (ct_ForkThreadID r) (ct_SourceTurnID r) None None MinimalLinkedTitlePending MinimalLinkedReady None 0
    None None None now now None.

Fixpoint adopt_all (now : TimeString) (candidates : list ContinuationRow) (adopted : Z) : Tx Store Z :=
  match candidates with
  | [] => tx_ret adopted
  | r :: rest =>
      tx! inserted := insert_linked (adopted_link now r) in
      adopt_all now rest (adopted + boolToInt inserted)%Z
  end.

Definition AdoptMinimalLinkedThreads (now : TimeString) : Tx Store Z :=
  tx! candidates := tx_gets adoption_candidates in
  adopt_all now candidates 0.

Definition fillMinimalLinkedProvenance (link : MinimalLinkedThread) (provenance : MinimalContinuation)
  : MinimalContinuation :=
  let key := mc_Key provenance in
  let or_blank own other := if String.eqb (trim_space own) "" then other else own in
  let or_zero own other := if (own =? 0)%Z then other else own in
  mkContinuation
    (mkContinuationKey (or_zero (ck_ChatID key) (lt_ChatID link)) (or_zero (ck_TopicID key) (lt_TopicID link))
       (or_blank (ck_SourceThreadID key) (lt_SourceThreadID link))
       (or_blank (ck_SourceTurnID key) (lt_SourceAnchorTurnID link)))
    (or_blank (mc_ProjectID provenance) (lt_ProjectID link)) (mc_ForkThreadID provenance)
    (mc_Status provenance) (mc_FailureKind provenance) (mc_CreatedAt provenance) (mc_UpdatedAt provenance).

(** INSERT ... ON CONFLICT(chat_key, source_thread_id, source_turn_id) DO UPDATE ... WHERE
    the row is creating or active, without a fork or with the same: RowsAffected. *)
Definition upsert_active (row : ContinuationRow) (fork : string) (now : TimeString) : Tx Store Z :=
  tx! rows := tx_gets (rows_of continuation_table) in
  match find_first (ct_key_is (ct_key row)) rows with
  | None =>
      if fork_taken (ct_key row) fork rows then tx_fail unique_fork_error
      else tx! _ := sql_insert continuation_table row in tx_ret 1%Z
  | Some _ =>
      tx! changed := sql_update continuation_table
        (fun r => ct_key_is (ct_key row) r
                  && (ct_is MinimalContinuationCreating r || ct_is MinimalContinuationActive r)
                  && (is_blank (ct_ForkThreadID r) || is_text (ct_ForkThreadID r) fork))
        (fun r => upd_continuation (Some fork) MinimalContinuationActive None now r) in
      if (0 <? changed)%Z && fork_taken (ct_key row) fork rows then tx_fail unique_fork_error
      else tx_ret changed
  end.

Definition provenance_matches (seed : MinimalContinuation) (link : MinimalLinkedThread) : bool :=
  let key := mc_Key seed in
  (ck_ChatID key =? lt_ChatID link)%Z && (ck_TopicID key =? lt_TopicID link)%Z
  && String.eqb (ck_SourceThreadID key) (lt_SourceThreadID link)
  && String.eqb (ck_SourceTurnID key) (lt_SourceAnchorTurnID link)
  && String.eqb (mc_ProjectID seed) (lt_ProjectID link).

(** The row of an activated link. *)
Definition activated_link (link : MinimalLinkedThread) (sourceTitle desiredTitle : option string)
    (generation : Z) (now : TimeString) : LinkedRow :=
  mkLinkedRow (lt_ChatKey link) (lt_ChatID link) (lt_TopicID link) (lt_ProjectID link)
    (lt_SourceThreadID link) (Some (lt_LinkedThreadID link)) (lt_SourceAnchorTurnID link)
    sourceTitle desiredTitle (lt_TitleState link) (lt_State link) None generation None None None now now None.

Definition ActivateMinimalLinkedThread (protector : option Protector) (now : TimeString)
    (link : MinimalLinkedThread) (provenance0 : MinimalContinuation) (child0 : Thread) : Tx Store unit :=
  let child := set_th_ID (trim_space (th_ID child0)) child0 in
  if String.eqb (th_ID child) "" then tx_fail "linked child thread id is required"
  else
    tx! normalized := tx_lift (normalizeMinimalLinkedActivation link (th_ID child)) in
    let provenance := fillMinimalLinkedProvenance normalized provenance0 in
    tx! seed := tx_lift (normalizeMinimalContinuation provenance) in
    if negb (provenance_matches seed normalized) then tx_fail "minimal linked provenance does not match link"
    else
      tx! sourceTitle := tx_lift (protectMinimalLinkedTitle protector (lt_SourceTitle normalized)) in
      tx! desiredTitle := tx_lift (protectMinimalLinkedTitle protector (lt_DesiredTitle normalized)) in
      tx! generation := tx_lift (minimalLinkedGenerationInt64 (lt_WorkerGeneration normalized)) in
      tx! _ := upsertThreadTx child in
      let fork := lt_LinkedThreadID normalized in
      tx! changed := upsert_active (new_continuation seed (Some fork) MinimalContinuationActive now) fork now in
      if negb (changed =? 1)%Z then
        tx_fail ("activate minimal linked provenance changed " +:+ format_int changed +:+ " rows, want 1")
      else
        tx! _ := rehome (lt_ChatID normalized) (lt_TopicID normalized) (lt_SourceThreadID normalized)
                   (lt_SourceAnchorTurnID normalized) fork in
        tx! _ := bind_thread (lt_ChatKey normalized) (lt_ChatID normalized) (lt_TopicID normalized) fork
                   BindingModeBound now in
        tx! inserted := insert_linked (activated_link normalized sourceTitle desiredTitle generation now) in
        if inserted then tx_ret tt
        else tx_fail "UNIQUE constraint failed: minimal_linked_threads.chat_key, minimal_linked_threads.source_thread_id".

(** ** Specification *)

(** The automaton of a continuation: status, failure, fork. *)
Definition continuation_state : Type := string * option string * option string.

Definition state_of (r : ContinuationRow) : continuation_state :=
  (ct_Status r, ct_FailureKind r, ct_ForkThreadID r).

Definition creating : continuation_state := (MinimalContinuationCreating, None, None).
Definition active (fork : string) : continuation_state := (MinimalContinuationActive, None, Some fork).
Definition failed (kind : string) : continuation_state := (MinimalContinuationFailed, Some kind, None).

Inductive continuation_move : continuation_state -> continuation_state -> Prop :=
| cm_same st : continuation_move st st
| cm_activate fork : fork <> "" -> continuation_move creating (active fork)
| cm_fail kind :
    kind = MinimalContinuationFailureDefinite \/ kind = MinimalContinuationFailureAmbiguous ->
    continuation_move creating (failed kind)
| cm_rearm :
    continuation_move (failed MinimalContinuationFailureAmbiguous) (failed MinimalContinuationFailureDefinite)
| cm_retry : continuation_move (failed MinimalContinuationFailureDefinite) creating.

(** The states the automaton has. *)
Definition sound_state (st : continuation_state) : Prop :=
  st = creating \/ (exists fork, fork <> "" /\ st = active fork)
  \/ st = failed MinimalContinuationFailureDefinite \/ st = failed MinimalContinuationFailureAmbiguous.

Definition row_sound (r : ContinuationRow) : Prop :=
  ct_ChatKey r = ChatKey (ct_ChatID r) (ct_TopicID r) /\ sound_state (state_of r).

Definition row_evolves (r r' : ContinuationRow) : Prop :=
  ct_key r' = ct_key r /\ ct_ChatID r' = ct_ChatID r /\ ct_TopicID r' = ct_TopicID r
  /\ rtc continuation_move (state_of r) (state_of r').

Definition forks (rows : list ContinuationRow) : list string := omap ct_ForkThreadID rows.

Definition link_key (l : LinkedRow) : string * string := (l_ChatKey l, l_SourceThreadID l).

(** The link drives the fork of an active continuation of its source. *)
Definition link_backed (rows : list ContinuationRow) (l : LinkedRow) : Prop :=
  exists r fork, r ∈ rows /\ state_of r = active fork /\ l_LinkedThreadID l = Some fork
    /\ ct_ChatKey r = l_ChatKey l /\ ct_SourceThreadID r = l_SourceThreadID l.

Record rows_ok (rows : list ContinuationRow) : Prop := {
  ro_keys : NoDup (map ct_key rows);
  ro_rows : Forall row_sound rows;
  ro_forks : NoDup (forks rows) }.

Record ContinuationInv (s : Store) : Prop := {
  ci_rows : rows_ok (mt_continuations (db_minimal s));
  ci_links : Forall (link_backed (mt_continuations (db_minimal s))) (db_linked s);
  ci_keys : NoDup (map link_key (db_linked s)) }.

(** The rows stay and follow the automaton; new ones come after them. *)
Definition grows (s s' : Store) : Prop :=
  ContinuationInv s' /\ exists olds news,
    mt_continuations (db_minimal s') = olds ++ news
    /\ Forall2 row_evolves (mt_continuations (db_minimal s)) olds.

Inductive continuation_step : Store -> Store -> Prop :=
| cs_claim now c s a s' : ClaimMinimalContinuation now c s = Ok (a, s') -> continuation_step s s'
| cs_activate now c child s a s' : ActivateMinimalContinuation now c child s = Ok (a, s') -> continuation_step s s'
| cs_fail now c kind s a s' : FailMinimalContinuation now c kind s = Ok (a, s') -> continuation_step s s'
| cs_recover now s a s' : RecoverCreatingMinimalContinuations now s = Ok (a, s') -> continuation_step s s'
| cs_rearm now chatID topicID s a s' :
    RearmAmbiguousMinimalContinuations now chatID topicID s = Ok (a, s') -> continuation_step s s'
| cs_adopt now s a s' : AdoptMinimalLinkedThreads now s = Ok (a, s') -> continuation_step s s'
| cs_link p now link c child s a s' :
    ActivateMinimalLinkedThread p now link c child s = Ok (a, s') -> continuation_step s s'
| cs_worker s s' : link_worker_step s s' ->
    mt_continuations (db_minimal s') = mt_continuations (db_minimal s) -> continuation_step s s'
| cs_other s s' : mt_continuations (db_minimal s') = mt_continuations (db_minimal s) ->
    db_linked s' = db_linked s -> continuation_step s s'.

(** Neither the continuations nor the links change. *)
Definition other_tables (s s' : Store) : Prop :=
  mt_continuations (db_minimal s') = mt_continuations (db_minimal s) /\ db_linked s' = db_linked s.

Definition fork_ready (rows : list ContinuationRow) (r : ContinuationRow) : Prop :=
  r ∈ rows /\ exists fork, fork <> "" /\ state_of r = active fork.

(** A sample: a fork of turn "t1", and a second turn whose fork failed ambiguously. *)
Definition ex_continuation (turn : string) : MinimalContinuation :=
  mkContinuation (mkContinuationKey 7 0 "desk" turn) "p" "" "" "" "" "".

Definition ex_forked : Store :=
  match (tx! _ := ClaimMinimalContinuation "T1" (ex_continuation "t1") in
         tx! _ := ActivateMinimalContinuation "T2" (ex_continuation "t1") (set_th_ID "fork" zeroThread) in
         tx! _ := ClaimMinimalContinuation "T3" (ex_continuation "t2") in
         FailMinimalContinuation "T4" (ex_continuation "t2") "ambiguous") emptyStore with
  | Ok (_, s) => s
  | Err _ => emptyStore
  end.

Definition ex_rearmed : Store :=
  match (tx! _ := RearmAmbiguousMinimalContinuations "T5" 7 0 in AdoptMinimalLinkedThreads "T6") ex_forked with
  | Ok (_, s) => s
  | Err _ => emptyStore
  end.

#[export] Instance continuation_table_laws : TableLaws continuation_table.
Proof. split; intros; [done|done|]. by destruct s as [? ? ? ? ? ? ? ? [] ?]. Qed.

(** ** Lemmas *)
#[local] Arguments update_where : simpl never.
#[local] Arguments affected : simpl never.
#[local] Arguments find_first : simpl never.
#[local] Arguments fork_taken : simpl never.
#[local] Arguments same_link : simpl never.

Lemma ct_key_is_eq k r : ct_key_is k r = true <-> ct_key r = k.
Proof. apply bool_decide_eq_true. Qed.

Lemma row_evolves_refl r : row_evolves r r.
Proof. by split_and!. Qed.

Lemma row_evolves_trans r1 r2 r3 : row_evolves r1 r2 -> row_evolves r2 r3 -> row_evolves r1 r3.
Proof.
  intros (Hk & Hc & Ht & Hm) (Hk' & Hc' & Ht' & Hm'). split_and!; [congruence..|]. by transitivity (state_of r2).
Qed.

Lemma move_sound st st' : continuation_move st st' -> sound_state st -> sound_state st'.
Proof.
  unfold sound_state. intros Hm Hs. destruct Hm as [st|fork Hf|kind Hk| |]; [done|right; left; by exists fork|right; right..|by left].
  - naive_solver.
  - by left.
Qed.

Lemma moves_sound st st' : rtc continuation_move st st' -> sound_state st -> sound_state st'.
Proof. induction 1; [done|]. intros H'. eauto using move_sound. Qed.

Lemma moves_active fork st : rtc continuation_move (active fork) st -> st = active fork.
Proof.
  intros H. remember (active fork) as st0 eqn:E. induction H as [|x y z Hxy _ IH]; [done|].
  subst x. inversion Hxy; subst. by apply IH.
Qed.

Lemma row_evolves_sound r r' : row_evolves r r' -> row_sound r -> row_sound r'.
Proof.
  intros (Hk & Hc & Ht & Hm) [H1 H2]. injection Hk as Hck _ _. split.
  - by rewrite Hck, Hc, Ht.
  - by eapply moves_sound.
Qed.

Lemma Forall2_refl_evolves rows : Forall2 row_evolves rows rows.
Proof. induction rows; constructor; [apply row_evolves_refl|done]. Qed.

Lemma Forall2_evolves_keys rows rows' : Forall2 row_evolves rows rows' -> map ct_key rows' = map ct_key rows.
Proof. induction 1 as [|r r' l l' H _ IH]; [done|]. cbn. by rewrite (proj1 H), IH. Qed.

Lemma rows_ok_evolve rows rows' :
  rows_ok rows -> Forall2 row_evolves rows rows' -> NoDup (forks rows') -> rows_ok rows'.
Proof.
  intros [H1 H2 H3] He Hf. split; [by rewrite (Forall2_evolves_keys _ _ He)| |done].
  clear -He H2. induction He as [|r r' l l' H _ IH]; [constructor|].
  apply Forall_cons in H2 as [Hr Hl]. constructor; [by eapply row_evolves_sound|by apply IH].
Qed.

Lemma link_backed_evolve rows rows' l :
  Forall2 row_evolves rows rows' -> link_backed rows l -> link_backed rows' l.
Proof.
  intros He (r & fork & Hr & Hs & Hl & Hc & Hsrc).
  apply list_elem_of_lookup in Hr as [i Hi]. destruct (Forall2_lookup_l _ _ _ _ _ He Hi) as (r' & Hi' & Hm).
  destruct Hm as (Hk & _ & _ & Hm). rewrite Hs in Hm. apply moves_active in Hm. injection Hk as Hck Hsk _.
  exists r', fork. split_and!; [by eapply list_elem_of_lookup_2|done|done|congruence|congruence].
Qed.

Lemma link_backed_app rows new l : link_backed rows l -> link_backed (rows ++ new) l.
Proof. intros (r & fork & Hr & H). exists r, fork. split; [apply elem_of_app; by left|done]. Qed.

(** The table after an operation: rows evolve, one may be added. *)
Lemma ContinuationInv_evolve s s' :
  ContinuationInv s ->
  Forall2 row_evolves (mt_continuations (db_minimal s)) (mt_continuations (db_minimal s')) ->
  NoDup (forks (mt_continuations (db_minimal s'))) -> db_linked s' = db_linked s -> grows s s'.
Proof.
  intros [H1 H2 H3] He Hf Hl.
  split; [|eexists _, []; split; [by rewrite app_nil_r|exact He]]. split; [by eapply rows_ok_evolve| |by rewrite Hl].
  rewrite Hl. eapply Forall_impl; [exact H2|]. intros l. by apply link_backed_evolve.
Qed.

Lemma ContinuationInv_add s s' r :
  ContinuationInv s -> mt_continuations (db_minimal s') = mt_continuations (db_minimal s) ++ [r] ->
  ct_key r ∉ map ct_key (mt_continuations (db_minimal s)) -> row_sound r ->
  NoDup (forks (mt_continuations (db_minimal s) ++ [r])) -> db_linked s' = db_linked s -> grows s s'.
Proof.
  intros [[H1 H2 H3] H4 H5] Hr Hk Hs Hf Hl.
  split; [|exists (mt_continuations (db_minimal s)), [r]; split; [done|apply Forall2_refl_evolves]].
  split; rewrite ?Hr, ?Hl; [split| |done].
  - rewrite map_app. apply NoDup_app. split_and!; [done| |apply NoDup_singleton].
    intros x Hx Hin. cbn in Hin. apply list_elem_of_singleton in Hin as ->. by apply Hk.
  - apply Forall_app. split; [done|by apply Forall_singleton].
  - done.
  - eapply Forall_impl; [exact H4|]. intros l. apply link_backed_app.
Qed.

Lemma update_evolves (q : ContinuationRow -> bool) f rows :
  (forall r, r ∈ rows -> q r = true -> row_evolves r (f r)) ->
  Forall2 row_evolves rows (update_where q f rows).
Proof.
  unfold update_where. induction rows as [|r rows IH]; intros H; [constructor|]. cbn [map]. constructor.
  - destruct (q r) eqn:E; [apply H; [left|done]|apply row_evolves_refl].
  - apply IH. intros x Hx. apply H. by right.
Qed.

Lemma forks_update (q : ContinuationRow -> bool) f rows :
  (forall r, ct_ForkThreadID (f r) = ct_ForkThreadID r) -> forks (update_where q f rows) = forks rows.
Proof.
  intros H. unfold forks, update_where. induction rows as [|r rows IH]; [done|]. cbn [map omap list_omap].
  rewrite IH. destruct (q r); by rewrite ?H.
Qed.

Lemma forks_app l k : forks (l ++ k) = forks l ++ forks k.
Proof. apply omap_app. Qed.

Lemma elem_of_forks f rows : f ∈ forks rows <-> exists r, r ∈ rows /\ ct_ForkThreadID r = Some f.
Proof. unfold forks. by rewrite list_elem_of_omap. Qed.

(** A row of the table is in one of the four states. *)
Lemma status_state rows r status : rows_ok rows -> r ∈ rows -> ct_is status r = true ->
  sound_state (state_of r) /\ (state_of r).1.1 = status.
Proof.
  intros [_ H _] Hr Hs. rewrite Forall_forall in H. split; [by apply H|]. by apply String.eqb_eq.
Qed.

Lemma creating_state rows r : rows_ok rows -> r ∈ rows -> ct_is MinimalContinuationCreating r = true ->
  state_of r = creating.
Proof.
  intros H Hr Hs. destruct (status_state rows r _ H Hr Hs) as [[->|[(f & _ & Hf)|[Hf|Hf]]] H1]; [done|..];
    rewrite Hf in H1; discriminate H1.
Qed.

Lemma active_state rows r : rows_ok rows -> r ∈ rows -> ct_is MinimalContinuationActive r = true ->
  exists fork, fork <> "" /\ state_of r = active fork.
Proof.
  intros H Hr Hs. destruct (status_state rows r _ H Hr Hs) as [[Hf|[Hf|[Hf|Hf]]] H1]; [|done|..];
    rewrite Hf in H1; discriminate H1.
Qed.

Lemma failed_state rows r kind : rows_ok rows -> r ∈ rows -> ct_is MinimalContinuationFailed r = true ->
  is_text (ct_FailureKind r) kind = true -> state_of r = failed kind.
Proof.
  intros H Hr Hs Hk. destruct (status_state rows r _ H Hr Hs) as [[Hf|[(f & _ & Hf)|[Hf|Hf]]] H1];
    try (rewrite Hf in H1; discriminate H1);
    (unfold state_of, failed in *; injection Hf as Hst Hkind Hfork; rewrite Hkind in Hk;
     apply String.eqb_eq in Hk as <-; congruence).
Qed.

(** A statement that changes the state of the rows it selects along the automaton. *)
Lemma Inv_update s q f :
  ContinuationInv s ->
  (forall r, r ∈ mt_continuations (db_minimal s) -> q r = true -> row_evolves r (f r)) ->
  (forall r, ct_ForkThreadID (f r) = ct_ForkThreadID r) ->
  grows s (with_rows continuation_table (update_where q f (mt_continuations (db_minimal s))) s).
Proof.
  intros HI H Hf. eapply ContinuationInv_evolve; [exact HI| | |done]; cbn.
  - by apply update_evolves.
  - rewrite forks_update by done. apply (ro_forks _ (ci_rows _ HI)).
Qed.

(** The invariant only reads two tables. *)
Lemma Inv_same s s' :
  ContinuationInv s -> mt_continuations (db_minimal s') = mt_continuations (db_minimal s) ->
  db_linked s' = db_linked s -> grows s s'.
Proof.
  intros [H1 H2 H3] E1 E2. split; [split; by rewrite ?E1, ?E2|].
  exists (mt_continuations (db_minimal s)), []. split; [by rewrite app_nil_r|apply Forall2_refl_evolves].
Qed.

Lemma grows_refl s : ContinuationInv s -> grows s s.
Proof. intros HI. by apply Inv_same. Qed.

Lemma grows_trans s1 s2 s3 : grows s1 s2 -> grows s2 s3 -> grows s1 s3.
Proof.
  intros (_ & olds & news & E1 & H1) (HI & olds' & news' & E2 & H2). split; [done|].
  rewrite E1 in H2. apply Forall2_app_inv_l in H2 as (l & k & Hl & _ & ->).
  exists l, (k ++ news'). rewrite E2, <- app_assoc. split; [done|]. clear -H1 Hl.
  revert l Hl. induction H1 as [|x y xs ys Hxy _ IH]; intros l Hl.
  - inversion Hl. constructor.
  - inversion Hl as [|? z ? zs Hyz Hzs]; subst. constructor; [by eapply row_evolves_trans|by apply IH].
Qed.

Lemma upd_evolves r fork status kind now :
  continuation_move (state_of r) (status, kind, fork) -> row_evolves r (upd_continuation fork status kind now r).
Proof. intros H. split_and!; [done..|]. by apply rtc_once. Qed.

Lemma retryable_state rows r : rows_ok rows -> r ∈ rows -> retryable r = true ->
  state_of r = failed MinimalContinuationFailureDefinite.
Proof.
  intros H Hr. unfold retryable. intros [[H1 H2]%andb_prop _]%andb_prop. by eapply failed_state.
Qed.

Lemma state_fork r st : state_of r = st -> ct_ForkThreadID r = st.2.
Proof. by intros <-. Qed.

Lemma normalized_row c seed fork status now :
  normalizeMinimalContinuation c = Ok seed ->
  ct_key (new_continuation seed fork status now) = key_of (mc_Key seed)
  /\ ct_ChatKey (new_continuation seed fork status now)
     = ChatKey (ct_ChatID (new_continuation seed fork status now)) (ct_TopicID (new_continuation seed fork status now)).
Proof. done. Qed.

Lemma no_key rows k : find_first (ct_key_is k) rows = None -> k ∉ map ct_key rows.
Proof.
  intros H Hin. apply list_elem_of_fmap in Hin as (r & -> & Hr).
  rewrite find_first_none in H. specialize (H r Hr). rewrite <- not_true_iff_false in H. apply H.
  by apply ct_key_is_eq.
Qed.

Lemma forks_snoc rows r : forks (rows ++ [r]) = forks rows ++ option_list (ct_ForkThreadID r).
Proof. rewrite forks_app. unfold forks. cbn. by destruct (ct_ForkThreadID r). Qed.

Lemma insert_continuation_inv s row b s' :
  ContinuationInv s -> row_sound row -> ct_ForkThreadID row = None ->
  insert_continuation row s = Ok (b, s') -> grows s s'.
Proof.
  intros HI Hs Hf H. unfold insert_continuation in H. tx_inv H. apply tx_gets_ok in Htx as [-> ->].
  destruct (find_first _ _) eqn:E; [apply tx_ret_ok in H as [_ ->]; by apply grows_refl|].
  tx_inv H. injection Htx as _ <-. apply tx_ret_ok in H as [_ ->].
  eapply (ContinuationInv_add _ _ row); [exact HI|done|by apply no_key|exact Hs| |done].
  rewrite forks_snoc, Hf. cbn. rewrite app_nil_r. apply (ro_forks _ (ci_rows _ HI)).
Qed.

Lemma claim_inv now c s a s' :
  ContinuationInv s -> ClaimMinimalContinuation now c s = Ok (a, s') -> grows s s'.
Proof.
  intros HI H. unfold ClaimMinimalContinuation in H. tx_inv H.
  apply tx_lift_ok in Htx as [Hn ->]. injection Htx0 as <- <-.
  apply tx_gets_ok in Htx2 as [_ ->]. apply tx_ret_ok in H as [_ ->].
  match type of Htx1 with _ ?t = _ => assert (grows s t) as HG end.
  { apply Inv_update; [done| |done]. intros r Hr [_ Hq]%andb_prop.
    pose proof (retryable_state _ _ (ci_rows _ HI) Hr Hq) as Hst. apply upd_evolves.
    rewrite (state_fork _ _ Hst), Hst. apply cm_retry. }
  destruct (_ =? 1)%Z; [apply tx_ret_ok in Htx1 as [_ ->]; exact HG|].
  eapply grows_trans; [exact HG|]. destruct HG as [HI1 _].
  eapply insert_continuation_inv; [exact HI1| | |exact Htx1]; [split; [done|by left]|done].
Qed.

Lemma creating_evolves rows r status kind now :
  rows_ok rows -> r ∈ rows -> ct_is MinimalContinuationCreating r = true ->
  continuation_move creating (status, kind, None) ->
  row_evolves r (upd_continuation (ct_ForkThreadID r) status kind now r).
Proof.
  intros Hok Hr Hc Hm. pose proof (creating_state rows r Hok Hr Hc) as Hst. apply upd_evolves.
  by rewrite (state_fork _ _ Hst), Hst.
Qed.

Lemma fail_inv now c kind s a s' :
  ContinuationInv s -> FailMinimalContinuation now c kind s = Ok (a, s') -> grows s s'.
Proof.
  intros HI H. unfold FailMinimalContinuation in H. tx_inv H. apply tx_lift_ok in Htx as [Hn ->].
  destruct (negb _ && negb _) eqn:Ek; [discriminate H|].
  unfold sql_update_exactly in H. tx_inv H. injection Htx as <- <-.
  destruct (_ =? 1)%Z; [|discriminate H]. apply tx_ret_ok in H as [_ ->].
  apply Inv_update; [done| |done]. intros r Hr [_ Hq]%andb_prop.
  eapply creating_evolves; [exact (ci_rows _ HI)|done|done|]. apply cm_fail.
  apply andb_false_iff in Ek as [E|E]; bsimp; [by left|by right].
Qed.

Lemma recover_inv now s a s' :
  ContinuationInv s -> RecoverCreatingMinimalContinuations now s = Ok (a, s') -> grows s s'.
Proof.
  intros HI H. unfold RecoverCreatingMinimalContinuations in H. tx_inv H.
  apply tx_gets_ok in Htx as [-> ->]. injection Htx0 as _ <-. injection H as _ <-.
  eapply (Inv_update s (ct_is MinimalContinuationCreating)) in HI as HG; [| |].
  - eapply grows_trans; [exact HG|]. eapply Inv_same; [apply HG|reflexivity|done].
  - intros r Hr Hq. eapply creating_evolves; [exact (ci_rows _ HI)|done|done|]. apply cm_fail. by right.
  - done.
Qed.

Lemma rearm_inv now chatID topicID s a s' :
  ContinuationInv s -> RearmAmbiguousMinimalContinuations now chatID topicID s = Ok (a, s') -> grows s s'.
Proof.
  intros HI H. unfold RearmAmbiguousMinimalContinuations in H. destruct (chatID =? 0)%Z; [discriminate H|].
  injection H as _ <-. apply Inv_update; [done| |done].
  intros r Hr [[_ H1]%andb_prop H2]%andb_prop.
  pose proof (failed_state _ _ _ (ci_rows _ HI) Hr H1 H2) as Hst. apply upd_evolves.
  unfold state_of, failed in Hst. injection Hst as -> Hk ->. unfold state_of. rewrite Hk.
  replace (ct_Status r) with MinimalContinuationFailed by (symmetry; by apply String.eqb_eq).
  assert (ct_ForkThreadID r = None) as ->; [|apply cm_rearm].
  pose proof (failed_state _ _ _ (ci_rows _ HI) Hr H1 H2) as Hst. exact (state_fork _ _ Hst).
Qed.

(** *** Activating *)
#[export] Instance other_tables_pre : PreOrder other_tables.
Proof. split; [by split|]. intros s1 s2 s3 [H1 H2] [H3 H4]. split; congruence. Qed.

Lemma upsert_other thread : tx_keeps other_tables (upsertThreadTx thread).
Proof. by apply keeps_modify. Qed.

Lemma bind_other k c t id mode now : tx_keeps other_tables (bind_thread k c t id mode now).
Proof. by apply keeps_modify. Qed.

Lemma rehome_other c t i j target : tx_keeps other_tables (rehome c t i j target).
Proof. by apply keeps_update. Qed.

Lemma Inv_other s s' : other_tables s s' -> ContinuationInv s -> grows s s'.
Proof. intros [H1 H2] HI. by eapply Inv_same. Qed.

Lemma forks_middle l r k : forks (l ++ r :: k) ≡ₚ option_list (ct_ForkThreadID r) ++ forks (l ++ k).
Proof.
  rewrite !forks_app. unfold forks at 2. cbn. destruct (ct_ForkThreadID r); cbn; [|done].
  by rewrite <- Permutation_middle.
Qed.

(** The fork of one creating row. *)
Lemma fork_fresh l r k fork :
  rows_ok (l ++ r :: k) -> fork_taken (ct_key r) fork (l ++ r :: k) = false -> fork ∉ forks (l ++ k).
Proof.
  intros [Hk _ _] Ht (x & Hx & Hf)%elem_of_forks.
  rewrite <- not_true_iff_false in Ht. apply Ht. unfold fork_taken. apply existsb_exists. exists x.
  rewrite map_app, map_cons, NoDup_app, NoDup_cons in Hk. destruct Hk as (_ & Hl & Hk & _).
  split.
  - apply list_elem_of_In. apply elem_of_app in Hx as [Hx|Hx]; apply elem_of_app; [by left|right; by right].
  - rewrite Hf. cbn. rewrite String.eqb_refl, andb_true_r. apply negb_true_iff, not_true_iff_false.
    rewrite ct_key_is_eq. intros E. apply elem_of_app in Hx as [Hx|Hx].
    + apply (Hl (ct_key x)); [by apply list_elem_of_fmap_2|]. rewrite E. left.
    + apply Hk. rewrite <- E. by apply list_elem_of_fmap_2.
Qed.

Lemma Inv_activate s l r k fork now :
  ContinuationInv s -> mt_continuations (db_minimal s) = l ++ r :: k -> fork <> "" ->
  (state_of r = creating \/ state_of r = active fork) ->
  fork_taken (ct_key r) fork (l ++ r :: k) = false ->
  grows s (with_rows continuation_table
    (l ++ upd_continuation (Some fork) MinimalContinuationActive None now r :: k) s).
Proof.
  intros HI Hr Hne Hst Ht. pose proof (ci_rows _ HI) as Hok. rewrite Hr in Hok.
  eapply ContinuationInv_evolve; [exact HI| | |done]; cbn; [rewrite Hr|].
  - apply Forall2_app; [apply Forall2_refl_evolves|]. constructor; [|apply Forall2_refl_evolves].
    apply upd_evolves. destruct Hst as [-> | ->]; [by apply cm_activate|apply cm_same].
  - rewrite forks_middle. cbn. apply NoDup_cons. split; [by apply (fork_fresh l r k)|].
    pose proof (ro_forks _ Hok) as Hf. rewrite forks_middle in Hf. by apply NoDup_app in Hf as (_ & _ & Hf).
Qed.

Lemma activate_inv now c child s a s' :
  ContinuationInv s -> ActivateMinimalContinuation now c child s = Ok (a, s') -> grows s s'.
Proof.
  intros HI H. unfold ActivateMinimalContinuation in H. tx_inv H. apply tx_lift_ok in Htx as [Hn ->].
  destruct (String.eqb _ "") eqn:Ene; [discriminate H|]. tx_inv H.
  pose proof (Inv_other _ _ (upsert_other _ _ _ _ Htx) HI) as HG. apply tx_gets_ok in Htx0 as [-> ->].
  eapply grows_trans; [exact HG|]. destruct HG as [HI0 _]. clear Htx.
  apply update_exactly_one in Htx1 as (l & r & k & Hr & [Hkey Hc]%andb_prop & ->).
  cbn in Hr. apply ct_key_is_eq in Hkey.
  destruct (fork_taken _ _ _) eqn:Et; [discriminate H|]. tx_inv H.
  change (rows_of continuation_table s0) with (mt_continuations (db_minimal s0)) in Et.
  rewrite Hr, <- Hkey in Et.
  assert (state_of r = creating) as Hst.
  { eapply creating_state; [exact (ci_rows _ HI0)| |done]. rewrite Hr. apply elem_of_app. right. left. }
  pose proof (Inv_activate s0 l r k _ now HI0 Hr (proj1 (String.eqb_neq _ _) Ene) (or_introl Hst) Et) as HG.
  eapply grows_trans; [exact HG|]. destruct HG as [HI1 _]. eapply Inv_other; [|exact HI1].
  transitivity s1; [exact (rehome_other _ _ _ _ _ _ _ _ Htx)|exact (bind_other _ _ _ _ _ _ _ _ _ H)].
Qed.

Lemma fork_taken_absent k fork rows : k ∉ map ct_key rows -> fork_taken k fork rows = false -> fork ∉ forks rows.
Proof.
  intros Hk Ht (x & Hx & Hf)%elem_of_forks. rewrite <- not_true_iff_false in Ht. apply Ht.
  unfold fork_taken. apply existsb_exists. exists x. split; [by apply list_elem_of_In|].
  rewrite Hf. cbn. rewrite String.eqb_refl, andb_true_r. apply negb_true_iff, not_true_iff_false.
  rewrite ct_key_is_eq. intros E. apply Hk. rewrite <- E. by apply list_elem_of_fmap_2.
Qed.

Lemma upsert_active_inv row fork now s s' :
  ContinuationInv s -> state_of row = active fork -> fork <> "" -> row_sound row ->
  upsert_active row fork now s = Ok (1%Z, s') ->
  grows s s' /\ exists r, r ∈ mt_continuations (db_minimal s') /\ ct_key r = ct_key row /\ state_of r = active fork.
Proof.
  intros HI Hst Hne Hs H. unfold upsert_active in H. tx_inv H. apply tx_gets_ok in Htx as [-> ->]. cbn in H.
  destruct (find_first _ _) as [r0|] eqn:Ef.
  - unfold tx_bind, sql_update in H.
    set (q := fun r => _ && _) in H.
    destruct ((0 <? affected q _)%Z && _) eqn:Et; [discriminate H|]. injection H as Ha <-.
    destruct (affected_one q (fun x => upd_continuation (Some fork) MinimalContinuationActive None now x) _ Ha)
      as (l & r & k & Hr & Hq & Hu). rewrite Hu. clear Hu. cbn in Hr.
    pose proof (ci_rows _ HI) as Hok.
    assert (r ∈ mt_continuations (db_minimal s)) as Hin by (rewrite Hr; apply elem_of_app; right; left).
    subst q. cbv beta in Hq. apply andb_prop in Hq as [[Hk Hstat]%andb_prop Hfork]. apply ct_key_is_eq in Hk.
    split.
    + eapply Inv_activate; [exact HI|exact Hr|exact Hne| |].
      * apply orb_prop in Hstat as [Hc|Ha']; [left; by eapply creating_state|right].
        destruct (active_state _ _ Hok Hin Ha') as (f & Hf & Hsf). rewrite (state_fork _ _ Hsf) in Hfork.
        cbn in Hfork. rewrite Hsf. f_equal. apply orb_prop in Hfork as [H|H]; apply String.eqb_eq in H; congruence.
      * change (rows_of continuation_table s) with (mt_continuations (db_minimal s)) in Et, Ha.
        rewrite Ha in Et. cbn in Et. by rewrite Hk, <- Hr.
    + eexists. split; [apply elem_of_app; right; left|]. by split.
  - destruct (fork_taken _ _ _) eqn:Et; [discriminate H|]. tx_inv H. injection Htx as _ <-.
    apply tx_ret_ok in H as [_ ->]. pose proof (no_key _ _ Ef) as Hk. split.
    + eapply (ContinuationInv_add s _ row); [exact HI|done|exact Hk|exact Hs| |done].
      rewrite forks_snoc, (state_fork _ _ Hst). cbn. apply NoDup_app.
      split_and!; [apply (ro_forks _ (ci_rows _ HI))| |apply NoDup_singleton].
      intros x Hx ->%list_elem_of_singleton. by apply (fork_taken_absent _ _ _ Hk Et).
    + exists row. split; [cbn; apply elem_of_app; right; left|done].
Qed.

Lemma upsert_active_links row fork now s n s' :
  upsert_active row fork now s = Ok (n, s') -> db_linked s' = db_linked s.
Proof.
  intros H. unfold upsert_active in H. tx_inv H. apply tx_gets_ok in Htx as [-> ->].
  destruct (find_first _ _); tx_inv H.
  - injection Htx as _ <-. destruct (_ && _); [discriminate H|]. by apply tx_ret_ok in H as [_ ->].
  - destruct (fork_taken _ _ _); [discriminate H|]. tx_inv H. injection Htx as _ <-. by apply tx_ret_ok in H as [_ ->].
Qed.

(** *** Linked rows *)
Lemma same_link_eq c t l : same_link c t l = true <-> link_key l = (c, t).
Proof.
  unfold same_link, link_key. rewrite andb_true_iff, !String.eqb_eq. split; [by intros [-> ->]|by intros [= -> ->]].
Qed.

Lemma no_same_link (row : LinkedRow) rows :
  existsb (same_link (l_ChatKey row) (l_SourceThreadID row)) rows = false -> link_key row ∉ map link_key rows.
Proof.
  intros H Hin. apply list_elem_of_fmap in Hin as (x & Hx & Hin). rewrite <- not_true_iff_false in H. apply H.
  apply existsb_exists. exists x. split; [by apply list_elem_of_In|]. by apply same_link_eq.
Qed.

(** Two active rows with one fork are one. *)
Lemma fork_unique rows r1 r2 fork :
  rows_ok rows -> r1 ∈ rows -> r2 ∈ rows -> ct_ForkThreadID r1 = Some fork -> ct_ForkThreadID r2 = Some fork -> r1 = r2.
Proof.
  intros [_ _ H] H1 H2 E1 E2. apply list_elem_of_split in H1 as (l & k & ->).
  rewrite forks_middle, E1 in H. cbn in H. apply NoDup_cons in H as [H _].
  apply elem_of_app in H2 as [H2|[->|H2]%elem_of_cons]; [|done|]; exfalso; apply H, elem_of_forks; exists r2;
    (split; [apply elem_of_app|done]); [by left|by right].
Qed.

Lemma insert_linked_spec s row :
  ContinuationInv s -> link_backed (mt_continuations (db_minimal s)) row ->
  exists b s', insert_linked row s = Ok (b, s') /\ ContinuationInv s'
    /\ mt_continuations (db_minimal s') = mt_continuations (db_minimal s)
    /\ (if b then db_linked s' = db_linked s ++ [row] /\ link_key row ∉ map link_key (db_linked s) else s' = s)
    /\ link_key row ∈ map link_key (db_linked s').
Proof.
  intros HI Hb. unfold insert_linked, tx_bind at 1, tx_gets. cbn.
  destruct (existsb (same_link _ _) _) eqn:Ex.
  - exists false, s. split_and!; [done..|]. apply existsb_exists in Ex as (l & Hl%list_elem_of_In & Hk%same_link_eq).
    apply list_elem_of_fmap. exists l. by split.
  - destruct (negb _ && existsb _ _) eqn:Et.
    + exfalso. apply andb_prop in Et as [_ (l & Hl%list_elem_of_In & Ht)%existsb_exists].
      destruct Hb as (r & fork & Hr & Hst & Hlink & Hc & Hs). rewrite Hlink in Ht. cbn in Ht.
      pose proof (ci_links _ HI) as Hall. rewrite Forall_forall in Hall.
      destruct (Hall l Hl) as (r2 & fork2 & Hr2 & Hst2 & Hlink2 & Hc2 & Hs2).
      unfold is_text in Ht. rewrite Hlink2 in Ht. apply String.eqb_eq in Ht as ->.
      assert (r = r2) as ->.
      { eapply fork_unique; [exact (ci_rows _ HI)|done|done| |];
          [exact (state_fork _ _ Hst)|exact (state_fork _ _ Hst2)]. }
      pose proof (no_same_link _ _ Ex) as Hno. apply Hno. apply list_elem_of_fmap. exists l.
      split; [|done]. unfold link_key. congruence.
    + eexists true, _. split; [reflexivity|]. pose proof (no_same_link _ _ Ex) as Hno. split_and!; [|done..|].
      * destruct HI as [H1 H2 H3]. split; [done| |]; cbn.
        -- apply Forall_app. split; [done|by apply Forall_singleton].
        -- rewrite map_app. apply NoDup_app. split_and!; [done| |apply NoDup_singleton].
           intros x Hx ->%list_elem_of_singleton. done.
      * cbn. rewrite map_app. apply elem_of_app. right. left.
Qed.

Lemma adopted_backed rows now r : fork_ready rows r -> link_backed rows (adopted_link now r).
Proof. intros (Hr & fork & _ & Hst). exists r, fork. split_and!; try done. exact (state_fork _ _ Hst). Qed.

Lemma adopt_all_spec now candidates n s :
  ContinuationInv s -> Forall (fork_ready (mt_continuations (db_minimal s))) candidates ->
  exists new s', adopt_all now candidates n s = Ok ((n + Z.of_nat (length new))%Z, s') /\ ContinuationInv s'
    /\ mt_continuations (db_minimal s') = mt_continuations (db_minimal s)
    /\ db_linked s' = db_linked s ++ map (adopted_link now) new /\ (forall r, r ∈ new -> r ∈ candidates)
    /\ forall r, r ∈ candidates -> (ct_ChatKey r, ct_SourceThreadID r) ∈ map link_key (db_linked s').
Proof.
  revert n s. induction candidates as [|r rest IH]; intros n s HI Hc.
  - exists [], s. split_and!; [cbn; by rewrite Z.add_0_r|done|done|by rewrite app_nil_r|..];
      intros r Hr; by apply elem_of_nil in Hr.
  - apply Forall_cons in Hc as [Hr Hrest].
    destruct (insert_linked_spec s (adopted_link now r) HI (adopted_backed _ now r Hr))
      as (b & s1 & H1 & HI1 & Hc1 & Hl1 & Hk1).
    rewrite <- Hc1 in Hrest.
    destruct (IH (n + boolToInt b)%Z s1 HI1 Hrest) as (new & s2 & H2 & HI2 & Hc2 & Hl2 & Hn2 & Hk2).
    assert (forall x, x ∈ r :: rest -> (ct_ChatKey x, ct_SourceThreadID x) ∈ map link_key (db_linked s2)) as Hall.
    { intros x [->|Hx]%elem_of_cons; [|by apply Hk2]. rewrite Hl2, map_app. apply elem_of_app. by left. }
    exists (if b then r :: new else new), s2. cbn [adopt_all]. rewrite (tx_bind_run _ _ _ _ _ H1), H2.
    destruct b.
    + destruct Hl1 as [Hl1 _]. split_and!; [|done|congruence| |..|exact Hall].
      * f_equal. f_equal. cbn. lia.
      * by rewrite Hl2, Hl1, <- app_assoc.
      * intros x [->|Hx]%elem_of_cons; [left|right; by apply Hn2].
    + subst s1. split_and!; [|done|done|done| |exact Hall].
      * f_equal. f_equal. cbn. lia.
      * intros x Hx. right. by apply Hn2.
Qed.

Lemma first_of_each_sub seen rows r : r ∈ first_of_each seen rows -> r ∈ rows.
Proof.
  revert seen. induction rows as [|x rows IH]; intros seen; cbn; [done|].
  destruct (existsb _ _); [intros H; right; by eapply IH|].
  intros [->|H]%elem_of_cons; [left|right; by eapply IH].
Qed.

(** Every row has a candidate of its key, or its key was seen. *)
Lemma first_of_each_covers rows : forall seen r, r ∈ rows ->
  adoption_key r ∈ seen \/ exists r', r' ∈ first_of_each seen rows /\ adoption_key r' = adoption_key r.
Proof.
  induction rows as [|x rows IH]; intros seen r Hr; [by apply elem_of_nil in Hr|]. cbn.
  destruct (existsb (String.eqb (adoption_key x)) seen) eqn:E.
  - apply elem_of_cons in Hr as [->|Hr]; [|by apply IH]. left.
    apply existsb_exists in E as (k & Hk%list_elem_of_In & ->%String.eqb_eq). done.
  - apply elem_of_cons in Hr as [->|Hr]; [right; exists x; split; [left|done]|].
    destruct (IH (adoption_key x :: seen) r Hr) as [[Hk|Hk]%elem_of_cons|(r' & Hr' & Hk)].
    + right. exists x. split; [left|done].
    + by left.
    + right. exists r'. split; [by right|done].
Qed.

Lemma adoption_key_inj r1 r2 : row_sound r1 -> row_sound r2 -> adoption_key r1 = adoption_key r2 ->
  ct_ChatKey r1 = ct_ChatKey r2 /\ ct_SourceThreadID r1 = ct_SourceThreadID r2.
Proof.
  intros [H1 _] [H2 _]. apply cut_byte_inj; [rewrite H1|rewrite H2]; unfold ChatKey;
    rewrite !has_byte_app, !format_int_byte; done.
Qed.

Lemma adoptable_ready s r : ContinuationInv s -> r ∈ mt_continuations (db_minimal s) -> adoptable s r = true ->
  fork_ready (mt_continuations (db_minimal s)) r.
Proof.
  intros HI Hr [[Ha _]%andb_prop _]%andb_prop. split; [done|]. by apply (active_state _ _ (ci_rows _ HI)).
Qed.

Lemma candidates_ready s : ContinuationInv s -> Forall (fork_ready (mt_continuations (db_minimal s))) (adoption_candidates s).
Proof.
  intros HI. apply Forall_forall. intros r [Hr Ha]%first_of_each_sub%elem_of_sort_by%elem_of_filter_bool.
  by apply adoptable_ready.
Qed.

Lemma normalized_fields link id n : normalizeMinimalLinkedActivation link id = Ok n ->
  lt_LinkedThreadID n <> "" /\ lt_ChatKey n = ChatKey (lt_ChatID link) (lt_TopicID link)
  /\ lt_ChatID n = lt_ChatID link /\ lt_TopicID n = lt_TopicID link /\ lt_LinkedThreadID n = trim_space id
  /\ lt_SourceThreadID n = trim_space (lt_SourceThreadID link)
  /\ lt_SourceAnchorTurnID n = trim_space (lt_SourceAnchorTurnID link)
  /\ lt_State n = MinimalLinkedTelegramRunning
  /\ lt_SourceTitle n = lt_SourceTitle link /\ lt_DesiredTitle n = lt_DesiredTitle link.
Proof.
  unfold normalizeMinimalLinkedActivation. intros H. destruct (_ || _) eqn:E; [discriminate H|].
  apply orb_false_elim in E as [_ E]. apply String.eqb_neq in E.
  destruct (negb _ && _); [discriminate H|]. destruct (negb (minimalLinkedTitleStateValid _)); [discriminate H|].
  destruct (negb _) eqn:Es; [discriminate H|]. apply negb_false_iff, String.eqb_eq in Es.
  injection H as <-. by split_and!.
Qed.

Lemma normalized_link link id n : normalizeMinimalLinkedActivation link id = Ok n ->
  lt_LinkedThreadID n <> "" /\ lt_ChatKey n = ChatKey (lt_ChatID n) (lt_TopicID n).
Proof. intros H. by destruct (normalized_fields _ _ _ H) as (H1 & -> & -> & -> & _). Qed.

Lemma provenance_eq seed link : provenance_matches seed link = true ->
  ck_ChatID (mc_Key seed) = lt_ChatID link /\ ck_TopicID (mc_Key seed) = lt_TopicID link
  /\ ck_SourceThreadID (mc_Key seed) = lt_SourceThreadID link.
Proof. unfold provenance_matches. intros H. by bsimp. Qed.

(** What an activation that commits has done. *)
Lemma link_run p now link c child s a s' :
  ContinuationInv s -> ActivateMinimalLinkedThread p now link c child s = Ok (a, s') ->
  exists n sourceTitle desiredTitle generation s1 s2 s3,
    normalizeMinimalLinkedActivation link (trim_space (th_ID child)) = Ok n
    /\ protectMinimalLinkedTitle p (lt_SourceTitle n) = Ok sourceTitle
    /\ protectMinimalLinkedTitle p (lt_DesiredTitle n) = Ok desiredTitle
    /\ grows s s1 /\ db_linked s1 = db_linked s
    /\ (exists r, r ∈ mt_continuations (db_minimal s1) /\ ct_ChatKey r = lt_ChatKey n
         /\ ct_SourceThreadID r = lt_SourceThreadID n /\ state_of r = active (lt_LinkedThreadID n))
    /\ (exists changed, rehome (lt_ChatID n) (lt_TopicID n) (lt_SourceThreadID n) (lt_SourceAnchorTurnID n)
                          (lt_LinkedThreadID n) s1 = Ok (changed, s2))
    /\ bind_thread (lt_ChatKey n) (lt_ChatID n) (lt_TopicID n) (lt_LinkedThreadID n) BindingModeBound now s2 = Ok (tt, s3)
    /\ insert_linked (activated_link n sourceTitle desiredTitle generation now) s3 = Ok (true, s').
Proof.
  intros HI H. unfold ActivateMinimalLinkedThread in H.
  destruct (String.eqb _ "") eqn:Ene; [discriminate H|]. tx_inv H.
  apply tx_lift_ok in Htx as [Hn ->]. apply tx_lift_ok in Htx0 as [Hseed ->].
  destruct (negb _) eqn:Em; [discriminate H|]. tx_inv H.
  apply tx_lift_ok in Htx as [Hst ->]. apply tx_lift_ok in Htx0 as [Hdt ->]. apply tx_lift_ok in Htx1 as [_ ->].
  pose proof (Inv_other _ _ (upsert_other _ _ _ _ Htx2) HI) as HG0. pose proof (proj1 HG0) as HI3.
  destruct (Z.eqb_spec a6 1) as [->|]; [|discriminate H]. cbn [negb] in H. tx_inv H.
  apply negb_false_iff, provenance_eq in Em as (Ec & Et & Es).
  destruct (normalized_link _ _ _ Hn) as [Hne Hck].
  assert (row_sound (new_continuation a1 (Some (lt_LinkedThreadID a0)) MinimalContinuationActive now)) as Hsound
    by (split; [done|right; left; by eexists]).
  destruct (upsert_active_inv (new_continuation a1 (Some (lt_LinkedThreadID a0)) MinimalContinuationActive now)
              _ now s3 s4 HI3 eq_refl Hne Hsound Htx3) as (HG & r & Hr & Hk & Hstate).
  destruct a8; [|discriminate H]. apply tx_ret_ok in H as [_ ->].
  exists a0, a2, a3, a4, s4, s0, s1. split_and!;
    [exact Hn|done|done|by eapply grows_trans| | |by eexists|by destruct a7|done].
  { rewrite (upsert_active_links _ _ _ _ _ _ Htx3). apply (upsert_other _ _ _ _ Htx2). }
  injection Hk as Hck' Hs' _. exists r. split_and!; [done|cbn in *; congruence|cbn in *; congruence|done].
Qed.

Lemma link_inv p now link c child s a s' :
  ContinuationInv s -> ActivateMinimalLinkedThread p now link c child s = Ok (a, s') -> grows s s'.
Proof.
  intros HI H.
  destruct (link_run _ _ _ _ _ _ _ _ HI H) as (n & st & dt & g & s1 & s2 & s3 & _ & _ & _ & HG & _ & (r & Hr & Hck & Hs & Hst)
    & (changed & H1) & H2 & H3).
  eapply grows_trans; [exact HG|]. destruct HG as [HI1 _].
  assert (other_tables s1 s3) as Ho
    by (transitivity s2; [exact (rehome_other _ _ _ _ _ _ _ _ H1)|exact (bind_other _ _ _ _ _ _ _ _ _ H2)]).
  pose proof (Inv_other _ _ Ho HI1) as HG.
  eapply grows_trans; [exact HG|]. destruct HG as [HI3 _]. destruct Ho as [Ho _].
  destruct (insert_linked_spec s3 (activated_link n st dt g now) HI3) as (b & s5 & H5 & HG).
  { exists r, (lt_LinkedThreadID n). rewrite Ho. split_and!; done. }
  rewrite H3 in H5. injection H5 as <- <-.
  destruct HG as (HI5 & Hc5 & _). split; [done|]. exists (mt_continuations (db_minimal s3)), [].
  split; [by rewrite app_nil_r|apply Forall2_refl_evolves].
Qed.

Lemma row_moves_links l l' : Forall2 row_move l l' -> map link_key l' = map link_key l.
Proof.
  induction 1 as [|r r' l l' [H _] _ IH]; [done|]. cbn. injection H as H1 H2 _. unfold link_key at 1 3.
  by rewrite IH, H1, H2.
Qed.

Lemma worker_inv s s' :
  ContinuationInv s -> link_worker_step s s' ->
  mt_continuations (db_minimal s') = mt_continuations (db_minimal s) -> grows s s'.
Proof.
  intros [H1 H2 H3] Hstep Hc. pose proof (link_worker_moves s s' Hstep) as Hm.
  split; [|exists (mt_continuations (db_minimal s)), []; split; [by rewrite app_nil_r|apply Forall2_refl_evolves]].
  split; [by rewrite Hc| |by rewrite (row_moves_links _ _ Hm)]. rewrite Hc.
  clear -Hm H2. induction Hm as [|r r' l l' [H _] _ IH]; [done|].
  apply Forall_cons in H2 as [Hr Hl]. constructor; [|by apply IH].
  destruct Hr as (c & fork & Hc & Hst & Hlink & Hck & Hs). injection H as E1 E2 E3.
  exists c, fork. split_and!; congruence.
Qed.

Lemma adopt_inv now s a s' :
  ContinuationInv s -> AdoptMinimalLinkedThreads now s = Ok (a, s') -> grows s s'.
Proof.
  intros HI H. unfold AdoptMinimalLinkedThreads in H. tx_inv H. apply tx_gets_ok in Htx as [-> ->].
  destruct (adopt_all_spec now _ 0 s HI (candidates_ready s HI)) as (new & s1 & H1 & HI1 & Hc & _).
  rewrite H in H1. injection H1 as _ ->. split; [done|].
  exists (mt_continuations (db_minimal s)), []. split; [by rewrite app_nil_r|apply Forall2_refl_evolves].
Qed.

Lemma continuation_step_grows s s' : ContinuationInv s -> continuation_step s s' -> grows s s'.
Proof.
  intros HI H. destruct H as [? ? ? ? ? H|? ? ? ? ? ? H|? ? ? ? ? ? H|? ? ? ? H|? ? ? ? ? ? H|? ? ? ? H
                             |? ? ? ? ? ? ? ? H|? ? H Hc|? ? Hc Hl].
  - by eapply claim_inv.
  - by eapply activate_inv.
  - by eapply fail_inv.
  - by eapply recover_inv.
  - by eapply rearm_inv.
  - by eapply adopt_inv.
  - by eapply link_inv.
  - by eapply worker_inv.
  - by eapply Inv_same.
Qed.

Lemma continuation_steps_grow s s' : ContinuationInv s -> rtc continuation_step s s' -> grows s s'.
Proof.
  intros HI H. induction H as [s|s s1 s2 H _ IH]; [by apply grows_refl|].
  pose proof (continuation_step_grows s s1 HI H) as HG. eapply grows_trans; [exact HG|]. apply IH, HG.
Qed.

Lemma ContinuationInv_empty : ContinuationInv emptyStore.
Proof. split; [split|..]; cbn; constructor. Qed.

Lemma ex_forked_steps : rtc continuation_step emptyStore ex_forked.
Proof.
  eapply rtc_l; [eapply (cs_claim "T1" (ex_continuation "t1")); vm_compute; reflexivity|].
  eapply rtc_l; [eapply (cs_activate "T2" (ex_continuation "t1") (set_th_ID "fork" zeroThread)); vm_compute; reflexivity|].
  eapply rtc_l; [eapply (cs_claim "T3" (ex_continuation "t2")); vm_compute; reflexivity|].
  eapply rtc_l; [eapply (cs_fail "T4" (ex_continuation "t2") "ambiguous"); vm_compute; reflexivity|].
  apply rtc_refl.
Qed.

Lemma ex_rearmed_steps : rtc continuation_step ex_forked ex_rearmed.
Proof.
  eapply rtc_l; [eapply (cs_rearm "T5" 7 0); vm_compute; reflexivity|].
  eapply rtc_l; [eapply (cs_adopt "T6"); vm_compute; reflexivity|].
  apply rtc_refl.
Qed.

Lemma ex_forked_inv : ContinuationInv ex_forked.
Proof. exact (proj1 (continuation_steps_grow _ _ ContinuationInv_empty ex_forked_steps)). Qed.

Lemma find_key rows k r : NoDup (map ct_key rows) -> r ∈ rows -> ct_key r = k ->
  find_first (ct_key_is k) rows = Some r.
Proof.
  intros Hnd Hr Hk. destruct (find_first (ct_key_is k) rows) as [x|] eqn:E.
  - apply find_first_some in E as [Hx Hxk%ct_key_is_eq]. f_equal.
    apply list_elem_of_lookup in Hx as [i Hi], Hr as [j Hj].
    assert (i = j) as ->; [|congruence].
    eapply NoDup_lookup; [exact Hnd|by rewrite list_lookup_fmap, Hi|rewrite list_lookup_fmap, Hj; cbn; congruence].
  - rewrite find_first_none in E. specialize (E r Hr). rewrite (proj2 (ct_key_is_eq k r) Hk) in E. discriminate E.
Qed.

Lemma claim_run now c seed s :
  normalizeMinimalContinuation c = Ok seed ->
  ClaimMinimalContinuation now c s =
  tx_bind (sql_update continuation_table
             (fun r => ct_key_is (key_of (mc_Key seed)) r && retryable r)
             (fun r => upd_continuation (ct_ForkThreadID r) MinimalContinuationCreating None now r))
    (fun changed => tx_bind
       (if (changed =? 1)%Z then tx_ret true
        else insert_continuation (new_continuation seed None MinimalContinuationCreating now))
       (fun created => fun s' => Ok ((getMinimalContinuationTx (mc_Key seed) s', created), s'))) s.
Proof. intros H. unfold ClaimMinimalContinuation. by rewrite H. Qed.

Lemma claim_new now c seed s :
  ContinuationInv s -> normalizeMinimalContinuation c = Ok seed ->
  find_first (ct_key_is (key_of (mc_Key seed))) (mt_continuations (db_minimal s)) = None ->
  let row := new_continuation seed None MinimalContinuationCreating now in
  exists s', ClaimMinimalContinuation now c s = Ok ((Some (continuation_of row), true), s')
    /\ mt_continuations (db_minimal s') = mt_continuations (db_minimal s) ++ [row].
Proof.
  intros HI Hseed Ef row. rewrite (claim_run _ _ _ _ Hseed).
  set (q := fun r => ct_key_is _ r && retryable r). set (f := fun r => upd_continuation _ _ _ _ r).
  assert (forall x, x ∈ rows_of continuation_table s -> q x = false) as Hq.
  { rewrite find_first_none in Ef. intros x Hx. unfold q. by rewrite (Ef x Hx). }
  unfold tx_bind at 1, sql_update. rewrite (proj2 (affected_zero q _) Hq), (update_none q f _ Hq), with_same.
  unfold insert_continuation, tx_bind, sql_first, tx_gets, tx_ret. cbn [Z.eqb].
  change (ct_key (new_continuation _ _ _ _)) with (key_of (mc_Key seed)).
  change (rows_of continuation_table s) with (mt_continuations (db_minimal s)). rewrite Ef.
  unfold sql_insert, tx_modify, getMinimalContinuationTx. fold row. cbn.
  rewrite (find_key _ _ row); [by eexists| |apply elem_of_app; right; left|done].
  rewrite map_app. apply NoDup_app. split_and!; [exact (ro_keys _ (ci_rows _ HI))| |apply NoDup_singleton].
  intros x Hx ->%list_elem_of_singleton. by apply (no_key _ _ Ef).
Qed.

(** The claimed row, when there is one. *)
Lemma claim_there seed s r :
  ContinuationInv s ->
  find_first (ct_key_is (key_of (mc_Key seed))) (mt_continuations (db_minimal s)) = Some r ->
  let q := fun x => ct_key_is (key_of (mc_Key seed)) x && retryable x in
  exists l k, mt_continuations (db_minimal s) = l ++ r :: k /\ ct_key r = key_of (mc_Key seed)
    /\ NoDup (map ct_key (l ++ r :: k)) /\ q r = retryable r
    /\ forall f, update_where q f (mt_continuations (db_minimal s)) = l ++ (if q r then f r else r) :: k
       /\ affected q (mt_continuations (db_minimal s)) = (if q r then 1 else 0)%Z.
Proof.
  intros HI Ef q. destruct (find_first_split _ _ _ Ef) as (l & k & Hr & Hk%ct_key_is_eq & _).
  pose proof (ro_keys _ (ci_rows _ HI)) as Hnd. rewrite Hr in Hnd. exists l, k. split_and!; [done..| |].
  - unfold q. by rewrite (proj2 (ct_key_is_eq _ r) Hk).
  - intros f. rewrite Hr. apply (update_keyed ct_key); [exact Hnd|].
    intros x [Hx%ct_key_is_eq _]%andb_prop. congruence.
Qed.

Lemma claim_retry now c seed s r :
  ContinuationInv s -> normalizeMinimalContinuation c = Ok seed ->
  find_first (ct_key_is (key_of (mc_Key seed))) (mt_continuations (db_minimal s)) = Some r ->
  state_of r = failed MinimalContinuationFailureDefinite ->
  exists r' s', ClaimMinimalContinuation now c s = Ok ((Some (continuation_of r'), true), s')
    /\ find_first (ct_key_is (key_of (mc_Key seed))) (mt_continuations (db_minimal s')) = Some r'
    /\ ct_key r' = key_of (mc_Key seed) /\ state_of r' = creating.
Proof.
  intros HI Hseed Ef Hst. rewrite (claim_run _ _ _ _ Hseed).
  destruct (claim_there seed s r HI Ef) as (l & k & Hr & Hk & Hnd & Hq & Hupd).
  set (f := fun r => upd_continuation _ _ _ _ r). destruct (Hupd f) as [Hu Ha].
  assert (retryable r = true) as Hret by (unfold retryable, ct_is; unfold state_of, failed in Hst; by injection Hst as -> -> ->).
  rewrite Hq, Hret in Hu, Ha.
  assert (find_first (ct_key_is (key_of (mc_Key seed))) (l ++ f r :: k) = Some (f r)) as Hfind.
  { apply find_key; [|apply elem_of_app; right; left|done]. rewrite map_app, map_cons in Hnd |- *. exact Hnd. }
  unfold tx_bind at 1, sql_update. change (rows_of continuation_table s) with (mt_continuations (db_minimal s)).
  rewrite Hu, Ha. unfold tx_bind, tx_ret, getMinimalContinuationTx. cbn. rewrite Hfind.
  exists (f r). eexists. split_and!; [reflexivity|exact Hfind|done|].
  unfold state_of. cbn. by rewrite (state_fork _ _ Hst).
Qed.

Lemma claim_refused now c seed s r :
  ContinuationInv s -> normalizeMinimalContinuation c = Ok seed ->
  find_first (ct_key_is (key_of (mc_Key seed))) (mt_continuations (db_minimal s)) = Some r ->
  state_of r <> failed MinimalContinuationFailureDefinite ->
  ClaimMinimalContinuation now c s = Ok ((Some (continuation_of r), false), s).
Proof.
  intros HI Hseed Ef Hst. rewrite (claim_run _ _ _ _ Hseed).
  destruct (claim_there seed s r HI Ef) as (l & k & Hr & Hk & Hnd & Hq & Hupd).
  set (f := fun r => upd_continuation _ _ _ _ r). destruct (Hupd f) as [Hu Ha].
  assert (retryable r = false) as Hret.
  { apply not_true_iff_false. intros H. apply Hst. eapply retryable_state; [exact (ci_rows _ HI)| |done].
    rewrite Hr. apply elem_of_app. right. left. }
  rewrite Hq, Hret in Hu, Ha. rewrite <- Hr in Hu.
  unfold tx_bind at 1, sql_update. change (rows_of continuation_table s) with (mt_continuations (db_minimal s)).
  rewrite Hu, Ha. change (mt_continuations (db_minimal s)) with (rows_of continuation_table s). rewrite with_same.
  unfold insert_continuation, tx_bind, sql_first, tx_gets, tx_ret, getMinimalContinuationTx. cbn [Z.eqb].
  change (ct_key (new_continuation _ _ _ _)) with (key_of (mc_Key seed)).
  change (rows_of continuation_table s) with (mt_continuations (db_minimal s)). rewrite Ef. cbn. by rewrite Ef.
Qed.

(** After an adoption every active fork is linked. *)
Lemma adopted_covers s s' new now r fork :
  ContinuationInv s -> db_linked s' = db_linked s ++ map (adopted_link now) new ->
  (forall x, x ∈ adoption_candidates s -> (ct_ChatKey x, ct_SourceThreadID x) ∈ map link_key (db_linked s')) ->
  r ∈ mt_continuations (db_minimal s) -> state_of r = active fork ->
  exists l, l ∈ db_linked s' /\ link_key l = (ct_ChatKey r, ct_SourceThreadID r).
Proof.
  intros HI Hl Hk Hr Hst. destruct (adoptable s r) eqn:Ea.
  - assert (r ∈ sort_by (adoption_order s) (filter (adoptable s) (rows_of continuation_table s))) as Hin
      by (apply elem_of_sort_by, elem_of_filter_bool; by split).
    destruct (first_of_each_covers _ [] r Hin) as [H|(r' & Hr' & Hkey)]; [by apply elem_of_nil in H|].
    pose proof (ro_rows _ (ci_rows _ HI)) as Hs. rewrite Forall_forall in Hs.
    destruct (adoption_key_inj r' r) as [H1 H2]; [|by apply Hs|exact Hkey|].
    + apply first_of_each_sub, elem_of_sort_by, elem_of_filter_bool in Hr' as [Hr' _]. by apply Hs.
    + specialize (Hk r' Hr'). rewrite H1, H2 in Hk. apply list_elem_of_fmap in Hk as (l & Hlk & Hin').
      by exists l.
  - unfold adoptable in Ea. assert (ct_is MinimalContinuationActive r && negb (is_blank (ct_ForkThreadID r)) = true) as Hx.
    { pose proof (ro_rows _ (ci_rows _ HI)) as Hs. rewrite Forall_forall in Hs. destruct (Hs r Hr) as [_ Hsound].
      rewrite Hst in Hsound. unfold state_of, active in Hst. injection Hst as Hstat _ Hf. unfold ct_is, is_blank. rewrite Hstat, Hf.
      destruct Hsound as [H|[(f & Hne & H)|[H|H]]]; try discriminate H. injection H as ->.
      cbn. by apply negb_true_iff, String.eqb_neq. }
    rewrite Hx in Ea. cbn in Ea. apply negb_false_iff, existsb_exists in Ea as (l & Hin%list_elem_of_In & Hlk%same_link_eq).
    exists l. split; [|exact Hlk]. rewrite Hl. apply elem_of_app. by left.
Qed.

Lemma nothing_adoptable s : ContinuationInv s ->
  (forall r fork, r ∈ mt_continuations (db_minimal s) -> state_of r = active fork ->
     exists l, l ∈ db_linked s /\ link_key l = (ct_ChatKey r, ct_SourceThreadID r)) ->
  adoption_candidates s = [].
Proof.
  intros HI Hall. unfold adoption_candidates. rewrite filter_none; [done|].
  intros r Hr Ha%Is_true_true. destruct (adoptable_ready s r HI Hr Ha) as (_ & fork & _ & Hst).
  destruct (Hall r fork Hr Hst) as (l & Hl & Hk). unfold adoptable in Ha. apply andb_prop in Ha as [_ Ha].
  apply negb_true_iff in Ha. rewrite <- not_true_iff_false in Ha. apply Ha. apply existsb_exists.
  exists l. split; [by apply list_elem_of_In|]. by apply same_link_eq.
Qed.

(** The fork of an active row leads back to it. *)
Lemma by_fork_finds s r fork :
  ContinuationInv s -> r ∈ mt_continuations (db_minimal s) -> state_of r = active fork -> trim_space fork = fork ->
  fork <> "" -> exists k, ActiveMinimalContinuationByFork fork s = Some k /\ mc_ForkThreadID k = fork
    /\ ck_SourceThreadID (mc_Key k) = ct_SourceThreadID r.
Proof.
  intros HI Hr Hst Ht Hne. unfold ActiveMinimalContinuationByFork. rewrite Ht.
  rewrite (proj2 (String.eqb_neq fork "") Hne). unfold latest_active.
  set (le := fun a b => text_le _ _). set (q := fun x => is_text (ct_ForkThreadID x) fork && ct_is MinimalContinuationActive x).
  change (rows_of continuation_table s) with (mt_continuations (db_minimal s)).
  assert (forall x, x ∈ sort_by le (filter q (mt_continuations (db_minimal s))) -> x = r) as Hall.
  { intros x [Hx [Hf _]%andb_prop]%elem_of_sort_by%elem_of_filter_bool. unfold is_text in Hf.
    destruct (ct_ForkThreadID x) as [f|] eqn:Ef; [|discriminate Hf]. apply String.eqb_eq in Hf as ->.
    eapply fork_unique; [exact (ci_rows _ HI)|done|done|done|exact (state_fork _ _ Hst)]. }
  assert (r ∈ sort_by le (filter q (mt_continuations (db_minimal s)))) as Hin.
  { apply elem_of_sort_by, elem_of_filter_bool. split; [done|]. unfold q, ct_is.
    unfold state_of, active in Hst. injection Hst as -> _ ->. cbn. by rewrite String.eqb_refl. }
  destruct (sort_by _ _) as [|x rest]; [by apply elem_of_nil in Hin|].
  rewrite (Hall x ltac:(left)). cbn. eexists. split; [done|]. cbn. by rewrite (state_fork _ _ Hst).
Qed.

Lemma insert_linked_true row s s' : insert_linked row s = Ok (true, s') -> s' = with_rows linked_table (db_linked s ++ [row]) s.
Proof.
  intros H. unfold insert_linked in H. tx_inv H. apply tx_gets_ok in Htx as [-> ->].
  destruct (existsb _ _); [by apply tx_ret_ok in H as [H _]|]. destruct (_ && _); [discriminate H|].
  tx_inv H. injection Htx as _ <-. by apply tx_ret_ok in H as [_ ->].
Qed.

(** Rehoming moves every open command of the source. *)
Lemma rehome_moves c t i j target s n s' r :
  rehome c t i j target s = Ok (n, s') -> r ∈ mt_pending (db_minimal s') -> pc_open r = true ->
  pc_from c t i j r = true -> pc_ThreadID r = target.
Proof.
  intros H Hr Ho Hf. injection H as _ <-. cbn in Hr. apply elem_of_update in Hr as (x & Hx & ->).
  destruct (pc_from c t i j x && pc_open x) eqn:E; [done|].
  by rewrite Hf, Ho in E.
Qed.

(** ** Theorems *)

(** C17: Whatever the router, the workers and a restart do, no continuation is lost, each
    follows its automaton, and once a turn is forked the fork is its own for ever. *)
Theorem continuation_history s s' r :
  ContinuationInv s -> rtc continuation_step s s' -> r ∈ mt_continuations (db_minimal s) ->
  exists r', r' ∈ mt_continuations (db_minimal s') /\ ct_key r' = ct_key r
    /\ rtc continuation_move (state_of r) (state_of r')
    /\ forall fork, state_of r = active fork ->
         state_of r' = active fork
         /\ forall x, x ∈ mt_continuations (db_minimal s') -> ct_ForkThreadID x = Some fork -> x = r'.
Proof.
  intros HI H Hr. destruct (continuation_steps_grow s s' HI H) as (HI' & olds & news & E & He).
  apply list_elem_of_lookup in Hr as [i Hi]. destruct (Forall2_lookup_l _ _ _ _ _ He Hi) as (r' & Hi' & Hk & _ & _ & Hm).
  assert (r' ∈ mt_continuations (db_minimal s')) as Hr'
    by (rewrite E; apply elem_of_app; left; by eapply list_elem_of_lookup_2).
  exists r'. split_and!; [done|done|done|]. intros fork Hst. rewrite Hst in Hm. apply moves_active in Hm. split; [done|].
  intros x Hx Hf. eapply fork_unique; [exact (ci_rows _ HI')|done|done|exact Hf|exact (state_fork _ _ Hm)].
Qed.

Theorem continuation_history_witness :
  exists r', r' ∈ mt_continuations (db_minimal ex_rearmed) /\ state_of r' = active "fork".
Proof.
  destruct (mt_continuations (db_minimal ex_forked)) as [|r rest] eqn:E; [vm_compute in E; discriminate E|].
  destruct (continuation_history ex_forked ex_rearmed r ex_forked_inv ex_rearmed_steps) as (r' & Hr' & _ & _ & Hf).
  - rewrite E. left.
  - exists r'. split; [exact Hr'|]. apply (Hf "fork"). vm_compute in E. injection E as <- _. reflexivity.
Defined.

(** A claim creates the continuation of a new turn, takes up one that failed
    definitely, and otherwise (being created, forked, or failed ambiguously) answers
    the row that is there and changes nothing. *)
Theorem ClaimMinimalContinuation_spec now c seed s :
  ContinuationInv s -> normalizeMinimalContinuation c = Ok seed ->
  let key := key_of (mc_Key seed) in
  match find_first (ct_key_is key) (mt_continuations (db_minimal s)) with
  | None => exists s', ClaimMinimalContinuation now c s
        = Ok ((Some (continuation_of (new_continuation seed None MinimalContinuationCreating now)), true), s')
      /\ mt_continuations (db_minimal s')
         = mt_continuations (db_minimal s) ++ [new_continuation seed None MinimalContinuationCreating now]
  | Some r =>
      if decide (state_of r = failed MinimalContinuationFailureDefinite) then
        exists r' s', ClaimMinimalContinuation now c s = Ok ((Some (continuation_of r'), true), s')
          /\ find_first (ct_key_is key) (mt_continuations (db_minimal s')) = Some r'
          /\ ct_key r' = key /\ state_of r' = creating
      else ClaimMinimalContinuation now c s = Ok ((Some (continuation_of r), false), s)
  end.
Proof.
  intros HI Hseed key. destruct (find_first _ _) as [r|] eqn:Ef.
  - destruct (decide _) as [Hst|Hst]; [by eapply claim_retry|by eapply claim_refused].
  - by apply claim_new.
Qed.

Theorem ClaimMinimalContinuation_spec_witness :
  (exists s', ClaimMinimalContinuation "T7" (ex_continuation "t3") ex_forked
     = Ok ((Some (mkContinuation (mkContinuationKey 7 0 "desk" "t3") "p" "" "creating" "" "T7" "T7"), true), s'))
  /\ (exists row, ClaimMinimalContinuation "T7" (ex_continuation "t2") ex_forked = Ok ((Some row, false), ex_forked)
        /\ mc_FailureKind row = "ambiguous")
  /\ (exists row, ClaimMinimalContinuation "T7" (ex_continuation "t1") ex_forked = Ok ((Some row, false), ex_forked)
        /\ mc_ForkThreadID row = "fork").
Proof.
  split_and!.
  - destruct (ClaimMinimalContinuation_spec "T7" (ex_continuation "t3") (ex_continuation "t3") ex_forked
                ex_forked_inv eq_refl) as (s' & H & _). exists s'. exact H.
  - eexists. split; [exact (ClaimMinimalContinuation_spec "T7" (ex_continuation "t2") (ex_continuation "t2") ex_forked
                ex_forked_inv eq_refl)|reflexivity].
  - eexists. split; [exact (ClaimMinimalContinuation_spec "T7" (ex_continuation "t1") (ex_continuation "t1") ex_forked
                ex_forked_inv eq_refl)|reflexivity].
Defined.

(** Adoption never fails.  It keeps every link, adds ready ones without a worker, and
    then every active fork has a link for its source; adopting again adds nothing. *)
Theorem AdoptMinimalLinkedThreads_spec now now' s :
  ContinuationInv s ->
  exists new s', AdoptMinimalLinkedThreads now s = Ok (Z.of_nat (length new), s')
    /\ db_linked s' = db_linked s ++ map (adopted_link now) new
    /\ Forall (fork_ready (mt_continuations (db_minimal s))) new
    /\ (forall r fork, r ∈ mt_continuations (db_minimal s') -> state_of r = active fork ->
          exists l, l ∈ db_linked s' /\ link_key l = (ct_ChatKey r, ct_SourceThreadID r))
    /\ AdoptMinimalLinkedThreads now' s' = Ok (0%Z, s').
Proof.
  intros HI. pose proof (candidates_ready s HI) as Hready.
  destruct (adopt_all_spec now _ 0 s HI Hready) as (new & s' & H1 & HI' & Hc & Hl & Hnew & Hk).
  assert (forall r fork, r ∈ mt_continuations (db_minimal s') -> state_of r = active fork ->
            exists l, l ∈ db_linked s' /\ link_key l = (ct_ChatKey r, ct_SourceThreadID r)) as Hall.
  { intros r fork Hr Hst. rewrite Hc in Hr. eapply adopted_covers; [exact HI|exact Hl|exact Hk|exact Hr|exact Hst]. }
  exists new, s'. split_and!; [exact H1|exact Hl| |exact Hall|].
  - apply Forall_forall. intros r Hr. rewrite Forall_forall in Hready. by apply Hready, Hnew.
  - unfold AdoptMinimalLinkedThreads, tx_bind, tx_gets. by rewrite (nothing_adoptable s' HI' Hall).
Qed.

Theorem AdoptMinimalLinkedThreads_spec_witness :
  exists s', AdoptMinimalLinkedThreads "T9" ex_forked = Ok (1%Z, s')
    /\ AdoptMinimalLinkedThreads "T10" s' = Ok (0%Z, s')
    /\ exists l, l ∈ db_linked s' /\ link_key l = ("7:0", "desk").
Proof.
  destruct (AdoptMinimalLinkedThreads_spec "T9" "T10" ex_forked ex_forked_inv) as (new & s' & H & Hl & _ & _ & H').
  assert (Z.of_nat (length new) = 1%Z /\ exists l, l ∈ db_linked s' /\ link_key l = ("7:0", "desk")) as [Hn Hk].
  { vm_compute in H. injection H as Hn <-. split; [symmetry; exact Hn|]. eexists. split; [left|reflexivity]. }
  rewrite Hn in H. exists s'. split_and!; [exact H|exact H'|exact Hk].
Defined.

(** Activating a linked thread commits everything at once: the continuation is active
    with the fork, the fork is found back from its id, the commands that waited for the
    source wait for the fork, the chat is bound to it, and its row is held by the worker
    of the given generation, titles protected. *)
Theorem ActivateMinimalLinkedThread_spec p now link c child s a s' :
  ContinuationInv s -> ActivateMinimalLinkedThread p now link c child s = Ok (a, s') ->
  let fork := trim_space (th_ID child) in
  let key := ChatKey (lt_ChatID link) (lt_TopicID link) in
  ContinuationInv s'
  /\ (exists k, ActiveMinimalContinuationByFork fork s' = Some k /\ mc_ForkThreadID k = fork
        /\ ck_SourceThreadID (mc_Key k) = trim_space (lt_SourceThreadID link))
  /\ (exists b, cr_bindings (db_core s') !! key = Some b /\ tb_ThreadID b = fork)
  /\ (forall r, r ∈ mt_pending (db_minimal s') -> pc_open r = true ->
        pc_from (lt_ChatID link) (lt_TopicID link) (trim_space (lt_SourceThreadID link))
          (trim_space (lt_SourceAnchorTurnID link)) r = true -> pc_ThreadID r = fork)
  /\ exists l, db_linked s' = db_linked s ++ [l] /\ l_LinkedThreadID l = Some fork
        /\ l_State l = MinimalLinkedTelegramRunning /\ l_ChatKey l = key
        /\ l_SourceThreadID l = trim_space (lt_SourceThreadID link)
        /\ Ok (l_SourceTitle l) = protectMinimalLinkedTitle p (lt_SourceTitle link)
        /\ Ok (l_DesiredTitle l) = protectMinimalLinkedTitle p (lt_DesiredTitle link).
Proof.
  intros HI H fork key. pose proof (link_inv _ _ _ _ _ _ _ _ HI H) as [HI' _].
  destruct (link_run _ _ _ _ _ _ _ _ HI H) as (n & st & dt & g & s1 & s2 & s3 & Hn & Hst & Hdt & HG & Hl & (r & Hr & Hck & Hs & Hstate)
    & (changed & H1) & H2 & H3).
  destruct (normalized_fields _ _ _ Hn) as (Hne & N1 & N2 & N3 & N4 & N5 & N6 & N7 & N8 & N9).
  rewrite trim_space_idemp in N4. fold fork in N4.
  apply insert_linked_true in H3. injection H2 as H2. injection H1 as _ H1.
  assert (mt_continuations (db_minimal s') = mt_continuations (db_minimal s1)) as Ec by (by rewrite H3, <- H2, <- H1).
  assert (db_linked s3 = db_linked s) as El by (by rewrite <- H2, <- H1).
  split_and!; [exact HI'| | | |].
  - rewrite N4 in Hstate, Hne. rewrite <- Ec in Hr.
    destruct (by_fork_finds s' r fork HI' Hr Hstate (trim_space_idemp _) Hne) as (k & Hk1 & Hk2 & Hk3).
    exists k. split_and!; [exact Hk1|exact Hk2|]. by rewrite Hk3, Hs, N5.
  - rewrite H3, <- H2. cbn. rewrite N1. rewrite lookup_insert_eq. eexists. split; [done|].
    destruct (cr_bindings (db_core s2) !! ChatKey (lt_ChatID link) (lt_TopicID link)); exact N4.
  - intros x Hx Ho Hf. rewrite N2, N3, N5, N6 in H1.
    rewrite <- N4. eapply (rehome_moves _ _ _ _ _ s1 _ s2); [|rewrite H3, <- H2 in Hx; exact Hx|exact Ho|exact Hf].
    rewrite <- H1. reflexivity.
  - eexists. rewrite H3. cbn. rewrite El. split; [done|]. cbn. rewrite N8 in Hst. rewrite N9 in Hdt.
    split_and!; (exact N1 || congruence).
Qed.

Theorem ActivateMinimalLinkedThread_spec_witness :
  exists s', ActivateMinimalLinkedThread (Some plainProtector) "T3"
      (mkLinkedThread "" 7 0 "p" "other" "" "t9" "Title" "Title (Telegram)" "" "" "" 5 "" "" "" "" "" "")
      (mkContinuation (mkContinuationKey 0 0 "" "") "" "" "" "" "" "") (set_th_ID "fork2" zeroThread) ex_forked = Ok (tt, s')
    /\ exists b, cr_bindings (db_core s') !! "7:0" = Some b /\ tb_ThreadID b = "fork2".
Proof.
  destruct (ActivateMinimalLinkedThread (Some plainProtector) "T3"
      (mkLinkedThread "" 7 0 "p" "other" "" "t9" "Title" "Title (Telegram)" "" "" "" 5 "" "" "" "" "" "")
      (mkContinuation (mkContinuationKey 0 0 "" "") "" "" "" "" "" "") (set_th_ID "fork2" zeroThread) ex_forked)
    as [[[] s']|e] eqn:E; [|vm_compute in E; discriminate E].
  exists s'. split; [reflexivity|].
  exact (proj1 (proj2 (proj2 (ActivateMinimalLinkedThread_spec _ _ _ _ _ _ _ _ ex_forked_inv E)))).
Defined.
