(* ===== verification/Voice.v ===== *)
(** * internal/storage/store_minimal.go: voice confirmations

    A transcribed voice message waits for its author to execute or cancel it.  It has
    two buttons, bound to the message that shows them; its transcript is protected, and
    erased as soon as it no longer waits. *)
From stdpp Require Import base list numbers strings gmap relations.
From Stdlib Require Import Lia Ascii Sorting.Sorted.
From S2P Require Import Prelude GoStrings GoTime Sql Model MinimalTables Store QueueSafety PendingCommands.

Definition VoiceTargetNew : string := "new".
Definition VoiceTargetThread : string := "thread".
Definition VoiceActionExecute : string := "voice_execute".
Definition VoiceActionCancel : string := "voice_cancel".
Definition VoiceStatusPending : string := "pending".
Definition VoiceStatusExecuted : string := "executed".
Definition VoiceStatusCancelled : string := "cancelled".
Definition VoiceStatusExpired : string := "expired".
Definition VoiceStatusFailed : string := "failed".
Definition VoiceRouteStatusActive : string := "active".
Definition VoiceRouteStatusConsumed : string := "consumed".

Record VoiceConfirmation : Type := mkVoiceConfirmation {
  vo_ID : Z;
  vo_ProjectID : string;
  vo_TargetKind : string;
  vo_ThreadID : string;
  vo_SourceTurnID : string;
  vo_Transcript : string;
  vo_SessionIdentity : string;
  vo_Status : string;
  vo_ExpiresAt : TimeString;
  vo_ChatID : Z;
  vo_TopicID : Z;
  vo_MessageID : Z;
  vo_CreatedAt : TimeString }.

Record VoiceClaim : Type := mkVoiceClaim {
  vk_Token : string;
  vk_Action : string;
  vk_SessionIdentity : string;
  vk_ChatID : Z;
  vk_TopicID : Z;
  vk_MessageID : Z;
  vk_Now : instant }.

Definition voice_table : Table Store VoiceRow :=
  mkTable (fun s => mt_voice (db_minimal s)) (fun l s => set_minimal (set_mt_voice l (db_minimal s)) s).

Definition voice_route_table : Table Store VoiceCallbackRoute :=
  mkTable (fun s => mt_voiceRoutes (db_minimal s))
    (fun l s => set_minimal (set_mt_voiceRoutes l (db_minimal s)) s).

(** *** Conditions and assignments *)
Definition vc_id_is (id : Z) (v : VoiceRow) : bool := (vc_ID v =? id)%Z.
Definition vc_pending (v : VoiceRow) : bool := String.eqb (vc_Status v) VoiceStatusPending.
Definition vr_active (r : VoiceCallbackRoute) : bool := String.eqb (vr_Status r) VoiceRouteStatusActive.
Definition vr_of (id : Z) (r : VoiceCallbackRoute) : bool := (vr_VoiceID r =? id)%Z.

(** SET status = ?, transcript_payload = NULL *)
Definition finish_voice (status : string) (v : VoiceRow) : VoiceRow :=
  mkVoiceRow (vc_ID v) (vc_ProjectID v) (vc_TargetKind v) (vc_ThreadID v) (vc_SourceTurnID v) None
    (vc_SessionIdentity v) status (vc_ExpiresAt v) (vc_ChatID v) (vc_TopicID v) (vc_MessageID v) (vc_CreatedAt v).

Definition bind_voice (chatID topicID messageID : Z) (v : VoiceRow) : VoiceRow :=
  mkVoiceRow (vc_ID v) (vc_ProjectID v) (vc_TargetKind v) (vc_ThreadID v) (vc_SourceTurnID v) (vc_Transcript v)
    (vc_SessionIdentity v) (vc_Status v) (vc_ExpiresAt v) chatID topicID messageID (vc_CreatedAt v).

Definition consume_route (r : VoiceCallbackRoute) : VoiceCallbackRoute :=
  mkVoiceRoute (vr_Token r) (vr_VoiceID r) (vr_Action r) VoiceRouteStatusConsumed (vr_ChatID r) (vr_TopicID r)
    (vr_MessageID r) (vr_CreatedAt r).

Definition bind_route (chatID topicID messageID : Z) (r : VoiceCallbackRoute) : VoiceCallbackRoute :=
  mkVoiceRoute (vr_Token r) (vr_VoiceID r) (vr_Action r) (vr_Status r) chatID topicID messageID (vr_CreatedAt r).

(** hex.DecodeString of 32 bytes *)
Definition is_hex_byte (c : ascii) : bool := code_in c 48 57 || code_in c 97 102 || code_in c 65 70.

Fixpoint all_bytes (p : ascii -> bool) (s : string) : bool :=
  match s with
  | EmptyString => true
  | String c r => p c && all_bytes p r
  end.

Definition validVoiceToken (token : string) : bool :=
  (String.length token =? 32)%nat && all_bytes is_hex_byte token.

(** *** Operations *)
Definition new_voice_route (id : Z) (now : TimeString) (token action : string) : VoiceCallbackRoute :=
  mkVoiceRoute token id action VoiceRouteStatusActive 0 0 0 now.

(** An insert of a callback route; the token is the primary key. *)
Definition insert_voice_route (r : VoiceCallbackRoute) : Tx Store unit :=
  tx! rows := tx_gets (rows_of voice_route_table) in
  if existsb (fun x => String.eqb (vr_Token x) (vr_Token r)) rows then
    tx_fail "UNIQUE constraint failed: voice_callback_routes.route_token"
  else sql_insert voice_route_table r.

(** The INSERT of a confirmation: LastInsertId. *)
Definition insert_voice (row : Z -> VoiceRow) : Tx Store Z := fun s =>
  let id := (mt_voiceSeq (db_minimal s) + 1)%Z in
  Ok (id, set_minimal (set_mt_voiceSeq id (set_mt_voice (mt_voice (db_minimal s) ++ [row id]) (db_minimal s))) s).

Definition CreateVoiceConfirmation (protector : option Protector) (now : TimeString)
    (confirmation : VoiceConfirmation) (executeToken cancelToken : string) : Tx Store Z :=
  let projectID := trim_space (vo_ProjectID confirmation) in
  let targetKind := trim_space (vo_TargetKind confirmation) in
  let threadID := trim_space (vo_ThreadID confirmation) in
  let sourceTurnID := trim_space (vo_SourceTurnID confirmation) in
  let transcript := trim_space (vo_Transcript confirmation) in
  let session := trim_space (vo_SessionIdentity confirmation) in
  if String.eqb projectID "" || String.eqb transcript "" || String.eqb session ""
     || String.eqb (trim_space (vo_ExpiresAt confirmation)) "" then
    tx_fail "voice project, transcript, session, and expiry are required"
  else if negb (String.eqb targetKind VoiceTargetNew) && negb (String.eqb targetKind VoiceTargetThread) then
    tx_fail "invalid voice target kind"
  else if String.eqb targetKind VoiceTargetThread && String.eqb threadID "" then
    tx_fail "voice thread target is required"
  else if negb (validVoiceToken executeToken) || negb (validVoiceToken cancelToken)
          || String.eqb executeToken cancelToken then
    tx_fail "voice callback tokens must be distinct 16-byte hex values"
  else match protector with
  | None => tx_fail "securestore protector is required for voice confirmations"
  | Some p =>
      match Protect p transcript with
      | Err _ => tx_fail "protect voice transcript failed"
      | Ok protected =>
          tx! voiceID := insert_voice (fun id =>
            mkVoiceRow id projectID targetKind (nullable threadID) sourceTurnID (Some protected) session
              VoiceStatusPending (vo_ExpiresAt confirmation) 0 0 0 now) in
          tx! _ := insert_voice_route (new_voice_route voiceID now executeToken VoiceActionExecute) in
          tx! _ := insert_voice_route (new_voice_route voiceID now cancelToken VoiceActionCancel) in
          tx_ret voiceID
      end
  end.

Definition BindVoiceConfirmation (voiceID chatID topicID messageID : Z) : Tx Store unit :=
  if (voiceID <=? 0)%Z || (chatID =? 0)%Z || (messageID =? 0)%Z then
    tx_fail "voice preview binding is incomplete"
  else
    tx! _ := sql_update_exactly 1 voice_table
      (fun v => vc_id_is voiceID v && vc_pending v && (vc_MessageID v =? 0)%Z)
      (bind_voice chatID topicID messageID)
      (fun changed => "bind voice confirmation changed " +:+ format_int changed +:+ " rows") in
    sql_update_exactly 2 voice_route_table
      (fun r => vr_of voiceID r && vr_active r && (vr_MessageID r =? 0)%Z)
      (bind_route chatID topicID messageID)
      (fun changed => "bind voice callback routes changed " +:+ format_int changed +:+ " rows").

Definition GetVoiceConfirmationRoute (token : string) (s : Store) : option VoiceCallbackRoute :=
  find_first (fun r => String.eqb (vr_Token r) (trim_space token)) (rows_of voice_route_table s).

Definition expireVoiceConfirmationTx (voiceID : Z) : Tx Store unit :=
  tx! _ := sql_update voice_table (fun v => vc_id_is voiceID v && vc_pending v) (finish_voice VoiceStatusExpired) in
  tx! _ := sql_update voice_route_table (fun r => vr_of voiceID r && vr_active r) consume_route in
  tx_ret tt.

Definition voice_of (v : VoiceRow) (transcript status : string) : VoiceConfirmation :=
  mkVoiceConfirmation (vc_ID v) (vc_ProjectID v) (vc_TargetKind v) (default "" (vc_ThreadID v)) (vc_SourceTurnID v)
    transcript (vc_SessionIdentity v) status (vc_ExpiresAt v) (vc_ChatID v) (vc_TopicID v) (vc_MessageID v)
    (vc_CreatedAt v).

(** r JOIN v ON v.id = r.voice_id WHERE r.route_token = ? *)
Definition voice_by_token (token : string) (s : Store) : option (VoiceCallbackRoute * VoiceRow) :=
  match GetVoiceConfirmationRoute token s with
  | None => None
  | Some r => pair r <$> find_first (vc_id_is (vr_VoiceID r)) (rows_of voice_table s)
  end.

(** The button, the message, the session and the state the claim must agree with. *)
Definition claim_admitted (claim : VoiceClaim) (r : VoiceCallbackRoute) (v : VoiceRow) : bool :=
  vr_active r && String.eqb (vr_Action r) (trim_space (vk_Action claim)) && vc_pending v
  && String.eqb (vc_SessionIdentity v) (trim_space (vk_SessionIdentity claim))
  && negb (vc_ChatID v =? 0)%Z && negb (vc_MessageID v =? 0)%Z && (vc_ChatID v =? vk_ChatID claim)%Z
  && (vc_TopicID v =? vk_TopicID claim)%Z && (vc_MessageID v =? vk_MessageID claim)%Z.

(** Both buttons are there and the time has not come. *)
Definition claim_in_time (now : instant) (claim : VoiceClaim) (siblings : Z) (v : VoiceRow) : bool :=
  let at_ := if is_zero (vk_Now claim) then now else vk_Now claim in
  (siblings =? 2)%Z && match parse_rfc3339 (vc_ExpiresAt v) with
                       | Some expiresAt => (at_ <? expiresAt)%Z
                       | None => false
                       end.

(** The confirmation, and the error of a transcript that cannot be read once it is
    consumed. *)
Definition ConsumeVoiceConfirmation (protector : option Protector) (now : instant) (claim : VoiceClaim)
  : Tx Store (option VoiceConfirmation * option string) :=
  match protector with
  | None => tx_fail "securestore protector is required for voice confirmations"
  | Some p =>
      tx! row := tx_gets (voice_by_token (vk_Token claim)) in
      match row with
      | None => tx_ret (None, None)
      | Some (r, v) =>
          if negb (claim_admitted claim r v) then tx_ret (None, None)
          else
            tx! siblings := tx_gets (fun s => affected (fun x => vr_of (vc_ID v) x && vr_active x)
                                                (rows_of voice_route_table s)) in
            if negb (claim_in_time now claim siblings v) then
              tx! _ := expireVoiceConfirmationTx (vc_ID v) in tx_ret (None, None)
            else
              let action := trim_space (vk_Action claim) in
              let execute := String.eqb action VoiceActionExecute in
              if negb execute && negb (String.eqb action VoiceActionCancel) then tx_ret (None, None)
              else
                let terminalStatus := if execute then VoiceStatusExecuted else VoiceStatusCancelled in
                tx! before := tx_gets id in
                tx! changed := sql_update voice_table (fun x => vc_id_is (vc_ID v) x && vc_pending x)
                                 (finish_voice terminalStatus) in
                if negb (changed =? 1)%Z then (fun _ => Ok ((None, None), before))
                else
                tx! _ := sql_update_exactly 2 voice_route_table (fun x => vr_of (vc_ID v) x && vr_active x)
                           consume_route (fun _ => "voice callback sibling consumption failed") in
                if execute then
                  match Unprotect p (default "" (vc_Transcript v)) with
                  | Ok text => tx_ret (Some (voice_of v text terminalStatus), None)
                  | Err _ => tx_ret (None, Some "unprotect voice transcript failed")
                  end
                else tx_ret (Some (voice_of v "" terminalStatus), None)
      end
  end.

Definition RecoverVoiceConfirmations : Tx Store Z :=
  tx! changed := sql_update voice_table vc_pending (finish_voice VoiceStatusExpired) in
  tx! _ := sql_update voice_route_table vr_active consume_route in
  tx_ret changed.

Definition AbandonVoiceConfirmation (voiceID : Z) : Tx Store unit :=
  tx! _ := sql_update voice_table (fun v => vc_id_is voiceID v && vc_pending v) (finish_voice VoiceStatusFailed) in
  tx! _ := sql_update voice_route_table (fun r => vr_of voiceID r && vr_active r) consume_route in
  tx_ret tt.

(** ** Specification *)

Inductive voice_step (p : Protector) : Store -> Store -> Prop :=
| vs_create now c e x s a s' : CreateVoiceConfirmation (Some p) now c e x s = Ok (a, s') -> voice_step p s s'
| vs_bind id chatID topicID messageID s a s' :
    BindVoiceConfirmation id chatID topicID messageID s = Ok (a, s') -> voice_step p s s'
| vs_consume now claim s a s' : ConsumeVoiceConfirmation (Some p) now claim s = Ok (a, s') -> voice_step p s s'
| vs_recover s a s' : RecoverVoiceConfirmations s = Ok (a, s') -> voice_step p s s'
| vs_abandon id s a s' : AbandonVoiceConfirmation id s = Ok (a, s') -> voice_step p s s'
| vs_other s s' : mt_voice (db_minimal s') = mt_voice (db_minimal s) ->
    mt_voiceSeq (db_minimal s') = mt_voiceSeq (db_minimal s) ->
    mt_voiceRoutes (db_minimal s') = mt_voiceRoutes (db_minimal s) -> voice_step p s s'.

(** A waiting confirmation has a readable transcript, the others none. *)
Definition voice_row_ok (p : Protector) (v : VoiceRow) : Prop :=
  if vc_pending v then exists e text, vc_Transcript v = Some e /\ Unprotect p e = Ok text
  else vc_Transcript v = None.

(** The active buttons of a confirmation. *)
Definition buttons (id : Z) (routes : list VoiceCallbackRoute) : list VoiceCallbackRoute :=
  filter (fun r => vr_of id r && vr_active r) routes.

Definition bound_to (v : VoiceRow) : Z * Z * Z := (vc_ChatID v, vc_TopicID v, vc_MessageID v).
Definition route_bound_to (r : VoiceCallbackRoute) : Z * Z * Z := (vr_ChatID r, vr_TopicID r, vr_MessageID r).

(** A waiting confirmation has its two buttons, on its message; the others have none. *)
Definition buttons_ok (routes : list VoiceCallbackRoute) (v : VoiceRow) : Prop :=
  if vc_pending v then
    map vr_Action (buttons (vc_ID v) routes) = [VoiceActionExecute; VoiceActionCancel]
    /\ Forall (fun r => route_bound_to r = bound_to v) (buttons (vc_ID v) routes)
  else buttons (vc_ID v) routes = [].

Record VoiceInv (p : Protector) (s : Store) : Prop := {
  vi_sorted : StronglySorted Z.lt (map vc_ID (mt_voice (db_minimal s)));
  vi_below : Forall (fun v => (vc_ID v <= mt_voiceSeq (db_minimal s))%Z) (mt_voice (db_minimal s));
  vi_rows : Forall (voice_row_ok p) (mt_voice (db_minimal s));
  vi_tokens : NoDup (map vr_Token (mt_voiceRoutes (db_minimal s)));
  vi_routes : Forall (fun r => (vr_VoiceID r <= mt_voiceSeq (db_minimal s))%Z) (mt_voiceRoutes (db_minimal s));
  vi_buttons : Forall (buttons_ok (mt_voiceRoutes (db_minimal s))) (mt_voice (db_minimal s)) }.

(** A confirmation is finished for ever, with its transcript erased. *)
Definition voice_evolves (v v' : VoiceRow) : Prop :=
  vc_ID v' = vc_ID v /\ (vc_pending v = false -> v' = v).

Definition voices_evolve (s s' : Store) : Prop :=
  exists olds news, mt_voice (db_minimal s') = olds ++ news
    /\ Forall2 voice_evolves (mt_voice (db_minimal s)) olds.

(** The tokens keep their confirmation and action. *)
Definition route_identity (r : VoiceCallbackRoute) : string * Z * string := (vr_Token r, vr_VoiceID r, vr_Action r).

(** A sample: a confirmation shown as message 50 of chat 7. *)
Definition ex_execute_token : string := "00112233445566778899aabbccddeeff".
Definition ex_cancel_token : string := "ffeeddccbbaa99887766554433221100".

Definition ex_voice : Store :=
  match (tx! id := CreateVoiceConfirmation (Some plainProtector) "T1"
                     (mkVoiceConfirmation 0 "p" "new" "" "" "run the tests" "session" "" "2026-01-01T00:05:00Z" 0 0 0 "")
                     ex_execute_token ex_cancel_token in
         BindVoiceConfirmation id 7 0 50) emptyStore with
  | Ok (_, s) => s
  | Err _ => emptyStore
  end.

Definition ex_claim_voice (token action : string) : VoiceClaim :=
  mkVoiceClaim token action "session" 7 0 50 (parseTime "2026-01-01T00:01:00Z").

Definition ex_executed : Store :=
  match ConsumeVoiceConfirmation (Some plainProtector) 0%Z (ex_claim_voice ex_execute_token VoiceActionExecute) ex_voice with
  | Ok (_, s) => s
  | Err _ => emptyStore
  end.

#[export] Instance voice_table_laws : TableLaws voice_table.
Proof. split; intros; [done|done|]. by destruct s as [? ? ? ? ? ? ? ? [] ?]. Qed.

#[export] Instance voice_route_table_laws : TableLaws voice_route_table.
Proof. split; intros; [done|done|]. by destruct s as [? ? ? ? ? ? ? ? [] ?]. Qed.

(** ** Lemmas *)
#[local] Arguments update_where : simpl never.
#[local] Arguments affected : simpl never.
#[local] Arguments find_first : simpl never.

Lemma consume_inactive r : vr_active (consume_route r) = false.
Proof. done. Qed.

(** Consuming the buttons of one confirmation, or of all. *)
Lemma buttons_consumed id routes :
  buttons id (update_where (fun r => vr_of id r && vr_active r) consume_route routes) = [].
Proof.
  apply filter_update_drop; [|done]. intros r _. by rewrite andb_false_r.
Qed.

Lemma buttons_all_consumed id routes : buttons id (update_where vr_active consume_route routes) = [].
Proof.
  apply filter_update_drop; [intros r _; by rewrite andb_false_r|]. by intros r [_ H]%andb_prop.
Qed.

Lemma buttons_other id id' routes : id' <> id ->
  buttons id' (update_where (fun r => vr_of id r && vr_active r) consume_route routes) = buttons id' routes.
Proof.
  intros Hne. unfold buttons, update_where. induction routes as [|r l IH]; [done|]. cbn [map].
  rewrite !filter_cons_bool, IH. destruct (vr_of id r && vr_active r) eqn:E; [|done].
  apply andb_prop in E as [E1 E2]. unfold vr_of in *. bsimp. cbn. rewrite andb_false_r.
  replace (vr_VoiceID r =? id')%Z with false by (symmetry; apply Z.eqb_neq; congruence). done.
Qed.

Lemma voice_ids f (q : VoiceRow -> bool) rows : (forall v, vc_ID (f v) = vc_ID v) ->
  map vc_ID (update_where q f rows) = map vc_ID rows.
Proof. apply map_update. Qed.

Lemma voices_refl vs : Forall2 voice_evolves vs vs.
Proof. induction vs; constructor; [by split|done]. Qed.

Lemma evolve_refl s : voices_evolve s s.
Proof. exists (mt_voice (db_minimal s)), []. split; [by rewrite app_nil_r|apply voices_refl]. Qed.

Lemma evolve_trans s1 s2 s3 : voices_evolve s1 s2 -> voices_evolve s2 s3 -> voices_evolve s1 s3.
Proof.
  intros (olds & news & E1 & H1) (olds' & news' & E2 & H2).
  rewrite E1 in H2. apply Forall2_app_inv_l in H2 as (l & k & Hl & _ & ->).
  exists l, (k ++ news'). rewrite E2, <- app_assoc. split; [done|]. clear -H1 Hl.
  revert l Hl. induction H1 as [|x y xs ys [Hid Hf] _ IH]; intros l Hl.
  - inversion Hl. constructor.
  - inversion Hl as [|? z ? zs [Hid' Hf'] Hzs]; subst. constructor; [|by apply IH]. split; [congruence|].
    intros Hp. specialize (Hf Hp). subst y. by apply Hf'.
Qed.

(** The two tables after confirmations matching [q] are finished. *)
Lemma voice_tables_inv p s status (q : VoiceRow -> bool) (c : VoiceCallbackRoute -> bool) :
  status <> VoiceStatusPending -> VoiceInv p s -> (forall v, q v = true -> vc_pending v = true) ->
  Forall (fun v => buttons (vc_ID v) (update_where c consume_route (mt_voiceRoutes (db_minimal s)))
                   = if q v then [] else buttons (vc_ID v) (mt_voiceRoutes (db_minimal s))) (mt_voice (db_minimal s)) ->
  let s' := with_rows voice_route_table (update_where c consume_route (mt_voiceRoutes (db_minimal s)))
              (with_rows voice_table (update_where q (finish_voice status) (mt_voice (db_minimal s))) s) in
  VoiceInv p s' /\ voices_evolve s s'.
Proof.
  intros Hst [H1 H2 H3 H4 H5 H6] Hq Hb s'.
  assert (forall v, vc_pending (finish_voice status v) = false) as Hfin.
  { intros v. unfold vc_pending. by apply String.eqb_neq. }
  split; [split|]; cbn.
  - by rewrite voice_ids.
  - eapply Forall_update; [exact H2|]. intros v _. by destruct (q v).
  - eapply Forall_update; [exact H3|]. intros v _ Hv. destruct (q v); [|done]. unfold voice_row_ok. by rewrite Hfin.
  - rewrite map_update; done.
  - eapply Forall_update; [exact H5|]. intros r _. by destruct (c r).
  - eapply Forall_update; [exact H6|]. intros v Hin Hv. rewrite Forall_forall in Hb. specialize (Hb v Hin). unfold buttons_ok in *.
    destruct (q v) eqn:E; [by rewrite Hfin|]. by rewrite Hb.
  - eexists _, []. split; [by rewrite app_nil_r|]. apply Forall2_update. intros v. destruct (q v) eqn:E; [|by split].
    split; [done|]. by rewrite (Hq v E).
Qed.

Lemma finish_one_inv p s id status :
  status <> VoiceStatusPending -> VoiceInv p s ->
  let s' := with_rows voice_route_table
              (update_where (fun r => vr_of id r && vr_active r) consume_route (mt_voiceRoutes (db_minimal s)))
              (with_rows voice_table
                 (update_where (fun v => vc_id_is id v && vc_pending v) (finish_voice status) (mt_voice (db_minimal s))) s) in
  VoiceInv p s' /\ voices_evolve s s'.
Proof.
  intros Hst HI. apply voice_tables_inv; [done|done|by intros v [_ H]%andb_prop|].
  eapply Forall_impl; [exact (vi_buttons _ _ HI)|]. intros v Hv. cbn. unfold vc_id_is.
  destruct (Z.eqb_spec (vc_ID v) id) as [<-|Hne]; cbn; [|by apply buttons_other].
  rewrite buttons_consumed. revert Hv. unfold buttons_ok. by destruct (vc_pending v).
Qed.

Lemma recover_voice_inv p s :
  VoiceInv p s ->
  let s' := with_rows voice_route_table (update_where vr_active consume_route (mt_voiceRoutes (db_minimal s)))
              (with_rows voice_table (update_where vc_pending (finish_voice VoiceStatusExpired) (mt_voice (db_minimal s))) s) in
  VoiceInv p s' /\ voices_evolve s s'.
Proof.
  intros HI. apply voice_tables_inv; [done|done|done|].
  eapply Forall_impl; [exact (vi_buttons _ _ HI)|]. intros v Hv. cbn. rewrite buttons_all_consumed.
  revert Hv. unfold buttons_ok. by destruct (vc_pending v).
Qed.

Lemma voice_of_token p s r v token : VoiceInv p s -> voice_by_token token s = Some (r, v) ->
  r ∈ mt_voiceRoutes (db_minimal s) /\ vr_Token r = trim_space token
  /\ v ∈ mt_voice (db_minimal s) /\ vc_ID v = vr_VoiceID r.
Proof.
  unfold voice_by_token, GetVoiceConfirmationRoute. intros HI H.
  destruct (find_first _ (rows_of voice_route_table s)) as [r0|] eqn:Er; [|discriminate H].
  apply find_first_some in Er as [Hr Ht%String.eqb_eq].
  destruct (find_first _ (rows_of voice_table s)) as [v0|] eqn:Ev; [|discriminate H].
  apply find_first_some in Ev as [Hv Hid%Z.eqb_eq]. cbn in H. by injection H as -> ->.
Qed.

(** The buttons an admitted claim finds, both of them. *)
Lemma siblings_two p s v : VoiceInv p s -> v ∈ mt_voice (db_minimal s) -> vc_pending v = true ->
  affected (fun x => vr_of (vc_ID v) x && vr_active x) (mt_voiceRoutes (db_minimal s)) = 2%Z.
Proof.
  intros HI Hv Hp. pose proof (vi_buttons _ _ HI) as Hb. rewrite Forall_forall in Hb.
  specialize (Hb v Hv). unfold buttons_ok in Hb. rewrite Hp in Hb. destruct Hb as [Hb _].
  unfold affected. change (filter _ _) with (buttons (vc_ID v) (mt_voiceRoutes (db_minimal s))).
  apply (f_equal length) in Hb. rewrite length_map in Hb. by rewrite Hb.
Qed.

Lemma update_voice_one p s v (f : VoiceRow -> VoiceRow) : VoiceInv p s -> v ∈ mt_voice (db_minimal s) -> vc_pending v = true ->
  affected (fun x => vc_id_is (vc_ID v) x && vc_pending x) (mt_voice (db_minimal s)) = 1%Z.
Proof.
  intros HI Hv Hp. apply list_elem_of_split in Hv as (l & k & E). rewrite E.
  pose proof (SSorted_lt_NoDup _ (vi_sorted _ _ HI)) as Hnd. rewrite E in Hnd.
  destruct (update_keyed vc_ID (fun x => vc_id_is (vc_ID v) x && vc_pending x) f l v k Hnd) as [_ ->].
  - intros x [Hx%Z.eqb_eq _]%andb_prop. done.
  - unfold vc_id_is. by rewrite Z.eqb_refl, Hp.
Qed.

Lemma rows_other l s : rows_of voice_route_table (with_rows voice_table l s) = mt_voiceRoutes (db_minimal s).
Proof. done. Qed.

Lemma button_action p s r v : VoiceInv p s -> r ∈ mt_voiceRoutes (db_minimal s) -> v ∈ mt_voice (db_minimal s) ->
  vc_ID v = vr_VoiceID r -> vc_pending v = true -> vr_active r = true ->
  negb (String.eqb (vr_Action r) VoiceActionExecute) && negb (String.eqb (vr_Action r) VoiceActionCancel) = false.
Proof.
  intros HI Hr Hv Hid Hp Ha. pose proof (vi_buttons _ _ HI) as Hb. rewrite Forall_forall in Hb. specialize (Hb v Hv).
  unfold buttons_ok in Hb. rewrite Hp in Hb. destruct Hb as [Hb _].
  assert (vr_Action r ∈ map vr_Action (buttons (vc_ID v) (mt_voiceRoutes (db_minimal s)))) as Hin.
  { apply list_elem_of_fmap_2, elem_of_filter_bool. split; [done|]. unfold vr_of. by rewrite Hid, Z.eqb_refl, Ha. }
  rewrite Hb in Hin. apply elem_of_cons in Hin as [->|Hin]; [done|]. by apply list_elem_of_singleton in Hin as ->.
Qed.

(** Everything a claim may do. *)
Lemma consume_cases p now claim s out s' :
  VoiceInv p s -> ConsumeVoiceConfirmation (Some p) now claim s = Ok (out, s') ->
  (out = (None, None) /\ s' = s
   /\ forall r v, voice_by_token (vk_Token claim) s = Some (r, v) -> claim_admitted claim r v = false)
  \/ exists r v, voice_by_token (vk_Token claim) s = Some (r, v) /\ claim_admitted claim r v = true
    /\ ((claim_in_time now claim 2 v = false /\ out = (None, None) /\ expireVoiceConfirmationTx (vc_ID v) s = Ok (tt, s'))
        \/ exists status, claim_in_time now claim 2 v = true
           /\ (status = VoiceStatusExecuted \/ status = VoiceStatusCancelled)
           /\ s' = with_rows voice_route_table
                    (update_where (fun x => vr_of (vc_ID v) x && vr_active x) consume_route (mt_voiceRoutes (db_minimal s)))
                    (with_rows voice_table
                       (update_where (fun x => vc_id_is (vc_ID v) x && vc_pending x) (finish_voice status)
                          (mt_voice (db_minimal s))) s)
           /\ (if String.eqb (vr_Action r) VoiceActionExecute
               then status = VoiceStatusExecuted /\ exists e text, vc_Transcript v = Some e
                    /\ Unprotect p e = Ok text /\ out = (Some (voice_of v text status), None)
               else status = VoiceStatusCancelled /\ out = (Some (voice_of v "" status), None))).
Proof.
  intros HI H. unfold ConsumeVoiceConfirmation in H. tx_inv H. apply tx_gets_ok in Htx as [-> ->].
  destruct (voice_by_token _ s) as [[r v]|] eqn:Ev; [|apply tx_ret_ok in H as [-> ->]; by left].
  destruct (claim_admitted claim r v) eqn:Ea.
  2: { apply tx_ret_ok in H as [-> ->]. left. split_and!; [done..|]. by intros r' v' [= <- <-]. }
  destruct (voice_of_token _ _ _ _ _ HI Ev) as (Hr & _ & Hv & Hid).
  assert (vc_pending v = true /\ vr_Action r = trim_space (vk_Action claim)) as [Hp Hact]
    by (unfold claim_admitted in Ea; by bsimp).
  cbn [negb] in H. tx_inv H. apply tx_gets_ok in Htx as [-> ->].
  change (rows_of voice_route_table s) with (mt_voiceRoutes (db_minimal s)) in H.
  rewrite (siblings_two p s v HI Hv Hp) in H.
  destruct (claim_in_time now claim 2 v) eqn:Et; cbn [negb] in H.
  2: { tx_inv H. apply tx_ret_ok in H as [-> ->]. right. exists r, v. split_and!; [done|done|]. left. by destruct a. }
  rewrite <- Hact in H. rewrite (button_action p s r v HI Hr Hv Hid Hp) in H by (unfold claim_admitted in Ea; by bsimp).
  tx_inv H. apply tx_gets_ok in Htx as [-> ->]. injection Htx0 as <- <-.
  change (rows_of voice_table s) with (mt_voice (db_minimal s)) in H.
  rewrite (update_voice_one p s v id HI Hv Hp) in H. cbn [Z.eqb Pos.eqb negb] in H. tx_inv H.
  unfold sql_update_exactly in Htx. tx_inv Htx. injection Htx0 as <- <-.
  destruct (_ =? 2)%Z; [|discriminate Htx]. apply tx_ret_ok in Htx as [_ ->].
  right. exists r, v. split_and!; [done|done|]. right.
  destruct (String.eqb (vr_Action r) VoiceActionExecute) eqn:Ex.
  - pose proof (vi_rows _ _ HI) as Hrows. rewrite Forall_forall in Hrows. specialize (Hrows v Hv).
    unfold voice_row_ok in Hrows. rewrite Hp in Hrows. destruct Hrows as (e & text & He & Hu).
    rewrite He in H. cbn [from_option] in H. unfold id in H. rewrite Hu in H. apply tx_ret_ok in H as [-> ->].
    exists VoiceStatusExecuted. split_and!; [done|by left|done|done|]. exists e, text. split_and!; done.
  - apply tx_ret_ok in H as [-> ->]. exists VoiceStatusCancelled. split_and!; [done|by right|done..].
Qed.

Lemma expire_run id s a s' : expireVoiceConfirmationTx id s = Ok (a, s') ->
  s' = with_rows voice_route_table
         (update_where (fun x => vr_of id x && vr_active x) consume_route (mt_voiceRoutes (db_minimal s)))
         (with_rows voice_table
            (update_where (fun x => vc_id_is id x && vc_pending x) (finish_voice VoiceStatusExpired)
               (mt_voice (db_minimal s))) s).
Proof. intros H. by injection H as _ <-. Qed.

Lemma consume_inv p now claim s out s' :
  VoiceInv p s -> ConsumeVoiceConfirmation (Some p) now claim s = Ok (out, s') -> VoiceInv p s' /\ voices_evolve s s'.
Proof.
  intros HI H. destruct (consume_cases _ _ _ _ _ _ HI H)
    as [(_ & -> & _)|(r & v & _ & _ & [(_ & _ & He)|(status & _ & Hst & -> & _)])].
  - split; [done|apply evolve_refl].
  - apply expire_run in He as ->. by apply finish_one_inv.
  - apply finish_one_inv; [by destruct Hst as [-> | ->]|done].
Qed.

(** *** Binding *)
Lemma bind_inv p id c t m s a s' :
  VoiceInv p s -> BindVoiceConfirmation id c t m s = Ok (a, s') -> VoiceInv p s' /\ voices_evolve s s'.
Proof.
  intros HI H. unfold BindVoiceConfirmation in H. destruct (_ || _) eqn:Ebad; [discriminate H|].
  apply orb_false_elim in Ebad as [_ Hm]. apply Z.eqb_neq in Hm.
  tx_inv H. apply update_exactly_one in Htx as (l & v & k & Hr & [[Hid Hp]%andb_prop H0]%andb_prop & ->).
  unfold sql_update_exactly in H. tx_inv H. injection Htx as <- <-.
  destruct (_ =? 2)%Z; [|discriminate H]. apply tx_ret_ok in H as [_ ->].
  cbn in Hr. apply Z.eqb_eq in Hid. apply Z.eqb_eq in H0. subst id.
  set (q := fun r => vr_of (vc_ID v) r && vr_active r && (vr_MessageID r =? 0)%Z).
  destruct HI as [H1 H2 H3 H4 H5 H6]. rewrite Hr in H1, H2, H3, H6.
  assert (forall i, buttons i (update_where q (bind_route c t m) (mt_voiceRoutes (db_minimal s)))
                    = update_where q (bind_route c t m) (buttons i (mt_voiceRoutes (db_minimal s)))) as Hb
    by (intros i; by apply filter_update).
  apply Forall_app in H2 as [H2l [H2v H2k]%Forall_cons]. apply Forall_app in H3 as [H3l [H3v H3k]%Forall_cons].
  apply Forall_app in H6 as [H6l [H6v H6k]%Forall_cons].
  pose proof (SSorted_lt_NoDup _ H1) as Hnd. rewrite map_app, map_cons, NoDup_app, NoDup_cons in Hnd.
  destruct Hnd as (_ & Hnl & Hnk & _).
  assert (forall x, vc_ID x <> vc_ID v -> buttons_ok (mt_voiceRoutes (db_minimal s)) x ->
            buttons_ok (update_where q (bind_route c t m) (mt_voiceRoutes (db_minimal s))) x) as Hother.
  { intros x Hne Hx. unfold buttons_ok in *. rewrite Hb, (update_none q); [exact Hx|].
    intros r [_ [Hof _]%andb_prop]%elem_of_filter_bool. unfold q, vr_of in *. bsimp.
    replace (vr_VoiceID r =? vc_ID v)%Z with false by (symmetry; apply Z.eqb_neq; congruence). done. }
  split; [split|]; cbn.
  - by rewrite map_app, map_cons in H1 |- *.
  - apply Forall_app. by split; [|constructor].
  - apply Forall_app. by split; [|constructor].
  - by rewrite map_update.
  - eapply Forall_update; [exact H5|]. intros r _. by destruct (q r).
  - apply Forall_app. split; [|constructor].
    + apply Forall_forall. intros x Hx. rewrite Forall_forall in H6l. apply Hother; [|by apply H6l].
      intros E. apply (Hnl (vc_ID x)); [by apply list_elem_of_fmap_2|]. rewrite E. left.
    + revert H6v. unfold buttons_ok. change (vc_pending (bind_voice c t m v)) with (vc_pending v). rewrite Hp.
      change (vc_ID (bind_voice c t m v)) with (vc_ID v). rewrite Hb. intros [Ha Hbound]. split; [by rewrite map_update|].
      apply Forall_forall. intros r (x & Hx & ->)%elem_of_update. rewrite Forall_forall in Hbound.
      assert (q x = true) as ->; [|done]. specialize (Hbound x Hx). apply elem_of_filter_bool in Hx as [_ Hx].
      unfold q. rewrite Hx. unfold route_bound_to, bound_to in Hbound. injection Hbound as _ _ ->. by apply Z.eqb_eq.
    + apply Forall_forall. intros x Hx. rewrite Forall_forall in H6k. apply Hother; [|by apply H6k].
      intros E. apply Hnk. rewrite <- E. by apply list_elem_of_fmap_2.
  - exists (l ++ bind_voice c t m v :: k), []. cbn. rewrite Hr, app_nil_r. split; [done|].
    apply Forall2_app; [apply voices_refl|]. constructor; [|apply voices_refl]. split; [done|]. by rewrite Hp.
Qed.

(** *** Creating *)
Lemma insert_route_run r s a s' : insert_voice_route r s = Ok (a, s') ->
  (vr_Token r ∉ map vr_Token (mt_voiceRoutes (db_minimal s)))
  /\ s' = with_rows voice_route_table (mt_voiceRoutes (db_minimal s) ++ [r]) s.
Proof.
  unfold insert_voice_route. intros H. tx_inv H. apply tx_gets_ok in Htx as [-> ->].
  destruct (existsb _ _) eqn:E; [discriminate H|]. injection H as _ <-. split; [|done].
  intros (x & Hx & Hin)%list_elem_of_fmap. rewrite <- not_true_iff_false in E. apply E. apply existsb_exists.
  exists x. split; [by apply list_elem_of_In|]. by apply String.eqb_eq.
Qed.

Lemma buttons_app id l k : buttons id (l ++ k) = buttons id l ++ buttons id k.
Proof. apply filter_app. Qed.

Lemma buttons_fresh n routes : Forall (fun r => (vr_VoiceID r <= n)%Z) routes -> buttons (n + 1) routes = [].
Proof.
  intros H. apply filter_none. intros r Hr Hof%Is_true_true. apply andb_prop in Hof as [Hof _].
  rewrite Forall_forall in H. specialize (H r Hr). unfold vr_of in Hof. bsimp. lia.
Qed.

(** The two buttons of a new confirmation. *)
Lemma buttons_new n now e x routes :
  Forall (fun r => (vr_VoiceID r <= n)%Z) routes ->
  let r1 := new_voice_route (n + 1) now e VoiceActionExecute in
  let r2 := new_voice_route (n + 1) now x VoiceActionCancel in
  buttons (n + 1) ((routes ++ [r1]) ++ [r2]) = [r1; r2]
  /\ forall i, (i <= n)%Z -> buttons i ((routes ++ [r1]) ++ [r2]) = buttons i routes.
Proof.
  intros H r1 r2. split.
  - rewrite !buttons_app, (buttons_fresh _ _ H). unfold buttons. rewrite !filter_cons_bool. unfold vr_of.
    cbn [vr_VoiceID r1 r2 new_voice_route]. by rewrite !Z.eqb_refl.
  - intros i Hi. rewrite !buttons_app. unfold buttons at 2 3. rewrite !filter_cons_bool. unfold vr_of.
    cbn [vr_VoiceID r1 r2 new_voice_route]. replace (n + 1 =? i)%Z with false by (symmetry; apply Z.eqb_neq; lia).
    cbn. by rewrite !app_nil_r.
Qed.

Lemma create_inv p `{!ProtectorLaws p} now c e x s a s' :
  VoiceInv p s -> CreateVoiceConfirmation (Some p) now c e x s = Ok (a, s') -> VoiceInv p s' /\ voices_evolve s s'.
Proof.
  intros HI H. unfold CreateVoiceConfirmation in H.
  do 4 (match type of H with (if ?b then _ else _) _ = _ => destruct b; [discriminate H|] end).
  destruct (Protect p _) as [protected|] eqn:Ep; [|discriminate H]. tx_inv H. injection Htx as Hid <-.
  apply insert_route_run in Htx0 as [Ht1 ->]. apply insert_route_run in Htx1 as [Ht2 ->].
  apply tx_ret_ok in H as [_ ->]. cbn in Ht1, Ht2. rewrite map_app in Ht2. cbn in Ht2.
  destruct HI as [H1 H2 H3 H4 H5 H6]. set (n := mt_voiceSeq (db_minimal s)) in *. subst a0.
  assert (Forall (fun v => (vc_ID v <= n + 1)%Z) (mt_voice (db_minimal s))) as H2'.
  { eapply Forall_impl; [exact H2|]. intros v Hv. cbn in Hv. lia. }
  set (r1 := new_voice_route (n + 1) now e VoiceActionExecute) in *.
  set (r2 := new_voice_route (n + 1) now x VoiceActionCancel) in *.
  destruct (buttons_new n now e x _ H5) as [Hnew Hold]. fold r1 r2 in Hnew, Hold.
  split; [split|]; cbn.
  - rewrite map_app. apply SSorted_snoc; [done|]. intros y (v & -> & Hv)%list_elem_of_fmap.
    rewrite Forall_forall in H2. specialize (H2 v Hv). cbn in H2 |- *. fold n. lia.
  - apply Forall_app. split; [done|]. apply Forall_singleton, Z.le_refl.
  - apply Forall_app. split; [done|]. apply Forall_singleton. eexists _, _. split; [done|]. by apply unprotect_protect.
  - rewrite !map_app. cbn. apply NoDup_app. split_and!; [apply NoDup_app; split_and!; [done| |apply NoDup_singleton]| |apply NoDup_singleton].
    + by intros y Hy ->%list_elem_of_singleton.
    + by intros y Hy ->%list_elem_of_singleton.
  - rewrite !Forall_app, !Forall_singleton. split_and!; [|cbn; lia..].
    eapply Forall_impl; [exact H5|]. intros r Hr. cbn in Hr. lia.
  - apply Forall_app. split.
    + apply Forall_forall. intros v Hv. rewrite Forall_forall in H2, H6. specialize (H2 v Hv). specialize (H6 v Hv).
      unfold buttons_ok in *. by rewrite Hold.
    + apply Forall_singleton. unfold buttons_ok. cbn [vc_pending vc_Status vc_ID].
      rewrite Hnew. split; [done|]. by repeat constructor.
  - eexists _, [_]. split; [done|apply voices_refl].
Qed.

Lemma voice_step_inv p `{!ProtectorLaws p} s s' :
  VoiceInv p s -> voice_step p s s' -> VoiceInv p s' /\ voices_evolve s s'.
Proof.
  intros HI H. destruct H as [? ? ? ? ? ? ? H|? ? ? ? ? ? ? H|? ? ? ? ? H|? ? ? H|? ? ? ? H|? ? E1 E2 E3].
  - by eapply create_inv.
  - by eapply bind_inv.
  - by eapply consume_inv.
  - injection H as _ <-. by apply recover_voice_inv.
  - injection H as _ <-. by apply finish_one_inv.
  - split; [by destruct HI; split; rewrite ?E1, ?E2, ?E3|].
    exists (mt_voice (db_minimal s)), []. split; [by rewrite app_nil_r|apply voices_refl].
Qed.

Lemma consume_total p now claim s : VoiceInv p s ->
  exists out s', ConsumeVoiceConfirmation (Some p) now claim s = Ok (out, s').
Proof.
  intros HI. unfold ConsumeVoiceConfirmation, tx_bind at 1, tx_gets at 1.
  destruct (voice_by_token _ s) as [[r v]|] eqn:Ev; [|by eexists _, _].
  destruct (claim_admitted claim r v) eqn:Ea; [|by eexists _, _]. cbn [negb].
  destruct (voice_of_token _ _ _ _ _ HI Ev) as (Hr & _ & Hv & Hid).
  assert (vc_pending v = true) as Hp by (unfold claim_admitted in Ea; by bsimp).
  unfold tx_bind at 1, tx_gets at 1. destruct (negb (claim_in_time _ _ _ _)); [by eexists _, _|].
  destruct (negb _ && negb _); [by eexists _, _|].
  unfold sql_update_exactly, tx_bind, tx_gets, sql_update.
  change (rows_of voice_table s) with (mt_voice (db_minimal s)). rewrite (update_voice_one p s v id HI Hv Hp). cbn [Z.eqb Pos.eqb negb].
  rewrite rows_other. rewrite (siblings_two p s v HI Hv Hp). cbn [Z.eqb Pos.eqb].
  destruct (String.eqb _ _); [destruct (Unprotect _ _)|]; by eexists _, _.
Qed.

Lemma voice_steps_inv p `{!ProtectorLaws p} s s' :
  VoiceInv p s -> rtc (voice_step p) s s' -> VoiceInv p s' /\ voices_evolve s s'.
Proof.
  intros HI H. induction H as [s|s s1 s2 H _ IH]; [split; [done|apply evolve_refl]|].
  destruct (voice_step_inv p s s1 HI H) as [HI1 He]. destruct (IH HI1) as [HI2 He2].
  split; [done|by eapply evolve_trans].
Qed.

Lemma VoiceInv_empty p : VoiceInv p emptyStore.
Proof. split; constructor. Qed.

Lemma ex_voice_inv : VoiceInv plainProtector ex_voice.
Proof.
  refine (proj1 (voice_steps_inv _ _ _ (VoiceInv_empty _) _)).
  eapply rtc_l; [eapply (vs_create _ "T1" (mkVoiceConfirmation 0 "p" "new" "" "" "run the tests" "session" "" "2026-01-01T00:05:00Z" 0 0 0 "")
                     ex_execute_token ex_cancel_token); vm_compute; reflexivity|].
  eapply rtc_l; [eapply (vs_bind _ 1 7 0 50); vm_compute; reflexivity|].
  apply rtc_refl.
Qed.

(** A finished confirmation refuses every claim. *)
Lemma finished_refused p now claim s v r :
  VoiceInv p s -> voice_by_token (vk_Token claim) s = Some (r, v) -> vc_pending v = false ->
  ConsumeVoiceConfirmation (Some p) now claim s = Ok ((None, None), s).
Proof.
  intros HI Hv Hp. unfold ConsumeVoiceConfirmation, tx_bind at 1, tx_gets at 1. rewrite Hv.
  unfold claim_admitted. by rewrite Hp, andb_false_r.
Qed.

Lemma evolve_finished s s' v v' :
  voices_evolve s s' -> NoDup (map vc_ID (mt_voice (db_minimal s'))) ->
  v ∈ mt_voice (db_minimal s) -> vc_pending v = false -> v' ∈ mt_voice (db_minimal s') -> vc_ID v' = vc_ID v -> v' = v.
Proof.
  intros (olds & news & E & He) Hnd Hv Hp Hv' Hid.
  apply list_elem_of_lookup in Hv as [i Hi]. destruct (Forall2_lookup_l _ _ _ _ _ He Hi) as (w & Hw & _ & Hf).
  rewrite (Hf Hp) in Hw. clear Hf.
  assert (mt_voice (db_minimal s') !! i = Some v) as Hi' by (rewrite E; by apply lookup_app_l_Some).
  apply list_elem_of_lookup in Hv' as [j Hj].
  assert (i = j) as ->; [|congruence].
  eapply NoDup_lookup; [exact Hnd|by rewrite list_lookup_fmap, Hi'|rewrite list_lookup_fmap, Hj; cbn; congruence].
Qed.

(** The row of the claimed confirmation afterwards. *)
Lemma finish_row status (v : VoiceRow) rows : v ∈ rows -> vc_pending v = true ->
  finish_voice status v ∈ update_where (fun x => vc_id_is (vc_ID v) x && vc_pending x) (finish_voice status) rows.
Proof.
  intros Hv Hp. apply elem_of_update. exists v. split; [done|]. unfold vc_id_is. by rewrite Z.eqb_refl, Hp.
Qed.

(** ** Theorems *)

(** A claim of a sound table never fails.  One that agrees with its button, message,
    session and time finishes the confirmation, erases its transcript, takes both its
    buttons, and returns what was transcribed when it executes; one that comes late
    expires it; any other changes nothing. *)
Theorem ConsumeVoiceConfirmation_spec p now claim s :
  VoiceInv p s ->
  match voice_by_token (vk_Token claim) s with
  | None => ConsumeVoiceConfirmation (Some p) now claim s = Ok ((None, None), s)
  | Some (r, v) =>
      if negb (claim_admitted claim r v) then ConsumeVoiceConfirmation (Some p) now claim s = Ok ((None, None), s)
      else exists s', VoiceInv p s' /\ buttons (vc_ID v) (mt_voiceRoutes (db_minimal s')) = []
        /\ if negb (claim_in_time now claim 2 v) then
             ConsumeVoiceConfirmation (Some p) now claim s = Ok ((None, None), s')
             /\ finish_voice VoiceStatusExpired v ∈ mt_voice (db_minimal s')
           else if String.eqb (vr_Action r) VoiceActionExecute then
             exists e text, vc_Transcript v = Some e /\ Unprotect p e = Ok text
               /\ ConsumeVoiceConfirmation (Some p) now claim s = Ok ((Some (voice_of v text VoiceStatusExecuted), None), s')
               /\ finish_voice VoiceStatusExecuted v ∈ mt_voice (db_minimal s')
           else
             ConsumeVoiceConfirmation (Some p) now claim s = Ok ((Some (voice_of v "" VoiceStatusCancelled), None), s')
             /\ finish_voice VoiceStatusCancelled v ∈ mt_voice (db_minimal s')
  end.
Proof.
  intros HI. destruct (consume_total p now claim s HI) as (out & s' & H). rewrite H.
  destruct (consume_inv _ _ _ _ _ _ HI H) as [HI' _].
  destruct (consume_cases _ _ _ _ _ _ HI H) as [(-> & -> & Hno)|(r & v & Hv & Ha & Hcases)].
  - destruct (voice_by_token _ s) as [[r v]|]; [|done]. by rewrite (Hno r v eq_refl).
  - rewrite Hv, Ha. destruct (voice_of_token _ _ _ _ _ HI Hv) as (_ & _ & Hin & _).
    assert (vc_pending v = true) as Hp by (unfold claim_admitted in Ha; by bsimp).
    exists s'. split; [done|]. destruct Hcases as [(Ht & -> & He)|(status & Ht & _ & -> & Hout)]; rewrite Ht; cbn [negb].
    + apply expire_run in He as ->. split_and!; [apply buttons_consumed|done|by apply finish_row].
    + split; [apply buttons_consumed|]. destruct (String.eqb (vr_Action r) VoiceActionExecute).
      * destruct Hout as (-> & e & text & He & Hu & ->). exists e, text. split_and!; [done..|by apply finish_row].
      * destruct Hout as (-> & ->). split; [done|by apply finish_row].
Qed.

Theorem ConsumeVoiceConfirmation_spec_witness :
  exists c s', ConsumeVoiceConfirmation (Some plainProtector) 0%Z (ex_claim_voice ex_execute_token VoiceActionExecute) ex_voice
    = Ok ((Some c, None), s') /\ vo_Transcript c = "run the tests" /\ vo_Status c = "executed"
    /\ buttons 1 (mt_voiceRoutes (db_minimal s')) = [].
Proof.
  pose proof (ConsumeVoiceConfirmation_spec plainProtector 0%Z (ex_claim_voice ex_execute_token VoiceActionExecute)
                ex_voice ex_voice_inv) as H.
  destruct (voice_by_token _ ex_voice) as [[r v]|] eqn:E; [|vm_compute in E; discriminate E].
  assert (claim_admitted (ex_claim_voice ex_execute_token VoiceActionExecute) r v = true
          /\ claim_in_time 0%Z (ex_claim_voice ex_execute_token VoiceActionExecute) 2 v = true
          /\ vr_Action r = VoiceActionExecute /\ vc_ID v = 1%Z
          /\ vc_Transcript v = match Protect plainProtector "run the tests" with Ok e => Some e | Err _ => None end)
    as (E1 & E2 & E3 & E4 & E5).
  { vm_compute in E. injection E as <- <-. split_and!; vm_compute; reflexivity. }
  rewrite E1, E2, E3 in H. cbn [negb] in H. destruct H as (s' & _ & Hb & e & text & He & Hu & H & _).
  exists (voice_of v text VoiceStatusExecuted), s'. rewrite E4 in Hb. split_and!; [exact H| |reflexivity|exact Hb].
  rewrite E5 in He. injection He as <-. vm_compute in Hu. injection Hu as <-. reflexivity.
Defined.

(** A confirmation is consumed at most once: after a claim took it, no claim on either
    of its buttons obtains anything, whatever happens in between. *)
Theorem voice_consumed_once p `{!ProtectorLaws p} s s1 s2 now claim c err now' claim' r v :
  VoiceInv p s -> ConsumeVoiceConfirmation (Some p) now claim s = Ok ((Some c, err), s1) ->
  rtc (voice_step p) s1 s2 ->
  voice_by_token (vk_Token claim') s2 = Some (r, v) -> vc_ID v = vo_ID c ->
  vc_Transcript v = None /\ ConsumeVoiceConfirmation (Some p) now' claim' s2 = Ok ((None, None), s2).
Proof.
  intros HI H Hsteps Hv Hid. destruct (consume_inv _ _ _ _ _ _ HI H) as [HI1 _].
  destruct (voice_steps_inv p s1 s2 HI1 Hsteps) as [HI2 He].
  destruct (consume_cases _ _ _ _ _ _ HI H) as [(Hn & _)|(r0 & v0 & Hv0 & Ha & [(_ & Hn & _)|(status & _ & Hst & -> & Hout)])];
    [discriminate Hn|discriminate Hn|].
  destruct (voice_of_token _ _ _ _ _ HI Hv0) as (_ & _ & Hin & _).
  destruct (voice_of_token _ _ _ _ _ HI2 Hv) as (_ & _ & Hin' & _).
  assert (vc_pending v0 = true) as Hp by (unfold claim_admitted in Ha; by bsimp).
  assert (vo_ID c = vc_ID v0) as Hc.
  { destruct (String.eqb _ _); [destruct Hout as (_ & e & text & _ & _ & Ho)|destruct Hout as (_ & Ho)]; by injection Ho as ->. }
  assert (vc_pending (finish_voice status v0) = false) as Hf by (by destruct Hst as [-> | ->]).
  assert (v = finish_voice status v0) as ->.
  { eapply evolve_finished; [exact He|exact (SSorted_lt_NoDup _ (vi_sorted _ _ HI2))|by apply finish_row|exact Hf|exact Hin'|].
    cbn. congruence. }
  split; [done|]. by eapply finished_refused.
Qed.

Theorem voice_consumed_once_witness :
  ConsumeVoiceConfirmation (Some plainProtector) 0%Z (ex_claim_voice ex_cancel_token VoiceActionCancel) ex_executed
    = Ok ((None, None), ex_executed).
Proof.
  destruct (ConsumeVoiceConfirmation (Some plainProtector) 0%Z (ex_claim_voice ex_execute_token VoiceActionExecute) ex_voice)
    as [[[[c|] err] s1]|e] eqn:E; [|vm_compute in E; discriminate E|vm_compute in E; discriminate E].
  assert (ex_executed = s1) as Hs by (unfold ex_executed; by rewrite E).
  rewrite Hs. destruct (voice_by_token ex_cancel_token s1) as [[r v]|] eqn:Ev.
  2: { rewrite <- Hs in Ev. vm_compute in Ev. discriminate Ev. }
  apply (voice_consumed_once plainProtector ex_voice s1 s1 0%Z (ex_claim_voice ex_execute_token VoiceActionExecute) c err 0%Z
           (ex_claim_voice ex_cancel_token VoiceActionCancel) r v ex_voice_inv E (rtc_refl _ _) Ev).
  rewrite <- Hs in Ev. vm_compute in Ev. injection Ev as _ <-. vm_compute in E. injection E as <- _ _. reflexivity.
Defined.
