(* ===== verification/Observations.v ===== *)
(** * internal/storage/store_minimal.go: observed threads, selected projects, pickers

    What the minimal profile has seen of each thread of its projects, and which turn it
    has announced; the project a chat works on; the buttons of the pickers, each good for
    one press.  An instant of zero stands for the clock [clock]. *)
From stdpp Require Import base list numbers strings gmap relations.
From Stdlib Require Import Lia Ascii.
From S2P Require Import Prelude GoStrings GoTime Sql Json Model MinimalTables CoreTables Store StoreNotifier.

(** *** Selected projects *)
Definition SetSelectedProject (now : TimeString) (chatID topicID : Z) (projectID0 : string) : Tx Store unit :=
  let projectID := trim_space projectID0 in
  if String.eqb projectID "" then tx_fail "project id is required"
  else tx_modify (fun s => set_minimal
         (set_mt_selected (<[ChatKey chatID topicID := (projectID, now)]> (mt_selected (db_minimal s)))
            (db_minimal s)) s).

Definition GetSelectedProject (chatID topicID : Z) (s : Store) : string :=
  match mt_selected (db_minimal s) !! ChatKey chatID topicID with
  | Some (projectID, _) => projectID
  | None => ""
  end.

(** *** Picker buttons *)
Record MinimalPickerRoute : Type := mkPickerRoute {
  pi_Token : string;
  pi_Action : string;
  pi_ProjectID : string;
  pi_ThreadID : string;
  pi_Page : Z;
  pi_ChatID : Z;
  pi_TopicID : Z;
  pi_Status : string;
  pi_ExpiresAt : TimeString }.

Definition picker_table : Table Store PickerRow :=
  mkTable (fun s => mt_picker (db_minimal s)) (fun l s => set_minimal (set_mt_picker l (db_minimal s)) s).

Definition pk_token_is (token : string) (r : PickerRow) : bool := String.eqb (pk_Token r) token.
Definition pk_active (r : PickerRow) : bool := String.eqb (pk_Status r) "active".

Definition upd_picker (v : string) (r : PickerRow) : PickerRow :=
  mkPickerRow (pk_Token r) (pk_Action r) (pk_ProjectID r) (pk_ThreadID r) (pk_Page r) (pk_ChatID r)
    (pk_TopicID r) v (pk_ExpiresAt r) (pk_CreatedAt r).

Definition insert_picker (now : TimeString) (route : MinimalPickerRoute) : Tx Store unit :=
  let token := trim_space (pi_Token route) in
  let action := trim_space (pi_Action route) in
  let projectID := trim_space (pi_ProjectID route) in
  let threadID := trim_space (pi_ThreadID route) in
  let status := trim_space (pi_Status route) in
  if String.eqb token "" || String.eqb action "" || String.eqb projectID "" || String.eqb status ""
     || String.eqb (trim_space (pi_ExpiresAt route)) "" then
    tx_fail "minimal picker route token, action, project, status, and expiry are required"
  else if (pi_ChatID route =? 0)%Z then tx_fail "minimal picker route chat id is required"
  else if (pi_Page route <? 0)%Z then tx_fail "minimal picker route page cannot be negative"
  else
    tx! rows := tx_gets (rows_of picker_table) in
    if existsb (pk_token_is token) rows then tx_fail "UNIQUE constraint failed: minimal_picker_routes.route_token"
    else sql_insert picker_table (mkPickerRow token action projectID (nullable threadID) (pi_Page route)
           (pi_ChatID route) (pi_TopicID route) status (pi_ExpiresAt route) now).

Definition CreateMinimalPickerRoutes (now : TimeString) (routes : list MinimalPickerRoute) : Tx Store unit :=
  tx_each routes (insert_picker now).

(** action IN ('minimal_existing_open', ...) *)
Definition project_bound_action (action : string) : bool :=
  existsb (String.eqb action)
    ["minimal_existing_open"; "minimal_existing_page"; "minimal_existing_back"; "minimal_existing_select"].

(** A project is selected in the chat, and it is not that of the row. *)
Definition other_project (selected : option string) (r : PickerRow) : bool :=
  match selected with Some p => negb (String.eqb p (pk_ProjectID r)) | None => false end.

(** route_token = ? AND status = 'active' AND chat_id = ? AND topic_id = ? AND expires_at > ? *)
Definition picker_pressed (token : string) (chatID topicID : Z) (nowString : TimeString) (r : PickerRow) : bool :=
  pk_token_is token r && pk_active r && (pk_ChatID r =? chatID)%Z && (pk_TopicID r =? topicID)%Z
  && negb (text_le (pk_ExpiresAt r) nowString).

Definition picker_of (r : PickerRow) : MinimalPickerRoute :=
  mkPickerRoute (pk_Token r) (pk_Action r) (pk_ProjectID r) (default "" (pk_ThreadID r)) (pk_Page r)
    (pk_ChatID r) (pk_TopicID r) (pk_Status r) (pk_ExpiresAt r).

(** [now] or, when it is zero, the clock *)
Definition or_clock (clock now : instant) : TimeString := format_time (if is_zero now then clock else now).

Definition ConsumeMinimalPickerRoute (clock : instant) (token0 : string) (chatID topicID : Z) (now : instant)
  : Tx Store (option MinimalPickerRoute) :=
  let token := trim_space token0 in
  if String.eqb token "" || (chatID =? 0)%Z then tx_ret None
  else
    let nowString := or_clock clock now in
    tx! _ := sql_update picker_table
      (fun r => pk_token_is token r && pk_active r && text_le (pk_ExpiresAt r) nowString) (upd_picker "expired") in
    tx! selected := tx_gets (fun s => fst <$> (mt_selected (db_minimal s) !! ChatKey chatID topicID)) in
    tx! changed := sql_update picker_table
      (fun r => picker_pressed token chatID topicID nowString r
                && (negb (project_bound_action (pk_Action r)) || negb (other_project selected r)))
      (upd_picker "consumed") in
    if (changed =? 0)%Z then
      tx! _ := sql_update picker_table
        (fun r => picker_pressed token chatID topicID nowString r
                  && project_bound_action (pk_Action r) && other_project selected r)
        (upd_picker "consumed") in
      tx_ret None
    else
      tx! row := sql_first picker_table (pk_token_is token) in
      match row with
      | None => tx_fail "sql: no rows in result set"
      | Some r => tx_ret (Some (picker_of r))
      end.

(** *** Observed threads *)

(** lower() of SQLite, which folds ASCII only *)
Fixpoint sql_lower (s : string) : string :=
  match s with
  | EmptyString => EmptyString
  | String c r => String (lower_ascii c) (sql_lower r)
  end.

Definition terminal_statuses : list string := ["completed"; "failed"; "interrupted"; "cancelled"; "canceled"].

Definition minimalTerminalStatus (status : string) : bool :=
  existsb (String.eqb (trim_space (to_lower status))) terminal_statuses.

(** lower(coalesce(last_turn_status, '')) IN (...) *)
Definition sql_terminal (status : option string) : bool :=
  existsb (String.eqb (sql_lower (default "" status))) terminal_statuses.

Definition minimalObservationReadRequired (status turnID : string) : bool :=
  if negb (String.eqb (trim_space turnID) "") && negb (minimalTerminalStatus status) then true
  else
    let normalized := to_lower (trim_space status) in
    if String.eqb normalized "notloaded" || String.eqb normalized "not_loaded" then true
    else String.eqb normalized "active" || has_prefix normalized "active["
         || contains normalized "waitingon" || contains normalized "inprogress" || contains normalized "running".

(** coalesce(max(discovery_seq), 0) + 1 *)
Definition next_minimal_seq (o : gmap string MinimalObservation) : Z :=
  (default 0 (map_fold (fun _ r m => Some (match m with
                                           | Some x => Z.max (mo_DiscoverySeq r) x
                                           | None => mo_DiscoverySeq r
                                           end)) None o) + 1)%Z.

Definition set_observed (threadID : string) (r : MinimalObservation) (s : Store) : Store :=
  set_minimal (set_mt_observations (<[threadID := r]> (mt_observations (db_minimal s))) (db_minimal s)) s.

(** SET project_id = ?, last_updated_at = ?, read_required = 1, updated_at = ? *)
Definition mark_read (projectID : string) (updatedAt : Z) (nowString : TimeString) (r : MinimalObservation)
  : MinimalObservation :=
  mkMinimalObservation projectID updatedAt (mo_LastTurnID r) (mo_LastTurnStatus r) (mo_BaselineReady r) true
    (mo_Retired r) (mo_DiscoverySeq r) nowString.

(** Whether a listing of the thread says something new about the row. *)
Definition observation_changed (thread : Thread) (turnID status : string) (readRequired : bool)
    (previous : option MinimalObservation) : bool :=
  match previous with
  | None => true
  | Some r =>
      let previousStatus := default "" (mo_LastTurnStatus r) in
      (mo_LastUpdatedAt r <? th_UpdatedAt thread)%Z
      || ((th_UpdatedAt thread =? mo_LastUpdatedAt r)%Z
          && (negb (String.eqb turnID (default "" (mo_LastTurnID r)))
              || (negb (minimalTerminalStatus previousStatus) && negb (equal_fold status previousStatus))))
      || (readRequired && negb (mo_ReadRequired r))
  end.

Definition ObserveMinimalThread (clock : instant) (thread : Thread) (projectID0 : string) (now : instant)
  : Tx Store unit :=
  let threadID := trim_space (th_ID thread) in
  let projectID := trim_space projectID0 in
  if String.eqb threadID "" || String.eqb projectID "" then
    tx_fail "minimal observation thread id and project id are required"
  else
    let nowString := or_clock clock now in
    let turnID := trim_space (th_ActiveTurnID thread) in
    let status := trim_space (th_Status thread) in
    let readRequired := minimalObservationReadRequired status turnID in
    tx_modify (fun s =>
      let previous := mt_observations (db_minimal s) !! threadID in
      let previousTurnID := match previous with Some r => default "" (mo_LastTurnID r) | None => "" end in
      let previousStatus := match previous with Some r => default "" (mo_LastTurnStatus r) | None => "" end in
      if match previous with Some r => mo_Retired r | None => false end then s
      else if negb (observation_changed thread turnID status readRequired previous) then s
      else
        let unfinished := negb (String.eqb previousTurnID "") && negb (minimalTerminalStatus previousStatus) in
        let row := match previous with
          | Some r =>
              if (String.eqb turnID "" && unfinished && readRequired)
                 || (minimalTerminalStatus status && unfinished
                     && (String.eqb turnID "" || String.eqb previousTurnID turnID))
              then mark_read projectID (th_UpdatedAt thread) nowString r
              else mkMinimalObservation projectID (th_UpdatedAt thread) (nullable turnID) (nullable status) true
                     readRequired (mo_Retired r) (mo_DiscoverySeq r) nowString
          | None =>
              mkMinimalObservation projectID (th_UpdatedAt thread) (nullable turnID) (nullable status) true
                readRequired false (next_minimal_seq (mt_observations (db_minimal s))) nowString
          end in
        set_observed threadID row s).

Definition thread_of_row (id : string) (t : ThreadRow) : Thread :=
  mkThread id (tr_Title t) (default "" (tr_CWD t)) (tr_ProjectName t) (default "" (tr_DirectoryName t))
    (tr_UpdatedAt t) (default "" (tr_Status t)) (default "" (tr_LastPreview t)) (default "" (tr_ActiveTurnID t))
    (default "" (tr_PreferredModel t)) (default "" (tr_PermissionsMode t)) (tr_Archived t) (Some (tr_Raw t)).

(** ORDER BY o.discovery_seq ASC, t.thread_id ASC *)
Definition observed_order (a b : string * MinimalObservation) : bool :=
  (mo_DiscoverySeq a.2 <? mo_DiscoverySeq b.2)%Z
  || ((mo_DiscoverySeq a.2 =? mo_DiscoverySeq b.2)%Z && text_le a.1 b.1).

Definition ListMinimalObservedThreadsDue (limit : Z) (s : Store) : list Thread :=
  let n := if (limit <=? 0)%Z then 50%Z else limit in
  take (Z.to_nat n)
    (omap (fun kr => thread_of_row kr.1 <$> cr_threads (db_core s) !! kr.1)
       (sort_by observed_order
          (filter (fun kr => mo_ReadRequired kr.2 && negb (mo_Retired kr.2))
             (map_to_list (mt_observations (db_minimal s)))))).

Definition RetireMinimalObservation (clock : instant) (threadID0 : string) (now : instant) : Tx Store unit :=
  let threadID := trim_space threadID0 in
  if String.eqb threadID "" then tx_ret tt
  else tx_modify (fun s => set_minimal (set_mt_observations (alter (fun r =>
         mkMinimalObservation (mo_ProjectID r) (mo_LastUpdatedAt r) (mo_LastTurnID r) (mo_LastTurnStatus r)
           (mo_BaselineReady r) false true (mo_DiscoverySeq r) (or_clock clock now))
         threadID (mt_observations (db_minimal s))) (db_minimal s)) s).

(** Whether the thread is observed, and whether a read of it is due. *)
Definition MinimalObservationReadRequired (threadID0 : string) (s : Store) : bool * bool :=
  let threadID := trim_space threadID0 in
  if String.eqb threadID "" then (false, false)
  else match mt_observations (db_minimal s) !! threadID with
       | None => (false, false)
       | Some r => (true, negb (mo_Retired r) && mo_ReadRequired r)
       end.

(** The condition of the claim: the turn is the one that runs, or another than the
    finished last one, or the first one seen of a thread that was not loaded. *)
Definition transition_open (turnID : string) (allowRecentNotLoaded : bool) (r : MinimalObservation) : bool :=
  let last := default "" (mo_LastTurnID r) in
  mo_BaselineReady r && negb (mo_Retired r)
  && ((is_text (mo_LastTurnID r) turnID && negb (String.eqb (default "" (mo_LastTurnStatus r)) "")
       && negb (sql_terminal (mo_LastTurnStatus r)))
      || (negb (String.eqb last turnID) && sql_terminal (mo_LastTurnStatus r))
      || (allowRecentNotLoaded && String.eqb last ""
          && existsb (String.eqb (sql_lower (default "" (mo_LastTurnStatus r)))) ["notloaded"; "not_loaded"])).

Definition claimMinimalTerminalTransition (clock : instant) (threadID0 turnID0 outcome0 : string)
    (allowRecentNotLoaded : bool) (now : instant) : Tx Store (option TerminalEvent) :=
  let threadID := trim_space threadID0 in
  let turnID := trim_space turnID0 in
  let outcome := trim_space (to_lower outcome0) in
  if String.eqb threadID "" || String.eqb turnID "" || negb (minimalTerminalStatus outcome) then tx_ret None
  else
    let nowString := or_clock clock now in
    tx! row := tx_gets (fun s => mt_observations (db_minimal s) !! threadID) in
    match row with
    | Some r =>
        if transition_open turnID allowRecentNotLoaded r then
          tx! _ := tx_modify (set_observed threadID
            (mkMinimalObservation (mo_ProjectID r) (mo_LastUpdatedAt r) (Some turnID) (Some outcome)
               (mo_BaselineReady r) true (mo_Retired r) (mo_DiscoverySeq r) nowString)) in
          tx_ret (Some (mkTerminalEvent (threadID +:+ ":" +:+ turnID +:+ ":" +:+ outcome) threadID turnID outcome
                          DeliveryStatusPending nowString))
        else tx_ret None
    | None => tx_ret None
    end.

Definition ClaimMinimalTerminalTransition (clock : instant) (threadID turnID outcome : string) (now : instant)
  : Tx Store (option TerminalEvent) :=
  claimMinimalTerminalTransition clock threadID turnID outcome false now.

Definition ClaimMinimalTerminalTransitionAfterBaseline (clock : instant) (threadID turnID outcome : string)
    (threadUpdatedAt baselineSinceUnix : Z) (now : instant) : Tx Store (option TerminalEvent) :=
  claimMinimalTerminalTransition clock threadID turnID outcome
    ((0 <? baselineSinceUnix)%Z && (baselineSinceUnix <=? threadUpdatedAt)%Z) now.

Definition ReopenMinimalTerminalTransition (clock : instant) (threadID0 turnID0 : string) (now : instant)
  : Tx Store unit :=
  let threadID := trim_space threadID0 in
  let turnID := trim_space turnID0 in
  if String.eqb threadID "" || String.eqb turnID "" then tx_ret tt
  else tx_modify (fun s => set_minimal (set_mt_observations (alter (fun r =>
         if is_text (mo_LastTurnID r) turnID && negb (mo_Retired r) && sql_terminal (mo_LastTurnStatus r)
         then mkMinimalObservation (mo_ProjectID r) (mo_LastUpdatedAt r) (mo_LastTurnID r) (Some "inProgress")
                (mo_BaselineReady r) true (mo_Retired r) (mo_DiscoverySeq r) (or_clock clock now)
         else r) threadID (mt_observations (db_minimal s))) (db_minimal s)) s).

(** ** Specification of the pickers *)
Inductive picker_step : Store -> Store -> Prop :=
| pk_create now routes s a s' : CreateMinimalPickerRoutes now routes s = Ok (a, s') -> picker_step s s'
| pk_consume clock token chatID topicID now s a s' :
    ConsumeMinimalPickerRoute clock token chatID topicID now s = Ok (a, s') -> picker_step s s'
| pk_select now chatID topicID projectID s a s' :
    SetSelectedProject now chatID topicID projectID s = Ok (a, s') -> picker_step s s'
| pk_other s s' : mt_picker (db_minimal s') = mt_picker (db_minimal s) -> picker_step s s'.

Definition tokens (s : Store) : list string := map pk_Token (mt_picker (db_minimal s)).

(** A pressed or expired button stays as it is. *)
Definition pickers_evolve (s s' : Store) : Prop :=
  forall r, r ∈ mt_picker (db_minimal s) -> pk_active r = false -> r ∈ mt_picker (db_minimal s').

(** A sample: one button of a picker, and a thread whose turn runs. *)
Definition ex_picker : Store :=
  match CreateMinimalPickerRoutes "T1"
          [mkPickerRoute "tok" "minimal_existing_select" "p" "thread" 0 7 0 "active" "2026-01-01T00:05:00Z"] emptyStore with
  | Ok (_, s) => s
  | Err _ => emptyStore
  end.

Definition ex_noon : instant := parseTime "2026-01-01T00:01:00Z".

Definition ex_thread (status turnID : string) (updatedAt : Z) : Thread :=
  mkThread "th" "Title" "" "" "" updatedAt status "" turnID "" "" false None.

Definition ex_running : Store :=
  match ObserveMinimalThread 0%Z (ex_thread "active" "turn-1" 100) "p" 0%Z emptyStore with
  | Ok (_, s) => s
  | Err _ => emptyStore
  end.

#[export] Instance picker_table_laws : TableLaws picker_table.
Proof. split; intros; [done|done|]. by destruct s as [? ? ? ? ? ? ? ? [] ?]. Qed.

(** ** Lemmas *)
#[local] Arguments update_where : simpl never.
#[local] Arguments affected : simpl never.
#[local] Arguments find_first : simpl never.
#[local] Arguments sql_terminal : simpl never.

Lemma insert_picker_run now route s a s' : insert_picker now route s = Ok (a, s') ->
  exists row, (pk_Token row ∉ tokens s) /\ mt_picker (db_minimal s') = mt_picker (db_minimal s) ++ [row].
Proof.
  unfold insert_picker. intros H.
  do 3 (match type of H with (if ?b then _ else _) _ = _ => destruct b; [discriminate H|] end).
  tx_inv H. apply tx_gets_ok in Htx as [-> ->].
  destruct (existsb _ _) eqn:E; [discriminate H|]. injection H as _ <-. eexists. split; [|reflexivity].
  cbn. intros (r & Ht & Hr)%list_elem_of_fmap. rewrite <- not_true_iff_false in E. apply E. apply existsb_exists.
  exists r. split; [by apply list_elem_of_In|]. unfold pk_token_is. rewrite <- Ht. apply String.eqb_refl.
Qed.

Lemma create_pickers now routes : forall s a s', NoDup (tokens s) ->
  CreateMinimalPickerRoutes now routes s = Ok (a, s') -> NoDup (tokens s') /\ pickers_evolve s s'.
Proof.
  unfold CreateMinimalPickerRoutes. induction routes as [|route rest IH]; intros s a s' Hnd H; cbn in H.
  - apply tx_ret_ok in H as [_ ->]. split; [done|]. by intros r Hr _.
  - tx_inv H. apply insert_picker_run in Htx as (row & Hfresh & E).
    assert (NoDup (tokens s0)) as Hnd0.
    { unfold tokens. rewrite E, map_app. apply NoDup_app. split_and!; [done| |apply NoDup_singleton].
      by intros x Hx ->%list_elem_of_singleton. }
    destruct (IH _ _ _ Hnd0 H) as [Hnd' He]. split; [done|]. intros r Hr Hf. apply He; [|done].
    rewrite E. apply elem_of_app. by left.
Qed.

Lemma update_picker_evolves (q : PickerRow -> bool) v rows r :
  (forall x, q x = true -> pk_active x = true) -> r ∈ rows -> pk_active r = false ->
  r ∈ update_where q (upd_picker v) rows.
Proof.
  intros Hq Hr Hf. apply elem_of_update. exists r. split; [done|]. destruct (q r) eqn:E; [|done].
  by rewrite (Hq r E) in Hf.
Qed.

Lemma pressed_active token c t at_ r : picker_pressed token c t at_ r = true -> pk_active r = true.
Proof. unfold picker_pressed. intros H. by bsimp. Qed.

(** The three updates of a press, as one table. *)
Lemma consume_run clock token c t now s out s' :
  ConsumeMinimalPickerRoute clock token c t now s = Ok (out, s') ->
  (out = None \/ exists r, out = Some (picker_of r) /\ r ∈ mt_picker (db_minimal s') /\ pk_Token r = trim_space token)
  /\ exists l, mt_picker (db_minimal s') = l /\ map pk_Token l = tokens s
     /\ forall r, r ∈ mt_picker (db_minimal s) -> pk_active r = false -> r ∈ l.
Proof.
  unfold ConsumeMinimalPickerRoute. intros H.
  destruct (_ || _); [apply tx_ret_ok in H as [-> ->]; split; [by left|]; eexists; split_and!; [done|done|by intros r Hr _]|].
  tx_inv H. injection Htx as _ <-. apply tx_gets_ok in Htx0 as [_ ->]. injection Htx1 as <- <-.
  set (l1 := update_where _ (upd_picker "expired") _) in H.
  assert (map pk_Token l1 = tokens s) as T1 by (by apply map_update).
  assert (forall r, r ∈ mt_picker (db_minimal s) -> pk_active r = false -> r ∈ l1) as E1.
  { intros r Hr Hf. apply update_picker_evolves; [|done|done]. intros x Hx. by bsimp. }
  destruct (_ =? 0)%Z.
  - tx_inv H. injection Htx as _ <-. apply tx_ret_ok in H as [-> ->]. split; [by left|]. eexists. split; [reflexivity|]. cbn.
    split; [by rewrite !map_update|]. intros r Hr Hf.
    apply update_picker_evolves; [intros x [[Hx _]%andb_prop _]%andb_prop; by eapply pressed_active| |done].
    apply update_picker_evolves; [intros x [Hx _]%andb_prop; by eapply pressed_active|by apply E1|done].
  - tx_inv H. apply tx_gets_ok in Htx as [-> ->]. destruct (find_first _ _) as [r|] eqn:Ef; [|discriminate H].
    apply tx_ret_ok in H as [-> ->]. apply find_first_some in Ef as [Hr Ht%String.eqb_eq].
    split; [right; by exists r|]. eexists. split; [reflexivity|]. cbn. split; [by rewrite map_update|].
    intros x Hx Hf. apply update_picker_evolves; [intros y [Hy _]%andb_prop; by eapply pressed_active|by apply E1|done].
Qed.

(** A press that is answered. *)
Lemma consume_some clock token c t now s route s' :
  NoDup (tokens s) -> ConsumeMinimalPickerRoute clock token c t now s = Ok (Some route, s') ->
  exists r, r ∈ mt_picker (db_minimal s) /\ picker_pressed (trim_space token) c t (or_clock clock now) r = true
    /\ (project_bound_action (pk_Action r) = true ->
        GetSelectedProject c t s = pk_ProjectID r \/ mt_selected (db_minimal s) !! ChatKey c t = None)
    /\ route = picker_of (upd_picker "consumed" r) /\ upd_picker "consumed" r ∈ mt_picker (db_minimal s').
Proof.
  intros Hnd H. pose proof (consume_run _ _ _ _ _ _ _ _ H) as (_ & rows & Hrows & Ht & _).
  unfold ConsumeMinimalPickerRoute in H.
  destruct (_ || _); [by apply tx_ret_ok in H as [H _]|].
  tx_inv H. injection Htx as _ <-. apply tx_gets_ok in Htx0 as [-> ->]. injection Htx1 as <- <-.
  set (l1 := update_where _ (upd_picker "expired") _) in H.
  set (q2 := fun r => picker_pressed (trim_space token) c t (or_clock clock now) r
                      && (negb (project_bound_action (pk_Action r))
                          || negb (other_project (fst <$> (mt_selected (db_minimal s) !! ChatKey c t)) r))).
  change (mt_selected (db_minimal (with_rows picker_table _ s))) with (mt_selected (db_minimal s)) in H.
  change (rows_of picker_table (with_rows picker_table l1 s)) with l1 in H. fold q2 in H.
  destruct (Z.eqb_spec (affected q2 l1) 0) as [|Hn]; [tx_inv H; by apply tx_ret_ok in H as [H _]|].
  apply affected_some in Hn as (x & Hx & Hq). tx_inv H. apply tx_gets_ok in Htx as [-> ->].
  destruct (find_first _ _) as [y|] eqn:Ef; [|discriminate H]. apply tx_ret_ok in H as [[= ->] ->].
  apply find_first_some in Ef as [Hy Hty%String.eqb_eq].
  pose proof Hq as Hq'. apply andb_prop in Hq' as [Hp Hsel].
  assert (x ∈ mt_picker (db_minimal s)) as Hin.
  { apply elem_of_update in Hx as (r & Hr & ->). destruct (_ && _); [|done].
    apply pressed_active in Hp. discriminate Hp. }
  assert (upd_picker "consumed" x ∈ update_where q2 (upd_picker "consumed") l1) as Hcons
    by (apply elem_of_update; exists x; by rewrite Hq).
  assert (y = upd_picker "consumed" x) as ->.
  { eapply (keyed_inj pk_Token); [|exact Hy|exact Hcons|].
    - pose proof Hnd as Hnd'. rewrite <- Ht, <- Hrows in Hnd'. exact Hnd'.
    - rewrite Hty. unfold picker_pressed, pk_token_is in Hp. cbn. by bsimp. }
  exists x. split_and!; [done|exact Hp| |done|exact Hcons].
  intros Hb. rewrite Hb in Hsel. cbn in Hsel. apply negb_true_iff in Hsel. unfold other_project, GetSelectedProject in *.
  cbn in Hsel. destruct (mt_selected (db_minimal s) !! ChatKey c t) as [[sel ?]|]; [left|by right]. cbn in Hsel. by bsimp.
Qed.

Lemma picker_steps_evolve s s' : NoDup (tokens s) -> rtc picker_step s s' -> NoDup (tokens s') /\ pickers_evolve s s'.
Proof.
  intros Hnd H. induction H as [s|s s1 s2 H _ IH]; [split; [done|by intros r Hr _]|].
  assert (NoDup (tokens s1) /\ pickers_evolve s s1) as [Hnd1 He1].
  { destruct H as [? ? ? ? ? H|? ? ? ? ? ? ? ? H|? ? ? ? ? ? ? H|? ? E].
    - by eapply create_pickers.
    - destruct (consume_run _ _ _ _ _ _ _ _ H) as (_ & l & <- & Ht & He). split; [unfold tokens; by rewrite Ht|exact He].
    - unfold SetSelectedProject in H. destruct (String.eqb _ _); [discriminate H|]. injection H as _ <-.
      split; [done|by intros r Hr _].
    - unfold tokens, pickers_evolve. rewrite E. by split; [|intros r Hr _]. }
  destruct (IH Hnd1) as [Hnd2 He2]. split; [done|]. intros r Hr Hf. by apply He2; [apply He1|].
Qed.

(** No active row has the token. *)
Lemma press_refused clock token c t now s :
  (forall r, r ∈ mt_picker (db_minimal s) -> pk_Token r = trim_space token -> pk_active r = false) ->
  exists s', ConsumeMinimalPickerRoute clock token c t now s = Ok (None, s').
Proof.
  intros Hno. unfold ConsumeMinimalPickerRoute. destruct (_ || _); [by eexists|].
  unfold tx_bind, sql_update, tx_gets.
  set (l1 := update_where _ (upd_picker "expired") _).
  match goal with |- context [affected ?q ?l] => assert (affected q l = 0%Z) as -> end.
  { apply affected_zero. intros x Hx. apply not_true_iff_false. intros [Hp _]%andb_prop.
    pose proof (pressed_active _ _ _ _ _ Hp) as Ha. cbn in Hx. apply elem_of_update in Hx as (r & Hr & ->).
    destruct (_ && _); [discriminate Ha|]. rewrite (Hno r Hr) in Ha; [discriminate Ha|].
    unfold picker_pressed, pk_token_is in Hp. by bsimp. }
  cbn [Z.eqb]. by eexists.
Qed.

(** *** Transitions *)
Lemma outcome_canonical outcome : outcome ∈ terminal_statuses ->
  trim_space (to_lower outcome) = outcome /\ minimalTerminalStatus outcome = true
  /\ sql_terminal (Some outcome) = true /\ outcome <> "".
Proof. intros H. repeat (apply elem_of_cons in H as [->|H]; [vm_compute; done|]). by apply elem_of_nil in H. Qed.

Lemma transition_run clock threadID turnID outcome allow now s :
  trim_space threadID <> "" -> trim_space turnID <> "" -> outcome ∈ terminal_statuses ->
  claimMinimalTerminalTransition clock threadID turnID outcome allow now s =
  match mt_observations (db_minimal s) !! trim_space threadID with
  | Some r =>
      if transition_open (trim_space turnID) allow r then
        Ok (Some (mkTerminalEvent (trim_space threadID +:+ ":" +:+ trim_space turnID +:+ ":" +:+ outcome)
                    (trim_space threadID) (trim_space turnID) outcome DeliveryStatusPending (or_clock clock now)),
            set_observed (trim_space threadID)
              (mkMinimalObservation (mo_ProjectID r) (mo_LastUpdatedAt r) (Some (trim_space turnID)) (Some outcome)
                 (mo_BaselineReady r) true (mo_Retired r) (mo_DiscoverySeq r) (or_clock clock now)) s)
      else Ok (None, s)
  | None => Ok (None, s)
  end.
Proof.
  intros Ht Hu Ho. destruct (outcome_canonical outcome Ho) as (Hc & Hm & _).
  unfold claimMinimalTerminalTransition. rewrite Hc, Hm.
  rewrite (proj2 (String.eqb_neq _ "") Ht), (proj2 (String.eqb_neq _ "") Hu). cbn [orb negb].
  unfold tx_bind, tx_gets. destruct (mt_observations _ !! _) as [r|]; [|done]. by destruct (transition_open _ _ r).
Qed.

Lemma observed_lookup id r s : mt_observations (db_minimal (set_observed id r s)) !! id = Some r.
Proof. cbn. apply lookup_insert_eq. Qed.

Lemma idle_closed turnID allow project updatedAt b rr retired seq at_ :
  transition_open turnID allow
    (mkMinimalObservation project updatedAt (nullable "") (nullable "idle") b rr retired seq at_) = false.
Proof.
  replace (nullable "") with (@None string) by (vm_compute; reflexivity).
  replace (nullable "idle") with (Some "idle") by (vm_compute; reflexivity).
  unfold transition_open. cbn. by rewrite !andb_false_r.
Qed.

(** A turn that ended and was reopened can be claimed again. *)
Lemma reopened_claims threadID turnID outcome s r :
  outcome ∈ terminal_statuses -> trim_space threadID <> "" -> trim_space turnID <> "" ->
  mt_observations (db_minimal s) !! trim_space threadID = Some r ->
  mo_LastTurnID r = Some (trim_space turnID) -> mo_LastTurnStatus r = Some outcome ->
  mo_BaselineReady r = true -> mo_Retired r = false ->
  forall clock now clock' now' allow', exists s1 e2 s2,
    ReopenMinimalTerminalTransition clock threadID turnID now s = Ok (tt, s1)
    /\ claimMinimalTerminalTransition clock' threadID turnID outcome allow' now' s1 = Ok (Some e2, s2)
    /\ te_TerminalKey e2 = trim_space threadID +:+ ":" +:+ trim_space turnID +:+ ":" +:+ outcome.
Proof.
  intros Ho Ht Hu Hr H1 H2 Hb Hret clock now clock' now' allow'. destruct (outcome_canonical outcome Ho) as (_ & _ & Hst & _).
  unfold ReopenMinimalTerminalTransition.
  rewrite (proj2 (String.eqb_neq _ "") Ht), (proj2 (String.eqb_neq _ "") Hu).
  eexists. do 2 eexists. split; [reflexivity|]. rewrite transition_run by done. cbn.
  rewrite lookup_alter_eq, Hr. cbn. rewrite H1, H2. cbn. rewrite String.eqb_refl, Hret, Hst. cbn.
  unfold transition_open. cbn. rewrite Hb, ?H1. cbn. rewrite ?String.eqb_refl, ?Hret. done.
Qed.

(** ** Theorems *)

(** A picker button answers at most one press: the press that got it came from its chat
    and topic, before its expiry and, where the action depends on it, under the project
    of the button; afterwards no press of the same token gets anything. *)
Theorem picker_pressed_once clock token c t now s route s1 s2 clock' token' c' t' now' :
  NoDup (tokens s) -> ConsumeMinimalPickerRoute clock token c t now s = Ok (Some route, s1) ->
  rtc picker_step s1 s2 -> trim_space token' = pi_Token route ->
  pi_ChatID route = c /\ pi_TopicID route = t /\ pi_Token route = trim_space token
  /\ text_le (pi_ExpiresAt route) (or_clock clock now) = false
  /\ (project_bound_action (pi_Action route) = true ->
      GetSelectedProject c t s = pi_ProjectID route \/ mt_selected (db_minimal s) !! ChatKey c t = None)
  /\ exists s', ConsumeMinimalPickerRoute clock' token' c' t' now' s2 = Ok (None, s').
Proof.
  intros Hnd H Hsteps Htok. destruct (consume_some _ _ _ _ _ _ _ _ Hnd H) as (r & Hr & Hp & Hb & -> & Hin).
  destruct (consume_run _ _ _ _ _ _ _ _ H) as (_ & l & E & Ht & _).
  assert (NoDup (tokens s1)) as Hnd1 by (unfold tokens; by rewrite E, Ht).
  destruct (picker_steps_evolve s1 s2 Hnd1 Hsteps) as [Hnd2 He]. specialize (He _ Hin eq_refl).
  unfold picker_pressed, pk_token_is in Hp. bsimp. cbn in Htok |- *. split_and!; [done..|].
  apply press_refused. intros x Hx Hxt. replace x with (upd_picker "consumed" r); [done|].
  eapply (keyed_inj pk_Token); [exact Hnd2|done|done|]. cbn. congruence.
Qed.

Theorem picker_pressed_once_witness :
  exists route s1, ConsumeMinimalPickerRoute 0%Z "tok" 7 0 ex_noon ex_picker = Ok (Some route, s1)
    /\ pi_ProjectID route = "p" /\ exists s', ConsumeMinimalPickerRoute 0%Z " tok " 7 0 ex_noon s1 = Ok (None, s').
Proof.
  destruct (ConsumeMinimalPickerRoute 0%Z "tok" 7 0 ex_noon ex_picker) as [[[route|] s1]|e] eqn:E;
    [|vm_compute in E; discriminate E|vm_compute in E; discriminate E].
  exists route, s1. split; [reflexivity|].
  assert (pi_ProjectID route = "p" /\ pi_Token route = "tok") as [Hp Ht]
    by (vm_compute in E; injection E as <- _; split; reflexivity).
  split; [exact Hp|].
  apply (picker_pressed_once 0%Z "tok" 7 0 ex_noon ex_picker route s1 s1 0%Z " tok " 7 0 ex_noon); [|exact E|apply rtc_refl|].
  - vm_compute. apply NoDup_singleton.
  - rewrite Ht. vm_compute. reflexivity.
Defined.

(** The end of a turn is claimed once: the claim names the turn and its outcome, and no
    later claim of the same turn obtains anything until the transition is reopened;
    then the same claim obtains the same key again. *)
Theorem terminal_claimed_once clock threadID turnID outcome allow now s e s' :
  outcome ∈ terminal_statuses ->
  claimMinimalTerminalTransition clock threadID turnID outcome allow now s = Ok (Some e, s') ->
  te_TerminalKey e = trim_space threadID +:+ ":" +:+ trim_space turnID +:+ ":" +:+ outcome
  /\ (forall clock' outcome' allow' now', outcome' ∈ terminal_statuses ->
        claimMinimalTerminalTransition clock' threadID turnID outcome' allow' now' s' = Ok (None, s'))
  /\ (forall clock' now' allow', exists s1 e2 s2,
        ReopenMinimalTerminalTransition clock' threadID turnID now' s' = Ok (tt, s1)
        /\ claimMinimalTerminalTransition clock' threadID turnID outcome allow' now' s1 = Ok (Some e2, s2)
        /\ te_TerminalKey e2 = te_TerminalKey e).
Proof.
  intros Ho H. destruct (outcome_canonical outcome Ho) as (Hc & Hm & Hst & Hne).
  assert (trim_space threadID <> "" /\ trim_space turnID <> "") as [Ht Hu].
  { unfold claimMinimalTerminalTransition in H. destruct (_ || _) eqn:E; [by apply tx_ret_ok in H as [H _]|].
    apply orb_false_elim in E as [E _]. bsimp. done. }
  rewrite transition_run in H by done. destruct (_ !! _) as [r|] eqn:Er; [|discriminate H].
  destruct (transition_open _ _ r) eqn:Eo; [|discriminate H]. injection H as <- <-.
  unfold transition_open in Eo. apply andb_prop in Eo as [[Hb Hr]%andb_prop _].
  split_and!; [done| |].
  - intros clock' outcome' allow' now' Ho'. rewrite transition_run by done. rewrite observed_lookup.
    unfold transition_open. cbn. rewrite Hb, Hr, String.eqb_refl, Hst. cbn. rewrite andb_false_r. cbn.
    rewrite (proj2 (String.eqb_neq _ "") Hu), andb_false_r. done.
  - intros clock' now' allow'. eapply reopened_claims; [exact Ho|exact Ht|exact Hu|apply observed_lookup|reflexivity|reflexivity|exact Hb|by apply negb_true_iff].
Qed.

Theorem terminal_claimed_once_witness :
  exists e s', ClaimMinimalTerminalTransition 0%Z "th" "turn-1" "completed" ex_noon ex_running = Ok (Some e, s')
    /\ te_TerminalKey e = "th:turn-1:completed"
    /\ ClaimMinimalTerminalTransition 0%Z "th" "turn-1" "failed" ex_noon s' = Ok (None, s').
Proof.
  destruct (ClaimMinimalTerminalTransition 0%Z "th" "turn-1" "completed" ex_noon ex_running) as [[[e|] s']|err] eqn:E;
    [|vm_compute in E; discriminate E|vm_compute in E; discriminate E].
  destruct (terminal_claimed_once 0%Z "th" "turn-1" "completed" false ex_noon ex_running e s' ltac:(left) E) as (H1 & H2 & _).
  exists e, s'. split_and!; [reflexivity|exact H1|apply H2; right; left].
Defined.

(** A turn that ends between two listings is lost when the next listing shows its thread
    idle: the observation forgets the turn, asks for no read, and the end of the turn
    cannot be claimed any more. *)
Theorem idle_listing_loses_turn clock now thread projectID r turnID s :
  trim_space (th_ID thread) = th_ID thread -> th_ID thread <> "" -> trim_space projectID <> "" ->
  mt_observations (db_minimal s) !! th_ID thread = Some r -> mo_Retired r = false ->
  mo_LastTurnID r = Some turnID -> trim_space turnID = turnID -> turnID <> "" ->
  (mo_LastUpdatedAt r < th_UpdatedAt thread)%Z -> th_Status thread = "idle" -> th_ActiveTurnID thread = "" ->
  exists s', ObserveMinimalThread clock thread projectID now s = Ok (tt, s')
    /\ MinimalObservationReadRequired (th_ID thread) s' = (true, false)
    /\ forall clock' outcome allow now', outcome ∈ terminal_statuses ->
         claimMinimalTerminalTransition clock' (th_ID thread) turnID outcome allow now' s' = Ok (None, s').
Proof.
  intros Htid Hid Hp Hr Hret Hlast Htt Htu Hupd Hstat Hact.
  unfold ObserveMinimalThread. rewrite Htid.
  rewrite (proj2 (String.eqb_neq _ "") Hid), (proj2 (String.eqb_neq _ "") Hp). cbn [orb].
  rewrite Hstat, Hact. replace (trim_space "idle") with "idle" by (vm_compute; reflexivity).
  replace (trim_space "") with "" by (vm_compute; reflexivity).
  replace (minimalObservationReadRequired "idle" "") with false by (vm_compute; reflexivity).
  unfold tx_modify. rewrite Hr, Hret. unfold observation_changed. rewrite (proj2 (Z.ltb_lt _ _) Hupd). cbn [orb negb].
  replace (minimalTerminalStatus "idle") with false by (vm_compute; reflexivity).
  rewrite andb_false_r. cbn [orb andb]. eexists. split; [reflexivity|]. split.
  - unfold MinimalObservationReadRequired. rewrite Htid, (proj2 (String.eqb_neq _ "") Hid), observed_lookup. done.
  - intros clock' outcome allow now' Ho. rewrite transition_run by (rewrite ?Htid, ?Htt; done). rewrite Htid, Htt, observed_lookup.
    by rewrite idle_closed.
Qed.

Theorem idle_listing_loses_turn_witness :
  exists s', ObserveMinimalThread 0%Z (ex_thread "idle" "" 200) "p" ex_noon ex_running = Ok (tt, s')
    /\ ClaimMinimalTerminalTransition 0%Z "th" "turn-1" "completed" ex_noon s' = Ok (None, s').
Proof.
  destruct (idle_listing_loses_turn 0%Z ex_noon (ex_thread "idle" "" 200) "p"
              (mkMinimalObservation "p" 100 (Some "turn-1") (Some "active") true true false 1 (format_time 0%Z))
              "turn-1" ex_running) as (s' & H1 & _ & H2); try (vm_compute; reflexivity); try (vm_compute; discriminate).
  exists s'. split; [exact H1|]. apply H2. left.
Defined.
