(* ===== verification/Threads.v ===== *)
(** * internal/storage/store.go: threads, snapshots, bindings and Telegram routes

    The cache of threads and of what was last seen of them, which thread a chat is bound
    to, which chats observe, and where a Telegram message or button leads.  Texts of
    buttons may hold secrets and are protected when the store has a protector. *)
From stdpp Require Import base list numbers strings gmap.
From Stdlib Require Import Lia Ascii.
From S2P Require Import Prelude GoStrings GoTime Sql Json Model Normalize CoreTables Store Queue QueueSafety.
From S2P Require Import Continuations Observations.

Definition CallbackStatusActive : string := "active".
Definition CallbackStatusExpired : string := "expired".
Definition BindingModeObserver : string := "observer".

Record CallbackRoute : Type := mkCallbackRoute {
  cr_Token : string;
  cr_Action : string;
  cr_ThreadID : string;
  cr_TurnID : string;
  cr_RequestID : string;
  cr_SessionIdentity : string;
  cr_TelegramMessageID : Z;
  cr_Status : string;
  cr_ExpiresAt : string;
  cr_PayloadJSON : string;
  cr_CreatedAt : TimeString }.

Record ChatContext : Type := mkChatContext {
  cc_Mode : string;
  cc_Binding : option ThreadBinding;
  cc_ObserverEnabled : bool;
  cc_ObserverTarget : option ObserverTarget;
  cc_Thread : option Thread }.

(** *** Threads *)
Definition UpsertThread (thread : Thread) : Tx Store unit := upsertThreadTx thread.

Definition GetThread (threadID : string) (s : Store) : option Thread :=
  thread_of_row threadID <$> cr_threads (db_core s) !! threadID.

Definition CountThreads (s : Store) : Z := Z.of_nat (size (cr_threads (db_core s))).

(** *** Snapshots; the JSON of a snapshot reads back as the snapshot *)
Definition UpsertSnapshot (threadID : string) (snapshot : ThreadSnapshotState) : Tx Store unit :=
  tx_modify (fun s => set_core
    (set_cr_snapshots (<[threadID := snapshot]> (cr_snapshots (db_core s))) (db_core s)) s).

Definition GetSnapshot (threadID : string) (s : Store) : option ThreadSnapshotState :=
  cr_snapshots (db_core s) !! threadID.

Definition emptySnapshot : ThreadSnapshotState :=
  mkThreadSnapshotState 0 "" "" "" "" "" "" "" "" "" "" "" "" "" "" None.

Definition upd_live_event (at_ : TimeString) (n : ThreadSnapshotState) : ThreadSnapshotState :=
  mkThreadSnapshotState (ss_ThreadUpdatedAt n) (ss_LastSeenThreadStatus n) (ss_LastSeenTurnID n)
    (ss_LastSeenTurnStatus n) (ss_LastProgressFP n) (ss_LastProgressSentAt n) (ss_LastFinalFP n)
    (ss_LastCompletionFP n) (ss_LastApprovalFP n) (ss_LastReplyFP n) (ss_LastFinalNoticeFP n)
    (ss_LastToolDocumentFP n) at_ (ss_LastPollAt n) (ss_NextPollAfter n) (ss_CompactJSON n).

Definition MarkLiveEvent (threadID : string) (at_ : TimeString) : Tx Store unit :=
  tx! snapshot := tx_gets (GetSnapshot threadID) in
  UpsertSnapshot threadID (upd_live_event at_ (default emptySnapshot snapshot)).

(** *** Bindings *)
Definition SetBinding (now : TimeString) (chatID topicID : Z) (threadID mode : string) : Tx Store unit :=
  bind_thread (ChatKey chatID topicID) chatID topicID threadID mode now.

Definition ClearBinding (chatID topicID : Z) : Tx Store unit :=
  tx_modify (fun s => set_core
    (set_cr_bindings (delete (ChatKey chatID topicID) (cr_bindings (db_core s))) (db_core s)) s).

Definition GetBinding (chatID topicID : Z) (s : Store) : option ThreadBinding :=
  cr_bindings (db_core s) !! ChatKey chatID topicID.

(** *** Observer targets *)
Definition SetObserverTarget (now : TimeString) (chatID topicID : Z) (enabled : bool) : Tx Store unit :=
  let chatKey := ChatKey chatID topicID in
  tx_modify (fun s =>
    let row := match cr_targets (db_core s) !! chatKey with
               | Some t => mkObserverTarget chatKey (ot_ChatID t) (ot_TopicID t) enabled (ot_CreatedAt t) now
               | None => mkObserverTarget chatKey chatID topicID enabled now now
               end in
    set_core (set_cr_targets (<[chatKey := row]> (cr_targets (db_core s))) (db_core s)) s).

Definition IsObserverTarget (chatID topicID : Z) (s : Store) : bool :=
  match cr_targets (db_core s) !! ChatKey chatID topicID with
  | Some t => ot_Enabled t
  | None => false
  end.

(** WHERE enabled = 1 ORDER BY updated_at *)
Definition ListObserverTargets (s : Store) : list ObserverTarget :=
  sort_by (fun a b => text_le (ot_UpdatedAt a) (ot_UpdatedAt b))
    (filter (fun t => ot_Enabled t) (map snd (map_to_list (cr_targets (db_core s))))).

(** *** Message routes *)
Definition PutMessageRoute (route : MessageRoute) : Tx Store unit :=
  let row := mkMessageRoute (mr_ChatID route) (mr_TopicID route) (mr_MessageID route) (mr_ThreadID route)
               (default "" (nullable (mr_TurnID route))) (default "" (nullable (mr_ItemID route)))
               (default "" (nullable (mr_EventID route))) (mr_CreatedAt route) in
  tx_modify (fun s =>
    set_routes (<[(mr_ChatID route, mr_TopicID route, mr_MessageID route) := row]> (db_routes s)) s).

Definition ResolveMessageRoute (chatID topicID messageID : Z) (s : Store) : option MessageRoute :=
  db_routes s !! (chatID, topicID, messageID).

Definition all_routes (s : Store) : list MessageRoute := map snd (map_to_list (db_routes s)).

(** ORDER BY message_id DESC LIMIT 1 *)
Definition ResolveMessageRouteByEvent (eventID0 : string) (chatID topicID : Z) (s : Store) : option MessageRoute :=
  let eventID := trim_space eventID0 in
  if String.eqb eventID "" then None
  else head (sort_by (fun a b => (mr_MessageID b <=? mr_MessageID a)%Z)
         (filter (fun r => String.eqb (mr_EventID r) eventID && (mr_ChatID r =? chatID)%Z
                           && (mr_TopicID r =? topicID)%Z) (all_routes s))).

(** ORDER BY created_at DESC, message_id DESC LIMIT 1 *)
Definition latest_route (a b : MessageRoute) : bool :=
  text_lt (mr_CreatedAt b) (mr_CreatedAt a)
  || (String.eqb (mr_CreatedAt a) (mr_CreatedAt b) && (mr_MessageID b <=? mr_MessageID a)%Z).

Definition ResolveMessageRouteByEventIdentity (eventID0 threadID0 turnID0 : string) (s : Store)
  : option MessageRoute :=
  let eventID := trim_space eventID0 in
  let threadID := trim_space threadID0 in
  let turnID := trim_space turnID0 in
  if String.eqb eventID "" then None
  else head (sort_by latest_route
         (filter (fun r => String.eqb (mr_EventID r) eventID
                           && (String.eqb threadID "" || String.eqb (mr_ThreadID r) threadID)
                           && (String.eqb turnID "" || String.eqb (mr_TurnID r) turnID)) (all_routes s))).

(** *** Texts that may hold secrets *)

(** The protected text, and whether it was protected just now. *)
Definition protectSensitiveText (protector : option Protector) (value : string) : res (string * bool) :=
  match protector with
  | None => Ok (value, false)
  | Some p =>
      if String.eqb (trim_space value) "" then Ok (value, false)
      else if has_prefix value protectedPayloadEnvelopePrefix then
        let! _ := Unprotect p value in Ok (value, false)
      else let! protected := Protect p value in Ok (protected, true)
  end.

Definition unprotectSensitiveText (protector : option Protector) (value : string) : res string :=
  match protector with
  | None => Ok value
  | Some p =>
      if String.eqb (trim_space value) "" || negb (has_prefix value protectedPayloadEnvelopePrefix) then Ok value
      else Unprotect p value
  end.

Definition wrap_err {A} (context : string) (r : res A) : res A :=
  match r with Ok a => Ok a | Err e => Err (context +:+ e) end.

(** *** Callback routes *)
Definition PutCallbackRoute (protector : option Protector) (route : CallbackRoute) : Tx Store unit :=
  tx! (protected, _) := tx_lift (wrap_err "protect callback route payload: "
                                   (protectSensitiveText protector (cr_PayloadJSON route))) in
  tx_modify (fun s => set_core (set_cr_callbacks
    (<[cr_Token route := mkCallbackRow (cr_Action route) (cr_ThreadID route) (nullable (cr_TurnID route))
         (nullable (cr_RequestID route)) (trim_space (cr_SessionIdentity route)) (cr_TelegramMessageID route)
         (cr_Status route) (nullable (cr_ExpiresAt route)) protected (cr_CreatedAt route)]>
       (cr_callbacks (db_core s))) (db_core s)) s).

Definition GetCallbackRoute (protector : option Protector) (token : string) (s : Store)
  : res (option CallbackRoute) :=
  match cr_callbacks (db_core s) !! token with
  | None => Ok None
  | Some r =>
      let! payload := wrap_err "unprotect callback route payload: "
                        (unprotectSensitiveText protector (cb_Payload r)) in
      Ok (Some (mkCallbackRoute token (cb_Action r) (cb_ThreadID r) (default "" (cb_TurnID r))
            (default "" (cb_RequestID r)) (cb_SessionIdentity r) (cb_TelegramMessageID r) (cb_Status r)
            (default "" (cb_ExpiresAt r)) payload (cb_CreatedAt r)))
  end.

Definition upd_callback_status (v : string) (r : CallbackRow) : CallbackRow :=
  mkCallbackRow (cb_Action r) (cb_ThreadID r) (cb_TurnID r) (cb_RequestID r) (cb_SessionIdentity r)
    (cb_TelegramMessageID r) v (cb_ExpiresAt r) (cb_Payload r) (cb_CreatedAt r).

Definition ExpireCallbackRoute (token : string) : Tx Store unit :=
  tx_modify (fun s => set_core
    (set_cr_callbacks (alter (upd_callback_status CallbackStatusExpired) token (cr_callbacks (db_core s)))
       (db_core s)) s).

(** *** What a chat shows *)
Definition GetChatContext (now : TimeString) (chatID topicID : Z) (s : Store) : ChatContext :=
  let binding := GetBinding chatID topicID s in
  let '(globalTarget, _) := GetGlobalObserverTarget now s in
  let observerEnabled := match globalTarget with
                         | Some t => (ot_ChatID t =? chatID)%Z && (ot_TopicID t =? topicID)%Z
                         | None => false
                         end in
  let mode := if observerEnabled then BindingModeObserver else "unbound" in
  match binding with
  | Some b => mkChatContext (tb_Mode b) binding observerEnabled globalTarget (GetThread (tb_ThreadID b) s)
  | None => mkChatContext mode binding observerEnabled globalTarget None
  end.

(** *** Opening a store with a protector: older rows become protected *)
Definition upd_pending_texts (question : option string) (payload : string) (r : PendingApprovalRow)
  : PendingApprovalRow :=
  mkPendingApprovalRow (pr_RequestID r) (pr_WireRequestID r) (pr_ThreadID r) (pr_TurnID r) (pr_ItemID r)
    (pr_PromptKind r) (pr_RequestKind r) question (pr_SessionIdentity r) (pr_Status r)
    (pr_TelegramMessageID r) payload (pr_UpdatedAt r).

Definition migrate_pending_row (protector : option Protector) (r : PendingApprovalRow) : res PendingApprovalRow :=
  let! (question, questionChanged) := wrap_err "protect migrated pending question: "
    (protectSensitiveText protector (default "" (pr_Question r))) in
  let! (payload, payloadChanged) := wrap_err "protect migrated pending payload: "
    (protectSensitiveText protector (pr_Payload r)) in
  Ok (if negb questionChanged && negb payloadChanged then r
      else upd_pending_texts (nullable question) payload r).

Definition migrate_callback_row (protector : option Protector) (r : CallbackRow) : res CallbackRow :=
  let! (payload, payloadChanged) := wrap_err "protect migrated callback payload: "
    (protectSensitiveText protector (cb_Payload r)) in
  Ok (if negb payloadChanged then r
      else mkCallbackRow (cb_Action r) (cb_ThreadID r) (cb_TurnID r) (cb_RequestID r) (cb_SessionIdentity r)
             (cb_TelegramMessageID r) (cb_Status r) (cb_ExpiresAt r) payload (cb_CreatedAt r)).

Definition migrateProtectedPendingAndCallbackPayloads (protector : option Protector) : Tx Store unit :=
  fun s =>
    let! pending := map_res (migrate_pending_row protector) (cr_pendingApprovals (db_core s)) in
    let! callbacks := map_res (fun kr => let! r := migrate_callback_row protector kr.2 in Ok (kr.1, r))
                        (map_to_list (cr_callbacks (db_core s))) in
    Ok (tt, set_core (set_cr_callbacks (list_to_map callbacks)
              (set_cr_pendingApprovals pending (db_core s))) s).

(** A sample button. *)
Definition ex_route : CallbackRoute :=
  mkCallbackRoute "token" "approve" "thread" "turn" "" "session" 9 CallbackStatusActive "" "{secret}" "T1".

(** A text at rest: blank, or in an envelope that reads back. *)
Definition at_rest (p : Protector) (text : string) : Prop :=
  trim_space text = "" \/ (has_prefix text protectedPayloadEnvelopePrefix = true /\ exists plain, Unprotect p text = Ok plain).

Definition pending_at_rest (p : Protector) (r : PendingApprovalRow) : Prop :=
  at_rest p (default "" (pr_Question r)) /\ at_rest p (pr_Payload r).

(** Every button and pending approval of the store is at rest. *)
Definition store_at_rest (p : Protector) (s : Store) : Prop :=
  Forall (pending_at_rest p) (cr_pendingApprovals (db_core s))
  /\ map_Forall (fun _ r => at_rest p (cb_Payload r)) (cr_callbacks (db_core s)).

(** What the nullable columns keep of a thread and of a button. *)
Definition stored (v : string) : string := default "" (nullable v).

Definition stored_thread (t : Thread) : Thread :=
  mkThread (th_ID t) (th_Title t) (stored (th_CWD t)) (th_ProjectName t) (stored (th_DirectoryName t))
    (th_UpdatedAt t) (stored (th_Status t)) (stored (th_LastPreview t)) (stored (th_ActiveTurnID t))
    (stored (th_PreferredModel t)) (stored (th_PermissionsMode t)) (th_Archived t)
    (Some (default (JObj []) (th_Raw t))).

Definition stored_route (r : CallbackRoute) : CallbackRoute :=
  mkCallbackRoute (cr_Token r) (cr_Action r) (cr_ThreadID r) (stored (cr_TurnID r)) (stored (cr_RequestID r))
    (trim_space (cr_SessionIdentity r)) (cr_TelegramMessageID r) (cr_Status r) (stored (cr_ExpiresAt r))
    (cr_PayloadJSON r) (cr_CreatedAt r).

(** A store of before the protection. *)
Definition ex_unprotected : Store :=
  match (tx! _ := PutCallbackRoute None ex_route in
         tx_modify (fun s => set_core (set_cr_pendingApprovals
           [mkPendingApprovalRow "r" "1" "thread" None None "approval" "" (Some "rm?") "session" "pending" 0 "{secret}" "T1"]
           (db_core s)) s)) emptyStore with
  | Ok (_, s) => s
  | Err _ => emptyStore
  end.

(** ** Lemmas *)

#[local] Arguments unprotectSensitiveText : simpl never.
#[local] Arguments protectSensitiveText : simpl never.

Lemma nullable_default v : default "" (nullable v) = if String.eqb (trim_space v) "" then "" else v.
Proof. unfold nullable. by destruct (String.eqb _ _). Qed.

Lemma nullable_stored v : nullable (stored v) = nullable v.
Proof.
  unfold stored. rewrite nullable_default. destruct (String.eqb (trim_space v) "") eqn:E; [|done].
  unfold nullable. by rewrite E.
Qed.

(** What protection stores reads back as the text it was given. *)
Lemma protect_reads p `{!ProtectorLaws p} text stored b :
  has_prefix text protectedPayloadEnvelopePrefix = false ->
  protectSensitiveText (Some p) text = Ok (stored, b) -> unprotectSensitiveText (Some p) stored = Ok text.
Proof.
  unfold protectSensitiveText, unprotectSensitiveText. intros Hp H.
  destruct (String.eqb (trim_space text) "") eqn:E; [injection H as <- <-; by rewrite E|].
  rewrite Hp in H. destruct (Protect p text) as [envelope|] eqn:Ep; [|discriminate H]. injection H as <- <-.
  rewrite (protect_envelope _ _ Ep), orb_false_r. cbn [negb].
  destruct (String.eqb (trim_space envelope) "") eqn:Ee; [|by apply unprotect_protect].
  exfalso. pose proof (protect_envelope _ _ Ep) as Hpre. apply String.eqb_eq in Ee.
  unfold has_prefix, protectedPayloadEnvelopePrefix in Hpre.
  destruct envelope as [|c envelope]; [discriminate Hpre|].
  assert (has_byte ":" (String c envelope) = true) as Hb.
  { clear -Hpre. repeat (destruct envelope as [|? envelope]; cbn in Hpre;
      repeat (match goal with H : context [if ?b then _ else _] |- _ => destruct b; try discriminate H end);
      subst; try discriminate Hpre; try (cbn; by rewrite ?orb_true_r)). }
  by apply (trim_space_nonempty ":" _ eq_refl Hb).
Qed.

Lemma protect_at_rest p `{!ProtectorLaws p} v v' b :
  protectSensitiveText (Some p) v = Ok (v', b) ->
  at_rest p v' /\ unprotectSensitiveText (Some p) v' = unprotectSensitiveText (Some p) v /\ (b = false -> v' = v).
Proof.
  intros H. destruct (has_prefix v protectedPayloadEnvelopePrefix) eqn:Ep.
  - unfold protectSensitiveText in H. destruct (String.eqb (trim_space v) "") eqn:E.
    + injection H as <- <-. split_and!; [left; by apply String.eqb_eq|done|done].
    + rewrite Ep in H. destruct (Unprotect p v) as [t|] eqn:Eu; [|discriminate H]. injection H as <- <-.
      split_and!; [right; split; [done|by exists t]|done|done].
  - pose proof (protect_reads p v v' b Ep H) as Hr. unfold protectSensitiveText in H.
    destruct (String.eqb (trim_space v) "") eqn:E.
    + injection H as <- <-. split_and!; [left; by apply String.eqb_eq|done|done].
    + rewrite Ep in H. destruct (Protect p v) as [envelope|] eqn:Epr; [|discriminate H]. injection H as <- <-.
      split_and!; [right; split; [exact (protect_envelope _ _ Epr)|exists v; by apply unprotect_protect]| |done].
      rewrite Hr. unfold unprotectSensitiveText. by rewrite E, Ep.
Qed.

Lemma at_rest_stable p v : at_rest p v -> protectSensitiveText (Some p) v = Ok (v, false).
Proof.
  unfold protectSensitiveText. intros [->|(Hp & t & Hu)]; [done|].
  destruct (String.eqb (trim_space v) ""); [done|]. by rewrite Hp, Hu.
Qed.

Lemma at_rest_blank p : at_rest p "".
Proof. left. vm_compute. reflexivity. Qed.

Lemma at_rest_nullable p v : at_rest p v -> at_rest p (default "" (nullable v)).
Proof. intros H. rewrite nullable_default. destruct (String.eqb _ _); [apply at_rest_blank|done]. Qed.

Lemma migrate_pending_at_rest p `{!ProtectorLaws p} r r' :
  migrate_pending_row (Some p) r = Ok r' ->
  pending_at_rest p r' /\ pr_RequestID r' = pr_RequestID r
  /\ unprotectSensitiveText (Some p) (pr_Payload r') = unprotectSensitiveText (Some p) (pr_Payload r).
Proof.
  unfold migrate_pending_row. intros H.
  destruct (protectSensitiveText _ (default "" (pr_Question r))) as [[q b1]|] eqn:E1; [|discriminate H].
  destruct (protectSensitiveText _ (pr_Payload r)) as [[t b2]|] eqn:E2; [|discriminate H]. cbn in H.
  apply protect_at_rest in E1 as (H1 & _ & E1); [|done]. apply protect_at_rest in E2 as (H2 & Hu & E2); [|done].
  injection H as <-. destruct (negb b1 && negb b2) eqn:Eb.
  - apply andb_prop in Eb as [Eb1%negb_true_iff Eb2%negb_true_iff]. rewrite (E1 Eb1) in H1. rewrite (E2 Eb2) in H2.
    by split_and!.
  - split_and!; [|done|done]. split; [by apply at_rest_nullable|done].
Qed.

Lemma migrate_pending_stable p r : pending_at_rest p r -> migrate_pending_row (Some p) r = Ok r.
Proof. intros [H1 H2]. unfold migrate_pending_row. by rewrite (at_rest_stable _ _ H1), (at_rest_stable _ _ H2). Qed.

Lemma migrate_callback_at_rest p `{!ProtectorLaws p} r r' :
  migrate_callback_row (Some p) r = Ok r' ->
  at_rest p (cb_Payload r') /\ cb_Action r' = cb_Action r
  /\ unprotectSensitiveText (Some p) (cb_Payload r') = unprotectSensitiveText (Some p) (cb_Payload r).
Proof.
  unfold migrate_callback_row. intros H.
  destruct (protectSensitiveText _ (cb_Payload r)) as [[t b]|] eqn:E; [|discriminate H]. cbn in H.
  apply protect_at_rest in E as (H1 & Hu & E); [|done]. injection H as <-. destruct b; cbn; [done|].
  by rewrite (E eq_refl) in H1.
Qed.

Lemma migrate_callback_stable p r : at_rest p (cb_Payload r) -> migrate_callback_row (Some p) r = Ok r.
Proof. intros H. unfold migrate_callback_row. by rewrite (at_rest_stable _ _ H). Qed.

Lemma map_res_stable {A} (f : A -> res A) l : (forall x, x ∈ l -> f x = Ok x) -> map_res f l = Ok l.
Proof.
  induction l as [|x l IH]; intros H; [done|]. cbn. rewrite (H x ltac:(left)). cbn.
  rewrite IH; [done|]. intros y Hy. apply H. by right.
Qed.

(** Each entry of a map through a function that may fail. *)
Lemma map_res_entries (f : CallbackRow -> res CallbackRow) (m : gmap string CallbackRow) l :
  map_res (fun kr : string * CallbackRow => let! r := f kr.2 in Ok (kr.1, r)) (map_to_list m) = Ok l ->
  forall k, match m !! k with
            | Some r => exists r', f r = Ok r' /\ (list_to_map l : gmap string CallbackRow) !! k = Some r'
            | None => (list_to_map l : gmap string CallbackRow) !! k = None
            end.
Proof.
  intros H%map_res_ok k.
  assert (map fst l = map fst (map_to_list m)) as Hk.
  { clear -H. induction H as [|[x r] [y r'] ? ? Hr _ IH]; [done|]. cbn in *.
    destruct (f r); [|discriminate Hr]. injection Hr as <- <-. by rewrite IH. }
  assert (NoDup (map fst l)) as Hnd by (rewrite Hk; apply NoDup_fst_map_to_list).
  destruct (m !! k) as [r|] eqn:Ek.
  - apply elem_of_map_to_list in Ek. apply list_elem_of_lookup in Ek as [i Hi].
    destruct (Forall2_lookup_l _ _ _ _ _ H Hi) as ([y r'] & Hy & Hr). cbn in Hr.
    destruct (f r) as [r1|]; [|discriminate Hr]. injection Hr as <- <-. exists r1. split; [done|].
    apply elem_of_list_to_map_1; [done|]. by apply list_elem_of_lookup_2 with i.
  - apply not_elem_of_list_to_map_1. change (k ∉ map fst l). rewrite Hk. intros Hin.
    apply list_elem_of_fmap in Hin as ([k' r] & -> & Hin). apply elem_of_map_to_list in Hin. cbn in Ek. congruence.
Qed.

(** A button reads the same before and after its migration. *)
Lemma migrate_callback_reads p `{!ProtectorLaws p} r r' :
  migrate_callback_row (Some p) r = Ok r' ->
  (cb_Action r', cb_ThreadID r', cb_TurnID r', cb_RequestID r', cb_SessionIdentity r', cb_TelegramMessageID r')
  = (cb_Action r, cb_ThreadID r, cb_TurnID r, cb_RequestID r, cb_SessionIdentity r, cb_TelegramMessageID r)
  /\ (cb_Status r', cb_ExpiresAt r', cb_CreatedAt r') = (cb_Status r, cb_ExpiresAt r, cb_CreatedAt r)
  /\ unprotectSensitiveText (Some p) (cb_Payload r') = unprotectSensitiveText (Some p) (cb_Payload r).
Proof.
  intros H. split_and!; [..|by apply migrate_callback_at_rest in H as (_ & _ & H)];
    unfold migrate_callback_row in H; destruct (protectSensitiveText _ _) as [[t b]|]; try discriminate H;
    cbn in H; injection H as <-; by destruct b.
Qed.

(** A store at rest stays as it is. *)
Lemma migrate_at_rest p s :
  store_at_rest p s -> migrateProtectedPendingAndCallbackPayloads (Some p) s = Ok (tt, s).
Proof.
  intros [H1 H2]. unfold migrateProtectedPendingAndCallbackPayloads.
  rewrite map_res_stable by (intros r Hr; apply migrate_pending_stable; by eapply Forall_forall). cbn.
  rewrite map_res_stable.
  - cbn. rewrite list_to_map_to_list. destruct s as []; cbn in *. f_equal. f_equal. by destruct db_core.
  - intros [k r] Hk%elem_of_map_to_list. cbn. by rewrite (migrate_callback_stable p r (H2 k r Hk)).
Qed.

(** *** The claims *)

(** A thread of the cache is read back as it was written, blank nullable texts as empty;
    the other threads stay, and writing back what was read changes nothing. *)
Theorem thread_roundtrip thread s s' :
  UpsertThread thread s = Ok (tt, s') ->
  GetThread (th_ID thread) s' = Some (stored_thread thread)
  /\ (forall id, id <> th_ID thread -> GetThread id s' = GetThread id s)
  /\ CountThreads s' = (CountThreads s + if GetThread (th_ID thread) s is Some _ then 0 else 1)%Z
  /\ UpsertThread (stored_thread thread) s' = Ok (tt, s').
Proof.
  intros [= <-]. unfold GetThread. cbn. split_and!.
  - by rewrite lookup_insert_eq.
  - intros id Hid. by rewrite lookup_insert_ne.
  - unfold CountThreads. cbn. destruct (cr_threads (db_core s) !! th_ID thread) eqn:E; cbn.
    + rewrite map_size_insert_Some by done. lia.
    + rewrite map_size_insert_None by done. lia.
  - unfold UpsertThread, upsertThreadTx, tx_modify, stored_thread. cbn.
    rewrite insert_insert_eq, !nullable_stored. done.
Qed.

Lemma thread_roundtrip_witness :
  let t := mkThread "t" "Title" " " "project" "" 7 "idle" "" "" "" "" false None in
  UpsertThread t emptyStore = Ok (tt, match UpsertThread t emptyStore with Ok (_, s) => s | Err _ => emptyStore end)
  /\ GetThread "t" (match UpsertThread t emptyStore with Ok (_, s) => s | Err _ => emptyStore end) = Some (stored_thread t).
Proof. intros t. split; [reflexivity|]. apply (thread_roundtrip t emptyStore). reflexivity. Defined.

(** A button put in the store is read back with the text it was given, and the text in the
    database is at rest; the other buttons stay. *)
Theorem callback_roundtrip p route s s' :
  ProtectorLaws p ->
  has_prefix (cr_PayloadJSON route) protectedPayloadEnvelopePrefix = false ->
  PutCallbackRoute (Some p) route s = Ok (tt, s') ->
  GetCallbackRoute (Some p) (cr_Token route) s' = Ok (Some (stored_route route))
  /\ (exists row, cr_callbacks (db_core s') !! cr_Token route = Some row /\ at_rest p (cb_Payload row))
  /\ (forall token, token <> cr_Token route ->
       GetCallbackRoute (Some p) token s' = GetCallbackRoute (Some p) token s).
Proof.
  intros Hp Hpre H. unfold PutCallbackRoute, tx_bind, tx_lift in H.
  destruct (protectSensitiveText (Some p) (cr_PayloadJSON route)) as [[text b]|] eqn:E; [|discriminate H].
  injection H as <-. unfold GetCallbackRoute. cbn. rewrite lookup_insert_eq. cbn [cb_Payload]. split_and!.
  - by rewrite (protect_reads p _ _ _ Hpre E).
  - eexists. split; [done|]. cbn. by apply protect_at_rest in E as [E _].
  - intros token Ht. by rewrite lookup_insert_ne.
Qed.

Lemma callback_roundtrip_witness :
  let s' := match PutCallbackRoute (Some plainProtector) ex_route emptyStore with Ok (_, s) => s | Err _ => emptyStore end in
  GetCallbackRoute (Some plainProtector) "token" s' = Ok (Some (stored_route ex_route)).
Proof. intros s'. apply (callback_roundtrip plainProtector ex_route emptyStore s' _ eq_refl eq_refl). Defined.

(** After the migration of a store every button and every pending approval is at rest, each
    button reads as before, no row appears or disappears, and a second migration changes
    nothing. *)
Theorem migrate_protects p s s' :
  ProtectorLaws p ->
  migrateProtectedPendingAndCallbackPayloads (Some p) s = Ok (tt, s') ->
  store_at_rest p s'
  /\ (forall token, GetCallbackRoute (Some p) token s' = GetCallbackRoute (Some p) token s)
  /\ map pr_RequestID (cr_pendingApprovals (db_core s')) = map pr_RequestID (cr_pendingApprovals (db_core s))
  /\ migrateProtectedPendingAndCallbackPayloads (Some p) s' = Ok (tt, s').
Proof.
  intros Hp H. unfold migrateProtectedPendingAndCallbackPayloads in H.
  destruct (map_res (migrate_pending_row _) _) as [pending|] eqn:Ep; [|discriminate H].
  destruct (map_res _ (map_to_list _)) as [callbacks|] eqn:Ec; [|discriminate H]. injection H as <-.
  pose proof (map_res_entries _ _ _ Ec) as Hc. apply map_res_ok in Ep.
  assert (store_at_rest p (set_core (set_cr_callbacks (list_to_map callbacks)
    (set_cr_pendingApprovals pending (db_core s))) s)) as Hrest.
  { split; cbn.
    - clear -Ep Hp. induction Ep as [|r r' ? ? Hr _ IH]; constructor; [|done].
      by apply migrate_pending_at_rest in Hr as [Hr _].
    - intros k r' Hk. specialize (Hc k). destruct (cr_callbacks (db_core s) !! k) as [r|]; [|congruence].
      destruct Hc as (r1 & Hm & Hk1). apply migrate_callback_at_rest in Hm as [Hm _]; [|done]. congruence. }
  split_and!; [done| | |by apply migrate_at_rest].
  - intros k. unfold GetCallbackRoute. cbn. specialize (Hc k).
    destruct (cr_callbacks (db_core s) !! k) as [r|]; [|by rewrite Hc].
    destruct Hc as (r' & Hm & ->). apply migrate_callback_reads in Hm as (H1 & H2 & ->); [|done].
    by injection H1 as -> -> -> -> -> ->; injection H2 as -> -> ->.
  - cbn. clear -Ep Hp. induction Ep as [|r r' ? ? Hr _ IH]; [done|]. cbn.
    apply migrate_pending_at_rest in Hr as (_ & -> & _); [|done]. by rewrite IH.
Qed.

Lemma migrate_protects_witness :
  let s' := match migrateProtectedPendingAndCallbackPayloads (Some plainProtector) ex_unprotected with
            | Ok (_, s) => s | Err _ => emptyStore end in
  cr_callbacks (db_core s') !! "token" <> cr_callbacks (db_core ex_unprotected) !! "token"
  /\ store_at_rest plainProtector s'
  /\ GetCallbackRoute (Some plainProtector) "token" s' = Ok (Some (stored_route ex_route)).
Proof.
  intros s'. destruct (migrate_protects plainProtector ex_unprotected s' _ eq_refl) as (H & Hr & _).
  split_and!; [by vm_compute|done|]. rewrite Hr. vm_compute. reflexivity.
Defined.
