(* ===== verification/Approvals.v ===== *)
(** * internal/storage/store.go: requests that wait for an approval

    A server request that needs an answer is kept until it has one.  A pending approval is
    its record; a minimal approval also has two buttons, approve and deny, in a message of
    Telegram, and a delivery of that message.  A press claims the approval and both
    buttons; the claim is then finished, restored or cancelled. *)
From stdpp Require Import base list numbers strings gmap relations.
From Stdlib Require Import Lia Ascii Sorting.Sorted.
From S2P Require Import Prelude GoStrings Crypto GoTime Sql Model CoreTables Store QueueSafety PendingCommands Threads.

Definition MinimalApprovalPCCleanupQueueKind : string := "minimal_approval_pc_cleanup".
Definition MinimalApprovalDeliveryOutcomeDefinitelyUnsent : string := "delivery_outcome=definitely_unsent".
Definition MinimalApprovalDeliveryOutcomeUnknown : string := "delivery_outcome=unknown".

(** model.PendingApproval with the text of its payload. *)
Record StoredApproval : Type := mkStoredApproval {
  sa_RequestID : string;
  sa_WireRequestID : string;
  sa_ThreadID : string;
  sa_TurnID : string;
  sa_ItemID : string;
  sa_PromptKind : string;
  sa_RequestKind : string;
  sa_Question : string;
  sa_SessionIdentity : string;
  sa_Status : string;
  sa_TelegramMessageID : Z;
  sa_PayloadJSON : string;
  sa_UpdatedAt : TimeString }.

Record MinimalApproval : Type := mkMinimalApproval {
  mp_RequestID : string;
  mp_WireRequestID : string;
  mp_ThreadID : string;
  mp_TurnID : string;
  mp_RequestKind : string;
  mp_ProjectName : string;
  mp_SessionIdentity : string;
  mp_SupersedeEventID : string;
  mp_Status : string;
  mp_ClaimState : string;
  mp_ClaimAction : string;
  mp_ChatID : Z;
  mp_TopicID : Z;
  mp_TelegramMessageID : Z;
  mp_DeliveryQueueID : Z;
  mp_UpdatedAt : TimeString }.

Record MinimalApprovalRoute : Type := mkMinimalApprovalRoute {
  mq_Token : string;
  mq_Action : string;
  mq_RequestID : string;
  mq_WireRequestID : string;
  mq_ThreadID : string;
  mq_TurnID : string;
  mq_RequestKind : string;
  mq_SessionIdentity : string;
  mq_Status : string;
  mq_ChatID : Z;
  mq_TopicID : Z;
  mq_TelegramMessageID : Z;
  mq_CreatedAt : TimeString }.

Record MinimalApprovalSeed : Type := mkApprovalSeed {
  sd_Approval : MinimalApproval;
  sd_ApproveToken : string;
  sd_DenyToken : string;
  sd_Delivery : DeliveryQueueItem;
  sd_SupersedeDeliveryEventID : string }.

Definition pending_approval_table : Table Store PendingApprovalRow :=
  mkTable (fun s => cr_pendingApprovals (db_core s))
    (fun l s => set_core (set_cr_pendingApprovals l (db_core s)) s).

Definition approval_table : Table Store MinimalApprovalRow :=
  mkTable (fun s => cr_approvals (db_core s)) (fun l s => set_core (set_cr_approvals l (db_core s)) s).

Definition approval_route_table : Table Store ApprovalRouteRow :=
  mkTable (fun s => cr_approvalRoutes (db_core s))
    (fun l s => set_core (set_cr_approvalRoutes l (db_core s)) s).

(** *** Which request an id names

    An id of a request is durable, or the id the app-server gave it, which is only unique
    within a session. *)
Record RequestKey : Type := mkRequestKey {
  rk_RequestID : string;
  rk_WireRequestID : string;
  rk_SessionIdentity : string;
  rk_UpdatedAt : TimeString }.

Definition pending_keys (s : Store) : list RequestKey :=
  map (fun r => mkRequestKey (pr_RequestID r) (pr_WireRequestID r) (pr_SessionIdentity r) (pr_UpdatedAt r))
    (rows_of pending_approval_table s).

Definition approval_keys (s : Store) : list RequestKey :=
  map (fun r => mkRequestKey (ma_RequestID r) (ma_WireRequestID r) (ma_SessionIdentity r) (ma_UpdatedAt r))
    (rows_of approval_table s).

Definition resolveApprovalRequestIDExact (rows : list RequestKey) (requestID sessionIdentity : string)
    (allowLegacy : bool) : option string :=
  match find_first (fun r => String.eqb (rk_RequestID r) requestID) rows with
  | Some r =>
      if String.eqb sessionIdentity "" || String.eqb (rk_SessionIdentity r) sessionIdentity
         || (allowLegacy && String.eqb (rk_SessionIdentity r) "")
      then Some (rk_RequestID r) else None
  | None => None
  end.

(** WHERE wire_request_id=? AND session_identity='' ORDER BY updated_at DESC LIMIT 2 *)
Definition legacy_wire (rows : list RequestKey) (requestID : string) : list string :=
  map rk_RequestID (take 2 (sort_by (fun a b => text_le (rk_UpdatedAt b) (rk_UpdatedAt a))
    (filter (fun r => String.eqb (rk_WireRequestID r) requestID && String.eqb (rk_SessionIdentity r) "") rows))).

Definition resolveApprovalRequestID (rows : list RequestKey) (requestID0 sessionIdentity0 : string)
    (allowLegacyWire : bool) : option string :=
  let requestID := trim_space requestID0 in
  let sessionIdentity := trim_space sessionIdentity0 in
  if String.eqb requestID "" then None
  else
    let scoped :=
      if String.eqb sessionIdentity "" then None
      else
        let scopedID := ScopedRequestID sessionIdentity requestID in
        if negb (String.eqb scopedID "") && negb (String.eqb scopedID requestID)
        then resolveApprovalRequestIDExact rows scopedID sessionIdentity false else None in
    match scoped with
    | Some durable => Some durable
    | None =>
        match resolveApprovalRequestIDExact rows requestID sessionIdentity allowLegacyWire with
        | Some durable => Some durable
        | None =>
            if negb allowLegacyWire then None
            else match legacy_wire rows requestID with
                 | [match_] => Some match_
                 | _ => None
                 end
        end
    end.

Definition resolvePendingApprovalRequestID (requestID : string) (s : Store) : option string :=
  resolveApprovalRequestID (pending_keys s) requestID "" true.
Definition resolvePendingApprovalRequestIDForSession (requestID sessionIdentity : string) (s : Store) : option string :=
  resolveApprovalRequestID (pending_keys s) requestID sessionIdentity false.
Definition resolveMinimalApprovalRequestID (requestID : string) (s : Store) : option string :=
  resolveApprovalRequestID (approval_keys s) requestID "" true.
Definition resolveMinimalApprovalRequestIDForSession (requestID sessionIdentity : string) (s : Store) : option string :=
  resolveApprovalRequestID (approval_keys s) requestID sessionIdentity false.

(** *** Pending approvals *)
Definition pr_is (requestID : string) (r : PendingApprovalRow) : bool := String.eqb (pr_RequestID r) requestID.

(** INSERT ... ON CONFLICT(request_id) DO UPDATE of every column *)
Definition upsert_pending (row : PendingApprovalRow) : Tx Store unit :=
  tx! rows := tx_gets (rows_of pending_approval_table) in
  if existsb (pr_is (pr_RequestID row)) rows then
    tx! _ := sql_update pending_approval_table (pr_is (pr_RequestID row)) (fun _ => row) in tx_ret tt
  else sql_insert pending_approval_table row.

Definition SavePendingApproval (protector : option Protector) (approval : StoredApproval) : Tx Store unit :=
  let session := trim_space (sa_SessionIdentity approval) in
  let '(requestID, wire) := NormalizeRequestIdentity session (sa_RequestID approval) (sa_WireRequestID approval) in
  let kind := if String.eqb (trim_space (sa_RequestKind approval)) "" then sa_PromptKind approval
              else sa_RequestKind approval in
  tx! (question, _) := tx_lift (wrap_err "protect pending approval question: "
                                  (protectSensitiveText protector (sa_Question approval))) in
  tx! (payload, _) := tx_lift (wrap_err "protect pending approval payload: "
                                 (protectSensitiveText protector (sa_PayloadJSON approval))) in
  upsert_pending (mkPendingApprovalRow requestID wire (sa_ThreadID approval) (nullable (sa_TurnID approval))
    (nullable (sa_ItemID approval)) (sa_PromptKind approval) kind (nullable question) session
    (sa_Status approval) (sa_TelegramMessageID approval) payload (sa_UpdatedAt approval)).

(** coalesce(nullif(value,''), other) *)
Definition or_text (value other : string) : string := if String.eqb value "" then other else value.

Definition getPendingApprovalByResolvedID (protector : option Protector) (resolvedID : string) (s : Store)
  : res (option StoredApproval) :=
  match find_first (pr_is resolvedID) (rows_of pending_approval_table s) with
  | None => Ok None
  | Some r =>
      let! question := wrap_err "unprotect pending approval question: "
                         (unprotectSensitiveText protector (default "" (pr_Question r))) in
      let! payload := wrap_err "unprotect pending approval payload: "
                        (unprotectSensitiveText protector (pr_Payload r)) in
      Ok (Some (mkStoredApproval (pr_RequestID r) (or_text (pr_WireRequestID r) (pr_RequestID r)) (pr_ThreadID r)
        (default "" (pr_TurnID r)) (default "" (pr_ItemID r)) (pr_PromptKind r)
        (or_text (pr_RequestKind r) (pr_PromptKind r)) question (pr_SessionIdentity r) (pr_Status r)
        (pr_TelegramMessageID r) payload (pr_UpdatedAt r)))
  end.

Definition get_resolved {A : Type} (id : option string) (get : string -> res (option A)) : res (option A) :=
  match id with None => Ok None | Some resolvedID => get resolvedID end.

Definition GetPendingApproval (protector : option Protector) (requestID : string) (s : Store)
  : res (option StoredApproval) :=
  get_resolved (resolvePendingApprovalRequestID requestID s)
    (fun id => getPendingApprovalByResolvedID protector id s).

Definition GetPendingApprovalForSession (protector : option Protector) (requestID sessionIdentity : string)
    (s : Store) : res (option StoredApproval) :=
  get_resolved (resolvePendingApprovalRequestIDForSession requestID sessionIdentity s)
    (fun id => getPendingApprovalByResolvedID protector id s).

Definition upd_pending_status (status : string) (now : TimeString) (r : PendingApprovalRow) : PendingApprovalRow :=
  mkPendingApprovalRow (pr_RequestID r) (pr_WireRequestID r) (pr_ThreadID r) (pr_TurnID r) (pr_ItemID r)
    (pr_PromptKind r) (pr_RequestKind r) (pr_Question r) (pr_SessionIdentity r) status
    (pr_TelegramMessageID r) (pr_Payload r) now.

Definition set_pending_status (id : option string) (status : string) (now : TimeString) : Tx Store unit :=
  match id with
  | None => tx_ret tt
  | Some resolvedID =>
      tx! _ := sql_update pending_approval_table (pr_is resolvedID) (upd_pending_status status now) in tx_ret tt
  end.

Definition UpdatePendingApprovalStatus (now : TimeString) (requestID status : string) : Tx Store unit :=
  tx! id := tx_gets (resolvePendingApprovalRequestID requestID) in set_pending_status id status now.

Definition UpdatePendingApprovalStatusForSession (now : TimeString) (requestID sessionIdentity status : string)
  : Tx Store unit :=
  tx! id := tx_gets (resolvePendingApprovalRequestIDForSession requestID sessionIdentity) in
  set_pending_status id status now.

Definition pr_pending (r : PendingApprovalRow) : bool := String.eqb (pr_Status r) "pending".

Definition MarkAllPendingApprovals (now : TimeString) (status : string) : Tx Store Z :=
  sql_update pending_approval_table pr_pending (upd_pending_status status now).

(** *** Minimal approvals: conditions and assignments *)
Definition ma_is (requestID : string) (r : MinimalApprovalRow) : bool := String.eqb (ma_RequestID r) requestID.
Definition ma_pending (r : MinimalApprovalRow) : bool := String.eqb (ma_Status r) "pending".
Definition ma_idle (r : MinimalApprovalRow) : bool := String.eqb (ma_ClaimState r) "idle".
Definition ma_claimed_for (action : string) (r : MinimalApprovalRow) : bool :=
  String.eqb (ma_ClaimState r) "claimed" && is_text (ma_ClaimAction r) action.
Definition ar_of (requestID : string) (r : ApprovalRouteRow) : bool := String.eqb (ar_RequestID r) requestID.
Definition ar_active (r : ApprovalRouteRow) : bool := String.eqb (ar_Status r) "active".
Definition ar_claimed (r : ApprovalRouteRow) : bool := String.eqb (ar_Status r) "claimed".
Definition ar_live (r : ApprovalRouteRow) : bool := ar_active r || ar_claimed r.

Definition upd_approval_state (status claimState : string) (claimAction : option string) (now : TimeString)
    (r : MinimalApprovalRow) : MinimalApprovalRow :=
  mkMinimalApprovalRow (ma_RequestID r) (ma_WireRequestID r) (ma_ThreadID r) (ma_TurnID r) (ma_RequestKind r)
    (ma_ProjectName r) (ma_SessionIdentity r) (ma_SupersedeEventID r) status claimState claimAction
    (ma_ChatID r) (ma_TopicID r) (ma_TelegramMessageID r) (ma_DeliveryQueueID r) now.

(** SET status=?: the claim stays *)
Definition upd_approval_status (status : string) (now : TimeString) (r : MinimalApprovalRow) : MinimalApprovalRow :=
  upd_approval_state status (ma_ClaimState r) (ma_ClaimAction r) now r.

(** SET claim_state=?, claim_action=?: the status stays *)
Definition upd_approval_claim (claimState : string) (claimAction : option string) (now : TimeString)
    (r : MinimalApprovalRow) : MinimalApprovalRow :=
  upd_approval_state (ma_Status r) claimState claimAction now r.

Definition upd_approval_message (chatID topicID messageID : Z) (now : TimeString) (r : MinimalApprovalRow)
  : MinimalApprovalRow :=
  mkMinimalApprovalRow (ma_RequestID r) (ma_WireRequestID r) (ma_ThreadID r) (ma_TurnID r) (ma_RequestKind r)
    (ma_ProjectName r) (ma_SessionIdentity r) (ma_SupersedeEventID r) (ma_Status r) (ma_ClaimState r)
    (ma_ClaimAction r) chatID topicID messageID (ma_DeliveryQueueID r) now.

Definition upd_approval_queue (queueID : Z) (r : MinimalApprovalRow) : MinimalApprovalRow :=
  mkMinimalApprovalRow (ma_RequestID r) (ma_WireRequestID r) (ma_ThreadID r) (ma_TurnID r) (ma_RequestKind r)
    (ma_ProjectName r) (ma_SessionIdentity r) (ma_SupersedeEventID r) (ma_Status r) (ma_ClaimState r)
    (ma_ClaimAction r) (ma_ChatID r) (ma_TopicID r) (ma_TelegramMessageID r) queueID (ma_UpdatedAt r).

Definition upd_route_status (status : string) (r : ApprovalRouteRow) : ApprovalRouteRow :=
  mkApprovalRouteRow (ar_Token r) (ar_Action r) (ar_RequestID r) (ar_ThreadID r) (ar_TurnID r)
    (ar_RequestKind r) status (ar_ChatID r) (ar_TopicID r) (ar_TelegramMessageID r) (ar_CreatedAt r).

Definition upd_route_message (chatID topicID messageID : Z) (r : ApprovalRouteRow) : ApprovalRouteRow :=
  mkApprovalRouteRow (ar_Token r) (ar_Action r) (ar_RequestID r) (ar_ThreadID r) (ar_TurnID r)
    (ar_RequestKind r) (ar_Status r) chatID topicID messageID (ar_CreatedAt r).

(** UPDATE minimal_approval_routes SET status=? WHERE request_id=? AND ...: both buttons *)
Definition move_routes (p : ApprovalRouteRow -> bool) (status verb what : string) (requestID : string)
  : Tx Store unit :=
  sql_update_exactly 2 approval_route_table (fun r => ar_of requestID r && p r) (upd_route_status status)
    (fun n => verb +:+ " " +:+ format_int n +:+ " " +:+ what +:+ " routes, want 2").

(** UPDATE delivery_queue SET status='dead',payload_json=NULL WHERE ... AND status IN
    ('pending','retry','processing') *)
Definition kill_deliveries (now : TimeString) (p : QueueRow -> bool) : Tx Store unit :=
  tx! _ := sql_update queue_table (fun r => p r && live r)
             (fun r => upd_payload None (upd_status DeliveryStatusDead now r)) in
  tx_ret tt.

(** *** Creating *)
Definition new_route (seed : MinimalApprovalSeed) (requestID : string) (now : TimeString) (token action : string)
  : ApprovalRouteRow :=
  let a := sd_Approval seed in let d := sd_Delivery seed in
  mkApprovalRouteRow token action requestID (mp_ThreadID a) (mp_TurnID a) (mp_RequestKind a) "active"
    (qi_ChatID d) (qi_TopicID d) 0 now.

(** The token is the primary key. *)
Definition insert_route (r : ApprovalRouteRow) : Tx Store unit :=
  tx! rows := tx_gets (rows_of approval_route_table) in
  if existsb (fun x => String.eqb (ar_Token x) (ar_Token r)) rows then
    tx_fail "UNIQUE constraint failed: minimal_approval_routes.route_token"
  else sql_insert approval_route_table r.

Definition insertMinimalApprovalRoutesTx (seed : MinimalApprovalSeed) (requestID : string) (now : TimeString)
  : Tx Store unit :=
  tx! _ := insert_route (new_route seed requestID now (sd_ApproveToken seed) "approve") in
  insert_route (new_route seed requestID now (sd_DenyToken seed) "deny").

(** The message of an approval that was never sent is tried again, with new buttons. *)
Definition rearmMinimalApprovalDeliveryIfDeadTx (approval : MinimalApprovalRow) (seed : MinimalApprovalSeed)
    (protected : string) (now : TimeString) : Tx Store unit :=
  let queueID := ma_DeliveryQueueID approval in
  let requestID := ma_RequestID approval in
  if (queueID <=? 0)%Z || String.eqb (trim_space protected) "" then tx_ret tt
  else
    tx! row := sql_first queue_table (fun r => id_is queueID r && String.eqb (q_Kind r) "minimal_approval") in
    match row with
    | None => tx_ret tt
    | Some r =>
        if negb (String.eqb (q_Status r) DeliveryStatusDead)
           || negb (contains (default "" (q_LastError r)) MinimalApprovalDeliveryOutcomeDefinitelyUnsent)
        then tx_ret tt
        else
          tx! _ := move_routes ar_live "expired" "expired" "replayed minimal approval" requestID in
          tx! _ := insertMinimalApprovalRoutesTx seed requestID now in
          sql_update_exactly 1 queue_table
            (fun r => id_is queueID r && String.eqb (q_Kind r) "minimal_approval"
                      && String.eqb (q_Status r) DeliveryStatusDead
                      && negb (String.eqb (default "" (q_LastError r)) ""))
            (fun r => upd_payload (Some protected)
                        (upd_retry 0 (or_now (qi_AvailableAt (sd_Delivery seed)) now) None
                           (upd_status DeliveryStatusPending now r)))
            (fun _ => "minimal approval replay lost its dead delivery")
    end.

(** The event of an inactive edit. *)
Definition inactive_event (a : MinimalApprovalRow) : string :=
  "minimal-approval-inactive:" +:+ hex (take 12 (sha256_sum (bytes_of (join (str1 "000")
    [ma_RequestID a; ma_ThreadID a; ma_TurnID a; ma_RequestKind a; ma_SessionIdentity a])))).

(** INSERT INTO delivery_queue ... ON CONFLICT(event_id,chat_key) DO NOTHING *)
Definition enqueue_protected (now : TimeString) (item : DeliveryQueueItem) (payload : string) : Tx Store unit :=
  tx_modify (insert_ungrouped now item DeliveryStatusPending 0 None payload).

Definition enqueueMinimalApprovalInactiveEditTx (MustJSON : DeliveryPayload -> string) (p : Protector)
    (now : TimeString) (a : MinimalApprovalRow) (text : string) : Tx Store unit :=
  let payload := MustJSON (mkDeliveryPayload "edit" text (ma_ThreadID a) (ma_TurnID a) "" (ma_RequestID a)
                   (ma_TelegramMessageID a) "" "" "" 0 "" [] None) in
  tx! protected := tx_lift (wrap_err "protect minimal approval inactive edit: " (Protect p payload)) in
  enqueue_protected now (mkQueueItem 0 (inactive_event a) (ChatKey (ma_ChatID a) (ma_TopicID a)) (ma_ChatID a)
    (ma_TopicID a) (ma_ThreadID a) "minimal_approval_inactive_edit" DeliveryStatusPending 0 now "" payload now now
    "" 1 1) protected.

Definition seed_incomplete (requestID session : string) (a : MinimalApproval) : bool :=
  existsb (fun v => String.eqb (trim_space v) "")
    [requestID; mp_ThreadID a; mp_TurnID a; mp_RequestKind a; session].

Definition routes_invalid (seed : MinimalApprovalSeed) : bool :=
  (qi_ChatID (sd_Delivery seed) =? 0)%Z || String.eqb (trim_space (sd_ApproveToken seed)) ""
  || String.eqb (trim_space (sd_DenyToken seed)) "" || String.eqb (sd_ApproveToken seed) (sd_DenyToken seed).

Definition same_request (a : MinimalApproval) (r : MinimalApprovalRow) : bool :=
  String.eqb (ma_ThreadID r) (mp_ThreadID a) && String.eqb (ma_TurnID r) (mp_TurnID a)
  && String.eqb (ma_RequestKind r) (mp_RequestKind a).

Definition seed_row (seed : MinimalApprovalSeed) (requestID wire session status : string) (now : TimeString)
  : MinimalApprovalRow :=
  let a := sd_Approval seed in let d := sd_Delivery seed in
  mkMinimalApprovalRow requestID wire (mp_ThreadID a) (mp_TurnID a) (mp_RequestKind a) (mp_ProjectName a) session
    (sd_SupersedeDeliveryEventID seed) status "idle" None (qi_ChatID d) (qi_TopicID d) 0 0 now.

(** Another request with the same id ends the one that was there. *)
Definition replace_approval (MustJSON : DeliveryPayload -> string) (p : Protector) (now : TimeString)
    (existing row : MinimalApprovalRow) : Tx Store unit :=
  let requestID := ma_RequestID row in
  tx! _ := (if ma_pending existing then move_routes ar_live "expired" "expired" "replaced minimal approval" requestID
            else tx_ret tt) in
  tx! _ := tx_when (negb (ma_ChatID existing =? 0)%Z && (0 <? ma_TelegramMessageID existing)%Z)
             (enqueueMinimalApprovalInactiveEditTx MustJSON p now existing "요청이 더 이상 활성 상태가 아닙니다.") in
  tx! _ := tx_when (0 <? ma_DeliveryQueueID existing)%Z (kill_deliveries now (id_is (ma_DeliveryQueueID existing))) in
  sql_update_exactly 1 approval_table (ma_is requestID) (fun _ => row)
    (fun _ => "minimal approval replacement lost its request").

(** The INSERT of the delivery, which fails when its event is already queued. *)
Definition insert_delivery (now : TimeString) (d : DeliveryQueueItem) (protected : string) : Tx Store Z :=
  tx! rows := tx_gets db_queue in
  if event_target_exists (qi_EventID d) (qi_ChatKey d) rows then
    tx_fail "UNIQUE constraint failed: delivery_queue.event_id, delivery_queue.chat_key"
  else
    tx! _ := tx_modify (insert_row (fun id =>
      mkQueueRow id (qi_EventID d) (qi_ChatKey d) (qi_ChatID d) (qi_TopicID d) (qi_ThreadID d) (qi_Kind d)
        DeliveryStatusPending 0 (or_now (qi_AvailableAt d) now) None (Some protected) now now None 1 1)) in
    tx_gets db_queueSeq.

(** The two buttons, their count, the delivery and its id. *)
Definition seed_delivery (seed : MinimalApprovalSeed) (requestID protected : string) (now : TimeString)
  : Tx Store unit :=
  let a := sd_Approval seed in
  tx! _ := insertMinimalApprovalRoutesTx seed requestID now in
  tx! activeRoutes := tx_gets (fun s => affected (fun r => ar_of requestID r
    && String.eqb (ar_ThreadID r) (mp_ThreadID a) && String.eqb (ar_TurnID r) (mp_TurnID a)
    && String.eqb (ar_RequestKind r) (mp_RequestKind a) && ar_active r) (rows_of approval_route_table s)) in
  if negb (activeRoutes =? 2)%Z then
    tx_fail ("seeded " +:+ format_int activeRoutes +:+ " minimal approval routes, want 2")
  else
    tx! queueID := insert_delivery now (sd_Delivery seed) protected in
    tx! _ := sql_update approval_table (ma_is requestID) (upd_approval_queue queueID) in
    tx_ret tt.

(** SET wire_request_id, session_identity, supersede_event_id of a request seen again *)
Definition replay_row (wire session supersede : string) (now : TimeString) (r : MinimalApprovalRow)
  : MinimalApprovalRow :=
  mkMinimalApprovalRow (ma_RequestID r) wire (ma_ThreadID r) (ma_TurnID r) (ma_RequestKind r)
    (ma_ProjectName r) session supersede (ma_Status r) (ma_ClaimState r) (ma_ClaimAction r) (ma_ChatID r)
    (ma_TopicID r) (ma_TelegramMessageID r) (ma_DeliveryQueueID r) now.

Definition replay_approval (seed : MinimalApprovalSeed) (wire session protected : string) (now : TimeString)
    (existing : MinimalApprovalRow) : Tx Store unit :=
  if negb (ma_pending existing) then
    tx_when (0 <? ma_DeliveryQueueID existing)%Z (kill_deliveries now (id_is (ma_DeliveryQueueID existing)))
  else
    tx! _ := sql_update_exactly 1 approval_table (fun r => ma_is (ma_RequestID existing) r && ma_pending r)
               (replay_row wire session (sd_SupersedeDeliveryEventID seed) now)
               (fun _ => "minimal approval replay lost its pending request") in
    rearmMinimalApprovalDeliveryIfDeadTx existing seed protected now.

Definition CreateMinimalApproval (MustJSON : DeliveryPayload -> string) (protector : option Protector)
    (now : TimeString) (seed : MinimalApprovalSeed) : Tx Store bool :=
  match protector with
  | None => tx_fail "securestore protector is required for minimal approval delivery"
  | Some p =>
      let a := sd_Approval seed in
      let session := trim_space (mp_SessionIdentity a) in
      let '(requestID, wire) := NormalizeRequestIdentity session (mp_RequestID a) (mp_WireRequestID a) in
      if seed_incomplete requestID session a then tx_fail "minimal approval identity is incomplete"
      else if routes_invalid seed then tx_fail "minimal approval routes are invalid"
      else
        tx! protected := tx_lift (wrap_err "protect minimal approval delivery: "
                                    (Protect p (qi_PayloadJSON (sd_Delivery seed)))) in
        let status := or_text (trim_space (mp_Status a)) "pending" in
        let row := seed_row seed requestID wire session status now in
        tx! existing := sql_first approval_table (ma_is requestID) in
        match existing with
        | Some r =>
            if same_request a r then tx! _ := replay_approval seed wire session protected now r in tx_ret false
            else
              tx! _ := replace_approval MustJSON p now r row in
              tx! _ := seed_delivery seed requestID protected now in tx_ret true
        | None =>
            tx! _ := sql_insert approval_table row in
            tx! _ := seed_delivery seed requestID protected now in tx_ret true
        end
  end.

(** *** Reading *)
Definition approval_of_row (r : MinimalApprovalRow) : MinimalApproval :=
  mkMinimalApproval (ma_RequestID r) (or_text (ma_WireRequestID r) (ma_RequestID r)) (ma_ThreadID r) (ma_TurnID r)
    (ma_RequestKind r) (ma_ProjectName r) (ma_SessionIdentity r) (ma_SupersedeEventID r) (ma_Status r)
    (ma_ClaimState r) (default "" (ma_ClaimAction r)) (ma_ChatID r) (ma_TopicID r) (ma_TelegramMessageID r)
    (ma_DeliveryQueueID r) (ma_UpdatedAt r).

Definition getMinimalApprovalByResolvedID (resolvedID : string) (s : Store) : option MinimalApproval :=
  approval_of_row <$> find_first (ma_is resolvedID) (rows_of approval_table s).

Definition GetMinimalApproval (requestID : string) (s : Store) : option MinimalApproval :=
  id ← resolveMinimalApprovalRequestID requestID s; getMinimalApprovalByResolvedID id s.

Definition GetMinimalApprovalForSession (requestID sessionIdentity : string) (s : Store) : option MinimalApproval :=
  id ← resolveMinimalApprovalRequestIDForSession requestID sessionIdentity s; getMinimalApprovalByResolvedID id s.

Definition route_of_row (r : ApprovalRouteRow) (a : option MinimalApprovalRow) : MinimalApprovalRoute :=
  mkMinimalApprovalRoute (ar_Token r) (ar_Action r) (ar_RequestID r)
    (or_text (match a with Some a => ma_WireRequestID a | None => "" end) (ar_RequestID r)) (ar_ThreadID r)
    (ar_TurnID r) (ar_RequestKind r) (match a with Some a => ma_SessionIdentity a | None => "" end)
    (ar_Status r) (ar_ChatID r) (ar_TopicID r) (ar_TelegramMessageID r) (ar_CreatedAt r).

Definition find_route (token : string) (s : Store) : option ApprovalRouteRow :=
  find_first (fun r => String.eqb (ar_Token r) token) (rows_of approval_route_table s).

Definition find_approval (requestID : string) (s : Store) : option MinimalApprovalRow :=
  find_first (ma_is requestID) (rows_of approval_table s).

(** routes LEFT JOIN approvals *)
Definition GetMinimalApprovalRoute (token : string) (s : Store) : option MinimalApprovalRoute :=
  r ← find_route token s; Some (route_of_row r (find_approval (ar_RequestID r) s)).

(** *** The message was sent *)

(** INSERT INTO telegram_message_routes ... ON CONFLICT DO UPDATE: the item stays *)
Definition put_approval_route (chatID topicID messageID : Z) (threadID turnID eventID : string) (now : TimeString)
  : Tx Store unit :=
  tx_modify (fun s =>
    let item := match db_routes s !! (chatID, topicID, messageID) with Some r => mr_ItemID r | None => "" end in
    set_routes (<[(chatID, topicID, messageID) :=
      mkMessageRoute chatID topicID messageID threadID turnID item eventID now]> (db_routes s)) s).

Definition minimalApprovalPCCleanupEventID (requestID supersedeEventID : string) : string :=
  "minimal-approval-pc-cleanup:"
    +:+ hex (take 12 (sha256_sum (bytes_of (join (str1 "000") [requestID; supersedeEventID])))).

(** ORDER BY chat_id, topic_id, message_id *)
Definition route_order (a b : MessageRoute) : bool :=
  (mr_ChatID a <? mr_ChatID b)%Z
  || ((mr_ChatID a =? mr_ChatID b)%Z
      && ((mr_TopicID a <? mr_TopicID b)%Z
          || ((mr_TopicID a =? mr_TopicID b)%Z && (mr_MessageID a <=? mr_MessageID b)%Z))).

(** The notices on the PC that the message replaces are deleted. *)
Definition enqueue_cleanup (MustJSON : DeliveryPayload -> string) (protector : option Protector) (now : TimeString)
    (a : MinimalApprovalRow) (supersedeEventID : string) (r : MessageRoute) : Tx Store unit :=
  if (mr_ChatID r =? 0)%Z || (mr_MessageID r <=? 0)%Z then tx_ret tt
  else
    let payload := MustJSON (mkDeliveryPayload "delete_message" "" (ma_ThreadID a) (ma_TurnID a) (ma_RequestID a)
                     supersedeEventID (mr_MessageID r) "" "" "" 0 "" [] None) in
    tx! stored := tx_lift (wrap_err "protect minimal approval cleanup delivery: " (protect_with protector payload)) in
    enqueue_protected now (mkQueueItem 0 (minimalApprovalPCCleanupEventID (ma_RequestID a) supersedeEventID)
      (ChatKey (mr_ChatID r) (mr_TopicID r)) (mr_ChatID r) (mr_TopicID r) (ma_ThreadID a)
      MinimalApprovalPCCleanupQueueKind DeliveryStatusPending 0 now "" payload now now "" 1 1) stored.

Definition enqueueMinimalApprovalPCCleanupTx (MustJSON : DeliveryPayload -> string) (protector : option Protector)
    (now : TimeString) (a : MinimalApprovalRow) : Tx Store unit :=
  let supersedeEventID := trim_space (ma_SupersedeEventID a) in
  if String.eqb supersedeEventID "" then tx_ret tt
  else
    tx! routes := tx_gets (fun s => sort_by route_order (filter (fun r =>
      String.eqb (mr_EventID r) supersedeEventID && String.eqb (mr_ThreadID r) (ma_ThreadID a)
      && String.eqb (mr_TurnID r) (ma_TurnID a)) (all_routes s))) in
    tx_each routes (enqueue_cleanup MustJSON protector now a supersedeEventID).

Definition no_rows : string := "sql: no rows in result set".

Definition CompleteMinimalApprovalDelivery (MustJSON : DeliveryPayload -> string) (protector : option Protector)
    (now : TimeString) (queueID : Z) (requestID0 : string) (chatID topicID messageID : Z) : Tx Store unit :=
  if (queueID <=? 0)%Z || (messageID <=? 0)%Z then tx_fail "minimal approval delivery identity is incomplete"
  else
    tx! resolved := tx_gets (resolveMinimalApprovalRequestID requestID0) in
    match resolved with
    | None => tx_fail no_rows
    | Some requestID =>
        tx! approval := sql_first approval_table (ma_is requestID) in
        match approval with
        | None => tx_fail no_rows
        | Some a =>
            if negb (ma_DeliveryQueueID a =? queueID)%Z || negb (ma_pending a) then
              tx_fail "minimal approval delivery does not match pending request"
            else
              tx! queued := sql_first queue_table (fun r => id_is queueID r && (q_ChatID r =? chatID)%Z
                              && (q_TopicID r =? topicID)%Z && String.eqb (q_Kind r) "minimal_approval") in
              match queued with
              | None => tx_fail no_rows
              | Some q =>
                  if negb (String.eqb (q_Status q) DeliveryStatusProcessing) then
                    tx_fail "minimal approval delivery is not processing"
                  else
                    tx! _ := sql_update approval_table (ma_is requestID)
                               (upd_approval_message chatID topicID messageID now) in
                    tx! _ := sql_update_exactly 2 approval_route_table (fun r => ar_of requestID r && ar_active r)
                               (upd_route_message chatID topicID messageID)
                               (fun n => "bound " +:+ format_int n +:+ " minimal approval routes, want 2") in
                    tx! _ := put_approval_route chatID topicID messageID (ma_ThreadID a) (ma_TurnID a) requestID now in
                    tx! _ := sql_update queue_table (id_is queueID)
                               (fun r => upd_payload None (upd_status DeliveryStatusDelivered now r)) in
                    enqueueMinimalApprovalPCCleanupTx MustJSON protector now a
              end
        end
    end.

(** WHERE request_id=? AND (?='' OR thread_id=?) AND ... *)
Definition blank_or (v column : string) : bool := String.eqb v "" || String.eqb column v.

(** May the notice on the PC be deleted; is there nothing to wait for. *)
Definition MinimalApprovalPCCleanupReady (requestID0 threadID0 turnID0 supersedeEventID0 : string) (s : Store)
  : bool * bool :=
  let requestID := trim_space requestID0 in
  let threadID := trim_space threadID0 in
  let turnID := trim_space turnID0 in
  let supersedeEventID := trim_space supersedeEventID0 in
  if String.eqb requestID "" && (String.eqb threadID "" || String.eqb turnID "" || String.eqb supersedeEventID "")
  then (false, true)
  else
    let resolved :=
      if String.eqb requestID "" then
        ma_RequestID <$> head (sort_by (fun a b => text_le (ma_UpdatedAt b) (ma_UpdatedAt a))
          (filter (fun a => String.eqb (ma_ThreadID a) threadID && String.eqb (ma_TurnID a) turnID
                            && String.eqb (ma_SupersedeEventID a) supersedeEventID) (rows_of approval_table s)))
      else resolveMinimalApprovalRequestID requestID s in
    match resolved with
    | None => (false, true)
    | Some id =>
        match find_first (fun a => ma_is id a && blank_or threadID (ma_ThreadID a) && blank_or turnID (ma_TurnID a)
                                   && blank_or supersedeEventID (ma_SupersedeEventID a)) (rows_of approval_table s) with
        | None => (false, true)
        | Some a =>
            if negb (ma_pending a) then (false, true)
            else if (ma_TelegramMessageID a <=? 0)%Z then (false, false)
            else (match db_routes s !! (ma_ChatID a, ma_TopicID a, ma_TelegramMessageID a) with
                  | Some r => String.eqb (mr_EventID r) id
                  | None => false
                  end, false)
        end
    end.

Definition MinimalApprovalDeliveryActive (queueID : Z) (requestID : string) (s : Store) : bool :=
  match resolveMinimalApprovalRequestID requestID s with
  | None => false
  | Some id =>
      (affected (fun a => ma_is id a && (ma_DeliveryQueueID a =? queueID)%Z && ma_pending a && ma_idle a
         && existsb (fun q => id_is (ma_DeliveryQueueID a) q && String.eqb (q_Status q) DeliveryStatusProcessing)
              (db_queue s)) (rows_of approval_table s) =? 1)%Z
  end.

(** *** A press of a button *)
Definition press_exact (sessionIdentity : string) (chatID topicID messageID : Z) (r : ApprovalRouteRow)
    (a : MinimalApprovalRow) : bool :=
  let boundMessage := (ar_TelegramMessageID r =? messageID)%Z && (ma_TelegramMessageID a =? messageID)%Z in
  let unboundMessage := (ar_TelegramMessageID r =? 0)%Z && (ma_TelegramMessageID a =? 0)%Z in
  (0 <? messageID)%Z && String.eqb (ma_SessionIdentity a) sessionIdentity && ar_active r && ma_pending a && ma_idle a
  && (ar_ChatID r =? chatID)%Z && (ar_TopicID r =? topicID)%Z && (ma_ChatID a =? chatID)%Z
  && (ma_TopicID a =? topicID)%Z && (boundMessage || unboundMessage)
  && String.eqb (ar_ThreadID r) (ma_ThreadID a) && String.eqb (ar_TurnID r) (ma_TurnID a)
  && String.eqb (ar_RequestKind r) (ma_RequestKind a).

(** The press of a message whose id is not stored yet binds it; false when the approval
    is no more there to bind. *)
Definition self_bind (now : TimeString) (chatID topicID messageID : Z) (r : ApprovalRouteRow) : Tx Store bool :=
  let requestID := ar_RequestID r in
  tx! n := sql_update approval_table
             (fun a => ma_is requestID a && ((ma_TelegramMessageID a =? 0)%Z && ma_pending a && ma_idle a))
             (fun a => upd_approval_message (ma_ChatID a) (ma_TopicID a) messageID now a) in
  if negb (n =? 1)%Z then tx_ret false
  else
    tx! _ := sql_update_exactly 2 approval_route_table
               (fun x => ar_of requestID x && (ar_active x && (ar_TelegramMessageID x =? 0)%Z))
               (fun x => upd_route_message (ar_ChatID x) (ar_TopicID x) messageID x)
               (fun n => "self-bound " +:+ format_int n +:+ " minimal approval routes, want 2") in
    tx! _ := put_approval_route chatID topicID messageID (ar_ThreadID r) (ar_TurnID r) requestID now in
    tx_ret true.

Definition with_message (messageID : Z) (r : MinimalApprovalRoute) : MinimalApprovalRoute :=
  mkMinimalApprovalRoute (mq_Token r) (mq_Action r) (mq_RequestID r) (mq_WireRequestID r) (mq_ThreadID r)
    (mq_TurnID r) (mq_RequestKind r) (mq_SessionIdentity r) (mq_Status r) (mq_ChatID r) (mq_TopicID r)
    messageID (mq_CreatedAt r).

Definition ClaimMinimalApproval (now : TimeString) (token : string) (chatID topicID messageID : Z)
    (sessionIdentity0 : string) : Tx Store (option MinimalApprovalRoute * bool) :=
  let sessionIdentity := trim_space sessionIdentity0 in
  tx! row := tx_gets (fun s => r ← find_route token s; a ← find_approval (ar_RequestID r) s; Some (r, a)) in
  match row with
  | None => tx_ret (None, false)
  | Some (r, a) =>
      let route := route_of_row r (Some a) in
      if negb (press_exact sessionIdentity chatID topicID messageID r a) then tx_ret (Some route, false)
      else
        let unbound := (ar_TelegramMessageID r =? 0)%Z && (ma_TelegramMessageID a =? 0)%Z in
        tx! bound := (if unbound then self_bind now chatID topicID messageID r else tx_ret true) in
        if negb bound then tx_ret (Some route, false)
        else
          let route := if unbound then with_message messageID route else route in
          tx! n := sql_update approval_table (fun x => ma_is (ar_RequestID r) x && ma_pending x && ma_idle x)
                     (upd_approval_claim "claimed" (Some (ar_Action r)) now) in
          if negb (n =? 1)%Z then tx_ret (Some route, false)
          else
            tx! _ := move_routes ar_active "claimed" "claimed" "minimal approval" (ar_RequestID r) in
            tx_ret (Some route, true)
  end.

(** *** The end of a claim *)

(** An UPDATE of one approval that moves its buttons when it changed a row. *)
Definition settle (p : MinimalApprovalRow -> bool) (f : MinimalApprovalRow -> MinimalApprovalRow)
    (moved : ApprovalRouteRow -> bool) (status verb : string) (after : string -> Tx Store unit)
    (resolved : option string) : Tx Store bool :=
  match resolved with
  | None => tx_ret false
  | Some requestID =>
      tx! changed := sql_update approval_table (fun a => ma_is requestID a && ma_pending a && p a) f in
      tx! _ := tx_when (changed =? 1)%Z
                 (tx! _ := move_routes moved status verb "minimal approval" requestID in after requestID) in
      tx_ret (changed =? 1)%Z
  end.

Definition RestoreMinimalApprovalClaim (now : TimeString) (requestID action : string) : Tx Store bool :=
  tx! resolved := tx_gets (resolveMinimalApprovalRequestID requestID) in
  settle (ma_claimed_for action) (upd_approval_claim "idle" None now) ar_claimed "active" "restored"
    (fun _ => tx_ret tt) resolved.

Definition FinishMinimalApprovalClaim (now : TimeString) (requestID action status : string) : Tx Store bool :=
  tx! resolved := tx_gets (resolveMinimalApprovalRequestID requestID) in
  settle (ma_claimed_for action) (upd_approval_state status "idle" None now) ar_claimed "consumed" "finished"
    (fun _ => tx_ret tt) resolved.

(** id=(SELECT delivery_queue_id FROM minimal_approvals WHERE request_id=?) *)
Definition kill_own_delivery (now : TimeString) (requestID : string) : Tx Store unit :=
  tx! a := tx_gets (find_approval requestID) in
  match a with
  | None => tx_ret tt
  | Some a => kill_deliveries now (id_is (ma_DeliveryQueueID a))
  end.

Definition expire_resolved (now : TimeString) : option string -> Tx Store bool :=
  settle ma_idle (upd_approval_status "expired" now) ar_active "expired" "expired" (kill_own_delivery now).

Definition ExpireMinimalApproval (now : TimeString) (requestID : string) : Tx Store bool :=
  tx! resolved := tx_gets (resolveMinimalApprovalRequestID requestID) in expire_resolved now resolved.

Definition ExpireMinimalApprovalForSession (now : TimeString) (requestID sessionIdentity : string) : Tx Store bool :=
  tx! resolved := tx_gets (resolveMinimalApprovalRequestIDForSession requestID sessionIdentity) in
  expire_resolved now resolved.

(** The buttons and deliveries of the expired approvals of a group. *)
Definition expire_group (now : TimeString) (group : MinimalApprovalRow -> bool) (moved : ApprovalRouteRow -> bool)
  : Tx Store unit :=
  tx! expired := sql_select approval_table (fun a => group a && String.eqb (ma_Status a) "expired") in
  tx! _ := sql_update approval_route_table
             (fun r => moved r && existsb (fun a => ma_is (ar_RequestID r) a) expired) (upd_route_status "expired") in
  kill_deliveries now (fun q => existsb (fun a => id_is (ma_DeliveryQueueID a) q) expired).

Definition expireMinimalApprovalsForSessionTx (identity0 : string) (now : TimeString) : Tx Store Z :=
  let identity := trim_space identity0 in
  if String.eqb identity "" then tx_ret 0%Z
  else
    let of_session a := String.eqb (ma_SessionIdentity a) identity in
    tx! changed := sql_update approval_table (fun a => of_session a && ma_pending a)
                     (upd_approval_state "expired" "idle" None now) in
    tx! _ := tx_when (0 <? changed)%Z (expire_group now of_session ar_live) in
    tx_ret changed.

Definition expirePendingApprovalsForSessionTx (identity0 : string) (now : TimeString) : Tx Store Z :=
  let identity := trim_space identity0 in
  if String.eqb identity "" then tx_ret 0%Z
  else sql_update pending_approval_table (fun r => String.eqb (pr_SessionIdentity r) identity && pr_pending r)
         (upd_pending_status "expired" now).

Definition cb_open (r : CallbackRow) : bool :=
  String.eqb (cb_Status r) CallbackStatusActive || String.eqb (cb_Status r) "claimed".

Definition expireCallbackRoutesForSessionTx (identity0 : string) : Tx Store unit :=
  let identity := trim_space identity0 in
  if String.eqb identity "" then tx_ret tt
  else tx_modify (fun s => set_core (set_cr_callbacks ((fun r : CallbackRow =>
         if String.eqb (cb_SessionIdentity r) identity && cb_open r
         then upd_callback_status CallbackStatusExpired r else r) <$> cr_callbacks (db_core s)) (db_core s)) s).

Definition ExpireMinimalApprovalsForSession (now : TimeString) (identity0 : string) : Tx Store Z :=
  let identity := trim_space identity0 in
  if String.eqb identity "" then tx_ret 0%Z
  else
    tx! changed := expireMinimalApprovalsForSessionTx identity now in
    tx! pendingChanged := expirePendingApprovalsForSessionTx identity now in
    tx! _ := expireCallbackRoutesForSessionTx identity in
    tx_ret (changed + pendingChanged)%Z.

Definition ExpireMinimalApprovalsForThreadTurn (now : TimeString) (threadID0 turnID0 : string) : Tx Store Z :=
  let threadID := trim_space threadID0 in
  let turnID := trim_space turnID0 in
  if String.eqb threadID "" || String.eqb turnID "" then tx_ret 0%Z
  else
    let of_turn a := String.eqb (ma_ThreadID a) threadID && String.eqb (ma_TurnID a) turnID in
    tx! changed := sql_update approval_table (fun a => of_turn a && ma_pending a && ma_idle a)
                     (upd_approval_status "expired" now) in
    tx! _ := tx_when (0 <? changed)%Z (expire_group now of_turn ar_active) in
    tx_ret changed.

(** The outcome of the answer is not known: the approval ends and its message is edited. *)
Definition cancel_admitted (action text : string) (a : MinimalApprovalRow) : bool :=
  ma_pending a && String.eqb (ma_ClaimState a) "claimed" && String.eqb (default "" (ma_ClaimAction a)) action
  && negb (ma_ChatID a =? 0)%Z && (0 <? ma_TelegramMessageID a)%Z && negb (String.eqb (trim_space text) "").

Definition CancelMinimalApprovalClaimWithInactiveEdit (MustJSON : DeliveryPayload -> string)
    (protector : option Protector) (now : TimeString) (requestID0 action text : string) : Tx Store bool :=
  match protector with
  | None => tx_fail "securestore protector is required for minimal approval inactive edit"
  | Some p =>
      tx! resolved := tx_gets (resolveMinimalApprovalRequestID requestID0) in
      match resolved with
      | None => tx_ret false
      | Some requestID =>
          tx! approval := tx_gets (find_approval requestID) in
          match approval with
          | None => tx_ret false
          | Some a =>
              if negb (cancel_admitted action text a) then tx_ret false
              else
                tx! n := sql_update approval_table (fun x => ma_is requestID x && ma_pending x && ma_claimed_for action x)
                           (upd_approval_state "cancelled" "idle" None now) in
                if negb (n =? 1)%Z then tx_ret false
                else
                  tx! _ := move_routes ar_claimed "consumed" "cancelled" "minimal approval" requestID in
                  tx! _ := enqueueMinimalApprovalInactiveEditTx MustJSON p now a text in
                  tx_ret true
          end
      end
  end.

(** One cancellation per claim, each a transaction of its own: the error of one stops the
    loop and keeps what was done. *)
Fixpoint cancel_each (MustJSON : DeliveryPayload -> string) (protector : option Protector) (now : TimeString)
    (claims : list (string * string)) (recovered : Z) (s : Store) : res Z * Store :=
  match claims with
  | [] => (Ok recovered, s)
  | (requestID, action) :: rest =>
      match CancelMinimalApprovalClaimWithInactiveEdit MustJSON protector now requestID action
              "처리 결과를 확인할 수 없어 버튼이 비활성화되었습니다." s with
      | Err e => (Err e, s)
      | Ok (changed, s') =>
          cancel_each MustJSON protector now rest (if changed then recovered + 1 else recovered)%Z s'
      end
  end.

Definition RecoverMinimalApprovalClaims (MustJSON : DeliveryPayload -> string) (protector : option Protector)
    (now : TimeString) (s : Store) : res Z * Store :=
  cancel_each MustJSON protector now
    (map (fun a => (ma_RequestID a, default "" (ma_ClaimAction a)))
       (filter (fun a => ma_pending a && String.eqb (ma_ClaimState a) "claimed") (rows_of approval_table s))) 0 s.

(** *** The release of a linked thread, with the notice that it is ready *)
Definition minimalLinkedWorkerSessionIdentity (generation : Z) : string :=
  if (generation =? 0)%Z then "" else "minimal-link-worker:" +:+ format_int generation.

Definition upd_linked_release (releasedAt : TimeString) (r : LinkedRow) : LinkedRow :=
  mkLinkedRow (l_ChatKey r) (l_ChatID r) (l_TopicID r) (l_ProjectID r) (l_SourceThreadID r)
    (l_LinkedThreadID r) (l_SourceAnchorTurnID r) (l_SourceTitle r) (l_DesiredTitle r) (l_TitleState r)
    MinimalLinkedReady None 0 (l_LastBlockedAt r) (l_LastBlockedCode r) (l_FailureKind r) (l_CreatedAt r)
    releasedAt (Some releasedAt).

(** The expired approvals of the worker are part of the transaction, undone with it when
    there is nothing to release. *)
Definition FinishMinimalLinkedReleaseWithReadyDelivery (protector : option Protector) (clock : instant)
    (linkedID0 : string) (generation : Z) (sessionIdentity0 turnID0 : string) (releasedAt0 : instant)
    (ready : option DeliveryQueueItem) : Tx Store bool :=
  let linkedID := trim_space linkedID0 in
  let turnID := trim_space turnID0 in
  if String.eqb linkedID "" || String.eqb turnID "" then tx_ret false
  else
    let releasedAt := format_time (if is_zero releasedAt0 then clock else releasedAt0) in
    let now := format_time clock in
    tx! generationValue := tx_lift (minimalLinkedGenerationInt64 generation) in
    tx! protectedReady := tx_lift (match ready with
      | None => Ok None
      | Some item =>
          match protector with
          | None => Err "securestore protector is required for handoff ready delivery"
          | Some p => let! text := wrap_err "protect handoff ready delivery: " (Protect p (qi_PayloadJSON item)) in
                      Ok (Some (item, text))
          end
      end) in
    let sessionIdentity := or_text (trim_space sessionIdentity0) (minimalLinkedWorkerSessionIdentity generation) in
    tx! before := tx_gets id in
    tx! _ := expireMinimalApprovalsForSessionTx sessionIdentity now in
    tx! _ := expirePendingApprovalsForSessionTx sessionIdentity now in
    tx! _ := expireCallbackRoutesForSessionTx sessionIdentity in
    tx! changed := sql_update linked_table
      (fun r => linked_is linkedID generationValue MinimalLinkedReleasePending r && is_text (l_ActiveTurnID r) turnID)
      (upd_linked_release releasedAt) in
    if negb (changed =? 1)%Z then (fun _ => Ok (false, before))
    else
      tx! _ := match protectedReady with
               | None => tx_ret tt
               | Some (item, text) => enqueue_protected now item text
               end in
      tx_ret true.

(** ** Specification *)

(** The buttons of a request that can still be pressed or wait for an answer. *)
Definition live_routes (requestID : string) (routes : list ApprovalRouteRow) : list ApprovalRouteRow :=
  filter (fun r => ar_of requestID r && ar_live r) routes.

Definition approval_identity (a : MinimalApprovalRow) : string * string * string :=
  (ma_ThreadID a, ma_TurnID a, ma_RequestKind a).
Definition route_request_of (r : ApprovalRouteRow) : string * string * string :=
  (ar_ThreadID r, ar_TurnID r, ar_RequestKind r).
Definition route_place (r : ApprovalRouteRow) : Z * Z * Z := (ar_ChatID r, ar_TopicID r, ar_TelegramMessageID r).

(** An open approval has its two buttons for its turn, in one place: active while nobody
    has pressed; one that has ended has none. *)
Definition approval_ok (live : list ApprovalRouteRow) (a : MinimalApprovalRow) : Prop :=
  if ma_pending a then
    map ar_Action live = ["approve"; "deny"]
    /\ Forall (fun r => route_request_of r = approval_identity a) live
    /\ (exists place, Forall (fun r => route_place r = place) live)
    /\ ((ma_ClaimState a = "idle" /\ ma_ClaimAction a = None /\ Forall (fun r => ar_active r = true) live)
        \/ (ma_ClaimState a = "claimed" /\ (0 < ma_TelegramMessageID a)%Z
            /\ (exists action, ma_ClaimAction a = Some action /\ action ∈ ["approve"; "deny"])
            /\ (Forall (fun r => ar_claimed r = true) live \/ Forall (fun r => ar_active r = true) live)))
  else live = [] /\ ma_ClaimState a = "idle".

Record ApprovalInv (s : Store) : Prop := mkApprovalInv {
  ai_ids : NoDup (map ma_RequestID (cr_approvals (db_core s)));
  ai_tokens : NoDup (map ar_Token (cr_approvalRoutes (db_core s)));
  ai_known : Forall (fun r => ar_RequestID r ∈ map ma_RequestID (cr_approvals (db_core s)))
               (cr_approvalRoutes (db_core s));
  ai_rows : Forall (fun a => approval_ok (live_routes (ma_RequestID a) (cr_approvalRoutes (db_core s))) a)
              (cr_approvals (db_core s)) }.

(** A press that the open approval [a] of the button [r] admits. *)
Record open_press (session : string) (chatID topicID messageID : Z) (r : ApprovalRouteRow)
    (a : MinimalApprovalRow) : Prop := mkOpenPress {
  op_waits : ma_Status a = "pending" /\ ma_ClaimState a = "idle";
  op_button : ar_Status r = "active";
  op_session : ma_SessionIdentity a = session;
  op_chat : (ma_ChatID a, ma_TopicID a) = (chatID, topicID) /\ (ar_ChatID r, ar_TopicID r) = (chatID, topicID);
  op_message : (0 < messageID)%Z
               /\ (ar_TelegramMessageID r, ma_TelegramMessageID a) ∈ [(messageID, messageID); (0, 0)]%Z }.

(** One committed operation; [as_other] is any operation on other tables. *)
Inductive approval_step (MustJSON : DeliveryPayload -> string) (p : Protector) : Store -> Store -> Prop :=
| as_create now seed s b s' :
    or_text (trim_space (mp_Status (sd_Approval seed))) "pending" = "pending" ->
    CreateMinimalApproval MustJSON (Some p) now seed s = Ok (b, s') -> approval_step MustJSON p s s'
| as_complete now queueID requestID chatID topicID messageID s u s' :
    CompleteMinimalApprovalDelivery MustJSON (Some p) now queueID requestID chatID topicID messageID s = Ok (u, s') ->
    approval_step MustJSON p s s'
| as_claim now token chatID topicID messageID session s out s' :
    ClaimMinimalApproval now token chatID topicID messageID session s = Ok (out, s') -> approval_step MustJSON p s s'
| as_restore now requestID action s b s' :
    RestoreMinimalApprovalClaim now requestID action s = Ok (b, s') -> approval_step MustJSON p s s'
| as_finish now requestID action status s b s' :
    status <> "pending" ->
    FinishMinimalApprovalClaim now requestID action status s = Ok (b, s') -> approval_step MustJSON p s s'
| as_expire now requestID s b s' :
    ExpireMinimalApproval now requestID s = Ok (b, s') -> approval_step MustJSON p s s'
| as_expire_for now requestID session s b s' :
    ExpireMinimalApprovalForSession now requestID session s = Ok (b, s') -> approval_step MustJSON p s s'
| as_expire_session now identity s n s' :
    ExpireMinimalApprovalsForSession now identity s = Ok (n, s') -> approval_step MustJSON p s s'
| as_expire_turn now threadID turnID s n s' :
    ExpireMinimalApprovalsForThreadTurn now threadID turnID s = Ok (n, s') -> approval_step MustJSON p s s'
| as_cancel now requestID action text s b s' :
    CancelMinimalApprovalClaimWithInactiveEdit MustJSON (Some p) now requestID action text s = Ok (b, s') ->
    approval_step MustJSON p s s'
| as_release clock linkedID generation session turnID releasedAt ready s b s' :
    FinishMinimalLinkedReleaseWithReadyDelivery (Some p) clock linkedID generation session turnID releasedAt ready s
      = Ok (b, s') -> approval_step MustJSON p s s'
| as_other s s' :
    cr_approvals (db_core s') = cr_approvals (db_core s) ->
    cr_approvalRoutes (db_core s') = cr_approvalRoutes (db_core s) -> approval_step MustJSON p s s'.

(** A claim of an approval that still waits keeps its action, unless it was given up. *)
Definition keeps_claim (given_up : Prop) (a a' : MinimalApprovalRow) : Prop :=
  ma_pending a' = true -> ma_ClaimState a = "claimed" ->
  (ma_ClaimState a' = "claimed" /\ ma_ClaimAction a' = ma_ClaimAction a) \/ given_up.

(** What may become of an approval: one that has ended stays as it ended, a claim is kept
    or given up, and only another request with the same id starts again. *)
Definition approval_move (given_up : Prop) (a a' : MinimalApprovalRow) : Prop :=
  ma_RequestID a' = ma_RequestID a
  /\ ((approval_identity a' = approval_identity a
       /\ (ma_pending a = false -> ma_Status a' = ma_Status a)
       /\ keeps_claim given_up a a')
      \/ (approval_identity a' <> approval_identity a /\ ma_pending a' = true /\ ma_idle a' = true)).

Definition approvals_evolve (given_up : MinimalApprovalRow -> Prop) (s s' : Store) : Prop :=
  forall a, a ∈ cr_approvals (db_core s) -> exists a', a' ∈ cr_approvals (db_core s') /\ approval_move (given_up a) a a'.

Definition never (_ : MinimalApprovalRow) : Prop := False.

(** RestoreMinimalApprovalClaim took the step, for the action the approval was claimed for. *)
Definition claim_restored (s s' : Store) (a : MinimalApprovalRow) : Prop :=
  exists now requestID action,
    resolveMinimalApprovalRequestID requestID s = Some (ma_RequestID a) /\ ma_claimed_for action a = true
    /\ RestoreMinimalApprovalClaim now requestID action s = Ok (true, s').

(** The approvals and buttons of a store, for operations on other tables. *)
Definition same_approvals (s s' : Store) : Prop :=
  cr_approvals (db_core s') = cr_approvals (db_core s)
  /\ cr_approvalRoutes (db_core s') = cr_approvalRoutes (db_core s).

(** A claim that waits for an answer, which may never come. *)
Definition in_claim (a : MinimalApprovalRow) : bool := ma_pending a && String.eqb (ma_ClaimState a) "claimed".

(** A claim that can be cancelled: its message is known and its buttons are those of the claim. *)
Definition recoverable (s : Store) (a : MinimalApprovalRow) : Prop :=
  ma_ChatID a <> 0%Z /\ trim_space (ma_RequestID a) = ma_RequestID a /\ ma_RequestID a <> ""
  /\ Forall (fun r => ar_claimed r = true) (live_routes (ma_RequestID a) (cr_approvalRoutes (db_core s))).

(** What is read back of a pending approval. *)
Definition saved_approval (a : StoredApproval) : StoredApproval :=
  let '(requestID, wire) := NormalizeRequestIdentity (trim_space (sa_SessionIdentity a)) (sa_RequestID a) (sa_WireRequestID a) in
  mkStoredApproval requestID (or_text wire requestID) (sa_ThreadID a) (stored (sa_TurnID a)) (stored (sa_ItemID a))
    (sa_PromptKind a)
    (if String.eqb (trim_space (sa_RequestKind a)) "" then sa_PromptKind a else sa_RequestKind a)
    (stored (sa_Question a)) (trim_space (sa_SessionIdentity a)) (sa_Status a) (sa_TelegramMessageID a)
    (sa_PayloadJSON a) (sa_UpdatedAt a).

(** The live buttons when all of them took a status. *)
Definition all_moved (status : string) (live : list ApprovalRouteRow) : list ApprovalRouteRow :=
  if String.eqb status "active" || String.eqb status "claimed" then map (upd_route_status status) live else [].

(** A sample: a request of a linked worker, by the id the app-server gave it. *)
Definition ex_pending : StoredApproval :=
  mkStoredApproval "" "7" "thread" "turn" "" "approval" "" "Run it?" "minimal-link-worker:3" "pending" 0 "{}" "T1".

(** Samples: an approval whose message is queued as delivery 1, sent as message 9, pressed. *)
Definition ex_json (payload : DeliveryPayload) : string := dp_Text payload.

Definition ex_seed (turn : string) (event : string) (tokens : string * string) : MinimalApprovalSeed :=
  mkApprovalSeed
    (mkMinimalApproval "r1" "" "thread" turn "item/commandExecution/requestApproval" "project" "session" "" "pending"
       "" "" 0 0 0 0 "")
    tokens.1 tokens.2
    (mkQueueItem 0 event "7:0" 7 0 "thread" "minimal_approval" DeliveryStatusPending 0 "T0" "" "{}" "T0" "T0" "" 1 1) "".

Definition run_store {A : Type} (m : Tx Store A) (s : Store) : Store :=
  match m s with Ok (_, s') => s' | Err _ => s end.

Definition ex_created : Store :=
  run_store (CreateMinimalApproval ex_json (Some plainProtector) "T1" (ex_seed "turn" "event" ("yes", "no"))) emptyStore.

Definition ex_pressed : Store := run_store (ClaimMinimalApproval "T2" "yes" 7 0 9 "session") ex_created.

(** The pressed approval, its delivery given up as never sent, and the request seen again
    with two new buttons. *)
Definition ex_unsent : Store :=
  match FailDelivery (Some plainProtector) "T3" 1 5 0%Z
          ("send_error " +:+ MinimalApprovalDeliveryOutcomeDefinitelyUnsent) true ex_pressed with
  | Ok s => s
  | Err _ => ex_pressed
  end.

Definition ex_replayed : Store :=
  run_store (CreateMinimalApproval ex_json (Some plainProtector) "T4" (ex_seed "turn" "event" ("yes2", "no2"))) ex_unsent.

(** The columns a move of the message leaves. *)
Definition bind_like (f : MinimalApprovalRow -> MinimalApprovalRow) (g : ApprovalRouteRow -> ApprovalRouteRow) : Prop :=
  (forall a, ma_RequestID (f a) = ma_RequestID a /\ approval_identity (f a) = approval_identity a
             /\ ma_Status (f a) = ma_Status a /\ ma_ClaimState (f a) = ma_ClaimState a
             /\ ma_ClaimAction (f a) = ma_ClaimAction a /\ (0 < ma_TelegramMessageID (f a))%Z)
  /\ (forall r, ar_Token (g r) = ar_Token r /\ ar_Action (g r) = ar_Action r /\ ar_RequestID (g r) = ar_RequestID r
                /\ route_request_of (g r) = route_request_of r /\ ar_Status (g r) = ar_Status r)
  /\ (forall r r', route_place r = route_place r' -> route_place (g r) = route_place (g r')).

(** What an admitted press meets. *)
Record pressed (s : Store) (r : ApprovalRouteRow) (a : MinimalApprovalRow) (messageID : Z) : Prop := {
  pd_route : r ∈ cr_approvalRoutes (db_core s);
  pd_row : a ∈ cr_approvals (db_core s);
  pd_id : ma_RequestID a = ar_RequestID r;
  pd_pending : ma_pending a = true;
  pd_idle : ma_idle a = true;
  pd_active : ar_active r = true;
  pd_message : (0 < messageID)%Z;
  pd_bound : (ar_TelegramMessageID r = messageID /\ ma_TelegramMessageID a = messageID)
             \/ (ar_TelegramMessageID r = 0%Z /\ ma_TelegramMessageID a = 0%Z) }.
