(* ===== verification/ApprovalSafety.v ===== *)
(** * internal/storage/store.go: what the approvals promise

    The buttons of an approval and its state change together, in every reachable state:
    the invariant, its preservation by each operation, and what follows for a press, for
    the end of a session and for the recovery at start. *)
From stdpp Require Import base list numbers strings gmap relations.
From Stdlib Require Import Lia Ascii Sorting.Sorted.
From S2P Require Import Prelude GoStrings Crypto GoTime Sql Model CoreTables Store QueueSafety PendingCommands Threads Approvals.

#[export] Instance approval_table_laws : TableLaws approval_table.
Proof. split; intros; [done|done|]. by destruct s as [? ? ? ? ? ? ? ? ? []]. Qed.

#[export] Instance approval_route_table_laws : TableLaws approval_route_table.
Proof. split; intros; [done|done|]. by destruct s as [? ? ? ? ? ? ? ? ? []]. Qed.

(** ** Lemmas *)
#[local] Arguments update_where : simpl never.
#[local] Arguments affected : simpl never.
#[local] Arguments find_first : simpl never.
#[local] Arguments live_routes : simpl never.

#[export] Instance same_approvals_preorder : PreOrder same_approvals.
Proof. split; [by intros s|]. unfold same_approvals. intros s1 s2 s3 [H1 H2] [H3 H4]. split; congruence. Qed.

Lemma filter_full {R} (p : R -> bool) (l : list R) :
  length (filter p l) = length l -> Forall (fun r => p r = true) l.
Proof.
  induction l as [|x l IH]; [constructor|]. rewrite filter_cons_bool. destruct (p x) eqn:E; cbn [length].
  - intros H. constructor; [done|]. apply IH. lia.
  - intros H. pose proof (length_filter p l). lia.
Qed.

Lemma filter_all_true {R} (p : R -> bool) (l : list R) : Forall (fun r => p r = true) l -> filter p l = l.
Proof. induction 1 as [|x l H _ IH]; [done|]. by rewrite filter_cons_bool, H, IH. Qed.

Lemma filter_and {R} (p q : R -> bool) (l : list R) :
  filter q (filter p l) = filter (fun r => p r && q r) l.
Proof.
  induction l as [|x l IH]; [done|]. rewrite !filter_cons_bool.
  destruct (p x); cbn [andb]; [|done]. rewrite filter_cons_bool. destruct (q x); by rewrite IH.
Qed.

Lemma live_routes_moved q moved status routes :
  (forall r, moved r = true -> ar_live r = true) ->
  Forall (fun r => moved r = true) (live_routes q routes) ->
  live_routes q (update_where (fun r => ar_of q r && moved r) (upd_route_status status) routes)
  = all_moved status (live_routes q routes).
Proof.
  intros Hm Hall. rewrite Forall_forall in Hall.
  replace (update_where (fun r => ar_of q r && moved r) (upd_route_status status) routes)
    with (update_where (fun r => ar_of q r && ar_live r) (upd_route_status status) routes).
  2: { unfold update_where. apply map_ext_in. intros r Hr%list_elem_of_In.
       destruct (ar_of q r) eqn:Eq; [|done]. cbn [andb]. destruct (ar_live r) eqn:El.
       - rewrite Hall; [done|]. apply elem_of_filter_bool. by rewrite Eq, El.
       - destruct (moved r) eqn:Em; [|done]. by rewrite (Hm r Em) in El. }
  unfold live_routes, all_moved.
  destruct (String.eqb status "active" || String.eqb status "claimed") eqn:Es.
  - unfold update_where. induction routes as [|r l IH]; [done|]. cbn [map]. rewrite !filter_cons_bool.
    assert (forall x, x ∈ live_routes q l -> moved x = true) as Hl.
    { intros x [Hx1 Hx2]%elem_of_filter_bool. apply Hall, elem_of_filter_bool. split; [by apply elem_of_cons; right|done]. }
    specialize (IH Hl). destruct (ar_of q r && ar_live r) eqn:E.
    + change (ar_of q (upd_route_status status r)) with (ar_of q r).
      change (ar_live (upd_route_status status r)) with (String.eqb status "active" || String.eqb status "claimed").
      rewrite Es. apply andb_prop in E as [-> _]. cbn [andb map]. by rewrite IH.
    + by rewrite E.
  - apply filter_update_drop; [|done]. intros r _.
    change (ar_live (upd_route_status status r)) with (String.eqb status "active" || String.eqb status "claimed").
    by rewrite Es, andb_false_r.
Qed.

(** The buttons of other requests do not move. *)
Lemma live_routes_other q id (moved : ApprovalRouteRow -> bool) f routes :
  id <> q -> (forall r, ar_RequestID (f r) = ar_RequestID r) ->
  live_routes id (update_where (fun r => ar_of q r && moved r) f routes) = live_routes id routes.
Proof.
  intros Hid Hf. unfold live_routes, update_where. induction routes as [|r l IH]; [done|].
  cbn [map]. rewrite !filter_cons_bool, IH. unfold ar_of in *.
  destruct (String.eqb_spec (ar_RequestID r) q) as [E|E]; [|done]. cbn [andb]. destruct (moved r); [|done].
  rewrite Hf, E. by destruct (String.eqb_spec q id) as [E'|_]; [congruence|].
Qed.

(** An operation on one request keeps the invariant when it does for that request. *)
Lemma inv_local q s s' :
  ApprovalInv s ->
  map ma_RequestID (cr_approvals (db_core s')) = map ma_RequestID (cr_approvals (db_core s)) ->
  NoDup (map ar_Token (cr_approvalRoutes (db_core s'))) ->
  Forall (fun r => ar_RequestID r ∈ map ma_RequestID (cr_approvals (db_core s))) (cr_approvalRoutes (db_core s')) ->
  (forall id, id <> q -> live_routes id (cr_approvalRoutes (db_core s'))
                         = live_routes id (cr_approvalRoutes (db_core s))) ->
  (forall a, a ∈ cr_approvals (db_core s') -> ma_RequestID a <> q -> a ∈ cr_approvals (db_core s)) ->
  (forall a, a ∈ cr_approvals (db_core s') -> ma_RequestID a = q ->
     approval_ok (live_routes q (cr_approvalRoutes (db_core s'))) a) ->
  ApprovalInv s'.
Proof.
  intros [H1 H2 H3 H4] Hids Htok Hknown Hother Hold Hq. split; rewrite ?Hids; try done.
  apply Forall_forall. intros a Ha. destruct (decide (ma_RequestID a = q)) as [E|E].
  - rewrite E. by apply Hq.
  - rewrite (Hother _ E). rewrite Forall_forall in H4. apply H4. by apply Hold.
Qed.

Lemma ma_is_eq q a : ma_is q a = true <-> ma_RequestID a = q.
Proof. apply String.eqb_eq. Qed.

(** What an UPDATE of the buttons of one request keeps. *)
Lemma routes_moved_ok q (moved : ApprovalRouteRow -> bool) f s s' :
  ApprovalInv s -> (forall r, ar_RequestID (f r) = ar_RequestID r) -> (forall r, ar_Token (f r) = ar_Token r) ->
  cr_approvalRoutes (db_core s') = update_where (fun r => ar_of q r && moved r) f (cr_approvalRoutes (db_core s)) ->
  NoDup (map ar_Token (cr_approvalRoutes (db_core s')))
  /\ Forall (fun r => ar_RequestID r ∈ map ma_RequestID (cr_approvals (db_core s))) (cr_approvalRoutes (db_core s'))
  /\ (forall id, id <> q -> live_routes id (cr_approvalRoutes (db_core s'))
                            = live_routes id (cr_approvalRoutes (db_core s))).
Proof.
  intros HI Hr Ht ->. split_and!.
  - rewrite map_update by done. apply HI.
  - apply (Forall_update _ _ _ _ _ (ai_known _ HI)). intros r _ H. case_match; rewrite ?Hr; done.
  - intros id Hid. by apply live_routes_other.
Qed.

Lemma live_two live a : approval_ok live a -> ma_pending a = true -> length live = 2%nat.
Proof.
  unfold approval_ok. intros H Hp. rewrite Hp in H. destruct H as [H _]. rewrite <- (length_map ar_Action), H. done.
Qed.

Lemma filter_ext_bool {R} (p q : R -> bool) (l : list R) : (forall r, p r = q r) -> filter p l = filter q l.
Proof. intros H. induction l as [|x l IH]; [done|]. rewrite !filter_cons_bool, H, IH. done. Qed.

(** The buttons counted by an UPDATE are all the live ones. *)
Lemma two_live q (c : ApprovalRouteRow -> bool) s a :
  ApprovalInv s -> a ∈ cr_approvals (db_core s) -> ma_RequestID a = q -> ma_pending a = true ->
  (forall r, c r = true -> ar_live r = true) ->
  affected (fun r => ar_of q r && c r) (cr_approvalRoutes (db_core s)) = 2%Z
  <-> Forall (fun r => c r = true) (live_routes q (cr_approvalRoutes (db_core s))).
Proof.
  intros HI Ha Hq Hp Hc.
  assert (length (live_routes q (cr_approvalRoutes (db_core s))) = 2%nat) as Hl.
  { apply (live_two _ a); [|done]. rewrite <- Hq. destruct HI as [_ _ _ HI]. rewrite Forall_forall in HI. by apply HI. }
  assert (affected (fun r => ar_of q r && c r) (cr_approvalRoutes (db_core s))
          = Z.of_nat (length (filter c (live_routes q (cr_approvalRoutes (db_core s)))))) as ->.
  { unfold affected, live_routes. rewrite filter_and. f_equal. f_equal. apply filter_ext_bool. intros r.
    destruct (ar_of q r); [|done]. destruct (c r) eqn:Em; [rewrite (Hc r Em); done|by rewrite ?andb_false_r; destruct (ar_live r)]. }
  split.
  - intros H. apply filter_full. rewrite Hl. lia.
  - intros H. rewrite filter_all_true by done. by rewrite Hl.
Qed.

Lemma inv_settle q (p : MinimalApprovalRow -> bool) f moved status s s' a :
  ApprovalInv s ->
  (forall x, ma_RequestID (f x) = ma_RequestID x) -> (forall r, moved r = true -> ar_live r = true) ->
  (forall live, approval_ok live a -> Forall (fun r => moved r = true) live ->
     approval_ok (all_moved status live) (f a)) ->
  a ∈ cr_approvals (db_core s) -> ma_is q a && ma_pending a && p a = true ->
  affected (fun r => ar_of q r && moved r) (cr_approvalRoutes (db_core s)) = 2%Z ->
  cr_approvals (db_core s') = update_where (fun x => ma_is q x && ma_pending x && p x) f (cr_approvals (db_core s)) ->
  cr_approvalRoutes (db_core s')
  = update_where (fun r => ar_of q r && moved r) (upd_route_status status) (cr_approvalRoutes (db_core s)) ->
  ApprovalInv s'.
Proof.
  intros HI Hf Hm Hok Ha Hp Haff HA HR.
  destruct (routes_moved_ok q moved (upd_route_status status) s s' HI ltac:(done) ltac:(done) HR) as (H1 & H2 & H3).
  apply (inv_local q s); try done.
  - by rewrite HA, map_update.
  - intros x Hx Hid. rewrite HA in Hx. apply elem_of_update in Hx as (y & Hy & ->).
    case_match eqn:E; [|done]. apply andb_prop in E as [E _]. apply andb_prop in E as [E%ma_is_eq _].
    by rewrite Hf in Hid.
  - intros x Hx Hid. rewrite HA in Hx. apply elem_of_update in Hx as (y & Hy & ->).
    assert (ma_RequestID y = q) as Hyq by (case_match; [by rewrite Hf in Hid|done]).
    assert (y = a) as ->.
    { apply (keyed_inj ma_RequestID _ _ _ (ai_ids _ HI) Hy Ha). rewrite Hyq. symmetry.
      apply andb_prop in Hp as [Hp _]. apply andb_prop in Hp as [Hp _]. by apply ma_is_eq. }
    rewrite Hp, HR. apply andb_prop in Hp as [Hp Hpa]. apply andb_prop in Hp as [_ Hp].
    assert (approval_ok (live_routes q (cr_approvalRoutes (db_core s))) a) as Ha_ok.
    { rewrite <- Hyq. destruct HI as [_ _ _ HI]. rewrite Forall_forall in HI. by apply HI. }
    assert (Forall (fun r => moved r = true) (live_routes q (cr_approvalRoutes (db_core s)))) as Hall
      by (by apply (two_live q moved s a)).
    rewrite live_routes_moved by done. by apply Hok.
Qed.

Lemma same_approvals_inv s s' : same_approvals s s' -> ApprovalInv s -> ApprovalInv s'.
Proof. intros [H1 H2] [? ? ? ?]. split; by rewrite ?H1, ?H2. Qed.

(** *** Rows of one request *)
Lemma move_routes_run moved status verb what q s u s' :
  move_routes moved status verb what q s = Ok (u, s') ->
  s' = with_rows approval_route_table
         (update_where (fun r => ar_of q r && moved r) (upd_route_status status) (rows_of approval_route_table s)) s
  /\ affected (fun r => ar_of q r && moved r) (rows_of approval_route_table s) = 2%Z.
Proof.
  intros H. unfold move_routes, sql_update_exactly in H. tx_inv H. injection Htx as <- <-.
  cbn [rows_of approval_route_table] in *.
  destruct (Z.eqb_spec (affected (fun r => ar_of q r && moved r) (cr_approvalRoutes (db_core s))) 2) as [E|E];
    [|discriminate H].
  by apply tx_ret_ok in H as [_ ->].
Qed.

Lemma request_affected (p : MinimalApprovalRow -> bool) q s :
  NoDup (map ma_RequestID (cr_approvals (db_core s))) -> (forall a, p a = true -> ma_RequestID a = q) ->
  affected p (cr_approvals (db_core s)) = 1%Z \/ forall a, a ∈ cr_approvals (db_core s) -> p a = false.
Proof.
  intros Hnd Hp. destruct (Z.eq_dec (affected p (cr_approvals (db_core s))) 0%Z) as [E|E].
  - right. by apply affected_zero.
  - left. apply affected_some in E as (a & Ha & Hpa). apply list_elem_of_split in Ha as (l & k & Ha).
    rewrite Ha in Hnd |- *. destruct (update_keyed ma_RequestID p id l a k Hnd) as [_ ->]; [|by rewrite Hpa].
    intros x Hx. by rewrite (Hp x Hx), (Hp a Hpa).
Qed.

Lemma settle_cases p f moved status verb after resolved s b s' :
  NoDup (map ma_RequestID (cr_approvals (db_core s))) ->
  (forall q, tx_keeps same_approvals (after q)) ->
  settle p f moved status verb after resolved s = Ok (b, s') ->
  (b = false /\ s' = s)
  \/ (b = true /\ exists q a, resolved = Some q /\ a ∈ cr_approvals (db_core s)
      /\ ma_is q a && ma_pending a && p a = true
      /\ cr_approvals (db_core s') = update_where (fun x => ma_is q x && ma_pending x && p x) f (cr_approvals (db_core s))
      /\ cr_approvalRoutes (db_core s')
         = update_where (fun r => ar_of q r && moved r) (upd_route_status status) (cr_approvalRoutes (db_core s))
      /\ affected (fun r => ar_of q r && moved r) (cr_approvalRoutes (db_core s)) = 2%Z).
Proof.
  intros Hnd Hafter H. unfold settle in H. destruct resolved as [q|]; [|apply tx_ret_ok in H; naive_solver].
  tx_inv H. injection Htx as <- <-. apply tx_ret_ok in H as [-> ->].
  set (c := fun a => ma_is q a && ma_pending a && p a) in *.
  destruct (request_affected c q s Hnd) as [E|E].
  - intros a Ha. unfold c in Ha. apply andb_prop in Ha as [Ha _]. apply andb_prop in Ha as [Ha _]. by apply ma_is_eq.
  - right. cbn [rows_of approval_table] in *. rewrite E in *. split; [done|]. cbn [tx_when Z.eqb Pos.eqb] in Htx0.
    tx_inv Htx0. apply move_routes_run in Htx as [-> Haff]. apply Hafter in Htx0 as [HA HR].
    destruct (affected_one c f _ E) as (l & x & k & Hr & Hc & _). exists q, x. split_and!; try done.
    rewrite Hr. apply elem_of_app. right. left.
  - left. pose proof (proj2 (affected_zero c _) E) as E0. cbn [rows_of approval_table] in *. rewrite E0 in *.
    apply tx_ret_ok in Htx0 as [_ ->]. split; [done|]. rewrite update_none by done. exact (with_same (t := approval_table) s).
Qed.

(** *** Each end of a claim respects the two buttons *)

Section rules.
Context (a : MinimalApprovalRow) (live : list ApprovalRouteRow).
Hypothesis (Hok : approval_ok live a) (Hp : ma_pending a = true).

Lemma ok_facts :
  map ar_Action live = ["approve"; "deny"] /\ Forall (fun r => route_request_of r = approval_identity a) live
  /\ (exists place, Forall (fun r => route_place r = place) live).
Proof. clear -Hok Hp. unfold approval_ok in Hok. rewrite Hp in Hok. naive_solver. Qed.

Lemma ok_idle : ma_idle a = true -> ma_ClaimAction a = None /\ Forall (fun r => ar_active r = true) live.
Proof.
  clear -Hok Hp. intros Hi%String.eqb_eq. unfold approval_ok in Hok. rewrite Hp in Hok.
  destruct Hok as (_ & _ & _ & [(_ & ? & ?)|(Hc & _)]); [done|congruence].
Qed.

Lemma ok_claimed : ma_ClaimState a = "claimed" ->
  (0 < ma_TelegramMessageID a)%Z /\ (exists action, ma_ClaimAction a = Some action /\ action ∈ ["approve"; "deny"])
  /\ (Forall (fun r => ar_claimed r = true) live \/ Forall (fun r => ar_active r = true) live).
Proof.
  clear -Hok Hp. intros Hc. unfold approval_ok in Hok. rewrite Hp in Hok.
  destruct Hok as (_ & _ & _ & [(Hi & _)|(_ & ? & ? & ?)]); [congruence|done].
Qed.

(** Buttons of an open approval whose status changed together. *)
Lemma ok_open (a' : MinimalApprovalRow) status :
  ma_pending a' = true -> approval_identity a' = approval_identity a ->
  ((ma_ClaimState a' = "idle" /\ ma_ClaimAction a' = None /\ status = "active")
   \/ (ma_ClaimState a' = "claimed" /\ (0 < ma_TelegramMessageID a')%Z
       /\ (exists action, ma_ClaimAction a' = Some action /\ action ∈ ["approve"; "deny"])
       /\ status = "claimed")) ->
  approval_ok (map (upd_route_status status) live) a'.
Proof.
  intros Hp' Hid Hc. unfold approval_ok. rewrite Hp', Hid.
  destruct ok_facts as (H1 & H2 & place & H3). split_and!.
  - by rewrite map_map.
  - apply Forall_map. exact H2.
  - exists place. apply Forall_map. exact H3.
  - destruct Hc as [(? & ? & ->)|(? & ? & ? & ->)].
    + left. split_and!; try done. apply Forall_map, Forall_forall. by intros r _.
    + right. split_and!; try done. left. apply Forall_map, Forall_forall. by intros r _.
Qed.
End rules.

Lemma ok_ended a : ma_pending a = false -> ma_ClaimState a = "idle" -> approval_ok [] a.
Proof. intros Hp Hi. unfold approval_ok. by rewrite Hp. Qed.

Lemma move_refl G a : approval_move G a a.
Proof. split; [done|]. left. split_and!; [done..|]. by left. Qed.

(** An UPDATE of open approvals moves them. *)
Lemma evolve_update G (c : MinimalApprovalRow -> bool) f s s' :
  (forall a, ma_RequestID (f a) = ma_RequestID a /\ approval_identity (f a) = approval_identity a) ->
  (forall a, c a = true -> ma_pending a = true \/ ma_Status (f a) = ma_Status a) ->
  (forall a, c a = true -> keeps_claim (G a) a (f a)) ->
  cr_approvals (db_core s') = update_where c f (cr_approvals (db_core s)) -> approvals_evolve G s s'.
Proof.
  intros Hf Hc Hcl HA a Ha. exists (if c a then f a else a). split; [rewrite HA; apply elem_of_update; by exists a|].
  destruct (c a) eqn:E; [|apply move_refl]. destruct (Hf a) as [H1 H2]. split; [done|]. left. split_and!; [done| |by apply Hcl].
  intros Hp. destruct (Hc a E) as [H|H]; [congruence|done].
Qed.

Lemma evolve_same G s s1 s' : approvals_evolve G s s1 -> same_approvals s1 s' -> approvals_evolve G s s'.
Proof. intros H [HA _] a Ha. rewrite HA. by apply H. Qed.

Lemma approvals_refl G s : approvals_evolve G s s.
Proof. intros a Ha. exists a. split; [done|apply move_refl]. Qed.

Lemma evolve_never G s s' : approvals_evolve never s s' -> approvals_evolve G s s'.
Proof.
  intros H a Ha. destruct (H a Ha) as (a' & Ha' & Hid & Hm). exists a'. split; [done|]. split; [done|].
  destruct Hm as [(H1 & H2 & H3)|Hm]; [left|by right]. split_and!; [done..|]. intros Hp Hc. by destruct (H3 Hp Hc) as [|[]]; left.
Qed.

Lemma settle_inv G p f moved status verb after resolved s b s' :
  ApprovalInv s -> (forall q, tx_keeps same_approvals (after q)) ->
  (forall x, ma_RequestID (f x) = ma_RequestID x) -> (forall r, moved r = true -> ar_live r = true) ->
  (forall x live, approval_ok live x -> ma_pending x = true -> p x = true ->
     Forall (fun r => moved r = true) live -> approval_ok (all_moved status live) (f x)) ->
  (forall x, approval_identity (f x) = approval_identity x) ->
  (b = true -> forall x, resolved = Some (ma_RequestID x) -> p x = true -> keeps_claim (G x) x (f x)) ->
  settle p f moved status verb after resolved s = Ok (b, s') -> ApprovalInv s' /\ approvals_evolve G s s'.
Proof.
  intros HI Ha Hf Hm Hok Hfi Hk H. apply settle_cases in H as [[_ ->]|(Hb & q & a & Hq & Hin & Hp & HA & HR & Hn)];
    [split; [done|apply approvals_refl]| |apply HI|done].
  split.
  2: { apply (evolve_update G (fun x => ma_is q x && ma_pending x && p x) f s); [|..|exact HA].
       - intros x. split; [apply Hf|apply Hfi].
       - intros x Hx. left. apply andb_prop in Hx as [Hx _]. by apply andb_prop in Hx as [_ ?].
       - intros x [[Hx%ma_is_eq _]%andb_prop Hpx]%andb_prop. apply Hk; [done|by rewrite Hx|done]. }
  apply (inv_settle q p f moved status s s' a); try done. intros live Hl. apply Hok; [done|..];
    apply andb_prop in Hp as [Hp ?]; by apply andb_prop in Hp as [_ ?].
Qed.

Lemma live_of_active r : ar_active r = true -> ar_live r = true.
Proof. unfold ar_live. by intros ->. Qed.

Lemma live_of_claimed r : ar_claimed r = true -> ar_live r = true.
Proof. unfold ar_live. intros ->. by rewrite orb_true_r. Qed.

Lemma kill_deliveries_same now p : tx_keeps same_approvals (kill_deliveries now p).
Proof. intros s u s' H. unfold kill_deliveries in H. tx_inv H. injection Htx as <- <-. by apply tx_ret_ok in H as [_ ->]. Qed.

Lemma kill_own_same now q : tx_keeps same_approvals (kill_own_delivery now q).
Proof.
  intros s u s' H. unfold kill_own_delivery in H. tx_inv H. apply tx_gets_ok in Htx as [-> ->].
  destruct (find_approval q s); [by apply kill_deliveries_same in H|by apply tx_ret_ok in H as [_ ->]].
Qed.

Lemma rule_restore now action a live :
  approval_ok live a -> ma_pending a = true -> ma_claimed_for action a = true ->
  Forall (fun r => ar_claimed r = true) live ->
  approval_ok (all_moved "active" live) (upd_approval_claim "idle" None now a).
Proof. intros Hok Hp _ _. apply (ok_open a live Hok Hp _ "active"); [done|done|]. by left. Qed.

Lemma rule_finish now status (p : MinimalApprovalRow -> bool) action a live : status <> "pending" ->
  approval_ok live a -> ma_pending a = true -> p a = true -> Forall (fun r => ar_claimed r = true) live ->
  approval_ok (all_moved "consumed" live) (upd_approval_state status "idle" action now a).
Proof. intros Hs _ _ _ _. apply ok_ended; [|done]. by apply String.eqb_neq. Qed.

Lemma rule_expire now a live :
  approval_ok live a -> ma_pending a = true -> ma_idle a = true -> Forall (fun r => ar_active r = true) live ->
  approval_ok (all_moved "expired" live) (upd_approval_status "expired" now a).
Proof. intros _ _ Hi _. apply ok_ended; [done|]. by apply String.eqb_eq in Hi. Qed.

Lemma restore_inv now requestID action s b s' :
  ApprovalInv s -> RestoreMinimalApprovalClaim now requestID action s = Ok (b, s') ->
  ApprovalInv s' /\ approvals_evolve (claim_restored s s') s s'.
Proof.
  intros HI H. pose proof H as Hrun. unfold RestoreMinimalApprovalClaim in H. tx_inv H. apply tx_gets_ok in Htx as [-> ->].
  revert H. apply settle_inv; [done|intros q; apply keeps_ret; apply _|done|apply live_of_claimed| |done|].
  - intros x live Hok Hp Hc Hl. by apply rule_restore with action.
  - intros -> x Hx Hc _ _. right. by exists now, requestID, action.
Qed.

Lemma finish_inv now requestID action status s b s' : status <> "pending" ->
  ApprovalInv s -> FinishMinimalApprovalClaim now requestID action status s = Ok (b, s') ->
  ApprovalInv s' /\ approvals_evolve never s s'.
Proof.
  intros Hs HI H. unfold FinishMinimalApprovalClaim in H. tx_inv H. apply tx_gets_ok in Htx as [-> ->].
  revert H. apply settle_inv; [done|intros q; apply keeps_ret; apply _|done|apply live_of_claimed| |done|].
  - intros x live Hok Hp Hc Hl. by apply (rule_finish now status (ma_claimed_for action)).
  - by intros _ x _ _ Hp%String.eqb_eq.
Qed.

Lemma expire_resolved_inv now resolved s b s' :
  ApprovalInv s -> expire_resolved now resolved s = Ok (b, s') ->
  ApprovalInv s' /\ approvals_evolve never s s'.
Proof.
  intros HI. apply settle_inv; [done|intros q; apply kill_own_same|done|apply live_of_active| |done|done].
  intros x live Hok Hp Hc Hl. by apply rule_expire.
Qed.

Lemma tx_modify_ok {S} (f : S -> S) s u s' : tx_modify f s = Ok (u, s') <-> s' = f s.
Proof. unfold tx_modify. destruct u. split; [by intros [= <-]|by intros ->]. Qed.

Lemma insert_ungrouped_same now item status n e payload s :
  same_approvals s (insert_ungrouped now item status n e payload s).
Proof. unfold insert_ungrouped. by destruct (event_target_exists _ _ _). Qed.

Lemma enqueue_protected_same now item payload : tx_keeps same_approvals (enqueue_protected now item payload).
Proof. intros s u s' H%tx_modify_ok. subst. apply insert_ungrouped_same. Qed.

Lemma inactive_edit_same MustJSON p now a text :
  tx_keeps same_approvals (enqueueMinimalApprovalInactiveEditTx MustJSON p now a text).
Proof.
  unfold enqueueMinimalApprovalInactiveEditTx. apply keeps_bind; [apply _|apply keeps_lift, _|].
  intros text'. apply enqueue_protected_same.
Qed.

Lemma cancel_inv MustJSON p now requestID action text s b s' :
  ApprovalInv s -> CancelMinimalApprovalClaimWithInactiveEdit MustJSON (Some p) now requestID action text s = Ok (b, s') ->
  ApprovalInv s' /\ approvals_evolve never s s'.
Proof.
  intros HI H. unfold CancelMinimalApprovalClaimWithInactiveEdit in H. tx_inv H. apply tx_gets_ok in Htx as [-> ->].
  destruct (resolveMinimalApprovalRequestID requestID s) as [q|]; [|apply tx_ret_ok in H as [_ ->]; split; [done|apply approvals_refl]].
  tx_inv H. apply tx_gets_ok in Htx as [-> ->].
  destruct (find_approval q s) as [a|]; [|apply tx_ret_ok in H as [_ ->]; split; [done|apply approvals_refl]].
  destruct (cancel_admitted action text a); cbn [negb] in H; [|apply tx_ret_ok in H as [_ ->]; split; [done|apply approvals_refl]].
  tx_inv H. injection Htx as <- <-. cbn [rows_of approval_table] in *.
  set (c := fun x => ma_is q x && ma_pending x && ma_claimed_for action x) in *.
  destruct (request_affected c q s (ai_ids _ HI)) as [E|E].
  - intros x Hx. unfold c in Hx. apply andb_prop in Hx as [Hx _]. apply andb_prop in Hx as [Hx _]. by apply ma_is_eq.
  - rewrite E in H. cbn [negb Z.eqb Pos.eqb] in H. tx_inv H. apply tx_ret_ok in H as [-> ->].
    apply inactive_edit_same in Htx0 as [HA HR]. apply move_routes_run in Htx as [-> Haff].
    destruct (affected_one c id _ E) as (l & x & k & Hr & Hc & _).
    split; [|apply (evolve_update never c (upd_approval_state "cancelled" "idle" None now) s); try done;
               intros y Hy; left; apply andb_prop in Hy as [Hy _]; by apply andb_prop in Hy as [_ ?]].
    apply (inv_settle q (ma_claimed_for action) (upd_approval_state "cancelled" "idle" None now) ar_claimed "consumed" s _ x);
      try done; [apply live_of_claimed|rewrite Hr; apply elem_of_app; right; left].
  - rewrite (proj2 (affected_zero c _) E) in H. cbn [negb Z.eqb] in H. apply tx_ret_ok in H as [_ ->].
    rewrite update_none by done. pose proof (with_same (t := approval_table) s) as Hs. cbn in Hs. rewrite Hs.
    split; [done|apply approvals_refl].
Qed.

(** *** A press *)

Lemma find_route_some token s r : find_route token s = Some r ->
  r ∈ cr_approvalRoutes (db_core s) /\ ar_Token r = token.
Proof. intros [H1 H2%String.eqb_eq]%find_first_some. done. Qed.

Lemma find_approval_some q s a : find_approval q s = Some a ->
  a ∈ cr_approvals (db_core s) /\ ma_RequestID a = q.
Proof. intros [H1 H2%String.eqb_eq]%find_first_some. done. Qed.

Lemma press_exact_spec s token r a session chatID topicID messageID :
  find_route token s = Some r -> find_approval (ar_RequestID r) s = Some a ->
  press_exact session chatID topicID messageID r a = true -> pressed s r a messageID.
Proof.
  intros [Hr _]%find_route_some [Ha Hid]%find_approval_some H. unfold press_exact in H.
  repeat (apply andb_prop in H as [H ?]).
  split; try done; [by apply Z.ltb_lt|].
  match goal with H : _ || _ = true |- _ => apply orb_prop in H as [H|H]; apply andb_prop in H as [?%Z.eqb_eq ?%Z.eqb_eq] end;
    [by left|by right].
Qed.

(** What the code compares is what the open approval asks for: the request of the button
    is its own by the invariant. *)
Lemma press_exact_open s token r a session chatID topicID messageID :
  ApprovalInv s -> find_route token s = Some r -> find_approval (ar_RequestID r) s = Some a ->
  press_exact session chatID topicID messageID r a = true <-> open_press session chatID topicID messageID r a.
Proof.
  intros HI [Hr _]%find_route_some [Ha Hid]%find_approval_some.
  unfold press_exact, ma_pending, ma_idle, ar_active.
  rewrite !andb_true_iff, orb_true_iff, !andb_true_iff, !String.eqb_eq, !Z.eqb_eq, Z.ltb_lt. split.
  - intros H. decompose [and] H. split; try (split; congruence); try done. split; [done|].
    match goal with H : _ \/ _ |- _ => destruct H as [[E1 E2]|[E1 E2]]; rewrite E1, E2 end; repeat constructor.
  - intros [[H1 H2] H3 H4 [H5 H6] [H7 H8]]. simplify_eq.
    assert (route_request_of r = approval_identity a) as Hq.
    { assert (ma_pending a = true) as Hp by (unfold ma_pending; by rewrite H1).
      destruct HI as [_ _ _ HI]. rewrite Forall_forall in HI. specialize (HI a Ha).
      destruct (ok_facts a _ HI Hp) as (_ & Hl & _). rewrite Forall_forall in Hl. apply Hl.
      apply elem_of_filter_bool. split; [done|]. unfold ar_of, ar_live, ar_active. by rewrite H3, Hid, String.eqb_refl. }
    injection Hq as Hq1 Hq2 Hq3. split_and!; try done.
    apply list_elem_of_In in H8. destruct H8 as [E|[E|[]]]; injection E as <- <-; auto.
Qed.

(** The live buttons of the pressed approval: both active, the pressed one among them. *)
Lemma pressed_live s r a messageID : ApprovalInv s -> pressed s r a messageID ->
  let live := live_routes (ar_RequestID r) (cr_approvalRoutes (db_core s)) in
  approval_ok live a /\ r ∈ live /\ Forall (fun x => ar_active x = true) live /\ ar_Action r ∈ ["approve"; "deny"]
  /\ Forall (fun x => route_place x = route_place r) live.
Proof.
  intros HI [Hr Ha Hid Hp Hi Hact Hm Hb] live.
  assert (approval_ok live a) as Hok.
  { destruct HI as [_ _ _ HI]. rewrite Forall_forall in HI. unfold live. rewrite <- Hid. by apply HI. }
  assert (r ∈ live) as Hin.
  { apply elem_of_filter_bool. split; [done|]. unfold ar_of, ar_live. by rewrite String.eqb_refl, Hact. }
  destruct (ok_facts a live Hok Hp) as (H1 & H2 & place & H3). rewrite Forall_forall in H3.
  split_and!; [done|done|by apply (ok_idle a live Hok Hp)| |].
  - rewrite <- H1. by apply (list_elem_of_fmap_2 ar_Action).
  - apply Forall_forall. intros x Hx. rewrite (H3 x Hx), (H3 r Hin). done.
Qed.

Lemma update_all {R} (c : R -> bool) (f : R -> R) (l : list R) :
  Forall (fun r => c r = true) l -> update_where c f l = map f l.
Proof.
  intros H. rewrite Forall_forall in H. unfold update_where. apply map_ext_in. intros r Hr%list_elem_of_In.
  by rewrite (H r Hr).
Qed.

Lemma ok_bound f g (d : MinimalApprovalRow -> bool) a live : bind_like f g ->
  approval_ok live a -> ma_pending a = true -> approval_ok (map g live) (if d a then f a else a).
Proof.
  intros (Hf & Hg & Hplace) Hok Hp. destruct (ok_facts a live Hok Hp) as (H1 & H2 & place & H3).
  destruct (Hf a) as (Hid & Hident & Hst & Hcs & Hca & Hmsg).
  assert (ma_pending (if d a then f a else a) = true) as Hp' by (unfold ma_pending in *; destruct (d a); by rewrite ?Hst).
  assert (approval_identity (if d a then f a else a) = approval_identity a) as Hident'
    by (by destruct (d a)).
  assert (forall P : string -> Prop, Forall (fun r => P (ar_Status r)) live -> Forall (fun r => P (ar_Status r)) (map g live)) as Hst'.
  { intros P HP. apply Forall_map. apply (Forall_impl _ _ _ HP). intros r. destruct (Hg r) as (_ & _ & _ & _ & ->). done. }
  unfold approval_ok. rewrite Hp', Hident'. split_and!.
  - rewrite map_map. rewrite <- H1. apply map_ext. intros r. destruct (Hg r) as (_ & -> & _). done.
  - apply Forall_map. apply (Forall_impl _ _ _ H2). intros r <-. destruct (Hg r) as (_ & _ & _ & -> & _). done.
  - destruct live as [|r0 rest]; [by exists place|]. exists (route_place (g r0)). apply Forall_map.
    rewrite Forall_forall in H3. apply Forall_forall. intros r Hr. apply Hplace. rewrite (H3 r Hr). symmetry. apply H3. left.
  - unfold approval_ok in Hok. rewrite Hp in Hok. destruct Hok as (_ & _ & _ & [(C1 & C2 & C3)|(C1 & C2 & C3 & C4)]).
    + left. split_and!; [destruct (d a); congruence..|]. exact (Hst' (fun v => String.eqb v "active" = true) C3).
    + right. split_and!; [destruct (d a); congruence|by destruct (d a)|destruct (d a); by rewrite ?Hca|].
      destruct C4 as [C4|C4]; [left; exact (Hst' (fun v => String.eqb v "claimed" = true) C4)|
                               right; exact (Hst' (fun v => String.eqb v "active" = true) C4)].
Qed.

Lemma inv_bind q (d : MinimalApprovalRow -> bool) f (c : ApprovalRouteRow -> bool) g s s' a :
  ApprovalInv s -> bind_like f g -> a ∈ cr_approvals (db_core s) -> ma_RequestID a = q -> ma_pending a = true ->
  Forall (fun r => c r = true) (live_routes q (cr_approvalRoutes (db_core s))) ->
  cr_approvals (db_core s') = update_where (fun x => ma_is q x && d x) f (cr_approvals (db_core s)) ->
  cr_approvalRoutes (db_core s') = update_where (fun r => ar_of q r && c r) g (cr_approvalRoutes (db_core s)) ->
  ApprovalInv s'
  /\ live_routes q (cr_approvalRoutes (db_core s')) = map g (live_routes q (cr_approvalRoutes (db_core s)))
  /\ (if d a then f a else a) ∈ cr_approvals (db_core s').
Proof.
  intros HI Hbl Ha Hq Hp Hc HA HR. pose proof Hbl as (Hf & Hg & Hplace).
  assert (forall x, ma_RequestID (f x) = ma_RequestID x) as Hfid by (intros x; apply Hf).
  assert (forall r, ar_RequestID (g r) = ar_RequestID r /\ ar_Token (g r) = ar_Token r /\ ar_Status (g r) = ar_Status r) as Hgk.
  { intros r. destruct (Hg r) as (? & _ & ? & _ & ?). done. }
  destruct (routes_moved_ok q c g s s' HI (fun r => proj1 (Hgk r)) (fun r => proj1 (proj2 (Hgk r))) HR) as (H1 & H2 & H3).
  assert (live_routes q (cr_approvalRoutes (db_core s')) = map g (live_routes q (cr_approvalRoutes (db_core s)))) as Hlive.
  { rewrite HR. unfold live_routes. rewrite filter_update.
    - apply update_all. rewrite Forall_forall in Hc. apply Forall_forall. intros r Hr. rewrite (Hc r Hr).
      apply elem_of_filter_bool in Hr as [_ Hr]. apply andb_prop in Hr as [-> _]. done.
    - intros r. destruct (Hgk r) as (G1 & _ & G3). unfold ar_of, ar_live, ar_active, ar_claimed. by rewrite G1, G3. }
  assert ((if d a then f a else a) ∈ cr_approvals (db_core s')) as Hin.
  { rewrite HA. apply elem_of_update. exists a. split; [done|]. unfold ma_is. by rewrite Hq, String.eqb_refl. }
  split_and!; [|done|done]. apply (inv_local q s); try done.
  - by rewrite HA, map_update.
  - intros x Hx Hid. rewrite HA in Hx. apply elem_of_update in Hx as (y & Hy & ->).
    case_match eqn:E; [|done]. apply andb_prop in E as [E%ma_is_eq _]. by rewrite Hfid in Hid.
  - intros x Hx Hid. rewrite HA in Hx. apply elem_of_update in Hx as (y & Hy & ->).
    assert (ma_RequestID y = q) as Hyq by (case_match; [by rewrite Hfid in Hid|done]).
    assert (y = a) as -> by (apply (keyed_inj ma_RequestID _ _ _ (ai_ids _ HI) Hy Ha); congruence).
    rewrite (proj2 (ma_is_eq q a) Hyq). cbn [andb]. rewrite Hlive. apply ok_bound; [done| |done].
    rewrite <- Hyq. destruct HI as [_ _ _ HI]. rewrite Forall_forall in HI. by apply HI.
Qed.

(** Claiming an approval nobody has claimed. *)
Lemma claim_stage now q action a s :
  ApprovalInv s -> a ∈ cr_approvals (db_core s) -> ma_RequestID a = q -> ma_pending a = true -> ma_idle a = true ->
  (0 < ma_TelegramMessageID a)%Z -> action ∈ ["approve"; "deny"] ->
  let s1 := with_rows approval_table (update_where (fun x => ma_is q x && ma_pending x && ma_idle x)
              (upd_approval_claim "claimed" (Some action) now) (cr_approvals (db_core s))) s in
  let s2 := with_rows approval_route_table (update_where (fun r => ar_of q r && ar_active r)
              (upd_route_status "claimed") (cr_approvalRoutes (db_core s))) s1 in
  affected (fun x => ma_is q x && ma_pending x && ma_idle x) (cr_approvals (db_core s)) = 1%Z
  /\ move_routes ar_active "claimed" "claimed" "minimal approval" q s1 = Ok (tt, s2)
  /\ ApprovalInv s2 /\ upd_approval_claim "claimed" (Some action) now a ∈ cr_approvals (db_core s2).
Proof.
  intros HI Ha Hq Hp Hi Hm Hact s1 s2.
  assert (approval_ok (live_routes q (cr_approvalRoutes (db_core s))) a) as Hok.
  { rewrite <- Hq. destruct HI as [_ _ _ HI]. rewrite Forall_forall in HI. by apply HI. }
  destruct (ok_idle a _ Hok Hp Hi) as [_ Hall]. split_and!.
  - destruct (request_affected (fun x => ma_is q x && ma_pending x && ma_idle x) q s (ai_ids _ HI)) as [?|E]; [|done|].
    + intros x Hx. apply andb_prop in Hx as [Hx _]. apply andb_prop in Hx as [Hx _]. by apply ma_is_eq.
    + specialize (E a Ha). by rewrite (proj2 (ma_is_eq q a) Hq), Hp, Hi in E.
  - unfold move_routes, sql_update_exactly, tx_bind, sql_update.
    change (rows_of approval_route_table s1) with (cr_approvalRoutes (db_core s)).
    by rewrite (proj2 (two_live q ar_active s a HI Ha Hq Hp live_of_active) Hall).
  - apply (inv_settle q ma_idle (upd_approval_claim "claimed" (Some action) now) ar_active "claimed" s s2 a); try done.
    + apply live_of_active.
    + intros live Hx _. apply (ok_open a live Hx Hp _ "claimed"); [done|done|]. right. split_and!; try done; by exists action.
    + by rewrite (proj2 (ma_is_eq q a) Hq), Hp, Hi.
    + by apply (two_live q ar_active s a HI Ha Hq Hp live_of_active).
  - apply elem_of_update. exists a. by rewrite (proj2 (ma_is_eq q a) Hq), Hp, Hi.
Qed.

Lemma self_bind_like now messageID : (0 < messageID)%Z ->
  bind_like (fun a => upd_approval_message (ma_ChatID a) (ma_TopicID a) messageID now a)
    (fun r => upd_route_message (ar_ChatID r) (ar_TopicID r) messageID r).
Proof. intros Hm. split_and!; try done. intros r r' [= H1 H2 _]. unfold route_place. cbn. by rewrite H1, H2. Qed.

(** A press of a message whose id is not stored binds the approval and both buttons to it. *)
Lemma bind_stage now chatID topicID messageID s r a :
  ApprovalInv s -> pressed s r a messageID -> ar_TelegramMessageID r = 0%Z -> ma_TelegramMessageID a = 0%Z ->
  exists s1, self_bind now chatID topicID messageID r s = Ok (true, s1) /\ ApprovalInv s1
    /\ upd_approval_message (ma_ChatID a) (ma_TopicID a) messageID now a ∈ cr_approvals (db_core s1)
    /\ cr_approvals (db_core s1)
       = update_where (fun x => ma_is (ar_RequestID r) x && ((ma_TelegramMessageID x =? 0)%Z && ma_pending x && ma_idle x))
           (fun a => upd_approval_message (ma_ChatID a) (ma_TopicID a) messageID now a) (cr_approvals (db_core s))
    /\ cr_approvalRoutes (db_core s1)
       = update_where (fun x => ar_of (ar_RequestID r) x && (ar_active x && (ar_TelegramMessageID x =? 0)%Z))
           (fun r => upd_route_message (ar_ChatID r) (ar_TopicID r) messageID r) (cr_approvalRoutes (db_core s)).
Proof.
  intros HI HP Hr0 Ha0. destruct (pressed_live s r a messageID HI HP) as (Hok & Hin & Hact & _ & Hplace).
  destruct HP as [Hr Ha Hid Hp Hi Hra Hm _]. set (q := ar_RequestID r) in *.
  set (d := fun x => (ma_TelegramMessageID x =? 0)%Z && ma_pending x && ma_idle x).
  set (c := fun x => ar_active x && (ar_TelegramMessageID x =? 0)%Z).
  assert (d a = true) as Hd by (unfold d; by rewrite Ha0, Hp, Hi).
  assert (Forall (fun x => c x = true) (live_routes q (cr_approvalRoutes (db_core s)))) as Hc.
  { rewrite Forall_forall in Hact, Hplace. apply Forall_forall. intros x Hx. unfold c. rewrite (Hact x Hx).
    pose proof (Hplace x Hx) as [= _ _ ->]. by rewrite Hr0. }
  assert (affected (fun x => ma_is q x && d x) (cr_approvals (db_core s)) = 1%Z) as Hn.
  { destruct (request_affected (fun x => ma_is q x && d x) q s (ai_ids _ HI)) as [?|E]; [|done|].
    - intros x Hx. apply andb_prop in Hx as [Hx _]. by apply ma_is_eq.
    - specialize (E a Ha). by rewrite (proj2 (ma_is_eq q a) Hid), Hd in E. }
  pose proof (proj2 (two_live q c s a HI Ha Hid Hp (fun x Hx => live_of_active x (proj1 (andb_prop _ _ Hx)))) Hc) as Hn2.
  set (f := fun a => upd_approval_message (ma_ChatID a) (ma_TopicID a) messageID now a).
  set (g := fun r => upd_route_message (ar_ChatID r) (ar_TopicID r) messageID r).
  set (s0 := with_rows approval_route_table (update_where (fun x => ar_of q x && c x) g (cr_approvalRoutes (db_core s)))
               (with_rows approval_table (update_where (fun x => ma_is q x && d x) f (cr_approvals (db_core s))) s)).
  destruct (inv_bind q d f c g s s0 a HI (self_bind_like now messageID Hm) Ha Hid Hp Hc eq_refl eq_refl) as (HI0 & _ & Hin0).
  rewrite Hd in Hin0.
  destruct (put_approval_route chatID topicID messageID (ar_ThreadID r) (ar_TurnID r) q now s0) as [[[] s1]|e] eqn:Eput;
    [|discriminate Eput].
  exists s1. assert (same_approvals s0 s1) as Hsame by (injection Eput as <-; done).
  pose proof Hsame as [HA HR].
  split_and!; [|by apply (same_approvals_inv s0)|by rewrite HA|by rewrite HA|by rewrite HR].
  unfold self_bind. fold q. erewrite tx_bind_run by reflexivity. cbn [rows_of approval_table].
  change (fun a0 => ma_is q a0 && ((ma_TelegramMessageID a0 =? 0)%Z && ma_pending a0 && ma_idle a0))
    with (fun x => ma_is q x && d x). rewrite Hn. cbn [negb Z.eqb Pos.eqb].
  erewrite tx_bind_run; [by erewrite tx_bind_run by exact Eput|].
  unfold sql_update_exactly. erewrite tx_bind_run by reflexivity. cbn [rows_of approval_route_table].
  change (cr_approvalRoutes (db_core (with_rows approval_table ?l s))) with (cr_approvalRoutes (db_core s)).
  change (affected (fun x => ar_of q x && (ar_active x && (ar_TelegramMessageID x =? 0)%Z)) ?l)
    with (affected (fun x => ar_of q x && c x) l).
  rewrite Hn2. reflexivity.
Qed.

Lemma find_approval_in s a q :
  NoDup (map ma_RequestID (cr_approvals (db_core s))) -> a ∈ cr_approvals (db_core s) -> ma_RequestID a = q ->
  find_approval q s = Some a.
Proof.
  intros Hnd Ha Hq. destruct (find_approval q s) as [b|] eqn:Eb.
  - apply find_approval_some in Eb as [Hb Hid]. f_equal. apply (keyed_inj ma_RequestID _ _ _ Hnd Hb Ha). congruence.
  - unfold find_approval in Eb. rewrite find_first_none in Eb. specialize (Eb a Ha).
    by rewrite (proj2 (ma_is_eq q a) Hq) in Eb.
Qed.

(** Rows of other requests under an UPDATE of one. *)
Lemma other_rows q (d : MinimalApprovalRow -> bool) f rows b :
  (forall a, ma_RequestID (f a) = ma_RequestID a) -> ma_RequestID b <> q ->
  b ∈ update_where (fun x => ma_is q x && d x) f rows <-> b ∈ rows.
Proof.
  intros Hf Hb. rewrite elem_of_update. split.
  - intros (x & Hx & ->). case_match eqn:E; [|done]. apply andb_prop in E as [E%ma_is_eq _]. by rewrite Hf in Hb.
  - intros Hx. exists b. split; [done|]. case_match eqn:E; [|done]. by apply andb_prop in E as [E%ma_is_eq _].
Qed.

(** Of a claimed approval no button is admitted. *)
Lemma claimed_refused now token chatID topicID messageID session s r a :
  find_route token s = Some r -> find_approval (ar_RequestID r) s = Some a -> ma_ClaimState a = "claimed" ->
  ClaimMinimalApproval now token chatID topicID messageID session s = Ok ((Some (route_of_row r (Some a)), false), s).
Proof.
  intros Hr Ha Hc. unfold ClaimMinimalApproval. erewrite tx_bind_run by reflexivity. cbn beta. rewrite Hr. cbn.
  rewrite Ha. cbn. unfold press_exact, ma_idle. rewrite Hc. cbn. by rewrite !andb_false_r.
Qed.

(** What the last two statements of a press do, after the message was bound if need be. *)
Lemma claim_finish now q action a (route : MinimalApprovalRoute) s :
  ApprovalInv s -> a ∈ cr_approvals (db_core s) -> ma_RequestID a = q -> ma_pending a = true -> ma_idle a = true ->
  (0 < ma_TelegramMessageID a)%Z -> action ∈ ["approve"; "deny"] ->
  exists s2,
    (tx! n := sql_update approval_table (fun x => ma_is q x && ma_pending x && ma_idle x)
                (upd_approval_claim "claimed" (Some action) now) in
     if negb (n =? 1)%Z then tx_ret (Some route, false)
     else
       tx! _ := move_routes ar_active "claimed" "claimed" "minimal approval" q in
       tx_ret (Some route, true)) s = Ok ((Some route, true), s2)
    /\ ApprovalInv s2 /\ find_approval q s2 = Some (upd_approval_claim "claimed" (Some action) now a)
    /\ (forall b, ma_RequestID b <> q -> b ∈ cr_approvals (db_core s2) <-> b ∈ cr_approvals (db_core s)).
Proof.
  intros HI Ha Hq Hp Hi Hm Hact.
  destruct (claim_stage now q action a s HI Ha Hq Hp Hi Hm Hact) as (Hn & Hmove & HI2 & Hin2).
  eexists. split; [|split; [exact HI2|]].
  - erewrite tx_bind_run by reflexivity. cbn [rows_of approval_table]. rewrite Hn. cbn [negb Z.eqb Pos.eqb].
    by erewrite tx_bind_run by exact Hmove.
  - split; [by apply find_approval_in; [apply HI2|..]|]. intros b Hb. cbn.
    rewrite <- (other_rows q (fun x => ma_pending x && ma_idle x) (upd_approval_claim "claimed" (Some action) now) (cr_approvals (db_core s)) b) by done.
    unfold update_where. rewrite (map_ext (fun r => if ma_is q r && (ma_pending r && ma_idle r) then _ else _)
      (fun r => if ma_is q r && ma_pending r && ma_idle r then upd_approval_claim "claimed" (Some action) now r else r)); [done|].
    intros x. by rewrite andb_assoc.
Qed.

(** An admitted press. *)
Lemma press_run now token chatID topicID messageID session s r a :
  ApprovalInv s -> find_route token s = Some r -> find_approval (ar_RequestID r) s = Some a ->
  press_exact (trim_space session) chatID topicID messageID r a = true ->
  exists route s2 a2, ClaimMinimalApproval now token chatID topicID messageID session s = Ok ((Some route, true), s2)
    /\ ApprovalInv s2 /\ mq_Action route = ar_Action r /\ mq_TelegramMessageID route = messageID
    /\ find_approval (ar_RequestID r) s2 = Some a2 /\ ma_pending a2 = true /\ ma_ClaimState a2 = "claimed"
    /\ ma_ClaimAction a2 = Some (ar_Action r) /\ ma_TelegramMessageID a2 = messageID
    /\ approval_identity a2 = approval_identity a
    /\ (forall b, ma_RequestID b <> ar_RequestID r ->
         b ∈ cr_approvals (db_core s2) <-> b ∈ cr_approvals (db_core s)).
Proof.
  intros HI Er Ea Ep.
  pose proof (press_exact_spec s token r a _ _ _ _ Er Ea Ep) as HP.
  destruct (pressed_live s r a messageID HI HP) as (_ & _ & _ & Hact & _). pose proof HP as [Hr Ha Hid Hp Hi Hra Hm Hb].
  set (q := ar_RequestID r) in *.
  assert (exists route s1 a1, (if (ar_TelegramMessageID r =? 0)%Z && (ma_TelegramMessageID a =? 0)%Z
            then self_bind now chatID topicID messageID r else tx_ret true) s = Ok (true, s1)
    /\ ApprovalInv s1 /\ a1 ∈ cr_approvals (db_core s1) /\ ma_RequestID a1 = q /\ ma_pending a1 = true
    /\ ma_idle a1 = true /\ ma_TelegramMessageID a1 = messageID /\ approval_identity a1 = approval_identity a
    /\ mq_Action route = ar_Action r /\ mq_TelegramMessageID route = messageID
    /\ route = (if (ar_TelegramMessageID r =? 0)%Z && (ma_TelegramMessageID a =? 0)%Z
                then with_message messageID (route_of_row r (Some a)) else route_of_row r (Some a))
    /\ (forall b, ma_RequestID b <> q -> b ∈ cr_approvals (db_core s1) <-> b ∈ cr_approvals (db_core s)))
    as (route & s1 & a1 & Hbind & HI1 & Ha1 & Hq1 & Hp1 & Hi1 & Hm1 & Hid1 & Hra1 & Hrm1 & Hroute & Hoth1).
  { destruct Hb as [[Hb1 Hb2]|[Hb1 Hb2]].
    - exists (route_of_row r (Some a)), s, a. replace (ar_TelegramMessageID r =? 0)%Z with false by (symmetry; apply Z.eqb_neq; lia).
      by split_and!.
    - destruct (bind_stage now chatID topicID messageID s r a HI HP Hb1 Hb2) as (s1 & H1 & H2 & H3 & H4 & _).
      exists (with_message messageID (route_of_row r (Some a))), s1, (upd_approval_message (ma_ChatID a) (ma_TopicID a) messageID now a).
      rewrite Hb1, Hb2. split_and!; try done. intros b Hbq. rewrite H4. by apply other_rows. }
  destruct (claim_finish now q (ar_Action r) a1 route s1 HI1 Ha1 Hq1 Hp1 Hi1 ltac:(lia) Hact) as (s2 & Hrun & HI2 & Hf2 & Hoth2).
  exists route, s2, (upd_approval_claim "claimed" (Some (ar_Action r)) now a1). split_and!; try done.
  - unfold ClaimMinimalApproval. erewrite tx_bind_run by reflexivity. cbn beta. rewrite Er. cbn. fold q. rewrite Ea.
    cbn. rewrite Ep. cbn [negb]. erewrite tx_bind_run by exact Hbind. cbn [negb]. rewrite <- Hroute. exact Hrun.
  - intros b Hbq. by rewrite (Hoth2 b Hbq), (Hoth1 b Hbq).
Qed.

(** *** The other operations keep the invariant *)

Lemma approval_claim_inv now token chatID topicID messageID session s out s' :
  ApprovalInv s -> ClaimMinimalApproval now token chatID topicID messageID session s = Ok (out, s') ->
  ApprovalInv s' /\ approvals_evolve never s s'.
Proof.
  intros HI H. pose proof H as H0. unfold ClaimMinimalApproval in H. tx_inv H. apply tx_gets_ok in Htx as [-> ->].
  destruct (find_route token s) as [r|] eqn:Er; [|apply tx_ret_ok in H as [_ ->]; split; [done|apply approvals_refl]].
  cbn in H. destruct (find_approval (ar_RequestID r) s) as [a|] eqn:Ea; [|apply tx_ret_ok in H as [_ ->]; split; [done|apply approvals_refl]].
  cbn in H. destruct (press_exact _ _ _ _ r a) eqn:Ep; cbn [negb] in H; [|apply tx_ret_ok in H as [_ ->]; split; [done|apply approvals_refl]].
  destruct (press_run now token chatID topicID messageID session s r a HI Er Ea Ep) as (route & s2 & a2 & H1 & H2 & _ & _ & H3 & H4 & H5 & _ & _ & H6 & H7).
  rewrite H1 in H0. injection H0 as _ <-. split; [done|]. intros x Hx.
  apply find_approval_some in Ea as [Ha Hq], H3 as [Ha2 Hq2].
  destruct (decide (ma_RequestID x = ar_RequestID r)) as [E|E].
  - assert (x = a) as -> by (apply (keyed_inj ma_RequestID _ _ _ (ai_ids _ HI) Hx Ha); congruence).
    pose proof (press_exact_spec s token r a _ _ _ _ Er (find_approval_in s a _ (ai_ids _ HI) Ha Hq) Ep) as [_ _ _ Hp Hi _ _ _].
    apply String.eqb_eq in Hi. exists a2. split; [done|]. split; [congruence|]. left. split_and!; [done|congruence|].
    intros _ Hc. congruence.
  - exists x. split; [by apply H7|apply move_refl].
Qed.

Lemma update_ext {R} (p q : R -> bool) (f : R -> R) l : (forall x, p x = q x) -> update_where p f l = update_where q f l.
Proof. intros H. unfold update_where. apply map_ext. intros x. by rewrite H. Qed.

Lemma put_route_same chatID topicID messageID threadID turnID eventID now :
  tx_keeps same_approvals (put_approval_route chatID topicID messageID threadID turnID eventID now).
Proof. by intros s u s' ->%tx_modify_ok. Qed.

Lemma cleanup_same MustJSON protector now a :
  tx_keeps same_approvals (enqueueMinimalApprovalPCCleanupTx MustJSON protector now a).
Proof.
  unfold enqueueMinimalApprovalPCCleanupTx. destruct (String.eqb _ ""); [apply keeps_ret, _|].
  apply keeps_bind; [apply _|apply keeps_gets, _|]. intros routes. apply keeps_each; [apply _|]. intros r _.
  unfold enqueue_cleanup. destruct (_ || _); [apply keeps_ret, _|].
  apply keeps_bind; [apply _|apply keeps_lift, _|]. intros text. apply enqueue_protected_same.
Qed.

Lemma complete_inv MustJSON protector now queueID requestID chatID topicID messageID s u s' :
  ApprovalInv s ->
  CompleteMinimalApprovalDelivery MustJSON protector now queueID requestID chatID topicID messageID s = Ok (u, s') ->
  ApprovalInv s' /\ approvals_evolve never s s'.
Proof.
  intros HI H. unfold CompleteMinimalApprovalDelivery in H.
  destruct ((queueID <=? 0)%Z || (messageID <=? 0)%Z) eqn:Em; [discriminate H|].
  apply orb_false_iff in Em as [_ Em%Z.leb_gt]. tx_inv H. apply tx_gets_ok in Htx as [-> ->].
  destruct (resolveMinimalApprovalRequestID requestID s) as [q|]; [|discriminate H].
  tx_inv H. apply tx_gets_ok in Htx as [-> ->]. cbn [rows_of approval_table] in H.
  destruct (find_first (ma_is q) (cr_approvals (db_core s))) as [a|] eqn:Ea; [|discriminate H].
  apply find_first_some in Ea as [Ha Hq%ma_is_eq].
  destruct (negb (ma_DeliveryQueueID a =? queueID)%Z || negb (ma_pending a)) eqn:Ep; [discriminate H|].
  apply orb_false_iff in Ep as [_ Hp%negb_false_iff].
  tx_inv H. apply tx_gets_ok in Htx as [-> ->]. destruct (find_first _ (rows_of queue_table s)) as [e|]; [|discriminate H].
  destruct (negb _); [discriminate H|]. tx_inv H. injection Htx as <- <-. apply put_route_same in Htx1.
  injection Htx2 as <- <-. apply cleanup_same in H. unfold sql_update_exactly in Htx0. tx_inv Htx0. injection Htx as <- <-.
  cbn [rows_of approval_route_table approval_table with_rows] in *.
  destruct (Z.eqb_spec (affected (fun r => ar_of q r && ar_active r) (cr_approvalRoutes (db_core s))) 2) as [E|E];
    [|discriminate Htx0]. apply tx_ret_ok in Htx0 as [_ ->].
  change (same_approvals s2 s') in H. split.
  2: { refine (evolve_same _ _ _ _ _ H). refine (evolve_same _ _ _ _ _ Htx1).
       eapply (evolve_update never (ma_is q) (upd_approval_message chatID topicID messageID now)); try done; [by right|by left]. }
  refine (same_approvals_inv _ _ H _). refine (same_approvals_inv _ _ Htx1 _).
  eapply (inv_bind q (fun _ => true) (upd_approval_message chatID topicID messageID now) ar_active
            (upd_route_message chatID topicID messageID) s _ a HI); try done.
  - by apply (two_live q ar_active s a HI Ha Hq Hp live_of_active).
  - cbn. apply update_ext. intros x. by rewrite andb_true_r.
Qed.

(** The buttons of the requests of a group. *)
Lemma live_routes_group q moved (E : string -> bool) routes :
  (E q = true -> Forall (fun r => moved r = true) (live_routes q routes)) ->
  live_routes q (update_where (fun r => moved r && E (ar_RequestID r)) (upd_route_status "expired") routes)
  = if E q then [] else live_routes q routes.
Proof.
  intros Hm. unfold live_routes, update_where in *. induction routes as [|r l IH]; [by destruct (E q)|].
  cbn [map]. rewrite !filter_cons_bool in *. destruct (String.eqb_spec (ar_RequestID r) q) as [Eq|Eq].
  - assert (ar_of q r = true) as Hof by (by apply String.eqb_eq). rewrite Eq.
    rewrite Hof in Hm. cbn [andb] in Hm. destruct (E q) eqn:EE.
    + specialize (Hm eq_refl). destruct (ar_live r) eqn:El.
      * apply Forall_cons in Hm as [Hmr Hm]. rewrite Hmr. cbn. rewrite andb_false_r. by apply IH.
      * rewrite andb_true_r. replace (ar_live (if moved r then upd_route_status "expired" r else r)) with false
          by (by destruct (moved r)). rewrite andb_false_r. by apply IH.
    + rewrite andb_false_r, Hof. cbn [andb]. destruct (ar_live r); by rewrite IH.
  - assert (ar_of q r = false) as Hof by (by apply String.eqb_neq). rewrite Hof in *. cbn [andb] in Hm |- *.
    replace (ar_of q (if moved r && E (ar_RequestID r) then upd_route_status "expired" r else r)) with false
      by (destruct (moved r && E (ar_RequestID r)); by rewrite <- Hof). cbn [andb]. by apply IH.
Qed.

Lemma expire_group_run now group moved s u s' :
  expire_group now group moved s = Ok (u, s') ->
  same_approvals (with_rows approval_route_table
    (update_where (fun r => moved r && existsb (fun a => ma_is (ar_RequestID r) a)
                              (filter (fun a => group a && String.eqb (ma_Status a) "expired") (cr_approvals (db_core s))))
       (upd_route_status "expired") (cr_approvalRoutes (db_core s))) s) s'.
Proof.
  intros H. unfold expire_group in H. tx_inv H. apply tx_gets_ok in Htx as [-> ->]. injection Htx0 as <- <-.
  by apply kill_deliveries_same in H.
Qed.

(** The group of a session or of a turn ends together. *)
Lemma inv_group (group d : MinimalApprovalRow -> bool) f moved s s' :
  ApprovalInv s ->
  (forall a, ma_RequestID (f a) = ma_RequestID a /\ ma_Status (f a) = "expired") ->
  (forall a, group (f a) = group a) -> (forall a, d a = true -> ma_ClaimState (f a) = "idle") ->
  (forall a live, approval_ok live a -> ma_pending a = true -> d a = true -> Forall (fun r => moved r = true) live) ->
  cr_approvals (db_core s') = update_where (fun a => group a && ma_pending a && d a) f (cr_approvals (db_core s)) ->
  cr_approvalRoutes (db_core s')
  = update_where (fun r => moved r && existsb (fun a => ma_is (ar_RequestID r) a)
      (filter (fun a => group a && String.eqb (ma_Status a) "expired") (cr_approvals (db_core s'))))
      (upd_route_status "expired") (cr_approvalRoutes (db_core s)) ->
  ApprovalInv s'.
Proof.
  intros HI Hf Hg Hd Hm HA HR.
  assert (forall a, a ∈ cr_approvals (db_core s) -> approval_ok (live_routes (ma_RequestID a) (cr_approvalRoutes (db_core s))) a)
    as Hrows by (destruct HI as [_ _ _ HI]; by apply Forall_forall).
  assert (map ma_RequestID (cr_approvals (db_core s')) = map ma_RequestID (cr_approvals (db_core s))) as Hids
    by (rewrite HA, map_update by (intros; apply Hf); done).
  set (c := fun a => group a && ma_pending a && d a) in *.
  set (E := fun q => existsb (fun a => ma_is q a)
    (filter (fun a => group a && String.eqb (ma_Status a) "expired") (cr_approvals (db_core s')))).
  assert (forall a, a ∈ cr_approvals (db_core s) ->
    E (ma_RequestID a) = (let a' := if c a then f a else a in group a' && String.eqb (ma_Status a') "expired")) as HE.
  { intros a Ha. cbn. assert ((if c a then f a else a) ∈ cr_approvals (db_core s')) as Ha'
      by (rewrite HA; apply elem_of_update; by exists a).
    assert (ma_RequestID (if c a then f a else a) = ma_RequestID a) as Hid by (destruct (c a); [apply Hf|done]).
    unfold E. match goal with |- _ = ?v => destruct v eqn:Ev end.
    - apply existsb_exists. exists (if c a then f a else a). split; [|by apply ma_is_eq].
      apply list_elem_of_In, elem_of_filter_bool. done.
    - apply existsb_false. intros x [Hx Hxv]%elem_of_filter_bool. apply not_true_iff_false. intros Hxi%ma_is_eq.
      assert (x = if c a then f a else a) as ->; [|congruence].
      apply (keyed_inj ma_RequestID (cr_approvals (db_core s'))); [by rewrite Hids; apply HI|done|done|congruence]. }
  split.
  - by rewrite Hids; apply HI.
  - rewrite HR, map_update by done. apply HI.
  - rewrite Hids, HR. apply (Forall_update _ _ _ _ _ (ai_known _ HI)). intros r _ Hr. by case_match.
  - rewrite HA. apply Forall_forall. intros x (a & Ha & ->)%elem_of_update.
    assert (ma_RequestID (if c a then f a else a) = ma_RequestID a) as -> by (destruct (c a); [apply Hf|done]).
    rewrite HR. specialize (Hrows a Ha). specialize (HE a Ha). cbn in HE.
    rewrite (live_routes_group (ma_RequestID a) moved E).
    + rewrite HE. destruct (c a) eqn:Ec.
      * unfold c in Ec. apply andb_prop in Ec as [Ec Ecd]. apply andb_prop in Ec as [Ecg _].
        rewrite Hg, Ecg, (proj2 (Hf a)). cbn. apply ok_ended; [|by apply Hd]. unfold ma_pending. by rewrite (proj2 (Hf a)).
      * destruct (group a && String.eqb (ma_Status a) "expired") eqn:Ex; [|done].
        apply andb_prop in Ex as [_ Ex%String.eqb_eq]. unfold approval_ok, ma_pending in Hrows |- *. rewrite Ex in Hrows |- *.
        by destruct Hrows.
    + rewrite HE. intros Hx. destruct (c a) eqn:Ec.
      * unfold c in Ec. apply andb_prop in Ec as [Ec Ecd]. apply andb_prop in Ec as [_ Ecp]. by apply (Hm a).
      * apply andb_prop in Hx as [_ Ex%String.eqb_eq]. unfold approval_ok, ma_pending in Hrows. rewrite Ex in Hrows.
        by destruct Hrows as [-> _].
Qed.

Lemma no_change_inv p f s :
  affected p (cr_approvals (db_core s)) = 0%Z ->
  with_rows approval_table (update_where p f (cr_approvals (db_core s))) s = s.
Proof.
  intros H. rewrite update_none by (by apply affected_zero).
  change (cr_approvals (db_core s)) with (rows_of approval_table s). apply with_same.
Qed.

Lemma affected_nonneg {R} (p : R -> bool) l : (0 <= affected p l)%Z.
Proof. unfold affected. lia. Qed.

Lemma expire_session_tx_inv identity now s n s' :
  ApprovalInv s -> expireMinimalApprovalsForSessionTx identity now s = Ok (n, s') ->
  ApprovalInv s' /\ approvals_evolve never s s'
  /\ (trim_space identity <> "" -> cr_approvals (db_core s')
      = update_where (fun a => String.eqb (ma_SessionIdentity a) (trim_space identity) && ma_pending a)
          (upd_approval_state "expired" "idle" None now) (cr_approvals (db_core s))).
Proof.
  intros HI H. unfold expireMinimalApprovalsForSessionTx in H.
  destruct (String.eqb_spec (trim_space identity) "") as [Ei|Ei];
    [apply tx_ret_ok in H as [_ ->]; split_and!; [done|apply approvals_refl|done]|].
  tx_inv H. injection Htx as <- <-. apply tx_ret_ok in H as [-> ->]. cbn [rows_of approval_table] in *.
  set (group := fun a => String.eqb (ma_SessionIdentity a) (trim_space identity)) in *.
  set (c := fun a => group a && ma_pending a).
  change (fun a => String.eqb (ma_SessionIdentity a) (trim_space identity) && ma_pending a) with c in *.
  destruct (Z.ltb_spec 0 (affected c (cr_approvals (db_core s)))) as [E|E].
  - apply expire_group_run in Htx0 as [HA HR]. split_and!; [|clear HR|intros _; exact HA].
    2: { apply (evolve_update never c (upd_approval_state "expired" "idle" None now) s); try done.
         intros x Hx. left. by apply andb_prop in Hx as [_ ?]. }
    apply (inv_group group (fun _ => true) (upd_approval_state "expired" "idle" None now) ar_live s _ HI); try done.
    + intros a live Hok Hp _. destruct (ok_facts a live Hok Hp) as (_ & _ & _).
      unfold approval_ok in Hok. rewrite Hp in Hok. destruct Hok as (_ & _ & _ & [(_ & _ & H)|(_ & _ & _ & [H|H])]);
        apply (Forall_impl _ _ _ H); auto using live_of_active, live_of_claimed.
    + rewrite HA. cbn. apply update_ext. intros a. by rewrite andb_true_r.
    + rewrite HR, HA. done.
  - apply tx_ret_ok in Htx0 as [_ ->]. pose proof (affected_nonneg c (cr_approvals (db_core s))).
    pose proof (no_change_inv c (upd_approval_state "expired" "idle" None now) s ltac:(lia)) as Hs. cbn in Hs. rewrite Hs.
    split_and!; [done|apply approvals_refl|]. intros _. rewrite update_none; [done|]. apply affected_zero. lia.
Qed.

Lemma expire_turn_inv now threadID turnID s n s' :
  ApprovalInv s -> ExpireMinimalApprovalsForThreadTurn now threadID turnID s = Ok (n, s') ->
  ApprovalInv s' /\ approvals_evolve never s s'.
Proof.
  intros HI H. unfold ExpireMinimalApprovalsForThreadTurn in H.
  destruct (_ || _); [apply tx_ret_ok in H as [_ ->]; split; [done|apply approvals_refl]|].
  tx_inv H. injection Htx as <- <-. apply tx_ret_ok in H as [-> ->]. cbn [rows_of approval_table] in *.
  set (group := fun a => String.eqb (ma_ThreadID a) (trim_space threadID) && String.eqb (ma_TurnID a) (trim_space turnID)) in *.
  set (c := fun a => group a && ma_pending a && ma_idle a).
  change (fun a => String.eqb (ma_ThreadID a) (trim_space threadID) && String.eqb (ma_TurnID a) (trim_space turnID)
                   && ma_pending a && ma_idle a) with c in *.
  destruct (Z.ltb_spec 0 (affected c (cr_approvals (db_core s)))) as [E|E].
  - apply expire_group_run in Htx0 as [HA HR]. split.
    2: { apply (evolve_update never c (upd_approval_status "expired" now) s); try done.
         intros x Hx. left. apply andb_prop in Hx as [Hx _]. by apply andb_prop in Hx as [_ ?]. }
    (* an idle approval stays idle; the others are not in the update *)
    apply (inv_group group ma_idle (fun a => if ma_idle a then upd_approval_status "expired" now a
             else upd_approval_state "expired" "idle" None now a) ar_active s _ HI); try done.
    + intros a. by destruct (ma_idle a).
    + intros a. by destruct (ma_idle a).
    + intros a Ha. rewrite Ha. by apply String.eqb_eq in Ha.
    + intros a live Hok Hp Hi. by apply (ok_idle a live Hok Hp).
    + rewrite HA. cbn. unfold update_where. apply map_ext. intros a. unfold c.
      destruct (ma_idle a); [done|]. by rewrite andb_false_r.
    + rewrite HR, HA. done.
  - apply tx_ret_ok in Htx0 as [_ ->]. pose proof (affected_nonneg c (cr_approvals (db_core s))).
    pose proof (no_change_inv c (upd_approval_status "expired" now) s ltac:(lia)) as Hs. cbn in Hs. rewrite Hs.
    split; [done|apply approvals_refl].
Qed.

Lemma expire_pending_same identity now : tx_keeps same_approvals (expirePendingApprovalsForSessionTx identity now).
Proof.
  unfold expirePendingApprovalsForSessionTx. destruct (String.eqb _ ""); [apply keeps_ret, _|].
  apply keeps_update. by intros s.
Qed.

Lemma expire_callbacks_same identity : tx_keeps same_approvals (expireCallbackRoutesForSessionTx identity).
Proof.
  unfold expireCallbackRoutesForSessionTx. destruct (String.eqb _ ""); [apply keeps_ret, _|].
  apply keeps_modify. by intros s.
Qed.

Lemma expire_session_inv now identity s n s' :
  ApprovalInv s -> ExpireMinimalApprovalsForSession now identity s = Ok (n, s') ->
  ApprovalInv s' /\ approvals_evolve never s s'.
Proof.
  intros HI H. unfold ExpireMinimalApprovalsForSession in H.
  destruct (String.eqb _ ""); [apply tx_ret_ok in H as [_ ->]; split; [done|apply approvals_refl]|].
  tx_inv H. apply tx_ret_ok in H as [_ ->].
  apply expire_session_tx_inv in Htx as (HI1 & He & _); [|done]. apply expire_pending_same in Htx0. apply expire_callbacks_same in Htx1.
  pose proof (transitivity Htx0 Htx1) as Hs. split; [by apply (same_approvals_inv _ _ Hs)|by apply (evolve_same _ _ _ _ He)].
Qed.

Lemma release_inv protector clock linkedID generation session turnID releasedAt ready s b s' :
  ApprovalInv s ->
  FinishMinimalLinkedReleaseWithReadyDelivery protector clock linkedID generation session turnID releasedAt ready s
    = Ok (b, s') -> ApprovalInv s' /\ approvals_evolve never s s'.
Proof.
  intros HI H. unfold FinishMinimalLinkedReleaseWithReadyDelivery in H.
  destruct (_ || _); [apply tx_ret_ok in H as [_ ->]; split; [done|apply approvals_refl]|]. tx_inv H.
  apply tx_lift_ok in Htx as [_ ->]. apply tx_lift_ok in Htx0 as [_ ->]. apply tx_gets_ok in Htx1 as [-> ->].
  apply expire_session_tx_inv in Htx2 as (HI2 & He & _); [|done]. apply expire_pending_same in Htx3. apply expire_callbacks_same in Htx4.
  injection Htx5 as <- <-. destruct (negb _); [injection H as _ <-; split; [done|apply approvals_refl]|]. tx_inv H. apply tx_ret_ok in H as [_ ->].
  match type of Htx with _ = Ok (_, ?t) => assert (same_approvals s5 t) as Hlast end.
  { destruct a0 as [[item text]|]; [by apply enqueue_protected_same in Htx|by apply tx_ret_ok in Htx as [_ ->]]. }
  pose proof (transitivity (transitivity Htx3 Htx4) Hlast) as Hs.
  split; [by apply (same_approvals_inv _ _ Hs)|by apply (evolve_same _ _ _ _ He)].
Qed.

(** *** Creating *)

Lemma approval_route_run r s u s' : insert_route r s = Ok (u, s') ->
  (ar_Token r ∉ map ar_Token (cr_approvalRoutes (db_core s)))
  /\ s' = with_rows approval_route_table (cr_approvalRoutes (db_core s) ++ [r]) s.
Proof.
  intros H. unfold insert_route in H. tx_inv H. apply tx_gets_ok in Htx as [-> ->].
  destruct (existsb _ _) eqn:E; [discriminate H|]. injection H as _ <-. split; [|done].
  intros Hin. apply list_elem_of_fmap in Hin as (x & Hx & Hxin).
  assert (existsb (fun y => String.eqb (ar_Token y) (ar_Token r)) (rows_of approval_route_table s) = true); [|congruence].
  apply existsb_exists. exists x. split; [by apply list_elem_of_In|]. rewrite Hx. apply String.eqb_refl.
Qed.

(** Two new buttons; those that were there are no more live. *)
Lemma routes_seeded seed q now s u s' :
  insertMinimalApprovalRoutesTx seed q now s = Ok (u, s') ->
  NoDup (map ar_Token (cr_approvalRoutes (db_core s))) ->
  let new := [new_route seed q now (sd_ApproveToken seed) "approve"; new_route seed q now (sd_DenyToken seed) "deny"] in
  s' = with_rows approval_route_table (cr_approvalRoutes (db_core s) ++ new) s
  /\ NoDup (map ar_Token (cr_approvalRoutes (db_core s) ++ new))
  /\ (forall id, live_routes id (cr_approvalRoutes (db_core s) ++ new)
                = live_routes id (cr_approvalRoutes (db_core s)) ++ if String.eqb q id then new else []).
Proof.
  intros H Hnd new. unfold insertMinimalApprovalRoutesTx in H. tx_inv H.
  apply approval_route_run in Htx as [H1 ->]. apply approval_route_run in H as [H2 ->]. cbn in H2 |- *.
  rewrite <- app_assoc. split; [done|]. rewrite map_app in H2. split.
  - rewrite map_app. cbn. apply not_elem_of_app in H2 as [H2 H3%not_elem_of_cons]. cbn in H3.
    apply NoDup_app. split; [done|]. split.
    + intros x Hx Hx'. repeat (apply elem_of_cons in Hx' as [->|Hx']; [done|]). by apply elem_of_nil in Hx'.
    + apply NoDup_cons. split; [intros Hx%list_elem_of_singleton; naive_solver|apply NoDup_singleton].
  - intros id. unfold live_routes. rewrite filter_app. f_equal. unfold new.
    rewrite !filter_cons_bool. unfold ar_of, new_route. cbn. by destruct (String.eqb q id).
Qed.

(** The two new buttons of an approval that waits. *)
Lemma ok_seeded seed q now row :
  approval_identity row = (mp_ThreadID (sd_Approval seed), mp_TurnID (sd_Approval seed), mp_RequestKind (sd_Approval seed)) ->
  ma_pending row = true -> ma_ClaimState row = "idle" -> ma_ClaimAction row = None ->
  approval_ok [new_route seed q now (sd_ApproveToken seed) "approve"; new_route seed q now (sd_DenyToken seed) "deny"] row.
Proof.
  intros Hid Hp Hc Ha. unfold approval_ok. rewrite Hp, Hid. split_and!; [done|by repeat constructor| |].
  - exists (qi_ChatID (sd_Delivery seed), qi_TopicID (sd_Delivery seed), 0%Z). by repeat constructor.
  - left. by repeat constructor.
Qed.

Lemma insert_delivery_run now d text s n s' : insert_delivery now d text s = Ok (n, s') -> same_approvals s s'.
Proof.
  intros H. unfold insert_delivery in H. tx_inv H. apply tx_gets_ok in Htx as [-> ->].
  destruct (event_target_exists _ _ _); [discriminate H|]. tx_inv H. apply tx_gets_ok in H as [_ ->].
  by apply tx_modify_ok in Htx as ->.
Qed.

(** The whole of [seed_delivery] on a row that has no live button. *)
Lemma seed_inv seed q text now s u s' row :
  NoDup (map ma_RequestID (cr_approvals (db_core s))) -> NoDup (map ar_Token (cr_approvalRoutes (db_core s))) ->
  Forall (fun r => ar_RequestID r ∈ map ma_RequestID (cr_approvals (db_core s))) (cr_approvalRoutes (db_core s)) ->
  (forall a, a ∈ cr_approvals (db_core s) -> ma_RequestID a <> q ->
     approval_ok (live_routes (ma_RequestID a) (cr_approvalRoutes (db_core s))) a) ->
  row ∈ cr_approvals (db_core s) -> ma_RequestID row = q -> live_routes q (cr_approvalRoutes (db_core s)) = [] ->
  approval_identity row = (mp_ThreadID (sd_Approval seed), mp_TurnID (sd_Approval seed), mp_RequestKind (sd_Approval seed)) ->
  ma_pending row = true -> ma_ClaimState row = "idle" -> ma_ClaimAction row = None ->
  seed_delivery seed q text now s = Ok (u, s') ->
  ApprovalInv s' /\ exists n, cr_approvals (db_core s') = update_where (ma_is q) (upd_approval_queue n) (cr_approvals (db_core s)).
Proof.
  intros Hids Htok Hknown Hrows Hrow Hq Hlive Hident Hp Hcs Hca H. unfold seed_delivery in H. tx_inv H.
  apply routes_seeded in Htx as (-> & Htok' & Hlive'); [|done]. apply tx_gets_ok in Htx0 as [-> ->].
  destruct (negb _); [discriminate H|]. tx_inv H. apply insert_delivery_run in Htx as [HA HR]. injection Htx0 as <- <-.
  apply tx_ret_ok in H as [_ ->]. cbn in HA, HR. split; [|exists a0; cbn; by rewrite HA].
  assert (map ma_RequestID (update_where (ma_is q) (upd_approval_queue a0) (cr_approvals (db_core s0)))
          = map ma_RequestID (cr_approvals (db_core s))) as Hids' by (by rewrite HA, map_update).
  split; cbn; rewrite ?Hids', ?HR.
  - done.
  - exact Htok'.
  - apply Forall_app. split; [done|].
    assert (q ∈ map ma_RequestID (cr_approvals (db_core s))) by (rewrite <- Hq; by apply (list_elem_of_fmap_2 ma_RequestID)).
    by repeat constructor.
  - rewrite HA. apply Forall_forall. intros x (y & Hy & ->)%elem_of_update.
    assert (ma_RequestID (if ma_is q y then upd_approval_queue a0 y else y) = ma_RequestID y) as -> by (by destruct (ma_is q y)).
    rewrite Hlive'. destruct (ma_is q y) eqn:Ey.
    + apply ma_is_eq in Ey. assert (y = row) as -> by (apply (keyed_inj ma_RequestID _ _ _ Hids Hy Hrow); congruence).
      rewrite Hq, Hlive, String.eqb_refl. by apply ok_seeded.
    + apply String.eqb_neq in Ey. destruct (String.eqb_spec q (ma_RequestID y)); [congruence|]. rewrite app_nil_r. by apply Hrows.
Qed.

(** Buttons that expire leave nothing live, and take nothing from other requests. *)
Lemma expire_live q s : let R' := update_where (fun r => ar_of q r && ar_live r) (upd_route_status "expired")
                                   (cr_approvalRoutes (db_core s)) in
  live_routes q R' = [] /\ map ar_Token R' = map ar_Token (cr_approvalRoutes (db_core s))
  /\ (forall id, id <> q -> live_routes id R' = live_routes id (cr_approvalRoutes (db_core s)))
  /\ (forall P : string -> Prop, Forall (fun r => P (ar_RequestID r)) (cr_approvalRoutes (db_core s)) ->
       Forall (fun r => P (ar_RequestID r)) R').
Proof.
  intros R'. split_and!.
  - apply filter_update_drop; [|done]. intros r _. unfold ar_live, ar_active, ar_claimed. cbn. by rewrite andb_false_r.
  - by apply map_update.
  - intros id Hid. by apply live_routes_other.
  - intros P HP. apply (Forall_update _ _ _ _ _ HP). intros r _ Hr. by case_match.
Qed.

(** New buttons for an open approval. *)
Lemma ok_rearmed seed q now a live :
  approval_identity a = (mp_ThreadID (sd_Approval seed), mp_TurnID (sd_Approval seed), mp_RequestKind (sd_Approval seed)) ->
  approval_ok live a -> ma_pending a = true ->
  approval_ok [new_route seed q now (sd_ApproveToken seed) "approve"; new_route seed q now (sd_DenyToken seed) "deny"] a.
Proof.
  intros Hid Hok Hp. unfold approval_ok in Hok |- *. rewrite Hp in Hok |- *. rewrite Hid.
  split_and!; [done|by repeat constructor| |].
  - exists (qi_ChatID (sd_Delivery seed), qi_TopicID (sd_Delivery seed), 0%Z). by repeat constructor.
  - destruct Hok as (_ & _ & _ & [(H1 & H2 & _)|(H1 & H2 & H3 & _)]).
    + left. by repeat constructor.
    + right. split_and!; try done. right. by repeat constructor.
Qed.

Lemma approval_rearm_inv s a existing seed text now u s' :
  ApprovalInv s -> a ∈ cr_approvals (db_core s) -> ma_RequestID a = ma_RequestID existing -> ma_pending a = true ->
  approval_identity a = (mp_ThreadID (sd_Approval seed), mp_TurnID (sd_Approval seed), mp_RequestKind (sd_Approval seed)) ->
  rearmMinimalApprovalDeliveryIfDeadTx existing seed text now s = Ok (u, s') ->
  ApprovalInv s' /\ cr_approvals (db_core s') = cr_approvals (db_core s).
Proof.
  intros HI Ha Hq Hp Hid H. unfold rearmMinimalApprovalDeliveryIfDeadTx in H.
  destruct (_ || _); [by apply tx_ret_ok in H as [_ ->]|]. tx_inv H. apply tx_gets_ok in Htx as [-> ->].
  destruct (find_first _ _) as [row|]; [|by apply tx_ret_ok in H as [_ ->]].
  destruct (_ || _); [by apply tx_ret_ok in H as [_ ->]|]. tx_inv H. apply move_routes_run in Htx as [-> _].
  set (q := ma_RequestID existing) in *. destruct (expire_live q s) as (E1 & E2 & E3 & E4).
  apply routes_seeded in Htx0 as (-> & Htok & Hlive); [|cbn; rewrite E2; apply HI].
  assert (same_approvals (with_rows approval_route_table
    (update_where (fun r => ar_of q r && ar_live r) (upd_route_status "expired") (cr_approvalRoutes (db_core s))
     ++ [new_route seed q now (sd_ApproveToken seed) "approve"; new_route seed q now (sd_DenyToken seed) "deny"]) s) s')
    as [HA HR].
  { unfold sql_update_exactly in H. tx_inv H. injection Htx as <- <-. destruct (_ =? 1)%Z; [|discriminate H].
    by apply tx_ret_ok in H as [_ ->]. }
  cbn in HA, HR, Htok, Hlive. split; [|done]. apply (inv_local q s); rewrite ?HA, ?HR; try done.
  - apply Forall_app. split; [exact (E4 (fun v => v ∈ map ma_RequestID (cr_approvals (db_core s))) (ai_known _ HI))|].
    assert (q ∈ map ma_RequestID (cr_approvals (db_core s))) by (rewrite <- Hq; by apply (list_elem_of_fmap_2 ma_RequestID)).
    by repeat constructor.
  - intros id Hne. rewrite Hlive, E3 by done. destruct (String.eqb_spec q id); [congruence|]. by rewrite app_nil_r.
  - intros x Hx Hxq. assert (x = a) as -> by (apply (keyed_inj ma_RequestID _ _ _ (ai_ids _ HI) Hx Ha); congruence).
    rewrite Hlive, E1, String.eqb_refl. apply ok_rearmed with (live_routes (ma_RequestID a) (cr_approvalRoutes (db_core s)));
      [done| |done]. destruct HI as [_ _ _ HI]. rewrite Forall_forall in HI. by apply HI.
Qed.

(** A request seen again. *)
Lemma replay_inv s existing seed wire session text now u s' :
  ApprovalInv s -> existing ∈ cr_approvals (db_core s) -> same_request (sd_Approval seed) existing = true ->
  replay_approval seed wire session text now existing s = Ok (u, s') ->
  ApprovalInv s' /\ (cr_approvals (db_core s') = cr_approvals (db_core s)
    \/ cr_approvals (db_core s') = update_where (fun r => ma_is (ma_RequestID existing) r && ma_pending r)
         (replay_row wire session (sd_SupersedeDeliveryEventID seed) now) (cr_approvals (db_core s))).
Proof.
  intros HI He Hsame H. unfold replay_approval in H. destruct (ma_pending existing) eqn:Hp; cbn [negb] in H.
  2: { assert (same_approvals s s') as Hs.
       { revert H. apply keeps_when, kill_deliveries_same; apply _. }
       split; [by apply (same_approvals_inv s)|left; apply Hs]. }
  tx_inv H. set (f := replay_row wire session (sd_SupersedeDeliveryEventID seed) now) in *.
  set (c := fun r => ma_is (ma_RequestID existing) r && ma_pending r) in *.
  assert (s0 = with_rows approval_table (update_where c f (cr_approvals (db_core s))) s) as ->.
  { unfold sql_update_exactly in Htx. tx_inv Htx. injection Htx0 as <- <-. destruct (_ =? 1)%Z; [|discriminate Htx].
    by apply tx_ret_ok in Htx as [_ ->]. }
  assert (f existing ∈ update_where c f (cr_approvals (db_core s))) as Hin.
  { apply elem_of_update. exists existing. unfold c. by rewrite (proj2 (ma_is_eq _ _) eq_refl), Hp. }
  assert (ApprovalInv (with_rows approval_table (update_where c f (cr_approvals (db_core s))) s)) as HI1.
  { apply (inv_local (ma_RequestID existing) s); cbn; try done; try apply HI.
    - by rewrite map_update.
    - intros x (y & Hy & ->)%elem_of_update Hne. destruct (c y) eqn:E; [|done].
      by apply andb_prop in E as [E%ma_is_eq _].
    - intros x (y & Hy & ->)%elem_of_update Hid. assert (ma_RequestID y = ma_RequestID existing) as Hyq by (by destruct (c y)).
      assert (approval_ok (live_routes (ma_RequestID existing) (cr_approvalRoutes (db_core s))) y) as Hok.
      { rewrite <- Hyq. destruct HI as [_ _ _ HI]. rewrite Forall_forall in HI. by apply HI. }
      by destruct (c y). }
  apply (approval_rearm_inv _ (f existing) existing) in H as [HI' HA]; [|done..|].
  - split; [done|]. right. exact HA.
  - unfold same_request in Hsame. apply andb_prop in Hsame as [Hs H3%String.eqb_eq].
    apply andb_prop in Hs as [H1%String.eqb_eq H2%String.eqb_eq]. unfold approval_identity. cbn. congruence.
Qed.

(** Another request with the same id. *)
Lemma replace_inv MustJSON p now existing row s u s1 :
  ApprovalInv s -> existing ∈ cr_approvals (db_core s) -> ma_RequestID row = ma_RequestID existing ->
  replace_approval MustJSON p now existing row s = Ok (u, s1) ->
  cr_approvals (db_core s1) = update_where (ma_is (ma_RequestID row)) (fun _ => row) (cr_approvals (db_core s))
  /\ NoDup (map ar_Token (cr_approvalRoutes (db_core s1)))
  /\ Forall (fun r => ar_RequestID r ∈ map ma_RequestID (cr_approvals (db_core s))) (cr_approvalRoutes (db_core s1))
  /\ live_routes (ma_RequestID row) (cr_approvalRoutes (db_core s1)) = []
  /\ (forall id, id <> ma_RequestID row -> live_routes id (cr_approvalRoutes (db_core s1))
                                          = live_routes id (cr_approvalRoutes (db_core s))).
Proof.
  intros HI He Hid H. unfold replace_approval in H. set (q := ma_RequestID row) in *. tx_inv H.
  assert (cr_approvals (db_core s0) = cr_approvals (db_core s)
    /\ NoDup (map ar_Token (cr_approvalRoutes (db_core s0)))
    /\ Forall (fun r => ar_RequestID r ∈ map ma_RequestID (cr_approvals (db_core s))) (cr_approvalRoutes (db_core s0))
    /\ live_routes q (cr_approvalRoutes (db_core s0)) = []
    /\ (forall id, id <> q -> live_routes id (cr_approvalRoutes (db_core s0)) = live_routes id (cr_approvalRoutes (db_core s))))
    as (HA0 & HT0 & HK0 & HL0 & HO0).
  { destruct (ma_pending existing) eqn:Hp.
    - apply move_routes_run in Htx as [-> _]. destruct (expire_live q s) as (E1 & E2 & E3 & E4). cbn. split_and!; try done.
      + rewrite E2. apply HI.
      + exact (E4 (fun v => v ∈ map ma_RequestID (cr_approvals (db_core s))) (ai_known _ HI)).
    - apply tx_ret_ok in Htx as [_ ->]. split_and!; try done; [apply HI|apply HI|].
      destruct HI as [_ _ _ HI]. rewrite Forall_forall in HI. specialize (HI existing He). unfold approval_ok in HI.
      rewrite Hp, <- Hid in HI. apply HI. }
  assert (same_approvals s0 s2) as [HA1 HR1].
  { revert Htx0. apply keeps_when, inactive_edit_same; apply _. }
  assert (same_approvals s2 s3) as [HA2 HR2].
  { revert Htx1. apply keeps_when, kill_deliveries_same; apply _. }
  unfold sql_update_exactly in H. tx_inv H. injection Htx2 as <- <-. destruct (_ =? 1)%Z; [|discriminate H].
  apply tx_ret_ok in H as [_ ->]. cbn. rewrite HA2, HA1, HA0, HR2, HR1. done.
Qed.

Lemma approval_create_inv MustJSON p now seed s b s' :
  or_text (trim_space (mp_Status (sd_Approval seed))) "pending" = "pending" ->
  ApprovalInv s -> CreateMinimalApproval MustJSON (Some p) now seed s = Ok (b, s') ->
  ApprovalInv s' /\ approvals_evolve never s s'.
Proof.
  intros Hst HI H. unfold CreateMinimalApproval in H.
  destruct (NormalizeRequestIdentity _ _ _) as [q wire].
  destruct (seed_incomplete _ _ _); [discriminate H|]. destruct (routes_invalid seed); [discriminate H|].
  tx_inv H. apply tx_lift_ok in Htx as [_ ->]. apply tx_gets_ok in Htx0 as [-> ->]. rewrite Hst in H.
  set (row := seed_row seed q wire (trim_space (mp_SessionIdentity (sd_Approval seed))) "pending" now) in *.
  cbn [rows_of approval_table] in H. destruct (find_first (ma_is q) (cr_approvals (db_core s))) as [e|] eqn:Ee.
  - apply find_first_some in Ee as [He Hq%ma_is_eq]. destruct (same_request (sd_Approval seed) e) eqn:Es.
    + tx_inv H. apply tx_ret_ok in H as [_ ->]. apply replay_inv in Htx as [HI' HA]; [|done..]. split; [done|].
      intros x Hx. destruct HA as [HA|HA]; rewrite HA.
      * exists x. split; [done|apply move_refl].
      * eexists. split; [apply elem_of_update; exists x; split; [done|reflexivity]|].
        case_match; [|apply move_refl]. split; [done|]. left. split_and!; [done..|]. by left.
    + tx_inv H. apply tx_ret_ok in H as [_ ->].
      apply replace_inv in Htx as (HA & HT & HK & HL & HO); [|done|done|by rewrite Hq]. cbn in HA, HL, HO.
      assert (map ma_RequestID (cr_approvals (db_core s0)) = map ma_RequestID (cr_approvals (db_core s))) as Hids.
      { rewrite HA. unfold update_where. rewrite map_map. apply map_ext. intros x. destruct (ma_is q x) eqn:E; [|done].
        apply ma_is_eq in E. done. }
      destruct (seed_inv seed q a now s0 a1 s1 row) as [HI' (n & HA')]; try done.
      * rewrite Hids. apply HI.
      * by rewrite Hids.
      * intros x Hx Hne. rewrite HO by done. rewrite HA in Hx. apply elem_of_update in Hx as (y & Hy & ->).
        destruct (ma_is q y); [done|]. destruct HI as [_ _ _ HI]. rewrite Forall_forall in HI. by apply HI.
      * rewrite HA. apply elem_of_update. exists e. by rewrite (proj2 (ma_is_eq q e) Hq).
      * split; [done|]. intros x Hx. rewrite HA', HA. destruct (ma_is q x) eqn:E.
        { exists (upd_approval_queue n row). split.
          - apply elem_of_update. exists row. rewrite (proj2 (ma_is_eq q row) eq_refl). split; [|done].
            apply elem_of_update. exists x. by rewrite E.
          - apply ma_is_eq in E. split; [done|]. right. split_and!; [|done|done].
            assert (x = e) as -> by (apply (keyed_inj ma_RequestID _ _ _ (ai_ids _ HI) Hx He); congruence).
            intros [= H1 H2 H3]. unfold same_request in Es. cbn in H1, H2, H3. rewrite H1, H2, H3, !String.eqb_refl in Es. done. }
        { exists x. split; [|apply move_refl]. apply elem_of_update. exists x. rewrite E. split; [|done].
          apply elem_of_update. exists x. by rewrite E. }
  - tx_inv H. apply tx_ret_ok in H as [_ ->]. injection Htx as <- <-. rewrite find_first_none in Ee.
    assert (q ∉ map ma_RequestID (cr_approvals (db_core s))) as Hnew.
    { intros Hin. apply list_elem_of_fmap in Hin as (x & Hx & Hxin). specialize (Ee x Hxin).
      by rewrite (proj2 (ma_is_eq q x) (eq_sym Hx)) in Ee. }
    apply (seed_inv seed q a now _ _ _ row) in Htx0 as [HI' (n & HA')]; cbn; try done.
    + split; [done|]. intros x Hx. exists x. split; [|apply move_refl]. rewrite HA'. apply elem_of_update.
      exists x. rewrite (Ee x Hx). split; [|done]. cbn. apply elem_of_app. by left.
    + rewrite map_app. apply NoDup_app. split_and!; [apply HI| |apply NoDup_singleton].
      intros y Hy ->%list_elem_of_singleton. done.
    + apply HI.
    + apply (Forall_impl _ _ _ (ai_known _ HI)). intros r Hr. rewrite map_app. apply elem_of_app. by left.
    + intros x Hx Hne. apply elem_of_app in Hx as [Hx|Hx%list_elem_of_singleton]; [|by subst].
      destruct HI as [_ _ _ HI]. rewrite Forall_forall in HI. by apply HI.
    + apply elem_of_app. right. left.
    + apply filter_none. intros r Hr Hx%Is_true_true. apply andb_prop in Hx as [Hx%String.eqb_eq _].
      apply Hnew. rewrite <- Hx. destruct HI as [_ _ HK _]. rewrite Forall_forall in HK. by apply HK.
Qed.

Lemma approval_step_inv MustJSON p s s' :
  ApprovalInv s -> approval_step MustJSON p s s' -> ApprovalInv s' /\ approvals_evolve (claim_restored s s') s s'.
Proof.
  intros HI H. assert (Hn : ApprovalInv s' /\ approvals_evolve never s s' -> ApprovalInv s' /\ approvals_evolve (claim_restored s s') s s')
    by (intros [H1 H2]; split; [done|by apply evolve_never]).
  destruct H. 4: { by eapply restore_inv. } all: apply Hn; clear Hn.
  - by eapply approval_create_inv.
  - by eapply complete_inv.
  - by eapply approval_claim_inv.
  - by eapply finish_inv.
  - unfold ExpireMinimalApproval in H. tx_inv H. apply tx_gets_ok in Htx as [-> ->]. by eapply expire_resolved_inv.
  - unfold ExpireMinimalApprovalForSession in H. tx_inv H. apply tx_gets_ok in Htx as [-> ->]. by eapply expire_resolved_inv.
  - by eapply expire_session_inv.
  - by eapply expire_turn_inv.
  - by eapply cancel_inv.
  - by eapply release_inv.
  - assert (same_approvals s s') as Hs by done. split; [by apply (same_approvals_inv s)|].
    by apply (evolve_same never s s s' (approvals_refl never s)).
Qed.

Lemma ApprovalInv_empty : ApprovalInv emptyStore.
Proof. split; constructor. Qed.

Lemma approval_steps_inv MustJSON p s s' : ApprovalInv s -> rtc (approval_step MustJSON p) s s' -> ApprovalInv s'.
Proof. intros HI H. induction H as [|x y z H _ IH]; [done|]. apply IH. by apply (approval_step_inv MustJSON p x y). Qed.

(** *** Which request an id names *)

Lemma resolve_exact_sound rows requestID session d :
  resolveApprovalRequestIDExact rows requestID session false = Some d ->
  exists r, r ∈ rows /\ rk_RequestID r = d /\ (session = "" \/ rk_SessionIdentity r = session).
Proof.
  unfold resolveApprovalRequestIDExact. destruct (find_first _ rows) as [r|] eqn:E; [|done].
  apply find_first_some in E as [Hr _]. rewrite andb_false_l, orb_false_r.
  destruct (String.eqb_spec session "") as [->|_]; cbn [orb]; [intros [= <-]; exists r; naive_solver|].
  destruct (String.eqb_spec (rk_SessionIdentity r) session); [|done]. intros [= <-]. exists r. naive_solver.
Qed.

(** The row of a durable id is the one it names. *)
Lemma resolve_exact_hit rows requestID session allow :
  (exists r, r ∈ rows /\ rk_RequestID r = requestID) ->
  (forall r, r ∈ rows -> rk_RequestID r = requestID -> session = "" \/ rk_SessionIdentity r = session) ->
  resolveApprovalRequestIDExact rows requestID session allow = Some requestID.
Proof.
  intros (r0 & Hr0 & H0) Hall. unfold resolveApprovalRequestIDExact. destruct (find_first _ rows) as [r|] eqn:E.
  - apply find_first_some in E as [Hr Hid%String.eqb_eq]. destruct (Hall r Hr Hid) as [->| ->]; cbn [String.eqb orb].
    + by rewrite Hid.
    + by rewrite String.eqb_refl, orb_true_r, Hid.
  - rewrite find_first_none in E. specialize (E r0 Hr0). by rewrite H0, String.eqb_refl in E.
Qed.

Lemma scoped_trimmed session wire :
  trim_space session <> "" -> trim_space wire <> "" ->
  trim_space (ScopedRequestID session wire) = ScopedRequestID session wire /\ ScopedRequestID session wire <> "".
Proof.
  intros Hs Hw. unfold ScopedRequestID. destruct (String.eqb_spec (trim_space session) ""); [done|].
  destruct (String.eqb_spec (trim_space wire) ""); [done|]. cbn [orb]. split; [|done].
  apply trim_space_visible. change (visible (hex (sha256_sum (bytes_of (scoped_preimage (trim_space session) (trim_space wire))))) = true).
  apply hex_visible, sha256_sum_small.
Qed.

(** A durable id has nothing to trim, and is blank only when both ids are. *)
Lemma normalized_trimmed session requestID wire :
  let d := (NormalizeRequestIdentity session requestID wire).1 in
  trim_space d = d
  /\ (trim_space session <> "" -> trim_space wire <> "" -> d = ScopedRequestID session wire).
Proof.
  unfold NormalizeRequestIdentity. destruct (String.eqb_spec (trim_space session) "") as [Es|Es]; cbn.
  - split; [|done]. destruct (String.eqb (trim_space requestID) ""); [|apply trim_space_idemp].
    destruct (String.eqb (trim_space wire) ""); apply trim_space_idemp.
  - destruct (String.eqb_spec (trim_space wire) "") as [Ew|Ew]; cbn.
    + split; [apply trim_space_idemp|done].
    + destruct (String.eqb_spec (trim_space wire) ""); [done|].
      assert (ScopedRequestID (trim_space session) (trim_space wire) = ScopedRequestID session wire) as ->
        by (unfold ScopedRequestID; by rewrite !trim_space_idemp).
      split; [|done]. by apply scoped_trimmed.
Qed.

(** A text in a nullable column reads back as it was stored. *)
Lemma protect_reads_nullable p `{!ProtectorLaws p} text x b :
  has_prefix text protectedPayloadEnvelopePrefix = false ->
  protectSensitiveText (Some p) text = Ok (x, b) ->
  unprotectSensitiveText (Some p) (default "" (nullable x)) = Ok (stored text).
Proof.
  intros Hp H. pose proof (protect_reads p text x b Hp H) as Hr. rewrite nullable_default. unfold stored. rewrite nullable_default.
  destruct (String.eqb (trim_space x) "") eqn:Ex.
  - unfold unprotectSensitiveText in Hr. rewrite Ex in Hr. cbn in Hr. injection Hr as <-. by rewrite Ex.
  - destruct (String.eqb (trim_space text) "") eqn:Et; [|done].
    unfold protectSensitiveText in H. rewrite Et in H. injection H as <- _. congruence.
Qed.

Lemma find_first_update {R} (P q : R -> bool) (f : R -> R) l :
  (forall x, q x = true -> P x = false /\ P (f x) = false) -> find_first P (update_where q f l) = find_first P l.
Proof.
  intros H. unfold find_first, update_where. induction l as [|x l IH]; [done|]. cbn [map first_some].
  destruct (q x) eqn:E; [destruct (H x E) as [-> ->]|]; by rewrite IH.
Qed.

Lemma find_first_app {R} (P : R -> bool) l k : find_first P k = None -> find_first P (l ++ k) = find_first P l.
Proof. intros H. unfold find_first in *. induction l as [|x l IH]; [done|]. cbn [app first_some]. by rewrite IH. Qed.

(** The row of an upsert, and the others. *)
Lemma upsert_pending_run row s u s' : upsert_pending row s = Ok (u, s') ->
  (exists r, r ∈ rows_of pending_approval_table s' /\ pr_RequestID r = pr_RequestID row)
  /\ (forall r, r ∈ rows_of pending_approval_table s' -> pr_RequestID r = pr_RequestID row -> r = row)
  /\ (forall id, id <> pr_RequestID row -> find_first (pr_is id) (rows_of pending_approval_table s')
                                          = find_first (pr_is id) (rows_of pending_approval_table s)).
Proof.
  intros H. unfold upsert_pending in H. tx_inv H. apply tx_gets_ok in Htx as [-> ->]. cbn [rows_of pending_approval_table] in H.
  destruct (existsb (pr_is (pr_RequestID row)) (cr_pendingApprovals (db_core s))) eqn:E.
  - tx_inv H. injection Htx as <- <-. apply tx_ret_ok in H as [_ ->]. cbn.
    apply existsb_exists in E as (r & Hr%list_elem_of_In & Hid). split_and!.
    + exists row. split; [|done]. apply elem_of_update. exists r. by rewrite Hid.
    + intros x (y & Hy & ->)%elem_of_update. destruct (pr_is (pr_RequestID row) y) eqn:Ey; [done|].
      intros Hx. unfold pr_is in Ey. by rewrite Hx, String.eqb_refl in Ey.
    + intros id Hne. apply find_first_update. intros x Ex. unfold pr_is in *. apply String.eqb_eq in Ex. rewrite Ex.
      by split; apply String.eqb_neq.
  - injection H as _ <-. cbn. split_and!.
    + exists row. split; [|done]. apply elem_of_app. right. left.
    + intros r Hr Hid. apply elem_of_app in Hr as [Hr|Hr%list_elem_of_singleton]; [|done].
      assert (existsb (pr_is (pr_RequestID row)) (cr_pendingApprovals (db_core s)) = true); [|congruence].
      apply existsb_exists. exists r. split; [by apply list_elem_of_In|]. by apply String.eqb_eq.
    + intros id Hne. apply find_first_app. unfold find_first. cbn. unfold pr_is.
      by destruct (String.eqb_spec (pr_RequestID row) id).
Qed.

(** The session of the expiry. *)
Lemma expire_callbacks_done identity s u s' : trim_space identity <> "" ->
  expireCallbackRoutesForSessionTx identity s = Ok (u, s') ->
  forall token r, cr_callbacks (db_core s') !! token = Some r -> cb_SessionIdentity r = trim_space identity ->
    cb_open r = false.
Proof.
  intros Hi H. unfold expireCallbackRoutesForSessionTx in H. destruct (String.eqb_spec (trim_space identity) ""); [done|].
  apply tx_modify_ok in H as ->. cbn. intros token r Hr Hs. rewrite lookup_fmap in Hr.
  destruct (cr_callbacks (db_core s) !! token) as [r0|]; [|discriminate Hr]. cbn in Hr. injection Hr as <-.
  destruct (String.eqb (cb_SessionIdentity r0) (trim_space identity) && cb_open r0) eqn:E; [done|].
  rewrite Hs, String.eqb_refl in E. exact E.
Qed.

Lemma expire_session_total now identity s : exists n s', ExpireMinimalApprovalsForSession now identity s = Ok (n, s').
Proof.
  unfold ExpireMinimalApprovalsForSession, expireMinimalApprovalsForSessionTx, expirePendingApprovalsForSessionTx,
    expireCallbackRoutesForSessionTx, expire_group, kill_deliveries, tx_bind, tx_when, sql_update, sql_select, tx_gets,
    tx_modify, tx_ret.
  repeat case_match; try discriminate; eauto; simplify_eq.
Qed.

(** *** Recovery of claims *)

Lemma resolve_durable q s : trim_space q = q -> q <> "" ->
  (exists a, a ∈ cr_approvals (db_core s) /\ ma_RequestID a = q) -> resolveMinimalApprovalRequestID q s = Some q.
Proof.
  intros Ht Hq (a & Ha & Hid). unfold resolveMinimalApprovalRequestID, resolveApprovalRequestID. rewrite Ht.
  destruct (String.eqb_spec q ""); [done|]. change (trim_space "") with "". cbn [String.eqb].
  rewrite resolve_exact_hit; [done| |by intros; left].
  exists (mkRequestKey (ma_RequestID a) (ma_WireRequestID a) (ma_SessionIdentity a) (ma_UpdatedAt a)).
  split; [apply list_elem_of_fmap; by exists a|done].
Qed.

(** One claim is cancelled. *)
Lemma cancel_run MustJSON p now text s l a k :
  (forall t, exists e, Protect p t = Ok e) -> trim_space text <> "" ->
  ApprovalInv s -> cr_approvals (db_core s) = l ++ a :: k -> in_claim a = true -> recoverable s a ->
  exists s1, CancelMinimalApprovalClaimWithInactiveEdit MustJSON (Some p) now (ma_RequestID a)
               (default "" (ma_ClaimAction a)) text s = Ok (true, s1)
    /\ cr_approvals (db_core s1) = l ++ upd_approval_state "cancelled" "idle" None now a :: k
    /\ ApprovalInv s1
    /\ (forall id, id <> ma_RequestID a -> live_routes id (cr_approvalRoutes (db_core s1))
                                          = live_routes id (cr_approvalRoutes (db_core s))).
Proof.
  intros Hp Ht HI HA Hc (Hchat & Htrim & Hne & Hlive). unfold in_claim in Hc.
  apply andb_prop in Hc as [Hpend Hcl]. set (q := ma_RequestID a) in *.
  assert (a ∈ cr_approvals (db_core s)) as Ha by (rewrite HA; apply elem_of_app; right; left).
  assert (approval_ok (live_routes q (cr_approvalRoutes (db_core s))) a) as Hok.
  { destruct HI as [_ _ _ HI]. rewrite Forall_forall in HI. by apply HI. }
  pose proof Hcl as Hcl'. apply String.eqb_eq in Hcl'.
  destruct (ok_claimed a _ Hok Hpend Hcl') as (Hmsg & (action & Hact & _) & _).
  set (f := upd_approval_state "cancelled" "idle" None now).
  set (c := fun x => ma_is q x && ma_pending x && ma_claimed_for action x).
  assert (c a = true) as Hca.
  { unfold c, ma_claimed_for. rewrite (proj2 (ma_is_eq q a) eq_refl), Hpend, Hcl, Hact. apply String.eqb_refl. }
  pose proof (ai_ids _ HI) as Hids. rewrite HA in Hids.
  destruct (update_keyed ma_RequestID c f l a k Hids) as [Hupd Haff].
  { intros x Hx. apply andb_prop in Hx as [Hx _]. apply andb_prop in Hx as [Hx _]. by apply ma_is_eq. }
  rewrite Hca in Hupd, Haff. rewrite <- HA in Hupd, Haff.
  set (s1 := with_rows approval_table (update_where c f (cr_approvals (db_core s))) s).
  set (s2 := with_rows approval_route_table (update_where (fun r => ar_of q r && ar_claimed r) (upd_route_status "consumed")
               (cr_approvalRoutes (db_core s))) s1).
  pose proof (proj2 (two_live q ar_claimed s a HI Ha eq_refl Hpend live_of_claimed) Hlive) as Htwo.
  destruct (Hp (MustJSON (mkDeliveryPayload "edit" text (ma_ThreadID a) (ma_TurnID a) "" (ma_RequestID a)
                   (ma_TelegramMessageID a) "" "" "" 0 "" [] None))) as [e He].
  assert (exists s3, enqueueMinimalApprovalInactiveEditTx MustJSON p now a text s2 = Ok (tt, s3)) as [s3 Hq3].
  { unfold enqueueMinimalApprovalInactiveEditTx. rewrite He. by eexists. }
  pose proof (inactive_edit_same _ _ _ _ _ _ _ _ Hq3) as [HA3 HR3].
  assert (CancelMinimalApprovalClaimWithInactiveEdit MustJSON (Some p) now q (default "" (ma_ClaimAction a)) text s
          = Ok (true, s3)) as Hrun.
  { unfold CancelMinimalApprovalClaimWithInactiveEdit. erewrite tx_bind_run by reflexivity.
    rewrite (resolve_durable q s Htrim Hne) by (by exists a). erewrite tx_bind_run by reflexivity.
    rewrite (find_approval_in s a q (ai_ids _ HI) Ha eq_refl). rewrite Hact. change (default "" (Some action)) with action.
    assert (cancel_admitted action text a = true) as ->.
    { unfold cancel_admitted. rewrite Hpend, Hcl, Hact. change (default "" (Some action)) with action. rewrite String.eqb_refl.
      destruct (Z.eqb_spec (ma_ChatID a) 0); [done|]. destruct (Z.ltb_spec 0 (ma_TelegramMessageID a)); [|lia].
      by destruct (String.eqb_spec (trim_space text) ""). }
    cbn [negb]. erewrite tx_bind_run by reflexivity. cbn [rows_of approval_table]. fold c. fold f.
    change (fun x => ma_is q x && ma_pending x && ma_claimed_for action x) with c. rewrite Haff. cbn [negb Z.eqb Pos.eqb].
    rewrite (tx_bind_run _ _ s1 tt s2); [by erewrite tx_bind_run by exact Hq3|].
    unfold move_routes, sql_update_exactly. erewrite tx_bind_run by reflexivity.
    change (rows_of approval_route_table s1) with (cr_approvalRoutes (db_core s)). by rewrite Htwo. }
  exists s3. split_and!; [exact Hrun|by rewrite HA3|by apply (cancel_inv _ _ _ _ _ _ _ _ _ HI Hrun)|].
  intros id Hid. rewrite HR3. cbn. by apply live_routes_other.
Qed.

(** Which claims are left to cancel. *)
Lemma cancel_each_run MustJSON p now s rows n :
  (forall t, exists e, Protect p t = Ok e) -> ApprovalInv s ->
  filter in_claim (cr_approvals (db_core s)) = rows -> Forall (recoverable s) rows ->
  exists s', cancel_each MustJSON (Some p) now (map (fun a => (ma_RequestID a, default "" (ma_ClaimAction a))) rows) n s
             = (Ok (n + Z.of_nat (length rows))%Z, s')
    /\ cr_approvals (db_core s') = update_where in_claim (upd_approval_state "cancelled" "idle" None now) (cr_approvals (db_core s))
    /\ ApprovalInv s'.
Proof.
  intros Hp. revert s n. induction rows as [|a rows IH]; intros s n HI Hrows Hrec.
  - exists s. cbn. rewrite Z.add_0_r. split_and!; [done| |done]. symmetry. apply update_none. intros x Hx.
    destruct (in_claim x) eqn:E; [|done]. assert (x ∈ filter in_claim (cr_approvals (db_core s))) as Hin by (by apply elem_of_filter_bool).
    rewrite Hrows in Hin. by apply elem_of_nil in Hin.
  - assert (exists l k, cr_approvals (db_core s) = l ++ a :: k /\ filter in_claim l = [] /\ filter in_claim k = rows) as
      (l & k & HA & Hl & Hk).
    { revert Hrows. induction (cr_approvals (db_core s)) as [|x A IHA]; [done|]. rewrite filter_cons_bool.
      destruct (in_claim x) eqn:E.
      - intros [= -> <-]. by exists [], A.
      - intros H. destruct (IHA H) as (l & k & -> & Hl & Hk). exists (x :: l), k. rewrite filter_cons_bool, E. done. }
    assert (in_claim a = true) as Ha.
    { assert (a ∈ filter in_claim (cr_approvals (db_core s))) as Hin by (rewrite Hrows; left). by apply elem_of_filter_bool in Hin as [_ ?]. }
    apply Forall_cons in Hrec as [Hra Hrec].
    destruct (cancel_run MustJSON p now "처리 결과를 확인할 수 없어 버튼이 비활성화되었습니다." s l a k Hp ltac:(by vm_compute) HI HA Ha Hra)
      as (s1 & Hrun & HA1 & HI1 & Hoth).
    destruct (IH s1 (n + 1)%Z HI1) as (s' & Hs' & HA' & HI').
    + rewrite HA1, filter_app, filter_cons_bool, Hl. exact Hk.
    + pose proof (ai_ids _ HI) as Hids. rewrite HA, map_app, map_cons, NoDup_app, NoDup_cons in Hids.
      destruct Hids as (_ & _ & Hak & _).
      apply Forall_forall. intros x Hx. rewrite Forall_forall in Hrec. destruct (Hrec x Hx) as (H1 & H2 & H3 & H4).
      split_and!; try done. rewrite Hoth; [done|]. intros E. apply Hak. rewrite <- E. apply (list_elem_of_fmap_2 ma_RequestID).
      rewrite <- Hk in Hx. by apply elem_of_filter_bool in Hx as [? _].
    + exists s'. split_and!; [| |done].
      * cbn [map cancel_each]. rewrite Hrun, Hs'. do 2 f_equal. cbn [length]. lia.
      * rewrite HA', HA1, HA. unfold update_where. rewrite !map_app. cbn [map]. by rewrite Ha.
Qed.



(** *** The claims *)

(** C13: A press of an open approval's button is admitted when it names the session, the chat and
    the message of the approval: then, and only then, the approval is claimed for the action
    of the button, both buttons stop being active, and no other approval changes.  Until the
    claim is given up no button of the approval is admitted again.  A press never fails. *)
Theorem ClaimMinimalApproval_spec now token chatID topicID messageID session s :
  ApprovalInv s ->
  match find_route token s with
  | None => ClaimMinimalApproval now token chatID topicID messageID session s = Ok ((None, false), s)
  | Some r =>
      match find_approval (ar_RequestID r) s with
      | None => ClaimMinimalApproval now token chatID topicID messageID session s = Ok ((None, false), s)
      | Some a =>
          (open_press (trim_space session) chatID topicID messageID r a ->
            exists route s' a', ClaimMinimalApproval now token chatID topicID messageID session s
                                = Ok ((Some route, true), s')
              /\ mq_Action route = ar_Action r /\ mq_TelegramMessageID route = messageID
              /\ find_approval (ar_RequestID r) s' = Some a' /\ ma_pending a' = true
              /\ ma_claimed_for (ar_Action r) a' = true /\ ma_TelegramMessageID a' = messageID
              /\ approval_identity a' = approval_identity a
              /\ (forall b, ma_RequestID b <> ar_RequestID r ->
                   b ∈ cr_approvals (db_core s') <-> b ∈ cr_approvals (db_core s))
              /\ (forall now' token' chatID' topicID' messageID' session' r', find_route token' s' = Some r' ->
                   ar_RequestID r' = ar_RequestID r ->
                   exists out, ClaimMinimalApproval now' token' chatID' topicID' messageID' session' s'
                               = Ok ((Some out, false), s')))
          /\ (~ open_press (trim_space session) chatID topicID messageID r a ->
              ClaimMinimalApproval now token chatID topicID messageID session s
              = Ok ((Some (route_of_row r (Some a)), false), s))
      end
  end.
Proof.
  intros HI. destruct (find_route token s) as [r|] eqn:Er.
  2: { unfold ClaimMinimalApproval. erewrite tx_bind_run by reflexivity. cbn beta. by rewrite Er. }
  destruct (find_approval (ar_RequestID r) s) as [a|] eqn:Ea.
  2: { unfold ClaimMinimalApproval. erewrite tx_bind_run by reflexivity. cbn beta. rewrite Er. cbn. by rewrite Ea. }
  pose proof (press_exact_open s token r a (trim_space session) chatID topicID messageID HI Er Ea) as Hopen.
  split; intros Ep.
  2: { unfold ClaimMinimalApproval. erewrite tx_bind_run by reflexivity. cbn beta. rewrite Er. cbn. rewrite Ea.
       cbn. destruct (press_exact _ _ _ _ r a); [by destruct Ep; apply Hopen|done]. }
  apply Hopen in Ep.
  destruct (press_run now token chatID topicID messageID session s r a HI Er Ea Ep)
    as (route & s' & a' & H1 & _ & H2 & H3 & H4 & H5 & H6 & H7 & H8 & H9 & H10). exists route, s', a'.
  split_and!; try done; [unfold ma_claimed_for; by rewrite H6, H7; cbn; rewrite String.eqb_refl|].
  intros now' token' chatID' topicID' messageID' session' r' Hr' Hq'. eexists. apply claimed_refused; [done|by rewrite Hq'|done].
Qed.

Lemma ex_created_inv : ApprovalInv ex_created.
Proof.
  apply (approval_steps_inv ex_json plainProtector emptyStore _ ApprovalInv_empty), rtc_once.
  apply (as_create _ _ "T1" (ex_seed "turn" "event" ("yes", "no")) _ true); [reflexivity|by vm_compute].
Qed.

Lemma ClaimMinimalApproval_spec_witness :
  exists route s' a', ClaimMinimalApproval "T2" "yes" 7 0 9 "session" ex_created = Ok ((Some route, true), s')
    /\ mq_Action route = "approve" /\ find_approval "r1" s' = Some a' /\ ma_claimed_for "approve" a' = true
    /\ exists out, ClaimMinimalApproval "T3" "no" 7 0 9 "session" s' = Ok ((Some out, false), s').
Proof.
  pose proof (ClaimMinimalApproval_spec "T2" "yes" 7 0 9 "session" ex_created ex_created_inv) as H.
  destruct (find_route "yes" ex_created) as [r|] eqn:Er; [|vm_compute in Er; discriminate Er].
  vm_compute in Er. injection Er as <-. cbn [ar_RequestID] in H.
  destruct (find_approval "r1" ex_created) as [a|] eqn:Ea; [|vm_compute in Ea; discriminate Ea].
  vm_compute in Ea. injection Ea as <-.
  destruct H as [H _]. destruct H as (route & s' & a' & H1 & H2 & _ & H3 & _ & H4 & _ & _ & _ & H5);
    [by split; try split; vm_compute; repeat constructor|]. exists route, s', a'.
  split_and!; try done. destruct (find_route "no" s') as [r'|] eqn:Er'.
  - apply (H5 "T3" "no" 7%Z 0%Z 9%Z "session" r' Er'). vm_compute in H1. injection H1 as _ <-.
    vm_compute in Er'. injection Er' as <-. reflexivity.
  - vm_compute in H1. injection H1 as _ <-. vm_compute in Er'. discriminate Er'.
Defined.

(** C6: In every state the store can reach, an approval that waits has exactly its two buttons,
    approve and deny, for its own turn and in one place, both active while nobody has
    pressed; one that has ended has none.  Whatever operation comes next, until another
    request with its id begins an approval that has ended stays as it ended, and one that is
    claimed and still waits keeps its claim and its action, unless
    RestoreMinimalApprovalClaim gives the claim up for that action. *)
Theorem approvals_safe MustJSON p s s' :
  rtc (approval_step MustJSON p) emptyStore s -> approval_step MustJSON p s s' ->
  ApprovalInv s' /\ forall a, a ∈ cr_approvals (db_core s) ->
    exists a', a' ∈ cr_approvals (db_core s') /\ approval_move (claim_restored s s' a) a a'.
Proof.
  intros Hs H. pose proof (approval_steps_inv MustJSON p emptyStore s ApprovalInv_empty Hs) as HI.
  exact (approval_step_inv MustJSON p s s' HI H).
Qed.

Lemma approvals_safe_witness :
  let s' := run_store (FinishMinimalApprovalClaim "T3" "r1" "approve" "approved") ex_pressed in
  map ma_Status (cr_approvals (db_core s')) = ["approved"] /\ ApprovalInv s'.
Proof.
  intros s'. split; [by vm_compute|].
  apply (approvals_safe ex_json plainProtector ex_pressed s').
  - apply rtc_l with ex_created; [|apply rtc_once].
    + apply (as_create _ _ "T1" (ex_seed "turn" "event" ("yes", "no")) _ true); [reflexivity|by vm_compute].
    + apply (as_claim _ _ "T2" "yes" 7%Z 0%Z 9%Z "session" _
        (match ClaimMinimalApproval "T2" "yes" 7 0 9 "session" ex_created with Ok (o, _) => o | Err _ => (None, false) end)).
      by vm_compute.
  - apply (as_finish _ _ "T3" "r1" "approve" "approved" _ true); [done|by vm_compute].
Defined.

(** A lookup for a session never finds a request of another session. *)
Theorem resolve_within_session rows requestID session d :
  resolveApprovalRequestID rows requestID session false = Some d -> trim_space session <> "" ->
  exists r, r ∈ rows /\ rk_RequestID r = d /\ rk_SessionIdentity r = trim_space session.
Proof.
  intros H Hs. unfold resolveApprovalRequestID in H. destruct (String.eqb (trim_space requestID) ""); [done|].
  destruct (String.eqb_spec (trim_space session) ""); [done|].
  assert (forall x o, resolveApprovalRequestIDExact rows x (trim_space session) false = o -> o = Some d ->
    exists r, r ∈ rows /\ rk_RequestID r = d /\ rk_SessionIdentity r = trim_space session) as Hx.
  { intros x o <- (r & Hr & Hd & Hses)%resolve_exact_sound. exists r. naive_solver. }
  match type of H with match (if ?b then _ else _) with _ => _ end = _ => destruct b end;
    [destruct (resolveApprovalRequestIDExact rows (ScopedRequestID _ _) _ false) eqn:E1; [by apply (Hx _ _ E1)|]|];
    (destruct (resolveApprovalRequestIDExact rows (trim_space requestID) _ false) eqn:E2; [by apply (Hx _ _ E2)|done]).
Qed.

Lemma resolve_within_session_witness :
  exists r, r ∈ approval_keys ex_created /\ rk_RequestID r = "r1" /\ rk_SessionIdentity r = "session".
Proof. apply (resolve_within_session (approval_keys ex_created) " r1" "session" "r1"); [by vm_compute|by vm_compute]. Defined.

(** A pending approval is read back as it was saved, by its durable id and, when it belongs to
    a session, by the id the app-server gave it in that session; the others stay. *)
Theorem pending_approval_roundtrip p approval s s' :
  ProtectorLaws p ->
  has_prefix (sa_Question approval) protectedPayloadEnvelopePrefix = false ->
  has_prefix (sa_PayloadJSON approval) protectedPayloadEnvelopePrefix = false ->
  sa_RequestID (saved_approval approval) <> "" ->
  SavePendingApproval (Some p) approval s = Ok (tt, s') ->
  GetPendingApproval (Some p) (sa_RequestID (saved_approval approval)) s' = Ok (Some (saved_approval approval))
  /\ (trim_space (sa_SessionIdentity approval) <> "" -> trim_space (sa_WireRequestID approval) <> "" ->
      GetPendingApprovalForSession (Some p) (sa_WireRequestID approval) (sa_SessionIdentity approval) s'
      = Ok (Some (saved_approval approval)))
  /\ (forall id, id <> sa_RequestID (saved_approval approval) ->
      getPendingApprovalByResolvedID (Some p) id s' = getPendingApprovalByResolvedID (Some p) id s).
Proof.
  intros Hp Hpq Hpp Hne H. unfold SavePendingApproval in H. unfold saved_approval in *.
  destruct (normalized_trimmed (trim_space (sa_SessionIdentity approval)) (sa_RequestID approval) (sa_WireRequestID approval))
    as [Htrim Hscoped].
  destruct (NormalizeRequestIdentity _ _ _) as [d wire]. cbn [fst sa_RequestID] in *.
  set (session := trim_space (sa_SessionIdentity approval)) in *.
  set (kind := if String.eqb (trim_space (sa_RequestKind approval)) "" then sa_PromptKind approval else sa_RequestKind approval) in *.
  apply tx_bind_ok in H as ([question b1] & s1 & [Eq ->]%tx_lift_ok & H).
  apply tx_bind_ok in H as ([payload b2] & s1 & [Ep ->]%tx_lift_ok & H).
  destruct (protectSensitiveText (Some p) (sa_Question approval)) as [[q1 bq]|] eqn:Eq1; [|discriminate Eq].
  destruct (protectSensitiveText (Some p) (sa_PayloadJSON approval)) as [[p1 bp]|] eqn:Ep1; [|discriminate Ep].
  injection Eq as <- <-. injection Ep as <- <-.
  set (row := mkPendingApprovalRow d wire _ _ _ _ _ _ _ _ _ _ _) in H.
  apply upsert_pending_run in H as (Hex & Huniq & Hoth).
  set (saved := mkStoredApproval _ _ _ _ _ _ _ _ _ _ _ _ _).
  assert (getPendingApprovalByResolvedID (Some p) d s' = Ok (Some saved)) as Hget.
  { unfold getPendingApprovalByResolvedID. destruct (find_first (pr_is d) _) as [r|] eqn:Er.
    - apply find_first_some in Er as [Hr Hid%String.eqb_eq]. rewrite (Huniq r Hr Hid). cbn [pr_Question pr_Payload row].
      rewrite (protect_reads_nullable p _ _ _ Hpq Eq1), (protect_reads p _ _ _ Hpp Ep1). cbn.
      unfold saved. do 3 f_equal. unfold or_text. destruct (String.eqb_spec kind "") as [Ek|]; [|done].
      revert Ek. unfold kind. destruct (String.eqb_spec (trim_space (sa_RequestKind approval)) "") as [Ek|Ek]; [done|].
      intros Ek'. rewrite Ek' in Ek. done.
    - rewrite find_first_none in Er. destruct Hex as (r & Hr & Hid). specialize (Er r Hr). by apply String.eqb_neq in Er. }
  assert (exists r, r ∈ pending_keys s' /\ rk_RequestID r = d) as Hkey.
  { destruct Hex as (r & Hr & Hid). eexists. split; [by apply (list_elem_of_fmap_2 _ _ r)|done]. }
  assert (forall r, r ∈ pending_keys s' -> rk_RequestID r = d -> rk_SessionIdentity r = session) as Hses.
  { intros k Hk Hid. apply list_elem_of_fmap in Hk as (r & -> & Hr). by rewrite (Huniq r Hr Hid). }
  split_and!.
  - unfold GetPendingApproval, resolvePendingApprovalRequestID, resolveApprovalRequestID. rewrite Htrim.
    destruct (String.eqb_spec d ""); [done|]. change (trim_space "") with "". cbn [String.eqb].
    rewrite resolve_exact_hit; [exact Hget|done|by intros; left].
  - intros Hs Hw. specialize (Hscoped ltac:(unfold session; by rewrite trim_space_idemp) Hw).
    assert (ScopedRequestID (trim_space (sa_SessionIdentity approval)) (trim_space (sa_WireRequestID approval)) = d) as Hsc
      by (rewrite Hscoped; unfold ScopedRequestID, session; by rewrite !trim_space_idemp).
    unfold GetPendingApprovalForSession, resolvePendingApprovalRequestIDForSession, resolveApprovalRequestID.
    destruct (String.eqb_spec (trim_space (sa_WireRequestID approval)) ""); [done|].
    destruct (String.eqb_spec (trim_space (sa_SessionIdentity approval)) ""); [done|]. rewrite Hsc.
    rewrite (resolve_exact_hit (pending_keys s') d); [|done|intros; right; by apply Hses].
    destruct (String.eqb_spec d ""); [done|]. cbn [negb andb]. destruct (String.eqb_spec d (trim_space (sa_WireRequestID approval))) as [Ed|];
      cbn [negb]; [|exact Hget]. rewrite <- Ed. rewrite resolve_exact_hit; [exact Hget|done|intros; right; by apply Hses].
  - intros id Hid. unfold getPendingApprovalByResolvedID. by rewrite Hoth.
Qed.

Lemma pending_approval_roundtrip_witness :
  let s' := run_store (SavePendingApproval (Some plainProtector) ex_pending) emptyStore in
  GetPendingApprovalForSession (Some plainProtector) "7" "minimal-link-worker:3" s' = Ok (Some (saved_approval ex_pending)).
Proof.
  intros s'. assert (SavePendingApproval (Some plainProtector) ex_pending emptyStore = Ok (tt, s')) as Hs by by vm_compute.
  assert (sa_RequestID (saved_approval ex_pending) <> "") as Hid by by vm_compute.
  assert (trim_space "minimal-link-worker:3" <> "") as H1 by by vm_compute.
  assert (trim_space "7" <> "") as H2 by by vm_compute.
  exact (proj1 (proj2 (pending_approval_roundtrip plainProtector ex_pending emptyStore s' _ eq_refl eq_refl Hid Hs)) H1 H2).
Defined.

(** When a session ends, every approval, pending approval and button of it ends in one
    transaction, which never fails: nothing that waits for the session is left, and no other
    approval changes. *)
Theorem ExpireMinimalApprovalsForSession_spec now identity s :
  ApprovalInv s -> trim_space identity <> "" ->
  exists n s', ExpireMinimalApprovalsForSession now identity s = Ok (n, s')
    /\ (forall a, a ∈ cr_approvals (db_core s') -> ma_SessionIdentity a = trim_space identity ->
         ma_pending a = false /\ live_routes (ma_RequestID a) (cr_approvalRoutes (db_core s')) = [])
    /\ (forall r, r ∈ cr_pendingApprovals (db_core s') -> pr_SessionIdentity r = trim_space identity -> pr_pending r = false)
    /\ (forall token r, cr_callbacks (db_core s') !! token = Some r -> cb_SessionIdentity r = trim_space identity ->
         cb_open r = false)
    /\ (forall a, a ∈ cr_approvals (db_core s) -> ma_SessionIdentity a <> trim_space identity ->
         a ∈ cr_approvals (db_core s')).
Proof.
  intros HI Hi. destruct (expire_session_total now identity s) as (n & s' & H). exists n, s'. split; [exact H|].
  pose proof (expire_session_inv now identity s n s' HI H) as [HI' _].
  unfold ExpireMinimalApprovalsForSession in H. destruct (String.eqb_spec (trim_space identity) ""); [done|].
  tx_inv H. apply tx_ret_ok in H as [_ <-].
  apply expire_session_tx_inv in Htx as (_ & _ & HA); [|done]. rewrite trim_space_idemp in HA. specialize (HA Hi).
  pose proof (expire_pending_same _ _ _ _ _ Htx0) as [HA1 HR1]. pose proof (expire_callbacks_same _ _ _ _ Htx1) as [HA2 HR2].
  assert (cr_approvals (db_core s') = cr_approvals (db_core s0)) as HA' by congruence.
  assert (forall a, a ∈ cr_approvals (db_core s') -> ma_SessionIdentity a = trim_space identity -> ma_pending a = false) as Hdone.
  { clear -HA HA'. intros a Ha Hs. rewrite HA', HA in Ha. apply elem_of_update in Ha as (x & Hx & ->).
    destruct (String.eqb (ma_SessionIdentity x) (trim_space identity) && ma_pending x) eqn:E; [done|].
    rewrite Hs, String.eqb_refl in E. exact E. }
  split_and!.
  - intros x Ha Hs. split; [by apply Hdone|]. destruct HI' as [_ _ _ Hrows]. rewrite Forall_forall in Hrows.
    specialize (Hrows x Ha). unfold approval_ok in Hrows. rewrite (Hdone x Ha Hs) in Hrows. apply Hrows.
  - intros r Hr Hs. unfold expireCallbackRoutesForSessionTx in Htx1.
    assert (cr_pendingApprovals (db_core s') = cr_pendingApprovals (db_core s1)) as Hpend
      by (destruct (String.eqb _ ""); [by apply tx_ret_ok in Htx1 as [_ ->]|by apply tx_modify_ok in Htx1 as ->]).
    unfold expirePendingApprovalsForSessionTx in Htx0. rewrite trim_space_idemp in Htx0.
    destruct (String.eqb_spec (trim_space identity) ""); [done|]. injection Htx0 as _ <-. rewrite Hpend in Hr. cbn in Hr.
    apply elem_of_update in Hr as (x & Hx & ->).
    destruct (String.eqb (pr_SessionIdentity x) (trim_space identity) && pr_pending x) eqn:E; [done|].
    rewrite Hs, String.eqb_refl in E. exact E.
  - intros token r Hr Hs. apply (expire_callbacks_done (trim_space identity) _ _ _ ltac:(by rewrite trim_space_idemp) Htx1 token r Hr).
    by rewrite trim_space_idemp.
  - intros x Ha Hs. rewrite HA', HA. apply elem_of_update. exists x. split; [done|].
    by destruct (String.eqb_spec (ma_SessionIdentity x) (trim_space identity)).
Qed.

Lemma ExpireMinimalApprovalsForSession_spec_witness :
  exists n s', ExpireMinimalApprovalsForSession "T4" "session" ex_created = Ok (n, s')
    /\ forall a, a ∈ cr_approvals (db_core s') -> ma_SessionIdentity a = "session" -> ma_pending a = false.
Proof.
  destruct (ExpireMinimalApprovalsForSession_spec "T4" "session" ex_created ex_created_inv) as (n & s' & H1 & H2 & _); [by vm_compute|].
  exists n, s'. split; [exact H1|]. intros a Ha Hs. by apply (H2 a Ha).
Defined.

(** At start every claim whose answer may have been lost is cancelled, its buttons end and its
    message is edited; no other approval changes, and nothing is left in a claim. *)
Theorem RecoverMinimalApprovalClaims_spec MustJSON p now s :
  (forall t, exists e, Protect p t = Ok e) -> ApprovalInv s ->
  Forall (recoverable s) (filter in_claim (cr_approvals (db_core s))) ->
  exists s', RecoverMinimalApprovalClaims MustJSON (Some p) now s
             = (Ok (Z.of_nat (length (filter in_claim (cr_approvals (db_core s))))), s')
    /\ cr_approvals (db_core s') = update_where in_claim (upd_approval_state "cancelled" "idle" None now) (cr_approvals (db_core s))
    /\ filter in_claim (cr_approvals (db_core s')) = [] /\ ApprovalInv s'.
Proof.
  intros Hp HI Hrec. destruct (cancel_each_run MustJSON p now s _ 0 Hp HI eq_refl Hrec) as (s' & H & HA & HI').
  exists s'. split_and!; [exact H|done| |done]. rewrite HA. by apply filter_update_drop.
Qed.

Lemma RecoverMinimalApprovalClaims_spec_witness :
  exists s', RecoverMinimalApprovalClaims ex_json (Some plainProtector) "T5" ex_pressed = (Ok 1%Z, s')
    /\ filter in_claim (cr_approvals (db_core s')) = [].
Proof.
  destruct (RecoverMinimalApprovalClaims_spec ex_json plainProtector "T5" ex_pressed) as (s' & H1 & _ & H2 & _).
  - intros t. by eexists.
  - apply (approval_steps_inv ex_json plainProtector ex_created); [apply ex_created_inv|apply rtc_once].
    apply (as_claim _ _ "T2" "yes" 7%Z 0%Z 9%Z "session" _
      (match ClaimMinimalApproval "T2" "yes" 7 0 9 "session" ex_created with Ok (o, _) => o | Err _ => (None, false) end)).
    by vm_compute.
  - apply Forall_forall. intros a Ha. vm_compute in Ha. apply list_elem_of_singleton in Ha as ->.
    split_and!; [by vm_compute..|]. vm_compute. repeat constructor.
  - exists s'. split; [exact H1|exact H2].
Defined.

(** A request that is seen again while its approval is claimed, its delivery having been given
    up as never sent, gets new buttons but keeps the claim: then the claim can be neither
    finished, nor restored, nor cancelled, and the recovery at the next start fails. *)
Theorem replayed_claim_stuck :
  rtc (approval_step ex_json plainProtector) emptyStore ex_replayed
  /\ map (fun a => (ma_Status a, ma_ClaimState a)) (cr_approvals (db_core ex_replayed)) = [("pending", "claimed")]
  /\ (exists e, FinishMinimalApprovalClaim "T5" "r1" "approve" "approved" ex_replayed = Err e)
  /\ (exists e, RestoreMinimalApprovalClaim "T5" "r1" "approve" ex_replayed = Err e)
  /\ (exists e, RecoverMinimalApprovalClaims ex_json (Some plainProtector) "T6" ex_replayed = (Err e, ex_replayed)).
Proof.
  split_and!; [|by vm_compute|by eexists; vm_compute|by eexists; vm_compute|by eexists; vm_compute].
  apply rtc_l with ex_created; [|apply rtc_l with ex_pressed; [|apply rtc_l with ex_unsent; [|apply rtc_once]]].
  - apply (as_create _ _ "T1" (ex_seed "turn" "event" ("yes", "no")) _ true); [reflexivity|by vm_compute].
  - apply (as_claim _ _ "T2" "yes" 7%Z 0%Z 9%Z "session" _
      (match ClaimMinimalApproval "T2" "yes" 7 0 9 "session" ex_created with Ok (o, _) => o | Err _ => (None, false) end)).
    by vm_compute.
  - by apply as_other; vm_compute.
  - apply (as_create _ _ "T4" (ex_seed "turn" "event" ("yes2", "no2")) _ false); [reflexivity|by vm_compute].
Qed.
