(* ===== verification/Writers.v ===== *)
(** * Every writer of the delivery queue and of the linked threads

    internal/storage/store.go writes delivery_queue not only in the operations of the queue:
    the transactions of the approvals (CreateMinimalApproval, CompleteMinimalApprovalDelivery,
    the expirations and the cancellation) and the release of a linked thread with its ready
    notice insert, end and revive rows of it, and minimal_linked_threads is written by the
    worker, by that release, by the adoption and by the activation of links.  [step] and
    [linked_step] are the two tables with all of their writers; what is proved of every
    reachable store is proved for these relations.

    A row in hand is completed or failed while it is still claimed; a row that was ended
    meanwhile can only die.  [ended_row_blocks] shows what the code does to a row that is
    retried after it was ended. *)
From stdpp Require Import base list numbers strings gmap relations sorting.
From Stdlib Require Import Lia Ascii Sorting.Sorted.
From S2P Require Import Prelude GoStrings GoTime Sql Model CoreTables Store StoreNotifier Queue QueueSafety LinkedThread.
From S2P Require Import PendingCommands Continuations Threads Approvals ApprovalSafety.

(** One committed operation on the store, whoever runs it: those of the queue, those of the
    approvals that write it, the release of a linked thread, and the end of a row that was
    not delivered. *)
Inductive step (p : Protector) : Store -> Store -> Prop :=
| st_queue s s' : queue_step p s s' -> step p s s'
| st_bury now id retry availableAt err s s' r :
    find_row id (db_queue s) = Some r -> delivered r = false ->
    FailDelivery (Some p) now id retry availableAt err true s = Ok s' -> step p s s'
| st_create MustJSON now seed s b s' :
    CreateMinimalApproval MustJSON (Some p) now seed s = Ok (b, s') -> step p s s'
| st_sent MustJSON now queueID requestID chatID topicID messageID s u s' :
    CompleteMinimalApprovalDelivery MustJSON (Some p) now queueID requestID chatID topicID messageID s = Ok (u, s') ->
    step p s s'
| st_expire now requestID s b s' : ExpireMinimalApproval now requestID s = Ok (b, s') -> step p s s'
| st_expire_for now requestID session s b s' :
    ExpireMinimalApprovalForSession now requestID session s = Ok (b, s') -> step p s s'
| st_expire_session now identity s n s' : ExpireMinimalApprovalsForSession now identity s = Ok (n, s') -> step p s s'
| st_expire_turn now threadID turnID s n s' :
    ExpireMinimalApprovalsForThreadTurn now threadID turnID s = Ok (n, s') -> step p s s'
| st_cancel MustJSON now requestID action text s b s' :
    CancelMinimalApprovalClaimWithInactiveEdit MustJSON (Some p) now requestID action text s = Ok (b, s') -> step p s s'
| st_release clock linkedID generation session turnID releasedAt ready s b s' :
    FinishMinimalLinkedReleaseWithReadyDelivery (Some p) clock linkedID generation session turnID releasedAt ready s
      = Ok (b, s') -> step p s s'.

Definition reachable (p : Protector) : Store -> Prop := rtc (step p) emptyStore.

(** One committed operation on the links: those of the workers, the release that also queues
    the ready notice, and the two that add a link. *)
Inductive linked_step : Store -> Store -> Prop :=
| ls_worker s s' : link_worker_step s s' -> linked_step s s'
| ls_release protector clock linkedID generation session turnID releasedAt ready s b s' :
    FinishMinimalLinkedReleaseWithReadyDelivery protector clock linkedID generation session turnID releasedAt ready s
      = Ok (b, s') -> linked_step s s'
| ls_adopt now s n s' : AdoptMinimalLinkedThreads now s = Ok (n, s') -> linked_step s s'
| ls_activate protector now link provenance child s u s' :
    ActivateMinimalLinkedThread protector now link provenance child s = Ok (u, s') -> linked_step s s'.

(** A row a claim may take: it waits, its time has come and every earlier message of its
    group is delivered. *)
Record eligible (s : Store) (now : TimeString) (r : QueueRow) : Prop := mkEligible {
  el_row : r ∈ db_queue s;
  el_waits : q_Status r = "pending" \/ q_Status r = "retry";
  el_due : text_le (q_AvailableAt r) now = true;
  el_turn : forall e g, e ∈ db_queue s -> q_GroupID r = Some g -> q_GroupID e = Some g ->
              (q_SequenceNo e < q_SequenceNo r)%Z -> q_Status e = "delivered" }.

(** The item is the row, with its text in clear. *)
Definition item_of (p : Protector) (r : QueueRow) (item : DeliveryQueueItem) : Prop :=
  exists envelope text, q_Payload r = Some envelope /\ Unprotect p envelope = Ok text
    /\ item = mkQueueItem (q_ID r) (q_EventID r) (q_ChatKey r) (q_ChatID r) (q_TopicID r) (q_ThreadID r) (q_Kind r)
                (q_Status r) (q_RetryCount r) (q_AvailableAt r) (default "" (q_LastError r)) text (q_CreatedAt r)
                (q_UpdatedAt r) (default "" (q_GroupID r)) (q_SequenceNo r) (q_SequenceCount r).

(** The invariant of the queue is kept and no terminal event changes. *)
Definition queue_safe (p : Protector) (s s' : Store) : Prop :=
  (Inv p s -> Inv p s') /\ db_terminal s' = db_terminal s.

(** The links stay. *)
Definition same_links (s s' : Store) : Prop := db_linked s' = db_linked s.

(** Links are only added. *)
Definition links_added (s s' : Store) : Prop := exists new, db_linked s' = db_linked s ++ new.

(** A sample: the message of the sample approval, claimed by the worker; the session of the
    approval ends, which ends the row; the worker then puts it back for another attempt. *)
Definition ex_sending : Store :=
  match ClaimDeliveryBatch (Some plainProtector) "T2" 10 ex_created with Ok (_, s) => s | Err _ => ex_created end.

Definition ex_ended_row : Store := run_store (ExpireMinimalApprovalsForSession "T3" "session") ex_sending.

Definition ex_retried_row : Store :=
  match FailDelivery (Some plainProtector) "T4" 1 1 0%Z "send_error" false ex_ended_row with
  | Ok s => s
  | Err _ => ex_ended_row
  end.

(** ** Lemmas *)

(** *** The invariant under every writer *)

#[export] Instance queue_safe_preorder p : PreOrder (queue_safe p).
Proof. split; [by intros s|]. intros s t u [H1 H2] [K1 K2]. split; [auto|congruence]. Qed.

#[export] Instance same_links_preorder : PreOrder same_links.
Proof. split; [by intros s|]. intros s t u H K. unfold same_links in *. congruence. Qed.

#[export] Instance links_added_preorder : PreOrder links_added.
Proof.
  split; [intros s; exists []; by rewrite app_nil_r|]. intros s t u [k Hk] [l Hl].
  exists (k ++ l). by rewrite Hl, Hk, app_assoc.
Qed.

Section safe.
Context (p : Protector) `{!ProtectorLaws p}.

Lemma safe_same s s' :
  db_queue s' = db_queue s -> db_queueSeq s' = db_queueSeq s -> db_terminal s' = db_terminal s -> queue_safe p s s'.
Proof. intros H1 H2 H3. split; [by apply Inv_ext|done]. Qed.

(** Rows rewritten in place, none of which starts. *)
Lemma safe_map s f :
  (Inv p s -> (forall r, identity (f r) = identity r)
    /\ (forall r, r ∈ db_queue s -> known_status (f r) = true /\ payload_ok p (f r))
    /\ (forall r, r ∈ db_queue s -> started (f r) = true -> started r = true)
    /\ (forall r, r ∈ db_queue s -> delivered r = true -> delivered (f r) = true)) ->
  queue_safe p s (set_queue (map f (db_queue s)) s).
Proof.
  intros H. split; [|done]. intros HI. destruct (H HI) as (H1 & H2 & H3 & H4).
  by apply (Inv_ext p (set_terminal (db_terminal s) (set_queue (map f (db_queue s)) s))), Inv_map_quiet.
Qed.

Lemma safe_kill now q : tx_keeps (queue_safe p) (kill_deliveries now q).
Proof.
  unfold kill_deliveries. apply keeps_bind; [apply _| |intros; apply keeps_ret, _]. apply keeps_update. intros s.
  apply safe_map. intros HI. split_and!; intros r; try (intros Hr).
  - by destruct (_ && _).
  - destruct (_ && _); [done|by apply HI].
  - by destruct (_ && _).
  - destruct (_ && _) eqn:E; [|done]. intros Hd. apply andb_prop in E as [_ E%live_not_final]. destruct E. congruence.
Qed.

Lemma safe_ungrouped now item text : readable p text -> tx_keeps (queue_safe p) (enqueue_protected now item text).
Proof.
  intros Ht. apply keeps_modify. intros s. unfold insert_ungrouped.
  destruct (event_target_exists _ _ _) eqn:E; [reflexivity|]. split; [|done]. intros HI.
  by apply Inv_insert; [done|done|done|exists text|exact E|done].
Qed.

Lemma safe_delivery now d text : readable p text -> tx_keeps (queue_safe p) (insert_delivery now d text).
Proof.
  intros Ht s n s' H. unfold insert_delivery in H. tx_inv H. apply tx_gets_ok in Htx as [-> ->].
  destruct (event_target_exists _ _ _) eqn:E; [discriminate H|]. tx_inv H. apply tx_gets_ok in H as [_ ->].
  injection Htx as _ <-. split; [|done]. intros HI. by apply Inv_insert; [done|done|done|exists text|exact E|done].
Qed.

(** A row that dies takes no terminal event with it. *)
Lemma bury_remembers now id retry at_ err s s' :
  FailDelivery (Some p) now id retry at_ err true s = Ok s' -> remembers s s'.
Proof.
  unfold FailDelivery. cbv zeta. intros H key Hk. destruct (find_row _ _) as [x|]; [|discriminate H].
  destruct (q_GroupID x) as [g|]; [destruct (String.eqb _ "")|]; injection H as <-; try exact Hk.
  by apply (set_delivery_status_some (Some g)).
Qed.

(** Statements on the other tables. *)
Ltac other_table :=
  first [ apply keeps_update; intros; by apply safe_same
        | apply keeps_update_exactly; [apply _|intros; by apply safe_same]
        | apply keeps_insert; intros; by apply safe_same
        | apply keeps_modify; intros; by apply safe_same
        | apply keeps_gets, _ | apply keeps_ret, _ | apply keeps_lift, _ | apply keeps_fail ].

Lemma safe_move_routes moved status verb what requestID : tx_keeps (queue_safe p) (move_routes moved status verb what requestID).
Proof. unfold move_routes. other_table. Qed.

Lemma safe_routes seed requestID now : tx_keeps (queue_safe p) (insertMinimalApprovalRoutesTx seed requestID now).
Proof.
  unfold insertMinimalApprovalRoutesTx, insert_route.
  repeat (apply keeps_bind; [apply _| |intros ?]); repeat case_match;
    repeat (apply keeps_bind; [apply _| |intros ?]); other_table.
Qed.

Lemma safe_settle q f moved status verb after resolved :
  (forall id, tx_keeps (queue_safe p) (after id)) -> tx_keeps (queue_safe p) (settle q f moved status verb after resolved).
Proof.
  intros Ha. unfold settle. destruct resolved as [id|]; [|other_table].
  apply keeps_bind; [apply _|other_table|intros n]. apply keeps_bind; [apply _| |intros; other_table].
  apply keeps_when; [apply _|]. apply keeps_bind; [apply _|apply safe_move_routes|intros _; apply Ha].
Qed.

Lemma safe_expire now resolved : tx_keeps (queue_safe p) (expire_resolved now resolved).
Proof.
  apply safe_settle. intros id. unfold kill_own_delivery. apply keeps_bind; [apply _|other_table|].
  intros [a|]; [apply safe_kill|other_table].
Qed.

Lemma safe_expire_group now group moved : tx_keeps (queue_safe p) (expire_group now group moved).
Proof.
  unfold expire_group. apply keeps_bind; [apply _|other_table|intros rows].
  apply keeps_bind; [apply _|other_table|intros _]. apply safe_kill.
Qed.

Lemma safe_expire_session identity now :
  tx_keeps (queue_safe p) (expireMinimalApprovalsForSessionTx identity now)
  /\ tx_keeps (queue_safe p) (expirePendingApprovalsForSessionTx identity now)
  /\ tx_keeps (queue_safe p) (expireCallbackRoutesForSessionTx identity).
Proof.
  unfold expireMinimalApprovalsForSessionTx, expirePendingApprovalsForSessionTx, expireCallbackRoutesForSessionTx.
  cbv zeta. destruct (String.eqb _ ""); [split_and!; other_table|]. split_and!; [|other_table|other_table].
  apply keeps_bind; [apply _|other_table|intros n]. apply keeps_bind; [apply _| |intros; other_table].
  apply keeps_when; [apply _|apply safe_expire_group].
Qed.

Lemma safe_inactive_edit MustJSON now a text : tx_keeps (queue_safe p) (enqueueMinimalApprovalInactiveEditTx MustJSON p now a text).
Proof.
  unfold enqueueMinimalApprovalInactiveEditTx. cbv zeta. intros s u s' H. tx_inv H. apply tx_lift_ok in Htx as [Hp ->].
  refine (safe_ungrouped _ _ _ _ _ _ _ H). destruct (Protect p _) eqn:E; [|discriminate Hp]. injection Hp as <-.
  by eapply readable_protect.
Qed.

(** The one row of an update that must change exactly one, revived with a readable payload. *)
Lemma safe_revive (c : QueueRow -> bool) (f : QueueRow -> QueueRow) e text :
  readable p text ->
  (forall r, identity (f r) = identity r /\ q_Payload (f r) = Some text /\ q_Status (f r) = DeliveryStatusPending) ->
  (forall r, c r = true -> q_Status r = DeliveryStatusDead) ->
  tx_keeps (queue_safe p) (sql_update_exactly 1 queue_table c f e).
Proof.
  intros Ht Hf Hc. apply keeps_update_exactly; [apply _|]. intros s.
  assert (Hw : forall r, waiting (f r) = true) by (intros r; apply waiting_cases; left; apply Hf).
  apply safe_map. intros HI. split_and!; intros r; try (intros Hr); destruct (c r) eqn:E; try done.
  - apply Hf.
  - apply waiting_known; [apply Hw|]. exists text. split; [apply Hf|done].
  - by apply HI.
  - destruct (waiting_not_started _ (Hw r)). congruence.
  - unfold delivered. by rewrite (Hc r E).
Qed.

Lemma safe_rearm a seed text now : readable p text -> tx_keeps (queue_safe p) (rearmMinimalApprovalDeliveryIfDeadTx a seed text now).
Proof.
  intros Ht. unfold rearmMinimalApprovalDeliveryIfDeadTx. cbv zeta. destruct (_ || _); [other_table|].
  apply keeps_bind; [apply _|other_table|intros [r|]; [|other_table]]. destruct (_ || _); [other_table|].
  apply keeps_bind; [apply _|apply safe_move_routes|intros _]. apply keeps_bind; [apply _|apply safe_routes|intros _].
  apply (safe_revive _ _ _ text Ht); [done|]. intros x Hx. bsimp. done.
Qed.

Lemma safe_create MustJSON now seed : tx_keeps (queue_safe p) (CreateMinimalApproval MustJSON (Some p) now seed).
Proof.
  unfold CreateMinimalApproval. cbv zeta. destruct (NormalizeRequestIdentity _ _ _) as [requestID wire].
  destruct (seed_incomplete _ _ _); [other_table|]. destruct (routes_invalid seed); [other_table|].
  destruct (Protect p (qi_PayloadJSON (sd_Delivery seed))) as [text|] eqn:E; [|intros s b s' H; discriminate H].
  pose proof (readable_protect p _ _ E) as Ht. cbn [wrap_err].
  match goal with |- tx_keeps _ (tx_bind (tx_lift (Ok text)) ?k) => change (tx_keeps (queue_safe p) (k text)) end. cbv beta.
  assert (tx_keeps (queue_safe p) (seed_delivery seed requestID text now)) as Hseed.
  { unfold seed_delivery. apply keeps_bind; [apply _|apply safe_routes|intros _].
    apply keeps_bind; [apply _|other_table|intros n]. destruct (negb _); [other_table|].
    apply keeps_bind; [apply _|by apply safe_delivery|intros id]. apply keeps_bind; [apply _|other_table|intros _; other_table]. }
  apply keeps_bind; [apply _|other_table|]. intros [r|].
  - destruct (same_request _ r).
    + apply keeps_bind; [apply _| |intros _; other_table]. unfold replay_approval. destruct (negb _).
      * apply keeps_when; [apply _|apply safe_kill].
      * apply keeps_bind; [apply _|other_table|intros _; by apply safe_rearm].
    + apply keeps_bind; [apply _| |intros _; apply keeps_bind; [apply _|exact Hseed|intros _; other_table]].
      unfold replace_approval. cbv zeta. apply keeps_bind; [apply _|destruct (ma_pending r); [apply safe_move_routes|other_table]|intros _].
      apply keeps_bind; [apply _|apply keeps_when; [apply _|apply safe_inactive_edit]|intros _].
      apply keeps_bind; [apply _|apply keeps_when; [apply _|apply safe_kill]|intros _]. other_table.
  - apply keeps_bind; [apply _|other_table|intros _]. apply keeps_bind; [apply _|exact Hseed|intros _; other_table].
Qed.

Lemma safe_cleanup MustJSON now a : tx_keeps (queue_safe p) (enqueueMinimalApprovalPCCleanupTx MustJSON (Some p) now a).
Proof.
  unfold enqueueMinimalApprovalPCCleanupTx. destruct (String.eqb _ ""); [other_table|].
  apply keeps_bind; [apply _|other_table|]. intros routes. apply keeps_each; [apply _|]. intros r _.
  unfold enqueue_cleanup. destruct (_ || _); [other_table|]. cbn [protect_with]. intros s u s' H. tx_inv H.
  apply tx_lift_ok in Htx as [Hp ->]. refine (safe_ungrouped _ _ _ _ _ _ _ H).
  destruct (Protect p _) eqn:E; [|discriminate Hp]. injection Hp as <-. by eapply readable_protect.
Qed.

(** The message was sent: the row in hand, which is in processing, is delivered. *)
Lemma safe_sent MustJSON now queueID requestID chatID topicID messageID :
  tx_keeps (queue_safe p) (CompleteMinimalApprovalDelivery MustJSON (Some p) now queueID requestID chatID topicID messageID).
Proof.
  intros s u s' H. unfold CompleteMinimalApprovalDelivery in H. destruct (_ || _); [discriminate H|].
  tx_inv H. apply tx_gets_ok in Htx as [-> ->].
  destruct (resolveMinimalApprovalRequestID requestID s) as [q|]; [|discriminate H].
  tx_inv H. apply tx_gets_ok in Htx as [-> ->].
  destruct (find_first (ma_is q) _) as [a|]; [|discriminate H]. destruct (_ || _); [discriminate H|].
  tx_inv H. apply tx_gets_ok in Htx as [-> ->]. destruct (find_first _ (rows_of queue_table s)) as [e|] eqn:Ee; [|discriminate H].
  destruct (negb _) eqn:Est; [discriminate H|]. tx_inv H. injection Htx as <- <-. injection Htx1 as <- <-. injection Htx2 as <- <-.
  unfold sql_update_exactly in Htx0. tx_inv Htx0. injection Htx as <- <-.
  destruct (_ =? 2)%Z; [|discriminate Htx0]. apply tx_ret_ok in Htx0 as [_ ->].
  apply negb_false_iff, String.eqb_eq in Est. apply find_first_some in Ee as [Hin He]. bsimp.
  match goal with H : enqueueMinimalApprovalPCCleanupTx _ _ _ _ ?t = _ |- _ => transitivity t; [|by eapply safe_cleanup] end.
  split; [|done]. intros HI.
  match goal with |- Inv p ?t => apply (Inv_ext p (set_queue (map (fun r => if id_is queueID r
    then upd_payload None (upd_status DeliveryStatusDelivered now r) else r) (db_queue s)) s) t eq_refl eq_refl eq_refl) end.
  refine (proj1 (safe_map s _ _) HI). intros _. split_and!; intros r; try (intros Hr); destruct (id_is queueID r) eqn:E; try done.
  - by apply HI.
  - intros _. assert (r = e) as ->; [|apply started_cases; by left]. unfold id_is in *. bsimp.
    eapply ids_inj; [apply HI|done|exact Hin|lia].
Qed.

Lemma safe_cancel MustJSON now requestID action text :
  tx_keeps (queue_safe p) (CancelMinimalApprovalClaimWithInactiveEdit MustJSON (Some p) now requestID action text).
Proof.
  unfold CancelMinimalApprovalClaimWithInactiveEdit. apply keeps_bind; [apply _|other_table|].
  intros [q|]; [|other_table]. apply keeps_bind; [apply _|other_table|]. intros [a|]; [|other_table].
  destruct (negb _); [other_table|]. apply keeps_bind; [apply _|other_table|intros n]. destruct (negb _); [other_table|].
  apply keeps_bind; [apply _|apply safe_move_routes|intros _].
  apply keeps_bind; [apply _|apply safe_inactive_edit|intros _; other_table].
Qed.

Lemma safe_expire_all identity now : tx_keeps (queue_safe p) (ExpireMinimalApprovalsForSession now identity).
Proof.
  unfold ExpireMinimalApprovalsForSession. cbv zeta. destruct (String.eqb _ ""); [other_table|].
  destruct (safe_expire_session (trim_space identity) now) as (H1 & H2 & H3).
  apply keeps_bind; [apply _|exact H1|intros n]. apply keeps_bind; [apply _|exact H2|intros k].
  apply keeps_bind; [apply _|exact H3|intros _; other_table].
Qed.

Lemma safe_expire_turn threadID turnID now : tx_keeps (queue_safe p) (ExpireMinimalApprovalsForThreadTurn now threadID turnID).
Proof.
  unfold ExpireMinimalApprovalsForThreadTurn. cbv zeta. destruct (_ || _); [other_table|].
  apply keeps_bind; [apply _|other_table|intros n]. apply keeps_bind; [apply _| |intros _; other_table].
  apply keeps_when; [apply _|apply safe_expire_group].
Qed.

(** The release commits with its expirations, or leaves the store as it was. *)
Lemma safe_release clock linkedID generation session turnID releasedAt ready :
  tx_keeps (queue_safe p)
    (FinishMinimalLinkedReleaseWithReadyDelivery (Some p) clock linkedID generation session turnID releasedAt ready).
Proof.
  intros s b s' H. unfold FinishMinimalLinkedReleaseWithReadyDelivery in H. cbv zeta in H.
  destruct (_ || _); [by apply tx_ret_ok in H as [_ ->]|]. tx_inv H.
  apply tx_lift_ok in Htx as [_ ->]. apply tx_lift_ok in Htx0 as [Hready ->]. apply tx_gets_ok in Htx1 as [-> ->].
  destruct (safe_expire_session (or_text (trim_space session) (minimalLinkedWorkerSessionIdentity generation)) (format_time clock)) as (K1 & K2 & K3).
  pose proof (transitivity (transitivity (K1 _ _ _ Htx2) (K2 _ _ _ Htx3)) (K3 _ _ _ Htx4)) as HK.
  injection Htx5 as <- <-. destruct (negb _); [by injection H as _ <-|]. tx_inv H. apply tx_ret_ok in H as [_ ->].
  etransitivity; [exact HK|]. match type of Htx with _ ?t = _ => transitivity t; [by apply safe_same|] end.
  destruct a0 as [[item text]|]; [|by apply tx_ret_ok in Htx as [_ ->]].
  refine (safe_ungrouped _ _ _ _ _ _ _ Htx). destruct ready as [it|]; [|discriminate Hready].
  unfold res_bind in Hready. destruct (Protect p _) eqn:E; [|discriminate Hready]. injection Hready as _ <-. by eapply readable_protect.
Qed.

(** Every writer keeps the invariant and forgets no terminal event. *)
Lemma step_safe s s' : Inv p s -> step p s s' -> Inv p s' /\ remembers s s'.
Proof.
  assert (Hs : forall t, queue_safe p s t -> Inv p s -> Inv p t /\ remembers s t).
  { intros t [H E] HI. split; [by apply H|]. intros key. by rewrite E. }
  intros HI H. destruct H as [s s' H|now id retry at_ err s s' r Hf Hd H|? ? ? ? ? ? H|? ? ? ? ? ? ? ? ? ? H|? ? ? ? ? H
    |? ? ? ? ? ? H|? ? ? ? ? H|? ? ? ? ? ? H|? ? ? ? ? ? ? ? H|? ? ? ? ? ? ? ? ? ? H].
  - split; [by eapply Inv_step|]. by eapply step_keeps.
  - split; [by eapply Inv_fail_dead|]. by eapply bury_remembers.
  - apply Hs; [exact (safe_create _ _ _ _ _ _ H)|done].
  - apply Hs; [exact (safe_sent _ _ _ _ _ _ _ _ _ _ H)|done].
  - apply Hs; [|done]. unfold ExpireMinimalApproval in H. tx_inv H. apply tx_gets_ok in Htx as [-> ->]. by eapply safe_expire.
  - apply Hs; [|done]. unfold ExpireMinimalApprovalForSession in H. tx_inv H. apply tx_gets_ok in Htx as [-> ->]. by eapply safe_expire.
  - apply Hs; [exact (safe_expire_all _ _ _ _ _ H)|done].
  - apply Hs; [exact (safe_expire_turn _ _ _ _ _ _ H)|done].
  - apply Hs; [exact (safe_cancel _ _ _ _ _ _ _ _ H)|done].
  - apply Hs; [exact (safe_release _ _ _ _ _ _ _ _ _ _ H)|done].
Qed.

Lemma steps_safe s s' : Inv p s -> rtc (step p) s s' -> Inv p s' /\ remembers s s'.
Proof.
  intros HI H. induction H as [s|s1 s2 s3 H12 _ IH]; [by split; [|intros key]|].
  destruct (step_safe s1 s2 HI H12) as [H2 R12]. destruct (IH H2) as [H3 R23]. split; [done|]. intros key Hk. by apply R23, R12.
Qed.

End safe.

(** *** The links under every writer *)

Ltac other_links :=
  first [ apply keeps_update; done | apply keeps_modify; done | apply keeps_gets, _ | apply keeps_ret, _
        | apply keeps_lift, _ | apply keeps_fail ].

Lemma expire_session_links identity now :
  tx_keeps same_links (expireMinimalApprovalsForSessionTx identity now)
  /\ tx_keeps same_links (expirePendingApprovalsForSessionTx identity now)
  /\ tx_keeps same_links (expireCallbackRoutesForSessionTx identity).
Proof.
  unfold expireMinimalApprovalsForSessionTx, expirePendingApprovalsForSessionTx, expireCallbackRoutesForSessionTx.
  cbv zeta. destruct (String.eqb _ ""); [split_and!; other_links|]. split_and!; [|other_links|other_links].
  unfold expire_group, kill_deliveries, sql_select. destruct (0 <? 0)%Z;
    repeat (apply keeps_bind; [apply _| |intros ?]); try other_links;
    (apply keeps_when; [apply _|]); repeat (apply keeps_bind; [apply _| |intros ?]); other_links.
Qed.

(** The release finishes as the automaton of the worker does, or changes nothing. *)
Lemma release_moves protector clock linkedID generation session turnID releasedAt ready s b s' :
  FinishMinimalLinkedReleaseWithReadyDelivery protector clock linkedID generation session turnID releasedAt ready s
    = Ok (b, s') -> Forall2 row_move (db_linked s) (db_linked s').
Proof.
  intros H. unfold FinishMinimalLinkedReleaseWithReadyDelivery in H. cbv zeta in H.
  destruct (_ || _); [apply tx_ret_ok in H as [_ ->]; by apply Forall2_row_move_same|]. tx_inv H.
  apply tx_lift_ok in Htx as [_ ->]. apply tx_lift_ok in Htx0 as [_ ->]. apply tx_gets_ok in Htx1 as [-> ->].
  destruct (expire_session_links (or_text (trim_space session) (minimalLinkedWorkerSessionIdentity generation)) (format_time clock)) as (K1 & K2 & K3).
  assert (same_links s s5) as HK by exact (eq_trans (K3 _ _ _ Htx4) (eq_trans (K2 _ _ _ Htx3) (K1 _ _ _ Htx2))).
  injection Htx5 as <- <-. destruct (negb _); [injection H as _ <-; by apply Forall2_row_move_same|]. tx_inv H. apply tx_ret_ok in H as [_ ->].
  match type of Htx with _ ?t = Ok (_, ?u) => assert (same_links t u) as Hl end.
  { destruct a0 as [[item text]|]; [|by apply tx_ret_ok in Htx as [_ ->]]. injection Htx as _ <-. unfold insert_ungrouped.
    by destruct (event_target_exists _ _ _). }
  unfold same_links in *. cbn [with_rows rows_of linked_table db_linked set_linked] in Hl. rewrite Hl, HK.
  clear. unfold update_where. induction (db_linked s) as [|r l IH]; cbn [map]; constructor; [|done].
  destruct (_ && _) eqn:E; [|apply row_move_refl]. apply andb_prop in E as [E _]. split; [done|].
  rewrite (linked_is_worker _ _ _ _ E). apply linked_is_worker in E. unfold worker_of in *. cbn.
  injection E as _ Hg. constructor. by right.
Qed.

Lemma insert_linked_added row : tx_keeps links_added (insert_linked row).
Proof.
  unfold insert_linked. apply keeps_bind; [apply _|apply keeps_gets, _|intros rows].
  destruct (existsb _ _); [apply keeps_ret, _|]. destruct (_ && _); [apply keeps_fail|].
  apply keeps_bind; [apply _| |intros; apply keeps_ret, _]. apply keeps_insert. intros s. by exists [row].
Qed.

Lemma other_added {A} (m : Tx Store A) : tx_keeps other_tables m -> tx_keeps links_added m.
Proof. intros H s a s' [_ E]%H. exists []. by rewrite app_nil_r. Qed.

Lemma adopt_added now : tx_keeps links_added (AdoptMinimalLinkedThreads now).
Proof.
  unfold AdoptMinimalLinkedThreads. apply keeps_bind; [apply _|apply keeps_gets, _|intros rows].
  generalize 0%Z. induction rows as [|r rows IH]; intros n; cbn [adopt_all]; [apply keeps_ret, _|].
  apply keeps_bind; [apply _|apply insert_linked_added|intros b; apply IH].
Qed.

Lemma upsert_active_added row fork now : tx_keeps links_added (upsert_active row fork now).
Proof.
  assert (forall s t, db_linked t = db_linked s -> links_added s t) as Hs by (intros s t E; exists []; by rewrite app_nil_r).
  unfold upsert_active. apply keeps_bind; [apply _|apply keeps_gets, _|intros rows].
  destruct (find_first _ rows).
  - apply keeps_bind; [apply _|apply keeps_update; intros; by apply Hs|intros n]. destruct (_ && _); [apply keeps_fail|apply keeps_ret, _].
  - destruct (fork_taken _ _ _); [apply keeps_fail|]. apply keeps_bind; [apply _|apply keeps_insert; intros; by apply Hs|intros; apply keeps_ret, _].
Qed.

Lemma activate_added protector now link provenance child :
  tx_keeps links_added (ActivateMinimalLinkedThread protector now link provenance child).
Proof.
  unfold ActivateMinimalLinkedThread. cbv zeta. destruct (String.eqb _ ""); [apply keeps_fail|].
  apply keeps_bind; [apply _|apply keeps_lift, _|intros n]. apply keeps_bind; [apply _|apply keeps_lift, _|intros seed].
  destruct (negb _); [apply keeps_fail|].
  do 3 (apply keeps_bind; [apply _|apply keeps_lift, _|intros ?]).
  apply keeps_bind; [apply _|apply other_added, upsert_other|intros _].
  apply keeps_bind; [apply _|apply upsert_active_added|intros changed]. destruct (negb _); [apply keeps_fail|].
  apply keeps_bind; [apply _|apply other_added, rehome_other|intros _].
  apply keeps_bind; [apply _|apply other_added, bind_other|intros _].
  apply keeps_bind; [apply _|apply insert_linked_added|intros [|]]; [apply keeps_ret, _|apply keeps_fail].
Qed.

(** A link that was there moves as the automaton does. *)
Lemma linked_step_row s s' k r : linked_step s s' -> db_linked s !! k = Some r ->
  exists r', db_linked s' !! k = Some r' /\ row_move r r'.
Proof.
  assert (Hadd : links_added s s' -> db_linked s !! k = Some r -> exists r', db_linked s' !! k = Some r' /\ row_move r r').
  { intros [new ->] Hr. exists r. split; [by apply lookup_app_l_Some|apply row_move_refl]. }
  intros H Hr. destruct H as [s s' H|? ? ? ? ? ? ? ? ? ? ? H|? ? ? ? H|? ? ? ? ? ? ? ? H].
  - exact (Forall2_lookup_move _ _ _ _ (link_worker_moves _ _ H) Hr).
  - exact (Forall2_lookup_move _ _ _ _ (release_moves _ _ _ _ _ _ _ _ _ _ _ H) Hr).
  - apply Hadd; [exact (adopt_added _ _ _ _ H)|done].
  - apply Hadd; [exact (activate_added _ _ _ _ _ _ _ _ H)|done].
Qed.

(** *** Reachable stores *)

Theorem reachable_Inv p `{!ProtectorLaws p} s : reachable p s -> Inv p s.
Proof. intros H. exact (proj1 (steps_safe p emptyStore s (Inv_empty p) H)). Qed.

(** The operations of the queue alone are steps. *)
Lemma queue_steps p s s' : rtc (queue_step p) s s' -> rtc (step p) s s'.
Proof. apply rtc_subrel. intros x y. apply st_queue. Qed.

Lemma ex_reachable : reachable plainProtector ex_store.
Proof. apply queue_steps, ex_steps. Qed.

Lemma ex_claimed_reachable : reachable plainProtector ex_claimed.
Proof. apply queue_steps, ex_claimed_queue_steps. Qed.

(** The message of an approval is queued. *)
Lemma ex_created_reachable : reachable plainProtector ex_created.
Proof. apply rtc_once, (st_create _ ex_json "T1" (ex_seed "turn" "event" ("yes", "no")) _ true). by vm_compute. Qed.

(** *** Claiming *)

Lemma eligible_claimable s now r : r ∈ db_queue s -> (eligible s now r <-> claimable (db_queue s) now r = true).
Proof.
  intros Hr. split.
  - intros [_ Hw Ha Hp]. unfold claimable. rewrite (proj2 (waiting_cases r) Hw), Ha. cbn [andb].
    unfold predecessors_delivered. destruct (q_GroupID r) as [g|] eqn:Hg; [|done]. apply forallb_forall.
    intros e He%list_elem_of_In. destruct (is_text (q_GroupID e) g) eqn:Et; [|done].
    destruct (Z.ltb_spec (q_SequenceNo e) (q_SequenceNo r)) as [Hlt|]; [|done]. cbn [andb].
    unfold is_text in Et. destruct (q_GroupID e) as [g'|] eqn:Hge; [|done]. apply String.eqb_eq in Et as ->.
    by rewrite (Hp e g He eq_refl Hge Hlt).
  - intros (Hw & Ha & Hp)%claimable_spec. split; [done|by apply waiting_cases|done|].
    intros e g He Hg Hge Hlt. apply String.eqb_eq. exact (predecessors_delivered_spec _ _ _ _ Hp Hg He Hge Hlt).
Qed.

Lemma scan_row_item p r item : scan_row (Some p) r = Ok item -> item_of p r item.
Proof.
  unfold scan_row. destruct (q_Payload r) as [envelope|] eqn:E; [|done]. unfold res_bind. cbn [unprotect_with].
  destruct (Unprotect p envelope) as [text|] eqn:U; [|done]. intros [= <-]. by exists envelope, text.
Qed.

Lemma has_id_elem ids r : has_id ids r = true <-> q_ID r ∈ ids.
Proof.
  unfold has_id. rewrite existsb_exists, list_elem_of_In. split.
  - intros (i & Hi & ->%Z.eqb_eq). done.
  - intros H. exists (q_ID r). by rewrite Z.eqb_refl.
Qed.

Lemma sorted_ids rows : StronglySorted (fun r r' => (q_ID r < q_ID r')%Z) rows -> StronglySorted Z.lt (map q_ID rows).
Proof.
  induction 1 as [|x l Hs IH Hx]; cbn [map]; constructor; [done|]. apply Forall_forall.
  intros i (r & -> & Hr)%list_elem_of_fmap. rewrite Forall_forall in Hx. by apply Hx.
Qed.

Lemma StronglySorted_split {A} (R : A -> A -> Prop) l k x y :
  StronglySorted R (l ++ k) -> x ∈ l -> y ∈ k -> R x y.
Proof.
  induction l as [|z l IH]; intros H Hx Hy; [by apply elem_of_nil in Hx|].
  apply StronglySorted_inv in H as [H Hz]. rewrite Forall_forall in Hz.
  apply elem_of_cons in Hx as [->|Hx]; [apply Hz, elem_of_app; by right|by apply IH].
Qed.

(** Of a sorted list, what a prefix leaves is greater than all of it. *)
Lemma take_rest {A} (R : A -> A -> Prop) n l x :
  StronglySorted R l -> x ∈ l -> x ∈ take n l \/ (length (take n l) = n /\ forall y, y ∈ take n l -> R y x).
Proof.
  intros Hs Hx. rewrite <- (take_drop n l) in Hx, Hs. apply elem_of_app in Hx as [Hx|Hx]; [by left|]. right. split.
  - rewrite length_take. assert (0 < length (drop n l)) as H.
    { destruct (drop n l); [by apply elem_of_nil in Hx|cbn; lia]. } rewrite length_drop in H. lia.
  - intros y Hy. by apply (StronglySorted_split R _ _ _ _ Hs).
Qed.

(** The rows a claim returns, in the order of their ids. *)
Lemma ids_sorted rows :
  StronglySorted Z.lt (map q_ID rows) -> StronglySorted (fun r r' => (q_ID r < q_ID r')%Z) rows.
Proof.
  induction rows as [|x l IH]; cbn [map]; intros H; constructor;
    apply StronglySorted_inv in H as [H Hx]; [by apply IH|]. apply Forall_forall. intros y Hy.
  rewrite Forall_forall in Hx. by apply Hx, list_elem_of_fmap_2.
Qed.

Lemma StronglySorted_filter {A} (R : A -> A -> Prop) (q : A -> bool) l :
  StronglySorted R l -> StronglySorted R (filter q l).
Proof.
  induction 1 as [|x l H IH Hx]; [constructor|]. rewrite filter_cons.
  destruct (decide _); [|done]. constructor; [done|]. rewrite Forall_forall in *. intros y Hy.
  apply list_elem_of_filter in Hy as [_ Hy]. by apply Hx.
Qed.

Lemma claim_rows_sorted p limit now s :
  Inv p s -> StronglySorted (fun r r' => (q_ID r < q_ID r')%Z) (claim_rows limit now s).
Proof.
  intros HI. unfold claim_rows. cbv zeta.
  pose proof (StronglySorted_filter _ (claimable (db_queue s) now) _ (ids_sorted _ (inv_ids _ _ HI))) as H.
  rewrite <- (take_drop (Z.to_nat (if (limit <=? 0)%Z then 10%Z else limit)) (filter _ _)) in H.
  by apply StronglySorted_app_1_l in H.
Qed.

(** ** Theorems *)

(** C3: A terminal event is recorded once: after it has been, and whatever was written
    since, by the queue, the approvals and the releases, recording it again answers false
    and changes nothing; and no event is ever queued twice for a chat. *)
Theorem terminal_event_once p `{!ProtectorLaws p} s s' now event items release b s'' :
  reachable p s -> is_Some (db_terminal s !! te_TerminalKey event) -> rtc (step p) s s' ->
  EnqueueTerminalEventWithLinkedRelease (Some p) now event items release s' = Ok (b, s'') ->
  b = false /\ s'' = s'
  /\ (forall r r', r ∈ db_queue s'' -> r' ∈ db_queue s'' ->
        q_EventID r = q_EventID r' -> q_ChatKey r = q_ChatKey r' -> r = r').
Proof.
  intros Hr Hk Hs H. pose proof (reachable_Inv p s Hr) as HI.
  destruct (steps_safe p s s' HI Hs) as [HI' Hmem]. destruct (Hmem _ Hk) as [e He].
  assert (b = false /\ s'' = s') as [-> ->].
  { unfold EnqueueTerminalEventWithLinkedRelease, res_bind in H. cbv zeta in H.
    assert (Hrun : forall target, match map_res (fun item => Protect p (qi_PayloadJSON item)) items with
              | Ok a => terminal_transaction now event (zip items a) target s' | Err e => Err e end = Ok (b, s'') ->
              b = false /\ s'' = s').
    { intros target. destruct (map_res _ _); [|done]. unfold terminal_transaction. rewrite He. by intros [= <- <-]. }
    destruct release as [rel|]; [|by eapply Hrun].
    destruct (release_target rel) as [[t|]|]; [by eapply Hrun|by injection H as <- <-|done]. }
  split_and!; [done|done|]. pose proof (inv_targets p s' HI') as Hnd.
  intros r r' Hr1 Hr2 E1 E2. apply list_elem_of_lookup_1 in Hr1 as [i Hi], Hr2 as [j Hj].
  assert (i = j) as ->; [|congruence].
  eapply (NoDup_lookup _ i j (q_EventID r, q_ChatKey r) Hnd); apply list_lookup_fmap_Some; eauto.
  exists r'. split; [|done]. by rewrite E1, E2.
Qed.

Theorem terminal_event_once_witness :
  EnqueueTerminalEvent (Some plainProtector) ex_now ex_event [ex_item 1] ex_store = Ok (false, ex_store).
Proof.
  destruct (EnqueueTerminalEvent (Some plainProtector) ex_now ex_event [ex_item 1] ex_store) as [[b s]|] eqn:E.
  - destruct (terminal_event_once plainProtector ex_store ex_store ex_now ex_event [ex_item 1] None b s
      ex_reachable) as (-> & -> & _); [vm_compute; by eexists|constructor|exact E|reflexivity].
  - vm_compute in E. discriminate.
Defined.

(** C27: Claiming never fails on a reachable store.  It takes rows in the order of their ids,
    at most as many as asked for (ten when the number is not positive), each waiting, due
    and with every earlier message of its group delivered; a row of that kind is left only
    when as many were taken, all with smaller ids.  Each is returned with its columns and
    its text in clear; the rows taken are then in processing and nothing else changes. *)
Theorem ClaimDeliveryBatch_spec p `{!ProtectorLaws p} now limit s :
  reachable p s ->
  let n := if (limit <=? 0)%Z then 10%Z else limit in
  exists out s', ClaimDeliveryBatch (Some p) now limit s = Ok (out, s')
    /\ StronglySorted Z.lt (map qi_ID out)
    /\ (Z.of_nat (length out) <= n)%Z
    /\ (forall item, item ∈ out -> exists r, eligible s now r /\ item_of p r item)
    /\ (forall r, eligible s now r -> q_ID r ∈ map qi_ID out
          \/ (Z.of_nat (length out) = n /\ forall i, i ∈ map qi_ID out -> (i < q_ID r)%Z))
    /\ db_queue s' = map (fun r => if bool_decide (q_ID r ∈ map qi_ID out)
                                   then upd_status DeliveryStatusProcessing now r else r) (db_queue s)
    /\ s' = set_queue (db_queue s') s.
Proof.
  intros Hr n. pose proof (reachable_Inv p s Hr) as HI.
  destruct (claim_scans p limit now s HI) as [out Hout]. pose proof (claimed_ids _ _ _ Hout) as Hids.
  assert (Hn : (0 < n)%Z) by (unfold n; destruct (Z.leb_spec limit 0); lia).
  assert (Hlen : length out = length (claim_rows limit now s)) by (by rewrite <- (length_map qi_ID), Hids, length_map).
  exists out. eexists. unfold ClaimDeliveryBatch. rewrite Hout. split; [reflexivity|]. split_and!.
  - rewrite Hids. apply sorted_ids. by eapply claim_rows_sorted.
  - rewrite Hlen. unfold claim_rows. fold n. rewrite length_take. lia.
  - intros item Hi. apply map_res_ok in Hout. apply list_elem_of_lookup in Hi as [i Hi].
    destruct (Forall2_lookup_r _ _ _ _ _ Hout Hi) as (r & Hri & Hscan). exists r.
    apply list_elem_of_lookup_2, elem_of_claim_rows in Hri as [Hin Hc]. split; [by apply eligible_claimable|by apply scan_row_item].
  - intros r He. pose proof (el_row _ _ _ He) as Hin. rewrite Hlen, Hids. unfold claim_rows. fold n.
    pose proof (StronglySorted_filter _ (claimable (db_queue s) now) _ (ids_sorted _ (inv_ids _ _ HI))) as Hs.
    destruct (take_rest _ (Z.to_nat n) _ r Hs) as [Ht|[Hl Hlt]].
    + apply elem_of_filter_bool. split; [done|by apply eligible_claimable].
    + left. by apply list_elem_of_fmap_2.
    + right. rewrite Hl. split; [lia|]. intros i (x & -> & Hx)%list_elem_of_fmap. by apply Hlt.
  - cbn [db_queue set_queue]. unfold update_where. apply map_ext. intros r.
    destruct (bool_decide_reflect (q_ID r ∈ map qi_ID out)) as [H|H]; [by rewrite (proj2 (has_id_elem _ _) H)|].
    destruct (has_id _ r) eqn:E; [by apply has_id_elem in E|done].
  - done.
Qed.

Theorem ClaimDeliveryBatch_spec_witness :
  exists out s', ClaimDeliveryBatch (Some plainProtector) ex_now 10 ex_store = Ok (out, s')
    /\ (Z.of_nat (length out) <= 10)%Z /\ 1%Z ∈ map qi_ID out /\ map q_Status (db_queue s') = ["processing"; "pending"].
Proof.
  destruct (ClaimDeliveryBatch_spec plainProtector ex_now 10 ex_store ex_reachable) as (out & s' & H & _ & Hl & _ & He & _).
  assert (map qi_ID out = [1%Z] /\ map q_Status (db_queue s') = ["processing"; "pending"]) as [Ho Hs].
  { clear -H. vm_compute in H. injection H as <- <-. by split. }
  exists out, s'. split; [exact H|]. split; [exact Hl|]. split; [|exact Hs].
  destruct (db_queue ex_store) as [|r l] eqn:E; [vm_compute in E; discriminate|].
  assert (q_ID r = 1%Z) as <- by (vm_compute in E; by injection E as <- _).
  destruct (He r) as [Hin|[Hn _]]; [|exact Hin|].
  - apply eligible_claimable; [rewrite E; left|]. vm_compute in E. by injection E as <- _.
  - exfalso. rewrite <- (length_map qi_ID), Ho in Hn. discriminate Hn.
Defined.

(** The messages of a terminal event start in their order, and an event counts as
    delivered only when all of them are delivered. *)
Theorem terminal_event_order p `{!ProtectorLaws p} s :
  reachable p s -> in_order (db_queue s) /\ settled (db_queue s) (db_terminal s).
Proof. intros H. split; apply (reachable_Inv p s H). Qed.

Theorem terminal_event_order_witness : in_order (db_queue ex_claimed).
Proof. exact (proj1 (terminal_event_order plainProtector ex_claimed ex_claimed_reachable)). Defined.

(** C38: A payload is kept only while the row may still be sent, and never in the clear:
    a delivered or dead row has none, and a live one has an envelope of the protector
    which it reads back, whoever wrote the queue, the rows in hand being retried while
    they are still claimed. *)
Theorem payloads_protected p `{!ProtectorLaws p} s r :
  reachable p s -> r ∈ db_queue s ->
  ((delivered r || dead r) = true -> q_Payload r = None)
  /\ (live r = true -> exists envelope, q_Payload r = Some envelope
        /\ has_prefix envelope protectedPayloadEnvelopePrefix = true
        /\ exists text, Unprotect p envelope = Ok text).
Proof.
  intros H Hr. destruct (inv_rows _ _ (reachable_Inv p s H) r Hr) as [_ Hp].
  split; [|by apply live_payload]. intros Hf. unfold payload_ok in Hp.
  destruct (live r) eqn:E; [|done]. destruct (live_not_final r E) as [E1 E2]. by rewrite E1, E2 in Hf.
Qed.

Theorem payloads_protected_witness :
  exists r, r ∈ db_queue ex_store /\ exists e, q_Payload r = Some e /\ has_prefix e "dpapi:v1:" = true.
Proof.
  destruct (db_queue ex_store) as [|r l] eqn:E; [vm_compute in E; discriminate|]. exists r.
  split; [left|]. destruct (proj2 (payloads_protected plainProtector ex_store r ex_reachable
    ltac:(rewrite E; left))) as (e & He & Hpre & _).
  - vm_compute in E. injection E as <- <-. reflexivity.
  - exists e. split; [exact He|exact Hpre].
Defined.

(** *** Crash recovery *)

(** A worker that was stopped in the middle of its work loses nothing: opening the
    store again always succeeds, keeps every row, leaves none in processing, and every
    row that was goes back to the queue, unless it was an approval, which dies. *)
Theorem reopen_recovers p `{!ProtectorLaws p} now s :
  reachable p s ->
  exists s', migrateProtectedDeliveryPayloads p now s = Ok s'
    /\ (forall r', r' ∈ db_queue s' -> processing r' = false)
    /\ (forall r, r ∈ db_queue s -> exists r', r' ∈ db_queue s' /\ identity r' = identity r
          /\ (processing r = true -> q_Status r' = DeliveryStatusRetry
                \/ (q_Kind r = "minimal_approval" /\ q_Status r' = DeliveryStatusDead))).
Proof.
  intros H%reachable_Inv; [|done]. destruct (reopen_spec p now s H) as (rows & E & H2).
  exists (set_queue rows s). split; [done|]. cbn [db_queue set_queue]. split.
  - intros r' Hr'. destruct (Forall2_fn _ _ _ H2 r' Hr') as (r & _ & Hx). apply Hx.
  - intros r [i Hi]%list_elem_of_lookup_1.
    destruct (Forall2_lookup_l _ _ _ _ _ H2 Hi) as (r' & Hi' & Hid & _ & _ & _ & _ & _ & Hback & _).
    exists r'. split_and!; [by eapply list_elem_of_lookup_2|done|done].
Qed.

Theorem reopen_recovers_witness :
  exists s', migrateProtectedDeliveryPayloads plainProtector ex_now ex_claimed = Ok s'
    /\ forall r', r' ∈ db_queue s' -> processing r' = false.
Proof.
  destruct (reopen_recovers plainProtector ex_now ex_claimed ex_claimed_reachable) as (s' & H & Hp & _).
  exists s'. split; [exact H|exact Hp].
Defined.

(** *** Linked threads *)

(** C33: Exclusion.  Whatever operation on the links runs, those of the workers, the
    release that queues the ready notice, the adoption and the activation, a linked thread
    held by a worker and still held after it belongs to the same generation and keeps the
    turn it works on; it becomes held only by a claim on a ready row with a greater
    generation; and it stops being held only by finishing its release or by failing. *)
Theorem linked_worker_exclusive s s' k r :
  linked_step s s' -> db_linked s !! k = Some r ->
  exists r', db_linked s' !! k = Some r' /\ link_identity r' = link_identity r
    /\ (held r = true -> held r' = true ->
          l_WorkerGeneration r' = l_WorkerGeneration r
          /\ forall t, t <> "" -> l_ActiveTurnID r = Some t -> l_ActiveTurnID r' = Some t)
    /\ (held r = false -> held r' = true ->
          l_State r = MinimalLinkedReady /\ l_State r' = MinimalLinkedTelegramRunning
          /\ (l_WorkerGeneration r < l_WorkerGeneration r')%Z /\ l_ActiveTurnID r' = None)
    /\ (held r = true -> held r' = false ->
          l_ActiveTurnID r' = None
          /\ ((l_State r = MinimalLinkedReleasePending /\ l_State r' = MinimalLinkedReady)
              \/ l_State r' = MinimalLinkedFailed)).
Proof.
  intros Hs Hr. destruct (linked_step_row _ _ _ _ Hs Hr) as (r' & Hr' & Hid & Hm).
  exists r'. split; [done|]. split; [done|]. unfold held.
  change (l_State r) with (worker_of r).1.1. change (l_State r') with (worker_of r').1.1.
  change (l_ActiveTurnID r) with (worker_of r).1.2. change (l_ActiveTurnID r') with (worker_of r').1.2.
  change (l_WorkerGeneration r) with (worker_of r).2. change (l_WorkerGeneration r') with (worker_of r').2.
  revert Hm. generalize (worker_of r) (worker_of r'). clear. intros w w' Hm.
  destruct Hm as [w|t g g' Hlt|t u g Hb Hu|t g|t g g' Hg|st t g Hst]; cbn [fst snd]; split_and!; try done; try congruence.
  - intros _ _. split; [done|]. intros t' Ht' ->. unfold is_blank in Hb. cbn in Hb. by apply String.eqb_eq in Hb.
  - intros _ _. split; [done|]. by left.
  - intros _ _. split; [done|]. by right.
Qed.

Theorem linked_worker_exclusive_witness :
  exists s' r', ClaimMinimalLinkedWorker "" "fork" 3 ex_linked = Ok (true, s')
    /\ db_linked s' !! 0%nat = Some r' /\ l_State r' = MinimalLinkedTelegramRunning
    /\ (0 < l_WorkerGeneration r')%Z.
Proof.
  destruct (ClaimMinimalLinkedWorker "" "fork" 3 ex_linked) as [[b s']|e] eqn:E; [|vm_compute in E; discriminate].
  destruct (db_linked ex_linked !! 0%nat) as [r|] eqn:R; [|discriminate R].
  destruct (linked_worker_exclusive ex_linked s' 0 r (ls_worker _ _ (linked_claim _ _ _ _ _ _ E)) R) as (r' & Hr' & _ & _ & Hc & _).
  assert (held r' = true) as Hh by (vm_compute in E; injection E as _ <-; injection Hr' as <-; reflexivity).
  assert (held r = false) as Hf by (injection R as <-; reflexivity).
  destruct (Hc Hf Hh) as (_ & H1 & H2 & _). exists s', r'.
  split; [vm_compute in E; injection E as <- <-; reflexivity|]. split; [exact Hr'|]. split; [exact H1|].
  assert (l_WorkerGeneration r = 0%Z) as <- by (injection R as <-; reflexivity). exact H2.
Defined.

(** *** A row that was ended while it was sent *)

(** The release of a linked thread and the end of a session run beside the worker.  When one
    of them ends the row the worker is sending, and the send then fails, the row waits
    again, but has no payload any more: from the time of its next attempt every claim that
    reaches it fails, and with it the whole batch, and opening the store again leaves it
    there. *)
Theorem ended_row_blocks :
  map (fun r => (q_Status r, q_Payload r)) (db_queue ex_retried_row) = [(DeliveryStatusRetry, None)]
  /\ (forall now limit, text_le (format_time 0%Z) now = true ->
        exists e, ClaimDeliveryBatch (Some plainProtector) now limit ex_retried_row = Err e)
  /\ migrateProtectedDeliveryPayloads plainProtector "T6" ex_retried_row = Ok ex_retried_row
  /\ ~ Inv plainProtector ex_retried_row.
Proof.
  assert (exists r, db_queue ex_retried_row = [r] /\ q_Status r = "retry" /\ q_GroupID r = None
    /\ q_AvailableAt r = format_time 0%Z /\ q_Payload r = None) as (r & E & Hs & Hg & Ha & Hp)
    by (eexists; split; [by vm_compute|]; by vm_compute).
  rewrite E. split_and!; [cbn [map]; by rewrite Hs, Hp| |by vm_compute|].
  - intros now limit Hn. unfold ClaimDeliveryBatch, claim_rows. rewrite E.
    assert (claimable [r] now r = true) as Hc.
    { unfold claimable, predecessors_delivered. rewrite Ha, Hn, Hg, (proj2 (waiting_cases r)) by (by right). done. }
    rewrite filter_cons_bool, Hc. destruct (Z.to_nat _) as [|n] eqn:En; [destruct (Z.leb_spec limit 0); lia|].
    cbn [take map_res]. unfold scan_row. rewrite Hp. by eexists.
  - intros HI. destruct (inv_rows _ _ HI r ltac:(rewrite E; left)) as [_ Hpay]. unfold payload_ok in Hpay.
    assert (live r = true) as Hl by (apply live_cases; auto). rewrite Hl in Hpay.
    destruct Hpay as (e & He & _). congruence.
Qed.
