(* ===== verification/DeliveryWorker.v ===== *)
(** * What the delivery worker guarantees

    One attempt on a claimed row makes only the steps of the queue of Queue.v and settles
    the row: it ends delivered, waiting for its next attempt, or dead, and the rows of
    other groups stay.  ApprovalDelivery.v has the rows of approvals and the batch. *)
From stdpp Require Import base list numbers strings gmap relations sorting.
From Stdlib Require Import Lia Ascii Sorting.Sorted.
From S2P Require Import Prelude GoStrings GoTime Sql Model Store StoreNotifier Delivery Queue QueueSafety Writers.

(** How the attempt on a row fails: [Some true] for a payload that does not decode,
    [Some false] when it may be tried again, [None] when the message is sent. *)
Definition delivery_failure (w : Worker) (item : DeliveryQueueItem) : option bool :=
  match w_Decode w (qi_PayloadJSON item) with
  | Err _ => Some true
  | Ok payload =>
      match sendPayload w item payload with
      | inr _ => Some false
      | inl _ => match w_CommitError w (qi_ID item) with Some _ => Some false | None => None end
      end
  end.

(** The row [r'] an attempt on [item] leaves where there was [r]. *)
Definition settles (now : instant) (w : Worker) (item : DeliveryQueueItem) (r r' : QueueRow) : Prop :=
  identity r' = identity r /\
  let attempt := (qi_RetryCount item + 1)%Z in
  match delivery_failure w item with
  | None => delivered r' = true /\ q_Payload r' = None
  | Some undecodable =>
      if undecodable || (w_MaxAttempts w <=? attempt)%Z
      then dead r' = true /\ q_Payload r' = None
      else q_Status r' = DeliveryStatusRetry /\ q_RetryCount r' = attempt
           /\ q_AvailableAt r' = format_time (now + retryBackoff (w_RetryBase w) attempt)%Z
           /\ q_Payload r' = q_Payload r
  end.

(** Two rows that are not of the same group. *)
Definition apart (r r' : QueueRow) : Prop :=
  q_ID r <> q_ID r' /\ forall g, q_GroupID r = Some g -> q_GroupID r' <> Some g.

(** The row that stands for a claimed item. *)
Definition stands_for (s : Store) (item : DeliveryQueueItem) (r : QueueRow) : Prop :=
  qi_ID item = q_ID r /\ find_row (q_ID r) (db_queue s) = Some r /\ processing r = true.

(** A worker that sends everything, and one whose sends all fail. *)
Definition ex_worker (send : Z * option string) : Worker :=
  mkWorker (Some plainProtector) (5 * second)%Z 3
    (fun _ => Ok (mkDeliveryPayload "hello" "" "t" "1" "" "" 0 "" "" "" 0 "" [] None))
    (fun _ _ _ _ => ([], None)) (fun _ _ _ _ => send) (fun _ => None) (fun m => m) (fun _ s => s).

Definition ex_instant : instant := (1767225600 * second)%Z.

(** The first message of the example store. *)
Definition ex_row : QueueRow :=
  mkQueueRow 1 "t:1:completed#1" "42:0" 42 0 "t" "notifier_terminal" DeliveryStatusPending 0 ex_now
    None (Some "dpapi:v1:{}") ex_now ex_now (Some "t:1:completed") 1 2.

(** ** Lemmas *)

Lemma find_row_other id id' f rows x :
  (forall r, q_ID (f r) = q_ID r) -> id' <> id -> find_row id' rows = Some x ->
  find_row id' (update_where (id_is id) f rows) = Some x.
Proof.
  intros Hf Hne Hx. rewrite find_row_update by done. rewrite Hx. cbn [fmap option_fmap option_map].
  destruct (find_row_some _ _ _ Hx) as [_ Hid]. unfold id_is. destruct (Z.eqb_spec (q_ID x) id); [congruence|done].
Qed.

Lemma find_row_hit id f rows x :
  (forall r, q_ID (f r) = q_ID r) -> find_row id rows = Some x ->
  find_row id (update_where (id_is id) f rows) = Some (f x).
Proof.
  intros Hf Hx. rewrite find_row_update by done. rewrite Hx. cbn [fmap option_fmap option_map].
  destruct (find_row_some _ _ _ Hx) as [_ Hid]. apply Z.eqb_eq in Hid. unfold id_is. by rewrite Hid.
Qed.

Lemma find_row_kill id g now rows x :
  find_row id rows = Some x -> q_GroupID x <> Some g -> find_row id (kill_group g now rows) = Some x.
Proof.
  intros Hx Hg. unfold kill_group. rewrite find_row_update by done. rewrite Hx.
  cbn [fmap option_fmap option_map]. assert (is_text (q_GroupID x) g = false) as ->; [|done].
  unfold is_text. destruct (q_GroupID x) as [h|]; [|done]. apply String.eqb_neq. congruence.
Qed.

Lemma find_row_killed id g now rows x :
  find_row id rows = Some x -> dead x = true -> q_Payload x = None ->
  exists r', find_row id (kill_group g now rows) = Some r' /\ dead r' = true /\ q_Payload r' = None
    /\ identity r' = identity x.
Proof.
  intros Hx Hd Hp. unfold kill_group. rewrite find_row_update by done. rewrite Hx.
  cbn [fmap option_fmap option_map]. destruct (_ && _); eexists; (split; [reflexivity|]); done.
Qed.

(** Completing and failing a row, seen from that row and from the rows apart from it. *)
Lemma complete_row p now id route s r :
  find_row id (db_queue s) = Some r ->
  let s' := completeDelivery (Some p) now id route s in
  (exists r', find_row id (db_queue s') = Some r' /\ identity r' = identity r
     /\ delivered r' = true /\ q_Payload r' = None)
  /\ forall id' x, id' <> id -> find_row id' (db_queue s) = Some x -> find_row id' (db_queue s') = Some x.
Proof.
  intros Hr. cbv zeta. unfold completeDelivery. cbv zeta. cbn [db_queue set_terminal set_queue].
  assert (db_queue (match route with Some r => route_upsert now r s | None => s end) = db_queue s) as ->
    by (by destruct route).
  split.
  - eexists. split; [apply find_row_hit; [done|exact Hr]|]. done.
  - intros id' x Hne Hx. by apply find_row_other.
Qed.

Lemma fail_row p now id n at_ err is_dead s r :
  find_row id (db_queue s) = Some r ->
  exists s', FailDelivery (Some p) now id n at_ err is_dead s = Ok s'
    /\ (exists r', find_row id (db_queue s') = Some r' /\ identity r' = identity r
          /\ if is_dead then dead r' = true /\ q_Payload r' = None
             else q_Status r' = DeliveryStatusRetry /\ q_RetryCount r' = n
                  /\ q_AvailableAt r' = format_time at_ /\ q_Payload r' = q_Payload r)
    /\ forall x, find_row (q_ID x) (db_queue s) = Some x -> apart r x ->
         find_row (q_ID x) (db_queue s') = Some x.
Proof.
  intros Hr. destruct (find_row_some _ _ _ Hr) as [_ Hid]. unfold FailDelivery. cbv zeta.
  destruct is_dead.
  2:{ eexists. split; [reflexivity|]. cbn [db_queue set_queue]. split.
      - eexists. split; [apply find_row_hit; [done|exact Hr]|]. done.
      - intros x Hx [Hne _]. apply find_row_other; [done|congruence|done]. }
  set (f := fun r => upd_payload None _).
  rewrite (find_row_hit id f _ r) by done.
  assert (forall x, find_row (q_ID x) (db_queue s) = Some x -> apart r x ->
            find_row (q_ID x) (update_where (id_is id) f (db_queue s)) = Some x) as Hoth.
  { intros x Hx [Hne _]. apply find_row_other; [done|congruence|done]. }
  assert (find_row id (update_where (id_is id) f (db_queue s)) = Some (f r)) as Hf by (by apply find_row_hit).
  change (q_GroupID (f r)) with (q_GroupID r).
  destruct (q_GroupID r) as [g|] eqn:Hg; [destruct (String.eqb (trim_space g) "")|];
    eexists; (split; [reflexivity|]); cbn [db_queue set_queue set_terminal]; split; try done;
    try (by eexists).
  - destruct (find_row_killed id g now _ _ Hf) as (r' & H1 & H2 & H3 & H4); [done|done|].
    exists r'. by split_and!.
  - intros x Hx Ha. apply find_row_kill; [by apply Hoth|]. apply Ha, Hg.
Qed.

(** An attempt that ends in FailDelivery: the attempt is recorded, the row fails, the
    summary is kept as the last error. *)
Lemma failed_attempt p at_ id n m status err is_dead summary w s r :
  find_row id (db_queue s) = Some r -> processing r = true ->
  let s' := setError at_ w summary
              (ignore_error (FailDelivery (Some p) at_ id n m err is_dead)
                 (RecordDeliveryAttempt at_ id n status summary s)) in
  rtc (queue_step p) s s'
  /\ (exists r', find_row id (db_queue s') = Some r' /\ identity r' = identity r
        /\ if is_dead then dead r' = true /\ q_Payload r' = None
           else q_Status r' = DeliveryStatusRetry /\ q_RetryCount r' = n
                /\ q_AvailableAt r' = format_time m /\ q_Payload r' = q_Payload r)
  /\ forall x, find_row (q_ID x) (db_queue s) = Some x -> apart r x ->
       find_row (q_ID x) (db_queue s') = Some x.
Proof.
  intros Hr Hp. cbv zeta. set (s1 := RecordDeliveryAttempt _ _ _ _ _ s).
  assert (Hr1 : find_row id (db_queue s1) = Some r) by exact Hr.
  destruct (fail_row p at_ id n m err is_dead s1 r Hr1) as (s2 & E & H1 & H2).
  unfold ignore_error. rewrite E. split_and!; [|exact H1|exact H2].
  eapply rtc_l; [by apply (step_other p s s1)|]. eapply rtc_l.
  { eapply step_fail; [|exact E]. by exists r. }
  by apply rtc_once, step_other.
Qed.

Lemma processDelivery_row now w p item s r :
  w_Protector w = Some p -> isApprovalKind (qi_Kind item) = false -> stands_for s item r ->
  let s' := processDelivery now w item s in
  rtc (queue_step p) s s'
  /\ (exists r', find_row (q_ID r) (db_queue s') = Some r' /\ settles now w item r r')
  /\ forall x, find_row (q_ID x) (db_queue s) = Some x -> apart r x ->
       find_row (q_ID x) (db_queue s') = Some x.
Proof.
  intros Hw Ha (Hid & Hr & Hp). cbv zeta. unfold processDelivery, settles, delivery_failure. cbv zeta.
  rewrite Ha, Hw, <- Hid. rewrite <- Hid in Hr.
  destruct (w_Decode w (qi_PayloadJSON item)) as [payload|message].
  2:{ destruct (failed_attempt p (format_time now) (qi_ID item) (qi_RetryCount item + 1)
        (now + w_RetryBase w)%Z "decode_error" (deliveryErrorSummary "decode_error" message) true
        (deliveryErrorSummary "decode_error" message) w s r Hr Hp) as (H1 & (r' & H2 & H3 & H4) & H5).
      split_and!; [exact H1|by exists r'|exact H5]. }
  assert (forall status message,
    let s' := failAttempt now w item status message s in
    let n := (qi_RetryCount item + 1)%Z in
    rtc (queue_step p) s s'
    /\ (exists r', find_row (qi_ID item) (db_queue s') = Some r' /\ identity r' = identity r
       /\ if (w_MaxAttempts w <=? n)%Z then dead r' = true /\ q_Payload r' = None
          else q_Status r' = DeliveryStatusRetry /\ q_RetryCount r' = n
           /\ q_AvailableAt r' = format_time (now + retryBackoff (w_RetryBase w) n)%Z
           /\ q_Payload r' = q_Payload r)
    /\ forall x, find_row (q_ID x) (db_queue s) = Some x -> apart r x ->
       find_row (q_ID x) (db_queue s') = Some x) as Hfail.
  { intros status message. cbv zeta. unfold failAttempt, failSummary. cbv zeta. rewrite Hw. by apply failed_attempt. }
  destruct (sendPayload w item payload) as [messageID|message]; [|apply Hfail].
  destruct (w_CommitError w (qi_ID item)) as [message|]; [apply Hfail|].
  match goal with |- context [completeDelivery _ _ _ ?rt _] => set (route := rt) end.
  destruct (complete_row p (format_time now) (qi_ID item) route s r Hr) as [(r' & H1 & H2 & H3 & H4) H5].
  split_and!.
  - eapply rtc_l; [apply step_complete; by exists r|]. by apply rtc_once, step_other.
  - by exists r'.
  - intros x Hx [Hne _]. apply H5; [congruence|done].
Qed.

(** A row is found by its id. *)
Lemma found_row p s r : Inv p s -> r ∈ db_queue s -> find_row (q_ID r) (db_queue s) = Some r.
Proof.
  intros HI Hr. destruct (find_row (q_ID r) (db_queue s)) as [x|] eqn:F.
  - apply find_row_some in F as [Hx Hid]. f_equal. eapply ids_inj; [apply HI|done..].
  - unfold find_row in F. apply first_some_none in F. rewrite Forall_forall in F.
    specialize (F r Hr). unfold id_is in F. by rewrite Z.eqb_refl in F.
Qed.

(** The rows a claim returns are of different groups. *)
Lemma claim_rows_apart p limit now s :
  Inv p s -> ForallOrdPairs apart (claim_rows limit now s).
Proof.
  intros HI.
  assert (forall r r', r ∈ claim_rows limit now s -> r' ∈ claim_rows limit now s -> (q_ID r < q_ID r')%Z -> apart r r') as Hpair.
  { intros r r' [Hr Hc]%elem_of_claim_rows [Hr' Hc']%elem_of_claim_rows Hlt. split; [lia|].
    intros g Hg Hg'. destruct (inv_numbered _ _ HI r r' g Hr Hr' Hg Hg') as (_ & _ & Hu).
    apply claimable_spec in Hc as (Hw & _ & Hp), Hc' as (Hw' & _ & Hp').
    destruct (Z.lt_trichotomy (q_SequenceNo r) (q_SequenceNo r')) as [H|[H|H]].
    - pose proof (predecessors_delivered_spec _ _ _ _ Hp' Hg' Hr Hg H).
      destruct (waiting_not_started r Hw). congruence.
    - assert (r' = r) by (by apply Hu). subst. lia.
    - pose proof (predecessors_delivered_spec _ _ _ _ Hp Hg Hr' Hg' H).
      destruct (waiting_not_started r' Hw'). congruence. }
  pose proof (claim_rows_sorted p limit now s HI) as Hs.
  revert Hpair Hs. generalize (claim_rows limit now s). intros l Hpair Hs.
  induction Hs as [|x l Hs IH Hx]; constructor.
  - apply List.Forall_forall. intros y Hy%list_elem_of_In. rewrite Forall_forall in Hx.
    apply Hpair; [left|by right|by apply Hx].
  - apply IH. intros r r' Hr Hr'. apply Hpair; by right.
Qed.

(** A claim, and what then stands for each item. *)
Lemma claim_stands p now limit s out s' :
  Inv p s -> ClaimDeliveryBatch (Some p) now limit s = Ok (out, s') ->
  let rows := map (upd_status DeliveryStatusProcessing now) (claim_rows limit now s) in
  Forall2 (stands_for s') out rows /\ ForallOrdPairs apart rows
  /\ Forall2 (fun item r => find_row (qi_ID item) (db_queue s) = Some r /\ item_of p r item) out (claim_rows limit now s).
Proof.
  intros HI. unfold ClaimDeliveryBatch. destruct (map_res _ _) as [items|] eqn:E; [|done].
  intros H. injection H as <- <-. cbv zeta. pose proof (claimed_ids _ _ _ E) as Hids.
  pose proof (claim_rows_apart p limit now s HI) as Hap.
  assert (forall r, r ∈ claim_rows limit now s -> r ∈ db_queue s) as Hin by (intros r Hr; by apply elem_of_claim_rows in Hr as [? _]).
  assert (forall r, r ∈ claim_rows limit now s -> find_row (q_ID r) (db_queue s) = Some r) as Hfind.
  { intros r Hr%Hin. apply (found_row p); [done..]. }
  apply map_res_ok in E. split_and!.
  - assert (forall r, r ∈ claim_rows limit now s ->
      find_row (q_ID r) (update_where (has_id (map qi_ID items)) (upd_status DeliveryStatusProcessing now) (db_queue s))
      = Some (upd_status DeliveryStatusProcessing now r)) as Hf.
    { intros r Hr. rewrite find_row_update, Hfind by done.
      cbn [fmap option_fmap option_map]. rewrite (proj2 (has_id_elem _ _)); [done|]. rewrite Hids. by apply list_elem_of_fmap_2. }
    change (update_where (has_id (map qi_ID items)) _ (db_queue s)) with
      (db_queue (set_queue (update_where (has_id (map qi_ID items))
         (upd_status DeliveryStatusProcessing now) (db_queue s)) s)) in Hf.
    revert Hf. clear Hids Hap Hin Hfind. generalize (set_queue (update_where (has_id (map qi_ID items))
         (upd_status DeliveryStatusProcessing now) (db_queue s)) s). intros s1.
    induction E as [|r item rows items0 Hr E IH]; intros Hf; cbn [map]; constructor.
    + split_and!; [exact (scan_row_id _ _ _ Hr)|apply (Hf r); left|done].
    + apply IH; intros x Hx; apply Hf; by right.
  - clear - Hap. induction Hap as [|x l Hx Hap IH]; cbn [map]; constructor; [|done].
    rewrite List.Forall_forall in *. intros y (z & <- & Hz)%in_map_iff. exact (Hx z Hz).
  - clear - E Hfind. induction E as [|r item rows items Hr E IH]; constructor.
    + rewrite (scan_row_id _ _ _ Hr). split; [apply Hfind; left|by apply scan_row_item].
    + apply IH. intros x Hx. apply Hfind. by right.
Qed.

Lemma ex_claim : claim_rows 10 (format_time ex_instant) ex_store = [ex_row].
Proof. vm_compute. reflexivity. Qed.

(** ** Theorems *)

(** The backoff of a retry doubles from the base up to sixteen times it, without
    overflow for any base below 2^59 ns (eighteen years). *)
Theorem retryBackoff_bounds base attempt :
  (0 < base < 2 ^ 59)%Z -> (1 <= attempt)%Z ->
  (base <= retryBackoff base attempt <= 16 * base)%Z
  /\ (retryBackoff base attempt <= retryBackoff base (attempt + 1))%Z
  /\ ((attempt <= 4)%Z -> retryBackoff base (attempt + 1) = (2 * retryBackoff base attempt)%Z)
  /\ ((5 <= attempt)%Z -> retryBackoff base attempt = (16 * base)%Z).
Proof.
  intros Hb Ha.
  assert (forall k, (0 <= k <= 4)%Z -> (1 <= 2 ^ k <= 16)%Z) as Hpow.
  { intros k Hk. change 1%Z with (2 ^ 0)%Z. change 16%Z with (2 ^ 4)%Z.
    split; apply Z.pow_le_mono_r; lia. }
  assert (forall n, (1 <= n)%Z -> retryBackoff base n = (base * 2 ^ Z.min (n - 1) 4)%Z) as Hv.
  { intros n Hn. unfold retryBackoff. apply wrap64_id, in_int64_spec.
    specialize (Hpow (Z.min (n - 1) 4) ltac:(lia)). unfold int64_min, int64_max. split; nia. }
  rewrite !Hv by lia. specialize (Hpow (Z.min (attempt - 1) 4) ltac:(lia)) as Hp. split_and!.
  - nia.
  - nia.
  - apply Z.mul_le_mono_nonneg_l; [lia|]. apply Z.pow_le_mono_r; lia.
  - intros H4. rewrite !Z.min_l by lia. replace (attempt + 1 - 1)%Z with (Z.succ (attempt - 1)) by lia.
    rewrite Z.pow_succ_r by lia. lia.
  - intros H5. rewrite Z.min_r by lia. lia.
Qed.

Theorem retryBackoff_bounds_witness :
  (5 * second <= retryBackoff (5 * second) 7 <= 80 * second)%Z.
Proof. destruct (retryBackoff_bounds (5 * second)%Z 7) as [H _]; [unfold second; lia|lia|exact H]. Defined.
