(* ===== verification/Panels.v ===== *)
(** * internal/storage/store_panels.go: panels and steering

    A panel is the group of Telegram messages that shows one run of a thread in a chat.
    At most one panel of a thread in a chat is current.  The steering state of a chat says
    where its next message goes.  The observer target of the same file is in Store. *)
From stdpp Require Import base list numbers strings gmap.
From Stdlib Require Import Lia Ascii Sorting.Sorted.
From S2P Require Import Prelude GoStrings GoTime Sql Json Model CoreTables Store Continuations Threads Approvals.

Definition PanelSourceExplicit : string := "explicit".

Record ThreadPanel : Type := mkThreadPanel {
  tp_ID : Z;
  tp_ChatID : Z;
  tp_TopicID : Z;
  tp_ProjectName : string;
  tp_ThreadID : string;
  tp_SourceMode : string;
  tp_SummaryMessageID : Z;
  tp_ToolMessageID : Z;
  tp_OutputMessageID : Z;
  tp_CurrentTurnID : string;
  tp_Status : string;
  tp_ArchiveEnabled : bool;
  tp_LastSummaryHash : string;
  tp_LastToolHash : string;
  tp_LastOutputHash : string;
  tp_LastFinalNoticeFP : string;
  tp_RunNoticeMessageID : Z;
  tp_LastRunNoticeFP : string;
  tp_UserMessageID : Z;
  tp_LastUserNoticeFP : string;
  tp_PlanPromptMessageID : Z;
  tp_LastPlanPromptFP : string;
  tp_DetailsViewJSON : string;
  tp_LastFinalCardHash : string;
  tp_IsCurrent : bool;
  tp_CreatedAt : TimeString;
  tp_UpdatedAt : TimeString }.

Definition panel_table : Table Store PanelRow :=
  mkTable (fun s => cr_panels (db_core s)) (fun l s => set_core (set_cr_panels l (db_core s)) s).

Definition GetGlobalObserverSinceUnix (s : Store) : Z * bool :=
  let raw := trim_space (GetState "observer.global_since_unix" s) in
  if String.eqb raw "" then (0%Z, false)
  else match parse_int64 raw with Ok value => (value, true) | Err _ => (0%Z, false) end.

(** A blank source mode counts as explicit. *)
Definition source_or (sourceMode : string) : string :=
  if String.eqb (trim_space sourceMode) "" then PanelSourceExplicit else sourceMode.

Definition scanThreadPanel (r : PanelRow) : ThreadPanel :=
  mkThreadPanel (pn_ID r) (pn_ChatID r) (pn_TopicID r) (pn_ProjectName r) (pn_ThreadID r) (source_or
    (pn_SourceMode r)) (pn_SummaryMessageID r) (pn_ToolMessageID r) (pn_OutputMessageID r) (default ""
    (pn_CurrentTurnID r)) (default "" (pn_Status r)) (pn_ArchiveEnabled r) (default "" (pn_LastSummaryHash
    r)) (default "" (pn_LastToolHash r)) (default "" (pn_LastOutputHash r)) (default ""
    (pn_LastFinalNoticeFP r)) (pn_RunNoticeMessageID r) (default "" (pn_LastRunNoticeFP r))
    (pn_UserMessageID r) (default "" (pn_LastUserNoticeFP r)) (pn_PlanPromptMessageID r) (default ""
    (pn_LastPlanPromptFP r)) (default "" (pn_DetailsViewJSON r)) (default "" (pn_LastFinalCardHash r))
    (pn_IsCurrent r) (pn_CreatedAt r) (pn_UpdatedAt r).

(** *** Creating *)
Definition upd_panel_retired (now : TimeString) (r : PanelRow) : PanelRow :=
  mkPanelRow (pn_ID r) (pn_ChatID r) (pn_TopicID r) (pn_ProjectName r) (pn_ThreadID r) (pn_SourceMode r)
    (pn_SummaryMessageID r) (pn_ToolMessageID r) (pn_OutputMessageID r) (pn_CurrentTurnID r) (pn_Status r)
    (pn_ArchiveEnabled r) (pn_LastSummaryHash r) (pn_LastToolHash r) (pn_LastOutputHash r)
    (pn_LastFinalNoticeFP r) (pn_RunNoticeMessageID r) (pn_LastRunNoticeFP r) (pn_UserMessageID r)
    (pn_LastUserNoticeFP r) (pn_PlanPromptMessageID r) (pn_LastPlanPromptFP r) (pn_DetailsViewJSON r)
    (pn_LastFinalCardHash r) false (pn_CreatedAt r) now.

Definition panel_for (chatID topicID : Z) (threadID : string) (r : PanelRow) : bool :=
  (pn_ChatID r =? chatID)%Z && (pn_TopicID r =? topicID)%Z && String.eqb (pn_ThreadID r) threadID
  && pn_IsCurrent r.

Definition panel_row (id : Z) (now : TimeString) (p : ThreadPanel) : PanelRow :=
  mkPanelRow id (tp_ChatID p) (tp_TopicID p) (tp_ProjectName p) (tp_ThreadID p) (source_or (tp_SourceMode p))
    (tp_SummaryMessageID p) (tp_ToolMessageID p) (tp_OutputMessageID p) (nullable (tp_CurrentTurnID p))
    (nullable (tp_Status p)) (tp_ArchiveEnabled p) (nullable (tp_LastSummaryHash p)) (nullable
    (tp_LastToolHash p)) (nullable (tp_LastOutputHash p)) (nullable (tp_LastFinalNoticeFP p))
    (tp_RunNoticeMessageID p) (nullable (tp_LastRunNoticeFP p)) (tp_UserMessageID p) (nullable
    (tp_LastUserNoticeFP p)) (tp_PlanPromptMessageID p) (nullable (tp_LastPlanPromptFP p)) (nullable
    (tp_DetailsViewJSON p)) (nullable (tp_LastFinalCardHash p)) true now now.

Definition created_panel (id : Z) (now : TimeString) (p : ThreadPanel) : ThreadPanel :=
  mkThreadPanel id (tp_ChatID p) (tp_TopicID p) (tp_ProjectName p) (tp_ThreadID p) (source_or (tp_SourceMode
    p)) (tp_SummaryMessageID p) (tp_ToolMessageID p) (tp_OutputMessageID p) (tp_CurrentTurnID p) (tp_Status
    p) (tp_ArchiveEnabled p) (tp_LastSummaryHash p) (tp_LastToolHash p) (tp_LastOutputHash p)
    (tp_LastFinalNoticeFP p) (tp_RunNoticeMessageID p) (tp_LastRunNoticeFP p) (tp_UserMessageID p)
    (tp_LastUserNoticeFP p) (tp_PlanPromptMessageID p) (tp_LastPlanPromptFP p) (tp_DetailsViewJSON p)
    (tp_LastFinalCardHash p) true now now.

Definition CreateThreadPanel (now : TimeString) (panel : ThreadPanel) : Tx Store ThreadPanel :=
  tx! _ := sql_update panel_table (panel_for (tp_ChatID panel) (tp_TopicID panel) (tp_ThreadID panel))
             (upd_panel_retired now) in
  tx! id := tx_gets (fun s => cr_panelSeq (db_core s) + 1)%Z in
  tx! _ := tx_modify (fun s => set_core (set_cr_panelSeq id (db_core s)) s) in
  tx! _ := sql_insert panel_table (panel_row id now panel) in
  tx_ret (created_panel id now panel).

(** *** Reading *)

(** ORDER BY id DESC LIMIT 1 *)
Definition GetCurrentThreadPanel (chatID topicID : Z) (threadID : string) (s : Store) : option ThreadPanel :=
  scanThreadPanel <$> head (sort_by (fun a b => (pn_ID b <=? pn_ID a)%Z)
                              (filter (panel_for chatID topicID threadID) (rows_of panel_table s))).

(** ORDER BY id ASC *)
Definition ListCurrentPanelsForThread (threadID : string) (s : Store) : list ThreadPanel :=
  map scanThreadPanel (sort_by (fun a b => (pn_ID a <=? pn_ID b)%Z)
    (filter (fun r => String.eqb (pn_ThreadID r) threadID && pn_IsCurrent r) (rows_of panel_table s))).

Definition pn_id_is (id : Z) (r : PanelRow) : bool := (pn_ID r =? id)%Z.

Definition GetThreadPanelByID (panelID : Z) (s : Store) : option ThreadPanel :=
  scanThreadPanel <$> find_first (pn_id_is panelID) (rows_of panel_table s).

(** *** Updating *)
Definition update_panel (panelID : Z) (f : PanelRow -> PanelRow) : Tx Store unit :=
  tx! _ := sql_update panel_table (pn_id_is panelID) f in tx_ret tt.

Definition upd_panel_source (sourceMode : string) (now : TimeString) (r : PanelRow) : PanelRow :=
  mkPanelRow (pn_ID r) (pn_ChatID r) (pn_TopicID r) (pn_ProjectName r) (pn_ThreadID r) sourceMode
    (pn_SummaryMessageID r) (pn_ToolMessageID r) (pn_OutputMessageID r) (pn_CurrentTurnID r) (pn_Status r)
    (pn_ArchiveEnabled r) (pn_LastSummaryHash r) (pn_LastToolHash r) (pn_LastOutputHash r)
    (pn_LastFinalNoticeFP r) (pn_RunNoticeMessageID r) (pn_LastRunNoticeFP r) (pn_UserMessageID r)
    (pn_LastUserNoticeFP r) (pn_PlanPromptMessageID r) (pn_LastPlanPromptFP r) (pn_DetailsViewJSON r)
    (pn_LastFinalCardHash r) (pn_IsCurrent r) (pn_CreatedAt r) now.

(** source_mode is NOT NULL: a blank mode is an error when the panel exists. *)
Definition UpdateThreadPanelSourceMode (now : TimeString) (panelID : Z) (sourceMode : string) : Tx Store unit :=
  match nullable sourceMode with
  | Some mode => update_panel panelID (upd_panel_source mode now)
  | None =>
      tx! rows := sql_select panel_table (pn_id_is panelID) in
      match rows with
      | [] => tx_ret tt
      | _ => tx_fail "NOT NULL constraint failed: thread_panels.source_mode"
      end
  end.

Definition UpdateThreadPanelMessages (now : TimeString) (panelID : Z) (summaryMessageID : Z) (toolMessageID
  : Z) (outputMessageID : Z) : Tx Store unit :=
  update_panel panelID (fun r =>
    mkPanelRow (pn_ID r) (pn_ChatID r) (pn_TopicID r) (pn_ProjectName r) (pn_ThreadID r) (pn_SourceMode r)
      summaryMessageID toolMessageID outputMessageID (pn_CurrentTurnID r) (pn_Status r) (pn_ArchiveEnabled
      r) (pn_LastSummaryHash r) (pn_LastToolHash r) (pn_LastOutputHash r) (pn_LastFinalNoticeFP r)
      (pn_RunNoticeMessageID r) (pn_LastRunNoticeFP r) (pn_UserMessageID r) (pn_LastUserNoticeFP r)
      (pn_PlanPromptMessageID r) (pn_LastPlanPromptFP r) (pn_DetailsViewJSON r) (pn_LastFinalCardHash r)
      (pn_IsCurrent r) (pn_CreatedAt r) now).

Definition UpdateThreadPanelState (now : TimeString) (panelID : Z) (currentTurnID : string) (status :
  string) (lastSummaryHash : string) (lastToolHash : string) (lastOutputHash : string) (lastFinalNoticeFP :
  string) : Tx Store unit :=
  update_panel panelID (fun r =>
    mkPanelRow (pn_ID r) (pn_ChatID r) (pn_TopicID r) (pn_ProjectName r) (pn_ThreadID r) (pn_SourceMode r)
      (pn_SummaryMessageID r) (pn_ToolMessageID r) (pn_OutputMessageID r) (nullable currentTurnID) (nullable
      status) (pn_ArchiveEnabled r) (nullable lastSummaryHash) (nullable lastToolHash) (nullable
      lastOutputHash) (nullable lastFinalNoticeFP) (pn_RunNoticeMessageID r) (pn_LastRunNoticeFP r)
      (pn_UserMessageID r) (pn_LastUserNoticeFP r) (pn_PlanPromptMessageID r) (pn_LastPlanPromptFP r)
      (pn_DetailsViewJSON r) (pn_LastFinalCardHash r) (pn_IsCurrent r) (pn_CreatedAt r) now).

Definition UpdateThreadPanelFinalCard (now : TimeString) (panelID : Z) (summaryMessageID : Z) (currentTurnID
  : string) (status : string) (lastSummaryHash : string) (lastToolHash : string) (lastOutputHash : string)
  (lastFinalNoticeFP : string) (detailsViewJSON : string) (lastFinalCardHash : string) : Tx Store unit :=
  update_panel panelID (fun r =>
    mkPanelRow (pn_ID r) (pn_ChatID r) (pn_TopicID r) (pn_ProjectName r) (pn_ThreadID r) (pn_SourceMode r)
      summaryMessageID (pn_ToolMessageID r) (pn_OutputMessageID r) (nullable currentTurnID) (nullable
      status) (pn_ArchiveEnabled r) (nullable lastSummaryHash) (nullable lastToolHash) (nullable
      lastOutputHash) (nullable lastFinalNoticeFP) (pn_RunNoticeMessageID r) (pn_LastRunNoticeFP r)
      (pn_UserMessageID r) (pn_LastUserNoticeFP r) (pn_PlanPromptMessageID r) (pn_LastPlanPromptFP r)
      (nullable detailsViewJSON) (nullable lastFinalCardHash) (pn_IsCurrent r) (pn_CreatedAt r) now).

Definition UpdateThreadPanelUserNotice (now : TimeString) (panelID : Z) (userMessageID : Z)
  (lastUserNoticeFP : string) : Tx Store unit :=
  update_panel panelID (fun r =>
    mkPanelRow (pn_ID r) (pn_ChatID r) (pn_TopicID r) (pn_ProjectName r) (pn_ThreadID r) (pn_SourceMode r)
      (pn_SummaryMessageID r) (pn_ToolMessageID r) (pn_OutputMessageID r) (pn_CurrentTurnID r) (pn_Status r)
      (pn_ArchiveEnabled r) (pn_LastSummaryHash r) (pn_LastToolHash r) (pn_LastOutputHash r)
      (pn_LastFinalNoticeFP r) (pn_RunNoticeMessageID r) (pn_LastRunNoticeFP r) userMessageID (nullable
      lastUserNoticeFP) (pn_PlanPromptMessageID r) (pn_LastPlanPromptFP r) (pn_DetailsViewJSON r)
      (pn_LastFinalCardHash r) (pn_IsCurrent r) (pn_CreatedAt r) now).

Definition UpdateThreadPanelRunNotice (now : TimeString) (panelID : Z) (runNoticeMessageID : Z)
  (lastRunNoticeFP : string) : Tx Store unit :=
  update_panel panelID (fun r =>
    mkPanelRow (pn_ID r) (pn_ChatID r) (pn_TopicID r) (pn_ProjectName r) (pn_ThreadID r) (pn_SourceMode r)
      (pn_SummaryMessageID r) (pn_ToolMessageID r) (pn_OutputMessageID r) (pn_CurrentTurnID r) (pn_Status r)
      (pn_ArchiveEnabled r) (pn_LastSummaryHash r) (pn_LastToolHash r) (pn_LastOutputHash r)
      (pn_LastFinalNoticeFP r) runNoticeMessageID (nullable lastRunNoticeFP) (pn_UserMessageID r)
      (pn_LastUserNoticeFP r) (pn_PlanPromptMessageID r) (pn_LastPlanPromptFP r) (pn_DetailsViewJSON r)
      (pn_LastFinalCardHash r) (pn_IsCurrent r) (pn_CreatedAt r) now).

Definition UpdateThreadPanelPlanPrompt (now : TimeString) (panelID : Z) (planPromptMessageID : Z)
  (lastPlanPromptFP : string) : Tx Store unit :=
  update_panel panelID (fun r =>
    mkPanelRow (pn_ID r) (pn_ChatID r) (pn_TopicID r) (pn_ProjectName r) (pn_ThreadID r) (pn_SourceMode r)
      (pn_SummaryMessageID r) (pn_ToolMessageID r) (pn_OutputMessageID r) (pn_CurrentTurnID r) (pn_Status r)
      (pn_ArchiveEnabled r) (pn_LastSummaryHash r) (pn_LastToolHash r) (pn_LastOutputHash r)
      (pn_LastFinalNoticeFP r) (pn_RunNoticeMessageID r) (pn_LastRunNoticeFP r) (pn_UserMessageID r)
      (pn_LastUserNoticeFP r) planPromptMessageID (nullable lastPlanPromptFP) (pn_DetailsViewJSON r)
      (pn_LastFinalCardHash r) (pn_IsCurrent r) (pn_CreatedAt r) now).

Definition UpdateThreadPanelDetails (now : TimeString) (panelID : Z) (detailsViewJSON : string)
  (lastFinalCardHash : string) : Tx Store unit :=
  update_panel panelID (fun r =>
    mkPanelRow (pn_ID r) (pn_ChatID r) (pn_TopicID r) (pn_ProjectName r) (pn_ThreadID r) (pn_SourceMode r)
      (pn_SummaryMessageID r) (pn_ToolMessageID r) (pn_OutputMessageID r) (pn_CurrentTurnID r) (pn_Status r)
      (pn_ArchiveEnabled r) (pn_LastSummaryHash r) (pn_LastToolHash r) (pn_LastOutputHash r)
      (pn_LastFinalNoticeFP r) (pn_RunNoticeMessageID r) (pn_LastRunNoticeFP r) (pn_UserMessageID r)
      (pn_LastUserNoticeFP r) (pn_PlanPromptMessageID r) (pn_LastPlanPromptFP r) (nullable detailsViewJSON)
      (nullable lastFinalCardHash) (pn_IsCurrent r) (pn_CreatedAt r) now).

(** *** Steering *)
Definition ArmSteerState (now : TimeString) (state : SteerState) : Tx Store unit :=
  tx_modify (fun s =>
    let fresh := mkSteerState (st_ChatKey state) (st_ChatID state) (st_TopicID state) (st_ThreadID state)
                   (stored (st_TurnID state)) (st_PanelID state) (st_ExpiresAt state)
                   (or_text (st_CreatedAt state) now) (or_text (st_UpdatedAt state) now) in
    let row := match cr_steer (db_core s) !! st_ChatKey state with
               | None => fresh
               | Some old => mkSteerState (st_ChatKey old) (st_ChatID old) (st_TopicID old) (st_ThreadID fresh)
                               (st_TurnID fresh) (st_PanelID fresh) (st_ExpiresAt fresh) (st_CreatedAt old)
                               (st_UpdatedAt fresh)
               end in
    set_core (set_cr_steer (<[st_ChatKey state := row]> (cr_steer (db_core s))) (db_core s)) s).

Definition GetSteerState (chatID topicID : Z) (s : Store) : option SteerState :=
  cr_steer (db_core s) !! ChatKey chatID topicID.

Definition ClearSteerState (chatID topicID : Z) : Tx Store unit :=
  tx_modify (fun s => set_core (set_cr_steer (delete (ChatKey chatID topicID) (cr_steer (db_core s))) (db_core s)) s).

(** *** The approval a panel shows: ORDER BY updated_at DESC LIMIT 1 *)
Definition GetLatestPendingApprovalForThread (protector : option Protector) (threadID : string) (s : Store)
  : res (option StoredApproval) :=
  match head (sort_by (fun a b => text_le (pr_UpdatedAt b) (pr_UpdatedAt a))
               (filter (fun r => String.eqb (pr_ThreadID r) threadID && pr_pending r)
                  (rows_of pending_approval_table s))) with
  | None => Ok None
  | Some r =>
      let! question := unprotectSensitiveText protector (default "" (pr_Question r)) in
      let! payload := unprotectSensitiveText protector (pr_Payload r) in
      Ok (Some (mkStoredApproval (pr_RequestID r) (or_text (pr_WireRequestID r) (pr_RequestID r)) (pr_ThreadID r)
        (default "" (pr_TurnID r)) (default "" (pr_ItemID r)) (pr_PromptKind r)
        (or_text (pr_RequestKind r) (pr_PromptKind r)) question (pr_SessionIdentity r) (pr_Status r)
        (pr_TelegramMessageID r) payload (pr_UpdatedAt r)))
  end.

(** ** Specification *)
Definition panel_key (r : PanelRow) : Z * Z * string := (pn_ChatID r, pn_TopicID r, pn_ThreadID r).

(** Ids grow, and no thread has two current panels in a chat. *)
Record PanelInv (s : Store) : Prop := mkPanelInv {
  pi_ids : StronglySorted Z.lt (map pn_ID (cr_panels (db_core s)));
  pi_seq : Forall (fun r => (pn_ID r <= cr_panelSeq (db_core s))%Z) (cr_panels (db_core s));
  pi_current : NoDup (map panel_key (filter pn_IsCurrent (cr_panels (db_core s)))) }.

(** One committed operation; [ps_other] is any operation on other tables. *)
Inductive panel_step : Store -> Store -> Prop :=
| ps_create now panel s p s' : CreateThreadPanel now panel s = Ok (p, s') -> panel_step s s'
| ps_messages now id a b c s u s' : UpdateThreadPanelMessages now id a b c s = Ok (u, s') -> panel_step s s'
| ps_source now id mode s u s' : UpdateThreadPanelSourceMode now id mode s = Ok (u, s') -> panel_step s s'
| ps_state now id a b c d e f s u s' : UpdateThreadPanelState now id a b c d e f s = Ok (u, s') -> panel_step s s'
| ps_final now id m a b c d e f g h s u s' :
    UpdateThreadPanelFinalCard now id m a b c d e f g h s = Ok (u, s') -> panel_step s s'
| ps_user now id m fp s u s' : UpdateThreadPanelUserNotice now id m fp s = Ok (u, s') -> panel_step s s'
| ps_run now id m fp s u s' : UpdateThreadPanelRunNotice now id m fp s = Ok (u, s') -> panel_step s s'
| ps_plan now id m fp s u s' : UpdateThreadPanelPlanPrompt now id m fp s = Ok (u, s') -> panel_step s s'
| ps_details now id json hash s u s' : UpdateThreadPanelDetails now id json hash s = Ok (u, s') -> panel_step s s'
| ps_other s s' :
    cr_panels (db_core s') = cr_panels (db_core s) -> cr_panelSeq (db_core s') = cr_panelSeq (db_core s) ->
    panel_step s s'.

(** What a panel reads as: blank nullable texts are empty. *)
Definition stored_panel (p : ThreadPanel) : ThreadPanel :=
  mkThreadPanel (tp_ID p) (tp_ChatID p) (tp_TopicID p) (tp_ProjectName p) (tp_ThreadID p) (tp_SourceMode p)
    (tp_SummaryMessageID p) (tp_ToolMessageID p) (tp_OutputMessageID p) (stored (tp_CurrentTurnID p))
    (stored (tp_Status p)) (tp_ArchiveEnabled p) (stored (tp_LastSummaryHash p)) (stored (tp_LastToolHash
    p)) (stored (tp_LastOutputHash p)) (stored (tp_LastFinalNoticeFP p)) (tp_RunNoticeMessageID p) (stored
    (tp_LastRunNoticeFP p)) (tp_UserMessageID p) (stored (tp_LastUserNoticeFP p)) (tp_PlanPromptMessageID p)
    (stored (tp_LastPlanPromptFP p)) (stored (tp_DetailsViewJSON p)) (stored (tp_LastFinalCardHash p))
    (tp_IsCurrent p) (tp_CreatedAt p) (tp_UpdatedAt p).

(** A panel of a thread in a chat, and two runs of it. *)
Definition ex_panel (turn : string) : ThreadPanel :=
  mkThreadPanel 0 7 0 "project" "thread" " " 11 12 13 turn " " true "h" "" "" "" 0 "" 0 "" 0 "" "" "" false "" "".

Definition ex_panels : Store :=
  match (tx! _ := CreateThreadPanel "T1" (ex_panel "t1") in CreateThreadPanel "T2" (ex_panel "t2")) emptyStore with
  | Ok (_, s) => s | Err _ => emptyStore end.

(** The rows after a creation. *)
Definition after_create (now : TimeString) (panel : ThreadPanel) (s : Store) : list PanelRow :=
  update_where (panel_for (tp_ChatID panel) (tp_TopicID panel) (tp_ThreadID panel)) (upd_panel_retired now)
    (cr_panels (db_core s))
  ++ [panel_row (cr_panelSeq (db_core s) + 1) now panel].

(** *** Updates that keep what a panel is *)
Definition panel_kept (f : PanelRow -> PanelRow) : Prop :=
  forall r, pn_ID (f r) = pn_ID r /\ panel_key (f r) = panel_key r /\ pn_IsCurrent (f r) = pn_IsCurrent r.

(** ** Lemmas *)
#[local] Arguments update_where : simpl never.
#[local] Arguments find_first : simpl never.

#[export] Instance panel_table_laws : TableLaws panel_table.
Proof. split; intros; by repeat match goal with s : Store |- _ => destruct s as [? ? ? ? ? ? ? ? ? []] end. Qed.

Lemma panel_for_key c t th r : panel_for c t th r = true <-> panel_key r = (c, t, th) /\ pn_IsCurrent r = true.
Proof.
  unfold panel_for, panel_key. rewrite !andb_true_iff, !Z.eqb_eq, String.eqb_eq.
  split; [by intros [[[-> ->] ->] ->]|intros [E ->]; by injection E as -> -> ->].
Qed.

Lemma filter_panel_for c t th (rows : list PanelRow) :
  filter (panel_for c t th) rows
  = filter (fun r => bool_decide (panel_key r = (c, t, th))) (filter pn_IsCurrent rows).
Proof.
  induction rows as [|r rows IH]; [done|]. rewrite !filter_cons_bool.
  assert (panel_for c t th r = pn_IsCurrent r && bool_decide (panel_key r = (c, t, th))) as ->.
  { apply eq_true_iff_eq. rewrite panel_for_key, andb_true_iff, bool_decide_eq_true. tauto. }
  destruct (pn_IsCurrent r); cbn [andb]; [|exact IH]. rewrite filter_cons_bool.
  by destruct (bool_decide _); rewrite IH.
Qed.

Lemma filter_keyed {R K} `{!EqDecision K} (key : R -> K) (k : K) (rows : list R) :
  NoDup (map key rows) ->
  filter (fun r => bool_decide (key r = k)) rows = [] \/
  exists r, key r = k /\ filter (fun r => bool_decide (key r = k)) rows = [r].
Proof.
  induction rows as [|r rows IH]; [by left|]. cbn [map]. rewrite NoDup_cons, filter_cons_bool. intros [Hr Hn].
  case_bool_decide as E; [|by apply IH]. right. exists r. split; [done|]. f_equal.
  apply filter_none. intros x Hx Hk%Is_true_true%bool_decide_eq_true. apply Hr. rewrite E, <- Hk.
  by apply list_elem_of_fmap_2.
Qed.

(** The current panel of a thread in a chat, by the invariant. *)
Lemma current_panel s c t th : PanelInv s ->
  filter (panel_for c t th) (cr_panels (db_core s)) = [] \/
  exists r, panel_for c t th r = true /\ filter (panel_for c t th) (cr_panels (db_core s)) = [r].
Proof.
  intros [_ _ Hc]. destruct (filter_keyed panel_key (c, t, th) _ Hc) as [E|(r & Hr & E)];
    rewrite <- filter_panel_for in E; [by left|right].
  exists r. split; [|done]. assert (r ∈ filter (panel_for c t th) (cr_panels (db_core s))) as Hin by (rewrite E; left).
  by apply elem_of_filter_bool in Hin as [_ ?].
Qed.

Lemma panel_ids s : PanelInv s -> NoDup (map pn_ID (cr_panels (db_core s))).
Proof. intros [H _ _]. by apply SSorted_lt_NoDup. Qed.

Lemma current_read c t th s r :
  filter (panel_for c t th) (cr_panels (db_core s)) = [r] -> GetCurrentThreadPanel c t th s = Some (scanThreadPanel r).
Proof. intros E. unfold GetCurrentThreadPanel. cbn [rows_of panel_table]. by rewrite E. Qed.

Lemma by_id_read s r : PanelInv s -> r ∈ cr_panels (db_core s) ->
  GetThreadPanelByID (pn_ID r) s = Some (scanThreadPanel r).
Proof.
  intros HI Hr. unfold GetThreadPanelByID. cbn [rows_of panel_table].
  destruct (find_first (pn_id_is (pn_ID r)) (cr_panels (db_core s))) as [x|] eqn:E.
  - apply find_first_some in E as [Hx Hi%Z.eqb_eq]. cbn. do 2 f_equal.
    by apply (keyed_inj pn_ID (cr_panels (db_core s))); [apply panel_ids| | |].
  - apply (proj1 (find_first_none _ _) E) in Hr. unfold pn_id_is in Hr. by rewrite Z.eqb_refl in Hr.
Qed.

Lemma panel_step_cases s s' : panel_step s s' ->
  (exists q f, panel_kept f /\ cr_panels (db_core s') = update_where q f (cr_panels (db_core s))
               /\ cr_panelSeq (db_core s') = cr_panelSeq (db_core s))
  \/ (exists now panel p, CreateThreadPanel now panel s = Ok (p, s')).
Proof.
  intros H. destruct H as [now panel s p s' H|now id a b c s u s' H|now id mode s u s' H|now id a b c d e f s u s' H
    |now id m a b c d e f g h s u s' H|now id m fp s u s' H|now id m fp s u s' H|now id m fp s u s' H
    |now id json hash s u s' H|s s' H1 H2]; try (left; injection H as _ <-; do 2 eexists; split_and!;
      [| |reflexivity]; [|reflexivity]; intros r; done).
  - right. by exists now, panel, p.
  - unfold UpdateThreadPanelSourceMode in H. left.
    destruct (nullable mode) as [m|]; [injection H as _ <-; do 2 eexists; split_and!;
      [|reflexivity|reflexivity]; intros r; done|]. exists (fun _ => false), (fun r => r).
    tx_inv H. injection Htx as <- <-. destruct (filter _ _); [|discriminate H]. injection H as _ <-.
    split_and!; [done| |done]. by rewrite update_none.
  - left. exists (fun _ => false), (fun r => r). split_and!; [done| |done]. by rewrite update_none.
Qed.

Lemma filter_current_kept q f (rows : list PanelRow) : panel_kept f ->
  map panel_key (filter pn_IsCurrent (update_where q f rows)) = map panel_key (filter pn_IsCurrent rows).
Proof.
  intros Hf. rewrite filter_update by (intros r; apply Hf). apply map_update. intros r. apply Hf.
Qed.

Lemma kept_inv q f s s' : panel_kept f -> PanelInv s ->
  cr_panels (db_core s') = update_where q f (cr_panels (db_core s)) ->
  cr_panelSeq (db_core s') = cr_panelSeq (db_core s) -> PanelInv s'.
Proof.
  intros Hf [H1 H2 H3] Er Es. split; rewrite Er, ?Es.
  - rewrite map_update; [done|]. intros r. apply Hf.
  - apply (Forall_update _ _ q f _ H2). intros r _ Hr. destruct (q r); [|done]. by destruct (Hf r) as [-> _].
  - by rewrite filter_current_kept.
Qed.

(** *** Creation *)
Lemma create_panel_run now panel s : exists s',
  CreateThreadPanel now panel s = Ok (created_panel (cr_panelSeq (db_core s) + 1) now panel, s')
  /\ cr_panels (db_core s') = after_create now panel s
  /\ cr_panelSeq (db_core s') = (cr_panelSeq (db_core s) + 1)%Z.
Proof. eexists. split; [reflexivity|]. split; reflexivity. Qed.

Lemma filter_after_create P now panel s :
  (forall r, panel_for (tp_ChatID panel) (tp_TopicID panel) (tp_ThreadID panel) r = true ->
     P (upd_panel_retired now r) = false /\ P r = false) ->
  P (panel_row (cr_panelSeq (db_core s) + 1) now panel) = false ->
  filter P (after_create now panel s) = filter P (cr_panels (db_core s)).
Proof.
  intros HP Hn. unfold after_create. rewrite filter_app, (filter_cons_bool P), Hn, app_nil_r.
  induction (cr_panels (db_core s)) as [|r rows IH]; [done|]. unfold update_where in *. cbn [map].
  rewrite !(filter_cons_bool P), IH. destruct (panel_for _ _ _ r) eqn:E; [|done].
  by destruct (HP r E) as [-> ->].
Qed.

Lemma created_current now panel s :
  filter (panel_for (tp_ChatID panel) (tp_TopicID panel) (tp_ThreadID panel)) (after_create now panel s)
  = [panel_row (cr_panelSeq (db_core s) + 1) now panel].
Proof.
  unfold after_create. rewrite filter_app, filter_update_drop.
  - cbn [app]. rewrite filter_cons_bool. unfold panel_for at 1. cbn. by rewrite !Z.eqb_refl, String.eqb_refl.
  - intros r _. unfold panel_for. cbn. by rewrite andb_false_r.
  - done.
Qed.

Lemma filter_retired q now (rows : list PanelRow) :
  (forall r, q r = true -> pn_IsCurrent r = true) ->
  filter pn_IsCurrent (update_where q (upd_panel_retired now) rows)
  = filter (fun r => negb (q r)) (filter pn_IsCurrent rows).
Proof.
  intros Hq. unfold update_where. induction rows as [|r rows IH]; [done|]. cbn [map].
  rewrite !(filter_cons_bool pn_IsCurrent), IH. destruct (q r) eqn:E.
  - rewrite (Hq r E), (filter_cons_bool (fun r => negb (q r))), E. done.
  - destruct (pn_IsCurrent r); [|done]. by rewrite (filter_cons_bool (fun r => negb (q r))), E.
Qed.

Lemma NoDup_map_filter {R K} (key : R -> K) (P : R -> bool) (rows : list R) :
  NoDup (map key rows) -> NoDup (map key (filter P rows)).
Proof.
  induction rows as [|r rows IH]; [done|]. cbn [map]. rewrite filter_cons_bool, NoDup_cons. intros [Hr Hn].
  destruct (P r); [|by apply IH]. cbn [map]. apply NoDup_cons. split; [|by apply IH].
  intros (x & E & [_ Hx]%list_elem_of_filter)%list_elem_of_fmap. apply Hr. rewrite E. by apply list_elem_of_fmap_2.
Qed.

Lemma create_panel_inv now panel s p s' : PanelInv s -> CreateThreadPanel now panel s = Ok (p, s') -> PanelInv s'.
Proof.
  intros [H1 H2 H3] H. destruct (create_panel_run now panel s) as (s1 & H' & Er & Es).
  rewrite H' in H. injection H as _ <-. split; rewrite Er, ?Es; unfold after_create.
  - rewrite map_app, map_update by done. apply SSorted_snoc; [done|].
    rewrite Forall_forall in H2. intros i (r & -> & Hr)%list_elem_of_fmap. cbn. specialize (H2 r Hr). lia.
  - apply Forall_app. split; [|constructor; [cbn; lia|done]].
    apply (Forall_update _ _ _ _ _ H2). intros r _ Hr. destruct (panel_for _ _ _ r); cbn; lia.
  - rewrite filter_app, map_app, (filter_cons_bool pn_IsCurrent), filter_retired
      by (by intros r [_ Hr]%panel_for_key).
    apply NoDup_app. split_and!; [by apply NoDup_map_filter| |apply NoDup_singleton].
    intros k (x & -> & [Hq [_ Hc]%elem_of_filter_bool]%list_elem_of_filter)%list_elem_of_fmap E%list_elem_of_singleton.
    assert (panel_for (tp_ChatID panel) (tp_TopicID panel) (tp_ThreadID panel) x = true) as Hf
      by (by apply panel_for_key). by rewrite Hf in Hq.
Qed.

Lemma panel_step_inv s s' : PanelInv s -> panel_step s s' -> PanelInv s'.
Proof.
  intros HI [(q & f & Hf & Er & Es)|(now & panel & p & H)]%panel_step_cases.
  - by apply (kept_inv q f s).
  - by apply (create_panel_inv now panel s p).
Qed.

Lemma panel_steps_inv s s' : PanelInv s -> rtc panel_step s s' -> PanelInv s'.
Proof. intros HI H. induction H as [|s s1 s2 Hs _ IH]; [done|]. apply IH. by apply (panel_step_inv s). Qed.

(** What is never lost of a panel. *)
Lemma panel_step_keeps s s' r : panel_step s s' -> r ∈ cr_panels (db_core s) ->
  exists r', r' ∈ cr_panels (db_core s') /\ pn_ID r' = pn_ID r /\ panel_key r' = panel_key r.
Proof.
  intros [(q & f & Hf & Er & _)|(now & panel & p & H)]%panel_step_cases Hr.
  - exists (if q r then f r else r). rewrite Er. split; [apply elem_of_update; by exists r|].
    destruct (q r); [|done]. by destruct (Hf r) as (-> & -> & _).
  - destruct (create_panel_run now panel s) as (s1 & H' & Er & _). rewrite H' in H. injection H as _ <-.
    eexists (if panel_for _ _ _ r then _ else r). rewrite Er. unfold after_create. split.
    + apply elem_of_app. left. apply elem_of_update. by exists r.
    + by destruct (panel_for _ _ _ r).
Qed.

Lemma panel_steps_keep s s' r : rtc panel_step s s' -> r ∈ cr_panels (db_core s) ->
  exists r', r' ∈ cr_panels (db_core s') /\ pn_ID r' = pn_ID r /\ panel_key r' = panel_key r.
Proof.
  intros H. revert r. induction H as [s|s s1 s2 Hs _ IH]; intros r Hr; [by exists r|].
  destruct (panel_step_keeps s s1 r Hs Hr) as (r1 & Hr1 & <- & <-). by apply IH.
Qed.

Lemma scan_created id now panel : scanThreadPanel (panel_row id now panel) = stored_panel (created_panel id now panel).
Proof.
  unfold scanThreadPanel, panel_row, stored_panel, created_panel. cbn. f_equal.
  unfold source_or. destruct (String.eqb (trim_space (tp_SourceMode panel)) "") eqn:E; [done|by rewrite E].
Qed.

Lemma PanelInv_empty : PanelInv emptyStore.
Proof. split; constructor. Qed.

Lemma ex_panels_steps : rtc panel_step emptyStore ex_panels.
Proof.
  eapply rtc_l; [exact (ps_create "T1" (ex_panel "t1") emptyStore _ _ eq_refl)|].
  apply rtc_once. exact (ps_create "T2" (ex_panel "t2") _ _ _ eq_refl).
Qed.

(** ** Theorems *)

(** Whatever is done to the panels, a thread has at most one current panel in a chat, the
    one that [GetCurrentThreadPanel] reads, and a panel keeps its id, its chat and its
    thread for ever. *)
Theorem panels_one_current s s' : PanelInv s -> rtc panel_step s s' ->
  (forall p q, p ∈ map scanThreadPanel (cr_panels (db_core s')) -> q ∈ map scanThreadPanel (cr_panels (db_core s')) ->
     tp_IsCurrent p = true -> tp_IsCurrent q = true ->
     (tp_ChatID p, tp_TopicID p, tp_ThreadID p) = (tp_ChatID q, tp_TopicID q, tp_ThreadID q) ->
     p = q /\ GetCurrentThreadPanel (tp_ChatID p) (tp_TopicID p) (tp_ThreadID p) s' = Some p)
  /\ (forall id p, GetThreadPanelByID id s = Some p -> exists p', GetThreadPanelByID id s' = Some p'
        /\ (tp_ChatID p', tp_TopicID p', tp_ThreadID p') = (tp_ChatID p, tp_TopicID p, tp_ThreadID p)).
Proof.
  intros HI H. assert (PanelInv s') as HI' by (by apply (panel_steps_inv s)). split.
  - intros p q (r & -> & Hr)%list_elem_of_fmap (x & -> & Hx)%list_elem_of_fmap Hp Hq E.
    assert (panel_for (pn_ChatID r) (pn_TopicID r) (pn_ThreadID r) r = true) as H1 by (by apply panel_for_key).
    assert (panel_for (pn_ChatID r) (pn_TopicID r) (pn_ThreadID r) x = true) as H2
      by (apply panel_for_key; split; [symmetry; exact E|done]).
    destruct (current_panel s' (pn_ChatID r) (pn_TopicID r) (pn_ThreadID r) HI') as [El|(y & _ & El)].
    + assert (r ∈ filter (panel_for (pn_ChatID r) (pn_TopicID r) (pn_ThreadID r)) (cr_panels (db_core s'))) as Hin
        by (by apply elem_of_filter_bool). rewrite El in Hin. by apply elem_of_nil in Hin.
    + assert (r = y /\ x = y) as [-> ->].
      { split; apply list_elem_of_singleton; rewrite <- El; by apply elem_of_filter_bool. }
      split; [done|]. by apply current_read.
  - intros id p Hp. unfold GetThreadPanelByID in Hp. cbn [rows_of panel_table] in Hp.
    destruct (find_first _ _) as [r|] eqn:E; [|discriminate Hp]. injection Hp as <-.
    apply find_first_some in E as [Hr <-%Z.eqb_eq].
    destruct (panel_steps_keep s s' r H Hr) as (r' & Hr' & Ei & Ek). exists (scanThreadPanel r').
    rewrite <- Ei. split; [by apply by_id_read|exact Ek].
Qed.

Theorem panels_one_current_witness :
  GetCurrentThreadPanel 7 0 "thread" ex_panels
  = Some (scanThreadPanel (panel_row 2 "T2" (ex_panel "t2"))).
Proof.
  destruct (panels_one_current emptyStore ex_panels PanelInv_empty ex_panels_steps) as [H _].
  apply (H (scanThreadPanel (panel_row 2 "T2" (ex_panel "t2"))) (scanThreadPanel (panel_row 2 "T2" (ex_panel "t2"))));
    [vm_compute; right; left|vm_compute; right; left|reflexivity|reflexivity|reflexivity].
Defined.

(** Creating a panel never fails: the panel gets a new id and is read back, by its id and
    as the current one, as it was given; the panel that was current before stays, not
    current any more, and the current panels of other threads and chats are untouched. *)
Theorem CreateThreadPanel_spec now panel s : PanelInv s ->
  exists p s', CreateThreadPanel now panel s = Ok (p, s')
    /\ (forall r, r ∈ cr_panels (db_core s) -> (pn_ID r < tp_ID p)%Z)
    /\ GetCurrentThreadPanel (tp_ChatID panel) (tp_TopicID panel) (tp_ThreadID panel) s' = Some (stored_panel p)
    /\ GetThreadPanelByID (tp_ID p) s' = Some (stored_panel p)
    /\ (forall r, r ∈ cr_panels (db_core s) ->
          panel_for (tp_ChatID panel) (tp_TopicID panel) (tp_ThreadID panel) r = true ->
          GetThreadPanelByID (pn_ID r) s' = Some (scanThreadPanel (upd_panel_retired now r)))
    /\ (forall c t th, (c, t, th) <> (tp_ChatID panel, tp_TopicID panel, tp_ThreadID panel) ->
          GetCurrentThreadPanel c t th s' = GetCurrentThreadPanel c t th s).
Proof.
  intros HI. destruct (create_panel_run now panel s) as (s' & H & Er & Es).
  exists (created_panel (cr_panelSeq (db_core s) + 1) now panel), s'.
  assert (PanelInv s') as HI' by exact (create_panel_inv _ _ _ _ _ HI H).
  split_and!; [done| | | | |].
  - intros r Hr. destruct HI as [_ H2 _]. rewrite Forall_forall in H2. specialize (H2 r Hr). cbn. lia.
  - rewrite <- scan_created. apply current_read. rewrite Er. apply created_current.
  - rewrite <- scan_created. change (tp_ID _) with (pn_ID (panel_row (cr_panelSeq (db_core s) + 1) now panel)).
    apply by_id_read; [done|]. rewrite Er. apply elem_of_app. right. left.
  - intros r Hr Hf. change (pn_ID r) with (pn_ID (upd_panel_retired now r)). apply by_id_read; [done|].
    rewrite Er. apply elem_of_app. left. apply elem_of_update. exists r. by rewrite Hf.
  - intros c t th Hk. unfold GetCurrentThreadPanel. cbn [rows_of panel_table].
    rewrite Er, (filter_after_create (panel_for c t th)); [done| |].
    + intros r [Ek _]%panel_for_key. split; apply not_true_iff_false; intros [E _]%panel_for_key; apply Hk;
        rewrite <- E, <- Ek; done.
    + apply not_true_iff_false. intros [E _]%panel_for_key. apply Hk. rewrite <- E. done.
Qed.

Theorem CreateThreadPanel_spec_witness :
  exists p s', CreateThreadPanel "T3" (ex_panel "t3") ex_panels = Ok (p, s')
    /\ GetThreadPanelByID 2 s' = Some (scanThreadPanel (upd_panel_retired "T3" (panel_row 2 "T2" (ex_panel "t2"))))
    /\ GetCurrentThreadPanel 7 0 "thread" s' = Some (stored_panel p).
Proof.
  destruct (CreateThreadPanel_spec "T3" (ex_panel "t3") ex_panels) as (p & s' & H & _ & Hc & _ & Ho & _).
  - apply (panel_steps_inv emptyStore); [apply PanelInv_empty|apply ex_panels_steps].
  - exists p, s'. split; [exact H|]. split; [|exact Hc].
    apply (Ho (panel_row 2 "T2" (ex_panel "t2"))); [vm_compute; right; left|reflexivity].
Defined.

(** A panel that exists cannot be given a blank source mode: the column is NOT NULL. *)
Lemma blank_source_refused now id mode s : PanelInv s -> trim_space mode = "" ->
  is_Some (GetThreadPanelByID id s) ->
  UpdateThreadPanelSourceMode now id mode s = Err "NOT NULL constraint failed: thread_panels.source_mode".
Proof.
  intros _ Hm [p Hp]. unfold UpdateThreadPanelSourceMode, nullable. rewrite Hm. cbn [String.eqb].
  unfold GetThreadPanelByID in Hp. cbn [rows_of panel_table] in Hp.
  destruct (find_first _ _) as [r|] eqn:E; [|discriminate Hp]. apply find_first_some in E as [Hr Hi].
  unfold sql_select. erewrite tx_bind_run by reflexivity. cbn [rows_of panel_table].
  destruct (filter (pn_id_is id) _) eqn:El; [|done].
  assert (r ∈ filter (pn_id_is id) (cr_panels (db_core s))) as Hin by (by apply elem_of_filter_bool).
  rewrite El in Hin. by apply elem_of_nil in Hin.
Qed.

(** The steering of a chat is read back as it was armed, arming again keeps when it was
    first armed, and clearing it leaves the other chats as they are. *)
Theorem steer_roundtrip now state chatID topicID s s' :
  st_ChatKey state = ChatKey chatID topicID -> ArmSteerState now state s = Ok (tt, s') ->
  (exists got, GetSteerState chatID topicID s' = Some got
    /\ (st_ThreadID got, st_TurnID got, st_PanelID got, st_ExpiresAt got)
       = (st_ThreadID state, stored (st_TurnID state), st_PanelID state, st_ExpiresAt state)
    /\ st_CreatedAt got = match GetSteerState chatID topicID s with
                          | Some old => st_CreatedAt old
                          | None => or_text (st_CreatedAt state) now
                          end)
  /\ (forall c t, (c, t) <> (chatID, topicID) -> GetSteerState c t s' = GetSteerState c t s)
  /\ exists s2, ClearSteerState chatID topicID s' = Ok (tt, s2) /\ GetSteerState chatID topicID s2 = None
      /\ forall c t, (c, t) <> (chatID, topicID) -> GetSteerState c t s2 = GetSteerState c t s.
Proof.
  intros Hk H. injection H as <-. unfold GetSteerState. cbn. rewrite Hk, lookup_insert_eq.
  assert (forall c t, (c, t) <> (chatID, topicID) -> ChatKey chatID topicID <> ChatKey c t) as Hne.
  { intros c t Hct E. apply Hct. apply ChatKey_inj in E as [-> ->]. done. }
  split_and!.
  - eexists. split; [reflexivity|]. by destruct (cr_steer (db_core s) !! ChatKey chatID topicID).
  - intros c t Hct. rewrite lookup_insert_ne; [done|by apply Hne].
  - eexists. split; [reflexivity|]. cbn. split; [by rewrite lookup_delete_eq|]. intros c t Hct.
    rewrite lookup_delete_ne, lookup_insert_ne; [done|by apply Hne|by apply Hne].
Qed.

Theorem steer_roundtrip_witness :
  let state := mkSteerState "7:0" 7 0 "thread" " " 2 "T9" "" "" in
  let s' := match ArmSteerState "T1" state emptyStore with Ok (_, s) => s | Err _ => emptyStore end in
  exists got, GetSteerState 7 0 s' = Some got /\ st_CreatedAt got = "T1".
Proof.
  intros state s'. destruct (steer_roundtrip "T1" state 7 0 emptyStore s' eq_refl eq_refl) as [(got & H & _ & Hc) _].
  exists got. split; [exact H|exact Hc].
Defined.
