(* ===== verification/TerminalGate.v ===== *)
(** * internal/daemon/terminal_gate.go: deferring interrupted turns

    App Server may report a turn that Telegram started as interrupted and resume it a
    little later.  The gate holds such an end back for a grace time, counted from the
    first time it was seen, and polls the thread often meanwhile; the user's own
    interruption passes at once.  What the gate remembers of a turn is a JSON text in
    daemon_state, whose codec is an interface. *)
From stdpp Require Import base list numbers strings gmap.
From Stdlib Require Import Lia Ascii.
From S2P Require Import Prelude GoStrings Utf8 Json GoTime Sql Model Normalize NotifierFormat CoreTables Store.
From S2P Require Import NotifierObserver NotifierIngress Threads.

Definition terminalGateDeferPrefix : string := "turn_terminal.defer_empty_interrupted.".
Definition terminalGateExplicitInterruptPrefix : string := "turn_terminal.explicit_interrupt.".
Definition terminalGateMinimumGrace : Z := 90 * second.
Definition terminalGateDefaultHotPollInterval : Z := 5 * second.
Definition terminalGateAccept : string := "accept".
Definition terminalGateDefer : string := "defer".
Definition terminalGateRecover : string := "recover".
Definition PanelSourceTelegramInput : string := "telegram_input".

Record terminalGateDecision : Type := mkGateDecision {
  td_Action : string;
  td_Reason : string;
  td_ThreadID : string;
  td_TurnID : string;
  td_EmptyInterrupted : bool;
  td_DeferrableInterrupted : bool;
  td_ExplicitInterrupt : bool;
  td_Grace : Z;
  td_FirstSeenAt : instant;
  td_LastSeenAt : instant;
  td_ExpiresAt : instant;
  td_HotPoll : bool;
  td_NextPollAfter : TimeString;
  td_DeferKey : string;
  td_ExplicitKey : string }.

Record terminalGateState : Type := mkGateState {
  gs_ThreadID : string;
  gs_TurnID : string;
  gs_FirstSeenAt : TimeString;
  gs_LastSeenAt : TimeString;
  gs_ExpiresAt : TimeString;
  gs_NextPollAfter : TimeString;
  gs_HotPollIntervalMillis : Z;
  gs_EmptyInterruptedSeenCount : Z;
  gs_LastDecision : string;
  gs_LastReason : string }.

(** encoding/json on [terminalGateState]. *)
Class GateCodec : Type := {
  gate_marshal : terminalGateState -> string;
  gate_unmarshal : string -> res terminalGateState }.

(** encoding/json keeps texts that are valid UTF-8. *)
Definition valid_text (t : string) : Prop := string_of_runes (runes t) = t.

Definition valid_state (g : terminalGateState) : Prop :=
  Forall valid_text [gs_ThreadID g; gs_TurnID g; gs_FirstSeenAt g; gs_LastSeenAt g; gs_ExpiresAt g;
                     gs_NextPollAfter g; gs_LastDecision g; gs_LastReason g].

Class GateCodecLaws `{GateCodec} : Prop := {
  gate_roundtrip : forall g, valid_state g -> gate_unmarshal (gate_marshal g) = Ok g;
  gate_compact : forall g, trim_space (gate_marshal g) = gate_marshal g /\ gate_marshal g <> "" }.

(** *** What a snapshot shows *)
Definition interrupted_alone (snapshot : ThreadReadSnapshot) : bool :=
  equal_fold (trim_space (sn_LatestTurnStatus snapshot)) "interrupted"
  && negb (String.eqb (trim_space (th_ID (sn_Thread snapshot))) "" || String.eqb (trim_space (sn_LatestTurnID snapshot)) "")
  && negb (sn_WaitingOnApproval snapshot || sn_WaitingOnReply snapshot).

Definition snapshotHasMeaningfulTerminalSignal (snapshot : option ThreadReadSnapshot) : bool :=
  match snapshot with
  | None => false
  | Some sn =>
      existsb (fun t => nonempty (trim_space t))
        [sn_LatestFinalText sn; sn_LatestFinalFP sn; sn_LatestProgressText sn; sn_LatestProgressFP sn;
         sn_LatestToolID sn; sn_LatestToolKind sn; sn_LatestToolLabel sn; sn_LatestToolOutput sn; sn_LatestToolFP sn]
      || existsb (fun message => nonempty (trim_space message)) (sn_LatestAgentMessages sn)
      || existsb (fun e => nonempty (trim_space (am_Text e)) || nonempty (trim_space (am_FP e)))
           (sn_LatestAgentMessageEntries sn)
      || existsb (fun item =>
           let kind := trim_space (di_Kind item) in
           negb (String.eqb kind "" || String.eqb kind DetailItemUser)
           && existsb (fun t => nonempty (trim_space t)) [di_Text item; di_Label item; di_Output item; di_FP item])
           (sn_DetailItems sn)
  end.

Definition isEmptyInterruptedSnapshot (snapshot : option ThreadReadSnapshot) : bool :=
  match snapshot with
  | None => false
  | Some sn => interrupted_alone sn && negb (snapshotHasMeaningfulTerminalSignal (Some sn))
  end.

Definition isDeferrableInterruptedSnapshot (snapshot : option ThreadReadSnapshot) : bool :=
  match snapshot with None => false | Some sn => interrupted_alone sn end.

Definition interruptedDeferReason (snapshot : option ThreadReadSnapshot) : string :=
  if isEmptyInterruptedSnapshot snapshot then "empty_interrupted"
  else match snapshot with
       | Some sn => if snapshotHasFinalSignal sn then "final_interrupted" else "partial_interrupted"
       | None => "partial_interrupted"
       end.

Definition threadLooksActiveForPolling (thread : Thread) : bool :=
  let status := to_lower (trim_space (th_Status thread)) in
  if negb (String.eqb (trim_space (th_ActiveTurnID thread)) "") then true
  else String.eqb status "active" || has_prefix status "active[" || contains status "waitingon"
       || contains status "inprogress" || contains status "running".

Definition terminalGateSnapshotNeedsHotPolling (snapshot : option ThreadReadSnapshot) : bool :=
  match snapshot with
  | None => false
  | Some sn => threadLooksActiveForPolling (sn_Thread sn)
               || equal_fold (trim_space (sn_LatestTurnStatus sn)) "inProgress"
               || sn_WaitingOnApproval sn || sn_WaitingOnReply sn
  end.

Definition terminalGateSnapshotIDs (snapshot : option ThreadReadSnapshot) : string * string :=
  match snapshot with
  | None => ("", "")
  | Some sn => (trim_space (th_ID (sn_Thread sn)), trim_space (sn_LatestTurnID sn))
  end.

(** *** Durations *)
Definition terminalGateGraceDuration (observerPollInterval : Z) : Z :=
  maxDuration terminalGateMinimumGrace (wrap64 (observerPollInterval * 12)).

Definition terminalGateHotPollInterval (observerPollInterval : Z) : Z :=
  if (0 <? observerPollInterval)%Z then observerPollInterval else terminalGateDefaultHotPollInterval.

Definition terminalGateNextPollAfter (now : instant) (observerPollInterval : Z) : TimeString :=
  format_time (now + terminalGateHotPollInterval observerPollInterval)%Z.

(** *** Keys *)
Definition turn_key (prefix threadID0 turnID0 : string) : string :=
  let threadID := trim_space threadID0 in
  let turnID := trim_space turnID0 in
  if String.eqb threadID "" || String.eqb turnID "" then "" else prefix +:+ threadID +:+ "." +:+ turnID.

Definition terminalGateDeferKey : string -> string -> string := turn_key terminalGateDeferPrefix.
Definition terminalGateExplicitInterruptKey : string -> string -> string :=
  turn_key terminalGateExplicitInterruptPrefix.
Definition telegramOriginTurnKey : string -> string -> string := turn_key "turn_origin.telegram.".

(** SetState of a key that may be missing. *)
Definition set_turn_state (at_ : TimeString) (key value : string) (s : Store) : Store :=
  if String.eqb key "" then s else SetState at_ key value s.

Definition markTelegramOriginTurn (at_ : TimeString) (threadID turnID : string) (s : Store) : Store :=
  set_turn_state at_ (telegramOriginTurnKey threadID turnID) PanelSourceTelegramInput s.

Definition isTelegramOriginTurn (threadID turnID : string) (s : Store) : bool :=
  let key := telegramOriginTurnKey threadID turnID in
  negb (String.eqb key "") && String.eqb (trim_space (GetState key s)) PanelSourceTelegramInput.

Definition clearTelegramOriginEmptyInterruptedDefer (at_ : TimeString) (threadID turnID : string) (s : Store) : Store :=
  set_turn_state at_ (terminalGateDeferKey threadID turnID) "" s.

Definition clearTelegramOriginTerminalGate (at_ : TimeString) (threadID turnID : string) (s : Store) : Store :=
  set_turn_state at_ (terminalGateExplicitInterruptKey threadID turnID) ""
    (clearTelegramOriginEmptyInterruptedDefer at_ threadID turnID s).

Definition hasTelegramOriginExplicitInterrupt (threadID turnID : string) (s : Store) : bool :=
  let key := terminalGateExplicitInterruptKey threadID turnID in
  negb (String.eqb key "") && negb (String.eqb (trim_space (GetState key s)) "").

(** A transaction whose error is dropped. *)
Definition run_ignored {A : Type} (m : Tx Store A) (s : Store) : Store :=
  match m s with Ok (_, s') => s' | Err _ => s end.

Definition upd_next_poll (v : TimeString) (n : ThreadSnapshotState) : ThreadSnapshotState :=
  mkThreadSnapshotState (ss_ThreadUpdatedAt n) (ss_LastSeenThreadStatus n) (ss_LastSeenTurnID n)
    (ss_LastSeenTurnStatus n) (ss_LastProgressFP n) (ss_LastProgressSentAt n) (ss_LastFinalFP n)
    (ss_LastCompletionFP n) (ss_LastApprovalFP n) (ss_LastReplyFP n) (ss_LastFinalNoticeFP n)
    (ss_LastToolDocumentFP n) (ss_LastRichLiveEventAt n) (ss_LastPollAt n) v (ss_CompactJSON n).

Definition applyTerminalGateHotPolling (snapshot : ThreadSnapshotState) (decision : terminalGateDecision)
  : ThreadSnapshotState :=
  if negb (td_HotPoll decision) || String.eqb (trim_space (td_NextPollAfter decision)) "" then snapshot
  else upd_next_poll (td_NextPollAfter decision) snapshot.

Section gate.
Context `{GateCodec} (poll : Z).   (* cfg.ObserverPollInterval *)

Definition markTelegramOriginExplicitInterrupt (now : instant) (threadID turnID : string) (s : Store) : Store :=
  let at_ := format_time now in
  set_turn_state at_ (terminalGateExplicitInterruptKey threadID turnID)
    (gate_marshal (mkGateState (trim_space threadID) (trim_space turnID) at_ at_ "" "" 0 0
                     terminalGateAccept "explicit_interrupt")) s.

Definition saveTelegramOriginEmptyInterruptedDefer (at_ : TimeString) (threadID turnID : string)
    (state : terminalGateState) (s : Store) : Store :=
  set_turn_state at_ (terminalGateDeferKey threadID turnID) (gate_marshal state) s.

(** A text that is not JSON is the instant an older version wrote. *)
Definition legacy_state (threadID turnID value : string) (now : instant) : terminalGateState :=
  let parsed := parseTime value in
  let firstSeenAt := if is_zero parsed then now else parsed in
  mkGateState (trim_space threadID) (trim_space turnID) (format_time firstSeenAt) ""
    (format_time (firstSeenAt + terminalGateGraceDuration poll)%Z) "" 0 0 terminalGateDefer "legacy_state".

Definition loadTelegramOriginEmptyInterruptedDefer (threadID turnID : string) (now : instant) (s : Store)
  : option terminalGateState :=
  let key := terminalGateDeferKey threadID turnID in
  if String.eqb key "" then None
  else
    let value := trim_space (GetState key s) in
    if String.eqb value "" then None
    else match gate_unmarshal value with
         | Ok state => Some state
         | Err _ => Some (legacy_state threadID turnID value now)
         end.

Definition new_deferral (threadID turnID reason : string) (now : instant) : terminalGateState :=
  mkGateState threadID turnID (format_time now) "" (format_time (now + terminalGateGraceDuration poll)%Z) "" 0 0
    terminalGateDefer reason.

(** firstSeenAt and expiresAt, as instants: what cannot be read starts again now. *)
Definition gate_window (now : instant) (state : terminalGateState) : instant * instant :=
  let parsedFirst := parseTime (gs_FirstSeenAt state) in
  let first := if is_zero parsedFirst then now else parsedFirst in
  let parsedExpiry := parseTime (gs_ExpiresAt state) in
  (first, if is_zero parsedExpiry then (first + terminalGateGraceDuration poll)%Z else parsedExpiry).

(** The state of a deferral, seen once more. *)
Definition seen_state (threadID turnID : string) (now : instant) (state : terminalGateState) : terminalGateState :=
  let '(first, expiresAt) := gate_window now state in
  mkGateState threadID turnID
    (if is_zero (parseTime (gs_FirstSeenAt state)) then format_time now else gs_FirstSeenAt state) (format_time now)
    (if is_zero (parseTime (gs_ExpiresAt state)) then format_time expiresAt else gs_ExpiresAt state)
    (gs_NextPollAfter state) (gs_HotPollIntervalMillis state) (gs_EmptyInterruptedSeenCount state + 1)
    (gs_LastDecision state) (gs_LastReason state).

Definition decided (nextPoll : TimeString) (hotMillis : Z) (decision reason : string) (g : terminalGateState)
  : terminalGateState :=
  mkGateState (gs_ThreadID g) (gs_TurnID g) (gs_FirstSeenAt g) (gs_LastSeenAt g) (gs_ExpiresAt g) nextPoll hotMillis
    (gs_EmptyInterruptedSeenCount g) decision reason.

Definition decideTelegramOriginEmptyInterruptedTerminal (clock : instant) (snapshot : option ThreadReadSnapshot)
    (now0 : instant) (s : Store) : terminalGateDecision * Store :=
  let now := if is_zero now0 then clock else now0 in
  let at_ := format_time clock in
  let '(threadID, turnID) := terminalGateSnapshotIDs snapshot in
  let decision action reason explicit first last expires hot next :=
    mkGateDecision action reason threadID turnID (isEmptyInterruptedSnapshot snapshot)
      (isDeferrableInterruptedSnapshot snapshot) explicit (terminalGateGraceDuration poll) first last expires hot next
      (terminalGateDeferKey threadID turnID) (terminalGateExplicitInterruptKey threadID turnID) in
  let accept reason explicit :=
    decision terminalGateAccept reason explicit zero_time zero_time zero_time false "" in
  if String.eqb threadID "" || String.eqb turnID "" then
    (mkGateDecision terminalGateAccept "missing_thread_or_turn" threadID turnID false false false
       (terminalGateGraceDuration poll) zero_time zero_time zero_time false ""
       (terminalGateDeferKey threadID turnID) (terminalGateExplicitInterruptKey threadID turnID), s)
  else
    let explicit := hasTelegramOriginExplicitInterrupt threadID turnID s in
    let existing := loadTelegramOriginEmptyInterruptedDefer threadID turnID now s in
    if negb (isDeferrableInterruptedSnapshot snapshot) then
      match existing with
      | Some state =>
          let hot := terminalGateSnapshotNeedsHotPolling snapshot in
          (decision terminalGateRecover "snapshot_recovered" explicit (parseTime (gs_FirstSeenAt state)) now
             (parseTime (gs_ExpiresAt state)) hot (if hot then terminalGateNextPollAfter now poll else ""),
           clearTelegramOriginEmptyInterruptedDefer at_ threadID turnID s)
      | None => (accept "not_deferrable_interrupted" explicit, s)
      end
    else if explicit then
      (accept "explicit_interrupt" true, clearTelegramOriginEmptyInterruptedDefer at_ threadID turnID s)
    else if negb (isTelegramOriginTurn threadID turnID s) then (accept "not_telegram_origin" false, s)
    else
      let reason := interruptedDeferReason snapshot in
      let found := default (new_deferral threadID turnID reason now) existing in
      let '(firstSeenAt, expiresAt) := gate_window now found in
      let state := seen_state threadID turnID now found in
      if (expiresAt <=? now)%Z then
        (decision terminalGateAccept "grace_expired" false firstSeenAt now expiresAt false "",
         saveTelegramOriginEmptyInterruptedDefer at_ threadID turnID
           (decided (gs_NextPollAfter state) (gs_HotPollIntervalMillis state) terminalGateAccept "grace_expired" state) s)
      else
        let next := terminalGateNextPollAfter now poll in
        (decision terminalGateDefer reason false firstSeenAt now expiresAt true next,
         saveTelegramOriginEmptyInterruptedDefer at_ threadID turnID
           (decided next (terminalGateHotPollInterval poll / 1000000) terminalGateDefer reason state) s).

(** Whether the end of the turn is held back.  [previous] is the snapshot the caller has. *)
Definition applyTelegramOriginTerminalGate (clock : instant) (current : option ThreadReadSnapshot)
    (previous : option ThreadSnapshotState) (s : Store) : bool * Store :=
  let '(decision, s1) := decideTelegramOriginEmptyInterruptedTerminal clock current clock s in
  if String.eqb (td_Action decision) terminalGateDefer then
    let latest := match GetSnapshot (td_ThreadID decision) s1 with Some stored => Some stored | None => previous end in
    (true, match latest with
           | Some snapshot =>
               run_ignored (UpsertSnapshot (td_ThreadID decision) (applyTerminalGateHotPolling snapshot decision)) s1
           | None => s1
           end)
  else (false, s1).

Definition threadHasDeferredEmptyInterrupted (now : instant) (thread : Thread) (snapshot : option ThreadSnapshotState)
    (s : Store) : bool :=
  let turnIDs := (if String.eqb (th_ActiveTurnID thread) "" then [] else [trim_space (th_ActiveTurnID thread)])
                 ++ match snapshot with
                    | Some n => if String.eqb (ss_LastSeenTurnID n) "" then [] else [trim_space (ss_LastSeenTurnID n)]
                    | None => []
                    end in
  existsb (fun turnID =>
    negb (String.eqb turnID "")
    && match loadTelegramOriginEmptyInterruptedDefer (th_ID thread) turnID now s with
       | Some state =>
           let expiresAt := parseTime (gs_ExpiresAt state) in is_zero expiresAt || (now <? expiresAt)%Z
       | None => false
       end) turnIDs.

(** ** Specification *)

(** The gate without its bookkeeping: a turn first seen interrupted at [first] is held
    back during the grace time. *)
Definition gate_reference (first now : instant) : string :=
  if (now <? first + terminalGateGraceDuration poll)%Z then terminalGateDefer else terminalGateAccept.

(** The decisions of a sequence of polls of a turn. *)
Fixpoint gate_run (polls : list (ThreadReadSnapshot * instant)) (s : Store) : list terminalGateDecision * Store :=
  match polls with
  | [] => ([], s)
  | (snapshot, now) :: rest =>
      let '(decision, s1) := decideTelegramOriginEmptyInterruptedTerminal now (Some snapshot) now s in
      let '(decisions, s2) := gate_run rest s1 in (decision :: decisions, s2)
  end.

(** A poll that shows the turn interrupted, waiting for nobody. *)
Definition interrupted_poll (threadID turnID : string) (snapshot : ThreadReadSnapshot) : Prop :=
  interrupted_alone snapshot = true /\ trim_space (th_ID (sn_Thread snapshot)) = threadID
  /\ trim_space (sn_LatestTurnID snapshot) = turnID.

(** What the gate remembers of a turn first seen interrupted at [first]. *)
Definition deferring (threadID turnID : string) (first : instant) (s : Store) : Prop :=
  exists g, GetState (terminalGateDeferKey threadID turnID) s = gate_marshal g /\ valid_state g
    /\ gs_FirstSeenAt g = format_time first
    /\ gs_ExpiresAt g = format_time (first + terminalGateGraceDuration poll)%Z.

(** An instant whose texts read back, with the grace time after it. *)
Definition gate_time (t : instant) : Prop :=
  (zero_time < t)%Z /\ in_years t = true /\ in_years (t + terminalGateGraceDuration poll)%Z = true
  /\ in_years (t + terminalGateHotPollInterval poll)%Z = true.
End gate.

(** A codec that computes, and a turn that stays interrupted for two minutes. *)
#[export] Instance gate_state_eq_dec : EqDecision terminalGateState := ltac:(solve_decision).

Definition gate_tuple (g : terminalGateState) : list string * (Z * Z) :=
  ([gs_ThreadID g; gs_TurnID g; gs_FirstSeenAt g; gs_LastSeenAt g; gs_ExpiresAt g; gs_NextPollAfter g;
    gs_LastDecision g; gs_LastReason g], (gs_HotPollIntervalMillis g, gs_EmptyInterruptedSeenCount g)).

Definition gate_of_tuple (t : list string * (Z * Z)) : terminalGateState :=
  match t with
  | ([a; b; c; d; e; f; g; h], (m, n)) => mkGateState a b c d e f m n g h
  | _ => mkGateState "" "" "" "" "" "" 0 0 "" ""
  end.

#[export] Instance gate_state_countable : Countable terminalGateState :=
  inj_countable' gate_tuple gate_of_tuple (fun g => match g with mkGateState _ _ _ _ _ _ _ _ _ _ => eq_refl end).

Definition counted_codec : GateCodec := {|
  gate_marshal g := format_int (Zpos (encode g));
  gate_unmarshal t := match parse_int t with
                      | Some (Zpos n) => match decode n with Some g => Ok g | None => Err "unreadable" end
                      | _ => Err "unreadable"
                      end |}.

Definition ex_interrupted : ThreadReadSnapshot :=
  set_sn_LatestTurnStatus "interrupted"
    (set_sn_Thread (set_th_ID "thread" zeroThread)
       (mkThreadReadSnapshot zeroThread "turn" "" "" "" false false [] [] "" "" "" "" "" "" ""
          "" "" "" "" "" "" false "" "" None [])).

Definition ex_origin : Store := markTelegramOriginTurn "T0" "thread" "turn" emptyStore.
Definition ex_gate_start : instant := (1700000000 * second)%Z.
Definition ex_gate_times : list instant := map (fun d => ex_gate_start + d * second)%Z [0; 5; 89; 90; 120]%Z.

(** ** Lemmas *)

(** *** Visible texts are valid *)
Lemma visible_app a b : visible (a +:+ b) = visible a && visible b.
Proof.
  induction a as [|c a IH]; [done|]. change (String c a +:+ b) with (String c (a +:+ b)). cbn [visible].
  by rewrite IH, andb_assoc.
Qed.

Lemma visible_digit z : visible (String (digit (z mod 10)) "") = true.
Proof.
  pose proof (Z.mod_pos_bound z 10 ltac:(lia)) as Hz. cbn. unfold code_in, code, digit.
  rewrite N_ascii_embedding by lia. rewrite andb_true_r. apply andb_true_iff. rewrite !N.leb_le. lia.
Qed.

Lemma visible_digits n z : visible (pad n z) = true /\ visible (frac n z) = true.
Proof.
  induction n as [|n [IH1 IH2]]; [done|]. cbn [pad frac].
  pose proof (visible_digit (z / 10 ^ Z.of_nat n)) as Hd. cbn [visible] in Hd. rewrite andb_true_r in Hd.
  split; [cbn [visible]; by rewrite Hd|]. destruct (_ =? _)%Z; [done|]. cbn [visible]. by rewrite Hd.
Qed.

Lemma visible_format_time t : visible (format_time t) = true.
Proof.
  unfold format_time. destruct (civil_of_days _) as [[y m] d]. unfold format_fields.
  repeat (rewrite ?visible_app; cbn [visible]; rewrite ?(proj1 (visible_digits _ _))).
  destruct (_ =? 0)%Z; [done|]. cbn [visible]. by rewrite visible_app, (proj2 (visible_digits _ _)).
Qed.

Lemma visible_valid t : visible t = true -> valid_text t.
Proof.
  unfold valid_text. induction t as [|a t IH]; [done|]. cbn [visible]. intros [Ha Ht]%andb_prop.
  assert (33 <= code a <= 127)%N as Hr by (by apply in_range_inv).
  assert (code_in a 0 127 = true) as Hc by (unfold code_in; apply in_range_true; lia).
  cbn [runes]. rewrite Hc. cbn [string_of_runes]. rewrite IH by done. unfold encode_rune, encode_valid.
  replace (valid_rune (code a)) with true by (symmetry; apply valid_rune_spec; lia).
  destruct (N.ltb_spec (code a) 128); [|lia]. change (String (byte_of (code a)) t = String a t). f_equal. apply ascii_N_embedding.
Qed.

Lemma valid_time t : valid_text (format_time t).
Proof. apply visible_valid, visible_format_time. Qed.

(** *** Keys *)
Lemma turn_key_some prefix threadID turnID :
  trim_space threadID = threadID -> trim_space turnID = turnID -> threadID <> "" -> turnID <> "" ->
  turn_key prefix threadID turnID = prefix +:+ threadID +:+ "." +:+ turnID.
Proof.
  intros H1 H2 H3 H4. unfold turn_key. rewrite H1, H2.
  apply String.eqb_neq in H3 as ->. by apply String.eqb_neq in H4 as ->.
Qed.

Lemma keys_apart prefix threadID turnID u v :
  prefix = terminalGateExplicitInterruptPrefix \/ prefix = "turn_origin.telegram." ->
  turn_key prefix u v <> "" -> turn_key prefix u v <> terminalGateDeferKey threadID turnID.
Proof.
  unfold terminalGateDeferKey, turn_key. intros Hp.
  destruct (String.eqb (trim_space u) "" || String.eqb (trim_space v) ""); [done|]. intros _.
  destruct (String.eqb (trim_space threadID) "" || _); destruct Hp as [->| ->]; discriminate.
Qed.

(** A write of the deferral leaves the origin and the interruption of every turn. *)
Lemma origin_after at_ threadID turnID v u w s :
  isTelegramOriginTurn u w (set_turn_state at_ (terminalGateDeferKey threadID turnID) v s) = isTelegramOriginTurn u w s.
Proof.
  unfold set_turn_state, isTelegramOriginTurn. destruct (String.eqb (terminalGateDeferKey _ _) ""); [done|].
  destruct (String.eqb_spec (telegramOriginTurnKey u w) ""); [done|].
  rewrite GetState_SetState_ne; [done|]. by apply keys_apart; [right|].
Qed.

Lemma explicit_after at_ threadID turnID v u w s :
  hasTelegramOriginExplicitInterrupt u w (set_turn_state at_ (terminalGateDeferKey threadID turnID) v s)
  = hasTelegramOriginExplicitInterrupt u w s.
Proof.
  unfold set_turn_state, hasTelegramOriginExplicitInterrupt. destruct (String.eqb (terminalGateDeferKey _ _) ""); [done|].
  destruct (String.eqb_spec (terminalGateExplicitInterruptKey u w) ""); [done|].
  rewrite GetState_SetState_ne; [done|]. by apply keys_apart; [left|].
Qed.

#[export] Hint Rewrite origin_after explicit_after : bridge.

Lemma grace_minimum poll : (terminalGateMinimumGrace <= terminalGateGraceDuration poll)%Z.
Proof. unfold terminalGateGraceDuration, maxDuration. destruct (Z.ltb_spec (wrap64 (poll * 12)) terminalGateMinimumGrace); lia. Qed.

Section gate_laws.
Context `{GateCodecLaws} (poll : Z).

Lemma later_nonzero t : (zero_time < t)%Z -> is_zero t = false.
Proof. intros H1. apply Z.eqb_neq. lia. Qed.

Lemma gate_time_grace t : gate_time poll t -> (zero_time < t + terminalGateGraceDuration poll)%Z.
Proof. intros [Ht _]. pose proof (grace_minimum poll) as Hg. unfold terminalGateMinimumGrace, second in Hg. lia. Qed.

(** The window of a deferral that began at [first]. *)
Lemma window_known now first g : gate_time poll first ->
  gs_FirstSeenAt g = format_time first -> gs_ExpiresAt g = format_time (first + terminalGateGraceDuration poll)%Z ->
  gate_window poll now g = (first, (first + terminalGateGraceDuration poll)%Z).
Proof.
  intros Ht Hf He. pose proof (gate_time_grace first Ht) as Hg. destruct Ht as (H1 & H2 & H3 & _).
  unfold gate_window. rewrite Hf, He, !parseTime_format by done. by rewrite !later_nonzero.
Qed.

Lemma seen_known threadID turnID now first g : gate_time poll first ->
  gs_FirstSeenAt g = format_time first -> gs_ExpiresAt g = format_time (first + terminalGateGraceDuration poll)%Z ->
  seen_state poll threadID turnID now g
  = mkGateState threadID turnID (format_time first) (format_time now)
      (format_time (first + terminalGateGraceDuration poll)%Z) (gs_NextPollAfter g) (gs_HotPollIntervalMillis g)
      (gs_EmptyInterruptedSeenCount g + 1) (gs_LastDecision g) (gs_LastReason g).
Proof.
  intros Ht Hf He. unfold seen_state. rewrite (window_known now first g) by done.
  pose proof (gate_time_grace first Ht) as Hg. destruct Ht as (H1 & H2 & H3 & _).
  rewrite Hf, He, !parseTime_format by done. by rewrite !later_nonzero.
Qed.

Lemma load_deferring threadID turnID first now s : terminalGateDeferKey threadID turnID <> "" ->
  deferring poll threadID turnID first s ->
  exists g, loadTelegramOriginEmptyInterruptedDefer poll threadID turnID now s = Some g /\ valid_state g
    /\ gs_FirstSeenAt g = format_time first /\ gs_ExpiresAt g = format_time (first + terminalGateGraceDuration poll)%Z.
Proof.
  intros Hk (g & Hs & Hv & Hf & He). exists g. split_and!; try done.
  unfold loadTelegramOriginEmptyInterruptedDefer. apply String.eqb_neq in Hk as ->.
  rewrite Hs. destruct (gate_compact g) as [Hc Hn]. rewrite Hc. apply String.eqb_neq in Hn as ->.
  by rewrite gate_roundtrip.
Qed.

Lemma deferring_saved at_ threadID turnID first g s : terminalGateDeferKey threadID turnID <> "" ->
  valid_state g -> gs_FirstSeenAt g = format_time first ->
  gs_ExpiresAt g = format_time (first + terminalGateGraceDuration poll)%Z ->
  deferring poll threadID turnID first (saveTelegramOriginEmptyInterruptedDefer at_ threadID turnID g s).
Proof.
  intros Hk Hv Hf He. exists g. split_and!; try done.
  unfold saveTelegramOriginEmptyInterruptedDefer, set_turn_state. apply String.eqb_neq in Hk as ->.
  apply GetState_SetState.
Qed.

Lemma valid_reason snapshot : valid_text (interruptedDeferReason snapshot).
Proof.
  unfold interruptedDeferReason. destruct (isEmptyInterruptedSnapshot _); [done|].
  destruct snapshot as [sn|]; [|done]. by destruct (snapshotHasFinalSignal sn).
Qed.

(** A poll of an interrupted turn of Telegram: the decision is that of the reference, and
    the first sight of the turn is remembered. *)
Lemma decide_interrupted threadID turnID first snapshot now s :
  trim_space threadID = threadID -> trim_space turnID = turnID -> threadID <> "" -> turnID <> "" ->
  valid_text threadID -> valid_text turnID -> interrupted_poll threadID turnID snapshot ->
  gate_time poll first -> gate_time poll now ->
  isTelegramOriginTurn threadID turnID s = true -> hasTelegramOriginExplicitInterrupt threadID turnID s = false ->
  deferring poll threadID turnID first s
  \/ (trim_space (GetState (terminalGateDeferKey threadID turnID) s) = "" /\ first = now) ->
  let '(decision, s') := decideTelegramOriginEmptyInterruptedTerminal poll now (Some snapshot) now s in
  td_Action decision = gate_reference poll first now /\ deferring poll threadID turnID first s'
  /\ isTelegramOriginTurn threadID turnID s' = true /\ hasTelegramOriginExplicitInterrupt threadID turnID s' = false.
Proof.
  intros Tt Tu Nt Nu Vt Vu (Hi & Et & Eu) Hf Hn Ho Hx Hd.
  assert (terminalGateDeferKey threadID turnID <> "") as Hk
    by (unfold terminalGateDeferKey; rewrite turn_key_some by done; discriminate).
  assert (exists g, default (new_deferral poll threadID turnID (interruptedDeferReason (Some snapshot)) now)
      (loadTelegramOriginEmptyInterruptedDefer poll threadID turnID now s) = g /\ valid_state g
    /\ gs_FirstSeenAt g = format_time first
    /\ gs_ExpiresAt g = format_time (first + terminalGateGraceDuration poll)%Z) as (g & Eg & Hv & H1 & H2).
  { destruct Hd as [Hd|[Hs ->]].
    - destruct (load_deferring threadID turnID first now s Hk Hd) as (g & -> & Hg). by exists g.
    - unfold loadTelegramOriginEmptyInterruptedDefer. apply String.eqb_neq in Hk as ->. rewrite Hs. cbn [String.eqb].
      eexists. split; [reflexivity|]. split_and!; [|done|done].
      repeat (constructor; [first [assumption|reflexivity|apply valid_time|apply valid_reason]|]). constructor. }
  unfold decideTelegramOriginEmptyInterruptedTerminal, terminalGateSnapshotIDs. rewrite Et, Eu.
  destruct Hn as (Hz & _). rewrite later_nonzero by done.
  apply String.eqb_neq in Nt as ->. apply String.eqb_neq in Nu as ->. cbn [orb].
  unfold isDeferrableInterruptedSnapshot. rewrite Hi, Hx, Ho. cbn [negb]. rewrite Eg.
  rewrite (window_known now first g), (seen_known threadID turnID now first g) by done.
  assert (forall next hot d r, valid_text next -> valid_text d -> valid_text r -> valid_state (decided next hot d r
    (mkGateState threadID turnID (format_time first) (format_time now)
       (format_time (first + terminalGateGraceDuration poll)%Z) (gs_NextPollAfter g) (gs_HotPollIntervalMillis g)
       (gs_EmptyInterruptedSeenCount g + 1) (gs_LastDecision g) (gs_LastReason g)))) as Hst.
  { intros next hot d r Hnx Hd' Hr. repeat (constructor; [first [assumption|reflexivity|apply valid_time]|]). constructor. }
  assert (valid_text (gs_NextPollAfter g)) as Hnp by (unfold valid_state in Hv; rewrite !Forall_cons in Hv; apply Hv).
  unfold gate_reference. destruct (Z.leb_spec (first + terminalGateGraceDuration poll) now).
  - destruct (Z.ltb_spec now (first + terminalGateGraceDuration poll)); [lia|]. split; [done|].
    split; [apply deferring_saved; [done|by apply Hst|done|done]|].
    unfold saveTelegramOriginEmptyInterruptedDefer. by rewrite origin_after, explicit_after.
  - destruct (Z.ltb_spec now (first + terminalGateGraceDuration poll)); [|lia]. split; [done|].
    split; [apply deferring_saved; [done|apply Hst; [apply valid_time|done|apply valid_reason]|done|done]|].
    unfold saveTelegramOriginEmptyInterruptedDefer. by rewrite origin_after, explicit_after.
Qed.

Lemma gate_run_deferring threadID turnID first polls s :
  trim_space threadID = threadID -> trim_space turnID = turnID -> threadID <> "" -> turnID <> "" ->
  valid_text threadID -> valid_text turnID -> gate_time poll first ->
  isTelegramOriginTurn threadID turnID s = true -> hasTelegramOriginExplicitInterrupt threadID turnID s = false ->
  deferring poll threadID turnID first s ->
  Forall (fun p => interrupted_poll threadID turnID p.1 /\ gate_time poll p.2) polls ->
  map td_Action (gate_run poll polls s).1 = map (fun p => gate_reference poll first p.2) polls.
Proof.
  intros Tt Tu Nt Nu Vt Vu Hf. revert s. induction polls as [|[snapshot now] polls IH]; intros s Ho Hx Hd Hp; [done|].
  apply Forall_cons in Hp as [[Hi Hn] Hp]. cbn [gate_run].
  pose proof (decide_interrupted threadID turnID first snapshot now s Tt Tu Nt Nu Vt Vu Hi Hf Hn Ho Hx (or_introl Hd)) as H1.
  destruct (decideTelegramOriginEmptyInterruptedTerminal _ _ _ _ s) as [decision s1].
  destruct H1 as (Ha & Hd1 & Ho1 & Hx1). specialize (IH s1 Ho1 Hx1 Hd1 Hp).
  destruct (gate_run poll polls s1) as [decisions s2]. cbn [fst map snd] in *. by rewrite Ha, IH.
Qed.
End gate_laws.

Lemma counted_codec_laws : @GateCodecLaws counted_codec.
Proof.
  split; cbn.
  - intros g _. by rewrite parse_format_int, decode_encode.
  - intros g. split; [apply trim_format_int|]. intros E. pose proof (parse_format_int (Zpos (encode g))) as Hp.
    by rewrite E in Hp.
Qed.

Lemma ex_gate_times_ok : Forall (gate_time 0) ex_gate_times.
Proof. repeat constructor. Qed.

(** ** Theorems *)

(** C39: A turn that Telegram started and that stays interrupted, without the user having asked
    for it, is decided at every poll as the reference says: held back until the grace time
    after its first sight is over, and accepted from then on, however often it is polled. *)
Theorem gate_run_reference `{GateCodecLaws} poll threadID turnID snapshot first polls s :
  trim_space threadID = threadID -> trim_space turnID = turnID -> threadID <> "" -> turnID <> "" ->
  valid_text threadID -> valid_text turnID ->
  isTelegramOriginTurn threadID turnID s = true -> hasTelegramOriginExplicitInterrupt threadID turnID s = false ->
  trim_space (GetState (terminalGateDeferKey threadID turnID) s) = "" ->
  Forall (fun p => interrupted_poll threadID turnID p.1 /\ gate_time poll p.2) ((snapshot, first) :: polls) ->
  map td_Action (gate_run poll ((snapshot, first) :: polls) s).1
  = map (fun p => gate_reference poll first p.2) ((snapshot, first) :: polls).
Proof.
  intros Tt Tu Nt Nu Vt Vu Ho Hx Hs [[Hi Hf] Hp]%Forall_cons. cbn [gate_run].
  pose proof (decide_interrupted poll threadID turnID first snapshot first s Tt Tu Nt Nu Vt Vu Hi Hf Hf Ho Hx
    (or_intror (conj Hs eq_refl))) as H1.
  destruct (decideTelegramOriginEmptyInterruptedTerminal _ _ _ _ s) as [decision s1]. destruct H1 as (Ha & Hd1 & Ho1 & Hx1).
  pose proof (gate_run_deferring poll threadID turnID first polls s1 Tt Tu Nt Nu Vt Vu Hf Ho1 Hx1 Hd1 Hp) as Hr.
  destruct (gate_run poll polls s1) as [decisions s2]. cbn [fst map snd] in *. by rewrite Ha, Hr.
Qed.

Theorem gate_run_reference_witness :
  map td_Action (@gate_run counted_codec 0 (map (fun t => (ex_interrupted, t)) ex_gate_times) ex_origin).1
  = ["defer"; "defer"; "defer"; "accept"; "accept"].
Proof.
  pose proof (@gate_run_reference counted_codec counted_codec_laws 0 "thread" "turn" ex_interrupted ex_gate_start
    (map (fun t => (ex_interrupted, t)) (tail ex_gate_times)) ex_origin eq_refl eq_refl
    ltac:(discriminate) ltac:(discriminate) eq_refl eq_refl eq_refl eq_refl eq_refl) as H1.
  refine (eq_trans (H1 _) _); [|vm_compute; reflexivity].
  assert (Forall (gate_time 0) (ex_gate_start :: tail ex_gate_times)) as Ht by exact ex_gate_times_ok.
  rewrite Forall_cons in Ht. destruct Ht as [H0 Ht].
  constructor; [split; [by repeat split|exact H0]|]. apply Forall_fmap. eapply Forall_impl; [exact Ht|].
  intros t Hg. split; [by repeat split|exact Hg].
Defined.

Lemma next_poll_nonempty now poll : terminalGateNextPollAfter now poll <> "".
Proof.
  intros E. pose proof (f_equal String.length E) as El. unfold terminalGateNextPollAfter, format_time in El.
  destruct (civil_of_days _) as [[y m] d]. discriminate El.
Qed.

(** An end is held back exactly when the turn is shown interrupted and waiting for nobody,
    started from Telegram, was not interrupted by its user, and its window, new or
    remembered, is still open; it counts as recovered exactly when the turn is not shown so
    any more and a deferral is remembered, which is then forgotten. *)
Lemma gate_decision_spec `{GateCodec} poll clock sn now s :
  let '(threadID, turnID) := terminalGateSnapshotIDs (Some sn) in
  let at_ := if is_zero now then clock else now in
  let existing := loadTelegramOriginEmptyInterruptedDefer poll threadID turnID at_ s in
  let found := default (new_deferral poll threadID turnID (interruptedDeferReason (Some sn)) at_) existing in
  let '(decision, s') := decideTelegramOriginEmptyInterruptedTerminal poll clock (Some sn) now s in
  (td_Action decision = terminalGateDefer <->
     interrupted_alone sn = true /\ isTelegramOriginTurn threadID turnID s = true
     /\ hasTelegramOriginExplicitInterrupt threadID turnID s = false /\ (at_ < (gate_window poll at_ found).2)%Z)
  /\ (td_Action decision = terminalGateRecover <->
        threadID <> "" /\ turnID <> "" /\ interrupted_alone sn = false /\ is_Some existing)
  /\ (td_Action decision = terminalGateRecover ->
        loadTelegramOriginEmptyInterruptedDefer poll threadID turnID at_ s' = None)
  /\ (td_HotPoll decision = true <-> td_NextPollAfter decision <> "").
Proof.
  unfold decideTelegramOriginEmptyInterruptedTerminal, terminalGateSnapshotIDs, isDeferrableInterruptedSnapshot.
  set (threadID := trim_space (th_ID (sn_Thread sn))). set (turnID := trim_space (sn_LatestTurnID sn)).
  set (at_ := if is_zero now then clock else now).
  destruct (String.eqb threadID "" || String.eqb turnID "") eqn:Ei.
  { assert (interrupted_alone sn = false) as ->.
    { unfold interrupted_alone. fold threadID turnID. rewrite Ei. cbn [negb]. by rewrite andb_false_r. }
    apply orb_true_iff in Ei. rewrite !String.eqb_eq in Ei. cbn.
    split_and!; [by split; [|intros [? _]]| |done|done].
    split; [done|]. by intros (Nt & Nu & _); destruct Ei. }
  assert (threadID <> "" /\ turnID <> "") as [Nt Nu]
    by (apply orb_false_iff in Ei as [E1%String.eqb_neq E2%String.eqb_neq]; done).
  destruct (interrupted_alone sn) eqn:Ea; cbn [negb].
  2: { destruct (loadTelegramOriginEmptyInterruptedDefer poll threadID turnID at_ s) as [g|] eqn:El;
      cbn [td_Action td_HotPoll td_NextPollAfter].
    2: { split_and!; [by split; [|intros [? _]]|split; [done|by intros (_ & _ & _ & [? ?])]|done|done]. }
    split_and!; [by split; [|intros [? _]]|split; [by intros _; split_and!; [| | |exists g]|done]| |].
    - intros _. unfold loadTelegramOriginEmptyInterruptedDefer, clearTelegramOriginEmptyInterruptedDefer, set_turn_state.
      destruct (String.eqb (terminalGateDeferKey threadID turnID) ""); [done|]. by rewrite GetState_SetState.
    - destruct (terminalGateSnapshotNeedsHotPolling (Some sn)); cbn [td_Action td_HotPoll td_NextPollAfter];
        (split; [|done || by intros []]); [intros _; apply next_poll_nonempty|done]. }
  destruct (hasTelegramOriginExplicitInterrupt threadID turnID s); [cbn|].
  { split_and!; [by split; [|intros (_ & _ & ? & _)]|by split; [|intros (_ & _ & ? & _)]|done|done]. }
  destruct (isTelegramOriginTurn threadID turnID s); cbn [negb].
  2: { cbn. split_and!; [by split; [|intros (_ & ? & _)]|by split; [|intros (_ & _ & ? & _)]|done|done]. }
  set (found := default _ _). destruct (gate_window poll at_ found) as [first expiresAt]. cbn [snd].
  destruct (Z.leb_spec expiresAt at_); cbn [td_Action td_HotPoll td_NextPollAfter].
  - split_and!; [split; [done|intros (_ & _ & _ & ?); lia]|by split; [|intros (_ & _ & ? & _)]|done|done].
  - split_and!; [by split|by split; [|intros (_ & _ & ? & _)]|done|split; [intros _; apply next_poll_nonempty|done]].
Qed.

(** Once the user has interrupted a turn, no poll of it is held back. *)
Theorem explicit_interrupt_passes `{GateCodecLaws} poll now clock threadID turnID sn previous s :
  trim_space (th_ID (sn_Thread sn)) = trim_space threadID -> trim_space (sn_LatestTurnID sn) = trim_space turnID ->
  (applyTelegramOriginTerminalGate poll clock (Some sn) previous
     (markTelegramOriginExplicitInterrupt now threadID turnID s)).1 = false.
Proof.
  intros E1 E2. unfold applyTelegramOriginTerminalGate.
  pose proof (gate_decision_spec poll clock sn clock (markTelegramOriginExplicitInterrupt now threadID turnID s)) as Hd.
  unfold terminalGateSnapshotIDs in Hd. rewrite E1, E2 in Hd. cbn zeta in Hd.
  destruct (decideTelegramOriginEmptyInterruptedTerminal _ _ _ _ _) as [d s1]. destruct Hd as [Hd _].
  destruct (String.eqb_spec (td_Action d) terminalGateDefer) as [Ea|]; [|done]. exfalso.
  apply Hd in Ea as (Hi & _ & Hx & _). revert Hx.
  assert (turn_key terminalGateExplicitInterruptPrefix (trim_space threadID) (trim_space turnID)
          = terminalGateExplicitInterruptKey threadID turnID) as Ek
    by (unfold terminalGateExplicitInterruptKey, turn_key; by rewrite !trim_space_idemp).
  unfold hasTelegramOriginExplicitInterrupt, markTelegramOriginExplicitInterrupt, set_turn_state.
  unfold terminalGateExplicitInterruptKey at 1 2. rewrite Ek.
  destruct (String.eqb_spec (terminalGateExplicitInterruptKey threadID turnID) "") as [En|].
  - exfalso. unfold interrupted_alone in Hi. rewrite E1, E2 in Hi. unfold terminalGateExplicitInterruptKey, turn_key in En.
    destruct (String.eqb (trim_space threadID) "" || _); [|discriminate En].
    cbn [negb] in Hi. by rewrite andb_false_r in Hi.
  - rewrite GetState_SetState. destruct (gate_compact (mkGateState (trim_space threadID) (trim_space turnID)
      (format_time now) (format_time now) "" "" 0 0 terminalGateAccept "explicit_interrupt")) as [-> Hn].
    by apply String.eqb_neq in Hn as ->.
Qed.

Theorem explicit_interrupt_passes_witness :
  trim_space (th_ID (sn_Thread ex_interrupted)) = trim_space "thread" /\ trim_space (sn_LatestTurnID ex_interrupted) = trim_space "turn"
  /\ (@applyTelegramOriginTerminalGate counted_codec 0 ex_gate_start (Some ex_interrupted) None
        (@markTelegramOriginExplicitInterrupt counted_codec ex_gate_start "thread" "turn" ex_origin)).1 = false.
Proof.
  split; [reflexivity|]. split; [reflexivity|].
  apply (@explicit_interrupt_passes counted_codec counted_codec_laws 0%Z ex_gate_start ex_gate_start "thread" "turn"
           ex_interrupted None ex_origin); reflexivity.
Defined.
