(* ===== verification/Projects.v ===== *)
(** * internal/projectregistry/registry.go: the allowed projects

    The registry holds the projects of the configuration, checked once: no field is
    blank, no id, name or directory occurs twice.  A lookup checks the directory again.
    The path functions of the operating system are a [Platform]. *)
From stdpp Require Import base list numbers strings gmap.
From Stdlib Require Import Lia Ascii.
From S2P Require Import Prelude GoStrings Unicode Sql.

(** model.Project *)
Record Project : Type := mkProject {
  pj_ID : string;
  pj_DisplayName : string;
  pj_CanonicalPath : string }.

(** path/filepath and os, on the machine the program runs on. *)
Record Platform : Type := mkPlatform {
  pf_Windows : bool;                       (* runtime.GOOS == "windows" *)
  pf_Separator : string;
  pf_Clean : string -> string;
  pf_Abs : string -> res string;
  pf_EvalSymlinks : string -> res string;
  pf_Stat : string -> res bool;            (* is it a directory *)
  pf_Rel : string -> string -> res string;
  pf_IsAbs : string -> bool }.

(** What is wrong with a directory. *)
Inductive path_error : Type :=
| pa_Blank
| pa_Absolute (message : string)
| pa_Canonicalize (path message : string)
| pa_Stat (path message : string)
| pa_NotDirectory (path : string).

(** The errors of the package; [pe_Directory] wraps the error of the directory. *)
Inductive project_error : Type :=
| pe_Unknown (id : string)
| pe_NoID (index : Z)
| pe_NoName (id : string)
| pe_NoPath (id : string)
| pe_DuplicateID (id : string)
| pe_DuplicateName (name : string)
| pe_Collision (id canonical : string)
| pe_Directory (id : string) (e : path_error)
| pe_Changed (id from to : string).

#[export] Instance Project_eq_dec : EqDecision Project := ltac:(solve_decision).

(** A registry; a nil pointer is None. *)
Record Registry : Type := mkRegistry {
  rg_projects : list Project;
  rg_byID : gmap string nat }.

Definition comparisonKey (value : string) : string := ToLower (trim_space value).

Section registry.
Context (pf : Platform).

Definition pathComparisonKey (value : string) : string :=
  let cleaned := pf_Clean pf value in if pf_Windows pf then ToLower cleaned else cleaned.

Definition canonicalDirectory (path : string) : string + path_error :=
  let trimmed := trim_space path in
  if String.eqb trimmed "" then inr pa_Blank
  else
    match pf_Abs pf (pf_Clean pf trimmed) with
    | Err e => inr (pa_Absolute e)
    | Ok absolute =>
        match pf_EvalSymlinks pf absolute with
        | Err e => inr (pa_Canonicalize absolute e)
        | Ok evaluated =>
            match pf_Stat pf evaluated with
            | Err e => inr (pa_Stat evaluated e)
            | Ok dir => if dir then inl (pf_Clean pf evaluated) else inr (pa_NotDirectory evaluated)
            end
        end
    end.

Definition containsPath (root candidate : string) : bool :=
  match pf_Rel pf root candidate with
  | Err _ => false
  | Ok relative =>
      if pf_IsAbs pf relative then false
      else String.eqb relative "."
           || (negb (String.eqb relative "..") && negb (has_prefix relative (".." +:+ pf_Separator pf)))
  end.

Definition trimmedProject (raw : Project) : Project :=
  mkProject (trim_space (pj_ID raw)) (trim_space (pj_DisplayName raw)) (trim_space (pj_CanonicalPath raw)).

(** The sets of keys the loop of New keeps, and the registry so far. *)
Record Seen : Type := mkSeen {
  se_ids : list string;
  se_names : list string;
  se_paths : list string;
  se_registry : Registry }.

Definition seen_key (key : string) (keys : list string) : bool := existsb (String.eqb key) keys.

(** One turn of the loop. *)
Definition addProject (index : Z) (raw : Project) (seen : Seen) : Seen + project_error :=
  let project := trimmedProject raw in
  if String.eqb (pj_ID project) "" then inr (pe_NoID (index + 1))
  else if String.eqb (pj_DisplayName project) "" then inr (pe_NoName (pj_ID project))
  else if String.eqb (pj_CanonicalPath project) "" then inr (pe_NoPath (pj_ID project))
  else
    let idKey := comparisonKey (pj_ID project) in
    if seen_key idKey (se_ids seen) then inr (pe_DuplicateID (pj_ID project))
    else
      let displayKey := comparisonKey (pj_DisplayName project) in
      if seen_key displayKey (se_names seen) then inr (pe_DuplicateName (pj_DisplayName project))
      else
        match canonicalDirectory (pj_CanonicalPath project) with
        | inr e => inr (pe_Directory (pj_ID project) e)
        | inl canonical =>
            let pathKey := pathComparisonKey canonical in
            if seen_key pathKey (se_paths seen) then inr (pe_Collision (pj_ID project) canonical)
            else
              let registry := se_registry seen in
              inl (mkSeen (idKey :: se_ids seen) (displayKey :: se_names seen) (pathKey :: se_paths seen)
                (mkRegistry
                  (rg_projects registry ++ [mkProject (pj_ID project) (pj_DisplayName project) canonical])
                  (<[idKey := length (rg_projects registry)]> (rg_byID registry))))
        end.

Fixpoint addProjects (index : Z) (raws : list Project) (seen : Seen) : Seen + project_error :=
  match raws with
  | [] => inl seen
  | raw :: rest =>
      match addProject index raw seen with
      | inl seen' => addProjects (index + 1) rest seen'
      | inr e => inr e
      end
  end.

Definition New (projects : list Project) : Registry + project_error :=
  match addProjects 0 projects (mkSeen [] [] [] (mkRegistry [] ∅)) with
  | inl seen => inl (se_registry seen)
  | inr e => inr e
  end.

Definition Projects (r : option Registry) : list Project :=
  match r with None => [] | Some r => rg_projects r end.

(** An index of byID is within the projects; a nil registry knows none. *)
Definition Resolve (r : option Registry) (id : string) : Project + project_error :=
  match r with
  | None => inr (pe_Unknown id)
  | Some r =>
      match index ← rg_byID r !! comparisonKey (trim_space id); rg_projects r !! index with
      | None => inr (pe_Unknown id)
      | Some project =>
          match canonicalDirectory (pj_CanonicalPath project) with
          | inr e => inr (pe_Directory (pj_ID project) e)
          | inl canonical =>
              if String.eqb (pathComparisonKey canonical) (pathComparisonKey (pj_CanonicalPath project))
              then inl project
              else inr (pe_Changed (pj_ID project) (pj_CanonicalPath project) canonical)
          end
      end
  end.

(** One turn of the loop of MatchCWD: the best project so far and the length of its path. *)
Definition moreSpecific (r : Registry) (canonicalCWD : string) (best : option Project) (cached : Project)
  : option Project :=
  match Resolve (Some r) (pj_ID cached) with
  | inr _ => best
  | inl project =>
      if containsPath (pj_CanonicalPath project) canonicalCWD
         && match best with
            | None => true
            | Some b => (String.length (pj_CanonicalPath b) <? String.length (pj_CanonicalPath project))%nat
            end
      then Some project else best
  end.

Definition MatchCWD (r : option Registry) (cwd : string) : option Project :=
  match r with
  | None => None
  | Some r =>
      match canonicalDirectory cwd with
      | inr _ => None
      | inl canonicalCWD => fold_left (moreSpecific r canonicalCWD) (rg_projects r) None
      end
  end.

Definition MatchExactCWD (r : option Registry) (cwd : string) : option Project :=
  match r with
  | None => None
  | Some r' =>
      match canonicalDirectory cwd with
      | inr _ => None
      | inl canonicalCWD =>
          first_some (fun cached =>
            match Resolve r (pj_ID cached) with
            | inr _ => None
            | inl project =>
                if String.eqb (pathComparisonKey (pj_CanonicalPath project)) (pathComparisonKey canonicalCWD)
                then Some project else None
            end) (rg_projects r')
      end
  end.

(** ** Specification *)

(** A project of the configuration and its directory, as the registry keeps it. *)
Definition registered (raw project : Project) : Prop :=
  pj_ID project = trim_space (pj_ID raw) /\ pj_ID project <> ""
  /\ pj_DisplayName project = trim_space (pj_DisplayName raw) /\ pj_DisplayName project <> ""
  /\ canonicalDirectory (pj_CanonicalPath raw) = inl (pj_CanonicalPath project).

(** No two projects share an id, a name or a directory. *)
Definition distinct (ps : list Project) : Prop :=
  NoDup (map (fun p => comparisonKey (pj_ID p)) ps)
  /\ NoDup (map (fun p => comparisonKey (pj_DisplayName p)) ps)
  /\ NoDup (map (fun p => pathComparisonKey (pj_CanonicalPath p)) ps).

(** A registry of distinct projects, each found by its id. *)
Record RegistryInv (r : Registry) : Prop := mkRegistryInv {
  ri_distinct : distinct (rg_projects r);
  ri_byID : forall key i, rg_byID r !! key = Some i <->
              exists p, rg_projects r !! i = Some p /\ comparisonKey (pj_ID p) = key }.

(** The directory of a project is still where it was. *)
Definition in_place (p : Project) : Prop :=
  exists canonical, canonicalDirectory (pj_CanonicalPath p) = inl canonical
    /\ pathComparisonKey canonical = pathComparisonKey (pj_CanonicalPath p).

(** The sets of keys are those of the projects so far. *)
Record SeenInv (seen : Seen) : Prop := mkSeenInv {
  si_registry : RegistryInv (se_registry seen);
  si_ids : forall k, k ∈ se_ids seen <-> k ∈ map (fun p => comparisonKey (pj_ID p)) (rg_projects (se_registry seen));
  si_names : forall k, k ∈ se_names seen <-> k ∈ map (fun p => comparisonKey (pj_DisplayName p)) (rg_projects (se_registry seen));
  si_paths : forall k, k ∈ se_paths seen <->
               k ∈ map (fun p => pathComparisonKey (pj_CanonicalPath p)) (rg_projects (se_registry seen)) }.

(** The keys of a project are new. *)
Definition fresh (p : Project) (ps : list Project) : Prop :=
  ~ (comparisonKey (pj_ID p) ∈ map (fun p => comparisonKey (pj_ID p)) ps)
  /\ ~ (comparisonKey (pj_DisplayName p) ∈ map (fun p => comparisonKey (pj_DisplayName p)) ps)
  /\ ~ (pathComparisonKey (pj_CanonicalPath p) ∈ map (fun p => pathComparisonKey (pj_CanonicalPath p)) ps).

(** The registry with one more project. *)
Definition with_project (r : Registry) (p : Project) : Registry :=
  mkRegistry (rg_projects r ++ [p]) (<[comparisonKey (pj_ID p) := length (rg_projects r)]> (rg_byID r)).

(** The best of the projects seen so far. *)
Definition best_of (canonicalCWD : string) (seen : list Project) (best : option Project) : Prop :=
  match best with
  | None => forall q, q ∈ seen -> in_place q -> containsPath (pj_CanonicalPath q) canonicalCWD = false
  | Some p => p ∈ seen /\ in_place p /\ containsPath (pj_CanonicalPath p) canonicalCWD = true
      /\ forall q, q ∈ seen -> in_place q -> containsPath (pj_CanonicalPath q) canonicalCWD = true ->
           (String.length (pj_CanonicalPath q) <= String.length (pj_CanonicalPath p))%nat
  end.

End registry.

(** A sample machine: every path names a directory of itself. *)
Definition ex_platform : Platform :=
  mkPlatform false "/" path_clean (fun p => Ok p) (fun p => Ok p) (fun _ => Ok true)
    (fun root path => if String.eqb root path then Ok "."
                      else if has_prefix path (root +:+ "/") then Ok (str_drop (S (String.length root)) path)
                      else Ok "..") (fun p => has_prefix p "/").

Definition ex_projects : list Project :=
  [mkProject " Alpha" "First" "/work/alpha/"; mkProject "beta" "Second " "/work/alpha/beta"].

Definition ex_registry : Registry :=
  match New ex_platform ex_projects with inl r => r | inr _ => mkRegistry [] ∅ end.

(** Ids are compared without regard to case, in every alphabet; a Windows path too. *)
Example New_duplicate :
  New ex_platform [mkProject "Äpfel" "First" "/work/alpha"; mkProject " äPFEL" "Second" "/work/beta"]
  = inr (pe_DuplicateID "äPFEL").
Proof. vm_compute. reflexivity. Qed.

(** ** Lemmas *)

Section lemmas.
Context (pf : Platform).

Lemma comparisonKey_trim v : comparisonKey (trim_space v) = comparisonKey v.
Proof. unfold comparisonKey. by rewrite trim_space_idemp. Qed.

Lemma canonical_trim path : canonicalDirectory pf (trim_space path) = canonicalDirectory pf path.
Proof. unfold canonicalDirectory. by rewrite trim_space_idemp. Qed.

Lemma seen_key_spec key keys : seen_key key keys = true <-> key ∈ keys.
Proof.
  unfold seen_key. rewrite existsb_exists. split.
  - intros (x & Hx%list_elem_of_In & ->%String.eqb_eq). done.
  - intros H. exists key. split; [by apply list_elem_of_In|apply String.eqb_refl].
Qed.

Lemma seen_key_not key keys : seen_key key keys = false <-> key ∉ keys.
Proof. rewrite <- seen_key_spec. by destruct (seen_key key keys). Qed.

Lemma nodup_snoc {A} (l : list A) x : NoDup (l ++ [x]) <-> NoDup l /\ x ∉ l.
Proof.
  rewrite NoDup_app. split.
  - intros (H & Hx & _). split; [done|]. intros Hin. apply (Hx x Hin). left.
  - intros [H Hx]. split_and!; [done| |apply NoDup_singleton]. intros y Hy ->%list_elem_of_singleton. done.
Qed.

Lemma elem_snoc {A} (k x : A) l : k ∈ l ++ [x] <-> k = x \/ k ∈ l.
Proof. rewrite elem_of_app, list_elem_of_singleton. tauto. Qed.

Lemma distinct_snoc p ps : distinct pf (ps ++ [p]) <-> distinct pf ps /\ fresh pf p ps.
Proof. unfold distinct, fresh. rewrite !map_app. cbn [map]. rewrite !nodup_snoc. tauto. Qed.

Lemma distinct_prefix ps qs : distinct pf (ps ++ qs) -> distinct pf ps.
Proof. unfold distinct. rewrite !map_app, !NoDup_app. tauto. Qed.

Lemma registered_inj raw p q : registered pf raw p -> registered pf raw q -> p = q.
Proof.
  intros (H1 & _ & H2 & _ & H3) (K1 & _ & K2 & _ & K3). destruct p, q; cbn in *. congruence.
Qed.

Lemma with_project_inv r p : RegistryInv pf r -> fresh pf p (rg_projects r) -> RegistryInv pf (with_project r p).
Proof.
  intros [H1 H4] F. split; cbn [with_project rg_projects rg_byID]; [by apply distinct_snoc|].
  destruct F as (F1 & _).
  intros key i. rewrite lookup_insert_Some. split.
  - intros [[<- <-]|[Hk Hi]].
    + exists p. by rewrite list_lookup_middle.
    + apply H4 in Hi as (q & Hq & Hkey). exists q. split; [|done]. by apply lookup_app_l_Some.
  - intros (q & Hq & Hkey). apply lookup_app_Some in Hq as [Hq|[Hle Hq]].
    + right. split; [|apply H4; by exists q]. intros Hk. apply F1. rewrite Hk, <- Hkey.
      apply list_elem_of_fmap. exists q. split; [done|by eapply list_elem_of_lookup_2].
    + left. apply list_lookup_singleton_Some in Hq as [Hi <-]. split; [done|lia].
Qed.

(** One turn of the loop succeeds exactly on a project that registers with new keys. *)
Lemma addProject_spec index raw seen : SeenInv pf seen ->
  match addProject pf index raw seen with
  | inl seen' => SeenInv pf seen' /\ exists p, registered pf raw p /\ se_registry seen' = with_project (se_registry seen) p
                 /\ fresh pf p (rg_projects (se_registry seen))
  | inr _ => forall p, registered pf raw p -> ~ fresh pf p (rg_projects (se_registry seen))
  end.
Proof.
  intros [HR HI HN HP]. unfold addProject, registered. cbn [trimmedProject pj_ID pj_DisplayName pj_CanonicalPath].
  destruct (String.eqb_spec (trim_space (pj_ID raw)) "") as [E1|E1]; [intros p (Ha & Hb & _); congruence|].
  destruct (String.eqb_spec (trim_space (pj_DisplayName raw)) "") as [E2|E2]; [intros p (_ & _ & Ha & Hb & _); congruence|].
  destruct (String.eqb_spec (trim_space (pj_CanonicalPath raw)) "") as [E3|E3].
  { intros p (_ & _ & _ & _ & Hc). unfold canonicalDirectory in Hc. rewrite E3 in Hc. discriminate Hc. }
  destruct (seen_key _ (se_ids seen)) eqn:K1.
  { intros p (Ha & _) (F & _). apply F. rewrite Ha. by apply HI, seen_key_spec. }
  destruct (seen_key _ (se_names seen)) eqn:K2.
  { intros p (_ & _ & Ha & _) (_ & F & _). apply F. rewrite Ha. by apply HN, seen_key_spec. }
  rewrite canonical_trim. destruct (canonicalDirectory pf (pj_CanonicalPath raw)) as [canonical|e] eqn:Ec.
  2: { intros p (_ & _ & _ & _ & Hc). discriminate Hc. }
  destruct (seen_key _ (se_paths seen)) eqn:K3.
  { intros p (_ & _ & _ & _ & [= Hc]) (_ & _ & F). apply F. rewrite <- Hc. by apply HP, seen_key_spec. }
  set (p := mkProject (trim_space (pj_ID raw)) (trim_space (pj_DisplayName raw)) canonical).
  assert (fresh pf p (rg_projects (se_registry seen))) as F.
  { split_and!; [rewrite <- HI|rewrite <- HN|rewrite <- HP]; by apply seen_key_not. }
  split; [split; cbn [se_registry se_ids se_names se_paths rg_projects]|exists p; by split_and!].
  - by apply (with_project_inv _ p).
  - intros k. rewrite map_app; cbn [map]; rewrite elem_snoc, elem_of_cons, HI. done.
  - intros k. rewrite map_app; cbn [map]; rewrite elem_snoc, elem_of_cons, HN. done.
  - intros k. rewrite map_app; cbn [map]; rewrite elem_snoc, elem_of_cons, HP. done.
Qed.

(** The loop registers the projects in order, or meets one it cannot. *)
Lemma addProjects_spec index raws seen : SeenInv pf seen ->
  match addProjects pf index raws seen with
  | inl seen' => RegistryInv pf (se_registry seen')
      /\ exists ps, Forall2 (registered pf) raws ps /\ rg_projects (se_registry seen') = rg_projects (se_registry seen) ++ ps
  | inr _ => forall ps, Forall2 (registered pf) raws ps -> ~ distinct pf (rg_projects (se_registry seen) ++ ps)
  end.
Proof.
  revert index seen. induction raws as [|raw raws IH]; intros index seen HI; cbn [addProjects].
  { split; [apply HI|]. exists []. by rewrite app_nil_r. }
  pose proof (addProject_spec index raw seen HI) as H. destruct (addProject pf index raw seen) as [seen1|e].
  - destruct H as [HI1 (p & Hp & Hreg & Hf)]. pose proof (IH (index + 1)%Z seen1 HI1) as IH1. rewrite Hreg in IH1.
    cbn [with_project rg_projects] in IH1. destruct (addProjects pf (index + 1) raws seen1) as [seen2|e].
    + destruct IH1 as [HI2 (ps & Hps & Heq)]. split; [done|]. exists (p :: ps). split; [by constructor|].
      by rewrite Heq, <- app_assoc.
    + intros ps Hps. inversion Hps as [|? q ? qs Hq Hqs]; subst.
      rewrite (registered_inj raw q p Hq Hp), cons_middle, app_assoc. by apply IH1.
  - intros ps Hps Hd. inversion Hps as [|? q ? qs Hq Hqs]; subst. apply (H q Hq).
    rewrite cons_middle, app_assoc in Hd. by apply distinct_prefix, distinct_snoc in Hd as [_ ?].
Qed.

Lemma SeenInv_empty : SeenInv pf (mkSeen [] [] [] (mkRegistry [] ∅)).
Proof.
  split; cbn; [|done..]. split; cbn; [repeat split; constructor|]. intros key i. rewrite lookup_empty.
  split; [done|]. by intros (p & Hp & _).
Qed.

(** A lookup of a registered project, whatever the case and the spaces of its id. *)
Lemma Resolve_found r p id : RegistryInv pf r -> p ∈ rg_projects r -> comparisonKey id = comparisonKey (pj_ID p) ->
  (in_place pf p -> Resolve pf (Some r) id = inl p)
  /\ (~ in_place pf p -> exists e, Resolve pf (Some r) id = inr e).
Proof.
  intros [_ Hby] Hp Hid. apply list_elem_of_lookup in Hp as [i Hi]. unfold Resolve.
  rewrite comparisonKey_trim, Hid. assert (rg_byID r !! comparisonKey (pj_ID p) = Some i) as -> by (apply Hby; by exists p).
  cbn [mbind option_bind]. rewrite Hi. unfold in_place.
  destruct (canonicalDirectory pf (pj_CanonicalPath p)) as [canonical|e].
  - destruct (String.eqb_spec (pathComparisonKey pf canonical) (pathComparisonKey pf (pj_CanonicalPath p))) as [E|E].
    + split; [done|]. intros H. destruct H. by exists canonical.
    + split; [|by eexists]. by intros (c & [= <-] & ?).
  - split; [by intros (c & ? & _)|by eexists].
Qed.

Lemma Resolve_own r p : RegistryInv pf r -> p ∈ rg_projects r ->
  Resolve pf (Some r) (pj_ID p) = inl p /\ in_place pf p
  \/ (exists e, Resolve pf (Some r) (pj_ID p) = inr e) /\ ~ in_place pf p.
Proof.
  intros HI Hp. destruct (Resolve_found r p (pj_ID p) HI Hp eq_refl) as [H1 H2].
  destruct (canonicalDirectory pf (pj_CanonicalPath p)) as [c|e] eqn:Ec.
  - destruct (String.eqb_spec (pathComparisonKey pf c) (pathComparisonKey pf (pj_CanonicalPath p))) as [E|E].
    + left. assert (in_place pf p) by (by exists c). split; [by apply H1|done].
    + right. assert (~ in_place pf p) as Hn by (intros (d & Hd & ?); congruence). split; [by apply H2|done].
  - right. assert (~ in_place pf p) as Hn by (intros (d & Hd & ?); congruence). split; [by apply H2|done].
Qed.

Lemma moreSpecific_best r canonicalCWD ps : RegistryInv pf r -> (forall p, p ∈ ps -> p ∈ rg_projects r) ->
  best_of pf canonicalCWD ps (fold_left (moreSpecific pf r canonicalCWD) ps None).
Proof.
  intros HI. induction ps as [|p ps IH] using rev_ind; intros Hps; [intros q Hq; by apply elem_of_nil in Hq|].
  rewrite fold_left_app. cbn [fold_left]. specialize (IH (fun q Hq => Hps q (proj2 (elem_of_app _ _ _) (or_introl Hq)))).
  set (best := fold_left _ ps None) in *. unfold moreSpecific.
  destruct (Resolve_own r p HI) as [[-> Hin]|[[e ->] Hin]]; [apply Hps, elem_of_app; right; left| |].
  2: { destruct best as [b|]; cbn [best_of] in *.
       - destruct IH as (H1 & H2 & H3 & H4). split_and!; [apply elem_of_app; by left|done|done|].
         intros q [->|Hq]%elem_snoc Hq2; [done|by apply H4].
       - intros q [->|Hq]%elem_snoc Hq2; [done|by apply IH]. }
  destruct (containsPath pf (pj_CanonicalPath p) canonicalCWD) eqn:Ec; cbn [andb].
  2: { destruct best as [b|]; cbn [best_of] in *.
       - destruct IH as (H1 & H2 & H3 & H4). split_and!; [apply elem_of_app; by left|done|done|].
         intros q [->|Hq]%elem_snoc Hq2 Hq3; [congruence|by apply H4].
       - intros q [->|Hq]%elem_snoc Hq2; [done|by apply IH]. }
  destruct best as [b|]; cbn [best_of] in IH.
  - destruct IH as (H1 & H2 & H3 & H4). destruct (Nat.ltb_spec (String.length (pj_CanonicalPath b)) (String.length (pj_CanonicalPath p)));
      cbn [best_of]; (split_and!; [apply elem_snoc; by tauto|done|done|]); intros q [->|Hq]%elem_snoc Hq2 Hq3; try lia;
      specialize (H4 q Hq Hq2 Hq3); lia.
  - cbn [best_of]. split_and!; [apply elem_snoc; by left|done|done|]. intros q [->|Hq]%elem_snoc Hq2 Hq3; [done|].
    rewrite (IH q Hq Hq2) in Hq3. discriminate Hq3.
Qed.

(** ** Theorems *)

(** C40: The registry is made exactly when every project is complete, has a directory, and
    shares neither id nor name nor directory with another; it then holds the projects of
    the configuration in their order, trimmed, each found by its id. *)
Theorem New_spec projects :
  match New pf projects with
  | inl r => RegistryInv pf r /\ Forall2 (registered pf) projects (rg_projects r)
  | inr _ => forall ps, Forall2 (registered pf) projects ps -> ~ distinct pf ps
  end.
Proof.
  unfold New. pose proof (addProjects_spec 0 projects _ SeenInv_empty) as H.
  destruct (addProjects pf 0 projects _) as [seen|e]; [|exact H].
  destruct H as [HI (ps & Hps & Heq)]. split; [done|]. cbn in Heq. by rewrite Heq.
Qed.

(** A working directory belongs to the registered project with the longest root that
    contains it, among those whose directory is still in place; to none if there is none. *)
Theorem MatchCWD_spec r cwd canonicalCWD :
  RegistryInv pf r -> canonicalDirectory pf cwd = inl canonicalCWD ->
  best_of pf canonicalCWD (rg_projects r) (MatchCWD pf (Some r) cwd).
Proof. intros HI Hc. unfold MatchCWD. rewrite Hc. by apply moreSpecific_best. Qed.

(** A working directory is the root of at most one project: the one the registry answers,
    when its directory is still in place. *)
Theorem MatchExactCWD_spec r cwd canonicalCWD p :
  RegistryInv pf r -> canonicalDirectory pf cwd = inl canonicalCWD ->
  MatchExactCWD pf (Some r) cwd = Some p
  <-> p ∈ rg_projects r /\ in_place pf p
      /\ pathComparisonKey pf (pj_CanonicalPath p) = pathComparisonKey pf canonicalCWD.
Proof.
  intros HI Hc. unfold MatchExactCWD. rewrite Hc. split.
  - intros (q & Hq & H)%first_some_spec. destruct (Resolve_own r q HI Hq) as [[E Hin]|[[e E] _]]; rewrite E in H; [|done].
    destruct (String.eqb_spec (pathComparisonKey pf (pj_CanonicalPath q)) (pathComparisonKey pf canonicalCWD)); [|done].
    by injection H as <-.
  - intros (Hp & Hin & Hk).
    match goal with |- first_some ?f _ = _ => assert (forall q, q ∈ rg_projects r -> f q = if decide (q = p) then Some p else None) as Hf end.
    { intros q Hq. cbn beta. destruct (Resolve_own r q HI Hq) as [[E Hqin]|[[e E] Hqin]]; rewrite E.
      - destruct (String.eqb_spec (pathComparisonKey pf (pj_CanonicalPath q)) (pathComparisonKey pf canonicalCWD)) as [Ek|Ek];
          case_decide as Ed; [by subst| |by subst|done].
        destruct Ed. destruct HI as [(_ & _ & Hd) _]. apply (keyed_inj (fun p => pathComparisonKey pf (pj_CanonicalPath p)) _ _ _ Hd Hq Hp).
        cbn beta. congruence.
      - case_decide as Ed; [by subst|done]. }
    revert Hp Hf. generalize (rg_projects r). intros ps Hp Hf. induction ps as [|x ps IH]; [by apply elem_of_nil in Hp|].
    cbn [first_some]. rewrite (Hf x) by left. case_decide as Ed; [done|].
    apply IH; [by apply elem_of_cons in Hp as [->|]|]. intros q Hq. apply Hf. by right.
Qed.

End lemmas.

Lemma ex_registry_inv : RegistryInv ex_platform ex_registry.
Proof. exact (proj1 (addProjects_spec ex_platform 0 ex_projects _ (SeenInv_empty ex_platform))). Qed.

Lemma MatchCWD_spec_witness :
  MatchCWD ex_platform (Some ex_registry) " /work/alpha/beta/src" = Some (mkProject "beta" "Second" "/work/alpha/beta")
  /\ best_of ex_platform "/work/alpha/beta/src" (rg_projects ex_registry)
       (MatchCWD ex_platform (Some ex_registry) " /work/alpha/beta/src").
Proof.
  split; [by vm_compute|].
  apply (MatchCWD_spec ex_platform ex_registry); [exact ex_registry_inv|by vm_compute].
Defined.

Lemma MatchExactCWD_spec_witness :
  MatchExactCWD ex_platform (Some ex_registry) "/work/alpha/./" = Some (mkProject "Alpha" "First" "/work/alpha").
Proof.
  apply (MatchExactCWD_spec ex_platform ex_registry "/work/alpha/./" "/work/alpha");
    [exact ex_registry_inv|by vm_compute|].
  split; [by left|]. split; [exists "/work/alpha"; split; by vm_compute|by vm_compute].
Defined.
