(* ===== verification/ApprovalHandlers.v ===== *)
(** * internal/daemon/minimal_approval.go: from a request to its answer

    A request for an approval becomes a message with two buttons; a press claims the
    request, answers the session that waits for it and ends the claim.  Sessions, the
    directories and Telegram are given by functions; the store is that of Approvals.v.
    While a session is answered the store may change: the answer takes the store it
    finds afterwards from the session. *)
From stdpp Require Import base list numbers strings gmap relations.
From Stdlib Require Import Lia Ascii.
From S2P Require Import Prelude GoStrings Utf8 Crypto Json GoTime Sql Model Control Normalize NotifierFormat.
From S2P Require Import CoreTables Store Daemon NotifierIngress Delivery DeliveryWorker QueueSafety PendingCommands.
From S2P Require Import Threads Approvals ApprovalSafety TerminalGate NotifierObserver Projects.

Definition minimalCommandApprovalKind : string := "item/commandExecution/requestApproval".
Definition minimalFileApprovalKind : string := "item/fileChange/requestApproval".
Definition minimalApprovalQueueKind : string := "minimal_approval".
Definition minimalApprovalInactiveEditQueueKind : string := "minimal_approval_inactive_edit".
Definition minimalApprovalPCCleanupQueueKind : string := MinimalApprovalPCCleanupQueueKind.
Definition minimalPollOnlyApprovalEventPrefix : string := "minimal-pc-approval:".
Definition minimalApprovalSummaryRunes : nat := 300.

(** An error of a call; [ce_Transport] is errors.Is(err, ErrApprovalTransportUnavailable). *)
Record CallError : Type := mkCallError {
  ce_Transport : bool;
  ce_Message : string }.

(** What a press ends with when it is not a response. *)
Inductive press_error : Type :=
| ErrCallbackConsumed
| ErrCallbackMismatch
| ErrApprovalTransportUnavailable
| ErrStore (message : string)
| ErrStores (first second : string)        (* errors.Join *)
| ErrResponder (e : CallError).

(** *** Texts *)
Definition minimalApprovalResponse (kind action : string) : option obj :=
  let answer decision :=
    if String.eqb kind minimalCommandApprovalKind || String.eqb kind minimalFileApprovalKind
    then Some [("decision", JStr decision)] else None in
  if String.eqb action "deny" then answer "decline"
  else if negb (String.eqb action "approve") then None
  else answer "accept".

Definition boundedMinimalApprovalSummary (value0 fallback : string) : string :=
  let value1 := join " " (fields (trim_space value0)) in
  let value := if String.eqb value1 "" then fallback else value1 in
  let rs := runes value in
  if (minimalApprovalSummaryRunes <? length rs)%nat
  then string_of_runes (take (minimalApprovalSummaryRunes - 1) rs) +:+ "…"
  else value.

Definition minimalApprovalPresentation (kind : string) (params : obj) : string * string :=
  if String.eqb kind minimalCommandApprovalKind then
    ("명령 실행", boundedMinimalApprovalSummary (payloadMapString params "command") "명령 세부 정보 없음")
  else if String.eqb kind minimalFileApprovalKind then
    let reason := payloadMapString params "reason" in
    let summary := if String.eqb reason "" then payloadMapString params "grantRoot" else reason in
    ("파일 변경", boundedMinimalApprovalSummary summary "파일 변경 세부 정보 없음")
  else ("알 수 없는 요청", "세부 정보 없음").

(** typed == float64(int64(typed)), for a number that its decimal digits give exactly. *)
Definition minimalRPCID (value : any) : string :=
  match value with
  | JStr typed => trim_space typed
  | JNum m e =>
      let whole := num_to_int64 m e in
      if (if 0 <=? e then whole =? m * 10 ^ e else whole * 10 ^ (- e) =? m)%Z then format_int whole else ""
  | _ => ""
  end.

Definition minimalWorkerCallbackIdentity (identity : string) : bool :=
  has_prefix (trim_space identity) "minimal-link-worker:".

Definition minimalApprovalEventID (requestID threadID turnID requestKind : string) : string :=
  "minimal-approval:"
    +:+ hex (take 12 (sha256_sum (bytes_of (join (str1 "000") [requestID; threadID; turnID; requestKind])))).

Definition minimalPollOnlyApprovalEventID (threadID turnID : string) : string :=
  minimalPollOnlyApprovalEventPrefix
    +:+ hex (take 12 (sha256_sum (bytes_of (join (str1 "000") [threadID; turnID])))).

(** *** What an error says of the message or the answer *)
Definition minimalApprovalRequestInactive (err : CallError) : bool :=
  let message := to_lower (ce_Message err) in
  contains message "not pending in the current session" || contains message "already resolved"
  || contains message "request is not pending".

Definition minimalApprovalDefinitelyUnsent (err : CallError) : bool :=
  contains (to_lower (ce_Message err)) "app-server is not running".

Fixpoint leading_digits (value : string) : string :=
  match value with
  | EmptyString => ""
  | String a rest => if code_in a 48 57 then String a (leading_digits rest) else ""
  end.

(** strconv.Atoi of the leading digits fails beyond 64 bits. *)
Definition minimalApprovalLeadingStatusCode (value : string) : option Z :=
  let digits := leading_digits value in
  if String.eqb digits "" then None
  else match parse_int64 digits with Ok code => Some code | Err _ => None end.

Definition minimalApprovalTelegramSendRejectionDefinitelyUnsent (err : CallError) : bool :=
  let message := to_lower (trim_space (ce_Message err)) in
  match find_first (has_prefix message) ["telegram sendmessage http "; "telegram sendmessage: "] with
  | None => false
  | Some prefix =>
      match minimalApprovalLeadingStatusCode (trim_space (str_drop (String.length prefix) message)) with
      | None => false
      | Some code => (400 <=? code)%Z && (code <? 500)%Z
      end
  end.

Definition minimalApprovalSendDefinitelyUnsent (err : CallError) : bool :=
  ce_Transport err || minimalApprovalDefinitelyUnsent err
  || minimalApprovalTelegramSendRejectionDefinitelyUnsent err.

Definition minimalApprovalDeliveryErrorSummary (status : string) (err : CallError) : string :=
  let summary := deliveryErrorSummary status (ce_Message err) in
  if negb (String.eqb status "send_error") then summary
  else
    summary +:+ " " +:+ (if minimalApprovalSendDefinitelyUnsent err
                         then MinimalApprovalDeliveryOutcomeDefinitelyUnsent
                         else MinimalApprovalDeliveryOutcomeUnknown).

(** *** The service the handlers read *)

(** A session that can be answered exactly; the answer takes the store it leaves. *)
Record ExactAnswer : Type := mkExactAnswer {
  ea_RequestID : string;
  ea_ThreadID : string;
  ea_TurnID : string;
  ea_RequestKind : string;
  ea_Result : obj }.

(** A session; [se_Exact] is None when it is not an exactMinimalApprovalResponder. *)
Record CallbackSession : Type := mkCallbackSession {
  cs_Exact : option (ExactAnswer -> Store -> option CallError * Store) }.

(** The worker of a linked thread, as sessionForCallbackIdentity reads it. *)
Record CallbackWorker : Type := mkCallbackWorker {
  cw_ThreadID : string;
  cw_Session : option CallbackSession }.

Record ApprovalService : Type := mkApprovalService {
  as_Minimal : bool;                                   (* cfg.Profile == "minimal" *)
  as_Platform : Platform;
  as_Registry : option Registry;
  as_AllowedUserIDs : list Z;
  as_AllowedChatIDs : list Z;
  as_PollInterval : Z;                                 (* cfg.ObserverPollInterval *)
  as_Protector : option Protector;
  as_MustJSON : DeliveryPayload -> string;
  as_EventJSON : obj -> string;                        (* MustJSON of event.Params *)
  as_Workers : option (string -> option CallbackWorker);   (* minimalWorkers.BySessionIdentity *)
  as_Live : option CallbackSession;
  as_LiveConnected : bool;
  as_SessionID : string;                               (* minimalApprovalSessionID *)
  as_Generation : Z;                                   (* liveGeneration *)
  as_Edit : option (Z -> Z -> Z -> string -> option string)  (* the sender's EditMessage *) }.

(** The store and the edits that were asked of Telegram: chat, topic, message, text. *)
Record World : Type := mkWorld {
  wd_Store : Store;
  wd_Edits : list (Z * Z * Z * string);
  wd_Answers : list ExactAnswer }.

Definition on_store (f : Store -> Store) (w : World) : World :=
  mkWorld (f (wd_Store w)) (wd_Edits w) (wd_Answers w).

Definition after_tx {A : Type} (m : Tx Store A) (s : Store) : Store :=
  match m s with Ok (_, s') => s' | Err _ => s end.

Section handlers.
Context (svc : ApprovalService) (now : TimeString).

Definition minimalApprovalSessionIdentity : string :=
  as_SessionID svc +:+ ":" +:+ format_int (as_Generation svc).

Definition sessionForCallbackIdentity (identity0 threadID0 : string) : option CallbackSession :=
  let identity := trim_space identity0 in
  let threadID := trim_space threadID0 in
  let worker := if String.eqb identity "" then None else bySession ← as_Workers svc; bySession identity in
  match worker with
  | Some worker =>
      let workerThreadID := trim_space (cw_ThreadID worker) in
      if negb (String.eqb threadID "") && negb (String.eqb workerThreadID "")
         && negb (String.eqb workerThreadID threadID)
      then None else cw_Session worker
  | None =>
      if negb (String.eqb identity "") && bool_decide (is_Some (as_Workers svc)) && minimalWorkerCallbackIdentity identity
      then None
      else if negb (String.eqb identity "") && negb (String.eqb identity minimalApprovalSessionIdentity) then None
      else if as_LiveConnected svc then as_Live svc else None
  end.

(** *** Edits of a message; an error when there is no sender *)
Definition editMinimalApprovalTarget (chatID topicID messageID : Z) (text : string) (w : World)
  : option string * World :=
  match as_Edit svc with
  | None => (Some "telegram sender is unavailable", w)
  | Some edit => (edit chatID topicID messageID text,
                  mkWorld (wd_Store w) (wd_Edits w ++ [(chatID, topicID, messageID, text)]) (wd_Answers w))
  end.

Definition editMinimalApprovalMessage (requestID text : string) (w : World) : option string * World :=
  match GetMinimalApproval requestID (wd_Store w) with
  | None => (None, w)
  | Some a =>
      if (mp_ChatID a =? 0)%Z || (mp_TelegramMessageID a <=? 0)%Z then (None, w)
      else editMinimalApprovalTarget (mp_ChatID a) (mp_TopicID a) (mp_TelegramMessageID a) text w
  end.

Definition editMinimalApprovalRouteMessage (route : MinimalApprovalRoute) (text : string) (w : World)
  : option string * World :=
  if (mq_ChatID route =? 0)%Z || (mq_TelegramMessageID route <=? 0)%Z then (None, w)
  else editMinimalApprovalTarget (mq_ChatID route) (mq_TopicID route) (mq_TelegramMessageID route) text w.

Definition inactiveText : string := "요청이 더 이상 활성 상태가 아닙니다.".
Definition unknownOutcomeText : string := "처리 결과를 확인할 수 없어 버튼이 비활성화되었습니다.".

(** *** A press *)

(** What the claimed button leads to: an answer to a session, or the end of the claim. *)
Inductive press_plan : Type :=
| GiveBack (e : press_error)          (* RestoreMinimalApprovalClaim *)
| GiveUp (e : press_error)            (* FinishMinimalApprovalClaim, cancelled *)
| Respond (respond : ExactAnswer -> Store -> option CallError * Store) (answer : ExactAnswer).

Definition planPress (route : MinimalApprovalRoute) : press_plan :=
  match sessionForCallbackIdentity (mq_SessionIdentity route) (mq_ThreadID route) with
  | None =>
      GiveBack (if negb (String.eqb (mq_SessionIdentity route) "")
                   && negb (minimalWorkerCallbackIdentity (mq_SessionIdentity route))
                then ErrCallbackMismatch else ErrApprovalTransportUnavailable)
  | Some session =>
      match minimalApprovalResponse (mq_RequestKind route) (mq_Action route) with
      | None => GiveUp ErrCallbackMismatch
      | Some result =>
          match cs_Exact session with
          | None => GiveBack ErrApprovalTransportUnavailable
          | Some respond =>
              Respond respond (mkExactAnswer
                (if String.eqb (mq_WireRequestID route) "" then mq_RequestID route else mq_WireRequestID route)
                (mq_ThreadID route) (mq_TurnID route) (mq_RequestKind route) result)
          end
      end
  end.

Definition restorePress (route : MinimalApprovalRoute) : Tx Store bool :=
  RestoreMinimalApprovalClaim now (mq_RequestID route) (mq_Action route).
Definition finishPress (route : MinimalApprovalRoute) (status : string) : Tx Store bool :=
  FinishMinimalApprovalClaim now (mq_RequestID route) (mq_Action route) status.

Definition callbackText (text : string) : DirectResponse := mkDirectResponse "" text [] "" "" "" "" 0.

(** The status a press gives its request, and the text that tells it. *)
Definition pressStatus (route : MinimalApprovalRoute) : string * string :=
  if String.eqb (mq_Action route) "deny" then ("denied", "거부됨") else ("approved", "승인됨").

(** The session took the answer. *)
Definition answeredPress (route : MinimalApprovalRoute) (w : World) : (DirectResponse + press_error) * World :=
  let '(status, resolvedText) := pressStatus route in
  let response text := mkDirectResponse text resolvedText [] (mq_ThreadID route) (mq_TurnID route) "" "" 0 in
  match finishPress route status (wd_Store w) with
  | Err finishErr =>
      match CancelMinimalApprovalClaimWithInactiveEdit (as_MustJSON svc) (as_Protector svc) now
              (mq_RequestID route) (mq_Action route) resolvedText (wd_Store w) with
      | Ok (true, s') => (inl (response ""), on_store (fun _ => s') w)
      | Ok (false, s') =>
          let '(_, w') := editMinimalApprovalMessage (mq_RequestID route) resolvedText (on_store (fun _ => s') w) in
          (inr (ErrStore finishErr), w')
      | Err queueErr =>
          let '(_, w') := editMinimalApprovalMessage (mq_RequestID route) resolvedText w in
          (inr (ErrStores finishErr queueErr), w')
      end
  | Ok (false, s') =>
      let w1 := on_store (fun _ => s') w in
      match GetMinimalApproval (mq_RequestID route) s' with
      | Some a =>
          if String.eqb (mp_Status a) "expired" then
            let '(_, w2) := editMinimalApprovalMessage (mq_RequestID route) inactiveText w1 in
            (inl (callbackText "비활성 요청입니다."), w2)
          else (inr ErrCallbackConsumed, w1)
      | None => (inr ErrCallbackConsumed, w1)
      end
  | Ok (true, s') =>
      let '(editErr, w1) := editMinimalApprovalMessage (mq_RequestID route) resolvedText (on_store (fun _ => s') w) in
      (inl (response (match editErr with Some _ => resolvedText | None => "" end)), w1)
  end.

(** What follows the call to the session. *)
Definition settlePress (route : MinimalApprovalRoute) (err : option CallError) (w : World)
  : (DirectResponse + press_error) * World :=
  match err with
  | None => answeredPress route w
  | Some e =>
      if minimalApprovalRequestInactive e then
        let '(_, w1) := editMinimalApprovalRouteMessage route inactiveText
                          (on_store (after_tx (finishPress route "expired")) w) in
        (inl (callbackText "비활성 요청입니다."), w1)
      else if ce_Transport e || minimalApprovalDefinitelyUnsent e then
        (inr (ErrResponder e), on_store (after_tx (restorePress route)) w)
      else
        let '(_, w1) := editMinimalApprovalRouteMessage route unknownOutcomeText
                          (on_store (after_tx (finishPress route "cancelled")) w) in
        (inr (ErrResponder e), w1)
  end.

(** The claim of a press. *)
Definition claimPress (chatID topicID messageID : Z) (existing : option MinimalApprovalRoute) (w : World)
  : (MinimalApprovalRoute + press_error) * World :=
  match existing with
  | None => (inr ErrCallbackConsumed, w)
  | Some existing =>
      if negb (String.eqb (mq_Status existing) "active") then (inr ErrCallbackConsumed, w)
      else
        match ClaimMinimalApproval now (mq_Token existing) chatID topicID messageID
                (trim_space (mq_SessionIdentity existing)) (wd_Store w) with
        | Err e => (inr (ErrStore e), w)
        | Ok ((Some route, true), s') => (inl route, on_store (fun _ => s') w)
        | Ok ((None, _), s') => (inr ErrCallbackConsumed, on_store (fun _ => s') w)
        | Ok ((Some route, false), s') =>
            (inr (if negb (String.eqb (mq_Status route) "active") then ErrCallbackConsumed else ErrCallbackMismatch),
             on_store (fun _ => s') w)
        end
  end.

Definition handleMinimalApprovalCallback (chatID topicID messageID : Z) (existing : option MinimalApprovalRoute)
    (w : World) : (DirectResponse + press_error) * World :=
  match claimPress chatID topicID messageID existing w with
  | (inr e, w1) => (inr e, w1)
  | (inl route, w1) =>
      match planPress route with
      | GiveBack e => (inr e, on_store (after_tx (restorePress route)) w1)
      | GiveUp e => (inr e, on_store (after_tx (finishPress route "cancelled")) w1)
      | Respond respond answer =>
          let '(err, s2) := respond answer (wd_Store w1) in
          settlePress route err (mkWorld s2 (wd_Edits w1) (wd_Answers w1 ++ [answer]))
      end
  end.

(** *** The session resolved a request by itself *)
Definition handleMinimalApprovalResolved (sessionIdentity0 : string) (event : Event) (w : World) : bool * World :=
  if negb (as_Minimal svc && equal_fold (trim_space (ev_Method event)) "serverRequest/resolved") then (false, w)
  else
    let wireRequestID := trim_space (payloadMapString (ev_Params event) "requestId") in
    if String.eqb wireRequestID "" then (true, w)
    else
      let s := wd_Store w in
      let sessionIdentity := trim_space sessionIdentity0 in
      let scoped := if String.eqb sessionIdentity "" then None
                    else GetMinimalApprovalForSession wireRequestID sessionIdentity s in
      let approval := match scoped with
                      | Some a => Some a
                      | None => if minimalWorkerCallbackIdentity sessionIdentity then None
                                else GetMinimalApproval wireRequestID s
                      end in
      match approval with
      | None => (false, w)
      | Some a =>
          if negb (String.eqb sessionIdentity "") && negb (String.eqb (mp_SessionIdentity a) "")
             && negb (String.eqb (mp_SessionIdentity a) sessionIdentity)
          then (false, w)
          else
            let expire :=
              if negb (String.eqb (trim_space (mp_SessionIdentity a)) "")
              then ExpireMinimalApprovalForSession now wireRequestID (mp_SessionIdentity a)
              else ExpireMinimalApproval now (mp_RequestID a) in
            match expire s with
            | Ok (true, s') =>
                let '(_, w') := editMinimalApprovalMessage (mp_RequestID a) inactiveText (on_store (fun _ => s') w) in
                (true, w')
            | Ok (false, s') => (true, on_store (fun _ => s') w)
            | Err _ => (true, w)
            end
      end.

(** *** A request of another kind is only recorded *)
Definition stored_approval (a : PendingApproval) (payload sessionIdentity requestKind : string) : StoredApproval :=
  let session := trim_space sessionIdentity in
  let '(requestID, wire) :=
    if minimalWorkerCallbackIdentity session
    then NormalizeRequestIdentity session (pa_RequestID a) (pa_RequestID a)
    else (pa_RequestID a, pa_WireRequestID a) in
  mkStoredApproval requestID wire (pa_ThreadID a) (pa_TurnID a) (pa_ItemID a) (pa_PromptKind a) requestKind
    (pa_Question a) session (pa_Status a) (pa_TelegramMessageID a) payload (pa_UpdatedAt a).

Definition handlePendingServerRequest (sessionIdentity : string) (event : Event) (s : Store) : bool * Store :=
  match PendingApprovalFromServerRequest now event with
  | None => (false, s)
  | Some a =>
      (true, after_tx (SavePendingApproval (as_Protector svc)
         (stored_approval a (as_EventJSON svc (pa_Payload a)) sessionIdentity (trim_space (ev_Method event)))) s)
  end.

(** *** Where notices of the background go *)
Definition currentBackgroundTarget (s : Store) : option ObserverTarget :=
  let '(target, configured) := GetGlobalObserverTarget now s in
  if configured then target
  else
    let only id := Some (mkObserverTarget (ChatKey id 0) id 0 true "" "") in
    match as_AllowedUserIDs svc, as_AllowedChatIDs svc with
    | [id], _ => only id
    | [], [id] => only id
    | _, _ => None
    end.

Definition backgroundTargets (s : Store) : list ObserverTarget :=
  match currentBackgroundTarget s with
  | None => []
  | Some target => if ot_Enabled target then [target] else []
  end.

Definition enqueueRenderedToBackgroundTargets (response : option DirectResponse) (threadID turnID itemID eventID : string)
    (s : Store) : Store :=
  match response with
  | None => s
  | Some r =>
      fold_left (fun s target =>
        let payload := mkDeliveryPayload "" (dr_Text r) threadID turnID itemID eventID 0 "" "" "" 0 "" (dr_Buttons r) None in
        let item := mkQueueItem 0 eventID (ChatKey (ot_ChatID target) (ot_TopicID target)) (ot_ChatID target)
                      (ot_TopicID target) threadID "observer" DeliveryStatusPending 0 now ""
                      (as_MustJSON svc payload) now now "" 1 1 in
        ignore_error (EnqueueDelivery (as_Protector svc) now item) s) (backgroundTargets s) s
  end.

End handlers.

(** snapshotForPersistence: the minimal profile keeps no texts. *)
Definition snapshotForPersistence (minimal : bool) (n : ThreadReadSnapshot) : ThreadReadSnapshot :=
  if negb minimal then n
  else
    let t := sn_Thread n in
    mkThreadReadSnapshot
      (mkThread (th_ID t) (th_ID t) (th_CWD t) (th_ProjectName t) (th_DirectoryName t) (th_UpdatedAt t) (th_Status t)
         "" (th_ActiveTurnID t) (th_PreferredModel t) (th_PermissionsMode t) (th_Archived t) None)
      (sn_LatestTurnID n) (sn_LatestTurnStatus n) (sn_LatestTurnStartedAt n) (sn_LatestTurnUpdatedAt n)
      (sn_WaitingOnApproval n) (sn_WaitingOnReply n) [] [] (sn_LatestProgressFP n) "" (sn_LatestUserMessageID n) ""
      (sn_LatestUserMessageFP n) (sn_LatestFinalFP n) "" (sn_LatestToolID n) (sn_LatestToolKind n) ""
      (sn_LatestToolStatus n) "" (sn_LatestToolFP n) (sn_LatestToolLiveCurrent n) (sn_LatestToolStartedAt n)
      (sn_LatestToolUpdatedAt n) None [].

Definition waitingOnApproval (n : ThreadReadSnapshot) : ThreadReadSnapshot :=
  mkThreadReadSnapshot (sn_Thread n) (sn_LatestTurnID n) (sn_LatestTurnStatus n) (sn_LatestTurnStartedAt n)
    (sn_LatestTurnUpdatedAt n) true (sn_WaitingOnReply n) (sn_LatestAgentMessages n) (sn_LatestAgentMessageEntries n)
    (sn_LatestProgressFP n) (sn_LatestProgressText n) (sn_LatestUserMessageID n) (sn_LatestUserMessageText n)
    (sn_LatestUserMessageFP n) (sn_LatestFinalFP n) (sn_LatestFinalText n) (sn_LatestToolID n) (sn_LatestToolKind n)
    (sn_LatestToolLabel n) (sn_LatestToolStatus n) (sn_LatestToolOutput n) (sn_LatestToolFP n)
    (sn_LatestToolLiveCurrent n) (sn_LatestToolStartedAt n) (sn_LatestToolUpdatedAt n) (sn_PlanPrompt n) (sn_DetailItems n).

(** *** A request for an approval *)
Section requests.
Context (svc : ApprovalService) (clock : instant).

Definition rememberBridgeOwnedApprovalSnapshot (n : ThreadReadSnapshot) (s : Store) : Store :=
  let threadID := trim_space (th_ID (sn_Thread n)) in
  if String.eqb threadID "" || String.eqb (trim_space (sn_LatestTurnID n)) "" || negb (sn_WaitingOnApproval n) then s
  else
    let next := CompactSnapshot clock (GetSnapshot threadID s) (snapshotForPersistence (as_Minimal svc) n) clock in
    after_tx (UpsertSnapshot threadID (upd_next_poll (format_time (clock + as_PollInterval svc)%Z) next)) s.

Definition enqueueMinimalPollOnlyApprovalNotice (n : ThreadReadSnapshot) (previous : option ThreadSnapshotState)
    (s : Store) : Store :=
  let threadID := trim_space (th_ID (sn_Thread n)) in
  let turnID := trim_space (sn_LatestTurnID n) in
  if negb (as_Minimal svc) || negb (sn_WaitingOnApproval n) || String.eqb threadID "" || String.eqb turnID ""
     || bool_decide (as_Registry svc = None) then s
  else if match previous with Some p => String.eqb (trim_space (ss_LastApprovalFP p)) turnID | None => false end then s
  else
    match MatchExactCWD (as_Platform svc) (as_Registry svc) (th_CWD (sn_Thread n)) with
    | None => s
    | Some project =>
        let text := join newline
          ["프로젝트: " +:+ pj_DisplayName project; "승인 대기 중"; "이 요청은 PC에서 직접 승인하거나 거부해야 합니다.";
           "Thread: " +:+ ShortID (sn_Thread n)] in
        enqueueRenderedToBackgroundTargets svc (format_time clock) (Some (textResponse text)) threadID turnID ""
          (minimalPollOnlyApprovalEventID threadID turnID) s
    end.

(** The identity of a request: the durable id, the wire id, and the wire id that is stored. *)
Definition requestIdentity (sessionIdentity wire : string) : string * string * string :=
  if minimalWorkerCallbackIdentity sessionIdentity then
    let '(requestID, wireRequestID) := NormalizeRequestIdentity sessionIdentity wire wire in
    (requestID, wireRequestID, wireRequestID)
  else (wire, wire, "").

(** What is stored of a request, and the message with its two buttons. *)
Definition approvalSeed (requestID storedWire threadID turnID method sessionIdentity : string) (project : Project)
    (params : obj) (target : ObserverTarget) (approveToken denyToken : string) : MinimalApprovalSeed :=
  let now := format_time clock in
  let '(requestLabel, summary) := minimalApprovalPresentation method params in
  let text := join newline ["프로젝트: " +:+ pj_DisplayName project; "요청: " +:+ requestLabel; "요약: " +:+ summary] in
  let payload := mkDeliveryPayload "" text threadID turnID "" requestID 0 "" "" "" 0 ""
                   [[mkButtonSpec "승인" approveToken; mkButtonSpec "거부" denyToken]] None in
  mkApprovalSeed
    (mkMinimalApproval requestID storedWire threadID turnID method (pj_DisplayName project) sessionIdentity ""
       "pending" "" "" 0 0 0 0 "")
    approveToken denyToken
    (mkQueueItem 0 (minimalApprovalEventID requestID threadID turnID method)
       (ChatKey (ot_ChatID target) (ot_TopicID target)) (ot_ChatID target) (ot_TopicID target) threadID
       minimalApprovalQueueKind DeliveryStatusPending 0 now "" (as_MustJSON svc payload) now now "" 1 1)
    (minimalPollOnlyApprovalEventID threadID turnID).

(** [tokens] are the two random tokens, None when the source of randomness fails. *)
Definition handleMinimalApprovalServerRequest (live : option Session) (sessionIdentity0 : string) (event : Event)
    (tokens : option (string * string)) (s : Store) : bool * Store :=
  if negb (as_Minimal svc) || negb (String.eqb (ev_Channel event) "server_request") then (false, s)
  else
    let method := trim_space (ev_Method event) in
    if contains (to_lower method) "requestuserinput" then (false, s)
    else if negb (String.eqb method minimalCommandApprovalKind) && negb (String.eqb method minimalFileApprovalKind)
    then (contains (to_lower method) "approval", s)
    else
      let threadID := trim_space (payloadMapString (ev_Params event) "threadId") in
      let turnID := trim_space (payloadMapString (ev_Params event) "turnId") in
      let sessionIdentity := trim_space sessionIdentity0 in
      let '(requestID, wireRequestID, storedWire) := requestIdentity sessionIdentity (minimalRPCID (ev_ID event)) in
      match live with
      | None => (true, s)
      | Some session =>
          if existsb (String.eqb "") [requestID; wireRequestID; threadID; turnID; sessionIdentity] then (true, s)
          else
            match ThreadRead session threadID with
            | Fault _ => (true, s)
            | Done payload =>
                let n := readSnapshot payload in
                if negb (String.eqb (trim_space (th_ID (sn_Thread n))) threadID)
                   || negb (String.eqb (trim_space (sn_LatestTurnID n)) turnID) then (true, s)
                else
                  match MatchExactCWD (as_Platform svc) (as_Registry svc) (th_CWD (sn_Thread n)),
                        currentBackgroundTarget svc (format_time clock) s, tokens with
                  | Some project, Some target, Some (approveToken, denyToken) =>
                      if negb (ot_Enabled target) then (true, s)
                      else
                        let seed := approvalSeed requestID storedWire threadID turnID method sessionIdentity project
                                      (ev_Params event) target approveToken denyToken in
                        match CreateMinimalApproval (as_MustJSON svc) (as_Protector svc) (format_time clock) seed s with
                        | Err _ => (true, s)
                        | Ok (_, s') => (true, rememberBridgeOwnedApprovalSnapshot (waitingOnApproval n) s')
                        end
                  | _, _, _ => (true, s)
                  end
            end
      end.

End requests.

(** ** Specification *)

(** *** Presses that run side by side

    [ps_Held] are the claimed buttons whose handler has not yet called the session,
    [ps_Flying] those whose call runs, and [ps_Answers] the answers that may have reached
    their session: all calls but those that ended as definitely unsent. *)
Record Presses : Type := mkPresses {
  ps_Store : Store;
  ps_Held : list MinimalApprovalRoute;
  ps_Flying : list MinimalApprovalRoute;
  ps_Answers : list MinimalApprovalRoute }.

(** A call that certainly did not reach its session. *)
Definition unsent (err : option CallError) : bool :=
  match err with
  | Some e => negb (minimalApprovalRequestInactive e) && (ce_Transport e || minimalApprovalDefinitelyUnsent e)
  | None => false
  end.

Definition without (q : string) (routes : list MinimalApprovalRoute) : list MinimalApprovalRoute :=
  filter (fun r => negb (String.eqb (mq_RequestID r) q)) routes.

(** What else changes approvals while presses run: requests that are new or seen again,
    sent messages, expiries, releases and cancellations. *)
Inductive outside (MustJSON : DeliveryPayload -> string) (p : Protector) : Store -> Store -> Prop :=
| os_create now seed s b s' :
    or_text (trim_space (mp_Status (sd_Approval seed))) "pending" = "pending" ->
    (forall a, find_approval (NormalizeRequestIdentity (trim_space (mp_SessionIdentity (sd_Approval seed)))
                 (mp_RequestID (sd_Approval seed)) (mp_WireRequestID (sd_Approval seed))).1 s = Some a ->
       same_request (sd_Approval seed) a = true) ->
    CreateMinimalApproval MustJSON (Some p) now seed s = Ok (b, s') -> outside MustJSON p s s'
| os_complete now queueID requestID chatID topicID messageID s u s' :
    CompleteMinimalApprovalDelivery MustJSON (Some p) now queueID requestID chatID topicID messageID s = Ok (u, s') ->
    outside MustJSON p s s'
| os_expire now requestID s b s' :
    ExpireMinimalApproval now requestID s = Ok (b, s') -> outside MustJSON p s s'
| os_expire_for now requestID session s b s' :
    ExpireMinimalApprovalForSession now requestID session s = Ok (b, s') -> outside MustJSON p s s'
| os_expire_session now identity s n s' :
    ExpireMinimalApprovalsForSession now identity s = Ok (n, s') -> outside MustJSON p s s'
| os_expire_turn now threadID turnID s n s' :
    ExpireMinimalApprovalsForThreadTurn now threadID turnID s = Ok (n, s') -> outside MustJSON p s s'
| os_cancel now requestID action text s b s' :
    CancelMinimalApprovalClaimWithInactiveEdit MustJSON (Some p) now requestID action text s = Ok (b, s') ->
    outside MustJSON p s s'
| os_release clock linkedID generation session turnID releasedAt ready s b s' :
    FinishMinimalLinkedReleaseWithReadyDelivery (Some p) clock linkedID generation session turnID releasedAt ready s
      = Ok (b, s') -> outside MustJSON p s s'
| os_other s s' : same_approvals s s' -> outside MustJSON p s s'.

(** The parts of handleMinimalApprovalCallback, of any number of presses, and what happens
    outside of them. *)
Inductive press_step (MustJSON : DeliveryPayload -> string) (p : Protector) : Presses -> Presses -> Prop :=
| pt_claim now chatID topicID messageID existing w route w' st :
    ps_Store st = wd_Store w ->
    claimPress now chatID topicID messageID (Some existing) w = (inl route, w') ->
    press_step MustJSON p st (mkPresses (wd_Store w') (route :: ps_Held st) (ps_Flying st) (ps_Answers st))
| pt_give_back svc now route e st :
    route ∈ ps_Held st -> planPress svc route = GiveBack e ->
    press_step MustJSON p st (mkPresses (after_tx (restorePress now route) (ps_Store st))
                                (without (mq_RequestID route) (ps_Held st)) (ps_Flying st) (ps_Answers st))
| pt_give_up svc now route e st :
    route ∈ ps_Held st -> planPress svc route = GiveUp e ->
    press_step MustJSON p st (mkPresses (after_tx (finishPress now route "cancelled") (ps_Store st))
                                (without (mq_RequestID route) (ps_Held st)) (ps_Flying st) (ps_Answers st))
| pt_call svc route respond answer st :
    route ∈ ps_Held st -> planPress svc route = Respond respond answer ->
    press_step MustJSON p st (mkPresses (ps_Store st) (without (mq_RequestID route) (ps_Held st))
                                (route :: ps_Flying st) (route :: ps_Answers st))
| pt_settle svc now route err w out w' st :
    as_MustJSON svc = MustJSON -> as_Protector svc = Some p ->
    route ∈ ps_Flying st -> ps_Store st = wd_Store w -> settlePress svc now route err w = (out, w') ->
    press_step MustJSON p st (mkPresses (wd_Store w') (ps_Held st) (without (mq_RequestID route) (ps_Flying st))
                                (if unsent err then without (mq_RequestID route) (ps_Answers st) else ps_Answers st))
| pt_outside s' st :
    outside MustJSON p (ps_Store st) s' ->
    press_step MustJSON p st (mkPresses s' (ps_Held st) (ps_Flying st) (ps_Answers st)).

(** No further press of the request is admitted: it has ended, or its claim is kept. *)
Definition kept_away (q : string) (s : Store) : Prop :=
  exists a, a ∈ cr_approvals (db_core s) /\ ma_RequestID a = q
    /\ (ma_pending a = true -> ma_ClaimState a = "claimed").

(** What a change leaves of the claims of all requests but [q]: ids stay, an end stays, and
    a claim stays or ends. *)
Definition row_kept (q : option string) (a a' : MinimalApprovalRow) : Prop :=
  ma_RequestID a' = ma_RequestID a
  /\ (Some (ma_RequestID a) <> q -> ma_pending a' = true ->
      ma_pending a = true /\ (ma_ClaimState a = "claimed" -> ma_ClaimState a' = "claimed")).

Definition durable (q : string) : Prop := trim_space q = q /\ q <> "".

Record claims_kept (q : option string) (s s' : Store) : Prop := mkClaimsKept {
  ck_rows : forall a, a ∈ cr_approvals (db_core s) -> exists a', a' ∈ cr_approvals (db_core s') /\ row_kept q a a';
  ck_ids : forall a', a' ∈ cr_approvals (db_core s') ->
             durable (ma_RequestID a') \/ ma_RequestID a' ∈ map ma_RequestID (cr_approvals (db_core s)) }.

Record PressInv (st : Presses) : Prop := mkPressInv {
  pi_store : ApprovalInv (ps_Store st);
  pi_ids : Forall (fun a => durable (ma_RequestID a)) (cr_approvals (db_core (ps_Store st)));
  pi_owners : NoDup (map mq_RequestID (ps_Held st ++ ps_Flying st));
  pi_answers : NoDup (map mq_RequestID (ps_Answers st));
  pi_held : forall r r', r ∈ ps_Held st -> r' ∈ ps_Answers st -> mq_RequestID r <> mq_RequestID r';
  pi_flying : forall r, r ∈ ps_Flying st -> r ∈ ps_Answers st;
  pi_away : forall r, r ∈ ps_Held st ++ ps_Answers st -> kept_away (mq_RequestID r) (ps_Store st) }.

(** A sample: a live session that takes every answer, and a press of the sample request. *)
Definition ex_service : ApprovalService :=
  mkApprovalService true ex_platform (Some ex_registry) [7%Z] [] 0 (Some plainProtector) ex_json (fun _ => "{}")
    None (Some (mkCallbackSession (Some (fun _ s => (None, s))))) true "session" 3 (Some (fun _ _ _ _ => None)).

Definition ex_live_seed : MinimalApprovalSeed :=
  mkApprovalSeed
    (mkMinimalApproval "r1" "" "thread" "turn" minimalCommandApprovalKind "First" "session:3" "" "pending" "" "" 0 0 0 0 "")
    "yes" "no" (mkQueueItem 0 "event" "7:0" 7 0 "thread" "minimal_approval" DeliveryStatusPending 0 "T0" "" "{}" "T0" "T0" "" 1 1) "".

Definition ex_waiting : Store := run_store (CreateMinimalApproval ex_json (Some plainProtector) "T1" ex_live_seed) emptyStore.

(** The button of a token, as GetMinimalApprovalRoute reads it. *)
Definition ex_button (token : string) : option MinimalApprovalRoute := GetMinimalApprovalRoute token ex_waiting.

Definition no_route : MinimalApprovalRoute := mkMinimalApprovalRoute "" "" "" "" "" "" "" "" "" 0 0 0 "".

Definition ex_claimed : MinimalApprovalRoute * World :=
  match claimPress "T2" 7 0 9 (ex_button "yes") (mkWorld ex_waiting [] []) with
  | (inl route, w) => (route, w)
  | (inr _, w) => (no_route, w)
  end.

Definition ex_settled : World := (settlePress ex_service "T3" ex_claimed.1 None ex_claimed.2).2.

(** *** A press from its claim to its end *)

(** What an admitted press leaves: a claimed approval with both buttons claimed. *)
Record held (route : MinimalApprovalRoute) (s : Store) (a : MinimalApprovalRow) : Prop := mkHeld {
  hd_inv : ApprovalInv s;
  hd_row : a ∈ cr_approvals (db_core s);
  hd_id : ma_RequestID a = mq_RequestID route;
  hd_claim : ma_pending a = true /\ ma_claimed_for (mq_Action route) a = true;
  hd_buttons : Forall (fun r => ar_claimed r = true) (live_routes (mq_RequestID route) (cr_approvalRoutes (db_core s))) }.

(** The end of a press, by the answer of the session: the request is open again when the
    answer was not sent, and has ended otherwise; no other request changes. *)
Definition press_ended (route : MinimalApprovalRoute) (err : option CallError) (s s' : Store) : Prop :=
  let q := mq_RequestID route in
  (exists a', a' ∈ cr_approvals (db_core s') /\ ma_RequestID a' = q
     /\ if unsent err then ma_pending a' = true /\ ma_idle a' = true
        else ma_Status a' = match err with
                            | None => (pressStatus route).1
                            | Some e => if minimalApprovalRequestInactive e then "expired" else "cancelled"
                            end)
  /\ (if unsent err
      then live_routes q (cr_approvalRoutes (db_core s'))
           = map (upd_route_status "active") (live_routes q (cr_approvalRoutes (db_core s)))
      else live_routes q (cr_approvalRoutes (db_core s')) = [])
  /\ NoDup (map ma_RequestID (cr_approvals (db_core s')))
  /\ forall b, ma_RequestID b <> q -> b ∈ cr_approvals (db_core s') <-> b ∈ cr_approvals (db_core s).

(** ** Lemmas *)

(** *** Claims are kept *)
#[global] Instance row_kept_preorder q : PreOrder (row_kept q).
Proof.
  split.
  - intros a. by split.
  - intros a b c [Hid Hr] [Hid' Hr']. split; [congruence|]. intros Hne Hp. rewrite Hid in Hr'.
    destruct (Hr' Hne Hp) as [Hpb Hc]. destruct (Hr Hne Hpb) as [Hpa Hb]. split; [done|]. tauto.
Qed.

Lemma kept_ids q s s' : (forall a, a ∈ cr_approvals (db_core s) -> exists a', a' ∈ cr_approvals (db_core s') /\ row_kept q a a') ->
  forall x, x ∈ map ma_RequestID (cr_approvals (db_core s)) -> x ∈ map ma_RequestID (cr_approvals (db_core s')).
Proof.
  intros H x (a & -> & Ha)%list_elem_of_fmap. destruct (H a Ha) as (a' & Ha' & Hid & _). rewrite <- Hid.
  by apply list_elem_of_fmap_2.
Qed.

#[global] Instance claims_kept_preorder q : PreOrder (claims_kept q).
Proof.
  split.
  - intros s. split; [intros a Ha; by exists a|]. intros a Ha. right. by apply list_elem_of_fmap_2.
  - intros s t u [H1 H2] [K1 K2]. split.
    + intros a Ha. destruct (H1 a Ha) as (b & Hb & Hab). destruct (K1 b Hb) as (c & Hc & Hbc).
      exists c. split; [done|]. by transitivity b.
    + intros c Hc. destruct (K2 c Hc) as [?|(b & -> & Hb)%list_elem_of_fmap]; [by left|]. by apply H2.
Qed.

Lemma kept_update q c f s :
  (forall a, c a = true -> row_kept q a (f a)) ->
  claims_kept q s (with_rows approval_table (update_where c f (rows_of approval_table s)) s).
Proof.
  intros Hf. cbn. assert (forall a, row_kept q a (if c a then f a else a)) as Hr.
  { intros a. destruct (c a) eqn:E; [by apply Hf|reflexivity]. }
  split; cbn.
  - intros a Ha. eexists. split; [apply elem_of_update; by exists a|apply Hr].
  - intros a' (a & Ha & ->)%elem_of_update. right. rewrite (proj1 (Hr a)). by apply list_elem_of_fmap_2.
Qed.

Lemma kept_other q s s' : cr_approvals (db_core s') = cr_approvals (db_core s) -> claims_kept q s s'.
Proof.
  intros H. split; intros a Ha; [rewrite <- H in Ha; by exists a|]. rewrite H in Ha. right. by apply list_elem_of_fmap_2.
Qed.

Lemma kept_same q {A} (m : Tx Store A) : tx_keeps same_approvals m -> tx_keeps (claims_kept q) m.
Proof. intros H s a s' Hr. apply kept_other. by apply (H s a s' Hr). Qed.

(** The statements on approvals. *)
Lemma ended_kept q status a f :
  String.eqb status "pending" = false -> ma_RequestID (f a) = ma_RequestID a -> ma_Status (f a) = status -> row_kept q a (f a).
Proof. intros Hs Hid Hst. split; [done|]. intros _ Hp. unfold ma_pending in Hp. rewrite Hst, Hs in Hp. discriminate Hp. Qed.

Lemma unclaimed_kept q a f :
  ma_RequestID (f a) = ma_RequestID a -> ma_Status (f a) = ma_Status a ->
  (ma_ClaimState a = "claimed" -> ma_ClaimState (f a) = "claimed") -> row_kept q a (f a).
Proof. intros Hid Hst Hc. split; [done|]. intros _ Hp. split; [|done]. unfold ma_pending in *. by rewrite <- Hst. Qed.

Ltac keeps_step :=
  lazymatch goal with
  | |- tx_keeps _ (tx_ret _) => apply keeps_ret; apply _
  | |- tx_keeps _ (tx_fail _) => apply keeps_fail
  | |- tx_keeps _ (tx_lift _) => apply keeps_lift; apply _
  | |- tx_keeps _ (tx_gets _) => apply keeps_gets; apply _
  | |- tx_keeps _ (sql_first _ _) => apply keeps_gets; apply _
  | |- tx_keeps _ (sql_select _ _) => apply keeps_gets; apply _
  | |- tx_keeps _ (tx_when _ _) => apply keeps_when; [apply _|]
  | |- tx_keeps _ (sql_update approval_table _ _) => apply keeps_update; intros ?; apply kept_update
  | |- tx_keeps _ (sql_update_exactly _ approval_table _ _ _) =>
      apply keeps_update_exactly; [apply _|intros ?; apply kept_update]
  | |- tx_keeps _ (sql_update _ _ _) => apply keeps_update; intros ?; by apply kept_other
  | |- tx_keeps _ (sql_update_exactly _ _ _ _ _) => apply keeps_update_exactly; [apply _|intros ?; by apply kept_other]
  | |- tx_keeps _ (tx_bind _ _) => apply keeps_bind; [apply _| |intros ?]
  | |- tx_keeps _ (if ?b then _ else _) => destruct b
  | |- tx_keeps _ (match ?x with _ => _ end) => destruct x
  end.

Lemma kept_move q moved status verb what r : tx_keeps (claims_kept q) (move_routes moved status verb what r).
Proof. unfold move_routes. keeps_step. Qed.

Lemma kept_kill q now c : tx_keeps (claims_kept q) (kill_deliveries now c).
Proof. apply kept_same, kill_deliveries_same. Qed.

Lemma kept_edit q MustJSON p now a text : tx_keeps (claims_kept q) (enqueueMinimalApprovalInactiveEditTx MustJSON p now a text).
Proof. apply kept_same, inactive_edit_same. Qed.

Lemma kept_settle q (c : MinimalApprovalRow -> bool) f moved status verb after resolved :
  (forall a, c a = true -> row_kept q a (f a)) -> (forall r, tx_keeps (claims_kept q) (after r)) ->
  tx_keeps (claims_kept q) (settle c f moved status verb after resolved).
Proof.
  intros Hf Ha. unfold settle. repeat keeps_step.
  - intros a Hc. apply Hf. by apply andb_prop in Hc as [_ ?].
  - apply kept_move.
  - apply Ha.
Qed.

(** The operations on approvals, one by one. *)
Section kept_operations.
Context (q : option string).

Lemma kept_finish now requestID action status : status <> "pending" ->
  tx_keeps (claims_kept q) (FinishMinimalApprovalClaim now requestID action status).
Proof.
  intros Hs%String.eqb_neq. unfold FinishMinimalApprovalClaim. repeat keeps_step.
  apply kept_settle; [|intros; keeps_step]. intros x _. by apply (ended_kept q status).
Qed.

Lemma kept_expire now resolved : tx_keeps (claims_kept q) (expire_resolved now resolved).
Proof.
  unfold expire_resolved. apply kept_settle.
  - intros x _. by apply (ended_kept q "expired").
  - intros r. apply kept_same, kill_own_same.
Qed.

Lemma kept_group now group moved : tx_keeps (claims_kept q) (expire_group now group moved).
Proof. unfold expire_group. repeat keeps_step. apply kept_kill. Qed.

Lemma kept_session_tx identity now : tx_keeps (claims_kept q) (expireMinimalApprovalsForSessionTx identity now).
Proof.
  unfold expireMinimalApprovalsForSessionTx. repeat keeps_step; [|apply kept_group].
  intros x _. by apply (ended_kept q "expired").
Qed.

Lemma kept_session now identity : tx_keeps (claims_kept q) (ExpireMinimalApprovalsForSession now identity).
Proof.
  unfold ExpireMinimalApprovalsForSession. repeat keeps_step;
    [apply kept_session_tx|apply kept_same, expire_pending_same|apply kept_same, expire_callbacks_same].
Qed.

Lemma kept_turn now threadID turnID : tx_keeps (claims_kept q) (ExpireMinimalApprovalsForThreadTurn now threadID turnID).
Proof.
  unfold ExpireMinimalApprovalsForThreadTurn. repeat keeps_step; [|apply kept_group].
  intros x _. by apply (ended_kept q "expired").
Qed.

Lemma kept_cancel MustJSON p now requestID action text :
  tx_keeps (claims_kept q) (CancelMinimalApprovalClaimWithInactiveEdit MustJSON (Some p) now requestID action text).
Proof.
  unfold CancelMinimalApprovalClaimWithInactiveEdit. repeat keeps_step; [|apply kept_move|apply kept_edit].
  intros x _. by apply (ended_kept q "cancelled").
Qed.

Lemma kept_complete MustJSON p now queueID requestID chatID topicID messageID :
  tx_keeps (claims_kept q) (CompleteMinimalApprovalDelivery MustJSON p now queueID requestID chatID topicID messageID).
Proof.
  unfold CompleteMinimalApprovalDelivery. repeat keeps_step;
    [|apply kept_same, put_route_same|apply kept_same, cleanup_same].
  intros x _. by apply unclaimed_kept.
Qed.

Lemma kept_bind now chatID topicID messageID r : tx_keeps (claims_kept q) (self_bind now chatID topicID messageID r).
Proof.
  unfold self_bind. repeat keeps_step; [|apply kept_same, put_route_same]. intros x _. by apply unclaimed_kept.
Qed.

Lemma kept_claim now token chatID topicID messageID session :
  tx_keeps (claims_kept q) (ClaimMinimalApproval now token chatID topicID messageID session).
Proof.
  unfold ClaimMinimalApproval. repeat keeps_step; try apply kept_bind; try apply kept_move;
    intros x _; by apply unclaimed_kept.
Qed.

Lemma kept_routes seed requestID now : tx_keeps (claims_kept q) (insertMinimalApprovalRoutesTx seed requestID now).
Proof.
  unfold insertMinimalApprovalRoutesTx, insert_route. repeat keeps_step;
    apply keeps_insert; intros ?; by apply kept_other.
Qed.

Lemma kept_rearm a seed protected now : tx_keeps (claims_kept q) (rearmMinimalApprovalDeliveryIfDeadTx a seed protected now).
Proof.
  unfold rearmMinimalApprovalDeliveryIfDeadTx. repeat keeps_step; [apply kept_move|apply kept_routes].
Qed.

Lemma kept_replay seed wire session protected now existing :
  tx_keeps (claims_kept q) (replay_approval seed wire session protected now existing).
Proof.
  unfold replay_approval. repeat keeps_step; [apply kept_kill| |apply kept_rearm]. intros x _. by apply unclaimed_kept.
Qed.

Lemma kept_seed seed requestID protected now : tx_keeps (claims_kept q) (seed_delivery seed requestID protected now).
Proof.
  unfold seed_delivery, insert_delivery. repeat keeps_step; [apply kept_routes| |].
  - apply keeps_modify. intros s. by apply kept_other.
  - intros x _. by apply unclaimed_kept.
Qed.

Lemma kept_release p clock linkedID generation session turnID releasedAt ready :
  tx_keeps (claims_kept q) (FinishMinimalLinkedReleaseWithReadyDelivery (Some p) clock linkedID generation session turnID releasedAt ready).
Proof.
  intros s b s' H. unfold FinishMinimalLinkedReleaseWithReadyDelivery in H.
  destruct (_ || _); [apply tx_ret_ok in H as [_ ->]; reflexivity|].
  tx_inv H. apply tx_lift_ok in Htx as [_ ->], Htx0 as [_ ->]. apply tx_gets_ok in Htx1 as [-> ->].
  destruct (negb (_ =? 1)%Z); [by injection H as _ <-|].
  apply kept_session_tx in Htx2. apply expire_pending_same in Htx3. apply expire_callbacks_same in Htx4.
  injection Htx5 as <- <-. tx_inv H. apply tx_ret_ok in H as [_ ->].
  match type of Htx with _ = Ok (_, ?t) => assert (same_approvals s5 t) as Hlast end.
  { destruct a0 as [[item text]|]; [by apply enqueue_protected_same in Htx|by apply tx_ret_ok in Htx as [_ ->]]. }
  etransitivity; [exact Htx2|]. apply kept_other. by destruct (transitivity (transitivity Htx3 Htx4) Hlast).
Qed.

End kept_operations.

(** A request that is new, or seen again. *)
Lemma kept_create q MustJSON p now seed s b s' :
  (forall a, find_approval (NormalizeRequestIdentity (trim_space (mp_SessionIdentity (sd_Approval seed)))
               (mp_RequestID (sd_Approval seed)) (mp_WireRequestID (sd_Approval seed))).1 s = Some a ->
     same_request (sd_Approval seed) a = true) ->
  CreateMinimalApproval MustJSON (Some p) now seed s = Ok (b, s') -> claims_kept q s s'.
Proof.
  intros Hsame H. unfold CreateMinimalApproval in H.
  pose proof (normalized_trimmed (trim_space (mp_SessionIdentity (sd_Approval seed)))
    (mp_RequestID (sd_Approval seed)) (mp_WireRequestID (sd_Approval seed))) as [Ht _].
  destruct (NormalizeRequestIdentity _ _ _) as [id wire]. cbn [fst] in *.
  destruct (seed_incomplete id _ _) eqn:Ei; [discriminate H|]. destruct (routes_invalid seed); [discriminate H|].
  assert (durable id) as Hd.
  { split; [done|]. intros ->. unfold seed_incomplete in Ei. cbn in Ei. discriminate Ei. }
  tx_inv H. apply tx_lift_ok in Htx as [_ ->]. apply tx_gets_ok in Htx0 as [-> ->].
  unfold find_approval in Hsame. cbn [rows_of approval_table] in H, Hsame.
  destruct (find_first (ma_is id) (cr_approvals (db_core s))) as [e|] eqn:Ee.
  - rewrite (Hsame e eq_refl) in H. tx_inv H. apply tx_ret_ok in H as [_ ->]. by eapply kept_replay.
  - tx_inv H. apply tx_ret_ok in H as [_ ->]. transitivity s0; [|by eapply kept_seed]. injection Htx as <- <-. split; cbn.
    + intros x Hx. exists x. split; [apply elem_of_app; by left|reflexivity].
    + intros x [Hx| ->%list_elem_of_singleton]%elem_of_app; [right; by apply list_elem_of_fmap_2|]. by left.
Qed.

Lemma outside_kept q MustJSON p s s' : outside MustJSON p s s' -> claims_kept q s s'.
Proof.
  intros H. destruct H as [now seed s b s' _ Hsame H|now id r c t m s u s' H|now r s b s' H|now r i s b s' H
    |now i s n s' H|now t u s n s' H|now r a x s b s' H|c l g i t r y s b s' H|s s' [H _]].
  - by eapply kept_create.
  - by eapply kept_complete.
  - unfold ExpireMinimalApproval in H. tx_inv H. apply tx_gets_ok in Htx as [-> ->]. by eapply kept_expire.
  - unfold ExpireMinimalApprovalForSession in H. tx_inv H. apply tx_gets_ok in Htx as [-> ->]. by eapply kept_expire.
  - by eapply kept_session.
  - by eapply kept_turn.
  - by eapply kept_cancel.
  - by eapply kept_release.
  - by apply kept_other.
Qed.

Lemma outside_step MustJSON p s s' : outside MustJSON p s s' -> approval_step MustJSON p s s'.
Proof.
  intros H. destruct H as [now seed s b s' Hp _ H|now id r c t m s u s' H|now r s b s' H|now r i s b s' H
    |now i s n s' H|now t u s n s' H|now r a x s b s' H|c l g i t r y s b s' H|s s' [H1 H2]].
  - by eapply as_create.
  - by eapply as_complete.
  - by eapply as_expire.
  - by eapply as_expire_for.
  - by eapply as_expire_session.
  - by eapply as_expire_turn.
  - by eapply as_cancel.
  - by eapply as_release.
  - by apply as_other.
Qed.

(** A durable id of a stored request names that request. *)
Lemma durable_resolves q s : Forall (fun a => durable (ma_RequestID a)) (cr_approvals (db_core s)) ->
  q ∈ map ma_RequestID (cr_approvals (db_core s)) -> resolveMinimalApprovalRequestID q s = Some q.
Proof.
  intros Hd (a & -> & Ha)%list_elem_of_fmap. rewrite Forall_forall in Hd. destruct (Hd a Ha) as [Ht Hn].
  apply resolve_durable; [done|done|by exists a].
Qed.

(** Giving back the claim of one request leaves those of the others. *)
Lemma kept_restore q now action s : Forall (fun a => durable (ma_RequestID a)) (cr_approvals (db_core s)) ->
  q ∈ map ma_RequestID (cr_approvals (db_core s)) ->
  claims_kept (Some q) s (after_tx (RestoreMinimalApprovalClaim now q action) s).
Proof.
  intros Hd Hq. unfold after_tx. destruct (RestoreMinimalApprovalClaim now q action s) as [[b s']|e] eqn:E; [|reflexivity].
  unfold RestoreMinimalApprovalClaim in E. tx_inv E. apply tx_gets_ok in Htx as [-> ->].
  rewrite (durable_resolves q s Hd Hq) in E. unfold settle in E. tx_inv E. apply tx_ret_ok in E as [_ ->].
  transitivity s0.
  - injection Htx as _ <-. apply kept_update. intros x Hx. split; [done|]. intros Hne. destruct Hne.
    apply andb_prop in Hx as [Hx _]. apply andb_prop in Hx as [Hx%ma_is_eq _]. by rewrite Hx.
  - assert (tx_keeps (claims_kept (Some q)) (tx_when (a =? 1)%Z
      (tx! _ := move_routes ar_claimed "active" "restored" "minimal approval" q in tx_ret tt))) as Hk
      by (repeat keeps_step; apply kept_move).
    exact (Hk _ _ _ Htx0).
Qed.

Lemma after_keeps {A} (R : Store -> Store -> Prop) `{!Reflexive R} (m : Tx Store A) s :
  tx_keeps R m -> R s (after_tx m s).
Proof. intros H. unfold after_tx. destruct (m s) as [[a s']|e] eqn:E; [by apply (H s a s')|reflexivity]. Qed.

Lemma kept_ids_durable q s s' : claims_kept q s s' ->
  Forall (fun a => durable (ma_RequestID a)) (cr_approvals (db_core s)) ->
  Forall (fun a => durable (ma_RequestID a)) (cr_approvals (db_core s')).
Proof.
  intros [_ H] Hd. rewrite Forall_forall in Hd. apply Forall_forall. intros a Ha.
  destruct (H a Ha) as [?|(b & -> & Hb)%list_elem_of_fmap]; [done|by apply Hd].
Qed.

Lemma kept_away_kept q r s s' : claims_kept r s s' -> Some q <> r -> kept_away q s -> kept_away q s'.
Proof.
  intros [H _] Hne (a & Ha & Hid & Hc). destruct (H a Ha) as (a' & Ha' & Hid' & Hk). exists a'.
  split_and!; [done|congruence|]. intros Hp. rewrite Hid in Hk. destruct (Hk Hne Hp) as [Hpa Hcl]. by apply Hcl, Hc.
Qed.

(** *** The parts of a press, on the store *)

Lemma edit_store svc requestID text w : wd_Store (editMinimalApprovalMessage svc requestID text w).2 = wd_Store w.
Proof.
  unfold editMinimalApprovalMessage, editMinimalApprovalTarget. destruct (GetMinimalApproval _ _); [|done].
  destruct (_ || _); [done|]. by destruct (as_Edit svc).
Qed.

Lemma edit_route_store svc route text w : wd_Store (editMinimalApprovalRouteMessage svc route text w).2 = wd_Store w.
Proof.
  unfold editMinimalApprovalRouteMessage, editMinimalApprovalTarget. destruct (_ || _); [done|]. by destruct (as_Edit svc).
Qed.

Lemma edit_answers svc requestID text w : wd_Answers (editMinimalApprovalMessage svc requestID text w).2 = wd_Answers w.
Proof.
  unfold editMinimalApprovalMessage, editMinimalApprovalTarget. destruct (GetMinimalApproval _ _); [|done].
  destruct (_ || _); [done|]. by destruct (as_Edit svc).
Qed.

Lemma edit_route_answers svc route text w : wd_Answers (editMinimalApprovalRouteMessage svc route text w).2 = wd_Answers w.
Proof.
  unfold editMinimalApprovalRouteMessage, editMinimalApprovalTarget. destruct (_ || _); [done|]. by destruct (as_Edit svc).
Qed.

(** Every operation of a press is a step of the approvals or changes nothing. *)
Lemma after_step MustJSON p {A} (m : Tx Store A) s :
  (forall a s', m s = Ok (a, s') -> approval_step MustJSON p s s') -> rtc (approval_step MustJSON p) s (after_tx m s).
Proof. intros H. unfold after_tx. destruct (m s) as [[a s']|e]; [apply rtc_once; by eapply H|apply rtc_refl]. Qed.

Lemma finish_steps MustJSON p now route status s : status <> "pending" ->
  rtc (approval_step MustJSON p) s (after_tx (finishPress now route status) s)
  /\ forall q, claims_kept q s (after_tx (finishPress now route status) s).
Proof.
  intros Hs. split; [apply after_step; intros a s' H; by eapply as_finish|].
  intros q. apply (after_keeps (claims_kept q)). by apply kept_finish.
Qed.

Lemma restore_steps MustJSON p now route s :
  rtc (approval_step MustJSON p) s (after_tx (restorePress now route) s).
Proof. apply after_step. intros a s' H. by eapply as_restore. Qed.

Section settled.
Context (svc : ApprovalService) (p : Protector).
Hypothesis Hp : as_Protector svc = Some p.

Lemma answered_store now route w out w' : answeredPress svc now route w = (out, w') ->
  rtc (approval_step (as_MustJSON svc) p) (wd_Store w) (wd_Store w')
  /\ forall q, claims_kept q (wd_Store w) (wd_Store w').
Proof.
  unfold answeredPress. destruct (pressStatus route) as [status text] eqn:Es.
  assert (status <> "pending") as Hs by (unfold pressStatus in Es; destruct (String.eqb _ _); by injection Es as <- <-).
  destruct (finish_steps (as_MustJSON svc) p now route status (wd_Store w) Hs) as [H1 H2]. unfold after_tx in *.
  destruct (finishPress now route status (wd_Store w)) as [[[|] s']|e].
  - pose proof (edit_store svc (mq_RequestID route) text (on_store (fun _ => s') w)) as He.
    destruct (editMinimalApprovalMessage _ _ _ _) as [err w1]. cbn in He. intros [= _ <-]. by rewrite He.
  - assert (forall err : DirectResponse + press_error, (err, on_store (fun _ => s') w) = (out, w') ->
      rtc (approval_step (as_MustJSON svc) p) (wd_Store w) (wd_Store w')
      /\ (forall q, claims_kept q (wd_Store w) (wd_Store w'))) as Hplain by (by intros err [= _ <-]).
    destruct (GetMinimalApproval _ s') as [a|]; [|apply Hplain].
    destruct (String.eqb (mp_Status a) "expired"); [|apply Hplain].
    pose proof (edit_store svc (mq_RequestID route) inactiveText (on_store (fun _ => s') w)) as He.
    destruct (editMinimalApprovalMessage _ _ _ _) as [err w1]. cbn in He. intros [= _ <-]. by rewrite He.
  - rewrite Hp. set (m := CancelMinimalApprovalClaimWithInactiveEdit (as_MustJSON svc) (Some p) now (mq_RequestID route) (mq_Action route) text).
    assert (rtc (approval_step (as_MustJSON svc) p) (wd_Store w) (after_tx m (wd_Store w))) as Hc
      by (apply after_step; intros a t Ht; by eapply as_cancel).
    assert (forall q, claims_kept q (wd_Store w) (after_tx m (wd_Store w))) as Hk
      by (intros q; apply (after_keeps (claims_kept q)); apply kept_cancel).
    unfold after_tx in Hc, Hk. destruct (m (wd_Store w)) as [[[|] s']|e'].
    + by intros [= _ <-].
    + pose proof (edit_store svc (mq_RequestID route) text (on_store (fun _ => s') w)) as He.
      destruct (editMinimalApprovalMessage _ _ _ _) as [err w1]. cbn in He. intros [= _ <-]. by rewrite He.
    + pose proof (edit_store svc (mq_RequestID route) text w) as He.
      destruct (editMinimalApprovalMessage _ _ _ _) as [err w1]. cbn in He. intros [= _ <-]. by rewrite He.
Qed.

(** After the call: all claims are kept, but that of an answer that was not sent. *)
Lemma settled_store now route err w out w' : settlePress svc now route err w = (out, w') ->
  Forall (fun a => durable (ma_RequestID a)) (cr_approvals (db_core (wd_Store w))) ->
  mq_RequestID route ∈ map ma_RequestID (cr_approvals (db_core (wd_Store w))) ->
  rtc (approval_step (as_MustJSON svc) p) (wd_Store w) (wd_Store w')
  /\ claims_kept (if unsent err then Some (mq_RequestID route) else None) (wd_Store w) (wd_Store w').
Proof.
  intros H Hd Hq. unfold settlePress, unsent in *. destruct err as [e|].
  2: { destruct (answered_store now route w out w' H) as [H1 H2]. by split. }
  destruct (minimalApprovalRequestInactive e); cbn [negb andb].
  - destruct (finish_steps (as_MustJSON svc) p now route "expired" (wd_Store w) ltac:(done)) as [H1 H2].
    pose proof (edit_route_store svc route inactiveText (on_store (after_tx (finishPress now route "expired")) w)) as He.
    destruct (editMinimalApprovalRouteMessage _ _ _ _) as [er w1]. cbn in He. injection H as _ <-. rewrite He. by split.
  - destruct (ce_Transport e || minimalApprovalDefinitelyUnsent e).
    + injection H as _ <-. split; [apply restore_steps|by apply kept_restore].
    + destruct (finish_steps (as_MustJSON svc) p now route "cancelled" (wd_Store w) ltac:(done)) as [H1 H2].
      pose proof (edit_route_store svc route unknownOutcomeText (on_store (after_tx (finishPress now route "cancelled")) w)) as He.
      destruct (editMinimalApprovalRouteMessage _ _ _ _) as [er w1]. cbn in He. injection H as _ <-. rewrite He. by split.
Qed.

End settled.

(** A press that is admitted: the approval it met, and what it left of it. *)
Lemma claim_inversion now chatID topicID messageID existing w route w' : ApprovalInv (wd_Store w) ->
  claimPress now chatID topicID messageID (Some existing) w = (inl route, w') ->
  ClaimMinimalApproval now (mq_Token existing) chatID topicID messageID (trim_space (mq_SessionIdentity existing)) (wd_Store w)
    = Ok ((Some route, true), wd_Store w')
  /\ exists rt a a2 s1, pressed (wd_Store w) rt a messageID /\ ApprovalInv (wd_Store w')
    /\ mq_RequestID route = ar_RequestID rt /\ mq_Action route = ar_Action rt
    /\ a2 ∈ cr_approvals (db_core (wd_Store w')) /\ ma_RequestID a2 = ar_RequestID rt /\ ma_pending a2 = true
    /\ ma_ClaimState a2 = "claimed" /\ ma_ClaimAction a2 = Some (ar_Action rt)
    /\ cr_approvalRoutes (db_core (wd_Store w'))
       = update_where (fun x => ar_of (ar_RequestID rt) x && ar_active x) (upd_route_status "claimed")
           (cr_approvalRoutes (db_core s1)).
Proof.
  intros HI H. unfold claimPress in H. destruct (negb _); [done|].
  destruct (ClaimMinimalApproval now _ chatID topicID messageID _ (wd_Store w)) as [[[[r|] [|]] s']|e] eqn:E; try done.
  injection H as -> <-. change (wd_Store (on_store (fun _ => s') w)) with s'. split; [done|].
  pose proof E as E0. unfold ClaimMinimalApproval in E. tx_inv E. apply tx_gets_ok in Htx as [-> ->].
  destruct (find_route (mq_Token existing) (wd_Store w)) as [rt|] eqn:Er; [|apply tx_ret_ok in E as [[=] _]].
  cbn [mbind option_bind] in E.
  destruct (find_approval (ar_RequestID rt) (wd_Store w)) as [a|] eqn:Ea; [|apply tx_ret_ok in E as [[=] _]].
  cbn [mbind option_bind] in E. destruct (press_exact _ _ _ _ rt a) eqn:Ep; cbn [negb] in E; [|apply tx_ret_ok in E as [[=] _]].
  destruct (press_run now (mq_Token existing) chatID topicID messageID (trim_space (mq_SessionIdentity existing)) (wd_Store w) rt a HI Er Ea Ep)
    as (route' & s2 & a2 & H1 & HI2 & Hact & _ & H3 & H4 & H5 & H6 & _).
  rewrite E0 in H1. injection H1 as -> ->. clear E0. tx_inv E. destruct (negb a0); [by apply tx_ret_ok in E as [[=] _]|]. tx_inv E.
  destruct (negb (a1 =? 1)%Z); [by apply tx_ret_ok in E as [[=] _]|]. tx_inv E. apply tx_ret_ok in E as [[= Hroute] ->].
  apply find_approval_some in H3 as [Ha2 Hq2]. apply move_routes_run in Htx1 as [-> _].
  eexists rt, a, a2, _. split_and!; try done; [by eapply press_exact_spec|subst route'; by destruct (_ && _)].
Qed.

(** It meets an idle approval and claims it. *)
Lemma claimed_press now chatID topicID messageID existing w route w' : ApprovalInv (wd_Store w) ->
  claimPress now chatID topicID messageID (Some existing) w = (inl route, w') ->
  approval_step (fun _ => "") plainProtector (wd_Store w) (wd_Store w')
  /\ (forall q, claims_kept q (wd_Store w) (wd_Store w'))
  /\ (exists a, a ∈ cr_approvals (db_core (wd_Store w)) /\ ma_RequestID a = mq_RequestID route
                /\ ma_pending a = true /\ ma_idle a = true)
  /\ kept_away (mq_RequestID route) (wd_Store w').
Proof.
  intros HI H. destruct (claim_inversion now chatID topicID messageID existing w route w' HI H)
    as (E & rt & a & a2 & s1 & HP & _ & Hid & _ & Ha2 & Hq2 & Hp2 & Hc2 & _).
  split; [by eapply as_claim|]. split; [intros q; by eapply kept_claim|]. split.
  - exists a. split_and!; [apply HP|rewrite Hid; apply HP|apply HP|apply HP].
  - exists a2. split_and!; [done|congruence|done].
Qed.

(** *** The invariant of the presses *)

Lemma elem_of_without q r l : r ∈ without q l <-> r ∈ l /\ mq_RequestID r <> q.
Proof. unfold without. rewrite elem_of_filter_bool, negb_true_iff, String.eqb_neq. done. Qed.

Lemma NoDup_without q l : NoDup (map mq_RequestID l) -> NoDup (map mq_RequestID (without q l)).
Proof.
  unfold without. induction l as [|r l IH]; [done|]. cbn [map]. rewrite filter_cons_bool. intros [Hr Hl]%NoDup_cons.
  destruct (negb _); [|by apply IH]. cbn [map]. apply NoDup_cons. split; [|by apply IH].
  intros (x & Hx & [Hin _]%elem_of_filter_bool)%list_elem_of_fmap. apply Hr. rewrite Hx. by apply list_elem_of_fmap_2.
Qed.

Lemma without_gone q l : ~ q ∈ map mq_RequestID (without q l).
Proof. intros (r & Hr & [_ Hn]%elem_of_without)%list_elem_of_fmap. by symmetry in Hr. Qed.

Lemma NoDup_owners q h f : NoDup (map mq_RequestID (h ++ f)) ->
  NoDup (map mq_RequestID (without q h ++ f)) /\ NoDup (map mq_RequestID (h ++ without q f)).
Proof.
  rewrite !map_app, !NoDup_app. intros (Hh & Hd & Hf). split.
  - split_and!; [by apply NoDup_without| |done]. intros x (r & -> & [Hr _]%elem_of_without)%list_elem_of_fmap.
    apply Hd. by apply list_elem_of_fmap_2.
  - split_and!; [done| |by apply NoDup_without]. intros x Hx (r & -> & [Hr _]%elem_of_without)%list_elem_of_fmap.
    apply (Hd _ Hx). by apply list_elem_of_fmap_2.
Qed.

Lemma away_known q s : kept_away q s -> q ∈ map ma_RequestID (cr_approvals (db_core s)).
Proof. intros (a & Ha & <- & _). by apply list_elem_of_fmap_2. Qed.

(** A press in the list of two is the only one of its request. *)
Lemma owner_unique (l : list MinimalApprovalRoute) r r' :
  NoDup (map mq_RequestID l) -> r ∈ l -> r' ∈ l -> mq_RequestID r = mq_RequestID r' -> r = r'.
Proof. apply keyed_inj. Qed.

(** A change of the store that keeps the claims of the presses. *)
Lemma presses_kept MustJSON p q st s' :
  PressInv st -> rtc (approval_step MustJSON p) (ps_Store st) s' -> claims_kept q (ps_Store st) s' ->
  ApprovalInv s' /\ Forall (fun a => durable (ma_RequestID a)) (cr_approvals (db_core s'))
  /\ forall r, r ∈ ps_Held st ++ ps_Answers st -> Some (mq_RequestID r) <> q -> kept_away (mq_RequestID r) s'.
Proof.
  intros [HI Hd _ _ _ _ Ha] Hs Hk. split_and!.
  - by eapply approval_steps_inv.
  - by eapply kept_ids_durable.
  - intros r Hr Hne. eapply kept_away_kept; [done|done|by apply Ha].
Qed.

Lemma press_step_inv MustJSON p st st' : PressInv st -> press_step MustJSON p st st' -> PressInv st'.
Proof.
  intros HI H. pose proof HI as [HS Hd Ho Hn Hh Hf Ha].
  destruct H as [now chatID topicID messageID existing w route w' st Es H|svc now route e st Hr Hplan
    |svc now route e st Hr Hplan|svc route respond answer st Hr Hplan|svc now route err w out w' st Hj Hp Hr Es H|s' st H].
  - rewrite Es in *. destruct (claimed_press now chatID topicID messageID existing w route w' HS H)
      as (Hstep & Hkept & (a & Hin & Hid & Hpen & Hidle) & Haway).
    assert (forall r, r ∈ ps_Held st ++ ps_Answers st -> mq_RequestID r <> mq_RequestID route) as Hnew.
    { intros r Hr E. destruct (Ha r Hr) as (b & Hb & Hbid & Hc).
      assert (b = a) as -> by (apply (keyed_inj ma_RequestID _ _ _ (ai_ids _ HS) Hb Hin); congruence).
      unfold ma_idle in Hidle. rewrite (Hc Hpen) in Hidle. discriminate Hidle. }
    rewrite <- Es in *. destruct (presses_kept _ _ None st (wd_Store w') HI (rtc_once _ _ Hstep) (Hkept None)) as (H1 & H2 & H3).
    split; cbn [ps_Store ps_Held ps_Flying ps_Answers]; try done.
    + cbn [app map]. apply NoDup_cons. split; [|done]. intros (r & Hr & Hrin)%list_elem_of_fmap.
      symmetry in Hr. revert Hr. apply Hnew. apply elem_of_app in Hrin as [?|?]; apply elem_of_app; [by left|right; by apply Hf].
    + intros r r' [-> |Hr]%elem_of_cons Hr'; [|by apply Hh]. intros E. apply (Hnew r'); [apply elem_of_app; by right|done].
    + intros r [-> |Hr]%elem_of_cons; [done|]. by apply H3.
  - destruct (presses_kept MustJSON p (Some (mq_RequestID route)) st _ HI (restore_steps MustJSON p now route (ps_Store st)))
      as (H1 & H2 & H3); [apply kept_restore; [done|]; apply away_known, Ha, elem_of_app; by left|].
    split; cbn [ps_Store ps_Held ps_Flying ps_Answers]; try done.
    + by apply NoDup_owners.
    + intros r r' [Hrin _]%elem_of_without. by apply Hh.
    + intros r Hrin. apply H3.
      * apply elem_of_app in Hrin as [[? _]%elem_of_without|?]; apply elem_of_app; tauto.
      * intros [= E]. apply elem_of_app in Hrin as [[_ ?]%elem_of_without|Hra]; [done|]. by apply (Hh route r Hr Hra).
  - destruct (finish_steps MustJSON p now route "cancelled" (ps_Store st) ltac:(discriminate)) as [Hs Hk].
    destruct (presses_kept MustJSON p None st _ HI Hs (Hk None)) as (H1 & H2 & H3).
    split; cbn [ps_Store ps_Held ps_Flying ps_Answers]; try done.
    + by apply NoDup_owners.
    + intros r r' [Hrin _]%elem_of_without. by apply Hh.
    + intros r Hrin. apply H3; [|done]. apply elem_of_app in Hrin as [[? _]%elem_of_without|?]; apply elem_of_app; tauto.
  - split; cbn [ps_Store ps_Held ps_Flying ps_Answers]; try done.
    + rewrite map_app in *. cbn [map]. rewrite NoDup_app in *. destruct Ho as (Ho1 & Ho2 & Ho3). split_and!.
      * by apply NoDup_without.
      * intros x Hx [-> |Hx']%elem_of_cons; [by apply without_gone in Hx|].
        apply list_elem_of_fmap in Hx as (r & -> & [Hrin _]%elem_of_without). apply (Ho2 (mq_RequestID r)); [by apply list_elem_of_fmap_2|done].
      * apply NoDup_cons. split; [|done]. apply Ho2. by apply list_elem_of_fmap_2.
    + cbn [map]. apply NoDup_cons. split; [|done]. intros (r & Hrr & Hrin)%list_elem_of_fmap. by apply (Hh route r Hr Hrin).
    + intros r r' [Hrin Hne]%elem_of_without [-> |Hr']%elem_of_cons; [done|by apply Hh].
    + intros r [-> |Hrf]%elem_of_cons; [by left|right; by apply Hf].
    + intros r Hrin. apply Ha. apply elem_of_app in Hrin as [[? _]%elem_of_without|[-> |?]%elem_of_cons]; apply elem_of_app; tauto.
  - rewrite Es in *. assert (kept_away (mq_RequestID route) (wd_Store w)) as Haw by (apply Ha, elem_of_app; right; by apply Hf).
    destruct (settled_store svc p Hp now route err w out w' H Hd (away_known _ _ Haw)) as [Hs Hk].
    rewrite <- Es in *. destruct (presses_kept _ _ _ st _ HI Hs Hk) as (H1 & H2 & H3).
    assert (forall r, r ∈ ps_Held st -> mq_RequestID r <> mq_RequestID route) as Hhr by (intros r Hrh; apply Hh; [done|by apply Hf]).
    destruct (unsent err) eqn:Eu; split; cbn [ps_Store ps_Held ps_Flying ps_Answers]; try done.
    + by apply NoDup_owners.
    + by apply NoDup_without.
    + intros r r' Hrh [Hr' _]%elem_of_without. by apply Hh.
    + intros r [Hrf Hne]%elem_of_without. apply elem_of_without. split; [by apply Hf|done].
    + intros r [Hrh|[Hra Hne]%elem_of_without]%elem_of_app; apply H3; try (apply elem_of_app; tauto).
      * intros [= E]. by apply (Hhr r).
      * by intros [= E].
    + by apply NoDup_owners.
    + intros r [Hrf Hne]%elem_of_without. by apply Hf.
    + intros r Hrin. by apply H3.
  - destruct (presses_kept MustJSON p None st s' HI (rtc_once _ _ (outside_step _ _ _ _ H)) (outside_kept None _ _ _ _ H)) as (H1 & H2 & H3).
    split; cbn [ps_Store ps_Held ps_Flying ps_Answers]; try done. intros r Hrin. by apply H3.
Qed.

Lemma PressInv_empty : PressInv (mkPresses emptyStore [] [] []).
Proof.
  split; cbn; [apply ApprovalInv_empty|constructor|constructor|constructor|..].
  - intros r r' Hr. by apply elem_of_nil in Hr.
  - done.
  - intros r Hr. by apply elem_of_nil in Hr.
Qed.

Lemma press_steps_inv MustJSON p st st' : PressInv st -> rtc (press_step MustJSON p) st st' -> PressInv st'.
Proof. intros HI H. induction H as [|x y z H _ IH]; [done|]. apply IH. by eapply press_step_inv. Qed.

(** The two moves of buttons at a claim: none of the request is active any more. *)
Lemma no_active q routes r : r ∈ update_where (fun x => ar_of q x && ar_active x) (upd_route_status "claimed") routes ->
  ar_of q r = true -> ar_active r = false.
Proof.
  intros (y & _ & ->)%elem_of_update Hq. destruct (ar_of q y && ar_active y) eqn:E; [done|].
  destruct (ar_active y); [|done]. by rewrite Hq in E.
Qed.

Lemma press_holds now chatID topicID messageID existing w route w' : ApprovalInv (wd_Store w) ->
  claimPress now chatID topicID messageID (Some existing) w = (inl route, w') ->
  exists a, held route (wd_Store w') a.
Proof.
  intros HI H. destruct (claim_inversion now chatID topicID messageID existing w route w' HI H)
    as (_ & rt & a & a2 & s1 & _ & HI2 & Hid & Hact & Ha2 & Hq2 & Hp2 & Hc2 & Hac2 & HR).
  exists a2. split; [done|done|congruence|..].
  - split; [done|]. unfold ma_claimed_for. rewrite Hc2, Hac2, Hact. cbn. apply String.eqb_refl.
  - rewrite Hid. pose proof HI2 as [_ _ _ Hrows]. rewrite Forall_forall in Hrows. specialize (Hrows a2 Ha2). rewrite Hq2 in Hrows.
    destruct (ok_claimed a2 _ Hrows Hp2 Hc2) as (_ & _ & [Hall|Hall]); [done|].
    apply Forall_forall. intros r Hr. rewrite Forall_forall in Hall. pose proof (Hall r Hr) as Hactive.
    apply elem_of_filter_bool in Hr as [Hr Hlr]. apply andb_prop in Hlr as [Hof _].
    rewrite HR in Hr. by rewrite (no_active _ _ r Hr Hof) in Hactive.
Qed.

(** The end of a held claim: exactly what the update says, for this request alone. *)
Lemma held_settles route s a f status verb :
  Forall (fun a => durable (ma_RequestID a)) (cr_approvals (db_core s)) ->
  held route s a -> (forall x, ma_RequestID (f x) = ma_RequestID x) ->
  exists s', (tx! resolved := tx_gets (resolveMinimalApprovalRequestID (mq_RequestID route)) in
      settle (ma_claimed_for (mq_Action route)) f ar_claimed status verb (fun _ => tx_ret tt) resolved) s = Ok (true, s')
    /\ f a ∈ cr_approvals (db_core s')
    /\ live_routes (mq_RequestID route) (cr_approvalRoutes (db_core s'))
       = all_moved status (live_routes (mq_RequestID route) (cr_approvalRoutes (db_core s)))
    /\ NoDup (map ma_RequestID (cr_approvals (db_core s')))
    /\ forall b, ma_RequestID b <> mq_RequestID route -> b ∈ cr_approvals (db_core s') <-> b ∈ cr_approvals (db_core s).
Proof.
  intros Hd [HI Ha Hid [Hpend Hcl] Hbut] Hf. set (q := mq_RequestID route) in *. set (action := mq_Action route) in *.
  set (c := fun x => ma_is q x && ma_pending x && ma_claimed_for action x).
  assert (c a = true) as Hca by (unfold c; by rewrite (proj2 (ma_is_eq q a) Hid), Hpend, Hcl).
  assert (affected c (cr_approvals (db_core s)) = 1%Z) as Haff.
  { destruct (request_affected c q s (ai_ids _ HI)) as [?|E]; [|done|by rewrite (E a Ha) in Hca].
    intros x Hx. apply andb_prop in Hx as [Hx _]. apply andb_prop in Hx as [Hx _]. by apply ma_is_eq. }
  eexists. split; [|split_and!].
  - erewrite tx_bind_run by reflexivity. rewrite (durable_resolves q s Hd) by (rewrite <- Hid; by apply list_elem_of_fmap_2).
    unfold settle. erewrite tx_bind_run by reflexivity. cbn [rows_of approval_table].
    change (fun x => ma_is q x && ma_pending x && ma_claimed_for action x) with c. rewrite Haff. cbn [tx_when Z.eqb Pos.eqb].
    erewrite tx_bind_run; [reflexivity|]. erewrite tx_bind_run; [reflexivity|].
    unfold move_routes, sql_update_exactly. erewrite tx_bind_run by reflexivity.
    match goal with |- context [rows_of approval_route_table ?x] => change (rows_of approval_route_table x) with (cr_approvalRoutes (db_core s)) end.
    rewrite (proj2 (two_live q ar_claimed s a HI Ha Hid Hpend live_of_claimed) Hbut). reflexivity.
  - cbn. apply elem_of_update. exists a. by rewrite Hca.
  - cbn. apply live_routes_moved; [apply live_of_claimed|done].
  - cbn. rewrite map_update by done. apply HI.
  - intros b Hb. cbn. rewrite elem_of_update. split.
    + intros (x & Hx & ->). destruct (c x) eqn:E; [|done]. apply andb_prop in E as [E _]. apply andb_prop in E as [E%ma_is_eq _].
      by rewrite Hf in Hb.
    + intros Hin. exists b. split; [done|]. destruct (c b) eqn:E; [|done]. apply andb_prop in E as [E _].
      apply andb_prop in E as [E%ma_is_eq _]. done.
Qed.

(** How a held claim ends, by the answer of the session. *)
Lemma settled_press svc now route err w a :
  Forall (fun a => durable (ma_RequestID a)) (cr_approvals (db_core (wd_Store w))) -> held route (wd_Store w) a ->
  let '(out, w') := settlePress svc now route err w in
  wd_Answers w' = wd_Answers w
  /\ press_ended route err (wd_Store w) (wd_Store w')
  /\ match err with
     | None => exists r, out = inl r /\ dr_CallbackText r = (pressStatus route).2
     | Some e => if minimalApprovalRequestInactive e then out = inl (callbackText "비활성 요청입니다.")
                 else out = inr (ErrResponder e)
     end.
Proof.
  intros Hd Hh. unfold settlePress, press_ended, unsent.
  assert (forall status, exists s', finishPress now route status (wd_Store w) = Ok (true, s')
    /\ (exists a', a' ∈ cr_approvals (db_core s') /\ ma_RequestID a' = mq_RequestID route /\ ma_Status a' = status)
    /\ live_routes (mq_RequestID route) (cr_approvalRoutes (db_core s')) = []
    /\ NoDup (map ma_RequestID (cr_approvals (db_core s')))
    /\ (forall b, ma_RequestID b <> mq_RequestID route -> b ∈ cr_approvals (db_core s') <-> b ∈ cr_approvals (db_core (wd_Store w)))) as Hfin.
  { intros status. destruct (held_settles route (wd_Store w) a (upd_approval_state status "idle" None now) "consumed" "finished" Hd Hh)
      as (s' & H1 & H2 & H3 & H4 & H5); [done|]. exists s'. split_and!; [exact H1| |exact H3|done|done].
    eexists. split_and!; [exact H2|apply Hh|done]. }
  destruct err as [e|].
  2: { unfold answeredPress. destruct (pressStatus route) as [status text]. destruct (Hfin status) as (s' & Hrun & H1 & H2 & H3 & H4).
       rewrite Hrun. pose proof (edit_store svc (mq_RequestID route) text (on_store (fun _ => s') w)) as He.
       pose proof (edit_answers svc (mq_RequestID route) text (on_store (fun _ => s') w)) as Hx.
       destruct (editMinimalApprovalMessage _ _ _ _) as [er w1]. cbn in He, Hx. rewrite He.
       split; [done|]. split; [by split_and!|by eexists]. }
  destruct (minimalApprovalRequestInactive e); cbn [negb andb].
  - destruct (Hfin "expired") as (s' & Hrun & H1 & H2 & H3 & H4). unfold after_tx. cbn beta.
    pose proof (edit_route_store svc route inactiveText (on_store (after_tx (finishPress now route "expired")) w)) as He.
    pose proof (edit_route_answers svc route inactiveText (on_store (after_tx (finishPress now route "expired")) w)) as Hx.
    unfold after_tx in He, Hx. destruct (editMinimalApprovalRouteMessage _ _ _ _) as [er w1]. cbn [snd wd_Store wd_Answers on_store] in He, Hx.
    rewrite Hrun in He. rewrite He.
    split; [done|]. split; [by split_and!|done].
  - destruct (ce_Transport e || minimalApprovalDefinitelyUnsent e).
    + destruct (held_settles route (wd_Store w) a (upd_approval_claim "idle" None now) "active" "restored" Hd Hh)
        as (s' & H1 & H2 & H3 & H4 & H5); [done|].
      change (restorePress now route (wd_Store w) = Ok (true, s')) in H1. unfold after_tx.
      cbn [wd_Store wd_Answers on_store]. rewrite H1.
      split; [done|]. split; [|done]. split_and!; [|exact H3|done|done].
      eexists. split; [exact H2|]. split; [apply Hh|]. split; [apply Hh|done].
    + destruct (Hfin "cancelled") as (s' & Hrun & H1 & H2 & H3 & H4). unfold after_tx. cbn beta.
      pose proof (edit_route_store svc route unknownOutcomeText (on_store (after_tx (finishPress now route "cancelled")) w)) as He.
      pose proof (edit_route_answers svc route unknownOutcomeText (on_store (after_tx (finishPress now route "cancelled")) w)) as Hx.
      unfold after_tx in He, Hx. destruct (editMinimalApprovalRouteMessage _ _ _ _) as [er w1]. cbn [snd wd_Store wd_Answers on_store] in He, Hx.
    rewrite Hrun in He. rewrite He.
      split; [done|]. split; [by split_and!|done].
Qed.

(** ** Theorems *)

(** C5: However many presses of however many buttons run side by side, whatever the sessions
    answer and whatever expires, is released, cancelled or asked again meanwhile: a request
    is answered at most once, unless the answer is certain not to have been sent, and at
    most one press has it in hand. *)
Theorem answered_once MustJSON p st :
  rtc (press_step MustJSON p) (mkPresses emptyStore [] [] []) st ->
  NoDup (map mq_RequestID (ps_Answers st)) /\ NoDup (map mq_RequestID (ps_Held st ++ ps_Flying st)).
Proof. intros H. by destruct (press_steps_inv MustJSON p _ _ PressInv_empty H) as [_ _ Ho Hn _ _ _]. Qed.

Lemma without_self r : without (mq_RequestID r) [r] = [].
Proof. unfold without. rewrite filter_cons_bool, String.eqb_refl. done. Qed.

Lemma ex_claimed_steps :
  rtc (press_step ex_json plainProtector) (mkPresses emptyStore [] [] []) (mkPresses (wd_Store ex_claimed.2) [ex_claimed.1] [] []).
Proof.
  refine (rtc_l _ _ (mkPresses ex_waiting [] [] []) _ (pt_outside _ _ ex_waiting (mkPresses emptyStore [] [] []) _) (rtc_once _ _ _)).
  - apply (os_create _ _ "T1" ex_live_seed _ true); [reflexivity|discriminate|by vm_compute].
  - refine (pt_claim _ _ "T2" 7 0 9 (match ex_button "yes" with Some r => r | None => no_route end)
      (mkWorld ex_waiting [] []) ex_claimed.1 ex_claimed.2 (mkPresses ex_waiting [] [] []) eq_refl _). by vm_compute.
Qed.

Lemma ex_planned : exists respond answer, planPress ex_service ex_claimed.1 = Respond respond answer.
Proof. vm_compute. by do 2 eexists. Qed.

(** A press that is answered alone. *)
Lemma answered_alone svc p now route w respond answer :
  as_Protector svc = Some p -> planPress svc route = Respond respond answer ->
  rtc (press_step (as_MustJSON svc) p) (mkPresses (wd_Store w) [route] [] [])
    (mkPresses (wd_Store (settlePress svc now route None w).2) [] [] [route]).
Proof.
  intros Hp Hplan. pose proof (pt_call (as_MustJSON svc) p svc route respond answer
    (mkPresses (wd_Store w) [route] [] []) ltac:(by left) Hplan) as H1.
  cbn [ps_Store ps_Held ps_Flying ps_Answers] in H1. rewrite without_self in H1.
  refine (rtc_l _ _ _ _ H1 (rtc_once _ _ _)).
  pose proof (pt_settle (as_MustJSON svc) p svc now route None w _ _
    (mkPresses (wd_Store w) [] [route] [route]) eq_refl Hp ltac:(by left) eq_refl
    (surjective_pairing (settlePress svc now route None w))) as H2.
  cbn [ps_Store ps_Held ps_Flying ps_Answers unsent] in H2. rewrite without_self in H2. exact H2.
Qed.

Lemma answered_once_witness :
  map ma_Status (cr_approvals (db_core (wd_Store ex_settled))) = ["approved"]
  /\ NoDup (map mq_RequestID [ex_claimed.1]).
Proof.
  split; [by vm_compute|]. destruct ex_planned as (respond & answer & Hplan).
  refine (proj1 (answered_once ex_json plainProtector (mkPresses (wd_Store ex_settled) [] [] [ex_claimed.1]) _)).
  exact (transitivity ex_claimed_steps
    (answered_alone ex_service plainProtector "T3" ex_claimed.1 ex_claimed.2 respond answer eq_refl Hplan)).
Defined.

(** A bounded summary has at most 300 runes and no line break, when its fallback has. *)
Lemma bounded_summary value fallback :
  (rune_count fallback <= minimalApprovalSummaryRunes)%nat -> has_byte "010" fallback = false ->
  (rune_count (boundedMinimalApprovalSummary value fallback) <= minimalApprovalSummaryRunes)%nat
  /\ has_byte "010" (boundedMinimalApprovalSummary value fallback) = false.
Proof.
  intros Hf Hb. unfold boundedMinimalApprovalSummary. cbv zeta.
  set (v := if String.eqb _ "" then fallback else _).
  assert (has_byte "010" v = false) as Hv by (unfold v; destruct (String.eqb _ ""); [done|by apply join_fields_no_byte]).
  destruct (Nat.ltb_spec minimalApprovalSummaryRunes (length (runes v))) as [Hl|Hl]; [|split; [exact Hl|done]].
  change "…" with (string_of_runes [ellipsis]). rewrite <- string_of_runes_app. split.
  - unfold rune_count. rewrite runes_string_of_runes by apply truncate_valid. rewrite length_app, length_take.
    unfold minimalApprovalSummaryRunes in *. cbn [length]. lia.
  - rewrite has_byte_runes by (done || apply truncate_valid). apply existsb_false.
    intros r [Hr| ->%list_elem_of_singleton]%elem_of_app; [|done].
    pose proof (runes_ascii "010" v ltac:(done) Hv) as Hn. rewrite Forall_forall in Hn.
    apply elem_of_take in Hr as (i & Hr & _). apply list_elem_of_lookup_2, Hn in Hr. by apply N.eqb_neq.
Qed.

(** Whatever a request carries, the text that describes it in its message is one line of at
    most 300 characters. *)
Theorem minimalApprovalPresentation_bounded kind params :
  let summary := (minimalApprovalPresentation kind params).2 in
  (rune_count summary <= 300)%nat /\ has_byte "010" summary = false.
Proof.
  cbv zeta. unfold minimalApprovalPresentation.
  destruct (String.eqb kind minimalCommandApprovalKind); [|destruct (String.eqb kind minimalFileApprovalKind)]; cbn [snd].
  - apply bounded_summary; [apply Nat.leb_le; by vm_compute|by vm_compute].
  - apply bounded_summary; [apply Nat.leb_le; by vm_compute|by vm_compute].
  - split; [apply Nat.leb_le; by vm_compute|by vm_compute].
Qed.

Lemma ex_waiting_inv : ApprovalInv ex_waiting.
Proof.
  apply (approval_steps_inv ex_json plainProtector emptyStore); [apply ApprovalInv_empty|]. apply rtc_once.
  apply (as_create _ _ "T1" ex_live_seed _ true); [reflexivity|by vm_compute].
Qed.

Lemma ex_waiting_durable : Forall (fun a => durable (ma_RequestID a)) (cr_approvals (db_core ex_waiting)).
Proof. vm_compute. repeat constructor. discriminate. Qed.

(** A press whose session is found, in a store nothing else changes meanwhile: the session
    gets one answer, accept or decline as the button says.  The request is open again with
    both buttons when the answer was not sent; it ends, approved or denied, expired or
    cancelled as the session says, with no button left, otherwise.  No other request
    changes. *)
Theorem handleMinimalApprovalCallback_spec svc now chatID topicID messageID existing w route w1 respond answer :
  ApprovalInv (wd_Store w) -> Forall (fun a => durable (ma_RequestID a)) (cr_approvals (db_core (wd_Store w))) ->
  claimPress now chatID topicID messageID (Some existing) w = (inl route, w1) ->
  planPress svc route = Respond respond answer -> (respond answer (wd_Store w1)).2 = wd_Store w1 ->
  let err := (respond answer (wd_Store w1)).1 in
  let '(out, w') := handleMinimalApprovalCallback svc now chatID topicID messageID (Some existing) w in
  wd_Answers w' = wd_Answers w ++ [answer]
  /\ ea_Result answer = [("decision", JStr (if String.eqb (mq_Action route) "deny" then "decline" else "accept"))]
  /\ press_ended route err (wd_Store w1) (wd_Store w')
  /\ match err with
     | None => exists r, out = inl r /\ dr_CallbackText r = (pressStatus route).2
     | Some e => if minimalApprovalRequestInactive e then out = inl (callbackText "비활성 요청입니다.")
                 else out = inr (ErrResponder e)
     end.
Proof.
  intros HI Hd Hclaim Hplan Hquiet err. unfold handleMinimalApprovalCallback. rewrite Hclaim, Hplan.
  destruct (press_holds now chatID topicID messageID existing w route w1 HI Hclaim) as [a Ha].
  destruct (claimed_press now chatID topicID messageID existing w route w1 HI Hclaim) as (_ & Hkept & _).
  assert (wd_Answers w1 = wd_Answers w) as Hanswers.
  { unfold claimPress in Hclaim. destruct (negb _); [done|].
    destruct (ClaimMinimalApproval _ _ _ _ _ _ _) as [[[[r|] [|]] s']|e]; try done. by injection Hclaim as _ <-. }
  unfold err in *. destruct (respond answer (wd_Store w1)) as [er s2]. cbn [fst snd] in *. subst s2.
  pose proof (settled_press svc now route er (mkWorld (wd_Store w1) (wd_Edits w1) (wd_Answers w1 ++ [answer])) a
    (kept_ids_durable None _ _ (Hkept None) Hd) Ha) as H.
  destruct (settlePress _ _ _ _ _) as [out w']. destruct H as (H1 & H2 & H3). rewrite H1. cbn [wd_Answers wd_Store] in *.
  split; [by rewrite Hanswers|]. split; [|by split].
  unfold planPress in Hplan. destruct (sessionForCallbackIdentity _ _ _); [|done]. unfold minimalApprovalResponse in Hplan.
  destruct (String.eqb (mq_Action route) "deny"); [|destruct (String.eqb (mq_Action route) "approve"); [|done]];
    (destruct (_ || _); [|done]); (destruct (cs_Exact _); [|done]); by injection Hplan as _ <-.
Qed.

Lemma handleMinimalApprovalCallback_spec_witness :
  let '(out, w') := handleMinimalApprovalCallback ex_service "T2" 7 0 9 (ex_button "yes") (mkWorld ex_waiting [] []) in
  map ma_Status (cr_approvals (db_core (wd_Store w'))) = ["approved"]
  /\ exists answer, wd_Answers w' = [answer] /\ ea_Result answer = [("decision", JStr "accept")].
Proof.
  destruct ex_planned as (respond & answer & Hplan).
  pose proof (handleMinimalApprovalCallback_spec ex_service "T2" 7 0 9 (default no_route (ex_button "yes"))
    (mkWorld ex_waiting [] []) ex_claimed.1 ex_claimed.2 respond answer ex_waiting_inv ex_waiting_durable ltac:(by vm_compute) Hplan) as H.
  assert (ex_button "yes" = Some (default no_route (ex_button "yes"))) as -> by by vm_compute.
  assert ((respond answer (wd_Store ex_claimed.2)).2 = wd_Store ex_claimed.2) as Hquiet.
  { vm_compute in Hplan. by injection Hplan as <- <-. }
  specialize (H Hquiet). 
  destruct (handleMinimalApprovalCallback _ _ _ _ _ _ _) as [out w'] eqn:E.
  split; [|exists answer; split; [exact (proj1 H)|exact (proj1 (proj2 H))]].
  change w' with (out, w').2. rewrite <- E. by vm_compute.
Defined.
