(* ===== verification/ApprovalDelivery.v ===== *)
(** * internal/daemon/minimal_approval.go: sending what the queue holds of approvals

    Three kinds of rows of the queue belong to approvals: the message with the buttons, the
    removal of a notice it replaces, and the edit of a message whose request has ended.
    Telegram and the JSON decoder are given by functions, as for the other deliveries. *)
From stdpp Require Import base list numbers strings gmap relations.
From Stdlib Require Import Lia Ascii.
From S2P Require Import Prelude GoStrings GoTime Sql Model CoreTables Store Delivery Queue QueueSafety Writers DeliveryWorker.
From S2P Require Import PendingCommands Threads Approvals ApprovalSafety ApprovalHandlers.

(** *** Sending what the queue holds of approvals *)

(** What the delivery of an approval needs beside the worker; the errors of the sender are
    those of the calls, [ab_CommitError] is that of the completion of a row. *)
Record ApprovalBot : Type := mkApprovalBot {
  ab_Worker : Worker;
  ab_MustJSON : DeliveryPayload -> string;
  ab_SendMessage : Z -> Z -> string -> list (list ButtonSpec) -> Z * option CallError;
  ab_EditMessage : Z -> Z -> Z -> string -> option string;
  ab_DeleteMessage : Z -> Z -> Z -> option string }.

Section deliveries.
Context (bot : ApprovalBot) (now : instant).

Local Abbreviation w := (ab_Worker bot).

(** An attempt given up for good. *)
Definition buryDelivery (item : DeliveryQueueItem) (status summary : string) (delay : Z) (s : Store) : Store :=
  let at_ := format_time now in
  let s1 := RecordDeliveryAttempt at_ (qi_ID item) (qi_RetryCount item + 1) status summary s in
  let s2 := ignore_error (FailDelivery (w_Protector w) at_ (qi_ID item) (qi_RetryCount item + 1) (now + delay)%Z
                            summary true) s1 in
  setError at_ w summary s2.

Definition noMessageID : CallError := mkCallError false "telegram delivery returned no message id".

Definition processMinimalApprovalDelivery (item : DeliveryQueueItem) (s : Store) : Store :=
  let at_ := format_time now in
  match w_Decode w (qi_PayloadJSON item) with
  | Err message => buryDelivery item "decode_error" (deliveryErrorSummary "decode_error" message) (w_RetryBase w) s
  | Ok payload =>
      if negb (MinimalApprovalDeliveryActive (qi_ID item) (dp_EventID payload) s) then s
      else
        let '(messageID, err) := ab_SendMessage bot (qi_ChatID item) (qi_TopicID item) (dp_Text payload) (dp_Buttons payload) in
        let sendErr := match err with
                       | Some e => Some e
                       | None => if (messageID <=? 0)%Z then Some noMessageID else None
                       end in
        match sendErr with
        | Some e =>
            let summary := minimalApprovalDeliveryErrorSummary "send_error" e in
            setError at_ w summary (failSummary now w item "send_error" summary s)
        | None =>
            match CompleteMinimalApprovalDelivery (ab_MustJSON bot) (w_Protector w) at_ (qi_ID item) (dp_EventID payload)
                    (qi_ChatID item) (qi_TopicID item) messageID s with
            | Err message =>
                let summary := deliveryErrorSummary "persist_error" message in
                let s1 := after_tx (ExpireMinimalApproval at_ (dp_EventID payload)) s in
                buryDelivery item "persist_error" summary 0 s1
            | Ok (_, s1) => RecordDeliveryAttempt at_ (qi_ID item) (qi_RetryCount item + 1) "delivered" "" s1
            end
        end
  end.

(** CompleteDelivery, recorded as [status], or retried when it cannot be committed. *)
Definition completeOrRetry (item : DeliveryQueueItem) (status : string) (s : Store) : Store :=
  let at_ := format_time now in
  match w_CommitError w (qi_ID item) with
  | Some message => failAttempt now w item "persist_error" message s
  | None =>
      RecordDeliveryAttempt at_ (qi_ID item) (qi_RetryCount item + 1) status ""
        (completeDelivery (w_Protector w) at_ (qi_ID item) None s)
  end.

Definition processMinimalApprovalPCCleanup (item : DeliveryQueueItem) (s : Store) : Store :=
  let incomplete message := buryDelivery item "decode_error" (deliveryErrorSummary "decode_error" message) 0 s in
  match w_Decode w (qi_PayloadJSON item) with
  | Err message => incomplete message
  | Ok payload =>
      if negb (String.eqb (dp_Mode payload) "delete_message") || String.eqb (trim_space (dp_EventID payload)) ""
      then incomplete "minimal approval PC cleanup is incomplete"
      else
        let route :=
          if (0 <? dp_MessageID payload)%Z
          then ResolveMessageRoute (qi_ChatID item) (qi_TopicID item) (dp_MessageID payload) s
          else ResolveMessageRouteByEventIdentity (dp_EventID payload) (dp_ThreadID payload) (dp_TurnID payload) s in
        match route with
        | None => completeOrRetry item "terminal" s
        | Some r =>
            if (mr_MessageID r <=? 0)%Z then completeOrRetry item "terminal" s
            else if negb (String.eqb (trim_space (mr_EventID r)) (dp_EventID payload)) then completeOrRetry item "terminal" s
            else
              let '(ready, terminal) := MinimalApprovalPCCleanupReady (dp_ItemID payload) (dp_ThreadID payload)
                                          (dp_TurnID payload) (dp_EventID payload) s in
              if terminal then completeOrRetry item "terminal" s
              else if negb ready then
                failSummary now w item "action_route_wait" "minimal approval actionable route is not durable yet" s
              else
                match ab_DeleteMessage bot (mr_ChatID r) (mr_TopicID r) (mr_MessageID r) with
                | Some message => failAttempt now w item "send_error" message s
                | None => completeOrRetry item "delivered" s
                end
        end
  end.

Definition processMinimalApprovalInactiveEdit (item : DeliveryQueueItem) (s : Store) : Store :=
  let incomplete message := buryDelivery item "decode_error" (deliveryErrorSummary "decode_error" message) 0 s in
  match w_Decode w (qi_PayloadJSON item) with
  | Err message => incomplete message
  | Ok payload =>
      if negb (String.eqb (dp_Mode payload) "edit") || (dp_MessageID payload <=? 0)%Z
         || String.eqb (trim_space (dp_Text payload)) ""
      then incomplete "minimal approval inactive edit is incomplete"
      else
        match ab_EditMessage bot (qi_ChatID item) (qi_TopicID item) (dp_MessageID payload) (dp_Text payload) with
        | Some message => failAttempt now w item "send_error" message s
        | None => completeOrRetry item "delivered" s
        end
  end.

(** The three approval kinds of processDeliveryBatch. *)
Definition processApprovalDelivery (item : DeliveryQueueItem) (s : Store) : Store :=
  if String.eqb (qi_Kind item) minimalApprovalQueueKind then processMinimalApprovalDelivery item s
  else if String.eqb (qi_Kind item) minimalApprovalPCCleanupQueueKind then processMinimalApprovalPCCleanup item s
  else processMinimalApprovalInactiveEdit item s.

End deliveries.

(** The worker of processDeliveryBatch with the approval kinds in place. *)
Definition with_approvals (bot : ApprovalBot) (now : instant) : Worker :=
  let w := ab_Worker bot in
  mkWorker (w_Protector w) (w_RetryBase w) (w_MaxAttempts w) (w_Decode w) (w_SendRendered w) (w_SendMessage w)
    (w_CommitError w) (w_Sanitize w) (processApprovalDelivery bot now).

(** ** Specification *)

(** How an attempt on a row of an approval ends: delivered, dead, waiting for its next
    attempt, or as it was when its request is no longer open. *)
Definition approval_settled (item : DeliveryQueueItem) (open : bool) (r r' : QueueRow) : Prop :=
  identity r' = identity r
  /\ ((delivered r' = true /\ q_Payload r' = None)
      \/ (dead r' = true /\ q_Payload r' = None)
      \/ (q_Status r' = DeliveryStatusRetry /\ q_RetryCount r' = (qi_RetryCount item + 1)%Z /\ q_Payload r' = q_Payload r)
      \/ (open = false /\ qi_Kind item = minimalApprovalQueueKind /\ r' = r)).

(** The request of a row is open: it waits for an answer, unpressed, and the row is its message. *)
Definition request_open (bot : ApprovalBot) (item : DeliveryQueueItem) (s : Store) : bool :=
  match w_Decode (ab_Worker bot) (qi_PayloadJSON item) with
  | Ok payload => MinimalApprovalDeliveryActive (qi_ID item) (dp_EventID payload) s
  | Err _ => true
  end.

(** What became of the row of the item. *)
Definition row_settles (item : DeliveryQueueItem) (open : bool) (r : QueueRow) (s' : Store) : Prop :=
  exists r', find_row (qi_ID item) (db_queue s') = Some r' /\ approval_settled item open r r'.

(** Samples: a bot whose sends succeed, and the message of the sample request, claimed. *)
Definition ex_bot : ApprovalBot :=
  mkApprovalBot (mkWorker (Some plainProtector) (5 * second)%Z 3
    (fun _ => Ok (mkDeliveryPayload "" "hello" "thread" "turn" "" "r1" 0 "" "" "" 0 "" [] None))
    (fun _ _ _ _ => ([], None)) (fun _ _ _ _ => (0%Z, None)) (fun _ => None) (fun m => m) (fun _ s => s))
    ex_json (fun _ _ _ _ => (9%Z, None)) (fun _ _ _ _ => None) (fun _ _ _ => None).

Definition ex_taken : list DeliveryQueueItem * Store :=
  match ClaimDeliveryBatch (Some plainProtector) "T2" 10 ex_created with Ok r => r | Err _ => ([], ex_created) end.

Definition ex_taken_item : DeliveryQueueItem :=
  default (mkQueueItem 0 "" "" 0 0 "" "" "" 0 "" "" "" "" "" "" 0 0) (head ex_taken.1).






(** The rows of the queue stay what they are, or only move on. *)
Definition queue_grows (s s' : Store) : Prop :=
  forall id r, find_row id (db_queue s) = Some r -> find_row id (db_queue s') = Some r.

Definition queue_moves (s s' : Store) : Prop :=
  forall id r, find_row id (db_queue s) = Some r ->
    exists r', find_row id (db_queue s') = Some r' /\ identity r' = identity r
               /\ (q_Payload r' = q_Payload r \/ q_Payload r' = None).

(** The primary key of minimal_approvals. *)
Definition approval_ids (s : Store) : list string := map ma_RequestID (rows_of approval_table s).

(** Steps of the store that, of the rows there were, change only [r] and those of its group,
    and keep the key of the approvals. *)
Definition only_row (p : Protector) (r : QueueRow) (s s' : Store) : Prop :=
  rtc (step p) s s' /\ approval_ids s' = approval_ids s
  /\ forall x, find_row (q_ID x) (db_queue s) = Some x -> apart r x -> find_row (q_ID x) (db_queue s') = Some x.



(** ** Lemmas *)

#[global] Instance only_row_preorder p r : PreOrder (only_row p r).
Proof.
  split; [by intros s; split_and!|]. intros s t u (H1 & H2 & H3) (K1 & K2 & K3).
  split_and!; [by etrans|congruence|]. intros x Hx Ha. by apply K3, Ha; apply H3.
Qed.

#[global] Instance queue_grows_preorder : PreOrder queue_grows.
Proof. split; [by intros s id r|]. intros s t u H K id r Hr. by apply K, H. Qed.

#[global] Instance queue_moves_preorder : PreOrder queue_moves.
Proof.
  split; [intros s id r Hr; exists r; split_and!; [done|done|by left]|]. intros s t u H K id r Hr.
  destruct (H id r Hr) as (r1 & H1 & Hi & Hp). destruct (K id r1 H1) as (r2 & H2 & Hi2 & Hp2).
  exists r2. split_and!; [done|congruence|]. destruct Hp2 as [E|]; [|by right]. by rewrite E.
Qed.

Lemma queue_grows_same s s' : db_queue s' = db_queue s -> queue_grows s s'.
Proof. intros H id r. by rewrite H. Qed.

Lemma queue_moves_same s s' : db_queue s' = db_queue s -> queue_moves s s'.
Proof. intros H id r Hr. exists r. split_and!; [by rewrite H|done|by left]. Qed.

Lemma enqueue_grows now item payload : tx_keeps queue_grows (enqueue_protected now item payload).
Proof.
  apply keeps_modify. intros s. unfold insert_ungrouped. destruct (event_target_exists _ _ _); [reflexivity|].
  intros id r Hr. cbn. unfold find_row in *. revert Hr. generalize (db_queue s). intros rows.
  induction rows as [|x rows IH]; [done|]. cbn [first_some app]. by destruct (id_is id x).
Qed.

Lemma cleanup_grows MustJSON protector now a : tx_keeps queue_grows (enqueueMinimalApprovalPCCleanupTx MustJSON protector now a).
Proof.
  unfold enqueueMinimalApprovalPCCleanupTx. destruct (String.eqb _ ""); [apply keeps_ret, _|].
  apply keeps_bind; [apply _|apply keeps_gets, _|]. intros routes. apply keeps_each; [apply _|]. intros r _.
  unfold enqueue_cleanup. destruct (_ || _); [apply keeps_ret, _|]. apply keeps_bind; [apply _|apply keeps_lift, _|].
  intros text. apply enqueue_grows.
Qed.

(** A completed message: its row is delivered. *)
Lemma complete_row_delivered MustJSON protector now queueID requestID chatID topicID messageID s u s' r :
  CompleteMinimalApprovalDelivery MustJSON protector now queueID requestID chatID topicID messageID s = Ok (u, s') ->
  find_row queueID (db_queue s) = Some r ->
  exists r', find_row queueID (db_queue s') = Some r' /\ identity r' = identity r /\ delivered r' = true /\ q_Payload r' = None.
Proof.
  intros H Hr. unfold CompleteMinimalApprovalDelivery in H. destruct (_ || _); [discriminate H|].
  tx_inv H. apply tx_gets_ok in Htx as [-> ->].
  destruct (resolveMinimalApprovalRequestID requestID s) as [q|]; [|discriminate H].
  tx_inv H. apply tx_gets_ok in Htx as [-> ->].
  destruct (find_first (ma_is q) _) as [a|]; [|discriminate H]. destruct (_ || _); [discriminate H|].
  tx_inv H. apply tx_gets_ok in Htx as [-> ->]. destruct (find_first _ (rows_of queue_table s)) as [e|]; [|discriminate H].
  destruct (negb _); [discriminate H|]. tx_inv H. injection Htx as <- <-. injection Htx1 as <- <-. injection Htx2 as <- <-.
  unfold sql_update_exactly in Htx0. tx_inv Htx0. injection Htx as <- <-.
  destruct (_ =? 2)%Z; [|discriminate Htx0]. apply tx_ret_ok in Htx0 as [_ ->].
  eexists. split; [apply (cleanup_grows _ _ _ _ _ _ _ H); cbn; apply find_row_hit; [done|exact Hr]|]. done.
Qed.

Lemma kill_moves now p : tx_keeps queue_moves (kill_deliveries now p).
Proof.
  unfold kill_deliveries. apply keeps_bind; [apply _| |intros; apply keeps_ret, _]. apply keeps_update. intros s id r Hr.
  cbn [with_rows rows_of queue_table db_queue set_queue]. rewrite find_row_update by done. rewrite Hr. cbn [fmap option_fmap option_map]. eexists. split; [done|].
  destruct (p r && live r); split; try done; [by right|by left].
Qed.

Lemma expire_moves now requestID : tx_keeps queue_moves (ExpireMinimalApproval now requestID).
Proof.
  unfold ExpireMinimalApproval. apply keeps_bind; [apply _|apply keeps_gets, _|]. intros [q|]; [|apply keeps_ret, _].
  unfold expire_resolved, settle. apply keeps_bind; [apply _|apply keeps_update; intros s; by apply queue_moves_same|].
  intros n. apply keeps_bind; [apply _| |intros; apply keeps_ret, _]. apply keeps_when; [apply _|].
  apply keeps_bind; [apply _|unfold move_routes; apply keeps_update_exactly; [apply _|intros s; by apply queue_moves_same]|].
  intros _. unfold kill_own_delivery. apply keeps_bind; [apply _|apply keeps_gets, _|].
  intros [a|]; [apply kill_moves|apply keeps_ret, _].
Qed.

Section settled.
Context (bot : ApprovalBot) (p : Protector) (now : instant) (item : DeliveryQueueItem).
Hypothesis Hp : w_Protector (ab_Worker bot) = Some p.

Lemma bury_settles status summary delay s r0 r open :
  find_row (qi_ID item) (db_queue s) = Some r -> identity r = identity r0 ->
  row_settles item open r0 (buryDelivery bot now item status summary delay s).
Proof.
  intros Hr Hi. unfold buryDelivery. rewrite Hp. cbv zeta.
  destruct (fail_row p (format_time now) (qi_ID item) (qi_RetryCount item + 1) (now + delay)%Z summary true
    (RecordDeliveryAttempt (format_time now) (qi_ID item) (qi_RetryCount item + 1) status summary s) r Hr)
    as (s' & E & (r' & H1 & H2 & H3) & _).
  exists r'. unfold ignore_error. rewrite E. split; [exact H1|]. split; [congruence|]. right. by left.
Qed.

Lemma summary_settles status summary s r open :
  find_row (qi_ID item) (db_queue s) = Some r -> row_settles item open r (failSummary now (ab_Worker bot) item status summary s).
Proof.
  intros Hr. unfold failSummary. rewrite Hp. cbv zeta.
  destruct (fail_row p (format_time now) (qi_ID item) (qi_RetryCount item + 1)
    (now + retryBackoff (w_RetryBase (ab_Worker bot)) (qi_RetryCount item + 1))%Z summary
    (w_MaxAttempts (ab_Worker bot) <=? qi_RetryCount item + 1)%Z
    (RecordDeliveryAttempt (format_time now) (qi_ID item) (qi_RetryCount item + 1) status summary s) r Hr)
    as (s' & E & (r' & H1 & H2 & H3) & _).
  exists r'. unfold ignore_error. rewrite E. split; [exact H1|]. split; [done|].
  destruct (_ <=? _)%Z; [right; by left|]. destruct H3 as (K1 & K2 & _ & K3). right. right. by left.
Qed.

Lemma attempt_settles status message s r open :
  find_row (qi_ID item) (db_queue s) = Some r -> row_settles item open r (failAttempt now (ab_Worker bot) item status message s).
Proof. exact (summary_settles status (deliveryErrorSummary status message) s r open). Qed.

Lemma completeOrRetry_settles status s r open :
  find_row (qi_ID item) (db_queue s) = Some r -> row_settles item open r (completeOrRetry bot now item status s).
Proof.
  intros Hr. unfold completeOrRetry. destruct (w_CommitError _ _); [by apply attempt_settles|]. rewrite Hp.
  destruct (complete_row p (format_time now) (qi_ID item) None s r Hr) as [(r' & H1 & H2 & H3 & H4) _].
  exists r'. split; [exact H1|]. split; [done|]. by left.
Qed.

Lemma delivery_settles s r : qi_Kind item = minimalApprovalQueueKind ->
  find_row (qi_ID item) (db_queue s) = Some r ->
  row_settles item (request_open bot item s) r (processMinimalApprovalDelivery bot now item s).
Proof.
  intros Hk Hr. unfold processMinimalApprovalDelivery, request_open.
  destruct (w_Decode _ _) as [payload|message]; [|by eapply bury_settles].
  destruct (MinimalApprovalDeliveryActive _ _ s) eqn:Ea; cbn [negb].
  2: { exists r. split; [done|]. split; [done|]. by do 3 right. }
  destruct (ab_SendMessage _ _ _ _ _) as [messageID err].
  match goal with |- context [match ?e with Some _ => setError _ _ _ _ | None => _ end] => destruct e as [er|] end;
    [by apply summary_settles|].
  destruct (CompleteMinimalApprovalDelivery _ _ _ _ _ _ _ _ s) as [[u s1]|message] eqn:E.
  - destruct (complete_row_delivered _ _ _ _ _ _ _ _ _ _ _ r E Hr) as (r' & H1 & H2 & H3 & H4).
    exists r'. split; [exact H1|]. split; [done|]. by left.
  - destruct (after_keeps queue_moves (ExpireMinimalApproval (format_time now) (dp_EventID payload)) s
      (expire_moves _ _) (qi_ID item) r Hr) as (r1 & H1 & H2 & _).
    by eapply bury_settles.
Qed.

Lemma cleanup_settles s r open : find_row (qi_ID item) (db_queue s) = Some r ->
  row_settles item open r (processMinimalApprovalPCCleanup bot now item s).
Proof.
  intros Hr. unfold processMinimalApprovalPCCleanup. destruct (w_Decode _ _) as [payload|message]; [|by eapply bury_settles].
  destruct (_ || _); [by eapply bury_settles|].
  match goal with |- context [match ?e with Some _ => _ | None => completeOrRetry _ _ _ _ _ end] => destruct e as [m|] end;
    [|by apply completeOrRetry_settles].
  destruct (_ <=? 0)%Z; [by apply completeOrRetry_settles|]. destruct (negb _); [by apply completeOrRetry_settles|].
  destruct (MinimalApprovalPCCleanupReady _ _ _ _ s) as [ready terminal].
  destruct terminal; [by apply completeOrRetry_settles|]. destruct ready; cbn [negb]; [|by apply summary_settles].
  destruct (ab_DeleteMessage _ _ _ _); [by apply attempt_settles|by apply completeOrRetry_settles].
Qed.

Lemma edit_settles s r open : find_row (qi_ID item) (db_queue s) = Some r ->
  row_settles item open r (processMinimalApprovalInactiveEdit bot now item s).
Proof.
  intros Hr. unfold processMinimalApprovalInactiveEdit. destruct (w_Decode _ _) as [payload|message]; [|by eapply bury_settles].
  destruct (_ || _); [by eapply bury_settles|].
  destruct (ab_EditMessage _ _ _ _ _); [by apply attempt_settles|by apply completeOrRetry_settles].
Qed.

End settled.




Section only.
Context (bot : ApprovalBot) (p : Protector) (now : instant) (item : DeliveryQueueItem) (r : QueueRow).
Hypothesis Hp : w_Protector (ab_Worker bot) = Some p.













End only.

(** An attempt on a row of an approval, whatever Telegram, the decoder and the commit
    answer, ends with the row delivered, dead, or waiting for its next attempt with its
    payload kept.  The only exception is the message of a request that is no longer open:
    it is not sent, and its row stays as it was. *)
Theorem processApprovalDelivery_settles bot p now item s r :
  w_Protector (ab_Worker bot) = Some p -> isApprovalKind (qi_Kind item) = true ->
  find_row (qi_ID item) (db_queue s) = Some r ->
  exists r', find_row (qi_ID item) (db_queue (processDelivery now (with_approvals bot now) item s)) = Some r'
    /\ approval_settled item (request_open bot item s) r r'.
Proof.
  intros Hp Hk Hr. unfold processDelivery. rewrite Hk. cbn [with_approvals w_Approval]. unfold processApprovalDelivery.
  destruct (String.eqb_spec (qi_Kind item) minimalApprovalQueueKind); [by apply (delivery_settles bot p)|].
  destruct (String.eqb _ _); [by apply (cleanup_settles bot p)|by apply (edit_settles bot p)].
Qed.


(** *** A batch *)
Section batch.
Context (bot : ApprovalBot) (p : Protector) (now : instant).
Hypothesis Hp : w_Protector (ab_Worker bot) = Some p.

Local Abbreviation worker := (with_approvals bot now).
Local Abbreviation attempt := (fun st item => processDelivery now worker item st).



End batch.

(** ** Theorems *)

Lemma processApprovalDelivery_settles_witness :
  request_open ex_bot ex_taken_item ex_taken.2 = true
  /\ exists r', find_row 1 (db_queue (processDelivery 0%Z (with_approvals ex_bot 0%Z) ex_taken_item ex_taken.2)) = Some r'
       /\ approval_settled ex_taken_item (request_open ex_bot ex_taken_item ex_taken.2)
            (default ex_row (find_row 1 (db_queue ex_taken.2))) r'.
Proof.
  split; [by vm_compute|].
  exact (processApprovalDelivery_settles ex_bot plainProtector 0%Z ex_taken_item ex_taken.2
    (default ex_row (find_row 1 (db_queue ex_taken.2))) eq_refl ltac:(by vm_compute) ltac:(by vm_compute)).
Defined.





