(* ===== verification/LinkWorkers.v ===== *)
(** * internal/daemon/minimal_link_worker.go: the workers of linked threads

    A worker is an App Server of its own, started for one thread and closed when its
    turn is over.  The manager registers workers under a key, a thread and a session
    identity, gives each a generation, and remembers which generation of a thread was
    confirmed closed.  Its methods run concurrently: each holds the mutex only for its
    critical sections, which are the functions here, and the state machine below
    interleaves them.

    A pointer to a worker is its address in [mg_Heap], in the order of allocation, so
    that a worker renamed by BindThread is seen through every map.  A session is the
    number of its creation. *)
From stdpp Require Import base list numbers strings gmap sets relations.
From Stdlib Require Import Lia Ascii.
From S2P Require Import Prelude GoStrings ApprovalHandlers.

(** The fields the manager reads; Events, Context and cancel are the event loop's. *)
Record minimalLinkWorker : Type := mkWorker {
  wk_RegistryKey : string;
  wk_ThreadID : string;
  wk_Generation : Z;
  wk_SessionIdentity : string;
  wk_Session : nat }.

Definition set_wk_ThreadID (v : string) (w : minimalLinkWorker) : minimalLinkWorker :=
  mkWorker (wk_RegistryKey w) v (wk_Generation w) (wk_SessionIdentity w) (wk_Session w).

Record minimalLinkConfirmedRelease : Type := mkConfirmed {
  cr_Generation : Z;
  cr_SessionIdentity : string }.

Record Manager : Type := mkManager {
  mg_Heap : list minimalLinkWorker;
  mg_IdentityNonce : string;
  mg_NextGeneration : Z;
  mg_Closed : bool;
  mg_Acquiring : nat;                     (* acquireWG *)
  mg_AcquireCloseErrs : list string;
  mg_ByKey : gmap string nat;
  mg_ByThread : gmap string nat;
  mg_ByIdentity : gmap string nat;
  mg_Confirmed : gmap string minimalLinkConfirmedRelease;
  mg_BusyKeys : gset string;
  mg_BusyThreads : gset string }.

Definition newMinimalLinkWorkerManager (nonce : string) : Manager :=
  mkManager [] nonce 0 false 0 [] ∅ ∅ ∅ ∅ ∅ ∅.

Inductive worker_error : Type :=
| ErrKeyRequired
| ErrShuttingDown
| ErrKeyBusy (key : string)
| ErrKeyActive (key : string)
| ErrThreadBusy (threadID : string)
| ErrThreadActive (threadID : string)
| ErrNilSession
| ErrStart (cause : string)
| ErrNoSubscription
| ErrWorkerRequired
| ErrThreadRequired
| ErrGenerationInactive
| ErrBoundElsewhere.

(** How closing a session fails; [ce_Exited] is appserver.CommandExitConfirmed. *)
Record CloseError : Type := mkCloseError {
  xe_Message : string;
  xe_Exited : bool }.

(** *** Fields *)
Definition set_busy (keys threads : gset string) (acquiring : nat) (m : Manager) : Manager :=
  mkManager (mg_Heap m) (mg_IdentityNonce m) (mg_NextGeneration m) (mg_Closed m) acquiring
    (mg_AcquireCloseErrs m) (mg_ByKey m) (mg_ByThread m) (mg_ByIdentity m) (mg_Confirmed m) keys threads.
Definition set_active (byKey byThread byIdentity : gmap string nat) (m : Manager) : Manager :=
  mkManager (mg_Heap m) (mg_IdentityNonce m) (mg_NextGeneration m) (mg_Closed m) (mg_Acquiring m)
    (mg_AcquireCloseErrs m) byKey byThread byIdentity (mg_Confirmed m) (mg_BusyKeys m) (mg_BusyThreads m).
Definition set_confirmed (v : gmap string minimalLinkConfirmedRelease) (m : Manager) : Manager :=
  mkManager (mg_Heap m) (mg_IdentityNonce m) (mg_NextGeneration m) (mg_Closed m) (mg_Acquiring m)
    (mg_AcquireCloseErrs m) (mg_ByKey m) (mg_ByThread m) (mg_ByIdentity m) v (mg_BusyKeys m) (mg_BusyThreads m).
Definition set_heap (heap : list minimalLinkWorker) (next : Z) (m : Manager) : Manager :=
  mkManager heap (mg_IdentityNonce m) next (mg_Closed m) (mg_Acquiring m)
    (mg_AcquireCloseErrs m) (mg_ByKey m) (mg_ByThread m) (mg_ByIdentity m) (mg_Confirmed m) (mg_BusyKeys m)
    (mg_BusyThreads m).
Definition set_closed (closed : bool) (errs : list string) (m : Manager) : Manager :=
  mkManager (mg_Heap m) (mg_IdentityNonce m) (mg_NextGeneration m) closed (mg_Acquiring m)
    errs (mg_ByKey m) (mg_ByThread m) (mg_ByIdentity m) (mg_Confirmed m) (mg_BusyKeys m) (mg_BusyThreads m).

(** {[ linkedID ]}, and nothing for the blank id. *)
Definition thread_set (linkedID : string) : gset string :=
  if String.eqb linkedID "" then ∅ else {[ linkedID ]}.

(** *** Acquire *)
Definition beginAcquire (registryKey linkedID : string) (m : Manager) : Manager + worker_error :=
  if mg_Closed m then inr ErrShuttingDown
  else if bool_decide (registryKey ∈ mg_BusyKeys m) then inr (ErrKeyBusy registryKey)
  else if bool_decide (is_Some (mg_ByKey m !! registryKey)) then inr (ErrKeyActive registryKey)
  else if negb (String.eqb linkedID "") && bool_decide (linkedID ∈ mg_BusyThreads m) then inr (ErrThreadBusy linkedID)
  else if negb (String.eqb linkedID "") && bool_decide (is_Some (mg_ByThread m !! linkedID))
  then inr (ErrThreadActive linkedID)
  else inl (set_busy ({[ registryKey ]} ∪ mg_BusyKeys m) (thread_set linkedID ∪ mg_BusyThreads m)
              (S (mg_Acquiring m)) m).

(** finishAcquire and finishAcquireLocked *)
Definition finishAcquire (registryKey linkedID : string) (m : Manager) : Manager :=
  set_busy (mg_BusyKeys m ∖ {[ registryKey ]}) (mg_BusyThreads m ∖ thread_set linkedID)
    (pred (mg_Acquiring m)) m.

Definition recordAcquireCloseError (err : option CloseError) (m : Manager) : Manager :=
  match err with
  | Some err => if mg_Closed m then set_closed true (mg_AcquireCloseErrs m ++ [xe_Message err]) m else m
  | None => m
  end.

Definition sessionIdentity (nonce : string) (generation : Z) : string :=
  "minimal-link-worker:" +:+ nonce +:+ ":" +:+ format_int generation.

(** m.nextGeneration++ on a uint64 *)
Definition nextGeneration (m : Manager) : Z := ((mg_NextGeneration m + 1) mod 2 ^ 64)%Z.

(** The critical section that registers the worker of a started session. *)
Definition registerWorker (registryKey linkedID : string) (session : nat) (m : Manager)
  : (nat * Manager) + worker_error :=
  if mg_Closed m then inr ErrShuttingDown
  else if bool_decide (is_Some (mg_ByKey m !! registryKey)) then inr (ErrKeyActive registryKey)
  else if negb (String.eqb linkedID "") && bool_decide (is_Some (mg_ByThread m !! linkedID))
  then inr (ErrThreadActive linkedID)
  else
    let generation := nextGeneration m in
    let identity := sessionIdentity (mg_IdentityNonce m) generation in
    let worker := length (mg_Heap m) in
    let m1 := set_heap (mg_Heap m ++ [mkWorker registryKey linkedID generation identity session]) generation m in
    let m2 := if String.eqb linkedID "" then m1
              else set_confirmed (delete linkedID (mg_Confirmed m1)) m1 in
    let m3 := set_active (<[registryKey := worker]> (mg_ByKey m2))
                (if String.eqb linkedID "" then mg_ByThread m2 else <[linkedID := worker]> (mg_ByThread m2))
                (<[identity := worker]> (mg_ByIdentity m2)) m2 in
    inl (worker, finishAcquire registryKey linkedID m3).

(** A session the factory makes: what Start and Subscribe answer, and its Close. *)
Record SessionStart : Type := mkSessionStart {
  ss_Start : option string;
  ss_Events : bool;
  ss_Close : option CloseError }.

(** Acquire by a caller alone.  [made] sessions were made before; the factory answers with
    the next one.  The answer has the sessions that were closed again and how many
    were made by then. *)
Definition Acquire (registryKey0 linkedID0 : string) (factory : option SessionStart) (made : nat) (m : Manager)
  : (nat + worker_error) * list nat * nat * Manager :=
  let registryKey := trim_space registryKey0 in
  let linkedID := trim_space linkedID0 in
  if String.eqb registryKey "" then (inr ErrKeyRequired, [], made, m)
  else match beginAcquire registryKey linkedID m with
  | inr e => (inr e, [], made, m)
  | inl m1 =>
      match factory with
      | None => (inr ErrNilSession, [], made, finishAcquire registryKey linkedID m1)
      | Some session =>
          let closeProvisionalSession := fun e =>
            (inr e, [made], S made,
             finishAcquire registryKey linkedID (recordAcquireCloseError (ss_Close session) m1)) in
          match ss_Start session with
          | Some cause => closeProvisionalSession (ErrStart cause)
          | None =>
              if negb (ss_Events session) then closeProvisionalSession ErrNoSubscription
              else match registerWorker registryKey linkedID made m1 with
                   | inr e => closeProvisionalSession e
                   | inl (worker, m2) => (inl worker, [], S made, m2)
                   end
          end
      end
  end.

(** *** Lookups *)
Definition worker_at (m : Manager) (worker : nat) : option minimalLinkWorker := mg_Heap m !! worker.

Definition ByThread (threadID0 : string) (m : Manager) : option nat :=
  let threadID := trim_space threadID0 in
  if String.eqb threadID "" then None else mg_ByThread m !! threadID.

Definition BySessionIdentity (identity0 : string) (m : Manager) : option nat :=
  let identity := trim_space identity0 in
  if String.eqb identity "" then None else mg_ByIdentity m !! identity.

(** *** BindThread *)
Definition BindThread (worker : nat) (threadID0 : string) (m : Manager) : Manager + worker_error :=
  match worker_at m worker with
  | None => inr ErrWorkerRequired
  | Some given =>
      let threadID := trim_space threadID0 in
      if String.eqb threadID "" then inr ErrThreadRequired
      else if mg_Closed m then inr ErrShuttingDown
      else match (p ← mg_ByKey m !! wk_RegistryKey given; w ← worker_at m p; Some (p, w)) with
      | None => inr ErrGenerationInactive
      | Some (address, current) =>
          if negb (wk_Generation current =? wk_Generation given)%Z
             || negb (String.eqb (wk_SessionIdentity current) (wk_SessionIdentity given))
          then inr ErrGenerationInactive
          else if String.eqb (wk_ThreadID current) threadID then inl m
          else if negb (String.eqb (wk_ThreadID current) "") then inr ErrBoundElsewhere
          else if match (p ← mg_ByThread m !! threadID; worker_at m p) with
                  | Some existing => negb (wk_Generation existing =? wk_Generation given)%Z
                  | None => false
                  end then inr (ErrThreadActive threadID)
          else if bool_decide (threadID ∈ mg_BusyThreads m) then inr (ErrThreadBusy threadID)
          else
            let m1 := set_heap (alter (set_wk_ThreadID threadID) address (mg_Heap m)) (mg_NextGeneration m) m in
            let m2 := set_active (mg_ByKey m1) (<[threadID := address]> (mg_ByThread m1)) (mg_ByIdentity m1) m1 in
            inl (set_confirmed (delete threadID (mg_Confirmed m2)) m2)
      end
  end.

(** *** Release *)

(** delete(index, key), if the index has this worker under the key *)
Definition remove_if (key : string) (worker : nat) (index : gmap string nat) : gmap string nat :=
  if bool_decide (index !! key = Some worker) then delete key index else index.

Definition removeLocked (worker : nat) (m : Manager) : Manager :=
  match worker_at m worker with
  | None => m
  | Some w =>
      set_active (remove_if (wk_RegistryKey w) worker (mg_ByKey m))
        (if String.eqb (wk_ThreadID w) "" then mg_ByThread m
         else remove_if (wk_ThreadID w) worker (mg_ByThread m))
        (remove_if (wk_SessionIdentity w) worker (mg_ByIdentity m)) m
  end.

(** The critical section of Release: the worker it removes, if it has this generation. *)
Definition beginRelease (threadID0 : string) (generation : Z) (m : Manager) : option (nat * Manager) :=
  let threadID := trim_space threadID0 in
  if String.eqb threadID "" then None
  else match (p ← mg_ByThread m !! threadID; w ← worker_at m p; Some (p, w)) with
  | Some (worker, w) => if (wk_Generation w =? generation)%Z then Some (worker, removeLocked worker m) else None
  | None => None
  end.

Definition recordConfirmedRelease (threadID0 : string) (generation : Z) (sessionIdentity0 : string) (m : Manager)
  : Manager :=
  let threadID := trim_space threadID0 in
  let identity := trim_space sessionIdentity0 in
  if String.eqb threadID "" || (generation =? 0)%Z then m
  else if bool_decide (is_Some (mg_ByThread m !! threadID)) then m
  else set_confirmed (<[threadID := mkConfirmed generation identity]> (mg_Confirmed m)) m.

(** What Release does once its worker's session was closed: did it confirm the release? *)
Definition close_confirmed (err : option CloseError) : bool :=
  match err with Some err => xe_Exited err | None => true end.

Definition finishRelease (worker : nat) (err : option CloseError) (m : Manager) : Manager :=
  match worker_at m worker with
  | Some w =>
      if close_confirmed err
      then recordConfirmedRelease (wk_ThreadID w) (wk_Generation w) (wk_SessionIdentity w) m else m
  | None => m
  end.

(** Release by a caller alone; [close] is what closing a session answers.  The last
    component is the sessions it closed. *)
Definition Release (threadID : string) (generation : Z) (close : nat -> option CloseError) (m : Manager)
  : bool * option CloseError * list nat * Manager :=
  match beginRelease threadID generation m with
  | None => (false, None, [], m)
  | Some (worker, m1) =>
      let session := from_option wk_Session 0 (worker_at m worker) in
      let err := close session in
      (true, (if close_confirmed err then None else err), [session], finishRelease worker err m1)
  end.

Definition ConfirmedRelease (threadID0 : string) (generation : Z) (m : Manager) : bool :=
  let threadID := trim_space threadID0 in
  if (generation =? 0)%Z || String.eqb threadID "" then false
  else match mg_Confirmed m !! threadID with
       | Some confirmed => (cr_Generation confirmed =? generation)%Z
       | None => false
       end.

Definition ConfirmedReleaseIdentity (threadID0 : string) (generation : Z) (m : Manager) : string * bool :=
  let threadID := trim_space threadID0 in
  if (generation =? 0)%Z || String.eqb threadID "" then ("", false)
  else match mg_Confirmed m !! threadID with
       | Some confirmed =>
           if (cr_Generation confirmed =? generation)%Z
           then (cr_SessionIdentity confirmed, negb (String.eqb (trim_space (cr_SessionIdentity confirmed)) ""))
           else ("", false)
       | None => ("", false)
       end.

Definition ForgetConfirmedRelease (threadID0 : string) (generation : Z) (m : Manager) : Manager :=
  let threadID := trim_space threadID0 in
  if (generation =? 0)%Z || String.eqb threadID "" then m
  else match mg_Confirmed m !! threadID with
       | Some confirmed =>
           if (cr_Generation confirmed =? generation)%Z
           then set_confirmed (delete threadID (mg_Confirmed m)) m else m
       | None => m
       end.

(** *** CloseAll *)
Definition beginCloseAll (m : Manager) : Manager := set_closed true (mg_AcquireCloseErrs m) m.

(** After acquireWG.Wait(): the errors of the acquires, the workers to close, and the
    manager without them. *)
Definition collectCloseAll (m : Manager) : list string * list nat * Manager :=
  (mg_AcquireCloseErrs m, (map_to_list (mg_ByIdentity m)).*2,
   mkManager (mg_Heap m) (mg_IdentityNonce m) (mg_NextGeneration m) (mg_Closed m) (mg_Acquiring m) []
     ∅ ∅ ∅ ∅ ∅ ∅).

(** releaseMinimalWorker in minimal_continuation.go, for a worker without a thread. *)
Definition releaseUnbound (worker : nat) (m : Manager) : Manager := removeLocked worker m.

Definition activeMinimalLinkedWorker (worker : nat) (m : Manager) : bool :=
  match worker_at m worker with
  | None => false
  | Some w => bool_decide (BySessionIdentity (wk_SessionIdentity w) m = Some worker)
  end.

(** ** The state machine: callers of the manager, interleaved

    An acquire in flight is between beginAcquire and finishAcquire. *)
Inductive phase : Type :=
| Starting                  (* the factory is running *)
| Made (session : nat)      (* Start, Subscribe, or waiting for the mutex *)
| Abandoned.                (* its session was closed again *)

Record acquiring : Type := mkAcquiring {
  aq_Key : string;
  aq_Linked : string;
  aq_Phase : phase }.

Record System : Type := mkSystem {
  sy_Manager : Manager;
  sy_Acquires : list acquiring;
  sy_Made : nat;                                   (* the sessions the factory made *)
  sy_Closing : list (nat * bool);                  (* removed workers to close, and: is it Release's? *)
  sy_Finishing : list (nat * option CloseError);   (* closed by Release, not recorded yet *)
  sy_ClosedSessions : list nat }.

Definition idle (nonce : string) : System := mkSystem (newMinimalLinkWorkerManager nonce) [] 0 [] [] [].

Definition session_of (m : Manager) (worker : nat) : option nat := wk_Session <$> worker_at m worker.

Inductive worker_step : System -> System -> Prop :=
| ws_begin key0 linked0 m m' acquires made closing finishing closed :
    trim_space key0 <> "" -> beginAcquire (trim_space key0) (trim_space linked0) m = inl m' ->
    worker_step (mkSystem m acquires made closing finishing closed)
      (mkSystem m' (mkAcquiring (trim_space key0) (trim_space linked0) Starting :: acquires) made closing
         finishing closed)
| ws_make l1 key linked l2 m made closing finishing closed :
    worker_step (mkSystem m (l1 ++ mkAcquiring key linked Starting :: l2) made closing finishing closed)
      (mkSystem m (l1 ++ mkAcquiring key linked (Made made) :: l2) (S made) closing finishing closed)
| ws_register l1 key linked session l2 worker m m' made closing finishing closed :
    registerWorker key linked session m = inl (worker, m') -> (mg_NextGeneration m + 1 < 2 ^ 64)%Z ->
    worker_step (mkSystem m (l1 ++ mkAcquiring key linked (Made session) :: l2) made closing finishing closed)
      (mkSystem m' (l1 ++ l2) made closing finishing closed)
| ws_provisional l1 key linked session l2 err m made closing finishing closed :
    worker_step (mkSystem m (l1 ++ mkAcquiring key linked (Made session) :: l2) made closing finishing closed)
      (mkSystem (recordAcquireCloseError err m) (l1 ++ mkAcquiring key linked Abandoned :: l2) made closing
         finishing (session :: closed))
| ws_abandon l1 key linked ph l2 m made closing finishing closed :
    (forall session, ph <> Made session) ->
    worker_step (mkSystem m (l1 ++ mkAcquiring key linked ph :: l2) made closing finishing closed)
      (mkSystem (finishAcquire key linked m) (l1 ++ l2) made closing finishing closed)
| ws_bind worker threadID m m' acquires made closing finishing closed :
    BindThread worker threadID m = inl m' ->
    worker_step (mkSystem m acquires made closing finishing closed)
      (mkSystem m' acquires made closing finishing closed)
| ws_release threadID generation worker m m' acquires made closing finishing closed :
    beginRelease threadID generation m = Some (worker, m') ->
    worker_step (mkSystem m acquires made closing finishing closed)
      (mkSystem m' acquires made ((worker, true) :: closing) finishing closed)
| ws_unbound worker w m acquires made closing finishing closed :
    worker_at m worker = Some w -> wk_ThreadID w = "" ->
    worker_step (mkSystem m acquires made closing finishing closed)
      (mkSystem (releaseUnbound worker m) acquires made ((worker, false) :: closing) finishing closed)
| ws_close c1 worker (records : bool) c2 session err m acquires made finishing closed :
    session_of m worker = Some session ->
    worker_step (mkSystem m acquires made (c1 ++ (worker, records) :: c2) finishing closed)
      (mkSystem m acquires made (c1 ++ c2) (if records then (worker, err) :: finishing else finishing)
         (session :: closed))
| ws_finish f1 worker err f2 m acquires made closing closed :
    worker_step (mkSystem m acquires made closing (f1 ++ (worker, err) :: f2) closed)
      (mkSystem (finishRelease worker err m) acquires made closing (f1 ++ f2) closed)
| ws_forget threadID generation m acquires made closing finishing closed :
    worker_step (mkSystem m acquires made closing finishing closed)
      (mkSystem (ForgetConfirmedRelease threadID generation m) acquires made closing finishing closed)
| ws_closing m acquires made closing finishing closed :
    worker_step (mkSystem m acquires made closing finishing closed)
      (mkSystem (beginCloseAll m) acquires made closing finishing closed)
| ws_collect m acquires made closing finishing closed :
    mg_Closed m = true -> mg_Acquiring m = 0 ->
    worker_step (mkSystem m acquires made closing finishing closed)
      (mkSystem (collectCloseAll m).2 acquires made (((fun p => (p, false)) <$> (collectCloseAll m).1.2) ++ closing)
         finishing closed).

Definition worker_reachable (nonce : string) (st : System) : Prop := rtc worker_step (idle nonce) st.

(** *** What the tables have *)

(** The manager can still find the worker. *)
Definition active_worker (m : Manager) (worker : nat) (w : minimalLinkWorker) : Prop :=
  worker_at m worker = Some w /\ mg_ByIdentity m !! wk_SessionIdentity w = Some worker.

(** The key and the thread that each acquire in flight keeps busy. *)
Definition claims (acquires : list acquiring) : list (string * string) :=
  (fun a => (aq_Key a, aq_Linked a)) <$> acquires.

Definition linked_threads (cl : list (string * string)) : list string := filter (fun t => t <> "") cl.*2.

Definition made_session (a : acquiring) : option nat :=
  match aq_Phase a with Made session => Some session | _ => None end.

(** Workers are allocated in the order of their generations. *)
Record AllocInv (m : Manager) : Prop := {
  ai_next : mg_NextGeneration m = Z.of_nat (length (mg_Heap m));
  ai_bound : (mg_NextGeneration m < 2 ^ 64)%Z;
  ai_worker : forall p w, worker_at m p = Some w ->
    wk_Generation w = Z.of_nat (S p) /\
    wk_SessionIdentity w = sessionIdentity (mg_IdentityNonce m) (wk_Generation w) /\
    trim_space (wk_ThreadID w) = wk_ThreadID w }.

(** The three indexes agree. *)
Record IndexInv (m : Manager) : Prop := {
  xi_key : forall k p, mg_ByKey m !! k = Some p -> exists w, active_worker m p w /\ wk_RegistryKey w = k;
  xi_identity : forall i p, mg_ByIdentity m !! i = Some p ->
    exists w, active_worker m p w /\ wk_SessionIdentity w = i /\ mg_ByKey m !! wk_RegistryKey w = Some p
    /\ (wk_ThreadID w <> "" -> mg_ByThread m !! wk_ThreadID w = Some p);
  xi_thread : forall t p, mg_ByThread m !! t = Some p ->
    exists w, active_worker m p w /\ wk_ThreadID w = t /\ t <> "" }.

(** A busy key or thread is that of one acquire, and of no worker. *)
Record BusyInv (m : Manager) (cl : list (string * string)) : Prop := {
  bi_count : mg_Acquiring m = length cl;
  bi_keys : mg_BusyKeys m = list_to_set cl.*1;
  bi_threads : mg_BusyThreads m = list_to_set (linked_threads cl);
  bi_keys_once : NoDup cl.*1;
  bi_threads_once : NoDup (linked_threads cl);
  bi_trimmed : forall k t, (k, t) ∈ cl -> trim_space t = t;
  bi_key_free : forall k, k ∈ mg_BusyKeys m -> mg_ByKey m !! k = None;
  bi_thread_free : forall t, t ∈ mg_BusyThreads m -> mg_ByThread m !! t = None }.

(** The sessions that acquires in flight hold. *)
Definition held_sessions (acquires : list acquiring) : list nat := omap made_session acquires.

(** A session belongs to one acquire or one worker, or was closed. *)
Record SessionInv (m : Manager) (held : list nat) (made : nat) (closing finishing closed : list nat) : Prop := {
  si_owned : NoDup ((wk_Session <$> mg_Heap m) ++ held);
  si_made : forall s, s ∈ (wk_Session <$> mg_Heap m) ++ held -> (s < made)%nat;
  si_kept : forall s, (s < made)%nat ->
    s ∈ held \/ s ∈ closed
    \/ (exists p w, worker_at m p = Some w /\ wk_Session w = s /\ (active_worker m p w \/ p ∈ closing));
  si_open : forall s, s ∈ held -> s ∉ closed;
  si_live : forall p w, active_worker m p w -> (wk_Session w ∉ closed) /\ p ∉ closing;
  si_finishing : forall p w, p ∈ finishing -> worker_at m p = Some w -> wk_Session w ∈ closed;
  si_closed : forall s, s ∈ closed -> (s < made)%nat;
  si_alloc : forall p, p ∈ closing ++ finishing -> is_Some (worker_at m p) }.

(** A confirmed release is that of a worker whose session was closed, and its thread has
    no worker. *)
Definition ConfirmedInv (m : Manager) (closed : list nat) : Prop :=
  forall t c, mg_Confirmed m !! t = Some c ->
    mg_ByThread m !! t = None
    /\ exists p w, worker_at m p = Some w /\ wk_ThreadID w = t
         /\ wk_Generation w = cr_Generation c /\ wk_Session w ∈ closed.

Record WorkersInv (st : System) : Prop := {
  wi_alloc : AllocInv (sy_Manager st);
  wi_index : IndexInv (sy_Manager st);
  wi_busy : BusyInv (sy_Manager st) (claims (sy_Acquires st));
  wi_sessions : SessionInv (sy_Manager st) (held_sessions (sy_Acquires st)) (sy_Made st) (sy_Closing st).*1
    (sy_Finishing st).*1 (sy_ClosedSessions st);
  wi_confirmed : ConfirmedInv (sy_Manager st) (sy_ClosedSessions st) }.

(** A worker of the thread t that is being closed while the next one comes and goes. *)
Definition ex_session : SessionStart := mkSessionStart None true None.
Definition ex_first : Manager := (Acquire "k" "t" (Some ex_session) 0 (newMinimalLinkWorkerManager "n")).2.
Definition ex_releasing : Manager := removeLocked 0 ex_first.
Definition ex_second : Manager := (Acquire "k" "t" (Some ex_session) 1 ex_releasing).2.
Definition ex_confirmed : Manager := (Release "t" 2 (fun _ => None) ex_second).2.
Definition ex_late : Manager := finishRelease 0 None ex_confirmed.

(** Shut down: the manager is closed, no acquire is in flight and it has no worker. *)
Definition shut_down (st : System) : Prop :=
  mg_Closed (sy_Manager st) = true /\ sy_Acquires st = [] /\ mg_ByIdentity (sy_Manager st) = ∅.

(** ** Removing a worker *)

Lemma lookup_remove_if key worker index k q :
  remove_if key worker index !! k = Some q <-> index !! k = Some q /\ (key = k -> q <> worker).
Proof.
  unfold remove_if. case_bool_decide as E.
  - destruct (decide (key = k)) as [->|Hne].
    + rewrite lookup_delete_eq. split; [done|]. intros [H1 H2]. rewrite E in H1. injection H1 as ->. by destruct H2.
    + rewrite lookup_delete_ne by done. naive_solver.
  - split; [|naive_solver]. intros H. split; [done|]. intros -> ->. done.
Qed.

Lemma worker_at_removeLocked p m q : worker_at (removeLocked p m) q = worker_at m q.
Proof. unfold removeLocked, worker_at. by destruct (mg_Heap m !! p). Qed.

Lemma heap_removeLocked p m : mg_Heap (removeLocked p m) = mg_Heap m.
Proof. unfold removeLocked, worker_at. by destruct (mg_Heap m !! p). Qed.

Lemma thread_removeLocked p m w t q :
  worker_at m p = Some w -> mg_ByThread (removeLocked p m) !! t = Some q <->
  mg_ByThread m !! t = Some q /\ (wk_ThreadID w = t -> t <> "" -> q <> p).
Proof.
  intros Hp. unfold removeLocked. rewrite Hp. cbn [mg_ByThread set_active].
  destruct (String.eqb_spec (wk_ThreadID w) "") as [E|E].
  - split; [|naive_solver]. intros H. split; [done|]. intros <-. done.
  - rewrite lookup_remove_if. naive_solver.
Qed.

Lemma active_removeLocked p m w q x :
  worker_at m p = Some w -> active_worker (removeLocked p m) q x <-> active_worker m q x /\ q <> p.
Proof.
  intros Hp. unfold active_worker. rewrite worker_at_removeLocked. unfold removeLocked. rewrite Hp.
  cbn [mg_ByIdentity set_active]. rewrite lookup_remove_if. split.
  - intros (H1 & H2 & H3). split; [done|]. intros ->. apply H3; [|done]. congruence.
  - intros [[H1 H2] H3]. done.
Qed.

Lemma removeLocked_index p m : IndexInv m -> IndexInv (removeLocked p m).
Proof.
  intros HI. destruct (worker_at m p) as [w|] eqn:Hp; [|unfold removeLocked; by rewrite Hp].
  assert (Hact : forall q x, active_worker m q x -> q <> p -> active_worker (removeLocked p m) q x).
  { intros q x. rewrite (active_removeLocked p m w q x Hp). done. }
  assert (Hsame : forall x, active_worker m p x -> x = w) by (intros x [Hx _]; congruence).
  split.
  - intros k q. unfold removeLocked. rewrite Hp. cbn [mg_ByKey set_active]. rewrite lookup_remove_if.
    intros [H1 H2]. destruct (xi_key m HI k q H1) as (x & Hx & Hk). exists x. split; [|done].
    assert (q <> p); [|unfold removeLocked in Hact; rewrite Hp in Hact; by apply Hact].
    intros ->. apply Hsame in Hx. subst x. by apply H2.
  - intros i q. unfold removeLocked at 1. rewrite Hp. cbn [mg_ByIdentity set_active]. rewrite lookup_remove_if.
    intros [H1 H2]. destruct (xi_identity m HI i q H1) as (x & Hx & Hi & Hk & Ht). exists x.
    assert (Hq : q <> p) by (intros ->; apply Hsame in Hx; subst x; by apply H2).
    split; [by apply Hact|]. split; [done|]. split.
    + unfold removeLocked. rewrite Hp. cbn [mg_ByKey set_active]. by apply lookup_remove_if.
    + intros Hne. apply (thread_removeLocked p m w); [done|]. split; [by apply Ht|done].
  - intros t q. rewrite (thread_removeLocked p m w t q Hp). intros [H1 H2].
    destruct (xi_thread m HI t q H1) as (x & Hx & Ht & Hne). exists x. split; [|done]. apply Hact; [done|].
    intros ->. apply Hsame in Hx. subst x. by apply H2.
Qed.

Lemma removeLocked_alloc p m : AllocInv m -> AllocInv (removeLocked p m).
Proof.
  intros [H1 H2 H3]. unfold removeLocked. destruct (worker_at m p) as [w|]; [|done].
  by split.
Qed.

(** What removing does to the maps the acquires read. *)
Lemma removeLocked_busy p m cl : BusyInv m cl -> BusyInv (removeLocked p m) cl.
Proof.
  intros HB. destruct (worker_at m p) as [w|] eqn:Hp; [|unfold removeLocked; by rewrite Hp].
  destruct HB as [H1 H2 H3 H4 H5 H5' H6 H7].
  split; [unfold removeLocked; by rewrite Hp..|done|done|done| |].
  - intros k Hk. unfold removeLocked in Hk |- *. rewrite Hp in Hk |- *. cbn [mg_ByKey mg_BusyKeys set_active] in *.
    destruct (remove_if _ _ _ !! k) as [q|] eqn:E; [|done]. apply lookup_remove_if in E as [E _].
    rewrite H6 in E by done. done.
  - intros t Ht. destruct (mg_ByThread (removeLocked p m) !! t) as [q|] eqn:E; [|done].
    apply (thread_removeLocked p m w) in E as [E _]; [|done]. rewrite H7 in E; [done|].
    unfold removeLocked in Ht. by rewrite Hp in Ht.
Qed.

(** ** Registering and binding a worker *)

Lemma fresh_identity m : AllocInv m -> (mg_NextGeneration m + 1 < 2 ^ 64)%Z -> IndexInv m ->
  mg_ByIdentity m !! sessionIdentity (mg_IdentityNonce m) (nextGeneration m) = None.
Proof.
  intros [H1 H2 H3] Hb HI. destruct (mg_ByIdentity m !! _) as [p|] eqn:E; [|done]. exfalso.
  destruct (xi_identity m HI _ _ E) as (w & [Hw _] & Hi & _).
  destruct (H3 p w Hw) as (G1 & G2 & _). rewrite G2 in Hi. unfold sessionIdentity in Hi.
  do 3 apply (inj (String.append _)) in Hi. apply format_int_inj in Hi.
  unfold nextGeneration in Hi. rewrite Z.mod_small in Hi by lia.
  assert (p < length (mg_Heap m))%nat by (by apply lookup_lt_Some in Hw). lia.
Qed.

Section register.
Context (key linked : string) (session worker : nat) (m m' : Manager).
Context (HA : AllocInv m) (HI : IndexInv m) (Hb : (mg_NextGeneration m + 1 < 2 ^ 64)%Z).
Context (Hlinked : trim_space linked = linked).
Context (Hreg : registerWorker key linked session m = inl (worker, m')).

Let w0 := mkWorker key linked (nextGeneration m) (sessionIdentity (mg_IdentityNonce m) (nextGeneration m)) session.

Lemma register_parts :
  mg_Closed m = false /\ mg_ByKey m !! key = None /\ (linked <> "" -> mg_ByThread m !! linked = None)
  /\ worker = length (mg_Heap m).
Proof using Hreg.
  unfold registerWorker in Hreg. destruct (mg_Closed m); [done|]. case_bool_decide as E1; [done|].
  destruct (negb (String.eqb linked "") && _) eqn:E2; [done|]. injection Hreg as <- _.
  split; [done|]. split; [by apply eq_None_not_Some|]. split; [|done].
  intros Hne. apply eq_None_not_Some. intros Hs. apply andb_false_iff in E2 as [E2|E2].
  - apply negb_false_iff, String.eqb_eq in E2. done.
  - by apply bool_decide_eq_false in E2.
Qed.

Lemma register_shape :
  m' = mkManager (mg_Heap m ++ [w0]) (mg_IdentityNonce m) (nextGeneration m) (mg_Closed m)
         (pred (mg_Acquiring m)) (mg_AcquireCloseErrs m) (<[key := worker]> (mg_ByKey m))
         (if String.eqb linked "" then mg_ByThread m else <[linked := worker]> (mg_ByThread m))
         (<[wk_SessionIdentity w0 := worker]> (mg_ByIdentity m))
         (if String.eqb linked "" then mg_Confirmed m else delete linked (mg_Confirmed m))
         (mg_BusyKeys m ∖ {[ key ]}) (mg_BusyThreads m ∖ thread_set linked).
Proof using Hreg.
  destruct register_parts as (H1 & H2 & H3 & Hw). unfold registerWorker in Hreg.
  rewrite H1, bool_decide_eq_false_2 in Hreg by (rewrite H2; by intros []).
  destruct (negb (String.eqb linked "") && _); [done|]. injection Hreg as _ Hm'.
  rewrite <- Hm', Hw. by destruct (String.eqb linked "").
Qed.

Lemma register_at q : worker_at m' q = if decide (q = worker) then Some w0 else worker_at m q.
Proof using Hreg.
  destruct register_parts as (_ & _ & _ & Hw). rewrite register_shape. unfold worker_at. cbn [mg_Heap].
  destruct (decide (q = worker)) as [->|Hq].
  - rewrite Hw, lookup_app_r, Nat.sub_diag by lia. done.
  - destruct (decide (q < length (mg_Heap m))%nat); [by rewrite lookup_app_l|].
    rewrite lookup_app_r by lia. rewrite (lookup_ge_None_2 (mg_Heap m)) by lia.
    apply lookup_ge_None_2. cbn. lia.
Qed.

Lemma register_active q x : active_worker m' q x <-> active_worker m q x \/ (q = worker /\ x = w0).
Proof using HA HI Hb Hreg.
  pose proof (fresh_identity m HA Hb HI) as Hfresh. destruct register_parts as (_ & _ & _ & Hw).
  unfold active_worker. rewrite register_at.
  assert (Hid : mg_ByIdentity m' = <[wk_SessionIdentity w0 := worker]> (mg_ByIdentity m))
    by (rewrite register_shape; done). rewrite Hid.
  destruct (decide (q = worker)) as [->|Hq].
  - split; [intros [[= <-] _]; by right|]. intros [[H _]|[_ ->]].
    + exfalso. unfold worker_at in H. apply lookup_lt_Some in H. lia.
    + split; [done|]. apply lookup_insert_eq.
  - split; [|intros [[H1 H2]|[? _]]; [|done]].
    + intros [H1 H2]. apply lookup_insert_Some in H2 as [[_ ?]|[_ H2]]; [done|]. by left.
    + split; [done|]. rewrite lookup_insert_ne; [done|]. intros E. change (wk_SessionIdentity w0) with
        (sessionIdentity (mg_IdentityNonce m) (nextGeneration m)) in E. congruence.
Qed.

Lemma register_alloc : AllocInv m'.
Proof using HA Hb Hreg Hlinked.
  destruct register_parts as (_ & _ & _ & Hw). pose proof HA as [H1 H2 H3].
  assert (Hn : nextGeneration m = Z.of_nat (S (length (mg_Heap m))))
    by (unfold nextGeneration; rewrite Z.mod_small; lia).
  split.
  - rewrite register_shape. cbn [mg_NextGeneration mg_Heap]. rewrite length_app. cbn. lia.
  - rewrite register_shape. cbn [mg_NextGeneration]. lia.
  - intros q x Hx. rewrite register_at in Hx. rewrite register_shape. cbn [mg_IdentityNonce].
    destruct (decide (q = worker)) as [->|Hq]; [|by apply H3]. injection Hx as <-. subst w0. cbn. by rewrite Hn, Hw.
Qed.

Lemma register_index : IndexInv m'.
Proof using HA HI Hb Hreg.
  destruct register_parts as (_ & Hk & Ht & Hw).
  assert (Hact : forall q x, active_worker m q x -> active_worker m' q x)
    by (intros q x Hx; apply register_active; by left).
  assert (H0 : active_worker m' worker w0) by (apply register_active; by right).
  split; rewrite register_shape; cbn [mg_ByKey mg_ByThread mg_ByIdentity]; rewrite <- register_shape.
  - intros k p [[<- <-]|[Hne Hp]]%lookup_insert_Some; [by exists w0|].
    destruct (xi_key m HI k p Hp) as (x & Hx & Hxk). exists x. split; [by apply Hact|done].
  - intros i p [[<- <-]|[Hne Hp]]%lookup_insert_Some.
    + exists w0. split; [done|]. split; [done|]. subst w0. cbn [wk_RegistryKey wk_ThreadID].
      split; [by rewrite lookup_insert_eq|]. intros Hne.
      destruct (String.eqb_spec linked ""); [done|]. by rewrite lookup_insert_eq.
    + destruct (xi_identity m HI i p Hp) as (x & Hx & Hxi & Hxk & Hxt). exists x. split; [by apply Hact|].
      split; [done|]. split; [rewrite lookup_insert_ne; [done|congruence]|].
      intros Hxn. specialize (Hxt Hxn). destruct (String.eqb_spec linked "") as [_|Hl]; [done|].
      rewrite lookup_insert_ne; [done|]. intros E. rewrite E in Ht. rewrite (Ht Hxn) in Hxt. done.
  - intros t p Hp.
    assert (Hp' : (linked = t /\ worker = p /\ linked <> "") \/ mg_ByThread m !! t = Some p).
    { destruct (String.eqb_spec linked ""); [by right|]. apply lookup_insert_Some in Hp as [[? ?]|[? ?]]; auto. }
    destruct Hp' as [(<- & <- & Hl)|Hp']; [by exists w0|].
    destruct (xi_thread m HI t p Hp') as (x & Hx & Hxt). exists x. split; [by apply Hact|done].
Qed.
End register.

(** Two workers of one generation are one. *)
Lemma same_generation m p q w x :
  AllocInv m -> worker_at m p = Some w -> worker_at m q = Some x -> wk_Generation w = wk_Generation x -> p = q.
Proof. intros [_ _ H] Hp Hq E. destruct (H p w Hp) as [H1 _], (H q x Hq) as [H2 _]. lia. Qed.

Lemma same_thread_worker m p q w x :
  IndexInv m -> active_worker m p w -> active_worker m q x -> wk_ThreadID w = wk_ThreadID x ->
  wk_ThreadID w <> "" -> p = q.
Proof.
  intros HI [Hp1 Hp2] [Hq1 Hq2] E Hne.
  destruct (xi_identity m HI _ _ Hp2) as (w' & [Hw' _] & _ & _ & Hw).
  destruct (xi_identity m HI _ _ Hq2) as (x' & [Hx' _] & _ & _ & Hx).
  simplify_eq. specialize (Hw Hne). rewrite <- E in Hx. specialize (Hx Hne). congruence.
Qed.

Section bind.
Context (worker : nat) (threadID : string) (m m' : Manager).
Context (HA : AllocInv m) (HI : IndexInv m) (Hbind : BindThread worker threadID m = inl m').

Let t := trim_space threadID.

(** BindThread keeps the manager, or gives an active worker without a thread a thread
    that no worker and no acquire has. *)
Lemma bind_parts :
  m' = m \/ exists w, active_worker m worker w /\ wk_ThreadID w = "" /\ t <> ""
    /\ mg_ByThread m !! t = None /\ (t ∉ mg_BusyThreads m) /\ mg_Closed m = false
    /\ m' = mkManager (alter (set_wk_ThreadID t) worker (mg_Heap m)) (mg_IdentityNonce m) (mg_NextGeneration m)
              (mg_Closed m) (mg_Acquiring m) (mg_AcquireCloseErrs m) (mg_ByKey m) (<[t := worker]> (mg_ByThread m))
              (mg_ByIdentity m) (delete t (mg_Confirmed m)) (mg_BusyKeys m) (mg_BusyThreads m).
Proof using HA HI Hbind.
  unfold BindThread in Hbind. fold t in Hbind. destruct (worker_at m worker) as [given|] eqn:Hg; [|done].
  destruct (String.eqb_spec t "") as [|Hne]; [done|]. destruct (mg_Closed m) eqn:Hc; [done|].
  destruct (mg_ByKey m !! wk_RegistryKey given) as [p|] eqn:Hk; [|done]. cbn [mbind option_bind] in Hbind.
  destruct (worker_at m p) as [w|] eqn:Hw; [|done]. cbn [mbind option_bind] in Hbind.
  destruct (negb _ || _) eqn:E1; [done|]. bsimp.
  assert (p = worker) as -> by (by eapply same_generation).
  rewrite Hg in Hw. injection Hw as <-.
  destruct (String.eqb_spec (wk_ThreadID given) t); [left; by injection Hbind|].
  destruct (String.eqb_spec (wk_ThreadID given) "") as [He|]; [|done]. cbn [negb] in Hbind. right.
  destruct (xi_key m HI _ _ Hk) as (x & Hx & _). assert (x = given) as -> by (destruct Hx; congruence).
  exists given. split; [done|]. split; [done|]. split; [done|].
  destruct (mg_ByThread m !! t) as [q|] eqn:Hq; cbn [mbind option_bind] in Hbind.
  - exfalso. destruct (xi_thread m HI _ _ Hq) as (y & [Hy _] & Hyt & _). rewrite Hy in Hbind.
    destruct (Z.eqb_spec (wk_Generation y) (wk_Generation given)) as [E|]; [|done].
    assert (q = worker) as -> by (by eapply same_generation). rewrite Hg in Hy. injection Hy as <-. congruence.
  - case_bool_decide; [done|]. split; [done|]. split; [done|]. split; [done|].
    injection Hbind as <-. unfold set_confirmed, set_active, set_heap. cbn. by rewrite Hc.
Qed.

Lemma bind_alloc : AllocInv m'.
Proof using HA HI Hbind.
  destruct bind_parts as [->|(w & Hact & _ & _ & _ & _ & _ & ->)]; [done|]. destruct HA as [H1 H2 H3].
  split; cbn [mg_NextGeneration mg_Heap mg_IdentityNonce]; [by rewrite length_alter|done|].
  intros q x Hx. unfold worker_at in Hx. cbn [mg_Heap] in Hx. destruct (decide (worker = q)) as [<-|Hq].
  - rewrite list_lookup_alter_eq in Hx. apply fmap_Some in Hx as (y & Hy & ->).
    destruct (H3 _ _ Hy) as (G1 & G2 & _). split; [done|]. split; [done|]. apply trim_space_idemp.
  - rewrite list_lookup_alter_ne in Hx by done. by apply H3.
Qed.

Lemma bind_active q x w :
  active_worker m worker w -> wk_ThreadID w = "" ->
  active_worker (mkManager (alter (set_wk_ThreadID t) worker (mg_Heap m)) (mg_IdentityNonce m) (mg_NextGeneration m)
              (mg_Closed m) (mg_Acquiring m) (mg_AcquireCloseErrs m) (mg_ByKey m) (<[t := worker]> (mg_ByThread m))
              (mg_ByIdentity m) (delete t (mg_Confirmed m)) (mg_BusyKeys m) (mg_BusyThreads m)) q x
  <-> (q = worker /\ x = set_wk_ThreadID t w) \/ (q <> worker /\ active_worker m q x).
Proof using.
  intros [Hw1 Hw2] _. unfold active_worker, worker_at in *. cbn [mg_Heap mg_ByIdentity].
  destruct (decide (q = worker)) as [->|Hq].
  - rewrite list_lookup_alter_eq, Hw1. cbn. split; [intros [[= <-] H]; by left|]. intros [[_ ->]|[? _]]; [|done].
    split; [done|]. by cbn.
  - rewrite list_lookup_alter_ne by done. naive_solver.
Qed.

Lemma bind_index : IndexInv m'.
Proof using HA HI Hbind.
  destruct bind_parts as [->|(w & Hact & Hw0 & Hne & Hfree & _ & _ & ->)]; [done|].
  assert (Hold : forall p x, active_worker m p x -> active_worker m worker w ->
            p = worker -> x = w) by (intros p x [Hx _] [Hy _] ->; congruence).
  split; cbn [mg_ByKey mg_ByThread mg_ByIdentity].
  - intros k p Hp. destruct (xi_key m HI k p Hp) as (x & Hx & Hk). destruct (decide (p = worker)) as [E|Hpw].
    + rewrite (Hold p x Hx Hact E) in Hk. exists (set_wk_ThreadID t w).
      split; [apply (bind_active _ _ w); [done..|by left]|done].
    + exists x. split; [apply (bind_active _ _ w); [done..|by right]|done].
  - intros i p Hp. destruct (xi_identity m HI i p Hp) as (x & Hx & Hi & Hk & Ht).
    destruct (decide (p = worker)) as [E|Hpw].
    + rewrite (Hold p x Hx Hact E) in Hi, Hk. exists (set_wk_ThreadID t w).
      split; [apply (bind_active _ _ w); [done..|by left]|]. split; [done|]. split; [done|].
      intros _. cbn [wk_ThreadID set_wk_ThreadID]. rewrite E. apply lookup_insert_eq.
    + exists x. split; [apply (bind_active _ _ w); [done..|by right]|]. split; [done|]. split; [done|].
      intros Hxn. specialize (Ht Hxn). rewrite lookup_insert_ne; [done|]. congruence.
  - intros u p [[<- <-]|[Hu Hp]]%lookup_insert_Some.
    + exists (set_wk_ThreadID t w). split; [apply (bind_active _ _ w); [done..|by left]|done].
    + destruct (xi_thread m HI u p Hp) as (x & Hx & Hxt & Hun). exists x. split; [|done].
      apply (bind_active _ _ w); [done..|]. right. split; [|done]. intros E.
      rewrite (Hold p x Hx Hact E) in Hxt. congruence.
Qed.
End bind.

(** ** Busy keys and threads *)

#[export] Instance BusyInv_perm m : Proper ((≡ₚ) ==> iff) (BusyInv m).
Proof.
  assert (H : forall cl cl', cl ≡ₚ cl' -> BusyInv m cl -> BusyInv m cl').
  { intros cl cl' E [H1 H2 H3 H4 H5 H6 H7 H8].
    assert (E2 : linked_threads cl ≡ₚ linked_threads cl') by (unfold linked_threads; by rewrite E).
    split; [by rewrite <- E| | |by rewrite <- E|by rewrite <- E2| |done|done].
    - rewrite H2. apply list_to_set_perm_L. by rewrite E.
    - rewrite H3. by apply list_to_set_perm_L.
    - intros k t Hk. apply (H6 k). by rewrite E. }
  intros cl cl' E. split; apply H; [done|by symmetry].
Qed.

Lemma linked_threads_cons k t cl :
  linked_threads ((k, t) :: cl) = (if String.eqb t "" then [] else [t]) ++ linked_threads cl.
Proof.
  unfold linked_threads. cbn [fmap list_fmap snd]. rewrite filter_cons.
  destruct (String.eqb_spec t "") as [->|H]; [by rewrite decide_False by (intros []; done)|by rewrite decide_True].
Qed.

Lemma thread_set_list t : thread_set t = list_to_set (if String.eqb t "" then [] else [t]).
Proof. unfold thread_set. destruct (String.eqb t ""); cbn [list_to_set]; set_solver. Qed.

Lemma beginAcquire_busy k t m m' cl :
  trim_space t = t -> beginAcquire k t m = inl m' -> BusyInv m cl ->
  BusyInv m' ((k, t) :: cl) /\ mg_Closed m = false
  /\ m' = set_busy ({[ k ]} ∪ mg_BusyKeys m) (thread_set t ∪ mg_BusyThreads m) (S (mg_Acquiring m)) m.
Proof.
  intros Ht Hm [H1 H2 H3 H4 H5 H6 H7 H8]. unfold beginAcquire in Hm. destruct (mg_Closed m) eqn:Hc; [done|].
  case_bool_decide as N1; [done|]. case_bool_decide as N2; [done|].
  destruct (negb (String.eqb t "") && bool_decide (t ∈ _)) eqn:N3; [done|].
  destruct (negb (String.eqb t "") && bool_decide (is_Some _)) eqn:N4; [done|]. injection Hm as <-.
  split; [|done].
  assert (Hne : t <> "" -> (t ∉ mg_BusyThreads m) /\ mg_ByThread m !! t = None).
  { intros Hne. rewrite (proj2 (String.eqb_neq t "") Hne) in N3, N4. cbn [negb andb] in N3, N4.
    apply bool_decide_eq_false in N3, N4. split; [done|]. by apply eq_None_not_Some. }
  split; cbn [set_busy mg_Acquiring mg_BusyKeys mg_BusyThreads mg_ByKey mg_ByThread]; rewrite ?linked_threads_cons.
  - by rewrite H1.
  - rewrite H2. cbn [fmap list_fmap fst list_to_set]. done.
  - rewrite H3, thread_set_list, list_to_set_app_L. done.
  - cbn [fmap list_fmap fst]. constructor; [|done]. rewrite H2 in N1. by rewrite <- (elem_of_list_to_set (C:=gset string)).
  - destruct (String.eqb_spec t "") as [|Hn]; [done|]. cbn [app]. constructor; [|done].
    destruct (Hne Hn) as [N _]. rewrite H3 in N. by rewrite <- (elem_of_list_to_set (C:=gset string)).
  - intros k' t' [[= -> ->]|Hin]%elem_of_cons; [done|by apply (H6 k')].
  - intros k' [->%elem_of_singleton|Hin]%elem_of_union; [by apply eq_None_not_Some|by apply H7].
  - intros t' [Hin|Hin]%elem_of_union; [|by apply H8]. unfold thread_set in Hin.
    destruct (String.eqb_spec t ""); [set_solver|]. apply elem_of_singleton in Hin as ->. by apply Hne.
Qed.

Lemma finishAcquire_busy k t m cl : BusyInv m ((k, t) :: cl) -> BusyInv (finishAcquire k t m) cl.
Proof.
  intros [H1 H2 H3 H4 H5 H6 H7 H8]. cbn [fmap list_fmap fst list_to_set] in *.
  rewrite linked_threads_cons in H3, H5. rewrite list_to_set_app_L, <- thread_set_list in H3.
  apply NoDup_cons in H4 as [N4 H4]. apply NoDup_app in H5 as (_ & N5 & H5).
  assert (K : mg_BusyKeys (finishAcquire k t m) = list_to_set cl.*1).
  { cbn [finishAcquire set_busy mg_BusyKeys]. rewrite H2. apply set_eq. intros x.
    rewrite elem_of_difference, elem_of_union, !elem_of_singleton, elem_of_list_to_set.
    split; [naive_solver|]. intros Hx. split; [by right|]. by intros ->. }
  assert (T : mg_BusyThreads (finishAcquire k t m) = list_to_set (linked_threads cl)).
  { cbn [finishAcquire set_busy mg_BusyThreads]. rewrite H3. apply set_eq. intros x.
    rewrite elem_of_difference, elem_of_union, elem_of_list_to_set. split; [naive_solver|]. intros Hx.
    split; [by right|]. rewrite thread_set_list, elem_of_list_to_set. intros Hx'. by apply (N5 x). }
  split; [cbn; by rewrite H1|done|done|done|done| | |].
  - intros k' t' Hin. apply (H6 k'). by right.
  - intros x Hx. cbn [finishAcquire set_busy mg_ByKey]. apply H7. cbn in Hx. set_solver.
  - intros x Hx. cbn [finishAcquire set_busy mg_ByThread]. apply H8. cbn in Hx. set_solver.
Qed.

Lemma register_busy k t session worker m m' cl :
  registerWorker k t session m = inl (worker, m') -> BusyInv m ((k, t) :: cl) -> BusyInv m' cl.
Proof.
  intros Hr HB. pose proof (register_shape _ _ _ _ _ _ Hr) as E.
  pose proof (finishAcquire_busy k t m cl HB) as [H1 H2 H3 H4 H5 H6 H7 H8].
  cbn [finishAcquire set_busy mg_Acquiring mg_BusyKeys mg_BusyThreads mg_ByKey mg_ByThread] in *.
  split; rewrite ?E; cbn [mg_Acquiring mg_BusyKeys mg_BusyThreads mg_ByKey mg_ByThread]; try done.
  - intros x Hx. rewrite lookup_insert_ne by set_solver. by apply H7.
  - intros x Hx. destruct (String.eqb_spec t ""); [by apply H8|]. rewrite lookup_insert_ne; [by apply H8|].
    intros ->. unfold thread_set in Hx. destruct (String.eqb_spec x ""); set_solver.
Qed.

Lemma bind_busy worker threadID m m' cl :
  AllocInv m -> IndexInv m -> BindThread worker threadID m = inl m' -> BusyInv m cl -> BusyInv m' cl.
Proof.
  intros HA HI Hb HB. destruct (bind_parts _ _ _ _ HA HI Hb) as [->|(w & _ & _ & _ & _ & Hbusy & _ & ->)]; [done|].
  destruct HB as [H1 H2 H3 H4 H5 H6 H7 H8]. split; cbn; try done.
  intros x Hx. destruct (decide (trim_space threadID = x)) as [<-|Hne]; [done|].
  rewrite lookup_insert_ne by done. by apply H8.
Qed.

(** ** Sessions *)

#[export] Instance SessionInv_perm m :
  Proper ((≡ₚ) ==> eq ==> (≡ₚ) ==> (≡ₚ) ==> eq ==> iff) (SessionInv m).
Proof.
  assert (H : forall h h' made c c' f f' closed, h ≡ₚ h' -> c ≡ₚ c' -> f ≡ₚ f' ->
            SessionInv m h made c f closed -> SessionInv m h' made c' f' closed).
  { intros h h' made c c' f f' closed Eh Ec Ef [H1 H2 H3 H4 H5 H6 H7 H8]. split; try done.
    - by rewrite <- Eh.
    - intros s. rewrite <- Eh. apply H2.
    - intros s Hs. destruct (H3 s Hs) as [?|[?|(p & w & ? & ? & [?|?])]]; [left; by rewrite <- Eh|by right; left|..].
      + right; right. exists p, w. auto.
      + right; right. exists p, w. rewrite <- Ec. auto.
    - intros s. rewrite <- Eh. apply H4.
    - intros p w Hp. rewrite <- Ec. by apply H5.
    - intros p w. rewrite <- Ef. apply H6.
    - intros p. rewrite <- Ec, <- Ef. apply H8. }
  intros h h' Eh made _ <- c c' Ec f f' Ef closed _ <-. split; apply H; done || by symmetry.
Qed.

Lemma session_make m held made closing finishing closed :
  SessionInv m held made closing finishing closed -> SessionInv m (made :: held) (S made) closing finishing closed.
Proof.
  intros [H1 H2 H3 H4 H5 H6 H7 H8]. split; [| | | |done|done| |done].
  - rewrite <- Permutation_middle. constructor; [|done]. intros H%H2. lia.
  - intros s. rewrite <- Permutation_middle. intros [->|H%H2]%elem_of_cons; lia.
  - intros s Hs. destruct (decide (s = made)) as [->|Hne]; [left; by left|].
    destruct (H3 s ltac:(lia)) as [?|?]; [left; by right|by right].
  - intros s [->|Hs]%elem_of_cons; [intros H%H7; lia|by apply H4].
  - intros s H%H7. lia.
Qed.

Lemma session_abandon m s held made closing finishing closed :
  SessionInv m (s :: held) made closing finishing closed -> SessionInv m held made closing finishing (s :: closed).
Proof.
  intros [H1 H2 H3 H4 H5 H6 H7 H8]. rewrite <- Permutation_middle in H1. apply NoDup_cons in H1 as [N H1].
  split; [done|..].
  - intros t Ht. apply H2. rewrite <- Permutation_middle. by right.
  - intros t Ht. destruct (H3 t Ht) as [[->|?]%elem_of_cons|[?|?]];
      [right; left; by left|by left|right; left; by right|by right; right].
  - intros t Ht [->|Hc]%elem_of_cons; [apply N, elem_of_app; by right|].
    apply (H4 t); [by right|done].
  - intros p w Hp. destruct (H5 p w Hp) as [L1 L2]. split; [|done].
    intros [E|Hc]%elem_of_cons; [|done]. apply N, elem_of_app. left. rewrite <- E.
    apply list_elem_of_fmap. exists w. split; [done|]. destruct Hp as [Hp _]. by apply list_elem_of_lookup_2 in Hp.
  - intros p w Hp Hw. right. by apply (H6 p).
  - intros t [->|Hc]%elem_of_cons; [apply H2; rewrite <- Permutation_middle; by left|by apply H7].
  - done.
Qed.

Lemma session_register k t s worker m m' held made closing finishing closed :
  AllocInv m -> IndexInv m -> (mg_NextGeneration m + 1 < 2 ^ 64)%Z ->
  registerWorker k t s m = inl (worker, m') ->
  SessionInv m (s :: held) made closing finishing closed -> SessionInv m' held made closing finishing closed.
Proof.
  intros HA HI Hb Hr [H1 H2 H3 H4 H5 H6 H7 Halloc].
  pose proof (register_shape _ _ _ _ _ _ Hr) as E. pose proof (register_active _ _ _ _ _ _ HA HI Hb Hr) as Hact.
  destruct (register_parts _ _ _ _ _ _ Hr) as (_ & _ & _ & Hw).
  assert (Hheap : (wk_Session <$> mg_Heap m') ++ held = (wk_Session <$> mg_Heap m) ++ s :: held)
    by (rewrite E; cbn [mg_Heap]; rewrite fmap_app, <- app_assoc; done).
  assert (Hnew : worker ∉ closing ++ finishing).
  { intros Hin%Halloc. destruct Hin as [w0 Hw0]. unfold worker_at in Hw0. apply lookup_lt_Some in Hw0. lia. }
  assert (Hat : forall q w, worker_at m q = Some w -> worker_at m' q = Some w).
  { intros q w Hq. rewrite (register_at _ _ _ _ _ _ Hr). destruct (decide (q = worker)) as [->|]; [|done].
    unfold worker_at in Hq. apply lookup_lt_Some in Hq. lia. }
  split.
  - by rewrite Hheap.
  - by rewrite Hheap.
  - intros u Hu. destruct (H3 u Hu) as [[->|?]%elem_of_cons|[?|(p & w & Hp & Hs & Hk)]]; [|by left|by right; left|].
    + right; right. eexists worker, _. split; [rewrite (register_at _ _ _ _ _ _ Hr), decide_True by done; done|].
      split; [done|]. left. apply Hact. by right.
    + right; right. exists p, w. split; [by apply Hat|]. split; [done|].
      destruct Hk; [left; apply Hact; by left|by right].
  - intros u Hu. apply H4. by right.
  - intros p w Hp. apply Hact in Hp as [Hp|[-> ->]]; [by apply H5|]. split; [cbn; apply H4; by left|set_solver].
  - intros p w Hp Hw'. rewrite (register_at _ _ _ _ _ _ Hr) in Hw'.
    destruct (decide (p = worker)) as [->|]; [set_solver|]. by apply (H6 p).
  - done.
  - intros p [w Hp]%Halloc. exists w. by apply Hat.
Qed.

Lemma session_bind worker threadID m m' held made closing finishing closed :
  AllocInv m -> IndexInv m -> BindThread worker threadID m = inl m' ->
  SessionInv m held made closing finishing closed -> SessionInv m' held made closing finishing closed.
Proof.
  intros HA HI Hb [H1 H2 H3 H4 H5 H6 H7 H8].
  destruct (bind_parts _ _ _ _ HA HI Hb) as [->|(w & Hw & Hw0 & _ & _ & _ & _ & E)]; [done|].
  pose proof (fun q x => bind_active worker threadID m q x w Hw Hw0) as Hact. rewrite <- E in Hact.
  set (t := trim_space threadID) in *.
  assert (Hheap : wk_Session <$> mg_Heap m' = wk_Session <$> mg_Heap m).
  { rewrite E. cbn [mg_Heap]. apply list_eq. intros i. rewrite !list_lookup_fmap.
    destruct (decide (i = worker)) as [->|]; [rewrite list_lookup_alter_eq|by rewrite list_lookup_alter_ne].
    by destruct (mg_Heap m !! worker). }
  assert (Hat : forall q x, worker_at m q = Some x ->
            exists y, worker_at m' q = Some y /\ wk_Session y = wk_Session x /\ (active_worker m q x -> active_worker m' q y)).
  { intros q x Hq. rewrite E. unfold worker_at. cbn [mg_Heap]. destruct (decide (q = worker)) as [->|Hne].
    - exists (set_wk_ThreadID t x). rewrite list_lookup_alter_eq. unfold worker_at in Hq. rewrite Hq. split; [done|]. split; [done|].
      intros _. rewrite <- E. apply Hact. left. split; [done|]. destruct Hw as [Hw _]. unfold worker_at in Hw. congruence.
    - exists x. rewrite list_lookup_alter_ne by done. split; [done|]. split; [done|]. intros Hx. rewrite <- E.
      apply Hact. by right. }
  split.
  - by rewrite Hheap.
  - by rewrite Hheap.
  - intros s Hs. destruct (H3 s Hs) as [?|[?|(p & x & Hp & Hx & Hk)]]; [by left|by right; left|]. right; right.
    destruct (Hat p x Hp) as (y & Hy1 & Hy2 & Hy3). exists p, y. split; [done|]. split; [congruence|].
    destruct Hk; [left; auto|by right].
  - done.
  - intros p x Hp. apply Hact in Hp as [[-> ->]|[_ Hp]]; [cbn; by apply H5|by apply H5].
  - intros p x Hp Hx. rewrite E in Hx. unfold worker_at in Hx. cbn [mg_Heap] in Hx.
    destruct (decide (p = worker)) as [->|Hne].
    + rewrite list_lookup_alter_eq in Hx. apply fmap_Some in Hx as (y & Hy & ->). cbn. by apply (H6 worker).
    + rewrite list_lookup_alter_ne in Hx by done. by apply (H6 p).
  - done.
  - intros p [x Hx]%H8. destruct (Hat p x Hx) as (y & Hy & _). by exists y.
Qed.

(** Removing workers: those that are not active any more are to be closed. *)
Lemma session_shrink m m' held made closing closing' finishing closed :
  mg_Heap m' = mg_Heap m ->
  (forall p w, active_worker m' p w -> active_worker m p w /\ (p ∈ closing' -> p ∈ closing)) ->
  (forall p w, active_worker m p w -> active_worker m' p w \/ p ∈ closing') ->
  (forall p, p ∈ closing -> p ∈ closing') -> (forall p, p ∈ closing' -> is_Some (worker_at m p)) ->
  SessionInv m held made closing finishing closed -> SessionInv m' held made closing' finishing closed.
Proof.
  intros Eh Hsub Hall Hc Ha [H1 H2 H3 H4 H5 H6 H7 H8]. unfold worker_at in *. split; rewrite ?Eh; try done.
  - intros s Hs. destruct (H3 s Hs) as [?|[?|(p & w & Hp & Hw & Hk)]]; [by left|by right; left|]. right; right.
    exists p, w. unfold worker_at. rewrite Eh. split; [done|]. split; [done|].
    destruct Hk as [Hk|Hk]; [by apply Hall|right; by apply Hc].
  - intros p w Hp. destruct (Hsub p w Hp) as [Hp' Hin]. destruct (H5 p w Hp') as [L1 L2]. auto.
  - intros p w. unfold worker_at. rewrite Eh. apply H6.
  - intros p. unfold worker_at. rewrite Eh. set_solver.
Qed.

Lemma session_close m p w held made closing finishing finishing' closed :
  worker_at m p = Some w -> (forall q, q ∈ finishing' -> q ∈ finishing \/ q = p) ->
  SessionInv m held made (p :: closing) finishing closed ->
  SessionInv m held made closing finishing' (wk_Session w :: closed).
Proof.
  intros Hp Hf [H1 H2 H3 H4 H5 H6 H7 H8].
  assert (Hin : wk_Session w ∈ wk_Session <$> mg_Heap m).
  { apply list_elem_of_fmap. exists w. split; [done|]. by apply list_elem_of_lookup_2 in Hp. }
  pose proof H1 as HN. apply NoDup_app in HN as (Hheap & Hdisj & _).
  split; [done|done|..].
  - intros s Hs. destruct (H3 s Hs) as [?|[?|(q & x & Hq & Hx & Hk)]]; [by left|right; left; by right|].
    destruct Hk as [Hk|[->|Hk]%elem_of_cons]; [right; right; exists q, x; auto| |right; right; exists q, x; auto].
    right; left. rewrite Hp in Hq. injection Hq as <-. rewrite <- Hx. by left.
  - intros s Hs [->|Hc]%elem_of_cons; [by apply (Hdisj _ Hin)|by apply (H4 s)].
  - intros q x Hq. destruct (H5 q x Hq) as [L1 L2]. split; [|set_solver].
    intros [E|Hc]%elem_of_cons; [|done]. destruct Hq as [Hq _]. assert (q = p); [|set_solver].
    eapply (NoDup_lookup _ q p); [exact Hheap| |]; rewrite list_lookup_fmap.
    + unfold worker_at in Hq. rewrite Hq. cbn. by rewrite E.
    + unfold worker_at in Hp. by rewrite Hp.
  - intros q x Hq Hx. destruct (Hf q Hq) as [Hq'| ->]; [right; by apply (H6 q)|].
    rewrite Hp in Hx. injection Hx as <-. by left.
  - intros s [->|Hs]%elem_of_cons; [|by apply H7]. apply H2, elem_of_app. by left.
  - intros q [Hq|Hq]%elem_of_app; [apply H8; set_solver|].
    destruct (Hf q Hq) as [?| ->]; [apply H8; set_solver|by exists w].
Qed.

(** ** Confirmed releases *)

Lemma confirmed_mono m closed closed' :
  (forall s, s ∈ closed -> s ∈ closed') -> ConfirmedInv m closed -> ConfirmedInv m closed'.
Proof. intros H HC t c Hc. destruct (HC t c Hc) as (Ht & p & w & H1 & H2 & H3 & H4). split; [done|]. exists p, w. auto. Qed.

Lemma confirmed_removeLocked p m closed : ConfirmedInv m closed -> ConfirmedInv (removeLocked p m) closed.
Proof.
  intros HC t c Hc. destruct (worker_at m p) as [w|] eqn:Hp; [|unfold removeLocked in *; rewrite Hp in *; by apply HC].
  assert (Hc' : mg_Confirmed m !! t = Some c) by (unfold removeLocked in Hc; by rewrite Hp in Hc).
  destruct (HC t c Hc') as (Ht & q & x & H1 & H2). split.
  - destruct (mg_ByThread (removeLocked p m) !! t) as [r|] eqn:E; [|done].
    apply (thread_removeLocked p m w) in E as [E _]; [congruence|done].
  - exists q, x. by rewrite worker_at_removeLocked.
Qed.

Lemma confirmed_register k t s worker m m' closed :
  registerWorker k t s m = inl (worker, m') -> ConfirmedInv m closed -> ConfirmedInv m' closed.
Proof.
  intros Hr HC u c Hc. pose proof (register_shape _ _ _ _ _ _ Hr) as E.
  destruct (register_parts _ _ _ _ _ _ Hr) as (_ & _ & _ & Hw).
  assert (Hu : mg_Confirmed m !! u = Some c /\ (t = "" \/ t <> u)).
  { rewrite E in Hc. cbn [mg_Confirmed] in Hc. destruct (String.eqb_spec t ""); [auto|].
    apply lookup_delete_Some in Hc as [? ?]. auto. }
  destruct Hu as [Hc' Hne]. destruct (HC u c Hc') as (Hu & q & x & H1 & H2). split.
  - rewrite E. cbn [mg_ByThread]. destruct (String.eqb_spec t ""); [done|].
    rewrite lookup_insert_ne; [done|naive_solver].
  - exists q, x. split; [|done]. rewrite (register_at _ _ _ _ _ _ Hr). destruct (decide (q = worker)) as [->|]; [|done].
    unfold worker_at in H1. apply lookup_lt_Some in H1. lia.
Qed.

Lemma confirmed_bind worker threadID m m' held made closing finishing closed :
  AllocInv m -> IndexInv m -> SessionInv m held made closing finishing closed ->
  BindThread worker threadID m = inl m' -> ConfirmedInv m closed -> ConfirmedInv m' closed.
Proof.
  intros HA HI HS Hb HC.
  destruct (bind_parts _ _ _ _ HA HI Hb) as [->|(w & Hw & _ & _ & _ & _ & _ & E)]; [done|].
  intros u c Hc. rewrite E in Hc |- *. cbn [mg_Confirmed mg_ByThread] in *.
  apply lookup_delete_Some in Hc as [Hne Hc]. destruct (HC u c Hc) as (Hu & q & x & H1 & H2 & H3 & H4).
  rewrite lookup_insert_ne by done. split; [done|]. exists q, x. split; [|done].
  unfold worker_at. cbn [mg_Heap]. rewrite list_lookup_alter_ne; [done|]. intros ->.
  destruct (si_live _ _ _ _ _ _ HS _ _ Hw) as [L _]. destruct Hw as [Hw _]. congruence.
Qed.

Lemma confirmed_finish m p err closed :
  AllocInv m -> (forall w, worker_at m p = Some w -> wk_Session w ∈ closed) ->
  ConfirmedInv m closed -> ConfirmedInv (finishRelease p err m) closed.
Proof.
  intros HA Hs HC. unfold finishRelease. destruct (worker_at m p) as [w|] eqn:Hp; [|done].
  destruct (close_confirmed err); [|done]. unfold recordConfirmedRelease.
  destruct (ai_worker m HA p w Hp) as (_ & _ & ->).
  destruct (String.eqb (wk_ThreadID w) "" || _); [done|]. case_bool_decide as E; [done|].
  intros t c Hc. cbn [mg_Confirmed set_confirmed] in Hc. apply lookup_insert_Some in Hc as [[<- <-]|[_ Hc]]; [|by apply (HC t)].
  split; [by apply eq_None_not_Some|]. exists p, w. split; [done|]. split; [done|]. split; [done|by apply Hs].
Qed.

Lemma confirmed_forget threadID generation m closed :
  ConfirmedInv m closed -> ConfirmedInv (ForgetConfirmedRelease threadID generation m) closed.
Proof.
  intros HC. unfold ForgetConfirmedRelease. destruct (_ || _); [done|].
  destruct (mg_Confirmed m !! trim_space threadID) as [c|]; [|done]. destruct (_ =? _)%Z; [|done].
  intros t d Hd. cbn [mg_Confirmed set_confirmed] in Hd. apply lookup_delete_Some in Hd as [_ Hd]. by apply (HC t).
Qed.

(** ** The invariant *)

Lemma forget_keeps t g m : exists v, ForgetConfirmedRelease t g m = set_confirmed v m.
Proof.
  assert (H : m = set_confirmed (mg_Confirmed m) m) by (by destruct m).
  unfold ForgetConfirmedRelease. destruct (_ || _); [by eexists|].
  destruct (mg_Confirmed m !! trim_space t) as [c|]; [|by eexists]. destruct (_ =? _)%Z; by eexists.
Qed.

Lemma finishRelease_shape p err m : exists v, finishRelease p err m = set_confirmed v m.
Proof.
  assert (H : m = set_confirmed (mg_Confirmed m) m) by (by destruct m).
  unfold finishRelease, recordConfirmedRelease. destruct (worker_at m p) as [w|]; [|by eexists].
  destruct (close_confirmed err); [|by eexists]. destruct (_ || _); [by eexists|]. case_bool_decide; by eexists.
Qed.

Lemma claims_swap l1 a l2 : claims (l1 ++ a :: l2) ≡ₚ (aq_Key a, aq_Linked a) :: claims (l1 ++ l2).
Proof. unfold claims. rewrite <- Permutation_middle. done. Qed.

Lemma held_swap l1 a l2 :
  held_sessions (l1 ++ a :: l2) ≡ₚ
  match made_session a with Some s => s :: held_sessions (l1 ++ l2) | None => held_sessions (l1 ++ l2) end.
Proof. unfold held_sessions. rewrite <- Permutation_middle. cbn. by destruct (made_session a). Qed.

(** The removal of one worker, by whoever closes it. *)
Lemma remove_session p m w held made closing finishing closed :
  worker_at m p = Some w -> SessionInv m held made closing finishing closed ->
  SessionInv (removeLocked p m) held made (p :: closing) finishing closed.
Proof.
  intros Hp HS. eapply session_shrink; [apply heap_removeLocked|..|exact HS].
  - intros q x Hq. apply (active_removeLocked p m w) in Hq as [Hq Hne]; [|done]. split; [done|].
    intros [?|?]%elem_of_cons; done.
  - intros q x Hq. destruct (decide (q = p)) as [->|Hne]; [right; by left|left].
    by apply (active_removeLocked p m w).
  - intros q Hq. by right.
  - intros q [->|Hq]%elem_of_cons; [by exists w|]. apply (si_alloc _ _ _ _ _ _ HS). set_solver.
Qed.

Lemma remove_inv p w records m acquires made closing finishing closed :
  worker_at m p = Some w -> WorkersInv (mkSystem m acquires made closing finishing closed) ->
  WorkersInv (mkSystem (removeLocked p m) acquires made ((p, records) :: closing) finishing closed).
Proof.
  intros Hp [H1 H2 H3 H4 H5]. split; cbn [sy_Manager sy_Acquires sy_Made sy_Closing sy_Finishing sy_ClosedSessions] in *.
  - by apply removeLocked_alloc.
  - by apply removeLocked_index.
  - by apply removeLocked_busy.
  - by eapply remove_session.
  - by apply confirmed_removeLocked.
Qed.

Lemma paired_fst (b : bool) (l : list nat) : ((fun p => (p, b)) <$> l).*1 = l.
Proof. induction l as [|x l IH]; [done|]. cbn. by rewrite IH. Qed.

Lemma collect_inv m acquires made closing finishing closed :
  mg_Acquiring m = 0 -> WorkersInv (mkSystem m acquires made closing finishing closed) ->
  WorkersInv (mkSystem (collectCloseAll m).2 acquires made
                (((fun p => (p, false)) <$> (collectCloseAll m).1.2) ++ closing) finishing closed).
Proof.
  intros Hz [H1 H2 H3 H4 H5]. cbn [sy_Manager sy_Acquires sy_Made sy_Closing sy_Finishing sy_ClosedSessions] in *.
  pose proof (bi_count _ _ H3) as Hn. rewrite Hz in Hn.
  assert (acquires = []) as ->. { unfold claims in Hn. rewrite length_fmap in Hn. by destruct acquires. }
  split; cbn [sy_Manager sy_Acquires sy_Made sy_Closing sy_Finishing sy_ClosedSessions].
  - by destruct H1.
  - split; cbn [collectCloseAll snd mg_ByKey mg_ByIdentity mg_ByThread]; intros ? ?; by rewrite lookup_empty.
  - split; cbn; try done; try set_solver; constructor.
  - rewrite fmap_app, paired_fst. eapply session_shrink; [..|exact H4]; cbn [collectCloseAll snd fst].
    + done.
    + intros p w [_ Hp]. cbn in Hp. by rewrite lookup_empty in Hp.
    + intros p w [_ Hp]. right. apply elem_of_app. left. apply list_elem_of_fmap. exists (wk_SessionIdentity w, p).
      split; [done|]. by apply elem_of_map_to_list.
    + intros p Hp. apply elem_of_app. by right.
    + intros p [Hp|Hp]%elem_of_app; [|apply (si_alloc _ _ _ _ _ _ H4); set_solver].
      apply list_elem_of_fmap in Hp as ([i q] & -> & Hq). apply elem_of_map_to_list in Hq.
      destruct (xi_identity m H2 _ _ Hq) as (w & [Hw _] & _). by exists w.
  - intros t c Hc. cbn in Hc. by rewrite lookup_empty in Hc.
Qed.

Lemma idle_inv nonce : WorkersInv (idle nonce).
Proof.
  split; cbn [idle sy_Manager sy_Acquires sy_Made sy_Closing sy_Finishing sy_ClosedSessions].
  - by split.
  - split; intros ? ?; cbn; by rewrite lookup_empty.
  - split; cbn; try done; try set_solver; constructor.
  - split; cbn; try set_solver; try lia; by constructor.
  - intros t c. cbn. by rewrite lookup_empty.
Qed.

Lemma step_inv st st' : worker_step st st' -> WorkersInv st -> WorkersInv st'.
Proof.
  assert (Hsame : forall m v, AllocInv m -> AllocInv (set_confirmed v m)) by (intros m v []; by split).
  destruct 1; intros HW; try (pose proof HW as [HA HI HB HS HC];
    cbn [sy_Manager sy_Acquires sy_Made sy_Closing sy_Finishing sy_ClosedSessions] in *).
  - destruct (beginAcquire_busy _ _ _ _ _ (trim_space_idemp _) H0 HB) as (HB' & _ & ->).
    split; [by destruct HA|by destruct HI|done|by destruct HS|done].
  - unfold held_sessions in HS. split; cbn; [done|done| | |done].
    + by rewrite claims_swap in HB |- *.
    + fold (held_sessions (l1 ++ mkAcquiring key linked Starting :: l2)) in HS. rewrite held_swap in HS |- *. by apply session_make.
  - rewrite claims_swap in HB. rewrite held_swap in HS. cbn in HB, HS.
    assert (Ht : trim_space linked = linked) by (apply (bi_trimmed _ _ HB key); by left).
    split; cbn.
    + by eapply register_alloc.
    + by eapply register_index.
    + by eapply register_busy.
    + by eapply session_register.
    + by eapply confirmed_register.
  - rewrite claims_swap in HB. rewrite held_swap in HS. cbn in HB, HS.
    assert (E : exists errs, recordAcquireCloseError err m = set_closed (mg_Closed m) errs m).
    { assert (Hm : m = set_closed (mg_Closed m) (mg_AcquireCloseErrs m) m) by (by destruct m).
      unfold recordAcquireCloseError. destruct err; [|by eexists]. destruct (mg_Closed m); by eexists. }
    destruct E as [errs ->]. split; cbn; [by destruct HA|by destruct HI| | |].
    + rewrite claims_swap. by destruct HB.
    + rewrite held_swap. cbn. apply session_abandon in HS. by destruct HS.
    + eapply confirmed_mono; [|exact HC]. intros s Hs. by right.
  - rewrite claims_swap in HB. rewrite held_swap in HS. cbn in HB, HS.
    split; cbn; [by destruct HA|by destruct HI|by apply finishAcquire_busy| |done].
    destruct ph; cbn in HS; [by destruct HS| |by destruct HS]. by destruct (H session).
  - split; cbn; [by eapply bind_alloc|by eapply bind_index|by eapply bind_busy|by eapply session_bind|].
    by eapply confirmed_bind.
  - unfold beginRelease in H. destruct (String.eqb _ ""); [done|].
    destruct (mg_ByThread m !! _) as [p|]; [|done]. cbn [mbind option_bind] in H.
    destruct (worker_at m p) as [w|] eqn:Hp; [|done]. cbn [mbind option_bind] in H.
    destruct (_ =? _)%Z; [|done]. injection H as <- <-. by eapply remove_inv.
  - by eapply remove_inv.
  - unfold session_of in H. apply fmap_Some in H as (w & Hw & ->).
    split; cbn; [done|done|done| |].
    + rewrite fmap_app in HS. cbn in HS. rewrite <- Permutation_middle in HS. rewrite <- fmap_app in HS.
      eapply session_close; [done| |exact HS]. intros q. destruct records; [|by left].
      intros [->|?]%elem_of_cons; [by right|by left].
    + eapply confirmed_mono; [|exact HC]. intros s Hs. by right.
  - destruct (finishRelease_shape worker err m) as [v E].
    assert (Hs : forall w, worker_at m worker = Some w -> wk_Session w ∈ closed).
    { intros w. apply (si_finishing _ _ _ _ _ _ HS). rewrite fmap_app. apply elem_of_app. right. by left. }
    split; cbn; [..|by apply confirmed_finish]; rewrite E.
    + by apply Hsame.
    + by destruct HI.
    + by destruct HB.
    + destruct HS as [K1 K2 K3 K4 K5 K6 K7 K8]. split; try done.
      * intros q w Hq. apply K6. rewrite fmap_app in Hq |- *. set_solver.
      * intros q Hq. apply K8. rewrite fmap_app in Hq |- *. set_solver.
  - destruct (forget_keeps threadID generation m) as [v E].
    split; cbn; [..|by apply confirmed_forget]; rewrite E; [by apply Hsame|by destruct HI|by destruct HB|by destruct HS].
  - split; cbn; [by destruct HA|by destruct HI|by destruct HB|by destruct HS|done].
  - by apply collect_inv.
Qed.

Lemma reachable_inv nonce st : worker_reachable nonce st -> WorkersInv st.
Proof.
  unfold worker_reachable. intros H. pose proof (idle_inv nonce) as HI.
  induction H as [|? ? ? Hs Hr IH]; [done|]. apply IH. by eapply step_inv.
Qed.

(** ** What the manager promises *)

(** One worker of the thread "t". *)
Lemma ex_first_reachable : worker_reachable "n" (mkSystem ex_first [] 1 [] [] []).
Proof.
  eapply rtc_l; [by eapply (ws_begin "k" "t")|]. eapply rtc_l; [apply (ws_make [])|].
  apply rtc_once. by apply (ws_register [] "k" "t" 0 [] 0).
Qed.

(** C34: An active worker is alone on its key and on its thread, no acquire in flight has
    either, its session is open, and no release of its thread counts as confirmed. *)
Theorem workers_exclusive nonce st p w :
  worker_reachable nonce st -> active_worker (sy_Manager st) p w ->
  (forall q x, active_worker (sy_Manager st) q x -> q <> p ->
     wk_RegistryKey x <> wk_RegistryKey w /\ wk_SessionIdentity x <> wk_SessionIdentity w
     /\ wk_Session x <> wk_Session w /\ (wk_ThreadID x = wk_ThreadID w -> wk_ThreadID w = ""))
  /\ (forall a, a ∈ sy_Acquires st ->
        aq_Key a <> wk_RegistryKey w /\ (aq_Linked a = wk_ThreadID w -> wk_ThreadID w = "")
        /\ aq_Phase a <> Made (wk_Session w))
  /\ (wk_Session w ∉ sy_ClosedSessions st)
  /\ forall generation, ConfirmedRelease (wk_ThreadID w) generation (sy_Manager st) = false.
Proof.
  intros Hr%reachable_inv Hp. destruct Hr as [HA HI HB HS HC].
  destruct (si_live _ _ _ _ _ _ HS _ _ Hp) as [Hopen _]. pose proof Hp as [Hp1 Hp2].
  destruct (xi_identity _ HI _ _ Hp2) as (w' & [Hw' _] & _ & Hkey & Hthread). simplify_eq.
  pose proof (si_owned _ _ _ _ _ _ HS) as HN. apply NoDup_app in HN as (Hheap & Hdisj & _).
  split; [|split; [|split; [done|]]].
  - intros q x Hq Hne. pose proof Hq as [Hq1 Hq2].
    destruct (xi_identity _ HI _ _ Hq2) as (x' & [Hx' _] & _ & Hkey' & _). simplify_eq.
    split; [intros E; rewrite E in Hkey'; congruence|]. split; [intros E; rewrite E in Hq2; congruence|]. split.
    + intros E. apply Hne. eapply (NoDup_lookup _ q p (wk_Session w)); [exact Hheap| |];
        rewrite list_lookup_fmap; unfold worker_at in Hq1, Hp1; [rewrite Hq1|rewrite Hp1]; cbn; by rewrite ?E.
    + intros E. destruct (decide (wk_ThreadID w = "")) as [|Hn]; [done|]. exfalso. apply Hne.
      eapply (same_thread_worker _ q p x w); [done..|]. by rewrite E.
  - intros a Ha. split; [|split].
    + intros E. rewrite (bi_key_free _ _ HB) in Hkey; [done|]. rewrite (bi_keys _ _ HB), elem_of_list_to_set.
      rewrite <- E. unfold claims. rewrite <- list_fmap_compose. apply list_elem_of_fmap. by exists a.
    + intros E. destruct (decide (wk_ThreadID w = "")) as [|Hn]; [done|]. exfalso. specialize (Hthread Hn).
      rewrite (bi_thread_free _ _ HB) in Hthread; [done|]. rewrite (bi_threads _ _ HB), elem_of_list_to_set.
      unfold linked_threads, claims. apply list_elem_of_filter. split; [done|].
      rewrite <- list_fmap_compose. apply list_elem_of_fmap. by exists a.
    + intros E. apply (Hdisj (wk_Session w)); [apply list_elem_of_fmap; exists w; split; [done|]; by apply list_elem_of_lookup_2 in Hp1|].
      apply list_elem_of_omap. exists a. split; [done|]. unfold made_session. by rewrite E.
  - intros g. unfold ConfirmedRelease. destruct (_ || _) eqn:E; [done|]. bsimp.
    destruct (ai_worker _ HA _ _ Hp1) as (_ & _ & Ht). rewrite Ht in *.
    destruct (mg_Confirmed _ !! wk_ThreadID w) as [c|] eqn:Hc; [|done].
    destruct (HC _ _ Hc) as [Hnone _]. rewrite Hthread in Hnone by done. done.
Qed.

Theorem workers_exclusive_witness :
  exists w, active_worker ex_first 0 w /\ ByThread "t" ex_first = Some 0%nat
    /\ (wk_Session w ∉ @nil nat) /\ ConfirmedRelease (wk_ThreadID w) 1 ex_first = false.
Proof.
  destruct (worker_at ex_first 0) as [w|] eqn:E; [|vm_compute in E; discriminate E].
  assert (Hp : active_worker (sy_Manager (mkSystem ex_first [] 1 [] [] [])) 0 w).
  { split; [exact E|]. vm_compute in E. injection E as <-. vm_compute. reflexivity. }
  exists w. split; [exact Hp|]. split; [vm_compute; reflexivity|].
  destruct (workers_exclusive "n" _ 0 w ex_first_reachable Hp) as (_ & _ & H1 & H2). split; [exact H1|apply H2].
Defined.

(** No session leaks: each one the factory made belongs to an acquire in flight, to a
    worker that is active or about to be closed, or was closed. *)
Theorem sessions_never_leak nonce st session :
  worker_reachable nonce st -> (session < sy_Made st)%nat ->
  (exists a, a ∈ sy_Acquires st /\ aq_Phase a = Made session)
  \/ (exists p w, worker_at (sy_Manager st) p = Some w /\ wk_Session w = session
        /\ (active_worker (sy_Manager st) p w \/ p ∈ (sy_Closing st).*1))
  \/ session ∈ sy_ClosedSessions st.
Proof.
  intros Hr%reachable_inv Hs. destruct (si_kept _ _ _ _ _ _ (wi_sessions _ Hr) session Hs) as [H|[H|H]];
    [|by right; right|by right; left].
  left. apply list_elem_of_omap in H as (a & Ha & E). exists a. split; [done|].
  unfold made_session in E. destruct (aq_Phase a); [done|by injection E as ->|done].
Qed.

Theorem sessions_never_leak_witness :
  (exists a, a ∈ @nil acquiring /\ aq_Phase a = Made 0)
  \/ (exists p w, worker_at ex_first p = Some w /\ wk_Session w = 0%nat
        /\ (active_worker ex_first p w \/ p ∈ ([] : list (nat * bool)).*1))
  \/ 0%nat ∈ @nil nat.
Proof. apply (sessions_never_leak "n" (mkSystem ex_first [] 1 [] [] []) 0 ex_first_reachable). cbn. lia. Defined.

(** What Acquire checks a second time, once its session runs, cannot have changed: it
    registers the worker unless the manager is shutting down. *)
Theorem registration_refused_only_by_shutdown nonce st key linked session :
  worker_reachable nonce st -> mkAcquiring key linked (Made session) ∈ sy_Acquires st ->
  let m := sy_Manager st in
  if mg_Closed m then registerWorker key linked session m = inr ErrShuttingDown
  else exists w m', registerWorker key linked session m = inl (length (mg_Heap m), m')
    /\ active_worker m' (length (mg_Heap m)) w /\ wk_RegistryKey w = key /\ wk_ThreadID w = linked
    /\ wk_Session w = session /\ mg_ByKey m' !! key = Some (length (mg_Heap m))
    /\ (linked <> "" -> ByThread linked m' = Some (length (mg_Heap m)))
    /\ (key ∉ mg_BusyKeys m') /\ linked ∉ mg_BusyThreads m'.
Proof.
  intros Hr%reachable_inv Ha m. subst m. destruct Hr as [HA HI HB HS HC].
  set (m := sy_Manager st) in *. destruct (mg_Closed m) eqn:Hc; [unfold registerWorker; by rewrite Hc|].
  assert (Hcl : (key, linked) ∈ claims (sy_Acquires st)) by (apply list_elem_of_fmap; by exists (mkAcquiring key linked (Made session))).
  assert (Hk : mg_ByKey m !! key = None).
  { apply (bi_key_free _ _ HB). rewrite (bi_keys _ _ HB), elem_of_list_to_set. apply list_elem_of_fmap. by exists (key, linked). }
  assert (Ht : linked <> "" -> mg_ByThread m !! linked = None).
  { intros Hne. apply (bi_thread_free _ _ HB). rewrite (bi_threads _ _ HB), elem_of_list_to_set.
    apply list_elem_of_filter. split; [done|]. apply list_elem_of_fmap. by exists (key, linked). }
  assert (Hr : exists m', registerWorker key linked session m = inl (length (mg_Heap m), m')).
  { unfold registerWorker. rewrite Hc, bool_decide_eq_false_2 by (rewrite Hk; by intros []).
    destruct (String.eqb_spec linked ""); cbn [negb andb]; [by eexists|].
    rewrite Ht, bool_decide_eq_false_2 by (done || by intros []). by eexists. }
  destruct Hr as [m' Hr]. eexists _, m'. split; [done|].
  pose proof (register_at _ _ _ _ _ _ Hr (length (mg_Heap m))) as Hat. rewrite decide_True in Hat by done.
  split; [split; [exact Hat|]; rewrite (register_shape _ _ _ _ _ _ Hr); apply lookup_insert_eq|].
  split; [done|]. split; [done|]. split; [done|]. unfold ByThread. rewrite (bi_trimmed _ _ HB key linked Hcl).
  rewrite (register_shape _ _ _ _ _ _ Hr). cbn [mg_ByKey mg_ByThread mg_BusyKeys mg_BusyThreads].
  split; [apply lookup_insert_eq|]. split; [|split; [set_solver|]].
  - intros Hne. destruct (String.eqb_spec linked ""); [done|]. apply lookup_insert_eq.
  - rewrite elem_of_difference. intros [Hb Hx]. rewrite (bi_threads _ _ HB), elem_of_list_to_set in Hb.
    apply list_elem_of_filter in Hb as [Hne _]. apply Hx. unfold thread_set.
    destruct (String.eqb_spec linked ""); [done|]. set_solver.
Qed.

Lemma shut_down_step st st' :
  WorkersInv st -> shut_down st -> worker_step st st' -> shut_down st' /\ sy_Made st' = sy_Made st.
Proof.
  intros HW (Hc & Ha & Hi). destruct 1; cbn [sy_Manager sy_Acquires sy_Made] in *; unfold shut_down; cbn [sy_Manager sy_Acquires sy_Made];
    try (by destruct l1).
  - unfold beginAcquire in H0. by rewrite Hc in H0.
  - destruct (bind_parts _ _ _ _ (wi_alloc _ HW) (wi_index _ HW) H) as [->|(w & [_ Hw] & _)]; [done|].
    cbn in Hw. by rewrite Hi, lookup_empty in Hw.
  - unfold beginRelease in H. destruct (String.eqb _ ""); [done|].
    destruct (mg_ByThread m !! _) as [p|] eqn:Hp; [|done].
    destruct (xi_thread _ (wi_index _ HW) _ _ Hp) as (w & [_ Hw] & _). cbn in Hw. by rewrite Hi, lookup_empty in Hw.
  - unfold releaseUnbound, removeLocked. rewrite H. cbn [mg_Closed mg_ByIdentity set_active]. split; [|done].
    split; [done|]. split; [done|]. unfold remove_if. rewrite Hi, lookup_empty. by rewrite bool_decide_eq_false_2.
  - done.
  - destruct (finishRelease_shape worker err m) as [v ->]. done.
  - destruct (forget_keeps threadID generation m) as [v ->]. done.
  - done.
  - done.
Qed.

(** CloseAll is final: once it took the workers, no session is ever started again, no
    worker ever active, and when the workers it took are closed every session the
    factory made was closed. *)
Theorem CloseAll_final nonce st m' st' :
  worker_reachable nonce st -> mg_Closed (sy_Manager st) = true -> mg_Acquiring (sy_Manager st) = 0 ->
  m' = (collectCloseAll (sy_Manager st)).2 ->
  rtc worker_step (mkSystem m' (sy_Acquires st) (sy_Made st)
    (((fun p => (p, false)) <$> (collectCloseAll (sy_Manager st)).1.2) ++ sy_Closing st) (sy_Finishing st)
    (sy_ClosedSessions st)) st' ->
  sy_Made st' = sy_Made st /\ sy_Acquires st' = []
  /\ (forall p w, ~ active_worker (sy_Manager st') p w)
  /\ (sy_Closing st' = [] -> forall session, (session < sy_Made st')%nat -> session ∈ sy_ClosedSessions st').
Proof.
  intros Hr Hc Hz -> Hs. pose proof (reachable_inv _ _ Hr) as HW.
  destruct st as [m acquires made closing finishing closed]. cbn [sy_Manager sy_Acquires sy_Made sy_Closing sy_Finishing sy_ClosedSessions] in *.
  pose proof (collect_inv m acquires made closing finishing closed Hz HW) as HW'.
  assert (Ha : acquires = []).
  { pose proof (bi_count _ _ (wi_busy _ HW)) as Hn. cbn in Hn. rewrite Hz in Hn. unfold claims in Hn.
    rewrite length_fmap in Hn. by destruct acquires. }
  assert (Hd : shut_down (mkSystem (collectCloseAll m).2 acquires made
    (((fun p => (p, false)) <$> (collectCloseAll m).1.2) ++ closing) finishing closed)) by done.
  remember (mkSystem _ _ _ _ _ _) as st0 eqn:E0 in Hs, HW', Hd.
  assert (Hm : sy_Made st0 = made) by (by rewrite E0). rewrite <- Hm. clear E0 Hm HW Hr Hz Hc.
  induction Hs as [st0|st0 st1 st2 H1 _ IH].
  - destruct Hd as (_ & Hd2 & Hd3). split; [done|]. split; [done|]. split.
    + intros p w [_ Hp]. by rewrite Hd3, lookup_empty in Hp.
    + intros Hcl s Hs. destruct (si_kept _ _ _ _ _ _ (wi_sessions _ HW') s Hs) as [H|[H|(p & w & _ & _ & [[_ H]|H])]];
        [rewrite Hd2 in H; by apply elem_of_nil in H|done|by rewrite Hd3, lookup_empty in H|rewrite Hcl in H; by apply elem_of_nil in H].
  - destruct (shut_down_step _ _ HW' Hd H1) as [Hd1 Hm]. rewrite <- Hm. apply IH; [by eapply step_inv|done].
Qed.

Theorem CloseAll_final_witness :
  let closing := (collectCloseAll (beginCloseAll ex_first)).1.2 in
  closing = [0%nat] /\ mg_Closed (beginCloseAll ex_first) = true
  /\ forall st', rtc worker_step
       (mkSystem (collectCloseAll (beginCloseAll ex_first)).2 [] 1 [(0%nat, false)] [] []) st' ->
     sy_Closing st' = [] -> 0%nat ∈ sy_ClosedSessions st'.
Proof.
  split; [vm_compute; reflexivity|]. split; [vm_compute; reflexivity|]. intros st' Hs He.
  assert (Hr : worker_reachable "n" (mkSystem (beginCloseAll ex_first) [] 1 [] [] [])).
  { unfold worker_reachable. eapply rtc_r; [exact ex_first_reachable|apply ws_closing]. }
  destruct (CloseAll_final "n" _ _ st' Hr ltac:(vm_compute; reflexivity) ltac:(vm_compute; reflexivity) eq_refl Hs)
    as (Hm & _ & _ & H).
  apply (H He). rewrite Hm. cbn. lia.
Defined.

(** A confirmed release: the session of that generation of the thread's worker was closed
    and no worker has the thread. *)
Theorem confirmed_release_closed nonce st threadID generation :
  worker_reachable nonce st -> ConfirmedRelease threadID generation (sy_Manager st) = true ->
  ByThread threadID (sy_Manager st) = None
  /\ exists p w, worker_at (sy_Manager st) p = Some w /\ wk_ThreadID w = trim_space threadID
       /\ wk_Generation w = generation /\ wk_Session w ∈ sy_ClosedSessions st.
Proof.
  intros Hr%reachable_inv. unfold ConfirmedRelease, ByThread.
  destruct (_ || _) eqn:E; [done|]. bsimp. destruct (mg_Confirmed _ !! _) as [c|] eqn:Hc; [|done].
  intros Hg%Z.eqb_eq. destruct (wi_confirmed _ Hr _ _ Hc) as (Ht & p & w & H1 & H2 & H3 & H4).
  split; [by rewrite Ht; destruct (String.eqb _ _)|]. exists p, w. by rewrite <- Hg.
Qed.

(** ** Acquire and Release by one caller are runs of the machine *)

Lemma Acquire_refines st key0 linked0 factory r closed made' m' :
  (mg_NextGeneration (sy_Manager st) + 1 < 2 ^ 64)%Z ->
  Acquire key0 linked0 factory (sy_Made st) (sy_Manager st) = (r, closed, made', m') ->
  rtc worker_step st
    (mkSystem m' (sy_Acquires st) made' (sy_Closing st) (sy_Finishing st) (closed ++ sy_ClosedSessions st)).
Proof.
  intros Hb. destruct st as [m acquires made closing finishing done_sessions].
  cbn [sy_Manager sy_Acquires sy_Made sy_Closing sy_Finishing sy_ClosedSessions] in *. unfold Acquire.
  set (key := trim_space key0). set (linked := trim_space linked0).
  destruct (String.eqb_spec key "") as [|Hk]; [intros [= <- <- <- <-]; done|].
  destruct (beginAcquire key linked m) as [m1|e] eqn:H1; [|intros [= <- <- <- <-]; done].
  pose proof (ws_begin key0 linked0 m m1 acquires made closing finishing done_sessions Hk H1) as S1.
  fold key linked in S1. destruct factory as [ses|]; [|intros [= <- <- <- <-]].
  2:{ eapply rtc_l; [exact S1|]. apply rtc_once. by apply (ws_abandon []). }
  pose proof (ws_make [] key linked acquires m1 made closing finishing done_sessions) as S2.
  assert (Hprov : forall e r' c' n m2, (inr e : nat + worker_error, [made], S made,
            finishAcquire key linked (recordAcquireCloseError (ss_Close ses) m1)) = (r', c', n, m2) ->
            rtc worker_step (mkSystem m acquires made closing finishing done_sessions)
              (mkSystem m2 acquires n closing finishing (c' ++ done_sessions))).
  { intros e r' c' n m2 [= <- <- <- <-]. eapply rtc_l; [exact S1|]. eapply rtc_l; [exact S2|].
    eapply rtc_l; [apply (ws_provisional [])|]. apply rtc_once. by apply (ws_abandon []). }
  destruct (ss_Start ses); [by apply Hprov|]. destruct (negb (ss_Events ses)); [by apply Hprov|].
  destruct (registerWorker key linked made m1) as [[worker m2]|e] eqn:H2; [|by apply Hprov].
  intros [= <- <- <- <-]. eapply rtc_l; [exact S1|]. eapply rtc_l; [exact S2|]. apply rtc_once.
  apply (ws_register [] key linked made acquires worker m1 m2); [done|].
  unfold beginAcquire in H1. destruct (mg_Closed m); [done|]. case_bool_decide; [done|]. case_bool_decide; [done|].
  destruct (_ && _); [done|]. destruct (_ && _); [done|]. by injection H1 as <-.
Qed.

Lemma Release_refines st threadID generation close found err closed m' :
  Release threadID generation close (sy_Manager st) = (found, err, closed, m') ->
  rtc worker_step st (mkSystem m' (sy_Acquires st) (sy_Made st) (sy_Closing st) (sy_Finishing st)
                        (closed ++ sy_ClosedSessions st)).
Proof.
  destruct st as [m acquires made closing finishing done_sessions].
  cbn [sy_Manager sy_Acquires sy_Made sy_Closing sy_Finishing sy_ClosedSessions] in *. unfold Release.
  destruct (beginRelease threadID generation m) as [[worker m1]|] eqn:H1; [|intros [= <- <- <- <-]; done].
  intros [= <- <- <- <-]. eapply rtc_l; [by eapply ws_release|].
  assert (Hw : exists w, worker_at m worker = Some w /\ m1 = removeLocked worker m).
  { unfold beginRelease in H1. destruct (String.eqb _ ""); [done|].
    destruct (mg_ByThread m !! _) as [p|]; [|done]. cbn [mbind option_bind] in H1.
    destruct (worker_at m p) as [w|] eqn:Hp; [|done]. cbn [mbind option_bind] in H1.
    destruct (_ =? _)%Z; [|done]. injection H1 as <- <-. by exists w. }
  destruct Hw as (w & Hw & ->). rewrite Hw. cbn [from_option].
  eapply rtc_l; [apply (ws_close [] worker true closing (wk_Session w) (close (wk_Session w))); unfold session_of;
    by rewrite worker_at_removeLocked, Hw|].
  apply rtc_once. apply (ws_finish [] worker (close (wk_Session w)) finishing).
Qed.

(** ** A confirmation that comes late

    Release closes its session outside the mutex.  If the thread's next worker is
    acquired and released meanwhile, the first Release, finishing last, records its own,
    older generation over the newer one: the thread's last release, which succeeded, is
    then not confirmed. *)
Theorem late_confirmation_lost :
  exists st p w, worker_reachable "n" st /\ worker_at (sy_Manager st) p = Some w /\ wk_ThreadID w = "t"
    /\ wk_Generation w = mg_NextGeneration (sy_Manager st)
    /\ wk_Session w ∈ sy_ClosedSessions st /\ sy_Closing st = [] /\ sy_Finishing st = []
    /\ ConfirmedRelease "t" (wk_Generation w) (sy_Manager st) = false
    /\ ConfirmedRelease "t" (wk_Generation w - 1) (sy_Manager st) = true.
Proof.
  pose proof ex_first_reachable as H1.
  assert (H2 : worker_reachable "n" (mkSystem ex_second [] 2 [(0, true)] [] [])).
  { unfold worker_reachable in *. etrans; [exact H1|]. eapply rtc_l; [by apply (ws_release "t" 1 0 ex_first ex_releasing)|]. eapply rtc_l; [by eapply (ws_begin "k" "t")|].
    eapply rtc_l; [apply (ws_make [])|]. apply rtc_once. by apply (ws_register [] "k" "t" 1 [] 1). }
  exists (mkSystem ex_late [] 2 [] [] [0; 1]). eexists 1, _. split.
  - unfold worker_reachable in *. etrans; [exact H2|].
    eapply rtc_l; [by apply (ws_release "t" 2 1 ex_second (removeLocked 1 ex_second))|].
    eapply rtc_l; [by apply (ws_close [] 1 true [(0, true)] 1 None)|].
    eapply rtc_l; [apply (ws_finish [] 1 None [])|].
    eapply rtc_l; [by apply (ws_close [] 0 true [] 0 None)|].
    apply rtc_once. apply (ws_finish [] 0 None []).
  - split; [vm_compute; reflexivity|]. cbn [sy_ClosedSessions wk_Session]. repeat split; [set_solver|..]; by vm_compute.
Qed.
