(* ===== verification/Routing.v ===== *)
(** * internal/daemon: where a reply goes

    A reply names a turn of a thread.  Before anything is started the router reads the
    thread and decides which of its turns the reply continues, and, for a thread with a
    linked conversation, whether the source moved on after the link was made.  These are
    the decisions of minimal_link_routing.go, minimal_router.go and
    minimal_continuation.go that read no more than a payload and the store. *)
From stdpp Require Import base list numbers strings gmap.
From Stdlib Require Import Lia Ascii.
From S2P Require Import Prelude GoStrings GoTime Utf8 Json Sql Model Normalize NotifierFormat MinimalTables Store LinkedThread.

(** panels.go *)
Definition isTerminalStatus (status : string) : bool :=
  existsb (String.eqb (trim_space (to_lower status)))
    ["completed"; "interrupted"; "failed"; "cancelled"; "canceled"].

(** *** Where a thread came from *)
Definition payloadMapAny (value : any) : obj := map_or_nil value.

Definition pc_source (value : string) : bool :=
  contains value "desktop" || contains value "vscode" || String.eqb value "cli" || String.eqb value "exec".

Definition lowered (value : any) : string := to_lower (trim_space (payloadString value)).

Definition payloadLooksPCOrigin (payload : obj) : bool :=
  if bool_decide (payload = []) then false
  else
    existsb (fun value => negb (String.eqb value "") && (pc_source value || contains value "codex cli"))
      [lowered (get payload "source"); lowered (get payload "originator")]
    || (let sourceMap := payloadMapAny (get payload "source") in
        existsb (fun key => pc_source (lowered (get sourceMap key))) ["type"; "name"; "originator"]).

Definition payloadLooksPCOriginPayload (payload : obj) : bool :=
  payloadLooksPCOrigin payload || payloadLooksPCOrigin (payloadMapAny (get payload "thread")).

(** *** The turn a reply continues *)
Record sourceTurnAnchor : Type := mkAnchor {
  an_ThreadID : string;
  an_TurnID : string;
  an_Status : string;
  an_PCOrigin : bool }.

Inductive source_error : Type :=
| SourceUnavailable
| SourceInProgress
| SourceDiverged.

Definition minimalSourceTurnStatus (value : any) : string :=
  match value with
  | JObj status => canonicalMinimalTerminalStatus (payloadMapString status "type")
  | _ => canonicalMinimalTerminalStatus (payloadString value)
  end.

(** One turn of the loop of resolveSourceAnchor, None to go on. *)
Definition anchorOfTurn (threadID requestedTurnID : string) (pcOrigin : bool) (raw : any)
  : option (sourceTurnAnchor + source_error) :=
  let turn := map_or_nil raw in
  let id := trim_space (payloadString (get turn "id")) in
  let status := minimalSourceTurnStatus (get turn "status") in
  if String.eqb requestedTurnID "" && isTerminalStatus status then
    Some (if String.eqb id "" then inr SourceUnavailable else inl (mkAnchor threadID id status pcOrigin))
  else if negb (String.eqb id "") && String.eqb id requestedTurnID then
    Some (if negb (isTerminalStatus status) then inr SourceInProgress
          else inl (mkAnchor threadID id status pcOrigin))
  else None.

(** payload["thread"] when it is an object, else the payload. *)
Definition nestedThread (payload : obj) : obj :=
  match get payload "thread" with JObj value => value | _ => payload end.

Definition resolveSourceAnchor (payload : obj) (requestedTurnID0 : string) : sourceTurnAnchor + source_error :=
  let thread := ThreadFromPayload payload in
  let turns := slice_or_nil (get (nestedThread payload) "turns") in
  default (inr SourceUnavailable)
    (first_some (anchorOfTurn (th_ID thread) (trim_space requestedTurnID0) (payloadLooksPCOriginPayload payload))
       (rev turns)).

(** *** Has the source moved on? *)
Definition minimalTurnAtOrBefore : string := "at_or_before".
Definition minimalTurnAfter : string := "after".

(** The id recordMinimalTurnPosition gives the next position to. *)
Definition recordMinimalTurnPosition (turn : obj) : list string :=
  let id := trim_space (payloadString (get turn "id")) in
  if String.eqb id "" then [] else [id].

(** collectMinimalTurnPositions and collectMinimalTurnArrayPositions: the ids in the
    order of the positions they get, the turns of an object before its other keys in
    their order.  Every child is collected twice over, as a value and as an array of
    turns, and the object picks; the keys of an object are distinct. *)
Fixpoint collectMinimalTurnPositions (value : any) : list string :=
  match value with
  | JObj typed =>
      let children :=
        (fix collect (fields : list (string * any)) : list (string * (list string * list string)) :=
          match fields with
          | [] => []
          | (key, child) :: rest =>
              let as_turns := match child with
                | JArr turns =>
                    (fix array (items : list any) : list string :=
                      match items with
                      | [] => []
                      | raw :: others =>
                          match raw with
                          | JObj turn => recordMinimalTurnPosition turn ++ collectMinimalTurnPositions raw
                          | _ => []
                          end ++ array others
                      end) turns
                | _ => []
                end in
              (key, (collectMinimalTurnPositions child, as_turns)) :: collect rest
          end) typed in
      flat_map (fun c => c.2.2) (filter (fun c => c.1 = "turns") children)
      ++ flat_map (fun c => c.2.1)
           (sort_by (fun a b => text_le a.1 b.1) (filter (fun c => c.1 <> "turns") children))
  | JArr items =>
      (fix each (items : list any) : list string :=
        match items with
        | [] => []
        | child :: others => collectMinimalTurnPositions child ++ each others
        end) items
  | _ => []
  end.

(** positions[id], when it has exactly one. *)
Fixpoint positions_from (next : nat) (id : string) (ids : list string) : list nat :=
  match ids with
  | [] => []
  | x :: rest => (if String.eqb x id then [next] else []) ++ positions_from (S next) id rest
  end.

Definition minimalSourceTurnRelation (payload : obj) (anchorTurnID0 routedTurnID0 : string) : string + source_error :=
  let anchorTurnID := trim_space anchorTurnID0 in
  let routedTurnID := trim_space routedTurnID0 in
  if String.eqb anchorTurnID "" || String.eqb routedTurnID "" then inr SourceUnavailable
  else
    let nested := payloadMapAny (get payload "thread") in
    let root := if bool_decide (nested = []) then payload else nested in
    let ids := collectMinimalTurnPositions (JObj root) in
    match positions_from 0 anchorTurnID ids, positions_from 0 routedTurnID ids with
    | [anchor], [routed] => inl (if (routed <=? anchor)%nat then minimalTurnAtOrBefore else minimalTurnAfter)
    | _, _ => inr SourceUnavailable
    end.

(** *** The linked conversation of a thread *)
Record minimalLinkedRouteDecision : Type := mkDecision {
  de_ThreadID : string;
  de_SourceThreadID : string;
  de_SourceTurnID : string;
  de_Divergent : bool }.

(** What resolveMinimalLinkedRoute fails with: the store's error or the source's. *)
Inductive route_error : Type :=
| RouteStore (message : string)
| RouteSource (e : source_error).

(** A link of this chat and topic. *)
Definition link_here (inbound : InboundText) (link : MinimalLinkedThread) : bool :=
  (lt_ChatID link =? in_ChatID inbound)%Z && (lt_TopicID link =? in_TopicID inbound)%Z.

Section routes.
Context (protector : option Protector) (inbound : InboundText).

(** The decision, which is returned with an error too. *)
Definition resolveMinimalLinkedRoute (threadID0 turnID0 : string) (payload : obj) (s : Store)
  : minimalLinkedRouteDecision * option route_error :=
  let threadID := trim_space threadID0 in
  let turnID := trim_space turnID0 in
  let decision := mkDecision threadID threadID turnID false in
  if String.eqb threadID "" then (decision, None)
  else match GetMinimalLinkedThreadByLinkedID protector threadID s with
  | Err e => (decision, Some (RouteStore e))
  | Ok own =>
      if match own with Some link => link_here inbound link | None => false end
      then (mkDecision threadID (from_option (fun l => trim_space (lt_SourceThreadID l)) "" own) turnID false, None)
      else match GetMinimalLinkedThread protector (in_ChatID inbound) (in_TopicID inbound) threadID s with
      | Err e => (decision, Some (RouteStore e))
      | Ok None => (decision, None)
      | Ok (Some link) =>
          if String.eqb (trim_space (lt_LinkedThreadID link)) "" then (decision, None)
          else
            let linked := mkDecision (trim_space (lt_LinkedThreadID link)) (trim_space (lt_SourceThreadID link))
                            (trim_space (lt_SourceAnchorTurnID link)) in
            match minimalSourceTurnRelation payload (lt_SourceAnchorTurnID link) turnID with
            | inr e => (linked false, Some (RouteSource e))
            | inl relation =>
                if String.eqb relation minimalTurnAfter then (linked true, Some (RouteSource SourceDiverged))
                else (linked false, None)
            end
      end
  end.

Definition minimalRouteMayHaveCanonicalLink (threadID0 : string) (s : Store) : res bool :=
  let threadID := trim_space threadID0 in
  if String.eqb threadID "" then Ok false
  else
    let! own := GetMinimalLinkedThreadByLinkedID protector threadID s in
    if match own with Some link => link_here inbound link | None => false end then Ok true
    else
      let! link := GetMinimalLinkedThread protector (in_ChatID inbound) (in_TopicID inbound) threadID s in
      Ok match link with Some link => negb (String.eqb (trim_space (lt_LinkedThreadID link)) "") | None => false end.
End routes.

(** *** Titles *)
Definition minimalLinkedTitleSuffix : string := " · 텔레그램 연동".
Definition continuationTitleRunes : nat := 64.

(** '\r', '\n' and '\t' become a space. *)
Definition title_rune (r : N) : N := if (r =? 13)%N || (r =? 10)%N || (r =? 9)%N then 32%N else r.

Definition safeContinuationSourceTitle (parent : option Thread) : string :=
  match parent with
  | None => ""
  | Some parent =>
      let title0 := trim_space (th_Title parent) in
      let title1 := if String.eqb title0 "" || String.eqb title0 (th_ID parent) then ShortID parent else title0 in
      let title2 := string_of_runes (map title_rune (runes title1)) in
      let title := join " " (fields title2) in
      let rs := runes title in
      if (continuationTitleRunes <? length rs)%nat
      then trim_space (string_of_runes (take continuationTitleRunes rs)) else title
  end.

Definition hasMeaningfulMinimalThreadTitle (thread : option Thread) : bool :=
  match thread with
  | None => false
  | Some thread =>
      let title := trim_space (th_Title thread) in
      negb (String.eqb title "") && negb (String.eqb title (trim_space (th_ID thread)))
  end.

Definition shortLogID (value0 : string) : string :=
  let value := trim_space value0 in
  if (String.length value <=? 8)%nat then value else str_take 8 value.

Definition sourceIDForLinked (parent : option Thread) (anchor : sourceTurnAnchor) : string :=
  let sourceThreadID := trim_space (an_ThreadID anchor) in
  match parent with
  | Some parent => if String.eqb sourceThreadID "" then trim_space (th_ID parent) else sourceThreadID
  | None => sourceThreadID
  end.

(** ** Turns as a thread lists them *)

(** An object of a turn: its id, its status, and no turns inside. *)
Definition turn_id (raw : any) : string := trim_space (payloadString (get (map_or_nil raw) "id")).
Definition turn_status (raw : any) : string := minimalSourceTurnStatus (get (map_or_nil raw) "status").

Definition ex_turn (id status : string) : any := JObj [("id", JStr id); ("status", JStr status)].
Definition ex_thread (turns : list any) : obj :=
  [("thread", JObj [("id", JStr "T"); ("turns", JArr turns)])].

Definition ex_reply : InboundText := mkInboundText 42 0 1 10 9 "go on" 0%Z.
Definition ex_source : obj :=
  [("thread", JObj [("id", JStr "source"); ("turns", JArr [ex_turn "first" "completed"; ex_turn "anchor" "completed"])])].

(** The value is a flat turn: an object none of whose members is an object or an array
    but its items, which hold no turns. *)
Definition leaf (value : any) : Prop := collectMinimalTurnPositions value = [].

Definition flat_turn (raw : any) : Prop :=
  exists fields, raw = JObj fields /\ has_key fields "turns" = false /\ Forall (fun kv => leaf kv.2) fields.

(** The two readings of a child, and the children of an object. *)
Definition turns_of (child : any) : list string :=
  match child with
  | JArr turns => flat_map (fun raw => match raw with
                                       | JObj turn => recordMinimalTurnPosition turn ++ collectMinimalTurnPositions raw
                                       | _ => [] end) turns
  | _ => []
  end.

Definition readings (fields : obj) : list (string * (list string * list string)) :=
  map (fun kv => (kv.1, (collectMinimalTurnPositions kv.2, turns_of kv.2))) fields.

Example ex_anchor :
  resolveSourceAnchor (ex_thread [ex_turn "a" "completed"; ex_turn "b" "failed"; ex_turn "c" "inProgress"]) ""
  = inl (mkAnchor "T" "b" "failed" false).
Proof. reflexivity. Qed.

Example ex_after :
  minimalSourceTurnRelation (ex_thread [ex_turn "a" "completed"; ex_turn "b" "failed"]) "a" "b" = inl minimalTurnAfter.
Proof. reflexivity. Qed.

(** ** The anchor *)

Lemma first_some_split {A B} (f : A -> option B) l b :
  first_some f l = Some b <-> exists l1 x l2, l = l1 ++ x :: l2 /\ f x = Some b /\ Forall (fun y => f y = None) l1.
Proof.
  split.
  - induction l as [|x l IH]; [done|]. cbn. destruct (f x) as [c|] eqn:E.
    + intros [= ->]. by exists [], x, l.
    + intros (l1 & y & l2 & -> & Hy & Hl)%IH. exists (x :: l1), y, l2. split; [done|]. split; [done|]. by constructor.
  - intros (l1 & x & l2 & -> & Hx & Hl). induction Hl as [|y l1 Hy _ IH]; cbn; [by rewrite Hx|by rewrite Hy].
Qed.

(** resolveSourceAnchor, in terms of the thread's turns: without a requested turn, the
    latest finished turn, which must have an id; with one, the latest turn of that id,
    which must be finished. *)
Theorem resolveSourceAnchor_spec payload requested :
  let turns := slice_or_nil (get (nestedThread payload) "turns") in
  let wanted raw := if String.eqb (trim_space requested) "" then isTerminalStatus (turn_status raw)
                    else String.eqb (turn_id raw) (trim_space requested) in
  match resolveSourceAnchor payload requested with
  | inl anchor => exists before raw after, turns = before ++ raw :: after /\ wanted raw = true
      /\ Forall (fun r => wanted r = false) after /\ isTerminalStatus (turn_status raw) = true
      /\ anchor = mkAnchor (th_ID (ThreadFromPayload payload)) (turn_id raw) (turn_status raw)
                    (payloadLooksPCOriginPayload payload)
      /\ turn_id raw <> ""
  | inr SourceInProgress => trim_space requested <> "" /\ exists before raw after,
      turns = before ++ raw :: after /\ turn_id raw = trim_space requested
      /\ Forall (fun r => wanted r = false) after /\ isTerminalStatus (turn_status raw) = false
  | inr SourceUnavailable => Forall (fun r => wanted r = false) turns
      \/ (trim_space requested = "" /\ exists before raw after, turns = before ++ raw :: after /\ wanted raw = true
          /\ Forall (fun r => wanted r = false) after /\ turn_id raw = "")
  | inr SourceDiverged => False
  end.
Proof.
  intros turns wanted. unfold resolveSourceAnchor. fold turns.
  set (f := anchorOfTurn _ _ _).
  assert (Hf : forall raw, f raw = None <-> wanted raw = false).
  { intros raw. unfold f, anchorOfTurn, wanted. fold (turn_id raw) (turn_status raw).
    destruct (String.eqb_spec (trim_space requested) "") as [E|E]; cbn [andb].
    - rewrite E. destruct (isTerminalStatus (turn_status raw)); [done|].
      destruct (String.eqb_spec (turn_id raw) ""); cbn; done.
    - destruct (String.eqb_spec (turn_id raw) (trim_space requested)) as [E2|]; cbn; [|rewrite andb_false_r; done].
      rewrite E2. destruct (String.eqb_spec (trim_space requested) ""); done. }
  assert (Hrest : forall l, Forall (fun y => f y = None) l -> Forall (fun r => wanted r = false) (rev l)).
  { intros l Hl. apply Forall_rev. eapply Forall_impl; [exact Hl|]. intros x. apply Hf. }
  destruct (first_some f (rev turns)) as [r|] eqn:E; cbn [default].
  - apply first_some_split in E as (l1 & raw & l2 & Hsplit & Hraw & Hl1).
    assert (Hturns : turns = rev l2 ++ raw :: rev l1).
    { apply (f_equal (@rev any)) in Hsplit. rewrite rev_involutive in Hsplit. rewrite Hsplit, rev_app_distr. cbn.
      by rewrite <- app_assoc. }
    assert (Hw : wanted raw = true) by (destruct (wanted raw) eqn:N; [done|]; apply Hf in N; congruence).
    pose proof (Hrest l1 Hl1) as Hafter. unfold f, anchorOfTurn in Hraw. fold (turn_id raw) (turn_status raw) in Hraw.
    destruct (String.eqb_spec (trim_space requested) "") as [E|E]; cbn [andb] in Hraw.
    + assert (Ht : isTerminalStatus (turn_status raw) = true)
        by (unfold wanted in Hw; rewrite ?E in Hw; exact Hw).
      rewrite Ht in Hraw. injection Hraw as <-. destruct (String.eqb_spec (turn_id raw) "") as [E2|E2].
      * right. split; [done|]. by exists (rev l2), raw, (rev l1).
      * by exists (rev l2), raw, (rev l1).
    + destruct (String.eqb_spec (turn_id raw) "") as [E2|E2]; [done|].
      destruct (String.eqb_spec (turn_id raw) (trim_space requested)) as [E3|]; [|done].
      cbn [negb andb] in Hraw. injection Hraw as <-.
      destruct (isTerminalStatus (turn_status raw)) eqn:Ht; cbn [negb].
      * by exists (rev l2), raw, (rev l1).
      * split; [done|]. by exists (rev l2), raw, (rev l1).
  - left. apply first_some_none in E. apply Hrest in E. by rewrite rev_involutive in E.
Qed.

(** ** The order of the turns *)

Lemma collect_object fields :
  collectMinimalTurnPositions (JObj fields) =
  flat_map (fun c => c.2.2) (filter (fun c => c.1 = "turns") (readings fields))
  ++ flat_map (fun c => c.2.1) (sort_by (fun a b => text_le a.1 b.1) (filter (fun c => c.1 <> "turns") (readings fields))).
Proof.
  cbn [collectMinimalTurnPositions].
  match goal with |- flat_map _ (filter _ (?f fields)) ++ _ = _ => assert (E : f fields = readings fields) end.
  { induction fields as [|[key child] rest IH]; [done|]. cbn [readings map fst snd]. fold (readings rest). by rewrite <- IH. }
  by rewrite E.
Qed.

Lemma flat_map_nil {A B} (f : A -> list B) l : Forall (fun x => f x = []) l -> flat_map f l = [].
Proof. induction 1 as [|x l Hx _ IH]; [done|]. cbn. by rewrite Hx. Qed.

Lemma sort_by_Forall {A} (P : A -> Prop) le (l : list A) : Forall P l -> Forall P (sort_by le l).
Proof.
  induction 1 as [|x l Hx _ IH]; [constructor|]. cbn. revert IH. generalize (sort_by le l). intros k Hk.
  induction Hk as [|y k Hy Hk IH]; cbn; [by repeat constructor|]. destruct (le x y); by repeat constructor.
Qed.

Lemma leaves_nothing fields :
  Forall (fun kv => leaf kv.2) fields ->
  flat_map (fun c : string * (list string * list string) => c.2.1)
    (sort_by (fun a b => text_le a.1 b.1) (filter (fun c => c.1 <> "turns") (readings fields))) = [].
Proof.
  intros Hl. apply flat_map_nil, sort_by_Forall, Forall_forall. intros c [_ Hc]%list_elem_of_filter.
  apply list_elem_of_fmap in Hc as (kv & -> & Hkv). cbn. rewrite Forall_forall in Hl. by apply Hl.
Qed.

Lemma has_key_in fields kv : kv ∈ fields -> has_key fields kv.1 = true.
Proof.
  induction fields as [|[k v] fields IH]; [set_solver|]. intros [->|H]%elem_of_cons; cbn.
  - by rewrite String.eqb_refl.
  - rewrite IH by done. apply orb_true_r.
Qed.

Lemma collect_flat_turn raw : flat_turn raw -> collectMinimalTurnPositions raw = [].
Proof.
  intros (fields & -> & Hk & Hl). rewrite collect_object, (leaves_nothing _ Hl), app_nil_r.
  apply flat_map_nil, Forall_forall. intros c [E Hc]%list_elem_of_filter. exfalso.
  apply list_elem_of_fmap in Hc as (kv & -> & Hkv). cbn in E. by rewrite <- E, (has_key_in _ _ Hkv) in Hk.
Qed.

Lemma collect_thread f1 items f2 :
  Forall (fun kv => kv.1 <> "turns" /\ leaf kv.2) (f1 ++ f2) -> Forall flat_turn items ->
  collectMinimalTurnPositions (JObj (f1 ++ ("turns", JArr items) :: f2))
  = filter (fun id => id <> "") (map turn_id items).
Proof.
  intros Hrest Hitems. apply Forall_app in Hrest as [H1 H2]. rewrite collect_object.
  assert (Hnone : forall f : obj, Forall (fun kv => kv.1 <> "turns" /\ leaf kv.2) f ->
            filter (fun c => c.1 = "turns") (readings f) = []).
  { intros f Hf. induction Hf as [|[k v] f [Hk _] _ IH]; [done|]. cbn [readings map]. rewrite filter_cons_False by done. exact IH. }
  assert (Hleaf : forall f : obj, Forall (fun kv => kv.1 <> "turns" /\ leaf kv.2) f ->
            Forall (fun c : string * (list string * list string) => c.2.1 = []) (readings f)).
  { intros f Hf. unfold readings. apply Forall_fmap. eapply Forall_impl; [exact Hf|]. intros [k v] [_ Hv]. exact Hv. }
  unfold readings. rewrite map_app. fold (readings f1). cbn [map fst snd]. fold (readings f2).
  rewrite !filter_app, (Hnone f1 H1), filter_cons_True, (Hnone f2 H2), filter_cons_False by (cbn; naive_solver).
  rewrite (flat_map_nil _ (sort_by _ _)).
  - cbn [app flat_map snd turns_of]. rewrite !app_nil_r.
    induction Hitems as [|raw items Hraw _ IH]; [done|]. cbn [flat_map map]. rewrite IH.
    pose proof (collect_flat_turn raw Hraw) as Hc. destruct Hraw as (fields & -> & _). rewrite Hc, app_nil_r, filter_cons.
    unfold recordMinimalTurnPosition. change (turn_id (JObj fields)) with (trim_space (payloadString (get fields "id"))).
    destruct (String.eqb_spec (trim_space (payloadString (get fields "id"))) "") as [E|E];
      [rewrite decide_False by naive_solver|rewrite decide_True by done]; done.
  - apply sort_by_Forall, Forall_app. split; apply Forall_forall; intros c [_ Hc]%list_elem_of_filter;
      [pose proof (Hleaf f1 H1) as H|pose proof (Hleaf f2 H2) as H]; rewrite Forall_forall in H; by apply H.
Qed.

Lemma elem_of_positions n id ids k :
  k ∈ positions_from n id ids <-> exists i, k = (n + i)%nat /\ ids !! i = Some id.
Proof.
  revert n. induction ids as [|x ids IH]; intros n; cbn [positions_from]; [set_solver|].
  rewrite elem_of_app, IH. split.
  - intros [H|(i & -> & Hi)].
    + destruct (String.eqb_spec x id) as [->|]; [|set_solver]. apply list_elem_of_singleton in H as ->. exists 0%nat. split; [lia|done].
    + exists (S i). split; [lia|done].
  - intros ([|i] & -> & Hi); [left|right].
    + injection Hi as ->. rewrite String.eqb_refl, Nat.add_0_r. set_solver.
    + exists i. split; [lia|done].
Qed.

Lemma positions_nodup n id ids : NoDup (positions_from n id ids).
Proof.
  revert n. induction ids as [|x ids IH]; intros n; cbn [positions_from]; [constructor|]. apply NoDup_app.
  split; [destruct (String.eqb x id); repeat constructor; set_solver|]. split; [|apply IH].
  intros k Hk (i & E & _)%elem_of_positions. destruct (String.eqb x id); set_solver by lia.
Qed.

(** positions[id] is one position: the id has one place in the list. *)
Lemma single_position id ids i :
  positions_from 0 id ids = [i] <-> ids !! i = Some id /\ forall j, ids !! j = Some id -> j = i.
Proof.
  assert (Hp : forall j, j ∈ positions_from 0 id ids <-> ids !! j = Some id).
  { intros j. rewrite elem_of_positions. split; [by intros (k & -> & Hk)|intros Hk; by exists j]. }
  split.
  - intros E. rewrite E in Hp. split; [apply Hp; by left|]. intros j Hj%Hp. by apply list_elem_of_singleton in Hj.
  - intros [Hi Hu]. pose proof (positions_nodup 0 id ids) as HN. destruct (positions_from 0 id ids) as [|a [|b l]].
    + apply Hp in Hi. set_solver.
    + f_equal. apply Hu, Hp. by left.
    + exfalso. apply NoDup_cons in HN as [HN _]. apply HN.
      assert (a = i) as -> by (apply Hu, Hp; by left). assert (b = i) as -> by (apply Hu, Hp; right; by left). by left.
Qed.

(** minimalSourceTurnRelation on a thread as App Server sends it (its turns in order,
    each an object without turns inside): the order of the two turns, when each of the two
    ids has exactly one place among the turns. *)
Theorem minimalSourceTurnRelation_spec payload f1 items f2 anchor routed :
  payloadMapAny (get payload "thread") = f1 ++ ("turns", JArr items) :: f2 ->
  Forall (fun kv => kv.1 <> "turns" /\ leaf kv.2) (f1 ++ f2) -> Forall flat_turn items ->
  let ids := filter (fun id => id <> "") (map turn_id items) in
  let only (id : string) (i : nat) := ids !! i = Some id /\ forall j, ids !! j = Some id -> j = i in
  match minimalSourceTurnRelation payload anchor routed with
  | inl relation => exists i j, only (trim_space anchor) i /\ only (trim_space routed) j
      /\ relation = (if (j <=? i)%nat then minimalTurnAtOrBefore else minimalTurnAfter)
  | inr e => e = SourceUnavailable /\ ~ (exists i j, only (trim_space anchor) i /\ only (trim_space routed) j)
  end.
Proof.
  intros Hp Hrest Hitems ids only. unfold minimalSourceTurnRelation. rewrite Hp.
  rewrite bool_decide_eq_false_2 by (by destruct f1).
  rewrite (collect_thread f1 items f2 Hrest Hitems). fold ids.
  assert (Hne : forall id i, only id i -> id <> "").
  { intros id i [Hi _] ->. apply list_elem_of_lookup_2 in Hi. by apply list_elem_of_filter in Hi as [? _]. }
  destruct (String.eqb_spec (trim_space anchor) "") as [Ea|Ea]; cbn [orb].
  { split; [done|]. intros (i & j & Hi & _). by apply (Hne _ _ Hi). }
  destruct (String.eqb_spec (trim_space routed) "") as [Er|Er].
  { split; [done|]. intros (i & j & _ & Hj). by apply (Hne _ _ Hj). }
  assert (Hno : forall id, (forall i, positions_from 0 id ids <> [i]) -> forall i, ~ only id i).
  { intros id H i Hi. by apply (H i), single_position. }
  destruct (positions_from 0 (trim_space anchor) ids) as [|i [|]] eqn:Ei.
  - split; [done|]. intros (k & _ & Hk & _). revert Hk. apply Hno. by rewrite Ei.
  - destruct (positions_from 0 (trim_space routed) ids) as [|j [|]] eqn:Ej.
    + split; [done|]. intros (_ & k & _ & Hk). revert Hk. apply Hno. by rewrite Ej.
    + exists i, j. split; [by apply single_position|]. split; [by apply single_position|done].
    + split; [done|]. intros (_ & k & _ & Hk). revert Hk. apply Hno. by rewrite Ej.
  - split; [done|]. intros (k & _ & Hk & _). revert Hk. apply Hno. by rewrite Ei.
Qed.

Lemma minimalSourceTurnRelation_spec_witness :
  exists i j, (["a"; "b"; "c"] !! i = Some "b" /\ forall k, ["a"; "b"; "c"] !! k = Some "b" -> k = i)
    /\ (["a"; "b"; "c"] !! j = Some "a" /\ forall k, ["a"; "b"; "c"] !! k = Some "a" -> k = j)
    /\ "at_or_before" = (if (j <=? i)%nat then minimalTurnAtOrBefore else minimalTurnAfter).
Proof.
  assert (Hflat : forall a b, flat_turn (ex_turn a b)).
  { intros a b. exists [("id", JStr a); ("status", JStr b)]. by repeat constructor. }
  apply (minimalSourceTurnRelation_spec (ex_thread [ex_turn "a" "completed"; ex_turn "b" "failed"; ex_turn "c" "completed"])
    [("id", JStr "T")] [ex_turn "a" "completed"; ex_turn "b" "failed"; ex_turn "c" "completed"] [] "b" "a").
  - reflexivity.
  - by repeat constructor.
  - repeat constructor; apply Hflat.
Defined.

(** ** The linked conversation *)

(** A reply is moved to the linked conversation of its thread only if the turn it names
    is at or before the link's anchor among the source's turns, each of them listed once:
    what the source did after the link was made is never skipped. *)
Theorem linked_route_in_order protector inbound threadID turnID payload f1 items f2 s decision :
  payloadMapAny (get payload "thread") = f1 ++ ("turns", JArr items) :: f2 ->
  Forall (fun kv => kv.1 <> "turns" /\ leaf kv.2) (f1 ++ f2) -> Forall flat_turn items ->
  resolveMinimalLinkedRoute protector inbound threadID turnID payload s = (decision, None) ->
  de_ThreadID decision <> trim_space threadID ->
  let ids := filter (fun id => id <> "") (map turn_id items) in
  let only (id : string) (i : nat) := ids !! i = Some id /\ forall j, ids !! j = Some id -> j = i in
  exists link i j,
    GetMinimalLinkedThread protector (in_ChatID inbound) (in_TopicID inbound) (trim_space threadID) s = Ok (Some link)
    /\ decision = mkDecision (trim_space (lt_LinkedThreadID link)) (trim_space (lt_SourceThreadID link))
                    (trim_space (lt_SourceAnchorTurnID link)) false
    /\ only (trim_space (lt_SourceAnchorTurnID link)) i /\ only (trim_space turnID) j /\ (j <= i)%nat.
Proof.
  intros Hp Hrest Hitems Hr Hne ids only. unfold resolveMinimalLinkedRoute in Hr.
  destruct (String.eqb (trim_space threadID) ""); [by injection Hr as <-|].
  destruct (GetMinimalLinkedThreadByLinkedID _ _ _) as [own|]; [|done].
  destruct (match own with Some link => link_here inbound link | None => false end); [by injection Hr as <-|].
  destruct (GetMinimalLinkedThread _ _ _ _ _) as [[link|]|] eqn:E; [|by injection Hr as <-|done].
  destruct (String.eqb (trim_space (lt_LinkedThreadID link)) ""); [by injection Hr as <-|].
  pose proof (minimalSourceTurnRelation_spec payload f1 items f2 (lt_SourceAnchorTurnID link) (trim_space turnID)
                Hp Hrest Hitems) as Hrel. cbv zeta in Hrel. fold ids in Hrel. rewrite trim_space_idemp in Hrel.
  destruct (minimalSourceTurnRelation _ _ _) as [relation|]; [|done]. destruct Hrel as (i & j & Hi & Hj & ->).
  destruct (Nat.leb_spec j i); [|done]. injection Hr as <-. by exists link, i, j.
Qed.

Lemma linked_route_in_order_witness :
  exists link i j, GetMinimalLinkedThread None 42 0 "source" ex_linked = Ok (Some link)
    /\ mkDecision "fork" "source" "anchor" false
       = mkDecision (trim_space (lt_LinkedThreadID link)) (trim_space (lt_SourceThreadID link))
           (trim_space (lt_SourceAnchorTurnID link)) false
    /\ (["first"; "anchor"] !! i = Some (trim_space (lt_SourceAnchorTurnID link))
        /\ forall k, ["first"; "anchor"] !! k = Some (trim_space (lt_SourceAnchorTurnID link)) -> k = i)
    /\ (["first"; "anchor"] !! j = Some "first" /\ forall k, ["first"; "anchor"] !! k = Some "first" -> k = j)
    /\ (j <= i)%nat.
Proof.
  assert (Hflat : forall a b, flat_turn (ex_turn a b)).
  { intros a b. exists [("id", JStr a); ("status", JStr b)]. by repeat constructor. }
  apply (linked_route_in_order None ex_reply "source" "first" ex_source [("id", JStr "source")]
    [ex_turn "first" "completed"; ex_turn "anchor" "completed"] [] ex_linked).
  - reflexivity.
  - by repeat constructor.
  - repeat constructor; apply Hflat.
  - reflexivity.
  - discriminate.
Defined.
