(* ===== verification/Starts.v ===== *)
(** * internal/daemon: how the router starts a turn

    The functions of minimal_router.go and minimal_continuation.go that start turns: on a
    worker of an existing thread, of a new one, or of a fork that continues a thread the
    PC owns.  A [RouterWorld] is what they act on: the store, the manager of the workers,
    the calls made to App Server and the messages sent.  App Server answers anything. *)
From stdpp Require Import base list numbers strings gmap.
From Stdlib Require Import Lia Ascii.
From S2P Require Import Prelude GoStrings GoTime Sql Json Model Normalize Store Threads Observations TerminalGate.
From S2P Require Import LinkedThread PendingCommands Continuations Projects ApprovalHandlers LinkWorkers Routing.

(** *** Errors, as the router tells them apart; the wrapping ones are unwrapped by
    errors.As and errors.Is *)
Inductive start_error : Type :=
| Plain (message : string)
| Wrapped (message : string) (e : start_error)
| RPCFailed (code : Z) (message : string)               (* *appserver.RPCError *)
| WorkerFailed (e : worker_error)
| ProjectFailed (e : project_error)
| PreTurn (e : start_error)                             (* minimalWorkerPreTurnError *)
| ForkFailed (e : start_error) (kind : string)          (* continuationForkError, with *)
    (noRemoteTurnStarted : bool)
| Deferred (e : start_error)                            (* minimalQueuedNoRemoteStartError *)
| OwnedByCodex                                          (* errMinimalLinkedOwnedByCodex *)
| SourceFailed (e : source_error).

Fixpoint error_chain (e : start_error) : list start_error :=
  e :: match e with
       | Wrapped _ e | PreTurn e | ForkFailed e _ _ | Deferred e => error_chain e
       | _ => []
       end.

Definition isPreTurnWorkerError (e : start_error) : bool :=
  existsb (fun e => match e with PreTurn _ => true | _ => false end) (error_chain e).
Definition isQueuedNoRemoteStartError (e : start_error) : bool :=
  existsb (fun e => match e with Deferred _ => true | _ => false end) (error_chain e).
Definition isOwnedByCodex (e : start_error) : bool :=
  existsb (fun e => match e with OwnedByCodex => true | _ => false end) (error_chain e).

(** errors.As(err, &forkErr) and forkErr.noRemoteTurnStarted *)
Definition asForkFailure (e : start_error) : option bool :=
  first_some (fun e => match e with ForkFailed _ _ unsent => Some unsent | _ => None end) (error_chain e).
Definition isContinuationForkFailure (e : start_error) : bool := bool_decide (is_Some (asForkFailure e)).

(** errors.As(err, &rpcErr) *)
Definition asRPCError (e : start_error) : option (Z * string) :=
  first_some (fun e => match e with RPCFailed code message => Some (code, message) | _ => None end) (error_chain e).

Definition isActiveWriterConflict (e : start_error) (threadID0 : string) : bool :=
  let threadID := trim_space threadID0 in
  negb (String.eqb threadID "")
  && match asRPCError e with
     | Some (code, message) =>
         (code =? -32600)%Z
         && String.eqb (trim_space message) ("thread " +:+ threadID +:+ " already has an active writer")
     | None => false
     end.

Definition preStartContinuationError (e : start_error) (failureKind0 : string) : start_error :=
  if isContinuationForkFailure e then e
  else
    let failureKind := trim_space failureKind0 in
    ForkFailed e (if String.eqb failureKind "" then MinimalContinuationFailureAmbiguous else failureKind) true.

Definition minimalContinuationForkFailureKind (e : start_error) : string :=
  match asRPCError e with
  | Some (code, _) =>
      if existsb (Z.eqb code) [-32700; -32600; -32601; -32602]%Z
      then MinimalContinuationFailureDefinite else MinimalContinuationFailureAmbiguous
  | None => MinimalContinuationFailureAmbiguous
  end.

(** *** App Server and Telegram *)
Record SandboxPolicy : Type := mkSandboxPolicy {
  sp_Type : string;
  sp_WritableRoots : list string;
  sp_NetworkAccess : bool }.

Record TurnStartOptions : Type := mkTurnStartOptions {
  to_CollaborationMode : string;
  to_Model : string;
  to_ReasoningEffort : string;
  to_ApprovalPolicy : string;
  to_SandboxPolicy : SandboxPolicy }.

(** A turn/start request. *)
Record TurnCall : Type := mkTurnCall {
  tc_Session : nat;
  tc_ThreadID : string;
  tc_Prompt : string;
  tc_CWD : string;
  tc_Options : TurnStartOptions }.

(** The answers: each takes the number of the call, so that they may differ from call to
    call, and the session. *)
Record AppServer : Type := mkAppServer {
  ap_Factory : nat -> option SessionStart;
  ap_ThreadStart : nat -> nat -> string -> obj + start_error;
  ap_ThreadResume : nat -> nat -> string -> string -> option start_error;
  ap_ThreadRead : nat -> nat -> string -> obj + start_error;
  ap_ThreadFork : nat -> nat -> string -> string -> string -> obj + start_error;
  ap_ThreadSetName : nat -> nat -> string -> string -> option start_error;
  ap_TurnStart : nat -> TurnCall -> obj + start_error;
  ap_Close : nat -> nat -> option CloseError }.

(** The Router and what it reads of its service; the first four fields are the router's
    own functions, which newMinimalRouter takes from the service. *)
Record Router : Type := mkRouter {
  ro_persistThread : Thread -> Tx Store unit;
  ro_enqueuePending : PendingCommand -> Tx Store unit;
  ro_completePending : Z -> Tx Store unit;
  ro_failPending : Z -> Tx Store unit;
  ro_Platform : Platform;
  ro_Registry : option Registry;
  ro_Protector : option Protector;
  ro_PollInterval : Z;
  ro_Server : AppServer;
  ro_HasSender : bool }.

(** rw_Turns: the turn/start requests, and the id of the turn each started. *)
Record RouterWorld : Type := mkRouterWorld {
  rw_Store : Store;
  rw_Workers : option Manager;                 (* minimalWorkers *)
  rw_Made : nat;
  rw_Closed : list nat;
  rw_Calls : nat;
  rw_Turns : list (TurnCall * option string);
  rw_Sent : list (Z * Z * string) }.

Definition set_rw_Store (v : Store) (w : RouterWorld) : RouterWorld :=
  mkRouterWorld v (rw_Workers w) (rw_Made w) (rw_Closed w) (rw_Calls w) (rw_Turns w) (rw_Sent w).
Definition set_rw_Workers (v : option Manager) (made : nat) (closed : list nat) (w : RouterWorld) : RouterWorld :=
  mkRouterWorld (rw_Store w) v made closed (rw_Calls w) (rw_Turns w) (rw_Sent w).
Definition called (w : RouterWorld) : RouterWorld :=
  mkRouterWorld (rw_Store w) (rw_Workers w) (rw_Made w) (rw_Closed w) (S (rw_Calls w)) (rw_Turns w) (rw_Sent w).
Definition add_turn (v : TurnCall * option string) (w : RouterWorld) : RouterWorld :=
  mkRouterWorld (rw_Store w) (rw_Workers w) (rw_Made w) (rw_Closed w) (rw_Calls w) (rw_Turns w ++ [v]) (rw_Sent w).
Definition add_sent (v : Z * Z * string) (w : RouterWorld) : RouterWorld :=
  mkRouterWorld (rw_Store w) (rw_Workers w) (rw_Made w) (rw_Closed w) (rw_Calls w) (rw_Turns w) (rw_Sent w ++ [v]).

(** *** Transactions *)

(** A transaction of the store: an error undoes it. *)
Definition tx {A : Type} (m : Tx Store A) (w : RouterWorld) : (A + start_error) * RouterWorld :=
  match m (rw_Store w) with
  | Ok (a, s) => (inl a, set_rw_Store s w)
  | Err e => (inr (Plain e), w)
  end.

(** *** continuationStartResult *)
Record continuationStartResult : Type := mkStartResult {
  cs_thread : option Thread;
  cs_turnID : string;
  cs_forked : bool;
  cs_queued : bool;
  cs_linkTitle : string }.

Definition noStart : continuationStartResult := mkStartResult None "" false false "".

(** (continuationStartResult, error) *)
Definition Started : Type := continuationStartResult * option start_error.
Definition failed_start (e : start_error) : Started := (noStart, Some e).

(** *** Threads *)
Definition set_th_CWD (v : string) (t : Thread) : Thread :=
  mkThread (th_ID t) (th_Title t) v (th_ProjectName t) (th_DirectoryName t) (th_UpdatedAt t)
    (th_Status t) (th_LastPreview t) (th_ActiveTurnID t) (th_PreferredModel t)
    (th_PermissionsMode t) (th_Archived t) (th_Raw t).
Definition set_th_ProjectName (v : string) (t : Thread) : Thread :=
  mkThread (th_ID t) (th_Title t) (th_CWD t) v (th_DirectoryName t) (th_UpdatedAt t)
    (th_Status t) (th_LastPreview t) (th_ActiveTurnID t) (th_PreferredModel t)
    (th_PermissionsMode t) (th_Archived t) (th_Raw t).
Definition set_th_UpdatedAt (v : Z) (t : Thread) : Thread :=
  mkThread (th_ID t) (th_Title t) (th_CWD t) (th_ProjectName t) (th_DirectoryName t) v
    (th_Status t) (th_LastPreview t) (th_ActiveTurnID t) (th_PreferredModel t)
    (th_PermissionsMode t) (th_Archived t) (th_Raw t).

Definition threadLooksActiveForInput (thread : Thread) : bool := threadLooksActiveForPolling thread.

Definition appserverThreadTurnID (payload : obj) : string :=
  match get payload "turn" with
  | JObj turn => match get turn "id" with JStr id => id | _ => "" end
  | _ => ""
  end.

Definition normalizeReasoningEffort (value : string) : string :=
  let normalized := trim_space (to_lower value) in
  if String.eqb normalized "" || String.eqb normalized "<nil>" then ""
  else if existsb (String.eqb normalized) ["x-high"; "x_high"; "extra-high"; "extra_high"] then "xhigh"
  else normalized.

Definition codexModelStateKey : string := "codex.model".
Definition codexReasoningStateKey : string := "codex.reasoning_effort".
Definition minimalPCOriginThreadStatePrefix : string := "minimal_pc_origin_thread.".

(** persistThread of the minimal profile *)
Definition persistThread (pf : Platform) (registry : option Registry) (now : instant) (thread0 : Thread) : Tx Store unit :=
  let observed := if threadLooksActiveForPolling thread0
                  then MatchExactCWD pf registry (th_CWD thread0) else None in
  let thread1 := match observed with
                 | Some project => set_th_ProjectName (pj_DisplayName project) (set_th_CWD (pj_CanonicalPath project) thread0)
                 | None => thread0
                 end in
  let thread := mkThread (th_ID thread1) (th_ID thread1) (th_CWD thread1) (th_ProjectName thread1)
                  (th_DirectoryName thread1) (th_UpdatedAt thread1) (th_Status thread1) "" (th_ActiveTurnID thread1)
                  (th_PreferredModel thread1) (th_PermissionsMode thread1) (th_Archived thread1) None in
  tx! _ := UpsertThread thread in
  match observed with
  | Some project => if String.eqb (pj_ID project) "" then tx_ret tt
                    else tx_modify (run_ignored (ObserveMinimalThread now thread (pj_ID project) now))
  | None => tx_ret tt
  end.

Definition newMinimalRouter (pf : Platform) (registry : option Registry) (protector : option Protector)
    (pollInterval : Z) (server : AppServer) (hasSender : bool) (now : instant) : Router :=
  mkRouter (persistThread pf registry now) (EnqueuePendingCommand protector (format_time now))
    CompletePendingCommand FailPendingCommand pf registry protector pollInterval server hasSender.

Section router.
Context (r : Router) (now : instant).

Local Abbreviation clock := (format_time now).
Local Abbreviation server := (ro_Server r).

Definition turnStartOptions (collaborationMode : string) (thread : option Thread) (s : Store)
  : string * string * string :=
  let model := trim_space (GetState codexModelStateKey s) in
  (trim_space collaborationMode,
   match thread with Some t => if String.eqb model "" then trim_space (th_PreferredModel t) else model | None => model end,
   normalizeReasoningEffort (GetState codexReasoningStateKey s)).

Definition started_snapshot (thread : Thread) (turnID : string) : ThreadReadSnapshot :=
  mkThreadReadSnapshot thread turnID "inProgress" "" "" false false [] [] "" "" "" "" "" "" ""
    "" "" "" "" "" "" false "" "" None [].

Definition ensureStartedTurnSnapshot (thread : Thread) (turnID0 : string) (s : Store) : Store :=
  let turnID := trim_space turnID0 in
  if String.eqb turnID "" then s
  else
    let previous := GetSnapshot (th_ID thread) s in
    if match previous with Some p => String.eqb (trim_space (ss_LastSeenTurnID p)) turnID | None => false end then s
    else
      let started0 := set_th_ActiveTurnID turnID (set_th_Status "inProgress" thread) in
      let started1 := if (th_UpdatedAt started0 =? 0)%Z then set_th_UpdatedAt (unix now) started0 else started0 in
      let project := MatchExactCWD (ro_Platform r) (ro_Registry r) (th_CWD started1) in
      let startedThread := match project with
        | Some p => set_th_ProjectName (pj_DisplayName p) (set_th_CWD (pj_CanonicalPath p) started1)
        | None => started1
        end in
      let nextSnapshot := CompactSnapshot now previous
                            (snapshotForPersistence true (started_snapshot startedThread turnID)) now in
      let s1 := run_ignored (persistThread (ro_Platform r) (ro_Registry r) now startedThread) s in
      let s2 := match project with
        | Some p => if String.eqb (pj_ID p) "" then s1
                    else run_ignored (ObserveMinimalThread now startedThread (pj_ID p) now) s1
        | None => s1
        end in
      run_ignored (UpsertSnapshot (th_ID startedThread)
        (upd_next_poll (format_time (now + ro_PollInterval r)%Z) nextSnapshot)) s2.

(** *** Projects *)
Definition canonicalMinimalDirectory (value : string) : string + start_error :=
  let pf := ro_Platform r in
  match pf_Abs pf (pf_Clean pf (trim_space value)) with
  | Err e => inr (Plain e)
  | Ok absolute =>
      match pf_EvalSymlinks pf absolute with
      | Err e => inr (Plain e)
      | Ok canonical =>
          match pf_Stat pf canonical with
          | Err e => inr (Plain e)
          | Ok dir => if dir then inl (pf_Clean pf canonical) else inr (Plain "path is not a directory")
          end
      end
  end.

Definition resolveProject (id : string) : Project + start_error :=
  match Resolve (ro_Platform r) (ro_Registry r) id with inl p => inl p | inr e => inr (ProjectFailed e) end.

Definition projectForThread (thread : Thread) : (Project * string) + start_error :=
  match canonicalMinimalDirectory (th_CWD thread) with
  | inr e => inr (Wrapped "canonicalize routed thread cwd" e)
  | inl canonicalCWD =>
      match MatchCWD (ro_Platform r) (ro_Registry r) canonicalCWD with
      | None => inr (Plain "routed thread cwd is outside the fixed project registry")
      | Some project =>
          match resolveProject (pj_ID project) with
          | inr e => inr e
          | inl project => inl (project, canonicalCWD)
          end
      end
  end.

(** *** Threads that come from the PC *)
Definition markPCOriginThreadFromPayload (threadID0 : string) (payload : obj) (s : Store) : Store :=
  let threadID := trim_space threadID0 in
  if String.eqb threadID "" || negb (payloadLooksPCOriginPayload payload) then s
  else SetState clock (minimalPCOriginThreadStatePrefix +:+ threadID) "1" s.

Definition isPCOriginThread (threadID0 : string) (s : Store) : bool :=
  let threadID := trim_space threadID0 in
  negb (String.eqb threadID "")
  && String.eqb (trim_space (GetState (minimalPCOriginThreadStatePrefix +:+ threadID) s)) "1".

Definition canResumeMinimalThreadFromBackground (threadID0 : string) (s : Store) : bool :=
  let threadID := trim_space threadID0 in
  negb (String.eqb threadID "") && bool_decide (is_Some (ActiveMinimalContinuationByFork threadID s)).

Definition shouldUseContinuationForSource (parent : Thread) (anchor : sourceTurnAnchor) (s : Store) : bool :=
  let sourceThreadID := sourceIDForLinked (Some parent) anchor in
  String.eqb sourceThreadID (trim_space (th_ID parent))
  && negb (String.eqb (trim_space (an_TurnID anchor)) "")
  && isTerminalStatus (an_Status anchor)
  && (an_PCOrigin anchor || isPCOriginThread sourceThreadID s).

(** *** Workers *)
Definition noWorkers : start_error := Plain "minimal link worker manager is unavailable".

Definition acquireWorker (registryKey linkedID : string) (w : RouterWorld) : (nat + start_error) * RouterWorld :=
  match rw_Workers w with
  | None => (inr noWorkers, w)
  | Some m =>
      let '(answer, closed, made, m') := Acquire registryKey linkedID (ap_Factory server (rw_Calls w)) (rw_Made w) m in
      (match answer with inl worker => inl worker | inr e => inr (WorkerFailed e) end,
       called (set_rw_Workers (Some m') made (closed ++ rw_Closed w) w))
  end.

Definition bindWorker (worker : nat) (threadID : string) (w : RouterWorld) : (unit + start_error) * RouterWorld :=
  match rw_Workers w with
  | None => (inr noWorkers, w)
  | Some m =>
      match BindThread worker threadID m with
      | inl m' => (inl tt, set_rw_Workers (Some m') (rw_Made w) (rw_Closed w) w)
      | inr e => (inr (WorkerFailed e), w)
      end
  end.

(** releaseMinimalWorker; its callers drop the error. *)
Definition releaseMinimalWorker (worker : nat) (w : RouterWorld) : RouterWorld :=
  match rw_Workers w with
  | None => w
  | Some m =>
      match worker_at m worker with
      | None => w
      | Some wk =>
          if negb (String.eqb (trim_space (wk_ThreadID wk)) "") then
            let '(_, _, closed, m') := Release (wk_ThreadID wk) (wk_Generation wk)
                                         (ap_Close server (rw_Calls w)) m in
            called (set_rw_Workers (Some m') (rw_Made w) (closed ++ rw_Closed w) w)
          else called (set_rw_Workers (Some (releaseUnbound worker m)) (rw_Made w) (wk_Session wk :: rw_Closed w) w)
      end
  end.

(** defer func() { if releasePreTurn { release } }(): the body says whether to. *)
Definition releasing {A : Type} (worker : nat) (body : RouterWorld -> (A * bool) * RouterWorld) (w : RouterWorld)
  : A * RouterWorld :=
  let '((a, release), w') := body w in (a, if release then releaseMinimalWorker worker w' else w').

Definition worker_field {A : Type} (f : minimalLinkWorker -> A) (dflt : A) (worker : nat) (w : RouterWorld) : A :=
  match rw_Workers w with
  | Some m => from_option f dflt (worker_at m worker)
  | None => dflt
  end.

Definition session_at (worker : nat) (w : RouterWorld) : nat := worker_field wk_Session 0 worker w.
Definition generation_at (worker : nat) (w : RouterWorld) : Z := worker_field wk_Generation 0%Z worker w.

(** A call on a worker's session. *)
Definition on_session {A : Type} (worker : nat) (f : nat -> nat -> A) (w : RouterWorld) : A * RouterWorld :=
  (f (rw_Calls w) (session_at worker w), called w).

Definition resumeThread (worker : nat) (threadID cwd : string) : RouterWorld -> option start_error * RouterWorld :=
  on_session worker (fun call session => ap_ThreadResume server call session threadID cwd).

(** *** startLoadedTurn: the id of the turn, the error, and what the thread is after it *)
Definition TurnResult : Type := string * option start_error * Thread.

Definition turn_call (worker : nat) (project : Project) (cwd prompt : string) (thread : Thread) (w : RouterWorld)
  : TurnCall :=
  let '(mode, model, effort) := turnStartOptions "" (Some thread) (rw_Store w) in
  mkTurnCall (session_at worker w) (th_ID thread) prompt cwd
    (mkTurnStartOptions mode model effort "on-request"
       (mkSandboxPolicy "workspaceWrite" [pj_CanonicalPath project] false)).

Definition started_thread (thread : Thread) (project : Project) (cwd turnID : string) : Thread :=
  mkThread (th_ID thread) (th_Title thread) cwd (pj_DisplayName project) (th_DirectoryName thread) (unix now)
    "inProgress" (th_LastPreview thread) turnID (th_PreferredModel thread) (th_PermissionsMode thread)
    (th_Archived thread) (th_Raw thread).

Definition startLoadedTurn (worker : nat) (inbound : InboundText) (thread : Thread) (project0 : Project)
    (prompt : string) (w : RouterWorld) : TurnResult * RouterWorld :=
  let fails e w := (("", Some e, thread), w) in
  match projectForThread thread with
  | inr e => fails e w
  | inl (currentProject, canonicalCWD) =>
      if negb (String.eqb (pj_ID currentProject) (pj_ID project0))
      then fails (Plain "registered project changed before turn start") w
      else match resolveProject (pj_ID project0) with
      | inr e => fails e w
      | inl project =>
          let call := turn_call worker project canonicalCWD prompt thread w in
          match ap_TurnStart server (rw_Calls w) call with
          | inr e => fails e (called (add_turn (call, None) w))
          | inl payload =>
              let turnID := trim_space (appserverThreadTurnID payload) in
              if String.eqb turnID ""
              then fails (Plain "app server turn/start returned no turn id") (called (add_turn (call, None) w))
              else
                let w1 := called (add_turn (call, Some turnID) w) in
                let thread1 := started_thread thread project canonicalCWD turnID in
                match tx (ro_persistThread r thread1) w1 with
                | (inr e, w2) => ((turnID, Some e, thread1), w2)
                | (inl _, w2) =>
                    let s := markTelegramOriginTurn clock (th_ID thread1) turnID (rw_Store w2) in
                    ((turnID, None, thread1), set_rw_Store (ensureStartedTurnSnapshot thread1 turnID s) w2)
                end
          end
      end
  end.

(** What a start answers, and what it leaves in the caller's thread, which
    startLoadedTurn changes in place. *)
Definition StartedThread : Type := Started * Thread.

(** *** On a worker of the thread *)
Definition is_blank_id (turnID : string) : bool := String.eqb (trim_space turnID) "".

(** The rest of startExistingThreadOnWorker, once there is a worker; [acquired]: by this
    call. *)
Definition startOnWorker (worker : nat) (acquired : bool) (inbound : InboundText) (thread : Thread)
    (project : Project) (prompt : string) (w : RouterWorld) : (StartedThread * bool) * RouterWorld :=
  let pre e := (failed_start (PreTurn e), thread) in
  if negb (String.eqb (trim_space (worker_field wk_ThreadID "" worker w)) (trim_space (th_ID thread)))
  then ((pre (Plain "minimal link worker thread changed"), acquired), w)
  else
    let '(resumed, w1) := if acquired then resumeThread worker (th_ID thread) (pj_CanonicalPath project) w
                          else (None, w) in
    match resumed with
    | Some e => ((pre e, acquired), w1)
    | None =>
        let '((turnID, err, thread1), w2) := startLoadedTurn worker inbound thread project prompt w1 in
        match err with
        | Some e => if is_blank_id turnID then (((failed_start e, thread1), acquired), w2)
                    else ((((mkStartResult (Some thread1) turnID false false "", err), thread1), false), w2)
        | None => ((((mkStartResult (Some thread1) turnID false false "", None), thread1), false), w2)
        end
    end.

Definition startExistingThreadOnWorker (inbound : InboundText) (thread : Thread) (project : Project)
    (prompt : string) (w : RouterWorld) : StartedThread * RouterWorld :=
  let pre e := (failed_start (PreTurn e), thread) in
  match rw_Workers w with
  | None => (pre (Plain "minimal link workers are unavailable"), w)
  | Some m =>
      if is_blank_id (th_ID thread) then (pre (Plain "thread is required"), w)
      else match ByThread (th_ID thread) m with
      | Some worker => releasing worker (startOnWorker worker false inbound thread project prompt) w
      | None =>
          match acquireWorker ("thread:" +:+ th_ID thread) (th_ID thread) w with
          | (inr e, w1) => (pre e, w1)
          | (inl worker, w1) => releasing worker (startOnWorker worker true inbound thread project prompt) w1
          end
      end
  end.

(** *** On the linked conversation of a source *)
Definition nameMinimalLinkedThread (worker : nat) (link : MinimalLinkedThread) (w : RouterWorld) : RouterWorld :=
  let title := trim_space (lt_DesiredTitle link) in
  if String.eqb title "" then w
  else
    let '(err, w1) := on_session worker (fun call session =>
                        ap_ThreadSetName server call session (lt_LinkedThreadID link) title) w in
    match err with
    | None => (tx (MarkMinimalLinkedTitleSet clock (lt_LinkedThreadID link) (generation_at worker w1)) w1).2
    | Some _ => w1
    end.

Definition readMinimalLinkedSourceTitle (worker : nat) (sourceThreadID0 : string) (w : RouterWorld)
  : string * RouterWorld :=
  let sourceThreadID := trim_space sourceThreadID0 in
  if String.eqb sourceThreadID "" then ("", w)
  else
    let '(answer, w1) := on_session worker (fun call session => ap_ThreadRead server call session sourceThreadID) w in
    match answer with
    | inr _ => ("", w1)
    | inl payload =>
        let thread := Some (ThreadFromPayload payload) in
        (if hasMeaningfulMinimalThreadTitle thread then safeContinuationSourceTitle thread else "", w1)
    end.

Definition hydrateMinimalLinkedTitle (worker : nat) (link : MinimalLinkedThread) (parent : option Thread)
    (w : RouterWorld) : (MinimalLinkedThread * bool) * RouterWorld :=
  let blank t := String.eqb (trim_space t) "" in
  if negb (blank (lt_SourceTitle link)) && negb (blank (lt_DesiredTitle link)) then ((link, true), w)
  else
    let sourceTitle0 := trim_space (lt_SourceTitle link) in
    let ofParent := match parent with
      | Some p => if String.eqb (trim_space (th_ID p)) (trim_space (lt_SourceThreadID link))
                     && hasMeaningfulMinimalThreadTitle parent
                  then safeContinuationSourceTitle parent else ""
      | None => ""
      end in
    let sourceTitle1 := if String.eqb sourceTitle0 "" then ofParent else sourceTitle0 in
    let '(sourceTitle, w1) := if String.eqb sourceTitle1 ""
                              then readMinimalLinkedSourceTitle worker (lt_SourceThreadID link) w
                              else (sourceTitle1, w) in
    if String.eqb sourceTitle "" then ((link, false), w1)
    else
      let desired0 := trim_space (lt_DesiredTitle link) in
      let desiredTitle := if String.eqb desired0 "" then sourceTitle +:+ minimalLinkedTitleSuffix else desired0 in
      match tx (HydrateMinimalLinkedTitles (ro_Protector r) clock (lt_LinkedThreadID link) sourceTitle desiredTitle) w1 with
      | (inr _, w2) => ((link, false), w2)
      | (inl _, w2) =>
          match GetMinimalLinkedThreadByLinkedID (ro_Protector r) (lt_LinkedThreadID link) (rw_Store w2) with
          | Ok (Some updated) =>
              ((updated, negb (blank (lt_SourceTitle updated)) && negb (blank (lt_DesiredTitle updated))), w2)
          | _ => ((link, false), w2)
          end
      end.

Definition tx_of (f : Store -> res Store) : Tx Store unit :=
  fun s => match f s with Ok s' => Ok (tt, s') | Err e => Err e end.

(** The command that waits for the thread: its fields in the order of model.PendingCommand. *)
Definition waiting_command (threadID sourceThreadID sourceTurnID projectID : string) (inbound : InboundText)
    (prompt : string) : PendingCommand :=
  mkPendingCommand 0 threadID sourceThreadID sourceTurnID projectID (in_ChatID inbound) (in_TopicID inbound)
    prompt "" "".

(** The end of the three functions that start a turn on a linked thread: the turn, its
    failure or its marker, and whether the worker is to be released. *)
Definition startLinkedChild (worker : nat) (inbound : InboundText) (linkedID : string) (child : Thread)
    (project : Project) (prompt : string) (forked : bool) (linkTitle : string) (w : RouterWorld)
  : (Started * bool) * RouterWorld :=
  let generation := generation_at worker w in
  let '((turnID, err, child1), w1) := startLoadedTurn worker inbound child project prompt w in
  let started err := (mkStartResult (Some child1) turnID forked false linkTitle, err) in
  if is_blank_id turnID then
    match err with
    | Some e => ((failed_start e, true),
                 (tx (tx_of (FailMinimalLinkedThread clock linkedID generation MinimalContinuationFailureAmbiguous)) w1).2)
    | None => ((started None, true), w1)
    end
  else
    match tx (MarkMinimalLinkedTurnStarted clock linkedID generation turnID) w1 with
    | (inr markErr, w2) => ((started (Some markErr), false), w2)
    | (inl changed, w2) =>
        ((started (if changed then err else Some (Plain "minimal linked turn start marker was not updated")), false), w2)
    end.

(** The rest of startCanonicalLinkedTurn, once it has its worker. *)
Definition startOnLinkWorker (worker : nat) (inbound : InboundText) (link : MinimalLinkedThread)
    (child parent : Thread) (project : Project) (prompt : string) (w : RouterWorld) : (Started * bool) * RouterWorld :=
  let linkedID := lt_LinkedThreadID link in
  let '(resumed, w1) := resumeThread worker linkedID (pj_CanonicalPath project) w in
  match resumed with
  | Some e =>
      if isActiveWriterConflict e linkedID then
        (((mkStartResult (Some child) "" false false (lt_DesiredTitle link), Some OwnedByCodex), true),
         (tx (tx_of (RecordMinimalLinkedBlocked now linkedID "active_writer" now)) w1).2)
      else ((failed_start (PreTurn e), true), w1)
  | None =>
      match tx (ClaimMinimalLinkedWorker clock linkedID (generation_at worker w1)) w1 with
      | (inr e, w2) => ((failed_start (PreTurn e), true), w2)
      | (inl false, w2) => ((failed_start (PreTurn (Plain "minimal linked thread worker claim failed")), true), w2)
      | (inl true, w2) =>
          let titled := String.eqb (trim_space (lt_TitleState link)) ""
                        || String.eqb (trim_space (lt_TitleState link)) MinimalLinkedTitlePending in
          let '(currentLink, w3) :=
            if titled then
              let '((current, ready), w3) := hydrateMinimalLinkedTitle worker link (Some parent) w2 in
              (current, if ready then nameMinimalLinkedThread worker current w3 else w3)
            else (link, w2) in
          startLinkedChild worker inbound linkedID child project prompt false (lt_DesiredTitle currentLink) w3
      end
  end.

Definition startCanonicalLinkedTurn (inbound : InboundText) (link : MinimalLinkedThread) (parent : Thread)
    (project : Project) (anchor : sourceTurnAnchor) (prompt : string) (w : RouterWorld) : Started * RouterWorld :=
  let linkedID := lt_LinkedThreadID link in
  if String.eqb (trim_space linkedID) "" then (failed_start (Plain "minimal linked thread is unavailable"), w)
  else if negb (String.eqb (trim_space (lt_ProjectID link)) "")
          && negb (String.eqb (trim_space (lt_ProjectID link)) (pj_ID project)) then
    (failed_start (Plain "minimal linked project changed"), w)
  else
    let child0 := default (set_th_ID linkedID (set_th_CWD (pj_CanonicalPath project)
                    (set_th_ProjectName (pj_DisplayName project) zeroThread))) (GetThread linkedID (rw_Store w)) in
    match projectForThread child0 with
    | inr e => (failed_start e, w)
    | inl (childProject, canonicalCWD) =>
        if negb (String.eqb (pj_ID childProject) (pj_ID project)) then
          (failed_start (Plain "minimal linked project changed"), w)
        else
          let child := set_th_CWD canonicalCWD child0 in
          let state := trim_space (lt_State link) in
          if String.eqb state MinimalLinkedTelegramRunning then
            match tx (ro_enqueuePending r (waiting_command linkedID (sourceIDForLinked (Some parent) anchor)
                        (an_TurnID anchor) (pj_ID project) inbound prompt)) w with
            | (inr e, w1) => (failed_start e, w1)
            | (inl _, w1) =>
                let child1 := if String.eqb (trim_space (th_ActiveTurnID child)) ""
                              then set_th_ActiveTurnID (trim_space (lt_ActiveTurnID link)) child else child in
                ((mkStartResult (Some child1) (th_ActiveTurnID child1) false true (lt_DesiredTitle link), None), w1)
            end
          else if negb (String.eqb state "") && negb (String.eqb state MinimalLinkedReady) then
            (failed_start (preStartContinuationError (Plain "minimal linked thread is not ready")
                             MinimalContinuationFailureAmbiguous), w)
          else
            match acquireWorker ("link:" +:+ linkedID) linkedID w with
            | (inr e, w1) => (failed_start (PreTurn e), w1)
            | (inl worker, w1) => releasing worker (startOnLinkWorker worker inbound link child parent project prompt) w1
            end
    end.

(** *** Continuations *)
Definition failContinuation (continuation : MinimalContinuation) (failureKind : string) : RouterWorld -> RouterWorld :=
  fun w => (tx (FailMinimalContinuation clock continuation failureKind) w).2.

(** preStartErr and its siblings: the failure is ambiguous. *)
Definition pre_start (e : start_error) : start_error :=
  preStartContinuationError e MinimalContinuationFailureAmbiguous.

Definition loadContinuationChild (continuation : MinimalContinuation) (project : Project) (s : Store)
  : Thread + start_error :=
  let status := mc_Status continuation in
  if String.eqb status MinimalContinuationFailed then
    inr (if String.eqb (mc_FailureKind continuation) MinimalContinuationFailureAmbiguous
         then ForkFailed (Plain "minimal continuation is ambiguous; run /repair before retrying")
                MinimalContinuationFailureAmbiguous true
         else ForkFailed (Plain "minimal continuation creation failed") MinimalContinuationFailureDefinite true)
  else if String.eqb status MinimalContinuationCreating then
    inr (ForkFailed (Plain "minimal continuation creation is already in progress")
           MinimalContinuationFailureAmbiguous true)
  else
    let childID := trim_space (mc_ForkThreadID continuation) in
    if negb (String.eqb status MinimalContinuationActive) || String.eqb childID "" then
      inr (pre_start (Plain "minimal continuation row is incomplete"))
    else match GetThread childID s with
    | None => inr (pre_start (Plain "minimal continuation child is unavailable"))
    | Some child =>
        if String.eqb (trim_space (th_ID child)) "" then inr (pre_start (Plain "minimal continuation child is unavailable"))
        else match projectForThread child with
        | inr e => inr (pre_start e)
        | inl (childProject, _) =>
            if negb (String.eqb (pj_ID childProject) (pj_ID project))
               || negb (String.eqb (mc_ProjectID continuation) (pj_ID project))
            then inr (pre_start (Plain "minimal continuation project changed"))
            else inl child
        end
    end.

Definition sanitizeForkedContinuationChild (payload : obj) (parentID : string) (project : Project)
  : Thread + start_error :=
  let forked := ThreadFromPayload payload in
  let id := trim_space (th_ID forked) in
  if String.eqb id "" then inr (Plain "app server thread/fork returned no child thread id")
  else if String.eqb id (trim_space parentID) then inr (Plain "app server thread/fork returned the parent thread id")
  else
    let child := mkThread id id (pj_CanonicalPath project) (pj_DisplayName project) ""
                   (if (th_UpdatedAt forked =? 0)%Z then unix now else th_UpdatedAt forked) (th_Status forked) ""
                   (th_ActiveTurnID forked) (th_PreferredModel forked) (th_PermissionsMode forked)
                   (th_Archived forked) None in
    if String.eqb (trim_space (th_CWD forked)) "" then inl child
    else match canonicalMinimalDirectory (th_CWD forked) with
    | inr e => inr (Wrapped "canonicalize forked child cwd" e)
    | inl canonical =>
        if String.eqb canonical (pj_CanonicalPath project) then inl child
        else inr (Plain "forked child cwd is outside the exact project root")
    end.

Definition minimalLinkedThreadForStart (inbound : InboundText) (parent : Thread) (project : Project)
    (anchor : sourceTurnAnchor) (linkedID : string) (generation : Z) : MinimalLinkedThread :=
  let sourceTitle0 := safeContinuationSourceTitle (Some parent) in
  let sourceTitle := if String.eqb sourceTitle0 "" then "Telegram reply" else sourceTitle0 in
  mkLinkedThread (ChatKey (in_ChatID inbound) (in_TopicID inbound)) (in_ChatID inbound) (in_TopicID inbound)
    (pj_ID project) (sourceIDForLinked (Some parent) anchor) (trim_space linkedID) (trim_space (an_TurnID anchor))
    sourceTitle (sourceTitle +:+ minimalLinkedTitleSuffix) MinimalLinkedTitlePending MinimalLinkedTelegramRunning
    "" generation "" "" "" "" "" "".

(** The rest of activateLegacyContinuationOnWorker, once it has its worker. *)
Definition activateOnWorker (worker : nat) (inbound : InboundText) (continuation : MinimalContinuation)
    (child parent : Thread) (project : Project) (anchor : sourceTurnAnchor) (prompt : string) (w : RouterWorld)
  : (Started * bool) * RouterWorld :=
  let '(resumed, w1) := resumeThread worker (th_ID child) (pj_CanonicalPath project) w in
  match resumed with
  | Some e => ((failed_start e, true), w1)
  | None =>
      let link := minimalLinkedThreadForStart inbound parent project anchor (th_ID child) (generation_at worker w1) in
      match tx (ActivateMinimalLinkedThread (ro_Protector r) clock link continuation child) w1 with
      | (inr e, w2) => ((failed_start (pre_start e), true), w2)
      | (inl _, w2) =>
          startLinkedChild worker inbound (th_ID child) child project prompt false (lt_DesiredTitle link)
            (nameMinimalLinkedThread worker link w2)
      end
  end.

Definition activateLegacyContinuationOnWorker (inbound : InboundText) (continuation : MinimalContinuation)
    (child parent : Thread) (project : Project) (anchor : sourceTurnAnchor) (prompt : string) (w : RouterWorld)
  : Started * RouterWorld :=
  if threadLooksActiveForInput child then
    match tx (RehomePendingCommandsForSource (in_ChatID inbound) (in_TopicID inbound)
                (sourceIDForLinked (Some parent) anchor) (an_TurnID anchor) (th_ID child)) w with
    | (inr e, w1) => (failed_start (pre_start e), w1)
    | (inl _, w1) =>
        match tx (ro_enqueuePending r (waiting_command (th_ID child) (sourceIDForLinked (Some parent) anchor)
                    (an_TurnID anchor) (pj_ID project) inbound prompt)) w1 with
        | (inr e, w2) => (failed_start (pre_start e), w2)
        | (inl _, w2) => ((mkStartResult (Some child) (th_ActiveTurnID child) false true "", None), w2)
        end
    end
  else
    match acquireWorker ("link:" +:+ th_ID child) (th_ID child) w with
    | (inr e, w1) => (failed_start e, w1)
    | (inl worker, w1) =>
        releasing worker (activateOnWorker worker inbound continuation child parent project anchor prompt) w1
    end.

Definition fork_failed (e : start_error) : Started :=
  failed_start (ForkFailed e MinimalContinuationFailureAmbiguous true).

(** createCanonicalLinkedTurn once its worker is acquired. *)
Definition forkOnWorker (worker : nat) (inbound : InboundText) (continuation : MinimalContinuation)
    (parent : Thread) (project : Project) (anchor : sourceTurnAnchor) (prompt : string) (w : RouterWorld)
  : (Started * bool) * RouterWorld :=
  let ambiguous := failContinuation continuation MinimalContinuationFailureAmbiguous in
  let sourceThreadID := sourceIDForLinked (Some parent) anchor in
  let '(forked, w1) := on_session worker (fun call session =>
    ap_ThreadFork server call session sourceThreadID (pj_CanonicalPath project) (an_TurnID anchor)) w in
  match forked with
  | inr forkErr =>
      let kind := minimalContinuationForkFailureKind forkErr in
      ((failed_start (ForkFailed forkErr kind true), true), failContinuation continuation kind w1)
  | inl payload =>
      match sanitizeForkedContinuationChild payload sourceThreadID project with
      | inr e => ((failed_start (pre_start e), true), ambiguous w1)
      | inl child =>
          match bindWorker worker (th_ID child) w1 with
          | (inr e, w2) => ((fork_failed e, true), ambiguous w2)
          | (inl _, w2) =>
              let link := minimalLinkedThreadForStart inbound parent project anchor (th_ID child)
                            (generation_at worker w2) in
              match tx (ActivateMinimalLinkedThread (ro_Protector r) clock link continuation child) w2 with
              | (inr e, w3) => ((fork_failed e, true), ambiguous w3)
              | (inl _, w3) =>
                  startLinkedChild worker inbound (th_ID child) child project prompt true (lt_DesiredTitle link)
                    (nameMinimalLinkedThread worker link w3)
              end
          end
      end
  end.

Definition createCanonicalLinkedTurn (inbound : InboundText) (parent : Thread) (project : Project)
    (anchor : sourceTurnAnchor) (prompt : string) (w : RouterWorld) : Started * RouterWorld :=
  let pre e := failed_start (pre_start e) in
  let sourceThreadID := sourceIDForLinked (Some parent) anchor in
  if String.eqb sourceThreadID "" || is_blank_id (an_TurnID anchor) then
    (pre (Plain "minimal linked source anchor is required"), w)
  else
    let key := mkContinuationKey (in_ChatID inbound) (in_TopicID inbound) sourceThreadID (an_TurnID anchor) in
    match tx (ClaimMinimalContinuation clock (mkContinuation key (pj_ID project) "" "" "" "" "")) w with
    | (inr e, w1) => (pre e, w1)
    | (inl (None, _), w1) => (pre (Plain "minimal continuation is unavailable"), w1)
    | (inl (Some continuation, false), w1) =>
        match loadContinuationChild continuation project (rw_Store w1) with
        | inr e => (pre e, w1)
        | inl child => activateLegacyContinuationOnWorker inbound continuation child parent project anchor prompt w1
        end
    | (inl (Some continuation, true), w1) =>
        match acquireWorker ("link:" +:+ ChatKey (in_ChatID inbound) (in_TopicID inbound) +:+ ":" +:+ sourceThreadID)
                "" w1 with
        | (inr e, w2) => (pre e, failContinuation continuation MinimalContinuationFailureAmbiguous w2)
        | (inl worker, w2) =>
            releasing worker (forkOnWorker worker inbound continuation parent project anchor prompt) w2
        end
    end.

Definition startLinkedTurn (inbound : InboundText) (parent : Thread) (project : Project)
    (anchor : sourceTurnAnchor) (prompt : string) (w : RouterWorld) : Started * RouterWorld :=
  if String.eqb (trim_space (th_ID parent)) "" then (failed_start (Plain "source thread is required"), w)
  else
    match GetMinimalLinkedThread (ro_Protector r) (in_ChatID inbound) (in_TopicID inbound)
            (sourceIDForLinked (Some parent) anchor) (rw_Store w) with
    | Err e => (failed_start (Plain e), w)
    | Ok (Some link) =>
        if String.eqb (trim_space (lt_LinkedThreadID link)) ""
        then createCanonicalLinkedTurn inbound parent project anchor prompt w
        else startCanonicalLinkedTurn inbound link parent project anchor prompt w
    | Ok None => createCanonicalLinkedTurn inbound parent project anchor prompt w
    end.

(** *** On a thread, or on the conversation linked to it *)
Definition owned (thread : Thread) (linkTitle : string) : Started :=
  (mkStartResult (Some thread) "" false false linkTitle, Some OwnedByCodex).

Definition startResumedOrLinkedTurnWithPolicy (inbound : InboundText) (parent : Thread) (project : Project)
    (anchor : sourceTurnAnchor) (prompt : string) (allowSourceLink : bool) (w : RouterWorld)
  : StartedThread * RouterWorld :=
  let linked parent w := let '(answer, w') := startLinkedTurn inbound parent project anchor prompt w in
                         ((answer, parent), w') in
  if allowSourceLink && shouldUseContinuationForSource parent anchor (rw_Store w) then linked parent w
  else
    match startExistingThreadOnWorker inbound parent project prompt w with
    | (((result, None), parent1), w1) => (((result, None), parent1), w1)
    | (((_, Some e), parent1), w1) =>
        if negb (isActiveWriterConflict e (th_ID parent1)) then ((failed_start e, parent1), w1)
        else match GetMinimalLinkedThreadByLinkedID (ro_Protector r) (th_ID parent1) (rw_Store w1) with
        | Err e => ((failed_start (Plain e), parent1), w1)
        | Ok (Some link) =>
            ((owned parent1 (lt_DesiredTitle link), parent1),
             (tx (tx_of (RecordMinimalLinkedBlocked now (lt_LinkedThreadID link) "active_writer" now)) w1).2)
        | Ok None =>
            if negb allowSourceLink
            then ((owned parent1 (safeContinuationSourceTitle (Some parent1)), parent1), w1)
            else linked parent1 w1
        end
    end.

Definition startResumedOrLinkedTurn (inbound : InboundText) (parent : Thread) (project : Project)
    (anchor : sourceTurnAnchor) (prompt : string) : RouterWorld -> StartedThread * RouterWorld :=
  startResumedOrLinkedTurnWithPolicy inbound parent project anchor prompt true.

(** *** On a new thread *)
(** The rest of startNewProjectOnWorker, once it has its worker. *)
Definition startNewOnWorker (worker : nat) (inbound : InboundText) (project0 : Project) (prompt : string)
    (w : RouterWorld) : (Started * bool) * RouterWorld :=
  let '(answer, w1) := on_session worker (fun call session =>
                         ap_ThreadStart server call session (pj_CanonicalPath project0)) w in
  match answer with
  | inr e => ((failed_start e, true), w1)
  | inl payload =>
      let thread0 := ThreadFromPayload payload in
      if String.eqb (trim_space (th_ID thread0)) "" then
        ((failed_start (Plain "app server thread/start returned no thread id"), true), w1)
      else match resolveProject (pj_ID project0) with
      | inr e => ((failed_start e, true), w1)
      | inl project =>
          let thread := mkThread (th_ID thread0)
            (if String.eqb (trim_space (th_Title thread0)) "" then "New thread" else th_Title thread0)
            (pj_CanonicalPath project) (pj_DisplayName project) (th_DirectoryName thread0)
            (if (th_UpdatedAt thread0 =? 0)%Z then unix now else th_UpdatedAt thread0) (th_Status thread0)
            (th_LastPreview thread0) (th_ActiveTurnID thread0) (th_PreferredModel thread0)
            (th_PermissionsMode thread0) (th_Archived thread0) (th_Raw thread0) in
          match bindWorker worker (th_ID thread) w1 with
          | (inr e, w2) => ((failed_start e, true), w2)
          | (inl _, w2) =>
              match tx (ro_persistThread r thread) w2 with
              | (inr e, w3) => ((failed_start e, true), w3)
              | (inl _, w3) =>
                  match tx (SetBinding clock (in_ChatID inbound) (in_TopicID inbound) (th_ID thread)
                              BindingModeBound) w3 with
                  | (inr e, w4) => ((failed_start e, true), w4)
                  | (inl _, w4) =>
                      let '((turnID, err, thread1), w5) := startLoadedTurn worker inbound thread project prompt w4 in
                      match err with
                      | Some e => if is_blank_id turnID then ((failed_start e, true), w5)
                                  else (((mkStartResult (Some thread1) turnID false false "", err), false), w5)
                      | None => (((mkStartResult (Some thread1) turnID false false "", None), false), w5)
                      end
                  end
              end
          end
      end
  end.

Definition startNewProjectOnWorker (inbound : InboundText) (project : Project) (prompt : string) (w : RouterWorld)
  : Started * RouterWorld :=
  if bool_decide (rw_Workers w = None) then (failed_start (Plain "minimal link workers are unavailable"), w)
  else
    match acquireWorker ("new:" +:+ ChatKey (in_ChatID inbound) (in_TopicID inbound)) "" w with
    | (inr e, w1) => (failed_start e, w1)
    | (inl worker, w1) => releasing worker (startNewOnWorker worker inbound project prompt) w1
    end.
End router.
