(* ===== verification/Router.v ===== *)
(** * internal/daemon/minimal_router.go: the commands that wait

    A text for a busy thread waits as a pending command.  When the thread is free again
    the router claims its oldest command and starts it; what becomes of the claim is
    decided by how the start ended: completed with its turn, released to wait again
    when nothing was started and it may be tried again, failed otherwise, and then the
    next command has its turn. *)
From stdpp Require Import base list numbers strings gmap.
From Stdlib Require Import Lia Ascii.
From S2P Require Import Prelude GoStrings GoTime Sql Json Model Normalize MinimalTables Store Threads TerminalGate NotifierIngress.
From S2P Require Import LinkedThread PendingCommands Continuations Projects LinkWorkers Routing Starts.

Definition inboundFromPendingCommand (command : PendingCommand) : InboundText :=
  mkInboundText (cmd_ChatID command) (cmd_TopicID command) 0 0 0 "" 0%Z.

(** errors.New with a nil error has this text. *)
Definition queuedNoRemoteStartError (e : start_error) : start_error := Deferred e.

Definition queuedText : string := "현재 작업 뒤에 실행하도록 대기열에 추가했습니다.".
Definition failedStartText : string := "대기 중인 작업을 시작하지 못했습니다.".
Definition minimalContinuationQueueNotice : string :=
  "현재 PC Codex가 분석 중입니다. 이 작업이 끝나면 같은 문맥을 이어받아 실행합니다.".
Definition minimalContinuationForkNotice : string :=
  "PC Codex가 원본 대화를 사용 중이어서, 답변 시점의 문맥을 이어받은 새 대화에서 작업을 시작했습니다.".
Definition minimalContinuationForkFailureNotice : string :=
  "PC 대화를 직접 이어갈 수 없었고, 문맥을 이어받는 새 대화 생성도 실패했습니다. 다시 시도하거나 /status를 확인해주세요.".

Definition continuationForkResponseText (parentID childID : string) : string :=
  minimalContinuationForkNotice +:+ String "010" (String "010" "원본: ") +:+ shortLogID parentID
    +:+ " · 이어받은 대화: " +:+ shortLogID childID.

Definition minimalLinkedOwnedByCodexResponseText (title0 : string) : string :=
  let title := trim_space title0 in
  "Codex에서 “" +:+ (if String.eqb title "" then "텔레그램 연동" else title)
    +:+ "” 작업을 닫은 후 다시 시도해주세요. 계속 잠겨 있으면 Codex 앱을 종료한 뒤 다시 시도해주세요.".

(** &DirectResponse{Text, ThreadID, TurnID} *)
Definition routed (text threadID turnID : string) : DirectResponse :=
  mkDirectResponse text "" [] threadID turnID "" "" 0.

Definition result_threadID (result : continuationStartResult) : string :=
  from_option th_ID "" (cs_thread result).

Definition minimalContinuationStartResponse (started : Started) (fallbackThreadID fallbackTurnID : string)
  : DirectResponse + start_error :=
  let '(result, err) := started in
  match err with
  | Some e =>
      if isOwnedByCodex e then
        inl (routed (minimalLinkedOwnedByCodexResponseText (cs_linkTitle result)) (result_threadID result) (cs_turnID result))
      else if isContinuationForkFailure e then
        inl (routed minimalContinuationForkFailureNotice fallbackThreadID fallbackTurnID)
      else inr e
  | None =>
      if cs_queued result then inl (routed queuedText (result_threadID result) (cs_turnID result))
      else
        inl (routed (if cs_forked result then continuationForkResponseText fallbackThreadID (result_threadID result)
                     else "작업을 시작했습니다.") (result_threadID result) (cs_turnID result))
  end.

Section router.
Context (r : Router) (now : instant).

Local Abbreviation clock := (format_time now).

(** *** The fate of a claim *)
Definition failClaimedCommand (commandID : Z) (w : RouterWorld) : option start_error * RouterWorld :=
  match tx (ro_failPending r commandID) w with
  | (inl _, w') => (None, w')
  | (inr e, w') => (Some (Wrapped "finalize failed pending command" e), w')
  end.

Definition releaseClaimedCommand (commandID : Z) (w : RouterWorld) : option start_error * RouterWorld :=
  match tx (ReleaseClaimedPendingCommand commandID) w with
  | (inl _, w') => (None, w')
  | (inr e, w') => (Some (Wrapped "release pending command for retry" e), w')
  end.

Definition completeClaimedCommand (commandID : Z) (w : RouterWorld) : option start_error * RouterWorld :=
  match tx (ro_completePending r commandID) w with
  | (inl _, w') => (None, w')
  | (inr e, w') => (Some e, w')
  end.

Definition notifyFailedStart (command : PendingCommand) (w : RouterWorld) : RouterWorld :=
  if negb (ro_HasSender r) then w
  else
    let '(target, configured) := GetGlobalObserverTarget clock (rw_Store w) in
    let '(chatID, topicID) :=
      match target with
      | Some t => if configured && ot_Enabled t then (ot_ChatID t, ot_TopicID t)
                  else (cmd_ChatID command, cmd_TopicID command)
      | None => (cmd_ChatID command, cmd_TopicID command)
      end in
    if (chatID =? 0)%Z then w else add_sent (chatID, topicID, failedStartText) w.

(** *** Starting a claimed command: the turn id, the error, and the caller's thread *)
Definition QueuedStart : Type := string * option start_error * Thread.

(** if result.thread != nil { *thread = *result.thread } *)
Definition after_start (thread : Thread) (result : continuationStartResult) : Thread :=
  default thread (cs_thread result).

(** The turn id and the error, with what becomes of an error of a worker that never
    started a turn. *)
Definition queued_answer (wrap : start_error -> start_error) (started : Started) (thread : Thread) : QueuedStart :=
  let '(result, err) := started in
  (cs_turnID result,
   match err with
   | Some e => Some (if is_blank_id (cs_turnID result) && isPreTurnWorkerError e then wrap e else e)
   | None => None
   end,
   after_start thread result).

(** The link that the command of a handoff goes through. *)
Definition command_link (link : option MinimalLinkedThread) (project : Project) (command : PendingCommand)
  : option MinimalLinkedThread :=
  match link with
  | Some l =>
      if (lt_ChatID l =? cmd_ChatID command)%Z && (lt_TopicID l =? cmd_TopicID command)%Z
         && String.eqb (trim_space (lt_ProjectID l)) (pj_ID project)
         && String.eqb (trim_space (lt_SourceThreadID l)) (trim_space (cmd_SourceThreadID command))
      then Some l else None
  | None => None
  end.

Definition startOnThread (inbound : InboundText) (thread : Thread) (project : Project) (command : PendingCommand)
    (w : RouterWorld) : QueuedStart * RouterWorld :=
  let started :=
    if String.eqb (trim_space (cmd_SourceThreadID command)) (th_ID thread)
       && negb (String.eqb (trim_space (cmd_SourceTurnID command)) "")
    then startResumedOrLinkedTurn r now inbound thread project
           (mkAnchor (cmd_SourceThreadID command) (cmd_SourceTurnID command) "completed" false) (cmd_Prompt command) w
    else startExistingThreadOnWorker r now inbound thread project (cmd_Prompt command) w in
  let '((answer, thread1), w') := started in
  (queued_answer (fun e => preStartContinuationError e MinimalContinuationFailureAmbiguous) answer thread1, w').

Definition startQueuedCommand (inbound : InboundText) (thread : Thread) (project : Project)
    (command : PendingCommand) (w : RouterWorld) : QueuedStart * RouterWorld :=
  if negb (String.eqb (trim_space (cmd_SourceThreadID command)) "")
     && negb (String.eqb (trim_space (cmd_SourceTurnID command)) "")
     && negb (String.eqb (trim_space (cmd_SourceThreadID command)) (trim_space (th_ID thread))) then
    match GetMinimalLinkedThreadByLinkedID (ro_Protector r) (th_ID thread) (rw_Store w) with
    | Err e => (("", Some (Plain e), thread), w)
    | Ok link =>
        match command_link link project command with
        | None => startOnThread inbound thread project command w
        | Some link =>
            let state := trim_space (lt_State link) in
            if String.eqb state MinimalLinkedTelegramRunning || String.eqb state MinimalLinkedReleasePending then
              (("", Some (queuedNoRemoteStartError (Plain "minimal linked thread is not ready")), thread), w)
            else if negb (String.eqb state "" || String.eqb state MinimalLinkedReady) then
              (("", Some (Plain "minimal linked thread is not ready"), thread), w)
            else
              let sourceID := trim_space (lt_SourceThreadID link) in
              let source := mkThread sourceID (lt_SourceTitle link) (pj_CanonicalPath project)
                              (pj_DisplayName project) "" 0 "" "" "" "" "" false None in
              let anchor := mkAnchor sourceID (trim_space (cmd_SourceTurnID command)) "completed" true in
              let '(answer, w') := startCanonicalLinkedTurn r now inbound link source project anchor
                                     (cmd_Prompt command) w in
              (queued_answer queuedNoRemoteStartError answer thread, w')
        end
    end
  else startOnThread inbound thread project command w.

(** What the drain does once a claimed command's start ended. *)
Inductive fate : Type :=
| Completes
| Releases
| Fails
| Stops (e : start_error).      (* the turn runs, but its thread was not stored *)

Definition fate_of (turnID : string) (startErr : option start_error) : fate :=
  match startErr with
  | None => if is_blank_id turnID then Fails else Completes
  | Some e =>
      if negb (is_blank_id turnID) then Stops (Wrapped "persist remotely started turn" e)
      else if isQueuedNoRemoteStartError e then Releases
      else if isOwnedByCodex e then Releases
      else match asForkFailure e with
           | Some true => Releases
           | _ => Fails
           end
  end.

(** One turn of the loop of drainNextLocked: the answer of the drain, or the thread the next
    turn goes on with. *)
Definition failAndNotify (command : PendingCommand) (thread : Thread) (w : RouterWorld)
  : (Thread + option start_error) * RouterWorld :=
  let '(finalizeErr, w1) := failClaimedCommand (cmd_ID command) w in
  let w2 := notifyFailedStart command w1 in
  (match finalizeErr with Some e => inr (Some e) | None => inl thread end, w2).

Definition claimedProject (thread : Thread) (command : PendingCommand) : (Project * string) + start_error :=
  match projectForThread r thread with
  | inr e => inr e
  | inl (project, canonicalCWD) =>
      if String.eqb (pj_ID project) (cmd_ProjectID command) then inl (project, canonicalCWD)
      else inr (Plain "queued project no longer matches routed thread")
  end.

Definition drainCommand (command : PendingCommand) (thread : Thread) (w : RouterWorld)
  : (Thread + option start_error) * RouterWorld :=
  match claimedProject thread command with
  | inr _ => failAndNotify command thread w
  | inl (project, canonicalCWD) =>
      let '((turnID, startErr, thread2), w2) :=
        startQueuedCommand (inboundFromPendingCommand command) (set_th_CWD canonicalCWD thread) project command w in
      match fate_of turnID startErr with
      | Stops e => (inr (Some e), w2)
      | Releases => let '(err, w3) := releaseClaimedCommand (cmd_ID command) w2 in (inr err, w3)
      | Completes => let '(err, w3) := completeClaimedCommand (cmd_ID command) w2 in (inr err, w3)
      | Fails => failAndNotify command thread2 w2
      end
  end.

Definition drainTurn (threadID : string) (thread : Thread) (w : RouterWorld)
  : (Thread + option start_error) * RouterWorld :=
  match tx (ClaimPendingCommand (ro_Protector r) threadID) w with
  | (inr e, w1) => (inr (Some e), w1)
  | (inl (None, claimErr), w1) => (inr (Plain <$> claimErr), w1)
  | (inl (Some command, Some _), w1) => failAndNotify command thread w1
  | (inl (Some command, None), w1) => drainCommand command thread w1
  end.

(** The loop; None is out of fuel. *)
Fixpoint drainLoop (fuel : nat) (threadID : string) (thread : Thread) (w : RouterWorld)
  : option (option start_error * RouterWorld) :=
  match fuel with
  | O => None
  | S fuel =>
      match drainTurn threadID thread w with
      | (inr answer, w') => Some (answer, w')
      | (inl thread', w') => drainLoop fuel threadID thread' w'
      end
  end.

(** The commands that wait for the thread. *)
Definition lane_length (threadID : string) (s : Store) : nat :=
  length (filter (fun row => (pc_is PendingCommandStatusPending row && String.eqb (pc_ThreadID row) threadID) = true)
    (mt_pending (db_minimal s))).

Definition drainNextLocked (threadID : string) (w : RouterWorld) : option (option start_error * RouterWorld) :=
  match GetThread threadID (rw_Store w) with
  | None => Some (None, w)
  | Some thread =>
      if threadLooksActiveForInput thread then Some (None, w)
      else drainLoop (S (lane_length (trim_space threadID) (rw_Store w))) threadID thread w
  end.

Definition DrainNext (threadID0 : string) (w : RouterWorld) : option (option start_error * RouterWorld) :=
  let threadID := trim_space threadID0 in
  if String.eqb threadID "" then Some (Some (Plain "thread id is required"), w)
  else drainNextLocked threadID w.

(** *** Behind the backlog of a source *)
Definition enqueueBehindSourceBacklogAndStartOldest (inbound : InboundText) (thread : Thread) (project : Project)
    (sourceThreadID sourceTurnID prompt : string) (w : RouterWorld) : (DirectResponse + start_error) * RouterWorld :=
  let queued := inl (routed queuedText (th_ID thread) (th_ActiveTurnID thread)) in
  let failed_with e w := (inr e, w) in
  match tx (ro_enqueuePending r (waiting_command (th_ID thread) sourceThreadID sourceTurnID (pj_ID project) inbound
                                   prompt)) w with
  | (inr e, w1) => failed_with e w1
  | (inl _, w1) =>
      match tx (ClaimPendingCommandForSource (ro_Protector r) (in_ChatID inbound) (in_TopicID inbound)
                  sourceThreadID sourceTurnID) w1 with
      | (inr e, w2) => failed_with e w2
      | (inl (_, Some e), w2) => failed_with (Plain e) w2
      | (inl (None, None), w2) => (queued, w2)
      | (inl (Some command, None), w2) =>
          let released e := let '(_, w3) := releaseClaimedCommand (cmd_ID command) w2 in failed_with e w3 in
          let same := String.eqb (trim_space (cmd_ThreadID command)) (th_ID thread) in
          let start := fun startThread startProject =>
            let '((turnID, startErr, thread3), w3) :=
              startQueuedCommand (inboundFromPendingCommand command) startThread startProject command w2 in
            let current := if same then thread3 else thread in
            let queued := routed queuedText (th_ID current) (th_ActiveTurnID current) in
            let answer_released answer :=
              match releaseClaimedCommand (cmd_ID command) w3 with
              | (Some e, w4) => failed_with e w4
              | (None, w4) => (inl answer, w4)
              end in
            match fate_of turnID startErr with
            | Stops e => failed_with e w3
            | Completes =>
                match completeClaimedCommand (cmd_ID command) w3 with
                | (Some e, w4) => failed_with e w4
                | (None, w4) => (inl (routed queuedText (th_ID thread3) turnID), w4)
                end
            | Releases =>
                match startErr with
                | Some e =>
                    if isQueuedNoRemoteStartError e then answer_released queued
                    else if isOwnedByCodex e
                    then answer_released (routed (minimalLinkedOwnedByCodexResponseText "") (th_ID current) sourceTurnID)
                    else answer_released (routed minimalContinuationForkFailureNotice (th_ID current) sourceTurnID)
                | None => answer_released queued
                end
            | Fails =>
                match failClaimedCommand (cmd_ID command) w3 with
                | (Some e, w4) => failed_with e w4
                | (None, w4) => (inl queued, notifyFailedStart command w4)
                end
            end in
          if same then start thread project
          else match GetThread (cmd_ThreadID command) (rw_Store w2) with
          | None => released (Plain "queued thread is unavailable")
          | Some loaded =>
              match claimedProject loaded command with
              | inr e => released e
              | inl (loadedProject, canonicalCWD) => start (set_th_CWD canonicalCWD loaded) loadedProject
              end
          end
      end
  end.

Definition activeQueueResponseText (sourceThreadID0 sourceTurnID0 activeTurnID0 : string) (s : Store) : string :=
  let sourceThreadID := trim_space sourceThreadID0 in
  let sourceTurnID := trim_space sourceTurnID0 in
  let activeTurnID := trim_space activeTurnID0 in
  if negb (String.eqb sourceThreadID "") && negb (String.eqb sourceTurnID "") && String.eqb sourceTurnID activeTurnID
     && negb (isTelegramOriginTurn sourceThreadID sourceTurnID s)
  then minimalContinuationQueueNotice else queuedText.

End router.
