(* ===== verification/RouterSafety.v ===== *)
(** * What the router keeps, whatever App Server answers

    [moves T n] is what a start may do: make turn/start requests, all of them within the
    sandbox of a registered project and [n] of them answered with a turn; run the
    worker machine; append pending commands and move them to another thread, never
    changing what became of one; and, for the lane of the thread [T], not make it longer. *)
From stdpp Require Import base list numbers strings gmap relations sorting.
From Stdlib Require Import Lia Ascii.
From S2P Require Import Prelude GoStrings GoTime Sql Json Model Normalize MinimalTables CoreTables Store Threads TerminalGate NotifierIngress.
From S2P Require Import LinkedThread PendingCommands Continuations Observations Projects LinkWorkers Routing Starts Router.

Definition pending_rows (s : Store) : list PendingRow := mt_pending (db_minimal s).

(** Everything of a command but the thread it waits for. *)
Definition row_kept (a b : PendingRow) : Prop := upd_pc_thread "" a = upd_pc_thread "" b.

Definition rows_moved (rows rows' : list PendingRow) : Prop :=
  exists old new, rows' = old ++ new /\ Forall2 row_kept rows old
    /\ Forall (fun x => pc_is PendingCommandStatusPending x = true) new.

(** A lane is the thread whose commands are started, or none.  Nothing that continues the
    thread of the lane is that thread itself. *)
Record no_self (T : option string) (s : Store) : Prop := {
  ns_links : forall l x, l ∈ db_linked s -> Some (l_SourceThreadID l) = T -> l_LinkedThreadID l = Some x ->
    Some (trim_space x) <> T;
  ns_forks : forall c x, c ∈ mt_continuations (db_minimal s) -> Some (ct_SourceThreadID c) = T ->
    ct_ForkThreadID c = Some x -> Some (trim_space x) <> T }.

Definition waits_in (T : option string) (row : PendingRow) : bool :=
  pc_is PendingCommandStatusPending row && bool_decide (Some (pc_ThreadID row) = T).
Definition waiting_in (T : option string) (rows : list PendingRow) : nat :=
  length (filter (fun row => waits_in T row = true) rows).

Record store_moves (T : option string) (s s' : Store) : Prop := {
  sm_rows : rows_moved (pending_rows s) (pending_rows s');
  sm_lane : no_self T s -> no_self T s' /\ (waiting_in T (pending_rows s') <= waiting_in T (pending_rows s))%nat }.

(** A turn/start request as the router may make it. *)
Definition sandboxed (r : Router) (call : TurnCall) : Prop :=
  let options := tc_Options call in
  to_ApprovalPolicy options = "on-request"
  /\ exists project here current,
       to_SandboxPolicy options = mkSandboxPolicy "workspaceWrite" [pj_CanonicalPath project] false
       /\ MatchCWD (ro_Platform r) (ro_Registry r) (tc_CWD call) = Some here
       /\ Resolve (ro_Platform r) (ro_Registry r) (pj_ID here) = inl current
       /\ Resolve (ro_Platform r) (ro_Registry r) (pj_ID current) = inl project.

(** The manager of the world, as the machine of LinkWorkers has it, with other callers in
    flight or not. *)
Definition workers_run (w w' : RouterWorld) : Prop :=
  match rw_Workers w, rw_Workers w' with
  | None, None => rw_Made w' = rw_Made w /\ rw_Closed w' = rw_Closed w
  | Some m, Some m' =>
      (length (mg_Heap m) <= length (mg_Heap m'))%nat
      /\ forall acquires closing finishing,
           WorkersInv (mkSystem m acquires (rw_Made w) closing finishing (rw_Closed w)) ->
           (Z.of_nat (length (mg_Heap m')) + 1 < 2 ^ 64)%Z ->
           rtc worker_step (mkSystem m acquires (rw_Made w) closing finishing (rw_Closed w))
                           (mkSystem m' acquires (rw_Made w') closing finishing (rw_Closed w'))
  | _, _ => False
  end.

Record moves (r : Router) (T : option string) (n : nat) (w w' : RouterWorld) : Prop := {
  mv_turns : exists l, rw_Turns w' = rw_Turns w ++ l /\ length (omap snd l) = n /\ Forall (sandboxed r) l.*1;
  mv_workers : workers_run w w';
  mv_store : store_moves T (rw_Store w) (rw_Store w');
  mv_sent : rw_Sent w' = rw_Sent w }.

(** The router's own functions either fail or do what the service's do. *)
Record RouterLaws (r : Router) (now : instant) : Prop := {
  rl_persist : forall t s a s', ro_persistThread r t s = Ok (a, s') ->
    persistThread (ro_Platform r) (ro_Registry r) now t s = Ok (a, s');
  rl_enqueue : forall c s a s', ro_enqueuePending r c s = Ok (a, s') ->
    EnqueuePendingCommand (ro_Protector r) (format_time now) c s = Ok (a, s');
  rl_complete : forall id s a s', ro_completePending r id s = Ok (a, s') -> CompletePendingCommand id s = Ok (a, s');
  rl_fail : forall id s a s', ro_failPending r id s = Ok (a, s') -> FailPendingCommand id s = Ok (a, s') }.

(** *** Starts *)

(** The store could not take a thread. *)
Definition persist_fails (r : Router) : Prop := exists t s e, ro_persistThread r t s = Err e.

(** How a start ends, with [n] turns started. *)
Inductive ends (r : Router) : nat -> Started -> Prop :=
| ends_failed e : ends r 0 (failed_start e)
| ends_owned thread title : ends r 0 (owned thread title)
| ends_queued thread turnID title : ends r 0 (mkStartResult (Some thread) turnID false true title, None)
| ends_turn thread turnID forked title err :
    is_blank_id turnID = false -> (forall e, err = Some e -> asRPCError e = None) ->
    ends r 1 (mkStartResult (Some thread) turnID forked false title, err)
| ends_lost e : persist_fails r -> asRPCError e = None -> ends r 1 (failed_start e).

Definition start_ok (r : Router) (T : option string) (w : RouterWorld) (a : Started) (w' : RouterWorld) : Prop :=
  exists n, moves r T n w w' /\ ends r n a.

(** What startLoadedTurn answers: a turn, or an error and the thread as it was. *)
Definition turn_ends (r : Router) (thread : Thread) (n : nat) (a : TurnResult) : Prop :=
  let '(turnID, err, thread') := a in
  (n = 0%nat /\ turnID = "" /\ err <> None /\ thread' = thread)
  \/ (n = 1%nat /\ is_blank_id turnID = false /\ (forall e, err = Some e -> persist_fails r /\ asRPCError e = None)
      /\ th_ID thread' = th_ID thread).

(** On a worker of the thread, only the store can fail once a turn runs. *)
Definition direct (r : Router) (thread : Thread) (n : nat) (x : StartedThread) : Prop :=
  ends r n x.1 /\ th_ID x.2 = th_ID thread /\ (n = 1%nat -> x.1.2 <> None -> persist_fails r).

(** A lane whose thread is the one that is continued. *)
Definition own_lane (T : option string) (source : string) (w : RouterWorld) : Prop :=
  forall t, T = Some t -> t = source /\ no_self T (rw_Store w).

(** ** The store *)

Lemma row_kept_refl x : row_kept x x.
Proof. done. Qed.

Lemma row_kept_trans x y z : row_kept x y -> row_kept y z -> row_kept x z.
Proof. unfold row_kept. congruence. Qed.

Lemma row_kept_status x y status : row_kept x y -> pc_is status y = pc_is status x.
Proof. unfold row_kept, upd_pc_thread, pc_is. intros H. injection H as _ _ _ _ _ _ _ -> _. done. Qed.

Lemma kept_all rows : Forall2 row_kept rows rows.
Proof. by apply Forall_Forall2_diag, Forall_forall. Qed.

Lemma rows_moved_refl rows : rows_moved rows rows.
Proof. exists rows, []. rewrite app_nil_r. split; [done|]. split; [apply kept_all|constructor]. Qed.

Lemma rows_moved_trans a b c : rows_moved a b -> rows_moved b c -> rows_moved a c.
Proof.
  intros (o1 & n1 & -> & H1 & N1) (o2 & n2 & -> & H2 & N2).
  apply Forall2_app_inv_l in H2 as (p & q & Hp & Hq & ->). exists p, (q ++ n2). rewrite app_assoc. split; [done|]. split.
  - eapply (Forall2_trans _ _ row_kept); [exact row_kept_trans|exact H1|exact Hp].
  - apply Forall_app. split; [|done]. clear Hp H1. induction Hq as [|x y q n Hxy _ IH]; [constructor|].
    apply Forall_cons in N1 as [Nx N1]. constructor; [by rewrite (row_kept_status x y)|by apply IH].
Qed.

#[export] Instance store_moves_preorder T : PreOrder (store_moves T).
Proof.
  split.
  - intros s. split; [apply rows_moved_refl|done].
  - intros a b c [H1 H2] [H3 H4]. split; [by eapply rows_moved_trans|]. intros H. destruct (H2 H) as [H5 H6].
    destruct (H4 H5) as [H7 H8]. split; [done|lia].
Qed.

Lemma sm_other T s s' :
  pending_rows s' = pending_rows s -> db_linked s' = db_linked s ->
  mt_continuations (db_minimal s') = mt_continuations (db_minimal s) -> store_moves T s s'.
Proof.
  intros E1 E2 E3. split; [rewrite E1; apply rows_moved_refl|]. intros [H1 H2].
  split; [split; rewrite ?E2, ?E3; done|]. by rewrite E1.
Qed.

(** An UPDATE of the linked threads keeps who continues whom. *)
Lemma sm_links T s rows' :
  Forall2 (fun l l' => l_SourceThreadID l' = l_SourceThreadID l /\ l_LinkedThreadID l' = l_LinkedThreadID l)
    (db_linked s) rows' -> store_moves T s (set_linked rows' s).
Proof.
  intros HF. split; [apply rows_moved_refl|]. intros [H1 H2]. split; [|done]. split; [|done].
  intros l x Hl Hs Hx. apply list_elem_of_lookup in Hl as [i Hi].
  destruct (Forall2_lookup_r _ _ _ _ _ HF Hi) as (l0 & Hi0 & E1 & E2).
  apply (H1 l0); [by apply list_elem_of_lookup_2 in Hi0|congruence|congruence].
Qed.

Lemma sm_update_linked T s p f :
  (forall l, l_SourceThreadID (f l) = l_SourceThreadID l /\ l_LinkedThreadID (f l) = l_LinkedThreadID l) ->
  store_moves T s (update_linked p f s).2.
Proof.
  intros Hf. apply sm_links. unfold update_where. induction (db_linked s) as [|l k IH]; cbn; constructor; [|done].
  by destruct (p l).
Qed.

Lemma sm_changed_one T s p f :
  (forall l, l_SourceThreadID (f l) = l_SourceThreadID l /\ l_LinkedThreadID (f l) = l_LinkedThreadID l) ->
  forall a s', changed_one (update_linked p f s) = Ok (a, s') -> store_moves T s s'.
Proof. intros Hf a s' [= _ <-]. by apply sm_update_linked. Qed.

(** The rows of one of the three tables change. *)
Lemma sm_pending T s rows' :
  rows_moved (pending_rows s) rows' ->
  (waiting_in T rows' <= waiting_in T (pending_rows s))%nat ->
  store_moves T s (with_rows pending_table rows' s).
Proof. intros H1 H2. split; [done|]. intros [N1 N2]. split; [done|exact H2]. Qed.

Lemma sm_continuations T s rows' :
  (forall c x, c ∈ rows' -> Some (ct_SourceThreadID c) = T -> ct_ForkThreadID c = Some x ->
     Some (trim_space x) <> T \/ exists c0, c0 ∈ mt_continuations (db_minimal s) /\ Some (ct_SourceThreadID c0) = T
                                      /\ ct_ForkThreadID c0 = Some x) ->
  store_moves T s (with_rows continuation_table rows' s).
Proof.
  intros H. split; [apply rows_moved_refl|]. intros [N1 N2]. split; [|done]. split; [done|].
  intros c x Hc Hs Hx. destruct (H c x Hc Hs Hx) as [?|(c0 & H1 & H2 & H3)]; [done|by apply (N2 c0)].
Qed.

Lemma lane_update T f q rows :
  (forall x, pc_is PendingCommandStatusPending (f x) = pc_is PendingCommandStatusPending x /\ Some (pc_ThreadID (f x)) <> T) ->
  (waiting_in T (update_where q f rows) <= waiting_in T rows)%nat.
Proof.
  intros Hf. unfold update_where, waiting_in. induction rows as [|x rows IH]; [done|]. cbn [map]. rewrite !filter_cons.
  destruct (q x).
  - destruct (Hf x) as [H1 H2]. rewrite (decide_False (P := waits_in T (f x) = true));
      [destruct (decide _); cbn; lia|]. unfold waits_in. rewrite (bool_decide_false _ H2), andb_false_r. done.
  - destruct (decide _); cbn; lia.
Qed.

Lemma k_rehome T c t i j target : Some target <> T -> tx_keeps (store_moves T) (rehome c t i j target).
Proof.
  intros Hne. apply keeps_update. intros s. apply sm_pending.
  - eexists _, []. rewrite app_nil_r. split; [done|]. split; [|constructor].
    change (rows_of pending_table s) with (pending_rows s). unfold update_where.
    induction (pending_rows s) as [|x l IH]; cbn; constructor; [|done]. by destruct (_ && _).
  - by apply lane_update.
Qed.

Lemma k_rehome_source T c t i j target : Some (trim_space target) <> T ->
  tx_keeps (store_moves T) (RehomePendingCommandsForSource c t i j target).
Proof.
  intros Hne. unfold RehomePendingCommandsForSource. destruct (_ || _); [apply keeps_fail|].
  apply keeps_bind; [apply _|by apply k_rehome|]. intros ?. apply keeps_ret, _.
Qed.

Lemma k_enqueue T p now command : Some (trim_space (cmd_ThreadID command)) <> T ->
  tx_keeps (store_moves T) (EnqueuePendingCommand p now command).
Proof.
  intros Hne. unfold EnqueuePendingCommand. destruct (_ || _); [apply keeps_fail|]. destruct p as [p|]; [|apply keeps_fail].
  destruct (Protect p _); [|apply keeps_fail]. apply keeps_modify. intros s. split.
  - eexists (pending_rows s), _. split; [done|]. split; [apply kept_all|]. by repeat constructor.
  - intros [N1 N2]. split; [done|]. unfold waiting_in, pending_rows.
    cbn [db_minimal set_minimal mt_pending set_mt_pending set_mt_pendingSeq].
    rewrite filter_app, length_app, filter_cons_False; [cbn; lia|]. unfold waits_in. cbn [pc_ThreadID].
    rewrite (bool_decide_false _ Hne), andb_false_r. done.
Qed.

Lemma k_continuation_update T q (f : ContinuationRow -> ContinuationRow) :
  (forall c, ct_SourceThreadID (f c) = ct_SourceThreadID c /\ forall x, ct_ForkThreadID (f c) = Some x ->
     ct_ForkThreadID c = Some x \/ Some (trim_space x) <> T) ->
  tx_keeps (store_moves T) (sql_update continuation_table q f).
Proof.
  intros Hf. apply keeps_update. intros s. apply sm_continuations. intros c x Hc Hs Hx.
  apply elem_of_update in Hc as (c0 & Hc0 & Hc). destruct (q c0); subst c; [|right; by exists c0].
  destruct (Hf c0) as [H1 H2]. destruct (H2 x Hx) as [?|?]; [right; exists c0; split; [done|]; split; [congruence|done]|by left].
Qed.

Lemma k_continuation_insert T row : (forall x, ct_ForkThreadID row = Some x -> Some (trim_space x) <> T) ->
  tx_keeps (store_moves T) (sql_insert continuation_table row).
Proof.
  intros H. apply keeps_insert. intros s. apply sm_continuations. intros c x Hc Hs Hx.
  apply elem_of_app in Hc as [Hc|Hc]; [right; by exists c|]. apply list_elem_of_singleton in Hc as ->. left. by apply H.
Qed.

Lemma k_upsert_thread T t : tx_keeps (store_moves T) (upsertThreadTx t).
Proof. apply keeps_modify. intros s. by apply sm_other. Qed.

Lemma k_bind T k c t id mode now : tx_keeps (store_moves T) (bind_thread k c t id mode now).
Proof. apply keeps_modify. intros s. by apply sm_other. Qed.

Lemma k_insert_link T row : (forall x, l_LinkedThreadID row = Some x -> Some (trim_space x) <> T) ->
  tx_keeps (store_moves T) (insert_linked row).
Proof.
  intros H. unfold insert_linked. apply keeps_bind; [apply _|apply keeps_gets, _|]. intros rows.
  destruct (existsb _ _); [apply keeps_ret, _|]. destruct (_ && _); [apply keeps_fail|].
  apply keeps_bind; [apply _| |intros ?; apply keeps_ret, _]. apply keeps_insert. intros s.
  split; [apply rows_moved_refl|]. intros [N1 N2]. split; [|done]. split; [|done].
  intros l x Hl Hs Hx. apply elem_of_app in Hl as [Hl|Hl]; [by apply (N1 l)|]. apply list_elem_of_singleton in Hl as ->. by apply H.
Qed.

Lemma k_upsert_active T row fork now : Some (trim_space fork) <> T -> ct_ForkThreadID row = Some fork ->
  tx_keeps (store_moves T) (upsert_active row fork now).
Proof.
  intros Hne Hrow. unfold upsert_active. apply keeps_bind; [apply _|apply keeps_gets, _|]. intros rows.
  destruct (find_first _ rows).
  - apply keeps_bind; [apply _| |].
    + apply k_continuation_update. intros c0. split; [done|]. intros x [= <-]. by right.
    + intros changed. destruct (_ && _); [apply keeps_fail|apply keeps_ret, _].
  - destruct (fork_taken _ _ _); [apply keeps_fail|]. apply keeps_bind; [apply _| |intros ?; apply keeps_ret, _].
    apply k_continuation_insert. intros x Hx. rewrite Hrow in Hx. by injection Hx as <-.
Qed.

(** A statement that only reads its operand. *)
Lemma keeps_lift_bind {A B} (R : Store -> Store -> Prop) (m : res A) (k : A -> Tx Store B) :
  (forall a, m = Ok a -> tx_keeps R (k a)) -> tx_keeps R (tx_bind (tx_lift m) k).
Proof.
  intros H s b s' (a & s1 & [E ->]%tx_lift_ok & H2)%tx_bind_ok. exact (H a E _ _ _ H2).
Qed.

Lemma k_activate T p now link c child : Some (trim_space (th_ID child)) <> T ->
  tx_keeps (store_moves T) (ActivateMinimalLinkedThread p now link c child).
Proof.
  intros Hne. unfold ActivateMinimalLinkedThread. cbv zeta. cbn [th_ID set_th_ID].
  destruct (String.eqb (trim_space (th_ID child)) ""); [apply keeps_fail|].
  apply keeps_lift_bind. intros n Hn.
  assert (Hid : lt_LinkedThreadID n = trim_space (th_ID child)).
  { destruct (normalized_fields _ _ _ Hn) as (_ & _ & _ & _ & -> & _). apply trim_space_idemp. }
  assert (Hfork : Some (trim_space (lt_LinkedThreadID n)) <> T) by (by rewrite Hid, trim_space_idemp).
  apply keeps_lift_bind. intros seed _. destruct (negb _); [apply keeps_fail|].
  do 3 (apply keeps_lift_bind; intros ? _).
  apply keeps_bind; [apply _|apply k_upsert_thread|intros _].
  apply keeps_bind; [apply _|by apply k_upsert_active|intros changed].
  destruct (negb _); [apply keeps_fail|].
  apply keeps_bind; [apply _|apply k_rehome; by rewrite Hid|intros _].
  apply keeps_bind; [apply _|apply k_bind|intros _].
  apply keeps_bind; [apply _| |intros []; [apply keeps_ret, _|apply keeps_fail]].
  apply k_insert_link. intros x [= <-]. done.
Qed.

Lemma k_claim_continuation T now c : tx_keeps (store_moves T) (ClaimMinimalContinuation now c).
Proof.
  unfold ClaimMinimalContinuation. apply keeps_lift_bind. intros seed _.
  apply keeps_bind; [apply _|apply k_continuation_update; intros x; split; [done|by left]|intros changed].
  apply keeps_bind; [apply _| |intros created].
  - destruct (_ =? 1)%Z; [apply keeps_ret, _|]. unfold insert_continuation.
    apply keeps_bind; [apply _|apply keeps_gets, _|intros [x|]]; [apply keeps_ret, _|].
    apply keeps_bind; [apply _|by apply k_continuation_insert|intros ?; apply keeps_ret, _].
  - apply keeps_bind; [apply _|apply keeps_gets, _|intros ?; apply keeps_ret, _].
Qed.

Lemma k_fail_continuation T now c kind : tx_keeps (store_moves T) (FailMinimalContinuation now c kind).
Proof.
  unfold FailMinimalContinuation. apply keeps_lift_bind. intros seed _. cbv zeta. destruct (_ && _); [apply keeps_fail|].
  apply keeps_bind; [apply _|apply k_continuation_update; intros x; split; [done|by left]|intros changed].
  destruct (_ =? 1)%Z; [apply keeps_ret, _|apply keeps_fail].
Qed.

(** The life of a link's worker. *)
Lemma k_claim_worker T now id g : tx_keeps (store_moves T) (ClaimMinimalLinkedWorker now id g).
Proof.
  intros s a s'. unfold ClaimMinimalLinkedWorker. destruct (String.eqb _ ""); [intros [= _ <-]; reflexivity|].
  destruct (g =? 0)%Z; [done|]. destruct (minimalLinkedGenerationInt64 g); [|done]. by apply sm_changed_one.
Qed.

Lemma k_mark_started T now id g turn : tx_keeps (store_moves T) (MarkMinimalLinkedTurnStarted now id g turn).
Proof.
  intros s a s'. unfold MarkMinimalLinkedTurnStarted. destruct (_ || _); [intros [= _ <-]; reflexivity|].
  destruct (minimalLinkedGenerationInt64 g); [|done]. by apply sm_changed_one.
Qed.

Lemma k_title_set T now id g : tx_keeps (store_moves T) (MarkMinimalLinkedTitleSet now id g).
Proof.
  intros s a s'. unfold MarkMinimalLinkedTitleSet. destruct (String.eqb _ ""); [intros [= _ <-]; reflexivity|].
  destruct (minimalLinkedGenerationInt64 g); [|done]. by apply sm_changed_one.
Qed.

Lemma k_hydrate T p now id a b : tx_keeps (store_moves T) (HydrateMinimalLinkedTitles p now id a b).
Proof.
  intros s x s'. unfold HydrateMinimalLinkedTitles. destruct (_ || _); [intros [= _ <-]; reflexivity|].
  destruct (protectMinimalLinkedTitle p _); [|done]. cbn [res_bind].
  destruct (protectMinimalLinkedTitle p _); [|done]. cbn [res_bind]. by apply sm_changed_one.
Qed.

Lemma k_blocked T now id code at_ : tx_keeps (store_moves T) (tx_of (RecordMinimalLinkedBlocked now id code at_)).
Proof.
  intros s x s'. unfold tx_of, RecordMinimalLinkedBlocked. destruct (String.eqb _ ""); [done|].
  destruct (String.eqb _ ""); [done|].
  match goal with |- context [update_linked ?p ?f s] => pose proof (sm_update_linked T s p f) as H;
    destruct (update_linked p f s) as [changed s1] end.
  destruct (_ =? 1)%Z; [|done]. intros [= _ <-]. by apply H.
Qed.

Lemma k_fail_linked T now id g kind : tx_keeps (store_moves T) (tx_of (FailMinimalLinkedThread now id g kind)).
Proof.
  intros s x s'. unfold tx_of, FailMinimalLinkedThread. destruct (_ || _); [done|].
  destruct (minimalLinkedGenerationInt64 g); [|done]. cbn [res_bind].
  match goal with |- context [update_linked ?p ?f s] => pose proof (sm_update_linked T s p f) as H;
    destruct (update_linked p f s) as [changed s1] end.
  destruct (_ =? 1)%Z; [|done]. intros [= _ <-]. by apply H.
Qed.

(** Threads, observations, snapshots and states are other tables. *)
Lemma k_observe T clock t id now : tx_keeps (store_moves T) (ObserveMinimalThread clock t id now).
Proof.
  unfold ObserveMinimalThread. destruct (_ || _); [apply keeps_fail|]. apply keeps_modify. intros s.
  destruct (match _ with Some r => mo_Retired r | None => false end); [reflexivity|].
  destruct (negb _); [reflexivity|]. by apply sm_other.
Qed.

Lemma k_ignored T {A} (m : Tx Store A) s : tx_keeps (store_moves T) m -> store_moves T s (run_ignored m s).
Proof. intros H. unfold run_ignored. destruct (m s) as [[a s']|] eqn:E; [by eapply H|reflexivity]. Qed.

Lemma k_persist T pf registry now t : tx_keeps (store_moves T) (persistThread pf registry now t).
Proof.
  unfold persistThread. cbv zeta. apply keeps_bind; [apply _|apply k_upsert_thread|intros _].
  destruct (if threadLooksActiveForPolling t then MatchExactCWD pf registry (th_CWD t) else None) as [project|];
    [|apply keeps_ret, _].
  destruct (String.eqb _ ""); [apply keeps_ret, _|].
  apply keeps_modify. intros s. apply k_ignored, k_observe.
Qed.

Lemma sm_snapshot T r now thread turnID s : store_moves T s (ensureStartedTurnSnapshot r now thread turnID s).
Proof.
  unfold ensureStartedTurnSnapshot. cbv zeta. destruct (String.eqb (trim_space turnID) ""); [reflexivity|].
  destruct (match _ with Some p => _ | None => false end); [reflexivity|].
  etransitivity; [|apply k_ignored; apply keeps_modify; intros ?; by apply sm_other].
  destruct (MatchExactCWD _ _ _) as [project|]; [|apply k_ignored, k_persist].
  destruct (String.eqb _ ""); [apply k_ignored, k_persist|].
  etransitivity; [apply k_ignored, k_persist|apply k_ignored, k_observe].
Qed.

Lemma sm_origin T at_ threadID turnID s : store_moves T s (markTelegramOriginTurn at_ threadID turnID s).
Proof. unfold markTelegramOriginTurn, set_turn_state. destruct (String.eqb _ ""); [reflexivity|]. by apply sm_other. Qed.

(** ** The world *)

Lemma workers_run_refl w w' :
  rw_Workers w' = rw_Workers w -> rw_Made w' = rw_Made w -> rw_Closed w' = rw_Closed w -> workers_run w w'.
Proof. unfold workers_run. intros -> -> ->. destruct (rw_Workers w); [|done]. split; [lia|]. intros. done. Qed.

Lemma workers_run_trans a b c : workers_run a b -> workers_run b c -> workers_run a c.
Proof.
  unfold workers_run. destruct (rw_Workers a) as [ma|], (rw_Workers b) as [mb|], (rw_Workers c) as [mc|]; try done.
  - intros [L1 H1] [L2 H2]. split; [lia|]. intros acq cl fin HW Hb.
    pose proof (H1 acq cl fin HW ltac:(lia)) as R1. etrans; [exact R1|]. apply H2; [|done].
    clear H1 H2. induction R1 as [|? ? ? Hs _ IH]; [done|]. apply IH. by eapply step_inv.
  - intros [E1 E2] [E3 E4]. split; congruence.
Qed.

Lemma moves_trans r T n m a b c : moves r T n a b -> moves r T m b c -> moves r T (n + m) a c.
Proof.
  intros [(l1 & E1 & N1 & S1) W1 M1 T1] [(l2 & E2 & N2 & S2) W2 M2 T2]. split.
  - exists (l1 ++ l2). rewrite E2, E1, app_assoc. split; [done|]. rewrite omap_app, length_app, fmap_app, N1, N2.
    split; [done|]. by apply Forall_app.
  - by eapply workers_run_trans.
  - by etransitivity.
  - congruence.
Qed.

Lemma moves_here r T w w' :
  rw_Turns w' = rw_Turns w -> workers_run w w' -> store_moves T (rw_Store w) (rw_Store w') ->
  rw_Sent w' = rw_Sent w -> moves r T 0 w w'.
Proof. intros E1 W S E2. split; [|done..]. exists []. rewrite app_nil_r. split; [done|]. split; [done|constructor]. Qed.

Lemma moves_refl r T w : moves r T 0 w w.
Proof. apply moves_here; [done|by apply workers_run_refl|reflexivity|done]. Qed.

(** A step that starts nothing, after or before others. *)
Lemma moves_after r T n a b c : moves r T n a b -> moves r T 0 b c -> moves r T n a c.
Proof. intros H1 H2. rewrite <- (Nat.add_0_r n). by eapply moves_trans. Qed.

Lemma moves_before r T n a b c : moves r T 0 a b -> moves r T n b c -> moves r T n a c.
Proof. intros H1 H2. change n with (0 + n)%nat. by eapply moves_trans. Qed.

Lemma m_called r T w : moves r T 0 w (called w).
Proof. apply moves_here; [done|by apply workers_run_refl|reflexivity|done]. Qed.

Lemma m_store r T s w : store_moves T (rw_Store w) s -> moves r T 0 w (set_rw_Store s w).
Proof. intros H. by apply moves_here; [|apply workers_run_refl|..]. Qed.

Lemma m_tx r T {A} (m : Tx Store A) w a w' : tx_keeps (store_moves T) m -> tx m w = (a, w') -> moves r T 0 w w'.
Proof.
  intros H. unfold tx. destruct (m (rw_Store w)) as [[x s]|e] eqn:E; intros [= _ <-]; [|apply moves_refl].
  apply m_store. by eapply H.
Qed.

Lemma m_tx_snd r T {A} (m : Tx Store A) w : tx_keeps (store_moves T) m -> moves r T 0 w (tx m w).2.
Proof. intros H. destruct (tx m w) as [a w'] eqn:E. by eapply m_tx. Qed.

Lemma m_on_session r T {A} worker (f : nat -> nat -> A) w a w' : on_session worker f w = (a, w') -> moves r T 0 w w'.
Proof. intros [= _ <-]. apply m_called. Qed.

(** *** Workers *)

Lemma Acquire_grows key linked factory made m a closed made' m' :
  Acquire key linked factory made m = (a, closed, made', m') -> (length (mg_Heap m) <= length (mg_Heap m'))%nat.
Proof.
  unfold Acquire. destruct (String.eqb _ ""); [intros [= _ _ _ <-]; done|].
  destruct (beginAcquire _ _ m) as [m1|e] eqn:E1; [|intros [= _ _ _ <-]; done].
  assert (H1 : mg_Heap m1 = mg_Heap m).
  { unfold beginAcquire in E1. repeat (case_match; try done). by injection E1 as <-. }
  assert (H2 : forall err, mg_Heap (recordAcquireCloseError err m1) = mg_Heap m1)
    by (intros [e|]; [|done]; cbn; by destruct (mg_Closed m1)).
  destruct factory as [session|]; [|intros [= _ _ _ <-]; cbn; by rewrite H1].
  destruct (ss_Start session); [intros [= _ _ _ <-]; cbn; by rewrite H2, H1|].
  destruct (negb _); [intros [= _ _ _ <-]; cbn; by rewrite H2, H1|].
  destruct (registerWorker _ _ made m1) as [[worker m2]|e] eqn:E2; intros [= _ _ _ <-]; [|cbn; by rewrite H2, H1].
  rewrite (register_shape _ _ _ _ _ _ E2). cbn [mg_Heap]. rewrite length_app, H1. lia.
Qed.

Lemma m_acquire r T key linked w a w' : acquireWorker r key linked w = (a, w') -> moves r T 0 w w'.
Proof.
  unfold acquireWorker. destruct (rw_Workers w) as [m|] eqn:Em; [|intros [= _ <-]; apply moves_refl].
  destruct (Acquire _ _ _ _ m) as [[[answer closed] made] m'] eqn:E. intros [= _ <-].
  apply moves_here; [done| |reflexivity|done]. unfold workers_run. rewrite Em. cbn [rw_Workers called set_rw_Workers rw_Made rw_Closed].
  pose proof (Acquire_grows _ _ _ _ _ _ _ _ _ E) as Hg. split; [done|]. intros acq cl fin HW Hb.
  eapply (Acquire_refines (mkSystem m acq (rw_Made w) cl fin (rw_Closed w))); [|exact E].
  pose proof (ai_next _ (wi_alloc _ HW)) as Hn. cbn in Hn |- *. lia.
Qed.

Lemma m_bind r T worker threadID w a w' : bindWorker worker threadID w = (a, w') -> moves r T 0 w w'.
Proof.
  unfold bindWorker. destruct (rw_Workers w) as [m|] eqn:Em; [|intros [= _ <-]; apply moves_refl].
  destruct (BindThread worker threadID m) as [m'|e] eqn:E; intros [= _ <-]; [|apply moves_refl].
  apply moves_here; [done| |reflexivity|done]. unfold workers_run. rewrite Em. cbn [rw_Workers set_rw_Workers rw_Made rw_Closed].
  split.
  - unfold BindThread in E. repeat (case_match; try done); injection E as <-; try done; cbn; by rewrite length_alter.
  - intros acq cl fin _ _. apply rtc_once. by apply (ws_bind worker threadID).
Qed.

Lemma finishRelease_heap p err m : mg_Heap (finishRelease p err m) = mg_Heap m.
Proof. by destruct (finishRelease_shape p err m) as [v ->]. Qed.

(** Releasing a worker. *)
Lemma release_workers_run w m threadID generation close found err closed m' :
  rw_Workers w = Some m -> Release threadID generation close m = (found, err, closed, m') ->
  workers_run w (called (set_rw_Workers (Some m') (rw_Made w) (closed ++ rw_Closed w) w)).
Proof.
  intros Em E. unfold workers_run. rewrite Em. cbn [rw_Workers called set_rw_Workers rw_Made rw_Closed]. split.
  - unfold Release in E. destruct (beginRelease _ _ m) as [[q m1]|] eqn:Eb; injection E as _ _ _ <-; [|done].
    rewrite finishRelease_heap. unfold beginRelease in Eb. destruct (String.eqb _ ""); [done|].
    destruct (_ ≫= _) as [[x y]|]; [|done]. destruct (_ =? _)%Z; [|done]. injection Eb as _ <-. by rewrite heap_removeLocked.
  - intros acq cl fin HW _. by eapply (Release_refines (mkSystem m acq (rw_Made w) cl fin (rw_Closed w))).
Qed.

Lemma m_release r T worker w : moves r T 0 w (releaseMinimalWorker r worker w).
Proof.
  unfold releaseMinimalWorker. destruct (rw_Workers w) as [m|] eqn:Em; [|apply moves_refl].
  destruct (worker_at m worker) as [wk|] eqn:Ew; [|apply moves_refl].
  destruct (String.eqb_spec (trim_space (wk_ThreadID wk)) "") as [Et|Et]; cbn [negb].
  - apply moves_here; [done| |reflexivity|done]. unfold workers_run. rewrite Em.
    cbn [rw_Workers called set_rw_Workers rw_Made rw_Closed]. split; [by rewrite heap_removeLocked|].
    intros acq cl fin HW _.
    assert (Hblank : wk_ThreadID wk = "") by (destruct (ai_worker _ (wi_alloc _ HW) worker wk Ew) as (_ & _ & <-); done).
    eapply rtc_l; [by eapply ws_unbound|]. apply rtc_once.
    apply (ws_close [] worker false cl (wk_Session wk) None). unfold session_of.
    change (wk_Session <$> worker_at (removeLocked worker m) worker = Some (wk_Session wk)). by rewrite worker_at_removeLocked, Ew.
  - destruct (Release _ _ _ m) as [[[found err] closed] m'] eqn:E.
    apply moves_here; [done|by eapply release_workers_run|reflexivity|done].
Qed.

(** ** Starts *)

Lemma start_failed r T w w' e : moves r T 0 w w' -> start_ok r T w (failed_start e) w'.
Proof. intros H. exists 0%nat. split; [done|apply ends_failed]. Qed.

Lemma start_before r T a b x c : moves r T 0 a b -> start_ok r T b x c -> start_ok r T a x c.
Proof. intros H (n & H1 & H2). exists n. split; [by eapply moves_before|done]. Qed.

Lemma start_after r T a x b c : start_ok r T a x b -> moves r T 0 b c -> start_ok r T a x c.
Proof. intros (n & H1 & H2) H. exists n. split; [by eapply moves_after|done]. Qed.

Section starts.
Context (r : Router) (now : instant) (T : option string) (HL : RouterLaws r now).

Lemma k_router_persist t : tx_keeps (store_moves T) (ro_persistThread r t).
Proof using HL. intros s a s' H. eapply k_persist. by eapply (rl_persist _ _ HL). Qed.

Lemma k_router_enqueue c : Some (trim_space (cmd_ThreadID c)) <> T -> tx_keeps (store_moves T) (ro_enqueuePending r c).
Proof using HL. intros Hne s a s' H. eapply k_enqueue; [done|]. by eapply (rl_enqueue _ _ HL). Qed.

Lemma sandboxed_call worker thread project0 prompt w project cwd current :
  projectForThread r thread = inl (current, cwd) -> pj_ID current = pj_ID project0 ->
  resolveProject r (pj_ID project0) = inl project ->
  sandboxed r (turn_call worker project cwd prompt thread w).
Proof using.
  unfold projectForThread, resolveProject, sandboxed, turn_call. intros H1 H2 H3.
  destruct (turnStartOptions "" (Some thread) (rw_Store w)) as [[mode model] effort]. cbn. split; [done|].
  destruct (canonicalMinimalDirectory r (th_CWD thread)) as [canonical|]; [|done].
  destruct (MatchCWD _ _ canonical) as [here|] eqn:Em; [|done].
  destruct (Resolve _ _ (pj_ID here)) as [p|] eqn:Er; [|done]. injection H1 as -> ->.
  destruct (Resolve _ _ (pj_ID project0)) as [q|] eqn:Eq; [|done]. injection H3 as ->.
  exists project, here, current. by rewrite H2.
Qed.

Lemma m_turn w call (turn : option string) : sandboxed r call ->
  moves r T (if turn is Some _ then 1 else 0) w (called (add_turn (call, turn) w)).
Proof using.
  intros Hs. split; [|by apply workers_run_refl|reflexivity|done].
  exists [(call, turn)]. split; [done|]. split; [by destruct turn|]. by apply Forall_singleton.
Qed.

Lemma startLoadedTurn_ok worker inbound thread project prompt w a w' :
  startLoadedTurn r now worker inbound thread project prompt w = (a, w') ->
  exists n, moves r T n w w' /\ turn_ends r thread n a.
Proof using HL.
  unfold startLoadedTurn.
  assert (Hfail : forall e w1, moves r T 0 w w1 -> (("", Some e, thread) : TurnResult, w1) = (a, w') ->
            exists n, moves r T n w w' /\ turn_ends r thread n a).
  { intros e w1 Hm [= <- <-]. exists 0%nat. split; [done|]. by left. }
  destruct (projectForThread r thread) as [[current cwd]|e] eqn:E1; [|by apply Hfail, moves_refl].
  destruct (String.eqb_spec (pj_ID current) (pj_ID project)) as [E2|]; cbn [negb]; [|by apply Hfail, moves_refl].
  destruct (resolveProject r (pj_ID project)) as [p|e] eqn:E3; [|by apply Hfail, moves_refl].
  pose proof (sandboxed_call worker thread project prompt w p cwd current E1 E2 E3) as Hs.
  set (call := turn_call worker p cwd prompt thread w) in *.
  destruct (ap_TurnStart _ _ call) as [payload|e]; [|by apply Hfail, (m_turn w call None)].
  destruct (String.eqb_spec (trim_space (appserverThreadTurnID payload)) "") as [|Hne]; [by apply Hfail, (m_turn w call None)|].
  set (turnID := trim_space _) in *. pose proof (m_turn w call (Some turnID) Hs) as Hm. cbn iota in Hm.
  assert (Hblank : is_blank_id turnID = false).
  { unfold is_blank_id, turnID. rewrite trim_space_idemp. by apply String.eqb_neq. }
  set (thread1 := started_thread now thread p cwd turnID).
  destruct (tx (ro_persistThread r thread1) _) as [[[]|e] w2] eqn:E4; intros [= <- <-]; exists 1%nat.
  - split; [|right; by repeat split].
    eapply moves_after; [exact Hm|]. eapply moves_after; [by eapply m_tx, E4; apply k_router_persist|].
    apply m_store. etransitivity; [apply sm_origin|apply sm_snapshot].
  - split; [eapply moves_after; [exact Hm|]; by eapply m_tx, E4; apply k_router_persist|].
    right. split; [done|]. split; [done|]. split; [|done]. intros x [= <-]. unfold tx in E4.
    destruct (ro_persistThread r thread1 _) as [[]|] eqn:E5; [done|]. injection E4 as <- _. split; [by eexists _, _, _|done].
Qed.

(** A body between an acquire and its release. *)
Lemma releasing_ok {A} worker (body : RouterWorld -> (A * bool) * RouterWorld) w a w' (P : A -> nat -> Prop) :
  releasing r worker body w = (a, w') ->
  (forall x rel w1, body w = ((x, rel), w1) -> exists n, moves r T n w w1 /\ P x n) ->
  exists n, moves r T n w w' /\ P a n.
Proof using.
  unfold releasing. destruct (body w) as [[x rel] w1] eqn:E. intros [= <- <-] H.
  destruct (H x rel w1 eq_refl) as (n & Hm & HP). exists n. split; [|done].
  destruct rel; [|done]. eapply moves_after; [done|apply m_release].
Qed.

Lemma startOnWorker_ok worker acquired inbound thread project prompt w x rel w' :
  startOnWorker r now worker acquired inbound thread project prompt w = ((x, rel), w') ->
  exists n, moves r T n w w' /\ direct r thread n x.
Proof using HL.
  assert (Hfail : forall e w1, moves r T 0 w w1 -> ((((failed_start e, thread) : StartedThread), acquired), w1) = ((x, rel), w') ->
            exists n, moves r T n w w' /\ direct r thread n x).
  { intros e w1 Hm [= <- <- <-]. exists 0%nat. split; [done|]. split; [apply ends_failed|done]. }
  unfold startOnWorker. destruct (negb _); [by apply Hfail, moves_refl|].
  destruct (if acquired then _ else _) as [resumed w4] eqn:E4.
  assert (H4 : moves r T 0 w w4).
  { destruct acquired; [by eapply m_on_session|injection E4 as _ <-; apply moves_refl]. }
  destruct resumed as [e|]; [by apply Hfail|].
  destruct (startLoadedTurn r now worker inbound thread project prompt w4) as [[[turnID err] thread1] w5] eqn:E5.
  destruct (startLoadedTurn_ok _ _ _ _ _ _ _ _ E5) as (n & Hn & He). cbn in He.
  destruct He as [(-> & -> & Herr & ->)|(-> & Hb & Herr & Hid)].
  - destruct err as [e|]; [|done]. change (is_blank_id "") with true. cbv iota. apply Hfail. by eapply moves_before.
  - assert (Hm : moves r T 1 w w5) by (by eapply moves_before).
    assert (Hrpc : forall e, err = Some e -> asRPCError e = None) by (by intros e [_ ?]%Herr).
    rewrite Hb. destruct err as [e|]; intros [= <- <- <-]; exists 1%nat; (split; [done|]);
      (split; [by apply ends_turn|split; [done|]]); intros _ Hx; [by destruct (Herr e eq_refl)|done].
Qed.

Lemma startExisting_ok inbound thread project prompt w x w' :
  startExistingThreadOnWorker r now inbound thread project prompt w = (x, w') ->
  exists n, moves r T n w w' /\ direct r thread n x.
Proof using HL.
  assert (Hpre : forall e w1, moves r T 0 w w1 -> ((failed_start (PreTurn e), thread) : StartedThread, w1) = (x, w') ->
            exists n, moves r T n w w' /\ direct r thread n x).
  { intros e w1 Hm [= <- <-]. exists 0%nat. split; [done|]. split; [apply ends_failed|done]. }
  assert (Htail : forall worker acquired w1, moves r T 0 w w1 ->
            releasing r worker (startOnWorker r now worker acquired inbound thread project prompt) w1 = (x, w') ->
            exists n, moves r T n w w' /\ direct r thread n x).
  { intros worker acquired w1 Hm Hx.
    destruct (releasing_ok _ _ _ _ _ (fun y n => direct r thread n y) Hx) as (n & Hn & He).
    - intros y rel w2. apply startOnWorker_ok.
    - exists n. split; [by eapply moves_before|done]. }
  unfold startExistingThreadOnWorker. destruct (rw_Workers w) as [m|]; [|apply Hpre, moves_refl].
  destruct (is_blank_id (th_ID thread)); [apply Hpre, moves_refl|].
  destruct (ByThread (th_ID thread) m) as [worker|]; [apply Htail, moves_refl|].
  destruct (acquireWorker r _ _ w) as [[worker|e] w1] eqn:Ea; apply m_acquire with (T := T) in Ea; [by apply Htail|by apply Hpre].
Qed.

(** *** Linked conversations *)

Lemma name_moves worker link w : moves r T 0 w (nameMinimalLinkedThread r now worker link w).
Proof using.
  unfold nameMinimalLinkedThread. destruct (String.eqb _ ""); [apply moves_refl|].
  destruct (on_session _ _ w) as [err w1] eqn:E. apply m_on_session with (r := r) (T := T) in E.
  destruct err; [done|]. eapply moves_before; [done|]. apply m_tx_snd, k_title_set.
Qed.

Lemma hydrate_moves worker link parent w a w' :
  hydrateMinimalLinkedTitle r now worker link parent w = (a, w') -> moves r T 0 w w'.
Proof using.
  unfold hydrateMinimalLinkedTitle. destruct (_ && _); [intros [= _ <-]; apply moves_refl|].
  destruct (if String.eqb _ "" then readMinimalLinkedSourceTitle _ _ _ w else _) as [title w1] eqn:E1.
  assert (H1 : moves r T 0 w w1).
  { destruct (String.eqb _ "") in E1; [|injection E1 as _ <-; apply moves_refl].
    unfold readMinimalLinkedSourceTitle in E1. destruct (String.eqb _ ""); [injection E1 as _ <-; apply moves_refl|].
    destruct (on_session _ _ w) as [answer w2] eqn:E2. apply m_on_session with (r := r) (T := T) in E2.
    destruct answer; apply (f_equal snd) in E1; cbn [snd] in E1; by subst. }
  destruct (String.eqb title ""); [by intros [= _ <-]|].
  destruct (tx (HydrateMinimalLinkedTitles _ _ _ _ _) w1) as [[b|e] w2] eqn:E2;
    (pose proof (m_tx r T _ _ _ _ (k_hydrate T _ _ _ _ _) E2) as H2; assert (H12 : moves r T 0 w w2) by (by eapply moves_before)).
  - destruct (GetMinimalLinkedThreadByLinkedID _ _ _) as [[updated|]|]; by intros [= _ <-].
  - by intros [= _ <-].
Qed.

Lemma startLinkedChild_ok worker inbound linkedID child project prompt forked title w x rel w' :
  startLinkedChild r now worker inbound linkedID child project prompt forked title w = ((x, rel), w') ->
  exists n, moves r T n w w' /\ ends r n x.
Proof using HL.
  unfold startLinkedChild.
  destruct (startLoadedTurn r now worker inbound child project prompt w) as [[[turnID err] child1] w1] eqn:E1.
  destruct (startLoadedTurn_ok _ _ _ _ _ _ _ _ E1) as (n & Hn & He). cbn in He.
  destruct He as [(-> & -> & Herr & ->)|(-> & Hb & Herr & Hid)].
  - change (is_blank_id "") with true. cbv iota. destruct err as [e|]; [|done]. intros [= <- <- <-]. exists 0%nat.
    split; [|apply ends_failed]. eapply moves_before; [done|]. apply m_tx_snd, k_fail_linked.
  - rewrite Hb. destruct (tx (MarkMinimalLinkedTurnStarted _ _ _ _) w1) as [[changed|e] w2] eqn:E2; intros [= <- <- <-];
      exists 1%nat; (split; [eapply moves_after; [done|]; by eapply m_tx, E2; apply k_mark_started|]); apply ends_turn; try done.
    + destruct changed; [by intros e [_ ?]%Herr|by intros ? [= <-]].
    + unfold tx in E2. destruct (MarkMinimalLinkedTurnStarted _ _ _ _ _) as [[]|]; [done|]. injection E2 as <- _. by intros ? [= <-].
Qed.

Lemma startOnLinkWorker_ok worker inbound link child parent project prompt w x rel w' :
  startOnLinkWorker r now worker inbound link child parent project prompt w = ((x, rel), w') ->
  exists n, moves r T n w w' /\ ends r n x.
Proof using HL.
  assert (Hfail : forall e w1, moves r T 0 w w1 -> ((failed_start e, true), w1) = ((x, rel), w') ->
            exists n, moves r T n w w' /\ ends r n x).
  { intros e w1 Hm [= <- <- <-]. exists 0%nat. split; [done|apply ends_failed]. }
  unfold startOnLinkWorker. destruct (resumeThread r worker _ _ w) as [resumed w1] eqn:E1.
  assert (H1 : moves r T 0 w w1) by (by eapply m_on_session).
  destruct resumed as [e|].
  { destruct (isActiveWriterConflict e _); [|by apply Hfail].
    intros [= <- <- <-]. exists 0%nat. split; [|apply ends_owned]. eapply moves_before; [done|]. apply m_tx_snd, k_blocked. }
  destruct (tx _ w1) as [claimed w2] eqn:E2.
  assert (H2 : moves r T 0 w w2) by (eapply moves_before; [done|]; by eapply m_tx, E2; apply k_claim_worker).
  destruct claimed as [[]|e]; [|by apply Hfail..].
  destruct (if _ || _ then _ else (link, w2)) as [current w3] eqn:E3.
  intros E4. apply startLinkedChild_ok in E4 as (n & Hn & He). exists n. split; [|done].
  eapply moves_before; [done|]. eapply moves_before; [|done].
  destruct (_ || _) in E3; [|injection E3 as _ <-; apply moves_refl].
  destruct (hydrateMinimalLinkedTitle _ _ _ _ _ w2) as [[l ready] w4] eqn:E5.
  apply hydrate_moves in E5. injection E3 as _ <-. destruct ready; [|done]. eapply moves_before; [done|]. apply name_moves.
Qed.

Lemma releasing_start worker body w a w' :
  releasing r worker body w = (a, w') ->
  (forall x rel w1, body w = ((x, rel), w1) -> exists n, moves r T n w w1 /\ ends r n x) ->
  start_ok r T w a w'.
Proof using. intros E H. by apply (releasing_ok worker body w a w' (fun a n => ends r n a)). Qed.

Lemma startCanonical_ok inbound link parent project anchor prompt w a w' :
  startCanonicalLinkedTurn r now inbound link parent project anchor prompt w = (a, w') ->
  trim_space (lt_State link) <> MinimalLinkedTelegramRunning \/ Some (trim_space (lt_LinkedThreadID link)) <> T ->
  start_ok r T w a w'.
Proof using HL.
  assert (Hfail : forall e w1, moves r T 0 w w1 -> (failed_start e, w1) = (a, w') -> start_ok r T w a w').
  { intros e w1 Hm [= <- <-]. by apply start_failed. }
  unfold startCanonicalLinkedTurn. intros E Hlane. revert E.
  destruct (String.eqb (trim_space (lt_LinkedThreadID link)) ""); [apply Hfail, moves_refl|].
  destruct (_ && _); [apply Hfail, moves_refl|].
  destruct (projectForThread r _) as [[childProject cwd]|e]; [|apply Hfail, moves_refl].
  destruct (negb _); [apply Hfail, moves_refl|].
  destruct (String.eqb_spec (trim_space (lt_State link)) MinimalLinkedTelegramRunning) as [Hrun|_].
  - destruct (tx _ w) as [queued w1] eqn:E1. intros E.
    assert (H1 : moves r T 0 w w1) by (eapply m_tx, E1; apply k_router_enqueue; by destruct Hlane).
    destruct queued as [u|e]; [|by eapply Hfail]. injection E as <- <-. exists 0%nat. split; [done|apply ends_queued].
  - destruct (_ && _); [apply Hfail, moves_refl|].
    destruct (acquireWorker r _ _ w) as [[worker|e] w1] eqn:E1; apply m_acquire with (T := T) in E1; [|by apply Hfail].
    intros E2. eapply start_before; [done|]. eapply releasing_start; [done|]. intros x rel w2. apply startOnLinkWorker_ok.
Qed.

Lemma activateOnWorker_ok worker inbound continuation child parent project anchor prompt w x rel w' :
  Some (trim_space (th_ID child)) <> T ->
  activateOnWorker r now worker inbound continuation child parent project anchor prompt w = ((x, rel), w') ->
  exists n, moves r T n w w' /\ ends r n x.
Proof using HL.
  intros Hne.
  assert (Hfail : forall e w1, moves r T 0 w w1 -> ((failed_start e, true), w1) = ((x, rel), w') ->
            exists n, moves r T n w w' /\ ends r n x).
  { intros e w1 Hm [= <- <- <-]. exists 0%nat. split; [done|apply ends_failed]. }
  unfold activateOnWorker. destruct (resumeThread r worker _ _ w) as [resumed w1] eqn:E1.
  assert (H1 : moves r T 0 w w1) by (by eapply m_on_session).
  destruct resumed as [e|]; [by apply Hfail|].
  destruct (tx _ w1) as [activated w2] eqn:E2.
  assert (H2 : moves r T 0 w w2) by (eapply moves_before; [done|]; by eapply m_tx, E2; apply k_activate).
  destruct activated; [|by apply Hfail]. intros E3. apply startLinkedChild_ok in E3 as (n & Hn & He).
  exists n. split; [|done]. eapply moves_before; [done|]. eapply moves_before; [|done]. apply name_moves.
Qed.

Lemma activateLegacy_ok inbound continuation child parent project anchor prompt w a w' :
  Some (trim_space (th_ID child)) <> T ->
  activateLegacyContinuationOnWorker r now inbound continuation child parent project anchor prompt w = (a, w') ->
  start_ok r T w a w'.
Proof using HL.
  intros Hne.
  assert (Hfail : forall e w1, moves r T 0 w w1 -> (failed_start e, w1) = (a, w') -> start_ok r T w a w').
  { intros e w1 Hm [= <- <-]. by apply start_failed. }
  unfold activateLegacyContinuationOnWorker. destruct (threadLooksActiveForInput child).
  - destruct (tx _ w) as [rehomed w1] eqn:E1.
    assert (H1 : moves r T 0 w w1) by (by eapply m_tx, E1; apply k_rehome_source).
    destruct rehomed; [|by apply Hfail]. destruct (tx _ w1) as [queued w2] eqn:E2.
    assert (H2 : moves r T 0 w w2) by (eapply moves_before; [done|]; by eapply m_tx, E2; apply k_router_enqueue).
    destruct queued; [|by apply Hfail]. intros [= <- <-]. exists 0%nat. split; [done|apply ends_queued].
  - destruct (acquireWorker r _ _ w) as [[worker|e] w1] eqn:E1; apply m_acquire with (T := T) in E1; [|by apply Hfail].
    intros E2. eapply start_before; [done|]. eapply releasing_start; [done|]. intros x rel w2. by apply activateOnWorker_ok.
Qed.

Lemma own_lane_moves source w w' : moves r T 0 w w' -> own_lane T source w -> own_lane T source w'.
Proof using. intros Hm H t Ht. destruct (H t Ht) as [E N]. split; [done|]. by destruct (sm_lane _ _ _ (mv_store _ _ _ _ _ Hm) N). Qed.

Lemma fail_moves continuation kind w : moves r T 0 w (failContinuation now continuation kind w).
Proof using. apply m_tx_snd, k_fail_continuation. Qed.

Lemma sanitize_other payload parentID project child :
  sanitizeForkedContinuationChild r now payload parentID project = inl child -> trim_space (th_ID child) <> trim_space parentID.
Proof using.
  unfold sanitizeForkedContinuationChild. cbv zeta. destruct (String.eqb _ ""); [done|].
  destruct (String.eqb_spec (trim_space (th_ID (ThreadFromPayload payload))) (trim_space parentID)) as [|Hne]; [done|].
  destruct (String.eqb _ ""); [intros [= <-]; cbn; by rewrite trim_space_idemp|].
  destruct (canonicalMinimalDirectory r _) as [canonical|]; [|done].
  destruct (String.eqb _ _); [|done]. intros [= <-]. cbn. by rewrite trim_space_idemp.
Qed.

Lemma forkOnWorker_ok worker inbound continuation parent project anchor prompt w x rel w' :
  own_lane T (trim_space (sourceIDForLinked (Some parent) anchor)) w ->
  forkOnWorker r now worker inbound continuation parent project anchor prompt w = ((x, rel), w') ->
  exists n, moves r T n w w' /\ ends r n x.
Proof using HL.
  intros Hown.
  assert (Hfail : forall e w1, moves r T 0 w w1 -> ((failed_start e, true), w1) = ((x, rel), w') ->
            exists n, moves r T n w w' /\ ends r n x).
  { intros e w1 Hm [= <- <- <-]. exists 0%nat. split; [done|apply ends_failed]. }
  assert (Hamb : forall e w1 kind, moves r T 0 w w1 -> ((failed_start e, true), failContinuation now continuation kind w1) = ((x, rel), w') ->
            exists n, moves r T n w w' /\ ends r n x).
  { intros e w1 kind Hm. apply Hfail. eapply moves_before; [done|]. apply fail_moves. }
  unfold forkOnWorker, fork_failed. destruct (on_session worker _ w) as [forked w1] eqn:E1.
  assert (H1 : moves r T 0 w w1) by (by eapply m_on_session).
  destruct forked as [payload|e]; [|by apply Hamb].
  destruct (sanitizeForkedContinuationChild r now payload _ project) as [child|e] eqn:Es; [|by apply Hamb].
  assert (Hne : Some (trim_space (th_ID child)) <> T).
  { intros Ht. destruct (Hown _ (eq_sym Ht)) as [Heq _]. by eapply sanitize_other. }
  destruct (bindWorker worker _ w1) as [bound w2] eqn:E2.
  assert (H2 : moves r T 0 w w2) by (eapply moves_before; [done|]; by eapply m_bind).
  destruct bound as [u|e]; [|by apply Hamb].
  destruct (tx _ w2) as [activated w3] eqn:E3.
  assert (H3 : moves r T 0 w w3) by (eapply moves_before; [done|]; by eapply m_tx, E3; apply k_activate).
  destruct activated; [|by apply Hamb]. intros E4. apply startLinkedChild_ok in E4 as (n & Hn & He).
  exists n. split; [|done]. eapply moves_before; [done|]. eapply moves_before; [|done]. apply name_moves.
Qed.

(** The continuation a claim finds is a row of the table. *)
Lemma claimed_continuation_row now' c s continuation created s' :
  ClaimMinimalContinuation now' c s = Ok ((Some continuation, created), s') ->
  exists row, row ∈ mt_continuations (db_minimal s') /\ continuation = continuation_of row
    /\ ct_SourceThreadID row = trim_space (ck_SourceThreadID (mc_Key c)).
Proof using.
  unfold ClaimMinimalContinuation. intros H. apply tx_bind_ok in H as (seed & s1 & [Hn ->]%tx_lift_ok & H).
  apply tx_bind_ok in H as (changed & s2 & _ & H). apply tx_bind_ok in H as (cr & s3 & _ & H).
  apply tx_bind_ok in H as (row & s4 & Hr & H). injection H as -> _ <-. injection Hr as Hr <-.
  unfold getMinimalContinuationTx in Hr. destruct (find_first _ _) as [x|] eqn:Ef; [|done]. injection Hr as <-.
  destruct (find_first_some _ _ _ Ef) as [Hin Hk%ct_key_is_eq]. exists x. split; [done|]. split; [done|].
  unfold normalizeMinimalContinuation, normalizeMinimalContinuationKey in Hn.
  destruct (_ || _) in Hn; [done|]. cbn [res_bind] in Hn. destruct (String.eqb _ "") in Hn; [done|].
  injection Hn as <-. injection Hk as _ Hk _. exact Hk.
Qed.

Lemma loadContinuationChild_other row project s child source :
  loadContinuationChild r (continuation_of row) project s = inl child ->
  row ∈ mt_continuations (db_minimal s) -> ct_SourceThreadID row = source ->
  (forall t, T = Some t -> t = source /\ no_self T s) -> Some (trim_space (th_ID child)) <> T.
Proof using.
  intros H Hin Hs Hown Ht. destruct (Hown _ (eq_sym Ht)) as [Heq [_ Hforks]].
  assert (Hst : Some source = T) by (by rewrite <- Heq). clear Heq. revert H.
  unfold loadContinuationChild. destruct (String.eqb _ _); [by destruct (String.eqb _ _)|].
  destruct (String.eqb _ _); [done|]. cbv zeta.
  destruct (negb _ || String.eqb (trim_space (mc_ForkThreadID (continuation_of row))) "") eqn:Eb; [done|].
  apply orb_false_iff in Eb as [_ Eb].
  destruct (GetThread _ s) as [c|] eqn:Eg; [|done]. destruct (String.eqb (trim_space (th_ID c)) ""); [discriminate 1|].
  destruct (projectForThread r c) as [[childProject cwd]|]; [|done]. destruct (_ || _); [done|]. intros [= <-].
  unfold GetThread in Eg. destruct (cr_threads _ !! _) as [tr|]; [|done]. injection Eg as <-.
  cbn [th_ID thread_of_row] in Ht. rewrite trim_space_idemp in Ht. cbn [mc_ForkThreadID continuation_of] in Ht, Eb.
  destruct (ct_ForkThreadID row) as [fork|] eqn:Ef.
  - apply (Hforks row fork); [done|by rewrite Hs|done..].
  - cbn in Eb. change (trim_space "") with "" in Eb. done.
Qed.

Lemma trim_source parent anchor : trim_space (sourceIDForLinked (Some parent) anchor) = sourceIDForLinked (Some parent) anchor.
Proof using. unfold sourceIDForLinked. repeat case_match; apply trim_space_idemp. Qed.

Lemma createCanonical_ok inbound parent project anchor prompt w a w' :
  own_lane T (sourceIDForLinked (Some parent) anchor) w ->
  createCanonicalLinkedTurn r now inbound parent project anchor prompt w = (a, w') -> start_ok r T w a w'.
Proof using HL.
  intros Hown.
  assert (Hfail : forall e w1, moves r T 0 w w1 -> (failed_start e, w1) = (a, w') -> start_ok r T w a w').
  { intros e w1 Hm [= <- <-]. by apply start_failed. }
  unfold createCanonicalLinkedTurn. destruct (_ || _); [apply Hfail, moves_refl|].
  destruct (tx _ w) as [claimed w1] eqn:E1.
  assert (H1 : moves r T 0 w w1) by (by eapply m_tx, E1; apply k_claim_continuation).
  destruct claimed as [[[continuation|] created]|e]; [|by destruct created; apply Hfail|by apply Hfail].
  destruct created.
  - destruct (acquireWorker r _ _ w1) as [[worker|e] w2] eqn:E2; apply m_acquire with (T := T) in E2.
    + intros E3. assert (H2 : moves r T 0 w w2) by (by eapply moves_before). eapply start_before; [done|].
      eapply releasing_start; [done|]. intros x rel w3. apply forkOnWorker_ok. rewrite trim_source. by eapply own_lane_moves.
    + apply Hfail. eapply moves_before; [done|]. eapply moves_before; [done|]. apply fail_moves.
  - destruct (loadContinuationChild r continuation project (rw_Store w1)) as [child|e] eqn:E2; [|by apply Hfail].
    intros E3. eapply start_before; [done|]. eapply activateLegacy_ok; [|done].
    unfold tx in E1. destruct (ClaimMinimalContinuation _ _ _) as [[[c0 cr0] s1]|] eqn:E4; [|done].
    injection E1 as -> -> <-. apply claimed_continuation_row in E4 as (row & Hin & -> & Hs).
    eapply loadContinuationChild_other; [exact E2|exact Hin|exact Hs|]. cbn [mc_Key ck_SourceThreadID].
    rewrite trim_source. exact (own_lane_moves _ _ _ H1 Hown).
Qed.

(** The link of a source is a row of the table. *)
Lemma link_of_source chatID topicID source s link :
  GetMinimalLinkedThread (ro_Protector r) chatID topicID source s = Ok (Some link) ->
  lt_LinkedThreadID link = "" \/ exists l, l ∈ db_linked s /\ l_SourceThreadID l = trim_space source
    /\ l_LinkedThreadID l = Some (lt_LinkedThreadID link).
Proof using.
  unfold GetMinimalLinkedThread. destruct (_ || _); [done|]. unfold scanMinimalLinkedThread.
  destruct (find_linked _ s) as [l|] eqn:Ef; [|done]. destruct (_ <? 0)%Z; [done|].
  destruct (unprotectMinimalLinkedTitle _ _); [|done]. cbn [res_bind].
  destruct (unprotectMinimalLinkedTitle _ _); [|done]. cbn [res_bind]. intros [= <-].
  destruct (find_first_some _ _ _ Ef) as [Hin Hp]. bsimp. cbn [lt_LinkedThreadID].
  destruct (l_LinkedThreadID l) as [x|] eqn:El; [right|by left]. exists l. auto.
Qed.

Lemma startLinked_ok inbound parent project anchor prompt w a w' :
  own_lane T (sourceIDForLinked (Some parent) anchor) w ->
  startLinkedTurn r now inbound parent project anchor prompt w = (a, w') -> start_ok r T w a w'.
Proof using HL.
  intros Hown.
  assert (Hfail : forall e w1, moves r T 0 w w1 -> (failed_start e, w1) = (a, w') -> start_ok r T w a w').
  { intros e w1 Hm [= <- <-]. by apply start_failed. }
  unfold startLinkedTurn. destruct (String.eqb _ ""); [apply Hfail, moves_refl|].
  destruct (GetMinimalLinkedThread _ _ _ _ _) as [[link|]|e] eqn:E; [|by apply createCanonical_ok|apply Hfail, moves_refl].
  destruct (String.eqb_spec (trim_space (lt_LinkedThreadID link)) "") as [|Hne]; [by apply createCanonical_ok|].
  intros E1. eapply startCanonical_ok; [done|]. right. intros Ht. destruct (Hown _ (eq_sym Ht)) as [Heq [Hlinks _]].
  apply link_of_source in E as [E|(l & Hl & Hs & Hx)]; [by rewrite E in Hne|].
  apply (Hlinks l (lt_LinkedThreadID link) Hl); [|exact Hx|exact Ht]. by rewrite Hs, trim_source, <- Heq.
Qed.

Lemma startPolicy_ok inbound parent project anchor prompt allow w a parent' w' :
  own_lane T (sourceIDForLinked (Some parent) anchor) w ->
  startResumedOrLinkedTurnWithPolicy r now inbound parent project anchor prompt allow w = ((a, parent'), w') ->
  start_ok r T w a w' /\ th_ID parent' = th_ID parent.
Proof using HL.
  intros Hown.
  assert (Hlinked : forall p w1, own_lane T (sourceIDForLinked (Some p) anchor) w1 -> th_ID p = th_ID parent ->
            (let '(answer, w2) := startLinkedTurn r now inbound p project anchor prompt w1 in ((answer, p), w2)) = ((a, parent'), w') ->
            start_ok r T w1 a w' /\ th_ID parent' = th_ID parent).
  { intros p w1 Ho Hp. destruct (startLinkedTurn _ _ _ _ _ _ _ w1) as [x w2] eqn:E. intros [= <- <- <-].
    split; [by eapply startLinked_ok|done]. }
  unfold startResumedOrLinkedTurnWithPolicy. destruct (_ && _); [by apply Hlinked|].
  destruct (startExistingThreadOnWorker r now inbound parent project prompt w) as [[[result err] parent1] w1] eqn:E1.
  apply startExisting_ok in E1 as (n & Hn & He & Hid & Hp). cbn [fst snd] in He, Hid, Hp.
  destruct err as [e|]; [|intros [= <- <- <-]; split; [by exists n|done]].
  destruct (isActiveWriterConflict e (th_ID parent1)) eqn:Ec; cbn [negb].
  - assert (n = 0%nat) as ->.
    { unfold isActiveWriterConflict in Ec. apply andb_true_iff in Ec as [_ Ec].
      inversion He as [| | |? ? ? ? ? _ Hrpc|? _ Hrpc]; try done; subst.
      - by rewrite (Hrpc e eq_refl) in Ec.
      - by rewrite Hrpc in Ec. }
    destruct (GetMinimalLinkedThreadByLinkedID _ _ _) as [[link|]|e'].
    + intros [= <- <- <-]. split; [|done]. exists 0%nat. split; [|apply ends_owned].
      eapply moves_before; [done|]. apply m_tx_snd, k_blocked.
    + destruct (negb allow).
      * intros [= <- <- <-]. split; [|done]. exists 0%nat. split; [done|apply ends_owned].
      * intros E2. assert (Hown1 : own_lane T (sourceIDForLinked (Some parent1) anchor) w1).
        { unfold sourceIDForLinked in *. rewrite Hid. by eapply own_lane_moves. }
        destruct (Hlinked parent1 w1 Hown1 Hid E2) as [H1 H2]. split; [by eapply start_before|done].
    + intros [= <- <- <-]. split; [by apply start_failed|done].
  - intros [= <- <- <-]. split; [|done]. exists n. split; [done|].
    inversion He as [| | |? ? ? ? ? _ Hrpc|? _ Hrpc]; subst; [apply ends_failed|apply ends_failed|..]; apply ends_lost; auto.
Qed.
End starts.
