(* ===== verification/Drain.v ===== *)
(** * Draining the commands of a thread

    What drainNextLocked keeps, whatever App Server answers and whatever fails: the turns
    it starts, the workers it runs, and what becomes of the commands it claims. *)
From stdpp Require Import base list numbers strings gmap relations sorting.
From Stdlib Require Import Lia Ascii.
From S2P Require Import Prelude GoStrings GoTime Sql Json Model Normalize MinimalTables CoreTables Store Queue QueueSafety Threads TerminalGate NotifierIngress.
From S2P Require Import LinkedThread PendingCommands Continuations Observations Projects LinkWorkers Routing Starts Router RouterSafety.

(** The ids of the commands that are claimed. *)
Definition claimed_commands (s : Store) : list Z :=
  pc_ID <$> filter (fun row => pc_is PendingCommandStatusClaimed row = true) (pending_rows s).

(** The turns and the workers of a run. *)
Record runs (r : Router) (n : nat) (w w' : RouterWorld) : Prop := {
  rn_turns : exists l, rw_Turns w' = rw_Turns w ++ l /\ length (omap snd l) = n /\ Forall (sandboxed r) l.*1;
  rn_workers : workers_run w w' }.

(** A start of a claimed command that fails may be followed by the next: it started
    nothing, and goes on with the thread, unless the conversation it was queued for has
    no turn id. *)
Definition queue_ok (r : Router) (thread : Thread) (n : nat) (q : QueuedStart) : Prop :=
  let '((turnID, startErr), thread') := q in
  (n <= 1)%nat
  /\ (fate_of turnID startErr = Fails ->
      (n = 0%nat \/ persist_fails r) /\ (th_ID thread' = th_ID thread \/ (startErr = None /\ is_blank_id turnID = true))).

(** A start that answers a conversation at work whose turn has no id. *)
Definition queued_nameless (r : Router) (now : instant) (thread' : Thread) : Prop :=
  exists inbound thread project command w1 w2 turnID,
    startQueuedCommand r now inbound thread project command w1 = ((turnID, None, thread'), w2)
    /\ is_blank_id turnID = true.

(** A turn of the loop. *)
Definition turn_ok (r : Router) (now : instant) (threadID : string) (thread : Thread) (w : RouterWorld)
    (a : Thread + option start_error) (w' : RouterWorld) : Prop :=
  exists n, runs r n w w' /\ (n <= 1)%nat
  /\ match a with
     | inl thread' =>
         (n = 0%nat \/ persist_fails r)
         /\ claimed_commands (rw_Store w') ≡ₚ claimed_commands (rw_Store w)
         /\ (th_ID thread' = th_ID thread \/ queued_nameless r now thread')
         /\ (trim_space threadID = trim_space (th_ID thread) ->
             no_self (Some (trim_space threadID)) (rw_Store w) ->
             no_self (Some (trim_space threadID)) (rw_Store w')
             /\ (waiting_in (Some (trim_space threadID)) (pending_rows (rw_Store w'))
                 < waiting_in (Some (trim_space threadID)) (pending_rows (rw_Store w)))%nat)
     | inr None => claimed_commands (rw_Store w') ≡ₚ claimed_commands (rw_Store w)
     | inr (Some _) => True
     end.


(** Two commands wait for a thread of a registered project. *)
Definition ex_now : instant := 1700000000000000000%Z.

Definition ex_answers : AppServer :=
  mkAppServer (fun _ => Some (mkSessionStart None true None)) (fun _ _ _ => inr (Plain "no")) (fun _ _ _ _ => None)
    (fun _ _ _ => inr (Plain "no")) (fun _ _ _ _ _ => inr (Plain "no")) (fun _ _ _ _ => None)
    (fun n _ => inl [("turn", JObj [("id", JStr ("turn-" +:+ format_int (Z.of_nat n)))])]) (fun _ _ => None).

Definition ex_router : Router :=
  newMinimalRouter ex_platform (Some ex_registry) (Some plainProtector) 0 ex_answers true ex_now.

(** The same, with a store that takes no thread. *)
Definition ex_forgetful : Router :=
  mkRouter (fun _ => tx_fail "disk full") (ro_enqueuePending ex_router) (ro_completePending ex_router)
    (ro_failPending ex_router) ex_platform (Some ex_registry) (Some plainProtector) 0 ex_answers true.

Definition ex_thread : Thread :=
  set_th_CWD "/work/alpha" (set_th_ID "t" zeroThread).

Definition ex_waiting_command (text : string) : PendingCommand :=
  mkPendingCommand 0 "t" "t" "turn-0" "Alpha" 7 0 text "" "".

Definition ex_lane : Store :=
  match (tx! _ := UpsertThread ex_thread in
         tx! _ := EnqueuePendingCommand (Some plainProtector) "" (ex_waiting_command "first") in
         EnqueuePendingCommand (Some plainProtector) "" (ex_waiting_command "second")) emptyStore with
  | Ok (_, s) => s
  | Err _ => emptyStore
  end.

Definition ex_world : RouterWorld :=
  mkRouterWorld ex_lane (Some (newMinimalLinkWorkerManager "n")) 0 [] 0 [] [].

(** The oldest command of the source cannot be read. *)
Definition ex_unreadable : RouterWorld :=
  set_rw_Store (with_rows pending_table
    [mkPendingRow 1 "t" "t" "turn-0" "Alpha" 7 0 (Some "damaged") PendingCommandStatusPending ""] ex_lane) ex_world.


Definition ex_inbound : InboundText := mkInboundText 7 0 0 0 0 "" 0%Z.
Definition ex_project : Project := default (mkProject "" "" "") (head (Projects (Some ex_registry))).

#[local] Arguments update_where : simpl never.
#[local] Arguments affected : simpl never.
#[local] Arguments find_first : simpl never.

(** ** Runs *)

Lemma moves_runs r T n w w' : moves r T n w w' -> runs r n w w'.
Proof. by intros [H1 H2 _ _]. Qed.

Lemma runs_trans r n m a b c : runs r n a b -> runs r m b c -> runs r (n + m) a c.
Proof.
  intros [(l1 & E1 & N1 & S1) W1] [(l2 & E2 & N2 & S2) W2]. split; [|by eapply workers_run_trans].
  exists (l1 ++ l2). rewrite E2, E1, app_assoc. split; [done|]. rewrite omap_app, length_app, fmap_app, N1, N2.
  split; [done|]. by apply Forall_app.
Qed.

Lemma runs_quiet r n a b c : runs r n a b ->
  rw_Turns c = rw_Turns b -> rw_Workers c = rw_Workers b -> rw_Made c = rw_Made b -> rw_Closed c = rw_Closed b -> runs r n a c.
Proof.
  intros [(l & E & N & S) W] E1 E2 E3 E4. split; [exists l; by rewrite E1|].
  eapply workers_run_trans; [exact W|by apply workers_run_refl].
Qed.

Lemma runs_refl r w : runs r 0 w w.
Proof. split; [|by apply workers_run_refl]. exists []. rewrite app_nil_r. split; [done|]. split; [done|constructor]. Qed.

(** A transaction changes the store only. *)
Lemma tx_store {A} (m : Tx Store A) w a w' : tx m w = (a, w') ->
  (forall r n b, runs r n b w -> runs r n b w') /\ rw_Sent w' = rw_Sent w
  /\ match a with
     | inl x => m (rw_Store w) = Ok (x, rw_Store w')
     | inr _ => w' = w
     end.
Proof.
  unfold tx. destruct (m (rw_Store w)) as [[x s]|e]; intros [= <- <-]; [|done].
  split; [|done]. intros r n b H. by eapply runs_quiet.
Qed.

(** ** The claimed commands *)

Lemma rows_moved_claimed rows rows' : rows_moved rows rows' ->
  pc_ID <$> filter (fun row => pc_is PendingCommandStatusClaimed row = true) rows'
  = pc_ID <$> filter (fun row => pc_is PendingCommandStatusClaimed row = true) rows.
Proof.
  intros (old & new & -> & H1 & H2). rewrite filter_app, fmap_app.
  assert (Hnew : filter (fun row => pc_is PendingCommandStatusClaimed row = true) new = []).
  { induction H2 as [|x l Hx _ IH]; [done|]. rewrite filter_cons_False; [exact IH|].
    apply pc_is_eq in Hx. unfold pc_is. rewrite Hx. done. }
  rewrite Hnew, app_nil_r. induction H1 as [|x y l k Hxy _ IH]; [done|]. rewrite !filter_cons.
  rewrite (row_kept_status x y _ Hxy). destruct (decide _); [|exact IH]. cbn. f_equal; [|exact IH].
  unfold row_kept, upd_pc_thread in Hxy. by injection Hxy.
Qed.

Lemma moves_claimed r T n w w' : moves r T n w w' -> claimed_commands (rw_Store w') = claimed_commands (rw_Store w).
Proof. intros H. apply rows_moved_claimed. exact (sm_rows _ _ _ (mv_store _ _ _ _ _ H)). Qed.

(** One row of the table changes. *)
Lemma claimed_split l x k : pc_ID <$> filter (fun row => pc_is PendingCommandStatusClaimed row = true) (l ++ x :: k)
  ≡ₚ (if pc_is PendingCommandStatusClaimed x then [pc_ID x] else [])
     ++ (pc_ID <$> filter (fun row => pc_is PendingCommandStatusClaimed row = true) (l ++ k)).
Proof.
  rewrite !filter_app, filter_cons, !fmap_app. destruct (decide _) as [E|E]; cbn.
  - rewrite E. cbn. by rewrite <- Permutation_middle.
  - by destruct (pc_is _ x).
Qed.

Lemma waiting_split T l x k : waiting_in T (l ++ x :: k) = ((if waits_in T x then 1 else 0) + waiting_in T (l ++ k))%nat.
Proof.
  unfold waiting_in. rewrite !filter_app, filter_cons, !length_app. destruct (decide _) as [E|E]; cbn.
  - rewrite E. lia.
  - by destruct (waits_in T x).
Qed.

Lemma claim_takes p here peers s command err s' :
  claim_command p here peers s = Ok ((Some command, err), s') ->
  exists l x k, pending_rows s = l ++ x :: k /\ here x = true /\ pc_is PendingCommandStatusPending x = true
    /\ pc_ID x = cmd_ID command
    /\ s' = with_rows pending_table (l ++ upd_pc_status PendingCommandStatusClaimed x :: k) s.
Proof.
  unfold claim_command. intros H. tx_inv H. apply tx_gets_ok in Htx as [-> ->]. cbn in H.
  destruct (find_first (R := PendingRow) _ _) as [row|] eqn:Ef; [|done].
  destruct (find_first_some _ _ _ Ef) as [Hin Hc]. destruct (pc_Payload row) as [protected|]; [|done]. cbn in H.
  set (p0 := fun x => pc_id_is (pc_ID row) x && pc_is PendingCommandStatusPending x) in *.
  change (mt_pending (db_minimal s)) with (pending_rows s) in *.
  destruct (Z.eqb_spec (affected p0 (pending_rows s)) 1) as [Ea|]; cbn [negb] in H; [|done].
  destruct (affected_one p0 (upd_pc_status PendingCommandStatusClaimed) _ Ea) as (l & x & k & Hr & Hp & Hu).
  assert (Hrow : p0 row = true).
  { unfold p0, pc_id_is. rewrite Z.eqb_refl. unfold claimable_command in Hc. by bsimp. }
  assert (x = row) as ->.
  { unfold affected in Ea. assert (x ∈ filter (fun y => Is_true (p0 y)) (pending_rows s) /\ row ∈ filter (fun y => Is_true (p0 y)) (pending_rows s)) as [H1 H2].
    { rewrite !list_elem_of_filter, Hp, Hrow, Hr. split; (split; [done|]); [apply elem_of_app; right; left|by rewrite <- Hr]. }
    destruct (filter _ (pending_rows s)) as [|y [|]]; cbn in Ea; [lia| |lia].
    apply list_elem_of_singleton in H1, H2. congruence. }
  unfold claimable_command in Hc. bsimp.
  exists l, row, k. split; [done|]. split; [done|]. split; [done|].
  destruct (Unprotect p protected); injection H as <- _ <-; (split; [done|]); by rewrite <- Hu.
Qed.

Lemma claim_none p here peers s err s' :
  claim_command p here peers s = Ok ((None, err), s') -> s' = s.
Proof.
  unfold claim_command. intros H. tx_inv H. apply tx_gets_ok in Htx as [-> ->]. cbn in H.
  destruct (find_first (R := PendingRow) _ _) as [row|]; [|by injection H].
  destruct (pc_Payload row) as [protected|]; [|done]. cbn in H.
  destruct (negb _); [by injection H|]. by destruct (Unprotect p protected).
Qed.

(** A claim of the lane takes one command out of it. *)
Lemma thread_claim p threadID s command err s' :
  ClaimPendingCommand p threadID s = Ok ((Some command, err), s') ->
  claimed_commands s' ≡ₚ cmd_ID command :: claimed_commands s
  /\ waiting_in (Some (trim_space threadID)) (pending_rows s)
     = S (waiting_in (Some (trim_space threadID)) (pending_rows s'))
  /\ (forall T, no_self T s -> no_self T s').
Proof.
  unfold ClaimPendingCommand. destruct (String.eqb _ ""); [done|]. destruct p as [p|]; [|done].
  intros (l & x & k & Hr & Hx & Hp & Hid & ->)%claim_takes. apply String.eqb_eq in Hx. split; [|split].
  - unfold claimed_commands. cbn [pending_rows with_rows pending_table db_minimal set_minimal mt_pending set_mt_pending].
    rewrite Hr, !claimed_split. apply pc_is_eq in Hp.
    assert (pc_is PendingCommandStatusClaimed x = false) as -> by (unfold pc_is; by rewrite Hp).
    by rewrite <- Hid.
  - cbn [pending_rows with_rows pending_table db_minimal set_minimal mt_pending set_mt_pending].
    rewrite Hr, !waiting_split. unfold waits_in. rewrite Hp, Hx, bool_decide_true by done. done.
  - intros T [H1 H2]. by split.
Qed.

(** What takes a claimed command away: its row becomes another that is not claimed. *)
Lemma unclaim (f : PendingRow -> PendingRow) id e s a s' :
  sql_update_exactly 1 pending_table (fun r => pc_id_is id r && pc_is PendingCommandStatusClaimed r) f e s = Ok (a, s') ->
  (forall x, pc_is PendingCommandStatusClaimed (f x) = false) ->
  claimed_commands s ≡ₚ id :: claimed_commands s'
  /\ (forall T, no_self T s -> no_self T s')
  /\ ((forall x, pc_is PendingCommandStatusPending (f x) = false) ->
      forall T, (waiting_in T (pending_rows s') <= waiting_in T (pending_rows s))%nat).
Proof.
  intros (l & x & k & Hr & Hp & ->)%update_exactly_one Hf. apply andb_prop in Hp as [Hid Hp].
  unfold pc_id_is in Hid. apply Z.eqb_eq in Hid. change (rows_of pending_table s) with (pending_rows s) in Hr. split; [|split].
  - unfold claimed_commands. cbn [pending_rows with_rows pending_table db_minimal set_minimal mt_pending set_mt_pending].
    by rewrite Hr, !claimed_split, Hp, Hf, Hid.
  - intros T [H1 H2]. by split.
  - intros Hw T. cbn [pending_rows with_rows pending_table db_minimal set_minimal mt_pending set_mt_pending].
    rewrite Hr, !waiting_split. unfold waits_in at 1. rewrite Hw. cbn [andb]. lia.
Qed.

Section drain.
Context (r : Router) (now : instant) (HL : RouterLaws r now).

(** ** The fate of a claim *)

Lemma failClaimed_ok id w err w' : failClaimedCommand r id w = (err, w') ->
  (forall n b, runs r n b w -> runs r n b w')
  /\ (err = None -> claimed_commands (rw_Store w) ≡ₚ id :: claimed_commands (rw_Store w')
        /\ (forall T, no_self T (rw_Store w) -> no_self T (rw_Store w'))
        /\ forall T, (waiting_in T (pending_rows (rw_Store w')) <= waiting_in T (pending_rows (rw_Store w)))%nat).
Proof using HL.
  unfold failClaimedCommand. destruct (tx _ w) as [[u|e] w1] eqn:E; intros [= <- <-];
    apply tx_store in E as (H1 & _ & H2); (split; [apply H1|]); [|done]. intros _.
  apply (rl_fail _ _ HL) in H2. destruct (unclaim _ _ _ _ _ _ H2) as (H3 & H4 & H5); [done|]. split; [done|]. split; [done|by apply H5].
Qed.

Lemma completeClaimed_ok id w err w' : completeClaimedCommand r id w = (err, w') ->
  (forall n b, runs r n b w -> runs r n b w')
  /\ (err = None -> claimed_commands (rw_Store w) ≡ₚ id :: claimed_commands (rw_Store w')).
Proof using HL.
  unfold completeClaimedCommand. destruct (tx _ w) as [[u|e] w1] eqn:E; intros [= <- <-];
    apply tx_store in E as (H1 & _ & H2); (split; [apply H1|]); [|done]. intros _.
  apply (rl_complete _ _ HL) in H2. by destruct (unclaim _ _ _ _ _ _ H2) as [H3 _].
Qed.

Lemma releaseClaimed_ok id w err w' : releaseClaimedCommand id w = (err, w') ->
  (forall n b, runs r n b w -> runs r n b w')
  /\ (err = None -> claimed_commands (rw_Store w) ≡ₚ id :: claimed_commands (rw_Store w')).
Proof using.
  unfold releaseClaimedCommand. destruct (tx _ w) as [[u|e] w1] eqn:E; intros [= <- <-];
    apply tx_store in E as (H1 & _ & H2); (split; [apply H1|]); [|done]. intros _.
  by destruct (unclaim _ _ _ _ _ _ H2) as [H3 _].
Qed.

Lemma notify_store command w : rw_Store (notifyFailedStart r now command w) = rw_Store w
  /\ forall n b, runs r n b w -> runs r n b (notifyFailedStart r now command w).
Proof using.
  unfold notifyFailedStart. destruct (negb _); [done|]. destruct (GetGlobalObserverTarget _ _) as [target configured].
  destruct (match target with Some _ => _ | None => _ end) as [chatID topicID]. destruct (_ =? 0)%Z; [done|].
  split; [done|]. intros n b H. by eapply runs_quiet.
Qed.

Lemma failAndNotify_ok command thread w a w' :
  failAndNotify r now command thread w = (a, w') ->
  (forall n b, runs r n b w -> runs r n b w')
  /\ match a with
     | inl thread' => thread' = thread /\ claimed_commands (rw_Store w) ≡ₚ cmd_ID command :: claimed_commands (rw_Store w')
         /\ (forall T, no_self T (rw_Store w) -> no_self T (rw_Store w'))
         /\ forall T, (waiting_in T (pending_rows (rw_Store w')) <= waiting_in T (pending_rows (rw_Store w)))%nat
     | inr err => err <> None
     end.
Proof using HL.
  unfold failAndNotify. destruct (failClaimedCommand r _ w) as [err w1] eqn:E.
  apply failClaimed_ok in E as [H1 H2]. destruct (notify_store command w1) as [Hs Hn]. intros [= <- <-].
  split; [by intros n b H; apply Hn, H1|]. destruct err; [done|]. split; [done|]. rewrite Hs. by apply H2.
Qed.

(** ** Starts *)

Lemma queued_ok wrap answer thread thread1 n :
  th_ID thread1 = th_ID thread -> ends r n answer ->
  queue_ok r thread n (queued_answer wrap answer thread1).
Proof using.
  intros Hid He. inversion He as [e|t title|t turnID title|t turnID forked title err Hb Hrpc|e Hp Hrpc]; subst;
    unfold queue_ok, queued_answer, after_start; cbn [cs_turnID cs_thread failed_start owned noStart default from_option].
  - split; [lia|]. intros _. split; [by left|by left].
  - split; [lia|done].
  - split; [lia|]. intros Hf. split; [by left|right]. split; [done|]. unfold fate_of in Hf.
    by destruct (is_blank_id turnID).
  - split; [lia|]. rewrite Hb. cbn [andb]. destruct err as [e|]; unfold fate_of; by rewrite Hb.
  - split; [lia|]. intros _. split; [by right|by left].
Qed.

Lemma startOnThread_ok T inbound thread project command w q w' :
  (forall t, T = Some t -> t = trim_space (th_ID thread) /\ no_self T (rw_Store w)) ->
  startOnThread r now inbound thread project command w = (q, w') ->
  exists n, moves r T n w w' /\ queue_ok r thread n q.
Proof using HL.
  intros Hown. unfold startOnThread.
  destruct (if _ && _ then _ else _) as [[answer thread1] w1] eqn:E. intros [= <- <-].
  assert (H : exists n, moves r T n w w1 /\ ends r n answer /\ th_ID thread1 = th_ID thread).
  { destruct (String.eqb_spec (trim_space (cmd_SourceThreadID command)) (th_ID thread)) as [Hs|_]; cbn [andb] in E.
    - destruct (negb _).
      + apply (startPolicy_ok r now T HL) in E as [(n & Hn & He) Hid]; [by exists n|]. intros t Ht.
        destruct (Hown t Ht) as [-> N]. split; [|done]. unfold sourceIDForLinked. cbn [an_ThreadID].
        rewrite Hs. destruct (String.eqb_spec (th_ID thread) "") as [E0|_]; [done|]. rewrite <- Hs. apply trim_space_idemp.
      + apply (startExisting_ok r now T HL) in E as (n & Hn & He & Hid & _). by exists n.
    - apply (startExisting_ok r now T HL) in E as (n & Hn & He & Hid & _). by exists n. }
  destruct H as (n & Hn & He & Hid). exists n. split; [done|]. by apply queued_ok.
Qed.

Lemma startQueued_ok T inbound thread project command w q w' :
  (forall t, T = Some t -> t = trim_space (th_ID thread) /\ no_self T (rw_Store w)) ->
  startQueuedCommand r now inbound thread project command w = (q, w') ->
  exists n, moves r T n w w' /\ queue_ok r thread n q.
Proof using HL.
  intros Hown. unfold startQueuedCommand. destruct (_ && _); [|by apply startOnThread_ok].
  destruct (GetMinimalLinkedThreadByLinkedID _ _ _) as [link|e].
  2: { intros [= <- <-]. exists 0%nat. split; [apply moves_refl|]. split; [lia|]. intros _. split; by left. }
  destruct (command_link link project command) as [l|]; [|by apply startOnThread_ok].
  destruct (_ || _) eqn:Er.
  { intros [= <- <-]. exists 0%nat. split; [apply moves_refl|]. split; [lia|done]. }
  destruct (negb _).
  { intros [= <- <-]. exists 0%nat. split; [apply moves_refl|]. split; [lia|]. intros _. split; by left. }
  destruct (startCanonicalLinkedTurn r now _ _ _ _ _ _ w) as [answer w1] eqn:E. intros [= <- <-].
  apply (startCanonical_ok r now T HL) in E as (n & Hn & He).
  - exists n. split; [done|]. by apply queued_ok.
  - left. apply orb_false_iff in Er as [Er _]. by apply String.eqb_neq.
Qed.

(** ** The loop *)

Lemma drainCommand_ok threadID command thread w0 w a w' :
  runs r 0 w0 w -> claimed_commands (rw_Store w) ≡ₚ cmd_ID command :: claimed_commands (rw_Store w0) ->
  (waiting_in (Some (trim_space threadID)) (pending_rows (rw_Store w0))
   = S (waiting_in (Some (trim_space threadID)) (pending_rows (rw_Store w)))) ->
  (forall T, no_self T (rw_Store w0) -> no_self T (rw_Store w)) ->
  drainCommand r now command thread w = (a, w') -> turn_ok r now threadID thread w0 a w'.
Proof using HL.
  intros Hr Hc Hw HT.
  assert (Hfail : forall n t1 w1, failAndNotify r now command t1 w1 = (a, w') ->
            runs r n w0 w1 -> (n <= 1)%nat -> n = 0%nat \/ persist_fails r ->
            claimed_commands (rw_Store w1) ≡ₚ cmd_ID command :: claimed_commands (rw_Store w0) ->
            (th_ID t1 = th_ID thread \/ queued_nameless r now t1) ->
            (trim_space threadID = trim_space (th_ID thread) -> no_self (Some (trim_space threadID)) (rw_Store w0) ->
             no_self (Some (trim_space threadID)) (rw_Store w1)
             /\ (waiting_in (Some (trim_space threadID)) (pending_rows (rw_Store w1))
                 < waiting_in (Some (trim_space threadID)) (pending_rows (rw_Store w0)))%nat) ->
            turn_ok r now threadID thread w0 a w').
  { intros n t1 w1 E R1 Hn Hn' C1 Ht Hlane. apply failAndNotify_ok in E as [H1 H2]. exists n. split; [by apply H1|].
    split; [done|]. destruct a as [t2|[e|]]; [|done|done]. destruct H2 as (-> & C2 & T2 & W2). split; [done|]. split.
    - rewrite C1 in C2. symmetry. by apply Permutation_cons_inv in C2.
    - split; [done|]. intros E N. destruct (Hlane E N) as [N1 L1]. split; [by apply T2|].
      specialize (W2 (Some (trim_space threadID))). lia. }
  unfold drainCommand. destruct (claimedProject r thread command) as [[project cwd]|e].
  2: { intros E. eapply Hfail; [exact E|exact Hr|lia|by left|done|by left|]. intros _ N. split; [by apply HT|lia]. }
  destruct (startQueuedCommand _ _ _ _ _ _ w) as [[[turnID startErr] thread2] w2] eqn:E.
  destruct (startQueued_ok None _ _ _ _ _ _ _ ltac:(done) E) as (n & Hm & Hn & Hq).
  assert (R2 : runs r n w0 w2) by (change n with (0 + n)%nat; eapply runs_trans; [exact Hr|by eapply moves_runs]).
  assert (C2 : claimed_commands (rw_Store w2) ≡ₚ cmd_ID command :: claimed_commands (rw_Store w0))
    by (by rewrite (moves_claimed _ _ _ _ _ Hm)).
  destruct (fate_of turnID startErr) as [| | |e] eqn:Ef.
  - destruct (completeClaimedCommand r _ w2) as [err w3] eqn:E3. apply completeClaimed_ok in E3 as [H1 H2].
    intros [= <- <-]. exists n. split; [by apply H1|]. split; [done|]. destruct err; [done|].
    specialize (H2 eq_refl). rewrite C2 in H2. symmetry. by apply Permutation_cons_inv in H2.
  - destruct (releaseClaimedCommand _ w2) as [err w3] eqn:E3. apply releaseClaimed_ok in E3 as [H1 H2].
    intros [= <- <-]. exists n. split; [by apply H1|]. split; [done|]. destruct err; [done|].
    specialize (H2 eq_refl). rewrite C2 in H2. symmetry. by apply Permutation_cons_inv in H2.
  - destruct (Hq eq_refl) as [Hn' Ht]. intros E3. eapply Hfail; [exact E3|exact R2|done|done|done| |].
    + destruct Ht as [Ht|[-> Hb]]; [by left|right]. by eexists _, _, _, _, _, _, _.
    + intros Et N. assert (N1 := HT _ N).
      apply (startQueued_ok (Some (trim_space threadID))) in E as (n1 & Hm1 & _); [|by intros t [= <-]].
      destruct (sm_lane _ _ _ (mv_store _ _ _ _ _ Hm1) N1) as [N2 L2]. split; [done|lia].
  - intros [= <- <-]. by exists n.
Qed.

Lemma drainTurn_ok threadID thread w a w' :
  drainTurn r now threadID thread w = (a, w') -> turn_ok r now threadID thread w a w'.
Proof using HL.
  unfold drainTurn. destruct (tx _ w) as [claimed w1] eqn:E. apply tx_store in E as (R1 & _ & H).
  assert (R : runs r 0 w w1) by (apply R1, runs_refl).
  destruct claimed as [[[command|] claimErr]|e].
  - apply thread_claim in H as (C & W & N). destruct claimErr as [e|]; [|by apply drainCommand_ok].
    intros E. apply failAndNotify_ok in E as [H1 H2]. exists 0%nat. split; [by apply H1|]. split; [lia|].
    destruct a as [t2|[e'|]]; [|done|done]. destruct H2 as (-> & C2 & T2 & W2). split; [by left|]. split.
    + rewrite C in C2. symmetry. by apply Permutation_cons_inv in C2.
    + split; [by left|]. intros _ N0. split; [by apply T2, N|]. specialize (W2 (Some (trim_space threadID))). lia.
  - intros [= <- <-]. exists 0%nat. split; [done|]. split; [lia|]. destruct claimErr; [done|].
    cbn [fmap option_fmap option_map]. revert H. unfold ClaimPendingCommand. destruct (String.eqb _ ""); [done|].
    destruct (ro_Protector r) as [p|]; [|done]. intros H. by apply claim_none in H as ->.
  - intros [= <- <-]. exists 0%nat. split; [done|]. split; [lia|done].
Qed.
End drain.


Section loop.
Context (r : Router) (now : instant) (HL : RouterLaws r now).

(** At most one start of a loop ends with a turn, unless the store could not take its
    thread. *)
Lemma drainLoop_ok threadID fuel : forall thread w answer w',
  drainLoop r now fuel threadID thread w = Some (answer, w') ->
  exists n, runs r n w w' /\ ((n <= 1)%nat \/ persist_fails r)
    /\ (answer = None -> claimed_commands (rw_Store w') ≡ₚ claimed_commands (rw_Store w)).
Proof using HL.
  induction fuel as [|fuel IH]; [done|]. intros thread w answer w'. cbn [drainLoop].
  destruct (drainTurn r now threadID thread w) as [[thread1|answer1] w1] eqn:E;
    apply (drainTurn_ok r now HL) in E as (n & Hn & Hle & H).
  - destruct H as (Hz & Hc & _). intros (m & Hm & Hle' & Hc')%IH. exists (n + m)%nat. split; [by eapply runs_trans|]. split.
    + destruct Hz as [->|?]; [exact Hle'|by right].
    + intros Ha. by rewrite (Hc' Ha).
  - intros [= <- <-]. exists n. split; [done|]. split; [by left|]. by intros ->.
Qed.

End loop.

(** The service's own router. *)
Lemma newMinimalRouter_laws pf registry protector poll server hasSender now :
  RouterLaws (newMinimalRouter pf registry protector poll server hasSender now) now.
Proof. by split. Qed.

Lemma newMinimalRouter_persists pf registry protector poll server hasSender now :
  ~ persist_fails (newMinimalRouter pf registry protector poll server hasSender now).
Proof.
  intros (t & s & e & H). revert H. cbn [ro_persistThread newMinimalRouter]. unfold persistThread. cbv zeta.
  destruct (if threadLooksActiveForPolling t then _ else None) as [project|]; [|done].
  by destruct (String.eqb (pj_ID project) "").
Qed.

(** ** Theorems *)

(** C15: Whatever App Server answers, a drain of a thread's commands only makes turn/start
    requests that keep the turn in the sandbox of a registered project (approval on request,
    one writable root, no network), starts at most one turn unless the store could not
    take the thread of a turn that runs, and, if it answers no error, leaves no command
    claimed that was not claimed before. *)
Theorem drainNextLocked_safe r now threadID w answer w' :
  RouterLaws r now -> drainNextLocked r now threadID w = Some (answer, w') ->
  exists calls, rw_Turns w' = rw_Turns w ++ calls /\ Forall (sandboxed r) calls.*1
    /\ ((length (omap snd calls) <= 1)%nat \/ persist_fails r)
    /\ (answer = None -> claimed_commands (rw_Store w') ≡ₚ claimed_commands (rw_Store w)).
Proof.
  intros HL. unfold drainNextLocked. destruct (GetThread threadID (rw_Store w)) as [thread|].
  2: { intros [= <- <-]. exists []. rewrite app_nil_r. split; [done|]. split; [constructor|]. split; [left; cbn; lia|done]. }
  destruct (threadLooksActiveForInput thread).
  { intros [= <- <-]. exists []. rewrite app_nil_r. split; [done|]. split; [constructor|]. split; [left; cbn; lia|done]. }
  intros (n & [(l & E & N & S) _] & Hn & Hc)%drainLoop_ok; [|done]. exists l. rewrite N. auto.
Qed.

Theorem drainNextLocked_safe_witness :
  match drainNextLocked ex_router ex_now "t" ex_world with
  | Some (answer, w') =>
      answer = None /\ (exists call turnID, rw_Turns w' = [(call, Some turnID)] /\ sandboxed ex_router call)
      /\ claimed_commands (rw_Store w') = []
  | None => False
  end.
Proof.
  destruct (drainNextLocked ex_router ex_now "t" ex_world) as [[answer w']|] eqn:E; [|vm_compute in E; discriminate E].
  destruct (drainNextLocked_safe _ _ _ _ _ _ (newMinimalRouter_laws _ _ _ _ _ _ _) E) as (calls & Hc & Hs & Hn & Ha).
  assert (E1 : match drainNextLocked ex_router ex_now "t" ex_world with
               | Some (a, w1) => a = None /\ exists call turnID, rw_Turns w1 = [(call, Some turnID)]
               | None => False end) by (vm_compute; split; [reflexivity|by eexists _, _]).
  rewrite E in E1. destruct E1 as [-> (call & turnID & Ht)]. split; [done|]. split.
  - exists call, turnID. split; [done|]. rewrite Ht in Hc. cbn [rw_Turns ex_world app] in Hc. rewrite <- Hc in Hs.
    by apply Forall_cons in Hs as [Hs _].
  - specialize (Ha eq_refl). change (claimed_commands (rw_Store ex_world)) with (@nil Z) in Ha. by apply Permutation_nil_r in Ha.
Defined.



(** A drain is a run of the machine of the workers, among whatever other callers are in
    flight: what is proved of the machine holds while commands are drained. *)
Theorem drain_runs_workers r now threadID w answer w' m nonce acquires closing finishing :
  RouterLaws r now -> drainNextLocked r now threadID w = Some (answer, w') -> rw_Workers w = Some m ->
  worker_reachable nonce (mkSystem m acquires (rw_Made w) closing finishing (rw_Closed w)) ->
  exists m', rw_Workers w' = Some m'
    /\ ((Z.of_nat (length (mg_Heap m')) + 1 < 2 ^ 64)%Z ->
        worker_reachable nonce (mkSystem m' acquires (rw_Made w') closing finishing (rw_Closed w'))).
Proof.
  intros HL E Hm Hr.
  assert (HW : workers_run w w').
  { revert E. unfold drainNextLocked. destruct (GetThread threadID (rw_Store w)) as [thread|];
      [|intros [= <- <-]; by apply workers_run_refl].
    destruct (threadLooksActiveForInput thread); [intros [= <- <-]; by apply workers_run_refl|].
    by intros (n & [_ H] & _)%drainLoop_ok. }
  unfold workers_run in HW. rewrite Hm in HW. destruct (rw_Workers w') as [m'|]; [|done]. destruct HW as [_ HW].
  exists m'. split; [done|]. intros Hb. unfold worker_reachable in *. etrans; [exact Hr|].
  apply HW; [|done]. by eapply reachable_inv.
Qed.

Theorem drain_runs_workers_witness :
  match drainNextLocked ex_router ex_now "t" ex_world with
  | Some (_, w') => exists m', rw_Workers w' = Some m'
      /\ worker_reachable "n" (mkSystem m' [] (rw_Made w') [] [] (rw_Closed w'))
  | None => False
  end.
Proof.
  destruct (drainNextLocked ex_router ex_now "t" ex_world) as [[answer w']|] eqn:E; [|vm_compute in E; discriminate E].
  destruct (drain_runs_workers ex_router ex_now "t" ex_world answer w' (newMinimalLinkWorkerManager "n") "n" [] [] []
              (newMinimalRouter_laws _ _ _ _ _ _ _) E eq_refl (rtc_refl _ _)) as (m' & Hm & H).
  exists m'. split; [done|]. apply H.
  assert (E1 : match drainNextLocked ex_router ex_now "t" ex_world with
               | Some (_, w1) => match rw_Workers w1 with Some m1 => length (mg_Heap m1) = 1%nat | None => False end
               | None => False end) by (vm_compute; reflexivity).
  rewrite E, Hm in E1. rewrite E1. done.
Defined.

(** When the store takes no thread, the turns that were started are taken for starts
    that failed: both commands are marked failed and the sender is told so twice, but two
    turns run on the one thread. *)
Theorem lost_turns_started_twice :
  exists answer w' c1 c2 u1 u2,
    drainNextLocked ex_forgetful ex_now "t" ex_world = Some (answer, w') /\ answer = None
    /\ rw_Turns w' = [(c1, Some u1); (c2, Some u2)] /\ tc_ThreadID c1 = "t" /\ tc_ThreadID c2 = "t"
    /\ rw_Sent w' = [(7%Z, 0%Z, failedStartText); (7%Z, 0%Z, failedStartText)]
    /\ map pc_Status (pending_rows (rw_Store w')) = [PendingCommandStatusFailed; PendingCommandStatusFailed].
Proof. do 6 eexists. split; [vm_compute; reflexivity|]. vm_compute. by repeat split. Qed.

(** A command that cannot be read blocks its source: the reply that is put behind the
    backlog answers an error and leaves the command claimed, and then nothing of its thread
    is started.  A drain that meets such a command marks it failed instead. *)
Theorem unreadable_command_blocks :
  let '(answer, w') := enqueueBehindSourceBacklogAndStartOldest ex_router ex_now ex_inbound ex_thread ex_project
                         "t" "turn-0" "next" ex_unreadable in
  (exists e, answer = inr e) /\ claimed_commands (rw_Store w') = [1%Z]
  /\ (exists w2, drainNextLocked ex_router ex_now "t" w' = Some (None, w2) /\ rw_Turns w2 = []
       /\ claimed_commands (rw_Store w2) = [1%Z])
  /\ match drainNextLocked ex_router ex_now "t" ex_unreadable with
     | Some (answer2, w3) => answer2 = None /\ map pc_Status (pending_rows (rw_Store w3)) = [PendingCommandStatusFailed]
     | None => False
     end.
Proof. vm_compute. split; [by eexists|]. split; [done|]. split; [by eexists|done]. Qed.
