(* ===== verification/TgFormat.v ===== *)
(** * internal/tgformat/markdown.go: the messages of Telegram

    A text is put together of plain and of Markdown segments; telegramify-markdown-go
    converts the Markdown, counts in UTF-16 code units and splits what is too long.  That
    module is not part of the repository: what it answers is an argument. *)
From stdpp Require Import base list numbers strings.
From Stdlib Require Import Lia Ascii DecimalString.
From Stdlib Require DecimalN DecimalPos DecimalFacts.
From S2P Require Import Prelude GoStrings Utf8 Model MinimalSplit.

Definition TelegramMessageLimit : Z := 4096.

Record Segment : Type := mkSegment {
  sg_Plain : string;
  sg_Markdown : string }.

Definition Plain (text : string) : Segment := mkSegment text "".
Definition Markdown (text : string) : Segment := mkSegment "" text.

(** tgmd.Entity, as far as the code reads it, and tgmd.Message. *)
Record TgEntity : Type := mkTgEntity {
  tge_Type : string;
  tge_Offset : Z;
  tge_Length : Z;
  tge_URL : string;
  tge_Language : string }.

Definition TgMessage : Type := string * list TgEntity.

Record Tgmd : Type := mkTgmd {
  tg_UTF16Len : string -> Z;
  tg_Convert : string -> TgMessage;
  tg_Split : TgMessage -> Z -> list TgMessage }.

Definition shift_entity (offset : Z) (entity : TgEntity) : TgEntity :=
  mkTgEntity (tge_Type entity) (tge_Offset entity + offset) (tge_Length entity) (tge_URL entity) (tge_Language entity).

Definition convertEntities (entities : list TgEntity) : list MessageEntity :=
  map (fun e => mkMessageEntity (tge_Type e) (tge_Offset e) (tge_Length e) (tge_URL e) (tge_Language e)) entities.

(** One turn of the loop of RenderSegments. *)
Definition render_segment (tg : Tgmd) (message : TgMessage) (segment : Segment) : TgMessage :=
  let text := if String.eqb (sg_Plain segment) "" then message.1 else message.1 +:+ sg_Plain segment in
  if String.eqb (trim_space (sg_Markdown segment)) "" then (text, message.2)
  else
    let offset := tg_UTF16Len tg text in
    let '(converted, entities) := tg_Convert tg (sg_Markdown segment) in
    (text +:+ converted, message.2 ++ map (shift_entity offset) entities).

Definition RenderSegments (tg : Tgmd) (segments : list Segment) (maxLen0 : Z) : list RenderedMessage :=
  let maxLen := if (maxLen0 <=? 0)%Z then TelegramMessageLimit else maxLen0 in
  let message := fold_left (render_segment tg) segments ("", []) in
  match map (fun chunk => mkRendered chunk.1 (convertEntities chunk.2)) (tg_Split tg message maxLen) with
  | [] => [mkRendered " " []]
  | out => out
  end.

(** strings.TrimRight(s, "\n") *)
Definition trim_right_byte (c : ascii) (s : string) : string :=
  str_rev_app (trim_left_byte c (str_rev_app s "")) "".

Definition RenderMarkdownWithHeader (tg : Tgmd) (header markdown : string) : list RenderedMessage :=
  RenderSegments tg
    [Plain (trim_right_byte "010" header); Plain (str2 "010" "010"); Markdown (trim_space markdown)]
    TelegramMessageLimit.

Definition hash_entity (e : MessageEntity) : string :=
  me_Type e +:+ ":" +:+ format_int (me_Offset e) +:+ ":" +:+ format_int (me_Length e) +:+ ":"
    +:+ me_URL e +:+ ":" +:+ me_Language e.

Definition HashRendered (message : RenderedMessage) : string :=
  join (str1 "000") (rm_Text message :: map hash_entity (rm_Entities message)).

(** A text whose fields do not hold the separators of the hash. *)
Definition hashable (message : RenderedMessage) : Prop :=
  has_byte "000" (rm_Text message) = false
  /\ Forall (fun e => has_byte "000" (hash_entity e) = false /\ has_byte ":" (me_Type e) = false
                      /\ has_byte ":" (me_Language e) = false) (rm_Entities message).

(** What the module documents: lengths in UTF-16 code units, entities within their text,
    and a text that fits is one chunk. *)
Record TgmdLaws (tg : Tgmd) : Prop := {
  tgl_length : forall s, tg_UTF16Len tg s = utf16_len (runes s);
  tgl_convert : forall s, Forall (fun e => 0 <= tge_Offset e /\ 0 <= tge_Length e
      /\ tge_Offset e + tge_Length e <= utf16_len (runes (tg_Convert tg s).1))%Z (tg_Convert tg s).2;
  tgl_split : forall message maxLen, message.1 <> "" -> (utf16_len (runes message.1) <= maxLen)%Z ->
      tg_Split tg message maxLen = [message] }.

(** A converter that leaves the text alone and marks all of it. *)
Definition plainTgmd : Tgmd :=
  mkTgmd (fun s => utf16_len (runes s))
    (fun s => (s, [mkTgEntity "code" 0 (utf16_len (runes s)) "" ""]))
    (fun message _ => [message]).

(** *** What the messages are: each segment for itself, put one after the other *)
Definition utf8_text (s : string) : Prop := string_of_runes (runes s) = s.

Definition segment_message (tg : Tgmd) (segment : Segment) : TgMessage :=
  let converted := if String.eqb (trim_space (sg_Markdown segment)) "" then ("", []) else tg_Convert tg (sg_Markdown segment) in
  (sg_Plain segment +:+ converted.1, map (shift_entity (utf16_len (runes (sg_Plain segment)))) converted.2).

(** What a segment says can be read. *)
Definition valid_segment (tg : Tgmd) (segment : Segment) : Prop :=
  utf8_text (sg_Plain segment) /\ utf8_text (tg_Convert tg (sg_Markdown segment)).1.

Definition put_after (a b : TgMessage) : TgMessage :=
  (a.1 +:+ b.1, a.2 ++ map (shift_entity (utf16_len (runes a.1))) b.2).

Definition entities_within (message : TgMessage) : Prop :=
  Forall (fun e => 0 <= tge_Offset e /\ 0 <= tge_Length e
                   /\ tge_Offset e + tge_Length e <= utf16_len (runes message.1))%Z message.2.

Definition ex_segments : list Segment := [Plain "head: "; Markdown "rm -rf"; Plain "."; Markdown "ls"].

(** Bytes below 128 only. *)
Fixpoint ascii_only (s : string) : bool :=
  match s with EmptyString => true | String a r => code_in a 0 127 && ascii_only r end.

(** ** Lemmas *)

(** *** ASCII texts *)
Lemma ascii_only_app s t : ascii_only (s +:+ t) = ascii_only s && ascii_only t.
Proof. induction s as [|a s IH]; [done|]. change (ascii_only (String a s +:+ t)) with (code_in a 0 127 && ascii_only (s +:+ t)). rewrite IH. cbn [ascii_only]. by rewrite andb_assoc. Qed.

Lemma runes_ascii_app s t : ascii_only s = true -> runes (s +:+ t) = runes s ++ runes t.
Proof.
  induction s as [|a s IH]; [done|]. cbn [ascii_only]. intros [Ha Hs]%andb_prop.
  change (String a s +:+ t) with (String a (s +:+ t)). rewrite !runes_one by done. cbn [app]. by rewrite IH.
Qed.

Lemma runes_ascii_length s : ascii_only s = true ->
  length (runes s) = String.length s /\ utf16_len (runes s) = Z.of_nat (String.length s).
Proof.
  induction s as [|a s IH]; [done|]. cbn [ascii_only]. intros [Ha Hs]%andb_prop. destruct (IH Hs) as [H1 H2].
  rewrite runes_one by done. rewrite utf16_len_cons, H2. cbn [length String.length]. rewrite H1.
  unfold code_in in Ha. apply in_range_inv in Ha. unfold utf16_width.
  rewrite in_range_false by lia. split; lia.
Qed.

Lemma ascii_uint d : ascii_only (NilEmpty.string_of_uint d) = true.
Proof. by induction d; cbn [NilEmpty.string_of_uint ascii_only]. Qed.

Lemma ascii_format_int z : ascii_only (format_int z) = true.
Proof.
  unfold format_int, NilZero.string_of_int.
  assert (forall d, ascii_only (NilZero.string_of_uint d) = true) as Hu.
  { intros d. destruct d; [done|by apply ascii_uint..]. }
  destruct (Z.to_int z); [apply Hu|]. cbn [ascii_only]. by rewrite Hu.
Qed.

(** *** The length of a decimal number *)
Lemma uint_length d : String.length (NilEmpty.string_of_uint d) = Decimal.nb_digits d.
Proof. induction d; cbn [NilEmpty.string_of_uint String.length Decimal.nb_digits]; by rewrite ?IHd. Qed.

Lemma of_uint_acc_large d : forall acc, (Npos acc * 10 ^ N.of_nat (Decimal.nb_digits d) <= Npos (Pos.of_uint_acc d acc))%N.
Proof.
  assert (H : forall k acc acc' b, (Npos acc' * 10 ^ N.of_nat k <= b)%N -> (Npos acc * 10 <= Npos acc')%N ->
                (Npos acc * 10 ^ N.of_nat (S k) <= b)%N).
  { intros k acc acc' b H1 H2. rewrite Nat2N.inj_succ, N.pow_succ_r'. etransitivity; [|exact H1].
    rewrite N.mul_assoc. by apply N.mul_le_mono_r. }
  induction d; intros acc; [cbn [Decimal.nb_digits Pos.of_uint_acc N.of_nat]; rewrite N.pow_0_r; lia|..];
    cbn [Decimal.nb_digits Pos.of_uint_acc]; (eapply H; [apply IHd|lia]).
Qed.

Lemma to_uint_short n k : (n < 10 ^ N.of_nat k)%N -> (Decimal.nb_digits (N.to_uint n) <= Nat.max k 1)%nat.
Proof.
  intros Hn. pose proof (DecimalN.Unsigned.of_to n) as Ho. pose proof (DecimalN.Unsigned.to_of (N.to_uint n)) as Hu.
  rewrite Ho in Hu. destruct n as [|p]; [cbn; lia|].
  assert (H : forall d acc, (Decimal.nb_digits d + 1 <= Nat.max k 1)%nat \/ (Npos acc * 10 ^ N.of_nat k <= Npos (Pos.of_uint_acc d acc))%N).
  { intros d acc. destruct (decide (k <= Decimal.nb_digits d)%nat) as [Hk|Hk]; [right|left; lia].
    etransitivity; [|apply of_uint_acc_large]. apply N.mul_le_mono_l, N.pow_le_mono_r; lia. }
  destruct (N.to_uint (Npos p)) as [|d|d|d|d|d|d|d|d|d|d] eqn:E; try (cbn; lia);
    try (match type of Ho with N.of_uint (_ d) = _ => cbn [N.of_uint Pos.of_uint] in Ho end;
         cbn [Decimal.nb_digits];
         match type of Ho with Npos (Pos.of_uint_acc d ?acc) = _ => destruct (H d acc) as [?|Hl]; [lia|rewrite Ho in Hl; lia] end).
  (* a leading zero *)
  assert (Hz : Decimal.D0 d = Decimal.zero).
  { rewrite Hu. change (Decimal.unorm (Decimal.D0 d)) with (Decimal.unorm d). pose proof (DecimalFacts.nzhead_nonzero d) as Hd.
    unfold Decimal.unorm in *. change (Decimal.nzhead (Decimal.D0 d)) with (Decimal.nzhead d) in Hu. destruct (Decimal.nzhead d) eqn:En; try done.
    by destruct (Hd u). }
  rewrite Hz in Ho. discriminate Ho.
Qed.

(** A number below 10^k takes no more than k digits. *)
Lemma format_int_short z k : (0 <= z < 10 ^ Z.of_nat (S k))%Z -> (String.length (format_int z) <= S k)%nat.
Proof.
  intros [Hz Hk]. unfold format_int, NilZero.string_of_int.
  assert (Z.to_int z = Decimal.Pos (N.to_uint (Z.to_N z))) as -> by (destruct z; try done; lia).
  assert ((Z.to_N z < 10 ^ N.of_nat (S k))%N) as Hn.
  { apply N2Z.inj_lt. rewrite Z2N.id, N2Z.inj_pow by done. rewrite nat_N_Z. done. }
  pose proof (to_uint_short _ _ Hn) as Hs. unfold NilZero.string_of_uint.
  destruct (N.to_uint (Z.to_N z)); [cbn; lia|rewrite uint_length; lia..].
Qed.

(** *** Rendering *)
Lemma render_text tg segments : forall message,
  exists text entities, fold_left (render_segment tg) segments message = (message.1 +:+ text, message.2 ++ entities).
Proof.
  induction segments as [|segment segments IH]; intros [text entities]; cbn [fold_left fst snd].
  { exists "", []. by rewrite str_app_nil_r, app_nil_r. }
  assert (exists t e, render_segment tg (text, entities) segment = (text +:+ t, entities ++ e)) as (t & e & ->).
  { unfold render_segment. cbn [fst snd]. destruct (tg_Convert tg _) as [c es].
    destruct (String.eqb (sg_Plain segment) ""), (String.eqb (trim_space _) "").
    - exists "", []. by rewrite str_app_nil_r, app_nil_r.
    - by eexists _, _.
    - eexists _, []. by rewrite app_nil_r.
    - eexists _, _. by rewrite <- str_app_assoc. }
  destruct (IH (text +:+ t, entities ++ e)) as (t' & e' & ->). cbn [fst snd]. exists (t +:+ t'), (e ++ e').
  by rewrite str_app_assoc, app_assoc.
Qed.

Lemma RenderSegments_nonempty tg segments maxLen : exists m out, RenderSegments tg segments maxLen = m :: out.
Proof. unfold RenderSegments. destruct (map _ _) as [|m out]; by eexists _, _. Qed.

Lemma utf16_len_runes_app s t : ascii_only s = true ->
  utf16_len (runes (s +:+ t)) = (Z.of_nat (String.length s) + utf16_len (runes t))%Z.
Proof. intros H. rewrite runes_ascii_app, utf16_len_app by done. by rewrite (proj2 (runes_ascii_length _ H)). Qed.

(** *** Valid texts *)
Lemma runes_valid_app s t : utf8_text s -> runes (s +:+ t) = runes s ++ runes t.
Proof. intros H. unfold utf8_text in H. rewrite <- H at 1. by rewrite runes_of_runes by apply runes_valid. Qed.

Lemma utf16_valid_app s t : utf8_text s -> utf16_len (runes (s +:+ t)) = (utf16_len (runes s) + utf16_len (runes t))%Z.
Proof. intros H. by rewrite runes_valid_app, utf16_len_app. Qed.

Lemma utf8_text_app s t : utf8_text s -> utf8_text t -> utf8_text (s +:+ t).
Proof. intros Hs Ht. unfold utf8_text. by rewrite runes_valid_app, string_of_runes_app, Hs, Ht. Qed.

Lemma shift_shift a b es : map (shift_entity a) (map (shift_entity b) es) = map (shift_entity (b + a)) es.
Proof. rewrite map_map. apply map_ext. intros e. unfold shift_entity. cbn. f_equal. lia. Qed.

Lemma put_after_assoc a b c : utf8_text a.1 -> put_after (put_after a b) c = put_after a (put_after b c).
Proof.
  intros Ha. unfold put_after. cbn [fst snd]. rewrite map_app, shift_shift, app_assoc, str_app_assoc.
  do 3 f_equal. rewrite utf16_valid_app by done. by rewrite Z.add_comm.
Qed.

Lemma put_after_within a b : utf8_text a.1 -> entities_within a -> entities_within b -> entities_within (put_after a b).
Proof.
  intros Hv Ha Hb. unfold entities_within, put_after in *. cbn [fst snd]. rewrite utf16_valid_app by done.
  apply Forall_app. split.
  - eapply Forall_impl; [exact Ha|]. intros e. cbn. pose proof (utf16_len_nonneg (runes b.1)). lia.
  - apply Forall_map. eapply Forall_impl; [exact Hb|]. intros e. cbn. pose proof (utf16_len_nonneg (runes a.1)). lia.
Qed.

(** *** The hash *)
Lemma cut_last_byte_inj c a1 a2 b1 b2 :
  has_byte c b1 = false -> has_byte c b2 = false ->
  a1 +:+ String c b1 = a2 +:+ String c b2 -> a1 = a2 /\ b1 = b2.
Proof.
  intros H1 H2. revert a2. induction a1 as [|x a1 IH]; intros [|y a2] H.
  - by injection H as ->.
  - injection H as _ H. rewrite H in H1. rewrite has_byte_app in H1. cbn [has_byte] in H1.
    by rewrite Ascii.eqb_refl, orb_true_r in H1.
  - injection H as _ H. rewrite <- H in H2. rewrite has_byte_app in H2. cbn [has_byte] in H2.
    by rewrite Ascii.eqb_refl, orb_true_r in H2.
  - injection H as -> H. by destruct (IH a2 H) as [-> ->].
Qed.

Lemma join_byte_inj c l : forall k, Forall (fun s => has_byte c s = false) l -> Forall (fun s => has_byte c s = false) k ->
  l <> [] -> k <> [] -> join (str1 c) l = join (str1 c) k -> l = k.
Proof.
  assert (Hone : forall x y (r : list string), has_byte c x = false -> x <> y +:+ str1 c +:+ join (str1 c) r).
  { intros x y r H ->. rewrite !has_byte_app in H. cbn [str1 has_byte] in H. by rewrite Ascii.eqb_refl, orb_true_r in H. }
  induction l as [|x l IH]; intros [|y k] Hl Hk Hln Hkn H; try done.
  apply Forall_cons in Hl as [Hx Hl]. apply Forall_cons in Hk as [Hy Hk].
  destruct l as [|x' l], k as [|y' k]; cbn [join] in H.
  - by rewrite H.
  - by destruct (Hone x y (y' :: k) Hx).
  - by destruct (Hone y x (x' :: l) Hy).
  - apply (cut_byte_inj c) in H as [-> H]; [|done..]. f_equal. by apply IH.
Qed.

Lemma hash_entity_inj e e' :
  has_byte ":" (me_Type e) = false -> has_byte ":" (me_Type e') = false ->
  has_byte ":" (me_Language e) = false -> has_byte ":" (me_Language e') = false ->
  hash_entity e = hash_entity e' -> e = e'.
Proof.
  intros Ht Ht' Hl Hl' H. unfold hash_entity in H. destruct e, e'. cbn in *.
  apply (cut_byte_inj ":") in H as [-> H]; [|done..].
  apply (cut_byte_inj ":") in H as [H1 H]; [|by apply format_int_byte..]. apply format_int_inj in H1 as ->.
  apply (cut_byte_inj ":") in H as [H1 H]; [|by apply format_int_byte..]. apply format_int_inj in H1 as ->.
  by apply (cut_last_byte_inj ":") in H as [-> ->].
Qed.

Section laws.
Context (tg : Tgmd) (Htg : TgmdLaws tg).

Lemma segment_valid segment : valid_segment tg segment -> utf8_text (segment_message tg segment).1.
Proof. intros [H1 H2]. unfold segment_message. cbn [fst]. apply utf8_text_app; [done|]. by destruct (String.eqb _ ""). Qed.

Lemma segment_within segment : valid_segment tg segment -> entities_within (segment_message tg segment).
Proof.
  intros [H1 _]. unfold segment_message. destruct (String.eqb _ ""); [constructor|].
  apply (put_after_within (sg_Plain segment, []) (tg_Convert tg (sg_Markdown segment))); [done|constructor|].
  apply (tgl_convert _ Htg).
Qed.

Lemma render_segment_put message segment : utf8_text message.1 ->
  render_segment tg message segment = put_after message (segment_message tg segment).
Proof.
  intros Hm. unfold render_segment, put_after, segment_message. rewrite (tgl_length _ Htg). cbn [fst snd].
  assert ((if String.eqb (sg_Plain segment) "" then message.1 else message.1 +:+ sg_Plain segment)
          = message.1 +:+ sg_Plain segment) as -> by (destruct (String.eqb_spec (sg_Plain segment) "") as [->|]; by rewrite ?str_app_nil_r).
  destruct (String.eqb _ ""); cbn [fst snd map]; [by rewrite str_app_nil_r, app_nil_r|].
  destruct (tg_Convert tg _) as [c es]. cbn [fst snd]. rewrite shift_shift, str_app_assoc. do 2 f_equal.
  f_equal. f_equal. rewrite utf16_valid_app by done. lia.
Qed.

Lemma render_put segments : Forall (valid_segment tg) segments -> forall message, utf8_text message.1 ->
  fold_left (render_segment tg) segments message
  = put_after message (fold_right put_after ("", []) (map (segment_message tg) segments)).
Proof.
  induction 1 as [|segment segments Hs _ IH]; intros message Hm; cbn [fold_left map fold_right].
  { unfold put_after. cbn. by rewrite str_app_nil_r, app_nil_r, <- surjective_pairing. }
  rewrite render_segment_put by done. rewrite IH by (cbn; by apply utf8_text_app, segment_valid).
  by rewrite put_after_assoc.
Qed.

Lemma segments_within segments : Forall (valid_segment tg) segments ->
  entities_within (fold_right put_after ("", []) (map (segment_message tg) segments)).
Proof.
  induction 1 as [|segment segments Hs _ IH]; cbn [map fold_right]; [constructor|].
  apply put_after_within; [by apply segment_valid|by apply segment_within|done].
Qed.
End laws.

(** ** Theorems *)

(** A text that fits is one message: the segments one after the other, each rendered as it
    would be alone and its entities moved behind the text before it, so that none of them
    leaves the text. *)
Theorem RenderSegments_spec tg segments maxLen :
  TgmdLaws tg -> Forall (valid_segment tg) segments ->
  let message := fold_right put_after ("", []) (map (segment_message tg) segments) in
  message.1 <> "" -> (utf16_len (runes message.1) <= maxLen)%Z -> (0 < maxLen)%Z ->
  RenderSegments tg segments maxLen = [mkRendered message.1 (convertEntities message.2)]
  /\ Forall (fun e => 0 <= me_Offset e /\ 0 <= me_Length e /\ me_Offset e + me_Length e <= utf16_len (runes message.1))%Z
       (convertEntities message.2).
Proof.
  intros Htg Hv message Hne Hlen Hpos. unfold RenderSegments.
  destruct (Z.leb_spec maxLen 0); [lia|]. rewrite (render_put tg Htg segments Hv ("", []) eq_refl).
  assert (Hm : put_after ("", []) message = message).
  { unfold put_after. cbn [fst snd app]. change (utf16_len (runes "")) with 0%Z.
    destruct message as [t es]. cbn [fst snd]. f_equal. rewrite <- (map_id es) at 2. apply map_ext. intros []. unfold shift_entity. cbn. f_equal. lia. }
  fold message. rewrite Hm, (tgl_split _ Htg) by done. split; [done|].
  unfold convertEntities. apply Forall_map. exact (segments_within tg Htg segments Hv).
Qed.

Lemma plainTgmd_laws : TgmdLaws plainTgmd.
Proof.
  split; [done| |done]. intros s. cbn [plainTgmd tg_Convert fst snd]. constructor; [|constructor]. cbn.
  pose proof (utf16_len_nonneg (runes s)). lia.
Qed.

Theorem RenderSegments_spec_witness :
  RenderSegments plainTgmd ex_segments 100
  = [mkRendered "head: rm -rf.ls" [mkMessageEntity "code" 6 6 "" ""; mkMessageEntity "code" 13 2 "" ""]].
Proof.
  apply (RenderSegments_spec plainTgmd ex_segments 100).
  - exact plainTgmd_laws.
  - repeat constructor; vm_compute; reflexivity.
  - vm_compute. discriminate.
  - vm_compute. discriminate.
  - lia.
Defined.

(** What tells one rendering from another is told by the hash, as long as no text holds
    its separators: a message is edited when its text or its formatting changed. *)
Theorem HashRendered_inj m m' :
  hashable m -> hashable m' -> HashRendered m = HashRendered m' -> m = m'.
Proof.
  intros [Ht Hf] [Ht' Hf'] H. destruct m as [text es], m' as [text' es'].
  unfold HashRendered in H. cbn [rm_Text rm_Entities] in *. apply join_byte_inj in H; try done.
  - injection H as -> H. f_equal. revert es' Hf' H. induction es as [|e es IH]; intros [|e' es'] Hf' H; try done.
    apply Forall_cons in Hf as [(_ & H1 & H2) Hf]. apply Forall_cons in Hf' as [(_ & H3 & H4) Hf']. injection H as He H.
    f_equal; [by apply hash_entity_inj|by apply IH].
  - constructor; [done|]. apply Forall_map. eapply Forall_impl; [exact Hf|]. by intros e [? _].
  - constructor; [done|]. apply Forall_map. eapply Forall_impl; [exact Hf'|]. by intros e [? _].
Qed.

Theorem HashRendered_inj_witness :
  mkRendered "a" [mkMessageEntity "url" 0 1 "http://x" ""] = mkRendered "a" [mkMessageEntity "url" 0 1 "http://x" ""].
Proof.
  apply HashRendered_inj; [..|vm_compute; reflexivity]; (split; [vm_compute; reflexivity|]);
    repeat constructor; vm_compute; reflexivity.
Defined.
