(* ===== verification/Terminal.v ===== *)
(** * internal/daemon/minimal_observer.go: the end of a turn

    When a thread is read whose latest turn has ended, the end is reported once, the
    worker that ran the turn is released, and the thread's waiting commands are drained.
    The report is a group of messages put into the delivery queue in one transaction
    with the first step of the release.  The operations act on a [RouterWorld]; the
    logs they write are left out. *)
From stdpp Require Import base list numbers strings gmap.
From Stdlib Require Import Lia Ascii.
From S2P Require Import Prelude GoStrings GoTime Utf8 Sql Json Model Normalize NotifierFormat MinimalTables CoreTables Store Threads Panels TerminalGate NotifierIngress.
From S2P Require Import LinkedThread PendingCommands Continuations Observations Approvals Projects MinimalSplit TgFormat LinkWorkers Routing Starts Router.

(** What these functions read of the service; the registry, the protector and the poll
    interval are the router's. *)
Record Observer : Type := mkObserver {
  ob_Router : Router;
  ob_HasRouter : bool;                           (* minimalRouter != nil *)
  ob_Profile : string;                           (* cfg.Profile *)
  ob_StartedAt : instant;                        (* startedAt *)
  ob_Tgmd : Tgmd;
  ob_MustJSON : DeliveryPayload -> string;       (* json.Marshal, which fails on no payload *)
  ob_ErrorText : start_error -> string }.        (* sanitizeDiagnosticString(err.Error()) *)

(** *** Texts *)
Definition cleanMinimalDisplayText (value : string) : string :=
  join " " (fields (trim_space (replace_all value "<nil>" ""))).

Definition boundRunes (value : string) (limit : Z) : string :=
  let l := runes (trim_space value) in
  if (limit <=? 0)%Z || (Z.of_nat (length l) <=? limit)%Z then string_of_runes l
  else if (limit <=? 1)%Z then string_of_runes (take (Z.to_nat limit) l)
  else string_of_runes (take (Z.to_nat (limit - 1)) l) +:+ "...".

(** The last of the messages that says something. *)
Definition last_message (messages : list string) : string :=
  default "" (first_some (fun m => if String.eqb (trim_space m) "" then None else Some (trim_space m)) (rev messages)).

Definition terminal_body (snapshot : ThreadReadSnapshot) : string :=
  let final := trim_space (sn_LatestFinalText snapshot) in
  let body := if String.eqb final "" then last_message (sn_LatestAgentMessages snapshot) else final in
  if String.eqb body "" then "Codex가 최종 답변을 남기지 않았습니다." else body.

Definition terminal_header (project : Project) (status : string) (thread : Thread) : string :=
  let marker := if String.eqb status "failed" || String.eqb status "interrupted" then "[실패]" else "[완료]" in
  let title0 := cleanMinimalDisplayText (th_Title thread) in
  let title := if String.eqb title0 "" || String.eqb title0 (th_ID thread) then ShortID thread else title0 in
  join (str1 "010") [marker +:+ " " +:+ pj_DisplayName project; "대화: " +:+ title; "Thread: " +:+ ShortID thread].

Section observer.
Context `{GateCodec} (o : Observer) (now : instant).

Local Abbreviation r := (ob_Router o).
Local Abbreviation clock := (format_time now).
Local Abbreviation minimal := (String.eqb (ob_Profile o) "minimal").

(** *** The messages of a terminal event *)

(** The first message of the unsplit rendering. *)
Definition terminal_text (header body : string) : RenderedMessage :=
  match RenderSegments (ob_Tgmd o) [TgFormat.Plain (header +:+ str2 "010" "010"); Markdown body] (2 ^ 30) with
  | message :: _ => message
  | [] => mkRendered "" []     (* RenderSegments_nonempty *)
  end.

Definition message_label (i count : nat) : string :=
  "[" +:+ format_int (Z.of_nat i) +:+ "/" +:+ format_int (Z.of_nat count) +:+ "]" +:+ str1 "010".

Definition label_message (label : string) (message : RenderedMessage) : RenderedMessage :=
  mkRendered (label +:+ rm_Text message)
    (map (fun e => mkMessageEntity (me_Type e) (me_Offset e + Z.of_nat (rune_count label)) (me_Length e) (me_URL e)
                     (me_Language e)) (rm_Entities message)).

Definition label_messages (messages : list RenderedMessage) : list RenderedMessage :=
  imap (fun i message => label_message (message_label (S i) (length messages)) message) messages.

Definition terminal_item (target : ObserverTarget) (snapshot : ThreadReadSnapshot) (terminal : TerminalEvent)
    (count i : nat) (message : RenderedMessage) : DeliveryQueueItem :=
  let payload := mkDeliveryPayload "" (rm_Text message) (th_ID (sn_Thread snapshot)) (sn_LatestTurnID snapshot) ""
                   (te_TerminalKey terminal) 0 "" "" "" 0 "" [] (Some message) in
  mkQueueItem 0 (te_TerminalKey terminal +:+ ":" +:+ format_int (Z.of_nat (S i)))
    (ChatKey (ot_ChatID target) (ot_TopicID target)) (ot_ChatID target) (ot_TopicID target)
    (th_ID (sn_Thread snapshot)) "terminal" DeliveryStatusPending 0 "" "" (ob_MustJSON o payload) "" ""
    (te_TerminalKey terminal) (Z.of_nat (S i)) (Z.of_nat count).

(** None: the split does not end. *)
Definition terminal_messages (project : Project) (status : string) (snapshot : ThreadReadSnapshot)
  : option (list RenderedMessage) :=
  label_messages <$> splitMinimalRendered
    (terminal_text (terminal_header project status (sn_Thread snapshot)) (terminal_body snapshot))
    (TelegramMessageLimit - 16).

Definition terminal_items (target : ObserverTarget) (snapshot : ThreadReadSnapshot) (terminal : TerminalEvent)
    (messages : list RenderedMessage) : list DeliveryQueueItem :=
  imap (terminal_item target snapshot terminal (length messages)) messages.

(** *** projectMinimalTerminal *)
Definition globalObserverSinceUnix (s : Store) : Z :=
  let '(sinceUnix, ok) := GetGlobalObserverSinceUnix s in
  if ok && (0 <? sinceUnix)%Z then sinceUnix
  else if negb (is_zero (ob_StartedAt o)) then unix (ob_StartedAt o)
  else
    let startedAt := parseTime (GetState "daemon.started_at" s) in
    if negb (is_zero startedAt) then unix startedAt else 0%Z.

(** The release of the linked thread that runs the turn. *)
Definition terminal_release (snapshot : ThreadReadSnapshot) (link : option MinimalLinkedThread)
  : option MinimalLinkedRelease :=
  match link with
  | Some l =>
      if String.eqb (trim_space (lt_State l)) MinimalLinkedTelegramRunning
      then Some (mkRelease (lt_LinkedThreadID l) (sn_LatestTurnID snapshot) (lt_WorkerGeneration l)) else None
  | None => None
  end.

(** An error reopens the transition that was claimed. *)
Definition enqueueOrReopen (snapshot : ThreadReadSnapshot) (terminal : TerminalEvent) (items : list DeliveryQueueItem)
    (release : option MinimalLinkedRelease) (s : Store) : option start_error * Store :=
  match EnqueueTerminalEventWithLinkedRelease (ro_Protector r) clock terminal items release s with
  | Ok (_, s') => (None, s')
  | Err e =>
      (Some (Plain e),
       run_ignored (ReopenMinimalTerminalTransition now (th_ID (sn_Thread snapshot)) (sn_LatestTurnID snapshot) now) s)
  end.

(** The rest, once the transition is claimed. *)
Definition reportTerminal (project : Project) (status : string) (snapshot : ThreadReadSnapshot)
    (terminal : TerminalEvent) (s : Store) : option (option start_error * Store) :=
  match GetMinimalLinkedThreadByLinkedID (ro_Protector r) (th_ID (sn_Thread snapshot)) s with
  | Err e => Some (Some (Plain e), s)
  | Ok link =>
      let release := terminal_release snapshot link in
      match GetGlobalObserverTarget clock s with
      | (Some target, true) =>
          if ot_Enabled target then
            match terminal_messages project status snapshot with
            | Some messages =>
                Some (enqueueOrReopen snapshot terminal (terminal_items target snapshot terminal messages) release s)
            | None => None
            end
          else Some (match release with Some _ => enqueueOrReopen snapshot terminal [] release s | None => (None, s) end)
      | _ => Some (match release with Some _ => enqueueOrReopen snapshot terminal [] release s | None => (None, s) end)
      end
  end.

Definition projectMinimalTerminal (snapshot : ThreadReadSnapshot) (s : Store) : option (option start_error * Store) :=
  let status := canonicalMinimalTerminalStatus (sn_LatestTurnStatus snapshot) in
  if negb minimal || negb (existsb (String.eqb status) ["completed"; "failed"; "interrupted"]) then Some (None, s)
  else
    match MatchExactCWD (ro_Platform r) (ro_Registry r) (th_CWD (sn_Thread snapshot)) with
    | None => Some (None, s)
    | Some project =>
        match ClaimMinimalTerminalTransitionAfterBaseline now (th_ID (sn_Thread snapshot)) (sn_LatestTurnID snapshot)
                status (th_UpdatedAt (sn_Thread snapshot)) (globalObserverSinceUnix s) now s with
        | Err e => Some (Some (Plain e), s)
        | Ok (None, s1) => Some (None, s1)
        | Ok (Some terminal, s1) => reportTerminal project status snapshot terminal s1
        end
    end.

(** *** The notice that a linked thread is free *)
Definition minimalHandoffReadyDelivery (link : MinimalLinkedThread) (turnID : string) (s : Store)
  : option DeliveryQueueItem :=
  let '(chatID, topicID) :=
    if (lt_ChatID link =? 0)%Z then
      match GetGlobalObserverTarget clock s with
      | (Some target, true) => if ot_Enabled target then (ot_ChatID target, ot_TopicID target) else (lt_ChatID link, lt_TopicID link)
      | _ => (lt_ChatID link, lt_TopicID link)
      end
    else (lt_ChatID link, lt_TopicID link) in
  if (chatID =? 0)%Z then None
  else
    let title0 := cleanMinimalDisplayText (lt_DesiredTitle link) in
    let title := if String.eqb title0 "" then ShortID (set_th_ID (lt_LinkedThreadID link) zeroThread) else title0 in
    let eventID := lt_LinkedThreadID link +:+ ":" +:+ turnID +:+ ":handoff_ready" in
    let payload := mkDeliveryPayload "" ("Codex에서 “" +:+ title +:+ "” 작업을 열어 이어서 작업할 수 있습니다.")
                     (lt_LinkedThreadID link) turnID "" eventID 0 "" "" "" 0 "" [] None in
    Some (mkQueueItem 0 eventID (ChatKey chatID topicID) chatID topicID (lt_LinkedThreadID link) "handoff_ready"
            DeliveryStatusPending 0 clock "" (ob_MustJSON o payload) clock clock "" 0 0).

(** *** Releasing the worker *)

(** minimalWorkers.Release, whose caller only asks whether the worker was closed. *)
Definition releaseWorker (threadID : string) (generation : Z) (w : RouterWorld)
  : bool * option start_error * RouterWorld :=
  match rw_Workers w with
  | None => (false, None, w)
  | Some m =>
      let '(found, err, closed, m') := Release threadID generation (ap_Close (ro_Server r) (rw_Calls w)) m in
      (found, (fun e => Plain (xe_Message e)) <$> err,
       called (set_rw_Workers (Some m') (rw_Made w) (closed ++ rw_Closed w) w))
  end.

Definition forgetRelease (threadID : string) (generation : Z) (w : RouterWorld) : RouterWorld :=
  match rw_Workers w with
  | None => w
  | Some m => set_rw_Workers (Some (ForgetConfirmedRelease threadID generation m)) (rw_Made w) (rw_Closed w) w
  end.

Definition registeredWorker (threadID : string) (w : RouterWorld) : option minimalLinkWorker :=
  m ← rw_Workers w; worker ← ByThread threadID m; worker_at m worker.

Definition confirmedRelease (threadID : string) (generation : Z) (w : RouterWorld) : bool :=
  from_option (ConfirmedRelease threadID generation) false (rw_Workers w).

Definition confirmedIdentity (threadID : string) (generation : Z) (w : RouterWorld) : option string :=
  m ← rw_Workers w;
  let '(identity, ok) := ConfirmedReleaseIdentity threadID generation m in
  if ok : bool then Some identity else None.

(** A worker that has no linked thread of the store. *)
Definition releaseRegisteredMinimalTerminalWorker (threadID0 : string) (w : RouterWorld)
  : option start_error * RouterWorld :=
  let threadID := trim_space threadID0 in
  if String.eqb threadID "" then (None, w)
  else
    match registeredWorker threadID w with
    | None => (None, w)
    | Some worker =>
        let generation := wk_Generation worker in
        let sessionIdentity := trim_space (wk_SessionIdentity worker) in
        match releaseWorker threadID generation w with
        | (_, Some e, w1) => (Some e, w1)
        | (false, None, w1) => (None, w1)
        | (true, None, w1) =>
            if String.eqb sessionIdentity "" then (None, forgetRelease threadID generation w1)
            else
              match tx (ExpireMinimalApprovalsForSession clock sessionIdentity) w1 with
              | (inr e, w2) => (Some e, w2)
              | (inl _, w2) => (None, forgetRelease threadID generation w2)
              end
        end
    end.

(** The transaction that makes the link ready again, and what follows it. *)
Definition finishRelease (link : MinimalLinkedThread) (sessionIdentity turnID : string) (w : RouterWorld)
  : (bool + start_error) * RouterWorld :=
  let ready := minimalHandoffReadyDelivery link turnID (rw_Store w) in
  match tx (FinishMinimalLinkedReleaseWithReadyDelivery (ro_Protector r) now (lt_LinkedThreadID link)
              (lt_WorkerGeneration link) sessionIdentity turnID now ready) w with
  | (inr e, w1) => (inr e, w1)
  | (inl changed, w1) =>
      (inl changed, if changed : bool then forgetRelease (lt_LinkedThreadID link) (lt_WorkerGeneration link) w1 else w1)
  end.

(** The identity of the session that is closed: the worker's, or that of its receipt. *)
Definition release_identity (link : MinimalLinkedThread) (before after : RouterWorld) : string :=
  let registered :=
    match registeredWorker (lt_LinkedThreadID link) before with
    | Some worker =>
        if (wk_Generation worker =? lt_WorkerGeneration link)%Z then trim_space (wk_SessionIdentity worker) else ""
    | None => ""
    end in
  if String.eqb registered ""
  then default "" (confirmedIdentity (lt_LinkedThreadID link) (lt_WorkerGeneration link) after) else registered.

Definition not_closed (link : MinimalLinkedThread) : start_error :=
  Plain ("minimal linked worker " +:+ shortLogID (lt_LinkedThreadID link) +:+ " generation "
         +:+ format_int (lt_WorkerGeneration link) +:+ " was not closed").
Definition not_matched (link : MinimalLinkedThread) : start_error :=
  Plain ("minimal linked release finish did not match " +:+ shortLogID (lt_LinkedThreadID link) +:+ " generation "
         +:+ format_int (lt_WorkerGeneration link)).

(** releaseMinimalTerminalWorker from the release of the worker on. *)
Definition releaseLinkedWorker (link : MinimalLinkedThread) (turnID : string) (w : RouterWorld)
  : option start_error * RouterWorld :=
  let linkedID := lt_LinkedThreadID link in
  let generation := lt_WorkerGeneration link in
  let '(closed, closeErr, w1) := releaseWorker linkedID generation w in
  let confirmed := closed || (bool_decide (closeErr = None) && confirmedRelease linkedID generation w1) in
  match closeErr, confirmed with
  | None, true =>
      match finishRelease link (release_identity link w w1) turnID w1 with
      | (inr e, w2) => (Some e, w2)
      | (inl false, w2) => (Some (not_matched link), w2)
      | (inl true, w2) => (None, w2)
      end
  | _, _ =>
      (Some (default (not_closed link) closeErr),
       (tx (tx_of (FailMinimalLinkedThread clock linkedID generation "release_close_failed")) w1).2)
  end.

Definition releaseMinimalTerminalWorker (snapshot : ThreadReadSnapshot) (w : RouterWorld)
  : option start_error * RouterWorld :=
  if negb minimal || bool_decide (rw_Workers w = None) then (None, w)
  else
    let threadID := trim_space (th_ID (sn_Thread snapshot)) in
    let turnID := trim_space (sn_LatestTurnID snapshot) in
    if String.eqb threadID "" || String.eqb turnID "" then (None, w)
    else
      match GetMinimalLinkedThreadByLinkedID (ro_Protector r) threadID (rw_Store w) with
      | Err e => (Some (Plain e), w)
      | Ok None => releaseRegisteredMinimalTerminalWorker threadID w
      | Ok (Some link) =>
          if negb (String.eqb (trim_space (lt_State link)) MinimalLinkedReleasePending)
             || negb (String.eqb (trim_space (lt_ActiveTurnID link)) turnID) then (None, w)
          else releaseLinkedWorker link turnID w
      end.

(** *** What does not belong to the running turn *)
Definition staleMinimalLinkedTerminal (snapshot : ThreadReadSnapshot) (s : Store) : res bool :=
  if negb minimal || negb (isTerminalStatus (sn_LatestTurnStatus snapshot)) then Ok false
  else
    let threadID := trim_space (th_ID (sn_Thread snapshot)) in
    if String.eqb threadID "" then Ok false
    else
      let! link := GetMinimalLinkedThreadByLinkedID (ro_Protector r) threadID s in
      match link with
      | None => Ok false
      | Some link =>
          let activeTurnID := trim_space (lt_ActiveTurnID link) in
          Ok (existsb (String.eqb (trim_space (lt_State link))) [MinimalLinkedTelegramRunning; MinimalLinkedReleasePending]
              && negb (String.eqb activeTurnID "")
              && negb (String.eqb activeTurnID (trim_space (sn_LatestTurnID snapshot))))
      end.

Definition retireMinimalObservationIfIneligible (snapshot : ThreadReadSnapshot) (s : Store) : res (bool * Store) :=
  let threadID := trim_space (th_ID (sn_Thread snapshot)) in
  let cwd := trim_space (th_CWD (sn_Thread snapshot)) in
  if negb minimal || bool_decide (ro_Registry r = None) || String.eqb threadID "" || String.eqb cwd ""
     || bool_decide (is_Some (MatchExactCWD (ro_Platform r) (ro_Registry r) cwd)) then Ok (false, s)
  else let! retired := RetireMinimalObservation now threadID now s in Ok (true, retired.2).

(** *** diagnostics.go: the end of a turn that Telegram started is logged once *)
Definition telegramOriginTerminalLoggedKey (threadID turnID : string) : string :=
  turn_key "turn_origin.telegram_terminal_logged." threadID turnID.

Definition isTerminalTurnStatus (status : string) : bool :=
  existsb (String.eqb (to_lower (trim_space status))) ["completed"; "failed"; "interrupted"; "canceled"; "cancelled"].

Definition maybeLogTelegramOriginTerminal (snapshot : ThreadReadSnapshot) (s : Store) : Store :=
  let threadID := trim_space (th_ID (sn_Thread snapshot)) in
  let turnID := trim_space (sn_LatestTurnID snapshot) in
  let status := trim_space (sn_LatestTurnStatus snapshot) in
  if String.eqb threadID "" || String.eqb turnID "" || negb (isTerminalTurnStatus status)
     || negb (isTelegramOriginTurn threadID turnID s) then s
  else
    let '(decision, s1) := decideTelegramOriginEmptyInterruptedTerminal (ro_PollInterval r) now (Some snapshot) now s in
    if String.eqb (td_Action decision) terminalGateDefer then s1
    else
      let key := telegramOriginTerminalLoggedKey threadID turnID in
      if String.eqb key "" || negb (String.eqb (trim_space (GetState key s1)) "") then s1
      else clearTelegramOriginEmptyInterruptedDefer clock threadID turnID (SetState clock key clock s1).

(** *** handleTerminalSnapshot *)
Definition setError (e : start_error) (w : RouterWorld) : RouterWorld :=
  set_rw_Store (SetState clock "daemon.last_error" (ob_ErrorText o e) (rw_Store w)) w.

Definition or_set_error (answer : option start_error * RouterWorld) : RouterWorld :=
  match answer.1 with Some e => setError e answer.2 | None => answer.2 end.

(** Projection, release and drain, each only when the one before succeeded. *)
Definition finishTerminal (threadLockHeld : bool) (snapshot : ThreadReadSnapshot) (w : RouterWorld) : option RouterWorld :=
  match projectMinimalTerminal snapshot (rw_Store w) with
  | None => None
  | Some (Some e, s) => Some (setError e (set_rw_Store s w))
  | Some (None, s) =>
      match releaseMinimalTerminalWorker snapshot (set_rw_Store s w) with
      | (Some e, w2) => Some (setError e w2)
      | (None, w2) =>
          or_set_error <$> (if threadLockHeld then drainNextLocked r now (th_ID (sn_Thread snapshot)) w2
                            else DrainNext r now (th_ID (sn_Thread snapshot)) w2)
      end
  end.

Definition handleTerminalSnapshot (snapshot0 : ThreadReadSnapshot) (threadLockHeld : bool) (w : RouterWorld)
  : option RouterWorld :=
  let snapshot := if minimal
    then set_sn_LatestTurnStatus (canonicalMinimalTerminalStatus (sn_LatestTurnStatus snapshot0)) snapshot0 else snapshot0 in
  let logged := set_rw_Store (maybeLogTelegramOriginTerminal snapshot (rw_Store w)) w in
  if negb minimal || negb (ob_HasRouter o) || negb (isTerminalStatus (sn_LatestTurnStatus snapshot)) then Some logged
  else
    match staleMinimalLinkedTerminal snapshot (rw_Store w) with
    | Err e => Some (setError (Plain e) w)
    | Ok true => Some w
    | Ok false => finishTerminal threadLockHeld snapshot logged
    end.

(** *** service.go: /repair finishes a release that was confirmed *)
Definition statusMinimalLinkedThread (chatID topicID : Z) (boundThreadID0 : string) (s : Store)
  : res (option MinimalLinkedThread) :=
  let boundThreadID := trim_space boundThreadID0 in
  if String.eqb boundThreadID "" then Ok None
  else
    let! link := GetMinimalLinkedThreadByLinkedID (ro_Protector r) boundThreadID s in
    match link with
    | Some l =>
        if (lt_ChatID l =? chatID)%Z && (lt_TopicID l =? topicID)%Z then Ok (Some l)
        else GetMinimalLinkedThread (ro_Protector r) chatID topicID boundThreadID s
    | None => GetMinimalLinkedThread (ro_Protector r) chatID topicID boundThreadID s
    end.

Definition repairMinimalLinkedReleasePending (chatID topicID : Z) (w : RouterWorld) : (bool + start_error) * RouterWorld :=
  if negb minimal || bool_decide (rw_Workers w = None) then (inl false, w)
  else
    match cc_Binding (GetChatContext clock chatID topicID (rw_Store w)) with
    | None => (inl false, w)
    | Some binding =>
        match statusMinimalLinkedThread chatID topicID (tb_ThreadID binding) (rw_Store w) with
        | Err e => (inr (Plain e), w)
        | Ok None => (inl false, w)
        | Ok (Some link) =>
            let turnID := trim_space (lt_ActiveTurnID link) in
            if negb (String.eqb (trim_space (lt_State link)) MinimalLinkedReleasePending)
               || (lt_WorkerGeneration link =? 0)%Z || String.eqb turnID "" then (inl false, w)
            else
              match confirmedIdentity (lt_LinkedThreadID link) (lt_WorkerGeneration link) w with
              | None => (inl false, w)
              | Some sessionIdentity => finishRelease link sessionIdentity turnID w
              end
        end
    end.

End observer.
