(* ===== verification/TerminalReport.v ===== *)
(** * The report of a turn's end

    The report as steps of the delivery queue, its messages within Telegram's limit, and
    what becomes of the end that was claimed when the report fails. *)
From stdpp Require Import base list numbers strings gmap relations sorting.
From Stdlib Require Import Lia Ascii.
From S2P Require Import Prelude GoStrings GoTime Utf8 Sql Json Model Normalize NotifierFormat MinimalTables CoreTables Store Queue QueueSafety Writers Threads Panels TerminalGate NotifierIngress.
From S2P Require Import LinkedThread PendingCommands Continuations Observations Approvals Projects MinimalSplit TgFormat LinkWorkers Routing Starts Router RouterSafety Drain Terminal.

Definition ex_observer : Observer :=
  mkObserver ex_router true "minimal" zero_time plainTgmd dp_Text (fun _ => "failed").

(** The end of a turn without a final text: its last message counts. *)
Definition ex_ended (status : string) : ThreadReadSnapshot :=
  let n := started_snapshot ex_thread "turn-1" in
  mkThreadReadSnapshot (sn_Thread n) "turn-1" status "" "" false false
    ["first"; "second"; " "] [] "" "" "" "" "" "" ""
    "" "" "" "" "" "" false "" "" None [].

(** The conversation of a chat, its turn at work, and a target for the report. *)
Definition ex_link_row (state : string) (activeTurnID : option string) : LinkedRow :=
  mkLinkedRow "7:0" 7 0 "alpha" "src" (Some "t") "turn-0" None None MinimalLinkedTitleSet state activeTurnID 1
    None None None "" "" None.

Definition ex_watched (links : list LinkedRow) : Store :=
  set_linked links
    (set_observed "t" (mkMinimalObservation "alpha" 100 (Some "turn-1") (Some "inProgress") true true false 1 "")
       (SetGlobalObserverTarget ex_now 7 0 true emptyStore)).

(** A message with the id of the report's is already queued. *)
Definition ex_taken_id : Store :=
  let s := ex_watched [] in
  match EnqueueDelivery (Some plainProtector) ""
          (mkQueueItem 0 "t:turn-1:completed:1" "7:0" 7 0 "t" "terminal" DeliveryStatusPending 0 "" "" "" "" "" "" 0 0) s with
  | Ok s' => s'
  | Err _ => s
  end.

(** The row of a message that waits in the queue. *)
Definition queued_as (p : Protector) (item : DeliveryQueueItem) (row : QueueRow) : Prop :=
  q_EventID row = qi_EventID item /\ q_ChatKey row = qi_ChatKey item /\ q_GroupID row = Some (qi_GroupID item)
  /\ q_SequenceNo row = qi_SequenceNo item /\ q_SequenceCount row = qi_SequenceCount item
  /\ q_Status row = DeliveryStatusPending
  /\ exists envelope, q_Payload row = Some envelope /\ Protect p (qi_PayloadJSON item) = Ok envelope.

(** The event of a claimed end is recorded with its messages and with the release of the
    worker that ran the turn. *)
Record reported (p : Protector) (clock : TimeString) (terminal : TerminalEvent) (items : list DeliveryQueueItem)
    (release : option MinimalLinkedRelease) (s s' : Store) : Prop := {
  rp_event : is_Some (db_terminal s' !! te_TerminalKey terminal);
  rp_rows : exists rows, db_queue s' = db_queue s ++ rows /\ Forall2 (queued_as p) items rows;
  rp_link : db_linked s' =
    match release with
    | None => db_linked s
    | Some rel => update_where (release_where (trim_space (rel_LinkedThreadID rel), trim_space (rel_TurnID rel),
                    rel_WorkerGeneration rel)) (upd_linked_state MinimalLinkedReleasePending clock) (db_linked s)
    end }.

(** One row runs the turn for the worker. *)
Definition release_matches (release : option MinimalLinkedRelease) (s : Store) : Prop :=
  match release with
  | None => True
  | Some rel => trim_space (rel_LinkedThreadID rel) <> "" /\ trim_space (rel_TurnID rel) <> ""
      /\ affected (release_where (trim_space (rel_LinkedThreadID rel), trim_space (rel_TurnID rel),
                      rel_WorkerGeneration rel)) (db_linked s) = 1%Z
  end.

#[local] Arguments update_where : simpl never.
#[local] Arguments affected : simpl never.
#[local] Arguments find_first : simpl never.

(** ** The messages *)

Lemma imap_seq {A B} (f : nat -> A -> B) (g : B -> Z) (l : list A) :
  (forall i x, g (f i x) = Z.of_nat (S i)) -> NoDup (map g (imap f l)).
Proof.
  intros H. apply NoDup_alt. intros i j z Hi Hj.
  rewrite list_lookup_fmap, list_lookup_imap in Hi, Hj.
  destruct (l !! i) as [x|]; [|done]. destruct (l !! j) as [y|]; [|done]. cbn in Hi, Hj.
  rewrite H in Hi, Hj. injection Hi as <-. injection Hj as Hj. lia.
Qed.

Section report.
Context (o : Observer) (now : instant).

Lemma terminal_items_numbered target snapshot terminal messages :
  numbered_items (te_TerminalKey terminal) (terminal_items o target snapshot terminal messages).
Proof.
  unfold terminal_items. split; [|by apply imap_seq].
  rewrite length_imap. apply Forall_lookup. intros i item Hi. rewrite list_lookup_imap in Hi.
  destruct (messages !! i) as [m|] eqn:Em; [|done]. injection Hi as <-. apply lookup_lt_Some in Em. cbn. split_and!; [done|lia|done].
Qed.

Lemma numbered_nil key : numbered_items key [].
Proof. split; constructor. Qed.

(** *** As steps of the queue *)
Context (p : Protector) (Hp : ro_Protector (ob_Router o) = Some p).

Lemma enqueueOrReopen_steps snapshot terminal items release s :
  numbered_items (te_TerminalKey terminal) items ->
  rtc (queue_step p) s (enqueueOrReopen o now snapshot terminal items release s).2.
Proof.
  intros Hn. unfold enqueueOrReopen. rewrite Hp.
  destruct (EnqueueTerminalEventWithLinkedRelease _ _ _ _ _ s) as [[b s']|e] eqn:E; cbn [snd].
  - by eapply rtc_once, step_terminal.
  - apply rtc_once, step_other; unfold run_ignored, ReopenMinimalTerminalTransition; by destruct (_ || _).
Qed.

Lemma terminal_messages_returns project status snapshot : is_Some (terminal_messages o project status snapshot).
Proof.
  unfold terminal_messages, splitMinimalRendered.
  match goal with |- is_Some (_ <$> split_from ?f ?l ?e ?t 0) => destruct (split_from_total f l e t 0) as [out ->] end;
    [unfold TelegramMessageLimit; lia|done|by eexists].
Qed.

Lemma reportTerminal_steps project status snapshot terminal s :
  exists err s', reportTerminal o now project status snapshot terminal s = Some (err, s') /\ rtc (queue_step p) s s'.
Proof.
  unfold reportTerminal. destruct (GetMinimalLinkedThreadByLinkedID _ _ s) as [link|e]; [|by eexists _, _].
  assert (Hnone : exists err s', Some match terminal_release snapshot link with
            | Some _ => enqueueOrReopen o now snapshot terminal [] (terminal_release snapshot link) s
            | None => (None, s) end = Some (err, s') /\ rtc (queue_step p) s s').
  { destruct (terminal_release snapshot link) as [rel|]; [|by eexists _, _].
    pose proof (enqueueOrReopen_steps snapshot terminal [] (Some rel) s (numbered_nil _)) as Hs.
    destruct (enqueueOrReopen _ _ _ _ _ _ _) as [err s']. exists err, s'. split; [done|exact Hs]. }
  destruct (GetGlobalObserverTarget (format_time now) s) as [[target|] []]; [|exact Hnone..].
  destruct (ot_Enabled target); [|exact Hnone].
  destruct (terminal_messages_returns project status snapshot) as [messages ->].
  pose proof (enqueueOrReopen_steps snapshot terminal _ (terminal_release snapshot link) s
                (terminal_items_numbered target snapshot terminal messages)) as Hs.
  clear Hnone. destruct (enqueueOrReopen _ _ _ _ _ _ _) as [err s']. exists err, s'. split; [done|exact Hs].
Qed.

Lemma claim_quiet clock threadID turnID outcome allow now' s a s' :
  claimMinimalTerminalTransition clock threadID turnID outcome allow now' s = Ok (a, s') ->
  db_queue s' = db_queue s /\ db_queueSeq s' = db_queueSeq s /\ db_terminal s' = db_terminal s /\ db_linked s' = db_linked s.
Proof.
  unfold claimMinimalTerminalTransition. destruct (_ || _); [by intros [= _ <-]|]. unfold tx_bind, tx_gets.
  destruct (_ !! _) as [row|]; [|by intros [= _ <-]]. destruct (transition_open _ _ row); by intros [= _ <-].
Qed.

Lemma projectMinimalTerminal_steps snapshot s :
  exists err s', projectMinimalTerminal o now snapshot s = Some (err, s') /\ rtc (queue_step p) s s'.
Proof.
  unfold projectMinimalTerminal. destruct (_ || _); [by eexists _, _|].
  destruct (MatchExactCWD _ _ _) as [project|]; [|by eexists _, _].
  unfold ClaimMinimalTerminalTransitionAfterBaseline.
  destruct (claimMinimalTerminalTransition _ _ _ _ _ _ s) as [[terminal s1]|e] eqn:E; [|by eexists _, _].
  destruct (claim_quiet _ _ _ _ _ _ _ _ _ E) as (H1 & H2 & H3 & _).
  assert (S1 : rtc (queue_step p) s s1) by (by apply rtc_once, step_other).
  destruct terminal as [terminal|]; [|by eexists _, _].
  destruct (reportTerminal_steps project (canonicalMinimalTerminalStatus (sn_LatestTurnStatus snapshot)) snapshot terminal s1)
    as (err & s' & -> & S2).
  exists err, s'. split; [done|]. by etransitivity.
Qed.
End report.

(** *** Within the limit *)
Lemma ascii_label i n : ascii_only (message_label i n) = true.
Proof. unfold message_label. by rewrite !ascii_only_app, !ascii_format_int. Qed.

Lemma label_short i n : (i <= n)%nat -> (Z.of_nat n < 10 ^ 6)%Z -> (String.length (message_label i n) <= 16)%nat.
Proof.
  intros Hi Hn. unfold message_label. rewrite !str_length_app. change (String.length (str1 "010")) with 1%nat.
  change (String.length "[") with 1%nat. change (String.length "/") with 1%nat. change (String.length "]") with 1%nat.
  pose proof (format_int_short (Z.of_nat i) 5 ltac:(lia)). pose proof (format_int_short (Z.of_nat n) 5 ltac:(lia)). lia.
Qed.

Lemma label_fits label m limit :
  ascii_only label = true -> (0 < utf16_len (runes (rm_Text m)) <= limit)%Z ->
  Forall (fun e => 0 <= me_Offset e /\ 0 < me_Length e /\ me_Offset e + me_Length e <= utf16_len (runes (rm_Text m)))%Z
    (rm_Entities m) ->
  let m' := label_message label m in
  (0 < utf16_len (runes (rm_Text m')) <= Z.of_nat (String.length label) + limit)%Z
  /\ Forall (fun e => 0 <= me_Offset e /\ 0 < me_Length e /\ me_Offset e + me_Length e <= utf16_len (runes (rm_Text m')))%Z
       (rm_Entities m').
Proof.
  intros Hl Hm He m'. unfold m', label_message. cbn [rm_Text rm_Entities]. rewrite utf16_len_runes_app by done.
  split; [lia|]. apply Forall_map. eapply Forall_impl; [exact He|]. intros e. cbn.
  unfold rune_count. rewrite (proj1 (runes_ascii_length _ Hl)). lia.
Qed.

Lemma placed_Forall (P : RenderedMessage -> Prop) out : forall start,
  Forall (fun sm : Z * RenderedMessage => P sm.2) (placed start out) -> Forall P out.
Proof.
  induction out as [|m out IH]; intros start; [constructor|]. intros H. apply Forall_cons in H as [H1 H2].
  constructor; [done|]. by eapply IH.
Qed.

(** C30: The messages of a terminal event are its text, in order and whole, each behind its
    number; none is longer than Telegram takes and no entity leaves its message. *)
Theorem terminal_messages_fit o project status snapshot messages :
  terminal_messages o project status snapshot = Some messages -> (Z.of_nat (length messages) < 10 ^ 6)%Z ->
  let whole := terminal_text o (terminal_header project status (sn_Thread snapshot)) (terminal_body snapshot) in
  exists texts,
    map rm_Text messages = imap (fun i text => message_label (S i) (length messages) +:+ text) texts
    /\ fold_right String.append "" texts = string_of_runes (runes (rm_Text whole))
    /\ Forall (fun m => (0 < utf16_len (runes (rm_Text m)) <= TelegramMessageLimit)%Z
         /\ Forall (fun e => 0 <= me_Offset e /\ 0 < me_Length e
                             /\ me_Offset e + me_Length e <= utf16_len (runes (rm_Text m)))%Z (rm_Entities m)) messages.
Proof.
  intros H Hn whole. unfold terminal_messages in H. fold whole in H.
  destruct (splitMinimalRendered whole (TelegramMessageLimit - 16)) as [out|] eqn:E; [|done]. injection H as <-.
  unfold label_messages in *. rewrite length_imap in *.
  assert (Hl : (2 <= TelegramMessageLimit - 16)%Z) by done.
  destruct (split_from_spec _ _ _ _ _ _ Hl (runes_valid _) E) as [Ht Hp].
  exists (map rm_Text out). split_and!.
  - apply list_eq. intros i. rewrite list_lookup_fmap, !list_lookup_imap, list_lookup_fmap. by destruct (out !! i).
  - rewrite <- Ht. clear. by induction out as [|m out IH]; [|cbn; rewrite IH].
  - assert (Hp' : Forall (fun m => (0 < utf16_len (runes (rm_Text m)) <= TelegramMessageLimit - 16)%Z
      /\ Forall (fun e => 0 <= me_Offset e /\ 0 < me_Length e
                          /\ me_Offset e + me_Length e <= utf16_len (runes (rm_Text m)))%Z (rm_Entities m)) out).
    { apply (placed_Forall _ out 0). eapply Forall_impl; [exact Hp|]. intros [st m] (H1 & H2 & _). by split. }
    apply Forall_lookup. intros i m Hi. rewrite list_lookup_imap in Hi. destruct (out !! i) as [x|] eqn:Ex; [|done].
    injection Hi as <-. rewrite Forall_lookup in Hp'. destruct (Hp' i x Ex) as [H1 H2]. apply lookup_lt_Some in Ex.
    destruct (label_fits (message_label (S i) (length out)) x _ (ascii_label _ _) H1 H2) as [H3 H4].
    pose proof (label_short (S i) (length out) Ex Hn). split; [lia|done].
Qed.

Theorem terminal_messages_fit_witness :
  exists messages, terminal_messages ex_observer ex_project "completed" (ex_ended "completed") = Some messages
    /\ length messages = 1
    /\ Forall (fun m => (0 < utf16_len (runes (rm_Text m)) <= TelegramMessageLimit)%Z) messages.
Proof.
  destruct (terminal_messages_returns ex_observer ex_project "completed" (ex_ended "completed")) as [messages E].
  assert (Hl : length (default [] (terminal_messages ex_observer ex_project "completed" (ex_ended "completed"))) = 1)
    by (vm_compute; reflexivity).
  rewrite E in Hl. cbn [default from_option id] in Hl.
  exists messages. split; [exact E|]. split; [exact Hl|].
  pose proof (terminal_messages_fit ex_observer ex_project "completed" (ex_ended "completed") messages E) as H.
  rewrite Hl in H. cbv zeta in H.
  destruct (H eq_refl) as (texts & _ & _ & H').
  eapply Forall_impl; [exact H'|]. by intros m [Hm _].
Defined.

(** ** The outcome of a report *)

Lemma insert_items_rows p now items : forall protected s s',
  Forall2 (fun item text => Protect p (qi_PayloadJSON item) = Ok text) items protected ->
  insert_items now (zip items protected) s = Ok s' ->
  exists rows, db_queue s' = db_queue s ++ rows /\ Forall2 (queued_as p) items rows.
Proof.
  induction items as [|item items IH]; intros protected s s' HF.
  - apply Forall2_nil_inv_l in HF as ->. intros [= <-]. exists []. split; [by rewrite app_nil_r|constructor].
  - apply Forall2_cons_inv_l in HF as (text & rest & Ht & HF & ->). cbn [zip_with insert_items].
    destruct (event_target_exists _ _ _); [done|]. intros H.
    destruct (IH _ _ _ HF H) as (rows & E & Hr). cbn [db_queue insert_row set_queueSeq set_queue] in E.
    rewrite <- app_assoc in E. eexists. split; [exact E|]. constructor; [|exact Hr]. cbn. split_and!; try done. by exists text.
Qed.

(** What the transaction does when it answers no error. *)
Lemma enqueue_outcome p now terminal items release s b s' :
  release_matches release s ->
  EnqueueTerminalEventWithLinkedRelease (Some p) now terminal items release s = Ok (b, s') ->
  (is_Some (db_terminal s !! te_TerminalKey terminal) /\ s' = s) \/ reported p now terminal items release s s'.
Proof.
  intros Hm H. unfold EnqueueTerminalEventWithLinkedRelease in H.
  assert (Hrun : forall target, match target with None => release = None | Some t => exists rel, release = Some rel
              /\ t = (trim_space (rel_LinkedThreadID rel), trim_space (rel_TurnID rel), rel_WorkerGeneration rel) end ->
            (let! protected := map_res (fun item => Protect p (qi_PayloadJSON item)) items in
             terminal_transaction now terminal (zip items protected) target s) = Ok (b, s') ->
            (is_Some (db_terminal s !! te_TerminalKey terminal) /\ s' = s) \/ reported p now terminal items release s s').
  { intros target Ht E. unfold res_bind in E at 1. destruct (map_res _ items) as [protected|] eqn:Ep; [|done].
    apply map_res_ok in Ep. unfold terminal_transaction in E.
    destruct (db_terminal s !! te_TerminalKey terminal) as [old|]; [injection E as _ <-; left; split; [by eexists|done]|].
    cbv zeta in E. unfold res_bind in E. destruct (insert_items _ _ _) as [s2|] eqn:Ei; [|done].
    pose proof (insert_items_linked _ _ _ _ Ei) as Hk. pose proof (insert_items_app _ _ _ _ Ei) as (_ & _ & Hterm).
    apply (insert_items_rows p) in Ei as (rows & Eq & Hr); [|done]. cbn [db_queue db_linked db_terminal set_terminal] in Eq, Hk, Hterm.
    right. destruct target as [t|].
    - destruct Ht as (rel & -> & ->). destruct Hm as (_ & _ & Hm). rewrite Hk, Hm in E. injection E as _ <-. split.
      + cbn [db_terminal set_linked]. rewrite Hterm, lookup_insert_eq. by eexists.
      + by exists rows.
      + done.
    - rewrite Ht. injection E as _ <-. split; [rewrite Hterm, lookup_insert_eq; by eexists|by exists rows|done]. }
  cbv zeta in H. destruct release as [rel|]; [|by apply (Hrun None)].
  destruct Hm as (Hm1 & Hm2 & Hm). unfold res_bind in H at 1.
  destruct (release_target rel) as [target|] eqn:Et; [|done].
  unfold release_target, minimalLinkedReleaseGeneration, minimalLinkedGenerationInt64 in Et.
  destruct (_ =? 0)%Z; [done|]. cbn [res_bind] in Et. destruct (_ <? _)%Z; [done|]. cbn [res_bind] in Et.
  rewrite (proj2 (String.eqb_neq _ "") Hm1), (proj2 (String.eqb_neq _ "") Hm2) in Et. cbn [orb] in Et. injection Et as <-.
  eapply (Hrun (Some _)); [|exact H]. by exists rel.
Qed.

(** A claim never fails; one that obtains the end of a turn is of its thread and status. *)
Lemma claim_cases clock threadID turnID outcome allow now s :
  outcome ∈ terminal_statuses ->
  (exists s', claimMinimalTerminalTransition clock threadID turnID outcome allow now s = Ok (None, s'))
  \/ exists terminal r s',
       claimMinimalTerminalTransition clock threadID turnID outcome allow now s = Ok (Some terminal, s')
       /\ trim_space threadID <> "" /\ trim_space turnID <> ""
       /\ te_TerminalKey terminal = trim_space threadID +:+ ":" +:+ trim_space turnID +:+ ":" +:+ outcome
       /\ s' = set_observed (trim_space threadID) r s
       /\ mo_LastTurnID r = Some (trim_space turnID) /\ mo_LastTurnStatus r = Some outcome
       /\ mo_BaselineReady r = true /\ mo_Retired r = false.
Proof.
  intros Ho. destruct (outcome_canonical outcome Ho) as (Hc & Hm & _).
  destruct (String.eqb_spec (trim_space threadID) "") as [Ht|Ht].
  { left. unfold claimMinimalTerminalTransition. rewrite Ht. by eexists. }
  destruct (String.eqb_spec (trim_space turnID) "") as [Hu|Hu].
  { left. unfold claimMinimalTerminalTransition. rewrite Hu. rewrite orb_true_r. by eexists. }
  rewrite transition_run by done. destruct (_ !! _) as [r|]; [|left; by eexists].
  destruct (transition_open _ _ r) eqn:Eo; [|left; by eexists].
  right. unfold transition_open in Eo. apply andb_prop in Eo as [[Hb Hr%negb_true_iff]%andb_prop _].
  eexists _, _, _. split; [reflexivity|]. by split_and!.
Qed.

Lemma minimal_statuses status :
  existsb (String.eqb status) ["completed"; "failed"; "interrupted"] = true -> status ∈ terminal_statuses.
Proof. intros (x & Hx & ->%String.eqb_eq)%existsb_exists. unfold terminal_statuses. set_solver. Qed.

(** What a report that fails leaves: the queue, the events and the links as they were, and
    the end of the turn open again. *)
Lemma report_error o now p project status snapshot terminal s1 e s' :
  ro_Protector (ob_Router o) = Some p ->
  reportTerminal o now project status snapshot terminal s1 = Some (Some e, s') ->
  (exists err, GetMinimalLinkedThreadByLinkedID (Some p) (th_ID (sn_Thread snapshot)) s1 = Err err /\ s' = s1)
  \/ s' = run_ignored (ReopenMinimalTerminalTransition now (th_ID (sn_Thread snapshot)) (sn_LatestTurnID snapshot) now) s1.
Proof.
  intros Hp. unfold reportTerminal. rewrite Hp.
  destruct (GetMinimalLinkedThreadByLinkedID _ _ s1) as [link|err]; [|intros [= _ <-]; left; by exists err].
  assert (Hx : forall items release, enqueueOrReopen o now snapshot terminal items release s1 = (Some e, s') ->
            s' = run_ignored (ReopenMinimalTerminalTransition now (th_ID (sn_Thread snapshot)) (sn_LatestTurnID snapshot) now) s1).
  { intros items release. unfold enqueueOrReopen. destruct (EnqueueTerminalEventWithLinkedRelease _ _ _ _ _ _) as [[b s2]|]; [done|].
    by intros [= _ <-]. }
  intros H. right. destruct (GetGlobalObserverTarget (format_time now) s1) as [[target|] []];
    [destruct (ot_Enabled target); [destruct (terminal_messages _ _ _ _); [|done]|]|..];
    injection H as H; try (by eapply Hx); destruct (terminal_release snapshot link); try done; by eapply Hx.
Qed.

Lemma reopen_quiet now threadID turnID s :
  let s' := run_ignored (ReopenMinimalTerminalTransition now threadID turnID now) s in
  db_queue s' = db_queue s /\ db_terminal s' = db_terminal s /\ db_linked s' = db_linked s.
Proof. unfold run_ignored, ReopenMinimalTerminalTransition. by destruct (_ || _). Qed.

(** ** Theorems *)

(** C28: The report of a turn's end always returns, and what it does to the queue are steps of
    the machine of the deliveries: its invariant holds of what is queued for the ends
    of turns, whatever the text, the link and the target are. *)
Theorem projectMinimalTerminal_refines o now p `{!ProtectorLaws p} snapshot s :
  ro_Protector (ob_Router o) = Some p -> reachable p s ->
  exists err s', projectMinimalTerminal o now snapshot s = Some (err, s') /\ rtc (queue_step p) s s' /\ reachable p s' /\ Inv p s'.
Proof.
  intros Hp Hr. destruct (projectMinimalTerminal_steps o now p Hp snapshot s) as (err & s' & E & Hs).
  exists err, s'. split; [done|]. split; [done|]. assert (reachable p s') as Hr' by (unfold reachable in *; etransitivity; [exact Hr|by apply queue_steps]).
  split; [done|]. by apply reachable_Inv.
Qed.

(** C29: A report that fails is retried: nothing was queued, recorded or released, and the end
    of the turn can be claimed again under the same key, unless the link of the thread
    could not be read. *)
Theorem projection_error_retried o now p snapshot s e s' :
  ro_Protector (ob_Router o) = Some p ->
  projectMinimalTerminal o now snapshot s = Some (Some e, s') ->
  db_queue s' = db_queue s /\ db_terminal s' = db_terminal s /\ db_linked s' = db_linked s
  /\ ((exists link, GetMinimalLinkedThreadByLinkedID (Some p) (th_ID (sn_Thread snapshot)) s = Ok link) ->
      forall clock allow now', exists e2 s2,
        claimMinimalTerminalTransition clock (th_ID (sn_Thread snapshot)) (sn_LatestTurnID snapshot)
          (canonicalMinimalTerminalStatus (sn_LatestTurnStatus snapshot)) allow now' s' = Ok (Some e2, s2)
        /\ te_TerminalKey e2 = trim_space (th_ID (sn_Thread snapshot)) +:+ ":" +:+ trim_space (sn_LatestTurnID snapshot)
             +:+ ":" +:+ canonicalMinimalTerminalStatus (sn_LatestTurnStatus snapshot)).
Proof.
  intros Hp H. unfold projectMinimalTerminal in H. set (status := canonicalMinimalTerminalStatus _) in *.
  destruct (_ || _) eqn:Eg; [done|]. apply orb_false_elim in Eg as [_ Hst%negb_false_iff%minimal_statuses].
  destruct (MatchExactCWD _ _ _) as [project|]; [|done]. unfold ClaimMinimalTerminalTransitionAfterBaseline in H.
  destruct (claim_cases now (th_ID (sn_Thread snapshot)) (sn_LatestTurnID snapshot) status
              ((0 <? globalObserverSinceUnix o s)%Z && (globalObserverSinceUnix o s <=? th_UpdatedAt (sn_Thread snapshot))%Z)
              now s Hst) as [[s1 E]|(terminal & r & s1 & E & Ht & Hu & Hk & -> & H1 & H2 & H3 & H4)];
    rewrite E in H; [done|].
  destruct (report_error _ _ _ _ _ _ _ _ _ _ Hp H) as [(err & Herr & ->)|Hs'].
  - split_and!; try done. intros [link Hl]. discriminate (eq_trans (eq_sym Hl) Herr).
  - pose proof (reopen_quiet now (th_ID (sn_Thread snapshot)) (sn_LatestTurnID snapshot) (set_observed (trim_space (th_ID (sn_Thread snapshot))) r s)) as (Q1 & Q2 & Q3).
    rewrite <- Hs' in Q1, Q2, Q3. split_and!; try done. intros _ clock allow now'.
    destruct (reopened_claims (th_ID (sn_Thread snapshot)) (sn_LatestTurnID snapshot) status
                (set_observed (trim_space (th_ID (sn_Thread snapshot))) r s) r Hst Ht Hu (observed_lookup _ _ _) H1 H2 H3 H4
                now now clock now' allow) as (s2 & e2 & s3 & Hre & Hc & Hkey).
    rewrite Hs'. unfold run_ignored. rewrite Hre. by exists e2, s3.
Qed.

Theorem projectMinimalTerminal_refines_witness :
  exists s', projectMinimalTerminal ex_observer ex_now (ex_ended "completed") ex_store = Some (None, s')
    /\ rtc (queue_step plainProtector) ex_store s'.
Proof.
  destruct (projectMinimalTerminal_refines ex_observer ex_now plainProtector (ex_ended "completed") ex_store eq_refl ex_reachable)
    as (err & s' & E & Hs & _).
  assert (He : match projectMinimalTerminal ex_observer ex_now (ex_ended "completed") ex_store with
               | Some (None, _) => True | _ => False end) by (vm_compute; exact I).
  exists s'. rewrite E in He |- *. destruct err as [e|]; [destruct He|]. split; [reflexivity|exact Hs].
Defined.

Theorem projection_error_retried_witness :
  match projectMinimalTerminal ex_observer ex_now (ex_ended "completed") ex_taken_id with
  | Some (Some _, s') => length (db_queue s') = 1 /\ db_terminal s' = ∅
      /\ exists e2 s2, claimMinimalTerminalTransition ex_now "t" "turn-1" "completed" false ex_now s' = Ok (Some e2, s2)
           /\ te_TerminalKey e2 = "t:turn-1:completed"
  | _ => False
  end.
Proof.
  destruct (projectMinimalTerminal ex_observer ex_now (ex_ended "completed") ex_taken_id) as [[[e|] s']|] eqn:E;
    [|vm_compute in E; discriminate E..].
  destruct (projection_error_retried ex_observer ex_now plainProtector (ex_ended "completed") ex_taken_id e s' eq_refl E)
    as (H1 & H2 & _ & H3).
  split; [by rewrite H1|]. split; [by rewrite H2|].
  destruct (H3 ltac:(by eexists) ex_now false ex_now) as (e2 & s2 & H4 & H5). exists e2, s2. by split.
Defined.

(** A report without error has reported: when its link says which turn the worker runs,
    the event is recorded, each of its messages waits in the queue in its place, and the
    link waits for its worker to be closed, all at once; or the event was recorded before. *)
Theorem projection_recorded o now p project target snapshot link terminal s s1 s' :
  ro_Protector (ob_Router o) = Some p ->
  ob_Profile o = "minimal" ->
  MatchExactCWD (ro_Platform (ob_Router o)) (ro_Registry (ob_Router o)) (th_CWD (sn_Thread snapshot)) = Some project ->
  GetGlobalObserverTarget (format_time now) s = (Some target, true) -> ot_Enabled target = true ->
  GetMinimalLinkedThreadByLinkedID (Some p) (th_ID (sn_Thread snapshot)) s = Ok link ->
  release_matches (terminal_release snapshot link) s ->
  let status := canonicalMinimalTerminalStatus (sn_LatestTurnStatus snapshot) in
  existsb (String.eqb status) ["completed"; "failed"; "interrupted"] = true ->
  ClaimMinimalTerminalTransitionAfterBaseline now (th_ID (sn_Thread snapshot)) (sn_LatestTurnID snapshot) status
    (th_UpdatedAt (sn_Thread snapshot)) (globalObserverSinceUnix o s) now s = Ok (Some terminal, s1) ->
  projectMinimalTerminal o now snapshot s = Some (None, s') ->
  exists messages, terminal_messages o project status snapshot = Some messages
    /\ ((is_Some (db_terminal s !! te_TerminalKey terminal) /\ db_queue s' = db_queue s /\ db_linked s' = db_linked s)
        \/ reported p (format_time now) terminal (terminal_items o target snapshot terminal messages)
             (terminal_release snapshot link) s s').
Proof.
  intros Hp Hprof Hproj Htarget Hen Hlink Hrel status Hst Hclaim H.
  destruct (terminal_messages_returns o project status snapshot) as [messages Em]. exists messages. split; [done|].
  unfold projectMinimalTerminal in H. fold status in H. rewrite Hprof, Hst, Hproj, Hclaim in H. cbn [negb orb String.eqb] in H.
  assert (Hs1 : exists r, s1 = set_observed (trim_space (th_ID (sn_Thread snapshot))) r s).
  { unfold ClaimMinimalTerminalTransitionAfterBaseline in Hclaim.
    destruct (claim_cases now (th_ID (sn_Thread snapshot)) (sn_LatestTurnID snapshot) status
                ((0 <? globalObserverSinceUnix o s)%Z && (globalObserverSinceUnix o s <=? th_UpdatedAt (sn_Thread snapshot))%Z)
                now s (minimal_statuses _ Hst)) as [[s2 E]|(? & r & s2 & E & _ & _ & _ & -> & _)]; rewrite E in Hclaim; [done|]. injection Hclaim as _ <-. by exists r. }
  destruct Hs1 as [r ->]. unfold reportTerminal in H. rewrite Hp in H.
  change (GetMinimalLinkedThreadByLinkedID (Some p) (th_ID (sn_Thread snapshot)) (set_observed (trim_space (th_ID (sn_Thread snapshot))) r s))
    with (GetMinimalLinkedThreadByLinkedID (Some p) (th_ID (sn_Thread snapshot)) s) in H.
  change (GetGlobalObserverTarget (format_time now) (set_observed (trim_space (th_ID (sn_Thread snapshot))) r s))
    with (GetGlobalObserverTarget (format_time now) s) in H.
  rewrite Hlink, Htarget, Hen, Em in H. unfold enqueueOrReopen in H. rewrite Hp in H.
  destruct (EnqueueTerminalEventWithLinkedRelease _ _ _ _ _ _) as [[b s2]|] eqn:E; [|discriminate H]. injection H as <-.
  apply enqueue_outcome in E as [[E ->]|[E1 E2 E3]]; [by left|by right|exact Hrel].
Qed.

Theorem projection_recorded_witness :
  match projectMinimalTerminal ex_observer ex_now (ex_ended "completed")
          (ex_watched [ex_link_row MinimalLinkedTelegramRunning (Some "turn-1")]) with
  | Some (None, s') => length (db_queue s') = 1 /\ map l_State (db_linked s') = [MinimalLinkedReleasePending]
  | _ => False
  end.
Proof.
  set (s := ex_watched [ex_link_row MinimalLinkedTelegramRunning (Some "turn-1")]).
  destruct (projectMinimalTerminal ex_observer ex_now (ex_ended "completed") s) as [[[e|] s']|] eqn:E;
    [vm_compute in E; discriminate E| |vm_compute in E; discriminate E].
  destruct (ClaimMinimalTerminalTransitionAfterBaseline ex_now "t" "turn-1" "completed" 0 (globalObserverSinceUnix ex_observer s) ex_now s)
    as [[[terminal|] s1]|] eqn:Ec; [|vm_compute in Ec; discriminate Ec..].
  destruct (GetGlobalObserverTarget (format_time ex_now) s) as [[target|] b] eqn:Et; [|vm_compute in Et; discriminate Et].
  assert (Hb : let found := GetGlobalObserverTarget (format_time ex_now) s in
               found.2 = true /\ match found.1 with Some t => ot_Enabled t | None => false end = true)
    by (vm_compute; split; reflexivity).
  rewrite Et in Hb. destruct Hb as [Hb Hen]. cbn [fst snd] in Hb, Hen. subst b.
  destruct (GetMinimalLinkedThreadByLinkedID (Some plainProtector) "t" s) as [link|] eqn:El; [|vm_compute in El; discriminate El].
  assert (Hrel : terminal_release (ex_ended "completed") link = Some (mkRelease "t" "turn-1" 1))
    by (vm_compute in El; injection El as <-; vm_compute; reflexivity).
  destruct (projection_recorded ex_observer ex_now plainProtector ex_project target (ex_ended "completed") link terminal s s1 s'
              eq_refl eq_refl ltac:(vm_compute; reflexivity) Et Hen El) as (messages & Em & Hm).
  - rewrite Hrel. split; [vm_compute; discriminate|]. split; [vm_compute; discriminate|vm_compute; reflexivity].
  - vm_compute; reflexivity.
  - exact Ec.
  - exact E.
  - assert (length messages = 1) as Hl.
    { assert (H1 : length (default [] (terminal_messages ex_observer ex_project "completed" (ex_ended "completed"))) = 1)
        by (vm_compute; reflexivity). exact (eq_trans (f_equal (fun x => length (default [] x)) (eq_sym Em)) H1). }
    destruct Hm as [([e He] & _)|[_ (rows & Eq & Hr) Hlink]]; [assert (db_terminal s = ∅) as Hn by reflexivity; rewrite Hn, lookup_empty in He; discriminate He|].
    split.
    + rewrite Eq. change (db_queue s) with (@nil QueueRow). cbn [app]. rewrite <- (Forall2_length _ _ _ Hr).
      unfold terminal_items. by rewrite length_imap.
    + rewrite Hlink, Hrel. vm_compute. reflexivity.
Defined.
