(* ===== verification/TerminalRelease.v ===== *)
(** * The release of the worker of a turn that ended

    Releasing a worker and draining what waits are steps of the worker machine, and a
    link is ready again only after the session of its worker was closed. *)
From stdpp Require Import base list numbers strings gmap relations sorting.
From Stdlib Require Import Lia Ascii.
From S2P Require Import Prelude GoStrings GoTime Utf8 Sql Json Model Normalize NotifierFormat MinimalTables CoreTables Store Queue QueueSafety Threads Panels TerminalGate NotifierIngress.
From S2P Require Import LinkedThread PendingCommands Continuations Observations Approvals Projects MinimalSplit TgFormat LinkWorkers Routing Starts Router RouterSafety Drain Terminal TerminalReport.

(** Nothing of the linked threads changes. *)
Definition links_kept (s s' : Store) : Prop := db_linked s' = db_linked s.

(** The session of a worker of this thread and generation was closed. *)
Definition closed_for (id : string) (generation : Z) (w : RouterWorld) : Prop :=
  exists m q wk, rw_Workers w = Some m /\ worker_at m q = Some wk /\ wk_ThreadID wk = id
    /\ wk_Generation wk = generation /\ wk_Session wk ∈ rw_Closed w.

(** The requests of a session. *)
Definition approvals_kept (s s' : Store) : Prop := cr_approvals (db_core s') = cr_approvals (db_core s).

Definition none_pending (identity : string) (s : Store) : Prop :=
  forall a, a ∈ cr_approvals (db_core s) -> ma_SessionIdentity a = identity -> ma_pending a = false.

(** Whether the bridge can tell that the worker of the link is closed. *)
Definition release_confirmed (o : Observer) (link : MinimalLinkedThread) (w : RouterWorld) : bool :=
  let '(closed, closeErr, w1) := releaseWorker o (lt_LinkedThreadID link) (lt_WorkerGeneration link) w in
  bool_decide (closeErr = None)
  && (closed || confirmedRelease (lt_LinkedThreadID link) (lt_WorkerGeneration link) w1).

(** The session that a release of the link's worker ends: that of the worker registered
    for the thread, and when there is none that of the receipt of its generation. *)
Definition released_session (link : MinimalLinkedThread) (w : RouterWorld) (session : string) : Prop :=
  match registeredWorker (lt_LinkedThreadID link) w with
  | Some wk => wk_SessionIdentity wk = session
  | None => confirmedIdentity (lt_LinkedThreadID link) (lt_WorkerGeneration link) w = Some session
  end.

Definition release_failed (clock : TimeString) (row : LinkedRow) : LinkedRow :=
  upd_linked_failure (Some "release_close_failed")
    (upd_linked_worker MinimalLinkedFailed None (l_WorkerGeneration row) clock row).

(** What may make a link ready: the end of a turn, and /repair. *)
Inductive release_run (o : Observer) (now : instant) : RouterWorld -> RouterWorld -> Prop :=
| rr_terminal snapshot err w w' :
    releaseMinimalTerminalWorker o now snapshot w = (err, w') -> release_run o now w w'
| rr_repair chatID topicID answer w w' :
    repairMinimalLinkedReleasePending o now chatID topicID w = (answer, w') -> release_run o now w w'.

(** The thread "t" with its worker, whose turn ended, or runs without having been marked. *)
Definition ex_working (state : string) (activeTurnID : option string) : RouterWorld :=
  mkRouterWorld (ex_watched [ex_link_row state activeTurnID]) (Some ex_first) 1 [] 0 [] [].

(** The same when its worker is closed already, and the receipt of that is kept. *)
Definition ex_released : Manager := (Release "t" 1 (fun _ => None) ex_first).2.
Definition ex_receipt (state : string) (activeTurnID : option string) : RouterWorld :=
  mkRouterWorld (ex_watched [ex_link_row state activeTurnID]) (Some ex_released) 1 [0] 0 [] [].

Definition ex_codec : GateCodec := {| gate_marshal := gs_TurnID; gate_unmarshal := fun _ => Err "no" |}.

#[local] Arguments update_where : simpl never.
#[local] Arguments affected : simpl never.
#[local] Arguments find_first : simpl never.

(** ** Runs of the workers *)

Lemma runs_store r n w0 w s : runs r n w0 w -> runs r n w0 (set_rw_Store s w).
Proof. intros H. by eapply runs_quiet. Qed.

Section runs.
Context (o : Observer) (now : instant).
Local Abbreviation r := (ob_Router o).

Lemma releaseWorker_runs threadID generation w closed err w' :
  releaseWorker o threadID generation w = (closed, err, w') ->
  runs r 0 w w' /\ rw_Store w' = rw_Store w /\ rw_Sent w' = rw_Sent w.
Proof.
  unfold releaseWorker. destruct (rw_Workers w) as [m|] eqn:Em; [|intros [= _ _ <-]; split; [apply runs_refl|done]].
  destruct (Release _ _ _ m) as [[[found e] sessions] m'] eqn:E. intros [= _ _ <-]. split; [|done].
  split; [exists []; rewrite app_nil_r; by repeat split|]. by eapply release_workers_run.
Qed.

Lemma forgetRelease_runs threadID generation w : runs r 0 w (forgetRelease threadID generation w)
  /\ rw_Store (forgetRelease threadID generation w) = rw_Store w.
Proof.
  unfold forgetRelease. destruct (rw_Workers w) as [m|] eqn:Em; [|split; [apply runs_refl|done]]. split; [|done].
  split; [exists []; rewrite app_nil_r; by repeat split|]. unfold workers_run. rewrite Em. cbn [rw_Workers set_rw_Workers rw_Made rw_Closed].
  split.
  - destruct (forget_keeps threadID generation m) as [v ->]. done.
  - intros acq cl fin _ _. apply rtc_once, ws_forget.
Qed.

Lemma tx_runs {A} (m : Tx Store A) n w0 w a w' : tx m w = (a, w') -> runs r n w0 w -> runs r n w0 w'.
Proof. intros E H. by apply (proj1 (tx_store m w a w' E)). Qed.

Lemma finishRelease_runs link identity turnID w answer w' :
  Terminal.finishRelease o now link identity turnID w = (answer, w') -> runs r 0 w w'.
Proof.
  unfold Terminal.finishRelease. destruct (tx _ w) as [[changed|e] w1] eqn:E.
  - pose proof (tx_runs _ 0 w _ _ _ E (runs_refl r w)) as H1. destruct changed; intros [= _ <-]; [|done].
    apply (runs_trans r 0 0 _ w1); [done|apply forgetRelease_runs].
  - intros [= _ <-]. by apply (tx_runs _ 0 w _ _ _ E), runs_refl.
Qed.

Lemma releaseLinkedWorker_runs link turnID w err w' :
  releaseLinkedWorker o now link turnID w = (err, w') -> runs r 0 w w'.
Proof.
  unfold releaseLinkedWorker. destruct (releaseWorker o _ _ w) as [[closed closeErr] w1] eqn:E1.
  apply releaseWorker_runs in E1 as (R1 & _ & _).
  assert (Hfail : forall x : RouterWorld, x = (tx (tx_of (FailMinimalLinkedThread (format_time now) (lt_LinkedThreadID link)
            (lt_WorkerGeneration link) "release_close_failed")) w1).2 -> runs r 0 w x).
  { intros x ->. destruct (tx _ w1) as [a w2] eqn:E. by eapply tx_runs. }
  destruct closeErr as [e|]; [intros [= _ <-]; by apply Hfail|].
  destruct (closed || _); [|intros [= _ <-]; by apply Hfail].
  destruct (Terminal.finishRelease o now link _ turnID w1) as [[[]|e] w2] eqn:E2; intros [= _ <-];
    apply finishRelease_runs in E2; by apply (runs_trans r 0 0 _ w1).
Qed.

Lemma releaseRegistered_runs threadID w err w' :
  releaseRegisteredMinimalTerminalWorker o now threadID w = (err, w') -> runs r 0 w w'.
Proof.
  unfold releaseRegisteredMinimalTerminalWorker. destruct (String.eqb _ ""); [intros [= _ <-]; apply runs_refl|].
  destruct (registeredWorker _ w) as [wk|]; [|intros [= _ <-]; apply runs_refl].
  destruct (releaseWorker o _ _ w) as [[closed closeErr] w1] eqn:E1. apply releaseWorker_runs in E1 as (R1 & _ & _).
  destruct closed, closeErr as [e|]; try (intros [= _ <-]; exact R1).
  destruct (String.eqb _ "").
  - intros [= _ <-]. apply (runs_trans r 0 0 _ w1); [done|apply forgetRelease_runs].
  - destruct (tx _ w1) as [[n|e] w2] eqn:E2; intros [= _ <-]; pose proof (tx_runs _ 0 w _ _ _ E2 R1) as R2; [|exact R2].
    apply (runs_trans r 0 0 _ w2); [done|apply forgetRelease_runs].
Qed.

Lemma releaseTerminal_runs snapshot w err w' :
  releaseMinimalTerminalWorker o now snapshot w = (err, w') -> runs r 0 w w'.
Proof.
  unfold releaseMinimalTerminalWorker. destruct (_ || _); [intros [= _ <-]; apply runs_refl|]. cbv zeta.
  destruct (_ || _); [intros [= _ <-]; apply runs_refl|].
  destruct (GetMinimalLinkedThreadByLinkedID _ _ _) as [[link|]|e]; [|apply releaseRegistered_runs|intros [= _ <-]; apply runs_refl].
  destruct (_ || _); [intros [= _ <-]; apply runs_refl|]. apply releaseLinkedWorker_runs.
Qed.

Context `{GateCodec} (HL : RouterLaws r now).

Lemma setError_runs n w0 w e : runs r n w0 w -> runs r n w0 (setError o now e w).
Proof. apply runs_store. Qed.

Lemma drainNext_runs threadID w answer w' :
  drainNextLocked r now threadID w = Some (answer, w') ->
  exists n, runs r n w w' /\ ((n <= 1)%nat \/ persist_fails r).
Proof using HL.
  unfold drainNextLocked. destruct (GetThread threadID (rw_Store w)) as [thread|];
    [|intros [= <- <-]; exists 0%nat; split; [apply runs_refl|left; lia]].
  destruct (threadLooksActiveForInput thread); [intros [= <- <-]; exists 0%nat; split; [apply runs_refl|left; lia]|].
  intros (n & Hn & Hle & _)%(drainLoop_ok r now HL). by exists n.
Qed.

Lemma finishTerminal_runs held snapshot w w' :
  finishTerminal o now held snapshot w = Some w' -> exists n, runs r n w w' /\ ((n <= 1)%nat \/ persist_fails r).
Proof using HL.
  assert (Hq : forall x, runs r 0 w x -> exists n, runs r n w x /\ ((n <= 1)%nat \/ persist_fails r))
    by (intros x Hx; exists 0%nat; split; [done|left; lia]).
  unfold finishTerminal. destruct (projectMinimalTerminal o now snapshot (rw_Store w)) as [[[e|] s]|]; [| |done].
  { intros [= <-]. apply Hq, setError_runs, runs_store, runs_refl. }
  pose proof (runs_store r 0 w w s (runs_refl r w)) as R1.
  destruct (releaseMinimalTerminalWorker o now snapshot _) as [err w2] eqn:E2. apply releaseTerminal_runs in E2.
  pose proof (runs_trans r 0 0 _ _ _ R1 E2) as R2. cbn [Nat.add] in R2.
  destruct err as [e|]; [intros [= <-]; by apply Hq, setError_runs|].
  assert (Hd : forall threadID answer x, drainNextLocked r now threadID w2 = Some (answer, x) ->
            exists n, runs r n w (or_set_error o now (answer, x)) /\ ((n <= 1)%nat \/ persist_fails r)).
  { intros threadID answer x (n & Hn & Hle)%drainNext_runs. exists n. split; [|done].
    pose proof (runs_trans r 0 n _ _ _ R2 Hn) as R3. unfold or_set_error. cbn [fst snd]. destruct answer; [by apply setError_runs|done]. }
  destruct held.
  - destruct (drainNextLocked r now _ w2) as [[answer x]|] eqn:E3; [|done]. intros [= <-]. by eapply Hd.
  - unfold DrainNext. destruct (String.eqb _ ""); [intros [= <-]; by apply Hq, setError_runs|].
    destruct (drainNextLocked r now _ w2) as [[answer x]|] eqn:E3; [|done]. intros [= <-]. by eapply Hd.
Qed.

Lemma handleTerminal_runs snapshot held w w' :
  handleTerminalSnapshot o now snapshot held w = Some w' -> exists n, runs r n w w' /\ ((n <= 1)%nat \/ persist_fails r).
Proof using HL.
  unfold handleTerminalSnapshot. cbv zeta.
  match goal with |- context [maybeLogTelegramOriginTerminal _ _ ?n _] => generalize n end. intros sn.
  destruct (_ || _ || _).
  { intros [= <-]. exists 0%nat. split; [apply runs_store, runs_refl|left; lia]. }
  destruct (staleMinimalLinkedTerminal o sn (rw_Store w)) as [[]|e].
  - intros [= <-]. exists 0%nat. split; [apply runs_refl|left; lia].
  - intros (n & Hn & Hle)%finishTerminal_runs. exists n. split; [|done].
    apply (runs_trans r 0 n _ _ _ (runs_store r 0 w w _ (runs_refl r w)) Hn).
  - intros [= <-]. exists 0%nat. split; [apply setError_runs, runs_refl|left; lia].
Qed.
End runs.

(** ** What a release does to the links *)

(** *** What a transaction keeps *)
Lemma tx_modified {S} (f : S -> S) s u s' : tx_modify f s = Ok (u, s') -> s' = f s.
Proof. by intros [= _ <-]. Qed.

#[local] Instance links_kept_preorder : PreOrder links_kept.
Proof. split; [done|]. intros a b c. unfold links_kept. congruence. Qed.

Lemma kill_links now p : tx_keeps links_kept (kill_deliveries now p).
Proof. unfold kill_deliveries. apply keeps_bind; [apply _|by apply keeps_update|intros; apply keeps_ret, _]. Qed.

Lemma expire_links identity now : tx_keeps links_kept (expireMinimalApprovalsForSessionTx identity now).
Proof.
  unfold expireMinimalApprovalsForSessionTx. destruct (String.eqb _ ""); [apply keeps_ret, _|].
  apply keeps_bind; [apply _|by apply keeps_update|]. intros n. apply keeps_bind; [apply _| |intros; apply keeps_ret, _].
  apply keeps_when; [apply _|]. unfold expire_group. apply keeps_bind; [apply _|apply keeps_gets, _|]. intros rows.
  apply keeps_bind; [apply _|by apply keeps_update|intros; apply kill_links].
Qed.

Lemma expire_pending_links identity now : tx_keeps links_kept (expirePendingApprovalsForSessionTx identity now).
Proof. unfold expirePendingApprovalsForSessionTx. destruct (String.eqb _ ""); [apply keeps_ret, _|by apply keeps_update]. Qed.

Lemma expire_callbacks_links identity : tx_keeps links_kept (expireCallbackRoutesForSessionTx identity).
Proof. unfold expireCallbackRoutesForSessionTx. destruct (String.eqb _ ""); [apply keeps_ret, _|by apply keeps_modify]. Qed.

Lemma finish_links protector clock linkedID generation session turnID releasedAt ready s b s' :
  FinishMinimalLinkedReleaseWithReadyDelivery protector clock linkedID generation session turnID releasedAt ready s = Ok (b, s') ->
  (b = false /\ s' = s)
  \/ (b = true /\ exists at_,
      db_linked s' = update_where (fun x => linked_is (trim_space linkedID) generation MinimalLinkedReleasePending x
                                            && is_text (l_ActiveTurnID x) (trim_space turnID)) (upd_linked_release at_) (db_linked s)).
Proof.
  intros H. unfold FinishMinimalLinkedReleaseWithReadyDelivery in H.
  destruct (_ || _); [apply tx_ret_ok in H as [-> ->]; by left|]. tx_inv H.
  apply tx_lift_ok in Htx as [Hg ->], Htx0 as [_ ->]. apply tx_gets_ok in Htx1 as [-> ->].
  assert (a = generation) as -> by (unfold minimalLinkedGenerationInt64 in Hg; destruct (_ <? _)%Z; congruence).
  apply expire_links in Htx2. apply expire_pending_links in Htx3. apply expire_callbacks_links in Htx4.
  injection Htx5 as <- <-. destruct (negb _); [injection H as <- <-; by left|]. tx_inv H. apply tx_ret_ok in H as [-> ->].
  right. split; [done|]. assert (Hl : db_linked s5 = db_linked s) by (unfold links_kept in *; congruence). rewrite Hl in Htx.
  eexists. destruct a0 as [[item text]|]; [|by apply tx_ret_ok in Htx as [_ ->]].
  apply tx_modified in Htx as ->. unfold insert_ungrouped. by destruct (event_target_exists _ _ _).
Qed.

(** *** The transaction that finishes a release, when it matches a link *)
Lemma approvals_expired identity now s : trim_space identity <> "" ->
  exists n s', expireMinimalApprovalsForSessionTx identity now s = Ok (n, s') /\ none_pending (trim_space identity) s'
    /\ db_linked s' = db_linked s.
Proof.
  intros Hi. destruct (expireMinimalApprovalsForSessionTx identity now s) as [[n s']|e] eqn:E.
  - exists n, s'. split; [done|]. split; [|by apply expire_links in E].
    unfold expireMinimalApprovalsForSessionTx in E. rewrite (proj2 (String.eqb_neq _ "") Hi) in E.
    tx_inv E. apply tx_ret_ok in E as [-> ->]. injection Htx as <- <-.
    assert (Hk : tx_keeps approvals_kept (tx_when (0 <? affected (fun a => String.eqb (ma_SessionIdentity a) (trim_space identity) && ma_pending a)
              (rows_of approval_table s))%Z (expire_group now (fun a => String.eqb (ma_SessionIdentity a) (trim_space identity)) ar_live))).
    { assert (PreOrder approvals_kept) by (split; [done|]; intros x y z; unfold approvals_kept; congruence).
      apply keeps_when; [apply _|]. unfold expire_group. apply keeps_bind; [apply _|apply keeps_gets, _|]. intros rows.
      apply keeps_bind; [apply _|by apply keeps_update|]. intros k. unfold kill_deliveries.
      apply keeps_bind; [apply _|by apply keeps_update|intros; apply keeps_ret, _]. }
    apply Hk in Htx0. intros x Hx Hs. rewrite Htx0 in Hx. cbn in Hx.
    unfold update_where in Hx. apply list_elem_of_fmap in Hx as (y & -> & Hy).
    destruct (String.eqb (ma_SessionIdentity y) (trim_space identity) && ma_pending y) eqn:Ey; [done|].
    rewrite Hs, String.eqb_refl in Ey. exact Ey.
  - exfalso. revert E. unfold expireMinimalApprovalsForSessionTx, expire_group, kill_deliveries, tx_bind, tx_when, sql_update,
      sql_select, tx_gets, tx_modify, tx_ret. repeat case_match; by try discriminate.
Qed.

Lemma finish_run p clock linkedID generation session identity turnID releasedAt ready s a row b :
  (forall text, exists envelope, Protect p text = Ok envelope) ->
  trim_space linkedID <> "" -> trim_space turnID <> "" -> (0 <= generation <= int64_max)%Z ->
  or_text (trim_space session) (minimalLinkedWorkerSessionIdentity generation) = identity -> trim_space identity <> "" ->
  db_linked s = a ++ row :: b -> l_LinkedThreadID row = Some (trim_space linkedID) ->
  Forall (fun x => is_text (l_LinkedThreadID x) (trim_space linkedID) = false) (a ++ b) ->
  l_State row = MinimalLinkedReleasePending -> l_ActiveTurnID row = Some (trim_space turnID) ->
  l_WorkerGeneration row = generation ->
  exists s', FinishMinimalLinkedReleaseWithReadyDelivery (Some p) clock linkedID generation session turnID releasedAt ready s = Ok (true, s')
    /\ db_linked s' = a ++ upd_linked_release (format_time (if is_zero releasedAt then clock else releasedAt)) row :: b
    /\ none_pending (trim_space identity) s'
    /\ match ready with Some item => event_target_exists (qi_EventID item) (qi_ChatKey item) (db_queue s') = true | None => True end.
Proof.
  intros HP Hl Ht Hg Hi Hs E Hid Hoth Hst Hact Hgen. unfold FinishMinimalLinkedReleaseWithReadyDelivery.
  rewrite (proj2 (String.eqb_neq _ "") Hl), (proj2 (String.eqb_neq _ "") Ht). cbn [orb]. unfold tx_bind at 1, tx_lift at 1.
  unfold minimalLinkedGenerationInt64. destruct (Z.ltb_spec int64_max generation); [lia|].
  assert (Hready : exists protectedReady, match ready with
            | None => Ok None
            | Some item => let! text := wrap_err "protect handoff ready delivery: " (Protect p (qi_PayloadJSON item)) in Ok (Some (item, text))
            end = Ok protectedReady /\ fst <$> protectedReady = ready).
  { destruct ready as [item|]; [|by exists None]. destruct (HP (qi_PayloadJSON item)) as [text ->]. by eexists. }
  destruct Hready as (protectedReady & Hr & Hfst).
  unfold tx_bind at 1, tx_lift at 1. rewrite Hr, Hi. clear Hi.
  unfold tx_bind at 1, tx_gets at 1.
  destruct (approvals_expired identity (format_time clock) s Hs) as (n1 & s1 & E1 & N1 & L1).
  unfold tx_bind at 1. rewrite E1.
  destruct (expirePendingApprovalsForSessionTx identity (format_time clock) s1) as [[n2 s2]|] eqn:E2;
    [|revert E2; unfold expirePendingApprovalsForSessionTx; by destruct (String.eqb _ "")].
  unfold tx_bind at 1. rewrite E2.
  destruct (expireCallbackRoutesForSessionTx identity s2) as [[n3 s3]|] eqn:E3;
    [|revert E3; unfold expireCallbackRoutesForSessionTx; by destruct (String.eqb _ "")].
  unfold tx_bind at 1. rewrite E3.
  assert (L3 : db_linked s3 = a ++ row :: b).
  { apply expire_pending_links in E2. apply expire_callbacks_links in E3. unfold links_kept in *. congruence. }
  assert (N3 : none_pending (trim_space identity) s3).
  { assert (cr_approvals (db_core s3) = cr_approvals (db_core s1)) as A.
    { unfold expireCallbackRoutesForSessionTx in E3. unfold expirePendingApprovalsForSessionTx in E2.
      destruct (String.eqb _ ""); [injection E2 as _ <-; by injection E3 as _ <-|]. injection E2 as _ <-. by injection E3 as _ <-. }
    intros x. rewrite A. apply N1. }
  unfold tx_bind at 1, sql_update at 1. cbn [rows_of linked_table]. rewrite L3.
  destruct (update_where_one (fun r => linked_is (trim_space linkedID) generation MinimalLinkedReleasePending r
              && is_text (l_ActiveTurnID r) (trim_space turnID))
              (upd_linked_release (format_time (if is_zero releasedAt then clock else releasedAt))) a row b) as [U1 U2].
  { rewrite linked_is_hit by done. rewrite Hact. apply String.eqb_refl. }
  1, 2: apply Forall_app in Hoth as [Ha Hb]; (eapply Forall_impl; [eassumption|]); intros x Hx; by rewrite linked_is_other.
  cbn [with_rows linked_table]. rewrite U1, U2. cbn [Z.eqb Pos.eqb negb].
  destruct protectedReady as [[item text]|]; cbn [fmap option_fmap option_map fst] in Hfst; subst ready.
  - unfold tx_bind, enqueue_protected, tx_modify, tx_ret. eexists. split; [reflexivity|].
    unfold insert_ungrouped. destruct (event_target_exists _ _ _) eqn:Ee; [by split_and!|]. split; [done|]. split; [done|].
    cbn [db_queue insert_row set_queueSeq set_queue]. unfold event_target_exists. rewrite existsb_app. cbn [existsb q_EventID q_ChatKey].
    by rewrite !String.eqb_refl, !orb_true_r.
  - unfold tx_bind, tx_ret. eexists. split; [reflexivity|]. by split_and!.
Qed.

(** ** The session behind a release *)

Section sessions.
Context (o : Observer) (now : instant) (acquires : list acquiring) (closing : list (nat * bool))
  (finishing : list (nat * option CloseError)).

(** The workers of the world, among other callers. *)
Local Abbreviation sound w := (forall m, rw_Workers w = Some m ->
  WorkersInv (mkSystem m acquires (rw_Made w) closing finishing (rw_Closed w))).

Lemma steps_inv st st' : rtc worker_step st st' -> WorkersInv st -> WorkersInv st'.
Proof. induction 1 as [|a b c Hs _ IH]; [done|]. intros HW. by apply IH, (step_inv _ _ Hs). Qed.

Lemma releaseWorker_sound threadID generation w closed err w' :
  releaseWorker o threadID generation w = (closed, err, w') -> sound w -> sound w'.
Proof.
  unfold releaseWorker. destruct (rw_Workers w) as [m|] eqn:Em; [|intros [= _ _ <-]; by rewrite Em].
  destruct (Release _ _ _ m) as [[[found e] sessions] m'] eqn:E. intros [= _ _ <-] HW m1 [= <-].
  eapply steps_inv; [|by apply HW]. by eapply (Release_refines (mkSystem m acquires (rw_Made w) closing finishing (rw_Closed w))).
Qed.

Lemma releaseWorker_closed threadID generation w w' :
  releaseWorker o threadID generation w = (true, None, w') -> sound w -> closed_for (trim_space threadID) generation w'.
Proof.
  unfold releaseWorker. destruct (rw_Workers w) as [m|] eqn:Em; [|done].
  destruct (Release _ _ _ m) as [[[found e] sessions] m'] eqn:E. intros [= -> He <-] HW. destruct e; [done|]. clear He.
  unfold Release in E. destruct (beginRelease threadID generation m) as [[q m1]|] eqn:Eb; [|done]. injection E as _ <- <-.
  unfold beginRelease in Eb. destruct (String.eqb _ ""); [done|].
  destruct (mg_ByThread m !! trim_space threadID) as [q'|] eqn:Eq; [|done]. cbn [mbind option_bind] in Eb.
  destruct (worker_at m q') as [wk|] eqn:Ew; [|done]. cbn [mbind option_bind] in Eb.
  destruct (Z.eqb_spec (wk_Generation wk) generation) as [Hg|]; [|done]. injection Eb as <- <-.
  destruct (xi_thread _ (wi_index _ (HW m eq_refl)) _ _ Eq) as (wk' & [Hw' _] & Ht & _). cbn in Hw'.
  assert (wk' = wk) as -> by congruence.
  eexists _, q', wk. split; [reflexivity|]. rewrite Ew. split.
  - unfold worker_at in *. by rewrite finishRelease_heap, heap_removeLocked.
  - split_and!; [done|done|]. cbn [rw_Closed called set_rw_Workers]. left.
Qed.

Lemma receipt_closed threadID generation w :
  sound w -> confirmedRelease threadID generation w = true -> closed_for (trim_space threadID) generation w.
Proof.
  intros HW. unfold confirmedRelease. destruct (rw_Workers w) as [m|] eqn:Em; [|done]. cbn [from_option].
  unfold ConfirmedRelease. destruct (_ || _); [done|]. destruct (mg_Confirmed m !! _) as [c|] eqn:Ec; [|done].
  intros Hg%Z.eqb_eq. destruct (wi_confirmed _ (HW m eq_refl) _ _ Ec) as (_ & q & wk & H1 & H2 & H3 & H4).
  exists m, q, wk. by rewrite <- Hg.
Qed.

Lemma identity_receipt threadID generation w identity :
  confirmedIdentity threadID generation w = Some identity -> confirmedRelease threadID generation w = true.
Proof.
  unfold confirmedIdentity, confirmedRelease, ConfirmedReleaseIdentity, ConfirmedRelease.
  destruct (rw_Workers w) as [m|]; [|done]. cbn [mbind option_bind from_option]. destruct (_ || _); [done|].
  destruct (mg_Confirmed m !! _) as [c|]; [|done]. by destruct (_ =? _)%Z.
Qed.

Lemma closed_forget id generation threadID g w :
  closed_for id generation w -> closed_for id generation (forgetRelease threadID g w).
Proof.
  intros (m & q & wk & Hm & Hq & H). unfold forgetRelease. rewrite Hm. destruct (forget_keeps threadID g m) as [v ->].
  by exists (set_confirmed v m), q, wk.
Qed.

(** What a finished release says of a link that it made ready. *)
Lemma finishRelease_ready link identity turnID w answer w' k row row' :
  Terminal.finishRelease o now link identity turnID w = (answer, w') ->
  closed_for (trim_space (lt_LinkedThreadID link)) (lt_WorkerGeneration link) w ->
  db_linked (rw_Store w) !! k = Some row -> db_linked (rw_Store w') !! k = Some row' ->
  l_State row <> MinimalLinkedReady -> l_State row' = MinimalLinkedReady ->
  l_State row = MinimalLinkedReleasePending
  /\ exists id, l_LinkedThreadID row = Some id /\ closed_for id (l_WorkerGeneration row) w'.
Proof.
  unfold Terminal.finishRelease. intros E Hc Hk Hk' Hn Hr.
  destruct (tx _ w) as [[changed|e] w1] eqn:Et; pose proof (tx_store _ _ _ _ Et) as (_ & _ & Hs);
    [|injection E as _ <-; congruence].
  apply finish_links in Hs as [[-> Hs]|(-> & at_ & Hs)].
  { injection E as _ <-. congruence. }
  injection E as _ <-. rewrite (proj2 (forgetRelease_runs o _ _ w1)), Hs in Hk'. unfold update_where in Hk'.
  rewrite list_lookup_fmap, Hk in Hk'. cbn [fmap option_fmap option_map] in Hk'. injection Hk' as Hrow.
  destruct (_ && _) eqn:Ep; [|congruence]. apply andb_prop in Ep as [Ep _]. unfold linked_is in Ep.
  apply andb_prop in Ep as [[Hi Hg]%andb_prop Hst]. apply String.eqb_eq in Hst. apply Z.eqb_eq in Hg.
  split; [done|]. unfold is_text in Hi. destruct (l_LinkedThreadID row) as [id|]; [|done]. apply String.eqb_eq in Hi.
  exists id. split; [done|]. rewrite Hi, Hg. apply closed_forget.
  unfold tx in Et. destruct (FinishMinimalLinkedReleaseWithReadyDelivery _ _ _ _ _ _ _ _ _) as [[b s]|]; [|done].
  injection Et as _ <-. exact Hc.
Qed.
End sessions.

(** *** The other outcomes make no link ready *)
Lemma fail_not_ready now linkedID generation kind w k row row' :
  db_linked (rw_Store w) !! k = Some row ->
  db_linked (rw_Store (tx (tx_of (FailMinimalLinkedThread now linkedID generation kind)) w).2) !! k = Some row' ->
  l_State row <> MinimalLinkedReady -> l_State row' <> MinimalLinkedReady.
Proof.
  intros Hk. unfold tx, tx_of. destruct (FailMinimalLinkedThread now linkedID generation kind (rw_Store w)) as [s|e] eqn:E.
  2:{ cbn [snd]. intros Hk'. congruence. }
  unfold FailMinimalLinkedThread in E. cbv zeta in E. destruct (_ || _); [done|]. unfold res_bind in E.
  destruct (minimalLinkedGenerationInt64 generation) as [v|]; [|done]. unfold update_linked in E.
  destruct (_ =? 1)%Z; [|done]. injection E as <-. cbn [snd rw_Store set_rw_Store db_linked set_linked]. intros Hk' Hn.
  unfold update_where in Hk'. rewrite list_lookup_fmap, Hk in Hk'. cbn [fmap option_fmap option_map] in Hk'. injection Hk' as <-.
  by destruct (_ && _).
Qed.

Lemma registered_links o now threadID w err w' :
  releaseRegisteredMinimalTerminalWorker o now threadID w = (err, w') -> db_linked (rw_Store w') = db_linked (rw_Store w).
Proof.
  unfold releaseRegisteredMinimalTerminalWorker. destruct (String.eqb _ ""); [by intros [= _ <-]|].
  destruct (registeredWorker _ w) as [wk|]; [|by intros [= _ <-]].
  destruct (releaseWorker o _ _ w) as [[closed closeErr] w1] eqn:E1. apply (releaseWorker_runs o) in E1 as (_ & <- & _).
  destruct closed, closeErr as [e|]; try by intros [= _ <-].
  destruct (String.eqb _ ""); [intros [= _ <-]; by rewrite (proj2 (forgetRelease_runs o _ _ w1))|].
  destruct (tx _ w1) as [[n|e] w2] eqn:E2; pose proof (tx_store _ _ _ _ E2) as (_ & _ & Hs); intros [= _ <-]; [|by rewrite Hs].
  rewrite (proj2 (forgetRelease_runs o _ _ w2)). unfold ExpireMinimalApprovalsForSession in Hs.
  destruct (String.eqb _ ""); [by apply tx_ret_ok in Hs as [_ ->]|]. tx_inv Hs. apply tx_ret_ok in Hs as [_ ->].
  apply expire_links in Htx. apply expire_pending_links in Htx0. apply expire_callbacks_links in Htx1. unfold links_kept in *. congruence.
Qed.

Lemma releaseLinked_ready o now acquires closing finishing link turnID w err w' k row row' :
  releaseLinkedWorker o now link turnID w = (err, w') ->
  (forall m, rw_Workers w = Some m -> WorkersInv (mkSystem m acquires (rw_Made w) closing finishing (rw_Closed w))) ->
  db_linked (rw_Store w) !! k = Some row -> db_linked (rw_Store w') !! k = Some row' ->
  l_State row <> MinimalLinkedReady -> l_State row' = MinimalLinkedReady ->
  l_State row = MinimalLinkedReleasePending
  /\ exists id, l_LinkedThreadID row = Some id /\ closed_for id (l_WorkerGeneration row) w'.
Proof.
  intros E HW Hk Hk' Hn Hr. unfold releaseLinkedWorker in E.
  destruct (releaseWorker o _ _ w) as [[closed closeErr] w1] eqn:E1.
  pose proof (releaseWorker_runs o _ _ _ _ _ _ E1) as (_ & Hs1 & _).
  pose proof (releaseWorker_sound o _ _ _ _ _ _ _ _ _ E1 HW) as HW1. rewrite <- Hs1 in Hk.
  assert (Hfail : w' = (tx (tx_of (FailMinimalLinkedThread (format_time now) (lt_LinkedThreadID link)
            (lt_WorkerGeneration link) "release_close_failed")) w1).2 -> False).
  { intros ->. by apply (fail_not_ready _ _ _ _ _ _ _ _ Hk Hk' Hn). }
  destruct closeErr as [e|]; [injection E as _ <-; by destruct Hfail|].
  destruct (closed || _) eqn:Ec; [|injection E as _ <-; by destruct Hfail].
  assert (Hc : closed_for (trim_space (lt_LinkedThreadID link)) (lt_WorkerGeneration link) w1).
  { destruct closed; [by eapply (releaseWorker_closed o); [exact E1|exact HW]|].
    cbn [orb] in Ec. apply andb_prop in Ec as [_ Ec]. by eapply receipt_closed; [exact HW1|]. }
  destruct (Terminal.finishRelease o now link _ turnID w1) as [answer w2] eqn:E2.
  assert (w' = w2) as -> by (destruct answer as [[]|]; by injection E).
  by apply (finishRelease_ready _ _ _ _ _ _ _ _ _ _ _ E2 Hc Hk Hk').
Qed.

(** *** The link of a thread *)
Lemma link_of_row p id s link a row b :
  GetMinimalLinkedThreadByLinkedID (Some p) id s = Ok (Some link) -> trim_space id = id ->
  db_linked s = a ++ row :: b -> l_LinkedThreadID row = Some id ->
  Forall (fun x => is_text (l_LinkedThreadID x) id = false) (a ++ b) ->
  lt_LinkedThreadID link = id /\ lt_WorkerGeneration link = l_WorkerGeneration row /\ lt_State link = l_State row
  /\ lt_ActiveTurnID link = default "" (l_ActiveTurnID row) /\ lt_ChatID link = l_ChatID row /\ lt_TopicID link = l_TopicID row.
Proof.
  intros H Ht E Hid Hoth. apply Forall_app in Hoth as [Ha _]. unfold GetMinimalLinkedThreadByLinkedID in H. rewrite Ht in H.
  destruct (String.eqb id ""); [done|]. assert (Hf : find_linked (fun x => is_text (l_LinkedThreadID x) id) s = Some row).
  { unfold find_linked. rewrite E. clear E. induction Ha as [|x l Hx _ IH]; cbn [app first_some].
    - by rewrite Hid, (proj2 (String.eqb_eq id id) eq_refl : is_text (Some id) id = true).
    - by rewrite Hx. }
  rewrite Hf in H. unfold scanMinimalLinkedThread, res_bind in H. destruct (_ <? 0)%Z; [done|].
  destruct (unprotectMinimalLinkedTitle _ _); [|done]. destruct (unprotectMinimalLinkedTitle _ _); [|done].
  injection H as <-. cbn. by rewrite Hid.
Qed.

(** A release closes the worker of its generation, and else leaves the workers alone. *)
Lemma releaseWorker_cases o threadID generation w closed err w1 :
  releaseWorker o threadID generation w = (closed, err, w1) ->
  if closed then exists wk, registeredWorker (trim_space threadID) w = Some wk /\ wk_Generation wk = generation
  else rw_Workers w1 = rw_Workers w /\ forall wk, registeredWorker (trim_space threadID) w = Some wk -> wk_Generation wk <> generation.
Proof.
  unfold releaseWorker, registeredWorker, ByThread. destruct (rw_Workers w) as [m|] eqn:Em; [|by intros [= <- _ <-]].
  cbn [mbind option_bind]. unfold Release, beginRelease. rewrite trim_space_idemp.
  destruct (String.eqb _ ""); [by intros [= <- _ <-]|].
  destruct (mg_ByThread m !! trim_space threadID) as [q|]; [|by intros [= <- _ <-]]. cbn [mbind option_bind].
  destruct (worker_at m q) as [wk|] eqn:Ew; [|by intros [= <- _ <-]]. cbn [mbind option_bind].
  destruct (Z.eqb_spec (wk_Generation wk) generation) as [Hg|Hg]; intros [= <- _ <-].
  - by exists wk.
  - cbn. split; [done|]. by intros ? [= <-].
Qed.

(** No worker is registered for a thread whose release has a receipt. *)
Lemma receipt_alone threadID generation w acquires made closing finishing closed m :
  rw_Workers w = Some m -> WorkersInv (mkSystem m acquires made closing finishing closed) ->
  trim_space threadID = threadID -> confirmedRelease threadID generation w = true ->
  registeredWorker threadID w = None /\ generation <> 0%Z.
Proof.
  intros Hm HW Ht. unfold confirmedRelease, registeredWorker, ByThread, ConfirmedRelease. rewrite Hm, Ht.
  cbn [from_option mbind option_bind].
  destruct (Z.eqb_spec generation 0); [done|]. destruct (String.eqb threadID ""); [done|]. cbn [orb].
  destruct (mg_Confirmed m !! threadID) as [c|] eqn:Ec; [|done].
  destruct (wi_confirmed _ HW _ _ Ec) as [Hnone _]. cbn [sy_Manager] in Hnone. by rewrite Hnone.
Qed.

Lemma identity_same threadID generation w w1 :
  rw_Workers w1 = rw_Workers w -> confirmedIdentity threadID generation w1 = confirmedIdentity threadID generation w.
Proof. unfold confirmedIdentity. by intros ->. Qed.

Lemma identity_nonblank threadID generation w identity :
  confirmedIdentity threadID generation w = Some identity -> trim_space identity <> "".
Proof.
  unfold confirmedIdentity, ConfirmedReleaseIdentity. destruct (rw_Workers w) as [m|]; [|done]. cbn [mbind option_bind].
  destruct (_ || _); [done|]. destruct (mg_Confirmed m !! _) as [c|]; [|done]. destruct (_ =? _)%Z; [|done].
  destruct (String.eqb_spec (trim_space (cr_SessionIdentity c)) ""); [done|]. by intros [= <-].
Qed.

(** The session whose requests a confirmed release ends: the registered worker's, or else
    that of the receipt. *)
Lemma release_identity_cases o link w closed err w1 acquires closing finishing m :
  releaseWorker o (lt_LinkedThreadID link) (lt_WorkerGeneration link) w = (closed, err, w1) ->
  trim_space (lt_LinkedThreadID link) = lt_LinkedThreadID link -> rw_Workers w = Some m ->
  WorkersInv (mkSystem m acquires (rw_Made w) closing finishing (rw_Closed w)) ->
  closed || confirmedRelease (lt_LinkedThreadID link) (lt_WorkerGeneration link) w1 = true ->
  exists identity, or_text (trim_space (release_identity link w w1)) (minimalLinkedWorkerSessionIdentity (lt_WorkerGeneration link)) = identity
    /\ trim_space identity <> ""
    /\ forall session, released_session link w session -> trim_space session = trim_space identity.
Proof.
  intros Er Ht Hm HW Hc. pose proof (releaseWorker_cases _ _ _ _ _ _ _ Er) as Hcases. rewrite Ht in Hcases.
  eexists. split; [reflexivity|]. unfold released_session, release_identity, or_text. destruct closed; cbn [orb] in Hc.
  - destruct Hcases as (wk & Hwk & Hg). rewrite Hwk, Hg, Z.eqb_refl.
    assert (Hne : trim_space (wk_SessionIdentity wk) <> "").
    { unfold registeredWorker in Hwk. rewrite Hm in Hwk. cbn [mbind option_bind] in Hwk.
      destruct (ByThread (lt_LinkedThreadID link) m) as [q|]; [|done]. cbn [mbind option_bind] in Hwk.
      destruct (ai_worker _ (wi_alloc _ HW) q wk Hwk) as (_ & -> & _). by apply (trim_space_nonempty "m"). }
    rewrite (proj2 (String.eqb_neq _ "") Hne), trim_space_idemp, (proj2 (String.eqb_neq _ "") Hne), trim_space_idemp.
    split; [done|]. by intros session <-.
  - destruct Hcases as [Hsame _].
    assert (Hc0 : confirmedRelease (lt_LinkedThreadID link) (lt_WorkerGeneration link) w = true)
      by (revert Hc; unfold confirmedRelease; by rewrite Hsame).
    destruct (receipt_alone _ _ _ _ _ _ _ _ _ Hm HW Ht Hc0) as [-> Hg0]. cbn [String.eqb]. rewrite (identity_same _ _ _ _ Hsame).
    destruct (confirmedIdentity _ _ w) as [identity|] eqn:Ei; cbn [default from_option id].
    + pose proof (identity_nonblank _ _ _ _ Ei) as Hne. rewrite (proj2 (String.eqb_neq _ "") Hne), trim_space_idemp.
      split; [done|]. by intros session [= ->].
    + unfold minimalLinkedWorkerSessionIdentity. rewrite (proj2 (Z.eqb_neq _ 0) Hg0).
      split; [by apply (trim_space_nonempty "m")|done].
Qed.

Lemma fail_run now linkedID generation s a row b :
  trim_space linkedID <> "" -> (0 <= generation <= int64_max)%Z ->
  db_linked s = a ++ row :: b -> l_LinkedThreadID row = Some (trim_space linkedID) ->
  Forall (fun x => is_text (l_LinkedThreadID x) (trim_space linkedID) = false) (a ++ b) ->
  l_State row = MinimalLinkedReleasePending -> l_WorkerGeneration row = generation ->
  FailMinimalLinkedThread now linkedID generation "release_close_failed" s
  = Ok (set_linked (a ++ release_failed now row :: b) s).
Proof.
  intros Hl Hg E Hid Hoth Hst Hgen. unfold FailMinimalLinkedThread. cbv zeta.
  replace (sanitizeMinimalLinkedCode "release_close_failed") with "release_close_failed" by (vm_compute; reflexivity).
  rewrite (proj2 (String.eqb_neq _ "") Hl). cbn [orb String.eqb]. unfold minimalLinkedGenerationInt64.
  destruct (Z.ltb_spec int64_max generation); [lia|]. cbn [res_bind]. unfold update_linked. rewrite E.
  match goal with |- context [affected ?q _] => destruct (update_where_one q
    (fun r => upd_linked_failure (Some "release_close_failed") (upd_linked_worker MinimalLinkedFailed None (l_WorkerGeneration r) now r))
    a row b) as [U1 U2] end.
  { rewrite Hid, Hgen, Hst. cbn [is_text]. by rewrite String.eqb_refl, Z.eqb_refl. }
  1, 2: apply Forall_app in Hoth as [Ha Hb]; (eapply Forall_impl; [eassumption|]); intros x Hx; cbv beta; by rewrite Hx.
  by rewrite U1, U2.
Qed.

(** ** Theorems *)

(** C31: A link becomes ready only after the bridge's own worker of its generation was closed
    by this daemon: neither the end of a turn nor /repair takes a link for released on
    any other ground. *)
Theorem ready_only_after_close o now w w' m acquires closing finishing nonce k row row' :
  release_run o now w w' -> rw_Workers w = Some m ->
  worker_reachable nonce (mkSystem m acquires (rw_Made w) closing finishing (rw_Closed w)) ->
  db_linked (rw_Store w) !! k = Some row -> db_linked (rw_Store w') !! k = Some row' ->
  l_State row <> MinimalLinkedReady -> l_State row' = MinimalLinkedReady ->
  l_State row = MinimalLinkedReleasePending
  /\ exists id, l_LinkedThreadID row = Some id /\ closed_for id (l_WorkerGeneration row) w'.
Proof.
  intros Hrun Hm HR%reachable_inv Hk Hk' Hn Hr.
  assert (HW : forall m0, rw_Workers w = Some m0 ->
            WorkersInv (mkSystem m0 acquires (rw_Made w) closing finishing (rw_Closed w)))
    by (intros m0 H; rewrite Hm in H; by injection H as <-).
  assert (Hsame : w' = w -> False) by (intros ->; congruence).
  destruct Hrun as [snapshot err w w' E|chatID topicID answer w w' E].
  - unfold releaseMinimalTerminalWorker in E. destruct (_ || _); [injection E as _ <-; by destruct Hsame|]. cbv zeta in E.
    destruct (_ || _); [injection E as _ <-; by destruct Hsame|].
    destruct (GetMinimalLinkedThreadByLinkedID _ _ _) as [[link|]|e]; [..|injection E as _ <-; by destruct Hsame].
    + destruct (_ || _); [injection E as _ <-; by destruct Hsame|]. by eapply releaseLinked_ready.
    + apply registered_links in E. rewrite E in Hk'. congruence.
  - unfold repairMinimalLinkedReleasePending in E. destruct (_ || _); [injection E as _ <-; by destruct Hsame|].
    destruct (cc_Binding _) as [binding|]; [|injection E as _ <-; by destruct Hsame].
    destruct (statusMinimalLinkedThread _ _ _ _ _) as [[link|]|e]; [..|injection E as _ <-; by destruct Hsame];
      [|injection E as _ <-; by destruct Hsame].
    cbv zeta in E. destruct (_ || _); [injection E as _ <-; by destruct Hsame|].
    destruct (confirmedIdentity _ _ w) as [identity|] eqn:Ei; [|injection E as _ <-; by destruct Hsame].
    refine (finishRelease_ready _ _ _ _ _ _ _ _ _ _ _ E _ Hk Hk' Hn Hr).
    eapply receipt_closed; [exact HW|]. by eapply identity_receipt.
Qed.

Theorem ready_only_after_close_witness :
  let w := ex_working MinimalLinkedReleasePending (Some "turn-1") in
  let '(err, w') := releaseMinimalTerminalWorker ex_observer ex_now (ex_ended "completed") w in
  err = None /\ map l_State (db_linked (rw_Store w')) = [MinimalLinkedReady] /\ closed_for "t" 1 w'.
Proof.
  cbv zeta. set (w := ex_working MinimalLinkedReleasePending (Some "turn-1")).
  destruct (releaseMinimalTerminalWorker ex_observer ex_now (ex_ended "completed") w) as [err w'] eqn:E.
  assert (H : let x := releaseMinimalTerminalWorker ex_observer ex_now (ex_ended "completed") w in
              x.1 = None /\ map l_State (db_linked (rw_Store x.2)) = [MinimalLinkedReady]) by (vm_compute; split; reflexivity).
  rewrite E in H. cbn [fst snd] in H. destruct H as [-> Hs]. split; [reflexivity|]. split; [exact Hs|].
  destruct (db_linked (rw_Store w')) as [|row' rows] eqn:El; [discriminate Hs|]. injection Hs as Hrow _.
  destruct (ready_only_after_close ex_observer ex_now w w' ex_first [] [] [] "n" 0
              (ex_link_row MinimalLinkedReleasePending (Some "turn-1")) row') as (_ & id & Hid & Hc).
  - eapply rr_terminal. exact E.
  - reflexivity.
  - exact ex_first_reachable.
  - reflexivity.
  - rewrite El. reflexivity.
  - discriminate.
  - exact Hrow.
  - injection Hid as <-. exact Hc.
Defined.

(** The end of a turn is handled by a run of the machine of the workers, among whatever
    other callers are in flight; of the commands that waited at most one is started. *)
Theorem terminal_runs_workers `{GateCodec} o now snapshot held w w' m nonce acquires closing finishing :
  RouterLaws (ob_Router o) now -> handleTerminalSnapshot o now snapshot held w = Some w' -> rw_Workers w = Some m ->
  worker_reachable nonce (mkSystem m acquires (rw_Made w) closing finishing (rw_Closed w)) ->
  (exists m', rw_Workers w' = Some m'
    /\ ((Z.of_nat (length (mg_Heap m')) + 1 < 2 ^ 64)%Z ->
        worker_reachable nonce (mkSystem m' acquires (rw_Made w') closing finishing (rw_Closed w'))))
  /\ exists l, rw_Turns w' = rw_Turns w ++ l /\ Forall (sandboxed (ob_Router o)) l.*1
       /\ ((length (omap snd l) <= 1)%nat \/ persist_fails (ob_Router o)).
Proof.
  intros HL E Hm Hr. destruct (handleTerminal_runs o now HL _ _ _ _ E) as (n & [(l & Hl & Hn & Hs) HW] & Hle). split.
  - unfold workers_run in HW. rewrite Hm in HW. destruct (rw_Workers w') as [m'|]; [|done]. destruct HW as [_ HW].
    exists m'. split; [done|]. intros Hb. unfold worker_reachable in *. etrans; [exact Hr|].
    apply HW; [|done]. by eapply reachable_inv.
  - exists l. split; [done|]. split; [done|]. by rewrite Hn.
Qed.

Theorem terminal_runs_workers_witness :
  match @handleTerminalSnapshot ex_codec ex_observer ex_now (ex_ended "completed") true
          (ex_working MinimalLinkedTelegramRunning (Some "turn-1")) with
  | Some w' => map l_State (db_linked (rw_Store w')) = [MinimalLinkedReady] /\ length (db_queue (rw_Store w')) = 2
      /\ exists m', rw_Workers w' = Some m' /\ worker_reachable "n" (mkSystem m' [] (rw_Made w') [] [] (rw_Closed w'))
  | None => False
  end.
Proof.
  set (w := ex_working MinimalLinkedTelegramRunning (Some "turn-1")).
  assert (H : match @handleTerminalSnapshot ex_codec ex_observer ex_now (ex_ended "completed") true w with
              | Some w' => map l_State (db_linked (rw_Store w')) = [MinimalLinkedReady] /\ length (db_queue (rw_Store w')) = 2
                  /\ option_map (fun m => length (mg_Heap m)) (rw_Workers w') = Some 1%nat
              | None => False end) by (vm_compute; repeat split).
  destruct (@handleTerminalSnapshot ex_codec ex_observer ex_now (ex_ended "completed") true w) as [w'|] eqn:E; [|exact H].
  destruct H as (H1 & H2 & H3). split; [exact H1|]. split; [exact H2|].
  destruct (@terminal_runs_workers ex_codec ex_observer ex_now (ex_ended "completed") true w w' ex_first "n" [] [] []
              (newMinimalRouter_laws _ _ _ _ _ _ _) E eq_refl ex_first_reachable) as [(m' & Hm & Hr) _].
  exists m'. split; [exact Hm|]. apply Hr. rewrite Hm in H3. injection H3 as ->. reflexivity.
Defined.

(** C32: The end of the turn of a link that waits for its worker, when its row is the only one of
    its thread and Protect succeeds.  Closed with certainty, by this call or earlier as a
    receipt tells, the link is ready for the next worker, none of the requests of the session
    that was closed waits any longer, and the chat of the link, when it names one, is told
    that it is free.  Otherwise the link has failed, and nothing is queued. *)
Theorem releaseMinimalTerminalWorker_spec o now p snapshot w link a row b linkedID turn m acquires closing finishing nonce :
  ro_Protector (ob_Router o) = Some p -> (forall text, exists envelope, Protect p text = Ok envelope) ->
  ob_Profile o = "minimal" -> rw_Workers w = Some m ->
  worker_reachable nonce (mkSystem m acquires (rw_Made w) closing finishing (rw_Closed w)) ->
  trim_space (th_ID (sn_Thread snapshot)) = linkedID -> trim_space (sn_LatestTurnID snapshot) = turn -> linkedID <> "" -> turn <> "" ->
  db_linked (rw_Store w) = a ++ row :: b -> l_LinkedThreadID row = Some linkedID ->
  Forall (fun x => is_text (l_LinkedThreadID x) linkedID = false) (a ++ b) ->
  l_State row = MinimalLinkedReleasePending -> l_ActiveTurnID row = Some turn -> (0 <= l_WorkerGeneration row <= int64_max)%Z ->
  GetMinimalLinkedThreadByLinkedID (Some p) linkedID (rw_Store w) = Ok (Some link) ->
  exists err w', releaseMinimalTerminalWorker o now snapshot w = (err, w')
    /\ if release_confirmed o link w then
         err = None
         /\ db_linked (rw_Store w') = a ++ upd_linked_release (format_time now) row :: b
         /\ (forall session, released_session link w session -> none_pending (trim_space session) (rw_Store w'))
         /\ (l_ChatID row <> 0%Z -> event_target_exists (linkedID +:+ ":" +:+ turn +:+ ":handoff_ready")
               (ChatKey (l_ChatID row) (l_TopicID row)) (db_queue (rw_Store w')) = true)
       else
         err <> None /\ db_linked (rw_Store w') = a ++ release_failed (format_time now) row :: b
         /\ db_queue (rw_Store w') = db_queue (rw_Store w).
Proof.
  intros Hp HP Hprof Hm HR%reachable_inv Hid Hturn Nid Nturn E Hrow Hoth Hst Hact Hg Hlink.
  assert (Tid : trim_space linkedID = linkedID) by (rewrite <- Hid; apply trim_space_idemp).
  assert (Tturn : trim_space turn = turn) by (rewrite <- Hturn; apply trim_space_idemp).
  destruct (link_of_row p linkedID _ link a row b Hlink Tid E Hrow Hoth) as (L1 & L2 & L3 & L4 & L5 & L6).
  unfold releaseMinimalTerminalWorker. rewrite Hprof, Hm, Hp. cbn [negb orb String.eqb]. rewrite bool_decide_false by done.
  cbv zeta. rewrite Hid, Hturn, (proj2 (String.eqb_neq _ "") Nid), (proj2 (String.eqb_neq _ "") Nturn). cbn [orb].
  rewrite Hlink, L3, L4, Hst, Hact. cbn [default from_option id]. rewrite Tturn, (String.eqb_refl turn).
  replace (String.eqb (trim_space MinimalLinkedReleasePending) MinimalLinkedReleasePending) with true by (vm_compute; reflexivity).
  cbn [negb orb]. unfold releaseLinkedWorker, release_confirmed in *. rewrite L1, L2 in *.
  destruct (releaseWorker o linkedID (l_WorkerGeneration row) w) as [[closed closeErr] w1] eqn:Er.
  pose proof (releaseWorker_runs o _ _ _ _ _ _ Er) as (_ & Hs1 & _). rewrite <- Hs1 in E.
  assert (Hfail : exists w2, (tx (tx_of (FailMinimalLinkedThread (format_time now) linkedID (l_WorkerGeneration row) "release_close_failed")) w1).2 = w2
            /\ db_linked (rw_Store w2) = a ++ release_failed (format_time now) row :: b
            /\ db_queue (rw_Store w2) = db_queue (rw_Store w)).
  { eexists. split; [reflexivity|]. unfold tx, tx_of.
    rewrite (fail_run (format_time now) linkedID _ _ a row b) by (rewrite ?Tid; done). split; [done|]. cbn. by rewrite Hs1. }
  destruct Hfail as (w2 & Hw2 & Hl2 & Hq2).
  destruct closeErr as [e|].
  { exists (Some e), w2. rewrite Hw2. split; [reflexivity|]. rewrite bool_decide_false by done. by split_and!. }
  rewrite bool_decide_true in * by done. cbn [andb] in *.
  destruct (closed || confirmedRelease linkedID (l_WorkerGeneration row) w1) eqn:Ec;
    [|exists (Some (not_closed link)), w2; rewrite Hw2; by split_and!].
  destruct (release_identity_cases o link w closed None w1 acquires closing finishing m) as (identity & Hi & Hne & Hsession);
    rewrite ?L1, ?L2; try done.
  rewrite L2 in Hi. unfold Terminal.finishRelease, tx. rewrite L1, L2, Hp.
  destruct (finish_run p now linkedID (l_WorkerGeneration row) (release_identity link w w1) identity turn now
              (minimalHandoffReadyDelivery o now link turn (rw_Store w1)) (rw_Store w1) a row b) as (s2 & F1 & F2 & F3 & F4);
    rewrite ?Tid, ?Tturn in *; try done.
  rewrite F1. eexists _, _. split; [reflexivity|]. split; [done|].
  rewrite (proj2 (forgetRelease_runs o _ _ _)). cbn [rw_Store set_rw_Store]. split.
  { rewrite F2. by destruct (is_zero now). }
  split; [intros session Hs; by rewrite (Hsession session Hs)|].
  intros Hchat. unfold minimalHandoffReadyDelivery in F4. rewrite L5, L6, L1 in F4.
  rewrite (proj2 (Z.eqb_neq _ 0) Hchat), (proj2 (Z.eqb_neq _ 0) Hchat) in F4. exact F4.
Qed.

Lemma ex_released_reachable : worker_reachable "n" (mkSystem ex_released [] 1 [] [] [0]).
Proof.
  unfold worker_reachable. etrans; [exact ex_first_reachable|].
  eapply rtc_l; [by apply (ws_release "t" 1 0 ex_first (removeLocked 0 ex_first))|].
  eapply rtc_l; [by eapply (ws_close [] 0 true [] 0 None)|]. apply rtc_once. by apply (ws_finish [] 0 None []).
Qed.

Theorem releaseMinimalTerminalWorker_spec_witness :
  Forall (fun w => forall link,
      GetMinimalLinkedThreadByLinkedID (Some plainProtector) "t" (rw_Store w) = Ok (Some link) ->
      let '(err, w') := releaseMinimalTerminalWorker ex_observer ex_now (ex_ended "completed") w in
      err = None /\ map l_State (db_linked (rw_Store w')) = [MinimalLinkedReady]
      /\ (forall session, released_session link w session -> none_pending (trim_space session) (rw_Store w'))
      /\ event_target_exists "t:turn-1:handoff_ready" (ChatKey 7 0) (db_queue (rw_Store w')) = true)
    [ex_working MinimalLinkedReleasePending (Some "turn-1"); ex_receipt MinimalLinkedReleasePending (Some "turn-1")].
Proof.
  assert (Hrun : forall m closed, worker_reachable "n" (mkSystem m [] 1 [] [] closed) ->
    let w := mkRouterWorld (ex_watched [ex_link_row MinimalLinkedReleasePending (Some "turn-1")]) (Some m) 1 closed 0 [] [] in
    forall link, GetMinimalLinkedThreadByLinkedID (Some plainProtector) "t" (rw_Store w) = Ok (Some link) ->
    release_confirmed ex_observer link w = true ->
    let '(err, w') := releaseMinimalTerminalWorker ex_observer ex_now (ex_ended "completed") w in
    err = None /\ map l_State (db_linked (rw_Store w')) = [MinimalLinkedReady]
    /\ (forall session, released_session link w session -> none_pending (trim_space session) (rw_Store w'))
    /\ event_target_exists "t:turn-1:handoff_ready" (ChatKey 7 0) (db_queue (rw_Store w')) = true).
  { intros m closed HR w link El H.
    destruct (releaseMinimalTerminalWorker_spec ex_observer ex_now plainProtector (ex_ended "completed") w link []
                (ex_link_row MinimalLinkedReleasePending (Some "turn-1")) [] "t" "turn-1" m [] [] [] "n")
      as (err & w' & E & Hspec); try reflexivity; try discriminate; try exact El; try exact HR.
    - intros text. eexists. reflexivity.
    - constructor.
    - split; vm_compute; discriminate.
    - rewrite H in Hspec. rewrite E. destruct Hspec as (H1 & H2 & H3 & H4). split; [exact H1|].
      split; [rewrite H2; reflexivity|]. split; [exact H3|]. apply H4. discriminate. }
  constructor; [|constructor; [|constructor]]; intros link El.
  - apply (Hrun ex_first [] ex_first_reachable link El). revert link El.
    assert (H : match GetMinimalLinkedThreadByLinkedID (Some plainProtector) "t" (rw_Store (ex_working MinimalLinkedReleasePending (Some "turn-1"))) with
                | Ok (Some link) => release_confirmed ex_observer link (ex_working MinimalLinkedReleasePending (Some "turn-1")) = true
                | _ => False end) by (vm_compute; reflexivity).
    intros link El. rewrite El in H. exact H.
  - apply (Hrun ex_released [0] ex_released_reachable link El). revert link El.
    assert (H : match GetMinimalLinkedThreadByLinkedID (Some plainProtector) "t" (rw_Store (ex_receipt MinimalLinkedReleasePending (Some "turn-1"))) with
                | Ok (Some link) => release_confirmed ex_observer link (ex_receipt MinimalLinkedReleasePending (Some "turn-1")) = true
                | _ => False end) by (vm_compute; reflexivity).
    intros link El. rewrite El in H. exact H.
Defined.

(** A turn that runs although its start was not recorded (MarkMinimalLinkedTurnStarted failed
    after turn/start answered).  Its end is not reported and cannot be reported later: the
    transition is consumed without an error, the transaction that was to queue the report
    is rolled back because the link names no turn, and nothing reopens the
    transition.  The link runs on and its worker stays open. *)
Example unmarked_turn_lost :
  let w := ex_working MinimalLinkedTelegramRunning None in
  match @handleTerminalSnapshot ex_codec ex_observer ex_now (ex_ended "completed") true w with
  | None => False
  | Some w' =>
      db_queue (rw_Store w') = [] /\ map l_State (db_linked (rw_Store w')) = [MinimalLinkedTelegramRunning]
      /\ rw_Workers w' = rw_Workers w /\ GetState "daemon.last_error" (rw_Store w') = ""
      /\ match ClaimMinimalTerminalTransitionAfterBaseline ex_now "t" "turn-1" "completed" 100 0 ex_now (rw_Store w') with
         | Ok (claimed, _) => claimed = None
         | Err _ => False
         end
  end.
Proof. vm_compute. repeat split; reflexivity. Qed.
