(* ===== verification/LiveTools.v ===== *)
(** * internal/daemon/service.go: what a read of a thread is merged with

    A read of a thread may know less than what is stored: fields it lacks come from the
    stored thread, and the tool that a live notification showed at work is kept while
    the read lags behind it.  A terminal read that is older than the running turn is told
    apart. *)
From stdpp Require Import base list numbers strings gmap.
From Stdlib Require Import Lia Ascii.
From S2P Require Import Prelude GoStrings GoTime Sql Json Model Normalize NotifierFormat NotifierObserver Store Threads TerminalGate.
From S2P Require Import Projects Voice ApprovalHandlers Routing Starts Terminal.

Definition is_blank (value : string) : bool := String.eqb (trim_space value) "".

(** *** mergeThreadMetadata *)
Definition mergeThreadMetadata (current fallback : Thread) : Thread :=
  let text (f : Thread -> string) := if is_blank (f current) then f fallback else f current in
  mkThread (text th_ID) (text th_Title) (text th_CWD) (text th_ProjectName) (text th_DirectoryName)
    (if (th_UpdatedAt current =? 0)%Z then th_UpdatedAt fallback else th_UpdatedAt current)
    (text th_Status) (text th_LastPreview)
    (if is_blank (th_ActiveTurnID current) && negb (isTerminalStatus (text th_Status))
     then th_ActiveTurnID fallback else th_ActiveTurnID current)
    (text th_PreferredModel) (text th_PermissionsMode)
    (if th_Archived current then true else th_Archived fallback)
    (match th_Raw current with Some raw => Some raw | None => th_Raw fallback end).

Definition staleMinimalTerminalRefresh (stored : Thread) (snapshot : ThreadReadSnapshot) : bool :=
  threadLooksActiveForInput stored && isTerminalStatus (sn_LatestTurnStatus snapshot)
  && let activeTurnID := trim_space (th_ActiveTurnID stored) in
     let terminalTurnID := trim_space (sn_LatestTurnID snapshot) in
     String.eqb activeTurnID "" || String.eqb terminalTurnID "" || negb (String.eqb activeTurnID terminalTurnID).

(** *** Tools *)
Definition firstNonEmpty (values : list string) : string :=
  default "" (first_some (fun value => let trimmed := cleanPayloadString value in
                            if String.eqb trimmed "" then None else Some trimmed) values).

Definition terminalToolStatus (status : string) : bool :=
  existsb (String.eqb (to_lower (trim_space status)))
    ["completed"; "succeeded"; "failed"; "interrupted"; "cancelled"; "canceled"].

Definition sameToolSnapshot (left right : ThreadReadSnapshot) : bool :=
  let leftID := trim_space (sn_LatestToolID left) in
  let rightID := trim_space (sn_LatestToolID right) in
  if negb (String.eqb leftID "") && negb (String.eqb rightID "") then String.eqb leftID rightID
  else
    let leftLabel := trim_space (sn_LatestToolLabel left) in
    negb (String.eqb leftLabel "") && String.eqb leftLabel (trim_space (sn_LatestToolLabel right)).

Definition is_tool_detail (item : DetailItem) : bool :=
  existsb (String.eqb (di_Kind item)) [DetailItemTool; DetailItemOutput].

(** The index of the last tool that has the id, or without an id the label. *)
Definition latestToolDetailIndex (items : list DetailItem) (toolID0 label0 : string) : option nat :=
  let toolID := trim_space toolID0 in
  let label := trim_space label0 in
  let named item := String.eqb (di_Kind item) DetailItemTool
    && (negb (String.eqb toolID "") && String.eqb (trim_space (di_ID item)) toolID
        || String.eqb toolID "" && negb (String.eqb label "") && String.eqb (trim_space (di_Label item)) label) in
  fst <$> last (filter (fun p => named p.2 = true) (imap pair items)).

(** left < right, where both are there *)
Definition index_before (left right : option nat) : bool :=
  match left, right with Some i, Some j => (i <? j)%nat | _, _ => false end.

Definition liveToolIsOlderThanCurrentSameTurn (current liveTool : ThreadReadSnapshot) : bool :=
  let index n := latestToolDetailIndex (sn_DetailItems current) (sn_LatestToolID n) (sn_LatestToolLabel n) in
  index_before (index liveTool) (index current).

Definition toolOutputDetailItems (items : list DetailItem) : list DetailItem :=
  filter (fun item => is_tool_detail item = true) items.

Definition upsertLiveToolDetails (items liveItems : list DetailItem) : list DetailItem :=
  match liveItems with
  | [] => items
  | _ =>
      let remove := filter (fun id => id <> "") (map (fun item => trim_space (di_ID item)) liveItems) in
      filter (fun item => trim_space (di_ID item) ∉ remove) items ++ liveItems
  end.

Definition snapshotHasToolEvidence (snapshot : ThreadReadSnapshot) : bool :=
  negb (is_blank (cleanTelegramNilLiteral (sn_LatestToolID snapshot)))
  || negb (is_blank (cleanTelegramNilLiteral (sn_LatestToolLabel snapshot)))
  || negb (is_blank (cleanTelegramNilLiteral (sn_LatestToolOutput snapshot)))
  || negb (is_blank (sn_LatestToolFP snapshot))
  || existsb is_tool_detail (sn_DetailItems snapshot).

Definition shouldPreserveTelegramOriginLiveCurrentTool (current previous : ThreadReadSnapshot) : bool :=
  if negb (snapshotHasToolEvidence current) then true
  else if sameToolSnapshot current previous then negb (terminalToolStatus (sn_LatestToolStatus current))
  else
    let index n := latestToolDetailIndex (sn_DetailItems previous) (sn_LatestToolID n) (sn_LatestToolLabel n) in
    index_before (index current) (index previous).

(** The tool of [prev], with the times of its run, in [current]. *)
Definition with_tool_of (prev current : ThreadReadSnapshot) : ThreadReadSnapshot :=
  mkThreadReadSnapshot (sn_Thread current) (sn_LatestTurnID current) (sn_LatestTurnStatus current)
    (sn_LatestTurnStartedAt current) (sn_LatestTurnUpdatedAt current) (sn_WaitingOnApproval current)
    (sn_WaitingOnReply current) (sn_LatestAgentMessages current) (sn_LatestAgentMessageEntries current)
    (sn_LatestProgressFP prev) (sn_LatestProgressText prev) (sn_LatestUserMessageID current)
    (sn_LatestUserMessageText current) (sn_LatestUserMessageFP current) (sn_LatestFinalFP current)
    (sn_LatestFinalText current) (sn_LatestToolID prev) (sn_LatestToolKind prev) (sn_LatestToolLabel prev)
    (sn_LatestToolStatus prev) (sn_LatestToolOutput prev) (sn_LatestToolFP prev) (sn_LatestToolLiveCurrent prev)
    (sn_LatestToolStartedAt prev) (sn_LatestToolUpdatedAt prev) (sn_PlanPrompt current)
    (upsertLiveToolDetails (sn_DetailItems current) (toolOutputDetailItems (sn_DetailItems prev))).

(** Whether the tool of [prev] goes on: the turn is the one it ran in, and neither ended. *)
Definition live_tool_goes_on (current prev : ThreadReadSnapshot) (s : Store) : bool :=
  let turnID := trim_space (sn_LatestTurnID current) in
  let threadID := trim_space (firstNonEmpty [th_ID (sn_Thread current); th_ID (sn_Thread prev)]) in
  negb (isTerminalStatus (sn_LatestTurnStatus current))
  && negb (String.eqb turnID "") && String.eqb turnID (trim_space (sn_LatestTurnID prev))
  && sn_LatestToolLiveCurrent prev && negb (isTerminalStatus (sn_LatestTurnStatus prev))
  && negb (terminalToolStatus (sn_LatestToolStatus prev))
  && negb (String.eqb threadID "") && isTelegramOriginTurn threadID turnID s
  && negb (is_blank (cleanTelegramNilLiteral (sn_LatestToolLabel prev))) && negb (is_blank (sn_LatestToolFP prev)).

Definition preserveTelegramOriginLiveCurrentTool (current : ThreadReadSnapshot) (previous : option ThreadSnapshotState)
    (s : Store) : ThreadReadSnapshot :=
  match previous ≫= ss_CompactJSON with
  | None => current
  | Some prev =>
      if live_tool_goes_on current prev s && shouldPreserveTelegramOriginLiveCurrentTool current prev
      then with_tool_of prev current else current
  end.

(** codexThreadIDPattern *)
Definition is_codex_id (s : string) : bool :=
  let groups := split_byte "-" s in
  bool_decide (map String.length groups = [8; 4; 4; 4; 12]%nat) && forallb (all_bytes is_hex_byte) groups.

(** strings.Compare(candidate, current) > 0 *)
Definition turnIDAfter (candidate0 current0 : string) : bool :=
  let candidate := trim_space candidate0 in
  let current := trim_space current0 in
  negb (String.eqb candidate "") && negb (String.eqb current "") && negb (String.eqb candidate current)
  && is_codex_id candidate && is_codex_id current && negb (String.leb candidate current).

(** Whether the tool of a live notification is news for what is stored of its thread. *)
Definition live_tool_is_news (current liveTool : ThreadReadSnapshot) (turnID : string) : bool :=
  let same := String.eqb (sn_LatestTurnID current) turnID in
  if negb (String.eqb (sn_LatestTurnID current) "") && negb same
     && (negb (isTerminalStatus (sn_LatestTurnStatus current)) || negb (turnIDAfter turnID (sn_LatestTurnID current)))
  then false
  else if same && isTerminalStatus (sn_LatestTurnStatus current) && negb (is_blank (sn_LatestFinalFP current)) then false
  else if same && liveToolIsOlderThanCurrentSameTurn current liveTool then false
  else negb (same && sameToolSnapshot current liveTool && terminalToolStatus (sn_LatestToolStatus current)
             && negb (terminalToolStatus (sn_LatestToolStatus liveTool))).

Definition with_live_tool (liveTool current : ThreadReadSnapshot) (turnID : string) : ThreadReadSnapshot :=
  let thread := set_th_Status (firstNonEmpty [th_Status (sn_Thread liveTool); th_Status (sn_Thread current); "inProgress"])
                  (set_th_ActiveTurnID turnID (sn_Thread current)) in
  mkThreadReadSnapshot thread turnID
    (firstNonEmpty [sn_LatestTurnStatus liveTool; sn_LatestTurnStatus current; "inProgress"])
    (sn_LatestTurnStartedAt current) (sn_LatestTurnUpdatedAt current) (sn_WaitingOnApproval current)
    (sn_WaitingOnReply current) (sn_LatestAgentMessages current) (sn_LatestAgentMessageEntries current)
    (sn_LatestProgressFP liveTool) (sn_LatestProgressText liveTool) (sn_LatestUserMessageID current)
    (sn_LatestUserMessageText current) (sn_LatestUserMessageFP current) (sn_LatestFinalFP current)
    (sn_LatestFinalText current) (sn_LatestToolID liveTool) (sn_LatestToolKind liveTool) (sn_LatestToolLabel liveTool)
    (sn_LatestToolStatus liveTool) (sn_LatestToolOutput liveTool) (sn_LatestToolFP liveTool)
    (sn_LatestToolLiveCurrent liveTool) (sn_LatestToolStartedAt current) (sn_LatestToolUpdatedAt current)
    (sn_PlanPrompt current) (upsertLiveToolDetails (sn_DetailItems current) (sn_DetailItems liveTool)).

Section tools.
Context (o : Observer) (now : instant).

Local Abbreviation r := (ob_Router o).
Local Abbreviation minimal := (String.eqb (ob_Profile o) "minimal").

(** Service.persistThread, for every profile. *)
Definition persistServiceThread (thread : Thread) : Tx Store unit :=
  if minimal then persistThread (ro_Platform r) (ro_Registry r) now thread else UpsertThread thread.

(** What is stored of a thread after a read; a thread at work is polled again soon. *)
Definition observedSnapshot (previous : option ThreadSnapshotState) (current : ThreadReadSnapshot) (idle : Z)
  : ThreadSnapshotState :=
  let next := CompactSnapshot now previous (snapshotForPersistence minimal current) now in
  if String.eqb (sn_LatestTurnStatus current) "inProgress" || sn_WaitingOnApproval current || sn_WaitingOnReply current
  then upd_next_poll (format_time (now + ro_PollInterval r)%Z) next
  else if (idle =? 0)%Z then next else upd_next_poll (format_time (now + idle)%Z) next.

Definition applyLiveToolSnapshot (threadID0 : string) (liveTool : ThreadReadSnapshot) (s : Store) : bool * Store :=
  let threadID := trim_space (firstNonEmpty [threadID0; th_ID (sn_Thread liveTool)]) in
  if String.eqb threadID "" || is_blank (sn_LatestToolFP liveTool) then (false, s)
  else
    match GetThread threadID s with
    | None => (false, s)
    | Some thread =>
        let state := GetSnapshot threadID s in
        let stored := default zeroSnapshot (state ≫= ss_CompactJSON) in
        let current := set_sn_Thread (if String.eqb (th_ID (sn_Thread stored)) "" then thread
                                      else mergeThreadMetadata (sn_Thread stored) thread) stored in
        let turnID := if is_blank (sn_LatestTurnID liveTool) then trim_space (sn_LatestTurnID current)
                      else trim_space (sn_LatestTurnID liveTool) in
        if String.eqb turnID "" || negb (live_tool_is_news current liveTool turnID) then (false, s)
        else
          let next := with_live_tool liveTool current turnID in
          (true, run_ignored (UpsertSnapshot threadID (observedSnapshot state next 0))
                   (run_ignored (persistServiceThread (sn_Thread next)) s))
    end.

End tools.
