(* ===== verification/Polling.v ===== *)
(** * internal/daemon/service.go: how the minimal profile follows threads

    A cycle of pollLoop lists a page of the threads of App Server, then reads the threads
    that are tracked: those bound to a chat, those whose observation is due, and the recent
    ones that look at work.  What was read is merged, stored and, when its turn has ended,
    handed to handleTerminalSnapshot.  refreshThread does the same for one thread.  The
    functions act on a [RouterWorld]; None is a drain that does not return. *)
From stdpp Require Import base list numbers strings gmap.
From Stdlib Require Import Lia Ascii.
From S2P Require Import Prelude GoStrings GoTime Sql Json Model Normalize CoreTables Store Daemon NotifierObserver NotifierIngress.
From S2P Require Import Threads Panels TerminalGate Observations Projects TgFormat ApprovalHandlers Routing Starts Router Terminal LiveTools.

(** *** What the store lists *)

(** json_extract(raw_json, path) *)
Definition json_at (path : list string) (raw : any) : any :=
  fold_left (fun v key => match v with JObj m => get m key | _ => JNil end) path raw.

(** coalesce(json_extract(raw_json, '$.x'), json_extract(raw_json, '$.thread.x')) *)
Definition json_of_thread (path : list string) (raw : any) : any :=
  match json_at path raw with JNil => json_at ("thread" :: path) raw | v => v end.

Definition sql_trim (s : string) : string := trim_left_byte " " (trim_right_byte " " s).

(** visibleThreadPredicateSQL *)
Definition visible_thread (raw : any) : bool :=
  negb match json_of_thread ["ephemeral"] raw with
       | JBool b => b
       | JInt z => (z =? 1)%Z
       | JNum m e => if (0 <=? e)%Z then (m * 10 ^ e =? 1)%Z else (m =? 10 ^ (- e))%Z
       | JStr s => existsb (String.eqb (to_lower (sql_trim s))) ["1"; "true"; "yes"]
       | _ => false
       end
  && match json_of_thread ["source"; "subAgent"] raw with
     | JNil => true
     | JStr s => String.eqb (sql_trim s) ""
     | _ => false
     end.

(** ListThreads without a search text *)
Definition ListThreads (limit : Z) (s : Store) : list Thread :=
  let n := if (limit <=? 0)%Z then 10%Z else limit in
  take (Z.to_nat n)
    (sort_by (fun a b => th_UpdatedAt b <=? th_UpdatedAt a)%Z
       (map (fun kr => thread_of_row kr.1 kr.2)
          (filter (fun kr => visible_thread (tr_Raw kr.2) = true) (map_to_list (cr_threads (db_core s)))))).

Definition add_new (ids : list string) (id : string) : list string :=
  if bool_decide (id ∈ ids) then ids else ids ++ [id].

(** SELECT DISTINCT thread_id FROM thread_bindings ORDER BY updated_at DESC *)
Definition ListBoundThreadIDs (s : Store) : list string :=
  fold_left add_new
    (map (fun kr => tb_ThreadID kr.2)
       (sort_by (fun a b => text_le (tb_UpdatedAt b.2) (tb_UpdatedAt a.2)) (map_to_list (cr_bindings (db_core s))))) [].

(** *** Sessions of the service *)
Record ServiceSession : Type := mkServiceSession {
  se_ThreadRead : nat -> string -> bool -> outcome obj;      (* call, thread, includeTurns *)
  se_ThreadList : nat -> Z -> string -> outcome obj }.       (* call, limit, cursor *)

Record Service : Type := mkService {
  sv_Observer : Observer;
  sv_Approvals : ApprovalService;
  sv_Live : option ServiceSession;
  sv_LiveConnected : bool;
  sv_Poll : option ServiceSession;
  sv_PollConnected : bool;
  sv_IndexRefreshInterval : Z }.

(** err.Error() *)
Definition fault_text (e : fault) : string :=
  match e with
  | RPCError code message => "app-server RPC error " +:+ format_int code +:+ ": " +:+ message
  | DeadlineExceeded => "context deadline exceeded"
  | Canceled => "context canceled"
  | OtherError message => message
  end.

Definition start_of_fault (e : fault) : start_error :=
  match e with RPCError code message => RPCFailed code message | _ => Plain (fault_text e) end.

Definition isThreadNotLoadedError (e : fault) : bool := contains (to_lower (fault_text e)) "thread not loaded".

Definition set_th_Raw (v : option any) (t : Thread) : Thread :=
  mkThread (th_ID t) (th_Title t) (th_CWD t) (th_ProjectName t) (th_DirectoryName t) (th_UpdatedAt t)
    (th_Status t) (th_LastPreview t) (th_ActiveTurnID t) (th_PreferredModel t) (th_PermissionsMode t) (th_Archived t) v.

Definition observerRecentThreadLimit : Z := 50.
Definition minimalObservedDueLimit : Z := 500.
Definition minimalObserverCursorKey : string := "minimal.observer.thread_list_cursor".
Definition minimalThreadCatalogLimit : Z := 100.

Definition on_store (f : Store -> Store) (w : RouterWorld) : RouterWorld := set_rw_Store (f (rw_Store w)) w.

Section polling.
Context `{GateCodec} (sv : Service) (now : instant).

Local Abbreviation o := (sv_Observer sv).
Local Abbreviation r := (ob_Router o).
Local Abbreviation clock := (format_time now).
Local Abbreviation minimal := (String.eqb (ob_Profile o) "minimal").

Definition noteSessionError (operation : string) (e : fault) (w : RouterWorld) : RouterWorld :=
  let w1 := setError o now (Wrapped operation (start_of_fault e)) w in
  match e with
  | Canceled | DeadlineExceeded => w1
  | _ => on_store (RequestRepair now operation) w1
  end.

(** *** Which threads are followed *)
Definition hasBackgroundTargets (s : Store) : bool :=
  negb (bool_decide (backgroundTargets (sv_Approvals sv) clock s = [])).

Definition shouldTrackCurrentPanel (panel : ThreadPanel) : bool :=
  let status := trim_space (tp_Status panel) in String.eqb status "" || negb (isTerminalStatus status).

Definition currentPanelThreadIDs (s : Store) : list string :=
  fold_left add_new
    (map th_ID (filter (fun t => existsb shouldTrackCurrentPanel (ListCurrentPanelsForThread (th_ID t) s) = true)
                  (ListThreads 100 s))) [].

Definition threadNeedsLiveSync (threadID : string) (s : Store) : bool :=
  bool_decide (threadID ∈ ListBoundThreadIDs s)
  || existsb shouldTrackCurrentPanel (ListCurrentPanelsForThread threadID s).

Definition snapshotHasPassiveChange (previous : option ThreadSnapshotState) (current : ThreadReadSnapshot) : bool :=
  match previous with
  | None => threadLooksActiveForPolling (sn_Thread current) || sn_WaitingOnApproval current || sn_WaitingOnReply current
  | Some _ => negb (bool_decide (length (DiffSnapshot previous current) = 0))
  end.

Definition catchupWindow : Z := maxDuration (90 * second) (sv_IndexRefreshInterval sv * 2).

Definition threadNeedsCatchupPolling (thread : Thread) (snapshot : option ThreadSnapshotState) (s : Store) : bool :=
  let updated := th_UpdatedAt thread in
  let sinceUnix := globalObserverSinceUnix o s in
  if (updated <=? 0)%Z then false
  else if ((0 <? sinceUnix) && (updated <? sinceUnix))%Z then false
  else if (catchupWindow <? now - updated * second)%Z then false
  else match snapshot with
  | None => true
  | Some n =>
      (ss_ThreadUpdatedAt n <? updated)%Z
      || negb (String.eqb (ss_LastSeenThreadStatus n) "")
         && negb (equal_fold (trim_space (ss_LastSeenThreadStatus n)) (trim_space (th_Status thread)))
      || negb (String.eqb (ss_LastSeenTurnID n) "") && negb (String.eqb (th_ActiveTurnID thread) "")
         && negb (String.eqb (ss_LastSeenTurnID n) (th_ActiveTurnID thread))
      || threadHasDeferredEmptyInterrupted (ro_PollInterval r) now thread snapshot s
  end.

(** Threads that are kept, behind those that are there. *)
Definition add_threads (keep : Thread -> bool) (threads out : list Thread) : list Thread :=
  fold_left (fun out t => if bool_decide (th_ID t ∈ map th_ID out) then out
                          else if keep t then out ++ [t] else out) threads out.

Definition track_recent (s : Store) (t : Thread) : bool :=
  let '(observed, readRequired) := MinimalObservationReadRequired (th_ID t) s in
  negb (minimal && observed && negb readRequired)
  && (threadLooksActiveForPolling t
      || hasBackgroundTargets s && threadNeedsCatchupPolling t (GetSnapshot (th_ID t) s) s).

Definition trackedThreads (limit : Z) (s : Store) : list Thread :=
  let shown := omap (fun threadID => GetThread threadID s) (ListBoundThreadIDs s ++ currentPanelThreadIDs s) in
  let due := if minimal then ListMinimalObservedThreadsDue minimalObservedDueLimit s else [] in
  add_threads (track_recent s) (ListThreads limit s) (add_threads (fun _ => true) due shown).

(** *** Listing *)
Definition observe_listed (thread0 : Thread) (w : RouterWorld) : option start_error * RouterWorld :=
  if IsInternal thread0 then (None, w)
  else
    match MatchExactCWD (ro_Platform r) (ro_Registry r) (th_CWD thread0) with
    | None => (None, w)
    | Some project =>
        let thread := set_th_ProjectName (pj_DisplayName project) (set_th_CWD (pj_CanonicalPath project) thread0) in
        match tx (persistServiceThread o now thread) w with
        | (inr e, w1) => (Some e, w1)
        | (inl _, w1) =>
            match tx (ObserveMinimalThread now thread (pj_ID project) now) w1 with
            | (inr e, w2) => (Some e, w2)
            | (inl _, w2) => (None, w2)
            end
        end
    end.

Fixpoint observe_all (threads : list Thread) (w : RouterWorld) : option start_error * RouterWorld :=
  match threads with
  | [] => (None, w)
  | t :: rest => match observe_listed t w with
                 | (Some e, w1) => (Some e, w1)
                 | (None, w1) => observe_all rest w1
                 end
  end.

Definition connected_session (connected : bool) (session : option ServiceSession) : option ServiceSession :=
  if connected then session else None.

(** The error of the listing itself is kept apart from those of the store. *)
Definition discoverMinimalRegisteredThreads (w : RouterWorld) : option (fault + start_error) * RouterWorld :=
  if negb minimal || bool_decide (ro_Registry r = None) then (None, w)
  else
    let poll := connected_session (sv_PollConnected sv) (sv_Poll sv) in
    match (match poll with Some _ => poll | None => connected_session (sv_LiveConnected sv) (sv_Live sv) end) with
    | None => (None, w)
    | Some client =>
        let cursor := trim_space (GetState minimalObserverCursorKey (rw_Store w)) in
        let w1 := called w in
        match se_ThreadList client (rw_Calls w) minimalThreadCatalogLimit cursor with
        | Fault e => (Some (inl e), w1)
        | Done result =>
            match observe_all (ThreadsFromList result) w1 with
            | (Some e, w2) => (Some (inr e), w2)
            | (None, w2) => (None, on_store (SetState clock minimalObserverCursorKey (minimalListNextCursor result)) w2)
            end
        end
    end.

(** refreshObserverIndex of the minimal profile *)
Definition refreshObserverIndex (w : RouterWorld) : RouterWorld :=
  if negb (hasBackgroundTargets (rw_Store w)) then w
  else match discoverMinimalRegisteredThreads w with
       | (None, w1) => w1
       | (Some (inl e), w1) => noteSessionError "minimal_thread_list" e w1
       | (Some (inr e), w1) => on_store (RequestRepair now "minimal_thread_list")
                                 (setError o now (Wrapped "minimal_thread_list" e) w1)
       end.

(** *** Reading *)

(** thread/read, without its turns when it fails with them. *)
Definition readThread (client : ServiceSession) (threadID : string) (w : RouterWorld) : outcome obj * RouterWorld :=
  match se_ThreadRead client (rw_Calls w) threadID true with
  | Done payload => (Done payload, called w)
  | Fault _ => let w1 := called w in (se_ThreadRead client (rw_Calls w1) threadID false, called w1)
  end.

Definition read_snapshot (payload : obj) : ThreadReadSnapshot :=
  let n := readSnapshot payload in set_sn_Thread (set_th_Raw (Some (JObj payload)) (sn_Thread n)) n.

(** A terminal read is checked against the stored thread, under the lock of the thread. *)
Definition terminal_locked (current : ThreadReadSnapshot) : bool :=
  minimal && ob_HasRouter o && isTerminalStatus (sn_LatestTurnStatus current).

Definition stored_locked (threadID : string) (current : ThreadReadSnapshot) (s : Store) : option Thread :=
  if terminal_locked current then GetThread threadID s else None.

(** The stored thread, when the read is older than its running turn. *)
Definition stale_read (threadID : string) (current : ThreadReadSnapshot) (s : Store) : option Thread :=
  t ← stored_locked threadID current s; if staleMinimalTerminalRefresh t current then Some t else None.

Definition merged_with (stored : option Thread) (current : ThreadReadSnapshot) : ThreadReadSnapshot :=
  match stored with
  | Some t => set_sn_Thread (mergeThreadMetadata (sn_Thread current) t) current
  | None => current
  end.

Definition refreshThreadForOperation (client : ServiceSession) (threadID : string) (w : RouterWorld)
  : option ((Thread + start_error) * RouterWorld) :=
  let '(answer, w1) := readThread client threadID w in
  match answer with
  | Fault e => Some (inr (start_of_fault e), w1)
  | Done payload =>
      let read := read_snapshot payload in
      let current := match GetThread threadID (rw_Store w1) with
        | Some existing => merged_with (Some existing) read
        | None => if String.eqb (th_ID (sn_Thread read)) "" then set_sn_Thread (set_th_ID threadID (sn_Thread read)) read
                  else read
        end in
      let previous := GetSnapshot threadID (rw_Store w1) in
      let '(deferred, s2) := applyTelegramOriginTerminalGate (ro_PollInterval r) now (Some current) previous (rw_Store w1) in
      let w2 := set_rw_Store s2 w1 in
      if deferred then Some (inl (default (sn_Thread current) (GetThread threadID s2)), w2)
      else
        match stale_read threadID current s2 with
        | Some t => Some (inl t, w2)
        | None =>
            let merged := preserveTelegramOriginLiveCurrentTool
                            (merged_with (stored_locked threadID current s2) current) previous s2 in
            match tx (persistServiceThread o now (sn_Thread merged)) w2 with
            | (inr e, w3) => Some (inr e, w3)
            | (inl _, w3) =>
                let w4 := on_store (run_ignored (UpsertSnapshot threadID (observedSnapshot o now previous merged 0))) w3 in
                (fun w5 => (inl (sn_Thread merged), w5)) <$> handleTerminalSnapshot o now merged (terminal_locked current) w4
            end
        end
  end.

(** One thread of pollTracked, under the minimal profile. *)
Definition recently_live (snapshot : option ThreadSnapshotState) : bool :=
  match snapshot with
  | Some n => negb (String.eqb (ss_LastRichLiveEventAt n) "")
      && (now - parseTime (ss_LastRichLiveEventAt n) <? maxDuration (10 * second) (ro_PollInterval r * 2))%Z
  | None => false
  end.

(** The rest of a poll, once the thread is read. *)
Definition storePolled (current0 : ThreadReadSnapshot) (latest : option ThreadSnapshotState) (w : RouterWorld)
  : option RouterWorld :=
  let threadID := th_ID (sn_Thread current0) in
  let w1 := on_store (enqueueMinimalPollOnlyApprovalNotice (sv_Approvals sv) now current0 latest) w in
  let '(deferred, s2) := applyTelegramOriginTerminalGate (ro_PollInterval r) now (Some current0) latest (rw_Store w1) in
  let w2 := set_rw_Store s2 w1 in
  if deferred then Some w2
  else
    match stale_read threadID current0 s2 with
    | Some _ => Some w2
    | None =>
        let current := preserveTelegramOriginLiveCurrentTool
                         (merged_with (stored_locked threadID current0 s2) current0) latest s2 in
        let w3 := on_store (run_ignored (persistServiceThread o now (sn_Thread current))) w2 in
        let w4 := on_store (run_ignored (UpsertSnapshot (th_ID (sn_Thread current))
                              (observedSnapshot o now latest current (30 * second)))) w3 in
        handleTerminalSnapshot o now current (terminal_locked current0) w4
    end.

Definition pollThread (poll : ServiceSession) (thread : Thread) (w : RouterWorld) : option RouterWorld :=
  let snapshot := GetSnapshot (th_ID thread) (rw_Store w) in
  if recently_live snapshot then Some w
  else
    match readThread poll (th_ID thread) w with
    | (Fault e, w1) => Some (if isThreadNotLoadedError e then w1 else noteSessionError "thread_read" e w1)
    | (Done payload, w1) =>
        let current := merged_with (Some thread) (read_snapshot payload) in
        match retireMinimalObservationIfIneligible o now current (rw_Store w1) with
        | Err e => Some (setError o now (Plain e) w1)
        | Ok (true, s2) => Some (set_rw_Store s2 w1)
        | Ok (false, s2) =>
            let w2 := set_rw_Store s2 w1 in
            let latest := match GetSnapshot (th_ID thread) s2 with Some stored => Some stored | None => snapshot end in
            storePolled current latest w2
        end
    end.

Fixpoint poll_all (poll : ServiceSession) (threads : list Thread) (w : RouterWorld) : option RouterWorld :=
  match threads with
  | [] => Some w
  | t :: rest => w1 ← pollThread poll t w; poll_all poll rest w1
  end.

Definition pollTracked (w : RouterWorld) : option RouterWorld :=
  match connected_session (sv_PollConnected sv) (sv_Poll sv) with
  | None => Some w
  | Some poll => poll_all poll (trackedThreads observerRecentThreadLimit (rw_Store w)) w
  end.

(** A turn of pollLoop. *)
Definition pollCycle (w : RouterWorld) : option RouterWorld := pollTracked (refreshObserverIndex w).

End polling.
