(* ===== verification/PollingSafety.v ===== *)
(** * What following threads does, and what it leaves alone

    A cycle of pollLoop and a refresh of one thread run the machine of the workers; the
    discovery goes on where it stopped; a read that is older than the running turn is
    ignored; the live tool never goes back. *)
From stdpp Require Import base list numbers strings gmap relations sorting.
From Stdlib Require Import Lia Ascii.
From S2P Require Import Prelude GoStrings GoTime Sql Json Model Normalize CoreTables MinimalTables Store Daemon NotifierObserver NotifierIngress.
From S2P Require Import LinkedThread Continuations Threads Panels TerminalGate Observations Projects ApprovalHandlers LinkWorkers Routing Starts Router RouterSafety Drain Terminal TerminalReport TerminalRelease LiveTools Polling.

#[local] Arguments handleTerminalSnapshot : simpl never.
#[local] Arguments applyTelegramOriginTerminalGate : simpl never.

(** ** Notions *)

(** Only the state of the daemon and the snapshots may change. *)
Record only_notes (s s' : Store) : Prop := {
  on_minimal : db_minimal s' = db_minimal s;
  on_threads : cr_threads (db_core s') = cr_threads (db_core s);
  on_queue : db_queue s' = db_queue s;
  on_terminal : db_terminal s' = db_terminal s;
  on_linked : db_linked s' = db_linked s }.

(** The queue may change too, by a notice for the PC. *)
Record only_notices (s s' : Store) : Prop := {
  oc_minimal : db_minimal s' = db_minimal s;
  oc_threads : cr_threads (db_core s') = cr_threads (db_core s);
  oc_terminal : db_terminal s' = db_terminal s;
  oc_linked : db_linked s' = db_linked s }.

(** No thread and no observation goes away, and the state of the daemon stays. *)
Record grows (s s' : Store) : Prop := {
  gr_state : db_state s' = db_state s;
  gr_threads : dom (cr_threads (db_core s)) ⊆ dom (cr_threads (db_core s'));
  gr_observed : dom (mt_observations (db_minimal s)) ⊆ dom (mt_observations (db_minimal s')) }.

(** A listed thread of a registered project is stored and observed. *)
Definition discovered (sv : Service) (s : Store) (t : Thread) : Prop :=
  IsInternal t = false ->
  is_Some (MatchExactCWD (ro_Platform (ob_Router (sv_Observer sv))) (ro_Registry (ob_Router (sv_Observer sv))) (th_CWD t)) ->
  is_Some (GetThread (th_ID t) s) /\ is_Some (mt_observations (db_minimal s) !! trim_space (th_ID t)).

(** ** Runs *)

(** At most [k] turns were started, unless the store could not take a thread. *)
Definition runs_upto (r : Router) (k : nat) (w w' : RouterWorld) : Prop :=
  exists n, runs r n w w' /\ ((n <= k)%nat \/ persist_fails r).

(** A poll session that lists the thread of ex_working at work and reads its turn as ended. *)
Definition ex_listed : obj :=
  [("data", JArr [JObj [("id", JStr "t"); ("cwd", JStr "/work/alpha"); ("status", JStr "active");
                        ("activeTurnId", JStr "turn-1"); ("updatedAt", JInt 100)]]);
   ("nextCursor", JStr "page-2")].

Definition ex_ended_read (turnID : string) : obj :=
  [("thread", JObj [("id", JStr "t"); ("cwd", JStr "/work/alpha"); ("status", JStr "idle"); ("updatedAt", JInt 100);
     ("turns", JArr [JObj [("id", JStr turnID); ("status", JStr "completed");
        ("items", JArr [JObj [("type", JStr "agentMessage"); ("id", JStr "i1"); ("text", JStr "done");
                              ("phase", JStr "final_answer")]])]])])].

Definition ex_session (turnID : string) : ServiceSession :=
  mkServiceSession (fun _ _ _ => Done (ex_ended_read turnID)) (fun _ _ _ => Done ex_listed).

Definition ex_following (turnID : string) : Service :=
  mkService ex_observer ex_service None false (Some (ex_session turnID)) true 0.

Definition ex_followed : RouterWorld := ex_working MinimalLinkedTelegramRunning (Some "turn-1").

(** The thread runs its second turn. *)
Definition ex_stored_thread : Thread :=
  set_th_Status "active" (set_th_ActiveTurnID "turn-2" ex_thread).
Definition ex_second_turn : RouterWorld :=
  set_rw_Store (run_ignored (UpsertThread ex_stored_thread) (rw_Store ex_followed)) ex_followed.

Section runs.
Context `{GateCodec} (sv : Service) (now : instant).
Local Abbreviation o := (sv_Observer sv).
Local Abbreviation r := (ob_Router o).
Hypothesis HL : RouterLaws r now.

Lemma upto_store k w0 w s : runs_upto r k w0 w -> runs_upto r k w0 (set_rw_Store s w).
Proof using. intros (n & Hn & Hk). exists n. split; [by apply runs_store|done]. Qed.

Lemma upto_refl k w : runs_upto r k w w.
Proof using. exists 0%nat. split; [apply runs_refl|left; lia]. Qed.

Lemma upto_called k w0 w : runs_upto r k w0 w -> runs_upto r k w0 (called w).
Proof using. intros (n & Hn & Hk). exists n. split; [by eapply runs_quiet|done]. Qed.

Lemma upto_trans i j a b c : runs_upto r i a b -> runs_upto r j b c -> runs_upto r (i + j) a c.
Proof using.
  intros (n & Hn & Hi) (m & Hm & Hj). exists (n + m)%nat. split; [by eapply runs_trans|].
  destruct Hi as [Hi|]; [|by right]. destruct Hj as [Hj|]; [left; lia|by right].
Qed.

Lemma upto_tx {A} (m : Tx Store A) k w0 w a w' : tx m w = (a, w') -> runs_upto r k w0 w -> runs_upto r k w0 w'.
Proof using. intros E (n & Hn & Hk). exists n. split; [by eapply tx_runs|done]. Qed.

Lemma upto_error k w0 w e : runs_upto r k w0 w -> runs_upto r k w0 (setError o now e w).
Proof using. apply upto_store. Qed.

Lemma upto_session_error k w0 w operation e : runs_upto r k w0 w -> runs_upto r k w0 (noteSessionError sv now operation e w).
Proof using. intros Hw. unfold noteSessionError, on_store. destruct e; by repeat apply upto_store. Qed.

Lemma upto_terminal snapshot held w w' :
  handleTerminalSnapshot o now snapshot held w = Some w' -> runs_upto r 1 w w'.
Proof using HL. intros (n & Hn & Hk)%(handleTerminal_runs o now HL). by exists n. Qed.

Lemma upto_read client threadID k w0 w a w' : readThread client threadID w = (a, w') ->
  runs_upto r k w0 w -> runs_upto r k w0 w'.
Proof using.
  unfold readThread. destruct (se_ThreadRead _ _ _ _); intros E Hw; injection E as _ <-; by repeat apply upto_called.
Qed.

Lemma storePolled_runs current latest w w' : storePolled sv now current latest w = Some w' -> runs_upto r 1 w w'.
Proof using HL.
  unfold storePolled, on_store. destruct (applyTelegramOriginTerminalGate _ _ _ _ _) as [deferred s2].
  destruct deferred; [intros [= <-]; apply upto_store, upto_store, upto_refl|].
  destruct (stale_read _ _ _ _) as [t|]; [intros [= <-]; apply upto_store, upto_store, upto_refl|].
  intros HT%upto_terminal. eapply (upto_trans 0 1); [|exact HT]. repeat apply upto_store. apply upto_refl.
Qed.

Lemma pollThread_runs poll thread w w' : pollThread sv now poll thread w = Some w' -> runs_upto r 1 w w'.
Proof using HL.
  unfold pollThread. cbv zeta. destruct (recently_live _ _ _); [intros [= <-]; apply upto_refl|].
  destruct (readThread _ _ _) as [[payload|e] w1] eqn:E.
  - destruct (retireMinimalObservationIfIneligible _ _ _ _) as [[[] s2]|e].
    + intros [= <-]. apply upto_store. eapply upto_read; [done|apply upto_refl].
    + intros HT%storePolled_runs. eapply (upto_trans 0 1); [|exact HT]. apply upto_store.
      eapply upto_read; [done|apply upto_refl].
    + intros [= <-]. apply upto_error. eapply upto_read; [done|apply upto_refl].
  - intros [= <-]. assert (runs_upto r 1 w w1) by (eapply upto_read; [done|apply upto_refl]).
    destruct (isThreadNotLoadedError e); [done|]. by apply upto_session_error.
Qed.

Lemma poll_all_runs poll threads : forall w w', poll_all sv now poll threads w = Some w' -> runs_upto r (length threads) w w'.
Proof using HL.
  induction threads as [|t threads IH]; intros w w'; cbn [poll_all length]; [intros [= <-]; apply upto_refl|].
  destruct (pollThread sv now poll t w) as [w1|] eqn:E; [|done]. cbn [mbind option_bind]. intros HT%IH.
  apply (upto_trans 1 _ _ _ _ (pollThread_runs _ _ _ _ E) HT).
Qed.

Lemma observe_all_runs threads : forall k w0 w a w', observe_all sv now threads w = (a, w') ->
  runs_upto r k w0 w -> runs_upto r k w0 w'.
Proof using.
  induction threads as [|t threads IH]; intros k w0 w a w'; cbn [observe_all]; [intros E ?; by injection E as _ <-|].
  assert (Ht : forall x w1, observe_listed sv now t w = (x, w1) -> runs_upto r k w0 w -> runs_upto r k w0 w1).
  { intros x w1. unfold observe_listed. destruct (IsInternal t); [intros E ?; by injection E as _ <-|].
    destruct (MatchExactCWD _ _ _) as [project|]; [|intros E ?; by injection E as _ <-].
    destruct (tx _ w) as [[u|e] w2] eqn:E1; [|intros E ?; injection E as _ <-; by eapply upto_tx].
    destruct (tx _ w2) as [[v|e] w3] eqn:E2; intros E ?; injection E as _ <-; (eapply upto_tx; [done|]; by eapply upto_tx). }
  destruct (observe_listed sv now t w) as [[e|] w1] eqn:E; intros E' Hw.
  - injection E' as _ <-. by eapply Ht.
  - eapply IH; [done|]. by eapply Ht.
Qed.

Lemma discover_runs w a w' : discoverMinimalRegisteredThreads sv now w = (a, w') -> runs_upto r 0 w w'.
Proof using.
  unfold discoverMinimalRegisteredThreads. cbv zeta. destruct (_ || _); [intros E; injection E as _ <-; apply upto_refl|].
  match goal with |- context [match ?x with Some _ => _ | None => (None, w) end] => destruct x as [client|] end; [|intros E; injection E as _ <-; apply upto_refl].
  destruct (se_ThreadList _ _ _ _) as [result|e]; [|intros E; injection E as _ <-; apply upto_called, upto_refl].
  destruct (observe_all _ _ _ _) as [[e|] w2] eqn:E2; intros E; injection E as _ <-.
  - eapply observe_all_runs; [done|]. apply upto_called, upto_refl.
  - apply upto_store. eapply observe_all_runs; [done|]. apply upto_called, upto_refl.
Qed.

Lemma refreshIndex_runs w : runs_upto r 0 w (refreshObserverIndex sv now w).
Proof using.
  unfold refreshObserverIndex. destruct (negb _); [apply upto_refl|].
  destruct (discoverMinimalRegisteredThreads sv now w) as [[[e|e]|] w1] eqn:E.
  - apply upto_session_error. by eapply discover_runs.
  - apply upto_store, upto_store. by eapply discover_runs.
  - by eapply discover_runs.
Qed.

Lemma refreshThread_runs client threadID w a w' :
  refreshThreadForOperation sv now client threadID w = Some (a, w') -> runs_upto r 1 w w'.
Proof using HL.
  unfold refreshThreadForOperation. cbv zeta. destruct (readThread _ _ _) as [[payload|e] w1] eqn:E;
    [|intros E'; injection E' as _ <-; eapply upto_read; [done|apply upto_refl]].
  assert (H1 : runs_upto r 0 w w1) by (eapply upto_read; [done|apply upto_refl]).
  assert (H1' : runs_upto r 1 w w1) by (eapply upto_read; [done|apply upto_refl]).
  destruct (applyTelegramOriginTerminalGate _ _ _ _ _) as [deferred s2].
  destruct deferred; [intros E'; injection E' as _ <-; by apply upto_store|].
  destruct (stale_read _ _ _ _) as [t|];
    [intros E'; injection E' as _ <-; by apply upto_store|].
  destruct (tx _ _) as [[u|e] w3] eqn:E3; [|intros E'; injection E' as _ <-; eapply upto_tx; [done|]; by apply upto_store].
  destruct (handleTerminalSnapshot _ _ _ _ _) as [w5|] eqn:E5; cbn [fmap option_fmap option_map]; [|done].
  intros E'. injection E' as _ <-. eapply (upto_trans 0 1); [|by eapply upto_terminal].
  unfold on_store. apply upto_store. eapply upto_tx; [done|]. by apply upto_store.
Qed.

End runs.

(** ** What a read that is held back or too old leaves alone *)

#[export] Instance only_notes_preorder : PreOrder only_notes.
Proof.
  split; [done|]. intros a b c [A1 A2 A3 A4 A5] [B1 B2 B3 B4 B5]. split; congruence.
Qed.

Lemma notes_state at_ key value s : only_notes s (SetState at_ key value s).
Proof. by split. Qed.

Lemma notes_snapshot id n s : only_notes s (run_ignored (UpsertSnapshot id n) s).
Proof. by split. Qed.

Lemma notes_turn_state at_ key value s : only_notes s (set_turn_state at_ key value s).
Proof. unfold set_turn_state. case_match; [done|apply notes_state]. Qed.

Lemma notes_decide `{GateCodec} poll clock snapshot now s :
  only_notes s (decideTelegramOriginEmptyInterruptedTerminal poll clock snapshot now s).2.
Proof.
  unfold decideTelegramOriginEmptyInterruptedTerminal. cbv zeta.
  repeat first [ apply notes_turn_state | case_match | reflexivity ].
Qed.

Lemma notes_gate `{GateCodec} poll clock current previous s deferred s' :
  applyTelegramOriginTerminalGate poll clock current previous s = (deferred, s') -> only_notes s s'.
Proof.
  unfold applyTelegramOriginTerminalGate. pose proof (notes_decide poll clock current clock s) as Hd.
  destruct (decideTelegramOriginEmptyInterruptedTerminal _ _ _ _ _) as [decision s1]. cbn [snd] in Hd.
  destruct (String.eqb _ _); intros [= _ <-]; [|done]. etrans; [exact Hd|].
  case_match; [apply notes_snapshot|done].
Qed.

Lemma stale_terminal stored current : staleMinimalTerminalRefresh stored current = true ->
  isTerminalStatus (sn_LatestTurnStatus current) = true.
Proof. unfold staleMinimalTerminalRefresh. by intros [[_ H]%andb_true_iff _]%andb_true_iff. Qed.

Lemma stale_found sv threadID current stored s :
  ob_Profile (sv_Observer sv) = "minimal" -> ob_HasRouter (sv_Observer sv) = true ->
  GetThread threadID s = Some stored -> staleMinimalTerminalRefresh stored current = true ->
  stale_read sv threadID current s = Some stored.
Proof.
  intros Hm Hr Hg Hs. unfold stale_read, stored_locked, terminal_locked.
  rewrite Hm, Hr, (stale_terminal _ _ Hs), Hg. cbn. by rewrite Hs.
Qed.

Lemma notes_GetThread threadID s s' : only_notes s s' -> GetThread threadID s' = GetThread threadID s.
Proof. intros H. unfold GetThread. by rewrite (on_threads _ _ H). Qed.

Lemma read_store client threadID w a w1 : readThread client threadID w = (a, w1) -> rw_Store w1 = rw_Store w.
Proof. unfold readThread. by destruct (se_ThreadRead _ _ _ _); intros [= _ <-]. Qed.

#[export] Instance only_notices_preorder : PreOrder only_notices.
Proof. split; [done|]. intros a b c [A1 A2 A3 A4] [B1 B2 B3 B4]. split; congruence. Qed.

Lemma notices_notes s s' : only_notes s s' -> only_notices s s'.
Proof. intros [H1 H2 _ H4 H5]. by split. Qed.

Lemma notices_enqueue svc clock n previous s : only_notices s (enqueueMinimalPollOnlyApprovalNotice svc clock n previous s).
Proof.
  unfold enqueueMinimalPollOnlyApprovalNotice. cbv zeta. destruct (_ || _); [reflexivity|].
  destruct (match previous with Some p => _ | None => _ end); [reflexivity|].
  destruct (MatchExactCWD _ _ _); [|reflexivity]. unfold enqueueRenderedToBackgroundTargets, textResponse.
  generalize (backgroundTargets svc (format_time clock) s). intros l. revert s.
  induction l as [|t l IH]; intros s; cbn [fold_left]; [reflexivity|]. etransitivity; [|apply IH]. clear IH.
  unfold Delivery.ignore_error, EnqueueDelivery. destruct (res_bind _ _) as [s'|] eqn:E; [|reflexivity].
  unfold res_bind in E. destruct (protect_with _ _); [|done]. injection E as <-.
  unfold insert_ungrouped. by destruct (event_target_exists _ _ _).
Qed.

Lemma notice_skipped svc clock n previous s : sn_WaitingOnApproval n = false ->
  enqueueMinimalPollOnlyApprovalNotice svc clock n previous s = s.
Proof.
  intros Hw. unfold enqueueMinimalPollOnlyApprovalNotice. rewrite Hw. cbv zeta. change (negb false) with true. by rewrite orb_true_r.
Qed.

(** What a poll does first: nothing, or the observation of a thread outside the projects is retired. *)
Lemma retire_cases o now n s :
  retireMinimalObservationIfIneligible o now n s = Ok (false, s)
  \/ exists s', retireMinimalObservationIfIneligible o now n s = Ok (true, s')
       /\ MatchExactCWD (ro_Platform (ob_Router o)) (ro_Registry (ob_Router o)) (trim_space (th_CWD (sn_Thread n))) = None
       /\ RetireMinimalObservation now (trim_space (th_ID (sn_Thread n))) now s = Ok (tt, s').
Proof.
  unfold retireMinimalObservationIfIneligible. cbv zeta. destruct (_ || _) eqn:E; [by left|right].
  apply orb_false_elim in E as [_ E%bool_decide_eq_false]. unfold res_bind.
  destruct (RetireMinimalObservation now _ now s) as [[[] s']|] eqn:Er.
  - exists s'. split_and!; [done| |done]. destruct (MatchExactCWD _ _ _); [by destruct E|done].
  - unfold RetireMinimalObservation in Er. by destruct (String.eqb _ "").
Qed.

(** The rest of a poll whose read is too old. *)
Lemma stored_stale `{GateCodec} sv now threadID n stored latest w :
  ob_Profile (sv_Observer sv) = "minimal" -> ob_HasRouter (sv_Observer sv) = true -> th_ID (sn_Thread n) = threadID ->
  GetThread threadID (rw_Store w) = Some stored -> staleMinimalTerminalRefresh stored n = true ->
  exists s', storePolled sv now n latest w = Some (set_rw_Store s' w)
    /\ only_notices (rw_Store w) s' /\ (sn_WaitingOnApproval n = false -> only_notes (rw_Store w) s').
Proof.
  intros Hm Hr Hid Hg Hs. unfold storePolled, on_store. cbv zeta. rewrite Hid. cbn [rw_Store set_rw_Store].
  pose proof (notices_enqueue (sv_Approvals sv) now n latest (rw_Store w)) as Hq.
  pose proof (notice_skipped (sv_Approvals sv) now n latest (rw_Store w)) as Hskip.
  set (s1 := enqueueMinimalPollOnlyApprovalNotice _ _ _ _ _) in *.
  destruct (applyTelegramOriginTerminalGate _ _ _ _ _) as [deferred s2] eqn:Eg. apply notes_gate in Eg as Hn.
  assert (GetThread threadID s2 = Some stored) as Hg2.
  { rewrite (notes_GetThread threadID _ _ Hn). unfold GetThread. by rewrite (oc_threads _ _ Hq). }
  exists s2. split_and!.
  - destruct deferred; [done|]. by rewrite (stale_found sv threadID n stored s2 Hm Hr Hg2 Hs).
  - etransitivity; [exact Hq|by apply notices_notes].
  - intros Hw. by rewrite (Hskip Hw) in Hn.
Qed.

(** C18: The end of another turn than the one that runs, read late, is ignored.  A refresh
    answers the stored thread; a poll goes on.  Neither touches threads, observations,
    waiting commands, links, terminal events, the queue or the workers, but for what a poll
    does with any read: the observation of a thread outside the projects is retired, and a
    read that waits for an approval queues its notice for the PC. *)
Theorem stale_read_ignored `{GateCodec} sv now client threadID w w1 payload stored :
  ob_Profile (sv_Observer sv) = "minimal" -> ob_HasRouter (sv_Observer sv) = true ->
  readThread client threadID w = (Done payload, w1) -> GetThread threadID (rw_Store w) = Some stored ->
  (staleMinimalTerminalRefresh stored (merged_with (Some stored) (read_snapshot payload)) = true ->
   exists s', refreshThreadForOperation sv now client threadID w = Some (inl stored, set_rw_Store s' w1)
     /\ only_notes (rw_Store w) s')
  /\ (forall thread, let polled := merged_with (Some thread) (read_snapshot payload) in
      th_ID thread = threadID -> th_ID (sn_Thread polled) = threadID ->
      staleMinimalTerminalRefresh stored polled = true ->
      pollThread sv now client thread w = Some w
      \/ exists s', pollThread sv now client thread w = Some (set_rw_Store s' w1)
         /\ ((only_notices (rw_Store w) s' /\ (sn_WaitingOnApproval polled = false -> only_notes (rw_Store w) s'))
             \/ (MatchExactCWD (ro_Platform (ob_Router (sv_Observer sv))) (ro_Registry (ob_Router (sv_Observer sv)))
                   (trim_space (th_CWD (sn_Thread polled))) = None
                 /\ RetireMinimalObservation now (trim_space threadID) now (rw_Store w) = Ok (tt, s')))).
Proof.
  intros Hm Hr E Hg. pose proof (read_store _ _ _ _ _ E) as Hw1. split.
  - intros Hs. unfold refreshThreadForOperation. rewrite E. cbv zeta. rewrite Hw1, Hg. set (current := merged_with _ _) in *.
    destruct (applyTelegramOriginTerminalGate _ _ _ _ _) as [deferred s2] eqn:Eg. apply notes_gate in Eg as Hn.
    pose proof (notes_GetThread threadID _ _ Hn) as Hg2. rewrite Hg in Hg2. exists s2. split; [|done].
    destruct deferred; [by rewrite Hg2|]. by rewrite (stale_found sv threadID current stored s2 Hm Hr Hg2 Hs).
  - intros thread polled Ht Hid Hs. unfold pollThread. rewrite Ht.
    destruct (recently_live _ _ _); [by left|right]. rewrite E. cbv zeta. fold polled. rewrite Hw1.
    destruct (retire_cases (sv_Observer sv) now polled (rw_Store w)) as [Er|(s' & Er & Hc & Hret)]; rewrite Er.
    2: { exists s'. split; [done|]. right. by rewrite Hid in Hret. }
    destruct (stored_stale sv now threadID polled stored
      (match GetSnapshot threadID (rw_Store w) with Some n => Some n | None => GetSnapshot threadID (rw_Store w) end)
      (set_rw_Store (rw_Store w) w1) Hm Hr Hid Hg Hs) as (s' & E' & H1 & H2).
    exists s'. rewrite E'. split; [done|]. left. split; [exact H1|exact H2].
Qed.

Theorem stale_read_ignored_witness :
  match GetThread "t" (rw_Store ex_second_turn) with
  | Some stored => (exists s',
      @refreshThreadForOperation ex_codec (ex_following "turn-1") ex_now (ex_session "turn-1") "t" ex_second_turn
        = Some (inl stored, set_rw_Store s' (called ex_second_turn))
      /\ only_notes (rw_Store ex_second_turn) s' /\ th_ActiveTurnID stored = "turn-2")
      /\ exists w', @pollThread ex_codec (ex_following "turn-1") ex_now (ex_session "turn-1") stored ex_second_turn = Some w'
           /\ db_queue (rw_Store w') = db_queue (rw_Store ex_second_turn)
           /\ GetThread "t" (rw_Store w') = Some stored
  | None => False
  end.
Proof.
  destruct (GetThread "t" (rw_Store ex_second_turn)) as [stored|] eqn:E; [|discriminate E].
  assert (Hs : staleMinimalTerminalRefresh stored (merged_with (Some stored) (read_snapshot (ex_ended_read "turn-1"))) = true
               /\ th_ActiveTurnID stored = "turn-2" /\ th_ID stored = "t"
               /\ th_ID (sn_Thread (merged_with (Some stored) (read_snapshot (ex_ended_read "turn-1")))) = "t"
               /\ sn_WaitingOnApproval (merged_with (Some stored) (read_snapshot (ex_ended_read "turn-1"))) = false
               /\ MatchExactCWD (ro_Platform ex_router) (ro_Registry ex_router)
                    (trim_space (th_CWD (sn_Thread (merged_with (Some stored) (read_snapshot (ex_ended_read "turn-1")))))) <> None).
  { injection E as <-. split_and!; vm_compute; try reflexivity. discriminate. }
  destruct Hs as (Hs & Ht & H1 & H2 & H3 & H4).
  destruct (@stale_read_ignored ex_codec (ex_following "turn-1") ex_now (ex_session "turn-1") "t" ex_second_turn
              (called ex_second_turn) (ex_ended_read "turn-1") stored eq_refl eq_refl eq_refl E) as [Hr Hp].
  split.
  - destruct (Hr Hs) as (s' & K1 & K2). exists s'. split; [exact K1|]. split; [exact K2|exact Ht].
  - destruct (Hp stored H1 H2 Hs) as [Hw|(s' & Hw & [[_ Hk]|[Hn _]])];
      [exists ex_second_turn; split; [exact Hw|split; [reflexivity|exact E]]| |exact (False_ind _ (H4 Hn))].
    destruct (Hk H3) as [_ K2 K3 _ _]. exists (set_rw_Store s' (called ex_second_turn)). split; [exact Hw|].
    split; [exact K3|]. rewrite <- E. unfold GetThread. cbn [rw_Store set_rw_Store]. by rewrite K2.
Defined.

(** ** The discovery *)

#[export] Instance grows_preorder : PreOrder grows.
Proof.
  split; [by split|]. intros a b c [A1 A2 A3] [B1 B2 B3]. split; [congruence|by etrans..].
Qed.

Lemma grows_upsert t : tx_keeps grows (UpsertThread t).
Proof.
  unfold UpsertThread, upsertThreadTx. apply keeps_modify. intros s. split; [done| |done].
  cbn [db_core set_core cr_threads set_cr_threads]. rewrite dom_insert. apply union_subseteq_r.
Qed.

Lemma grows_observe clock t id now : tx_keeps grows (ObserveMinimalThread clock t id now).
Proof.
  unfold ObserveMinimalThread. destruct (_ || _); [apply keeps_fail|]. apply keeps_modify. intros s.
  destruct (match _ with Some r => mo_Retired r | None => false end); [reflexivity|].
  destruct (negb _); [reflexivity|]. split; [done|done|]. unfold set_observed.
  cbn [db_minimal set_minimal mt_observations set_mt_observations]. rewrite dom_insert. apply union_subseteq_r.
Qed.

Lemma grows_ignored {A} (m : Tx Store A) s : tx_keeps grows m -> grows s (run_ignored m s).
Proof. intros H. unfold run_ignored. destruct (m s) as [[a s']|] eqn:E; [by eapply H|reflexivity]. Qed.

Lemma upserted t s a s' : UpsertThread t s = Ok (a, s') -> th_ID t ∈ dom (cr_threads (db_core s')).
Proof.
  unfold UpsertThread, upsertThreadTx, tx_modify. intros [= _ <-].
  cbn [db_core set_core cr_threads set_cr_threads]. rewrite dom_insert. set_solver.
Qed.

Lemma persist_stores o now t s a s' : persistServiceThread o now t s = Ok (a, s') ->
  grows s s' /\ is_Some (GetThread (th_ID t) s').
Proof.
  assert (Hget : forall id s, id ∈ dom (cr_threads (db_core s)) -> is_Some (GetThread id s)).
  { intros id s0. unfold GetThread. rewrite elem_of_dom. intros [x ->]. by eexists. }
  unfold persistServiceThread. destruct (String.eqb _ _).
  - unfold persistThread. cbv zeta. set (observed := if threadLooksActiveForPolling t then MatchExactCWD _ _ _ else None). clearbody observed. intros E.
    apply tx_bind_ok in E as (u & s1 & E1 & E2). pose proof (grows_upsert _ _ _ _ E1) as G1. apply upserted in E1.
    assert (G2 : grows s1 s').
    { destruct observed as [project|]; [destruct (String.eqb _ "")|].
      1,3: injection E2 as _ <-; reflexivity.
      injection E2 as _ <-. apply grows_ignored, grows_observe. }
    split; [by etrans|]. apply Hget. apply (gr_threads _ _ G2). by destruct observed.
  - intros E. split; [by eapply grows_upsert|]. by eapply Hget, upserted.
Qed.

Lemma observe_stores clock t id now s a s' : ObserveMinimalThread clock t id now s = Ok (a, s') ->
  is_Some (mt_observations (db_minimal s') !! trim_space (th_ID t)).
Proof.
  unfold ObserveMinimalThread. destruct (_ || _); [done|]. intros [= _ <-].
  destruct (mt_observations (db_minimal s) !! trim_space (th_ID t)) as [r|] eqn:E.
  - destruct (mo_Retired r); [by eexists|]. destruct (negb _); [by eexists|]. cbn. rewrite lookup_insert_eq. by eexists.
  - cbn. rewrite lookup_insert_eq. by eexists.
Qed.

Lemma discovered_grows sv s s' t : grows s s' -> discovered sv s t -> discovered sv s' t.
Proof.
  intros [_ G1 G2] Hd Hi Hp. destruct (Hd Hi Hp) as [[x Hx] [y Hy]]. split.
  - unfold GetThread in *. apply fmap_Some in Hx as (row & Hx & _).
    assert (H : th_ID t ∈ dom (cr_threads (db_core s'))) by (apply G1, elem_of_dom; by eexists).
    apply elem_of_dom in H as [z ->]. by eexists.
  - apply elem_of_dom, G2, elem_of_dom. by eexists.
Qed.

Lemma tx_result {A} (m : Tx Store A) w a w' : tx m w = (inl a, w') -> m (rw_Store w) = Ok (a, rw_Store w').
Proof. unfold tx. destruct (m (rw_Store w)) as [[b s']|]; [|done]. by intros [= -> <-]. Qed.

Lemma tx_failed {A} (m : Tx Store A) w e w' : tx m w = (inr e, w') -> w' = w.
Proof. unfold tx. destruct (m (rw_Store w)) as [[b s']|]; [done|]. by intros [= _ ->]. Qed.

Lemma observe_listed_ok sv now t w answer w' : observe_listed sv now t w = (answer, w') ->
  grows (rw_Store w) (rw_Store w') /\ (answer = None -> discovered sv (rw_Store w') t).
Proof.
  unfold observe_listed. destruct (IsInternal t) eqn:Ei; [intros [= <- <-]; split; [done|intros _ H; congruence]|].
  destruct (MatchExactCWD _ _ _) as [project|] eqn:Em; [|intros [= <- <-]; split; [done|intros _ _ [x Hx]; congruence]].
  set (t1 := set_th_ProjectName _ _).
  destruct (tx _ w) as [[u|e] w1] eqn:E1; [|intros [= <- <-]; rewrite (tx_failed _ _ _ _ E1); by split].
  apply tx_result, persist_stores in E1 as [G1 H1].
  destruct (tx _ w1) as [[v|e] w2] eqn:E2; [|intros [= <- <-]; rewrite (tx_failed _ _ _ _ E2); by split].
  apply tx_result in E2. pose proof (grows_observe _ _ _ _ _ _ _ E2) as G2. apply observe_stores in E2.
  intros [= <- <-]. split; [by etrans|]. intros _ _ _. split; [|exact E2].
  unfold GetThread in *. apply fmap_is_Some in H1. apply fmap_is_Some.
  by apply elem_of_dom, (gr_threads _ _ G2), elem_of_dom.
Qed.

Lemma observe_all_ok sv now threads : forall w answer w', observe_all sv now threads w = (answer, w') ->
  grows (rw_Store w) (rw_Store w') /\ (answer = None -> Forall (discovered sv (rw_Store w')) threads).
Proof.
  induction threads as [|t threads IH]; intros w answer w'; cbn [observe_all]; [intros [= <- <-]; by split; [|constructor]|].
  destruct (observe_listed sv now t w) as [[e|] w1] eqn:E; apply observe_listed_ok in E as [G1 H1].
  - intros [= <- <-]. by split.
  - intros [G2 H2]%IH. split; [by etrans|]. intros Ha. constructor; [|by apply H2].
    by eapply discovered_grows, H1.
Qed.

(** C19: The discovery goes through the list page by page and skips none: it moves on to the
    next page only when every thread of a registered project on this one is stored and
    observed, and asks for the same page again otherwise. *)
Theorem discovery_skips_nothing sv now w client answer w' :
  ob_Profile (sv_Observer sv) = "minimal" -> ro_Registry (ob_Router (sv_Observer sv)) <> None ->
  connected_session (sv_PollConnected sv) (sv_Poll sv) = Some client ->
  discoverMinimalRegisteredThreads sv now w = (answer, w') ->
  let cursor := GetState minimalObserverCursorKey (rw_Store w) in
  match answer with
  | None => exists result,
      se_ThreadList client (rw_Calls w) minimalThreadCatalogLimit (trim_space cursor) = Done result
      /\ GetState minimalObserverCursorKey (rw_Store w') = minimalListNextCursor result
      /\ Forall (discovered sv (rw_Store w')) (ThreadsFromList result)
  | Some _ => GetState minimalObserverCursorKey (rw_Store w') = cursor
  end.
Proof.
  intros Hm Hr Hc E cursor. unfold discoverMinimalRegisteredThreads in E. rewrite Hm in E.
  rewrite bool_decide_false in E by done. cbv zeta in E. rewrite Hc in E.
  destruct (negb _ || false) eqn:Eg; [by vm_compute in Eg|]. fold cursor in E.
  destruct (se_ThreadList client (rw_Calls w) minimalThreadCatalogLimit (trim_space cursor)) as [result|e] eqn:El;
    [|by injection E as <- <-].
  destruct (observe_all sv now _ _) as [[e|] w2] eqn:Eo; apply observe_all_ok in Eo as [G H]; injection E as <- <-.
  - unfold GetState. by rewrite (gr_state _ _ G).
  - exists result. split; [done|]. unfold on_store. cbn [rw_Store set_rw_Store]. split.
    + unfold GetState, SetState. cbn. by rewrite lookup_insert_eq.
    + eapply Forall_impl; [by apply H|]. intros t Ht. exact Ht.
Qed.

Theorem discovery_skips_nothing_witness :
  let '(answer, w') := discoverMinimalRegisteredThreads (ex_following "turn-1") ex_now ex_followed in
  answer = None /\ GetState minimalObserverCursorKey (rw_Store w') = "page-2"
  /\ is_Some (GetThread "t" (rw_Store w')).
Proof.
  destruct (discoverMinimalRegisteredThreads (ex_following "turn-1") ex_now ex_followed) as [answer w'] eqn:E.
  assert (Ha : (discoverMinimalRegisteredThreads (ex_following "turn-1") ex_now ex_followed).1 = None) by (vm_compute; reflexivity).
  rewrite E in Ha. cbn [fst] in Ha. subst answer.
  destruct (discovery_skips_nothing (ex_following "turn-1") ex_now ex_followed (ex_session "turn-1") None w'
              eq_refl ltac:(discriminate) eq_refl E) as (result & Hr & Hc & Hd).
  injection Hr as <-. split; [reflexivity|]. split; [exact Hc|].
  destruct (ThreadsFromList ex_listed) as [|t rest] eqn:El; [discriminate El|].
  assert (Ht : th_ID t = "t" /\ IsInternal t = false
               /\ is_Some (MatchExactCWD ex_platform (Some ex_registry) (th_CWD t))).
  { injection El as <- _. split; [reflexivity|]. split; [reflexivity|]. eexists. vm_compute. reflexivity. }
  destruct Ht as (H1 & H2 & H3). apply Forall_cons in Hd as [Hd _]. rewrite <- H1. exact (proj1 (Hd H2 H3)).
Defined.

(** ** Which threads are read *)

Lemma add_threads_cons keep t threads out : add_threads keep (t :: threads) out =
  add_threads keep threads (if bool_decide (th_ID t ∈ map th_ID out) then out
                            else if keep t then out ++ [t] else out).
Proof. reflexivity. Qed.

Lemma add_threads_ids keep threads : forall out id,
  id ∈ map th_ID (add_threads keep threads out)
  <-> id ∈ map th_ID out \/ exists t, t ∈ threads /\ th_ID t = id /\ keep t = true.
Proof.
  induction threads as [|t threads IH]; intros out id.
  - split; [by left|]. intros [H|(t & H & _)]; [done|by apply not_elem_of_nil in H].
  - rewrite add_threads_cons, IH. clear IH.
    assert (Hcons : forall P : Thread -> Prop, (exists x, x ∈ t :: threads /\ P x) <-> P t \/ exists x, x ∈ threads /\ P x).
    { intros P. split; [intros (x & Hx & Hp); apply elem_of_cons in Hx as [->|Hx]; [by left|right; by exists x]|].
      intros [Hp|(x & Hx & Hp)]; [exists t; split; [by left|done]|exists x; split; [by right|done]]. }
    rewrite Hcons. case_bool_decide as Hin; [split; [tauto|]; intros [H|[[<- _]|H]]; tauto|].
    destruct (keep t) eqn:Ek; [|split; [tauto|]; intros [H|[[_ H]|H]]; [tauto|done|tauto]].
    rewrite map_app, elem_of_app. cbn [map]. rewrite list_elem_of_singleton. split; [|].
    + intros [[H| ->]|H]; tauto.
    + intros [H|[[<- _]|H]]; tauto.
Qed.

Lemma add_threads_nodup keep threads : forall out,
  NoDup (map th_ID out) -> NoDup (map th_ID (add_threads keep threads out)).
Proof.
  induction threads as [|t threads IH]; intros out H; [done|].
  rewrite add_threads_cons. apply IH. case_bool_decide as Hin; [done|]. destruct (keep t); [|done].
  rewrite map_app. apply NoDup_app. split; [done|]. split; [|apply NoDup_singleton].
  intros x Hx Hx'. apply list_elem_of_singleton in Hx' as ->. done.
Qed.

(** A cycle of the minimal profile reads the stored threads that a chat is bound to or a
    panel shows, those whose observation is due, and of the recent ones those at work or
    behind, unless their observation asks for no read; none of these twice unless it
    is shown twice. *)
Theorem trackedThreads_spec `{GateCodec} sv now limit s :
  ob_Profile (sv_Observer sv) = "minimal" ->
  let shown := omap (fun id => GetThread id s) (ListBoundThreadIDs s ++ currentPanelThreadIDs s) in
  (forall id, id ∈ map th_ID (trackedThreads sv now limit s) <->
     id ∈ map th_ID shown
     \/ id ∈ map th_ID (ListMinimalObservedThreadsDue minimalObservedDueLimit s)
     \/ exists t, t ∈ ListThreads limit s /\ th_ID t = id
          /\ (fst (MinimalObservationReadRequired id s) = true -> snd (MinimalObservationReadRequired id s) = true)
          /\ (threadLooksActiveForPolling t = true
              \/ hasBackgroundTargets sv now s = true /\ threadNeedsCatchupPolling sv now t (GetSnapshot id s) s = true))
  /\ (NoDup (map th_ID shown) -> NoDup (map th_ID (trackedThreads sv now limit s))).
Proof.
  intros Hm shown. unfold trackedThreads. rewrite Hm. fold shown. change (String.eqb "minimal" "minimal") with true. cbv iota.
  split; [|intros H2; by apply add_threads_nodup, add_threads_nodup].
  intros id. rewrite !add_threads_ids, Logic.or_assoc. cbv beta.
  assert (Hdue : (exists t, t ∈ ListMinimalObservedThreadsDue minimalObservedDueLimit s /\ th_ID t = id /\ true = true)
                 <-> id ∈ map th_ID (ListMinimalObservedThreadsDue minimalObservedDueLimit s)).
  { rewrite list_elem_of_fmap. split; [intros (t & Ht & <- & _); by exists t|intros (t & -> & Ht); by exists t]. }
  rewrite Hdue. do 2 apply or_iff_compat_l.
  split; intros (t & Ht & <- & Hk); exists t; (split; [done|]); (split; [done|]);
    unfold track_recent in *; rewrite Hm in *; change (String.eqb "minimal" "minimal") with true in *;
    destruct (MinimalObservationReadRequired (th_ID t) s) as [[] []]; cbn in *;
    destruct (threadLooksActiveForPolling t), (hasBackgroundTargets sv now s),
      (threadNeedsCatchupPolling sv now t (GetSnapshot (th_ID t) s) s); cbn in *; naive_solver.
Qed.

(** The tool that a live notification showed at work never goes back: what is kept of a
    read is no earlier tool of the turn, unless it is the end of that tool. *)
Lemma live_tool_not_back current previous prev s :
  ss_CompactJSON previous = Some prev -> live_tool_goes_on current prev s = true ->
  let kept := preserveTelegramOriginLiveCurrentTool current (Some previous) s in
  let index n := latestToolDetailIndex (sn_DetailItems prev) (sn_LatestToolID n) (sn_LatestToolLabel n) in
  index_before (index kept) (index prev) = false
  \/ (sameToolSnapshot kept prev = true /\ terminalToolStatus (sn_LatestToolStatus kept) = true).
Proof.
  intros Hp Hl kept index. unfold kept, preserveTelegramOriginLiveCurrentTool. cbn [mbind option_bind]. rewrite Hp, Hl.
  cbn [andb]. unfold shouldPreserveTelegramOriginLiveCurrentTool. fold (index current) (index prev).
  assert (Hsame : index_before (index (with_tool_of prev current)) (index prev) = false).
  { unfold index, index_before, with_tool_of. cbn [sn_LatestToolID sn_LatestToolLabel].
    destruct (latestToolDetailIndex _ _ _) as [i|]; [apply Nat.ltb_irrefl|done]. }
  destruct (negb _); [by left|]. destruct (sameToolSnapshot current prev) eqn:Es.
  - destruct (terminalToolStatus _) eqn:Et; cbn [negb]; [by right|by left].
  - destruct (index_before (index current) (index prev)) eqn:Ei; by left.
Qed.

Lemma cycle_upto `{GateCodec} sv now w w' : RouterLaws (ob_Router (sv_Observer sv)) now -> pollCycle sv now w = Some w' ->
  runs_upto (ob_Router (sv_Observer sv))
    (length (trackedThreads sv now observerRecentThreadLimit (rw_Store (refreshObserverIndex sv now w)))) w w'.
Proof.
  intros HL E. apply (upto_trans sv 0 _ w (refreshObserverIndex sv now w)); [by apply refreshIndex_runs|].
  unfold pollCycle, pollTracked in E. destruct (connected_session _ _) as [poll|]; [|injection E as <-; apply upto_refl].
  by eapply poll_all_runs.
Qed.

(** A cycle of pollLoop is a run of the machine of the workers, whatever other callers are
    in flight; it starts at most one waiting command for each thread it reads. *)
Theorem cycle_runs_workers `{GateCodec} sv now w w' m nonce acquires closing finishing :
  let r := ob_Router (sv_Observer sv) in
  RouterLaws r now -> pollCycle sv now w = Some w' -> rw_Workers w = Some m ->
  worker_reachable nonce (mkSystem m acquires (rw_Made w) closing finishing (rw_Closed w)) ->
  (exists m', rw_Workers w' = Some m'
    /\ ((Z.of_nat (length (mg_Heap m')) + 1 < 2 ^ 64)%Z ->
        worker_reachable nonce (mkSystem m' acquires (rw_Made w') closing finishing (rw_Closed w'))))
  /\ exists l, rw_Turns w' = rw_Turns w ++ l /\ Forall (sandboxed r) l.*1
       /\ ((length (omap snd l) <=
              length (trackedThreads sv now observerRecentThreadLimit (rw_Store (refreshObserverIndex sv now w))))%nat
           \/ persist_fails r).
Proof.
  intros r HL E Hm Hr. pose proof (cycle_upto sv now w w' HL E) as HU.
  destruct HU as (n & [(l & Hl & Hn & Hs) HW] & Hle). split.
  - unfold workers_run in HW. rewrite Hm in HW. destruct (rw_Workers w') as [m'|]; [|done]. destruct HW as [_ HW].
    exists m'. split; [done|]. intros Hb. unfold worker_reachable in *. etrans; [exact Hr|].
    apply HW; [|done]. by eapply reachable_inv.
  - exists l. split; [done|]. split; [done|]. by rewrite Hn.
Qed.

Theorem cycle_runs_workers_witness :
  match @pollCycle ex_codec (ex_following "turn-1") ex_now ex_followed with
  | Some w' => map l_State (db_linked (rw_Store w')) = [MinimalLinkedReady] /\ length (db_queue (rw_Store w')) = 2
      /\ exists m', rw_Workers w' = Some m' /\ worker_reachable "n" (mkSystem m' [] (rw_Made w') [] [] (rw_Closed w'))
  | None => False
  end.
Proof.
  assert (H : match @pollCycle ex_codec (ex_following "turn-1") ex_now ex_followed with
              | Some w' => map l_State (db_linked (rw_Store w')) = [MinimalLinkedReady] /\ length (db_queue (rw_Store w')) = 2
                  /\ option_map (fun m => length (mg_Heap m)) (rw_Workers w') = Some 1%nat
              | None => False end) by (vm_compute; repeat split).
  destruct (@pollCycle ex_codec (ex_following "turn-1") ex_now ex_followed) as [w'|] eqn:E; [|exact H].
  destruct H as (H1 & H2 & H3). split; [exact H1|]. split; [exact H2|].
  destruct (@cycle_runs_workers ex_codec (ex_following "turn-1") ex_now ex_followed w' ex_first "n" [] [] []
              (newMinimalRouter_laws _ _ _ _ _ _ _) E eq_refl ex_first_reachable) as [(m' & Hm & Hr) _].
  exists m'. split; [exact Hm|]. apply Hr. rewrite Hm in H3. injection H3 as ->. reflexivity.
Defined.

Theorem trackedThreads_spec_witness :
  "t" ∈ map th_ID (@trackedThreads ex_codec (ex_following "turn-1") ex_now 50 (rw_Store ex_second_turn)).
Proof.
  destruct (@trackedThreads_spec ex_codec (ex_following "turn-1") ex_now 50 (rw_Store ex_second_turn) eq_refl) as [H _].
  apply H. right. left.
  assert (E : map th_ID (ListMinimalObservedThreadsDue minimalObservedDueLimit (rw_Store ex_second_turn)) = ["t"])
    by (vm_compute; reflexivity).
  rewrite E. left.
Defined.
