(* ===== verification/Catalog.v ===== *)
(** * internal/daemon/minimal_thread_catalog.go, minimal_thread_picker.go: choosing a thread

    Under the minimal profile a chat selects a project and, from the pages of its threads,
    the conversation to go on with.  Every button is a row of the picker table that is
    consumed when it is pressed.  The functions run in [W]: they act on a [RouterWorld],
    may fail, and None is a list of App Server that does not end within the pages given. *)
From stdpp Require Import base list numbers strings gmap.
From Stdlib Require Import Lia Ascii.
From S2P Require Import Prelude GoStrings GoTime Utf8 Sql Json Model Normalize NotifierFormat MinimalTables CoreTables Store Daemon NotifierObserver NotifierIngress.
From S2P Require Import Threads Panels TerminalGate LinkedThread Observations Projects ApprovalHandlers Routing Starts Router Terminal LiveTools Polling.

(** *** Functions that may fail *)
Definition W (A : Type) : Type := RouterWorld -> option ((A + start_error) * RouterWorld).

Definition w_ret {A : Type} (a : A) : W A := fun w => Some (inl a, w).
Definition w_fail {A : Type} (e : start_error) : W A := fun w => Some (inr e, w).
Definition w_bind {A B : Type} (m : W A) (k : A -> W B) : W B :=
  fun w => match m w with
           | Some (inl a, w1) => k a w1
           | Some (inr e, w1) => Some (inr e, w1)
           | None => None
           end.

Notation "'w!' x ':=' m 'in' k" := (w_bind m (fun x => k))
  (at level 10, x pattern, m at level 100, k at level 200) : bridge_scope.

Definition w_tx {A : Type} (m : Tx Store A) : W A := fun w => Some (tx m w).
Definition w_gets {A : Type} (f : Store -> A) : W A := fun w => Some (inl (f (rw_Store w)), w).
Definition w_reads {A : Type} (f : Store -> res A) : W A :=
  fun w => Some (match f (rw_Store w) with Ok a => inl a | Err e => inr (Plain e) end, w).
Definition w_modify (f : Store -> Store) : W unit := fun w => Some (inl tt, on_store f w).
Definition w_lift {A : Type} (a : A + start_error) : W A := fun w => Some (a, w).
Definition w_call {A : Type} (f : nat -> A) : W A := fun w => Some (inl (f (rw_Calls w)), called w).

Fixpoint w_map {A B : Type} (f : A -> W B) (l : list A) : W (list B) :=
  match l with
  | [] => w_ret []
  | x :: rest => w! y := f x in w! ys := w_map f rest in w_ret (y :: ys)
  end.

(** *** What the picker reads of the service besides *)
Record PickerService : Type := mkPickerService {
  ps_Service : Service;
  ps_Token : nat -> string;                                            (* randomToken *)
  ps_Edit : option (nat -> Z -> Z -> Z -> DirectResponse -> bool);     (* sender.EditMessage: no error *)
  ps_PickJSON : string -> string -> string;        (* {"action": ..., "project_id": ...} *)
  ps_PickParse : string -> option (string * string);
  ps_Pages : nat }.                                                    (* the pages followed *)

Definition minimalExistingPageSize : Z := 8.
Definition minimalProjectsAction : string := "minimal_projects".
Definition minimalProjectPickAction : string := "minimal_project_pick".
Definition minimalProjectNewAction : string := "minimal_project_new".
Definition minimalExistingOpenAction : string := "minimal_existing_open".
Definition minimalExistingPageAction : string := "minimal_existing_page".
Definition minimalExistingBackAction : string := "minimal_existing_back".
Definition minimalExistingSelectAction : string := "minimal_existing_select".
Definition minimalCallbackTTL : Z := 600 * second.

Definition callbackResponse (text callbackText : string) : DirectResponse :=
  mkDirectResponse text callbackText [] "" "" "" "" 0.
Definition buttonsResponse (text : string) (buttons : list (list ButtonSpec)) : DirectResponse :=
  mkDirectResponse text "" buttons "" "" "" "" 0.
Definition set_dr_CallbackText (v : string) (d : DirectResponse) : DirectResponse :=
  mkDirectResponse (dr_Text d) v (dr_Buttons d) (dr_ThreadID d) (dr_TurnID d) (dr_ItemID d) (dr_EventID d)
    (dr_VoiceConfirmationID d).
Definition set_dr_Text (v : string) (d : DirectResponse) : DirectResponse :=
  mkDirectResponse v (dr_CallbackText d) (dr_Buttons d) (dr_ThreadID d) (dr_TurnID d) (dr_ItemID d) (dr_EventID d)
    (dr_VoiceConfirmationID d).

Definition unregisteredProject : DirectResponse :=
  callbackResponse "등록되지 않은 작업폴더입니다. /start를 다시 보내주세요." "등록되지 않은 작업폴더입니다.".
Definition expiredButton : DirectResponse :=
  callbackResponse "이 버튼은 만료되었습니다. /start를 다시 보내주세요." "만료된 버튼입니다.".
Definition invalidButton : DirectResponse :=
  callbackResponse "이 버튼은 유효하지 않습니다. /start를 다시 보내주세요." "유효하지 않은 버튼입니다.".
Definition minimalPickerStaleProjectResponse : DirectResponse := expiredButton.
Definition minimalExistingRetryResponse : DirectResponse :=
  callbackResponse "이 대화를 열 수 없습니다. 목록을 새로고침한 뒤 다시 선택해 주세요." "다시 시도해 주세요.".

(** *** The order of threads *)
Definition minimal_thread_le (a b : Thread) : bool :=
  if negb (Bool.eqb (threadLooksActiveForPolling a) (threadLooksActiveForPolling b)) then threadLooksActiveForPolling a
  else if negb (th_UpdatedAt a =? th_UpdatedAt b)%Z then (th_UpdatedAt b <? th_UpdatedAt a)%Z
  else text_le (th_ID a) (th_ID b).

Definition sortMinimalThreads (threads : list Thread) : list Thread := sort_by minimal_thread_le threads.

Definition minimalThreadRowLabel (thread : Thread) : string :=
  let label := trim_space (th_Title thread) in
  boundRunes (if String.eqb label "" then ShortID thread else label) 64.

Definition isPaginatedThreadReadUnsupported (e : fault) : bool :=
  contains (fault_text e) "paginated_threads is not supported yet".

Definition minimalExistingThreadSummary (project : Project) (thread : Thread) (snapshot : ThreadReadSnapshot) : string :=
  let first values := default "" (first_some (fun v => if String.eqb v "" then None else Some v) values) in
  let title0 := cleanMinimalDisplayText (th_Title thread) in
  let title := if String.eqb title0 "" || String.eqb title0 (th_ID thread) then ShortID thread else title0 in
  let state := first [cleanMinimalDisplayText (sn_LatestTurnStatus snapshot); cleanMinimalDisplayText (th_Status thread); "idle"] in
  let summary := first [trim_space (sn_LatestFinalText snapshot); last_message (sn_LatestAgentMessages snapshot);
                        "표시할 최근 요약이 없습니다."] in
  join newline ["작업폴더: " +:+ pj_DisplayName project; "대화: " +:+ title; "상태: " +:+ state; ""; "최근 요약";
                boundRunes (cleanMinimalDisplayText summary) 900].

Definition minimalExistingRetryPageResponse (response : DirectResponse) : DirectResponse :=
  let retry := dr_Text minimalExistingRetryResponse in
  if String.eqb (trim_space (dr_Text response)) "" then set_dr_Text retry response
  else if negb (contains (dr_Text response) retry)
  then set_dr_Text (retry +:+ newline +:+ newline +:+ dr_Text response) response else response.

(** The page that is shown for [page], and whether others follow it; [threads] is not empty. *)
Definition page_of (page : Z) (threads : list Thread) : Z * list Thread * bool :=
  let n := Z.of_nat (length threads) in
  let page' := if (n <=? page * minimalExistingPageSize)%Z then ((n - 1) / minimalExistingPageSize)%Z else page in
  let start := (page' * minimalExistingPageSize)%Z in
  let stop := Z.min (start + minimalExistingPageSize) n in
  (page', take (Z.to_nat (stop - start)) (drop (Z.to_nat start) threads), (stop <? n)%Z).

Record minimalThreadPage : Type := mkThreadPage {
  mp_Threads : list Thread;
  mp_NextCursor : string }.

Record minimalExistingThreadRead : Type := mkExistingRead {
  er_thread : Thread;
  er_snapshot : ThreadReadSnapshot;
  er_payload : obj }.

Section picker.
Context `{GateCodec} (pk : PickerService) (now : instant).

Local Abbreviation sv := (ps_Service pk).
Local Abbreviation o := (sv_Observer sv).
Local Abbreviation r := (ob_Router o).
Local Abbreviation clock := (format_time now).

Definition randomToken : W string := w_call (ps_Token pk).

Definition registered_project (projectID : string) : option Project :=
  match Resolve (ro_Platform r) (ro_Registry r) projectID with inl p => Some p | inr _ => None end.

Definition exact_project (cwd : string) : option Project := MatchExactCWD (ro_Platform r) (ro_Registry r) cwd.

(** *** The catalog *)
Definition minimalCatalogSession : W ServiceSession :=
  match connected_session (sv_LiveConnected sv) (sv_Live sv) with
  | Some live => w_ret live
  | None => match connected_session (sv_PollConnected sv) (sv_Poll sv) with
            | Some poll => w_ret poll
            | None => w_fail (Plain "app-server session is not ready")
            end
  end.

(** The threads of the project among those listed, as the project has them. *)
Definition project_threads (project : Project) (listed : list Thread) : list Thread :=
  omap (fun thread =>
    if IsInternal thread then None
    else match exact_project (th_CWD thread) with
         | Some matched => if String.eqb (pj_ID matched) (pj_ID project)
             then Some (set_th_ProjectName (pj_DisplayName matched) (set_th_CWD (pj_CanonicalPath matched) thread)) else None
         | None => None
         end) listed.

Definition minimalProjectThreads (session : ServiceSession) (project : Project) (cursor : string) : W minimalThreadPage :=
  w! answer := w_call (fun call => se_ThreadList session call minimalThreadCatalogLimit (trim_space cursor)) in
  match answer with
  | Fault e => w_fail (start_of_fault e)
  | Done result => w_ret (mkThreadPage (sortMinimalThreads (project_threads project (ThreadsFromList result)))
                            (minimalListNextCursor result))
  end.

Fixpoint listProjectThreads (pages : nat) (session : ServiceSession) (project : Project) (cursor : string)
    (seenCursors : list string) (threads : list Thread) : W (list Thread) :=
  match pages with
  | O => fun _ => None
  | S pages =>
      w! page := minimalProjectThreads session project cursor in
      let threads := threads ++ mp_Threads page in
      let next := mp_NextCursor page in
      if String.eqb next "" then w_ret (sortMinimalThreads threads)
      else if bool_decide (next ∈ seenCursors) then w_fail (Plain "app-server thread list returned a repeated cursor")
      else listProjectThreads pages session project next (next :: seenCursors) threads
  end.

Definition minimalAllProjectThreads (session : ServiceSession) (project : Project) : W (list Thread) :=
  listProjectThreads (ps_Pages pk) session project "" [] [].

(** *** Buttons *)
Definition minimalPickerButton (chatID topicID : Z) (label action projectID threadID : string) (page : Z) : W ButtonSpec :=
  w! token := randomToken in
  w! _ := w_tx (CreateMinimalPickerRoutes clock
            [mkPickerRoute token action projectID threadID page chatID topicID CallbackStatusActive
               (format_time (now + minimalCallbackTTL)%Z)]) in
  w_ret (mkButtonSpec label token).

Definition clearMinimalBindingOutsideProject (chatID topicID : Z) (projectID : string) : W unit :=
  w! binding := w_gets (GetBinding chatID topicID) in
  match binding with
  | None => w_ret tt
  | Some b =>
      w! thread := w_gets (GetThread (tb_ThreadID b)) in
      if match thread with
         | Some t => match exact_project (th_CWD t) with Some p => String.eqb (pj_ID p) projectID | None => false end
         | None => false
         end then w_ret tt
      else w_tx (ClearBinding chatID topicID)
  end.

Definition minimalProjectActions (chatID topicID : Z) (project : Project) : W DirectResponse :=
  w! _ := clearMinimalBindingOutsideProject chatID topicID (pj_ID project) in
  w! newButton := minimalPickerButton chatID topicID "새 작업 시작" minimalProjectNewAction (pj_ID project) "" 0 in
  w! openButton := minimalPickerButton chatID topicID "기존 대화 열기" minimalExistingOpenAction (pj_ID project) "" 0 in
  w_ret (buttonsResponse ("작업폴더: " +:+ pj_DisplayName project +:+ newline +:+ "[새 작업 시작] [기존 대화 열기]")
           [[newButton; openButton]]).

Definition emptyCatalog (chatID topicID : Z) (project : Project) : W DirectResponse :=
  w! retry := minimalPickerButton chatID topicID "다시 시도" minimalExistingOpenAction (pj_ID project) "" 0 in
  w! back := minimalPickerButton chatID topicID "뒤로" minimalExistingBackAction (pj_ID project) "" 0 in
  w_ret (buttonsResponse "열 수 있는 기존 대화가 없습니다. 잠시 후 다시 시도하거나 뒤로 가세요." [[retry; back]]).

(** The button of a thread, and a button that is only there under a condition. *)
Definition threadButton (chatID topicID : Z) (project : Project) (page : Z) (thread : Thread) : W ButtonSpec :=
  minimalPickerButton chatID topicID (minimalThreadRowLabel thread) minimalExistingSelectAction (pj_ID project)
    (th_ID thread) page.

Definition button_if (b : bool) (button : W ButtonSpec) : W (list ButtonSpec) :=
  if b then w! spec := button in w_ret [spec] else w_ret [].

Definition showThreadPage (chatID topicID : Z) (project : Project) (page0 : Z) (threads : list Thread) : W DirectResponse :=
  let '(page, shown, more) := page_of page0 threads in
  w! rows := w_map (threadButton chatID topicID project page) shown in
  w! previous := button_if (0 <? page)%Z
       (minimalPickerButton chatID topicID "이전" minimalExistingPageAction (pj_ID project) "" (page - 1)) in
  w! next := button_if more
       (minimalPickerButton chatID topicID "다음" minimalExistingPageAction (pj_ID project) "" (page + 1)) in
  w! back := minimalPickerButton chatID topicID "뒤로" minimalExistingBackAction (pj_ID project) "" 0 in
  w_ret (buttonsResponse
    ("작업폴더: " +:+ pj_DisplayName project +:+ newline +:+ "기존 대화를 선택하세요. (" +:+ format_int (page + 1) +:+ "/"
       +:+ format_int ((Z.of_nat (length threads) + minimalExistingPageSize - 1) / minimalExistingPageSize) +:+ ")")
    (map (fun b => [b]) rows ++ [previous ++ next ++ [back]])).

Definition minimalExistingThreadPage (chatID topicID : Z) (projectID : string) (page0 : Z) : W DirectResponse :=
  let page := Z.max 0 page0 in
  match registered_project projectID with
  | None => w_ret unregisteredProject
  | Some project =>
      w! session := minimalCatalogSession in
      w! threads := minimalAllProjectThreads session project in
      if bool_decide (threads = []) then emptyCatalog chatID topicID project
      else showThreadPage chatID topicID project page threads
  end.

(** *** Selecting a thread *)
Definition minimalPickerRouteMatchesCurrentProject (chatID topicID : Z) (route : MinimalPickerRoute) (s : Store) : bool :=
  negb (project_bound_action (pi_Action route))
  || String.eqb (trim_space (GetSelectedProject chatID topicID s)) (trim_space (pi_ProjectID route)).

(** The thread as the project has it, with the turn and the status that the read shows. *)
Definition existing_thread (project : Project) (snapshot : ThreadReadSnapshot) : Thread :=
  let thread0 := set_th_ProjectName (pj_DisplayName project) (set_th_CWD (pj_CanonicalPath project) (sn_Thread snapshot)) in
  let thread := if String.eqb (sn_LatestTurnStatus snapshot) "" then thread0
                else set_th_Status (canonicalMinimalTerminalStatus (sn_LatestTurnStatus snapshot)) thread0 in
  if isTerminalStatus (th_Status thread) then set_th_ActiveTurnID "" thread
  else if String.eqb (sn_LatestTurnID snapshot) "" then thread
  else set_th_ActiveTurnID (sn_LatestTurnID snapshot) thread.

Definition readMinimalExistingThread (session : ServiceSession) (project : Project) (threadID0 : string)
  : W (option minimalExistingThreadRead) :=
  let threadID := trim_space threadID0 in
  if String.eqb threadID "" then w_ret None
  else
    w! first := w_call (fun call => se_ThreadRead session call threadID true) in
    w! answer := match first with
                 | Fault e => if isPaginatedThreadReadUnsupported e
                              then w_call (fun call => se_ThreadRead session call threadID false) else w_ret first
                 | Done _ => w_ret first
                 end in
    match answer with
    | Fault e => w_fail (start_of_fault e)
    | Done payload =>
        let snapshot := readSnapshot payload in
        let thread := sn_Thread snapshot in
        if bool_decide (payload = []) || is_blank (th_ID thread) || negb (String.eqb (th_ID thread) threadID) then w_ret None
        else if match exact_project (th_CWD thread) with Some matched => String.eqb (pj_ID matched) (pj_ID project) | None => false end
        then w_ret (Some (mkExistingRead (existing_thread project snapshot) snapshot payload))
        else w_ret None
    end.

Definition persistMinimalExistingThreadBinding (chatID topicID : Z) (project : Project) (thread : Thread)
    (snapshot : ThreadReadSnapshot) : W unit :=
  w! _ := w_tx (persistServiceThread o now thread) in
  w! _ := w_tx (SetSelectedProject clock chatID topicID (pj_ID project)) in
  w! _ := w_tx (SetBinding clock chatID topicID (th_ID thread) BindingModeBound) in
  let observed0 := if String.eqb (sn_LatestTurnID snapshot) "" then thread else set_th_ActiveTurnID (sn_LatestTurnID snapshot) thread in
  let observed := if String.eqb (sn_LatestTurnStatus snapshot) "" then observed0
                  else set_th_Status (canonicalMinimalTerminalStatus (sn_LatestTurnStatus snapshot)) observed0 in
  w_tx (ObserveMinimalThread now observed (pj_ID project) now).

(** The answer, and whether the selection is stale. *)
Definition selectMinimalExistingThreadResult (chatID topicID : Z) (route : MinimalPickerRoute) : W (DirectResponse * bool) :=
  if negb (String.eqb (pi_Action route) minimalExistingSelectAction) || is_blank (pi_ThreadID route)
  then w_ret (minimalExistingRetryResponse, true)
  else
    match registered_project (pi_ProjectID route) with
    | None => w_ret (unregisteredProject, false)
    | Some project =>
        w! session := minimalCatalogSession in
        fun w =>
          match readMinimalExistingThread session project (pi_ThreadID route) w with
          | None => None
          | Some (inr _, w1) | Some (inl None, w1) => w_ret (minimalExistingRetryResponse, true) w1
          | Some (inl (Some read), w1) =>
              (w! _ := w_modify (markPCOriginThreadFromPayload now (th_ID (er_thread read)) (er_payload read)) in
               w! _ := persistMinimalExistingThreadBinding chatID topicID project (er_thread read) (er_snapshot read) in
               w_ret (mkDirectResponse (minimalExistingThreadSummary project (er_thread read) (er_snapshot read))
                        "기존 대화를 열었습니다." [] (th_ID (er_thread read)) (sn_LatestTurnID (er_snapshot read)) "" "" 0,
                      false)) w1
          end
    end.

(** *** Answers and presses *)
Definition editOrSendMinimalResponse (chatID topicID messageID : Z) (callbackText : string) (renderer : W DirectResponse)
  : W DirectResponse :=
  w! response0 := renderer in
  let response := set_dr_CallbackText callbackText response0 in
  match ps_Edit pk with
  | Some edit =>
      if negb (messageID =? 0)%Z && negb (is_blank (dr_Text response)) then
        w! edited := w_call (fun call => edit call chatID topicID messageID response) in
        w_ret (if edited : bool then callbackResponse "" callbackText else response)
      else w_ret response
  | None => w_ret response
  end.

Definition refreshMinimalExistingThreadPageAfterStaleSelection (chatID topicID messageID : Z) (route : MinimalPickerRoute)
    (staleResponse : DirectResponse) : W DirectResponse :=
  let callbackText := if is_blank (dr_CallbackText staleResponse) then "다시 시도해 주세요." else dr_CallbackText staleResponse in
  editOrSendMinimalResponse chatID topicID messageID callbackText
    (w! response := minimalExistingThreadPage chatID topicID (pi_ProjectID route) (pi_Page route) in
     w_ret (minimalExistingRetryPageResponse response)).

(** What a press does that belongs to the selected project of the chat. *)
Definition pressCurrent (chatID topicID messageID : Z) (route : MinimalPickerRoute) (project : Project) : W DirectResponse :=
  if existsb (String.eqb (pi_Action route)) [minimalExistingOpenAction; minimalExistingPageAction] then
    editOrSendMinimalResponse chatID topicID messageID "기존 대화 목록입니다."
      (minimalExistingThreadPage chatID topicID (pj_ID project) (pi_Page route))
  else if String.eqb (pi_Action route) minimalExistingBackAction then
    editOrSendMinimalResponse chatID topicID messageID "작업폴더 메뉴입니다." (minimalProjectActions chatID topicID project)
  else
    w! answer := selectMinimalExistingThreadResult chatID topicID route in
    if answer.2 then refreshMinimalExistingThreadPageAfterStaleSelection chatID topicID messageID route answer.1
    else w_ret answer.1.

Definition handleMinimalPickerRoute (chatID topicID messageID : Z) (route : option MinimalPickerRoute) : W DirectResponse :=
  match route with
  | None => w_ret expiredButton
  | Some route =>
      match registered_project (pi_ProjectID route) with
      | None => w_ret unregisteredProject
      | Some project =>
          if String.eqb (pi_Action route) minimalProjectNewAction then
            w! _ := w_tx (SetSelectedProject clock chatID topicID (pj_ID project)) in
            w! _ := w_tx (ClearBinding chatID topicID) in
            editOrSendMinimalResponse chatID topicID messageID "새 작업을 시작합니다."
              (w_ret (textResponse ("작업폴더: " +:+ pj_DisplayName project +:+ newline +:+ "자연어로 작업을 보내세요.")))
          else if project_bound_action (pi_Action route) then
            w! current := w_gets (minimalPickerRouteMatchesCurrentProject chatID topicID route) in
            if current : bool then pressCurrent chatID topicID messageID route project
            else w_ret minimalPickerStaleProjectResponse
          else w_ret invalidButton
      end
  end.

(** *** The thread that a chat goes on with *)
Definition minimalLinkedChildForBinding (chatID topicID : Z) (project : Project) (boundThreadID0 : string)
  : W (option MinimalLinkedThread) :=
  let boundThreadID := trim_space boundThreadID0 in
  if String.eqb boundThreadID "" then w_ret None
  else
    w! link := w_reads (GetMinimalLinkedThreadByLinkedID (ro_Protector r) boundThreadID) in
    match link with
    | None => w_ret None
    | Some l =>
        if negb (lt_ChatID l =? chatID)%Z || negb (lt_TopicID l =? topicID)%Z
           || negb (String.eqb (trim_space (lt_ProjectID l)) (pj_ID project))
        then w_fail (Plain "canonical linked binding belongs to another chat or project")
        else if is_blank (lt_LinkedThreadID l) then w_fail (Plain "canonical linked Codex thread is unavailable")
        else w_ret (Some l)
    end.

(** The rest of minimalBoundThreadForProject, once the bound thread is read. *)
Definition boundThread (chatID topicID : Z) (boundID : string) (linked : bool) (read : option minimalExistingThreadRead)
  : W (option Thread) :=
  w! existing := w_gets (GetThread boundID) in
  match read, existing with
  | None, _ =>
      if linked then w_fail (Plain "canonical linked Codex thread is unavailable")
      else w! _ := w_tx (ClearBinding chatID topicID) in w_ret None
  | Some read, Some stored =>
      if staleMinimalTerminalRefresh stored (er_snapshot read) then w_ret (Some stored)
      else w! _ := w_tx (persistServiceThread o now (er_thread read)) in w_ret (Some (er_thread read))
  | Some read, None => w! _ := w_tx (persistServiceThread o now (er_thread read)) in w_ret (Some (er_thread read))
  end.

Definition minimalBoundThreadForProject (chatID topicID : Z) (projectID0 : string) : W (option Thread) :=
  let projectID := trim_space projectID0 in
  if String.eqb projectID "" then w_ret None
  else
    w! selected := w_gets (GetSelectedProject chatID topicID) in
    if negb (String.eqb (trim_space selected) projectID) then w_ret None
    else
      w! project := w_lift (resolveProject r projectID) in
      w! binding := w_gets (GetBinding chatID topicID) in
      match binding with
      | None => w_ret None
      | Some b =>
          if is_blank (tb_ThreadID b) then w_ret None
          else
            w! session := minimalCatalogSession in
            w! linked := minimalLinkedChildForBinding chatID topicID project (tb_ThreadID b) in
            w! read := readMinimalExistingThread session project (tb_ThreadID b) in
            boundThread chatID topicID (tb_ThreadID b) (bool_decide (is_Some linked)) read
      end.

(** *** The projects, minimal_ingress.go *)
Definition minimalCallbackButton (label action projectID : string) : W ButtonSpec :=
  w! token := randomToken in
  w! _ := w_tx (PutCallbackRoute (ro_Protector r)
            (mkCallbackRoute token action "" "" "" "" 0 CallbackStatusActive (format_time (now + minimalCallbackTTL)%Z)
               (ps_PickJSON pk action (trim_space projectID)) clock)) in
  w_ret (mkButtonSpec label token).

Definition minimalProjectPicker : W DirectResponse :=
  w! buttons := w_map (fun project => minimalCallbackButton (pj_DisplayName project) minimalProjectPickAction (pj_ID project))
                  (Projects (ro_Registry r)) in
  w_ret (buttonsResponse "작업폴더를 선택하세요." (map (fun b => [b]) buttons)).

Definition minimalProjectByID (projectID0 : string) : option Project :=
  let projectID := trim_space projectID0 in
  find_first (fun p => String.eqb (pj_ID p) projectID) (Projects (ro_Registry r)).

Definition minimalCallbackExpired (route : CallbackRoute) : bool :=
  negb (String.eqb (cr_Status route) CallbackStatusActive) || is_blank (cr_ExpiresAt route)
  || match parse_rfc3339 (cr_ExpiresAt route) with Some expiresAt => (expiresAt <=? now)%Z | None => true end.

(** None is no answer: the action is not one of the minimal profile. *)
Definition handleMinimalCallback (chatID topicID messageID : Z) (route : CallbackRoute) : W (option DirectResponse) :=
  let expire := w_modify (run_ignored (ExpireCallbackRoute (cr_Token route))) in
  if minimalCallbackExpired route then w! _ := expire in w_ret (Some expiredButton)
  else
    match ps_PickParse pk (cr_PayloadJSON route) with
    | None => w_ret (Some invalidButton)
    | Some (action, projectID) =>
        if negb (String.eqb action (cr_Action route)) then w_ret (Some invalidButton)
        else if String.eqb (cr_Action route) minimalProjectsAction then
          w! _ := expire in
          w! answer := editOrSendMinimalResponse chatID topicID messageID "작업폴더를 선택하세요." minimalProjectPicker in
          w_ret (Some answer)
        else if String.eqb (cr_Action route) minimalProjectPickAction then
          match minimalProjectByID projectID with
          | None => w_ret (Some unregisteredProject)
          | Some project =>
              w! _ := w_tx (SetSelectedProject clock chatID topicID (pj_ID project)) in
              w! _ := expire in
              w! answer := editOrSendMinimalResponse chatID topicID messageID "작업폴더를 선택했습니다."
                             (minimalProjectActions chatID topicID project) in
              w_ret (Some answer)
          end
        else w_ret None
    end.

End picker.
