(* ===== verification/CatalogSafety.v ===== *)
(** * Choosing a thread: the pages and their buttons

    Listing the threads of a project returns; the pages show each of them once; the button
    of a thread, pressed, is the one that selects it. *)
From stdpp Require Import base list numbers strings gmap.
From Stdlib Require Import Lia Ascii.
From S2P Require Import Prelude GoStrings GoTime Utf8 Sql Json Model Normalize NotifierFormat MinimalTables CoreTables Store Daemon NotifierObserver NotifierIngress.
From S2P Require Import Threads Panels TerminalGate LinkedThread Observations Projects ApprovalHandlers Routing Starts Router Drain Terminal TerminalReport TerminalRelease LiveTools Polling Catalog.

(** Every list of App Server ends or goes on at one of the cursors. *)
Definition cursors_within (session : ServiceSession) (cursors : list string) : Prop :=
  forall call cursor result, se_ThreadList session call minimalThreadCatalogLimit cursor = Done result ->
    minimalListNextCursor result = "" \/ minimalListNextCursor result ∈ cursors.

(** The threads of the pages, one page after the other. *)
Definition shown_on (page : Z) (threads : list Thread) : list Thread := (page_of page threads).1.2.

Definition page_count (threads : list Thread) : nat :=
  Z.to_nat ((Z.of_nat (length threads) + minimalExistingPageSize - 1) / minimalExistingPageSize).

(** Buttons are added, and nothing else of the choice changes. *)
Record adds (s s' : Store) : Prop := {
  ad_rows : exists rows, mt_picker (db_minimal s') = mt_picker (db_minimal s) ++ rows;
  ad_selected : mt_selected (db_minimal s') = mt_selected (db_minimal s);
  ad_tokens : NoDup (tokens s) -> NoDup (tokens s') }.

(** A call that answers leaves the store, or adds buttons to it. *)
Definition w_adds {A : Type} (P : A -> Store -> Prop) (m : W A) : Prop :=
  forall w a w', m w = Some (inl a, w') -> adds (rw_Store w) (rw_Store w') /\ P a (rw_Store w').

(** The row of a button. *)
Definition row_of (now : instant) (chatID topicID : Z) (action projectID threadID : string) (page : Z) (b : ButtonSpec)
  : PickerRow :=
  mkPickerRow (trim_space (bs_CallbackData b)) (trim_space action) (trim_space projectID) (nullable (trim_space threadID))
    page chatID topicID CallbackStatusActive (format_time (now + minimalCallbackTTL)%Z) (format_time now).

(** A chat with the project Alpha, whose threads App Server lists on two pages. *)
Definition ex_listed_thread (id title : string) : any :=
  JObj [("id", JStr id); ("name", JStr title); ("cwd", JStr "/work/alpha"); ("updatedAt", JInt 100)].

Definition ex_paged : ServiceSession :=
  mkServiceSession (fun _ _ _ => Done [])
    (fun _ _ cursor => Done (if String.eqb cursor "" then
        [("data", JArr [ex_listed_thread "t2" "second"]); ("nextCursor", JStr "next")]
      else [("data", JArr [ex_listed_thread "t1" "first"])])).

Definition ex_catalog : PickerService :=
  mkPickerService (mkService ex_observer ex_service (Some ex_paged) true None false 0)
    (fun n => "token-" +:+ format_int (Z.of_nat n)) None (fun _ _ => "") (fun _ => None) 3.

Definition ex_catalog_world : RouterWorld :=
  mkRouterWorld (run_ignored (SetSelectedProject "" 7 0 "Alpha") emptyStore) None 0 [] 0 [] [].

Definition ex_two : list Thread := [set_th_ID "t1" zeroThread; set_th_ID "t2" zeroThread].

(** ** Runs *)

Lemma run_gets {A B} (f : Store -> A) (k : A -> W B) w : w_bind (w_gets f) k w = k (f (rw_Store w)) w.
Proof. done. Qed.

Lemma run_ret {A B} (a : A) (k : A -> W B) w : w_bind (w_ret a) k w = k a w.
Proof. done. Qed.

Lemma run_reads {A B} (f : Store -> res A) (k : A -> W B) w a : f (rw_Store w) = Ok a -> w_bind (w_reads f) k w = k a w.
Proof. intros E. unfold w_bind, w_reads. by rewrite E. Qed.

Lemma run_call {A B} (f : nat -> A) (k : A -> W B) w : w_bind (w_call f) k w = k (f (rw_Calls w)) (called w).
Proof. done. Qed.

Lemma run_bind {A B C} (m : W A) (f : A -> W B) (k : B -> W C) w :
  w_bind (w_bind m f) k w = w_bind m (fun a => w_bind (f a) k) w.
Proof. unfold w_bind. by destruct (m w) as [[[a|e] w1]|]. Qed.

(** ** Listing *)

Section listing.
Context (pk : PickerService) (session : ServiceSession) (project : Project) (cursors : list string).
Context (Hcursors : cursors_within session cursors).

Lemma listing_returns pages : forall cursor seen threads w,
  NoDup seen -> seen ⊆ cursors -> (length cursors - length seen < pages)%nat ->
  is_Some (listProjectThreads pk pages session project cursor seen threads w).
Proof using Hcursors.
  induction pages as [|pages IH]; intros cursor seen threads w Hnd Hsub Hle; [lia|]. cbn [listProjectThreads].
  unfold w_bind at 1. unfold minimalProjectThreads. unfold w_bind at 1, w_call at 1.
  destruct (se_ThreadList _ _ _ _) as [result|e] eqn:E; [|by eexists]. cbn [w_ret mp_NextCursor].
  destruct (Hcursors _ _ _ E) as [->|Hin]; [by eexists|].
  destruct (String.eqb _ ""); [by eexists|]. case_bool_decide as Hseen; [by eexists|]. apply IH.
  - by constructor.
  - intros x [->|Hx]%elem_of_cons; [done|by apply Hsub].
  - assert (length (minimalListNextCursor result :: seen) <= length cursors)%nat.
    { apply submseteq_length, NoDup_submseteq; [by constructor|]. intros x [->|Hx]%elem_of_cons; [done|by apply Hsub]. }
    cbn [length] in *. lia.
Qed.
End listing.

(** ** Pages *)

Lemma page_start page threads : (0 <= page < Z.of_nat (page_count threads))%Z ->
  page_of page threads
  = (page, take 8 (drop (Z.to_nat page * 8) threads), (page + 1 <? Z.of_nat (page_count threads))%Z).
Proof.
  unfold page_of, page_count, minimalExistingPageSize. set (n := Z.of_nat (length threads)). intros Hp.
  assert (Hn : (0 <= n)%Z) by lia. rewrite Z2Nat.id in * by (apply Z.div_pos; lia).
  assert (Hle : (page * 8 < n)%Z) by (pose proof (Z.mul_div_le (n + 8 - 1) 8 ltac:(lia)); lia).
  destruct (Z.leb_spec n (page * 8)); [lia|]. replace (Z.to_nat (page * 8)) with (Z.to_nat page * 8)%nat by lia.
  set (rest := drop (Z.to_nat page * 8) threads).
  assert (Hrest : length rest = Z.to_nat (n - page * 8)) by (unfold rest; rewrite length_drop; lia).
  f_equal; [f_equal|].
  - destruct (Z.le_gt_cases n (page * 8 + 8)).
    + rewrite Z.min_r by lia. rewrite !take_ge; [done|lia..].
    + rewrite Z.min_l by lia. f_equal. lia.
  - pose proof (Z.mul_div_le (n + 8 - 1) 8 ltac:(lia)). pose proof (Z.mul_succ_div_gt (n + 8 - 1) 8 ltac:(lia)).
    destruct (Z.ltb_spec (Z.min (page * 8 + 8) n) n), (Z.ltb_spec (page + 1) ((n + 8 - 1) / 8)); lia.
Qed.

Lemma page_clamped page threads : threads <> [] -> (Z.of_nat (page_count threads) <= page)%Z ->
  page_of page threads = page_of (Z.of_nat (page_count threads) - 1) threads.
Proof.
  intros Hne. unfold page_of, page_count, minimalExistingPageSize. set (n := Z.of_nat (length threads)).
  assert (0 < n)%Z by (destruct threads; [done|unfold n; cbn [length]; lia]).
  rewrite Z2Nat.id by (apply Z.div_pos; lia). intros Hp.
  pose proof (Z.mul_div_le (n + 8 - 1) 8 ltac:(lia)). pose proof (Z.mul_succ_div_gt (n + 8 - 1) 8 ltac:(lia)).
  destruct (Z.leb_spec n (page * 8)); [|lia]. destruct (Z.leb_spec n (((n + 8 - 1) / 8 - 1) * 8)); [lia|].
  assert ((n - 1) / 8 = (n + 8 - 1) / 8 - 1)%Z as ->; [|done].
  replace (n + 8 - 1)%Z with (n - 1 + 1 * 8)%Z by lia. rewrite Z.div_add by lia. lia.
Qed.

(** The first pages. *)
Lemma pages_upto k threads : (k <= page_count threads)%nat ->
  concat (map (fun i => shown_on (Z.of_nat i) threads) (seq 0 k)) = take (8 * k) threads.
Proof.
  induction k as [|k IH]; intros Hk; [done|]. rewrite seq_S, map_app, concat_app, IH by lia. cbn [map concat].
  rewrite app_nil_r. unfold shown_on. rewrite page_start by lia. cbn [fst snd]. rewrite Nat2Z.id.
  replace (8 * S k)%nat with (8 * k + 8)%nat by lia. rewrite <- take_take_drop. by rewrite (Nat.mul_comm k).
Qed.

Lemma page_count_enough threads : (length threads <= 8 * page_count threads)%nat.
Proof.
  unfold page_count, minimalExistingPageSize.
  pose proof (Z.mul_succ_div_gt (Z.of_nat (length threads) + 8 - 1) 8 ltac:(lia)).
  pose proof (Z.div_pos (Z.of_nat (length threads) + 8 - 1) 8 ltac:(lia) ltac:(lia)). lia.
Qed.

Lemma page_count_tight threads : (0 < length threads)%nat -> (8 * (page_count threads - 1) < length threads)%nat.
Proof.
  unfold page_count, minimalExistingPageSize. intros Hn.
  pose proof (Z.mul_div_le (Z.of_nat (length threads) + 8 - 1) 8 ltac:(lia)). lia.
Qed.

(** ** Buttons *)

#[export] Instance adds_preorder : PreOrder adds.
Proof.
  split.
  - intros s. split; [exists []; by rewrite app_nil_r|done..].
  - intros a b c [(r1 & E1) S1 T1] [(r2 & E2) S2 T2]. split; [|congruence|by auto].
    exists (r1 ++ r2). by rewrite E2, E1, app_assoc.
Qed.

Lemma adds_in s s' x : adds s s' -> x ∈ mt_picker (db_minimal s) -> x ∈ mt_picker (db_minimal s').
Proof. intros [(rows & ->) _ _] Hx. apply elem_of_app. by left. Qed.

Section buttons.
Context (pk : PickerService) (now : instant) (chatID topicID : Z).

Lemma button_adds label action projectID threadID page :
  w_adds (fun b s => bs_Text b = label /\ chatID <> 0%Z /\ trim_space (bs_CallbackData b) <> "" /\ (0 <= page)%Z
                     /\ row_of now chatID topicID action projectID threadID page b ∈ mt_picker (db_minimal s))
    (minimalPickerButton pk now chatID topicID label action projectID threadID page).
Proof.
  intros w b w'. unfold minimalPickerButton, randomToken. rewrite run_call. unfold w_bind, w_tx, tx.
  cbn [rw_Store called]. destruct (CreateMinimalPickerRoutes _ _ _) as [[[] s]|e] eqn:E; [|done]. intros [= <- <-].
  unfold CreateMinimalPickerRoutes in E. cbn [tx_each] in E. tx_inv E. apply tx_ret_ok in E as [_ <-].
  unfold insert_picker in Htx. cbn [pi_Token pi_Action pi_ProjectID pi_ThreadID pi_Status pi_ExpiresAt pi_ChatID pi_Page] in Htx.
  destruct (_ || _) eqn:E1 in Htx; [discriminate Htx|]. apply orb_false_iff in E1 as [E1 _].
  apply orb_false_iff in E1 as [E1 _]. apply orb_false_iff in E1 as [E1 _]. apply orb_false_iff in E1 as [E1 _].
  destruct (Z.eqb_spec chatID 0); [discriminate Htx|]. destruct (Z.ltb_spec page 0); [discriminate Htx|].
  tx_inv Htx. apply tx_gets_ok in Htx0 as [-> ->]. destruct (existsb _ _) eqn:E2; [discriminate Htx|].
  injection Htx as _ <-. cbn [rw_Store called set_rw_Store bs_Text bs_CallbackData]. split; [|split; [done|]].
  - split; [by eexists [_]|done|]. intros Hnd. unfold tokens. cbn. rewrite map_app. apply NoDup_app. split; [done|].
    split; [|apply NoDup_singleton]. intros x Hx ->%list_elem_of_singleton. unfold tokens in Hx.
    apply list_elem_of_fmap in Hx as (r & Hr & Hin). rewrite <- not_true_iff_false in E2. apply E2, existsb_exists.
    exists r. split; [by apply list_elem_of_In|]. unfold pk_token_is. rewrite <- Hr. apply String.eqb_refl.
  - split; [done|]. split; [by apply String.eqb_neq|]. split; [lia|]. cbn. apply elem_of_app. right. by left.
Qed.

Lemma adds_then {A B} (P : A -> Store -> Prop) (Q : B -> Store -> Prop) (m : W A) (f : A -> W B) :
  w_adds P m -> (forall a, w_adds (fun b s => (exists s0, P a s0 /\ adds s0 s) -> Q b s) (f a)) -> w_adds Q (w_bind m f).
Proof.
  intros Hm Hf w b w'. unfold w_bind. destruct (m w) as [[[a|e] w1]|] eqn:E; [|done|done]. intros E2.
  destruct (Hm _ _ _ E) as [H1 H2]. destruct (Hf a _ _ _ E2) as [H3 H4]. split; [by etrans|]. apply H4. by exists (rw_Store w1).
Qed.

(** The buttons of a list, in its order. *)
Lemma map_adds {X A} (P : X -> A -> Store -> Prop) (f : X -> W A) l :
  (forall x, w_adds (P x) (f x)) -> (forall x a s s', P x a s -> adds s s' -> P x a s') ->
  w_adds (fun bs s => Forall2 (fun x b => P x b s) l bs) (w_map f l).
Proof.
  intros Hf Hk. induction l as [|x l IH]; intros w bs w'; cbn [w_map].
  - intros [= <- <-]. split; [reflexivity|constructor].
  - unfold w_bind. destruct (f x w) as [[[b|e] w1]|] eqn:E1; [|done|done].
    destruct (w_map f l w1) as [[[rest|e] w2]|] eqn:E2; [|done|done]. intros [= <- <-].
    destruct (Hf _ _ _ _ E1) as [H1 H2]. destruct (IH _ _ _ E2) as [H3 H4]. split; [by etrans|].
    constructor; [by eapply Hk|done].
Qed.
End buttons.

(** The rows of a page, and what follows them. *)
Lemma threadButtons_adds pk now chatID topicID project page shown w bs w1 :
  w_map (threadButton pk now chatID topicID project page) shown w = Some (inl bs, w1) ->
  adds (rw_Store w) (rw_Store w1)
  /\ Forall2 (fun t b => bs_Text b = minimalThreadRowLabel t /\ chatID <> 0%Z /\ trim_space (bs_CallbackData b) <> ""
                        /\ (0 <= page)%Z
                        /\ row_of now chatID topicID minimalExistingSelectAction (pj_ID project) (th_ID t) page b
                           ∈ mt_picker (db_minimal (rw_Store w1))) shown bs.
Proof.
  intros E. apply (map_adds (fun t b s => bs_Text b = minimalThreadRowLabel t /\ chatID <> 0%Z /\
    trim_space (bs_CallbackData b) <> "" /\ (0 <= page)%Z /\
    row_of now chatID topicID minimalExistingSelectAction (pj_ID project) (th_ID t) page b ∈ mt_picker (db_minimal s)))
    in E; [done| |].
  - intros t. unfold threadButton. apply button_adds.
  - intros t b s s' (H1 & H2 & H3 & H4 & H5) Ha. split_and!; try done. by eapply adds_in.
Qed.

Lemma button_if_adds pk now chatID topicID label action projectID threadID page (shown : bool) :
  w_adds (fun _ _ => True) (button_if shown (minimalPickerButton pk now chatID topicID label action projectID threadID page)).
Proof.
  unfold button_if. destruct shown; [|by intros w a w' [= <- <-]].
  eapply adds_then; [apply button_adds|]. intros b w a w' [= <- <-]. split; [reflexivity|done].
Qed.

Lemma showThreadPage_rows pk now chatID topicID project page0 threads w response w' :
  showThreadPage pk now chatID topicID project page0 threads w = Some (inl response, w') ->
  exists rows w1 nav,
    w_map (threadButton pk now chatID topicID project (page_of page0 threads).1.1) (page_of page0 threads).1.2 w
      = Some (inl rows, w1)
    /\ adds (rw_Store w1) (rw_Store w') /\ dr_Buttons response = map (fun b => [b]) rows ++ [nav].
Proof.
  unfold showThreadPage. destruct (page_of page0 threads) as [[page shown] more]. cbn [fst snd].
  unfold w_bind at 1. destruct (w_map _ _ w) as [[[rows|e] w1]|]; [|done|done]. intros E. exists rows, w1.
  unfold w_bind at 1 in E. destruct (button_if _ _ w1) as [[[previous|e] w2]|] eqn:E1; [|done|done].
  unfold w_bind at 1 in E. destruct (button_if _ _ w2) as [[[next|e] w3]|] eqn:E2; [|done|done].
  unfold w_bind at 1 in E. destruct (minimalPickerButton _ _ _ _ _ _ _ _ _ w3) as [[[back|e] w4]|] eqn:E3; [|done|done].
  injection E as <- <-. exists (previous ++ next ++ [back]). split; [done|]. split; [|done].
  apply button_if_adds in E1 as [H1 _], E2 as [H2 _]. apply button_adds in E3 as [H3 _]. by do 2 (etrans; [done|]).
Qed.

(** *** Pressing *)

(** A button that is there, in its chat and in time, with its project selected, is taken. *)
Lemma consume_accepts clock token c t now s row :
  NoDup (tokens s) -> row ∈ mt_picker (db_minimal s) -> picker_pressed (trim_space token) c t (or_clock clock now) row = true ->
  trim_space token <> "" -> c <> 0%Z ->
  other_project (fst <$> (mt_selected (db_minimal s) !! ChatKey c t)) row = false ->
  exists s', ConsumeMinimalPickerRoute clock token c t now s = Ok (Some (picker_of (upd_picker "consumed" row)), s').
Proof.
  intros Hnd Hin Hp Htok Hc Hsel. unfold ConsumeMinimalPickerRoute.
  rewrite (proj2 (String.eqb_neq _ _) Htok), (proj2 (Z.eqb_neq _ _) Hc). cbn [orb].
  unfold tx_bind, sql_update, tx_gets. change (rows_of picker_table s) with (mt_picker (db_minimal s)).
  set (q1 := fun r : PickerRow => pk_token_is (trim_space token) r && pk_active r && text_le (pk_ExpiresAt r) (or_clock clock now)).
  set (l1 := update_where q1 (upd_picker "expired") (mt_picker (db_minimal s))).
  assert (Hq1 : q1 row = false).
  { unfold q1. apply andb_true_iff in Hp as [_ Hle%negb_true_iff]. by rewrite Hle, andb_false_r. }
  assert (Hin1 : row ∈ l1) by (apply elem_of_update; exists row; by rewrite Hq1).
  change (rows_of picker_table (with_rows picker_table l1 s)) with l1.
  change (mt_selected (db_minimal (with_rows picker_table l1 s))) with (mt_selected (db_minimal s)).
  set (q2 := fun r : PickerRow => picker_pressed (trim_space token) c t (or_clock clock now) r
                && (negb (project_bound_action (pk_Action r))
                    || negb (other_project (fst <$> (mt_selected (db_minimal s) !! ChatKey c t)) r))).
  assert (Hq2 : q2 row = true) by (unfold q2; rewrite Hp, Hsel; cbn [negb andb]; by rewrite orb_true_r).
  destruct (Z.eqb_spec (affected q2 l1) 0) as [E0|_].
  { rewrite (proj1 (affected_zero q2 l1) E0 row Hin1) in Hq2. discriminate Hq2. }
  unfold sql_first, tx_gets. change (rows_of picker_table (with_rows picker_table ?l ?s0)) with l.
  assert (Htok' : pk_token_is (trim_space token) (upd_picker "consumed" row) = true).
  { unfold picker_pressed in Hp. rewrite <- !andb_assoc in Hp. by apply andb_true_iff in Hp as [Ht _]. }
  assert (Hcons : upd_picker "consumed" row ∈ update_where q2 (upd_picker "consumed") l1)
    by (apply elem_of_update; exists row; by rewrite Hq2).
  destruct (find_first _ _) as [y|] eqn:Ef.
  2: { rewrite (proj1 (find_first_none _ _) Ef _ Hcons) in Htok'. discriminate Htok'. }
  assert (y = upd_picker "consumed" row) as ->; [|by eexists].
  apply find_first_some in Ef as [Hy Hty]. eapply (keyed_inj pk_Token); [|exact Hy|exact Hcons|].
  - unfold l1. rewrite !map_update by done. exact Hnd.
  - unfold pk_token_is in Hty, Htok'. apply String.eqb_eq in Hty, Htok'. congruence.
Qed.

(** ** Theorems *)

(** C37: Listing the threads of a project returns: whatever App Server answers, as long as its
    cursors come from a finite list, no more pages are followed than there are cursors. *)
Theorem minimalAllProjectThreads_returns pk session project cursors w :
  cursors_within session cursors -> (length cursors < ps_Pages pk)%nat ->
  is_Some (minimalAllProjectThreads pk session project w).
Proof.
  intros Hc Hp. unfold minimalAllProjectThreads. apply (listing_returns pk session project cursors Hc); [constructor|set_solver|].
  cbn [length]. lia.
Qed.

(** The pages show every thread once, in order, at most eight to a page and none empty;
    a page beyond the last is the last, and another follows exactly when one is left. *)
Theorem pages_partition threads :
  threads <> [] ->
  concat (map (fun i => shown_on (Z.of_nat i) threads) (seq 0 (page_count threads))) = threads
  /\ forall page, (0 <= page)%Z ->
       let '(shown_page, shown, more) := page_of page threads in
       shown_page = Z.min page (Z.of_nat (page_count threads) - 1)
       /\ (0 < length shown <= 8)%nat
       /\ more = (shown_page + 1 <? Z.of_nat (page_count threads))%Z.
Proof.
  intros Hne. pose proof (page_count_enough threads) as Hcount. split.
  { rewrite pages_upto by done. apply take_ge. lia. }
  assert (Hn : (0 < length threads)%nat) by (destruct threads; [done|cbn [length]; lia]).
  pose proof (page_count_tight threads Hn) as Htight.
  intros page Hp. destruct (Z.le_gt_cases (Z.of_nat (page_count threads)) page) as [Hbig|Hsmall];
    [rewrite (page_clamped _ _ Hne Hbig)|]; rewrite page_start by lia; (split; [lia|]); (split; [|done]);
    rewrite length_take, length_drop; lia.
Qed.

(** C36: The thread that a page shows is the thread that its button selects: pressed in its chat
    and in time, while the project is selected there, the button beside the label of the i-th
    thread of the page is taken once and names that thread, its project and the page. *)
Theorem page_row_selects pk now chatID topicID project page0 threads w response w' i t clock :
  showThreadPage pk now chatID topicID project page0 threads w = Some (inl response, w') ->
  NoDup (tokens (rw_Store w)) ->
  (page_of page0 threads).1.2 !! i = Some t ->
  text_le (format_time (now + minimalCallbackTTL)%Z) (or_clock clock clock) = false ->
  GetSelectedProject chatID topicID (rw_Store w) = trim_space (pj_ID project) ->
  exists b s, dr_Buttons response !! i = Some [b] /\ bs_Text b = minimalThreadRowLabel t
    /\ ConsumeMinimalPickerRoute clock (bs_CallbackData b) chatID topicID clock (rw_Store w')
       = Ok (Some (mkPickerRoute (trim_space (bs_CallbackData b)) minimalExistingSelectAction (trim_space (pj_ID project))
                    (trim_space (th_ID t)) (page_of page0 threads).1.1 chatID topicID "consumed"
                    (format_time (now + minimalCallbackTTL)%Z)), s).
Proof.
  intros E Hnd Hi Htime Hsel. destruct (showThreadPage_rows _ _ _ _ _ _ _ _ _ _ E) as (rows & w1 & nav & Hmap & Hadds & Hb).
  destruct (page_of page0 threads) as [[page shown] more]. cbn [fst snd] in *.
  destruct (threadButtons_adds _ _ _ _ _ _ _ _ _ _ Hmap) as [Hadds1 Hrows].
  destruct (Forall2_lookup_l _ _ _ _ _ Hrows Hi) as (b & Hbi & Hlabel & Hc & Htok & Hpage & Hrow).
  apply (adds_in _ _ _ Hadds) in Hrow. assert (Had : adds (rw_Store w) (rw_Store w')) by (by etrans).
  destruct (consume_accepts clock (bs_CallbackData b) chatID topicID clock (rw_Store w') _ (ad_tokens _ _ Had Hnd) Hrow) as [s Hs];
    [|done|done| |].
  - unfold picker_pressed, pk_token_is, pk_active, row_of.
    cbn [pk_Token pk_Status pk_ChatID pk_TopicID pk_ExpiresAt]. by rewrite String.eqb_refl, !Z.eqb_refl, Htime.
  - unfold other_project, row_of. cbn [pk_ProjectID]. rewrite (ad_selected _ _ Had). unfold GetSelectedProject in Hsel.
    destruct (mt_selected _ !! _) as [[p at_]|]; [|done]. cbn. rewrite Hsel, String.eqb_refl. done.
  - exists b, s. split.
    + rewrite Hb, lookup_app_l by (rewrite length_map; by eapply lookup_lt_Some). by rewrite list_lookup_fmap, Hbi.
    + split; [done|]. rewrite Hs. unfold picker_of, upd_picker, row_of.
      cbn [pk_Token pk_Action pk_ProjectID pk_ThreadID pk_Page pk_ChatID pk_TopicID pk_Status pk_ExpiresAt].
      change (trim_space minimalExistingSelectAction) with minimalExistingSelectAction. unfold nullable. rewrite trim_space_idemp.
      by destruct (String.eqb_spec (trim_space (th_ID t)) "") as [->|].
Qed.

Theorem minimalAllProjectThreads_returns_witness :
  is_Some (minimalAllProjectThreads ex_catalog ex_paged ex_project ex_catalog_world).
Proof.
  apply (minimalAllProjectThreads_returns ex_catalog ex_paged ex_project ["next"] ex_catalog_world).
  - intros call cursor result. unfold ex_paged. cbn [se_ThreadList].
    destruct (String.eqb cursor ""); intros E; injection E as <-; [right; left|left]; reflexivity.
  - cbn. lia.
Defined.

Theorem pages_partition_witness :
  concat (map (fun i => shown_on (Z.of_nat i) (repeat zeroThread 20)) (seq 0 3)) = repeat zeroThread 20.
Proof. destruct (pages_partition (repeat zeroThread 20)) as [H _]; [discriminate|]. exact H. Defined.

Theorem page_row_selects_witness :
  match showThreadPage ex_catalog ex_now 7 0 ex_project 5 ex_two ex_catalog_world with
  | Some (inl response, w') => exists b s,
      dr_Buttons response !! 1%nat = Some [b] /\ bs_Text b = "t2"
      /\ ConsumeMinimalPickerRoute ex_now (bs_CallbackData b) 7 0 ex_now (rw_Store w')
         = Ok (Some (mkPickerRoute (trim_space (bs_CallbackData b)) minimalExistingSelectAction "Alpha" "t2" 0 7 0 "consumed"
                      (format_time (ex_now + minimalCallbackTTL)%Z)), s)
  | _ => False
  end.
Proof.
  destruct (showThreadPage ex_catalog ex_now 7 0 ex_project 5 ex_two ex_catalog_world) as [[[response|e] w']|] eqn:E.
  2, 3: assert (N : match showThreadPage ex_catalog ex_now 7 0 ex_project 5 ex_two ex_catalog_world with
                    | Some (inl _, _) => true | _ => false end = true) by (vm_compute; reflexivity);
    rewrite E in N; discriminate N.
  destruct (page_row_selects ex_catalog ex_now 7 0 ex_project 5 ex_two ex_catalog_world response w' 1
              (set_th_ID "t2" zeroThread) ex_now E) as (b & s & Hb & Ht & Hs).
  - vm_compute. constructor.
  - reflexivity.
  - vm_compute. reflexivity.
  - vm_compute. reflexivity.
  - exists b, s. split; [exact Hb|]. split; [rewrite Ht; vm_compute; reflexivity|]. exact Hs.
Defined.
