(* ===== verification/PickerSafety.v ===== *)
(** * Which thread a chat is bound to

    A press binds its chat only to the thread of its button, as App Server reads it, and
    only when that thread is in the project of the button. *)
From stdpp Require Import base list numbers strings gmap.
From Stdlib Require Import Lia Ascii.
From S2P Require Import Prelude GoStrings GoTime Utf8 Sql Json Model Normalize NotifierFormat MinimalTables CoreTables Store Daemon NotifierObserver NotifierIngress.
From S2P Require Import Threads Panels TerminalGate LinkedThread Continuations Observations Projects ApprovalHandlers Routing Starts Router Drain Terminal TerminalReport TerminalRelease.
From S2P Require Import LiveTools Polling Catalog CatalogSafety.

(** What a chat is bound to stays. *)
Definition same_bindings (s s' : Store) : Prop := cr_bindings (db_core s') = cr_bindings (db_core s).

(** A function that keeps a relation between the store before and after. *)
Definition w_keeps {A : Type} (R : Store -> Store -> Prop) (m : W A) : Prop :=
  forall w a w', m w = Some (a, w') -> R (rw_Store w) (rw_Store w').

(** App Server reads the thread under its id, in the project. *)
Definition read_in_project (pk : PickerService) (project : Project) (threadID : string) (payload : obj) : Prop :=
  (exists session call turns, minimalCatalogSession pk = w_ret session /\ se_ThreadRead session call threadID turns = Done payload)
  /\ th_ID (sn_Thread (readSnapshot payload)) = threadID
  /\ exists here, exact_project pk (th_CWD (sn_Thread (readSnapshot payload))) = Some here /\ pj_ID here = pj_ID project.

(** The chat is bound to the thread, and nothing else changed hands. *)
Definition now_bound (chatID topicID : Z) (threadID : string) (s s' : Store) : Prop :=
  exists b, cr_bindings (db_core s') = <[ChatKey chatID topicID := b]> (cr_bindings (db_core s))
    /\ tb_ThreadID b = threadID /\ tb_Mode b = BindingModeBound.

(** A chat of the project Alpha, and the button of a thread that App Server reads there. *)
Definition ex_reading : PickerService :=
  mkPickerService (mkService ex_observer ex_service
      (Some (mkServiceSession (fun _ id _ => Done [("thread", JObj [("id", JStr id); ("cwd", JStr "/work/alpha")])])
               (fun _ _ _ => Done []))) true None false 0)
    (fun n => "token-" +:+ format_int (Z.of_nat n)) None (fun _ _ => "") (fun _ => None) 3.

Definition ex_select : MinimalPickerRoute :=
  mkPickerRoute "token-1" minimalExistingSelectAction "Alpha" "t" 0 7 0 "consumed" "".

#[export] Instance same_bindings_preorder : PreOrder same_bindings.
Proof. split; [done|]. intros a b c H1 H2. unfold same_bindings in *. congruence. Qed.

(** ** Functions that keep a relation *)

Section keeps.
Context (R : Store -> Store -> Prop) `{!PreOrder R}.

Lemma wk_bind {A B} (m : W A) (f : A -> W B) : w_keeps R m -> (forall a, w_keeps R (f a)) -> w_keeps R (w_bind m f).
Proof.
  intros Hm Hf w b w'. unfold w_bind. destruct (m w) as [[[a|e] w1]|] eqn:E; [| |done].
  - intros E2. etrans; [by eapply Hm|by eapply Hf].
  - intros [= <- <-]. by eapply Hm.
Qed.

Lemma wk_ret {A} (a : A) : w_keeps R (w_ret a).
Proof. intros w x w' [= _ <-]. reflexivity. Qed.

Lemma wk_fail {A} e : w_keeps R (w_fail (A := A) e).
Proof. intros w x w' [= _ <-]. reflexivity. Qed.

Lemma wk_gets {A} (f : Store -> A) : w_keeps R (w_gets f).
Proof. intros w x w' [= _ <-]. reflexivity. Qed.

Lemma wk_call {A} (f : nat -> A) : w_keeps R (w_call f).
Proof. intros w x w' [= _ <-]. reflexivity. Qed.

Lemma wk_tx {A} (m : Tx Store A) : tx_keeps R m -> w_keeps R (w_tx m).
Proof.
  intros Hm w x w' [= E]. unfold tx in E. destruct (m (rw_Store w)) as [[a s]|e] eqn:E1; injection E as _ <-; [|reflexivity].
  by eapply Hm.
Qed.

Lemma wk_modify f : (forall s, R s (f s)) -> w_keeps R (w_modify f).
Proof. intros Hf w x w' [= _ <-]. apply Hf. Qed.

Lemma wk_map {A B} (f : A -> W B) l : (forall x, w_keeps R (f x)) -> w_keeps R (w_map f l).
Proof.
  intros Hf. induction l as [|x l IH]; [apply wk_ret|]. apply wk_bind; [apply Hf|]. intros y.
  apply wk_bind; [exact IH|]. intros ys. apply wk_ret.
Qed.
End keeps.

#[export] Hint Resolve wk_ret wk_fail wk_gets wk_call : core.

(** ** What leaves the bindings *)

Lemma kb_create now routes : tx_keeps same_bindings (CreateMinimalPickerRoutes now routes).
Proof.
  apply keeps_each; [apply _|]. intros route _. unfold insert_picker. cbv zeta.
  repeat (case_match; [apply keeps_fail|]). apply keeps_bind; [apply _|apply keeps_gets, _|]. intros rows.
  case_match; [apply keeps_fail|]. by apply keeps_insert.
Qed.

Lemma kb_observe clock t id now : tx_keeps same_bindings (ObserveMinimalThread clock t id now).
Proof.
  unfold ObserveMinimalThread. destruct (_ || _); [apply keeps_fail|]. apply keeps_modify. intros s.
  destruct (match _ with Some r => mo_Retired r | None => false end); [reflexivity|]. by destruct (negb _).
Qed.

Lemma kb_persist o now t : tx_keeps same_bindings (persistServiceThread o now t).
Proof.
  unfold persistServiceThread. destruct (String.eqb _ _); [|by apply keeps_modify].
  unfold persistThread. cbv zeta. apply keeps_bind; [apply _|by apply keeps_modify|intros _].
  match goal with |- context [match ?x with Some _ => _ | None => tx_ret tt end] => destruct x as [project|] end;
    [|apply keeps_ret, _].
  destruct (String.eqb _ ""); [apply keeps_ret, _|]. apply keeps_modify. intros s. unfold run_ignored.
  destruct (ObserveMinimalThread _ _ _ _ s) as [[a s']|] eqn:E; [by eapply kb_observe|reflexivity].
Qed.

Section press.
Context (pk : PickerService) (now : instant) (chatID topicID : Z).

Lemma kb_button label action projectID threadID page :
  w_keeps same_bindings (minimalPickerButton pk now chatID topicID label action projectID threadID page).
Proof.
  unfold minimalPickerButton, randomToken. apply wk_bind; [apply _|apply wk_call, _|intros token].
  apply wk_bind; [apply _|apply wk_tx; [apply _|apply kb_create]|intros ?; apply wk_ret, _].
Qed.

Lemma kb_listing pages session project : forall cursor seen threads,
  w_keeps same_bindings (listProjectThreads pk pages session project cursor seen threads).
Proof.
  induction pages as [|pages IH]; intros cursor seen threads; [by intros w a w'|]. cbn [listProjectThreads].
  apply wk_bind; [apply _| |].
  - unfold minimalProjectThreads. apply wk_bind; [apply _|apply wk_call, _|intros [result|e]]; [apply wk_ret, _|apply wk_fail, _].
  - intros page. cbv zeta. destruct (String.eqb _ ""); [apply wk_ret, _|]. case_bool_decide; [apply wk_fail, _|apply IH].
Qed.

Lemma kb_session : w_keeps same_bindings (minimalCatalogSession pk).
Proof. unfold minimalCatalogSession. repeat case_match; first [apply wk_ret, _|apply wk_fail, _]. Qed.

Lemma kb_page projectID page : w_keeps same_bindings (minimalExistingThreadPage pk now chatID topicID projectID page).
Proof.
  unfold minimalExistingThreadPage. cbv zeta. destruct (registered_project pk projectID) as [project|]; [|apply wk_ret, _].
  apply wk_bind; [apply _|apply kb_session|intros session].
  apply wk_bind; [apply _|apply kb_listing|intros threads]. case_bool_decide.
  - unfold emptyCatalog. do 2 (apply wk_bind; [apply _|apply kb_button|intros ?]). apply wk_ret, _.
  - unfold showThreadPage. destruct (page_of _ _) as [[p shown] more].
    apply wk_bind; [apply _|apply wk_map; [apply _|intros t; apply kb_button]|intros rows].
    assert (Hif : forall b label action projectID threadID page',
              w_keeps same_bindings (button_if b (minimalPickerButton pk now chatID topicID label action projectID threadID page'))).
    { intros. unfold button_if. destruct b; [|apply wk_ret, _]. apply wk_bind; [apply _|apply kb_button|intros ?; apply wk_ret, _]. }
    do 2 (apply wk_bind; [apply _|apply Hif|intros ?]). apply wk_bind; [apply _|apply kb_button|intros ?]. apply wk_ret, _.
Qed.

Lemma kb_edit messageID callbackText renderer : w_keeps same_bindings renderer ->
  w_keeps same_bindings (editOrSendMinimalResponse pk chatID topicID messageID callbackText renderer).
Proof.
  intros Hr. unfold editOrSendMinimalResponse. apply wk_bind; [apply _|exact Hr|intros response]. cbv zeta.
  destruct (ps_Edit pk) as [edit|]; [|apply wk_ret, _]. destruct (_ && _); [|apply wk_ret, _].
  apply wk_bind; [apply _|apply wk_call, _|intros []; apply wk_ret, _].
Qed.

Lemma kb_read session project threadID : w_keeps same_bindings (readMinimalExistingThread pk session project threadID).
Proof.
  unfold readMinimalExistingThread. cbv zeta. destruct (String.eqb _ ""); [apply wk_ret, _|].
  apply wk_bind; [apply _|apply wk_call, _|intros first]. apply wk_bind; [apply _| |].
  - destruct first; [apply wk_ret, _|]. destruct (isPaginatedThreadReadUnsupported _); [apply wk_call, _|apply wk_ret, _].
  - intros [payload|e]; [|apply wk_fail, _]. repeat case_match; apply wk_ret, _.
Qed.

(** *** Binding *)
Lemma bound_after threadID a b c : same_bindings a b -> now_bound chatID topicID threadID b c -> now_bound chatID topicID threadID a c.
Proof. intros H (x & Hx & H1 & H2). exists x. unfold same_bindings in H. by rewrite <- H. Qed.

Lemma bound_before threadID a b c : now_bound chatID topicID threadID a b -> same_bindings b c -> now_bound chatID topicID threadID a c.
Proof. intros (x & Hx & H1 & H2) H. exists x. unfold same_bindings in H. by rewrite H. Qed.

Lemma persist_binds project thread snapshot w a w' :
  persistMinimalExistingThreadBinding pk now chatID topicID project thread snapshot w = Some (a, w') ->
  same_bindings (rw_Store w) (rw_Store w') \/ now_bound chatID topicID (th_ID thread) (rw_Store w) (rw_Store w').
Proof.
  unfold persistMinimalExistingThreadBinding. cbv zeta.
  assert (Hkeep : forall (A : Type) (m : Tx Store A) w0 x w1, tx_keeps same_bindings m -> w_tx m w0 = Some (x, w1) ->
            same_bindings (rw_Store w0) (rw_Store w1)).
  { intros A m w0 x w1 Hm E. eapply (wk_tx same_bindings m Hm); exact E. }
  unfold w_bind at 1. destruct (w_tx (persistServiceThread _ _ _) w) as [[[u|e] w1]|] eqn:E1; [| |done].
  2: { intros [= _ <-]. left. eapply Hkeep, E1. apply kb_persist. }
  apply Hkeep in E1; [|apply kb_persist].
  unfold w_bind at 1. destruct (w_tx (SetSelectedProject _ _ _ _) w1) as [[[v|e] w2]|] eqn:E2; [| |done].
  all: apply Hkeep in E2; [|unfold SetSelectedProject; cbv zeta; case_match; [apply keeps_fail|by apply keeps_modify]].
  2: { intros [= _ <-]. left. by etrans. }
  unfold w_bind at 1. unfold w_tx at 1. unfold SetBinding, bind_thread, tx at 1, tx_modify. intros E3. right.
  eapply bound_after; [etrans; [exact E1|exact E2]|]. eapply bound_before; [|eapply Hkeep, E3; apply kb_observe].
  cbn [rw_Store set_rw_Store db_core set_core cr_bindings set_cr_bindings].
  destruct (cr_bindings (db_core (rw_Store w2)) !! ChatKey chatID topicID); eexists; (split; [reflexivity|]); done.
Qed.

Lemma existing_thread_id project snapshot : th_ID (existing_thread project snapshot) = th_ID (sn_Thread snapshot).
Proof. unfold existing_thread. cbv zeta. repeat case_match; done. Qed.

(** What is read as a thread of the project. *)
Lemma read_existing session project threadID w read w' : minimalCatalogSession pk = w_ret session ->
  readMinimalExistingThread pk session project threadID w = Some (inl (Some read), w') ->
  read_in_project pk project (trim_space threadID) (er_payload read) /\ th_ID (er_thread read) = trim_space threadID.
Proof.
  intros Hs. unfold readMinimalExistingThread. cbv zeta. destruct (String.eqb _ ""); [done|]. rewrite run_call.
  assert (Hcase : forall call turns (w1 : RouterWorld) answer w2,
    match answer with
    | Fault e => w_fail (start_of_fault e)
    | Done payload =>
        let snapshot := readSnapshot payload in
        let thread := sn_Thread snapshot in
        if bool_decide (payload = []) || is_blank (th_ID thread) || negb (String.eqb (th_ID thread) (trim_space threadID)) then w_ret None
        else if match exact_project pk (th_CWD thread) with Some matched => String.eqb (pj_ID matched) (pj_ID project) | None => false end
        then w_ret (Some (mkExistingRead (existing_thread project snapshot) snapshot payload))
        else w_ret None
    end w1 = Some (inl (Some read), w2) -> se_ThreadRead session call (trim_space threadID) turns = answer ->
    read_in_project pk project (trim_space threadID) (er_payload read) /\ th_ID (er_thread read) = trim_space threadID).
  { intros call turns w1 [payload|e] w2; [|done]. cbv zeta. destruct (_ || _) eqn:E1; [done|].
    apply orb_false_iff in E1 as [_ E1%negb_false_iff%String.eqb_eq].
    destruct (exact_project pk _) as [here|] eqn:E2; [|done]. destruct (String.eqb_spec (pj_ID here) (pj_ID project)) as [E3|]; [|done].
    intros [= <- _] Hread. cbn [er_payload er_thread]. rewrite existing_thread_id. split; [|done]. split; [by exists session, call, turns|].
    split; [done|]. by exists here. }
  destruct (se_ThreadRead session (rw_Calls w) (trim_space threadID) true) as [payload|e] eqn:E1.
  - rewrite run_ret. intros E. by eapply (Hcase _ _ _ (Done payload)).
  - destruct (isPaginatedThreadReadUnsupported e).
    + rewrite run_call. intros E. by eapply Hcase.
    + rewrite run_ret. intros E. by eapply (Hcase _ _ _ (Fault e)).
Qed.

(** A thread is selected. *)
Lemma select_binds route w answer w' :
  selectMinimalExistingThreadResult pk now chatID topicID route w = Some (answer, w') ->
  same_bindings (rw_Store w) (rw_Store w')
  \/ exists project payload, registered_project pk (pi_ProjectID route) = Some project
       /\ read_in_project pk project (trim_space (pi_ThreadID route)) payload
       /\ now_bound chatID topicID (trim_space (pi_ThreadID route)) (rw_Store w) (rw_Store w').
Proof.
  unfold selectMinimalExistingThreadResult. destruct (_ || _); [intros [= _ <-]; by left|].
  destruct (registered_project pk (pi_ProjectID route)) as [project|]; [|intros [= _ <-]; by left].
  destruct (minimalCatalogSession pk w) as [[[session|e] w0]|] eqn:Es.
  2: { unfold w_bind at 1. rewrite Es. intros [= _ <-]. left. by eapply kb_session. }
  2: { unfold w_bind at 1. by rewrite Es. }
  assert (Hs : minimalCatalogSession pk = w_ret session /\ w0 = w).
  { unfold minimalCatalogSession in *. repeat case_match; try discriminate Es; by injection Es as -> ->. }
  destruct Hs as [Hs ->]. unfold w_bind at 1. rewrite Es.
  destruct (readMinimalExistingThread pk session project (pi_ThreadID route) w) as [[[[read|]|e] w1]|] eqn:Er; [| | |done].
  2, 3: intros [= _ <-]; left; by eapply kb_read.
  destruct (read_existing _ _ _ _ _ _ Hs Er) as [Hread Hid]. apply kb_read in Er. intros E.
  unfold w_bind at 1, w_modify at 1 in E.
  set (w2 := on_store (markPCOriginThreadFromPayload now (th_ID (er_thread read)) (er_payload read)) w1) in *.
  assert (H2 : same_bindings (rw_Store w) (rw_Store w2)).
  { etrans; [exact Er|]. unfold w2, on_store, markPCOriginThreadFromPayload. cbn [rw_Store set_rw_Store]. by case_match. }
  unfold w_bind in E. destruct (persistMinimalExistingThreadBinding _ _ _ _ _ _ _ w2) as [[[u|e] w3]|] eqn:Ep; [| |done];
    injection E as _ <-; apply persist_binds in Ep as [Ep|Ep]; try (left; by etrans); right; exists project, (er_payload read);
    (split; [done|]); (split; [done|]); rewrite <- Hid; by eapply bound_after.
Qed.
End press.

(** ** Theorems *)

(** C35: A press of a button of a thread binds its chat only to the thread that the button
    names, after App Server has read it under that id and in the project of the button, and
    only while that project is selected in the chat; every other chat stays as it was. *)
Theorem press_binds_read_thread pk now chatID topicID messageID route w answer w' :
  pi_Action route = minimalExistingSelectAction ->
  handleMinimalPickerRoute pk now chatID topicID messageID (Some route) w = Some (answer, w') ->
  same_bindings (rw_Store w) (rw_Store w')
  \/ exists project payload, registered_project pk (pi_ProjectID route) = Some project
       /\ trim_space (GetSelectedProject chatID topicID (rw_Store w)) = trim_space (pi_ProjectID route)
       /\ read_in_project pk project (trim_space (pi_ThreadID route)) payload
       /\ now_bound chatID topicID (trim_space (pi_ThreadID route)) (rw_Store w) (rw_Store w').
Proof.
  intros Ha. unfold handleMinimalPickerRoute. destruct (registered_project pk (pi_ProjectID route)) as [project|] eqn:Ep;
    [|intros [= _ <-]; by left].
  rewrite Ha. change (String.eqb minimalExistingSelectAction minimalProjectNewAction) with false.
  change (project_bound_action minimalExistingSelectAction) with true. cbv iota. rewrite run_gets.
  destruct (minimalPickerRouteMatchesCurrentProject _ _ _ _) eqn:Em; [|intros [= _ <-]; by left].
  unfold minimalPickerRouteMatchesCurrentProject in Em. rewrite Ha in Em.
  change (project_bound_action minimalExistingSelectAction) with true in Em. cbn [negb orb] in Em. apply String.eqb_eq in Em.
  unfold pressCurrent. rewrite Ha. cbn [existsb].
  change (String.eqb minimalExistingSelectAction minimalExistingOpenAction) with false.
  change (String.eqb minimalExistingSelectAction minimalExistingPageAction) with false.
  change (String.eqb minimalExistingSelectAction minimalExistingBackAction) with false. cbn [orb].
  unfold w_bind at 1. destruct (selectMinimalExistingThreadResult _ _ _ _ _ w) as [[[x|e] w1]|] eqn:Es; [| |done];
    apply select_binds in Es.
  - intros E. assert (H1 : same_bindings (rw_Store w1) (rw_Store w')).
    { destruct (x.2); [|by injection E as _ <-]. eapply kb_edit, E. apply wk_bind; [apply _|apply kb_page|intros ?; apply wk_ret, _]. }
    destruct Es as [Es|(p & payload & H2 & H3 & H4)]; [left; by etrans|]. right. exists p, payload. split; [by rewrite <- Ep|].
    split; [done|]. split; [done|]. by eapply bound_before.
  - intros [= _ <-]. destruct Es as [Es|(p & payload & H2 & H3 & H4)]; [by left|]. right. exists p, payload. split; [by rewrite <- Ep|].
    by split.
Qed.

Theorem press_binds_read_thread_witness :
  exists answer w', handleMinimalPickerRoute ex_reading ex_now 7 0 10 (Some ex_select) ex_catalog_world = Some (answer, w')
    /\ now_bound 7 0 "t" (rw_Store ex_catalog_world) (rw_Store w').
Proof.
  destruct (handleMinimalPickerRoute ex_reading ex_now 7 0 10 (Some ex_select) ex_catalog_world) as [[answer w']|] eqn:E.
  2: { assert (N : match handleMinimalPickerRoute ex_reading ex_now 7 0 10 (Some ex_select) ex_catalog_world with
                   | Some _ => true | None => false end = true) by (vm_compute; reflexivity). rewrite E in N. discriminate N. }
  exists answer, w'. split; [reflexivity|].
  assert (Hb : match handleMinimalPickerRoute ex_reading ex_now 7 0 10 (Some ex_select) ex_catalog_world with
               | Some (_, w) => option_map tb_ThreadID (GetBinding 7 0 (rw_Store w)) = Some "t" | None => False end)
    by (vm_compute; reflexivity).
  rewrite E in Hb.
  destruct (press_binds_read_thread ex_reading ex_now 7 0 10 ex_select ex_catalog_world answer w' eq_refl E)
    as [Hs|(project & payload & _ & _ & _ & H)].
  - exfalso. unfold GetBinding in Hb. unfold same_bindings in Hs. rewrite Hs in Hb. vm_compute in Hb. discriminate Hb.
  - exact H.
Defined.
