(* ===== verification/Submit.v ===== *)
(** * internal/daemon/minimal_router.go: what becomes of a text

    A text is a reply to a message that a thread is routed to, or goes on with the thread
    the chat is bound to, or begins a new one in the selected project.  A text for a thread
    that others continue goes to the conversation linked to it; one whose thread is at
    work waits.  The locks of the chat and of the thread are not part of the model: a
    submission is one step, and it runs on the worlds of Catalog. *)
From stdpp Require Import base list numbers strings gmap.
From Stdlib Require Import Lia Ascii.
From S2P Require Import Prelude GoStrings GoTime Utf8 Sql Json Model Normalize NotifierFormat MinimalTables CoreTables Store Daemon NotifierObserver NotifierIngress.
From S2P Require Import Threads Panels TerminalGate LinkedThread PendingCommands Continuations Observations Projects ApprovalHandlers Routing Starts Router Terminal LiveTools Polling Voice Catalog.

Definition w_state {A : Type} (f : RouterWorld -> A * RouterWorld) : W A :=
  fun w => let '(a, w') := f w in Some (inl a, w').
Definition w_step {A : Type} (f : RouterWorld -> (A + start_error) * RouterWorld) : W A := fun w => Some (f w).

Record ResolvedTarget : Type := mkTarget {
  tg_ProjectID : string;
  tg_TargetKind : string;
  tg_ThreadID : string;
  tg_SourceTurnID : string }.

Definition minimalLinkedSourceDivergedText : string :=
  "원본 Codex 작업이 텔레그램 연동 이후에 더 진행되어, 이 답글은 자동으로 합칠 수 없습니다." +:+ newline +:+ newline
  +:+ "Codex에서 텔레그램 연동 작업을 열어 이어서 작업하거나, 텔레그램에서는 연동된 작업 알림에 답장해 주세요.".
Definition minimalLinkedSourceUnavailableText : string :=
  "원본 Codex 작업의 기준 답변을 확인할 수 없어, 이 답글은 안전하게 이어갈 수 없습니다." +:+ newline +:+ newline
  +:+ "Codex에서 텔레그램 연동 작업을 열어 이어서 작업하거나, 텔레그램에서는 연동된 작업 알림에 답장해 주세요.".

Definition set_th_Title (v : string) (t : Thread) : Thread :=
  mkThread (th_ID t) v (th_CWD t) (th_ProjectName t) (th_DirectoryName t) (th_UpdatedAt t)
    (th_Status t) (th_LastPreview t) (th_ActiveTurnID t) (th_PreferredModel t) (th_PermissionsMode t) (th_Archived t)
    (th_Raw t).

(** A thread that is read again keeps the title it had. *)
Definition keep_title (before t : Thread) : Thread :=
  if hasMeaningfulMinimalThreadTitle (Some before) then set_th_Title (th_Title before) t else t.

(** *** The conversation a reply goes to *)

(** Where a reply goes: its thread, the turn it answers, the payload read on the way, and
    whether the linked conversation took the place of its source. *)
Record Translated : Type := mkTranslated {
  tr_thread : Thread;
  tr_turnID : string;
  tr_read : option (outcome obj);
  tr_linked : bool }.

Definition payload_of (read : outcome obj) : obj := match read with Done payload => payload | Fault _ => [] end.

(** The turn that is continued: its thread and id, its anchor, and the thread of the reply. *)
Record Source : Type := mkSource {
  so_ThreadID : string;
  so_TurnID : string;
  so_anchor : sourceTurnAnchor;
  so_thread : Thread }.

Definition unavailable_source : start_error := SourceFailed SourceUnavailable.

Definition sourceOfLink (link : MinimalLinkedThread) (thread : Thread) : Source + start_error :=
  let threadID := trim_space (lt_SourceThreadID link) in
  let turnID := trim_space (lt_SourceAnchorTurnID link) in
  if String.eqb threadID "" || String.eqb turnID "" then inr unavailable_source
  else inl (mkSource threadID turnID (mkAnchor threadID turnID "completed" true) thread).

(** A turn in progress is continued when its thread ended it, or still runs it. *)
Definition sourceInProgress (thread : Thread) (turnID : string) (payload : obj) : Source + start_error :=
  let anchor := mkAnchor (th_ID thread) turnID "inProgress" (payloadLooksPCOriginPayload payload) in
  if String.eqb turnID "" then inr unavailable_source
  else if isTerminalStatus (th_Status thread) then
    inl (mkSource (th_ID thread) turnID
           (mkAnchor (th_ID thread) turnID (canonicalMinimalTerminalStatus (th_Status thread)) (an_PCOrigin anchor))
           (set_th_ActiveTurnID "" thread))
  else if negb (String.eqb turnID (trim_space (th_ActiveTurnID thread))) then inr unavailable_source
  else inl (mkSource (th_ID thread) turnID anchor thread).

Definition sourceOfThread (thread : Thread) (turnID : string) (payload : obj) : Source + start_error :=
  match resolveSourceAnchor payload turnID with
  | inl anchor => inl (mkSource (an_ThreadID anchor) (an_TurnID anchor) anchor thread)
  | inr SourceInProgress => sourceInProgress thread turnID payload
  | inr e => inr (SourceFailed e)
  end.

Definition located (source : Source) : Source :=
  if String.eqb (so_ThreadID source) "" && negb (String.eqb (so_TurnID source) "")
  then mkSource (th_ID (so_thread source)) (so_TurnID source) (so_anchor source) (so_thread source) else source.

Definition resolveSource (canonical : option MinimalLinkedThread) (linked : bool) (thread : Thread) (turnID : string)
    (payload : obj) : Source + start_error :=
  match match canonical with
        | Some link => if linked then sourceOfThread thread turnID payload else sourceOfLink link thread
        | None => sourceOfThread thread turnID payload
        end with
  | inl source => inl (located source)
  | inr e => inr e
  end.

(** What is submitted: the text, its prompt and the turn that it names. *)
Record Submission : Type := mkSubmission {
  sb_inbound : InboundText;
  sb_prompt : string;
  sb_explicit : string }.

Section submit.
Context `{GateCodec} (pk : PickerService) (now : instant).

Local Abbreviation sv := (ps_Service pk).
Local Abbreviation o := (sv_Observer sv).
Local Abbreviation r := (ob_Router o).

Definition liveSession : W ServiceSession :=
  match connected_session (sv_LiveConnected sv) (sv_Live sv) with
  | Some live => w_ret live
  | None => w_fail (Plain "live app-server session is not ready")
  end.

Definition readSourceAnchorPayload (live : ServiceSession) (threadID : string) : W (outcome obj) :=
  if is_blank threadID then w_ret (Done []) else w_call (fun call => se_ThreadRead live call threadID true).

(** The link whose conversation the thread is, in this chat. *)
Definition link_of (inbound : InboundText) (threadID : string) : W (option MinimalLinkedThread) :=
  w! link := w_reads (GetMinimalLinkedThreadByLinkedID (ro_Protector r) threadID) in
  w_ret (match link with Some l => if link_here inbound l then Some l else None | None => None end).

Definition routeMayHaveLink (inbound : InboundText) (threadID explicit : string) : W bool :=
  w! may := w_reads (minimalRouteMayHaveCanonicalLink (ro_Protector r) inbound threadID) in
  if String.eqb explicit "" then w! own := link_of inbound threadID in w_ret (bool_decide (is_Some own))
  else w_ret may.

(** The thread that the decision names takes the place of the thread of the reply. *)
Definition translateTo (thread : Thread) (turnID : string) (decision : minimalLinkedRouteDecision) (read : outcome obj)
  : W Translated :=
  if negb (String.eqb (de_ThreadID decision) "") && negb (String.eqb (de_ThreadID decision) (th_ID thread)) then
    w! linked := w_gets (GetThread (de_ThreadID decision)) in
    match linked with
    | None => w_fail (Plain "canonical linked Codex thread is unavailable")
    | Some linked => w_ret (mkTranslated linked (de_SourceTurnID decision) (Some read) true)
    end
  else w_ret (mkTranslated thread turnID (Some read) false).

(** The answer is of a reply that cannot be joined to its linked conversation. *)
Definition translateRoute (inbound : InboundText) (live : ServiceSession) (thread : Thread) (turnID : string)
  : W (Translated + DirectResponse) :=
  w! may := routeMayHaveLink inbound (th_ID thread) turnID in
  if negb may then w_ret (inl (mkTranslated thread turnID None false))
  else
    w! read := readSourceAnchorPayload live (th_ID thread) in
    w! answer := w_gets (resolveMinimalLinkedRoute (ro_Protector r) inbound (th_ID thread) turnID (payload_of read)) in
    let '(decision, err) := answer in
    let answered text := w_ret (inr (routed text (de_ThreadID decision) (de_SourceTurnID decision))) in
    match err with
    | Some (RouteSource SourceDiverged) => answered minimalLinkedSourceDivergedText
    | Some (RouteSource SourceUnavailable) => answered minimalLinkedSourceUnavailableText
    | Some (RouteSource e) => w_fail (SourceFailed e)
    | Some (RouteStore e) => w_fail (Plain e)
    | None => w! translated := translateTo thread turnID decision read in w_ret (inl translated)
    end.

(** *** Starting *)
Definition enqueueSubmission (sb : Submission) (thread : Thread) (project : Project) (source : Source) : W unit :=
  w_tx (ro_enqueuePending r (waiting_command (th_ID thread) (so_ThreadID source) (so_TurnID source) (pj_ID project)
                              (sb_inbound sb) (sb_prompt sb))).

(** The answer to a start on the thread itself, which may have changed. *)
Definition answered_start (turnID : string) (start : RouterWorld -> StartedThread * RouterWorld) : W DirectResponse :=
  w! answer := w_state start in
  w_lift (minimalContinuationStartResponse answer.1 (th_ID answer.2) turnID).

(** An explicit reply to a turn that ended, while its thread is at work. *)
Definition continueEndedSource (sb : Submission) (thread : Thread) (project : Project) (source : Source) : W DirectResponse :=
  let inbound := sb_inbound sb in
  let anchor := so_anchor source in
  let prompt := sb_prompt sb in
  let active := trim_space (th_ActiveTurnID thread) in
  w! backlog := w_gets (HasPendingCommandBacklogForSource (in_ChatID inbound) (in_TopicID inbound) (so_ThreadID source)
                          (so_TurnID source)) in
  if backlog : bool then
    w_step (enqueueBehindSourceBacklogAndStartOldest r now inbound thread project (so_ThreadID source) (so_TurnID source) prompt)
  else
    w! ours := w_gets (isTelegramOriginTurn (th_ID thread) (th_ActiveTurnID thread)) in
    if negb (String.eqb active "") && negb (String.eqb active (so_TurnID source)) && ours then
      w! _ := enqueueSubmission sb thread project source in
      w_ret (routed queuedText (th_ID thread) (th_ActiveTurnID thread))
    else
      w! continues := w_gets (shouldUseContinuationForSource thread anchor) in
      if continues : bool then
        w! started := w_state (startLinkedTurn r now inbound thread project anchor prompt) in
        w_lift (minimalContinuationStartResponse started (th_ID thread) (so_TurnID source))
      else answered_start (so_TurnID source) (startResumedOrLinkedTurn r now inbound thread project anchor prompt).

Definition startOnSource (sb : Submission) (project : Project) (linked : bool) (source : Source) : W DirectResponse :=
  let thread := so_thread source in
  let anchor := so_anchor source in
  let allowSourceLink := negb (String.eqb (sb_explicit sb) "") || linked in
  if (allowSourceLink || negb (an_PCOrigin anchor)) && threadLooksActiveForInput thread then
    if negb (String.eqb (sb_explicit sb) "") && negb (String.eqb (so_TurnID source) "")
       && isTerminalStatus (an_Status anchor)
    then continueEndedSource sb thread project source
    else
      w! _ := enqueueSubmission sb thread project source in
      w! text := w_gets (activeQueueResponseText (so_ThreadID source) (so_TurnID source) (th_ActiveTurnID thread)) in
      w_ret (routed text (th_ID thread) (th_ActiveTurnID thread))
  else answered_start (so_TurnID source)
         (startResumedOrLinkedTurnWithPolicy r now (sb_inbound sb) thread project anchor (sb_prompt sb) allowSourceLink).

(** The conversation of a link goes on through the link. *)
Definition startOnLink (sb : Submission) (thread : Thread) (project : Project) (link : MinimalLinkedThread) (source : Source)
  : W DirectResponse :=
  let parent := mkThread (trim_space (lt_SourceThreadID link)) (lt_SourceTitle link) (pj_CanonicalPath project)
                  (pj_DisplayName project) "" 0 "" "" "" "" "" false None in
  w! started := w_state (startCanonicalLinkedTurn r now (sb_inbound sb) link parent project (so_anchor source) (sb_prompt sb)) in
  w_lift (minimalContinuationStartResponse started (th_ID thread) (so_TurnID source)).

(** *** A text for a thread *)

(** The thread as it is stored now, with the project it is in. *)
Definition threadOfProject (thread0 : Thread) (expectedProjectID : string) : W (Thread * Project) :=
  w! current := w_gets (GetThread (th_ID thread0)) in
  let thread := from_option (keep_title thread0) thread0 current in
  w! found := w_lift (projectForThread r thread) in
  if negb (is_blank expectedProjectID) && negb (String.eqb (pj_ID found.1) (trim_space expectedProjectID))
  then w_fail (Plain "resolved voice project no longer matches routed thread")
  else w_ret (set_th_CWD found.2 thread, found.1).

(** The link is read before the project. *)
Definition submitTranslated (sb : Submission) (live : ServiceSession) (expectedProjectID : string) (to : Translated)
  : W DirectResponse :=
  w! refreshed := refreshThreadForOperation sv now live (th_ID (tr_thread to)) in
  let thread0 := keep_title (tr_thread to) refreshed in
  w! read := match tr_read to with
             | Some read => w_ret read
             | None => readSourceAnchorPayload live (th_ID thread0)
             end in
  w! current := w_gets (GetThread (th_ID thread0)) in
  w! canonical := link_of (sb_inbound sb) (th_ID (default thread0 current)) in
  w! found := threadOfProject thread0 expectedProjectID in
  w! source := w_lift (resolveSource canonical (tr_linked to) found.1 (tr_turnID to) (payload_of read)) in
  w! _ := w_modify (markPCOriginThreadFromPayload now (so_ThreadID source) (payload_of read)) in
  match read, String.eqb (so_TurnID source) "" with
  | Fault e, false => w_fail (start_of_fault e)
  | _, _ =>
      match canonical with
      | Some link => startOnLink sb (so_thread source) found.2 link source
      | None => startOnSource sb found.2 (tr_linked to) source
      end
  end.

Definition submitThread (inbound : InboundText) (prompt threadID expectedProjectID sourceTurnID0 : string) : W DirectResponse :=
  w! thread := w_gets (GetThread (trim_space threadID)) in
  match thread with
  | None => w_fail (Plain "routed Codex thread is unavailable")
  | Some thread =>
      w! live := liveSession in
      let sourceTurnID := trim_space sourceTurnID0 in
      w! translated := translateRoute inbound live thread sourceTurnID in
      match translated with
      | inr answer => w_ret answer
      | inl to => submitTranslated (mkSubmission inbound prompt sourceTurnID) live expectedProjectID to
      end
  end.

(** *** A text *)
Definition submitNewProject (inbound : InboundText) (prompt projectID : string) : W DirectResponse :=
  w! project := w_lift (resolveProject r projectID) in
  w! started := w_state (startNewProjectOnWorker r now inbound project prompt) in
  match started with
  | (_, Some e) => w_fail e
  | (result, None) => w_ret (routed "새 작업을 시작했습니다." (result_threadID result) (cs_turnID result))
  end.

Definition submitNew (inbound : InboundText) (prompt : string) : W DirectResponse :=
  w! projectID := w_gets (GetSelectedProject (in_ChatID inbound) (in_TopicID inbound)) in
  if is_blank projectID then minimalProjectPicker pk now
  else
    w! bound := minimalBoundThreadForProject pk now (in_ChatID inbound) (in_TopicID inbound) projectID in
    match bound with
    | Some thread => submitThread inbound prompt (th_ID thread) projectID ""
    | None => submitNewProject inbound prompt projectID
    end.

Definition submitReply (inbound : InboundText) (prompt : string) : W DirectResponse :=
  w! route := w_gets (ResolveMessageRoute (in_ChatID inbound) (in_TopicID inbound) (in_ReplyToMessageID inbound)) in
  match route with
  | Some route => if is_blank (mr_ThreadID route) then w_fail (Plain "reply target is not routed to a Codex thread")
                  else submitThread inbound prompt (mr_ThreadID route) "" (mr_TurnID route)
  | None => w_fail (Plain "reply target is not routed to a Codex thread")
  end.

Definition Submit (inbound : InboundText) : W DirectResponse :=
  let prompt := trim_space (in_Text inbound) in
  if negb (String.eqb (ob_Profile o) "minimal") then w_fail (Plain "minimal router is unavailable")
  else if String.eqb prompt "" then w_fail (Plain "prompt is required")
  else if negb (in_ReplyToMessageID inbound =? 0)%Z then submitReply inbound prompt
  else submitNew inbound prompt.

Definition SubmitResolved (inbound : InboundText) (target : ResolvedTarget) (prompt0 : string) : W DirectResponse :=
  let prompt := trim_space prompt0 in
  if negb (String.eqb (ob_Profile o) "minimal") then w_fail (Plain "minimal router is unavailable")
  else if String.eqb prompt "" then w_fail (Plain "prompt is required")
  else if String.eqb (tg_TargetKind target) VoiceTargetNew then submitNewProject inbound prompt (tg_ProjectID target)
  else if String.eqb (tg_TargetKind target) VoiceTargetThread
  then submitThread inbound prompt (tg_ThreadID target) (tg_ProjectID target) (tg_SourceTurnID target)
  else w_fail (Plain "resolved target is invalid").

End submit.
