(* ===== verification/SubmitSafety.v ===== *)
(** * What a submitted text may do

    A submission makes only sandboxed turn/start requests, at most one for the text and
    one for a command that the refresh of the thread found waiting. *)
From stdpp Require Import base list numbers strings gmap relations.
From Stdlib Require Import Lia Ascii.
From S2P Require Import Prelude QueueSafety GoStrings GoTime Utf8 Sql Json Model Normalize NotifierFormat MinimalTables CoreTables Store Daemon NotifierObserver NotifierIngress.
From S2P Require Import Threads Panels TerminalGate LinkedThread PendingCommands Continuations Observations Projects LinkWorkers ApprovalHandlers Routing Starts Router RouterSafety Drain.
From S2P Require Import Terminal TerminalReport TerminalRelease LiveTools Polling PollingSafety Voice Catalog CatalogSafety Submit.

(** A function that starts at most [k] turns. *)
Definition w_runs {A : Type} (r : Router) (k : nat) (m : W A) : Prop :=
  forall w a w', m w = Some (a, w') -> runs_upto r k w w'.

(** A chat whose replies go to a thread, or to the conversation linked to it. *)
Definition ex_live (turns : list any) : ServiceSession :=
  mkServiceSession (fun _ _ _ => Done [("thread", JObj [("id", JStr "t"); ("cwd", JStr "/work/alpha"); ("status", JStr "idle");
                                         ("turns", JArr turns)])])
    (fun _ _ _ => Done []).

Definition ex_chat (turns : list any) : PickerService :=
  mkPickerService (mkService ex_observer ex_service (Some (ex_live turns)) true None false 0)
    (fun n => "token-" +:+ format_int (Z.of_nat n)) None (fun _ _ => "") (fun _ => None) 3.

Definition ex_routed (links : list LinkedRow) (turnID : string) : RouterWorld :=
  let s := set_linked links (run_ignored (UpsertThread ex_thread) emptyStore) in
  mkRouterWorld (run_ignored (PutMessageRoute (mkMessageRoute 7 0 9 "t" turnID "" "" "")) s)
    (Some (newMinimalLinkWorkerManager "n")) 0 [] 0 [] [].

Definition ex_text : InboundText := mkInboundText 7 0 7 10 9 "go on" 0%Z.

Definition ex_fork : LinkedRow :=
  mkLinkedRow "7:0" 7 0 "Alpha" "t" (Some "fork") "turn-0" None None
    MinimalLinkedTitlePending MinimalLinkedReady None 0 None None None "" "" None.

(** The text replies to a turn of a thread that a linked conversation of the chat continues. *)
Record replies_to_linked (pk : PickerService) (inbound : InboundText) (w : RouterWorld) (live : ServiceSession)
    (route : MessageRoute) (thread : Thread) (link : MinimalLinkedThread) : Prop := {
  rl_profile : ob_Profile (sv_Observer (ps_Service pk)) = "minimal";
  rl_text : is_blank (in_Text inbound) = false;
  rl_reply : (in_ReplyToMessageID inbound <> 0)%Z;
  rl_route : ResolveMessageRoute (in_ChatID inbound) (in_TopicID inbound) (in_ReplyToMessageID inbound) (rw_Store w) = Some route;
  rl_turn : is_blank (mr_TurnID route) = false;
  rl_thread : GetThread (trim_space (mr_ThreadID route)) (rw_Store w) = Some thread;
  rl_id : th_ID thread = trim_space (mr_ThreadID route) /\ th_ID thread <> "";
  rl_live : connected_session (sv_LiveConnected (ps_Service pk)) (sv_Live (ps_Service pk)) = Some live;
  rl_own : GetMinimalLinkedThreadByLinkedID (ro_Protector (ob_Router (sv_Observer (ps_Service pk)))) (th_ID thread)
             (rw_Store w) = Ok None;
  rl_link : GetMinimalLinkedThread (ro_Protector (ob_Router (sv_Observer (ps_Service pk)))) (in_ChatID inbound)
              (in_TopicID inbound) (th_ID thread) (rw_Store w) = Ok (Some link);
  rl_linked : is_blank (lt_LinkedThreadID link) = false }.

(** ** Runs *)

Section runs.
Context `{GateCodec} (pk : PickerService) (now : instant).

Local Abbreviation sv := (ps_Service pk).
Local Abbreviation o := (sv_Observer sv).
Local Abbreviation r := (ob_Router o).

Context (HL : RouterLaws r now).

Lemma upto_le i j w w' : (i <= j)%nat -> runs_upto r i w w' -> runs_upto r j w w'.
Proof using. intros Hij (n & Hn & [Hk|?]); exists n; (split; [done|]); [left; lia|by right]. Qed.

Lemma wr_le {A} i j (m : W A) : (i <= j)%nat -> w_runs r i m -> w_runs r j m.
Proof using. intros Hij Hm w a w' E. eapply upto_le; [done|]. by eapply Hm. Qed.

Lemma wr_bind {A B} i j (m : W A) (f : A -> W B) :
  w_runs r i m -> (forall a, w_runs r j (f a)) -> w_runs r (i + j) (w_bind m f).
Proof using.
  intros Hm Hf w b w'. unfold w_bind. destruct (m w) as [[[a|e] w1]|] eqn:E; [| |done].
  - intros E2. eapply upto_trans; [by eapply Hm|by eapply Hf].
  - intros [= <- <-]. eapply (upto_le i); [lia|]. by eapply Hm.
Qed.

(** The first function starts nothing. *)
Lemma wr_then {A B} k (m : W A) (f : A -> W B) : w_runs r 0 m -> (forall a, w_runs r k (f a)) -> w_runs r k (w_bind m f).
Proof using. intros Hm Hf. by apply (wr_bind 0 k). Qed.

Lemma wr_ret {A} k (a : A) : w_runs r k (w_ret a).
Proof using. intros w x w' [= _ <-]. apply upto_refl. Qed.

Lemma wr_fail {A} k e : w_runs r k (w_fail (A := A) e).
Proof using. intros w x w' [= _ <-]. apply upto_refl. Qed.

Lemma wr_lift {A} k (a : A + start_error) : w_runs r k (w_lift a).
Proof using. intros w x w' [= _ <-]. apply upto_refl. Qed.

Lemma wr_gets {A} k (f : Store -> A) : w_runs r k (w_gets f).
Proof using. intros w x w' [= _ <-]. apply upto_refl. Qed.

Lemma wr_reads {A} k (f : Store -> res A) : w_runs r k (w_reads f).
Proof using. intros w x w' [= _ <-]. apply upto_refl. Qed.

Lemma wr_call {A} k (f : nat -> A) : w_runs r k (w_call f).
Proof using. intros w x w' [= _ <-]. apply upto_called, upto_refl. Qed.

Lemma wr_modify k f : w_runs r k (w_modify f).
Proof using. intros w x w' [= _ <-]. apply upto_store, upto_refl. Qed.

Lemma wr_tx {A} k (m : Tx Store A) : w_runs r k (w_tx m).
Proof using. intros w x w' [= E]. eapply upto_tx; [exact E|apply upto_refl]. Qed.

Lemma wr_state {A} (f : RouterWorld -> A * RouterWorld) k :
  (forall w a w', f w = (a, w') -> runs_upto r k w w') -> w_runs r k (w_state f).
Proof using.
  intros Hf w x w'. unfold w_state. destruct (f w) as [a w1] eqn:E. intros [= _ <-]. by eapply Hf.
Qed.

Lemma wr_map {A B} (f : A -> W B) l : (forall x, w_runs r 0 (f x)) -> w_runs r 0 (w_map f l).
Proof using.
  intros Hf. induction l as [|x l IH]; [apply wr_ret|]. apply wr_then; [apply Hf|]. intros y.
  apply wr_then; [exact IH|]. intros ys. apply wr_ret.
Qed.

End runs.

Create HintDb w_runs.
#[export] Hint Resolve wr_ret wr_fail wr_lift wr_gets wr_reads wr_call wr_modify wr_tx : w_runs.

(** Goes through a function, branch by branch. *)
Ltac w_walk :=
  repeat first
    [ solve [eauto with w_runs]
    | apply wr_then; [solve [eauto with w_runs]|intros ?]
    | match goal with |- w_runs _ _ (if ?b then _ else _) => destruct b end
    | match goal with |- w_runs _ _ (match ?x with _ => _ end) => destruct x end ].

Section submit.
Context `{GateCodec} (pk : PickerService) (now : instant).

Local Abbreviation sv := (ps_Service pk).
Local Abbreviation o := (sv_Observer sv).
Local Abbreviation r := (ob_Router o).

Context (HL : RouterLaws r now).

Lemma wr_button chatID topicID label action projectID threadID page :
  w_runs r 0 (minimalPickerButton pk now chatID topicID label action projectID threadID page).
Proof using. unfold minimalPickerButton, randomToken. w_walk. Qed.

Lemma wr_callback_button label action projectID : w_runs r 0 (minimalCallbackButton pk now label action projectID).
Proof using. unfold minimalCallbackButton, randomToken. w_walk. Qed.

Lemma wr_project_picker : w_runs r 0 (minimalProjectPicker pk now).
Proof using.
  unfold minimalProjectPicker. apply wr_then; [|intros ?; apply wr_ret]. apply wr_map. intros x. apply wr_callback_button.
Qed.

Lemma wr_session : w_runs r 0 (minimalCatalogSession pk).
Proof using. unfold minimalCatalogSession. w_walk. Qed.

Lemma wr_read_existing session project threadID : w_runs r 0 (readMinimalExistingThread pk session project threadID).
Proof using.
  unfold readMinimalExistingThread. destruct (String.eqb _ ""); [apply wr_ret|]. apply wr_then; [apply wr_call|]. intros first.
  apply wr_then; [w_walk|]. intros answer. cbv zeta. w_walk.
Qed.

Lemma wr_bound chatID topicID projectID : w_runs r 0 (minimalBoundThreadForProject pk now chatID topicID projectID).
Proof using.
  unfold minimalBoundThreadForProject. destruct (String.eqb _ ""); [apply wr_ret|].
  apply wr_then; [apply wr_gets|intros selected]. destruct (negb _); [apply wr_ret|].
  apply wr_then; [apply wr_lift|intros project]. apply wr_then; [apply wr_gets|intros [b|]]; [|apply wr_ret].
  destruct (is_blank _); [apply wr_ret|]. apply wr_then; [apply wr_session|intros session].
  apply wr_then; [unfold minimalLinkedChildForBinding; w_walk|intros linked].
  apply wr_then; [apply wr_read_existing|intros read]. unfold boundThread. w_walk.
Qed.

Lemma wr_read_source live threadID : w_runs r 0 (readSourceAnchorPayload live threadID).
Proof using. unfold readSourceAnchorPayload. w_walk. Qed.

Lemma wr_link_of inbound threadID : w_runs r 0 (link_of pk inbound threadID).
Proof using. unfold link_of. w_walk. Qed.

Lemma wr_translate inbound live thread turnID : w_runs r 0 (translateRoute pk inbound live thread turnID).
Proof using.
  unfold translateRoute. apply wr_then.
  { unfold routeMayHaveLink. apply wr_then; [apply wr_reads|intros may]. destruct (String.eqb _ _); [|apply wr_ret].
    apply wr_then; [apply wr_link_of|intros ?; apply wr_ret]. }
  intros may. destruct (negb may); [apply wr_ret|]. apply wr_then; [apply wr_read_source|intros read].
  apply wr_then; [apply wr_gets|intros [decision err]]. destruct err as [[e|[]]|]; [w_walk..|].
  apply wr_then; [unfold translateTo; w_walk|intros ?; apply wr_ret].
Qed.

Lemma started_upto w a w' : start_ok r None w a w' -> runs_upto r 1 w w'.
Proof using.
  intros (n & Hn & He). exists n. split; [by eapply moves_runs|]. left. destruct He; lia.
Qed.

Lemma policy_upto inbound thread project anchor prompt allow w a w' :
  startResumedOrLinkedTurnWithPolicy r now inbound thread project anchor prompt allow w = (a, w') -> runs_upto r 1 w w'.
Proof using HL.
  destruct a as [a thread']. intros [Hs _]%(startPolicy_ok r now None HL); [by eapply started_upto|done].
Qed.

Lemma wr_answered turnID start :
  (forall w a w', start w = (a, w') -> runs_upto r 1 w w') -> w_runs r 1 (answered_start turnID start).
Proof using.
  intros Hs. unfold answered_start. apply (wr_bind pk 1 0); [by apply wr_state|intros ?; apply wr_lift].
Qed.

(** What is done of a claim runs nothing. *)
Lemma upto_released id k w0 w err w' : releaseClaimedCommand id w = (err, w') -> runs_upto r k w0 w -> runs_upto r k w0 w'.
Proof using. intros [H1 _]%(releaseClaimed_ok r) (n & Hn & Hk). exists n. split; [by apply H1|done]. Qed.

Lemma upto_failed id k w0 w err w' : failClaimedCommand r id w = (err, w') -> runs_upto r k w0 w -> runs_upto r k w0 w'.
Proof using HL. intros [H1 _]%(failClaimed_ok r now HL) (n & Hn & Hk). exists n. split; [by apply H1|done]. Qed.

Lemma upto_completed id k w0 w err w' : completeClaimedCommand r id w = (err, w') -> runs_upto r k w0 w -> runs_upto r k w0 w'.
Proof using HL. intros [H1 _]%(completeClaimed_ok r now HL) (n & Hn & Hk). exists n. split; [by apply H1|done]. Qed.

Lemma upto_notified command k w0 w : runs_upto r k w0 w -> runs_upto r k w0 (notifyFailedStart r now command w).
Proof using. intros (n & Hn & Hk). exists n. split; [by apply notify_store|done]. Qed.

Lemma queued_upto inbound thread project command w q w' :
  startQueuedCommand r now inbound thread project command w = (q, w') -> runs_upto r 1 w w'.
Proof using HL.
  intros (n & Hn & Hq)%(startQueued_ok r now HL None); [|done]. exists n. split; [by eapply moves_runs|].
  left. destruct q as [[? ?] ?]. by destruct Hq.
Qed.

(** A branch of the code at a time; a claim that is settled runs nothing. *)
Ltac settle_claims :=
  repeat match goal with
    | |- (let '(_, _) := ?x in _) = _ -> _ => let E := fresh "E" in destruct x as [? ?] eqn:E
    | |- (match ?x with _ => _ end) = _ -> _ => let E := fresh "E" in destruct x eqn:E
    end;
  repeat match goal with
    | E : releaseClaimedCommand _ _ = _ |- _ => eapply upto_released in E; [|by eauto]
    | E : failClaimedCommand _ _ _ = _ |- _ => eapply upto_failed in E; [|by eauto]
    | E : completeClaimedCommand _ _ _ = _ |- _ => eapply upto_completed in E; [|by eauto]
    end;
  try (let E := fresh "E" in intros E; injection E as _ <-; try apply upto_notified; done).

Lemma behind_upto inbound thread project sourceThreadID sourceTurnID prompt w a w' :
  enqueueBehindSourceBacklogAndStartOldest r now inbound thread project sourceThreadID sourceTurnID prompt w = (a, w') ->
  runs_upto r 1 w w'.
Proof using HL.
  unfold enqueueBehindSourceBacklogAndStartOldest. cbv zeta.
  destruct (tx _ w) as [[u|e] w1] eqn:E1; [|intros E; injection E as _ <-; eapply upto_tx; [done|apply upto_refl]].
  assert (H1 : runs_upto r 0 w w1) by (eapply upto_tx; [exact E1|apply upto_refl]).
  destruct (tx _ w1) as [claimed w2] eqn:E2. assert (H2 : runs_upto r 0 w w2) by (eapply upto_tx; [exact E2|done]).
  assert (H2' : runs_upto r 1 w w2) by (eapply (upto_le pk 0); [lia|done]).
  destruct claimed as [[[command|] [e|]]|e]; try (intros E; injection E as _ <-; done).
  assert (Hq : forall t p q w3, startQueuedCommand r now (inboundFromPendingCommand command) t p command w2 = (q, w3) ->
            runs_upto r 1 w w3).
  { intros t p q w3 Hq. eapply (upto_trans sv 0 1); [exact H2|by eapply queued_upto]. }
  destruct (String.eqb (trim_space (cmd_ThreadID command)) (th_ID thread)).
  - destruct (startQueuedCommand _ _ _ _ _ _ w2) as [[[turnID startErr] thread3] w3] eqn:E3. apply Hq in E3. settle_claims.
  - destruct (GetThread _ _) as [loaded|]; [|settle_claims].
    destruct (claimedProject r loaded command) as [[loadedProject cwd]|e]; [|settle_claims].
    destruct (startQueuedCommand _ _ _ _ _ _ w2) as [[[turnID startErr] thread3] w3] eqn:E3. apply Hq in E3. settle_claims.
Qed.

(** *** Turns on a new thread *)
Lemma startNewOnWorker_ok worker inbound project prompt w x rel w' :
  startNewOnWorker r now worker inbound project prompt w = ((x, rel), w') ->
  exists n, moves r None n w w' /\ (n <= 1)%nat.
Proof using HL.
  assert (Hfail : forall e w1, moves r None 0 w w1 -> ((failed_start e, true), w1) = ((x, rel), w') ->
            exists n, moves r None n w w' /\ (n <= 1)%nat).
  { intros e w1 Hm [= <- <- <-]. exists 0%nat. split; [done|lia]. }
  unfold startNewOnWorker. destruct (on_session _ _ w) as [answer w1] eqn:E1. apply m_on_session with (r := r) (T := None) in E1.
  destruct answer as [payload|e]; [|by apply Hfail]. cbv zeta. destruct (String.eqb _ ""); [by apply Hfail|].
  destruct (resolveProject _ _) as [project'|e]; [|by apply Hfail].
  destruct (bindWorker worker _ w1) as [[u|e] w2] eqn:E2; apply m_bind with (r := r) (T := None) in E2;
    (assert (H2 : moves r None 0 w w2) by (by eapply moves_before)); [|by eapply Hfail].
  destruct (tx _ w2) as [persisted w3] eqn:E3.
  assert (H3 : moves r None 0 w w3) by (eapply moves_before; [done|]; eapply m_tx, E3; by eapply k_router_persist).
  destruct persisted; [|by eapply Hfail]. destruct (tx _ w3) as [bound w4] eqn:E4.
  assert (H4 : moves r None 0 w w4).
  { eapply moves_before; [done|]. eapply m_tx, E4. apply k_bind. }
  destruct bound; [|by eapply Hfail].
  destruct (startLoadedTurn _ _ _ _ _ _ _ w4) as [[[turnID err] thread1] w5] eqn:E5.
  destruct (startLoadedTurn_ok r now None HL _ _ _ _ _ _ _ _ E5) as (n & Hn & Ht).
  assert (H5 : moves r None n w w5) by (by eapply moves_before).
  assert (Hle : (n <= 1)%nat) by (destruct Ht as [(-> & _)|(-> & _)]; lia).
  destruct err as [e|]; [destruct (is_blank_id turnID)|]; intros [= _ _ <-]; by exists n.
Qed.

Lemma startNewProject_upto inbound project prompt w a w' :
  startNewProjectOnWorker r now inbound project prompt w = (a, w') -> runs_upto r 1 w w'.
Proof using HL.
  unfold startNewProjectOnWorker. destruct (bool_decide _); [intros [= _ <-]; apply upto_refl|].
  destruct (acquireWorker r _ _ w) as [[worker|e] w1] eqn:E1; apply m_acquire with (T := None) in E1.
  2: { intros [= _ <-]. exists 0%nat. split; [by eapply moves_runs|left; lia]. }
  intros E2. destruct (releasing_ok r None _ _ _ _ _ (fun _ n => (n <= 1)%nat) E2) as (n & Hn & Hle).
  { intros x rel w2. apply startNewOnWorker_ok. }
  exists n. split; [|by left]. eapply moves_runs. by eapply moves_before.
Qed.

(** *** Submissions *)
Lemma wr_enqueue sb thread project source : w_runs r 0 (enqueueSubmission pk sb thread project source).
Proof using. apply wr_tx. Qed.

Lemma wr_ended sb thread project source : w_runs r 1 (continueEndedSource pk now sb thread project source).
Proof using HL.
  unfold continueEndedSource. apply wr_then; [apply wr_gets|intros [|]].
  - intros w a w' [= E]. by eapply behind_upto.
  - apply wr_then; [apply wr_gets|intros ours]. destruct (_ && _).
    + apply wr_then; [apply wr_enqueue|intros ?; apply wr_ret].
    + apply wr_then; [apply wr_gets|intros [|]].
      * apply (wr_bind pk 1 0); [|intros ?; apply wr_lift]. apply wr_state. intros w a w' E.
        eapply started_upto, (startLinked_ok r now None HL); [done|exact E].
      * apply wr_answered. intros w a w'. apply policy_upto.
Qed.

Lemma wr_on_source sb project linked source : w_runs r 1 (startOnSource pk now sb project linked source).
Proof using HL.
  unfold startOnSource. destruct (_ && _).
  - destruct (_ && _); [apply wr_ended|]. apply wr_then; [apply wr_enqueue|intros ?].
    apply wr_then; [apply wr_gets|intros ?; apply wr_ret].
  - apply wr_answered. intros w a w'. apply policy_upto.
Qed.

Lemma wr_on_link sb thread project link source : w_runs r 1 (startOnLink pk now sb thread project link source).
Proof using HL.
  unfold startOnLink. apply (wr_bind pk 1 0); [|intros ?; apply wr_lift]. apply wr_state. intros w a w' E.
  eapply started_upto, (startCanonical_ok r now None HL); [exact E|by right].
Qed.

Lemma wr_translated sb live expectedProjectID to : w_runs r 2 (submitTranslated pk now sb live expectedProjectID to).
Proof using HL.
  unfold submitTranslated. apply (wr_bind pk 1 1).
  { intros w a w'. by apply refreshThread_runs. }
  intros refreshed. apply wr_then; [destruct (tr_read to); [apply wr_ret|apply wr_read_source]|intros read].
  apply wr_then; [apply wr_gets|intros current]. apply wr_then; [apply wr_link_of|intros canonical].
  apply wr_then; [unfold threadOfProject; w_walk|intros found]. apply wr_then; [apply wr_lift|intros source].
  apply wr_then; [apply wr_modify|intros _].
  assert (Hon : w_runs r 1 (match canonical with
    | Some link => startOnLink pk now sb (so_thread source) found.2 link source
    | None => startOnSource pk now sb found.2 (tr_linked to) source
    end)) by (destruct canonical; [apply wr_on_link|apply wr_on_source]).
  destruct read; [exact Hon|]. destruct (String.eqb (so_TurnID source) ""); [exact Hon|apply wr_fail].
Qed.

Lemma wr_thread inbound prompt threadID expectedProjectID sourceTurnID :
  w_runs r 2 (submitThread pk now inbound prompt threadID expectedProjectID sourceTurnID).
Proof using HL.
  unfold submitThread. apply wr_then; [apply wr_gets|intros [thread|]]; [|apply wr_fail].
  apply wr_then; [unfold liveSession; w_walk|intros live]. apply wr_then; [apply wr_translate|intros [to|answer]].
  - apply wr_translated.
  - apply wr_ret.
Qed.

Lemma wr_new_project inbound prompt projectID : w_runs r 1 (submitNewProject pk now inbound prompt projectID).
Proof using HL.
  unfold submitNewProject. apply wr_then; [apply wr_lift|intros project].
  apply (wr_bind pk 1 0); [|intros [? [?|]]; [apply wr_fail|apply wr_ret]].
  apply wr_state. intros w a w'. apply startNewProject_upto.
Qed.

Lemma wr_submit inbound : w_runs r 2 (Submit pk now inbound).
Proof using HL.
  unfold Submit. destruct (negb _); [apply wr_fail|]. destruct (String.eqb _ ""); [apply wr_fail|]. destruct (negb _).
  - unfold submitReply. apply wr_then; [apply wr_gets|intros [route|]]; [|apply wr_fail].
    destruct (is_blank _); [apply wr_fail|apply wr_thread].
  - unfold submitNew. apply wr_then; [apply wr_gets|intros projectID].
    destruct (is_blank _); [apply (wr_le pk 0); [lia|apply wr_project_picker]|].
    apply wr_then; [apply wr_bound|intros [thread|]]; [apply wr_thread|].
    apply (wr_le pk 1); [lia|apply wr_new_project].
Qed.

Lemma wr_resolved inbound target prompt : w_runs r 2 (SubmitResolved pk now inbound target prompt).
Proof using HL.
  unfold SubmitResolved. destruct (negb _); [apply wr_fail|]. destruct (String.eqb _ ""); [apply wr_fail|].
  destruct (String.eqb _ _); [apply (wr_le pk 1); [lia|apply wr_new_project]|].
  destruct (String.eqb _ _); [apply wr_thread|apply wr_fail].
Qed.
End submit.

(** ** Theorems *)

(** C8: Submitting a text is a run of the machine of the workers, whatever other callers are
    in flight and whatever App Server answers; it makes only sandboxed turn/start requests
    and starts at most two turns, one for the text and one for a command that waited for a
    turn whose end is read on the way, unless the store could not take a thread. *)
Theorem submit_runs_workers `{GateCodec} pk now inbound w answer w' m nonce acquires closing finishing :
  let r := ob_Router (sv_Observer (ps_Service pk)) in
  RouterLaws r now -> Submit pk now inbound w = Some (answer, w') -> rw_Workers w = Some m ->
  worker_reachable nonce (mkSystem m acquires (rw_Made w) closing finishing (rw_Closed w)) ->
  (exists m', rw_Workers w' = Some m'
    /\ ((Z.of_nat (length (mg_Heap m')) + 1 < 2 ^ 64)%Z ->
        worker_reachable nonce (mkSystem m' acquires (rw_Made w') closing finishing (rw_Closed w'))))
  /\ exists l, rw_Turns w' = rw_Turns w ++ l /\ Forall (sandboxed r) l.*1
       /\ ((length (omap snd l) <= 2)%nat \/ persist_fails r).
Proof.
  intros r HL E Hm Hr. destruct (wr_submit pk now HL inbound _ _ _ E) as (n & [(l & Hl & Hn & Hs) HW] & Hle). split.
  - unfold workers_run in HW. rewrite Hm in HW. destruct (rw_Workers w') as [m'|]; [|done]. destruct HW as [_ HW].
    exists m'. split; [done|]. intros Hb. unfold worker_reachable in *. etrans; [exact Hr|].
    apply HW; [|done]. by eapply reachable_inv.
  - exists l. split; [done|]. split; [done|]. by rewrite Hn.
Qed.

Theorem submit_runs_workers_witness :
  match @Submit ex_codec (ex_chat [ex_turn "turn-0" "completed"]) ex_now ex_text (ex_routed [] "turn-0") with
  | Some (_, w') => map (fun c => (tc_Prompt c.1, c.2)) (rw_Turns w') = [("go on", Some "turn-4")]
      /\ exists m', rw_Workers w' = Some m' /\ worker_reachable "n" (mkSystem m' [] (rw_Made w') [] [] (rw_Closed w'))
  | None => False
  end.
Proof.
  assert (H : match @Submit ex_codec (ex_chat [ex_turn "turn-0" "completed"]) ex_now ex_text (ex_routed [] "turn-0") with
              | Some (_, w') => map (fun c => (tc_Prompt c.1, c.2)) (rw_Turns w') = [("go on", Some "turn-4")]
                  /\ option_map (fun m => length (mg_Heap m)) (rw_Workers w') = Some 1%nat
              | None => False end) by (vm_compute; repeat split).
  destruct (@Submit ex_codec (ex_chat [ex_turn "turn-0" "completed"]) ex_now ex_text (ex_routed [] "turn-0"))
    as [[answer w']|] eqn:E; [|exact H].
  destruct H as [H1 H2]. split; [exact H1|].
  destruct (@submit_runs_workers ex_codec (ex_chat [ex_turn "turn-0" "completed"]) ex_now ex_text (ex_routed [] "turn-0")
              answer w' (newMinimalLinkWorkerManager "n") "n" [] [] []
              (newMinimalRouter_laws _ _ _ _ _ _ _) E eq_refl (rtc_refl _ _)) as [(m' & Hm & Hr) _].
  exists m'. split; [exact Hm|]. apply Hr. rewrite Hm in H2. injection H2 as ->. reflexivity.
Defined.

(** C7: A reply to a turn of a thread that a linked conversation of the chat continues is
    acted on only when that turn is at or before the anchor of the link, by what App Server
    reads; else it is answered with the reason, and nothing is started, queued or stored. *)
Theorem reply_joins_in_order `{GateCodec} pk now inbound w live route thread link answer w' :
  let read := payload_of (se_ThreadRead live (rw_Calls w) (th_ID thread) true) in
  replies_to_linked pk inbound w live route thread link -> Submit pk now inbound w = Some (answer, w') ->
  minimalSourceTurnRelation read (lt_SourceAnchorTurnID link) (trim_space (mr_TurnID route)) = inl minimalTurnAtOrBefore
  \/ w' = called w
     /\ exists text, answer = inl (routed text (trim_space (lt_LinkedThreadID link)) (trim_space (lt_SourceAnchorTurnID link)))
        /\ (text = minimalLinkedSourceDivergedText \/ text = minimalLinkedSourceUnavailableText).
Proof.
  intros read [Hp Ht Hr Hroute Hturn Hthread [Hid Hne] Hlive Hown Hlink Hlinked] E.
  assert (Htrim : trim_space (th_ID thread) = th_ID thread) by (rewrite Hid; apply trim_space_idemp).
  unfold Submit in E. rewrite Hp in E. change (String.eqb (trim_space (in_Text inbound)) "") with (is_blank (in_Text inbound)) in E.
  rewrite Ht, (proj2 (Z.eqb_neq _ _) Hr) in E. change (negb (String.eqb "minimal" "minimal")) with false in E. cbn [negb] in E.
  unfold submitReply in E. rewrite run_gets, Hroute in E. unfold is_blank at 1 in E.
  rewrite <- Hid, (proj2 (String.eqb_neq _ _) Hne) in E. unfold submitThread in E.
  rewrite run_gets, <- Hid in E. rewrite <- Hid in Hthread. rewrite Hthread in E.
  unfold liveSession in E. rewrite Hlive, run_ret in E. cbv zeta in E.
  unfold translateRoute in E. rewrite run_bind in E. unfold routeMayHaveLink in E. rewrite run_bind in E.
  assert (Hmay : minimalRouteMayHaveCanonicalLink (ro_Protector (ob_Router (sv_Observer (ps_Service pk)))) inbound
                   (th_ID thread) (rw_Store w) = Ok true).
  { unfold minimalRouteMayHaveCanonicalLink. rewrite Htrim, (proj2 (String.eqb_neq _ _) Hne), Hown. cbn [res_bind].
    rewrite Hlink. cbn [res_bind]. unfold is_blank in Hlinked. by rewrite Hlinked. }
  rewrite (run_reads _ _ _ _ Hmay) in E. unfold is_blank in Hturn. rewrite Hturn, run_ret in E. cbn [negb] in E.
  rewrite run_bind in E. unfold readSourceAnchorPayload, is_blank in E. rewrite Htrim, (proj2 (String.eqb_neq _ _) Hne), run_call in E.
  rewrite run_bind, run_gets in E. cbn [rw_Store called] in E. unfold resolveMinimalLinkedRoute in E.
  rewrite Htrim, (proj2 (String.eqb_neq _ _) Hne), Hown, Hlink in E. unfold is_blank in Hlinked. rewrite Hlinked in E.
  rewrite trim_space_idemp in E. fold read in E.
  destruct (minimalSourceTurnRelation read _ _) as [relation|e] eqn:Erel.
  - assert (relation = minimalTurnAtOrBefore \/ relation = minimalTurnAfter) as [->| ->].
    { unfold minimalSourceTurnRelation in Erel. repeat case_match; try done; injection Erel as <-; by auto. }
    + by left.
    + right. injection E as <- <-. split; [done|]. eexists. split; [reflexivity|]. by left.
  - right. assert (e = SourceUnavailable) as ->.
    { unfold minimalSourceTurnRelation in Erel. repeat case_match; try done; injection Erel as <-; by auto. }
    injection E as <- <-. split; [done|]. eexists. split; [reflexivity|]. by right.
Qed.

Theorem reply_joins_in_order_witness :
  let turns := [ex_turn "turn-0" "completed"; ex_turn "turn-1" "completed"] in
  exists text, @Submit ex_codec (ex_chat turns) ex_now ex_text (ex_routed [ex_fork] "turn-1")
    = Some (inl (routed text "fork" "turn-0"), called (ex_routed [ex_fork] "turn-1"))
    /\ (text = minimalLinkedSourceDivergedText \/ text = minimalLinkedSourceUnavailableText).
Proof.
  cbv zeta. set (turns := [ex_turn "turn-0" "completed"; ex_turn "turn-1" "completed"]).
  set (w := ex_routed [ex_fork] "turn-1").
  destruct (@Submit ex_codec (ex_chat turns) ex_now ex_text w) as [[answer w']|] eqn:E.
  2: { assert (N : match @Submit ex_codec (ex_chat turns) ex_now ex_text w with Some _ => true | None => false end = true)
         by (vm_compute; reflexivity). rewrite E in N. discriminate N. }
  destruct (GetMinimalLinkedThread (Some plainProtector) 7 0 "t" (rw_Store w)) as [[link|]|] eqn:El.
  2, 3: assert (N : match GetMinimalLinkedThread (Some plainProtector) 7 0 "t" (rw_Store w) with Ok (Some _) => true | _ => false end
                    = true) by (vm_compute; reflexivity); rewrite El in N; discriminate N.
  assert (Hl : match GetMinimalLinkedThread (Some plainProtector) 7 0 "t" (rw_Store w) with
               | Ok (Some link) => lt_LinkedThreadID link = "fork" /\ lt_SourceAnchorTurnID link = "turn-0"
               | _ => False end) by (vm_compute; split; reflexivity).
  rewrite El in Hl. destruct Hl as [Hl1 Hl2].
  assert (Ht : option_map th_ID (GetThread "t" (rw_Store w)) = Some "t") by (vm_compute; reflexivity).
  destruct (GetThread "t" (rw_Store w)) as [thread|] eqn:Et; [|discriminate Ht]. injection Ht as Ht.
  destruct (@reply_joins_in_order ex_codec (ex_chat turns) ex_now ex_text w (ex_live turns)
              (mkMessageRoute 7 0 9 "t" "turn-1" "" "" "") thread link answer w') as [Hrel|(-> & text & -> & Htext)].
  - split; rewrite ?Ht; try reflexivity; try discriminate; try exact El; try exact Et; [split; [reflexivity|discriminate]|].
    rewrite Hl1. reflexivity.
  - exact E.
  - exfalso. rewrite Hl2, Ht in Hrel.
    assert (N : minimalSourceTurnRelation (payload_of (se_ThreadRead (ex_live turns) (rw_Calls w) "t" true)) "turn-0"
                  (trim_space "turn-1") = inl minimalTurnAfter) by (vm_compute; reflexivity).
    cbn [mr_TurnID] in Hrel. rewrite N in Hrel. discriminate Hrel.
  - exists text. split; [|exact Htext]. rewrite Hl1, Hl2. reflexivity.
Defined.
