(* ===== verification/LiveEvents.v ===== *)
(** * internal/daemon/service.go, minimal_link_worker.go: what App Server notifies

    The live session and the session of each worker notify the daemon of requests, of
    their ends and of changes of threads.  The functions here handle one event under the
    minimal profile; a panel that is to be synchronised is answered, not drawn. *)
From stdpp Require Import base list numbers strings gmap.
From Stdlib Require Import Lia Ascii.
From S2P Require Import Prelude GoStrings GoTime Sql Json Model Control Normalize Store Daemon NotifierObserver NotifierIngress.
From S2P Require Import Threads Approvals TerminalGate Projects LinkWorkers ApprovalHandlers Routing Starts Router Terminal LiveTools Polling.

Definition threadIDFromEvent (event : Event) : string :=
  match get (ev_Params event) "threadId" with
  | JStr value => value
  | _ => match get (ev_Params event) "thread" with
         | JObj thread => match get thread "id" with JStr value => value | _ => "" end
         | _ => ""
         end
  end.

(** What handling an event asks for besides: the panel of a thread. *)
Inductive event_answer : Type :=
| EventHandled
| SyncsPanel (threadID : string).

Definition panel_of (threadID : string) : event_answer := if String.eqb threadID "" then EventHandled else SyncsPanel threadID.

Section events.
Context `{GateCodec} (sv : Service) (now : instant).

Local Abbreviation o := (sv_Observer sv).
Local Abbreviation svc := (sv_Approvals sv).
Local Abbreviation clock := (format_time now).

(** The end of a request that App Server reports; None is a request that is not ours. *)
Definition handlePendingApprovalResolved (sessionIdentity0 : string) (event : Event) (s : Store) : option event_answer * Store :=
  if negb (equal_fold (trim_space (ev_Method event)) "serverRequest/resolved") then (None, s)
  else
    let wireRequestID := trim_space (payloadMapString (ev_Params event) "requestId") in
    let sessionIdentity := trim_space sessionIdentity0 in
    let scoped := if String.eqb sessionIdentity "" then Ok None
                  else GetPendingApprovalForSession (as_Protector svc) wireRequestID sessionIdentity s in
    if String.eqb wireRequestID "" then (Some EventHandled, s)
    else
      match scoped with
      | Err _ => (None, s)
      | Ok (Some pending) =>
          (Some (panel_of (sa_ThreadID pending)),
           run_ignored (UpdatePendingApprovalStatusForSession clock wireRequestID sessionIdentity "resolved") s)
      | Ok None =>
          if negb (String.eqb sessionIdentity "") && minimalWorkerCallbackIdentity sessionIdentity then (None, s)
          else
            match GetPendingApproval (as_Protector svc) wireRequestID s with
            | Err _ => (None, s)
            | Ok None => (Some EventHandled, s)
            | Ok (Some pending) =>
                if negb (String.eqb sessionIdentity "") && negb (String.eqb (sa_SessionIdentity pending) "")
                   && negb (String.eqb (sa_SessionIdentity pending) sessionIdentity) then (None, s)
                else
                  (Some (if as_Minimal svc then EventHandled else panel_of (sa_ThreadID pending)),
                   run_ignored (UpdatePendingApprovalStatus clock (sa_RequestID pending) "resolved") s)
            end
      end.

(** What a session's event may be, before it is taken for a change of a thread: the
    approvals, in the order they are asked.  None is an event that none of them takes. *)
Definition takeApproval (session : ServiceSession) (identity : string) (tokens : option (string * string)) (event : Event)
    (w : RouterWorld) : option event_answer * RouterWorld :=
  let live := mkSession (fun threadID => se_ThreadRead session (rw_Calls w) threadID true) None in
  let '(asked, s1) := handleMinimalApprovalServerRequest svc now (Some live) identity event tokens (rw_Store w) in
  let w1 := called (set_rw_Store s1 w) in
  if asked then (Some EventHandled, w1)
  else
    let '(ended, world) := handleMinimalApprovalResolved svc clock identity event (mkWorld s1 [] []) in
    let w2 := set_rw_Store (wd_Store world) w1 in
    if ended : bool then (Some EventHandled, w2)
    else
      let '(resolved, s3) := handlePendingApprovalResolved identity event (rw_Store w2) in
      let w3 := set_rw_Store s3 w2 in
      match resolved with
      | Some answer => (Some answer, w3)
      | None =>
          let '(recorded, s4) := handlePendingServerRequest svc clock identity event s3 in
          (if recorded then Some EventHandled else None, set_rw_Store s4 w3)
      end.

Definition markLive (threadID : string) (w : RouterWorld) : RouterWorld :=
  if String.eqb threadID "" then w else on_store (run_ignored (MarkLiveEvent threadID clock)) w.

(** refreshThread whose error is noted, for the live session. *)
Definition refreshLive (live : ServiceSession) (threadID : string) (w : RouterWorld) : option RouterWorld :=
  match refreshThreadForOperation sv now live threadID w with
  | None => None
  | Some (inl _, w1) => Some w1
  | Some (inr e, w1) =>
      Some (match (readThread live threadID w).1 with
            | Fault read => noteSessionError sv now "live_refresh" read w1
            | Done _ => on_store (RequestRepair now "live_refresh") (setError o now (Wrapped "live_refresh" e) w1)
            end)
  end.

(** The transport of the live session fails or ends; [cancelled] is the context's. *)
Definition transportFault (cancelled : bool) (event : Event) (w : RouterWorld) : option RouterWorld :=
  let message what := "app-server transport " +:+ what +:+ " (" +:+ format_int (Z.of_nat (length (ev_Params event))) +:+ " params)" in
  let state key value := on_store (SetState clock key value) in
  let error text := ob_ErrorText o (Plain text) in
  if String.eqb (ev_Channel event) "transport_error" then
    Some (noteSessionError sv now "transport_error" (OtherError (message "error"))
            (state "appserver.live.last_error" (error (message "error")) w))
  else if String.eqb (ev_Channel event) "transport_closed" then
    let w1 := state "appserver.live.last_error" (error (message "closed")) (state "appserver.live.last_closed_at" clock w) in
    Some (if cancelled then w1 else noteSessionError sv now "transport_closed" (OtherError (message "closed")) w1)
  else None.

(** handleLiveEvent of the minimal profile *)
Definition handleLiveEvent (live : ServiceSession) (cancelled : bool) (tokens : option (string * string)) (event : Event)
    (w : RouterWorld) : option (event_answer * RouterWorld) :=
  match transportFault cancelled event w with
  | Some w1 => Some (EventHandled, w1)
  | None =>
      let threadID := threadIDFromEvent event in
      match takeApproval live (minimalApprovalSessionIdentity svc) tokens event (markLive threadID w) with
      | (Some answer, w1) => Some (answer, w1)
      | (None, w1) => if String.eqb threadID "" then Some (EventHandled, w1)
                      else (fun w2 => (EventHandled, w2)) <$> refreshLive live threadID w1
      end
  end.

(** An event of the worker's own session. *)
Definition handleMinimalLinkedWorkerEvent (worker : nat) (session : ServiceSession) (tokens : option (string * string))
    (event : Event) (w : RouterWorld) : option (event_answer * RouterWorld) :=
  let known := m ← rw_Workers w; if activeMinimalLinkedWorker worker m then worker_at m worker else None in
  match known with
  | None => Some (EventHandled, w)
  | Some wk =>
      if existsb (String.eqb (ev_Channel event)) ["transport_error"; "transport_closed"] then Some (EventHandled, w)
      else
        let threadID := threadIDFromEvent event in
        match takeApproval session (wk_SessionIdentity wk) tokens event (markLive threadID w) with
        | (Some answer, w1) => Some (answer, w1)
        | (None, w1) =>
            if negb (String.eqb threadID "") && String.eqb threadID (trim_space (wk_ThreadID wk))
            then (fun out => (EventHandled, snd out)) <$> refreshThreadForOperation sv now session threadID w1
            else Some (EventHandled, w1)
        end
  end.

End events.
