(* ===== verification/MinimalIngress.v ===== *)
(** * internal/daemon/minimal_voice.go, minimal_ingress.go: what Telegram asks of the minimal profile

    A text goes to the router, a voice message is transcribed and shown with two buttons,
    and a press of a button is told apart by the table that its token is in.  Downloading
    and transcribing answer from [VoiceService]. *)
From stdpp Require Import base list numbers strings gmap.
From Stdlib Require Import Lia Ascii.
From S2P Require Import Prelude GoStrings GoTime Utf8 Sql Json Model Normalize NotifierFormat MinimalTables CoreTables Store Daemon NotifierObserver NotifierIngress.
From S2P Require Import Threads Panels TerminalGate LinkedThread Observations Approvals Projects ApprovalHandlers Routing Starts Router Terminal LiveTools Polling Voice Catalog Submit.

Record VoiceInput : Type := mkVoiceInput {
  vi_ChatID : Z;
  vi_TopicID : Z;
  vi_UserID : Z;
  vi_ReplyToMessageID : Z;
  vi_ReceivedAt : instant;
  vi_FileSize : Z;
  vi_Duration : Z;
  vi_MimeType : string;
  vi_Open : option (nat -> option string) }.         (* the bytes that are downloaded *)

(** A transcriber answers from the file and its type; None is an error. *)
Record VoiceService : Type := mkVoiceService {
  vs_Picker : PickerService;
  vs_Runtime : Runtime;                              (* IsAllowed *)
  vs_MaxAge : Z;                                     (* cfg.CommandMaxAge *)
  vs_Transcribe : option (nat -> string -> string -> Z -> Z -> option string);
  vs_Token : nat -> option string;                   (* newMinimalApprovalToken *)
  vs_SessionIdentity : string }.

Definition MaxAudioBytes : Z := 25 * 1024 * 1024.
Definition MaxAudioDuration : Z := 600.
Definition minimalDefaultMaxAge : Z := 600 * second.

(** What a press does, and what a text is handed to. *)
Inductive callback_answer : Type :=
| Answered (response : DirectResponse)
| PressFailed (e : press_error)
| AnswersChoice (route : CallbackRoute)              (* the answer_choice button of a request *)
| NoAnswer.

Inductive inbound_answer : Type :=
| Replied (response : DirectResponse)
| HandsToCommand (text : string).                    (* /status and /repair *)

Definition usedVoiceButton : DirectResponse :=
  callbackResponse "이 음성 버튼은 더 이상 사용할 수 없습니다." "만료된 음성 버튼입니다.".

Definition shortVoiceThreadID (threadID : string) : string := shortLogID threadID.

Section ingress.
Context `{GateCodec} (vs : VoiceService) (now : instant).

Local Abbreviation pk := (vs_Picker vs).
Local Abbreviation sv := (ps_Service pk).
Local Abbreviation o := (sv_Observer sv).
Local Abbreviation r := (ob_Router o).
Local Abbreviation clock := (format_time now).

Definition minimalInboundExpired (receivedAt : instant) : bool :=
  is_zero receivedAt
  || (let maxAge := if (vs_MaxAge vs <=? 0)%Z then minimalDefaultMaxAge else vs_MaxAge vs in (maxAge <? now - receivedAt)%Z).

(** *** Texts *)
Definition HandleMinimalInboundText (inbound : InboundText) : W inbound_answer :=
  let text := trim_space (in_Text inbound) in
  if negb (IsAllowed (vs_Runtime vs) (in_UserID inbound) (in_ChatID inbound)) then w_fail (Plain "unauthorized telegram user")
  else if minimalInboundExpired (in_ReceivedAt inbound)
  then w_ret (Replied (textResponse "요청이 만료되었습니다. 다시 보내주세요."))
  else if String.eqb (minimalCommandName text) "start" then
    w! _ := (if (in_ChatID inbound =? in_UserID inbound)%Z && (in_TopicID inbound =? 0)%Z
             then w_modify (SetGlobalObserverTarget now (in_ChatID inbound) (in_TopicID inbound) true) else w_ret tt) in
    w! picker := minimalProjectPicker pk now in w_ret (Replied picker)
  else if existsb (String.eqb (minimalCommandName text)) ["status"; "repair"] then w_ret (HandsToCommand text)
  else w! answer := Submit pk now inbound in w_ret (Replied answer).

(** *** Voice messages *)

(** The target and its project, or the projects to choose from. *)
Definition resolveVoiceTarget (input : VoiceInput) : W ((ResolvedTarget * Project) + DirectResponse) :=
  if negb (vi_ReplyToMessageID input =? 0)%Z then
    w! route := w_gets (ResolveMessageRoute (vi_ChatID input) (vi_TopicID input) (vi_ReplyToMessageID input)) in
    match route with
    | None => w_fail (Plain "voice reply target is not routed to a Codex thread")
    | Some route =>
        if is_blank (mr_ThreadID route) then w_fail (Plain "voice reply target is not routed to a Codex thread")
        else
          w! thread := w_gets (GetThread (mr_ThreadID route)) in
          match thread with
          | None => w_fail (Plain "routed Codex thread is unavailable")
          | Some thread =>
              w! found := w_lift (projectForThread r thread) in
              w_ret (inl (mkTarget (pj_ID found.1) VoiceTargetThread (th_ID thread) (mr_TurnID route), found.1))
          end
    end
  else
    w! projectID := w_gets (GetSelectedProject (vi_ChatID input) (vi_TopicID input)) in
    if is_blank projectID then w! picker := minimalProjectPicker pk now in w_ret (inr picker)
    else w! project := w_lift (resolveProject r projectID) in
         w_ret (inl (mkTarget (pj_ID project) VoiceTargetNew "" "", project)).

Definition noVoiceFile : DirectResponse :=
  textResponse "음성 파일을 내려받지 못했습니다. 다시 녹음하거나 텍스트로 보내주세요.".

Definition newVoiceToken : W string :=
  w! token := w_call (vs_Token vs) in
  match token with Some token => w_ret token | None => w_fail (Plain "create voice callback failed") end.

(** The transcript is kept, with the two buttons of its message. *)
Definition confirmVoice (target : ResolvedTarget) (project : Project) (transcript : string) : W DirectResponse :=
  w! executeToken := newVoiceToken in
  w! cancelToken := newVoiceToken in
  w! voiceID := w_tx (CreateVoiceConfirmation (ro_Protector r) clock
       (mkVoiceConfirmation 0 (pj_ID project) (tg_TargetKind target) (tg_ThreadID target) (tg_SourceTurnID target)
          transcript (vs_SessionIdentity vs) "" (format_time (now + minimalCallbackTTL)%Z) 0 0 0 "")
       executeToken cancelToken) in
  let targetText := if String.eqb (tg_TargetKind target) VoiceTargetThread
                    then "기존 Thread " +:+ shortVoiceThreadID (tg_ThreadID target) else "새 작업" in
  w_ret (mkDirectResponse
    ("[음성 인식]" +:+ newline +:+ "작업폴더: " +:+ pj_DisplayName project +:+ newline +:+ "대상: " +:+ targetText
       +:+ newline +:+ newline +:+ transcript) ""
    [[mkButtonSpec "실행" executeToken; mkButtonSpec "취소" cancelToken]]
    (tg_ThreadID target) (tg_SourceTurnID target) "" "" voiceID).

Definition transcribeVoice (input : VoiceInput) (transcribe : nat -> string -> string -> Z -> Z -> option string)
    (target : ResolvedTarget) (project : Project) : W DirectResponse :=
  match vi_Open input with
  | None => w_ret noVoiceFile
  | Some open =>
      w! body := w_call open in
      match body with
      | None => w_ret noVoiceFile
      | Some body =>
          w! transcript := w_call (fun call => transcribe call body (trim_space (vi_MimeType input)) (vi_FileSize input)
                                                (vi_Duration input)) in
          match transcript with
          | None => w_ret (textResponse "음성 인식에 실패했습니다. 다시 녹음하거나 텍스트로 보내주세요.")
          | Some transcript => confirmVoice target project transcript
          end
      end
  end.

Definition HandleVoice (input : VoiceInput) : W DirectResponse :=
  if negb (IsAllowed (vs_Runtime vs) (vi_UserID input) (vi_ChatID input)) then w_fail (Plain "unauthorized telegram user")
  else if minimalInboundExpired (vi_ReceivedAt input) then w_ret (textResponse "음성 요청이 만료되었습니다. 다시 보내주세요.")
  else if (MaxAudioBytes <? vi_FileSize input)%Z
  then w_ret (textResponse "음성 파일은 25MB 이하만 처리할 수 있습니다. 텍스트로 보내주세요.")
  else if (MaxAudioDuration <? vi_Duration input)%Z
  then w_ret (textResponse "음성 메시지는 10분 이하만 처리할 수 있습니다. 텍스트로 보내주세요.")
  else
    match vs_Transcribe vs with
    | None => w_ret (textResponse "음성 인식을 사용할 수 없습니다. 텍스트로 보내주세요.")
    | Some transcribe =>
        w! resolved := resolveVoiceTarget input in
        match resolved with
        | inr picker => w_ret picker
        | inl (target, project) => transcribeVoice input transcribe target project
        end
    end.

(** The answer to a text or a voice message was sent as a message. *)
Definition RegisterDirectDelivery (chatID topicID messageID : Z) (response : DirectResponse) : W unit :=
  w! _ := (if (dr_VoiceConfirmationID response =? 0)%Z then w_ret tt
           else fun w =>
             match tx (BindVoiceConfirmation (dr_VoiceConfirmationID response) chatID topicID messageID) w with
             | (inl _, w1) => Some (inl tt, w1)
             | (inr e, w1) =>
                 Some (inr e, on_store (run_ignored (AbandonVoiceConfirmation (dr_VoiceConfirmationID response))) w1)
             end) in
  if String.eqb (dr_ThreadID response) "" then w_ret tt
  else w_tx (PutMessageRoute (mkMessageRoute chatID topicID messageID (dr_ThreadID response) (dr_TurnID response)
                                (dr_ItemID response) (dr_EventID response) clock)).

(** *** The buttons of a voice message *)
Definition voiceTerminalResponse (chatID topicID messageID : Z) (text callbackText : string) : W DirectResponse :=
  match ps_Edit pk with
  | Some edit =>
      if (messageID =? 0)%Z then w_ret (callbackResponse text callbackText)
      else w! edited := w_call (fun call => edit call chatID topicID messageID (textResponse text)) in
           w_ret (callbackResponse (if edited : bool then "" else text) callbackText)
  | None => w_ret (callbackResponse text callbackText)
  end.

Definition onVoiceMessage (chatID topicID messageID : Z) (route : VoiceCallbackRoute) : bool :=
  negb (vr_ChatID route =? 0)%Z && negb (vr_MessageID route =? 0)%Z && (vr_ChatID route =? chatID)%Z
  && (vr_TopicID route =? topicID)%Z && (vr_MessageID route =? messageID)%Z.

(** A button that is not to be used any more: its message is closed. *)
Definition expireVoiceMessage (chatID topicID messageID : Z) (route : VoiceCallbackRoute) : W DirectResponse :=
  if onVoiceMessage chatID topicID messageID route
  then voiceTerminalResponse chatID topicID messageID
         ("[음성 인식]" +:+ newline +:+ "이 확인 요청은 만료되었습니다. 음성을 다시 보내주세요.") "만료된 음성 버튼입니다."
  else w_ret usedVoiceButton.

(** The router's response, None for an error. *)
Definition w_catch {A : Type} (m : W A) : W (option A) := fun w =>
  match m w with
  | None => None
  | Some (inl a, w1) => Some (inl (Some a), w1)
  | Some (inr _, w1) => Some (inl None, w1)
  end.

(** The message of a command that ran, which is then a message of its thread. *)
Definition showVoiceResult (chatID topicID messageID : Z) (result : DirectResponse) : W DirectResponse :=
  let header := "[음성 인식]" +:+ newline +:+ "음성 명령을 실행했습니다." in
  let text := if is_blank (dr_Text result) then header
              else header +:+ newline +:+ newline +:+ trim_space (dr_Text result) in
  w! shown := voiceTerminalResponse chatID topicID messageID text "실행했습니다." in
  w! _ := (if String.eqb (dr_Text shown) "" && negb (String.eqb (dr_ThreadID result) "") && negb (messageID =? 0)%Z
           then w_tx (PutMessageRoute (mkMessageRoute chatID topicID messageID (dr_ThreadID result) (dr_TurnID result) "" "" clock))
           else w_ret tt) in
  w_ret (mkDirectResponse (dr_Text shown) (dr_CallbackText shown) [] (dr_ThreadID result) (dr_TurnID result) "" "" 0).

Definition executeVoice (chatID topicID messageID : Z) (confirmation : VoiceConfirmation) : W DirectResponse :=
  w! answer := w_catch (SubmitResolved pk now (mkInboundText chatID topicID 0 0 0 "" now)
       (mkTarget (vo_ProjectID confirmation) (vo_TargetKind confirmation) (vo_ThreadID confirmation) (vo_SourceTurnID confirmation))
       (vo_Transcript confirmation)) in
  match answer with
  | None => voiceTerminalResponse chatID topicID messageID
              ("[음성 인식]" +:+ newline +:+ "실행 여부를 확인할 수 없습니다. 음성을 다시 보내주세요.") "실행하지 못했습니다."
  | Some result => showVoiceResult chatID topicID messageID result
  end.

(** What a press does, once its confirmation is consumed. *)
Definition pressedVoice (chatID topicID messageID : Z) (action : string) (confirmation : VoiceConfirmation) : W DirectResponse :=
  if String.eqb action VoiceActionCancel then
    voiceTerminalResponse chatID topicID messageID ("[음성 인식]" +:+ newline +:+ "음성 작업을 취소했습니다.") "취소했습니다."
  else if negb (String.eqb action VoiceActionExecute) then
    voiceTerminalResponse chatID topicID messageID ("[음성 인식]" +:+ newline +:+ "이 확인 요청은 유효하지 않습니다.")
      "유효하지 않은 음성 버튼입니다."
  else executeVoice chatID topicID messageID confirmation.

Definition handleMinimalVoiceCallback (chatID topicID messageID : Z) (route : VoiceCallbackRoute) : W DirectResponse :=
  if negb (vr_active route) then expireVoiceMessage chatID topicID messageID route
  else
    w! consumed := w_tx (ConsumeVoiceConfirmation (ro_Protector r) now
         (mkVoiceClaim (vr_Token route) (vr_Action route) (vs_SessionIdentity vs) chatID topicID messageID now)) in
    match consumed with
    | (_, Some e) => w_fail (Plain e)
    | (None, None) => expireVoiceMessage chatID topicID messageID route
    | (Some confirmation, None) => pressedVoice chatID topicID messageID (vr_Action route) confirmation
    end.

(** *** Buttons *)
Definition pressApproval (chatID topicID messageID : Z) (route : MinimalApprovalRoute) : W callback_answer := fun w =>
  let '(answer, world) := handleMinimalApprovalCallback (sv_Approvals sv) clock chatID topicID messageID (Some route)
                            (mkWorld (rw_Store w) [] []) in
  Some (inl (match answer with inl response => Answered response | inr e => PressFailed e end), set_rw_Store (wd_Store world) w).

(** A button of the table that all profiles share. *)
Definition pressCallback (chatID topicID messageID : Z) (token : string) : W callback_answer :=
  w! route := w_reads (GetCallbackRoute (ro_Protector r) token) in
  match route with
  | None => w_ret (Answered expiredButton)
  | Some route =>
      if negb (String.eqb (cr_Status route) CallbackStatusActive) then w_ret (Answered expiredButton)
      else if String.eqb (cr_Action route) "answer_choice" then w_ret (AnswersChoice route)
      else if existsb (String.eqb (cr_Action route)) [minimalProjectsAction; minimalProjectPickAction] then
        w! answer := handleMinimalCallback pk now chatID topicID messageID route in
        w_ret (from_option Answered NoAnswer answer)
      else
        w! _ := w_modify (run_ignored (ExpireCallbackRoute (cr_Token route))) in
        w_ret (Answered invalidButton)
  end.

(** HandleCallback of the minimal profile *)
Definition HandleMinimalCallback (chatID topicID messageID userID : Z) (token : string) : W callback_answer :=
  if negb (IsAllowed (vs_Runtime vs) userID chatID) then w_fail (Plain "unauthorized telegram user")
  else
    w! approval := w_gets (GetMinimalApprovalRoute token) in
    match approval with
    | Some route => pressApproval chatID topicID messageID route
    | None =>
        w! voice := w_gets (GetVoiceConfirmationRoute token) in
        match voice with
        | Some route => w! answer := handleMinimalVoiceCallback chatID topicID messageID route in w_ret (Answered answer)
        | None =>
            w! picker := w_tx (ConsumeMinimalPickerRoute now token chatID topicID now) in
            match picker with
            | Some route => w! answer := handleMinimalPickerRoute pk now chatID topicID messageID (Some route) in
                            w_ret (Answered answer)
            | None => pressCallback chatID topicID messageID token
            end
        end
    end.

End ingress.
