(* ===== verification/Commands.v ===== *)
(** * internal/daemon/service.go: /status, /repair and the answers to questions

    What the handlers of MinimalIngress hand on: the two management commands of the
    minimal profile, and the button that answers a question of App Server.  With them the
    entry points of the profile are whole: [minimalInboundText] and [minimalCallback]. *)
From stdpp Require Import base list numbers strings gmap.
From Stdlib Require Import Lia Ascii.
From S2P Require Import Prelude GoStrings GoTime Utf8 Sql Json Model Normalize NotifierFormat MinimalTables CoreTables Store Daemon NotifierObserver NotifierIngress.
From S2P Require Import Threads Panels TerminalGate LinkedThread Continuations Observations Approvals Projects ApprovalHandlers Routing Starts Router Terminal LiveTools Polling Voice Catalog Submit LiveEvents MinimalIngress.

(** What the service keeps besides: the configured mode of the panels and the decoder of
    payloads, which answers nothing of a text that is not an object. *)
Record ChatService : Type := mkChatService {
  ch_Voice : VoiceService;
  ch_PanelMode : string;
  ch_Parse : string -> obj }.

Definition PanelModePerRun : string := "per_run".
Definition PanelModeStable : string := "stable".

(** A response, and the panel that is to be synchronised. *)
Definition chat_answer : Type := option DirectResponse * event_answer.

Definition says (response : DirectResponse) : chat_answer := (Some response, EventHandled).

(** The errors of a press, as the callers of HandleCallback see them. *)
Definition press_fault (e : press_error) : start_error :=
  match e with
  | ErrCallbackConsumed => Plain "callback route is consumed"
  | ErrCallbackMismatch => Plain "callback route does not match this message"
  | ErrApprovalTransportUnavailable => Plain "approval transport is definitely unavailable"
  | ErrStore message => Plain message
  | ErrStores first second => Plain (first +:+ newline +:+ second)
  | ErrResponder e => Plain (ce_Message e)
  end.

(** *** Texts *)
Definition normalizeRuntimePanelMode (value : string) : string :=
  let mode := trim_space (to_lower value) in
  if existsb (String.eqb mode) [PanelModePerRun; PanelModeStable] then mode else "".

Definition trimPreview (value0 : string) : string :=
  let value := trim_space value0 in
  if (String.length value <=? 120)%nat then value else str_take 117 value +:+ "...".

Definition minimalLinkedStatusStateLabel (state0 : string) : string :=
  let state := trim_space state0 in
  if existsb (String.eqb state) [""; MinimalLinkedReady] then "bridge released"
  else if String.eqb state MinimalLinkedTelegramRunning then "Telegram worker"
  else if String.eqb state MinimalLinkedReleasePending then "release pending"
  else if String.eqb state MinimalLinkedFailed then "failed"
  else "unknown".

Definition minimalLinkedBlockedRecently (link : MinimalLinkedThread) (now : instant) : bool :=
  has_prefix (trim_space (lt_LastBlockedCode link)) "active_writer"
  && match parse_rfc3339 (lt_LastBlockedAt link) with
     | Some blockedAt => (now - blockedAt <=? 24 * 3600 * second)%Z
     | None => false
     end.

Definition minimalLinkedStatusLines (link : MinimalLinkedThread) (now : instant) : list string :=
  let title0 := boundRunes (cleanMinimalDisplayText (lt_DesiredTitle link)) 80 in
  let title := if String.eqb title0 "" then shortLogID (lt_LinkedThreadID link) else title0 in
  ["Mode: Telegram linked task"; "Task: " +:+ title; "Source: " +:+ shortLogID (lt_SourceThreadID link);
   "Linked: " +:+ shortLogID (lt_LinkedThreadID link); "State: " +:+ minimalLinkedStatusStateLabel (lt_State link)]
  ++ (if minimalLinkedBlockedRecently link now then ["Last acquire: blocked by another writer"] else []).

(** *** Answers to questions *)
Definition plainInputPayload (text : string) : obj :=
  [("text", JStr text); ("value", JStr text); ("response", JStr text); ("input", JStr text)].

Definition userInputResponsePayload (payload : obj) (text : string) : obj :=
  let answers := fold_left (fun answers rawQuestion =>
      let id := match rawQuestion with JObj question => payloadMapString question "id" | _ => "" end in
      if String.eqb id "" then answers else put answers id (JObj [("answers", JArr [JStr text])]))
    (slice_or_nil (get payload "questions")) [] in
  match answers with [] => plainInputPayload text | _ => [("answers", JObj answers)] end.

Section commands.
Context `{GateCodec} (ch : ChatService) (now : instant).

Local Abbreviation vs := (ch_Voice ch).
Local Abbreviation pk := (vs_Picker vs).
Local Abbreviation sv := (ps_Service pk).
Local Abbreviation o := (sv_Observer sv).
Local Abbreviation r := (ob_Router o).
Local Abbreviation svc := (sv_Approvals sv).
Local Abbreviation rt := (vs_Runtime vs).
Local Abbreviation clock := (format_time now).
Local Abbreviation minimal := (String.eqb (ob_Profile o) "minimal").

Definition panelMode (s : Store) : string :=
  let stored := normalizeRuntimePanelMode (GetState "ui.panel_mode" s) in
  let configured := normalizeRuntimePanelMode (ch_PanelMode ch) in
  if negb (String.eqb stored "") then stored
  else if negb (String.eqb configured "") then configured else PanelModePerRun.

(** *** /status *)
Definition status_head (chatID topicID : Z) (s : Store) : list string :=
  let threadCount := CountThreads s in
  let '(globalObserver, configured) := GetGlobalObserverTarget clock s in
  ["Go core status"; "Ready: " +:+ format_bool (rt_ready rt); "Phase: " +:+ rt_phase rt;
   "Live app-server: " +:+ format_bool (sv_LiveConnected sv); "Poll app-server: " +:+ format_bool (rt_pollConnected rt);
   "Panel mode: " +:+ panelMode s;
   "Tracked threads: " +:+ format_int (Z.of_nat (length (ListBoundThreadIDs s)) + threadCount);
   "Cached threads: " +:+ format_int threadCount; "Delivery backlog: " +:+ format_int (DeliveryQueueBacklog s)]
  ++ [match globalObserver with
      | Some t => if configured && ot_Enabled t then "Global observer: on -> " +:+ ChatKey (ot_ChatID t) (ot_TopicID t)
                  else if configured then "Global observer: off" else "Global observer: default-on fallback"
      | None => if configured then "Global observer: off" else "Global observer: default-on fallback"
      end]
  ++ (if is_zero (rt_startedAt rt) then []
      else ["Started: " +:+ format_time (rt_startedAt rt / second * second)%Z])
  ++ (if is_blank (rt_lastError rt) then [] else ["Last error: " +:+ rt_lastError rt]).

(** What the chat is in the minimal profile, None when it is neither linked nor continued. *)
Definition status_linked (chatID topicID : Z) (boundThreadID : string) (s : Store) : res (option (list string)) :=
  let! link := statusMinimalLinkedThread o chatID topicID boundThreadID s in
  match link with
  | Some link => Ok (Some (minimalLinkedStatusLines link now))
  | None =>
      match ActiveMinimalContinuationForFork chatID topicID boundThreadID s with
      | Some continuation =>
          Ok (Some ["Mode: Telegram continuation"; "Parent: " +:+ shortLogID (ck_SourceThreadID (mc_Key continuation));
                    "Fork: " +:+ shortLogID (mc_ForkThreadID continuation);
                    "Anchor turn: " +:+ shortLogID (ck_SourceTurnID (mc_Key continuation))])
      | None => Ok None
      end
  end.

Definition status_mode (c : ChatContext) : list string :=
  match cc_Binding c, cc_Thread c, cc_ObserverEnabled c with
  | Some _, Some thread, true => ["Mode: Bound thread + global observer sink"; "Thread: " +:+ Label thread]
  | _, _, true => ["Mode: Global observer sink"]
  | Some _, Some thread, false => ["Mode: Bound thread"; "Thread: " +:+ Label thread]
  | Some binding, None, false => ["Mode: Bound thread"; "Thread ID: " +:+ tb_ThreadID binding]
  | None, _, false => ["Mode: Unbound"; "Use /threads, /projects, or /bind <thread>."]
  end.

(** effectivePlanPrompt(nil, snapshot) of loadThreadPanelSnapshot *)
Definition plan_prompt (threadID : string) (s : Store) : option PlanPrompt :=
  _ ← GetThread threadID s; state ← GetSnapshot threadID s; snapshot ← ss_CompactJSON state; sn_PlanPrompt snapshot.

Definition StatusSnapshot (chatID topicID : Z) (s : Store) : res string :=
  let c := GetChatContext clock chatID topicID s in
  let head := status_head chatID topicID s ++ [""] in
  let! linked := match cc_Binding c with
                 | Some binding => if minimal then status_linked chatID topicID (tb_ThreadID binding) s else Ok None
                 | None => Ok None
                 end in
  Ok (join newline (match linked with
    | Some lines => head ++ lines
    | None => head ++ status_mode c
              ++ match thread ← cc_Thread c; plan_prompt (th_ID thread) s with
                 | Some prompt => ["Active Plan prompt: " +:+ trimPreview (pp_Question prompt)]
                 | None => []
                 end
    end)).

(** *** /repair *)
Definition pendingMinimalLinkedTitleRetry (chatID topicID : Z) (s : Store) : res bool :=
  match cc_Binding (GetChatContext clock chatID topicID s) with
  | None => Ok false
  | Some binding =>
      let! link := statusMinimalLinkedThread o chatID topicID (tb_ThreadID binding) s in
      Ok (match link with
          | Some link => String.eqb (trim_space (lt_TitleState link)) MinimalLinkedTitlePending
          | None => false
          end)
  end.

Definition minimalRepairCommand (chatID topicID : Z) : W DirectResponse :=
  w! _ := (if minimal then
             w! _ := w_reads (pendingMinimalLinkedTitleRetry chatID topicID) in
             w! _ := w_tx (RearmAmbiguousMinimalContinuations clock chatID topicID) in
             w! _ := (fun w => Some (repairMinimalLinkedReleasePending o now chatID topicID w)) in
             w_ret tt
           else w_ret tt) in
  w! _ := w_modify (RequestRepair now "telegram") in
  w_ret (textResponse "Repair requested. App-server sessions will be recreated in the background.").

(** handleCommand, for the texts that HandleInboundText hands to it *)
Definition minimalHandleCommand (chatID topicID : Z) (raw : string) : W DirectResponse :=
  let command := to_lower (before_byte "@" (before_byte " " (trim_space raw))) in
  if String.eqb command "/status" then
    w! text := w_reads (StatusSnapshot chatID topicID) in w_ret (textResponse text)
  else if String.eqb command "/repair" then minimalRepairCommand chatID topicID
  else w_ret (textResponse "Unknown command. Use /help.").

(** *** The answer to a question *)
Definition input_approval (requestID fallbackIdentity : string) (s : Store) : res (option StoredApproval) :=
  if String.eqb fallbackIdentity "" then GetPendingApproval (as_Protector svc) requestID s
  else
    let! approval := GetPendingApprovalForSession (as_Protector svc) requestID fallbackIdentity s in
    match approval with
    | Some approval => Ok (Some approval)
    | None => if minimalWorkerCallbackIdentity fallbackIdentity then Ok None
              else GetPendingApproval (as_Protector svc) requestID s
    end.

Definition input_answer (approval : StoredApproval) (text : string) : ExactAnswer :=
  mkExactAnswer (firstNonEmpty [sa_WireRequestID approval; sa_RequestID approval]) (sa_ThreadID approval) (sa_TurnID approval)
    (firstNonEmpty [sa_RequestKind approval; sa_PromptKind approval])
    (userInputResponsePayload (ch_Parse ch (sa_PayloadJSON approval)) text).

(** The answer is sent; then the request is resolved and its panel drawn. *)
Definition sendInputAnswer (approval : StoredApproval) (text : string)
    (respond : ExactAnswer -> Store -> option CallError * Store) : W chat_answer := fun w =>
  let '(failed, s1) := respond (input_answer approval text) (rw_Store w) in
  let w1 := set_rw_Store s1 w in
  match failed with
  | Some e => Some (inl (says (textResponse ("Could not send answer: " +:+ ce_Message e))), w1)
  | None =>
      Some (inl (Some (mkDirectResponse "" "" [] (sa_ThreadID approval) (sa_TurnID approval) "" "" 0),
                 SyncsPanel (sa_ThreadID approval)),
            on_store (run_ignored (UpdatePendingApprovalStatus clock (sa_RequestID approval) "resolved:reply")) w1)
  end.

Definition respondUserInputRequestWithIdentity (requestID text fallbackIdentity0 : string) : W chat_answer :=
  let fallbackIdentity := trim_space fallbackIdentity0 in
  w! approval := w_reads (input_approval requestID fallbackIdentity) in
  match approval with
  | None => w_ret (says (textResponse ("Unknown input request: " +:+ requestID)))
  | Some approval =>
      let own := trim_space (sa_SessionIdentity approval) in
      let sessionIdentity := if String.eqb own "" then fallbackIdentity else own in
      match sessionForCallbackIdentity svc sessionIdentity (sa_ThreadID approval) with
      | None =>
          if negb (String.eqb sessionIdentity "") && minimalWorkerCallbackIdentity sessionIdentity
          then w_fail (press_fault ErrApprovalTransportUnavailable)
          else w_ret (says (textResponse "Live app-server session is not ready yet. Try /repair."))
      | Some session =>
          match cs_Exact session with
          | None => w_fail (press_fault ErrApprovalTransportUnavailable)
          | Some respond => sendInputAnswer approval text respond
          end
      end
  end.

(** answerChoice of the minimal profile *)
Definition answerChoice (route : CallbackRoute) : W chat_answer :=
  let text := payloadMapString (if is_blank (cr_PayloadJSON route) then [] else ch_Parse ch (cr_PayloadJSON route)) "text" in
  if String.eqb text "" then w_ret (says (callbackResponse "" "Answer option is empty."))
  else if is_blank (cr_RequestID route) then
    w! _ := w_modify (run_ignored (ExpireCallbackRoute (cr_Token route))) in
    w_ret (says (mkDirectResponse "이 선택지는 Codex에서만 답할 수 있습니다." "Codex에서 답해주세요." []
                   (cr_ThreadID route) (cr_TurnID route) "" "" 0))
  else
    w! answered := respondUserInputRequestWithIdentity (cr_RequestID route) text (cr_SessionIdentity route) in
    w_ret (Some (set_dr_CallbackText "Ответ отправлен." (default (textResponse "") answered.1)), answered.2).

(** *** The entry points of the minimal profile *)
Definition minimalInboundText (inbound : InboundText) : W chat_answer :=
  w! answer := HandleMinimalInboundText vs now inbound in
  match answer with
  | Replied response => w_ret (says response)
  | HandsToCommand text =>
      w! response := minimalHandleCommand (in_ChatID inbound) (in_TopicID inbound) text in w_ret (says response)
  end.

Definition minimalCallback (chatID topicID messageID userID : Z) (token : string) : W chat_answer :=
  w! answer := HandleMinimalCallback vs now chatID topicID messageID userID token in
  match answer with
  | Answered response => w_ret (says response)
  | PressFailed e => w_fail (press_fault e)
  | AnswersChoice route => answerChoice route
  | NoAnswer => w_ret (None, EventHandled)
  end.

End commands.
