(* ===== verification/TelegramBot.v ===== *)
(** * internal/telegram/bot.go, api.go: the bot

    The bot asks Telegram for updates, hands each to the service and sends what the
    service answers.  It runs on a [BotWorld]: the world of the service, the requests that
    were made of Telegram, and the updates that were handed on.  Telegram answers the n-th
    request from [TelegramAPI].  What the service does is a [BotService]; the minimal and
    the notifier profile are two of them. *)
From stdpp Require Import base list numbers strings gmap.
From Stdlib Require Import Lia Ascii.
From S2P Require Import Prelude GoStrings GoTime Utf8 Sql Json Model Normalize NotifierFormat MinimalTables CoreTables Store Daemon NotifierObserver NotifierIngress.
From S2P Require Import Threads TerminalGate Projects ApprovalHandlers Starts Router Terminal LiveTools Polling Voice Catalog Submit LiveEvents MinimalIngress Commands.

(** *** What Telegram sends *)
Record User : Type := mkUser {
  us_ID : Z;
  us_IsBot : bool;
  us_Username : string }.

Record TelegramVoice : Type := mkTelegramVoice {
  vo_FileID : string;
  vo_Duration : Z;
  vo_FileSize : Z;
  vo_MimeType : string }.

(** ReplyToMessage is read for its MessageID. *)
Record Message : Type := mkMessage {
  ms_MessageID : Z;
  ms_MessageThreadID : Z;
  ms_Date : Z;
  ms_From : option User;
  ms_ChatID : Z;
  ms_Text : string;
  ms_Voice : option TelegramVoice;
  ms_ReplyToMessage : option Z }.

Record CallbackQuery : Type := mkCallbackQuery {
  cq_ID : string;
  cq_From : option User;
  cq_Message : option Message;
  cq_Data : string }.

Record Update : Type := mkUpdate {
  up_UpdateID : Z;
  up_Message : option Message;
  up_EditedMessage : option Message;
  up_CallbackQuery : option CallbackQuery }.

(** *** What is asked of Telegram *)
Definition keyboard : Type := list (list ButtonSpec).

Record sendMessageRequest : Type := mkSendMessage {
  sm_ChatID : Z;
  sm_Text : string;
  sm_MessageThreadID : Z;
  sm_ReplyMarkup : option keyboard;
  sm_DisablePreview : bool;
  sm_DisableNotification : bool;
  sm_ParseMode : string;
  sm_Entities : list MessageEntity }.

Record editMessageTextRequest : Type := mkEditMessage {
  em_ChatID : Z;
  em_MessageID : Z;
  em_Text : string;
  em_ReplyMarkup : option keyboard;
  em_DisablePreview : bool;
  em_ParseMode : string;
  em_Entities : list MessageEntity }.

Inductive TelegramRequest : Type :=
| GetUpdatesRequest (offset timeout : Z) (allowed : list string)
| SendMessageRequest (request : sendMessageRequest)
| EditMessageTextRequest (request : editMessageTextRequest)
| DeleteMessageRequest (chatID messageID : Z)
| AnswerCallbackQueryRequest (callbackQueryID text : string) (showAlert : bool).

Definition method_of (request : TelegramRequest) : string :=
  match request with
  | GetUpdatesRequest _ _ _ => "getUpdates"
  | SendMessageRequest _ => "sendMessage"
  | EditMessageTextRequest _ => "editMessageText"
  | DeleteMessageRequest _ _ => "deleteMessage"
  | AnswerCallbackQueryRequest _ _ _ => "answerCallbackQuery"
  end.

(** The decoded envelope; en_Result is None for no result or null, and an error when the
    result does not decode to what is asked for. *)
Record apiResponse (A : Type) : Type := mkResponse {
  en_OK : bool;
  en_Result : option (res A);
  en_Description : string;
  en_ErrorCode : Z }.
Arguments mkResponse {A}.
Arguments en_OK {A}.
Arguments en_Result {A}.
Arguments en_Description {A}.
Arguments en_ErrorCode {A}.

(** An HTTP answer: the error of the call, or its status, its body and what that decodes to. *)
Inductive http_answer (A : Type) : Type :=
| NoHTTP (error : string)
| HTTP (status : Z) (body : string) (decoded : res (apiResponse A)).
Arguments NoHTTP {A}.
Arguments HTTP {A}.

(** Telegram: the answers that carry a message id, those that carry updates, the others. *)
Record TelegramAPI : Type := mkTelegramAPI {
  ta_Message : nat -> TelegramRequest -> http_answer Z;
  ta_Updates : nat -> TelegramRequest -> http_answer (list Update);
  ta_Plain : nat -> TelegramRequest -> http_answer unit }.

Definition apiError (method : string) (code : Z) (description0 : string) : string :=
  let description := trim_space description0 in
  let text := if String.eqb description "" then "unknown telegram api error" else description in
  if (code =? 0)%Z then "telegram " +:+ method +:+ ": " +:+ text
  else "telegram " +:+ method +:+ ": " +:+ format_int code +:+ " " +:+ text.

Definition decodeAPIResponse {A : Type} (method : string) (zero : A) (decoded : res (apiResponse A)) : res A :=
  let! envelope := decoded in
  if negb (en_OK envelope) then Err (apiError method (en_ErrorCode envelope) (en_Description envelope))
  else match en_Result envelope with None => Ok zero | Some result => result end.

Definition callJSON {A : Type} (request : TelegramRequest) (zero : A) (answer : http_answer A) : res A :=
  match answer with
  | NoHTTP e => Err e
  | HTTP status body decoded =>
      if (status <? 200)%Z || (300 <=? status)%Z
      then Err ("telegram " +:+ method_of request +:+ " http " +:+ format_int status +:+ ": " +:+ trim_space body)
      else decodeAPIResponse (method_of request) zero decoded
  end.

Definition parseModeForText (text : string) : string := if contains text "<pre><code" then "HTML" else "".

(** *** Texts and buttons *)
Definition telegramMessageLimit : nat := Z.to_nat 4096.

Definition trim_right_byte (c : ascii) (s : string) : string := str_rev_app (trim_left_byte c (str_rev_app s "")) "".

Definition flush (out : list string) (current : string) : list string :=
  if String.eqb current "" then out else out ++ [trim_space current].

(** The pieces of a line that is longer than the limit, and what is left. *)
Fixpoint cut_line (fuel limit : nat) (line : string) : list string * string :=
  match fuel with
  | O => ([], line)
  | S fuel =>
      if (rune_count line <=? limit)%nat then ([], line)
      else
        let '(out, rest) := cut_line fuel limit (string_of_runes (drop limit (runes line))) in
        (trim_space (string_of_runes (take limit (runes line))) :: out, rest)
  end.

Definition split_line (limit : nat) (state : list string * string) (line0 : string) : list string * string :=
  let '(out, current) := state in
  let line := trim_right_byte " " line0 in
  let candidate := if String.eqb current "" then line else current +:+ newline +:+ line in
  if (rune_count candidate <=? limit)%nat then (out, candidate)
  else let '(pieces, rest) := cut_line (rune_count line) limit line in (flush out current ++ pieces, rest).

Definition splitText (text0 : string) (limit : nat) : list string :=
  if (limit =? 0)%nat then [text0]
  else
    let text := replace_all text0 (String "013" newline) newline in
    if (rune_count text <=? limit)%nat then [text]
    else
      let '(out, current) := fold_left (split_line limit) (split_byte "010" text) ([], "") in
      match flush out current with [] => [text] | chunks => chunks end.

Definition toInlineKeyboard (rows : list (list ButtonSpec)) : option keyboard :=
  match filter (fun row => row <> []) (map (filter (fun button => negb (is_blank (bs_Text button)) = true)) rows) with
  | [] => None
  | keyboard => Some keyboard
  end.

Definition isMinimalProfile (profile : string) : bool := equal_fold (trim_space profile) "minimal".
Definition isNotifierProfile (profile : string) : bool := equal_fold (trim_space profile) "notifier".
Definition isOwnerOnlyProfile (profile : string) : bool := isMinimalProfile profile || isNotifierProfile profile.

(** *** The bot *)

(** The service, as the bot uses it. *)
Record BotService : Type := mkBotService {
  bv_IsAllowed : Z -> Z -> bool;
  bv_HandleInboundText : instant -> InboundText -> W (option DirectResponse);
  bv_HandleVoice : instant -> VoiceInput -> W (option DirectResponse);
  bv_HandleCallback : instant -> Z -> Z -> Z -> Z -> string -> W (option DirectResponse);
  bv_AbandonVoiceConfirmation : Z -> W unit;
  bv_RegisterDirectDelivery : instant -> Z -> Z -> Z -> DirectResponse -> W unit }.

(** [bt_Download] is GetFile and DownloadFile: the file of an id, None for an error. *)
Record Bot : Type := mkBot {
  bt_Profile : string;
  bt_Service : BotService;
  bt_API : TelegramAPI;
  bt_Download : string -> nat -> option string }.

Record BotWorld : Type := mkBotWorld {
  bw_World : RouterWorld;
  bw_Requests : list TelegramRequest;
  bw_Updates : list Update }.

Inductive bot_error : Type :=
| ServiceFailed (e : start_error)
| TelegramFailed (message : string)
| BothFailed (first second : bot_error).

Definition B (A : Type) : Type := BotWorld -> option ((A + bot_error) * BotWorld).

Definition b_ret {A : Type} (a : A) : B A := fun w => Some (inl a, w).
Definition b_fail {A : Type} (e : bot_error) : B A := fun w => Some (inr e, w).
Definition b_bind {A C : Type} (m : B A) (k : A -> B C) : B C := fun w =>
  match m w with
  | Some (inl a, w1) => k a w1
  | Some (inr e, w1) => Some (inr e, w1)
  | None => None
  end.

Notation "'b!' x ':=' m 'in' k" := (b_bind m (fun x => k))
  (at level 10, x pattern, m at level 100, k at level 200) : bridge_scope.

(** The answer or the error. *)
Definition b_try {A : Type} (m : B A) : B (A + bot_error) := fun w =>
  match m w with Some (a, w1) => Some (inl a, w1) | None => None end.

Definition b_service {A : Type} (m : W A) : B A := fun w =>
  match m (bw_World w) with
  | Some (inl a, world) => Some (inl a, mkBotWorld world (bw_Requests w) (bw_Updates w))
  | Some (inr e, world) => Some (inr (ServiceFailed e), mkBotWorld world (bw_Requests w) (bw_Updates w))
  | None => None
  end.

(** A request of Telegram and its answer. *)
Definition b_call {A : Type} (ask : nat -> TelegramRequest -> http_answer A) (zero : A) (request : TelegramRequest) : B A :=
  fun w =>
    Some (match callJSON request zero (ask (length (bw_Requests w)) request) with
          | Ok a => inl a
          | Err e => inr (TelegramFailed e)
          end, mkBotWorld (bw_World w) (bw_Requests w ++ [request]) (bw_Updates w)).

Section bot.
Context (bot : Bot) (now : instant).

Local Abbreviation service := (bt_Service bot).
Local Abbreviation api := (bt_API bot).

(** *** Sending *)
Definition GetUpdates (offset timeoutSeconds : Z) : B (list Update) :=
  b_call (ta_Updates api) [] (GetUpdatesRequest offset timeoutSeconds ["message"; "edited_message"; "callback_query"]).

Definition apiSendMessage (chatID topicID : Z) (text : string) (markup : option keyboard) (silent : bool) : B Z :=
  b_call (ta_Message api) 0%Z
    (SendMessageRequest (mkSendMessage chatID text topicID markup true silent (parseModeForText text) [])).

Definition apiSendRenderedMessage (chatID topicID : Z) (rendered : RenderedMessage) (markup : option keyboard) (silent : bool)
  : B Z :=
  b_call (ta_Message api) 0%Z
    (SendMessageRequest (mkSendMessage chatID (rm_Text rendered) topicID markup true silent "" (rm_Entities rendered))).

Definition EditMessageText (chatID messageID : Z) (text : string) (markup : option keyboard) : B Z :=
  b_call (ta_Message api) 0%Z
    (EditMessageTextRequest (mkEditMessage chatID messageID text markup true (parseModeForText text) [])).

Definition EditRenderedMessageText (chatID messageID : Z) (rendered : RenderedMessage) (markup : option keyboard) : B Z :=
  b_call (ta_Message api) 0%Z
    (EditMessageTextRequest (mkEditMessage chatID messageID (rm_Text rendered) markup true "" (rm_Entities rendered))).

Definition DeleteMessage (chatID topicID messageID : Z) : B unit :=
  b_call (ta_Plain api) tt (DeleteMessageRequest chatID messageID).

(** The buttons go with the last of the messages. *)
Fixpoint sendTextChunks (chatID topicID : Z) (chunks : list string) (buttons : list (list ButtonSpec)) (silent : bool)
    (messageID : Z) : B Z :=
  match chunks with
  | [] => b_ret messageID
  | chunk :: rest =>
      b! sent := apiSendMessage chatID topicID chunk (match rest with [] => toInlineKeyboard buttons | _ => None end) silent in
      sendTextChunks chatID topicID rest buttons silent sent
  end.

Definition SendMessage (chatID topicID : Z) (text : string) (buttons : list (list ButtonSpec)) (silent : bool) : B Z :=
  let chunks := splitText (trim_space text) telegramMessageLimit in
  sendTextChunks chatID topicID (match chunks with [] => [" "] | _ => chunks end) buttons silent 0.

Definition shown (rendered : RenderedMessage) : RenderedMessage :=
  if is_blank (rm_Text rendered) then mkRendered " " [] else rendered.

(** A message whose entities Telegram refuses is sent without them. *)
Definition sendRendered (chatID topicID : Z) (rendered : RenderedMessage) (markup : option keyboard) (silent : bool) : B Z :=
  b! sent := b_try (apiSendRenderedMessage chatID topicID rendered markup silent) in
  match sent with
  | inl id => b_ret id
  | inr _ => apiSendRenderedMessage chatID topicID (mkRendered (rm_Text rendered) []) markup silent
  end.

Fixpoint sendAllRendered (chatID topicID : Z) (messages : list RenderedMessage) (buttons : list (list ButtonSpec))
    (silent : bool) : B (list Z) :=
  match messages with
  | [] => b_ret []
  | rendered :: rest =>
      b! id := sendRendered chatID topicID (shown rendered)
                 (match rest with [] => toInlineKeyboard buttons | _ => None end) silent in
      b! ids := sendAllRendered chatID topicID rest buttons silent in
      b_ret (id :: ids)
  end.

Definition SendRenderedMessages (chatID topicID : Z) (messages : list RenderedMessage) (buttons : list (list ButtonSpec))
    (silent : bool) : B (list Z) :=
  sendAllRendered chatID topicID (match messages with [] => [mkRendered " " []] | _ => messages end) buttons silent.

Definition EditMessage (chatID topicID messageID : Z) (text : string) (buttons : list (list ButtonSpec)) : B unit :=
  match splitText (trim_space text) telegramMessageLimit with
  | [chunk] => b! _ := EditMessageText chatID messageID chunk (toInlineKeyboard buttons) in b_ret tt
  | chunks => b_fail (TelegramFailed ("telegram editMessageText requires a single text chunk, got "
                                      +:+ format_int (Z.of_nat (length chunks))))
  end.

Definition EditRenderedMessage (chatID topicID messageID : Z) (rendered0 : RenderedMessage) (buttons : list (list ButtonSpec))
  : B unit :=
  let rendered := shown rendered0 in
  let markup := toInlineKeyboard buttons in
  b! edited := b_try (EditRenderedMessageText chatID messageID rendered markup) in
  match edited with
  | inl _ => b_ret tt
  | inr e =>
      b! again := b_try (EditRenderedMessageText chatID messageID (mkRendered (rm_Text rendered) []) markup) in
      match again with inl _ => b_ret tt | inr fallback => b_fail (BothFailed e fallback) end
  end.

(** *** What the service answers *)
Definition deliverDirectResponse (chatID topicID : Z) (response : option DirectResponse) : B unit :=
  match response with
  | None => b_ret tt
  | Some response =>
      if is_blank (dr_Text response) then b_ret tt
      else
        b! sent := b_try (SendMessage chatID topicID (dr_Text response) (dr_Buttons response) true) in
        match sent with
        | inr e =>
            b! _ := b_try (b_service (bv_AbandonVoiceConfirmation service (dr_VoiceConfirmationID response))) in b_fail e
        | inl messageID => b_service (bv_RegisterDirectDelivery service now chatID topicID messageID response)
        end
  end.

Definition failureText : string := "Request failed inside the local Go bridge. Try /repair or /status.".

Definition sendFailureMessage (chatID topicID : Z) (cause : bot_error) : B unit :=
  if (chatID =? 0)%Z then b_ret tt
  else
    b! sent := b_try (SendMessage chatID topicID failureText [] true) in
    match sent with inl _ => b_ret tt | inr e => b_fail (BothFailed cause e) end.

Definition answer_with (chatID topicID : Z) (answer : option DirectResponse + bot_error) : B unit :=
  match answer with
  | inl response => deliverDirectResponse chatID topicID response
  | inr e => sendFailureMessage chatID topicID e
  end.

(** *** Updates *)
Definition handleVoiceMessage (message : Message) (from : User) (voice : TelegramVoice) : B unit :=
  b! answer := b_try (b_service (bv_HandleVoice service now
       (mkVoiceInput (ms_ChatID message) (ms_MessageThreadID message) (us_ID from) (default 0%Z (ms_ReplyToMessage message))
          (ms_Date message * second)%Z (vo_FileSize voice) (vo_Duration voice) (vo_MimeType voice)
          (Some (bt_Download bot (vo_FileID voice)))))) in
  answer_with (ms_ChatID message) (ms_MessageThreadID message) answer.

Definition handleText (message : Message) (from : User) : B unit :=
  b! answer := b_try (b_service (bv_HandleInboundText service now
       (mkInboundText (ms_ChatID message) (ms_MessageThreadID message) (us_ID from) (ms_MessageID message)
          (default 0%Z (ms_ReplyToMessage message)) (ms_Text message) (ms_Date message * second)%Z))) in
  answer_with (ms_ChatID message) (ms_MessageThreadID message) answer.

Definition handleMessage (message : Message) : B unit :=
  match ms_From message with
  | None => b_ret tt
  | Some from =>
      if isOwnerOnlyProfile (bt_Profile bot) && negb (bv_IsAllowed service (us_ID from) (ms_ChatID message)) then b_ret tt
      else
        match isMinimalProfile (bt_Profile bot), ms_Voice message with
        | true, Some voice => handleVoiceMessage message from voice
        | _, _ => if is_blank (ms_Text message) then b_ret tt else handleText message from
        end
  end.

Definition callback_text (answer : option DirectResponse + bot_error) : string :=
  match answer with
  | inr _ => "Request failed."
  | inl None => "Ignored."
  | inl (Some response) => if is_blank (dr_CallbackText response) then "" else dr_CallbackText response
  end.

Definition handleCallback (callback : CallbackQuery) : B unit :=
  match cq_From callback with
  | None => b_ret tt
  | Some from =>
      let chatID := from_option ms_ChatID 0%Z (cq_Message callback) in
      let topicID := from_option ms_MessageThreadID 0%Z (cq_Message callback) in
      let messageID := from_option ms_MessageID 0%Z (cq_Message callback) in
      if isOwnerOnlyProfile (bt_Profile bot) && negb (bv_IsAllowed service (us_ID from) chatID) then b_ret tt
      else
        b! answer := b_try (b_service (bv_HandleCallback service now chatID topicID messageID (us_ID from) (cq_Data callback))) in
        b! _ := b_try (b_call (ta_Plain api) tt (AnswerCallbackQueryRequest (cq_ID callback) (callback_text answer) false)) in
        answer_with chatID topicID answer
  end.

Definition handleUpdate (update : Update) : B unit :=
  match up_CallbackQuery update, up_Message update, up_EditedMessage update with
  | Some callback, _, _ => handleCallback callback
  | None, Some message, _ => handleMessage message
  | None, None, Some message => handleMessage message
  | None, None, None => b_ret tt
  end.

End bot.

(** *** Run *)

(** The bot and the clock as the n-th update finds them. *)
Definition Times : Type := nat -> Bot * instant.

Definition handed (update : Update) : B unit := fun w =>
  Some (inl tt, mkBotWorld (bw_World w) (bw_Requests w) (bw_Updates w ++ [update])).

(** The body of the loop over the updates: the offset moves on first, errors are logged. *)
Fixpoint handleUpdates (at_ : Times) (updates : list Update) (offset : Z) : B Z := fun w =>
  match updates with
  | [] => Some (inl offset, w)
  | update :: rest =>
      let '(bot, now) := at_ (length (bw_Updates w)) in
      let offset1 := if (offset <=? up_UpdateID update)%Z then (up_UpdateID update + 1)%Z else offset in
      (b! _ := handed update in
       b! _ := b_try (handleUpdate bot now update) in
       handleUpdates at_ rest offset1) w
  end.

(** A round of Run. *)
Definition runRound (at_ : Times) (offset : Z) : B Z := fun w =>
  (b! updates := b_try (GetUpdates (at_ (length (bw_Updates w))).1 offset 30) in
   match updates with
   | inr _ => b_ret offset
   | inl updates => handleUpdates at_ updates offset
   end) w.

Fixpoint runRounds (at_ : Times) (rounds : nat) (offset : Z) : B Z :=
  match rounds with
  | O => b_ret offset
  | S rounds => b! offset1 := runRound at_ offset in runRounds at_ rounds offset1
  end.

(** *** The services of the two profiles *)
Definition some_of {A : Type} (m : W A) : W (option A) := w! a := m in w_ret (Some a).

Definition abandonVoice (voiceID : Z) : W unit :=
  if (voiceID =? 0)%Z then w_ret tt else w_tx (AbandonVoiceConfirmation voiceID).

Definition minimalBotService `{GateCodec} (ch : ChatService) : BotService :=
  mkBotService (IsAllowed (vs_Runtime (ch_Voice ch)))
    (fun now inbound => w! answer := minimalInboundText ch now inbound in w_ret answer.1)
    (fun now input => some_of (HandleVoice (ch_Voice ch) now input))
    (fun now chatID topicID messageID userID token =>
       w! answer := minimalCallback ch now chatID topicID messageID userID token in w_ret answer.1)
    abandonVoice
    (fun now => RegisterDirectDelivery now).

(** A handler of the notifier, which acts on the store alone. *)
Definition w_of {A : Type} (m : M A) : W A := fun w =>
  match m (rw_Store w) with
  | (Done a, s) => Some (inl a, set_rw_Store s w)
  | (Fault e, s) => Some (inr (start_of_fault e), set_rw_Store s w)
  end.

Definition notifierBotService `{GateCodec} (vs : VoiceService) : BotService :=
  let rt := vs_Runtime vs in
  mkBotService (IsAllowed rt)
    (fun now inbound => w_of (do! answer := HandleInboundText rt now inbound in ret (Some answer)))
    (fun now input => some_of (HandleVoice vs now input))
    (fun now chatID _ _ userID _ => w_of (do! answer := handleNotifierCallback rt userID chatID in ret (Some answer)))
    abandonVoice
    (fun now => RegisterDirectDelivery now).
