(* ===== verification/TelegramText.v ===== *)
(** * internal/telegram/bot.go: what splitText keeps

    A text is sent in pieces of at most [telegramMessageLimit] runes; the pieces carry
    every byte of the text that is not white space, in order.  [marks] is those bytes. *)
From stdpp Require Import base list numbers strings sets.
From Stdlib Require Import Lia ZifyN Ascii.
From S2P Require Import Prelude GoStrings Utf8 Normalize TgFormat Starts Catalog TelegramBot.

Definition marks (s : string) : list chunk := filter (fun u => is_space u = false) (chunks s).

(** [n] times one byte. *)
Fixpoint bytes (n : nat) (c : ascii) : string := match n with O => "" | S n => String c (bytes n c) end.

(** ** Boundaries: a byte that does not continue a rune begins a new one *)

Lemma chunks_app_lead s x t : cont_byte x = false -> chunks (s +:+ String x t) = chunks s ++ chunks (String x t).
Proof.
  intros Hx. induction s as [s IH] using str_ind_len. destruct s as [|a r]; [done|].
  destruct (chunks_step a r) as [(b & t0 & E & Hs & Hb)|[E Hsp]].
  - rewrite E, Hs, str_app_assoc, Hb, IH; [done|]. rewrite Hs, str_length_app.
    destruct b as [|y b]; [by specialize (Hb "")|]. simpl. lia.
  - rewrite E. change (String a r +:+ String x t) with (String a (r +:+ String x t)). rewrite <- app_comm_cons, <- IH by (simpl; lia).
    cbn [chunks] in E |- *. rewrite Hsp in *.
    assert (Hn : forall n, (128 <= n <= 191)%N -> code_is x n = false)
      by (intros n Hn; rune_bools; apply N.eqb_neq; intros En; rewrite in_range_true in Hx by lia; done).
    assert (Hi : forall lo hi, (128 <= lo)%N -> (hi <= 191)%N -> code_in x lo hi = false).
    { intros lo hi Hl Hh. rune_bools. apply not_true_iff_false. intros H%in_range_inv.
      rewrite in_range_true in Hx by lia. done. }
    destruct r as [|b r2].
    { change ("" +:+ String x t) with (String x t). unfold space2 at 1. rewrite !Hn by lia. rewrite andb_false_r. destruct t as [|c t]; [done|].
      unfold space3 at 1. rewrite !Hn by lia. by rewrite !andb_false_r. }
    change (String b r2 +:+ String x t) with (String b (r2 +:+ String x t)).
    cbv iota in E |- *. destruct (space2 a b); [done|]. destruct r2 as [|c r3].
    2: { change (String c r3 +:+ String x t) with (String c (r3 +:+ String x t)). cbv iota. by destruct (space3 a b c). }
    change ("" +:+ String x t) with (String x t).
    unfold space3 at 1. rewrite !Hn, Hi by lia. by rewrite !andb_false_r.
Qed.

Lemma runes_eq a r : runes (String a r) =
  if code_in a 0 127 then code a :: runes r
  else match r with
  | EmptyString => [rune_error]
  | String b r2 =>
      if code_in a 194 223 && cont_byte b then ((code a - 192) * 64 + (code b - 128))%N :: runes r2
      else match r2 with
      | EmptyString => rune_error :: runes r
      | String c r3 =>
          if code_in a 224 239 && second3 a b && cont_byte c
          then ((code a - 224) * 4096 + (code b - 128) * 64 + (code c - 128))%N :: runes r3
          else match r3 with
          | EmptyString => rune_error :: runes r
          | String d r4 =>
              if code_in a 240 244 && second4 a b && cont_byte c && cont_byte d
              then ((code a - 240) * 262144 + (code b - 128) * 4096 + (code c - 128) * 64 + (code d - 128))%N :: runes r4
              else rune_error :: runes r
          end
      end
  end.
Proof. reflexivity. Qed.

Lemma runes_app_lead s x t : cont_byte x = false -> runes (s +:+ String x t) = runes s ++ runes (String x t).
Proof.
  intros Hx.
  assert (H3 : forall a, second3 a x = false).
  { intros a. unfold second3. rune_bools. repeat case_match; try done; apply not_true_iff_false; intros Hr%in_range_inv;
      rewrite in_range_true in Hx by lia; done. }
  assert (H4 : forall a, second4 a x = false).
  { intros a. unfold second4. rune_bools. repeat case_match; try done; apply not_true_iff_false; intros Hr%in_range_inv;
      rewrite in_range_true in Hx by lia; done. }
  induction s as [s IH] using str_ind_len. destruct s as [|a r]; [done|].
  assert (IH' : forall u, (String.length u < S (String.length r))%nat -> runes (u +:+ String x t) = runes u ++ runes (String x t))
    by (intros u Hu; by apply IH). clear IH.
  change (String a r +:+ String x t) with (String a (r +:+ String x t)). rewrite !(runes_eq a).
  pose proof (IH' r ltac:(lia)) as Er. destruct (code_in a 0 127); [by rewrite Er|]. destruct r as [|b r2].
  { change ("" +:+ String x t) with (String x t). cbv iota. rewrite Hx, andb_false_r. destruct t as [|c t]; [done|].
    rewrite H3, andb_false_r. cbn [andb]. destruct t as [|d t]; [done|]. by rewrite H4, andb_false_r. }
  rewrite Er. change (String b r2 +:+ String x t) with (String b (r2 +:+ String x t)). cbv iota.
  destruct (_ && cont_byte b); [by rewrite (IH' r2) by (simpl; lia)|]. destruct r2 as [|c r3].
  { change ("" +:+ String x t) with (String x t). cbv iota. rewrite Hx, andb_false_r. cbv iota. destruct t as [|d t]; [done|]. rewrite ?Hx, ?andb_false_r. done. }
  change (String c r3 +:+ String x t) with (String c (r3 +:+ String x t)). cbv iota.
  destruct (_ && second3 a b && cont_byte c); [by rewrite (IH' r3) by (simpl; lia)|]. destruct r3 as [|d r4].
  { change ("" +:+ String x t) with (String x t). cbv iota. by rewrite Hx, andb_false_r. }
  change (String d r4 +:+ String x t) with (String d (r4 +:+ String x t)). cbv iota.
  destruct (_ && second4 a b && cont_byte c && cont_byte d); [by rewrite (IH' r4) by (simpl; lia)|done].
Qed.

(** ** What is valid stays valid *)

Lemma encode_shape r : valid_rune r = true ->
  exists x t, encode_rune r = String x t /\ cont_byte x = false
    /\ String.length (encode_rune r) = if (r <? 128)%N then 1%nat else if (r <? 2048)%N then 2%nat else if (r <? 65536)%N then 3%nat else 4%nat.
Proof.
  intros Hv. unfold encode_rune. rewrite Hv. apply valid_rune_spec in Hv. unfold encode_valid.
  destruct (N.ltb_spec r 128); [|destruct (N.ltb_spec r 2048); [|destruct (N.ltb_spec r 65536)]]; eexists _, _;
    (split; [reflexivity|]); (split; [|reflexivity]); rune_bools; rewrite code_byte by rune_lia; apply in_range_false; rune_lia.
Qed.

(** No byte is lost by decoding and encoding: what is not valid grows. *)
Lemma length_recoded s : (String.length s <= String.length (string_of_runes (runes s)))%nat.
Proof.
  assert (He : forall r rest k, Forall (fun r => valid_rune r = true) (r :: rest) ->
    (k <= (if (r <? 128)%N then 1 else if (r <? 2048)%N then 2 else if (r <? 65536)%N then 3 else 4))%nat ->
    (k + String.length (string_of_runes rest) <= String.length (string_of_runes (r :: rest)))%nat).
  { intros r rest k [Hr _]%Forall_cons Hk. cbn [string_of_runes]. rewrite str_length_app.
    destruct (encode_shape r Hr) as (x & t & _ & _ & ->). lia. }
  induction s as [s IH] using str_ind_len. destruct s as [|a r]; [simpl; lia|]. pose proof (runes_valid (String a r)) as Hv.
  assert (IH' : forall u, (String.length u <= String.length r)%nat -> (String.length u <= String.length (string_of_runes (runes u)))%nat)
    by (intros u Hu; apply IH; simpl; lia). clear IH. pose proof (IH' r ltac:(lia)) as Er. pose proof (code_lt a).
  rewrite (runes_eq a) in Hv |- *. destruct (code_in a 0 127) eqn:E1.
  { pose proof (He _ _ 1%nat Hv ltac:(repeat case_match; lia)). simpl in *. lia. }
  destruct r as [|b r2]; [simpl; lia|]. destruct (code_in a 194 223 && cont_byte b) eqn:E2.
  { pose proof (IH' r2 ltac:(simpl; lia)). pose proof (He _ _ 2%nat Hv) as X. destruct (N.ltb_spec ((code a - 192) * 64 + (code b - 128)) 128).
    - rune_hyps. lia.
    - specialize (X ltac:(repeat case_match; lia)). cbn [String.length]. lia. }
  destruct r2 as [|c r3]; [pose proof (He _ _ 1%nat Hv ltac:(simpl; lia)); cbn [String.length] in *; lia|].
  destruct (code_in a 224 239 && second3 a b && cont_byte c) eqn:E3.
  { pose proof (IH' r3 ltac:(simpl; lia)). pose proof (He _ _ 3%nat Hv) as X.
    destruct (N.ltb_spec ((code a - 224) * 4096 + (code b - 128) * 64 + (code c - 128)) 2048).
    - unfold second3 in *. rune_hyps. destruct (N.eqb_spec (code a) 224); [|destruct (N.eqb_spec (code a) 237)]; rune_hyps; lia.
    - destruct (N.ltb_spec ((code a - 224) * 4096 + (code b - 128) * 64 + (code c - 128)) 128); [lia|].
      specialize (X ltac:(repeat case_match; lia)). cbn [String.length]. lia. }
  destruct r3 as [|d r4]; [pose proof (He _ _ 1%nat Hv ltac:(simpl; lia)); cbn [String.length] in *; lia|].
  destruct (code_in a 240 244 && second4 a b && cont_byte c && cont_byte d) eqn:E4.
  { pose proof (IH' r4 ltac:(simpl; lia)). pose proof (He _ _ 4%nat Hv) as X. set (n := (_ + _)%N) in *.
    assert (65536 <= n)%N.
    { subst n. unfold second4 in *. rune_hyps. destruct (N.eqb_spec (code a) 240); [|destruct (N.eqb_spec (code a) 244)]; rune_hyps; lia. }
    destruct (N.ltb_spec n 128); [lia|]. destruct (N.ltb_spec n 2048); [lia|]. destruct (N.ltb_spec n 65536); [lia|].
    specialize (X ltac:(lia)). cbn [String.length]. lia. }
  pose proof (He _ _ 1%nat Hv ltac:(simpl; lia)). cbn [String.length] in *. lia.
Qed.

Lemma str_app_inj_length a b x y : String.length a = String.length b -> a +:+ x = b +:+ y -> a = b /\ x = y.
Proof.
  revert b. induction a as [|c a IH]; intros [|d b] Hl; try discriminate Hl; [done|].
  change (String c a +:+ x) with (String c (a +:+ x)). change (String d b +:+ y) with (String d (b +:+ y)).
  intros [= -> H]. injection Hl as Hl. by destruct (IH b Hl H) as [-> ->].
Qed.

Lemma utf8_split s x t : cont_byte x = false -> utf8_text (s +:+ String x t) -> utf8_text s /\ utf8_text (String x t).
Proof.
  intros Hx H. unfold utf8_text in *. rewrite runes_app_lead, string_of_runes_app in H by done.
  pose proof (length_recoded s). pose proof (length_recoded (String x t)).
  pose proof (f_equal String.length H) as Hl. rewrite !str_length_app in Hl. by apply str_app_inj_length in H; [|lia].
Qed.

Lemma utf8_byte x : code_in x 0 127 = true -> utf8_text (str1 x).
Proof.
  intros Hx. unfold utf8_text, str1. rewrite runes_one by done. change (runes "") with (@nil N). cbn [string_of_runes].
  unfold code_in in Hx. apply in_range_inv in Hx. unfold encode_rune.
  assert (valid_rune (code x) = true) as -> by (apply valid_rune_spec; lia).
  unfold encode_valid. destruct (N.ltb_spec (code x) 128); [|lia]. unfold byte_of, code. by rewrite ascii_N_embedding.
Qed.

Lemma ascii_lead x : code_in x 0 127 = true -> cont_byte x = false.
Proof. rune_bools. intros H%in_range_inv. apply in_range_false. lia. Qed.

Lemma utf8_ascii x t : code_in x 0 127 = true -> utf8_text (String x t) -> utf8_text t.
Proof.
  intros Hx. unfold utf8_text. rewrite runes_one by done. cbn [string_of_runes]. pose proof (utf8_byte x Hx) as E.
  unfold utf8_text, str1 in E. rewrite runes_one in E by done. change (runes "") with (@nil N) in E.
  cbn [string_of_runes] in E. rewrite str_app_nil_r in E. rewrite E. by intros [= H].
Qed.

(** ** Marks *)
Lemma marks_app_lead s x t : cont_byte x = false -> marks (s +:+ String x t) = marks s ++ marks (String x t).
Proof. intros Hx. unfold marks. by rewrite chunks_app_lead, filter_app. Qed.

Lemma marks_space x t : space1 x = true -> marks (String x t) = marks t.
Proof. intros Hx. unfold marks. cbn [chunks]. by rewrite Hx. Qed.

Lemma marks_app_runes l1 l2 : Forall (fun r => valid_rune r = true) l2 ->
  marks (string_of_runes l1 +:+ string_of_runes l2) = marks (string_of_runes l1) ++ marks (string_of_runes l2).
Proof.
  intros [|r l Hr _]; [cbn [string_of_runes]; by rewrite str_app_nil_r, app_nil_r|]. cbn [string_of_runes].
  destruct (encode_shape r Hr) as (x & t & -> & Hx & _). change (String x t +:+ ?u) with (String x (t +:+ u)). by apply marks_app_lead.
Qed.

Lemma trim_chunks_spaces l : exists p q, l = p ++ trim_chunks l ++ q
  /\ Forall (fun u => is_space u = true) p /\ Forall (fun u => is_space u = true) q.
Proof.
  destruct (drop_while_suffix is_space l) as (p & Hp & Fp).
  destruct (drop_while_suffix is_space (rev (drop_while is_space l))) as (q & Hq & Fq).
  exists p, (rev q). split; [|split; [done|by apply Forall_rev]]. rewrite Hp at 1. f_equal.
  unfold trim_chunks. rewrite <- rev_app_distr, <- Hq. by rewrite rev_involutive.
Qed.

Lemma filter_spaces p : Forall (fun u => is_space u = true) p -> filter (fun u => is_space u = false) p = [].
Proof. induction 1 as [|u p Hu _ IH]; [done|]. rewrite filter_cons. by rewrite decide_False by (rewrite Hu; done). Qed.

Lemma marks_trim s : marks (trim_space s) = marks s.
Proof.
  unfold marks. rewrite chunks_trim. destruct (trim_chunks_spaces (chunks s)) as (p & q & E & Hp & Hq).
  rewrite E at 2. by rewrite !filter_app, (filter_spaces p), (filter_spaces q), app_nil_r.
Qed.

(** ** Trimming takes no room *)
Lemma space_chunk s b : Space b ∈ chunks s ->
  exists x t r, b = String x t /\ cont_byte x = false /\ forall u, runes (b +:+ u) = r :: runes u.
Proof.
  induction s as [s IH] using str_ind_len. destruct s as [|a r]; [by rewrite elem_of_nil|]. cbn [chunks].
  destruct (space1 a) eqn:E1.
  { rewrite elem_of_cons. intros [[= ->]|H]; [|eapply IH; [|done]; simpl; lia].
    assert (Ha : code_in a 0 127 = true).
    { unfold space1 in E1. rune_bools. apply orb_true_iff in E1 as [H%in_range_inv|H%N.eqb_eq]; apply in_range_true; lia. }
    exists a, "", (code a). split; [done|]. split; [by apply ascii_lead|]. intros u. change (str1 a +:+ u) with (String a u). by apply runes_one. }
  destruct r as [|c r2]; [by rewrite list_elem_of_singleton|]. destruct (space2 a c) eqn:E2.
  { rewrite elem_of_cons. intros [[= ->]|H]; [|eapply IH; [|done]; simpl; lia]. unfold space2 in E2. rune_bools.
    apply andb_prop in E2 as [Ea%N.eqb_eq Ec]. exists a, (str1 c). eexists. split; [done|].
    split; [rewrite Ea; done|]. intros u. change (str2 a c +:+ u) with (String a (String c u)).
    apply runes_two; rune_bools; [by rewrite Ea|]. apply orb_true_iff in Ec as [->%N.eqb_eq| ->%N.eqb_eq]; done. }
  destruct r2 as [|d r3].
  { rewrite elem_of_cons. intros [?|H]; [done|]. eapply IH; [|exact H]. simpl; lia. }
  destruct (space3 a c d) eqn:E3; rewrite elem_of_cons.
  - intros [[= ->]|H]; [|eapply IH; [|done]; simpl; lia].
    assert (code_in a 225 227 = true /\ cont_byte c = true /\ cont_byte d = true) as (Ha & Hc & Hd).
    { unfold space3 in E3. rune_bools. repeat match goal with
      | H : (_ || _)%bool = true |- _ => apply orb_true_iff in H as [H|H]
      | H : (_ && _)%bool = true |- _ => apply andb_prop in H as [? ?]
      | H : (_ =? _)%N = true |- _ => apply N.eqb_eq in H
      | H : (_ <=? _)%N = true |- _ => apply N.leb_le in H
      end; split_and!; apply in_range_true; lia. }
    unfold code_in in Ha. apply in_range_inv in Ha. exists a, (str2 c d). eexists. split; [done|].
    split; [rune_bools; apply in_range_false; lia|]. intros u. change (str3 a c d +:+ u) with (String a (String c (String d u))).
    apply runes_three; [rune_bools; apply in_range_true; lia| |done]. unfold second3. rune_bools.
    destruct (N.eqb_spec (code a) 224); [lia|]. by destruct (N.eqb_spec (code a) 237); [lia|].
  - intros [?|H]; [done|]. eapply IH; [|exact H]. simpl; lia.
Qed.

Lemma flatten_app l k : flatten (l ++ k) = flatten l +:+ flatten k.
Proof. induction l as [|u l IH]; [done|]. cbn [flatten app]. by rewrite IH, str_app_assoc. Qed.

(** What trimming takes away: whole runes in front, and behind nothing that continues a rune. *)
Lemma trim_shape s : exists a b l, s = a +:+ trim_space s +:+ b /\ (forall v, runes (a +:+ v) = l ++ runes v)
  /\ (b = "" \/ exists x t, b = String x t /\ cont_byte x = false).
Proof.
  destruct (trim_chunks_spaces (chunks s)) as (p & q & E & Hp & Hq).
  assert (Hs : forall u, u ∈ p ++ q -> is_space u = true -> exists x t r, chunk_bytes u = String x t /\ cont_byte x = false
            /\ forall v, runes (chunk_bytes u +:+ v) = r :: runes v).
  { intros [b|b] Hu; [|done]. intros _. apply (space_chunk s). rewrite E, !elem_of_app. set_solver. }
  assert (Hf : exists l, forall v, runes (flatten p +:+ v) = l ++ runes v).
  { clear E Hq. induction p as [|u p IH]; [by exists []|]. apply Forall_cons in Hp as [Hu Hp].
    destruct (Hs u) as (x & t & r & _ & _ & Hr); [set_solver|done|]. destruct IH as [l Hl]; [done|set_solver|].
    exists (r :: l). intros v. cbn [flatten]. by rewrite str_app_assoc, Hr, Hl. }
  destruct Hf as [l Hl]. exists (flatten p), (flatten q), l. split; [|split; [done|]].
  { unfold trim_space. by rewrite <- !flatten_app, <- E, flatten_chunks. }
  destruct q as [|u q]; [by left|right]. apply Forall_cons in Hq as [Hu _].
  destruct (Hs u) as (x & t & r & Hb & Hx & _); [set_solver|done|]. cbn [flatten]. rewrite Hb. by exists x, (t +:+ flatten q).
Qed.

Lemma rune_count_trim s : (rune_count (trim_space s) <= rune_count s)%nat.
Proof.
  destruct (trim_shape s) as (a & b & l & E & Hl & Hb). unfold rune_count. rewrite E at 2. rewrite Hl, length_app.
  destruct Hb as [-> |(x & t & -> & Hx)]; [rewrite str_app_nil_r; lia|]. rewrite runes_app_lead by done. rewrite length_app. lia.
Qed.

Lemma utf8_trim s : utf8_text s -> utf8_text (trim_space s).
Proof.
  destruct (trim_shape s) as (a & b & l & E & Hl & Hb). rewrite E at 1. intros Hu.
  assert (Hv : utf8_text (trim_space s +:+ b)).
  { revert Hu. generalize (trim_space s +:+ b). intros v Hu. unfold utf8_text in *. rewrite Hl, string_of_runes_app in Hu.
    pose proof (length_recoded a) as Ha. pose proof (Hl "") as Ea. rewrite str_app_nil_r in Ea. change (runes "") with (@nil N) in Ea.
    rewrite app_nil_r in Ea. rewrite Ea in Ha. pose proof (length_recoded v) as Hr. pose proof (f_equal String.length Hu) as Hlen.
    rewrite !str_length_app in Hlen. by eapply (str_app_inj_length (string_of_runes l) a); [lia|]. }
  destruct Hb as [-> |(x & t & -> & Hx)]; [by rewrite str_app_nil_r in Hv|]. by apply utf8_split in Hv as [Hv _].
Qed.

(** ** Lines *)
Lemma join_split c s : join (str1 c) (split_byte c s) = s.
Proof.
  induction s as [|a s IH]; [done|]. cbn [split_byte]. destruct (Ascii.eqb_spec a c) as [->|_].
  - destruct (split_byte c s) as [|w ws] eqn:E; [by destruct s as [|b s]; cbn in E; [|repeat case_match]|]. cbn [join].
    change (str1 c +:+ join (str1 c) (w :: ws) = String c s). by rewrite IH.
  - destruct (split_byte c s) as [|w ws]; [by rewrite <- IH|]. rewrite <- IH. by destruct ws.
Qed.

Lemma join_lines c lines : space1 c = true -> code_in c 0 127 = true ->
  marks (join (str1 c) lines) = concat (map marks lines)
  /\ (utf8_text (join (str1 c) lines) -> Forall utf8_text lines).
Proof.
  intros Hs Hc. induction lines as [|l [|k rest] [IHm IHu]]; [by split|split; [cbn; by rewrite app_nil_r|by repeat constructor]|].
  change (join (str1 c) (l :: k :: rest)) with (l +:+ String c (join (str1 c) (k :: rest))). cbn [map concat] in IHm |- *. split.
  - rewrite marks_app_lead by by apply ascii_lead. by rewrite marks_space, IHm.
  - intros [Hl Hr]%utf8_split; [|by apply ascii_lead]. constructor; [done|]. apply IHu. by apply utf8_ascii in Hr.
Qed.

Lemma crlf_kept s : forall a, marks (a +:+ replacer [(String "013" newline, newline)] s 0) = marks (a +:+ s)
  /\ (utf8_text (a +:+ s) -> utf8_text (a +:+ replacer [(String "013" newline, newline)] s 0)).
Proof.
  induction s as [s IH] using str_ind_len. intros a. destruct s as [|b s]; [done|].
  assert (Hstep : forall c r, replacer [(String "013" newline, newline)] (String c r) 0
            = if (Ascii.eqb c "013" && String.prefix newline r)%bool
              then newline +:+ replacer [(String "013" newline, newline)] r 1 else String c (replacer [(String "013" newline, newline)] r 0)).
  { intros c r. cbn [replacer first_some fst String.prefix]. destruct (ascii_dec "013" c) as [<-|Hne].
    - rewrite Ascii.eqb_refl. cbn [andb]. by destruct (String.prefix newline r).
    - destruct (Ascii.eqb_spec c "013") as [->|]; [done|]. done. }
  rewrite Hstep. destruct (_ && _) eqn:E.
  - apply andb_prop in E as [->%Ascii.eqb_eq Ep]. destruct s as [|d t]; [done|]. assert (Ep' : (if ascii_dec "010" d then String.prefix "" t else false) = true) by exact Ep.
    destruct (ascii_dec "010" d) as [<-|]; [|done]. destruct (IH t ltac:(simpl; lia) "") as [Im Iu].
    change (newline +:+ replacer [(String "013" newline, newline)] (String "010" t) 1)
      with (String "010" (replacer [(String "013" newline, newline)] t 0)).
    rewrite !marks_app_lead, !marks_space by done. split; [by f_equal|].
    intros [Ha Hr]%utf8_split; [|done]. apply utf8_ascii, utf8_ascii in Hr; [|done..].
    apply utf8_text_app; [done|]. apply (utf8_text_app (str1 "010")); [by apply utf8_byte|]. by apply Iu.
  - destruct (IH s ltac:(simpl; lia) (a +:+ str1 b)) as [Im Iu]. rewrite !str_app_assoc in Im, Iu. by split.
Qed.

Lemma str_rev_app_spec s : forall t u, str_rev_app (s +:+ t) u = str_rev_app t (str_rev_app s u).
Proof. induction s as [|a s IH]; intros t u; [done|]. change (String a s +:+ t) with (String a (s +:+ t)). cbn [str_rev_app]. apply IH. Qed.

Lemma str_rev_involutive s t : str_rev_app (str_rev_app s t) "" = str_rev_app t "" +:+ s.
Proof.
  revert t. induction s as [|a s IH]; intros t; cbn [str_rev_app]; [by rewrite str_app_nil_r|]. rewrite IH. cbn [str_rev_app].
  assert (H : forall x u, str_rev_app x u = str_rev_app x "" +:+ u).
  { clear. induction x as [|b x IHx]; intros u; [done|]. cbn [str_rev_app]. rewrite IHx, (IHx (String b "")), str_app_assoc. done. }
  rewrite (H t (String a "")), str_app_assoc. done.
Qed.

Lemma trim_left_bytes c s : exists n, s = bytes n c +:+ trim_left_byte c s.
Proof.
  induction s as [|a s [n IH]]; [by exists 0%nat|]. cbn [trim_left_byte]. destruct (Ascii.eqb_spec a c) as [->|_]; [|by exists 0%nat].
  exists (S n). cbn [bytes]. change (String c s = String c (bytes n c +:+ trim_left_byte c s)). by f_equal.
Qed.

Lemma bytes_snoc n c t : bytes n c +:+ String c t = String c (bytes n c +:+ t).
Proof. induction n as [|n IH]; [done|]. cbn [bytes]. change (String c (bytes n c +:+ String c t) = String c (String c (bytes n c +:+ t))). by rewrite IH. Qed.

Lemma rev_bytes n c t : str_rev_app (bytes n c) t = bytes n c +:+ t.
Proof. revert t. induction n as [|n IH]; intros t; [done|]. cbn [bytes str_rev_app]. rewrite IH. by rewrite bytes_snoc. Qed.

Lemma trim_right_bytes c s : exists n, s = trim_right_byte c s +:+ bytes n c.
Proof.
  unfold trim_right_byte. destruct (trim_left_bytes c (str_rev_app s "")) as [n E]. exists n.
  pose proof (str_rev_involutive s "") as R. cbn [str_rev_app] in R. change ("" +:+ s) with s in R.
  rewrite <- R at 1. rewrite E at 1. rewrite str_rev_app_spec, rev_bytes.
  pose proof (str_rev_involutive (trim_left_byte c (str_rev_app s "")) "") as _.
  generalize (trim_left_byte c (str_rev_app s "")). intros u. rewrite str_app_nil_r.
  assert (H : forall x v, str_rev_app x v = str_rev_app x "" +:+ v).
  { clear. induction x as [|b x IHx]; intros v; [done|]. cbn [str_rev_app]. rewrite IHx, (IHx (String b "")), str_app_assoc. done. }
  apply H.
Qed.

Lemma trim_right_kept c s : space1 c = true -> code_in c 0 127 = true ->
  marks (trim_right_byte c s) = marks s /\ (utf8_text s -> utf8_text (trim_right_byte c s)).
Proof.
  intros Hs Hc. destruct (trim_right_bytes c s) as [n E]. set (t := trim_right_byte c s) in *.
  assert (Hb : marks (bytes n c) = []) by (clear E; induction n as [|n IH]; [done|]; cbn [bytes]; by rewrite marks_space).
  clearbody t. subst s. destruct n as [|n]; [by rewrite str_app_nil_r|]. cbn [bytes] in Hb |- *. split.
  - rewrite marks_app_lead by by apply ascii_lead. by rewrite Hb, app_nil_r.
  - intros H. apply utf8_split in H; [tauto|by apply ascii_lead].
Qed.

(** ** splitText *)
Lemma rune_count_runes l : Forall (fun r => valid_rune r = true) l -> rune_count (string_of_runes l) = length l.
Proof. intros H. unfold rune_count. by rewrite runes_string_of_runes. Qed.

Lemma cut_line_spec limit : (0 < limit)%nat -> forall fuel line out rest, cut_line fuel limit line = (out, rest) ->
  Forall (fun piece => (rune_count piece <= limit)%nat) out
  /\ ((rune_count line <= fuel)%nat -> (rune_count rest <= limit)%nat)
  /\ (utf8_text line \/ out = [] -> concat (map marks out) ++ marks rest = marks line).
Proof.
  intros Hl. induction fuel as [|fuel IH]; intros line out rest; cbn [cut_line]; [intros [= <- <-]; split_and!; [done|lia|done]|].
  destruct (Nat.leb_spec (rune_count line) limit) as [H|H]; [intros [= <- <-]; by split_and!|].
  destruct (cut_line fuel limit _) as [pieces left] eqn:E. intros [= <- <-].
  assert (Hv : forall k, Forall (fun r => valid_rune r = true) (take k (runes line)) /\ Forall (fun r => valid_rune r = true) (drop k (runes line)))
    by (intros k; rewrite <- Forall_app, take_drop; apply runes_valid).
  destruct (Hv limit) as [Ht Hd]. destruct (IH _ _ _ E) as (I1 & I2 & I3). split_and!.
  - constructor; [|done]. etrans; [apply rune_count_trim|]. rewrite rune_count_runes by done. rewrite length_take. lia.
  - intros Hf. apply I2. rewrite rune_count_runes by done. rewrite length_drop. unfold rune_count in *. lia.
  - intros [Hu|]; [|done]. cbn [map concat]. rewrite marks_trim, <- app_assoc, I3.
    + rewrite <- marks_app_runes by done. by rewrite <- string_of_runes_app, take_drop, Hu.
    + left. unfold utf8_text. by rewrite runes_string_of_runes.
Qed.

Lemma flush_spec limit out current : (rune_count current <= limit)%nat ->
  Forall (fun piece => (rune_count piece <= limit)%nat) out ->
  Forall (fun piece => (rune_count piece <= limit)%nat) (flush out current)
  /\ concat (map marks (flush out current)) = concat (map marks out) ++ marks current.
Proof.
  intros Hc Ho. unfold flush. destruct (String.eqb_spec current "") as [->|_]; [split; [done|by rewrite app_nil_r]|]. split.
  - apply Forall_app. split; [done|]. constructor; [|done]. etrans; [apply rune_count_trim|done].
  - rewrite map_app, concat_app. cbn [map concat]. by rewrite marks_trim, app_nil_r.
Qed.

Lemma split_line_spec limit out current line out' current' : (0 < limit)%nat -> (rune_count current <= limit)%nat ->
  Forall (fun piece => (rune_count piece <= limit)%nat) out -> split_line limit (out, current) line = (out', current') ->
  (rune_count current' <= limit)%nat /\ Forall (fun piece => (rune_count piece <= limit)%nat) out'
  /\ (utf8_text line \/ out' = [] ->
      concat (map marks out') ++ marks current' = (concat (map marks out) ++ marks current) ++ marks line)
  /\ (out' = [] -> out = []).
Proof.
  intros Hl Hc Ho. unfold split_line. destruct (trim_right_kept " " line eq_refl eq_refl) as [<- Hu].
  set (l := trim_right_byte " " line) in *. clearbody l. destruct (Nat.leb_spec (rune_count (if String.eqb current "" then l
    else current +:+ newline +:+ l)) limit) as [H|H].
  - intros [= <- <-]. split_and!; [done..| |done]. intros _. destruct (String.eqb_spec current "") as [->|_]; [by rewrite app_nil_r|].
    change (newline +:+ l) with (String "010" l). rewrite marks_app_lead, marks_space by done. by rewrite app_assoc.
  - destruct (cut_line _ limit l) as [pieces rest] eqn:E. intros [= <- <-]. destruct (cut_line_spec limit Hl _ _ _ _ E) as (C1 & C2 & C3).
    destruct (flush_spec limit out current Hc Ho) as [F1 F2]. split_and!; [by apply C2|by apply Forall_app| |].
    + intros Hv. rewrite map_app, concat_app, F2, <- !app_assoc. do 2 f_equal. apply C3.
      destruct Hv as [Hv|[_ Hv]%app_eq_nil]; [left; by apply Hu|by right].
    + intros [Hf _]%app_eq_nil. unfold flush in Hf. destruct (String.eqb current ""); [done|by apply app_eq_nil in Hf as [_ ?]].
Qed.

Lemma split_lines_spec limit lines : (0 < limit)%nat -> forall out current out' current', (rune_count current <= limit)%nat ->
  Forall (fun piece => (rune_count piece <= limit)%nat) out -> fold_left (split_line limit) lines (out, current) = (out', current') ->
  (rune_count current' <= limit)%nat /\ Forall (fun piece => (rune_count piece <= limit)%nat) out'
  /\ (Forall utf8_text lines \/ out' = [] ->
      concat (map marks out') ++ marks current' = (concat (map marks out) ++ marks current) ++ concat (map marks lines))
  /\ (out' = [] -> out = []).
Proof.
  intros Hl. induction lines as [|line lines IH]; intros out current out' current' Hc Ho; cbn [fold_left map concat].
  - intros [= <- <-]. split_and!; [done..| |done]. intros _. by rewrite app_nil_r.
  - destruct (split_line limit (out, current) line) as [out1 current1] eqn:E. intros E2.
    destruct (split_line_spec _ _ _ _ _ _ Hl Hc Ho E) as (S1 & S2 & S3 & S4). destruct (IH _ _ _ _ S1 S2 E2) as (I1 & I2 & I3 & I4).
    split_and!; [done..| |tauto]. intros Hu. rewrite I3, S3, <- !app_assoc; [done|rewrite Forall_cons in Hu; tauto..].
Qed.

Lemma marks_nil s : marks s = [] -> trim_space s = "".
Proof.
  intros H. unfold trim_space, trim_chunks. assert (drop_while is_space (chunks s) = []) as ->; [|done].
  destruct (drop_while_suffix is_space (chunks s)) as (k & Hk & Fk). destruct (drop_while is_space (chunks s)) as [|u l] eqn:E; [done|].
  unfold marks in H. rewrite Hk, filter_app, filter_spaces, filter_cons in H by done. case_decide as D; [done|].
  pose proof (drop_while_head _ _ _ _ E) as Hu. by destruct (is_space u).
Qed.

(** The pieces of a text without white space around it fit, and carry what it says. *)
Lemma splitText_spec text limit : (0 < limit)%nat -> trim_space text = text ->
  Forall (fun piece => (rune_count piece <= limit)%nat) (splitText text limit)
  /\ (utf8_text text -> concat (map marks (splitText text limit)) = marks text)
  /\ splitText text limit <> [].
Proof.
  intros Hl Htrim. unfold splitText. destruct (Nat.eqb_spec limit 0); [lia|]. destruct (crlf_kept text "") as [Km Ku].
  change ("" +:+ ?x) with x in Km, Ku. unfold replace_all.
  assert (Ht0 : text = "" -> replacer [(String "013" newline, newline)] text 0 = "") by by intros ->.
  set (t := replacer _ text 0) in *. clearbody t.
  destruct (Nat.leb_spec (rune_count t) limit) as [H|H].
  { split_and!; [by repeat constructor| |done]. intros _. cbn [map concat]. by rewrite app_nil_r. }
  destruct (fold_left (split_line limit) (split_byte "010" t) ([], "")) as [out current] eqn:E.
  destruct (split_lines_spec limit _ Hl [] "" out current ltac:(cbn; lia) (Forall_nil_2 _) E) as (S1 & S2 & S3 & _).
  destruct (flush_spec limit out current S1 S2) as [F1 F2].
  destruct (join_lines "010" (split_byte "010" t) eq_refl eq_refl) as [Jm Ju]. rewrite join_split in Jm, Ju.
  cbn [map concat app] in S3. change (marks "") with (@nil chunk) in S3. change (@nil chunk ++ ?x) with x in S3. rewrite <- Jm, Km in S3.
  destruct (flush out current) as [|piece pieces] eqn:Ef.
  - assert (out = []) as -> by (unfold flush in Ef; destruct (String.eqb current ""); [done|by destruct out]).
    specialize (S3 (or_intror eq_refl)). rewrite <- F2 in S3. symmetry in S3. apply marks_nil in S3. rewrite Htrim in S3.
    rewrite (Ht0 S3) in H. cbn in H. lia.
  - split_and!; [done| |done]. intros Hu. rewrite F2. apply S3. left. by apply Ju, Ku.
Qed.
