(* ===== verification/IngressSafety.v ===== *)
(** * What Telegram and App Server may do to the bridge

    [bridge_step] is one event of the daemon under the minimal profile: a text or command,
    a voice message, a press, a message that was sent or could not be sent, a cycle of the
    polls, a notification of App Server, a batch of deliveries, with whatever App Server and Telegram answer to it.
    Whatever events follow each other, the bridge only makes sandboxed turn/start
    requests, and its workers are in a state that their machine reaches. *)
From stdpp Require Import base list numbers strings gmap relations.
From Stdlib Require Import Lia Ascii.
From S2P Require Import Prelude QueueSafety GoStrings GoTime Utf8 Sql Json Model Normalize NotifierFormat MinimalTables CoreTables Store Daemon NotifierObserver NotifierIngress Delivery.
From S2P Require Import Threads Panels TerminalGate LinkedThread PendingCommands Continuations Observations Approvals Projects LinkWorkers ApprovalHandlers Routing Starts Router RouterSafety Drain.
From S2P Require Import Terminal TerminalReport TerminalRelease LiveTools Polling PollingSafety Voice Catalog CatalogSafety Submit SubmitSafety LiveEvents MinimalIngress Commands TelegramBot.

(** The request is within the sandbox of a project of the registry. *)
Definition sandboxed_in (pf : Platform) (registry : option Registry) (call : TurnCall) : Prop :=
  let options := tc_Options call in
  to_ApprovalPolicy options = "on-request"
  /\ exists project here current,
       to_SandboxPolicy options = mkSandboxPolicy "workspaceWrite" [pj_CanonicalPath project] false
       /\ MatchCWD pf registry (tc_CWD call) = Some here
       /\ Resolve pf registry (pj_ID here) = inl current
       /\ Resolve pf registry (pj_ID current) = inl project.

(** The daemon at one time: its connections, its clock and what answers it. *)
Record DaemonAt `{GateCodec} (pf : Platform) (registry : option Registry) (vs : VoiceService) (now : instant) : Prop := {
  da_laws : RouterLaws (ob_Router (sv_Observer (ps_Service (vs_Picker vs)))) now;
  da_platform : ro_Platform (ob_Router (sv_Observer (ps_Service (vs_Picker vs)))) = pf;
  da_registry : ro_Registry (ob_Router (sv_Observer (ps_Service (vs_Picker vs)))) = registry }.

Inductive bridge_step `{GateCodec} (pf : Platform) (registry : option Registry) : RouterWorld -> RouterWorld -> Prop :=
| bs_text ch now inbound w answer w' : DaemonAt pf registry (ch_Voice ch) now ->
    minimalInboundText ch now inbound w = Some (answer, w') -> bridge_step pf registry w w'
| bs_voice vs now input w answer w' : DaemonAt pf registry vs now ->
    HandleVoice vs now input w = Some (answer, w') -> bridge_step pf registry w w'
| bs_press ch now chatID topicID messageID userID token w answer w' : DaemonAt pf registry (ch_Voice ch) now ->
    minimalCallback ch now chatID topicID messageID userID token w = Some (answer, w') -> bridge_step pf registry w w'
| bs_poll vs now w w' : DaemonAt pf registry vs now ->
    pollCycle (ps_Service (vs_Picker vs)) now w = Some w' -> bridge_step pf registry w w'
| bs_sent vs now chatID topicID messageID response w answer w' : DaemonAt pf registry vs now ->
    RegisterDirectDelivery now chatID topicID messageID response w = Some (answer, w') -> bridge_step pf registry w w'
| bs_unsent vs now voiceID w answer w' : DaemonAt pf registry vs now ->
    abandonVoice voiceID w = Some (answer, w') -> bridge_step pf registry w w'
| bs_live vs now live cancelled tokens event w answer w' : DaemonAt pf registry vs now ->
    handleLiveEvent (ps_Service (vs_Picker vs)) now live cancelled tokens event w = Some (answer, w') -> bridge_step pf registry w w'
| bs_worker vs now worker session tokens event w answer w' : DaemonAt pf registry vs now ->
    handleMinimalLinkedWorkerEvent (ps_Service (vs_Picker vs)) now worker session tokens event w = Some (answer, w') ->
    bridge_step pf registry w w'
| bs_deliver vs now sender w : DaemonAt pf registry vs now ->
    bridge_step pf registry w (Polling.on_store (processDeliveryBatch now sender) w).

(** The workers, in a state their machine reaches. *)
Definition workers_sound (nonce : string) (w : RouterWorld) : Prop :=
  exists m, rw_Workers w = Some m /\ worker_reachable nonce (mkSystem m [] (rw_Made w) [] [] (rw_Closed w)).

(** A daemon of one chat, a text for it, and a button of its voice message that was read
    before the other press took the confirmation. *)
Definition ex_bridge : VoiceService :=
  mkVoiceService (ex_chat [ex_turn "turn-0" "completed"]) ex_runtime 0 None (fun _ => None) "session".

Definition ex_chat_service : ChatService := mkChatService ex_bridge "" (fun _ => []).

Definition ex_event : InboundText := mkInboundText 42 0 42 10 9 "go on" ex_now.

Definition ex_event_world : RouterWorld :=
  set_rw_Store (run_ignored (PutMessageRoute (mkMessageRoute 42 0 9 "t" "turn-0" "" "" "")) (rw_Store (ex_routed [] "turn-0")))
    (ex_routed [] "turn-0").

Definition ex_read_button : VoiceCallbackRoute :=
  default (new_voice_route 0 "" "" "") (GetVoiceConfirmationRoute ex_execute_token ex_voice).

Definition ex_executed_world : RouterWorld := set_rw_Store ex_executed ex_world.

Section ingress.
Context `{GateCodec} (vs : VoiceService) (now : instant).

Local Abbreviation pk := (vs_Picker vs).
Local Abbreviation sv := (ps_Service pk).
Local Abbreviation r := (ob_Router (sv_Observer sv)).

Context (HL : RouterLaws r now).

Lemma wr_inbound inbound : w_runs r 2 (HandleMinimalInboundText vs now inbound).
Proof using HL.
  unfold HandleMinimalInboundText. cbv zeta. destruct (negb _); [apply wr_fail|]. destruct (minimalInboundExpired vs now _); [apply wr_ret|].
  destruct (String.eqb _ _).
  - apply (wr_le pk 0); [lia|]. apply wr_then; [destruct (_ && _); [apply wr_modify|apply wr_ret]|intros _].
    apply wr_then; [apply wr_project_picker|intros ?; apply wr_ret].
  - destruct (existsb _ _); [apply wr_ret|]. apply (wr_bind pk 2 0); [by apply wr_submit|intros ?; apply wr_ret].
Qed.

Lemma wr_voice_token : w_runs r 0 (newVoiceToken vs).
Proof using. unfold newVoiceToken. w_walk. Qed.

Lemma wr_voice input : w_runs r 0 (HandleVoice vs now input).
Proof using.
  unfold HandleVoice. repeat (match goal with |- w_runs _ _ (if ?b then _ else _) => destruct b; [first [apply wr_fail|apply wr_ret]|] end).
  destruct (vs_Transcribe vs) as [transcribe|]; [|apply wr_ret]. apply wr_then.
  - unfold resolveVoiceTarget. destruct (negb _); [w_walk|]. apply wr_then; [apply wr_gets|intros projectID].
    destruct (is_blank _); [apply wr_then; [apply wr_project_picker|intros ?; apply wr_ret]|]. w_walk.
  - intros [[target project]|picker]; [|apply wr_ret]. unfold transcribeVoice. destruct (vi_Open input) as [open|]; [|apply wr_ret].
    apply wr_then; [apply wr_call|intros [body|]]; [|apply wr_ret]. apply wr_then; [apply wr_call|intros [transcript|]]; [|apply wr_ret].
    unfold confirmVoice. do 2 (apply wr_then; [apply wr_voice_token|intros ?]). w_walk.
Qed.

Lemma wr_terminal_response chatID topicID messageID text callbackText :
  w_runs r 0 (voiceTerminalResponse vs chatID topicID messageID text callbackText).
Proof using. unfold voiceTerminalResponse. w_walk. Qed.

Lemma wr_expire chatID topicID messageID route : w_runs r 0 (expireVoiceMessage vs chatID topicID messageID route).
Proof using. unfold expireVoiceMessage. destruct (onVoiceMessage _ _ _ _); [apply wr_terminal_response|apply wr_ret]. Qed.

Lemma wr_catch {A} k (m : W A) : w_runs r k m -> w_runs r k (w_catch m).
Proof using.
  intros Hm w a w'. unfold w_catch. destruct (m w) as [[[x|e] w1]|] eqn:E; [| |done]; intros [= _ <-]; by eapply Hm.
Qed.

Lemma wr_voice_press chatID topicID messageID route : w_runs r 2 (handleMinimalVoiceCallback vs now chatID topicID messageID route).
Proof using HL.
  unfold handleMinimalVoiceCallback. destruct (negb _); [apply (wr_le pk 0); [lia|apply wr_expire]|].
  apply wr_then; [apply wr_tx|intros [[confirmation|] [e|]]]; [apply wr_fail| |apply wr_fail|apply (wr_le pk 0); [lia|apply wr_expire]].
  unfold pressedVoice. destruct (String.eqb _ _); [apply (wr_le pk 0); [lia|apply wr_terminal_response]|].
  destruct (negb _); [apply (wr_le pk 0); [lia|apply wr_terminal_response]|]. unfold executeVoice.
  apply (wr_bind pk 2 0); [by apply wr_catch, wr_resolved|intros [result|]]; [|apply wr_terminal_response].
  unfold showVoiceResult. cbv zeta. apply wr_then; [apply wr_terminal_response|intros shown].
  apply wr_then; [w_walk|intros ?; apply wr_ret].
Qed.

(** *** Pickers *)
Lemma wr_edit chatID topicID messageID callbackText renderer k : w_runs r k renderer ->
  w_runs r k (editOrSendMinimalResponse pk chatID topicID messageID callbackText renderer).
Proof using.
  intros Hr. unfold editOrSendMinimalResponse. rewrite <- (Nat.add_0_r k). apply (wr_bind pk k 0); [exact Hr|intros response].
  cbv zeta. w_walk.
Qed.

Lemma wr_listing pages session project : forall cursor seen threads,
  w_runs r 0 (listProjectThreads pk pages session project cursor seen threads).
Proof using.
  induction pages as [|pages IH]; intros cursor seen threads; [by intros w a w'|]. cbn [listProjectThreads].
  apply wr_then; [unfold minimalProjectThreads; w_walk|intros page]. cbv zeta.
  destruct (String.eqb _ ""); [apply wr_ret|]. case_bool_decide; [apply wr_fail|apply IH].
Qed.

Lemma wr_page chatID topicID projectID page : w_runs r 0 (minimalExistingThreadPage pk now chatID topicID projectID page).
Proof using.
  unfold minimalExistingThreadPage. cbv zeta. destruct (registered_project pk projectID) as [project|]; [|apply wr_ret].
  apply wr_then; [apply wr_session|intros session]. apply wr_then; [apply wr_listing|intros threads]. case_bool_decide.
  - unfold emptyCatalog. do 2 (apply wr_then; [apply wr_button|intros ?]). apply wr_ret.
  - unfold showThreadPage. destruct (page_of _ _) as [[p shown] more].
    apply wr_then; [apply wr_map; intros t; unfold threadButton; apply wr_button|intros rows].
    do 2 (apply wr_then; [unfold button_if; case_match; [apply wr_then; [apply wr_button|intros ?; apply wr_ret]|apply wr_ret]|intros ?]).
    apply wr_then; [apply wr_button|intros ?; apply wr_ret].
Qed.

Lemma wr_actions chatID topicID project : w_runs r 0 (minimalProjectActions pk now chatID topicID project).
Proof using.
  unfold minimalProjectActions. apply wr_then; [unfold clearMinimalBindingOutsideProject; w_walk|intros ?].
  do 2 (apply wr_then; [apply wr_button|intros ?]). apply wr_ret.
Qed.

Lemma wr_select chatID topicID route : w_runs r 0 (selectMinimalExistingThreadResult pk now chatID topicID route).
Proof using.
  unfold selectMinimalExistingThreadResult. destruct (_ || _); [apply wr_ret|].
  destruct (registered_project pk _) as [project|]; [|apply wr_ret]. apply wr_then; [apply wr_session|intros session].
  intros w a w'. destruct (readMinimalExistingThread pk session project (pi_ThreadID route) w) as [[[x|e] w1]|] eqn:E; [| |done];
    (assert (H1 : runs_upto r 0 w w1) by exact (wr_read_existing pk session project _ _ _ _ E)).
  2: { intros E2. injection E2 as _ <-. exact H1. }
  destruct x as [read|]; [|intros E2; injection E2 as _ <-; exact H1].
  intros E2. eapply (upto_trans sv 0 0); [exact H1|]. revert E2.
  match goal with |- ?m w1 = _ -> _ => assert (Hm : w_runs r 0 m) end; [|by apply Hm].
  apply wr_then; [apply wr_modify|intros ?]. apply wr_then; [|intros ?; apply wr_ret].
  unfold persistMinimalExistingThreadBinding. cbv zeta. do 3 (apply wr_then; [apply wr_tx|intros ?]). apply wr_tx.
Qed.

Lemma wr_picker_press chatID topicID messageID route : w_runs r 0 (handleMinimalPickerRoute pk now chatID topicID messageID route).
Proof using.
  unfold handleMinimalPickerRoute. destruct route as [route|]; [|apply wr_ret].
  destruct (registered_project pk _) as [project|]; [|apply wr_ret]. destruct (String.eqb _ _).
  - do 2 (apply wr_then; [apply wr_tx|intros ?]). apply wr_edit, wr_ret.
  - destruct (project_bound_action _); [|apply wr_ret]. apply wr_then; [apply wr_gets|intros [|]]; [|apply wr_ret].
    unfold pressCurrent. destruct (existsb _ _); [apply wr_edit, wr_page|].
    destruct (String.eqb _ _); [apply wr_edit, wr_actions|]. apply wr_then; [apply wr_select|intros [answer stale]].
    cbn [fst snd]. destruct stale; [|apply wr_ret]. unfold refreshMinimalExistingThreadPageAfterStaleSelection. cbv zeta.
    apply wr_edit, wr_then; [apply wr_page|intros ?; apply wr_ret].
Qed.

(** *** Presses *)
Lemma wr_press chatID topicID messageID userID token : w_runs r 2 (HandleMinimalCallback vs now chatID topicID messageID userID token).
Proof using HL.
  unfold HandleMinimalCallback. destruct (negb _); [apply wr_fail|]. apply wr_then; [apply wr_gets|intros [route|]].
  { intros w a w'. unfold pressApproval. destruct (handleMinimalApprovalCallback _ _ _ _ _ _ _) as [answer world].
    intros [= _ <-]. apply upto_store, upto_refl. }
  apply wr_then; [apply wr_gets|intros [route|]].
  { apply (wr_bind pk 2 0); [apply wr_voice_press|intros ?; apply wr_ret]. }
  apply (wr_le pk 0); [lia|]. apply wr_then; [apply wr_tx|intros [route|]].
  { apply wr_then; [apply wr_picker_press|intros ?; apply wr_ret]. }
  unfold pressCallback. apply wr_then; [apply wr_reads|intros [route|]]; [|apply wr_ret].
  destruct (negb _); [apply wr_ret|]. destruct (String.eqb _ _); [apply wr_ret|]. destruct (existsb _ _).
  - apply wr_then; [|intros ?; apply wr_ret]. unfold handleMinimalCallback. cbv zeta.
    destruct (minimalCallbackExpired now route); [apply wr_then; [apply wr_modify|intros ?; apply wr_ret]|].
    destruct (ps_PickParse pk _) as [[action projectID]|]; [|apply wr_ret]. destruct (negb _); [apply wr_ret|].
    destruct (String.eqb _ _).
    + apply wr_then; [apply wr_modify|intros ?]. apply wr_then; [apply wr_edit, wr_project_picker|intros ?; apply wr_ret].
    + destruct (String.eqb _ _); [|apply wr_ret]. destruct (minimalProjectByID pk _) as [project|]; [|apply wr_ret].
      apply wr_then; [apply wr_tx|intros ?]. apply wr_then; [apply wr_modify|intros ?].
      apply wr_then; [apply wr_edit, wr_actions|intros ?; apply wr_ret].
  - apply wr_then; [apply wr_modify|intros ?; apply wr_ret].
Qed.
End ingress.

(** *** Notifications *)
Section notifications.
Context `{GateCodec} (vs : VoiceService) (now : instant).

Local Abbreviation pk := (vs_Picker vs).
Local Abbreviation sv := (ps_Service pk).
Local Abbreviation r := (ob_Router (sv_Observer sv)).

Context (HL : RouterLaws r now).

Lemma take_runs session identity tokens event w answer w' :
  takeApproval sv now session identity tokens event w = (answer, w') -> runs_upto r 0 w w'.
Proof using.
  unfold takeApproval. destruct (handleMinimalApprovalServerRequest _ _ _ _ _ _ _) as [asked s1].
  assert (H1 : runs_upto r 0 w (called (set_rw_Store s1 w))) by (apply upto_called, upto_store, upto_refl).
  destruct asked; [by intros [= _ <-]|]. destruct (handleMinimalApprovalResolved _ _ _ _ _) as [ended world].
  destruct ended; [intros [= _ <-]; by apply upto_store|].
  destruct (handlePendingApprovalResolved _ _ _ _ _) as [[resolved|] s3]; [intros [= _ <-]; by do 2 apply upto_store|].
  destruct (handlePendingServerRequest _ _ _ _ _) as [recorded s4]. intros [= _ <-]. by do 3 apply upto_store.
Qed.

Lemma mark_runs threadID w : runs_upto r 0 w (markLive now threadID w).
Proof using. unfold markLive, on_store. case_match; [apply upto_refl|apply upto_store, upto_refl]. Qed.

Lemma fault_runs cancelled event w w' : transportFault sv now cancelled event w = Some w' -> runs_upto r 1 w w'.
Proof using.
  unfold transportFault, on_store. cbv zeta. intros E. apply (upto_le pk 0); [lia|].
  repeat case_match; simplify_eq; try apply upto_session_error; repeat apply upto_store; apply upto_refl.
Qed.

Lemma live_runs live cancelled tokens event w answer w' :
  handleLiveEvent sv now live cancelled tokens event w = Some (answer, w') -> runs_upto r 1 w w'.
Proof using HL.
  unfold handleLiveEvent. destruct (transportFault sv now cancelled event w) as [w1|] eqn:Ef.
  { intros [= _ <-]. by eapply fault_runs. }
  destruct (takeApproval _ _ _ _ _ _ _) as [taken w1] eqn:Et; apply take_runs in Et.
  pose proof (upto_trans sv 0 0 _ _ _ (mark_runs _ w) Et) as H1. apply (upto_le pk 0 1) in H1 as H1'; [|lia].
  destruct taken as [taken|]; [by intros [= _ <-]|]. destruct (String.eqb _ ""); [by intros [= _ <-]|].
  unfold refreshLive. destruct (refreshThreadForOperation _ _ _ _ _) as [[[t|e] w2]|] eqn:Er; [| |done];
    apply refreshThread_runs in Er; try exact HL; pose proof (upto_trans sv 0 1 _ _ _ H1 Er) as H2; cbn [fmap option_fmap option_map].
  - by intros [= _ <-].
  - unfold on_store. case_match; intros [= _ <-]; [by repeat apply upto_store|by apply upto_session_error].
Qed.

Lemma worker_runs worker session tokens event w answer w' :
  handleMinimalLinkedWorkerEvent sv now worker session tokens event w = Some (answer, w') -> runs_upto r 1 w w'.
Proof using HL.
  unfold handleMinimalLinkedWorkerEvent. cbv zeta. destruct (mbind _ _) as [wk|]; [|intros [= _ <-]; apply upto_refl].
  destruct (existsb _ _); [intros [= _ <-]; apply upto_refl|].
  destruct (takeApproval _ _ _ _ _ _ _) as [taken w1] eqn:Et; apply take_runs in Et.
  pose proof (upto_trans sv 0 0 _ _ _ (mark_runs _ w) Et) as H1. apply (upto_le pk 0 1) in H1 as H1'; [|lia].
  destruct taken as [taken|]; [by intros [= _ <-]|]. destruct (_ && _); [|by intros [= _ <-]].
  destruct (refreshThreadForOperation _ _ _ _ _) as [[a w2]|] eqn:Er; [|done].
  apply refreshThread_runs in Er; [|exact HL]. intros [= _ <-]. exact (upto_trans sv 0 1 _ _ _ H1 Er).
Qed.

Lemma wr_sent chatID topicID messageID response : w_runs r 0 (RegisterDirectDelivery now chatID topicID messageID response).
Proof using.
  unfold RegisterDirectDelivery. apply wr_then; [|intros ?; w_walk]. destruct (_ =? 0)%Z; [apply wr_ret|].
  intros w a w'. destruct (tx _ _) as [[b|e] w1] eqn:E; intros [= _ <-]; [|apply upto_store];
    (eapply upto_tx; [exact E|apply upto_refl]).
Qed.

Lemma wr_abandon voiceID : w_runs r 0 (abandonVoice voiceID).
Proof using. unfold abandonVoice. w_walk. Qed.
End notifications.

(** *** Commands and answers *)
Section commands.
Context `{GateCodec} (ch : ChatService) (now : instant).

Local Abbreviation vs := (ch_Voice ch).
Local Abbreviation pk := (vs_Picker vs).
Local Abbreviation sv := (ps_Service pk).
Local Abbreviation r := (ob_Router (sv_Observer sv)).

Context (HL : RouterLaws r now).

Lemma wr_release chatID topicID :
  w_runs r 0 (fun w => Some (repairMinimalLinkedReleasePending (sv_Observer sv) now chatID topicID w)).
Proof using.
  intros w a w' E. injection E as E. unfold repairMinimalLinkedReleasePending in E.
  repeat (case_match; try (injection E as _ <-; apply upto_refl)). apply finishRelease_runs in E. exists 0%nat. split; [exact E|left; lia].
Qed.

Lemma wr_command chatID topicID text : w_runs r 0 (minimalHandleCommand ch now chatID topicID text).
Proof using.
  unfold minimalHandleCommand, minimalRepairCommand. cbv zeta. destruct (String.eqb _ _); [w_walk|].
  destruct (String.eqb _ _); [|apply wr_ret]. apply wr_then; [|intros ?; w_walk]. destruct (String.eqb _ _); [|apply wr_ret].
  apply wr_then; [apply wr_reads|intros ?]. apply wr_then; [apply wr_tx|intros ?].
  apply wr_then; [apply wr_release|intros ?; apply wr_ret].
Qed.

Lemma wr_text inbound : w_runs r 2 (minimalInboundText ch now inbound).
Proof using HL.
  unfold minimalInboundText. apply (wr_bind pk 2 0); [by apply wr_inbound|intros [response|text]]; [apply wr_ret|].
  apply wr_then; [apply wr_command|intros ?; apply wr_ret].
Qed.

Lemma wr_answer route : w_runs r 0 (answerChoice ch now route).
Proof using.
  unfold answerChoice. cbv zeta. destruct (String.eqb _ _); [apply wr_ret|].
  destruct (is_blank _); [apply wr_then; [apply wr_modify|intros ?; apply wr_ret]|].
  apply wr_then; [|intros ?; apply wr_ret]. unfold respondUserInputRequestWithIdentity. cbv zeta.
  apply wr_then; [apply wr_reads|intros [approval|]]; [|apply wr_ret].
  destruct (sessionForCallbackIdentity _ _ _) as [session|]; [|destruct (_ && _); [apply wr_fail|apply wr_ret]].
  destruct (cs_Exact session) as [respond|]; [|apply wr_fail].
  intros w a w'. unfold sendInputAnswer, on_store. destruct (respond _ _) as [[e|] s1]; intros [= _ <-];
    repeat apply upto_store; apply upto_refl.
Qed.

Lemma wr_callback chatID topicID messageID userID token :
  w_runs r 2 (minimalCallback ch now chatID topicID messageID userID token).
Proof using HL.
  unfold minimalCallback. apply (wr_bind pk 2 0); [by apply wr_press|intros [response|e|route|]];
    [apply wr_ret|apply wr_fail|apply wr_answer|apply wr_ret].
Qed.
End commands.

(** *** Events *)
Lemma step_upto `{GateCodec} pf registry w w' : bridge_step pf registry w w' ->
  exists r k, ro_Platform r = pf /\ ro_Registry r = registry /\ runs_upto r k w w'.
Proof.
  intros Hs. inversion Hs as [ch now inbound w0 answer w1 [HL <- <-] E|vs now input w0 answer w1 [HL <- <-] E
    |ch now chatID topicID messageID userID token w0 answer w1 [HL <- <-] E|vs now w0 w1 [HL <- <-] E
    |vs now chatID topicID messageID response w0 answer w1 [HL <- <-] E|vs now voiceID w0 answer w1 [HL <- <-] E|vs now live cancelled tokens event w0 answer w1 [HL <- <-] E
    |vs now worker session tokens event w0 answer w1 [HL <- <-] E|vs now sender w0 [HL <- <-]]; subst;
    eexists _, _; (split; [reflexivity|]); (split; [reflexivity|]).
  - by eapply wr_text.
  - by eapply wr_voice.
  - by eapply wr_callback.
  - by eapply cycle_upto.
  - by eapply wr_sent.
  - by eapply wr_abandon.
  - by eapply live_runs.
  - by eapply worker_runs.
  - apply upto_store, (upto_refl _ 0).
Qed.

Lemma steps_run `{GateCodec} pf registry w w' : rtc (bridge_step pf registry) w w' ->
  workers_run w w' /\ exists l, rw_Turns w' = rw_Turns w ++ l /\ Forall (sandboxed_in pf registry) l.*1.
Proof.
  induction 1 as [w|w w1 w2 H1 _ [IHw (l2 & E2 & S2)]].
  - split; [by apply workers_run_refl|]. exists []. by rewrite app_nil_r.
  - apply step_upto in H1 as (r & k & <- & <- & n & [(l1 & E1 & _ & S1) W1] & _). split; [by eapply workers_run_trans|].
    exists (l1 ++ l2). rewrite E2, E1, app_assoc. split; [done|]. rewrite fmap_app. by apply Forall_app.
Qed.

Lemma ex_executed_store : rw_Store ex_executed_world = ex_executed.
Proof. unfold ex_executed_world. generalize ex_executed. reflexivity. Qed.

(** ** Theorems *)

(** C1: Whatever texts, commands, voice messages, presses, sent messages, polls, notifications and batches
    of deliveries follow each other, and whatever App Server and Telegram answer to them, every turn/start request of the bridge stays within
    the sandbox of a registered project, and its workers stay in a state that their machine
    reaches, so that no two of them share a thread or a session. *)
Theorem bridge_safe `{GateCodec} pf registry nonce w w' :
  rtc (bridge_step pf registry) w w' ->
  workers_sound nonce w -> Forall (sandboxed_in pf registry) (rw_Turns w).*1 ->
  Forall (sandboxed_in pf registry) (rw_Turns w').*1
  /\ exists m', rw_Workers w' = Some m'
       /\ ((Z.of_nat (length (mg_Heap m')) + 1 < 2 ^ 64)%Z -> workers_sound nonce w').
Proof.
  intros Hs (m & Hm & Hr) Ht. destruct (steps_run _ _ _ _ Hs) as [HW (l & -> & Hl)]. split.
  - rewrite fmap_app. by apply Forall_app.
  - unfold workers_run in HW. rewrite Hm in HW. destruct (rw_Workers w') as [m'|] eqn:Em; [|done]. destruct HW as [_ HW].
    exists m'. split; [done|]. intros Hb. exists m'. split; [done|]. unfold worker_reachable in *. etrans; [exact Hr|].
    apply HW; [|done]. by eapply reachable_inv.
Qed.

(** C9: A voice command runs at most once: once its confirmation is consumed, and whatever
    happens in between, no press of either of its buttons starts, queues or stores anything. *)
Theorem voice_command_once `{GateCodec} vs now chatID topicID messageID route w answer w' p `{!ProtectorLaws p}
    s s1 now0 claim c err row v :
  VoiceInv p s -> ConsumeVoiceConfirmation (Some p) now0 claim s = Ok ((Some c, err), s1) ->
  rtc (voice_step p) s1 (rw_Store w) ->
  ro_Protector (ob_Router (sv_Observer (ps_Service (vs_Picker vs)))) = Some p ->
  voice_by_token (vr_Token route) (rw_Store w) = Some (row, v) -> vc_ID v = vo_ID c ->
  handleMinimalVoiceCallback vs now chatID topicID messageID route w = Some (answer, w') ->
  rw_Turns w' = rw_Turns w /\ rw_Store w' = rw_Store w /\ rw_Workers w' = rw_Workers w /\ rw_Sent w' = rw_Sent w.
Proof.
  intros HI Hc Hsteps Hp Hv Hid. unfold handleMinimalVoiceCallback.
  assert (Hexpire : forall w0, expireVoiceMessage vs chatID topicID messageID route w0 = Some (answer, w') ->
            rw_Turns w' = rw_Turns w0 /\ rw_Store w' = rw_Store w0 /\ rw_Workers w' = rw_Workers w0 /\ rw_Sent w' = rw_Sent w0).
  { intros w0. unfold expireVoiceMessage. destruct (onVoiceMessage _ _ _ _); [|by intros [= _ <-]].
    unfold voiceTerminalResponse. destruct (ps_Edit _); [|by intros [= _ <-]]. destruct (_ =? _)%Z; by intros [= _ <-]. }
  destruct (negb _); [apply Hexpire|]. rewrite Hp. unfold w_bind, w_tx, tx.
  set (claim' := mkVoiceClaim _ _ _ _ _ _ _).
  destruct (voice_consumed_once p s s1 (rw_Store w) now0 claim c err now claim' row v HI Hc Hsteps Hv Hid) as [_ ->].
  intros E. apply Hexpire in E. exact E.
Qed.

Theorem bridge_safe_witness :
  match @minimalInboundText ex_codec ex_chat_service ex_now ex_event ex_event_world with
  | Some (_, w') => map (fun c => (tc_Prompt c.1, c.2)) (rw_Turns w') = [("go on", Some "turn-4")]
      /\ Forall (sandboxed_in ex_platform (Some ex_registry)) (rw_Turns w').*1 /\ workers_sound "n" w'
  | None => False
  end.
Proof.
  assert (H : match @minimalInboundText ex_codec ex_chat_service ex_now ex_event ex_event_world with
              | Some (_, w') => map (fun c => (tc_Prompt c.1, c.2)) (rw_Turns w') = [("go on", Some "turn-4")]
                  /\ option_map (fun m => length (mg_Heap m)) (rw_Workers w') = Some 1%nat
              | None => False end) by (vm_compute; repeat split).
  destruct (@minimalInboundText ex_codec ex_chat_service ex_now ex_event ex_event_world) as [[answer w']|] eqn:E; [|exact H].
  destruct H as [H1 H2]. split; [exact H1|].
  destruct (@bridge_safe ex_codec ex_platform (Some ex_registry) "n" ex_event_world w') as [Ht (m' & Hm & Hw)].
  - apply rtc_once. eapply bs_text; [|exact E]. split; [apply newMinimalRouter_laws|reflexivity|reflexivity].
  - eexists. split; [reflexivity|]. apply rtc_refl.
  - constructor.
  - split; [exact Ht|]. apply Hw. rewrite Hm in H2. injection H2 as ->. reflexivity.
Defined.

Theorem voice_command_once_witness :
  match @handleMinimalVoiceCallback ex_codec ex_bridge ex_now 7 0 50 ex_read_button ex_executed_world with
  | Some (_, w') => rw_Turns w' = rw_Turns ex_executed_world /\ rw_Store w' = rw_Store ex_executed_world
  | None => False
  end.
Proof.
  destruct (@handleMinimalVoiceCallback ex_codec ex_bridge ex_now 7 0 50 ex_read_button ex_executed_world)
    as [[answer w']|] eqn:E.
  2: { assert (N : match @handleMinimalVoiceCallback ex_codec ex_bridge ex_now 7 0 50 ex_read_button ex_executed_world
                   with Some _ => true | None => false end = true) by (vm_compute; reflexivity). rewrite E in N. discriminate N. }
  destruct (ConsumeVoiceConfirmation (Some plainProtector) 0%Z (ex_claim_voice ex_execute_token VoiceActionExecute) ex_voice)
    as [[[[c|] err] s1]|e] eqn:Ec; [|vm_compute in Ec; discriminate Ec|vm_compute in Ec; discriminate Ec].
  assert (Hs : rw_Store ex_executed_world = s1) by (rewrite ex_executed_store; unfold ex_executed; rewrite Ec; reflexivity).
  assert (Hid : vo_ID c = 1%Z).
  { assert (N : match ConsumeVoiceConfirmation (Some plainProtector) 0%Z (ex_claim_voice ex_execute_token VoiceActionExecute) ex_voice with
                | Ok ((Some c, _), _) => vo_ID c = 1%Z | _ => False end) by (vm_compute; reflexivity).
    rewrite Ec in N. exact N. }
  destruct (voice_by_token (vr_Token ex_read_button) (rw_Store ex_executed_world)) as [[row v]|] eqn:Ev.
  2: { assert (N : match voice_by_token (vr_Token ex_read_button) (rw_Store ex_executed_world) with Some _ => true | None => false end = true)
         by (vm_compute; reflexivity). rewrite Ev in N. discriminate N. }
  assert (Hv : vc_ID v = 1%Z).
  { assert (N : match voice_by_token (vr_Token ex_read_button) (rw_Store ex_executed_world) with Some (_, v) => vc_ID v = 1%Z | None => False end)
      by (vm_compute; reflexivity). rewrite Ev in N. exact N. }
  destruct (@voice_command_once ex_codec ex_bridge ex_now 7 0 50 ex_read_button ex_executed_world answer w'
              plainProtector _ ex_voice s1 0%Z (ex_claim_voice ex_execute_token VoiceActionExecute) c err row v
              ex_voice_inv Ec) as (Ht & Hst & _).
  - rewrite Hs. apply rtc_refl.
  - reflexivity.
  - exact Ev.
  - congruence.
  - exact E.
  - split; [exact Ht|exact Hst].
Defined.
