(* ===== verification/BotSafety.v ===== *)
(** * What the bot does with the updates of Telegram

    Handling an update is a sequence of steps of the bridge, every update is handled once
    and in order, strangers are not answered, a text is sent in pieces that fit and carry
    all of it, and the buttons of a voice message can only be used on the message that
    shows them. *)
From stdpp Require Import base list numbers strings gmap sets relations sorting.
From Stdlib Require Import Lia Ascii.
From S2P Require Import Prelude QueueSafety GoStrings GoTime Utf8 Sql Json Model Normalize NotifierFormat MinimalTables CoreTables Store Daemon NotifierObserver NotifierIngress.
From S2P Require Import Threads TerminalGate Projects ApprovalHandlers Starts Router RouterSafety Drain TgFormat Terminal TerminalReport TerminalRelease LiveTools Polling Voice Catalog Submit LiveEvents MinimalIngress Commands TelegramBot TelegramText IngressSafety.

(** What a function of the bot may do to the world of the service, given what the service
    may do; it hands no update on. *)
Definition b_does {A : Type} (R : RouterWorld -> RouterWorld -> Prop) (m : B A) : Prop :=
  forall w a w', m w = Some (a, w') -> R (bw_World w) (bw_World w') /\ bw_Updates w' = bw_Updates w.

Record service_does (R : RouterWorld -> RouterWorld -> Prop) (service : BotService) (now : instant) : Prop := {
  sd_text inbound w a w' : bv_HandleInboundText service now inbound w = Some (a, w') -> R w w';
  sd_voice input w a w' : bv_HandleVoice service now input w = Some (a, w') -> R w w';
  sd_press chatID topicID messageID userID token w a w' :
    bv_HandleCallback service now chatID topicID messageID userID token w = Some (a, w') -> R w w';
  sd_unsent voiceID w a w' : bv_AbandonVoiceConfirmation service voiceID w = Some (a, w') -> R w w';
  sd_sent chatID topicID messageID response w a w' :
    bv_RegisterDirectDelivery service now chatID topicID messageID response w = Some (a, w') -> R w w' }.

(** The bot of the daemon at one time. *)
Definition bot_at `{GateCodec} (pf : Platform) (registry : option Registry) (at_ : Bot * instant) : Prop :=
  exists ch, bt_Service at_.1 = minimalBotService ch /\ DaemonAt pf registry (ch_Voice ch) at_.2.

(** The offset after an update. *)
Definition offset_after (offset : Z) (update : Update) : Z :=
  if (offset <=? up_UpdateID update)%Z then (up_UpdateID update + 1)%Z else offset.

(** Updates in the order of their ids. *)
Definition in_order : list Update -> Prop := StronglySorted (fun u v => up_UpdateID u < up_UpdateID v)%Z.

(** The updates that are still to come at an offset. *)
Definition coming (offset : Z) (all : list Update) : list Update := filter (fun u => (offset <= up_UpdateID u)%Z) all.

(** Telegram's updates, from the oldest: getUpdates answers some that come next after the
    offset, in order, or fails. *)
Definition updates_request (offset : Z) : TelegramRequest :=
  GetUpdatesRequest offset 30 ["message"; "edited_message"; "callback_query"].

Definition serves (all : list Update) (api : TelegramAPI) : Prop := forall n offset,
  match callJSON (updates_request offset) [] (ta_Updates api n (updates_request offset)) with
  | Ok updates => exists k, updates = take k (coming offset all)
  | Err _ => True
  end.

(** Who sent an update: the user and the chat. *)
Definition sender_of (update : Update) : option (Z * Z) :=
  let message m := (fun u => (us_ID u, ms_ChatID m)) <$> ms_From m in
  match up_CallbackQuery update, up_Message update, up_EditedMessage update with
  | Some callback, _, _ => (fun u => (us_ID u, from_option ms_ChatID 0%Z (cq_Message callback))) <$> cq_From callback
  | None, Some m, _ => message m
  | None, None, Some m => message m
  | None, None, None => None
  end.

(** The messages a text is sent as. *)
Fixpoint chunk_requests (chatID topicID : Z) (chunks : list string) (markup : option keyboard) (silent : bool)
  : list sendMessageRequest :=
  match chunks with
  | [] => []
  | chunk :: rest =>
      mkSendMessage chatID chunk topicID (match rest with [] => markup | _ => None end) true silent (parseModeForText chunk) []
      :: chunk_requests chatID topicID rest markup silent
  end.

(** The active buttons of a confirmation. *)
Definition voice_buttons (id : Z) (w : RouterWorld) : list VoiceCallbackRoute :=
  buttons id (mt_voiceRoutes (db_minimal (rw_Store w))).

(** A bot whose requests all succeed, and one that cannot send. *)
Definition ex_reply (id : Z) : http_answer Z := HTTP 200 "" (Ok (mkResponse true (Some (Ok id)) "" 0)).

Definition ex_text_update (id : Z) (text : string) : Update :=
  mkUpdate id (Some (mkMessage (100 + id) 0 (Drain.ex_now / second) (Some (mkUser 42 false "owner")) 42 text None None)) None None.

Definition ex_all : list Update := [ex_text_update 7 "/repair"; ex_text_update 9 "/status"].

Definition ex_api : TelegramAPI :=
  mkTelegramAPI (fun n _ => ex_reply (Z.of_nat n + 500))
    (fun _ request => match request with
                      | GetUpdatesRequest offset _ _ =>
                          HTTP 200 "" (Ok (mkResponse true (Some (Ok (take 1 (coming offset ex_all)))) "" 0))
                      | _ => NoHTTP "" end)
    (fun _ _ => HTTP 200 "" (Ok (mkResponse true None "" 0))).

Definition ex_bot `{GateCodec} (api : TelegramAPI) : Bot :=
  mkBot "minimal" (minimalBotService ex_chat_service) api (fun _ _ => None).

Definition ex_bot_world : BotWorld := mkBotWorld ex_event_world [] [].

Definition ex_times : Times := fun _ => (@ex_bot ex_codec ex_api, ex_now).

Definition ex_stranger : Update :=
  mkUpdate 8 (Some (mkMessage 101 0 0 (Some (mkUser 13 false "stranger")) 13 "/start" None None)) None None.

(** A voice message whose confirmation was not sent yet, and a bot that cannot send. *)
Definition ex_unsent : Store :=
  match CreateVoiceConfirmation (Some plainProtector) "T1"
          (mkVoiceConfirmation 0 "p" "new" "" "" "run the tests" "session" "" "2026-01-01T00:05:00Z" 0 0 0 "")
          ex_execute_token ex_cancel_token emptyStore with
  | Ok (_, s) => s
  | Err _ => emptyStore
  end.

Definition ex_confirmation : DirectResponse := mkDirectResponse "run the tests?" "" [] "" "" "" "" 1.

Definition ex_mute : TelegramAPI :=
  mkTelegramAPI (fun _ _ => NoHTTP "offline") (fun _ _ => NoHTTP "offline") (fun _ _ => NoHTTP "offline").

Definition ex_voice_world : BotWorld := mkBotWorld (set_rw_Store ex_unsent ex_world) [] [].

Section does.
Context (R : RouterWorld -> RouterWorld -> Prop) `{!PreOrder R}.

Lemma bd_ret {A} (a : A) : b_does R (b_ret a).
Proof using All. intros w x w' [= _ <-]. by split. Qed.

Lemma bd_fail {A} e : b_does R (b_fail (A := A) e).
Proof using All. intros w x w' [= _ <-]. by split. Qed.

Lemma bd_bind {A C} (m : B A) (k : A -> B C) : b_does R m -> (forall a, b_does R (k a)) -> b_does R (b_bind m k).
Proof using All.
  intros Hm Hk w c w'. unfold b_bind. destruct (m w) as [[[a|e] w1]|] eqn:E; [| |done]; apply Hm in E as [E1 E2].
  - intros [F1 F2]%Hk. split; [by etrans|congruence].
  - intros [= _ <-]. by split.
Qed.

Lemma bd_try {A} (m : B A) : b_does R m -> b_does R (b_try m).
Proof using All. intros Hm w a w'. unfold b_try. destruct (m w) as [[x w1]|] eqn:E; [|done]. intros [= _ <-]. by eapply Hm. Qed.

Lemma bd_call {A} (ask : nat -> TelegramRequest -> http_answer A) zero request : b_does R (b_call ask zero request).
Proof using All. intros w a w' [= _ <-]. by split. Qed.

Lemma bd_service {A} (m : W A) : (forall w a w', m w = Some (a, w') -> R w w') -> b_does R (b_service m).
Proof using All.
  intros Hm w a w'. unfold b_service. destruct (m (bw_World w)) as [[[x|e] world]|] eqn:E; [| |done];
    intros [= _ <-]; split; [by eapply Hm|done|by eapply Hm|done].
Qed.

Lemma bd_chunks bot chatID topicID buttons silent : forall chunks id,
  b_does R (sendTextChunks bot chatID topicID chunks buttons silent id).
Proof using All.
  induction chunks as [|chunk chunks IH]; intros id; cbn [sendTextChunks]; [apply bd_ret|].
  apply bd_bind; [apply bd_call|intros sent; apply IH].
Qed.

Lemma bd_send bot chatID topicID text buttons silent : b_does R (SendMessage bot chatID topicID text buttons silent).
Proof using All. apply bd_chunks. Qed.

Context (bot : Bot) (now : instant) (HS : service_does R (bt_Service bot) now).

Lemma bd_answer chatID topicID answer : b_does R (answer_with bot now chatID topicID answer).
Proof using All.
  destruct answer as [[response|]|e]; cbn [answer_with deliverDirectResponse]; [|apply bd_ret|].
  - destruct (is_blank _); [apply bd_ret|]. apply bd_bind; [apply bd_try, bd_send|intros [messageID|e]].
    + apply bd_service. intros *. apply (sd_sent _ _ _ HS).
    + apply bd_bind; [apply bd_try, bd_service; intros *; apply (sd_unsent _ _ _ HS)|intros ?; apply bd_fail].
  - unfold sendFailureMessage. destruct (_ =? 0)%Z; [apply bd_ret|].
    apply bd_bind; [apply bd_try, bd_send|intros [?|?]; [apply bd_ret|apply bd_fail]].
Qed.

Lemma bd_message message : b_does R (handleMessage bot now message).
Proof using All.
  unfold handleMessage. destruct (ms_From message) as [from|]; [|apply bd_ret]. destruct (_ && _); [apply bd_ret|].
  assert (Ht : b_does R (if is_blank (ms_Text message) then b_ret tt else handleText bot now message from)).
  { destruct (is_blank _); [apply bd_ret|]. apply bd_bind; [|intros ?; apply bd_answer].
    apply bd_try, bd_service. intros *. apply (sd_text _ _ _ HS). }
  destruct (isMinimalProfile _), (ms_Voice message) as [voice|]; try exact Ht.
  apply bd_bind; [|intros ?; apply bd_answer]. apply bd_try, bd_service. intros *. apply (sd_voice _ _ _ HS).
Qed.

Lemma bd_update update : b_does R (handleUpdate bot now update).
Proof using All.
  unfold handleUpdate. destruct (up_CallbackQuery update) as [callback|].
  - unfold handleCallback. destruct (cq_From callback) as [from|]; [|apply bd_ret]. cbv zeta. destruct (_ && _); [apply bd_ret|].
    apply bd_bind; [apply bd_try, bd_service; intros *; apply (sd_press _ _ _ HS)|intros answer].
    apply bd_bind; [apply bd_try, bd_call|intros ?; apply bd_answer].
  - destruct (up_Message update); [apply bd_message|]. destruct (up_EditedMessage update); [apply bd_message|apply bd_ret].
Qed.
End does.

(** *** Rounds *)
Section rounds.
Context (R : RouterWorld -> RouterWorld -> Prop) `{!PreOrder R} (at_ : Times).
Context (Hat : forall k, service_does R (bt_Service (at_ k).1) (at_ k).2).

Lemma handle_updates : forall updates offset w a w', handleUpdates at_ updates offset w = Some (a, w') ->
  R (bw_World w) (bw_World w') /\ a = inl (fold_left offset_after updates offset) /\ bw_Updates w' = bw_Updates w ++ updates.
Proof using All.
  induction updates as [|update updates IH]; intros offset w a w'; cbn [handleUpdates].
  { intros [= <- <-]. by rewrite app_nil_r. }
  destruct (at_ (length (bw_Updates w))) as [bot now] eqn:Ea. pose proof (Hat (length (bw_Updates w))) as HS. rewrite Ea in HS.
  unfold b_bind, handed, b_try. cbn [bw_World bw_Updates].
  destruct (handleUpdate bot now update _) as [[x w1]|] eqn:E; [|done]. apply (bd_update R) in E as [E1 E2]; [|done].
  intros (F1 & -> & F2)%IH. split; [by etrans|]. split; [done|]. rewrite F2, E2. cbn [bw_Updates]. by rewrite <- app_assoc.
Qed.

Lemma round_does offset w a w' : runRound at_ offset w = Some (a, w') ->
  R (bw_World w) (bw_World w') /\ exists updates, a = inl (fold_left offset_after updates offset)
    /\ bw_Updates w' = bw_Updates w ++ updates
    /\ (updates = [] \/ exists n bot now, at_ (length (bw_Updates w)) = (bot, now)
          /\ callJSON (updates_request offset) [] (ta_Updates (bt_API bot) n (updates_request offset)) = Ok updates).
Proof using All.
  unfold runRound, b_bind, b_try, GetUpdates, b_call. fold (updates_request offset). cbn [bw_World bw_Updates].
  destruct (at_ (length (bw_Updates w))) as [bot now] eqn:Ea. cbn [fst].
  destruct (callJSON _ _ _) as [updates|e] eqn:Ec.
  - intros (H1 & -> & H2)%handle_updates. split; [exact H1|]. exists updates. split; [done|]. split; [exact H2|]. right. eauto.
  - intros [= <- <-]. split; [reflexivity|]. exists []. rewrite app_nil_r. auto.
Qed.
End rounds.

(** *** Offsets *)
Lemma anything : PreOrder (fun _ _ : RouterWorld => True).
Proof. by split. Qed.

Lemma coming_after all k u rest : in_order all -> drop k all = u :: rest -> coming (up_UpdateID u + 1) all = rest.
Proof.
  intros Hs Hk. rewrite <- (take_drop k all), Hk in Hs |- *. unfold coming. rewrite filter_app, filter_cons_False by lia.
  unfold in_order in Hs. apply StronglySorted_app in Hs as (Hs & _ & [Hr _]%StronglySorted_cons).
  rewrite filter_none; [|intros v Hv; specialize (Hs v u Hv ltac:(left)); cbn in Hs; lia]. cbn [app].
  clear Hk Hs. induction Hr as [|v rest Hv _ IH]; [done|]. by rewrite filter_cons_True, IH by lia.
Qed.

Lemma coming_handled all updates : in_order all -> forall offset k, coming offset all = drop k all ->
  updates `prefix_of` drop k all -> coming (fold_left offset_after updates offset) all = drop (k + length updates) all.
Proof.
  intros Hs. induction updates as [|u updates IH]; intros offset k Hk [rest Hu]; cbn [fold_left length].
  { by rewrite Nat.add_0_r. }
  assert (Ho : (offset <= up_UpdateID u)%Z).
  { assert (Hin : u ∈ coming offset all) by (rewrite Hk, Hu; left). by apply list_elem_of_filter in Hin as [Hin _]. }
  unfold offset_after at 2. destruct (Z.leb_spec offset (up_UpdateID u)); [|lia].
  assert (Ek : drop (S k) all = updates ++ rest).
  { rewrite <- Nat.add_1_r, <- drop_drop, Hu. done. }
  replace (k + S (length updates))%nat with (S k + length updates)%nat by lia. apply IH.
  - rewrite Ek. by eapply coming_after.
  - rewrite Ek. by exists rest.
Qed.

Lemma rounds_handle at_ all : in_order all -> (forall k, serves all (bt_API (at_ k).1)) ->
  forall rounds offset k w a w', coming offset all = drop k all -> bw_Updates w = take k all ->
  runRounds at_ rounds offset w = Some (a, w') ->
  exists k' offset', a = inl offset' /\ coming offset' all = drop k' all /\ bw_Updates w' = take k' all.
Proof.
  intros Hs Ha. induction rounds as [|rounds IH]; intros offset k w a w' Hk Hw; cbn [runRounds].
  { intros [= <- <-]. eauto. }
  unfold b_bind. destruct (runRound at_ offset w) as [[x w1]|] eqn:E; [|done].
  apply (round_does (PreOrder0 := anything) (fun _ _ => True)) in E as (_ & updates & -> & Eu & Hu); [|done].
  assert (Hp : updates `prefix_of` drop k all).
  { destruct Hu as [-> |(n & bot & now & Hb & Hc)]; [apply prefix_nil|]. specialize (Ha (length (bw_Updates w)) n offset).
    rewrite Hb in Ha. cbn [fst] in Ha. rewrite Hc, Hk in Ha. destruct Ha as [j ->]. apply prefix_take. }
  eapply (IH _ (k + length updates)%nat); [by apply coming_handled|]. rewrite Eu, Hw. destruct Hp as [rest Hp].
  rewrite <- take_take_drop, Hp. by rewrite take_app_length.
Qed.

(** *** The minimal profile *)
Lemma rounds_do R `{!PreOrder R} at_ (Hat : forall k, service_does R (bt_Service (at_ k).1) (at_ k).2) :
  forall rounds offset w a w', runRounds at_ rounds offset w = Some (a, w') -> R (bw_World w) (bw_World w').
Proof.
  induction rounds as [|rounds IH]; intros offset w a w'; cbn [runRounds]; [by intros [= _ <-]|].
  unfold b_bind. destruct (runRound at_ offset w) as [[x w1]|] eqn:E; [|done].
  apply (round_does R) in E as (H1 & updates & -> & _); [|done..]. intros H2%IH. by etrans.
Qed.

Lemma w_keep {A C} (f : A -> C) (m : W A) w c w' :
  (w! a := m in w_ret (f a)) w = Some (c, w') -> exists a, m w = Some (a, w').
Proof. unfold w_bind. destruct (m w) as [[[a|e] w1]|]; [intros [= _ <-]; eauto..|done]. Qed.

Lemma minimal_does `{GateCodec} pf registry at_ : bot_at pf registry at_ ->
  service_does (rtc (bridge_step pf registry)) (bt_Service at_.1) at_.2.
Proof.
  intros (ch & -> & HD). split; cbn; intros *.
  - intros [a' E]%w_keep. apply rtc_once. by eapply bs_text.
  - intros [a' E]%w_keep. apply rtc_once. by eapply bs_voice.
  - intros [a' E]%w_keep. apply rtc_once. by eapply bs_press.
  - intros E. apply rtc_once. by eapply bs_unsent.
  - intros E. apply rtc_once. by eapply bs_sent.
Qed.

(** *** Texts *)
Lemma send_chunks bot chatID topicID buttons silent : forall chunks id w a w',
  sendTextChunks bot chatID topicID chunks buttons silent id w = Some (a, w') ->
  exists k, bw_Requests w' = bw_Requests w
      ++ map SendMessageRequest (take k (chunk_requests chatID topicID chunks (toInlineKeyboard buttons) silent))
    /\ (if a is inl _ then k = length chunks else True).
Proof.
  induction chunks as [|chunk chunks IH]; intros id w a w'; cbn [sendTextChunks chunk_requests].
  { intros [= <- <-]. exists 0%nat. by rewrite app_nil_r. }
  unfold b_bind. destruct (apiSendMessage _ _ _ _ _ _ _) as [[[sent|e] w1]|] eqn:E; [| |done];
    unfold apiSendMessage, b_call in E; injection E as Ea Ew.
  - intros (k & Hr & Hk)%IH. exists (S k). rewrite Hr, <- Ew. cbn [bw_Requests take map]. rewrite <- app_assoc. split; [done|].
    destruct a; [cbn [length]; by rewrite Hk|done].
  - intros [= <- <-]. exists 1%nat. by rewrite <- Ew.
Qed.

Lemma chunk_texts chatID topicID markup silent chunks :
  map sm_Text (chunk_requests chatID topicID chunks markup silent) = chunks.
Proof. induction chunks as [|chunk chunks IH]; [done|]. cbn [chunk_requests map sm_Text]. by rewrite IH. Qed.

Lemma chunk_last chatID topicID markup silent chunks : chunks <> [] -> exists init final,
  chunk_requests chatID topicID chunks markup silent = init ++ [final]
  /\ Forall (fun m => sm_ReplyMarkup m = None) init /\ sm_ReplyMarkup final = markup.
Proof.
  induction chunks as [|chunk chunks IH]; [done|]. intros _. cbn [chunk_requests]. destruct chunks as [|next chunks].
  - by exists [], (mkSendMessage chatID chunk topicID markup true silent (parseModeForText chunk) []).
  - destruct IH as (init & final & E & Hi & Hf); [done|]. rewrite E. eexists (_ :: init), final. split; [done|]. by split; [constructor|].
Qed.

Lemma chunk_places chatID topicID markup silent chunks :
  Forall (fun m => sm_ChatID m = chatID /\ sm_MessageThreadID m = topicID) (chunk_requests chatID topicID chunks markup silent).
Proof. induction chunks; by constructor. Qed.

(** *** Voice messages *)
Lemma bind_buttons p id c t m s a s' : VoiceInv p s -> BindVoiceConfirmation id c t m s = Ok (a, s') ->
  Forall (fun r => route_bound_to r = (c, t, m)) (buttons id (mt_voiceRoutes (db_minimal s'))).
Proof.
  intros HI H. pose proof (bind_inv p id c t m s a s' HI H) as [HI' _]. unfold BindVoiceConfirmation in H.
  destruct (_ || _); [discriminate H|]. tx_inv H.
  apply update_exactly_one in Htx as (l & v & k & Hr & [[Hid%Z.eqb_eq Hp]%andb_prop _]%andb_prop & ->).
  unfold sql_update_exactly in H. tx_inv H. injection Htx as <- <-. destruct (_ =? 2)%Z; [|discriminate H].
  apply tx_ret_ok in H as [_ ->]. pose proof (vi_buttons _ _ HI') as Hb. cbn in Hb |- *.
  rewrite Forall_forall in Hb. specialize (Hb (bind_voice c t m v) ltac:(set_solver)). unfold buttons_ok in Hb.
  change (vc_pending (bind_voice c t m v)) with (vc_pending v) in Hb. rewrite Hp in Hb. destruct Hb as [_ Hb].
  change (vc_ID (bind_voice c t m v)) with (vc_ID v) in Hb. by rewrite Hid in Hb.
Qed.

Lemma abandoned id s : exists s', AbandonVoiceConfirmation id s = Ok (tt, s') /\ buttons id (mt_voiceRoutes (db_minimal s')) = [].
Proof. eexists. split; [reflexivity|]. cbn. apply buttons_consumed. Qed.

Lemma abandonVoice_buttons id w a w' : id <> 0%Z -> abandonVoice id w = Some (a, w') -> voice_buttons id w' = [].
Proof.
  intros Hid. unfold abandonVoice, w_tx, tx. destruct (Z.eqb_spec id 0); [done|].
  destruct (abandoned id (rw_Store w)) as (s' & -> & Hb). intros [= _ <-]. exact Hb.
Qed.

Lemma RegisterDirectDelivery_buttons p now c t m response w a w' :
  VoiceInv p (rw_Store w) -> dr_VoiceConfirmationID response <> 0%Z ->
  RegisterDirectDelivery now c t m response w = Some (a, w') ->
  Forall (fun r => route_bound_to r = (c, t, m)) (voice_buttons (dr_VoiceConfirmationID response) w').
Proof.
  intros HI Hid. unfold RegisterDirectDelivery, w_bind, tx. destruct (Z.eqb_spec (dr_VoiceConfirmationID response) 0); [done|].
  destruct (BindVoiceConfirmation _ _ _ _ _) as [[b s1]|e] eqn:E.
  - apply (bind_buttons p) in E; [|done]. destruct (String.eqb _ _); [by intros [= _ <-]|]. unfold w_tx, tx. cbn. by intros [= _ <-].
  - destruct (abandoned (dr_VoiceConfirmationID response) (rw_Store w)) as (s' & Es & Hb). intros [= _ <-].
    unfold voice_buttons, on_store, run_ignored. rewrite Es. cbn. rewrite Hb. constructor.
Qed.

(** ** Theorems *)

(** C2: Whatever updates Telegram answers with, and whatever else fails, what the bot
    of the minimal profile does with them is a sequence of steps of the bridge: the
    sandbox, the workers and the tables are as safe as every step leaves them. *)
Theorem bot_updates_bridge `{GateCodec} pf registry at_ rounds offset w a w' :
  (forall k, bot_at pf registry (at_ k)) -> runRounds at_ rounds offset w = Some (a, w') ->
  rtc (bridge_step pf registry) (bw_World w) (bw_World w').
Proof. intros Hat. apply (rounds_do _ at_). intros k. apply minimal_does, Hat. Qed.

(** C20: Every update is handed on once and in order: if Telegram serves its updates from the
    offset on, then after any number of rounds, of which some may fail, the updates that
    were handed on are the first ones, and the offset is where the next one begins. *)
Theorem updates_handled_once at_ all rounds w a w' :
  in_order all -> Forall (fun u => 0 <= up_UpdateID u)%Z all -> (forall k, serves all (bt_API (at_ k).1)) ->
  bw_Updates w = [] -> runRounds at_ rounds 0 w = Some (a, w') ->
  exists k offset, a = inl offset /\ bw_Updates w' = take k all /\ coming offset all = drop k all.
Proof.
  intros Hs Hp Ha Hw E. eapply (rounds_handle at_ all Hs Ha rounds 0%Z 0%nat) in E as (k & offset & -> & Hc & Hu); [eauto| |done].
  rewrite drop_0. unfold coming. clear -Hp. induction Hp as [|u all Hu _ IH]; [done|]. by rewrite filter_cons_True, IH.
Qed.

(** C21: A text is sent as messages of at most 4096 runes, all to its chat and its topic.  When
    every one of them was sent, the last and only the last has the buttons, and if the text is
    valid UTF-8 they carry together every byte of it that is not white space, in order.
    That Telegram takes each of them is not stated: a piece may be blank. *)
Theorem SendMessage_spec bot chatID topicID text buttons silent w a w' :
  SendMessage bot chatID topicID text buttons silent w = Some (a, w') ->
  exists sent, bw_Requests w' = bw_Requests w ++ map SendMessageRequest sent
    /\ Forall (fun m => sm_ChatID m = chatID /\ sm_MessageThreadID m = topicID) sent
    /\ Forall (fun m => rune_count (sm_Text m) <= telegramMessageLimit)%nat sent
    /\ match a with
       | inl _ =>
           (exists init final, sent = init ++ [final] /\ Forall (fun m => sm_ReplyMarkup m = None) init
              /\ sm_ReplyMarkup final = toInlineKeyboard buttons)
           /\ (utf8_text text -> concat (map (fun m => marks (sm_Text m)) sent) = marks text)
       | inr _ => True
       end.
Proof.
  unfold SendMessage. cbv zeta.
  destruct (splitText_spec (trim_space text) telegramMessageLimit) as (Hl & Hm & Hn); [unfold telegramMessageLimit; lia|apply trim_space_idemp|].
  destruct (splitText _ _) as [|chunk chunks]; [done|]. set (all := chunk :: chunks) in *. intros (k & Hr & Hk)%send_chunks.
  set (requests := chunk_requests _ _ _ _ _) in *. exists (take k requests). split; [exact Hr|].
  assert (Ht : map sm_Text requests = all) by apply chunk_texts.
  split; [apply Forall_take, chunk_places|]. split.
  { apply Forall_take. rewrite <- Ht in Hl. by apply Forall_fmap in Hl. }
  destruct a as [id|e]; [|done]. assert (length requests = length all) as Hlen by (rewrite <- Ht; by rewrite length_map).
  rewrite take_ge by lia. split; [by apply chunk_last|]. intros Hu. rewrite <- (map_map sm_Text marks), Ht, Hm by by apply utf8_trim.
  apply marks_trim.
Qed.

(** C10: The buttons of a voice message work only on the message that shows them: after the
    answer was delivered, every active button is bound to the message that was sent, and
    if it could not be sent or bound, there is no active button. *)
Theorem voice_buttons_follow_message `{GateCodec} p ch bot now chatID topicID response w a w' :
  bt_Service bot = minimalBotService ch -> VoiceInv p (rw_Store (bw_World w)) ->
  dr_VoiceConfirmationID response <> 0%Z -> is_blank (dr_Text response) = false ->
  deliverDirectResponse bot now chatID topicID (Some response) w = Some (a, w') ->
  match SendMessage bot chatID topicID (dr_Text response) (dr_Buttons response) true w with
  | Some (inl messageID, _) =>
      Forall (fun r => route_bound_to r = (chatID, topicID, messageID))
        (voice_buttons (dr_VoiceConfirmationID response) (bw_World w'))
  | _ => voice_buttons (dr_VoiceConfirmationID response) (bw_World w') = []
  end.
Proof.
  intros Hs HI Hid Ht. cbn [deliverDirectResponse]. rewrite Ht. unfold b_bind, b_try.
  destruct (SendMessage _ _ _ _ _ _ w) as [[sent w1]|] eqn:E; [|done].
  apply (bd_send eq) in E as [E _]. rewrite Hs. destruct sent as [messageID|e]; unfold b_service; rewrite <- E.
  - destruct (bv_RegisterDirectDelivery _ _ _ _ _ _ _) as [[[x|x] world]|] eqn:Er; [| |done]; intros [= _ <-];
      by apply (RegisterDirectDelivery_buttons p) in Er.
  - destruct (bv_AbandonVoiceConfirmation _ _ _) as [[[x|x] world]|] eqn:Er; [| |done]; intros [= _ <-];
      by apply abandonVoice_buttons in Er.
Qed.

(** C22: The bot of the owner only does nothing for others: no request, no change, no answer. *)
Theorem strangers_ignored bot now update userID chatID w :
  isOwnerOnlyProfile (bt_Profile bot) = true -> sender_of update = Some (userID, chatID) ->
  bv_IsAllowed (bt_Service bot) userID chatID = false ->
  handleUpdate bot now update w = Some (inl tt, w).
Proof.
  intros Hp Hs Ha. unfold handleUpdate, sender_of in *. cbv zeta in *.
  assert (Hm : forall m, (fun u => (us_ID u, ms_ChatID m)) <$> ms_From m = Some (userID, chatID) ->
            handleMessage bot now m w = Some (inl tt, w)).
  { intros m. unfold handleMessage. destruct (ms_From m); [|done]. cbn. intros [= -> ->]. by rewrite Hp, Ha. }
  destruct (up_CallbackQuery update) as [callback|].
  - unfold handleCallback. destruct (cq_From callback); [|done]. cbn in Hs. injection Hs as -> ->. cbv zeta. by rewrite Hp, Ha.
  - destruct (up_Message update); [by apply Hm|]. destruct (up_EditedMessage update); [by apply Hm|done].
Qed.

(** A piece can be empty, which Telegram does not take as a message. *)
Lemma blank_chunk : splitText ("aaa" +:+ newline +:+ String "009" newline +:+ "bbb") 3 = ["aaa"; ""; "bbb"].
Proof. reflexivity. Qed.

Lemma ex_serves : serves ex_all ex_api.
Proof. intros n offset. cbn. by exists 1%nat. Qed.

Lemma ex_bot_at : @bot_at ex_codec ex_platform (Some ex_registry) (@ex_bot ex_codec ex_api, ex_now).
Proof. exists ex_chat_service. split; [done|]. split; [apply newMinimalRouter_laws|reflexivity|reflexivity]. Qed.

Lemma ex_unsent_inv : VoiceInv plainProtector ex_unsent.
Proof.
  refine (proj1 (voice_steps_inv _ _ _ (VoiceInv_empty _) _)).
  eapply rtc_once, (vs_create _ "T1" (mkVoiceConfirmation 0 "p" "new" "" "" "run the tests" "session" "" "2026-01-01T00:05:00Z" 0 0 0 "")
                      ex_execute_token ex_cancel_token). vm_compute; reflexivity.
Qed.

Theorem bot_updates_bridge_witness :
  match runRounds ex_times 3 0 ex_bot_world with
  | Some (_, w') => rtc (@bridge_step ex_codec ex_platform (Some ex_registry)) (bw_World ex_bot_world) (bw_World w')
      /\ map method_of (bw_Requests w') = ["getUpdates"; "sendMessage"; "getUpdates"; "sendMessage"; "getUpdates"]
  | None => False
  end.
Proof.
  assert (H : match runRounds ex_times 3 0 ex_bot_world with
              | Some (_, w') => map method_of (bw_Requests w') = ["getUpdates"; "sendMessage"; "getUpdates"; "sendMessage"; "getUpdates"]
              | None => False end) by (vm_compute; reflexivity).
  destruct (runRounds ex_times 3 0 ex_bot_world) as [[a w']|] eqn:E; [|exact H]. split; [|exact H].
  apply (@bot_updates_bridge ex_codec ex_platform (Some ex_registry) ex_times 3 0 ex_bot_world a w'); [intros k; apply ex_bot_at|exact E].
Defined.

Theorem updates_handled_once_witness :
  match runRounds ex_times 3 0 ex_bot_world with
  | Some (a, w') => (exists k offset, a = inl offset /\ bw_Updates w' = take k ex_all /\ coming offset ex_all = drop k ex_all)
      /\ a = inl 10%Z /\ map up_UpdateID (bw_Updates w') = [7; 9]%Z
  | None => False
  end.
Proof.
  assert (H : match runRounds ex_times 3 0 ex_bot_world with
              | Some (a, w') => a = inl 10%Z /\ map up_UpdateID (bw_Updates w') = [7; 9]%Z
              | None => False end) by (vm_compute; split; reflexivity).
  destruct (runRounds ex_times 3 0 ex_bot_world) as [[a w']|] eqn:E; [|exact H]. split; [|exact H].
  apply (updates_handled_once ex_times ex_all 3 ex_bot_world a w').
  - repeat constructor.
  - repeat constructor; discriminate.
  - intros k. apply ex_serves.
  - reflexivity.
  - exact E.
Defined.

Theorem SendMessage_spec_witness :
  exists sent w', SendMessage (@ex_bot ex_codec ex_api) 42 0 "done" [[mkButtonSpec "Stop" "data"]] true ex_bot_world = Some (inl 500%Z, w')
    /\ bw_Requests w' = map SendMessageRequest sent
    /\ Forall (fun m => rune_count (sm_Text m) <= telegramMessageLimit)%nat sent.
Proof.
  destruct (SendMessage (@ex_bot ex_codec ex_api) 42 0 "done" [[mkButtonSpec "Stop" "data"]] true ex_bot_world) as [[a w']|] eqn:E;
    [|vm_compute in E; discriminate E].
  destruct (SendMessage_spec _ _ _ _ _ _ _ _ _ E) as (sent & Hr & _ & Hl & _).
  assert (Ha : a = inl 500%Z) by (vm_compute in E; congruence).
  exists sent, w'. rewrite Ha. split; [reflexivity|]. split; [exact Hr|exact Hl].
Defined.

Theorem voice_buttons_follow_message_witness :
  match deliverDirectResponse (@ex_bot ex_codec ex_api) ex_now 7 0 (Some ex_confirmation) ex_voice_world,
        deliverDirectResponse (@ex_bot ex_codec ex_mute) ex_now 7 0 (Some ex_confirmation) ex_voice_world with
  | Some (_, sent), Some (_, unsent) =>
      map route_bound_to (voice_buttons 1 (bw_World sent)) = [(7, 0, 500); (7, 0, 500)]%Z
      /\ voice_buttons 1 (bw_World unsent) = []
  | _, _ => False
  end.
Proof.
  assert (H : match deliverDirectResponse (@ex_bot ex_codec ex_api) ex_now 7 0 (Some ex_confirmation) ex_voice_world with
              | Some (_, sent) => map route_bound_to (voice_buttons 1 (bw_World sent)) = [(7, 0, 500); (7, 0, 500)]%Z
              | None => False end) by (vm_compute; reflexivity).
  destruct (deliverDirectResponse (@ex_bot ex_codec ex_api) ex_now 7 0 (Some ex_confirmation) ex_voice_world) as [[a sent]|]; [|exact H].
  destruct (deliverDirectResponse (@ex_bot ex_codec ex_mute) ex_now 7 0 (Some ex_confirmation) ex_voice_world) as [[b unsent]|] eqn:E;
    [|vm_compute in E; discriminate E].
  split; [exact H|].
  apply (@voice_buttons_follow_message ex_codec plainProtector ex_chat_service) in E;
    [exact E|reflexivity|exact ex_unsent_inv|discriminate|reflexivity].
Defined.

Theorem strangers_ignored_witness :
  sender_of ex_stranger = Some (13, 13)%Z
  /\ handleUpdate (@ex_bot ex_codec ex_api) ex_now ex_stranger ex_bot_world = Some (inl tt, ex_bot_world).
Proof. split; [reflexivity|]. apply (strangers_ignored _ _ _ 13 13); vm_compute; reflexivity. Defined.
