(* ===== verification/ClientCalls.v ===== *)
(** * internal/appserver/client.go: the requests of the client and what it reads of answers

    Every method of the client is a JSON-RPC request with its parameters, which [ask]
    answers.  turn/start first asks for the model and the reasoning effort that are not
    given. *)
From stdpp Require Import base list numbers strings.
From Stdlib Require Import Lia Ascii.
From S2P Require Import Prelude GoStrings Json Daemon Starts.

(** *** The options of a turn *)
Record ModelOption : Type := mkModelOption {
  mo_ID : string;
  mo_DisplayName : string;
  mo_Description : string;
  mo_DefaultReasoningEffort : string;
  mo_SupportedReasoningEffort : list string;
  mo_IsDefault : bool;
  mo_Hidden : bool }.

Record CollaborationModeOption : Type := mkModeOption {
  cm_Name : string;
  cm_Mode : string;
  cm_Model : string;
  cm_ReasoningEffort : string }.

Definition normalizeCollaborationMode (value : string) : string :=
  let mode := trim_space (to_lower value) in
  if existsb (String.eqb mode) ["plan"; "plan_mode"; "plan-mode"] then "plan"
  else if String.eqb mode "default" then "default" else "".

Definition normalizeReasoningEffort (value : string) : string :=
  let normalized := trim_space (to_lower value) in
  if existsb (String.eqb normalized) ["x-high"; "x_high"; "extra-high"; "extra_high"] then "xhigh" else normalized.

Definition firstStringValue (values : list any) : string :=
  default "" (first_some (fun value => let text := trim_space (stringValue value "") in
                            if String.eqb text "" then None else Some text) values).

(** strconv.ParseBool, which answers false with its error *)
Definition parse_bool (s : string) : bool := existsb (String.eqb s) ["1"; "t"; "T"; "TRUE"; "true"; "True"].

Definition boolValue (value : any) : bool :=
  match value with JBool b => b | JStr s => parse_bool s | _ => false end.

Definition supportedReasoningEfforts (value : any) : list string :=
  fold_left (fun out item =>
      let option := asMap item in
      let effort := normalizeReasoningEffort (firstStringValue [get option "reasoning_effort"; get option "reasoningEffort"; item]) in
      if String.eqb effort "" || bool_decide (effort ∈ out) then out else out ++ [effort])
    (slice_or_nil value) [].

Definition modelOptionsFromResult (result : any) : list ModelOption :=
  omap (fun item =>
      let model := asMap item in
      let text key := trim_space (stringValue (get model key) "") in
      let id := trim_space (stringValue (get model "model") (stringValue (get model "id") "")) in
      if String.eqb id "" then None
      else Some (mkModelOption id (text "displayName") (text "description")
                   (normalizeReasoningEffort (stringValue (get model "defaultReasoningEffort") ""))
                   (supportedReasoningEfforts (get model "supportedReasoningEfforts"))
                   (boolValue (get model "isDefault")) (boolValue (get model "hidden"))))
    (slice_or_nil (get (asMap result) "data")).

Definition collaborationModeOptionsFromResult (result : any) : list CollaborationModeOption :=
  map (fun item =>
      let preset := asMap item in
      mkModeOption (trim_space (stringValue (get preset "name") ""))
        (normalizeCollaborationMode (stringValue (get preset "mode") ""))
        (trim_space (stringValue (get preset "model") ""))
        (normalizeReasoningEffort (firstStringValue [get preset "reasoning_effort"; get preset "reasoningEffort"])))
    (slice_or_nil (get (asMap result) "data")).

(** *** Parameters *)

(** A parameter that is only there under a condition. *)
Definition param_if (b : bool) (key : string) (value : any) : obj := if b then [(key, value)] else [].

(** A text without its outer white space, if there is one. *)
Definition text_param (key value : string) : obj :=
  let text := trim_space value in param_if (negb (String.eqb text "")) key (JStr text).

(** A text as it is, unless it is blank. *)
Definition raw_param (key value : string) : obj := param_if (negb (String.eqb (trim_space value) "")) key (JStr value).

Definition strings_param (key : string) (values : list string) : obj :=
  param_if (negb (bool_decide (values = []))) key (JArr (map JStr values)).

Definition threadListParams (options : ThreadListOptions) : obj :=
  ("limit", JInt (if (tl_Limit options <=? 0)%Z then 25 else tl_Limit options))
  :: text_param "cursor" (tl_Cursor options) ++ text_param "sortKey" (tl_SortKey options)
  ++ text_param "sortDirection" (tl_SortDirection options) ++ strings_param "sourceKinds" (tl_SourceKinds options)
  ++ match tl_Archived options with Some archived => [("archived", JBool archived)] | None => [] end.

Record ThreadForkOptions : Type := mkForkOptions {
  fo_CWD : string;
  fo_LastTurnID : string }.

Definition threadForkParams (threadID : string) (options : ThreadForkOptions) : obj :=
  ("threadId", JStr (trim_space threadID)) :: text_param "cwd" (fo_CWD options) ++ text_param "lastTurnId" (fo_LastTurnID options).

Definition skillsListParams (cwds : list string) (forceReload : bool) : obj :=
  strings_param "cwds" cwds ++ param_if forceReload "forceReload" (JBool true).

Definition text_input (message : string) : any :=
  JArr [JObj [("type", JStr "text"); ("text", JStr message); ("text_elements", JArr [])]].

(** The errors of turn/start: a mode without a model, or what App Server answers. *)
Inductive turn_error : Type :=
| ModelRequired (mode : string) (cause : option fault)
| TurnFault (e : fault).

Definition sandboxParams (policy : SandboxPolicy) : obj :=
  let policyType := trim_space (sp_Type policy) in
  param_if (negb (String.eqb policyType "")) "sandboxPolicy"
    (JObj [("type", JStr policyType); ("writableRoots", match sp_WritableRoots policy with [] => JNil | roots => JArr (map JStr roots) end);
           ("networkAccess", JBool (sp_NetworkAccess policy))]).

Definition collaborationParams (mode model effort : string) : obj :=
  [("collaborationMode", JObj [("mode", JStr mode);
     ("settings", JObj [("model", JStr model);
        ("reasoning_effort", if String.eqb effort "" then JNil else JStr effort);
        ("developer_instructions", JNil)])])].

Definition turnStartParams (threadID message cwd : string) (options : TurnStartOptions) : obj + turn_error :=
  let params := [("threadId", JStr threadID); ("input", text_input message)] ++ raw_param "cwd" cwd
    ++ text_param "approvalPolicy" (to_ApprovalPolicy options) ++ sandboxParams (to_SandboxPolicy options) in
  let mode := normalizeCollaborationMode (to_CollaborationMode options) in
  if String.eqb mode "" then inl params
  else
    let model := trim_space (to_Model options) in
    if String.eqb model "" then inr (ModelRequired mode None)
    else inl (params ++ collaborationParams mode model (normalizeReasoningEffort (to_ReasoningEffort options))).

(** *** The methods *)
Definition of_thread (threadID : string) : obj := [("threadId", JStr threadID)].
Definition limit_param (limit : Z) : obj := param_if (0 <? limit)%Z "limit" (JInt limit).

Section methods.
Context (ask : string -> obj -> outcome any).

Definition ask_obj (method : string) (params : obj) : outcome obj :=
  match ask method params with Done result => Done (asMap result) | Fault e => Fault e end.

Definition ThreadListWithOptions (options : ThreadListOptions) : outcome obj := ask_obj "thread/list" (threadListParams options).

Definition ThreadList (limit : Z) (cursor : string) : outcome obj :=
  ThreadListWithOptions (mkThreadListOptions limit cursor "updated_at" "" [] None).

Definition ThreadFork (threadID : string) (options : ThreadForkOptions) : outcome obj :=
  ask_obj "thread/fork" (threadForkParams threadID options).

Definition ThreadSetName (threadID name : string) : outcome obj :=
  ask_obj "thread/name/set" (of_thread threadID ++ [("name", JStr name)]).

Definition ThreadArchive (threadID : string) : outcome obj := ask_obj "thread/archive" (of_thread threadID).
Definition ThreadUnarchive (threadID : string) : outcome obj := ask_obj "thread/unarchive" (of_thread threadID).
Definition ThreadCompactStart (threadID : string) : outcome obj := ask_obj "thread/compact/start" (of_thread threadID).

Definition ThreadRollback (threadID : string) (numTurns : Z) : outcome obj :=
  ask_obj "thread/rollback" (of_thread threadID ++ [("numTurns", JInt numTurns)]).

Definition ThreadRead (threadID : string) (includeTurns : bool) : outcome obj :=
  ask_obj "thread/read" (of_thread threadID ++ [("includeTurns", JBool includeTurns)]).

Definition ThreadResume (threadID cwd : string) : outcome obj :=
  ask_obj "thread/resume" (of_thread threadID ++ ("persistExtendedHistory", JBool true) :: raw_param "cwd" cwd).

Definition ThreadStart (cwd : string) : outcome obj :=
  ask_obj "thread/start" ([("experimentalRawEvents", JBool false); ("persistExtendedHistory", JBool true)] ++ raw_param "cwd" cwd).

(** Its result is not read. *)
Definition TurnInterrupt (threadID turnID : string) : outcome any :=
  ask "turn/interrupt" (of_thread threadID ++ [("turnId", JStr turnID)]).

Definition TurnSteer (threadID turnID message : string) : outcome obj :=
  ask_obj "turn/steer" (of_thread threadID ++ [("expectedTurnId", JStr turnID); ("input", text_input message)]).

Definition SkillsList (cwds : list string) (forceReload : bool) : outcome obj :=
  ask_obj "skills/list" (skillsListParams cwds forceReload).

Definition PluginSkillRead (remoteMarketplaceName remotePluginID skillName : string) : outcome obj :=
  ask_obj "plugin/skill/read" [("remoteMarketplaceName", JStr remoteMarketplaceName); ("remotePluginId", JStr remotePluginID);
                               ("skillName", JStr skillName)].

Definition HooksList (cwds : list string) : outcome obj := ask_obj "hooks/list" (strings_param "cwds" cwds).

Definition MCPServerStatusList (limit : Z) (cursor : string) (detail : bool) : outcome obj :=
  ask_obj "mcpServerStatus/list" (limit_param limit ++ raw_param "cursor" cursor ++ param_if detail "detail" (JBool true)).

Definition AppList (limit : Z) (cursor threadID : string) (forceRefetch : bool) : outcome obj :=
  ask_obj "app/list" (limit_param limit ++ raw_param "cursor" cursor ++ raw_param "threadId" threadID
                      ++ param_if forceRefetch "forceRefetch" (JBool true)).

Definition ConfigRead (cwd : string) (includeLayers : bool) : outcome obj :=
  ask_obj "config/read" (raw_param "cwd" cwd ++ param_if includeLayers "includeLayers" (JBool true)).

Definition ModelList (includeHidden : bool) : list ModelOption + fault :=
  match ask "model/list" (("limit", JInt 50) :: param_if includeHidden "includeHidden" (JBool true)) with
  | Done result => inl (modelOptionsFromResult result)
  | Fault e => inr e
  end.

Definition CollaborationModeList : list CollaborationModeOption + fault :=
  match ask "collaborationMode/list" [] with
  | Done result => inl (collaborationModeOptionsFromResult result)
  | Fault e => inr e
  end.

(** The default model, or else the first that is named. *)
Definition defaultModel : string + fault :=
  match ModelList false with
  | inr e => inr e
  | inl models =>
      let named := filter (fun model => mo_ID model <> "") models in
      match head (filter (fun model => mo_IsDefault model = true) named), head named with
      | Some model, _ | None, Some model => inl (mo_ID model)
      | None, None => inr (OtherError "model/list returned no models")
      end
  end.

Definition collaborationModeReasoningEffort (mode : string) : string + fault :=
  match CollaborationModeList with
  | inr e => inr e
  | inl modes =>
      inl (match head (filter (fun preset => normalizeCollaborationMode (cm_Mode preset) = mode) modes) with
           | Some preset => normalizeReasoningEffort (cm_ReasoningEffort preset)
           | None => ""
           end)
  end.

Definition resolveTurnStartOptions (options : TurnStartOptions) : TurnStartOptions + turn_error :=
  let mode := normalizeCollaborationMode (to_CollaborationMode options) in
  let model := trim_space (to_Model options) in
  let effort := normalizeReasoningEffort (to_ReasoningEffort options) in
  let resolved model effort :=
    mkTurnStartOptions mode model effort (to_ApprovalPolicy options) (to_SandboxPolicy options) in
  if String.eqb mode "" then inl (resolved model effort)
  else
    match (if String.eqb model "" then defaultModel else inl model) with
    | inr e => inr (ModelRequired mode (Some e))
    | inl model =>
        inl (resolved model (if String.eqb effort ""
                             then match collaborationModeReasoningEffort mode with inl found => found | inr _ => effort end
                             else effort))
    end.

(** The parameters that turn/start is sent with. *)
Definition turn_params (threadID message cwd : string) (options : TurnStartOptions) : obj + turn_error :=
  match resolveTurnStartOptions options with
  | inr e => inr e
  | inl resolved => turnStartParams threadID message cwd resolved
  end.

Definition TurnStart (threadID message cwd : string) (options : TurnStartOptions) : obj + turn_error :=
  match turn_params threadID message cwd options with
  | inr e => inr e
  | inl params => match ask "turn/start" params with
                  | Done result => inl (asMap result)
                  | Fault e => inr (TurnFault e)
                  end
  end.

End methods.
