(* ===== verification/Client.v ===== *)
(** * internal/appserver/client.go: the session with App Server

    The client numbers its requests, keeps for each the channel its caller waits on, and
    hands on what App Server sends: answers to the callers, requests and notifications to
    its subscribers.  It runs concurrently: the functions here are its critical sections,
    and the step relation interleaves them.  A channel is its number in [sy_Channels], in
    the order the requests were made; writing to the child process may fail. *)
From stdpp Require Import base list numbers strings gmap relations.
From Stdlib Require Import Lia Ascii.
From S2P Require Import Prelude GoStrings Json Control Daemon.

Record serverRequest : Type := mkServerRequest {
  sq_rawID : any;
  sq_generation : Z;
  sq_threadID : string;
  sq_turnID : string;
  sq_requestKind : string }.

Record Client : Type := mkClient {
  cl_started : bool;                       (* and stdin is there *)
  cl_pending : gmap Z nat;
  cl_subscribers : list (list Event);      (* what each has not read yet *)
  cl_nextID : Z;
  cl_generation : Z;
  cl_stderrLines : list string;
  cl_serverRequests : gmap string serverRequest }.

Definition NewClient : Client := mkClient false ∅ [] 0 0 [] ∅.

(** An rpcResponse: the result of a request, or its error. *)
Abbreviation rpcResponse := (outcome any).

(** The channel of a request holds one message. *)
Record channel : Type := mkChannel {
  ch_buffer : option rpcResponse;
  ch_closed : bool }.

(** What is done outside the mutex, later. *)
Inductive todo : Type :=
| Deliver (reply : nat) (response : rpcResponse)         (* send and close *)
| Broadcast (e : Event)
| BroadcastIn (generation : Z) (e : Event)               (* if that session still runs *)
| BroadcastTransport (name : string) (params : obj).     (* with the tail of stderr *)

Definition subscriberBuffer : nat := 128.
Definition stderrTailLines : nat := 100.

Definition uint64_mod : Z := 2 ^ 64.
Definition notRunning : fault := OtherError "app-server is not running".
Definition closedBeforeResponse : fault := OtherError "app-server closed before response".
Definition notPending : fault := OtherError "app-server request is not pending in the current session".
Definition identityChanged : fault := OtherError "app-server request logical identity changed".

(** *** Fields *)
Definition set_pending (nextID : Z) (pending : gmap Z nat) (c : Client) : Client :=
  mkClient (cl_started c) pending (cl_subscribers c) nextID (cl_generation c) (cl_stderrLines c) (cl_serverRequests c).
Definition set_requests (requests : gmap string serverRequest) (c : Client) : Client :=
  mkClient (cl_started c) (cl_pending c) (cl_subscribers c) (cl_nextID c) (cl_generation c) (cl_stderrLines c) requests.
Definition set_subscribers (subscribers : list (list Event)) (c : Client) : Client :=
  mkClient (cl_started c) (cl_pending c) subscribers (cl_nextID c) (cl_generation c) (cl_stderrLines c) (cl_serverRequests c).
Definition set_session (started : bool) (pending : gmap Z nat) (requests : gmap string serverRequest) (c : Client) : Client :=
  mkClient started pending (cl_subscribers c) (cl_nextID c) ((cl_generation c + 1) mod uint64_mod) (cl_stderrLines c) requests.
Definition set_stderr (lines : list string) (c : Client) : Client :=
  mkClient (cl_started c) (cl_pending c) (cl_subscribers c) (cl_nextID c) (cl_generation c) lines (cl_serverRequests c).

Definition isStartedGeneration (generation : Z) (c : Client) : bool :=
  cl_started c && (cl_generation c =? generation)%Z.

(** *** Starting and closing *)

(** Start, once the process runs; its readers belong to the new generation. *)
Definition startRunning (c : Client) : option Client :=
  if cl_started c then None else Some (set_session true (cl_pending c) (cl_serverRequests c) c).

(** The callers that wait are told. *)
Definition closeRunning (c : Client) : option (list todo * Client) :=
  if cl_started c
  then Some (map (fun p => Deliver p.2 (Fault closedBeforeResponse)) (map_to_list (cl_pending c)), set_session false ∅ ∅ c)
  else None.

(** *** Requests *)
Definition registerRequest (reply : nat) (c : Client) : option (Z * Client) :=
  if cl_started c then
    let id := ((cl_nextID c + 1) mod uint64_mod)%Z in
    Some (id, set_pending id (<[id := reply]> (cl_pending c)) c)
  else None.

Definition forgetRequest (id : Z) (c : Client) : Client := set_pending (cl_nextID c) (delete id (cl_pending c)) c.

Definition rpcMessage (id : option Z) (method : string) (params : option obj) : obj :=
  ("jsonrpc", JStr "2.0") :: match id with Some id => [("id", JInt id)] | None => [] end ++ ("method", JStr method)
  :: match params with Some params => [("params", JObj params)] | None => [] end.

Definition answerMessage (rawID : any) (result : obj) : obj :=
  [("jsonrpc", JStr "2.0"); ("id", rawID); ("result", JObj result)].

(** A message that could not be written. *)
Definition writeFailed (method error : string) : todo :=
  BroadcastTransport "transport_error" [("stream", JStr "stdin"); ("method", JStr method); ("error", JStr error)].

(** Notify; [write] is the error of writing. *)
Definition Notify (method : string) (params : option obj) (write : option string) (c : Client)
  : option fault * list todo * list obj :=
  if cl_started c then
    match write with
    | None => (None, [], [rpcMessage None method params])
    | Some e => (Some (OtherError e), [writeFailed method e], [])
    end
  else (Some notRunning, [], []).

(** *** Answers to the requests of App Server *)

(** The answer that is written; the request is forgotten once it is. *)
Definition answerRequest (requestID : string) (request : serverRequest) (result : obj) (write : option string) (c : Client)
  : option fault * list todo * list obj * Client :=
  match write with
  | None => (None, [], [answerMessage (sq_rawID request) result], set_requests (delete requestID (cl_serverRequests c)) c)
  | Some e => (Some (OtherError e), [writeFailed "serverRequest/respond" e], [], c)
  end.

Definition RespondServerRequest (requestID : string) (result : obj) (write : option string) (c : Client)
  : option fault * list todo * list obj * Client :=
  if negb (cl_started c) then (Some notRunning, [], [], c)
  else
    match cl_serverRequests c !! requestID with
    | None => (Some notPending, [], [], c)
    | Some request =>
        if negb (sq_generation request =? cl_generation c)%Z then (Some notPending, [], [], c)
        else answerRequest requestID request result write c
    end.

Definition RespondServerRequestExact (requestID threadID turnID requestKind : string) (result : obj) (write : option string)
    (c : Client) : option fault * list todo * list obj * Client :=
  if negb (cl_started c) then (Some notRunning, [], [], c)
  else
    match cl_serverRequests c !! requestID with
    | None => (Some notPending, [], [], c)
    | Some request =>
        if negb (sq_generation request =? cl_generation c)%Z then (Some notPending, [], [], c)
        else if negb (String.eqb (sq_threadID request) (trim_space threadID))
                || negb (String.eqb (sq_turnID request) (trim_space turnID))
                || negb (String.eqb (sq_requestKind request) (trim_space requestKind))
        then (Some identityChanged, [], [], c)
        else answerRequest requestID request result write c
    end.

(** *** What App Server sends *)

(** uint64(v); out of range as on amd64 *)
Definition uint64FromAny (value : any) : Z :=
  match value with
  | JNum m e =>
      let t := if (0 <=? e)%Z then (m * 10 ^ e)%Z else Z.quot m (10 ^ (- e)) in
      if ((0 <=? t) && (t <? uint64_mod))%Z then t
      else if ((int64_min <=? t) && (t <? 0))%Z then (t mod uint64_mod)%Z else (2 ^ 63)%Z
  | JInt z => (z mod uint64_mod)%Z
  | _ => 0
  end.

Definition rpcErrorFromPayload (value : any) : fault :=
  let payload := asMap value in
  RPCError (int64Value (get payload "code")) (trim_space (stringValue (get payload "message") "app-server request failed")).

Definition is_nil (value : any) : bool := match value with JNil => true | _ => false end.

Definition is_response (payload : obj) : bool :=
  has_key payload "id" && (has_key payload "result" || negb (is_nil (get payload "error"))).

Definition response_of (payload : obj) : rpcResponse :=
  if is_nil (get payload "error") then Done (get payload "result") else Fault (rpcErrorFromPayload (get payload "error")).

Definition handleResponse (payload : obj) (generation : Z) (c : Client) : list todo * Client :=
  if isStartedGeneration generation c then
    let id := uint64FromAny (get payload "id") in
    (match cl_pending c !! id with Some reply => [Deliver reply (response_of payload)] | None => [] end, forgetRequest id c)
  else ([], c).

Definition requestOf (id : any) (method : string) (params : obj) (generation : Z) : serverRequest :=
  mkServerRequest id generation (trim_space (stringValue (get params "threadId") ""))
    (trim_space (stringValue (get params "turnId") "")) (trim_space method).

Definition handleServerRequest (id : any) (method : string) (params : obj) (generation : Z) (c : Client) : list todo * Client :=
  let requestID := rpcString id in
  if String.eqb requestID "" || negb (isStartedGeneration generation c) then ([], c)
  else ([Broadcast (mkEvent "server_request" method params id)],
        set_requests (<[requestID := requestOf id method params generation]> (cl_serverRequests c)) c).

Definition handleNotification (method : string) (params : obj) (generation : Z) (c : Client) : list todo * Client :=
  let event := BroadcastIn generation (mkEvent "notification" method params JNil) in
  let requestID := rpcString (get params "requestId") in
  if equal_fold method "serverRequest/resolved" && negb (String.eqb requestID "") then
    if isStartedGeneration generation c then ([event], set_requests (delete requestID (cl_serverRequests c)) c) else ([], c)
  else ([event], c).

Definition handlePayload (payload : obj) (generation : Z) (c : Client) : list todo * Client :=
  let params := asMap (get payload "params") in
  if is_response payload then handleResponse payload generation c
  else
    match has_key payload "id", get payload "method" with
    | true, JStr method => handleServerRequest (get payload "id") method params generation c
    | _, method => handleNotification (default "" (as_string method)) params generation c
    end.

(** A line of stdout: what it decodes to, or the error of decoding it; None is blank. *)
Definition readLine (line : option (obj + string)) (length : Z) (generation : Z) (c : Client) : list todo * Client :=
  if isStartedGeneration generation c then
    match line with
    | None => ([], c)
    | Some (inl payload) => handlePayload payload generation c
    | Some (inr e) => ([BroadcastTransport "transport_error"
        [("stream", JStr "stdout"); ("generation", JInt generation); ("error", JStr e); ("line_len", JInt length)]], c)
    end
  else ([], c).

(** The end of stdout; None is io.EOF.  After a line without its end the session is not
    asked again. *)
Definition readEnd (afterLine : bool) (error : option string) (generation : Z) (c : Client) : list todo :=
  if afterLine || isStartedGeneration generation c then
    [match error with
     | Some e => BroadcastTransport "transport_error"
                   [("stream", JStr "stdout"); ("generation", JInt generation); ("error", JStr e)]
     | None => BroadcastTransport "transport_closed"
                   [("stream", JStr "stdout"); ("generation", JInt generation); ("reason", JStr "eof")]
     end]
  else [].

Definition readStderrLine (line : string) (generation : Z) (c : Client) : Client :=
  if isStartedGeneration generation c then
    let lines := cl_stderrLines c ++ [line] in set_stderr (drop (length lines - stderrTailLines) lines) c
  else c.

(** *** Subscribers *)
Definition Subscribe (c : Client) : Client := set_subscribers (cl_subscribers c ++ [[]]) c.

(** An event that a subscriber has no room for is dropped. *)
Definition broadcast (e : Event) (c : Client) : Client :=
  set_subscribers (map (fun buffer => if (length buffer <? subscriberBuffer)%nat then buffer ++ [e] else buffer)
                     (cl_subscribers c)) c.

Definition transportEvent (name : string) (params : obj) (c : Client) : Event :=
  mkEvent name "" (params ++ [("stderr_tail", JArr (map JStr (cl_stderrLines c)))]) JNil.

(** What a subscriber reads next. *)
Definition nextEvent (subscriber : nat) (c : Client) : option (Event * Client) :=
  match cl_subscribers c !! subscriber with
  | Some (e :: buffer) => Some (e, set_subscribers (<[subscriber := buffer]> (cl_subscribers c)) c)
  | _ => None
  end.

(** *** Channels *)

(** reply <- response; close(reply).  None is a panic, or a send that waits. *)
Definition deliver (response : rpcResponse) (ch : channel) : option channel :=
  match ch_buffer ch, ch_closed ch with
  | None, false => Some (mkChannel (Some response) true)
  | _, _ => None
  end.

(** <-reply.  None waits; a closed channel without a message answers a zero response. *)
Definition receive (ch : channel) : option (rpcResponse * channel) :=
  match ch_buffer ch, ch_closed ch with
  | Some response, closed => Some (response, mkChannel None closed)
  | None, true => Some (Done JNil, ch)
  | None, false => None
  end.

(** *** The callers *)

(** A call of Request that waits, with the number of its channel, and what is known of a
    request for ever: its id and the session it was made in. *)
Record pendingCall : Type := mkWaiting {
  wt_id : Z;
  wt_reply : nat;
  wt_method : string }.

Record issued : Type := mkIssued {
  is_id : Z;
  is_generation : Z }.

(** [sy_Read] is every payload that was read with its session, [sy_Returned] what calls
    returned, [sy_Arrived] and [sy_Answered] the requests of App Server that came and that
    an answer was written to, by session and id. *)
Record System : Type := mkSystem {
  sy_Client : Client;
  sy_Waiting : list pendingCall;
  sy_Todo : list todo;
  sy_Channels : list channel;
  sy_Issued : list issued;
  sy_Read : list (Z * obj);
  sy_Returned : list (nat * rpcResponse);
  sy_Arrived : list (Z * string);
  sy_Answered : list (Z * string) }.

Definition fresh_system : System := mkSystem NewClient [] [] [] [] [] [] [] [].

(** The request of App Server that a payload is, if it is taken up. *)
Definition arrived (payload : obj) (generation : Z) (c : Client) : list (Z * string) :=
  if isStartedGeneration generation c && negb (is_response payload) then
    match has_key payload "id", get payload "method" with
    | true, JStr _ => let requestID := rpcString (get payload "id") in
                      if String.eqb requestID "" then [] else [(generation, requestID)]
    | _, _ => []
    end
  else [].

Definition respond (exact : option (string * string * string)) (requestID : string) (result : obj) (write : option string)
    (c : Client) : option fault * list todo * list obj * Client :=
  match exact with
  | None => RespondServerRequest requestID result write c
  | Some (threadID, turnID, kind) => RespondServerRequestExact requestID threadID turnID kind result write c
  end.

Definition run_todo (t : todo) (channels : list channel) (c : Client) : option (list channel * Client) :=
  match t with
  | Deliver reply response =>
      ch ← channels !! reply; ch' ← deliver response ch; Some (<[reply := ch']> channels, c)
  | Broadcast e => Some (channels, broadcast e c)
  | BroadcastIn generation e => Some (channels, if isStartedGeneration generation c then broadcast e c else c)
  | BroadcastTransport name params => Some (channels, broadcast (transportEvent name params c) c)
  end.

Inductive client_step : System -> System -> Prop :=
| cs_start c c' ws ts chs iss rd rt ar an : startRunning c = Some c' -> (cl_generation c + 1 < uint64_mod)%Z ->
    client_step (mkSystem c ws ts chs iss rd rt ar an) (mkSystem c' ws ts chs iss rd rt ar an)
| cs_close c c' ds ws ts chs iss rd rt ar an : closeRunning c = Some (ds, c') -> (cl_generation c + 1 < uint64_mod)%Z ->
    client_step (mkSystem c ws ts chs iss rd rt ar an) (mkSystem c' ws (ts ++ ds) chs iss rd rt ar an)
| cs_request method id c c' ws ts chs iss rd rt ar an :
    registerRequest (length chs) c = Some (id, c') -> (cl_nextID c + 1 < uint64_mod)%Z ->
    client_step (mkSystem c ws ts chs iss rd rt ar an)
      (mkSystem c' (mkWaiting id (length chs) method :: ws) ts (chs ++ [mkChannel None false])
         (iss ++ [mkIssued id (cl_generation c)]) rd rt ar an)
| cs_write_failed e c w1 w w2 ts chs iss rd rt ar an :           (* the request stays in pending *)
    client_step (mkSystem c (w1 ++ w :: w2) ts chs iss rd rt ar an)
      (mkSystem c (w1 ++ w2) (ts ++ [writeFailed (wt_method w) e]) chs iss rd rt ar an)
| cs_give_up c w1 w w2 ts chs iss rd rt ar an :                  (* time is up, or the context ended *)
    client_step (mkSystem c (w1 ++ w :: w2) ts chs iss rd rt ar an)
      (mkSystem (forgetRequest (wt_id w) c) (w1 ++ w2) ts chs iss rd rt ar an)
| cs_return c w1 w w2 ts chs ch ch' response iss rd rt ar an :
    chs !! wt_reply w = Some ch -> receive ch = Some (response, ch') ->
    client_step (mkSystem c (w1 ++ w :: w2) ts chs iss rd rt ar an)
      (mkSystem c (w1 ++ w2) ts (<[wt_reply w := ch']> chs) iss rd ((wt_reply w, response) :: rt) ar an)
| cs_notify method params write e ds out c ws ts chs iss rd rt ar an : Notify method params write c = (e, ds, out) ->
    client_step (mkSystem c ws ts chs iss rd rt ar an) (mkSystem c ws (ts ++ ds) chs iss rd rt ar an)
| cs_respond exact requestID result write e ds out c c' ws ts chs iss rd rt ar an :
    respond exact requestID result write c = (e, ds, out, c') ->
    client_step (mkSystem c ws ts chs iss rd rt ar an)
      (mkSystem c' ws (ts ++ ds) chs iss rd rt ar
         (map (fun _ => (cl_generation c, requestID)) out ++ an))
| cs_payload payload generation c c' ds ws ts chs iss rd rt ar an : handlePayload payload generation c = (ds, c') ->
    client_step (mkSystem c ws ts chs iss rd rt ar an)
      (mkSystem c' ws (ts ++ ds) chs iss ((generation, payload) :: rd) rt (arrived payload generation c ++ ar) an)
| cs_broken_line e len generation c c' ds ws ts chs iss rd rt ar an : readLine (Some (inr e)) len generation c = (ds, c') ->
    client_step (mkSystem c ws ts chs iss rd rt ar an) (mkSystem c' ws (ts ++ ds) chs iss rd rt ar an)
| cs_end afterLine e generation c ws ts chs iss rd rt ar an :
    client_step (mkSystem c ws ts chs iss rd rt ar an) (mkSystem c ws (ts ++ readEnd afterLine e generation c) chs iss rd rt ar an)
| cs_stderr line generation c ws ts chs iss rd rt ar an :
    client_step (mkSystem c ws ts chs iss rd rt ar an) (mkSystem (readStderrLine line generation c) ws ts chs iss rd rt ar an)
| cs_subscribe c ws ts chs iss rd rt ar an :
    client_step (mkSystem c ws ts chs iss rd rt ar an) (mkSystem (Subscribe c) ws ts chs iss rd rt ar an)
| cs_event subscriber e c c' ws ts chs iss rd rt ar an : nextEvent subscriber c = Some (e, c') ->
    client_step (mkSystem c ws ts chs iss rd rt ar an) (mkSystem c' ws ts chs iss rd rt ar an)
| cs_todo c c' ws t1 t t2 chs chs' iss rd rt ar an : run_todo t chs c = Some (chs', c') ->
    client_step (mkSystem c ws (t1 ++ t :: t2) chs iss rd rt ar an) (mkSystem c' ws (t1 ++ t2) chs' iss rd rt ar an).

Definition client_reachable (st : System) : Prop := rtc client_step fresh_system st.
