(* ===== verification/ClientSafety.v ===== *)
(** * What the client of App Server guarantees its callers

    The invariant of the calls: each request has a channel of its own, which is in pending,
    or taken out by the one that will send to it, or was sent to once.  The invariant of the
    answers counts them against the requests of App Server that came. *)
From stdpp Require Import base list numbers strings gmap relations.
From Stdlib Require Import Lia Ascii.
From S2P Require Import Prelude GoStrings Json Control Daemon Projects Starts RouterSafety Drain ClientCalls Client.

(** The channels that are to be sent to, with what is sent. *)
Definition deliveries (ts : list todo) : list (nat * rpcResponse) :=
  omap (fun t => match t with Deliver reply response => Some (reply, response) | _ => None end) ts.

(** The response of a call comes from closing the session, or from a payload that App
    Server sent in the session of the call with the id of the call. *)
Definition justified (iss : list issued) (rd : list (Z * obj)) (reply : nat) (response : rpcResponse) : Prop :=
  response = Fault closedBeforeResponse
  \/ exists i payload, iss !! reply = Some i /\ (is_generation i, payload) ∈ rd /\ is_response payload = true
       /\ uint64FromAny (get payload "id") = is_id i /\ response = response_of payload.

Record CallInv (c : Client) (ws : list pendingCall) (ds : list (nat * rpcResponse)) (chs : list channel) (iss : list issued)
    (rd : list (Z * obj)) (rt : list (nat * rpcResponse)) : Prop := {
  ci_next : cl_nextID c = Z.of_nat (length iss) /\ (cl_nextID c < uint64_mod)%Z;
  ci_generation : (0 <= cl_generation c < uint64_mod)%Z;
  ci_length : length chs = length iss;
  ci_issued : forall p i, iss !! p = Some i -> is_id i = Z.of_nat (S p);
  ci_pending : forall id p, cl_pending c !! id = Some p ->
    iss !! p = Some (mkIssued id (cl_generation c)) /\ cl_started c = true;
  ci_nodup : NoDup ds.*1;
  ci_taken : forall p id, p ∈ ds.*1 -> cl_pending c !! id <> Some p;
  ci_open : forall p, p ∈ ds.*1 \/ (exists id, cl_pending c !! id = Some p) -> chs !! p = Some (mkChannel None false);
  ci_response : forall p response, (p, response) ∈ ds -> justified iss rd p response;
  ci_buffer : forall p ch response, chs !! p = Some ch -> ch_buffer ch = Some response -> justified iss rd p response;
  ci_callers : NoDup (wt_reply <$> ws);
  ci_waits : forall w, w ∈ ws -> exists g, iss !! wt_reply w = Some (mkIssued (wt_id w) g)
    /\ (cl_pending c !! wt_id w = Some (wt_reply w) \/ wt_reply w ∈ ds.*1
        \/ exists response, chs !! wt_reply w = Some (mkChannel (Some response) true));
  ci_returned : forall p response, (p, response) ∈ rt -> justified iss rd p response;
  ci_once : NoDup (rt.*1) /\ forall p, p ∈ (rt.*1) -> (p ∉ (wt_reply <$> ws)) /\ (p < length iss)%nat }.

(** Invariant of the requests of App Server *)
Definition count (x : Z * string) (l : list (Z * string)) : nat := length (filter (fun y => y = x) l).

Definition open_request (c : Client) (x : Z * string) : nat :=
  match cl_serverRequests c !! x.2 with
  | Some request => if (sq_generation request =? x.1)%Z then 1 else 0
  | None => 0
  end.

Definition AnswerInv (c : Client) (ar an : list (Z * string)) : Prop :=
  forall x, (count x an + open_request c x <= count x ar)%nat.

Record same_calls (c c' : Client) : Prop := {
  sc_started : cl_started c' = cl_started c;
  sc_pending : cl_pending c' = cl_pending c;
  sc_nextID : cl_nextID c' = cl_nextID c;
  sc_generation : cl_generation c' = cl_generation c }.

(** A request that is sent, answered and returned. *)
Definition ex_response : obj := [("id", JNum 1 0); ("result", JStr "read")].
Definition ex_approval : obj :=
  [("id", JNum 7 0); ("method", JStr "item/commandExecution/requestApproval");
   ("params", JObj [("threadId", JStr "t"); ("turnId", JStr "u")])].
Definition ex_started : Client := set_session true ∅ ∅ NewClient.
Definition ex_asked : Client := set_pending 1 {[1%Z := 0%nat]} ex_started.
Definition ex_calling : System :=
  mkSystem ex_asked [mkWaiting 1 0 "thread/read"] [] [mkChannel None false] [mkIssued 1 1] [] [] [] [].
Definition ex_answered : System :=
  mkSystem (forgetRequest 1 ex_asked) [mkWaiting 1 0 "thread/read"] [Deliver 0 (Done (JStr "read"))] [mkChannel None false]
    [mkIssued 1 1] [(1%Z, ex_response)] [] [] [].
Definition ex_asked_back : System :=
  let c := handlePayload ex_approval 1 ex_started in
  mkSystem c.2 [] c.1 [] [] [(1%Z, ex_approval)] [] [(1%Z, "7")] [].

(** A session that is closed while a call waits, and a request of App Server that is answered. *)
Definition ex_closed : System :=
  mkSystem (set_session false ∅ ∅ ex_asked) [mkWaiting 1 0 "thread/read"] [Deliver 0 (Fault closedBeforeResponse)]
    [mkChannel None false] [mkIssued 1 1] [] [] [] [].
Definition ex_replied : System :=
  let c := handlePayload ex_approval 1 ex_started in
  let '(_, ds, _, c') := RespondServerRequestExact "7" "t" "u" "item/commandExecution/requestApproval"
                           [("decision", JStr "decline")] None c.2 in
  mkSystem c' [] (c.1 ++ ds) [] [] [(1%Z, ex_approval)] [] [(1%Z, "7")] [(1%Z, "7")].

(** A request whose message could not be written. *)
Definition ex_unwritten : System :=
  mkSystem ex_asked [] [writeFailed "thread/read" "broken pipe"] [mkChannel None false] [mkIssued 1 1] [] [] [] [].

(** A turn of the project, and App Server's one model. *)
Definition ex_turn : TurnCall :=
  mkTurnCall 0 "t" "go on" (pj_CanonicalPath ex_project)
    (mkTurnStartOptions "Plan" "" "" "on-request" (mkSandboxPolicy "workspaceWrite" [pj_CanonicalPath ex_project] false)).
Definition ex_models (method : string) (_ : obj) : outcome any :=
  if String.eqb method "model/list" then Done (JObj [("data", JArr [JObj [("id", JStr "gpt")]])]) else Fault notRunning.

(** The session that is closed, when the call has been told. *)
Definition ex_told : System :=
  mkSystem (set_session false ∅ ∅ ex_asked) [] [] [mkChannel None true] [mkIssued 1 1] []
    [(0%nat, Fault closedBeforeResponse)] [] [].

(** What goes on inside the client: what is left to be sent is sent, and a call takes the
    response in its channel.  Nothing comes from App Server, no session starts and no time
    limit passes. *)
Inductive settling : System -> System -> Prop :=
| sl_todo c c' ws t1 t t2 chs chs' iss rd rt ar an : run_todo t chs c = Some (chs', c') ->
    settling (mkSystem c ws (t1 ++ t :: t2) chs iss rd rt ar an) (mkSystem c' ws (t1 ++ t2) chs' iss rd rt ar an)
| sl_return c w1 w w2 ts chs ch ch' response iss rd rt ar an :
    chs !! wt_reply w = Some ch -> receive ch = Some (response, ch') ->
    settling (mkSystem c (w1 ++ w :: w2) ts chs iss rd rt ar an)
      (mkSystem c (w1 ++ w2) ts (<[wt_reply w := ch']> chs) iss rd ((wt_reply w, response) :: rt) ar an).

(** ** Calls *)
Lemma deliveries_app t1 t2 : deliveries (t1 ++ t2) = deliveries t1 ++ deliveries t2.
Proof. apply omap_app. Qed.

Lemma justified_mono iss iss' rd rd' p response :
  (forall i, iss !! p = Some i -> iss' !! p = Some i) -> rd ⊆ rd' -> justified iss rd p response -> justified iss' rd' p response.
Proof. intros H1 H2 [H|(i & payload & H & Hr & H3)]; [by left|]. right. exists i, payload. eauto. Qed.

(** What neither touches the calls nor their channels. *)
Lemma calls_frame c c' ws ds chs iss rd rd' rt : same_calls c c' -> rd ⊆ rd' ->
  CallInv c ws ds chs iss rd rt -> CallInv c' ws ds chs iss rd' rt.
Proof.
  intros [H1 H2 H3 H4] Hr [X1 X2 X3 X4 X5 X6 X7 X8 X9 X10 X11 X12 X13 X14].
  constructor; rewrite ?H1, ?H2, ?H3, ?H4; eauto using justified_mono.
Qed.

Lemma calls_start c c' ws ds chs iss rd rt : startRunning c = Some c' -> (cl_generation c + 1 < uint64_mod)%Z ->
  CallInv c ws ds chs iss rd rt -> CallInv c' ws ds chs iss rd rt.
Proof.
  unfold startRunning. destruct (cl_started c) eqn:Es; [done|]. intros [= <-] Hg [X1 X2 X3 X4 X5 X6 X7 X8 X9 X10 X11 X12 X13 X14].
  constructor; cbn; try done.
  - rewrite Z.mod_small by lia. lia.
  - intros id p Hp. apply X5 in Hp as [_ ?]. congruence.
Qed.

Lemma closing_deliveries (l : list (Z * nat)) :
  let closed := map (fun p => (p.2, Fault closedBeforeResponse : rpcResponse)) l in
  deliveries (map (fun p => Deliver p.2 (Fault closedBeforeResponse)) l) = closed /\ closed.*1 = l.*2.
Proof.
  induction l as [|x l [IH1 IH2]]; [done|]. cbv zeta in *. split.
  - unfold deliveries in *. cbn. by rewrite IH1.
  - cbn. by rewrite <- IH2.
Qed.

Lemma calls_close c c' ds' ws ds chs iss rd rt : closeRunning c = Some (ds', c') -> (cl_generation c + 1 < uint64_mod)%Z ->
  CallInv c ws ds chs iss rd rt -> CallInv c' ws (ds ++ deliveries ds') chs iss rd rt.
Proof.
  unfold closeRunning. destruct (cl_started c) eqn:Es; [|done]. intros [= <- <-] Hg [X1 X2 X3 X4 X5 X6 X7 X8 X9 X10 X11 X12 X13 X14].
  destruct (closing_deliveries (map_to_list (cl_pending c))) as [Hd H1]. rewrite Hd.
  assert (Hin : forall p, p ∈ (map_to_list (cl_pending c)).*2 <-> exists id, cl_pending c !! id = Some p).
  { intros p. rewrite list_elem_of_fmap. split.
    - intros ([id q] & -> & H%elem_of_map_to_list). eauto.
    - intros [id H%elem_of_map_to_list]. by exists (id, p). }
  constructor; cbn; try done.
  - rewrite Z.mod_small by lia. lia.
  - rewrite fmap_app, H1. apply NoDup_app. split; [done|]. split.
    + intros p Hp [id Hid]%Hin. by apply (X7 p id Hp).
    + apply NoDup_fmap_2_strong; [|apply NoDup_map_to_list]. intros [a p] [b q] Ha%elem_of_map_to_list Hb%elem_of_map_to_list E.
      cbn in E. subst q. f_equal. apply X5 in Ha as [Ha _], Hb as [Hb _]. congruence.
  - intros p H. apply X8. rewrite fmap_app, H1 in H. destruct H as [H|[id H]]; [|by rewrite lookup_empty in H].
    apply elem_of_app in H as [?|?%Hin]; auto.
  - intros p response [H|H]%elem_of_app; [by apply X9|]. apply list_elem_of_fmap in H as (x & [= -> ->] & _). by left.
  - intros w Hw. destruct (X12 w Hw) as (g & Hi & Hd'). exists g. split; [done|]. right.
    rewrite fmap_app, H1. destruct Hd' as [H|[H|H]]; [left|left|by right]; apply elem_of_app; [right; apply Hin; eauto|by left].
Qed.

(** An id is that of one request. *)
Lemma pending_unique c ws ds chs iss rd rt id id' p : CallInv c ws ds chs iss rd rt ->
  cl_pending c !! id = Some p -> cl_pending c !! id' = Some p -> id = id'.
Proof. intros X H%X H'%X. destruct H as [H _], H' as [H' _]. congruence. Qed.

Lemma calls_request c c' method id ws ds chs iss rd rt :
  registerRequest (length chs) c = Some (id, c') -> (cl_nextID c + 1 < uint64_mod)%Z -> CallInv c ws ds chs iss rd rt ->
  CallInv c' (mkWaiting id (length chs) method :: ws) ds (chs ++ [mkChannel None false])
    (iss ++ [mkIssued id (cl_generation c)]) rd rt.
Proof.
  unfold registerRequest. destruct (cl_started c) eqn:Es; [|done]. intros [= <- <-] Hb X.
  pose proof X as [X1 X2 X3 X4 X5 X6 X7 X8 X9 X10 X11 X12 X13 X14]. destruct X1 as [X1 X1'].
  rewrite Z.mod_small by lia. set (id := (cl_nextID c + 1)%Z) in *.
  assert (Hlast : (iss ++ [mkIssued id (cl_generation c)]) !! length chs = Some (mkIssued id (cl_generation c)))
    by (rewrite X3; by apply list_lookup_middle).
  assert (Hlastc : (chs ++ [mkChannel None false]) !! length chs = Some (mkChannel None false)) by (by apply list_lookup_middle).
  assert (Hnew : iss !! length chs = None) by (apply lookup_ge_None; lia).
  assert (Hpo : forall p i, iss !! p = Some i -> (iss ++ [mkIssued id (cl_generation c)]) !! p = Some i)
    by (intros p i Hi; by apply lookup_app_l_Some).
  assert (Hin : forall p, p ∈ ds.*1 \/ (exists id, cl_pending c !! id = Some p) -> (p < length chs)%nat)
    by (intros p Hp; by eapply lookup_lt_Some, X8).
  assert (Hmono : forall p response, justified iss rd p response -> justified (iss ++ [mkIssued id (cl_generation c)]) rd p response)
    by eauto using justified_mono.
  assert (Hold : forall w, w ∈ ws -> (wt_reply w < length chs)%nat).
  { intros w Hw. destruct (X12 w Hw) as (g & Hi & _). rewrite X3. by eapply lookup_lt_Some. }
  constructor; cbn; try done.
  - rewrite length_app. cbn. lia.
  - rewrite !length_app. cbn. lia.
  - intros p i [H|[H1 H2]]%lookup_app_Some; [by apply X4|]. apply list_lookup_singleton_Some in H2 as [H2 <-]. cbn. lia.
  - intros id' p. rewrite lookup_insert_Some. intros [[<- <-]|[_ H]].
    + by split.
    + apply X5 in H as [H ?]. split; [by apply Hpo|done].
  - intros p id' Hp. rewrite lookup_insert_Some. intros [[_ <-]|[_ H]]; [|by eapply X7]. assert (length chs < length chs)%nat by auto. lia.
  - intros p [H|[id' H]].
    + apply lookup_app_l_Some. auto.
    + apply lookup_insert_Some in H as [[_ <-]|[_ H]]; [done|apply lookup_app_l_Some; eauto].
  - intros p response H. by apply Hmono, X9.
  - intros p ch response [H|[_ H]]%lookup_app_Some Hr; [by eapply Hmono, X10|].
    apply list_lookup_singleton_Some in H as [_ <-]. done.
  - constructor; [|done]. intros (w & E & Hw)%list_elem_of_fmap. apply Hold in Hw. lia.
  - intros w [->|Hw]%elem_of_cons.
    + exists (cl_generation c). split; [done|]. left. cbn. by rewrite lookup_insert_eq.
    + destruct (X12 w Hw) as (g & Hi & H). exists g. split; [by apply Hpo|]. destruct H as [H|[H|[response H]]].
      * left. rewrite lookup_insert_ne; [done|]. intros E. apply X4 in Hi. cbn in Hi. apply lookup_lt_Some in H || idtac.
        pose proof (Hold w Hw). unfold id in E. lia.
      * by auto.
      * right. right. exists response. by apply lookup_app_l_Some.
  - intros p response H. by apply Hmono, X13.
  - destruct X14 as [X14 X15]. split; [done|]. intros p Hp. destruct (X15 p Hp) as [Hw Hl]. split; [|rewrite length_app; lia].
    intros [->|?]%elem_of_cons; [lia|done].
Qed.

(** A caller goes away: its request may stay in pending. *)
Lemma calls_leave c w1 w w2 ds chs iss rd rt : CallInv c (w1 ++ w :: w2) ds chs iss rd rt ->
  CallInv c (w1 ++ w2) ds chs iss rd rt.
Proof.
  intros [X1 X2 X3 X4 X5 X6 X7 X8 X9 X10 X11 X12 X13 [X14 X15]]. rewrite fmap_app, fmap_cons in *. constructor; try done.
  - rewrite fmap_app. apply NoDup_app in X11 as (? & H1 & [? ?]%NoDup_cons). apply NoDup_app. set_solver.
  - intros w' Hw'. apply X12. set_solver.
  - split; [done|]. intros p Hp. destruct (X15 p Hp). rewrite fmap_app. set_solver.
Qed.

Lemma calls_forget c ws ds chs iss rd rt w : CallInv c ws ds chs iss rd rt ->
  (exists g, iss !! wt_reply w = Some (mkIssued (wt_id w) g)) -> wt_reply w ∉ wt_reply <$> ws ->
  CallInv (forgetRequest (wt_id w) c) ws ds chs iss rd rt.
Proof.
  intros [X1 X2 X3 X4 X5 X6 X7 X8 X9 X10 X11 X12 X13 X14] [g Hg] Hw. constructor; cbn; try done.
  - intros id p [_ H]%lookup_delete_Some. by apply X5.
  - intros p id Hp [_ H]%lookup_delete_Some. by eapply X7.
  - intros p [H|[id [_ H]%lookup_delete_Some]]; apply X8; eauto.
  - intros w' Hw'. destruct (X12 w' Hw') as (g' & Hi & H). exists g'. split; [done|].
    destruct H as [H|H]; [|by right]. left. rewrite lookup_delete_ne; [done|]. intros E.
    apply X4 in Hg as Hg', Hi as Hi'. cbn in Hg', Hi'. assert (wt_reply w = wt_reply w') as Ew by lia.
    apply Hw. rewrite Ew. by apply list_elem_of_fmap_2.
Qed.

(** A response is taken out of pending, for its caller. *)
Lemma calls_response c payload generation ds' c' ws ds chs iss rd rt :
  handleResponse payload generation c = (ds', c') -> is_response payload = true -> (generation, payload) ∈ rd ->
  CallInv c ws ds chs iss rd rt -> CallInv c' ws (ds ++ deliveries ds') chs iss rd rt.
Proof.
  unfold handleResponse, isStartedGeneration. intros E Hr Hrd X.
  destruct (cl_started c && _) eqn:Es; [|injection E as <- <-; by rewrite app_nil_r].
  apply andb_true_iff in Es as [Hs <-%Z.eqb_eq].
  set (id := uint64FromAny (get payload "id")) in *.
  destruct (cl_pending c !! id) as [reply|] eqn:Ep; injection E as <- <-; cycle 1.
  { change (deliveries []) with (@nil (nat * rpcResponse)). rewrite app_nil_r. eapply calls_frame; [|reflexivity|exact X].
    split; try done. cbn. by apply delete_id. }
  pose proof X as [X1 X2 X3 X4 X5 X6 X7 X8 X9 X10 X11 X12 X13 X14].
  change (deliveries [Deliver reply (response_of payload)]) with [(reply, response_of payload)].
  assert (Hother : forall p, (exists id', delete id (cl_pending c) !! id' = Some p) -> p <> reply /\ exists id', cl_pending c !! id' = Some p).
  { intros p (id' & [Hne H]%lookup_delete_Some). split; [|eauto]. intros ->. apply Hne. by eapply pending_unique. }
  constructor; cbn; try done.
  - intros id' p [_ H]%lookup_delete_Some. by apply X5.
  - rewrite fmap_app. apply NoDup_app. split; [done|]. split; [|apply NoDup_singleton].
    intros p Hp ->%list_elem_of_singleton. by eapply X7.
  - intros p id'. rewrite fmap_app. intros [H| ->%list_elem_of_singleton]%elem_of_app H'.
    + apply lookup_delete_Some in H' as [_ H']. by eapply X7.
    + by destruct (Hother reply) as [? _]; [eauto|].
  - intros p. rewrite fmap_app. intros [[H| ->%list_elem_of_singleton]%elem_of_app|[_ H]%Hother]; apply X8; eauto.
  - intros p response [H|[= -> ->]%list_elem_of_singleton]%elem_of_app; [by apply X9|]. right.
    destruct (X5 _ _ Ep) as [Hi _]. by exists (mkIssued id (cl_generation c)), payload.
  - intros w Hw. destruct (X12 w Hw) as (g & Hi & H). exists g. split; [done|]. rewrite fmap_app.
    destruct H as [H|[H|H]]; [|right; left; set_solver|by auto].
    destruct (decide (wt_id w = id)) as [E|E]; [|left; by rewrite lookup_delete_ne].
    right. left. apply elem_of_app. right. rewrite E, Ep in H. injection H as <-. by left.
Qed.

(** The message of a response is there, once its sender has run. *)
Lemma calls_deliver c ws d1 reply response d2 chs iss rd rt :
  CallInv c ws (d1 ++ (reply, response) :: d2) chs iss rd rt ->
  chs !! reply = Some (mkChannel None false)
  /\ CallInv c ws (d1 ++ d2) (<[reply := mkChannel (Some response) true]> chs) iss rd rt.
Proof.
  intros [X1 X2 X3 X4 X5 X6 X7 X8 X9 X10 X11 X12 X13 X14].
  assert (Hreply : chs !! reply = Some (mkChannel None false)) by (apply X8; rewrite fmap_app, fmap_cons; set_solver).
  split; [done|]. rewrite fmap_app, fmap_cons in *. cbn [fst] in *.
  apply NoDup_app in X6 as (N1 & N2 & [N3 N4]%NoDup_cons).
  assert (Hne : forall p, p ∈ d1.*1 ++ d2.*1 \/ (exists id, cl_pending c !! id = Some p) -> reply <> p).
  { intros p Hp <-. destruct Hp as [Hp|[id Hp]]; [|by apply (X7 reply id); [set_solver|]]. set_solver. }
  constructor; cbn; try done.
  - by rewrite length_insert.
  - rewrite fmap_app. apply NoDup_app. set_solver.
  - intros p id. rewrite fmap_app. intros Hp. apply X7. set_solver.
  - intros p. rewrite fmap_app. intros Hp. rewrite list_lookup_insert_ne by auto. apply X8. set_solver.
  - intros p r Hr. apply X9. set_solver.
  - intros p ch r [(-> & <- & _)|[_ H]]%list_lookup_insert_Some Hr; [|by eapply X10]. injection Hr as <-. apply X9. set_solver.
  - intros w Hw. destruct (X12 w Hw) as (g & Hi & H). exists g. split; [done|]. rewrite fmap_app.
    destruct (decide (wt_reply w = reply)) as [->|E].
    + right. right. exists response. apply list_lookup_insert_eq. by eapply lookup_lt_Some.
    + rewrite list_lookup_insert_ne by auto. set_solver.
Qed.

(** A caller that returns has what was sent to its channel. *)
Lemma calls_return c w1 w w2 ds chs ch ch' response iss rd rt :
  CallInv c (w1 ++ w :: w2) ds chs iss rd rt -> chs !! wt_reply w = Some ch -> receive ch = Some (response, ch') ->
  justified iss rd (wt_reply w) response
  /\ CallInv c (w1 ++ w2) ds (<[wt_reply w := ch']> chs) iss rd ((wt_reply w, response) :: rt).
Proof.
  intros X Hch Hrecv. destruct (ci_waits _ _ _ _ _ _ _ X w) as (g & Hi & Hw); [set_solver|].
  assert (Hb : exists r, ch = mkChannel (Some r) true).
  { destruct Hw as [H|[H|[r H]]]; [| |exists r; congruence];
      (assert (ch = mkChannel None false) as -> by (apply (Some_inj (A := channel)); rewrite <- Hch; eapply ci_open; eauto)); done. }
  destruct Hb as [r ->]. injection Hrecv as <- <-.
  assert (Hj : justified iss rd (wt_reply w) r) by (by eapply ci_buffer). split; [done|].
  assert (Hnew : wt_reply w ∉ (wt_reply <$> w1 ++ w2)).
  { pose proof (ci_callers _ _ _ _ _ _ _ X) as N. rewrite fmap_app, fmap_cons in N.
    apply NoDup_app in N as (_ & N1 & [N2 _]%NoDup_cons). rewrite fmap_app. set_solver. }
  assert (Hold : wt_reply w ∉ rt.*1).
  { destruct (ci_once _ _ _ _ _ _ _ X) as [_ H]. intros H'%H. destruct H' as [H' _]. apply H'. rewrite fmap_app. set_solver. }
  pose proof (calls_leave _ _ _ _ _ _ _ _ _ X) as [X1 X2 X3 X4 X5 X6 X7 X8 X9 X10 X11 X12 X13 [X14 X15]]. constructor; try done.
  - by rewrite length_insert.
  - intros p Hp. rewrite list_lookup_insert_ne; [by apply X8|]. intros <-. apply X8 in Hp. congruence.
  - intros p ch r' [(<- & <- & _)|[_ H]]%list_lookup_insert_Some Hr; [done|by eapply X10].
  - intros w' Hw'. destruct (X12 w' Hw') as (g' & Hi' & H). exists g'. split; [done|].
    rewrite list_lookup_insert_ne; [done|]. intros E. apply Hnew. rewrite E. by apply (list_elem_of_fmap_2 wt_reply).
  - intros p r' [[= -> ->]|H]%elem_of_cons; [done|by apply X13].
  - split; [by constructor|]. intros p [->|Hp]%elem_of_cons; [|by apply X15]. split; [done|]. by eapply lookup_lt_Some.
Qed.

(** ** Steps *)
Lemma payload_frame payload generation c ds c' : is_response payload = false ->
  handlePayload payload generation c = (ds, c') -> same_calls c c' /\ deliveries ds = [].
Proof.
  intros Hr. unfold handlePayload. rewrite Hr. unfold handleServerRequest, handleNotification.
  repeat case_match; intros [= <- <-]; done.
Qed.

Lemma respond_frame exact requestID result write c e ds out c' : respond exact requestID result write c = (e, ds, out, c') ->
  same_calls c c' /\ deliveries ds = [].
Proof.
  destruct exact as [[[threadID turnID] kind]|]; cbn; unfold RespondServerRequest, RespondServerRequestExact, answerRequest;
    repeat case_match; intros [= <- <- <- <-]; done.
Qed.

Lemma step_calls st st' : client_step st st' ->
  CallInv (sy_Client st) (sy_Waiting st) (deliveries (sy_Todo st)) (sy_Channels st) (sy_Issued st) (sy_Read st) (sy_Returned st) ->
  CallInv (sy_Client st') (sy_Waiting st') (deliveries (sy_Todo st')) (sy_Channels st') (sy_Issued st') (sy_Read st') (sy_Returned st').
Proof.
  assert (F : forall c c' ws ts ts' chs iss rd rd' rt, same_calls c c' -> deliveries ts' = deliveries ts -> rd ⊆ rd' ->
    CallInv c ws (deliveries ts) chs iss rd rt -> CallInv c' ws (deliveries ts') chs iss rd' rt).
  { intros c c' ws ts ts' chs iss rd rd' rt ? -> ? ?. by eapply calls_frame. }
  destruct 1 as [c c' ws ts chs iss rd rt ar an E|c c' ds ws ts chs iss rd rt ar an E|method id c c' ws ts chs iss rd rt ar an E
    |e c w1 w w2 ts chs iss rd rt ar an|c w1 w w2 ts chs iss rd rt ar an|c w1 w w2 ts chs ch ch' response iss rd rt ar an E1 E2
    |method params write e ds out c ws ts chs iss rd rt ar an E|exact requestID result write e ds out c c' ws ts chs iss rd rt ar an E
    |payload generation c c' ds ws ts chs iss rd rt ar an E|e len generation c c' ds ws ts chs iss rd rt ar an E
    |e generation c ws ts chs iss rd rt ar an|line generation c ws ts chs iss rd rt ar an|c ws ts chs iss rd rt ar an
    |subscriber e c c' ws ts chs iss rd rt ar an E|c c' ws t1 t t2 chs chs' iss rd rt ar an E]; cbn; intros X.
  - by eapply calls_start.
  - rewrite deliveries_app. by eapply calls_close.
  - by eapply calls_request.
  - apply calls_leave in X. eapply F; [| |reflexivity|exact X]; [done|]. rewrite deliveries_app. cbn. by rewrite app_nil_r.
  - apply calls_forget; [by eapply calls_leave| |].
    + destruct (ci_waits _ _ _ _ _ _ _ X w) as (g & Hi & _); [set_solver|eauto].
    + pose proof (ci_callers _ _ _ _ _ _ _ X) as N. rewrite fmap_app, fmap_cons in N. rewrite fmap_app.
      apply NoDup_app in N as (_ & N1 & [N2 _]%NoDup_cons). set_solver.
  - by eapply calls_return.
  - eapply F; [| |reflexivity|exact X]; [done|]. rewrite deliveries_app. unfold Notify in E.
    repeat case_match; injection E as <- <- <-; cbn; by rewrite app_nil_r.
  - apply respond_frame in E as [? Hd]. eapply F; [done| |reflexivity|exact X]. by rewrite deliveries_app, Hd, app_nil_r.
  - destruct (is_response payload) eqn:Er.
    + rewrite deliveries_app. unfold handlePayload in E. rewrite Er in E. eapply calls_response; [exact E|done|by left|].
      eapply calls_frame; [| |exact X]; [done|set_solver].
    + apply payload_frame in E as [? Hd]; [|done]. eapply F; [done| | |exact X]; [|set_solver]. by rewrite deliveries_app, Hd, app_nil_r.
  - eapply F; [| |reflexivity|exact X]; unfold readLine in E; case_match; injection E as <- <-; try done;
      rewrite deliveries_app; by rewrite app_nil_r.
  - eapply F; [| |reflexivity|exact X]; [done|]. rewrite deliveries_app. unfold readEnd. repeat case_match; by rewrite app_nil_r.
  - eapply F; [|done|reflexivity|exact X]. unfold readStderrLine. by case_match.
  - eapply F; [|done|reflexivity|exact X]. done.
  - eapply F; [|done|reflexivity|exact X]. unfold nextEvent in E. repeat case_match; by simplify_eq.
  - rewrite !deliveries_app in *. destruct t as [reply response|ev|generation ev|name params]; cbn in E.
    + unfold deliveries in X at 2. cbn in X. apply calls_deliver in X as [Hch X]. rewrite Hch in E. cbn in E. injection E as <- <-. exact X.
    + injection E as <- <-. by eapply calls_frame; [|reflexivity|exact X].
    + injection E as <- <-. eapply calls_frame; [|reflexivity|exact X]. by case_match.
    + injection E as <- <-. by eapply calls_frame; [|reflexivity|exact X].
Qed.

(** ** Answers *)
Lemma count_app x l1 l2 : count x (l1 ++ l2) = (count x l1 + count x l2)%nat.
Proof. unfold count. by rewrite filter_app, length_app. Qed.

Lemma count_one x y : count x [y] = if decide (y = x) then 1%nat else 0%nat.
Proof. unfold count. rewrite filter_cons. by case_decide. Qed.

Lemma answers_frame c c' ar an : (forall x, (open_request c' x <= open_request c x)%nat) -> AnswerInv c ar an -> AnswerInv c' ar an.
Proof. intros H X x. specialize (H x). specialize (X x). lia. Qed.

Lemma open_delete c q x : (open_request (set_requests (delete q (cl_serverRequests c)) c) x <= open_request c x)%nat.
Proof.
  unfold open_request. cbn. destruct (decide (q = x.2)) as [->|E]; [by rewrite lookup_delete_eq; lia|by rewrite lookup_delete_ne].
Qed.

(** A request that is answered was open in the session that runs, and is not any more. *)
Lemma respond_answers exact requestID result write c e ds out c' x :
  respond exact requestID result write c = (e, ds, out, c') ->
  (count x (map (fun _ => (cl_generation c, requestID)) out) + open_request c' x <= open_request c x)%nat.
Proof.
  intros E. assert (H : (out = [] /\ c' = c)
    \/ exists m request, out = [m] /\ cl_serverRequests c !! requestID = Some request
         /\ sq_generation request = cl_generation c /\ c' = set_requests (delete requestID (cl_serverRequests c)) c).
  { destruct exact as [[[threadID turnID] kind]|]; cbn in E; unfold RespondServerRequest, RespondServerRequestExact, answerRequest in E;
      destruct (negb (cl_started c)); try (injection E as <- <- <- <-; by left);
      destruct (cl_serverRequests c !! requestID) as [request|]; try (injection E as <- <- <- <-; by left);
      destruct (sq_generation request =? cl_generation c)%Z eqn:Eg; cbn [negb] in E; try (injection E as <- <- <- <-; by left);
      apply Z.eqb_eq in Eg; repeat case_match; injection E as <- <- <- <-; (by left) || (right; eauto 10). }
  destruct H as [[-> ->]|(m & request & -> & Hq & Hg & ->)]; [cbn; lia|]. cbn [map].
  rewrite count_one. case_decide as Hd; [subst x|cbn; apply open_delete].
  unfold open_request. cbn. rewrite lookup_delete_eq, Hq, Hg, Z.eqb_refl. lia.
Qed.

(** A request that comes opens at most what arrived. *)
Lemma payload_answers payload generation c ds c' x : handlePayload payload generation c = (ds, c') ->
  (open_request c' x <= open_request c x + count x (arrived payload generation c))%nat.
Proof.
  unfold handlePayload, arrived. destruct (is_response payload).
  - unfold handleResponse. rewrite andb_false_r. destruct (isStartedGeneration _ _); intros [= <- <-]; unfold open_request; cbn; lia.
  - rewrite andb_true_r. assert (N : forall method params, handleNotification method params generation c = (ds, c') ->
      (open_request c' x <= open_request c x)%nat).
    { intros method params. unfold handleNotification. repeat case_match; intros [= <- <-]; try lia. apply open_delete. }
    destruct (has_key payload "id"); [|intros H%N; repeat case_match; lia].
    destruct (get payload "method"); try (intros H%N; repeat case_match; lia).
    unfold handleServerRequest. destruct (String.eqb (rpcString _) ""); cbn [orb].
    { intros [= <- <-]. destruct (isStartedGeneration _ _); lia. }
    destruct (isStartedGeneration _ _); cbn [negb]; intros [= <- <-]; [|lia].
    rewrite count_one. unfold open_request. cbn. destruct x as [g q]. cbn [fst snd].
    destruct (decide (rpcString (get payload "id") = q)) as [<-|E].
    + rewrite lookup_insert_eq. cbn. case_decide as Hd; [repeat case_match; lia|].
      destruct (generation =? g)%Z eqn:Eg; [|lia]. apply Z.eqb_eq in Eg as ->. done.
    + rewrite lookup_insert_ne by done. lia.
Qed.

Lemma step_answers st st' : client_step st st' -> AnswerInv (sy_Client st) (sy_Arrived st) (sy_Answered st) ->
  AnswerInv (sy_Client st') (sy_Arrived st') (sy_Answered st').
Proof.
  assert (F : forall c c' ar an, cl_serverRequests c' = cl_serverRequests c -> AnswerInv c ar an -> AnswerInv c' ar an).
  { intros c c' ar an H. apply answers_frame. intros x. unfold open_request. by rewrite H. }
  destruct 1 as [c c' ws ts chs iss rd rt ar an E|c c' ds ws ts chs iss rd rt ar an E|method id c c' ws ts chs iss rd rt ar an E
    |e c w1 w w2 ts chs iss rd rt ar an|c w1 w w2 ts chs iss rd rt ar an|c w1 w w2 ts chs ch ch' response iss rd rt ar an E1 E2
    |method params write e ds out c ws ts chs iss rd rt ar an E|exact requestID result write e ds out c c' ws ts chs iss rd rt ar an E
    |payload generation c c' ds ws ts chs iss rd rt ar an E|e len generation c c' ds ws ts chs iss rd rt ar an E
    |e generation c ws ts chs iss rd rt ar an|line generation c ws ts chs iss rd rt ar an|c ws ts chs iss rd rt ar an
    |subscriber e c c' ws ts chs iss rd rt ar an E|c c' ws t1 t t2 chs chs' iss rd rt ar an E]; cbn; intros X; try done.
  - eapply F, X. unfold startRunning in E. by repeat case_match; simplify_eq.
  - eapply answers_frame, X. intros x. unfold closeRunning in E. case_match; [|done]. injection E as <- <-.
    unfold open_request. cbn. rewrite lookup_empty. lia.
  - eapply F, X. unfold registerRequest in E. by repeat case_match; simplify_eq.
  - intros x. pose proof (respond_answers _ _ _ _ _ _ _ _ _ x E). rewrite count_app. specialize (X x). lia.
  - intros x. pose proof (payload_answers _ _ _ _ _ x E). rewrite count_app. specialize (X x). lia.
  - eapply F, X. unfold readLine in E. by repeat case_match; simplify_eq.
  - eapply F, X. unfold readStderrLine. by case_match.
  - eapply F, X. unfold nextEvent in E. by repeat case_match; simplify_eq.
  - eapply F, X. destruct t as [reply response|ev|generation ev|name params]; cbn in E.
    + destruct (chs !! reply) as [ch|]; [|done]. cbn in E. destruct (deliver response ch); [|done]. by injection E as <- <-.
    + by injection E as <- <-.
    + injection E as <- <-. by case_match.
    + by injection E as <- <-.
Qed.

Lemma reachable_calls st : client_reachable st ->
  CallInv (sy_Client st) (sy_Waiting st) (deliveries (sy_Todo st)) (sy_Channels st) (sy_Issued st) (sy_Read st) (sy_Returned st).
Proof.
  intros H. assert (X : CallInv NewClient [] [] [] [] [] []).
  { constructor; cbn; try done; try (by constructor); try set_solver.
    split; [constructor|set_solver]. }
  change (CallInv (sy_Client fresh_system) (sy_Waiting fresh_system) (deliveries (sy_Todo fresh_system)) (sy_Channels fresh_system)
            (sy_Issued fresh_system) (sy_Read fresh_system) (sy_Returned fresh_system)) in X.
  unfold client_reachable in H. induction H as [|? ? ? Hs _ IH]; [done|]. apply IH. by eapply step_calls.
Qed.

Lemma reachable_answers st : client_reachable st -> AnswerInv (sy_Client st) (sy_Arrived st) (sy_Answered st).
Proof.
  intros H. assert (X : AnswerInv (sy_Client fresh_system) (sy_Arrived fresh_system) (sy_Answered fresh_system))
    by (intros x; unfold open_request; cbn; by rewrite lookup_empty).
  unfold client_reachable in H. induction H as [|? ? ? Hs _ IH]; [done|]. apply IH. by eapply step_answers.
Qed.

(** A call whose response is on its way has a step to it. *)
Lemma delivery_moves st w : client_reachable st -> w ∈ sy_Waiting st -> wt_reply w ∈ (deliveries (sy_Todo st)).*1
    \/ (exists response, sy_Channels st !! wt_reply w = Some (mkChannel (Some response) true)) ->
  exists st', settling st st'.
Proof.
  intros Hr Hw H. pose proof (reachable_calls st Hr) as X. destruct st as [c ws ts chs iss rd rt ar an]. cbn in *.
  destruct H as [H|[response H]].
  - apply list_elem_of_fmap in H as ([p response] & E & H). cbn in E. subst p. apply list_elem_of_omap in H as (t & Ht & Et).
    destruct t as [reply response'| | |]; try done. injection Et as -> ->. apply list_elem_of_split in Ht as (t1 & t2 & ->).
    rewrite deliveries_app in X. unfold deliveries in X at 2. cbn in X. apply calls_deliver in X as [Hch _].
    eexists. eapply sl_todo. cbn. by rewrite Hch.
  - apply list_elem_of_split in Hw as (w1 & w2 & ->). eexists. by eapply sl_return.
Qed.

(** Settling is part of what the client does, makes the rest shorter, and keeps the session. *)
Lemma settling_step st st' : settling st st' -> client_step st st'.
Proof. destruct 1; [by eapply cs_todo|by eapply cs_return]. Qed.

Lemma settling_shrinks st st' : settling st st' ->
  (length (sy_Todo st') + length (sy_Waiting st') < length (sy_Todo st) + length (sy_Waiting st))%nat.
Proof. destruct 1; cbn; rewrite !length_app; cbn; lia. Qed.

Lemma settling_ends st : sn settling st.
Proof.
  remember (length (sy_Todo st) + length (sy_Waiting st))%nat as n eqn:E. revert st E.
  induction (lt_wf n) as [n _ IH]. intros st ->. constructor. intros st' H%settling_shrinks. by eapply IH.
Qed.

Lemma settling_keeps st st' w g : settling st st' ->
  w ∈ sy_Waiting st \/ (exists response, (wt_reply w, response) ∈ sy_Returned st) ->
  isStartedGeneration g (sy_Client st) = false ->
  sy_Issued st' = sy_Issued st /\ isStartedGeneration g (sy_Client st') = false
  /\ (w ∈ sy_Waiting st' \/ exists response, (wt_reply w, response) ∈ sy_Returned st').
Proof.
  destruct 1 as [c c' ws t1 t t2 chs chs' iss rd rt ar an Ht|c w1 v w2 ts chs ch ch' response iss rd rt ar an Hc Hv]; cbn; intros Hw Hg.
  - split_and!; [done| |done]. destruct t as [reply response| | |]; cbn in Ht.
    + destruct (chs !! reply) as [ch|]; [|done]. cbn in Ht. destruct (deliver response ch); [|done]. by injection Ht as _ <-.
    + by injection Ht as _ <-.
    + injection Ht as _ <-. by destruct (isStartedGeneration generation c).
    + by injection Ht as _ <-.
  - split_and!; [done|done|]. destruct Hw as [Hw|[r Hr]]; [|right; exists r; by right].
    apply elem_of_app in Hw as [Hw|[->|Hw]%elem_of_cons]; [left; apply elem_of_app; by left|right; exists response; by left|].
    left. apply elem_of_app. by right.
Qed.

Lemma settlings_keep st st' w g : rtc settling st st' ->
  w ∈ sy_Waiting st \/ (exists response, (wt_reply w, response) ∈ sy_Returned st) ->
  isStartedGeneration g (sy_Client st) = false ->
  sy_Issued st' = sy_Issued st /\ isStartedGeneration g (sy_Client st') = false
  /\ (w ∈ sy_Waiting st' \/ exists response, (wt_reply w, response) ∈ sy_Returned st').
Proof.
  induction 1 as [st|s1 s2 s3 H _ IH]; [done|]. intros Hw Hg.
  destruct (settling_keeps s1 s2 w g H Hw Hg) as (E & Hg2 & Hw2). destruct (IH Hw2 Hg2) as (E3 & ? & ?). split_and!; [congruence|done|done].
Qed.

(** Resolving the model and the effort leaves the policies of a turn as they are. *)
Lemma resolve_keeps ask options resolved : resolveTurnStartOptions ask options = inl resolved ->
  to_ApprovalPolicy resolved = to_ApprovalPolicy options /\ to_SandboxPolicy resolved = to_SandboxPolicy options.
Proof.
  unfold resolveTurnStartOptions. destruct (String.eqb _ ""); [by intros [= <-]|].
  destruct (if String.eqb _ "" then _ else _); [by intros [= <-]|done].
Qed.

Lemma ex_calling_reachable : client_reachable ex_calling.
Proof.
  eapply rtc_l; [by eapply (cs_start NewClient ex_started)|].
  apply rtc_once. by apply (cs_request "thread/read" 1 ex_started ex_asked).
Qed.

Lemma ex_answered_reachable : client_reachable ex_answered.
Proof. eapply rtc_r; [apply ex_calling_reachable|].
  by apply (cs_payload ex_response 1 ex_asked _ _ [mkWaiting 1 0 "thread/read"] [] [mkChannel None false] [mkIssued 1 1] [] [] [] []).
Qed.

Lemma ex_asked_back_reachable : client_reachable ex_asked_back.
Proof.
  eapply rtc_l; [by eapply (cs_start NewClient ex_started)|]. apply rtc_once.
  by apply (cs_payload ex_approval 1 ex_started _ _ [] [] [] [] [] [] [] []).
Qed.

Lemma ex_closed_reachable : client_reachable ex_closed.
Proof.
  eapply rtc_r; [apply ex_calling_reachable|].
  by apply (cs_close ex_asked (set_session false ∅ ∅ ex_asked) [Deliver 0 (Fault closedBeforeResponse)] [mkWaiting 1 0 "thread/read"] []).
Qed.

Lemma ex_replied_reachable : client_reachable ex_replied.
Proof.
  eapply rtc_r; [apply ex_asked_back_reachable|].
  by apply (cs_respond (Some ("t", "u", "item/commandExecution/requestApproval")) "7" [("decision", JStr "decline")] None None []
              [answerMessage (JNum 7 0) [("decision", JStr "decline")]] (sy_Client ex_asked_back) (sy_Client ex_replied) []
              (sy_Todo ex_asked_back) [] [] [(1%Z, ex_approval)] [] [(1%Z, "7")] []).
Qed.

(** A request that could not be written stays in pending, though nobody waits for it. *)
Lemma failed_write_leaks : client_reachable ex_unwritten /\ sy_Waiting ex_unwritten = []
  /\ cl_pending (sy_Client ex_unwritten) !! 1%Z = Some 0%nat.
Proof.
  split; [|done]. eapply rtc_r; [apply ex_calling_reachable|].
  by apply (cs_write_failed "broken pipe" ex_asked [] (mkWaiting 1 0 "thread/read") [] []).
Qed.

(** ** Theorems *)

(** C23: However calls, answers, time limits and restarts of App Server interleave, no send to the
    channel of a call panics or waits, a call returns at most once, and what it returns is
    the response that App Server sent with the id of the call in the session the call was
    made in, or that this session was closed: responses never cross. *)
Theorem client_calls_safe st : client_reachable st ->
  (forall reply response, Deliver reply response ∈ sy_Todo st ->
     is_Some (run_todo (Deliver reply response) (sy_Channels st) (sy_Client st)))
  /\ NoDup ((sy_Returned st).*1)
  /\ forall reply response, (reply, response) ∈ sy_Returned st ->
       response = Fault closedBeforeResponse
       \/ exists call payload, sy_Issued st !! reply = Some call /\ (is_generation call, payload) ∈ sy_Read st
            /\ is_response payload = true /\ uint64FromAny (get payload "id") = is_id call /\ response = response_of payload.
Proof.
  intros X%reachable_calls. split; [|split; [apply X|]].
  - intros reply response H. cbn. rewrite (ci_open _ _ _ _ _ _ _ X reply); [by eexists|].
    left. apply list_elem_of_fmap. exists (reply, response). split; [done|]. apply list_elem_of_omap. by eexists.
  - intros reply response H. exact (ci_returned _ _ _ _ _ _ _ X _ _ H).
Qed.

(** C26: A session that ends leaves no caller behind.  Of a call that waits and was made in a
    session that is over, without anything from App Server, a new session or a time limit:
    sending what is left to be sent and taking what was sent comes to an end, and wherever
    it ends the call has returned. *)
Theorem close_answers_all st w call : client_reachable st -> w ∈ sy_Waiting st -> sy_Issued st !! wt_reply w = Some call ->
  isStartedGeneration (is_generation call) (sy_Client st) = false ->
  sn settling st
  /\ forall st', rtc settling st st' -> (forall st'', ~ settling st' st'') ->
       exists response, (wt_reply w, response) ∈ sy_Returned st'.
Proof.
  intros Hr Hw Hc Hg. split; [apply settling_ends|]. intros st' Hs Hstuck.
  destruct (settlings_keep st st' w _ Hs ltac:(by left) Hg) as (Ei & Hg' & [Hw'|?]); [|done].
  assert (client_reachable st') as Hr' by (unfold client_reachable in *; etransitivity; [exact Hr|]; eapply rtc_subrel; [apply settling_step|exact Hs]).
  destruct (delivery_moves st' w Hr' Hw') as [st'' H]; [|by destruct (Hstuck st'')].
  pose proof (reachable_calls st' Hr') as X. destruct (ci_waits _ _ _ _ _ _ _ X w Hw') as (g & Hi & [H|H]); [|exact H].
  apply (ci_pending _ _ _ _ _ _ _ X) in H as [H Hst]. rewrite Ei, Hc in H. injection H as ->.
  unfold isStartedGeneration in Hg'. cbn in Hg'. by rewrite Hst, Z.eqb_refl in Hg'.
Qed.

(** C25: A request of App Server is answered at most once, and only in the session it came in:
    under each id, no more answers are written than requests came. *)
Theorem server_requests_answered_once st generation requestID : client_reachable st ->
  (count (generation, requestID) (sy_Answered st) <= count (generation, requestID) (sy_Arrived st))%nat.
Proof. intros H%reachable_answers. specialize (H (generation, requestID)). lia. Qed.

(** C24: What turn/start is sent for a turn of the bridge: the sandbox is that of the project,
    without the network, approvals are asked for, and a mode only goes with a model, whatever
    App Server answers about models and modes. *)
Theorem turn_request_sandboxed ask r call params : sandboxed r call ->
  turn_params ask (tc_ThreadID call) (tc_Prompt call) (tc_CWD call) (tc_Options call) = inl params ->
  get params "threadId" = JStr (tc_ThreadID call) /\ get params "approvalPolicy" = JStr "on-request"
  /\ (exists project, (exists here current, MatchCWD (ro_Platform r) (ro_Registry r) (tc_CWD call) = Some here
           /\ Resolve (ro_Platform r) (ro_Registry r) (pj_ID here) = inl current
           /\ Resolve (ro_Platform r) (ro_Registry r) (pj_ID current) = inl project)
        /\ get params "sandboxPolicy" = JObj [("type", JStr "workspaceWrite");
             ("writableRoots", JArr [JStr (pj_CanonicalPath project)]); ("networkAccess", JBool false)])
  /\ (get params "collaborationMode" = JNil
      \/ exists mode model effort, trim_space model <> "" /\ collaborationParams mode model effort
            = [("collaborationMode", get params "collaborationMode")]).
Proof.
  intros (Hpol & project & here & current & Hbox & Hm & H1 & H2). unfold turn_params.
  destruct (resolveTurnStartOptions ask (tc_Options call)) as [resolved|e] eqn:Er; [|done].
  destruct (resolve_keeps _ _ _ Er) as [Hp Hb]. unfold turnStartParams. rewrite Hp, Hb, Hpol, Hbox.
  set (box := sandboxParams _). assert (box = [("sandboxPolicy", JObj [("type", JStr "workspaceWrite");
      ("writableRoots", JArr [JStr (pj_CanonicalPath project)]); ("networkAccess", JBool false)])]) as -> by reflexivity.
  change (text_param "approvalPolicy" "on-request") with [("approvalPolicy", JStr "on-request")].
  unfold raw_param, param_if. intros E.
  destruct (negb (String.eqb (trim_space (tc_CWD call)) "")), (String.eqb (normalizeCollaborationMode _) "");
    try (destruct (String.eqb (trim_space (to_Model resolved)) "") eqn:Em; [done|apply String.eqb_neq in Em]); injection E as <-;
    (split; [reflexivity|]); (split; [reflexivity|]); (split; [exists project; split; [by exists here, current|reflexivity]|]);
    try (by left); right; eexists _, (trim_space (to_Model resolved)), _; (split; [by rewrite trim_space_idemp|reflexivity]).
Qed.

Theorem client_calls_safe_witness :
  is_Some (run_todo (Deliver 0 (Done (JStr "read"))) (sy_Channels ex_answered) (sy_Client ex_answered)).
Proof.
  destruct (client_calls_safe ex_answered ex_answered_reachable) as [H _]. apply H. apply list_elem_of_here.
Defined.

Theorem close_answers_all_witness :
  rtc settling ex_closed ex_told /\ exists response, (0%nat, response) ∈ sy_Returned ex_told.
Proof.
  assert (rtc settling ex_closed ex_told) as Hs.
  { eapply rtc_l; [by apply (sl_todo (sy_Client ex_closed) (sy_Client ex_closed) _ [] (Deliver 0 (Fault closedBeforeResponse)) [])|].
    apply rtc_once. exact (sl_return (sy_Client ex_closed) [] (mkWaiting 1 0 "thread/read") [] []
      [mkChannel (Some (Fault closedBeforeResponse)) true] _ (mkChannel None true) (Fault closedBeforeResponse)
      [mkIssued 1 1] [] [] [] [] eq_refl eq_refl). }
  split; [exact Hs|].
  destruct (close_answers_all ex_closed (mkWaiting 1 0 "thread/read") (mkIssued 1 1) ex_closed_reachable
              ltac:(apply list_elem_of_here) eq_refl eq_refl) as [_ H].
  apply (H ex_told Hs). intros st'' Hst. pose proof (settling_shrinks _ _ Hst) as Hl. cbn in Hl. lia.
Defined.

Theorem server_requests_answered_once_witness :
  count (1%Z, "7") (sy_Answered ex_replied) = 1%nat /\ (1 <= count (1%Z, "7") (sy_Arrived ex_replied))%nat.
Proof. split; [reflexivity|exact (server_requests_answered_once ex_replied 1 "7" ex_replied_reachable)]. Defined.

Theorem turn_request_sandboxed_witness :
  match turn_params ex_models (tc_ThreadID ex_turn) (tc_Prompt ex_turn) (tc_CWD ex_turn) (tc_Options ex_turn) with
  | inl params => get params "approvalPolicy" = JStr "on-request"
      /\ get params "collaborationMode" = JObj [("mode", JStr "plan");
           ("settings", JObj [("model", JStr "gpt"); ("reasoning_effort", JNil); ("developer_instructions", JNil)])]
  | inr _ => False
  end.
Proof.
  assert (N : match turn_params ex_models (tc_ThreadID ex_turn) (tc_Prompt ex_turn) (tc_CWD ex_turn) (tc_Options ex_turn) with
    | inl params => get params "collaborationMode" = JObj [("mode", JStr "plan");
           ("settings", JObj [("model", JStr "gpt"); ("reasoning_effort", JNil); ("developer_instructions", JNil)])]
    | inr _ => False end) by (vm_compute; reflexivity).
  destruct (turn_params ex_models (tc_ThreadID ex_turn) (tc_Prompt ex_turn) (tc_CWD ex_turn) (tc_Options ex_turn))
    as [params|e] eqn:E; [|exact N].
  destruct (turn_request_sandboxed ex_models ex_router ex_turn params) as (_ & Hp & _); [|exact E|split; [exact Hp|exact N]].
  split; [reflexivity|]. exists ex_project, ex_project, ex_project. split; [reflexivity|]. vm_compute. repeat split.
Defined.
